(* ===== verification/_CoqProject ===== *)
-Q . S2P
Prelude.v
Types.v
Conditions.v
Environment.v
Regexp.v
Sha256.v
Json.v
ParametersModel.v
Validation.v
ControllerCommon.v
ValidationSpec.v
APIServer.v
InstanceController.v
InstanceSpec.v
Sample.v
InstanceProofs.v
InstanceTheorems.v
BindingController.v
BindingSpec.v
BindingProofs.v
BindingTheorems.v
Catalog.v
BrokerController.v
BrokerSpec.v
BrokerProofs.v
Strategy.v
InstanceTracking.v
InstanceLifecycle.v
BrokerTheorems.v
BindingLifecycle.v
WorkQueue.v
Admission.v
AdmissionTheorems.v
JsonText.v
BrokerAPI.v
Http.v
OSBClient.v
OSBServer.v
OSBRefinement.v
OSBTheorems.v
FakeRest.v
FakeBroker.v
Selectors.v
SelectorTheorems.v
Storage.v
StorageTheorems.v
Base64.v
Selfer.v
SelferLaws.v
Fields.v
ApiCodec.v
ApiCodecLaws.v
ApiJson.v
InternalTypes.v
Conversion.v
ConversionLaws.v
Serialization.v
SerializationTheorems.v
Memory.v
DeepCopy.v
System.v
SystemTheorems.v
OpenAPI.v
OpenAPITheorems.v
RestClient.v
ApiHandlers.v
Clientset.v
InternalClientset.v
TypedClients.v
ClientPaths.v
ClientsetTheorems.v
Cache.v
Listers.v
CacheTheorems.v
Informers.v
InformerTheorems.v
ServerConfig.v
ControllerManager.v
FakeTracker.v
FakeClientset.v
