(* ===== verification/Prelude.v ===== *)
(** * Verification of the Kubernetes service-catalog

    The service-catalog is a Kubernetes extension that provisions services at
    external Open Service Brokers.  An API server stores brokers, classes, plans,
    instances and credentials (bindings); a controller-manager watches them and
    drives the brokers until what is stored is what is provisioned.  The
    development models the controller and the API server's own code and proves
    what they guarantee of each other, of every broker and of every user.

    ** The program and its model

    - API objects ([pkg/apis/servicecatalog/v1alpha1/types.go]): [Types].
      Conditions and their updates ([setServiceInstanceConditionInternal] and
      the [is...Failed], [is...Ready] predicates): [Conditions].  Reasons and
      messages: [Conditions].
    - What the controller calls, one operation each: [Environment].  Informer
      caches, the clients of the API server, brokers, the clock and the queues
      are operations of the class [Env W] over an arbitrary state [W]: any
      answer at any time, stale caches and errors included.  A handler is a
      program of the monad [M W Effect] (below) that leaves a trace of its
      writes, broker calls, events and queue operations with their answers.
    - Request parameters ([parameters.go], [serializer.go],
      [originating_identity.go]): [ParametersModel], on [Json] (the encoder of
      [encoding/json]) and [Sha256] (the checksum).
    - Validation ([pkg/apis/servicecatalog/validation]): [Validation], on
      [Regexp]; [ValidationSpec] says in declarative form what is accepted.
    - The control loops of [pkg/controller]: [ControllerCommon] (shared parts
      of [controller.go]), [InstanceController]
      ([controller_instance.go]), [BindingController]
      ([controller_binding.go]), [BrokerController] ([controller_broker.go],
      [controller_serviceclass.go], [controller_serviceplan.go]), [Catalog]
      ([convertCatalog] of [controller.go]).  Each Go function is one
      definition; the long reconcile functions are cut where their early
      returns cut them.
    - The API server: [APIServer] (the generic registry store of
      [k8s.io/apiserver] around one key), [Strategy]
      ([pkg/registry/servicecatalog/*/strategy.go] and [defaults.go]).
    - Its storage: the keys of etcd, the stores and subresources of each
      resource and the table of routes ([storage.go] of each registry,
      [server/options.go], [rest/storage_servicecatalog.go]): [Storage].
    - The work queues and the worker loop that calls the handlers ([worker] of
      [controller.go] on [k8s.io/client-go/util/workqueue]): [WorkQueue], a step
      relation for any number of interleaving workers.
    - The admission plugins ([plugin/pkg/admission]) and the create requests
      that pass through them to the registry: [Admission].
    - Lookups by name: the field selectors the controller writes and the API
      server parses and matches ([k8s.io/apimachinery/pkg/fields]), the fields
      of classes and plans ([storage.go] of their registries): [Selectors].
    - Brokers on the network: the messages of [contrib/pkg/brokerapi] with the
      JSON they are written as and read from ([JsonText] is the decoder of
      [encoding/json], [BrokerAPI] a codec per structure), URLs, wire functions
      and routing ([Http]: [pkg/util/utils.go], [gorilla/mux]), the client
      ([OSBClient]: [open_service_broker_client.go]), the server over any
      controller and the user-provided broker ([OSBServer]:
      [contrib/pkg/broker]).
    - The objects as bytes: the generated codec of the API types
      ([types.generated.go], on the JSON driver of [ugorji/go]: [Selfer],
      [Fields], [ApiCodec]; [Base64] for byte slices), the encoding by struct tags
      of [encoding/json] ([ApiJson]), the internal version and the conversions
      ([servicecatalog/types.go], [zz_generated.conversion.go]: [InternalTypes],
      [Conversion]), and what the etcd store writes and reads with them
      ([zz_generated.defaults.go], the serializers of [apimachinery], [etcd3]:
      [Serialization]).
    - The objects in memory: a heap of pointers, slices and maps ([Memory]) and
      the deep copies of both versions ([zz_generated.deepcopy.go],
      [conversion/cloner.go]: [DeepCopy]).
    - The parts put together: [System] runs one instance through the registry
      store and its strategies, the control loop, pass after pass, and a broker
      whose answers follow scripts.
    - The schemas the API server publishes of its objects
      ([openapi_generated.go]): [OpenAPI].
    - Clients of the API server: requests and their retries
      ([k8s.io/client-go/rest]: [RestClient]), the server that answers them with
      the stores of [Storage] ([k8s.io/apiserver/pkg/endpoints]:
      [ApiHandlers]), the two generated client sets ([Clientset],
      [InternalClientset], [pkg/client/clientset_generated]) with the interface of
      their ten clients ([TypedClients]), and the paths they ask for
      ([ClientPaths]).
    - Caches of the API server: the indexed store
      ([k8s.io/client-go/tools/cache]: [Cache]), the generated listers and
      informers ([pkg/client/listers_generated], [informers_generated]:
      [Listers], [Informers]).
    - The two processes: what the API server serves and how it stores it
      ([pkg/apiserver]: [ServerConfig]), and how the controllers start
      ([cmd/controller-manager], [NewController] and [Run]:
      [ControllerManager]).
    - Test doubles: [FakeRest] ([pkg/rest/core/fake], [pkg/api/meta]), an
      in-memory API server; [FakeBroker] ([contrib/pkg/brokerapi/fake],
      [fake_broker_server.go]), an in-memory broker client and a broker server that
      answers as told; [FakeTracker] ([k8s.io/client-go/testing]) and
      [FakeClientset] ([clientset_generated/*/fake]), client sets over an object
      tracker.

    ** How the theorems are organised

    A control loop has a [...Spec] file: its invariant, the laws of the calls it
    relies on (a class whose instances are the documented behaviour of the API
    server), and a protocol, that is, which effect is allowed after which
    history.  The [...Proofs] file shows phase by phase that every run follows
    the protocol and how it ends; the [...Theorems] file reads the properties
    off it and adds the exact behaviour of single branches.

    - [InstanceTheorems]: no panics, writes keep the invariant, operations are
      recorded before they are requested, Ready only after the broker's success,
      the finalizer goes only when nothing is left at the broker, polling is
      never lost, retries are bounded by the retry window.
    - [BindingTheorems]: the same for bind and unbind, and for the secret:
      injected before Ready, removed before unbinding, never another owner's.
    - [BrokerTheorems]: the whole catalog is stored, plans before classes,
      before a broker is ready; classes go after their plans and the finalizer
      after all classes that the cache lists; when a broker is relisted; conversion is exact.
    - [InstanceTracking], [InstanceLifecycle], [BindingLifecycle], the end of
      [BrokerTheorems]: API server and controller together.  A history is the list of versions
      the store ever held of one object, extended by users through the
      strategies and by the controller from runs on any earlier version;
      optimistic concurrency decides which writes are accepted.  Every version
      of every history satisfies the loop's invariant, so the hypotheses of the
      loop theorems are met in operation; what a user asked for in the spec never changes; all requests
      of a lifetime carry one ID.
    - [WorkQueue]: no two workers reconcile one key at a time, no pending key is
      lost, a failing key is retried a bounded number of times.
    - [AdmissionTheorems]: what an object that was stored had to pass: no
      credential for an instance that the cache has as being deleted (unless the
      request leaves out its namespace), the plan of an instance
      without one, live namespaces, reviews of the secrets of brokers.
    - [SelectorTheorems]: what is written is what is matched, so the references
      an instance gets are those of the one class and plan it names.
    - [StorageTheorems]: every object is kept under its own key; a request is
      about one object, and there it is the step of [APIServer]; lists are
      exact; each route writes its own part of an object.
    - [SelferLaws], [ApiCodecLaws], [ApiJson], [ConversionLaws] and
      [SerializationTheorems]: for each type, what either encoder writes the
      generated decoder reads back; the two versions convert into each other, there and
      back in either direction, without loss, and the casts of the conversions are sound; what is put into etcd is a
      text that decodes to the object, so the texts of etcd stand for the
      objects [Storage] keeps.
    - [DeepCopy]: every deep copy succeeds, reads as the object does and is
      independent of it, which is what lets the control loops of this development
      be functions of the object they read from a cache.
    - [SystemTheorems]: in that composition an instance that is created becomes
      ready, and one that is deleted disappears from API server and broker, one
      pass for each answer of the broker, if the broker's errors are temporary
      and fewer than the retry window allows, caches are up to date, the
      catalog does not change and no credential refers to the instance.
    - [OSBRefinement] and [OSBTheorems]: every message survives the wire; calls
      through a client refine the operations of the controller behind the
      server ([direct] says what the wire changes), for any controller that is
      [Presentable]; the user-provided broker as its clients see it; what the
      client does when the network fails.
    - [OpenAPITheorems]: every object [encoding/json] writes conforms to the schema
      that is published for its type, except for durations, as far as the encoders of
      the metadata and the types of other packages do.
    - [ClientsetTheorems]: creations, updates, deletions, reads and lists of a
      generated client are refused before anything is sent, refused by the front of
      the server, or one operation on the store of their resource; which calls
      the retries of the client may repeat.
    - [CacheTheorems], [InformerTheorems]: indices agree with the objects after
      any sequence of operations; listers find what is cached; informers are
      shared and started once; once a cache holds what a list call returned, its
      listers find exactly what the API server stores.
    - [ServerConfig], [ControllerManager]: the enabled resources do not depend on
      the order in which Go ranges over the flags; the server that is started has
      the routes of [Storage]; the controllers that are started have one running
      informer with one handler per kind, behind their listers, and the workers
      the options ask for.
    - [FakeRest], [FakeBroker], [FakeClientset]: the fake API server agrees with
      the registry store of [APIServer] but for version conflicts; the fake broker
      client refines a pair of sets, and the fake broker server answers any calls
      as it was set up; every fake client keeps a map.

    Several theorems state what the code does where that is hardly what it
    means to do: orphan mitigation can never start, because the statuses that
    start it are refused by validation; a refused deprovisioning is forgotten;
    the timeout of a failing broker is not recorded; the plan of another broker
    is overwritten; ejecting a binding deletes a secret it does not own; the
    review of broker secrets looks at a resource that is not served; a default
    plan may belong to another class; classes cannot be listed by broker;
    deleting an instance through the client panics when the broker cannot be
    reached.

    ** Conventions and bounds

    Handlers are total functions: loops are structural recursions over the
    lists they range over (the matcher of [Regexp] recurses over the string,
    [Sha256] over its blocks).  The only fuel is that of the JSON parser,
    [parse_fuel], twice the length of the text and one: every nested call
    consumes a character, and [parse_with_enough] shows that more fuel never
    changes the result; and that of the cloner, which runs at most five functions
    inside each other.  A nil dereference is
    the outcome [Panic], a returned error [Err].  Times and durations are
    nanoseconds in [Z] and generations are int64 values in [Z], without
    wrap-around (both would take centuries of operation); SHA-256 words are kept
    at 32 bits with their wrap-around.  [wp] and [wps] below are the rules the
    proofs execute handlers with; [Sample] is an executable environment in
    which the witnesses run them.

    ** Limits

    Code outside the repository is a parameter: YAML decoding, pointer and
    struct formatting of [fmt], [ValidateObjectMeta], semantic deep equality.
    Logging is left out, events and metrics have no effect on the run; the
    control loops leave out their deep copies, which [DeepCopy] shows to succeed
    and to be equal.  Object metadata has the fields the sources use; labels
    and annotations are absent.  Strings are byte strings: JSON escaping and
    [%q] are those of printable ASCII.

    What the HTTP layer below these programs does (connections, TLS, redirects,
    time-outs) is the parameter [Do] of the client; of URLs there are the path
    and the query.

    The codecs work on JSON values; a list field that is nil is not told from an
    empty one where the code does not; the JSON of metadata, times, durations and
    object references is the class [Machinery] with laws; the bytes of a
    [RawExtension] are in printed form; texts of other versions and of protobuf or
    YAML are not read.  [Storage] gives an update that changes nothing a new
    version, which etcd3 does not write.

    Not modelled: the reflector that fills the caches of informers from watches
    (what a cache holds is a parameter), patches, watches and the deletion of
    collections on the server (a parameter of [ApiHandlers]), the generic API
    server and its authentication, the leader election, and the command lines:
    they are code of [k8s.io/apiserver], [client-go] and [cobra] that this
    repository configures or calls, or flags that fill in options. *)

From stdpp Require Export base gmap strings list option.
From Stdlib Require Export ZArith Lia.

#[global] Open Scope string_scope.
#[global] Open Scope list_scope.
#[global] Open Scope Z_scope.

(** ** Go strings: the parts of [fmt], [strconv] and [sets] the sources use *)

Definition dq : string := String (Ascii.ascii_of_nat 34) EmptyString.

(** Concatenation of the pieces of a [fmt.Sprintf] call. *)
Fixpoint sprint (l : list string) : string :=
  match l with
  | [] => EmptyString
  | s :: l' => String.append s (sprint l')
  end.

(** [quote]: the [%q] verb on a printable string ([strconv.Quote]): double
    quotes and backslashes are escaped. *)
Fixpoint quote_body (s : string) : string :=
  match s with
  | EmptyString => EmptyString
  | String c s' =>
      let n := Ascii.nat_of_ascii c in
      if orb (Nat.eqb n 34) (Nat.eqb n 92)
      then String (Ascii.ascii_of_nat 92) (String c (quote_body s'))
      else String c (quote_body s')
  end.
Definition quote (s : string) : string := sprint [dq; quote_body s; dq].

(** The [\"%s/%s\"] rendering of a namespaced name. *)
Definition nsname (ns name : string) : string := sprint [dq; ns; "/"; name; dq].

(** [strconv.Itoa] ([%d], and [%v] of an integer). *)
Fixpoint itoa_digits (fuel : nat) (n : Z) : string :=
  match fuel with
  | O => EmptyString
  | S f =>
      let d := String (Ascii.ascii_of_nat (48 + Z.to_nat (n mod 10))%nat) EmptyString in
      if n <? 10 then d else String.append (itoa_digits f (n / 10)) d
  end.
Definition itoa (n : Z) : string :=
  if n <? 0 then sprint ["-"; itoa_digits 20 (- n)] else itoa_digits 20 n.

(** [fmt.Sprintf(s)] without arguments, as [Eventf] and [Errorf] call it when a
    message is passed as the format: a verb is reported as missing its operand.
    Explicit argument indexes ([%[1]d]) are not modelled. *)
Definition is_flag (n : nat) : bool :=
  existsb (Nat.eqb n) [43; 45; 35; 32; 46; 48; 49; 50; 51; 52; 53; 54; 55; 56; 57]%nat.
Fixpoint sprintf0_verb (verb : bool) (s : string) : string :=
  match s with
  | EmptyString => if verb then "%!(NOVERB)" else EmptyString
  | String c s' =>
      let n := Ascii.nat_of_ascii c in
      if verb then
        if is_flag n then sprintf0_verb true s'
        else if Nat.eqb n 37 then String c (sprintf0_verb false s')
        else sprint ["%!"; String c EmptyString; "(MISSING)"; sprintf0_verb false s']
      else
        if Nat.eqb n 37 then sprintf0_verb true s' else String c (sprintf0_verb false s')
  end.
Definition Sprintf0 (s : string) : string := sprintf0_verb false s.

(** [sets.String]: a Go string set is kept as a list; [List] returns its
    elements sorted and without duplicates. *)
Fixpoint set_insert (x : string) (l : list string) : list string :=
  match l with
  | [] => [x]
  | y :: l' =>
      match String.compare x y with
      | Lt => x :: y :: l'
      | Eq => y :: l'
      | Gt => y :: set_insert x l'
      end
  end.
Definition NewString (l : list string) : list string := foldr set_insert [] l.
Definition set_Has (s : list string) (x : string) : bool := bool_decide (x ∈ s).
Definition set_Delete (x : string) (s : list string) : list string :=
  filter (fun y => y <> x) s.

Lemma set_insert_elem x y l : x ∈ set_insert y l ↔ x = y ∨ x ∈ l.
Proof.
  induction l as [|z l IH]; cbn.
  - set_solver.
  - destruct (String.compare y z) eqn:Hc; try set_solver.
    apply String.compare_eq_iff in Hc. set_solver.
Qed.

Lemma NewString_elem x l : x ∈ NewString l ↔ x ∈ l.
Proof.
  induction l as [|y l IH]; cbn; [set_solver|].
  rewrite set_insert_elem, IH. set_solver.
Qed.

Lemma set_Has_elem s x : set_Has s x = true ↔ x ∈ s.
Proof. unfold set_Has. apply bool_decide_eq_true. Qed.

Lemma set_Delete_elem x y s : x ∈ set_Delete y s ↔ x ∈ s ∧ x ≠ y.
Proof. unfold set_Delete. rewrite list_elem_of_filter. tauto. Qed.

(** ** Go errors

    The error values the sources tell apart: [apierrors.StatusError] by its
    reason, [osb.HTTPStatusCodeError] by its code, [*url.Error] and other
    [net.Error]s by [Timeout()], and errors that are only a message. *)

Inductive StatusReason :=
| ReasonNotFound | ReasonAlreadyExists | ReasonConflict | ReasonInvalid
| ReasonForbidden | ReasonBadRequest | ReasonInternalError | ReasonOther (s : string).

Inductive error :=
| StatusError (reason : StatusReason) (message : string)
| HTTPStatusCodeError (statusCode : Z) (errorMessage description responseError : option string)
| URLError (timeout : bool) (message : string)
| NetError (timeout : bool) (message : string)
| PlainError (message : string).

Definition error_eq_dec (e1 e2 : error) : {e1 = e2} + {e1 <> e2}.
Proof. repeat decide equality. Defined.
#[export] Instance error_EqDecision : EqDecision error := error_eq_dec.

(** [err.Error()]; the [%v] of a nil pointer is [<nil>]. *)
Definition or_nil (o : option string) : string := default "<nil>" o.
Definition Error (e : error) : string :=
  match e with
  | StatusError _ m | URLError _ m | NetError _ m | PlainError m => m
  | HTTPStatusCodeError c m d r =>
      sprint ["Status: "; itoa c; "; ErrorMessage: "; or_nil m; "; Description: ";
              or_nil d; "; ResponseError: "; or_nil r]
  end.

Definition IsNotFound (e : error) : bool :=
  match e with StatusError ReasonNotFound _ => true | _ => false end.
Definition IsAlreadyExists (e : error) : bool :=
  match e with StatusError ReasonAlreadyExists _ => true | _ => false end.
Definition IsConflict (e : error) : bool :=
  match e with StatusError ReasonConflict _ => true | _ => false end.

Record HTTPError := { StatusCode : Z; ErrorMessage : option string;
                      Description : option string; ResponseError : option string }.

(** [osb.IsHTTPError] *)
Definition IsHTTPError (e : error) : option HTTPError :=
  match e with
  | HTTPStatusCodeError c m d r =>
      Some {| StatusCode := c; ErrorMessage := m; Description := d; ResponseError := r |}
  | _ => None
  end.
(** [osb.IsGoneError]; [http.StatusGone] is 410. *)
Definition IsGoneError (e : error) : bool :=
  match e with HTTPStatusCodeError c _ _ _ => Z.eqb c 410 | _ => false end.
(** [urlErr, ok := err.( *url.Error); ok && urlErr.Timeout()] *)
Definition isURLTimeout (e : error) : bool :=
  match e with URLError t _ => t | _ => false end.
(** [netErr, ok := err.(net.Error); ok && netErr.Timeout()]; a [*url.Error]
    is a [net.Error] too. *)
Definition isNetTimeout (e : error) : bool :=
  match e with URLError t _ | NetError t _ => t | _ => false end.

(** ** The effect monad

    A handler runs against an environment of type [W] (API server, informer
    caches, brokers, clock); it returns normally, returns a Go error, or
    panics, and it leaves the list of effects it performed, oldest first. *)

Inductive outcome (A : Type) :=
| Ok (a : A)
| Err (e : error)
| Panic.
Arguments Ok {A} _.
Arguments Err {A} _.
Arguments Panic {A}.

Section monad.
Context {W Eff : Type}.

Definition M (A : Type) : Type := W -> outcome A * W * list Eff.

Definition ret {A} (a : A) : M A := fun w => (Ok a, w, []).
Definition fail {A} (e : error) : M A := fun w => (Err e, w, []).
Definition panic {A} : M A := fun w => (Panic, w, []).

Definition bind {A B} (m : M A) (k : A -> M B) : M B := fun w =>
  match m w with
  | (Ok a, w1, t1) => match k a w1 with (o, w2, t2) => (o, w2, t1 ++ t2) end
  | (Err e, w1, t1) => (Err e, w1, t1)
  | (Panic, w1, t1) => (Panic, w1, t1)
  end.

(** [x, err := m()]: the error becomes a value the caller inspects. *)
Definition try {A} (m : M A) : M (A + error) := fun w =>
  match m w with
  | (Ok a, w1, t1) => (Ok (inl a), w1, t1)
  | (Err e, w1, t1) => (Ok (inr e), w1, t1)
  | (Panic, w1, t1) => (Panic, w1, t1)
  end.

(** A call whose error result the code ignores. *)
Definition ignore {A} (m : M A) : M unit := bind (try m) (fun _ => ret tt).

(** A pointer dereference. *)
Definition deref {A} (o : option A) : M A :=
  match o with Some a => ret a | None => panic end.

(** Logging an effect, and a call into the environment, logged with its
    answer. *)
Definition emit (e : Eff) : M unit := fun w => (Ok tt, w, [e]).
Definition call {R} (eff : R -> list Eff) (f : W -> R * W) : M R := fun w =>
  match f w with (r, w1) => (Ok r, w1, eff r) end.

(** A call whose answer is a value or an error. *)
Definition lift {A} (r : A + error) : M A :=
  match r with inl a => ret a | inr e => fail e end.
End monad.
Arguments M W Eff A : clear implicits.

Create HintDb conditions.
Create HintDb instance.
Create HintDb binding.
Create HintDb broker.

Declare Scope go_scope.
Delimit Scope go_scope with go.
Notation "x <- m ;; k" := (bind m (fun x => k))
  (at level 100, m at next level, right associativity) : go_scope.
Notation "m ;; k" := (bind m (fun _ => k)) (at level 100, right associativity) : go_scope.

(** [for _, x := range l { body }] where an error ends the loop. *)
Fixpoint range {W Eff A} (l : list A) (body : A -> M W Eff unit) : M W Eff unit :=
  match l with
  | [] => ret tt
  | x :: l' => bind (body x) (fun _ => range l' body)
  end.

(** ** Reasoning about runs

    [wp m Q]: from every environment state, running [m] ends in an outcome and
    a list of effects that satisfy [Q]. *)

Definition wp {W Eff A} (m : M W Eff A) (Q : outcome A -> list Eff -> Prop) : Prop :=
  forall w, match m w with (o, _, t) => Q o t end.

Section wp_rules.
Context {W Eff : Type}.
Implicit Types (A B : Type).

Lemma wp_ret {A} (a : A) (Q : outcome A -> list Eff -> Prop) :
  Q (Ok a) [] -> wp (W:=W) (ret a) Q.
Proof. intros H w. exact H. Qed.

Lemma wp_fail {A} e (Q : outcome A -> list Eff -> Prop) :
  Q (Err e) [] -> wp (W:=W) (fail e) Q.
Proof. intros H w. exact H. Qed.

Lemma wp_panic {A} (Q : outcome A -> list Eff -> Prop) :
  Q Panic [] -> wp (W:=W) panic Q.
Proof. intros H w. exact H. Qed.

Lemma wp_conseq {A} (m : M W Eff A) (P Q : outcome A -> list Eff -> Prop) :
  wp m P -> (forall o t, P o t -> Q o t) -> wp m Q.
Proof. intros H HPQ w. specialize (H w). destruct (m w) as [[o w'] t]. auto. Qed.

Lemma wp_and {A} (m : M W Eff A) (P Q : outcome A -> list Eff -> Prop) :
  wp m P -> wp m Q -> wp m (fun o t => P o t /\ Q o t).
Proof. intros H1 H2 w. specialize (H1 w); specialize (H2 w).
  destruct (m w) as [[o w'] t]. auto. Qed.

Lemma wp_bind {A B} (m : M W Eff A) (k : A -> M W Eff B) Q :
  wp m (fun o t1 => match o with
                    | Ok a => wp (k a) (fun o' t2 => Q o' (t1 ++ t2))
                    | Err e => Q (Err e) t1
                    | Panic => Q Panic t1
                    end) ->
  wp (bind m k) Q.
Proof.
  intros H w. specialize (H w). unfold bind.
  destruct (m w) as [[[a|e|] w1] t1]; try exact H.
  specialize (H w1). destruct (k a w1) as [[o w2] t2]. exact H.
Qed.

Lemma wp_try {A} (m : M W Eff A) Q :
  wp m (fun o t => match o with
                   | Ok a => Q (Ok (inl a)) t
                   | Err e => Q (Ok (inr e)) t
                   | Panic => Q Panic t
                   end) ->
  wp (try m) Q.
Proof.
  intros H w. specialize (H w). unfold try.
  destruct (m w) as [[[a|e|] w1] t1]; exact H.
Qed.

Lemma wp_ignore {A} (m : M W Eff A) Q :
  wp m (fun o t => match o with
                   | Panic => Q Panic t
                   | _ => Q (Ok tt) t
                   end) ->
  wp (ignore m) Q.
Proof.
  intros H. apply wp_bind, wp_try. eapply wp_conseq; [exact H|].
  intros [a|e|] t Ht; [| |exact Ht]; apply wp_ret; by rewrite app_nil_r.
Qed.

Lemma wp_emit e (Q : outcome unit -> list Eff -> Prop) :
  Q (Ok tt) [e] -> wp (W:=W) (emit e) Q.
Proof. intros H w. exact H. Qed.

Lemma wp_call {R} (eff : R -> list Eff) (f : W -> R * W) Q :
  (forall w r w', f w = (r, w') -> Q (Ok r) (eff r)) -> wp (call eff f) Q.
Proof. intros H w. unfold call. destruct (f w) as [r w'] eqn:E. eauto. Qed.

Lemma wp_deref {A} (o : option A) (Q : outcome A -> list Eff -> Prop) :
  match o with Some a => Q (Ok a) [] | None => Q Panic [] end ->
  wp (W:=W) (deref o) Q.
Proof. destruct o; intros H w; exact H. Qed.

Lemma wp_lift {A} (r : A + error) (Q : outcome A -> list Eff -> Prop) :
  match r with inl a => Q (Ok a) [] | inr e => Q (Err e) [] end ->
  wp (W:=W) (lift r) Q.
Proof. destruct r; intros H w; exact H. Qed.

(** A loop whose body only ever adds effects in [P], and panics never. *)
Lemma wp_range_Forall {A} (l : list A) (body : A -> M W Eff unit) (P : Eff -> Prop) :
  (forall x, x ∈ l -> wp (body x) (fun o t => o <> Panic /\ Forall P t)) ->
  wp (range l body) (fun o t => o <> Panic /\ Forall P t).
Proof.
  induction l as [|x l IH]; intros H; cbn; [apply wp_ret; by split|].
  apply wp_bind. eapply wp_conseq; [apply H; set_solver|].
  intros [[]|e|] t [Hp Ht]; [|by split|done].
  eapply wp_conseq; [apply IH; set_solver|].
  intros o t' [Hp' Ht']. split; [done|]. by apply Forall_app.
Qed.
End wp_rules.

(** What a run leaves. *)
Definition outcome_of {W Eff A} (m : M W Eff A) (w : W) : outcome A := fst (fst (m w)).
Definition trace_of {W Eff A} (m : M W Eff A) (w : W) : list Eff := snd (m w).
Definition world_of {W Eff A} (m : M W Eff A) (w : W) : W := snd (fst (m w)).

Lemma wp_run {W Eff A} (m : M W Eff A) Q w : wp m Q -> Q (outcome_of m w) (trace_of m w).
Proof.
  intros H. specialize (H w). unfold outcome_of, trace_of.
  destruct (m w) as [[o w'] t]. exact H.
Qed.

(** ** Safety of traces

    [ok prior e] says when effect [e] is allowed after the effects [prior];
    [wps] is [wp] for runs that start after [prior]: every effect is allowed
    when it happens, and the outcome and the whole history satisfy [Q]. *)

Fixpoint safe {Eff} (ok : list Eff -> Eff -> Prop) (prior t : list Eff) : Prop :=
  match t with
  | [] => True
  | e :: t' => ok prior e /\ safe ok (prior ++ [e]) t'
  end.

Lemma safe_app {Eff} (ok : list Eff -> Eff -> Prop) prior t1 t2 :
  safe ok prior (t1 ++ t2) <-> safe ok prior t1 /\ safe ok (prior ++ t1) t2.
Proof.
  revert prior. induction t1 as [|e t1 IH]; intros prior; cbn.
  - rewrite app_nil_r. naive_solver.
  - rewrite IH, <-app_assoc. cbn. naive_solver.
Qed.

(** Reading a safe trace: what held when an effect happened. *)
Lemma safe_split {Eff} (ok : list Eff -> Eff -> Prop) prior t1 e t2 :
  safe ok prior (t1 ++ e :: t2) -> ok (prior ++ t1) e.
Proof. rewrite safe_app. cbn. naive_solver. Qed.

Definition wps {W Eff A} (ok : list Eff -> Eff -> Prop) (prior : list Eff) (m : M W Eff A)
    (Q : outcome A -> list Eff -> Prop) : Prop :=
  wp m (fun o t => safe ok prior t /\ Q o (prior ++ t)).

Section wps_rules.
Context {W Eff : Type} (ok : list Eff -> Eff -> Prop).
Implicit Types (A B : Type) (prior : list Eff).

Lemma wps_ret {A} prior (a : A) Q : Q (Ok a) prior -> wps (W:=W) ok prior (ret a) Q.
Proof. intros H w. cbn. by rewrite app_nil_r. Qed.

Lemma wps_fail {A} prior e (Q : outcome A -> list Eff -> Prop) :
  Q (Err e) prior -> wps (W:=W) ok prior (fail e) Q.
Proof. intros H w. cbn. by rewrite app_nil_r. Qed.

Lemma wps_conseq {A} prior (m : M W Eff A) (P Q : outcome A -> list Eff -> Prop) :
  wps ok prior m P -> (forall o t, P o t -> Q o t) -> wps ok prior m Q.
Proof. intros H HPQ. eapply wp_conseq; [exact H|]. naive_solver. Qed.

Lemma wps_bind {A B} prior (m : M W Eff A) (k : A -> M W Eff B) Q :
  wps ok prior m (fun o t => match o with
                             | Ok a => wps ok t (k a) Q
                             | Err e => Q (Err e) t
                             | Panic => Q Panic t
                             end) ->
  wps ok prior (bind m k) Q.
Proof.
  intros H. apply wp_bind. eapply wp_conseq; [exact H|].
  intros [a|e|] t [Hs Hq]; [|by split|by split].
  eapply wp_conseq; [exact Hq|]. intros o t' [Hs' Hq'].
  by rewrite safe_app, app_assoc.
Qed.

Lemma wps_try {A} prior (m : M W Eff A) Q :
  wps ok prior m (fun o t => match o with
                             | Ok a => Q (Ok (inl a)) t
                             | Err e => Q (Ok (inr e)) t
                             | Panic => Q Panic t
                             end) ->
  wps ok prior (try m) Q.
Proof.
  intros H. apply wp_try. eapply wp_conseq; [exact H|]. by intros [a|e|] t [Hs Hq].
Qed.

Lemma wps_ignore {A} prior (m : M W Eff A) Q :
  wps ok prior m (fun o t => match o with
                             | Panic => Q Panic t
                             | _ => Q (Ok tt) t
                             end) ->
  wps ok prior (ignore m) Q.
Proof.
  intros H. apply wp_ignore. eapply wp_conseq; [exact H|]. by intros [a|e|] t [Hs Hq].
Qed.

Lemma wps_emit prior e (Q : outcome unit -> list Eff -> Prop) :
  ok prior e -> Q (Ok tt) (prior ++ [e]) -> wps (W:=W) ok prior (emit e) Q.
Proof. intros H1 H2 w. by split_and!; cbn. Qed.

Lemma wps_deref {A} prior (o : option A) (Q : outcome A -> list Eff -> Prop) a :
  o = Some a -> Q (Ok a) prior -> wps (W:=W) ok prior (deref o) Q.
Proof. intros -> H. by apply wps_ret. Qed.

Lemma wps_deref_any {A} prior (o : option A) (Q : outcome A -> list Eff -> Prop) :
  match o with Some a => Q (Ok a) prior | None => Q Panic prior end ->
  wps (W:=W) ok prior (deref o) Q.
Proof. destruct o; intros H w; cbn; by rewrite app_nil_r. Qed.

(** A run without effects is safe whatever came before. *)
Lemma wps_quiet {A} prior (m : M W Eff A) (Q : outcome A -> list Eff -> Prop) :
  wp m (fun o t => t = [] /\ Q o prior) -> wps ok prior m Q.
Proof.
  intros H. eapply wp_conseq; [exact H|]. intros o t [-> Hq]. by rewrite app_nil_r.
Qed.

(** A loop: [I] relates the elements done so far to the history. *)
Lemma wps_range {A} prior (l : list A) (body : A -> M W Eff unit) (I : list A -> list Eff -> Prop) Q :
  (forall done x rest t, l = done ++ x :: rest -> I done t ->
     wps ok t (body x) (fun o t' => match o with
                                    | Ok _ => I (done ++ [x]) t'
                                    | Err e => Q (Err e) t'
                                    | Panic => Q Panic t'
                                    end)) ->
  I [] prior -> (forall t, I l t -> Q (Ok tt) t) -> wps ok prior (range l body) Q.
Proof.
  intros Hb H0 HQ.
  cut (forall rest done t, l = done ++ rest -> I done t -> wps ok t (range rest body) Q).
  { intros H. by apply (H l []). }
  induction rest as [|x rest IH]; intros done t Hl Hi; cbn.
  - apply wps_ret, HQ. by rewrite app_nil_r in Hl; subst.
  - apply wps_bind. eapply wps_conseq; [by eapply Hb|]. intros [[]|e|] t' Ht'; [|done..].
    apply (IH (done ++ [x])); [by rewrite <- app_assoc|done].
Qed.

Lemma wps_run {A} (m : M W Eff A) Q w :
  wps ok [] m Q -> safe ok [] (trace_of m w) /\ Q (outcome_of m w) (trace_of m w).
Proof. intros H. apply (wp_run _ _ w) in H. exact H. Qed.
End wps_rules.
