(* ===== verification/Types.v ===== *)
(** * API objects, broker messages and effects

    The structures of [pkg/apis/servicecatalog/v1alpha1/types.go] (the internal
    version of [pkg/apis/servicecatalog/types.go] has the same fields:
    [InternalTypes], [ConversionLaws]), the
    Kubernetes metadata they embed, the Open Service Broker requests and
    responses the controller exchanges with brokers.  Go string enumerations become inductive types with
    one constructor per declared constant and an [..Other] constructor for
    every other string; a Go pointer is an [option]; a [[]byte] is a string of
    8-bit characters; a [metav1.Time] and a [time.Duration] are nanoseconds. *)

From S2P Require Import Prelude.

(** ** Kubernetes metadata *)

Record TypeMeta := { Kind : string; APIVersion : string }.

Record OwnerReference := {
  or_APIVersion : string; or_Kind : string; or_Name : string; or_UID : string;
  or_BlockOwnerDeletion : option bool; or_Controller : option bool }.

Record ObjectMeta := {
  Name : string; Namespace : string; UID : string; ResourceVersion : string;
  Generation : Z; DeletionTimestamp : option Z; Finalizers : list string;
  OwnerReferences : list OwnerReference }.

Definition with_Finalizers (fs : list string) (m : ObjectMeta) : ObjectMeta :=
  {| Name := Name m; Namespace := Namespace m; UID := UID m;
     ResourceVersion := ResourceVersion m; Generation := Generation m;
     DeletionTimestamp := DeletionTimestamp m; Finalizers := fs;
     OwnerReferences := OwnerReferences m |}.

Definition with_Generation (g : Z) (m : ObjectMeta) : ObjectMeta :=
  {| Name := Name m; Namespace := Namespace m; UID := UID m;
     ResourceVersion := ResourceVersion m; Generation := g;
     DeletionTimestamp := DeletionTimestamp m; Finalizers := Finalizers m;
     OwnerReferences := OwnerReferences m |}.

Record ObjectReference := {
  ref_Kind : string; ref_Namespace : string; ref_Name : string; ref_UID : string;
  ref_APIVersion : string; ref_ResourceVersion : string }.

Record LocalObjectReference := { lref_Name : string }.

(** A [corev1.Namespace] and [corev1.Secret]: the fields the sources read. *)
Inductive NamespacePhase := NamespaceActive | NamespaceTerminating | NamespacePhaseOther (s : string).
Record KNamespace := { ns_Name : string; ns_UID : string; ns_Phase : NamespacePhase }.
Record Secret := { secret_Meta : ObjectMeta; secret_Data : gmap string string }.

(** JSON values as [encoding/json] decodes them into [interface{}]; a [float64] is
    known by the text [encoding/json] writes for it. *)
Inductive json :=
| JNull | JBool (b : bool) | JNum (text : string) | JString (s : string)
| JArray (l : list json) | JObject (l : list (string * json)).

Record RawExtension := { Raw : string }.

(** ** v1alpha1: shared enumerations *)

Inductive ConditionStatus :=
| ConditionTrue | ConditionFalse | ConditionUnknown | ConditionStatusOther (s : string).
#[export] Instance ConditionStatus_EqDecision : EqDecision ConditionStatus.
Proof. solve_decision. Defined.

(** The three condition-type string types have the same two constants. *)
Inductive ConditionType :=
| ConditionReady | ConditionFailed | ConditionTypeOther (s : string).
#[export] Instance ConditionType_EqDecision : EqDecision ConditionType.
Proof. solve_decision. Defined.

Definition FinalizerServiceCatalog : string := "kubernetes-incubator/service-catalog".

(** [ServiceInstanceCondition] (and, field for field,
    [ServiceInstanceCredentialCondition] and [ServiceBrokerCondition]). *)
Record ServiceInstanceCondition := {
  cond_Type : ConditionType; cond_Status : ConditionStatus;
  cond_LastTransitionTime : Z; cond_Reason : string; cond_Message : string }.
Definition ServiceInstanceCredentialCondition := ServiceInstanceCondition.
Definition ServiceBrokerCondition := ServiceInstanceCondition.

Record UserInfo := {
  ui_Username : string; ui_UID : string; ui_Groups : option (list string);
  ui_Extra : gmap string (list string) }.

Record SecretKeyReference := { skr_Name : string; skr_Key : string }.
Record ParametersFromSource := { pfs_SecretKeyRef : option SecretKeyReference }.

(** ** ClusterServiceBroker *)

Inductive ServiceBrokerRelistBehavior :=
| RelistBehaviorDuration | RelistBehaviorManual | RelistBehaviorOther (s : string).
#[export] Instance RelistBehavior_EqDecision : EqDecision ServiceBrokerRelistBehavior.
Proof. solve_decision. Defined.

Record BasicAuthConfig := { bac_SecretRef : option ObjectReference }.
Record BearerTokenAuthConfig := { btac_SecretRef : option ObjectReference }.
Record ServiceBrokerAuthInfo := {
  Basic : option BasicAuthConfig; Bearer : option BearerTokenAuthConfig;
  BasicAuthSecret : option ObjectReference }.

Record ClusterServiceBrokerSpec := {
  URL : string; AuthInfo : option ServiceBrokerAuthInfo; InsecureSkipTLSVerify : bool;
  CABundle : string; RelistBehavior : ServiceBrokerRelistBehavior;
  RelistDuration : option Z; RelistRequests : Z }.

Record ServiceBrokerStatus := {
  bs_Conditions : list ServiceBrokerCondition; bs_ReconciledGeneration : Z;
  bs_OperationStartTime : option Z }.

Record ClusterServiceBroker := {
  b_TypeMeta : TypeMeta; b_Meta : ObjectMeta; b_Spec : ClusterServiceBrokerSpec;
  b_Status : ServiceBrokerStatus }.

(** ** ServiceClass and ServicePlan *)

Record ServiceClassSpec := {
  sc_ClusterServiceBrokerName : string; sc_ExternalName : string; sc_ExternalID : string;
  sc_Description : string; sc_Bindable : bool; sc_PlanUpdatable : bool;
  sc_ExternalMetadata : option RawExtension; sc_Tags : list string;
  sc_Requires : list string }.
Record ServiceClass := {
  sc_TypeMeta : TypeMeta; sc_Meta : ObjectMeta; sc_Spec : ServiceClassSpec }.

Record ServicePlanSpec := {
  sp_ClusterServiceBrokerName : string; sp_ExternalName : string; sp_ExternalID : string;
  sp_Description : string; sp_Bindable : option bool; sp_Free : bool;
  sp_ExternalMetadata : option RawExtension;
  sp_ServiceInstanceCreateParameterSchema : option RawExtension;
  sp_ServiceInstanceUpdateParameterSchema : option RawExtension;
  sp_ServiceInstanceCredentialCreateParameterSchema : option RawExtension;
  sp_ServiceClassRef : LocalObjectReference }.
Record ServicePlan := {
  sp_TypeMeta : TypeMeta; sp_Meta : ObjectMeta; sp_Spec : ServicePlanSpec }.

(** ** ServiceInstance *)

Record ServiceInstanceSpec := {
  ExternalServiceClassName : string; ExternalServicePlanName : string;
  ServiceClassRef : option ObjectReference; ServicePlanRef : option ObjectReference;
  Parameters : option RawExtension; ParametersFrom : option (list ParametersFromSource);
  ExternalID : string; si_UserInfo : option UserInfo }.

(** [ServiceInstanceOperation]; [OperationNone] is the empty string. *)
Inductive ServiceInstanceOperation :=
| OperationNone | OperationProvision | OperationUpdate | OperationDeprovision
| OperationOther (s : string).
#[export] Instance ServiceInstanceOperation_EqDecision : EqDecision ServiceInstanceOperation.
Proof. solve_decision. Defined.

Record ServiceInstancePropertiesState := {
  ps_ExternalServicePlanName : string; ps_Parameters : option RawExtension;
  ps_ParametersChecksum : string; ps_UserInfo : option UserInfo }.

Record ServiceInstanceStatus := {
  Conditions : list ServiceInstanceCondition; AsyncOpInProgress : bool;
  OrphanMitigationInProgress : bool; LastOperation : option string;
  DashboardURL : option string; CurrentOperation : ServiceInstanceOperation;
  ReconciledGeneration : Z; OperationStartTime : option Z;
  InProgressProperties : option ServiceInstancePropertiesState;
  ExternalProperties : option ServiceInstancePropertiesState }.

Record ServiceInstance := {
  si_TypeMeta : TypeMeta; si_Meta : ObjectMeta; si_Spec : ServiceInstanceSpec;
  si_Status : ServiceInstanceStatus }.

(** ** ServiceInstanceCredential (a binding) *)

Inductive ServiceInstanceCredentialOperation :=
| BOperationNone | BOperationBind | BOperationUnbind | BOperationOther (s : string).
#[export] Instance BOperation_EqDecision : EqDecision ServiceInstanceCredentialOperation.
Proof. solve_decision. Defined.

Record ServiceInstanceCredentialSpec := {
  ServiceInstanceRef : LocalObjectReference; bind_Parameters : option RawExtension;
  bind_ParametersFrom : option (list ParametersFromSource); SecretName : string;
  bind_ExternalID : string; bind_UserInfo : option UserInfo }.

Record ServiceInstanceCredentialPropertiesState := {
  bps_Parameters : option RawExtension; bps_ParametersChecksum : string;
  bps_UserInfo : option UserInfo }.

Record ServiceInstanceCredentialStatus := {
  bind_Conditions : list ServiceInstanceCredentialCondition;
  bind_CurrentOperation : ServiceInstanceCredentialOperation;
  bind_ReconciledGeneration : Z; bind_OperationStartTime : option Z;
  bind_InProgressProperties : option ServiceInstanceCredentialPropertiesState;
  bind_ExternalProperties : option ServiceInstanceCredentialPropertiesState;
  bind_OrphanMitigationInProgress : bool }.

Record ServiceInstanceCredential := {
  bind_TypeMeta : TypeMeta; bind_Meta : ObjectMeta; bind_Spec : ServiceInstanceCredentialSpec;
  bind_Status : ServiceInstanceCredentialStatus }.

(** ** Open Service Broker messages *)

Record AlphaOriginatingIdentity := { oi_Platform : string; oi_Value : string }.

Record ProvisionRequest := {
  pr_InstanceID : string; pr_AcceptsIncomplete : bool; pr_ServiceID : string;
  pr_PlanID : string; pr_OrganizationGUID : string; pr_SpaceGUID : string;
  pr_Parameters : gmap string json; pr_Context : gmap string json;
  pr_OriginatingIdentity : option AlphaOriginatingIdentity }.
Record ProvisionResponse := {
  presp_Async : bool; presp_DashboardURL : option string; presp_OperationKey : option string }.

Record DeprovisionRequest := {
  dr_InstanceID : string; dr_AcceptsIncomplete : bool; dr_ServiceID : string;
  dr_PlanID : string; dr_OriginatingIdentity : option AlphaOriginatingIdentity }.
Record DeprovisionResponse := { dresp_Async : bool; dresp_OperationKey : option string }.

Record LastOperationRequest := {
  lo_InstanceID : string; lo_ServiceID : option string; lo_PlanID : option string;
  lo_OperationKey : option string; lo_OriginatingIdentity : option AlphaOriginatingIdentity }.
Inductive LastOperationState :=
| StateInProgress | StateSucceeded | StateFailed | StateOther (s : string).
Definition LastOperationState_string (st : LastOperationState) : string :=
  match st with
  | StateInProgress => "in progress" | StateSucceeded => "succeeded"
  | StateFailed => "failed" | StateOther s => s
  end.
Record LastOperationResponse := {
  lresp_State : LastOperationState; lresp_Description : option string }.

Record BindRequest := {
  br_BindingID : string; br_InstanceID : string; br_ServiceID : string; br_PlanID : string;
  br_AppGUID : option string; br_BindResource_AppGUID : option string;
  br_Parameters : gmap string json; br_OriginatingIdentity : option AlphaOriginatingIdentity }.
Record BindResponse := { bresp_Credentials : gmap string json }.

Record UnbindRequest := {
  ur_InstanceID : string; ur_BindingID : string; ur_ServiceID : string; ur_PlanID : string;
  ur_OriginatingIdentity : option AlphaOriginatingIdentity }.

Record AlphaInputParameters := { aip_Parameters : option json }.
Record AlphaServiceInstanceSchema := {
  asi_Create : option AlphaInputParameters; asi_Update : option AlphaInputParameters }.
Record AlphaServiceBindingSchema := { asb_Create : option AlphaInputParameters }.
Record AlphaParameterSchemas := {
  aps_ServiceInstances : option AlphaServiceInstanceSchema;
  aps_ServiceBindings : option AlphaServiceBindingSchema }.
Record Plan := {
  plan_ID : string; plan_Name : string; plan_Description : string; plan_Free : option bool;
  plan_Bindable : option bool; plan_Metadata : option json;
  plan_AlphaParameterSchemas : option AlphaParameterSchemas }.
Record Service := {
  svc_ID : string; svc_Name : string; svc_Description : string; svc_Tags : list string;
  svc_Requires : list string; svc_Bindable : bool; svc_PlanUpdatable : option bool;
  svc_Plans : list Plan; svc_Metadata : option json }.
Record CatalogResponse := { Services : list Service }.

Inductive AuthConfig :=
| BasicAuth (username password : string)
| BearerAuth (token : string).
Record ClientConfiguration := {
  cc_Name : string; cc_URL : string; cc_AuthConfig : option AuthConfig;
  cc_EnableAlphaFeatures : bool; cc_Insecure : bool; cc_CAData : string }.

(** ** Field updates *)

Definition si_with_Meta (m : ObjectMeta) (i : ServiceInstance) : ServiceInstance :=
  {| si_TypeMeta := si_TypeMeta i; si_Meta := m; si_Spec := si_Spec i; si_Status := si_Status i |}.
Definition si_with_Spec (s : ServiceInstanceSpec) (i : ServiceInstance) : ServiceInstance :=
  {| si_TypeMeta := si_TypeMeta i; si_Meta := si_Meta i; si_Spec := s; si_Status := si_Status i |}.
Definition si_with_Status (s : ServiceInstanceStatus) (i : ServiceInstance) : ServiceInstance :=
  {| si_TypeMeta := si_TypeMeta i; si_Meta := si_Meta i; si_Spec := si_Spec i; si_Status := s |}.
Definition si_with_Finalizers (fs : list string) (i : ServiceInstance) : ServiceInstance :=
  si_with_Meta (with_Finalizers fs (si_Meta i)) i.

Definition with_ServiceClassRef (r : option ObjectReference) (s : ServiceInstanceSpec) :=
  {| ExternalServiceClassName := ExternalServiceClassName s;
     ExternalServicePlanName := ExternalServicePlanName s;
     ServiceClassRef := r; ServicePlanRef := ServicePlanRef s; Parameters := Parameters s;
     ParametersFrom := ParametersFrom s; ExternalID := ExternalID s;
     si_UserInfo := si_UserInfo s |}.
Definition with_ServicePlanRef (r : option ObjectReference) (s : ServiceInstanceSpec) :=
  {| ExternalServiceClassName := ExternalServiceClassName s;
     ExternalServicePlanName := ExternalServicePlanName s;
     ServiceClassRef := ServiceClassRef s; ServicePlanRef := r; Parameters := Parameters s;
     ParametersFrom := ParametersFrom s; ExternalID := ExternalID s;
     si_UserInfo := si_UserInfo s |}.
Definition with_si_UserInfo (u : option UserInfo) (s : ServiceInstanceSpec) :=
  {| ExternalServiceClassName := ExternalServiceClassName s;
     ExternalServicePlanName := ExternalServicePlanName s;
     ServiceClassRef := ServiceClassRef s; ServicePlanRef := ServicePlanRef s;
     Parameters := Parameters s; ParametersFrom := ParametersFrom s;
     ExternalID := ExternalID s; si_UserInfo := u |}.

(** The status fields one by one; the constructor takes them in the order of
    the structure. *)
Definition with_Conditions (v : list ServiceInstanceCondition) (s : ServiceInstanceStatus) :=
  Build_ServiceInstanceStatus v (AsyncOpInProgress s) (OrphanMitigationInProgress s)
    (LastOperation s) (DashboardURL s) (CurrentOperation s) (ReconciledGeneration s)
    (OperationStartTime s) (InProgressProperties s) (ExternalProperties s).
Definition with_AsyncOpInProgress (v : bool) (s : ServiceInstanceStatus) :=
  Build_ServiceInstanceStatus (Conditions s) v (OrphanMitigationInProgress s)
    (LastOperation s) (DashboardURL s) (CurrentOperation s) (ReconciledGeneration s)
    (OperationStartTime s) (InProgressProperties s) (ExternalProperties s).
Definition with_OrphanMitigationInProgress (v : bool) (s : ServiceInstanceStatus) :=
  Build_ServiceInstanceStatus (Conditions s) (AsyncOpInProgress s) v
    (LastOperation s) (DashboardURL s) (CurrentOperation s) (ReconciledGeneration s)
    (OperationStartTime s) (InProgressProperties s) (ExternalProperties s).
Definition with_LastOperation (v : option string) (s : ServiceInstanceStatus) :=
  Build_ServiceInstanceStatus (Conditions s) (AsyncOpInProgress s) (OrphanMitigationInProgress s)
    v (DashboardURL s) (CurrentOperation s) (ReconciledGeneration s)
    (OperationStartTime s) (InProgressProperties s) (ExternalProperties s).
Definition with_DashboardURL (v : option string) (s : ServiceInstanceStatus) :=
  Build_ServiceInstanceStatus (Conditions s) (AsyncOpInProgress s) (OrphanMitigationInProgress s)
    (LastOperation s) v (CurrentOperation s) (ReconciledGeneration s)
    (OperationStartTime s) (InProgressProperties s) (ExternalProperties s).
Definition with_CurrentOperation (v : ServiceInstanceOperation) (s : ServiceInstanceStatus) :=
  Build_ServiceInstanceStatus (Conditions s) (AsyncOpInProgress s) (OrphanMitigationInProgress s)
    (LastOperation s) (DashboardURL s) v (ReconciledGeneration s)
    (OperationStartTime s) (InProgressProperties s) (ExternalProperties s).
Definition with_ReconciledGeneration (v : Z) (s : ServiceInstanceStatus) :=
  Build_ServiceInstanceStatus (Conditions s) (AsyncOpInProgress s) (OrphanMitigationInProgress s)
    (LastOperation s) (DashboardURL s) (CurrentOperation s) v
    (OperationStartTime s) (InProgressProperties s) (ExternalProperties s).
Definition with_OperationStartTime (v : option Z) (s : ServiceInstanceStatus) :=
  Build_ServiceInstanceStatus (Conditions s) (AsyncOpInProgress s) (OrphanMitigationInProgress s)
    (LastOperation s) (DashboardURL s) (CurrentOperation s) (ReconciledGeneration s)
    v (InProgressProperties s) (ExternalProperties s).
Definition with_InProgressProperties (v : option ServiceInstancePropertiesState)
    (s : ServiceInstanceStatus) :=
  Build_ServiceInstanceStatus (Conditions s) (AsyncOpInProgress s) (OrphanMitigationInProgress s)
    (LastOperation s) (DashboardURL s) (CurrentOperation s) (ReconciledGeneration s)
    (OperationStartTime s) v (ExternalProperties s).
Definition with_ExternalProperties (v : option ServiceInstancePropertiesState)
    (s : ServiceInstanceStatus) :=
  Build_ServiceInstanceStatus (Conditions s) (AsyncOpInProgress s) (OrphanMitigationInProgress s)
    (LastOperation s) (DashboardURL s) (CurrentOperation s) (ReconciledGeneration s)
    (OperationStartTime s) (InProgressProperties s) v.

Definition si_upd (f : ServiceInstanceStatus -> ServiceInstanceStatus) (i : ServiceInstance) :=
  si_with_Status (f (si_Status i)) i.

(** The same for a binding. *)
Definition bind_with_Meta (m : ObjectMeta) (b : ServiceInstanceCredential) :=
  Build_ServiceInstanceCredential (bind_TypeMeta b) m (bind_Spec b) (bind_Status b).
Definition bind_with_Spec (s : ServiceInstanceCredentialSpec) (b : ServiceInstanceCredential) :=
  Build_ServiceInstanceCredential (bind_TypeMeta b) (bind_Meta b) s (bind_Status b).
Definition bind_with_Status (s : ServiceInstanceCredentialStatus) (b : ServiceInstanceCredential) :=
  Build_ServiceInstanceCredential (bind_TypeMeta b) (bind_Meta b) (bind_Spec b) s.
Definition bind_with_Finalizers (fs : list string) (b : ServiceInstanceCredential) :=
  bind_with_Meta (with_Finalizers fs (bind_Meta b)) b.
Definition bind_with_UserInfo (u : option UserInfo) (s : ServiceInstanceCredentialSpec) :=
  Build_ServiceInstanceCredentialSpec (ServiceInstanceRef s) (bind_Parameters s)
    (bind_ParametersFrom s) (SecretName s) (bind_ExternalID s) u.

Definition bwith_Conditions v (s : ServiceInstanceCredentialStatus) :=
  Build_ServiceInstanceCredentialStatus v (bind_CurrentOperation s) (bind_ReconciledGeneration s)
    (bind_OperationStartTime s) (bind_InProgressProperties s) (bind_ExternalProperties s)
    (bind_OrphanMitigationInProgress s).
Definition bwith_CurrentOperation v (s : ServiceInstanceCredentialStatus) :=
  Build_ServiceInstanceCredentialStatus (bind_Conditions s) v (bind_ReconciledGeneration s)
    (bind_OperationStartTime s) (bind_InProgressProperties s) (bind_ExternalProperties s)
    (bind_OrphanMitigationInProgress s).
Definition bwith_ReconciledGeneration v (s : ServiceInstanceCredentialStatus) :=
  Build_ServiceInstanceCredentialStatus (bind_Conditions s) (bind_CurrentOperation s) v
    (bind_OperationStartTime s) (bind_InProgressProperties s) (bind_ExternalProperties s)
    (bind_OrphanMitigationInProgress s).
Definition bwith_OperationStartTime v (s : ServiceInstanceCredentialStatus) :=
  Build_ServiceInstanceCredentialStatus (bind_Conditions s) (bind_CurrentOperation s)
    (bind_ReconciledGeneration s) v (bind_InProgressProperties s) (bind_ExternalProperties s)
    (bind_OrphanMitigationInProgress s).
Definition bwith_InProgressProperties v (s : ServiceInstanceCredentialStatus) :=
  Build_ServiceInstanceCredentialStatus (bind_Conditions s) (bind_CurrentOperation s)
    (bind_ReconciledGeneration s) (bind_OperationStartTime s) v (bind_ExternalProperties s)
    (bind_OrphanMitigationInProgress s).
Definition bwith_ExternalProperties v (s : ServiceInstanceCredentialStatus) :=
  Build_ServiceInstanceCredentialStatus (bind_Conditions s) (bind_CurrentOperation s)
    (bind_ReconciledGeneration s) (bind_OperationStartTime s) (bind_InProgressProperties s) v
    (bind_OrphanMitigationInProgress s).
Definition bwith_OrphanMitigationInProgress v (s : ServiceInstanceCredentialStatus) :=
  Build_ServiceInstanceCredentialStatus (bind_Conditions s) (bind_CurrentOperation s)
    (bind_ReconciledGeneration s) (bind_OperationStartTime s) (bind_InProgressProperties s)
    (bind_ExternalProperties s) v.

Definition bind_upd (f : ServiceInstanceCredentialStatus -> ServiceInstanceCredentialStatus)
    (b : ServiceInstanceCredential) :=
  bind_with_Status (f (bind_Status b)) b.

(** And for a broker. *)
Definition b_with_Meta (m : ObjectMeta) (b : ClusterServiceBroker) :=
  Build_ClusterServiceBroker (b_TypeMeta b) m (b_Spec b) (b_Status b).
Definition b_with_Spec (s : ClusterServiceBrokerSpec) (b : ClusterServiceBroker) :=
  Build_ClusterServiceBroker (b_TypeMeta b) (b_Meta b) s (b_Status b).
Definition b_with_Status (s : ServiceBrokerStatus) (b : ClusterServiceBroker) :=
  Build_ClusterServiceBroker (b_TypeMeta b) (b_Meta b) (b_Spec b) s.
Definition b_with_Finalizers (fs : list string) (b : ClusterServiceBroker) :=
  b_with_Meta (with_Finalizers fs (b_Meta b)) b.
Definition bs_with_Conditions v (s : ServiceBrokerStatus) :=
  Build_ServiceBrokerStatus v (bs_ReconciledGeneration s) (bs_OperationStartTime s).
Definition bs_with_ReconciledGeneration v (s : ServiceBrokerStatus) :=
  Build_ServiceBrokerStatus (bs_Conditions s) v (bs_OperationStartTime s).
Definition bs_with_OperationStartTime v (s : ServiceBrokerStatus) :=
  Build_ServiceBrokerStatus (bs_Conditions s) (bs_ReconciledGeneration s) v.
Definition b_upd (f : ServiceBrokerStatus -> ServiceBrokerStatus) (b : ClusterServiceBroker) :=
  b_with_Status (f (b_Status b)) b.
