(* ===== verification/Conditions.v ===== *)
(** * Status conditions, reasons and messages

    The string constants of [pkg/controller/controller_broker.go] and
    [pkg/controller/controller.go];
    [setServiceInstanceConditionInternal], its credential twin, and the
    predicates [isServiceInstanceFailed], [isServiceInstanceReady] and
    [isServiceInstanceCredentialFailed], with the laws a condition list obeys:
    reading back what was set, leaving the other conditions alone, keeping one
    entry per type, and moving [LastTransitionTime] only on a status change. *)

From S2P Require Import Prelude Types.

(** ** Reasons and messages *)

Definition errorFetchingCatalogReason : string := "ErrorFetchingCatalog".
Definition errorFetchingCatalogMessage : string := "Error fetching catalog. ".
Definition errorSyncingCatalogReason : string := "ErrorSyncingCatalog".
Definition errorSyncingCatalogMessage : string := "Error syncing catalog from ServiceBroker. ".
Definition errorWithParameters : string := "ErrorWithParameters".
Definition errorListingServiceClassesReason : string := "ErrorListingServiceClasses".
Definition errorListingServiceClassesMessage : string := "Error listing service classes.".
Definition errorListingServicePlansReason : string := "ErrorListingServicePlans".
Definition errorListingServicePlansMessage : string := "Error listing service plans.".
Definition errorDeletingServiceClassReason : string := "ErrorDeletingServiceClass".
Definition errorDeletingServiceClassMessage : string := "Error deleting service class.".
Definition errorDeletingServicePlanReason : string := "ErrorDeletingServicePlan".
Definition errorDeletingServicePlanMessage : string := "Error deleting service plan.".
Definition errorNonexistentServiceClassReason : string := "ReferencesNonexistentServiceClass".
Definition errorNonexistentServiceClassMessage : string := "ReferencesNonexistentServiceClass".
Definition errorNonexistentServicePlanReason : string := "ReferencesNonexistentServicePlan".
Definition errorNonexistentClusterServiceBrokerReason : string := "ReferencesNonexistentBroker".
Definition errorNonexistentServiceInstanceReason : string := "ReferencesNonexistentInstance".
Definition errorAuthCredentialsReason : string := "ErrorGettingAuthCredentials".
Definition errorFindingNamespaceServiceInstanceReason : string := "ErrorFindingNamespaceForInstance".
Definition errorProvisionCallFailedReason : string := "ProvisionCallFailed".
Definition errorErrorCallingProvisionReason : string := "ErrorCallingProvision".
Definition errorDeprovisionCalledReason : string := "DeprovisionCallFailed".
Definition errorDeprovisionBlockedByCredentialsReason : string := "DeprovisionBlockedByExistingCredentials".
Definition errorBindCallReason : string := "BindCallFailed".
Definition errorInjectingBindResultReason : string := "ErrorInjectingBindResult".
Definition errorEjectingBindReason : string := "ErrorEjectingServiceInstanceCredential".
Definition errorEjectingBindMessage : string := "Error ejecting binding.".
Definition errorUnbindCallReason : string := "UnbindCallFailed".
Definition errorWithOngoingAsyncOperation : string := "ErrorAsyncOperationInProgress".
Definition errorWithOngoingAsyncOperationMessage : string := "Another operation for this service instance is in progress. ".
Definition errorNonbindableServiceClassReason : string := "ErrorNonbindableServiceClass".
Definition errorServiceInstanceNotReadyReason : string := "ErrorInstanceNotReady".
Definition errorPollingLastOperationReason : string := "ErrorPollingLastOperation".
Definition errorWithOriginatingIdentity : string := "Error with Originating Identity".
Definition errorReconciliationRetryTimeoutReason : string := "ErrorReconciliationRetryTimeout".
Definition errorServiceInstanceCredentialOrphanMitigation : string := "ServiceInstanceCredentialNeedsOrphanMitigation".
Definition errorOrphanMigitationReason : string := "OrphanMitigationFailed".
Definition successInjectedBindResultReason : string := "InjectedBindResult".
Definition successInjectedBindResultMessage : string := "Injected bind result".
Definition successDeprovisionReason : string := "DeprovisionedSuccessfully".
Definition successDeprovisionMessage : string := "The instance was deprovisioned successfully".
Definition successProvisionReason : string := "ProvisionedSuccessfully".
Definition successProvisionMessage : string := "The instance was provisioned successfully".
Definition successFetchedCatalogReason : string := "FetchedCatalog".
Definition successFetchedCatalogMessage : string := "Successfully fetched catalog entries from broker.".
Definition successClusterServiceBrokerDeletedReason : string := "DeletedSuccessfully".
Definition successClusterServiceBrokerDeletedMessage : string := "The broker %v was deleted successfully.".
Definition successUnboundReason : string := "UnboundSuccessfully".
Definition successOrphanMitigationReason : string := "OrphanMitigationSuccessful".
Definition asyncProvisioningReason : string := "Provisioning".
Definition asyncProvisioningMessage : string := "The instance is being provisioned asynchronously".
Definition asyncDeprovisioningReason : string := "Deprovisioning".
Definition asyncDeprovisioningMessage : string := "The instance is being deprovisioned asynchronously".
Definition bindingInFlightReason : string := "BindingRequestInFlight".
Definition bindingInFlightMessage : string := "Binding request for ServiceInstanceCredential in-flight to Broker".
Definition unbindingInFlightReason : string := "UnbindingRequestInFlight".
Definition unbindingInFlightMessage : string := "Unbind request for ServiceInstanceCredential in-flight to Broker".
Definition provisioningInFlightReason : string := "ProvisionRequestInFlight".
Definition provisioningInFlightMessage : string := "Provision request for ServiceInstance in-flight to Broker".
Definition deprovisioningInFlightReason : string := "DeprovisionRequestInFlight".
Definition deprovisioningInFlightMessage : string := "Deprovision request for ServiceInstance in-flight to Broker".

Definition ContextProfilePlatformKubernetes : string := "kubernetes".

(** [maxRetries] of controller.go. *)
Definition maxRetries : Z := 15.

(** ** Conditions *)

(** The loop over [Status.Conditions] with the final [append]: the first entry
    of the wanted type is replaced, keeping its transition time when its status
    does not change; a missing type is appended. *)
Fixpoint replace_condition (conds : list ServiceInstanceCondition) (typ : ConditionType)
    (status : ConditionStatus) (reason message : string) (t : Z) :
    list ServiceInstanceCondition :=
  match conds with
  | [] => [{| cond_Type := typ; cond_Status := status; cond_LastTransitionTime := t;
              cond_Reason := reason; cond_Message := message |}]
  | cond :: conds' =>
      if decide (cond_Type cond = typ) then
        {| cond_Type := typ; cond_Status := status;
           cond_LastTransitionTime :=
             if decide (cond_Status cond = status) then cond_LastTransitionTime cond else t;
           cond_Reason := reason; cond_Message := message |} :: conds'
      else cond :: replace_condition conds' typ status reason message t
  end.

(** [setServiceInstanceConditionInternal] on the condition list. *)
Definition set_condition (conds : list ServiceInstanceCondition) (typ : ConditionType)
    (status : ConditionStatus) (reason message : string) (t : Z) :
    list ServiceInstanceCondition :=
  if decide (length conds = 0%nat) then
    [{| cond_Type := typ; cond_Status := status; cond_LastTransitionTime := t;
        cond_Reason := reason; cond_Message := message |}]
  else replace_condition conds typ status reason message t.

Definition setServiceInstanceConditionInternal (toUpdate : ServiceInstance)
    (conditionType : ConditionType) (status : ConditionStatus) (reason message : string)
    (t : Z) : ServiceInstance :=
  si_upd (fun s => with_Conditions
    (set_condition (Conditions s) conditionType status reason message t) s) toUpdate.

Definition setServiceInstanceCredentialConditionInternal (toUpdate : ServiceInstanceCredential)
    (conditionType : ConditionType) (status : ConditionStatus) (reason message : string)
    (t : Z) : ServiceInstanceCredential :=
  bind_upd (fun s => bwith_Conditions
    (set_condition (bind_Conditions s) conditionType status reason message t) s) toUpdate.

(** Some condition of type Failed has status True. *)
Fixpoint has_failed (conds : list ServiceInstanceCondition) : bool :=
  match conds with
  | [] => false
  | c :: conds' =>
      if decide (cond_Type c = ConditionFailed /\ cond_Status c = ConditionTrue) then true
      else has_failed conds'
  end.

Definition isServiceInstanceFailed (instance : ServiceInstance) : bool :=
  has_failed (Conditions (si_Status instance)).

Definition isServiceInstanceCredentialFailed (binding : ServiceInstanceCredential) : bool :=
  has_failed (bind_Conditions (bind_Status binding)).

(** The first Ready condition decides. *)
Fixpoint first_ready (conds : list ServiceInstanceCondition) : bool :=
  match conds with
  | [] => false
  | c :: conds' =>
      if decide (cond_Type c = ConditionReady)
      then bool_decide (cond_Status c = ConditionTrue)
      else first_ready conds'
  end.

Definition isServiceInstanceReady (instance : ServiceInstance) : bool :=
  first_ready (Conditions (si_Status instance)).

(** ** Laws *)

(** The entry a reader finds for a type. *)
Fixpoint find_condition (conds : list ServiceInstanceCondition) (typ : ConditionType) :
    option ServiceInstanceCondition :=
  match conds with
  | [] => None
  | c :: conds' => if decide (cond_Type c = typ) then Some c else find_condition conds' typ
  end.

Section laws.
Implicit Types conds : list ServiceInstanceCondition.

Lemma set_condition_replace conds typ st r m t :
  set_condition conds typ st r m t = replace_condition conds typ st r m t.
Proof. unfold set_condition. by destruct conds. Qed.

(** The transition time the new entry carries. *)
Definition transition_time conds typ st t : Z :=
  match find_condition conds typ with
  | Some c => if decide (cond_Status c = st) then cond_LastTransitionTime c else t
  | None => t
  end.

Lemma find_set_condition conds typ st r m t :
  find_condition (set_condition conds typ st r m t) typ =
    Some {| cond_Type := typ; cond_Status := st;
            cond_LastTransitionTime := transition_time conds typ st t;
            cond_Reason := r; cond_Message := m |}.
Proof.
  rewrite set_condition_replace. unfold transition_time.
  induction conds as [|c conds IH]; cbn; [by rewrite decide_True|].
  destruct (decide (cond_Type c = typ)) as [E|E]; cbn.
  - by rewrite decide_True.
  - rewrite decide_False by done. exact IH.
Qed.

Lemma find_set_condition_ne conds typ typ' st r m t :
  typ' <> typ ->
  find_condition (set_condition conds typ st r m t) typ' = find_condition conds typ'.
Proof.
  intros Hne. rewrite set_condition_replace.
  induction conds as [|c conds IH]; cbn.
  - by rewrite decide_False by congruence.
  - destruct (decide (cond_Type c = typ)) as [E|E]; cbn.
    + rewrite !decide_False by congruence. done.
    + by rewrite IH.
Qed.

Lemma has_failed_find conds :
  NoDup (cond_Type <$> conds) ->
  has_failed conds = true <->
  exists c, find_condition conds ConditionFailed = Some c /\ cond_Status c = ConditionTrue.
Proof.
  induction conds as [|c conds IH]; cbn; [split; [done|naive_solver]|].
  rewrite list.NoDup_cons. intros [Hnin Hnd]. specialize (IH Hnd).
  destruct (decide (cond_Type c = ConditionFailed)) as [E|E].
  - destruct (decide (cond_Status c = ConditionTrue)) as [E'|E'].
    + rewrite decide_True by done. naive_solver.
    + rewrite decide_False by naive_solver. split; [|naive_solver].
      intros H. exfalso. apply Hnin. rewrite E. clear -H.
      induction conds as [|d conds IH]; cbn in *; [done|].
      destruct (decide _) as [[H1 H2]|]; [rewrite H1; left|right; auto].
  - by rewrite decide_False by naive_solver.
Qed.

Lemma types_set_condition conds typ st r m t :
  cond_Type <$> set_condition conds typ st r m t =
    if decide (typ ∈ (cond_Type <$> conds)) then cond_Type <$> conds
    else (cond_Type <$> conds) ++ [typ].
Proof.
  rewrite set_condition_replace.
  induction conds as [|c conds IH]; cbn; [by rewrite decide_False by set_solver|].
  destruct (decide (cond_Type c = typ)) as [<-|E]; cbn.
  - rewrite decide_True; [done|left].
  - rewrite IH. destruct (decide (typ ∈ cond_Type <$> conds)) as [Hin|Hin].
    + rewrite decide_True; [done|]. by right.
    + rewrite decide_False; [done|]. rewrite elem_of_cons. naive_solver.
Qed.

(** Set on a list with one entry per type keeps one entry per type. *)
Lemma set_condition_NoDup conds typ st r m t :
  NoDup (cond_Type <$> conds) -> NoDup (cond_Type <$> set_condition conds typ st r m t).
Proof.
  intros Hnd. rewrite types_set_condition. destruct (decide _) as [|Hin]; [done|].
  apply list.NoDup_app. split_and!; [done| |apply NoDup_singleton].
  intros x Hx ->%list_elem_of_singleton. done.
Qed.

Lemma first_ready_set_ready conds st r m t :
  first_ready (set_condition conds ConditionReady st r m t) = bool_decide (st = ConditionTrue).
Proof.
  rewrite set_condition_replace.
  induction conds as [|c conds IH]; cbn; [done|].
  destruct (decide (cond_Type c = ConditionReady)) as [E|E]; cbn; [done|].
  by rewrite decide_False by done.
Qed.

Lemma first_ready_set_failed conds st r m t :
  first_ready (set_condition conds ConditionFailed st r m t) = first_ready conds.
Proof.
  rewrite set_condition_replace.
  induction conds as [|c conds IH]; cbn; [done|].
  destruct (decide (cond_Type c = ConditionFailed)) as [E|E]; cbn.
  - by rewrite E, !decide_False by done.
  - by rewrite IH.
Qed.

Lemma has_failed_set_failed conds r m t :
  has_failed (set_condition conds ConditionFailed ConditionTrue r m t) = true.
Proof.
  rewrite set_condition_replace.
  induction conds as [|c conds IH]; cbn; [by rewrite decide_True|].
  destruct (decide (cond_Type c = ConditionFailed)) as [E|E]; cbn; [by rewrite decide_True|].
  rewrite IH. by destruct (decide _).
Qed.

Lemma has_failed_set_ready conds st r m t :
  has_failed (set_condition conds ConditionReady st r m t) = has_failed conds.
Proof.
  rewrite set_condition_replace.
  induction conds as [|c conds IH]; cbn; [by rewrite decide_False by (intros []; congruence)|].
  destruct (decide (cond_Type c = ConditionReady)) as [E|E]; cbn.
  - rewrite !decide_False by (intros []; congruence). done.
  - by rewrite IH.
Qed.
End laws.

#[export] Hint Rewrite first_ready_set_ready first_ready_set_failed
  has_failed_set_failed has_failed_set_ready find_set_condition : conditions.
#[export] Hint Resolve set_condition_NoDup : conditions.
