(* ===== verification/Environment.v ===== *)
(** * The controller's environment

    What the controller talks to, as an interface: the informer caches
    (listers), the API server clients, the brokers, the clock, and the third
    party functions it calls.  [Env W] gives one operation per call, over an
    arbitrary environment state [W]; a controller run records every write,
    broker call, event and queue operation in its trace, with the answer it
    got.  Reads are not recorded. *)

From S2P Require Import Prelude Types.

(** ** Effects *)

Inductive EventType := EventTypeNormal | EventTypeWarning.

(** An event of [record.EventRecorder]: the involved object and what was
    passed to [Event] or [Eventf]. *)
Record Event := {
  ev_Kind : string; ev_Namespace : string; ev_Name : string;
  ev_Type : EventType; ev_Reason : string; ev_Message : string }.

Inductive Effect :=
| ERecord (e : Event)
| EInstanceUpdateStatus (obj : ServiceInstance) (res : ServiceInstance + error)
| EInstanceUpdateReferences (obj : ServiceInstance) (res : ServiceInstance + error)
| EBindingUpdateStatus (obj : ServiceInstanceCredential) (res : ServiceInstanceCredential + error)
| EBrokerUpdateStatus (obj : ClusterServiceBroker) (res : ClusterServiceBroker + error)
| EClassCreate (obj : ServiceClass) (res : ServiceClass + error)
| EClassUpdate (obj : ServiceClass) (res : ServiceClass + error)
| EClassDelete (name : string) (res : unit + error)
| EPlanCreate (obj : ServicePlan) (res : ServicePlan + error)
| EPlanUpdate (obj : ServicePlan) (res : ServicePlan + error)
| EPlanDelete (name : string) (res : unit + error)
| ESecretCreate (obj : Secret) (res : Secret + error)
| ESecretUpdate (obj : Secret) (res : Secret + error)
| ESecretDelete (namespace name : string) (res : unit + error)
| EProvision (client : ClientConfiguration) (req : ProvisionRequest) (res : ProvisionResponse + error)
| EDeprovision (client : ClientConfiguration) (req : DeprovisionRequest) (res : DeprovisionResponse + error)
| EPollLastOperation (client : ClientConfiguration) (req : LastOperationRequest) (res : LastOperationResponse + error)
| EBind (client : ClientConfiguration) (req : BindRequest) (res : BindResponse + error)
| EUnbind (client : ClientConfiguration) (req : UnbindRequest) (res : unit + error)
| EGetCatalog (client : ClientConfiguration) (res : CatalogResponse + error)
| EPollingQueueAddRateLimited (key : string)
| EPollingQueueForget (key : string)
| EInstanceQueueAdd (key : string)
| EBindingQueueAdd (key : string)
| EBrokerQueueAdd (key : string)
| EServiceClassQueueAdd (key : string)
| EServicePlanQueueAdd (key : string).

(** ** The interface *)

Class Env (W : Type) := {
  env_Now : W -> Z * W;
  (* informer caches *)
  env_instanceLister_Get : string -> string -> W -> option ServiceInstance * W;
  env_bindingLister_Get : string -> string -> W -> option ServiceInstanceCredential * W;
  env_bindingLister_List : string -> W -> (list ServiceInstanceCredential + error) * W;
  env_brokerLister_Get : string -> W -> option ClusterServiceBroker * W;
  env_serviceClassLister_Get : string -> W -> option ServiceClass * W;
  env_serviceClassLister_List : W -> (list ServiceClass + error) * W;
  env_servicePlanLister_Get : string -> W -> option ServicePlan * W;
  env_servicePlanLister_List : W -> (list ServicePlan + error) * W;
  (* service-catalog API *)
  env_ServiceClasses_List : string -> W -> (list ServiceClass * option error) * W;
  env_ServicePlans_List : string -> string -> string -> W -> (list ServicePlan * option error) * W;
  env_ServiceInstances_UpdateStatus : ServiceInstance -> W -> (ServiceInstance + error) * W;
  env_ServiceInstances_UpdateReferences : ServiceInstance -> W -> (ServiceInstance + error) * W;
  env_Bindings_UpdateStatus : ServiceInstanceCredential -> W -> (ServiceInstanceCredential + error) * W;
  env_Brokers_Get : string -> W -> (ClusterServiceBroker + error) * W;
  env_Brokers_UpdateStatus : ClusterServiceBroker -> W -> (ClusterServiceBroker + error) * W;
  env_ServiceClasses_Create : ServiceClass -> W -> (ServiceClass + error) * W;
  env_ServiceClasses_Update : ServiceClass -> W -> (ServiceClass + error) * W;
  env_ServiceClasses_Delete : string -> W -> (unit + error) * W;
  env_ServicePlans_Create : ServicePlan -> W -> (ServicePlan + error) * W;
  env_ServicePlans_Update : ServicePlan -> W -> (ServicePlan + error) * W;
  env_ServicePlans_Delete : string -> W -> (unit + error) * W;
  (* core API *)
  env_Namespaces_Get : string -> W -> (KNamespace + error) * W;
  env_Secrets_Get : string -> string -> W -> (Secret + error) * W;
  env_Secrets_Create : Secret -> W -> (Secret + error) * W;
  env_Secrets_Update : Secret -> W -> (Secret + error) * W;
  env_Secrets_Delete : string -> string -> W -> (unit + error) * W;
  (* brokers; a client is known by the configuration it was created with *)
  env_brokerClientCreate : ClientConfiguration -> W -> option error * W;
  env_ProvisionInstance : ClientConfiguration -> ProvisionRequest -> W -> (ProvisionResponse + error) * W;
  env_DeprovisionInstance : ClientConfiguration -> DeprovisionRequest -> W -> (DeprovisionResponse + error) * W;
  env_PollLastOperation : ClientConfiguration -> LastOperationRequest -> W -> (LastOperationResponse + error) * W;
  env_Bind : ClientConfiguration -> BindRequest -> W -> (BindResponse + error) * W;
  env_Unbind : ClientConfiguration -> UnbindRequest -> W -> (unit + error) * W;
  env_GetCatalog : ClientConfiguration -> W -> (CatalogResponse + error) * W;
}.

(** The controller's configuration; [yaml.Unmarshal] of the third-party package
    github.com/ghodss/yaml into a [map[string]interface{}]; and
    [json.Unmarshal] into such a map, a parameter because it makes [float64]s.
    [fmt_pointer] is what [%v] or [%q] print for a [*string] (an address), and
    [fmt_raw] what [%s] prints for a [*runtime.RawExtension]; [fmt_value] and
    [fmt_controllerRef] are what [%v] prints for a decoded JSON value and for a
    [*metav1.OwnerReference]. *)
Class Config := {
  reconciliationRetryDuration : Z;
  OriginatingIdentityEnabled : bool;
  yaml_Unmarshal : string -> gmap string json + error;
  json_Unmarshal : string -> gmap string json + error;
  fmt_pointer : option string -> string;
  fmt_raw : option RawExtension -> string;
  fmt_value : json -> string;
  fmt_controllerRef : option OwnerReference -> string;
}.

(** ** The calls *)

Section calls.
Context {W : Type} {E : Env W}.
Local Notation M := (M W Effect).
Local Open Scope go_scope.

Definition quiet {R} : R -> list Effect := fun _ => [].

Definition Now : M Z := call quiet env_Now.

(** A logged call: its answer is a value or an error. *)
Definition api {R} (eff : R + error -> Effect) (f : W -> (R + error) * W) : M R :=
  r <- call (fun r => [eff r]) f ;; lift r.
Definition read {R} (f : W -> (R + error) * W) : M R :=
  r <- call quiet f ;; lift r.

(** A lister's [Get] fails only with a NotFound error. *)
Definition notFound : error := StatusError ReasonNotFound "not found".
Definition lister_get {A} (f : W -> option A * W) : M A :=
  o <- call quiet f ;;
  match o with Some a => ret a | None => fail notFound end.

Definition instanceLister_Get ns name : M ServiceInstance :=
  lister_get (env_instanceLister_Get ns name).
Definition bindingLister_Get ns name : M ServiceInstanceCredential :=
  lister_get (env_bindingLister_Get ns name).
Definition bindingLister_List ns : M (list ServiceInstanceCredential) :=
  read (env_bindingLister_List ns).
Definition brokerLister_Get name : M ClusterServiceBroker :=
  lister_get (env_brokerLister_Get name).
Definition serviceClassLister_Get name : M ServiceClass :=
  lister_get (env_serviceClassLister_Get name).
Definition serviceClassLister_List : M (list ServiceClass) :=
  read env_serviceClassLister_List.
Definition servicePlanLister_Get name : M ServicePlan :=
  lister_get (env_servicePlanLister_Get name).
Definition servicePlanLister_List : M (list ServicePlan) :=
  read env_servicePlanLister_List.

Definition ServiceInstances_UpdateStatus (i : ServiceInstance) : M ServiceInstance :=
  api (EInstanceUpdateStatus i) (env_ServiceInstances_UpdateStatus i).
Definition ServiceInstances_UpdateReferences (i : ServiceInstance) : M ServiceInstance :=
  api (EInstanceUpdateReferences i) (env_ServiceInstances_UpdateReferences i).
Definition Bindings_UpdateStatus (b : ServiceInstanceCredential) : M ServiceInstanceCredential :=
  api (EBindingUpdateStatus b) (env_Bindings_UpdateStatus b).
Definition Brokers_Get name : M ClusterServiceBroker := read (env_Brokers_Get name).
Definition Brokers_UpdateStatus (b : ClusterServiceBroker) : M ClusterServiceBroker :=
  api (EBrokerUpdateStatus b) (env_Brokers_UpdateStatus b).
Definition ServiceClasses_Create c : M ServiceClass :=
  api (EClassCreate c) (env_ServiceClasses_Create c).
Definition ServiceClasses_Update c : M ServiceClass :=
  api (EClassUpdate c) (env_ServiceClasses_Update c).
Definition ServiceClasses_Delete name : M unit :=
  api (EClassDelete name) (env_ServiceClasses_Delete name).
Definition ServicePlans_Create p : M ServicePlan :=
  api (EPlanCreate p) (env_ServicePlans_Create p).
Definition ServicePlans_Update p : M ServicePlan :=
  api (EPlanUpdate p) (env_ServicePlans_Update p).
Definition ServicePlans_Delete name : M unit :=
  api (EPlanDelete name) (env_ServicePlans_Delete name).
Definition ServiceClasses_List externalName : M (list ServiceClass * option error) :=
  call quiet (env_ServiceClasses_List externalName).
Definition ServicePlans_List externalName classRef broker : M (list ServicePlan * option error) :=
  call quiet (env_ServicePlans_List externalName classRef broker).

Definition Namespaces_Get name : M KNamespace := read (env_Namespaces_Get name).
Definition Secrets_Get ns name : M Secret := read (env_Secrets_Get ns name).
Definition Secrets_Create s : M Secret := api (ESecretCreate s) (env_Secrets_Create s).
Definition Secrets_Update s : M Secret := api (ESecretUpdate s) (env_Secrets_Update s).
Definition Secrets_Delete ns name : M unit :=
  api (ESecretDelete ns name) (env_Secrets_Delete ns name).

Definition brokerClientCreateFunc (c : ClientConfiguration) : M ClientConfiguration :=
  o <- call quiet (env_brokerClientCreate c) ;;
  match o with None => ret c | Some e => fail e end.
Definition ProvisionInstance c req : M ProvisionResponse :=
  api (EProvision c req) (env_ProvisionInstance c req).
Definition DeprovisionInstance c req : M DeprovisionResponse :=
  api (EDeprovision c req) (env_DeprovisionInstance c req).
Definition PollLastOperation c req : M LastOperationResponse :=
  api (EPollLastOperation c req) (env_PollLastOperation c req).
Definition Bind c req : M BindResponse := api (EBind c req) (env_Bind c req).
Definition Unbind c req : M unit := api (EUnbind c req) (env_Unbind c req).
Definition GetCatalog c : M CatalogResponse := api (EGetCatalog c) (env_GetCatalog c).

(** [c.recorder.Event] on each kind of object. *)
Definition instance_Event (i : ServiceInstance) ty reason msg : M unit :=
  emit (ERecord {| ev_Kind := "ServiceInstance"; ev_Namespace := Namespace (si_Meta i);
                   ev_Name := Name (si_Meta i); ev_Type := ty; ev_Reason := reason;
                   ev_Message := msg |}).
Definition binding_Event (b : ServiceInstanceCredential) ty reason msg : M unit :=
  emit (ERecord {| ev_Kind := "ServiceInstanceCredential"; ev_Namespace := Namespace (bind_Meta b);
                   ev_Name := Name (bind_Meta b); ev_Type := ty; ev_Reason := reason;
                   ev_Message := msg |}).
Definition broker_Event (b : ClusterServiceBroker) ty reason msg : M unit :=
  emit (ERecord {| ev_Kind := "ClusterServiceBroker"; ev_Namespace := Namespace (b_Meta b);
                   ev_Name := Name (b_Meta b); ev_Type := ty; ev_Reason := reason;
                   ev_Message := msg |}).
End calls.

(** ** Reasoning about the calls *)

Section call_rules.
Context {W : Type} {E : Env W}.

Lemma wp_lister_get {A} (f : W -> option A * W) (Q : outcome A -> list Effect -> Prop) :
  (forall w o w', f w = (o, w') ->
     match o with Some a => Q (Ok a) [] | None => Q (Err notFound) [] end) ->
  wp (lister_get f) Q.
Proof.
  intros H. apply wp_bind, wp_call. intros w o w' Hf. specialize (H _ _ _ Hf).
  destruct o; [by apply wp_ret|by apply wp_fail].
Qed.

Lemma wp_api {R} (eff : R + error -> Effect) (f : W -> (R + error) * W) Q :
  (forall w r w', f w = (r, w') ->
     match r with inl a => Q (Ok a) [eff r] | inr e => Q (Err e) [eff r] end) ->
  wp (api eff f) Q.
Proof.
  intros H. apply wp_bind, wp_call. intros w r w' Hf. specialize (H _ _ _ Hf).
  apply wp_lift. destruct r; exact H.
Qed.

Lemma wp_read {R} (f : W -> (R + error) * W) (Q : outcome R -> list Effect -> Prop) :
  (forall w r w', f w = (r, w') ->
     match r with inl a => Q (Ok a) [] | inr e => Q (Err e) [] end) ->
  wp (read f) Q.
Proof.
  intros H. apply wp_bind, wp_call. intros w r w' Hf. specialize (H _ _ _ Hf).
  apply wp_lift. destruct r; exact H.
Qed.

(** Running a read whose answer is known. *)
Lemma run_read {R A} (f : W -> (R + error) * W) (k : R -> M W Effect A) w a w1 :
  f w = (inl a, w1) -> bind (read f) k w = k a w1.
Proof.
  intros Hf. unfold read, bind, call. rewrite Hf. cbn. by destruct (k a w1) as [[o w2] t].
Qed.

Lemma wp_Now (Q : outcome Z -> list Effect -> Prop) :
  (forall t, Q (Ok t) []) -> wp Now Q.
Proof. intros H. apply wp_call. intros. apply H. Qed.

Lemma wp_brokerClientCreateFunc c Q :
  Q (Ok c) [] -> (forall e, Q (Err e) []) -> wp (brokerClientCreateFunc c) Q.
Proof.
  intros H1 H2. apply wp_bind, wp_call. intros w [e|] w' _; [apply wp_fail, H2|by apply wp_ret].
Qed.
End call_rules.

(** One step of symbolic execution of a handler. *)
Ltac wp_step :=
  lazymatch goal with
  | |- wp (ret _) _ => apply wp_ret
  | |- wp (fail _) _ => apply wp_fail
  | |- wp panic _ => apply wp_panic
  | |- wp (bind _ _) _ => apply wp_bind
  | |- wp (try _) _ => apply wp_try
  | |- wp (ignore _) _ => apply wp_ignore
  | |- wp (emit _) _ => apply wp_emit
  | |- wp Now _ => apply wp_Now; intros ?now
  | |- wp (lister_get _) _ =>
      let o := fresh "o" in apply wp_lister_get; intros ? o ? _; destruct o
  | |- wp (api _ _) _ =>
      let r := fresh "r" in apply wp_api; intros ? r ? ?; destruct r
  | |- wp (read _) _ =>
      let r := fresh "r" in apply wp_read; intros ? r ? ?; destruct r
  | |- wp (call _ _) _ => apply wp_call; intros ? ?r ? ?
  | |- wp (brokerClientCreateFunc _) _ => apply wp_brokerClientCreateFunc; [|intros ?]
  | |- wp (deref ?o) _ => apply wp_deref; destruct o eqn:?
  | |- wp (lift ?r) _ => apply wp_lift; destruct r eqn:?
  | |- wp (if ?b then _ else _) _ => destruct b eqn:?
  | |- wp (match ?x with _ => _ end) _ => destruct x eqn:?
  | |- wp (let _ := _ in _) _ => cbv zeta
  end.

(** The same calls in a run that must stay safe. *)
Section safe_call_rules.
Context {W : Type} {E : Env W} (ok : list Effect -> Effect -> Prop).
Implicit Types prior : list Effect.

Lemma wps_lister_get {A} prior (f : W -> option A * W) (Q : outcome A -> list Effect -> Prop) :
  (forall w o w', f w = (o, w') ->
     match o with Some a => Q (Ok a) prior | None => Q (Err notFound) prior end) ->
  wps ok prior (lister_get f) Q.
Proof.
  intros H. apply wps_quiet, wp_lister_get. intros w o w' Hf.
  specialize (H _ _ _ Hf). by destruct o.
Qed.

Lemma wps_read {R} prior (f : W -> (R + error) * W) (Q : outcome R -> list Effect -> Prop) :
  (forall w r w', f w = (r, w') ->
     match r with inl a => Q (Ok a) prior | inr e => Q (Err e) prior end) ->
  wps ok prior (read f) Q.
Proof.
  intros H. apply wps_quiet, wp_read. intros w r w' Hf. specialize (H _ _ _ Hf). by destruct r.
Qed.

Lemma wps_query {R} prior (f : W -> R * W) (Q : outcome R -> list Effect -> Prop) :
  (forall w r w', f w = (r, w') -> Q (Ok r) prior) -> wps ok prior (call quiet f) Q.
Proof. intros H. apply wps_quiet, wp_call. intros w r w' Hf. split; eauto. Qed.

Lemma wps_Now prior (Q : outcome Z -> list Effect -> Prop) :
  (forall t, Q (Ok t) prior) -> wps ok prior Now Q.
Proof. intros H. apply wps_query. eauto. Qed.

Lemma wps_api {R} prior (eff : R + error -> Effect) (f : W -> (R + error) * W) Q :
  (forall w r w', f w = (r, w') ->
     ok prior (eff r) /\
     match r with inl a => Q (Ok a) (prior ++ [eff r]) | inr e => Q (Err e) (prior ++ [eff r]) end) ->
  wps ok prior (api eff f) Q.
Proof.
  intros H. apply wp_api. intros w r w' Hf. destruct (H _ _ _ Hf) as [H1 H2].
  destruct r; by split_and!; cbn.
Qed.

Lemma wps_brokerClientCreateFunc prior c Q :
  Q (Ok c) prior -> (forall e, Q (Err e) prior) -> wps ok prior (brokerClientCreateFunc c) Q.
Proof.
  intros H1 H2. apply wps_quiet, wp_brokerClientCreateFunc; [by split|]. intros e. by split.
Qed.
End safe_call_rules.

(** One step of symbolic execution of a run that must stay safe. *)
Ltac wps_step :=
  lazymatch goal with
  | |- wps _ _ (ret _) _ => apply wps_ret
  | |- wps _ _ (fail _) _ => apply wps_fail
  | |- wps _ _ (bind _ _) _ => apply wps_bind
  | |- wps _ _ (try _) _ => apply wps_try
  | |- wps _ _ (ignore _) _ => apply wps_ignore
  | |- wps _ _ (emit _) _ => apply wps_emit
  | |- wps _ _ Now _ => apply wps_Now; intros ?now
  | |- wps _ _ (lister_get _) _ =>
      let o := fresh "o" in apply wps_lister_get; intros ? o ? ?; destruct o
  | |- wps _ _ (api _ _) _ =>
      let r := fresh "r" in apply wps_api; intros ? r ? ?; split; [|destruct r]
  | |- wps _ _ (read _) _ =>
      let r := fresh "r" in apply wps_read; intros ? r ? ?; destruct r
  | |- wps _ _ (call quiet _) _ => apply wps_query; intros ? ?r ? ?
  | |- wps _ _ (deref ?o) _ => apply wps_deref_any; destruct o eqn:?
  | |- wps _ _ (brokerClientCreateFunc _) _ => apply wps_brokerClientCreateFunc; [|intros ?]
  | |- wps _ _ (if ?b then _ else _) _ => destruct b eqn:?
  | |- wps _ _ (match ?x with _ => _ end) _ => destruct x eqn:?
  | |- wps _ _ (let _ := _ in _) _ => cbv zeta
  end.

(** [cache.DeletionHandlingMetaNamespaceKeyFunc] on an object with metadata. *)
Definition MetaNamespaceKey (m : ObjectMeta) : string :=
  if decide (Namespace m = "") then Name m else sprint [Namespace m; "/"; Name m].

(** [strings.Split(key, "/")] and [cache.SplitMetaNamespaceKey]. *)
Fixpoint split_slash (s : string) : string * list string :=
  match s with
  | EmptyString => (EmptyString, [])
  | String c s' =>
      match split_slash s' with
      | (h, l) => if Nat.eqb (Ascii.nat_of_ascii c) 47 then (EmptyString, h :: l)
                  else (String c h, l)
      end
  end.
Definition SplitMetaNamespaceKey (key : string) : (string * string) + error :=
  match split_slash key with
  | (name, []) => inl ("", name)
  | (ns, [name]) => inl (ns, name)
  | _ => inr (PlainError (sprint ["unexpected key format: "; quote key]))
  end.
