(* ===== verification/Regexp.v ===== *)
(** * Regular expressions

    What [regexp.MustCompile("^" + fmt + "$")] and [MatchString] do for the
    character-class patterns of the validation code: an executable matcher by
    derivatives, proved against the usual inductive reading, and closed forms
    for the two pattern shapes the repository uses. *)

From S2P Require Import Prelude.

Inductive regexp :=
| Void
| Eps
| Class (p : Ascii.ascii -> bool)
| Cat (r1 r2 : regexp)
| Alt (r1 r2 : regexp)
| Star (r : regexp).
Definition Plus (r : regexp) : regexp := Cat r (Star r).
Definition Opt (r : regexp) : regexp := Alt Eps r.

Inductive Match : regexp -> string -> Prop :=
| MEps : Match Eps ""
| MClass p c : p c = true -> Match (Class p) (String c "")
| MCat r1 r2 s1 s2 : Match r1 s1 -> Match r2 s2 -> Match (Cat r1 r2) (s1 +:+ s2)
| MAltL r1 r2 s : Match r1 s -> Match (Alt r1 r2) s
| MAltR r1 r2 s : Match r2 s -> Match (Alt r1 r2) s
| MStarNil r : Match (Star r) ""
| MStarCons r s1 s2 : Match r s1 -> Match (Star r) s2 -> Match (Star r) (s1 +:+ s2).

Fixpoint nullable (r : regexp) : bool :=
  match r with
  | Void | Class _ => false
  | Eps | Star _ => true
  | Cat r1 r2 => nullable r1 && nullable r2
  | Alt r1 r2 => nullable r1 || nullable r2
  end.

Fixpoint deriv (c : Ascii.ascii) (r : regexp) : regexp :=
  match r with
  | Void | Eps => Void
  | Class p => if p c then Eps else Void
  | Cat r1 r2 =>
      if nullable r1 then Alt (Cat (deriv c r1) r2) (deriv c r2) else Cat (deriv c r1) r2
  | Alt r1 r2 => Alt (deriv c r1) (deriv c r2)
  | Star r => Cat (deriv c r) (Star r)
  end.

(** [MatchString] of the anchored pattern. *)
Fixpoint MatchString (r : regexp) (s : string) : bool :=
  match s with
  | EmptyString => nullable r
  | String c s' => MatchString (deriv c r) s'
  end.

#[local] Hint Constructors Match : core.

Lemma append_nil (s1 s2 : string) : s1 +:+ s2 = "" -> s1 = "" /\ s2 = "".
Proof. by destruct s1, s2. Qed.

Lemma append_cons c (s1 s2 : string) : String c s1 +:+ s2 = String c (s1 +:+ s2).
Proof. reflexivity. Qed.

Lemma append_nil_r (s : string) : s +:+ "" = s.
Proof. induction s as [|c s IH]; [done|]. change (String c (s +:+ "") = String c s). by rewrite IH. Qed.

Lemma nullable_Match r : nullable r = true <-> Match r "".
Proof.
  split.
  - induction r; cbn; intros H; try done; auto.
    + apply andb_prop in H as [H1 H2]. change "" with ("" +:+ ""). auto.
    + apply orb_prop in H as [H|H]; auto.
  - remember "" as s eqn:Hs. induction 1; cbn; try done.
    + apply append_nil in Hs as [-> ->]. by rewrite IHMatch1, IHMatch2.
    + by rewrite IHMatch.
    + rewrite IHMatch by done. apply orb_true_r.
Qed.

Lemma deriv_Match c r s : Match (deriv c r) s -> Match r (String c s).
Proof.
  revert s. induction r as [| |p|r1 IH1 r2 IH2|r1 IH1 r2 IH2|r IH]; cbn; intros s H.
  - inversion H.
  - inversion H.
  - destruct (p c) eqn:Hp; inversion H; subst. by constructor.
  - assert (Hl : forall s, Match (Cat (deriv c r1) r2) s -> Match (Cat r1 r2) (String c s)).
    { intros s' H'. inversion H' as [| |? ? s1 s2 H1 H2 | | | |]; subst.
      apply (MCat r1 r2 (String c s1) s2); auto. }
    destruct (nullable r1) eqn:Hn; [|auto].
    inversion H; subst; [auto|]. apply (MCat r1 r2 "" (String c s)); [|auto].
    by apply nullable_Match.
  - inversion H; subst; auto.
  - inversion H as [| |? ? s1 s2 H1 H2 | | | |]; subst.
    apply (MStarCons r (String c s1) s2); auto.
Qed.

Lemma Match_deriv c r s : Match r (String c s) -> Match (deriv c r) s.
Proof.
  remember (String c s) as w eqn:Hw. intros H. revert c s Hw.
  induction H as [|p c0 Hp|r1 r2 s1 s2 H1 IH1 H2 IH2|r1 r2 s H IH|r1 r2 s H IH|r|r s1 s2 H1 IH1 H2 IH2];
    cbn; intros c s' Hw; try done; auto.
  - injection Hw as -> <-. by rewrite Hp.
  - destruct s1 as [|c1 s1]; cbn in Hw.
    + rewrite (proj2 (nullable_Match r1) H1). auto.
    + injection Hw as -> <-. destruct (nullable r1); auto.
  - destruct s1 as [|c1 s1]; cbn in Hw; [by apply IH2|]. injection Hw as -> <-. auto.
Qed.

Lemma MatchString_spec r s : MatchString r s = true <-> Match r s.
Proof.
  revert r. induction s as [|c s IH]; intros r; cbn; [apply nullable_Match|].
  rewrite IH. split; [apply deriv_Match|apply Match_deriv].
Qed.

(** ** Character classes *)

Definition code (c : Ascii.ascii) : nat := Ascii.nat_of_ascii c.
Definition between (a b : nat) (c : Ascii.ascii) : bool := Nat.leb a (code c) && Nat.leb (code c) b.
Definition digit := between 48 57.
Definition lower := between 97 122.
Definition upper := between 65 90.
Definition dash (c : Ascii.ascii) : bool := Nat.eqb (code c) 45.
Definition dot (c : Ascii.ascii) : bool := Nat.eqb (code c) 46.
Definition xdigit (c : Ascii.ascii) : bool := digit c || between 97 102 c || between 65 70 c.
Definition or_class (p q : Ascii.ascii -> bool) (c : Ascii.ascii) : bool := p c || q c.

Fixpoint all_chars (p : Ascii.ascii -> bool) (s : string) : bool :=
  match s with
  | EmptyString => true
  | String c s' => p c && all_chars p s'
  end.

Lemma all_chars_append p s1 s2 : all_chars p (s1 +:+ s2) = all_chars p s1 && all_chars p s2.
Proof.
  induction s1 as [|c s1 IH]; [done|]. rewrite append_cons. cbn. by rewrite IH, andb_assoc.
Qed.

(** Every class of a pattern is within a class. *)
Fixpoint within (q : Ascii.ascii -> bool) (r : regexp) : Prop :=
  match r with
  | Void | Eps => True
  | Class p => forall c, p c = true -> q c = true
  | Cat r1 r2 | Alt r1 r2 => within q r1 /\ within q r2
  | Star r => within q r
  end.

Lemma Match_all_chars q r s : within q r -> Match r s -> all_chars q s = true.
Proof.
  intros Hw H. revert Hw. induction H; cbn [within]; intros Hw; destruct_and?; try done; auto.
  - cbn. by rewrite Hw.
  - by rewrite all_chars_append, IHMatch1, IHMatch2.
  - by rewrite all_chars_append, IHMatch1, IHMatch2.
Qed.

(** [c*] *)
Lemma Match_star_class p s : Match (Star (Class p)) s <-> all_chars p s = true.
Proof.
  split.
  - remember (Star (Class p)) as r eqn:Hr. induction 1; try done; simplify_eq.
    rewrite all_chars_append, IHMatch2 by done.
    match goal with H : Match (Class _) _ |- _ => inversion H as [|? ? Hp| | | | |]; subst end.
    cbn. by rewrite Hp.
  - induction s as [|c s IH]; cbn; [auto|]. intros [H1 H2]%andb_prop.
    apply (MStarCons (Class p) (String c "") s); auto.
Qed.

(** [c+] *)
Lemma Match_plus_class p s : Match (Plus (Class p)) s <-> s <> "" /\ all_chars p s = true.
Proof.
  split.
  - intros H. inversion H as [| |? ? s1 s2 H1 H2 | | | |]; subst. inversion H1 as [|? ? Hp| | | | |]; subst.
    apply Match_star_class in H2. rewrite append_cons. cbn. by rewrite Hp.
  - destruct s as [|c s]; [naive_solver|]. cbn. intros [_ [H1 H2]%andb_prop].
    apply (MCat _ _ (String c "") s); [auto|]. by apply Match_star_class.
Qed.

(** [e(m*e)?]: starts and ends in [e], and everything else is in [m]. *)
Definition Label (e m : Ascii.ascii -> bool) : regexp :=
  Cat (Class e) (Opt (Cat (Star (Class m)) (Class e))).

Fixpoint last_char (s : string) : option Ascii.ascii :=
  match s with
  | EmptyString => None
  | String c EmptyString => Some c
  | String c s' => last_char s'
  end.
Definition first_char (s : string) : option Ascii.ascii :=
  match s with EmptyString => None | String c _ => Some c end.

Lemma last_char_append s c : last_char (s +:+ String c "") = Some c.
Proof.
  induction s as [|d s IH]; [done|]. rewrite append_cons. cbn.
  by destruct (s +:+ String c "") eqn:E; [destruct s|].
Qed.

Lemma last_char_split s c : last_char s = Some c -> exists s', s = s' +:+ String c "".
Proof.
  revert c. induction s as [|d [|d' s] IH]; cbn; intros c H; [done| |].
  - simplify_eq. by exists "".
  - destruct (IH c H) as [s' Hs']. exists (String d s'). by rewrite append_cons, <-Hs'.
Qed.

Lemma Match_Label e m s :
  (forall c, e c = true -> m c = true) ->
  Match (Label e m) s <->
  (exists c, first_char s = Some c /\ e c = true) /\
  (exists c, last_char s = Some c /\ e c = true) /\ all_chars m s = true.
Proof.
  intros Hem. split.
  - intros H. inversion H as [| |? ? s1 s2 H1 H2 | | | |]; subst. inversion H1 as [|? c Hc| | | | |]; subst.
    rewrite append_cons.
    inversion H2 as [| | |? ? ? H4|? ? ? H4| |]; subst.
    + inversion H4; subst. cbn. rewrite (Hem _ Hc). naive_solver.
    + inversion H4 as [| |? ? s3 s4 H5 H6 | | | |]; subst.
      inversion H6 as [|? c' Hc'| | | | |]; subst.
      apply Match_star_class in H5. rewrite <-append_cons, !all_chars_append. cbn.
      rewrite append_cons. rewrite (Hem _ Hc), (Hem _ Hc'), H5.
      split_and!; [naive_solver| |done].
      exists c'. split; [|done]. apply (last_char_append (String c s3)).
  - intros ((c & Hc & Ec) & (c' & Hc' & Ec') & Ha). destruct s as [|d s]; [done|].
    cbn in Hc. simplify_eq. cbn in Ha. apply andb_prop in Ha as [_ Ha].
    apply (MCat _ _ (String c "") s); [auto|]. destruct s as [|d s]; [by apply MAltL|].
    apply MAltR. change (last_char (String d s) = Some c') in Hc'.
    destruct (last_char_split _ _ Hc') as [s' Hs']. rewrite Hs' in *.
    constructor; [|auto]. apply Match_star_class.
    rewrite all_chars_append in Ha. by apply andb_prop in Ha as [Ha _].
Qed.
