(* ===== verification/Sha256.v ===== *)
(** * SHA-256 and hexadecimal digests

    The part of the Go standard library behind
    [generateChecksumOfParameters]: [sha256.Sum256] on 32-bit words kept as
    [Z] with the wrap-around written out, and the [%x] verb on its result. *)

From S2P Require Import Prelude.

Definition w32 (x : Z) : Z := x mod 2 ^ 32.
Definition rotr (n x : Z) : Z := Z.lor (Z.shiftr x n) (w32 (Z.shiftl x (32 - n))).
Definition not32 (x : Z) : Z := Z.lxor x (2 ^ 32 - 1).

Definition Ch x y z := Z.lxor (Z.land x y) (Z.land (not32 x) z).
Definition Maj x y z := Z.lxor (Z.lxor (Z.land x y) (Z.land x z)) (Z.land y z).
Definition Sigma0 x := Z.lxor (Z.lxor (rotr 2 x) (rotr 13 x)) (rotr 22 x).
Definition Sigma1 x := Z.lxor (Z.lxor (rotr 6 x) (rotr 11 x)) (rotr 25 x).
Definition sigma0 x := Z.lxor (Z.lxor (rotr 7 x) (rotr 18 x)) (Z.shiftr x 3).
Definition sigma1 x := Z.lxor (Z.lxor (rotr 17 x) (rotr 19 x)) (Z.shiftr x 10).

(** The constants are the first 32 bits of the fractional parts of the cube
    roots of the first 64 primes, and of the square roots of the first 8;
    [cuberoot] searches bit by bit, highest bit first. *)
Definition is_prime (n : Z) : bool :=
  forallb (fun d => negb (n mod Z.of_nat d =? 0)) (seq 2 (Z.to_nat n - 2)).
Definition primes (n bound : nat) : list Z :=
  take n (List.filter is_prime (map Z.of_nat (seq 2 bound))).
Fixpoint cuberoot (bits : nat) (root n : Z) : Z :=
  match bits with
  | O => root
  | S b =>
      let r := root + 2 ^ Z.of_nat b in
      cuberoot b (if r * r * r <=? n then r else root) n
  end.
Definition K256 : list Z :=
  Eval vm_compute in map (fun p => w32 (cuberoot 40 0 (p * 2 ^ 96))) (primes 64 312).
Definition H256 : list Z :=
  Eval vm_compute in map (fun p => w32 (Z.sqrt (p * 2 ^ 64))) (primes 8 20).

Definition be32 (b : list Z) : Z := fold_left (fun a x => 256 * a + x) b 0.
Fixpoint to_be (n : nat) (x : Z) : list Z :=
  match n with
  | O => []
  | S n' => to_be n' (x / 256) ++ [x mod 256]
  end.

Fixpoint chunks {A} (fuel n : nat) (l : list A) : list (list A) :=
  match fuel, l with
  | S f, _ :: _ => take n l :: chunks f n (drop n l)
  | _, _ => []
  end.

(** Padding: a one bit, zeros, and the length in bits on 64 bits. *)
Definition pad (msg : list Z) : list Z :=
  let n := length msg in
  let z := ((119 - n mod 64) mod 64)%nat in
  msg ++ [128] ++ repeat 0 z ++ to_be 8 (8 * Z.of_nat n).

(** The message schedule, newest word first. *)
Fixpoint extend (k : nat) (w : list Z) : list Z :=
  match k with
  | O => w
  | S k' =>
      let n := w32 (sigma1 (nth 1 w 0) + nth 6 w 0 + sigma0 (nth 14 w 0) + nth 15 w 0) in
      extend k' (n :: w)
  end.

Definition round (st : list Z) (kw : Z * Z) : list Z :=
  match st with
  | [a; b; c; d; e; f; g; h] =>
      let t1 := w32 (h + Sigma1 e + Ch e f g + fst kw + snd kw) in
      let t2 := w32 (Sigma0 a + Maj a b c) in
      [w32 (t1 + t2); a; b; c; w32 (d + t1); e; f; g]
  | _ => st
  end.

Definition block (st : list Z) (chunk : list Z) : list Z :=
  let w0 := map be32 (chunks 16 4 chunk) in
  let w := rev (extend 48 (rev w0)) in
  map (fun p => w32 (fst p + snd p))
      (combine st (fold_left round (combine K256 w) st)).

Definition bytes_of_string (s : string) : list Z :=
  map (fun c => Z.of_N (Ascii.N_of_ascii c)) (String.list_ascii_of_string s).

(** [sha256.Sum256]: the 32 bytes of the digest. *)
Definition Sum256 (s : string) : list Z :=
  let padded := pad (bytes_of_string s) in
  let st := fold_left block (chunks (length padded) 64 padded) H256 in
  flat_map (to_be 4) st.

(** The lower-case hexadecimal digit of a number below 16. *)
Definition hex_digit (n : Z) : Ascii.ascii :=
  Ascii.ascii_of_nat (Z.to_nat (if n <? 10 then 48 + n else 87 + n)).

(** [fmt.Sprintf("%x", bytes)] *)
Fixpoint sprintf_x (l : list Z) : string :=
  match l with
  | [] => EmptyString
  | b :: l' => String (hex_digit (b / 16)) (String (hex_digit (b mod 16)) (sprintf_x l'))
  end.

Example sha256_abc :
  sprintf_x (Sum256 "abc") = "ba7816bf8f01cfea414140de5dae2223b00361a396177a9cb410ff61f20015ad".
Proof. vm_compute. reflexivity. Qed.

Example sha256_empty :
  sprintf_x (Sum256 "") = "e3b0c44298fc1c149afbf4c8996fb92427ae41e4649b934ca495991b7852b855".
Proof. vm_compute. reflexivity. Qed.

(** ** Shape of a digest *)

Lemma to_be_length n x : length (to_be n x) = n.
Proof. revert x. induction n as [|n IH]; intros x; cbn; [done|]. rewrite length_app, IH. cbn. lia. Qed.

Lemma to_be_bytes n x : Forall (fun b => 0 <= b < 256) (to_be n x).
Proof.
  revert x. induction n as [|n IH]; intros x; cbn; [constructor|].
  apply Forall_app; split; [apply IH|]. constructor; [|constructor].
  apply Z.mod_pos_bound. lia.
Qed.

Lemma round_length st kw : length st = 8%nat -> length (round st kw) = 8%nat.
Proof. intros H. do 9 (destruct st as [|? st]; try discriminate H). reflexivity. Qed.

Lemma rounds_length l st : length st = 8%nat -> length (fold_left round l st) = 8%nat.
Proof. revert st. induction l; intros st H; cbn; auto using round_length. Qed.

Lemma block_length st chunk : length st = 8%nat -> length (block st chunk) = 8%nat.
Proof.
  intros H. unfold block. rewrite length_map, length_combine, H, rounds_length by done. reflexivity.
Qed.

Lemma blocks_length l st : length st = 8%nat -> length (fold_left block l st) = 8%nat.
Proof. revert st. induction l; intros st H; cbn; auto using block_length. Qed.

Lemma Sum256_length s : length (Sum256 s) = 32%nat.
Proof.
  unfold Sum256. set (st := fold_left _ _ _).
  assert (H : length st = 8%nat) by (apply blocks_length; reflexivity).
  clearbody st. do 9 (destruct st as [|? st]; try discriminate H).
  cbn [flat_map]. rewrite !length_app, !to_be_length. reflexivity.
Qed.

Lemma Sum256_bytes s : Forall (fun b => 0 <= b < 256) (Sum256 s).
Proof.
  unfold Sum256. set (st := fold_left _ _ _). clearbody st.
  induction st as [|x st IH]; cbn [flat_map]; [constructor|].
  apply Forall_app; split; [apply to_be_bytes|exact IH].
Qed.

Lemma sprintf_x_length l : String.length (sprintf_x l) = (2 * length l)%nat.
Proof. induction l as [|b l IH]; cbn; [done|]. rewrite IH. lia. Qed.
