(* ===== verification/Json.v ===== *)
(** * JSON encoding

    [json.Marshal] on the values the controller encodes: [encoding/json] writes
    object keys in sorted order and escapes quotes, backslashes, control
    characters and the HTML characters. *)

From S2P Require Import Prelude Types.

Definition hex4 (n : nat) : string :=
  let d k := String (Ascii.ascii_of_nat (if Nat.ltb k 10 then 48 + k else 87 + k)) EmptyString in
  sprint ["\u00"; d (n / 16)%nat; d (n mod 16)%nat].

Fixpoint escape (s : string) : string :=
  match s with
  | EmptyString => EmptyString
  | String c s' =>
      let n := Ascii.nat_of_ascii c in
      String.append
        (if Nat.eqb n 34 then String (Ascii.ascii_of_nat 92) dq
         else if Nat.eqb n 92 then "\\"
         else if Nat.eqb n 10 then "\n"
         else if Nat.eqb n 13 then "\r"
         else if Nat.eqb n 9 then "\t"
         else if orb (Nat.ltb n 32) (orb (Nat.eqb n 60) (orb (Nat.eqb n 62) (Nat.eqb n 38))) then hex4 n
         else String c EmptyString)
        (escape s')
  end.

Definition json_string (s : string) : string := sprint [dq; escape s; dq].

(** Members in key order. *)
Fixpoint member_insert (m : string * string) (l : list (string * string)) :=
  match l with
  | [] => [m]
  | m' :: l' => if String.ltb (fst m') (fst m) then m' :: member_insert m l' else m :: l
  end.
Definition member_sort (l : list (string * string)) := foldr member_insert [] l.

Fixpoint join (l : list string) : string :=
  match l with
  | [] => EmptyString
  | [s] => s
  | s :: l' => sprint [s; ","; join l']
  end.

Definition json_object (l : list (string * string)) : string :=
  sprint ["{"; join (map (fun m => sprint [json_string (fst m); ":"; snd m]) (member_sort l)); "}"].

Fixpoint Marshal_value (v : json) : string :=
  match v with
  | JNull => "null"
  | JBool true => "true"
  | JBool false => "false"
  | JNum text => text
  | JString s => json_string s
  | JArray l => sprint ["["; join (map Marshal_value l); "]"]
  | JObject l => json_object (map (fun m => (fst m, Marshal_value (snd m))) l)
  end.

(** [json.Marshal] returns an error only on values that are not JSON
    (channels, functions, cycles, NaN), which [json] does not have. *)
Definition json_Marshal (v : json) : string + error := inl (Marshal_value v).
Definition json_Marshal_map (m : gmap string json) : string + error :=
  inl (json_object (map (fun m => (fst m, Marshal_value (snd m))) (map_to_list m))).

Example marshal_example :
  Marshal_value (JObject [("b", JArray [JNum "1"; JNull]); ("a", JBool true)])
  = sprint ["{"; dq; "a"; dq; ":true,"; dq; "b"; dq; ":[1,null]}"].
Proof. reflexivity. Qed.
