(* ===== verification/ParametersModel.v ===== *)
(** * Parameters, originating identity and credential serialization

    [pkg/controller/parameters.go], [originating_identity.go] and
    [serializer.go], and what a parameter merge keeps and reveals. *)

From S2P Require Import Prelude Types Environment Sha256 Json.

Section parameters.
Context {W : Type} {E : Env W} {C : Config}.
Local Notation M := (M W Effect).
Local Open Scope go_scope.

(** [secret.Data[key]]: a missing key gives no bytes. *)
Definition fetchSecretKeyValue (namespace : string) (secretKeyRef : SecretKeyReference) : M string :=
  secret <- Secrets_Get namespace (skr_Name secretKeyRef) ;;
  ret (default "" (secret_Data secret !! skr_Key secretKeyRef)).

Definition unmarshalJSON (data : string) : M (gmap string json) :=
  match json_Unmarshal data with
  | inl m => ret m
  | inr err => fail (PlainError (sprint ["failed to unmarshal parameters as JSON object: "; Error err]))
  end.

Definition UnmarshalRawParameters (data : string) : gmap string json + error :=
  if decide (0 < String.length data)%nat then yaml_Unmarshal data else inl ∅.

Definition MarshalRawParameters (params : gmap string json) : string + error :=
  json_Marshal_map params.

Definition fetchParametersFromSource (namespace : string) (p : ParametersFromSource) :
    M (gmap string json) :=
  match pfs_SecretKeyRef p with
  | Some ref =>
      data <- fetchSecretKeyValue namespace ref ;;
      unmarshalJSON data
  | None => ret ∅
  end.

(** [for k, v := range src]: add every pair, refusing a key already there;
    [redact] is what the redacted map receives. *)
Fixpoint add_params (redact : json -> json) (src : list (string * json))
    (acc : gmap string json * gmap string json) :
    gmap string json * gmap string json + error :=
  match src with
  | [] => inl acc
  | (k, v) :: src' =>
      match fst acc !! k with
      | Some _ => inr (PlainError (sprint ["conflict: duplicate entry for parameter "; quote k]))
      | None => add_params redact src' (<[k := v]> (fst acc), <[k := redact v]> (snd acc))
      end
  end.

Definition redacted (_ : json) : json := JString "<redacted>".

Fixpoint add_sources (namespace : string) (l : list ParametersFromSource)
    (acc : gmap string json * gmap string json) : M (gmap string json * gmap string json) :=
  match l with
  | [] => ret acc
  | p :: l' =>
      fps <- fetchParametersFromSource namespace p ;;
      acc' <- lift (add_params redacted (map_to_list fps) acc) ;;
      add_sources namespace l' acc'
  end.

(** The parameters for the broker, and the same with secret values redacted. *)
Definition buildParameters (namespace : string) (parametersFrom : option (list ParametersFromSource))
    (parameters : option RawExtension) : M (gmap string json * gmap string json) :=
  acc <- add_sources namespace (default [] parametersFrom) (∅, ∅) ;;
  match parameters with
  | None => ret acc
  | Some p =>
      pp <- lift (UnmarshalRawParameters (Raw p)) ;;
      lift (add_params (fun v => v) (map_to_list pp) acc)
  end.

Definition generateChecksumOfParameters (params : gmap string json) : string + error :=
  match json_Marshal_map params with
  | inr err => inr err
  | inl paramsAsJSON => inl (sprintf_x (Sum256 paramsAsJSON))
  end.

Definition originatingIdentityPlatform : string := "kubernetes".
Definition string_list (l : list string) : json := JArray (map JString l).

Definition buildOriginatingIdentity (userInfo : option UserInfo) :
    option AlphaOriginatingIdentity + error :=
  match userInfo with
  | None => inl None
  | Some u =>
      let oiFields : gmap string json :=
        <["groups" := match ui_Groups u with Some g => string_list g | None => JNull end]>
        (<["uid" := JString (ui_UID u)]> (<["username" := JString (ui_Username u)]> ∅)) in
      let oiFields := (string_list <$> ui_Extra u) ∪ oiFields in
      match json_Marshal_map oiFields with
      | inr err => inr err
      | inl oiValue =>
          inl (Some {| oi_Platform := originatingIdentityPlatform; oi_Value := oiValue |})
      end
  end.

Definition serialize (value : json) : string + error :=
  match value with
  | JString strVal => inl strVal
  | _ => json_Marshal value
  end.

(** ** What is built *)

(** A run that succeeds, step by step. *)
Lemma bind_Ok {A B} (m : M A) (k : A -> M B) w b w2 t :
  bind m k w = (Ok b, w2, t) <-> exists a w1 t1 t2, m w = (Ok a, w1, t1) /\ k a w1 = (Ok b, w2, t2) /\ t = t1 ++ t2.
Proof.
  unfold bind. destruct (m w) as [[[a|e|] w1] t1] eqn:Hm; [destruct (k a w1) as [[o w3] t2] eqn:Hk| |]; split.
  1: intros [= -> -> <-]; by exists a, w1, t1, t2.
  1: intros (a' & w1' & t1' & t2' & [= <- <- <-] & Hk' & ->); congruence.
  all: first [intros [=] | intros (? & ? & ? & ? & [=] & _)].
Qed.

Lemma lift_Ok {A} (r : A + error) w (a : A) w' t : (lift r : M A) w = (Ok a, w', t) <-> r = inl a /\ w' = w /\ t = [].
Proof. destruct r; cbn; (split; [intros [= <- <- <-]|]); naive_solver. Qed.

Lemma read_Ok {R} (f : W -> (R + error) * W) w (a : R) w' t : (read f : M R) w = (Ok a, w', t) <-> f w = (inl a, w') /\ t = [].
Proof.
  unfold read. rewrite bind_Ok. setoid_rewrite lift_Ok. unfold call. destruct (f w) as [[r|e] w1] eqn:Hf; split.
  - intros (? & ? & ? & ? & [= <- <- <-] & ([= ->] & -> & ->) & ->). by split.
  - intros ([= -> ->] & ->). by exists (inl a), w', [], [].
  - intros (? & ? & ? & ? & [= <- <- <-] & ([=] & _) & _).
  - by intros ([=] & _).
Qed.

(** What one source holds: the JSON object under the key of its secret, nothing
    without a key. *)
Definition source_holds (namespace : string) (p : ParametersFromSource) (w : W) (m : gmap string json) (w' : W) : Prop :=
  match pfs_SecretKeyRef p with
  | None => m = ∅ /\ w' = w
  | Some ref => exists secret, env_Secrets_Get namespace (skr_Name ref) w = (inl secret, w') /\
      json_Unmarshal (default "" (secret_Data secret !! skr_Key ref)) = inl m
  end.

(** What the sources hold, read one after the other. *)
Inductive sources_hold (namespace : string) : list ParametersFromSource -> W -> list (gmap string json) -> W -> Prop :=
| no_source w : sources_hold namespace [] w [] w
| next_source p l w m w1 ms w2 : source_holds namespace p w m w1 -> sources_hold namespace l w1 ms w2 ->
    sources_hold namespace (p :: l) w (m :: ms) w2.

(** What the request itself holds. *)
Definition inline_parameters (parameters : option RawExtension) : gmap string json + error :=
  match parameters with None => inl ∅ | Some p => UnmarshalRawParameters (Raw p) end.

(** No name in two of the maps. *)
Definition no_duplicates (ms : list (gmap string json)) : Prop := ForallOrdPairs map_disjoint ms.

Lemma fetch_Ok namespace p w m w' t :
  fetchParametersFromSource namespace p w = (Ok m, w', t) <-> source_holds namespace p w m w' /\ t = [].
Proof.
  unfold fetchParametersFromSource, source_holds. destruct (pfs_SecretKeyRef p) as [ref|].
  2: { cbn. split; [intros [= <- <- <-]|intros ([-> ->] & ->)]; done. }
  unfold fetchSecretKeyValue, unmarshalJSON, Secrets_Get. rewrite bind_Ok. split.
  - intros (data & w1 & t1 & t2 & (secret & w2 & t3 & t4 & [Hs ->]%read_Ok & [= <- <- <-] & ->)%bind_Ok & Hj & ->).
    destruct (json_Unmarshal _) as [j|e] eqn:Hd; cbn in Hj; [|done]. injection Hj as -> -> <-. split; [by exists secret|done].
  - intros ((secret & Hs & Hd) & ->). exists (default "" (secret_Data secret !! skr_Key ref)), w', [], [].
    split_and!; [|by rewrite Hd|done]. apply bind_Ok. exists secret, w', [], []. split_and!; [by apply read_Ok|done..].
Qed.

Lemma add_params_lists f src full red :
  NoDup src.*1 -> Forall (fun kv => full !! kv.1 = None) src ->
  add_params f src (full, red) = inl (list_to_map src ∪ full, (f <$> list_to_map src) ∪ red).
Proof.
  revert full red. induction src as [|[k v] src IH]; cbn; intros full red Hnd Hn.
  { by rewrite fmap_empty, !(left_id_L ∅ (∪)). }
  apply list.NoDup_cons in Hnd as [Hk Hnd]. apply List.Forall_cons_iff in Hn as [Hkn Hn]. cbn in Hkn. rewrite Hkn.
  pose proof Hk as Hk'. apply not_elem_of_list_to_map in Hk. rewrite IH; [|done|].
  - rewrite fmap_insert, <-!insert_union_l, (insert_union_r (list_to_map src)) by done.
    by rewrite (insert_union_r (f <$> list_to_map src)) by (by rewrite lookup_fmap, Hk).
  - apply list.Forall_forall. intros [k' v'] Hin. rewrite list.Forall_forall in Hn. rewrite lookup_insert_ne; [by apply (Hn (k', v'))|].
    cbn. intros ->. apply Hk', list_elem_of_fmap. by exists (k', v').
Qed.

Lemma add_params_free f src full red acc :
  add_params f src (full, red) = inl acc -> Forall (fun kv => full !! kv.1 = None) src.
Proof.
  revert full red. induction src as [|[k v] src IH]; cbn; intros full red H; [constructor|].
  destruct (full !! k) eqn:Hk; [done|]. constructor; [done|]. apply IH in H.
  eapply List.Forall_impl; [|exact H]. cbn. intros kv. rewrite lookup_insert_None. tauto.
Qed.

(** Adding a map succeeds when none of its names is there. *)
Lemma add_params_Ok f (m full red full' red' : gmap string json) :
  add_params f (map_to_list m) (full, red) = inl (full', red') <->
  m ##ₘ full /\ full' = m ∪ full /\ red' = (f <$> m) ∪ red.
Proof.
  assert (Hfree : Forall (fun kv => full !! kv.1 = None) (map_to_list m) <-> m ##ₘ full).
  { rewrite list.Forall_forall, map_disjoint_spec. split.
    - intros H k x y Hx Hy. specialize (H (k, x)). rewrite elem_of_map_to_list in H. cbn in H. rewrite H in Hy by done. done.
    - intros H [k x] Hx%elem_of_map_to_list. cbn. destruct (full !! k) eqn:Hk; [|done]. by destruct (H k x j Hx Hk). }
  split.
  - intros H. pose proof (add_params_free _ _ _ _ _ H) as Hf.
    rewrite add_params_lists, list_to_map_to_list in H by (done || apply NoDup_fst_map_to_list). injection H as <- <-.
    by rewrite <-Hfree.
  - intros (Hd & -> & ->). rewrite add_params_lists, list_to_map_to_list; [done|apply NoDup_fst_map_to_list|by apply Hfree].
Qed.

Lemma disjoint_list (m : gmap string json) ms : Forall (map_disjoint m) ms <-> m ##ₘ ⋃ ms.
Proof. rewrite map_disjoint_union_list_r. split; intros H; (eapply List.Forall_impl; [|exact H]); by symmetry. Qed.

Lemma add_sources_Ok namespace l full red w full' red' w' t :
  add_sources namespace l (full, red) w = (Ok (full', red'), w', t) <->
  t = [] /\ exists ms, sources_hold namespace l w ms w' /\ no_duplicates ms /\ full ##ₘ ⋃ ms /\
    full' = ⋃ ms ∪ full /\ red' = (redacted <$> ⋃ ms) ∪ red.
Proof.
  revert full red w t. induction l as [|p l IH]; intros full red w t; cbn [add_sources].
  - split.
    + intros [= <- <- <- <-]. split; [done|]. exists []. cbn. rewrite fmap_empty, !(left_id_L ∅ (∪)).
      split_and!; try done; [constructor..|]. apply map_disjoint_empty_r.
    + intros (-> & ms & Hms & _ & _ & -> & ->). inversion Hms. cbn. by rewrite fmap_empty, !(left_id_L ∅ (∪)).
  - rewrite bind_Ok. setoid_rewrite fetch_Ok. setoid_rewrite bind_Ok. setoid_rewrite lift_Ok. split.
    + intros (m & w1 & ? & ? & [Hm ->] & ([full1 red1] & ? & ? & ? & (Hadd & -> & ->) & Hrest & ->) & ->).
      apply add_params_Ok in Hadd as (Hd & -> & ->). apply IH in Hrest as (-> & ms & Hms & Hno & Hdis & -> & ->).
      apply map_disjoint_union_l in Hdis as [Hmd Hfd]. split; [done|]. exists (m :: ms). cbn.
      split_and!; [by econstructor|constructor; [by apply disjoint_list|done]|by apply map_disjoint_union_r| |].
      * by rewrite (assoc_L (∪)), (map_union_comm m) by done.
      * rewrite map_fmap_union, (assoc_L (∪)), (map_union_comm (redacted <$> m)) by (by apply map_disjoint_fmap). done.
    + intros (-> & ms' & Hms & Hno & Hdis & -> & ->). inversion Hms as [|? ? ? m w1 ms ? Hm Hrest]; subst.
      inversion Hno as [|? ? Hmd%disjoint_list Hno']; subst. cbn in Hdis. apply map_disjoint_union_r in Hdis as [Hfm Hfd].
      exists m, w1, [], []. split_and!; [done|done| |done].
      exists (m ∪ full, (redacted <$> m) ∪ red), w1, [], []. split_and!; try done.
      { apply add_params_Ok. by split_and!. }
      apply IH. split; [done|]. exists ms. split_and!; [done|done|by apply map_disjoint_union_l| |].
      * cbn. by rewrite (assoc_L (∪)), (map_union_comm m) by done.
      * cbn. rewrite map_fmap_union, (assoc_L (∪)), (map_union_comm (redacted <$> m)) by (by apply map_disjoint_fmap). done.
Qed.

(** Building parameters only reads. *)
Lemma add_sources_reads namespace l acc :
  wp (add_sources namespace l acc) (fun o t => t = [] /\ o <> Panic).
Proof.
  revert acc. induction l as [|p l IH]; intros acc; cbn; [by apply wp_ret|].
  wp_step. unfold fetchParametersFromSource, fetchSecretKeyValue, unmarshalJSON, Secrets_Get.
  repeat (wp_step; cbn); try (by split).
  all: eapply wp_conseq; [apply IH|intros o t [-> Ho]; by split].
Qed.

Lemma wp_buildParameters namespace from params (Q : outcome (gmap string json * gmap string json) -> list Effect -> Prop) :
  (forall p, Q (Ok p) []) -> (forall e, Q (Err e) []) ->
  wp (buildParameters namespace from params) Q.
Proof.
  intros HQ HE. apply wp_bind. eapply wp_conseq; [apply add_sources_reads|].
  intros [acc|e|] t [-> Ho]; [|apply HE|done].
  destruct params as [p|]; [|by apply wp_ret]. repeat (wp_step; cbn); auto.
Qed.

(** C19: the parameters are built exactly so: building succeeds when every source
    and the request hold JSON objects and no name occurs twice, and it gives two
    maps.  The one for the broker is the union of what the sources and the request
    hold.  The one that is stored is the same with every value that came from a
    source, that is, from a secret, replaced by the redaction marker.  Otherwise it
    does not succeed; a success has no effect on the world outside. *)
Theorem stored_parameters_are_redacted namespace parametersFrom parameters w full red w' t :
  buildParameters namespace parametersFrom parameters w = (Ok (full, red), w', t) <->
  t = [] /\ exists secrets inline,
    sources_hold namespace (default [] parametersFrom) w secrets w' /\
    inline_parameters parameters = inl inline /\
    no_duplicates secrets /\ inline ##ₘ ⋃ secrets /\
    full = inline ∪ ⋃ secrets /\
    red = inline ∪ ((fun _ => JString "<redacted>") <$> ⋃ secrets).
Proof.
  unfold buildParameters. rewrite bind_Ok. unfold inline_parameters. change (fun _ : json => JString "<redacted>") with redacted. split.
  - intros ([full0 red0] & w1 & t1 & t2 & Hsrc & Hk & ->). apply add_sources_Ok in Hsrc as (-> & ms & Hms & Hno & _ & -> & ->).
    rewrite !(right_id_L ∅ (∪)) in Hk. destruct parameters as [p|].
    + apply bind_Ok in Hk as (pp & w2 & t3 & t4 & (Hpp & -> & ->)%lift_Ok & (Hadd & -> & ->)%lift_Ok & ->).
      apply add_params_Ok in Hadd as (Hd & -> & ->). rewrite map_fmap_id. split; [done|]. by exists ms, pp.
    + injection Hk as <- <- <- <-. split; [done|]. exists ms, ∅. rewrite !(left_id_L ∅ (∪)).
      split_and!; try done. apply map_disjoint_empty_l.
  - intros (-> & ms & inline & Hms & Hin & Hno & Hd & -> & ->). exists (⋃ ms, redacted <$> ⋃ ms), w', [], [].
    split_and!; [|destruct parameters as [p|]|done].
    + apply add_sources_Ok. split; [done|]. exists ms. rewrite !(right_id_L ∅ (∪)). split_and!; try done. apply map_disjoint_empty_l.
    + apply bind_Ok. exists inline, w', [], []. split_and!; [by apply lift_Ok| |done]. apply lift_Ok. split; [|done].
      apply add_params_Ok. by rewrite map_fmap_id.
    + injection Hin as <-. by rewrite !(left_id_L ∅ (∪)).
Qed.
End parameters.
