(* ===== verification/Validation.v ===== *)
(** * API validation

    [pkg/apis/servicecatalog/validation]: what the API server accepts.  A
    validation function returns the list of its [field.Error]s, of which the
    model keeps the type, the path and the detail (not the offending value, nor
    the supported values of a NotSupported error, listed in map order);
    an object is accepted when the list is empty.  [ValidateObjectMeta] of
    apimachinery checks metadata the model does not have (labels, annotations)
    and is a parameter; the name functions of that package are modelled. *)

From S2P Require Import Prelude Types Environment Regexp Sha256 Json ParametersModel.

(** ** Field errors *)

Inductive FieldErrorType := ErrorTypeRequired | ErrorTypeInvalid | ErrorTypeNotSupported | ErrorTypeForbidden.
Record FieldError := { fe_Type : FieldErrorType; fe_Field : string; fe_Detail : string }.
Notation ErrorList := (list FieldError).

Definition Required (path detail : string) : FieldError :=
  {| fe_Type := ErrorTypeRequired; fe_Field := path; fe_Detail := detail |}.
Definition Invalid (path detail : string) : FieldError :=
  {| fe_Type := ErrorTypeInvalid; fe_Field := path; fe_Detail := detail |}.
Definition NotSupported (path detail : string) : FieldError :=
  {| fe_Type := ErrorTypeNotSupported; fe_Field := path; fe_Detail := detail |}.
Definition Forbidden (path detail : string) : FieldError :=
  {| fe_Type := ErrorTypeForbidden; fe_Field := path; fe_Detail := detail |}.

Definition Child (path name : string) : string := sprint [path; "."; name].
Definition Index (path : string) (i : nat) : string := sprint [path; "["; itoa (Z.of_nat i); "]"].

(** [if b { allErrs = append(allErrs, e) }] *)
Definition when (b : bool) (e : FieldError) : ErrorList := if b then [e] else [].
(** [for _, msg := range msgs { allErrs = append(allErrs, field.Invalid(path, v, msg)) }] *)
Definition invalid_each (path : string) (msgs : list string) : ErrorList := map (Invalid path) msgs.

(** ** Names *)

Definition MaxLenError (n : nat) : string :=
  sprint ["must be no more than "; itoa (Z.of_nat n); " characters"].

Fixpoint examples_text (l : list string) : string :=
  match l with
  | [] => ""
  | [e] => sprint ["'"; e; "', "]
  | e :: l' => sprint ["'"; e; "', "; " or "; examples_text l']
  end.
Definition RegexError (msg fmt : string) (examples : list string) : string :=
  match examples with
  | [] => sprint [msg; " (regex used for validation is '"; fmt; "')"]
  | _ => sprint [msg; " (e.g. "; examples_text examples; "regex used for validation is '"; fmt; "')"]
  end.

Definition alnum_lower := or_class lower digit.
Definition alnum := or_class (or_class lower upper) digit.

Definition dns1123LabelRegexp : regexp := Label alnum_lower (or_class dash alnum_lower).
Definition dns1123SubdomainRegexp : regexp :=
  Cat dns1123LabelRegexp (Star (Cat (Class dot) dns1123LabelRegexp)).

Definition IsDNS1123Label (value : string) : list string :=
  (if Nat.ltb 63 (String.length value) then [MaxLenError 63] else []) ++
  (if MatchString dns1123LabelRegexp value then [] else
     [RegexError "a DNS-1123 label must consist of lower case alphanumeric characters or '-', and must start and end with an alphanumeric character"
        "[a-z0-9]([-a-z0-9]*[a-z0-9])?" ["my-name"; "123-abc"]]).

Definition IsDNS1123Subdomain (value : string) : list string :=
  (if Nat.ltb 253 (String.length value) then [MaxLenError 253] else []) ++
  (if MatchString dns1123SubdomainRegexp value then [] else
     [RegexError "a DNS-1123 subdomain must consist of lower case alphanumeric characters, '-' or '.', and must start and end with an alphanumeric character"
        "[a-z0-9]([-a-z0-9]*[a-z0-9])?(\.[a-z0-9]([-a-z0-9]*[a-z0-9])?)*" ["example.com"]]).

(** [name[:len(name)-2] + "a"] for a name that ends in a dash; a slice with a
    negative bound (the name is a single dash) panics, which the model writes
    as the empty prefix: no caller here passes [prefix]. *)
Definition maskTrailingDash (name : string) : string :=
  match last_char name with
  | Some c => if dash c then sprint [String.substring 0 (String.length name - 2) name; "a"] else name
  | None => name
  end.

Definition NameIsDNSSubdomain (name : string) (prefix : bool) : list string :=
  IsDNS1123Subdomain (if prefix then maskTrailingDash name else name).
Definition NameIsDNSLabel (name : string) (prefix : bool) : list string :=
  IsDNS1123Label (if prefix then maskTrailingDash name else name).
Definition ValidateNamespaceName := NameIsDNSLabel.

Definition validateServiceInstanceName := NameIsDNSSubdomain.
Definition validateServiceInstanceCredentialName := NameIsDNSSubdomain.
Definition ValidateClusterServiceBrokerName := NameIsDNSSubdomain.
Definition validateServiceClassName := NameIsDNSSubdomain.

Definition hexademicalStringRegexp : regexp := Star (Class xdigit).
Definition stringIsHexadecimal (s : string) : bool := MatchString hexademicalStringRegexp s.

(** [guidFmt] is passed to [RegexError] as the message, and the first example
    as the pattern. *)
Definition guidFmt : string := "[a-zA-Z0-9]([-a-zA-Z0-9.]*[a-zA-Z0-9])?".
Definition guidMaxLength : nat := 63.
Definition guidRegexp : regexp := Label alnum (or_class dash (or_class alnum dot)).

Definition validateExternalID (value : string) : list string :=
  (if Nat.ltb guidMaxLength (String.length value) then [MaxLenError guidMaxLength] else []) ++
  (if MatchString guidRegexp value then [] else
     [RegexError guidFmt "my-name" ["123-abc"; "456-DEF"]]).

Definition servicePlanNameFmt : string := "[-a-z0-9]+".
Definition servicePlanNameMaxLength : nat := 63.
Definition servicePlanNameRegexp : regexp := Plus (Class (or_class dash alnum_lower)).

Definition validateServicePlanName (value : string) (prefix : bool) : list string :=
  (if Nat.ltb servicePlanNameMaxLength (String.length value)
   then [MaxLenError servicePlanNameMaxLength] else []) ++
  (if MatchString servicePlanNameRegexp value then [] else
     [RegexError servicePlanNameFmt "plan-name-40d-0983-1b89" []]).

(** ** The parameter of the section *)

(** [apivalidation.ValidateObjectMeta(meta, requiresNamespace, nameFn, path)] *)
Class MetaValidation :=
  ValidateObjectMeta : ObjectMeta -> bool -> (string -> bool -> list string) -> string -> ErrorList.

Section validation.
Context {C : Config} {MV : MetaValidation}.

Definition is_err {A} (r : A + error) : bool := match r with inl _ => false | inr _ => true end.
Definition empty (s : string) : bool := bool_decide (s = "").

(** ** Properties states *)

(** [validateServiceInstancePropertiesState] and its credential twin have the
    same body over the two fields they read. *)
Definition validatePropertiesState (parameters : option RawExtension) (checksum path : string) : ErrorList :=
  match parameters with
  | None =>
      when (negb (empty checksum))
        (Forbidden (Child path "parametersChecksum") "parametersChecksum must be empty when there are no parameters")
  | Some p =>
      (if Nat.eqb (String.length (Raw p)) 0 then
         [Required (Child (Child path "parameters") "raw") "raw must not be empty"]
       else when (is_err (yaml_Unmarshal (Raw p)))
         (Invalid (Child (Child path "parameters") "raw") "raw must be valid yaml")) ++
      when (empty checksum)
        (Forbidden (Child path "parametersChecksum") "parametersChecksum must not be empty when there are parameters")
  end ++
  (if empty checksum then [] else
     when (negb (Nat.eqb (String.length checksum) 64))
       (Invalid (Child path "parametersChecksum") "parametersChecksum must be exactly 64 digits") ++
     when (negb (stringIsHexadecimal checksum))
       (Invalid (Child path "parametersChecksum") "parametersChecksum must be a hexadecimal number")).

Definition validateServiceInstancePropertiesState (ps : ServiceInstancePropertiesState) (path : string) : ErrorList :=
  validatePropertiesState (ps_Parameters ps) (ps_ParametersChecksum ps) path.
Definition validateServiceInstanceCredentialPropertiesState
    (ps : ServiceInstanceCredentialPropertiesState) (path : string) : ErrorList :=
  validatePropertiesState (bps_Parameters ps) (bps_ParametersChecksum ps) path.

(** ** ServiceInstance *)

Definition validateParametersFrom (path : string) (paramsFrom : ParametersFromSource) : ErrorList :=
  match pfs_SecretKeyRef paramsFrom with
  | Some ref =>
      when (empty (skr_Name ref)) (Required (Child path "parametersFrom.secretKeyRef.name") "name is required") ++
      when (empty (skr_Key ref)) (Required (Child path "parametersFrom.secretKeyRef.key") "key is required")
  | None => [Required (Child path "parametersFrom") "source must not be empty if present"]
  end.

Definition validateServiceInstanceSpec (spec : ServiceInstanceSpec) (path : string) : ErrorList :=
  when (empty (ExternalServiceClassName spec))
    (Required (Child path "externalServiceClassName") "externalServiceClassName is required") ++
  invalid_each (Child path "externalServiceClassName")
    (validateServiceClassName (ExternalServiceClassName spec) false) ++
  when (empty (ExternalServicePlanName spec))
    (Required (Child path "externalServicePlanName") "externalServicePlanName is required") ++
  invalid_each (Child path "externalServicePlanName")
    (validateServicePlanName (ExternalServicePlanName spec) false) ++
  match ParametersFrom spec with
  | Some l => flat_map (validateParametersFrom path) l
  | None => []
  end ++
  match Parameters spec with
  | Some p =>
      when (Nat.eqb (String.length (Raw p)) 0)
        (Required (Child path "parameters") "inline parameters must not be empty if present") ++
      when (is_err (UnmarshalRawParameters (Raw p)))
        (Required (Child path "parameters") "invalid inline parameters")
  | None => []
  end.

Definition validServiceInstanceOperations (op : ServiceInstanceOperation) : bool :=
  match op with OperationOther _ => false | _ => true end.

(** [for i, c := range status.Conditions]: no Ready condition may be true. *)
Fixpoint no_ready_true (i : nat) (conds : list ServiceInstanceCondition) (path detail : string) : ErrorList :=
  match conds with
  | [] => []
  | c :: conds' =>
      when (bool_decide (cond_Type c = ConditionReady) && bool_decide (cond_Status c = ConditionTrue))
        (Forbidden (Index (Child path "conditions") i) detail) ++
      no_ready_true (S i) conds' path detail
  end.

Definition validateServiceInstanceStatus (status : ServiceInstanceStatus) (path : string) (create : bool) : ErrorList :=
  (if create then
     when (bool_decide (CurrentOperation status <> OperationNone))
       (Invalid (Child path "currentOperation") "currentOperation must be empty on create")
   else
     when (negb (validServiceInstanceOperations (CurrentOperation status)))
       (NotSupported (Child path "currentOperation") "")) ++
  (if decide (CurrentOperation status = OperationNone) then
     when (bool_decide (OperationStartTime status <> None))
       (Forbidden (Child path "operationStartTime") "operationStartTime must not be present when currentOperation is not present") ++
     when (AsyncOpInProgress status)
       (Forbidden (Child path "asyncOpInProgress") "asyncOpInProgress cannot be true when there is no currentOperation") ++
     when (bool_decide (LastOperation status <> None))
       (Forbidden (Child path "lastOperation") "lastOperation cannot be true when currentOperation is not present")
   else
     when (bool_decide (OperationStartTime status = None))
       (Required (Child path "operationStartTime") "operationStartTime is required when currentOperation is present") ++
     no_ready_true 0 (Conditions status) path
       "Can not set ServiceInstanceConditionReady to true when there is an operation in progress") ++
  match CurrentOperation status, InProgressProperties status with
  | (OperationProvision | OperationUpdate), None =>
      [Required (Child path "inProgressProperties") (sprint ["inProgressProperties is required when currentOperation is "; dq; "Provision"; dq; " or "; dq; "Update"; dq])]
  | (OperationProvision | OperationUpdate), Some _ => []
  | _, Some _ =>
      [Forbidden (Child path "inProgressProperties") (sprint ["inProgressProperties must not be present when currentOperation is neither "; dq; "Provision"; dq; " nor "; dq; "Update"; dq])]
  | _, None => []
  end ++
  match InProgressProperties status with
  | Some ps => validateServiceInstancePropertiesState ps (Child path "inProgressProperties")
  | None => []
  end ++
  match ExternalProperties status with
  | Some ps => validateServiceInstancePropertiesState ps (Child path "externalProperties")
  | None => []
  end.

Definition validateServiceInstanceCreate (instance : ServiceInstance) : ErrorList :=
  when (Generation (si_Meta instance) <=? ReconciledGeneration (si_Status instance))
    (Invalid (Child "status" "reconciledGeneration") "reconciledGeneration must be less than generation on create").

Definition validateServiceInstanceUpdate (instance : ServiceInstance) : ErrorList :=
  if ReconciledGeneration (si_Status instance) =? Generation (si_Meta instance) then
    when (bool_decide (CurrentOperation (si_Status instance) <> OperationNone))
      (Forbidden (Child "status" "currentOperation") "currentOperation must not be present when reconciledGeneration and generation are equal")
  else
    when (Generation (si_Meta instance) <? ReconciledGeneration (si_Status instance))
      (Invalid (Child "status" "reconciledGeneration") "reconciledGeneration must not be greater than generation").

Definition internalValidateServiceInstance (instance : ServiceInstance) (create : bool) : ErrorList :=
  ValidateObjectMeta (si_Meta instance) true validateServiceInstanceName "metadata" ++
  validateServiceInstanceSpec (si_Spec instance) "spec" ++
  validateServiceInstanceStatus (si_Status instance) "status" create ++
  (if create then validateServiceInstanceCreate instance else validateServiceInstanceUpdate instance).

Definition ValidateServiceInstance (instance : ServiceInstance) : ErrorList :=
  internalValidateServiceInstance instance true.

Definition internalValidateServiceInstanceUpdateAllowed (new old : ServiceInstance) : ErrorList :=
  when (negb (Generation (si_Meta old) =? Generation (si_Meta new)) &&
        negb (ReconciledGeneration (si_Status old) =? Generation (si_Meta old)))
    (Forbidden "spec" "Another update for this service instance is in progress").

Definition ValidateServiceInstanceUpdate (new old : ServiceInstance) : ErrorList :=
  internalValidateServiceInstanceUpdateAllowed new old ++ internalValidateServiceInstance new false.
Definition internalValidateServiceInstanceStatusUpdateAllowed (new old : ServiceInstance) : ErrorList := [].
Definition internalValidateServiceInstanceReferencesUpdateAllowed (new old : ServiceInstance) : ErrorList := [].
Definition ValidateServiceInstanceStatusUpdate (new old : ServiceInstance) : ErrorList :=
  internalValidateServiceInstanceStatusUpdateAllowed new old ++ internalValidateServiceInstance new false.
Definition ValidateServiceInstanceReferencesUpdate (new old : ServiceInstance) : ErrorList :=
  internalValidateServiceInstanceReferencesUpdateAllowed new old ++ internalValidateServiceInstance new false.

(** ** ServiceInstanceCredential *)

Definition validateServiceInstanceCredentialSpec (spec : ServiceInstanceCredentialSpec) (path : string) : ErrorList :=
  invalid_each (Child path "instanceRef.name")
    (validateServiceInstanceName (lref_Name (ServiceInstanceRef spec)) false) ++
  invalid_each (Child path "secretName") (NameIsDNSSubdomain (SecretName spec) false).

Definition validServiceInstanceCredentialOperations (op : ServiceInstanceCredentialOperation) : bool :=
  match op with BOperationOther _ => false | _ => true end.

Definition validateServiceInstanceCredentialStatus (status : ServiceInstanceCredentialStatus)
    (path : string) (create : bool) : ErrorList :=
  (if create then
     when (bool_decide (bind_CurrentOperation status <> BOperationNone))
       (Invalid (Child path "currentOperation") "currentOperation must be empty on create")
   else
     when (negb (validServiceInstanceCredentialOperations (bind_CurrentOperation status)))
       (NotSupported (Child path "currentOperation") "")) ++
  (if decide (bind_CurrentOperation status = BOperationNone) then
     when (bool_decide (bind_OperationStartTime status <> None))
       (Forbidden (Child path "operationStartTime") "operationStartTime must not be present when currentOperation is not present")
   else
     when (bool_decide (bind_OperationStartTime status = None))
       (Required (Child path "operationStartTime") "operationStartTime is required when currentOperation is present") ++
     no_ready_true 0 (bind_Conditions status) path
       "Can not set ServiceInstanceCredentialConditionReady to true when there is an operation in progress") ++
  match bind_CurrentOperation status, bind_InProgressProperties status with
  | BOperationBind, None =>
      [Required (Child path "inProgressProperties") (sprint ["inProgressProperties is required when currentOperation is "; dq; "Bind"; dq])]
  | BOperationBind, Some _ => []
  | _, Some _ =>
      [Forbidden (Child path "inProgressProperties") (sprint ["inProgressProperties must not be present when currentOperation is not "; dq; "Bind"; dq])]
  | _, None => []
  end ++
  match bind_InProgressProperties status with
  | Some ps => validateServiceInstanceCredentialPropertiesState ps (Child path "inProgressProperties")
  | None => []
  end ++
  match bind_ExternalProperties status with
  | Some ps => validateServiceInstanceCredentialPropertiesState ps (Child path "externalProperties")
  | None => []
  end.

Definition validateServiceInstanceCredentialCreate (binding : ServiceInstanceCredential) : ErrorList :=
  when (Generation (bind_Meta binding) <=? bind_ReconciledGeneration (bind_Status binding))
    (Invalid (Child "status" "reconciledGeneration") "reconciledGeneration must be less than generation on create").

Definition validateServiceInstanceCredentialUpdate (binding : ServiceInstanceCredential) : ErrorList :=
  if bind_ReconciledGeneration (bind_Status binding) =? Generation (bind_Meta binding) then
    when (bool_decide (bind_CurrentOperation (bind_Status binding) <> BOperationNone))
      (Forbidden (Child "status" "currentOperation") "currentOperation must not be present when reconciledGeneration and generation are equal")
  else
    when (Generation (bind_Meta binding) <? bind_ReconciledGeneration (bind_Status binding))
      (Invalid (Child "status" "reconciledGeneration") "reconciledGeneration must not be greater than generation").

Definition internalValidateServiceInstanceCredential (binding : ServiceInstanceCredential) (create : bool) : ErrorList :=
  ValidateObjectMeta (bind_Meta binding) true validateServiceInstanceCredentialName "metadata" ++
  validateServiceInstanceCredentialSpec (bind_Spec binding) "spec" ++
  validateServiceInstanceCredentialStatus (bind_Status binding) "status" create ++
  (if create then validateServiceInstanceCredentialCreate binding
   else validateServiceInstanceCredentialUpdate binding).

Definition ValidateServiceInstanceCredential (binding : ServiceInstanceCredential) : ErrorList :=
  internalValidateServiceInstanceCredential binding true.

Definition internalValidateServiceInstanceCredentialUpdateAllowed (new old : ServiceInstanceCredential) : ErrorList :=
  when (negb (Generation (bind_Meta old) =? Generation (bind_Meta new)) &&
        negb (bind_ReconciledGeneration (bind_Status old) =? Generation (bind_Meta old)))
    (Forbidden "spec" "another change to the spec is in progress").

Definition ValidateServiceInstanceCredentialUpdate (new old : ServiceInstanceCredential) : ErrorList :=
  internalValidateServiceInstanceCredentialUpdateAllowed new old ++
  internalValidateServiceInstanceCredential new false.
Definition ValidateServiceInstanceCredentialStatusUpdate (new old : ServiceInstanceCredential) : ErrorList :=
  internalValidateServiceInstanceCredential new false.

(** ** ClusterServiceBroker *)

(** The namespace and name of a secret reference. *)
Definition validateSecretRef (path : string) (ref : ObjectReference) : ErrorList :=
  invalid_each (Child path "namespace") (ValidateNamespaceName (ref_Namespace ref) false) ++
  invalid_each (Child path "name") (NameIsDNSSubdomain (ref_Name ref) false).

Definition validateAuthInfo (path : string) (ai : ServiceBrokerAuthInfo) : ErrorList :=
  match Basic ai with
  | Some basic =>
      match bac_SecretRef basic with
      | Some ref => validateSecretRef (Child path "authInfo.basic.secretRef") ref
      | None => [Required (Child path "authInfo.basic.secretRef") "a basic auth secret is required"]
      end
  | None =>
      match Bearer ai with
      | Some bearer =>
          match btac_SecretRef bearer with
          | Some ref => validateSecretRef (Child path "authInfo.bearer.secretRef") ref
          | None => [Required (Child path "authInfo.bearer.secretRef") "a basic auth secret is required"]
          end
      | None =>
          match BasicAuthSecret ai with
          | Some ref => validateSecretRef (Child path "authInfo.basicAuthSecret") ref
          | None => [Required (Child path "authInfo") "auth config is required"]
          end
      end
  end.

Definition validateClusterServiceBrokerSpec (spec : ClusterServiceBrokerSpec) (path : string) : ErrorList :=
  when (empty (URL spec)) (Required (Child path "url") "brokers must have a remote url to contact") ++
  match AuthInfo spec with Some ai => validateAuthInfo path ai | None => [] end ++
  when (InsecureSkipTLSVerify spec && Nat.ltb 0 (String.length (CABundle spec)))
    (Invalid (Child path "caBundle") "caBundle cannot be used when insecureSkipTLSVerify is true") ++
  when (bool_decide (RelistBehavior spec = RelistBehaviorOther ""))
    (Required (Child path "relistBehavior") "relist behavior is required") ++
  when (negb (bool_decide (RelistBehavior spec = RelistBehaviorDuration) ||
              bool_decide (RelistBehavior spec = RelistBehaviorManual)))
    (Required (Child path "relistBehavior") (sprint ["relist behavior must be "; dq; "Manual"; dq; " or "; dq; "Duration"; dq])) ++
  when (bool_decide (RelistBehavior spec = RelistBehaviorDuration) && bool_decide (RelistDuration spec = None))
    (Required (Child path "relistDuration") "relistDuration must be set if relistBehavior is set to Duration") ++
  when (bool_decide (RelistBehavior spec = RelistBehaviorManual) && bool_decide (RelistDuration spec <> None))
    (Required (Child path "relistDuration") "relistDuration must not be set if relistBehavior is set to Manual") ++
  when (RelistRequests spec <? 0)
    (Required (Child path "relistRequests") "relistDuration must be greater than zero").

Definition ValidateClusterServiceBroker (broker : ClusterServiceBroker) : ErrorList :=
  ValidateObjectMeta (b_Meta broker) false ValidateClusterServiceBrokerName "metadata" ++
  validateClusterServiceBrokerSpec (b_Spec broker) "spec".
Definition ValidateClusterServiceBrokerUpdate (new old : ClusterServiceBroker) : ErrorList :=
  ValidateClusterServiceBroker new.
Definition ValidateClusterServiceBrokerStatusUpdate (new old : ClusterServiceBroker) : ErrorList :=
  ValidateClusterServiceBrokerUpdate new old.

(** ** ServiceClass and ServicePlan *)

Definition validateServiceClassSpec (spec : ServiceClassSpec) (path : string) : ErrorList :=
  when (empty (sc_ClusterServiceBrokerName spec))
    (Required (Child path "clusterServiceBrokerName") "clusterServiceBrokerName is required") ++
  when (empty (sc_ExternalID spec)) (Required (Child path "externalID") "externalID is required") ++
  when (empty (sc_Description spec)) (Required (Child path "description") "description is required") ++
  invalid_each (Child path "externalName") (validateServiceClassName (sc_ExternalName spec) false) ++
  invalid_each (Child path "externalID") (validateExternalID (sc_ExternalID spec)).

Definition internalValidateServiceClass (sc : ServiceClass) : ErrorList :=
  ValidateObjectMeta (sc_Meta sc) false validateServiceClassName "metadata" ++
  validateServiceClassSpec (sc_Spec sc) "spec".
Definition ValidateServiceClass (sc : ServiceClass) : ErrorList := internalValidateServiceClass sc.
Definition ValidateServiceClassUpdate (new old : ServiceClass) : ErrorList :=
  internalValidateServiceClass new.

Definition validateServicePlanSpec (spec : ServicePlanSpec) (path : string) : ErrorList :=
  when (empty (sp_ClusterServiceBrokerName spec))
    (Required (Child path "ClusterServiceBrokerName") "ClusterServiceBrokerName is required") ++
  when (empty (sp_ExternalID spec)) (Required (Child path "externalID") "externalID is required") ++
  when (empty (sp_Description spec)) (Required (Child path "description") "description is required") ++
  when (empty (lref_Name (sp_ServiceClassRef spec)))
    (Required (Child path "serviceClassRef") "an owning serviceclass is required") ++
  invalid_each (Child path "externalName") (validateServicePlanName (sp_ExternalName spec) false) ++
  invalid_each (Child path "externalID") (validateExternalID (sp_ExternalID spec)) ++
  invalid_each (Child path "serviceClassRef.name")
    (validateServiceClassName (lref_Name (sp_ServiceClassRef spec)) false).

Definition internalValidateServicePlan (sp : ServicePlan) : ErrorList :=
  ValidateObjectMeta (sp_Meta sp) false validateServicePlanName "metadata" ++
  validateServicePlanSpec (sp_Spec sp) "spec".
Definition ValidateServicePlan (sp : ServicePlan) : ErrorList := internalValidateServicePlan sp.
Definition ValidateServicePlanUpdate (new old : ServicePlan) : ErrorList :=
  internalValidateServicePlan new ++
  when (bool_decide (sp_ExternalID (sp_Spec new) <> sp_ExternalID (sp_Spec old)))
    (Invalid (Child "spec" "externalID") "externalID cannot change when updating a ServicePlan").
End validation.
