(* ===== verification/ControllerCommon.v ===== *)
(** * Shared controller routines

    From [pkg/controller/controller.go]: broker credentials, the client
    configuration, owner references, and the rule on bindable plans. *)

From S2P Require Import Prelude Types Environment.

Section common.
Context {W : Type} {E : Env W}.
Local Notation M := (M W Effect).
Local Open Scope go_scope.

Definition getBasicAuthConfig (secret : Secret) : AuthConfig + error :=
  match secret_Data secret !! "username" with
  | None => inr (PlainError "auth secret didn't contain username")
  | Some usernameBytes =>
      match secret_Data secret !! "password" with
      | None => inr (PlainError "auth secret didn't contain password")
      | Some passwordBytes => inl (BasicAuth usernameBytes passwordBytes)
      end
  end.

Definition getBearerConfig (secret : Secret) : AuthConfig + error :=
  match secret_Data secret !! "token" with
  | None => inr (PlainError "auth secret didn't contain token")
  | Some tokenBytes => inl (BearerAuth tokenBytes)
  end.

(** The secret reference of a [Basic] or [Bearer] section is a pointer that
    the code dereferences without a check. *)
Definition getAuthCredentialsFromClusterServiceBroker (broker : ClusterServiceBroker) :
    M (option AuthConfig) :=
  match AuthInfo (b_Spec broker) with
  | None => ret None
  | Some authInfo =>
      match Basic authInfo, Bearer authInfo, BasicAuthSecret authInfo with
      | Some basic, _, _ =>
          secretRef <- deref (bac_SecretRef basic) ;;
          secret <- Secrets_Get (ref_Namespace secretRef) (ref_Name secretRef) ;;
          config <- lift (getBasicAuthConfig secret) ;;
          ret (Some config)
      | None, Some bearer, _ =>
          secretRef <- deref (btac_SecretRef bearer) ;;
          secret <- Secrets_Get (ref_Namespace secretRef) (ref_Name secretRef) ;;
          config <- lift (getBearerConfig secret) ;;
          ret (Some config)
      | None, None, Some secretRef =>
          secret <- Secrets_Get (ref_Namespace secretRef) (ref_Name secretRef) ;;
          config <- lift (getBasicAuthConfig secret) ;;
          ret (Some config)
      | None, None, None => fail (PlainError "empty auth info or unsupported auth mode: &{%!s(*v1alpha1.BasicAuthConfig=<nil>) %!s(*v1alpha1.BearerTokenAuthConfig=<nil>) %!s(*v1.ObjectReference=<nil>)}")
      end
  end.
End common.

Definition NewClientConfigurationForBroker (broker : ClusterServiceBroker)
    (authConfig : option AuthConfig) : ClientConfiguration :=
  {| cc_Name := Name (b_Meta broker); cc_URL := URL (b_Spec broker);
     cc_AuthConfig := authConfig; cc_EnableAlphaFeatures := true;
     cc_Insecure := InsecureSkipTLSVerify (b_Spec broker);
     cc_CAData := CABundle (b_Spec broker) |}.

Definition GetControllerOf (controllee : ObjectMeta) : option OwnerReference :=
  List.find (fun ref => match or_Controller ref with Some b => b | None => false end)
    (OwnerReferences controllee).

Definition IsControlledBy (obj owner : ObjectMeta) : bool :=
  match GetControllerOf obj with
  | None => false
  | Some ref => bool_decide (or_UID ref = UID owner)
  end.

Definition NewControllerRef (owner : ObjectMeta) (apiVersion kind : string) : OwnerReference :=
  {| or_APIVersion := apiVersion; or_Kind := kind; or_Name := Name owner; or_UID := UID owner;
     or_BlockOwnerDeletion := Some true; or_Controller := Some true |}.

Definition isPlanBindable (serviceClass : ServiceClass) (plan : ServicePlan) : bool :=
  match sp_Bindable (sp_Spec plan) with
  | Some b => b
  | None => sc_Bindable (sc_Spec serviceClass)
  end.

(** A broker whose authentication section names its secret, as
    [ValidateClusterServiceBroker] requires. *)
Definition auth_ref_set (broker : ClusterServiceBroker) : Prop :=
  match AuthInfo (b_Spec broker) with
  | Some ai =>
      (forall b, Basic ai = Some b -> bac_SecretRef b <> None) /\
      (forall b, Basic ai = None -> Bearer ai = Some b -> btac_SecretRef b <> None)
  | None => True
  end.

Lemma wp_getAuthCredentials {W} {E : Env W} broker (Q : outcome (option AuthConfig) -> list Effect -> Prop) :
  auth_ref_set broker ->
  (forall a, Q (Ok a) []) -> (forall e, Q (Err e) []) ->
  wp (getAuthCredentialsFromClusterServiceBroker broker) Q.
Proof.
  intros Hok HA HE. unfold getAuthCredentialsFromClusterServiceBroker, auth_ref_set, Secrets_Get in *.
  repeat (wp_step; cbn); eauto; exfalso; naive_solver.
Qed.
