(* ===== verification/ValidationSpec.v ===== *)
(** * What validation accepts

    Declarative readings of the validation functions: when the error list is
    empty.  The controller's theorems are proved against these readings. *)

From S2P Require Import Prelude Types Environment Conditions Regexp Sha256 Json ParametersModel Validation ControllerCommon.

(** ** Error lists *)

Lemma app_nil_iff {A} (l1 l2 : list A) : l1 ++ l2 = [] <-> l1 = [] /\ l2 = [].
Proof. destruct l1, l2; naive_solver. Qed.

Lemma when_nil b e : when b e = [] <-> b = false.
Proof. by destruct b. Qed.

Lemma invalid_each_nil path l : invalid_each path l = [] <-> l = [].
Proof. by destruct l. Qed.

Lemma flat_map_nil {A B} (f : A -> list B) l : flat_map f l = [] <-> forall x, x ∈ l -> f x = [].
Proof.
  induction l as [|x l IH]; cbn; [set_solver|]. rewrite app_nil_iff, IH.
  setoid_rewrite elem_of_cons. naive_solver.
Qed.

Lemma if_nil {A} (b : bool) (x : A) : (if b then [] else [x]) = [] <-> b = true.
Proof. by destruct b. Qed.

Lemma empty_false s : empty s = false <-> s <> "".
Proof. unfold empty. by rewrite bool_decide_eq_false. Qed.
Lemma empty_true s : empty s = true <-> s = "".
Proof. unfold empty. by rewrite bool_decide_eq_true. Qed.

(** ** Names *)

Definition plan_char := or_class dash alnum_lower.
Definition guid_char := or_class dash (or_class alnum dot).

Lemma plan_name_spec s prefix :
  validateServicePlanName s prefix = [] <->
  (1 <= String.length s <= 63)%nat /\ all_chars plan_char s = true.
Proof.
  unfold validateServicePlanName, servicePlanNameMaxLength, servicePlanNameRegexp.
  rewrite app_nil_iff, if_nil, MatchString_spec, Match_plus_class.
  assert (Hlen : s <> "" <-> (1 <= String.length s)%nat) by (destruct s; cbn; split; [done|lia|lia|done]).
  rewrite Hlen. fold plan_char.
  destruct (Nat.ltb_spec 63 (String.length s)); split; intros; destruct_and?; split_and?; try done; lia.
Qed.

Lemma external_id_spec s :
  validateExternalID s = [] <->
  (String.length s <= 63)%nat /\
  (exists c, first_char s = Some c /\ alnum c = true) /\
  (exists c, last_char s = Some c /\ alnum c = true) /\
  all_chars guid_char s = true.
Proof.
  unfold validateExternalID, guidMaxLength, guidRegexp.
  rewrite app_nil_iff, if_nil, MatchString_spec, Match_Label.
  - fold guid_char. destruct (Nat.ltb_spec 63 (String.length s)); split; intros; destruct_and?; split_and?; try done; lia.
  - intros c Hc. unfold or_class in *. by rewrite Hc, orb_true_r.
Qed.

Lemma hexadecimal_spec s : stringIsHexadecimal s = true <-> all_chars xdigit s = true.
Proof. unfold stringIsHexadecimal, hexademicalStringRegexp. by rewrite MatchString_spec, Match_star_class. Qed.

(** ** The checksum of parameters is always a valid checksum *)

Lemma hex_digit_xdigit n : 0 <= n < 16 -> xdigit (hex_digit n) = true.
Proof.
  intros H. rewrite <-(Z2Nat.id n) by lia. assert (Hn : (Z.to_nat n < 16)%nat) by lia.
  revert Hn. generalize (Z.to_nat n) as k. intros k Hk.
  do 16 (destruct k as [|k]; [reflexivity|]). lia.
Qed.

Lemma sprintf_x_hex l : Forall (fun b => 0 <= b < 256) l -> all_chars xdigit (sprintf_x l) = true.
Proof.
  induction 1 as [|b l Hb Hl IH]; [done|]. cbn [sprintf_x all_chars].
  rewrite !hex_digit_xdigit; [exact IH|apply Z.mod_pos_bound; lia|].
  split; [apply Z.div_pos; lia|apply Z.div_lt_upper_bound; lia].
Qed.

(** What a checksum must look like. *)
Definition checksum_ok (s : string) : Prop :=
  String.length s = 64%nat /\ all_chars xdigit s = true.

Lemma generated_checksum_ok params s : generateChecksumOfParameters params = inl s -> checksum_ok s.
Proof.
  unfold generateChecksumOfParameters, json_Marshal_map. intros [= <-]. split.
  - by rewrite sprintf_x_length, Sum256_length.
  - apply sprintf_x_hex, Sum256_bytes.
Qed.

Section accepted.
Context {C : Config} {MV : MetaValidation}.

(** ** Properties states *)

(** Parameters and checksum come together; the parameters are YAML. *)
Definition properties_ok (parameters : option RawExtension) (checksum : string) : Prop :=
  match parameters with
  | None => checksum = ""
  | Some p => Raw p <> "" /\ is_err (yaml_Unmarshal (Raw p)) = false /\ checksum_ok checksum
  end.

Lemma checksum_ok_nonempty s : checksum_ok s -> s <> "".
Proof. by intros [H _] ->. Qed.

Lemma checksum_errors_nil s path :
  (if empty s then [] else
     when (negb (Nat.eqb (String.length s) 64))
       (Invalid (Child path "parametersChecksum") "parametersChecksum must be exactly 64 digits") ++
     when (negb (stringIsHexadecimal s))
       (Invalid (Child path "parametersChecksum") "parametersChecksum must be a hexadecimal number")) = []
  <-> s = "" \/ checksum_ok s.
Proof.
  destruct (empty s) eqn:He.
  - apply empty_true in He. naive_solver.
  - apply empty_false in He.
    rewrite app_nil_iff, !when_nil, !negb_false_iff, Nat.eqb_eq, hexadecimal_spec.
    unfold checksum_ok. naive_solver.
Qed.

Lemma validatePropertiesState_spec p c path :
  validatePropertiesState p c path = [] <-> properties_ok p c.
Proof.
  unfold validatePropertiesState. rewrite app_nil_iff, checksum_errors_nil.
  destruct p as [p|]; cbn [properties_ok].
  - rewrite app_nil_iff, when_nil, empty_false.
    assert (Hraw : Raw p <> "" <-> Nat.eqb (String.length (Raw p)) 0 = false).
    { rewrite Nat.eqb_neq. by destruct (Raw p). }
    rewrite Hraw. pose proof (checksum_ok_nonempty c).
    destruct (Nat.eqb _ 0); [naive_solver|]. rewrite when_nil. naive_solver.
  - rewrite when_nil, negb_false_iff, empty_true. naive_solver.
Qed.

Definition instance_properties_ok (o : option ServiceInstancePropertiesState) : Prop :=
  match o with Some ps => properties_ok (ps_Parameters ps) (ps_ParametersChecksum ps) | None => True end.
Definition binding_properties_ok (o : option ServiceInstanceCredentialPropertiesState) : Prop :=
  match o with Some ps => properties_ok (bps_Parameters ps) (bps_ParametersChecksum ps) | None => True end.

(** ** Conditions *)

(** No condition of type Ready is true. *)
Fixpoint never_ready (conds : list ServiceInstanceCondition) : bool :=
  match conds with
  | [] => true
  | c :: conds' =>
      negb (bool_decide (cond_Type c = ConditionReady) && bool_decide (cond_Status c = ConditionTrue))
      && never_ready conds'
  end.

Lemma no_ready_true_nil i conds path d : no_ready_true i conds path d = [] <-> never_ready conds = true.
Proof.
  revert i. induction conds as [|c conds IH]; intros i; cbn; [done|].
  rewrite app_nil_iff, when_nil, IH, andb_true_iff, negb_true_iff. done.
Qed.

Lemma never_ready_set conds typ st r m t :
  (typ = ConditionReady -> st <> ConditionTrue) ->
  never_ready conds = true -> never_ready (set_condition conds typ st r m t) = true.
Proof.
  intros Hst. rewrite set_condition_replace.
  assert (Hnew : bool_decide (typ = ConditionReady) && bool_decide (st = ConditionTrue) = false).
  { case_bool_decide; [|done]. rewrite bool_decide_eq_false_2; auto. }
  induction conds as [|c conds IH]; cbn; intros H; [by rewrite Hnew|].
  apply andb_prop in H as [H1 H2]. destruct (decide (cond_Type c = typ)) as [E|E]; cbn.
  - by rewrite Hnew.
  - by rewrite H1, IH.
Qed.

(** With one entry per type, a non-true Ready entry is the only one. *)
Lemma never_ready_set_ready conds st r m t :
  NoDup (cond_Type <$> conds) -> st <> ConditionTrue ->
  never_ready (set_condition conds ConditionReady st r m t) = true.
Proof.
  intros Hnd Hst. rewrite set_condition_replace.
  induction conds as [|c conds IH]; cbn in *; [by rewrite (bool_decide_eq_false_2 (st = _))|].
  apply list.NoDup_cons in Hnd as [Hnin Hnd]. destruct (decide (cond_Type c = ConditionReady)) as [E|E]; cbn.
  - rewrite (bool_decide_eq_false_2 (st = _)) by done. rewrite andb_false_r. cbn.
    rewrite E in Hnin. clear -Hnin. induction conds as [|d conds IH]; cbn; [done|].
    cbn in Hnin. rewrite bool_decide_eq_false_2; [cbn; apply IH; set_solver|].
    intros Hd. apply Hnin. rewrite <-Hd. left.
  - rewrite (bool_decide_eq_false_2 (cond_Type c = _)) by done. cbn. auto.
Qed.

(** ** Instance status *)

(** The status of an instance at rest, and of one with an operation under way. *)
Record status_at_rest (s : ServiceInstanceStatus) : Prop := {
  rest_op : CurrentOperation s = OperationNone;
  rest_start : OperationStartTime s = None;
  rest_async : AsyncOpInProgress s = false;
  rest_last : LastOperation s = None;
  rest_inprogress : InProgressProperties s = None;
  rest_external : instance_properties_ok (ExternalProperties s) }.

Record status_in_operation (s : ServiceInstanceStatus) : Prop := {
  op_valid : CurrentOperation s = OperationProvision \/ CurrentOperation s = OperationUpdate \/
             CurrentOperation s = OperationDeprovision;
  op_start : is_Some (OperationStartTime s);
  op_not_ready : never_ready (Conditions s) = true;
  op_inprogress : is_Some (InProgressProperties s) <-> CurrentOperation s <> OperationDeprovision;
  op_inprogress_ok : instance_properties_ok (InProgressProperties s);
  op_external : instance_properties_ok (ExternalProperties s) }.

Lemma validate_props_opt o path :
  match o with Some ps => validateServiceInstancePropertiesState ps path | None => [] end = []
  <-> instance_properties_ok o.
Proof.
  destruct o as [ps|]; [|done]. unfold validateServiceInstancePropertiesState.
  apply validatePropertiesState_spec.
Qed.

Lemma validateServiceInstanceStatus_spec s path :
  validateServiceInstanceStatus s path false = [] <-> status_at_rest s \/ status_in_operation s.
Proof.
  unfold validateServiceInstanceStatus.
  rewrite !app_nil_iff, when_nil, negb_false_iff, !validate_props_opt.
  destruct (decide (CurrentOperation s = OperationNone)) as [E|E].
  - rewrite !app_nil_iff, !when_nil, !bool_decide_eq_false. rewrite E. split.
    + intros (_ & (H1 & H2 & H3) & H4 & H5 & H6). left.
      split; try done; [by destruct (OperationStartTime s); [exfalso; apply H1|]
                       |by destruct (LastOperation s); [exfalso; apply H3|]
                       |by destruct (InProgressProperties s)].
    + intros [[H1 H2 H3 H4 H5 H6]|[H _ _ _ _ _]]; [|by destruct H as [?|[?|?]]; congruence].
      rewrite H5. split_and!; try done; rewrite ?H2, ?H4; intros H; by apply H.
  - rewrite app_nil_iff, when_nil, bool_decide_eq_false, no_ready_true_nil. split.
    + intros (H1 & (H2 & H3) & H4 & H5 & H6). right.
      split; try done.
      * destruct (CurrentOperation s); try done; auto.
      * by destruct (OperationStartTime s); [eexists|].
      * destruct (CurrentOperation s), (InProgressProperties s); try done;
          split; intros; try done; try (by eexists); by destruct H.
    + intros [[H1 _ _ _ _ _]|[H1 H2 H3 H4 H5 H6]]; [done|].
      split_and!; try done.
      * by destruct H1 as [->|[->| ->]].
      * intros Hn. rewrite Hn in H2. by destruct H2.
      * destruct H1 as [E'|[E'|E']]; rewrite E' in *;
          destruct (InProgressProperties s); try done.
        -- destruct H4 as [_ H4]. by destruct H4.
        -- destruct H4 as [_ H4]. by destruct H4.
        -- destruct H4 as [H4 _]. destruct H4; [by eexists|done].
Qed.

(** ** Binding status *)

Record bstatus_at_rest (s : ServiceInstanceCredentialStatus) : Prop := {
  brest_op : bind_CurrentOperation s = BOperationNone;
  brest_start : bind_OperationStartTime s = None;
  brest_inprogress : bind_InProgressProperties s = None;
  brest_external : binding_properties_ok (bind_ExternalProperties s) }.

Record bstatus_in_operation (s : ServiceInstanceCredentialStatus) : Prop := {
  bop_valid : bind_CurrentOperation s = BOperationBind \/ bind_CurrentOperation s = BOperationUnbind;
  bop_start : is_Some (bind_OperationStartTime s);
  bop_not_ready : never_ready (bind_Conditions s) = true;
  bop_inprogress : is_Some (bind_InProgressProperties s) <-> bind_CurrentOperation s = BOperationBind;
  bop_inprogress_ok : binding_properties_ok (bind_InProgressProperties s);
  bop_external : binding_properties_ok (bind_ExternalProperties s) }.

Lemma validate_bprops_opt o path :
  match o with Some ps => validateServiceInstanceCredentialPropertiesState ps path | None => [] end = []
  <-> binding_properties_ok o.
Proof.
  destruct o as [ps|]; [|done]. unfold validateServiceInstanceCredentialPropertiesState.
  apply validatePropertiesState_spec.
Qed.

Lemma validateServiceInstanceCredentialStatus_spec s path :
  validateServiceInstanceCredentialStatus s path false = [] <-> bstatus_at_rest s \/ bstatus_in_operation s.
Proof.
  unfold validateServiceInstanceCredentialStatus.
  rewrite !app_nil_iff, when_nil, negb_false_iff, !validate_bprops_opt.
  destruct (decide (bind_CurrentOperation s = BOperationNone)) as [E|E].
  - rewrite when_nil, bool_decide_eq_false. rewrite E. split.
    + intros (_ & H1 & H4 & H5 & H6). left.
      split; try done; [by destruct (bind_OperationStartTime s); [exfalso; apply H1|]
                       |by destruct (bind_InProgressProperties s)].
    + intros [[H1 H2 H5 H6]|[H _ _ _ _ _]]; [|by destruct H; congruence].
      rewrite H5. split_and!; try done; rewrite ?H2; intros H; by apply H.
  - rewrite app_nil_iff, when_nil, bool_decide_eq_false, no_ready_true_nil. split.
    + intros (H1 & (H2 & H3) & H4 & H5 & H6). right.
      split; try done.
      * destruct (bind_CurrentOperation s); try done; auto.
      * by destruct (bind_OperationStartTime s); [eexists|].
      * destruct (bind_CurrentOperation s), (bind_InProgressProperties s); try done;
          split; intros H; try done; by destruct H.
    + intros [[H1 _ _ _]|[H1 H2 H3 H4 H5 H6]]; [done|].
      split_and!; try done.
      * by destruct H1 as [-> | ->].
      * intros Hn. rewrite Hn in H2. by destruct H2.
      * destruct H1 as [E'|E']; rewrite E' in *; destruct (bind_InProgressProperties s); try done.
        -- destruct H4 as [_ H4]. by destruct H4.
        -- destruct H4 as [H4 _]. by discriminate H4.
Qed.

(** ** Brokers *)

(** A valid broker names the secret of the authentication it asks for. *)
Lemma valid_broker_auth_ref_set broker :
  ValidateClusterServiceBroker broker = [] -> auth_ref_set broker.
Proof.
  unfold ValidateClusterServiceBroker, validateClusterServiceBrokerSpec, auth_ref_set.
  rewrite !app_nil_iff. intros (_ & _ & H & _). destruct (AuthInfo (b_Spec broker)) as [ai|]; [|done].
  unfold validateAuthInfo in H. split.
  - intros b Hb Hn. by rewrite Hb, Hn in H.
  - intros b Hb Hb' Hn. by rewrite Hb, Hb', Hn in H.
Qed.
End accepted.
