(* ===== verification/APIServer.v ===== *)
(** * The generic registry store

    The part of the vendored [k8s.io/apiserver] that the registry strategies
    plug into, for one key: [rest.BeforeCreate], [rest.BeforeUpdate],
    [rest.BeforeDelete], [Store.Create], [Store.Update] and [Store.Delete], and
    the metadata checks of [apimachinery].  A strategy is a
    record of operations, as the interfaces [RESTCreateStrategy],
    [RESTUpdateStrategy] and [RESTGracefulDeleteStrategy] are.  A deletion
    grace period is 0 whenever the deletion timestamp is set (no strategy of
    this repository deletes gracefully), and delete requests carry neither
    preconditions nor a propagation policy. *)

From S2P Require Import Prelude Types Environment Conditions Regexp Validation ValidationSpec.

(** ** Objects and requests *)

Class Object (A : Type) := {
  metaOf : A -> ObjectMeta;
  withMeta : ObjectMeta -> A -> A }.

(** [meta.Accessor] reads back what it wrote. *)
Class ObjectLaws (A : Type) `{Object A} : Prop := {
  metaOf_withMeta m (a : A) : metaOf (withMeta m a) = m;
  withMeta_metaOf (a : A) : withMeta (metaOf a) a = a;
  withMeta_withMeta m m' (a : A) : withMeta m (withMeta m' a) = withMeta m a }.

(** [user.Info]. *)
Record User := {
  u_Name : string; u_UID : string; u_Groups : option (list string); u_Extra : gmap string (list string) }.

(** What the request context carries: the namespace of the route and the user. *)
Record RequestContext := { ctx_Namespace : string; ctx_User : option User }.

(** ** Strategies *)

Record RESTCreateStrategy (A : Type) := {
  NamespaceScoped : bool;
  PrepareForCreate : RequestContext -> A -> A;
  Validate : A -> ErrorList }.
Arguments NamespaceScoped {A}.
Arguments PrepareForCreate {A}.
Arguments Validate {A}.

Record RESTUpdateStrategy (A : Type) := {
  AllowCreateOnUpdate : bool;
  AllowUnconditionalUpdate : bool;
  PrepareForUpdate : RequestContext -> A -> A -> A;
  ValidateUpdate : A -> A -> ErrorList }.
Arguments AllowCreateOnUpdate {A}.
Arguments AllowUnconditionalUpdate {A}.
Arguments PrepareForUpdate {A}.
Arguments ValidateUpdate {A}.

(** [CheckGracefulDelete], for the strategies that have it; here it only ever
    changes the object and returns false. *)
Definition RESTDeleteStrategy (A : Type) := option (RequestContext -> A -> A).

(** ** Metadata updates *)

Definition with_Namespace (ns : string) (m : ObjectMeta) : ObjectMeta :=
  {| Name := Name m; Namespace := ns; UID := UID m; ResourceVersion := ResourceVersion m;
     Generation := Generation m; DeletionTimestamp := DeletionTimestamp m; Finalizers := Finalizers m;
     OwnerReferences := OwnerReferences m |}.
Definition with_UID (uid : string) (m : ObjectMeta) : ObjectMeta :=
  {| Name := Name m; Namespace := Namespace m; UID := uid; ResourceVersion := ResourceVersion m;
     Generation := Generation m; DeletionTimestamp := DeletionTimestamp m; Finalizers := Finalizers m;
     OwnerReferences := OwnerReferences m |}.
Definition with_ResourceVersion (v : string) (m : ObjectMeta) : ObjectMeta :=
  {| Name := Name m; Namespace := Namespace m; UID := UID m; ResourceVersion := v;
     Generation := Generation m; DeletionTimestamp := DeletionTimestamp m; Finalizers := Finalizers m;
     OwnerReferences := OwnerReferences m |}.
Definition with_DeletionTimestamp (t : option Z) (m : ObjectMeta) : ObjectMeta :=
  {| Name := Name m; Namespace := Namespace m; UID := UID m; ResourceVersion := ResourceVersion m;
     Generation := Generation m; DeletionTimestamp := t; Finalizers := Finalizers m;
     OwnerReferences := OwnerReferences m |}.

(** ** Metadata checks

    [ValidateObjectMetaAccessor], and the part of
    [ValidateObjectMetaAccessorUpdate] that looks at metadata the model has,
    are the parameters [validateMeta] and, for the owner references,
    [validateOwnerReferences]; labels, annotations, initializers and the
    cluster name are not modelled. *)
Class StoreValidation := {
  validateMeta : ObjectMeta -> bool -> ErrorList;
  validateOwnerReferences : list OwnerReference -> ErrorList }.

(** [RepairMalformedUpdates] is true: an update without a UID, or that drops or
    moves a deletion timestamp, is repaired. *)
Definition repairMeta (newMeta oldMeta : ObjectMeta) : ObjectMeta :=
  let newMeta := if bool_decide (UID newMeta = "") then with_UID (UID oldMeta) newMeta else newMeta in
  match DeletionTimestamp oldMeta with
  | Some t => with_DeletionTimestamp (Some t) newMeta
  | None => newMeta
  end.

Definition ValidateNoNewFinalizers (newFinalizers oldFinalizers : list string) : ErrorList :=
  when (negb (forallb (fun f => bool_decide (f ∈ oldFinalizers)) newFinalizers))
    (Forbidden "metadata.finalizers" "no new finalizers can be added if the object is being deleted").

Definition ValidateImmutableField (new old path : string) : ErrorList :=
  when (negb (bool_decide (new = old))) (Invalid path "field is immutable").

(** The checks after the repair. *)
Definition validateMetaUpdate {SV : StoreValidation} (newMeta oldMeta : ObjectMeta) : ErrorList :=
  when (negb (bool_decide (DeletionTimestamp newMeta = None)) &&
        negb (bool_decide (DeletionTimestamp newMeta = DeletionTimestamp oldMeta)))
    (Invalid "metadata.deletionTimestamp" "field is immutable; may only be changed via deletion") ++
  (if bool_decide (DeletionTimestamp oldMeta = None) then []
   else ValidateNoNewFinalizers (Finalizers newMeta) (Finalizers oldMeta)) ++
  when (bool_decide (ResourceVersion newMeta = ""))
    (Invalid "metadata.resourceVersion" "must be specified for an update") ++
  when (Generation newMeta <? Generation oldMeta) (Invalid "metadata.generation" "must not be decremented") ++
  ValidateImmutableField (Name newMeta) (Name oldMeta) "metadata.name" ++
  ValidateImmutableField (Namespace newMeta) (Namespace oldMeta) "metadata.namespace" ++
  ValidateImmutableField (UID newMeta) (UID oldMeta) "metadata.uid" ++
  validateOwnerReferences (OwnerReferences newMeta).

Inductive UpdateResult (A : Type) :=
| Stored (obj : A)
| Removed (obj : A)
| Refused (e : error).
Arguments Stored {A}.
Arguments Removed {A}.
Arguments Refused {A}.

Section store.
Context {A : Type} `{Object A} {SV : StoreValidation}.
Implicit Types (obj old : A) (ctx : RequestContext).

Definition invalid : error := StatusError ReasonInvalid "is invalid".
Definition conflict : error := StatusError ReasonConflict "the object has been modified; please apply your changes to the latest version and try again".

Definition modify (f : ObjectMeta -> ObjectMeta) obj : A := withMeta (f (metaOf obj)) obj.

(** [rest.ValidNamespace]: an empty namespace is filled in from the route,
    another one must be the route's. *)
Definition ValidNamespace ctx obj : option A :=
  let obj := if bool_decide (Namespace (metaOf obj) = "")
             then modify (with_Namespace (ctx_Namespace ctx)) obj else obj in
  if bool_decide (Namespace (metaOf obj) = ctx_Namespace ctx) then Some obj else None.

Definition scopedTo (scoped : bool) ctx obj : option A :=
  if scoped then ValidNamespace ctx obj else Some (modify (with_Namespace "") obj).

Definition badNamespace : error :=
  StatusError ReasonBadRequest "the namespace of the provided object does not match the namespace sent on the request".

(** [uid] is the UID [FillObjectMetaSystemFields] generates; names are not
    generated. *)
Definition BeforeCreate (s : RESTCreateStrategy A) ctx (uid : string) obj : A + error :=
  match scopedTo (NamespaceScoped s) ctx obj with
  | None => inr badNamespace
  | Some obj =>
      let obj := modify (with_DeletionTimestamp None) obj in
      let obj := PrepareForCreate s ctx obj in
      let obj := modify (with_UID uid) obj in
      match Validate s obj ++ validateMeta (metaOf obj) (NamespaceScoped s) with
      | [] => inl obj
      | _ => inr invalid
      end
  end.

Definition BeforeUpdate (s : RESTUpdateStrategy A) (scoped : bool) ctx obj old : A + error :=
  match scopedTo scoped ctx obj with
  | None => inr badNamespace
  | Some obj =>
      let obj := modify (with_Generation (Generation (metaOf old))) obj in
      let obj := PrepareForUpdate s ctx obj old in
      let errs := validateMeta (metaOf obj) scoped in
      let obj := modify (fun m => repairMeta m (metaOf old)) obj in
      match errs ++ validateMetaUpdate (metaOf obj) (metaOf old) ++ ValidateUpdate s obj old with
      | [] => inl obj
      | _ => inr invalid
      end
  end.

(** [Store.shouldDeleteDuringUpdate] with garbage collection enabled. *)
Definition shouldDeleteDuringUpdate obj old : bool :=
  Nat.eqb (length (Finalizers (metaOf obj))) 0 &&
  negb (bool_decide (DeletionTimestamp (metaOf old) = None)).

(** [Store.Create]: [existing] is what is stored under the name; [next] is the
    resource version the storage gives the new object. *)
Definition storeCreate (s : RESTCreateStrategy A) ctx (uid next : string) (existing : option A) obj : UpdateResult A :=
  match BeforeCreate s ctx uid obj with
  | inr e => Refused e
  | inl obj =>
      match existing with
      | None => Stored (modify (with_ResourceVersion next) obj)
      | Some _ => Refused (StatusError ReasonAlreadyExists "already exists")
      end
  end.

(** [Store.Update] against the stored object.  No strategy allows to create on
    update, so the create branch ends in NotFound. *)
Definition storeUpdate (s : RESTUpdateStrategy A) (scoped : bool) ctx (next : string)
    (existing : option A) obj : UpdateResult A :=
  match existing with
  | None => Refused (StatusError ReasonNotFound "not found")
  | Some old =>
      let version := ResourceVersion (metaOf old) in
      let resourceVersion := ResourceVersion (metaOf obj) in
      let doUnconditionalUpdate := bool_decide (resourceVersion = "") && AllowUnconditionalUpdate s in
      if negb doUnconditionalUpdate && bool_decide (resourceVersion = "") then Refused invalid
      else
      if negb doUnconditionalUpdate && negb (bool_decide (resourceVersion = version)) then Refused conflict
      else
        let obj := if doUnconditionalUpdate then modify (with_ResourceVersion version) obj else obj in
        match BeforeUpdate s scoped ctx obj old with
        | inr e => Refused e
        | inl obj =>
            if shouldDeleteDuringUpdate obj old then Removed obj
            else Stored (modify (with_ResourceVersion next) obj)
        end
  end.

(** [markAsDeleting]: a first deletion bumps the generation. *)
Definition markAsDeleting (now : Z) obj : A :=
  modify (fun m =>
    with_DeletionTimestamp (Some now)
      (if bool_decide (DeletionTimestamp m = None) && (0 <? Generation m)
       then with_Generation (Generation m + 1) m else m)) obj.

(** [rest.BeforeDelete]: the graceful strategy sees only objects that are not
    being deleted yet. *)
Definition BeforeDelete (s : RESTDeleteStrategy A) ctx obj : A :=
  match s with
  | Some CheckGracefulDelete =>
      if bool_decide (DeletionTimestamp (metaOf obj) = None) then CheckGracefulDelete ctx obj else obj
  | None => obj
  end.

(** [Store.Delete]: an object with finalizers is marked, another is removed. *)
Definition storeDelete (s : RESTDeleteStrategy A) ctx (next : string) (now : Z) (existing : option A) : UpdateResult A :=
  match existing with
  | None => Refused (StatusError ReasonNotFound "not found")
  | Some old =>
      let obj := BeforeDelete s ctx old in
      if Nat.eqb (length (Finalizers (metaOf obj))) 0 then Removed obj
      else Stored (modify (with_ResourceVersion next) (markAsDeleting now obj))
  end.

(** ** What the store guarantees *)

Context {OL : ObjectLaws A}.

Lemma metaOf_modify f obj : metaOf (modify f obj) = f (metaOf obj).
Proof. apply metaOf_withMeta. Qed.

Lemma modify_withMeta f m obj : modify f (withMeta m obj) = withMeta (f m) obj.
Proof. unfold modify. by rewrite withMeta_withMeta, metaOf_withMeta. Qed.

Lemma modify_twice f g obj : modify f (modify g obj) = withMeta (f (g (metaOf obj))) obj.
Proof. unfold modify at 2. apply modify_withMeta. Qed.

Lemma repairMeta_kept m (old : ObjectMeta) :
  Name (repairMeta m old) = Name m /\ Namespace (repairMeta m old) = Namespace m /\
  Generation (repairMeta m old) = Generation m /\ Finalizers (repairMeta m old) = Finalizers m.
Proof. unfold repairMeta. by destruct (bool_decide _), (DeletionTimestamp old). Qed.

Lemma validateMetaUpdate_same m (old : ObjectMeta) :
  validateMetaUpdate (repairMeta m old) old = [] ->
  DeletionTimestamp (repairMeta m old) = DeletionTimestamp old /\ Name m = Name old /\
  Namespace m = Namespace old /\ UID (repairMeta m old) = UID old.
Proof.
  unfold validateMetaUpdate, ValidateImmutableField. rewrite !app_nil_iff, !when_nil.
  intros (Hd & _ & _ & _ & Hn & Hns & Hu & _).
  rewrite negb_false_iff, bool_decide_eq_true in Hn, Hns, Hu.
  destruct (repairMeta_kept m old) as (Hk1 & Hk2 & _). rewrite Hk1 in Hn. rewrite Hk2 in Hns. split_and!; try done.
  destruct (DeletionTimestamp old) as [t|] eqn:Ho.
  - unfold repairMeta. by rewrite Ho.
  - apply andb_false_iff in Hd as [Hd|Hd]; by apply negb_false_iff, bool_decide_eq_true in Hd.
Qed.

(** What an accepted update keeps of the stored version [s]: it was made against
    that version, and but for metadata it stores what the strategy [st] made of
    the submitted object, at the stored generation; the strategy's validation
    accepted it. *)
Record updates (st : RESTUpdateStrategy A) ctx (s obj v : A) : Prop := {
  up_version : ResourceVersion (metaOf obj) = ResourceVersion (metaOf s);
  up_prepared : exists m m', Generation m = Generation (metaOf s) /\
    v = withMeta m' (PrepareForUpdate st ctx (withMeta m obj) s) /\
    Generation m' = Generation (metaOf (PrepareForUpdate st ctx (withMeta m obj) s));
  up_deletion : DeletionTimestamp (metaOf v) = DeletionTimestamp (metaOf s);
  up_name : Name (metaOf v) = Name (metaOf s) /\ Namespace (metaOf v) = Namespace (metaOf s) /\
    UID (metaOf v) = UID (metaOf s);
  up_valid : exists m, ValidateUpdate st (withMeta m v) s = [] }.

Lemma scopedTo_meta scoped ctx obj obj' : scopedTo scoped ctx obj = Some obj' -> exists m, obj' = withMeta m obj.
Proof.
  unfold scopedTo, ValidNamespace, modify. destruct scoped; cbv zeta; [|intros [= <-]; eexists; reflexivity].
  destruct (bool_decide (Namespace (metaOf obj) = "")); destruct (bool_decide _); intros [= <-]; [eexists; reflexivity|].
  exists (metaOf obj). by rewrite withMeta_metaOf.
Qed.

Lemma storeUpdate_updates (st : RESTUpdateStrategy A) scoped ctx next s obj v :
  AllowUnconditionalUpdate st = false -> storeUpdate st scoped ctx next (Some s) obj = Stored v ->
  updates st ctx s obj v.
Proof.
  intros Hu. unfold storeUpdate. rewrite Hu, andb_false_r. cbn.
  case_bool_decide as H0; [done|]. case_bool_decide as Hv; [|done]. cbn.
  unfold BeforeUpdate. destruct (scopedTo scoped ctx obj) as [obj1|] eqn:Hsc; [|done].
  apply scopedTo_meta in Hsc as [m ->]. rewrite modify_withMeta.
  set (m1 := with_Generation _ m). set (new := PrepareForUpdate st ctx (withMeta m1 obj) s). cbv zeta.
  destruct (_ ++ _) eqn:Hval; [|done]. destruct (shouldDeleteDuringUpdate _ _); [done|]. intros [= <-].
  apply app_nil_iff in Hval as [_ [Hm Hs]%app_nil_iff].
  rewrite metaOf_modify in Hm. apply validateMetaUpdate_same in Hm as (Hd & Hn & Hns & Hui).
  destruct (repairMeta_kept (metaOf new) (metaOf s)) as (Hk1 & Hk2 & Hk3 & _).
  split; rewrite ?metaOf_modify; cbn.
  - done.
  - exists m1, (with_ResourceVersion next (repairMeta (metaOf new) (metaOf s))). split; [done|].
    split; [|exact Hk3]. by rewrite modify_twice.
  - exact Hd.
  - rewrite Hk1, Hk2. by split_and!.
  - eexists. rewrite modify_twice, withMeta_withMeta. exact Hs.
Qed.
End store.
