(* ===== verification/InstanceController.v ===== *)
(** * The ServiceInstance control loop

    [pkg/controller/controller_instance.go] and the instance half of
    [controller.go]: the queue handlers, status updates, reference resolution,
    provisioning, deprovisioning, orphan mitigation and polling.  Each Go
    function is one definition; the three long ones are cut into the phases
    their early returns delimit.  Deep copies are the values themselves:
    nothing mutates an object that came from an informer. *)

From S2P Require Import Prelude Types Conditions Environment ParametersModel ControllerCommon.

(** ** Pure helpers *)

Definition clearServiceInstanceCurrentOperation (toUpdate : ServiceInstance) : ServiceInstance :=
  si_upd (fun s =>
    with_ReconciledGeneration (Generation (si_Meta toUpdate))
    (with_InProgressProperties None
    (with_LastOperation None
    (with_OrphanMitigationInProgress false
    (with_AsyncOpInProgress false
    (with_OperationStartTime None
    (with_CurrentOperation OperationNone s))))))) toUpdate.

Definition setServiceInstanceStartOrphanMitigation (toUpdate : ServiceInstance) : ServiceInstance :=
  si_upd (fun s =>
    with_InProgressProperties None
    (with_OrphanMitigationInProgress true
    (with_AsyncOpInProgress false
    (with_OperationStartTime None s)))) toUpdate.

(** [http.StatusOK] is 200 and [http.StatusRequestTimeout] 408. *)
Definition shouldStartOrphanMitigation (statusCode : Z) : bool :=
  let is2XX := (200 <=? statusCode) && (statusCode <? 300) in
  let is5XX := (500 <=? statusCode) && (statusCode <? 600) in
  (is2XX && negb (statusCode =? 200)) || (statusCode =? 408) || is5XX.

(** ** Messages *)

Section messages.
Context {C : Config}.
Implicit Types i : ServiceInstance.

Definition iname i : string := nsname (Namespace (si_Meta i)) (Name (si_Meta i)).
Definition islash i : string := sprint [Namespace (si_Meta i); "/"; Name (si_Meta i)].

Definition msg_blocked i := sprint ["Delete instance "; islash i;
  " blocked by existing ServiceInstanceCredentials associated with this instance.  All credentials must be removed first."].
Definition msg_no_class i := sprint ["ServiceInstance "; iname i;
  " references a non-existent ServiceClass "; quote (ExternalServiceClassName (si_Spec i))].
Definition msg_no_plan i (sc : ServiceClass) := sprint ["ServiceInstance "; iname i;
  " references a non-existent ServicePlan "; quote (ExternalServicePlanName (si_Spec i));
  " on ServiceClass "; quote (sc_ExternalName (sc_Spec sc))].
Definition msg_no_broker i (sc : ServiceClass) := sprint ["ServiceInstance "; iname i;
  " references a non-existent broker "; quote (sc_ClusterServiceBrokerName (sc_Spec sc))].
Definition msg_auth (b : ClusterServiceBroker) err := sprint
  ["Error getting broker auth credentials for broker "; quote (Name (b_Meta b)); ": "; Error err].
Definition msg_resolve_class i (n : nat) := sprint ["ServiceInstance "; iname i;
  " references a non-existent ServiceClass "; quote (ExternalServiceClassName (si_Spec i));
  " or there is more than one (found: "; itoa (Z.of_nat n); ")."].
Definition msg_resolve_plan i (n : nat) := sprint ["ServiceInstance "; iname i;
  " references a non-existent ServicePlan "; quote (ExternalServicePlanName (si_Spec i));
  " on ServiceClass "; quote (ExternalServiceClassName (si_Spec i));
  " or there is more than one (found: "; itoa (Z.of_nat n); ")."].
Definition msg_class_lookup i (ref : ObjectReference) err := sprint
  ["Couldn't find ServiceClass (K8S: "; ref_Name ref; ") associated with Instance "; iname i; ": "; Error err].
Definition msg_identity (verb : string) i err := sprint
  ["Error building originating identity headers for "; verb; " ServiceInstance "; iname i; ": "; Error err].
Definition msg_timeout i := sprint ["Stopping reconciliation retries on ServiceInstance "; iname i;
  " because too much time has elapsed"].
Definition msg_nostart i := sprint ["Stopping reconciliation retries on ServiceInstance "; iname i;
  " because the operation start time is not set"].
Definition msg_namespace i err := sprint ["Failed to get namespace "; quote (Namespace (si_Meta i));
  " during instance create: "; Error err].
Definition msg_parameters i err := sprint ["Failed to prepare ServiceInstance parameters
"; fmt_raw (Parameters (si_Spec i)); "
 "; Error err].
Definition msg_checksum i err := sprint
  ["Failed to generate the parameters checksum to store in the Status of ServiceInstance "; iname i; ": "; Error err].
Definition msg_marshal i err := sprint
  ["Failed to marshal the parameters to store in the Status of ServiceInstance "; iname i; ": "; Error err].
Definition msg_provision i (sc : ServiceClass) brokerName err := sprint
  ["Error provisioning ServiceInstance "; iname i; " of ServiceClass "; quote (sc_ExternalName (sc_Spec sc));
   " at ClusterServiceBroker "; quote brokerName; ": "; Error err].
Definition msg_deprovision_http i (sc : ServiceClass) brokerName (h : HTTPError) := sprint
  ["Error deprovisioning ServiceInstance "; iname i; " of ServiceClass "; quote (sc_ExternalName (sc_Spec sc));
   " at ClusterServiceBroker "; quote brokerName; " with status code "; itoa (StatusCode h);
   ": ErrorMessage: "; fmt_pointer (ErrorMessage h); ", Description: "; fmt_pointer (Description h)].
Definition msg_deprovision i (sc : ServiceClass) brokerName err := sprint
  ["Error deprovisioning ServiceInstance "; iname i; " of ServiceClass "; quote (Name (sc_Meta sc));
   " at ClusterServiceBroker "; quote brokerName; ": "; Error err].
Definition msg_poll_error i err := sprint ["Error polling last operation for instance "; islash i; ": ";
  match IsHTTPError err with
  | Some h => sprint ["Status code: "; itoa (StatusCode h); "; ErrorMessage: "; fmt_pointer (ErrorMessage h);
                      "; description: "; fmt_pointer (Description h)]
  | None => Error err
  end].
Definition msg_poll_failed i (sc : ServiceClass) brokerName (description : string) := sprint
  ["Error deprovisioning ServiceInstance "; iname i; " of ServiceClass "; quote (sc_ExternalName (sc_Spec sc));
   " at ClusterServiceBroker "; quote brokerName; ": "; quote description].
Definition msg_invalid_state (st : LastOperationState) := sprint
  ["Got invalid state in LastOperationResponse: "; quote (LastOperationState_string st)].
End messages.

(** ** Status updates *)

Section controller.
Context {W : Type} {E : Env W} {C : Config}.
Local Notation M := (M W Effect).
Local Open Scope go_scope.

Definition setServiceInstanceCondition (toUpdate : ServiceInstance) (conditionType : ConditionType)
    (status : ConditionStatus) (reason message : string) : M ServiceInstance :=
  now <- Now ;;
  ret (setServiceInstanceConditionInternal toUpdate conditionType status reason message now).

Definition updateServiceInstanceReferences (toUpdate : ServiceInstance) : M ServiceInstance :=
  ServiceInstances_UpdateReferences toUpdate.

Definition updateServiceInstanceStatus (toUpdate : ServiceInstance) : M ServiceInstance :=
  ServiceInstances_UpdateStatus toUpdate.

Definition updateServiceInstanceCondition (instance : ServiceInstance) (conditionType : ConditionType)
    (status : ConditionStatus) (reason message : string) : M unit :=
  toUpdate <- setServiceInstanceCondition instance conditionType status reason message ;;
  ServiceInstances_UpdateStatus toUpdate ;;
  ret tt.

Definition recordStartOfServiceInstanceOperation (toUpdate : ServiceInstance)
    (operation : ServiceInstanceOperation) : M ServiceInstance :=
  now <- Now ;;
  let toUpdate := si_upd (fun s =>
    with_OperationStartTime (Some now) (with_CurrentOperation operation s)) toUpdate in
  let '(reason, message) :=
    match operation with
    | OperationProvision => (provisioningInFlightReason, provisioningInFlightMessage)
    | OperationDeprovision => (deprovisioningInFlightReason, deprovisioningInFlightMessage)
    | _ => ("", "")
    end in
  toUpdate <- setServiceInstanceCondition toUpdate ConditionReady ConditionFalse reason message ;;
  updateServiceInstanceStatus toUpdate.

(** [!time.Now().Before(start.Add(c.reconciliationRetryDuration))] *)
Definition retryDurationElapsed (operationStartTime : option Z) : M bool :=
  now <- Now ;;
  start <- deref operationStartTime ;;
  ret (negb (now <? start + reconciliationRetryDuration)).

(** ** Queues *)

Definition instanceAdd (instance : ServiceInstance) : M unit :=
  emit (EInstanceQueueAdd (MetaNamespaceKey (si_Meta instance))).

Definition instanceUpdate (oldObj newObj : ServiceInstance) : M unit :=
  if negb (AsyncOpInProgress (si_Status newObj)) then instanceAdd newObj else ret tt.

Definition instanceDelete (obj : ServiceInstance) : M unit := ret tt.

Definition requeueServiceInstanceForPoll (key : string) : M unit :=
  emit (EInstanceQueueAdd key).

Definition beginPollingServiceInstance (instance : ServiceInstance) : M unit :=
  emit (EPollingQueueAddRateLimited (MetaNamespaceKey (si_Meta instance))).

Definition continuePollingServiceInstance (instance : ServiceInstance) : M unit :=
  beginPollingServiceInstance instance.

Definition finishPollingServiceInstance (instance : ServiceInstance) : M unit :=
  emit (EPollingQueueForget (MetaNamespaceKey (si_Meta instance))).

(** ** Lookups *)

(** What the lookups return: the class, the plan, the broker's name and the
    client for it. *)
Record Resolved := {
  serviceClass : ServiceClass; servicePlan : ServicePlan;
  brokerName : string; brokerClient : ClientConfiguration }.

Definition getServiceClassPlanAndClusterServiceBroker (instance : ServiceInstance) : M Resolved :=
  classRef <- deref (ServiceClassRef (si_Spec instance)) ;;
  sc <- try (serviceClassLister_Get (ref_Name classRef)) ;;
  match sc with
  | inr err =>
      let s := msg_no_class instance in
      ignore (updateServiceInstanceCondition instance ConditionReady ConditionFalse
        errorNonexistentServiceClassReason
        (sprint ["The instance references a ServiceClass that does not exist. "; s])) ;;
      instance_Event instance EventTypeWarning errorNonexistentServiceClassReason s ;;
      fail err
  | inl serviceClass =>
  planRef <- deref (ServicePlanRef (si_Spec instance)) ;;
  sp <- try (servicePlanLister_Get (ref_Name planRef)) ;;
  match sp with
  | inr _ =>
      let s := msg_no_plan instance serviceClass in
      ignore (updateServiceInstanceCondition instance ConditionReady ConditionFalse
        "ReferencesNonexistentServicePlan"
        (sprint ["The instance references a ServicePlan that does not exist. "; s])) ;;
      instance_Event instance EventTypeWarning errorNonexistentServicePlanReason s ;;
      fail (PlainError (Sprintf0 s))
  | inl servicePlan =>
  br <- try (brokerLister_Get (sc_ClusterServiceBrokerName (sc_Spec serviceClass))) ;;
  match br with
  | inr err =>
      let s := msg_no_broker instance serviceClass in
      ignore (updateServiceInstanceCondition instance ConditionReady ConditionFalse
        errorNonexistentClusterServiceBrokerReason
        (sprint ["The instance references a ClusterServiceBroker that does not exist. "; s])) ;;
      instance_Event instance EventTypeWarning errorNonexistentClusterServiceBrokerReason s ;;
      fail err
  | inl broker =>
  auth <- try (getAuthCredentialsFromClusterServiceBroker broker) ;;
  match auth with
  | inr err =>
      let s := msg_auth broker err in
      ignore (updateServiceInstanceCondition instance ConditionReady ConditionFalse
        errorAuthCredentialsReason
        (sprint ["Error getting auth credentials. "; s])) ;;
      instance_Event instance EventTypeWarning errorAuthCredentialsReason s ;;
      fail err
  | inl authConfig =>
      let clientConfig := NewClientConfigurationForBroker broker authConfig in
      brokerClient <- brokerClientCreateFunc clientConfig ;;
      ret {| serviceClass := serviceClass; servicePlan := servicePlan;
             brokerName := Name (b_Meta broker); brokerClient := brokerClient |}
  end end end end.

(** A reference to a class, and to a plan, as resolution stores it. *)
Definition reference_of (tm : TypeMeta) (m : ObjectMeta) : ObjectReference :=
  {| ref_Kind := Kind tm; ref_Namespace := ""; ref_Name := Name m; ref_UID := UID m;
     ref_APIVersion := APIVersion tm; ref_ResourceVersion := ResourceVersion m |}.

(** [resolveReferences], first part: the class, from its external name. *)
Definition resolveServiceClass (instance : ServiceInstance) :
    M (ServiceInstance * option ServiceClass) :=
  match ServiceClassRef (si_Spec instance) with
  | Some _ => ret (instance, None)
  | None =>
      serviceClasses <- ServiceClasses_List (ExternalServiceClassName (si_Spec instance)) ;;
      match serviceClasses with
      | ([sc], None) =>
          ret (si_with_Spec (with_ServiceClassRef
                 (Some (reference_of (sc_TypeMeta sc) (sc_Meta sc))) (si_Spec instance)) instance,
               Some sc)
      | (items, _) =>
          let s := msg_resolve_class instance (length items) in
          ignore (updateServiceInstanceCondition instance ConditionReady ConditionFalse
            errorNonexistentServiceClassReason
            (sprint ["The instance references a ServiceClass that does not exist. "; s])) ;;
          instance_Event instance EventTypeWarning errorNonexistentServiceClassReason s ;;
          fail (PlainError (Sprintf0 s))
      end
  end.

(** Second part: the plan, among those of the class and its broker. *)
Definition resolveServicePlan (instance : ServiceInstance) (sc : option ServiceClass) :
    M ServiceInstance :=
  match ServicePlanRef (si_Spec instance) with
  | Some _ => ret instance
  | None =>
      classRef <- deref (ServiceClassRef (si_Spec instance)) ;;
      sc <- match sc with
            | Some sc => ret sc
            | None =>
                r <- try (serviceClassLister_Get (ref_Name classRef)) ;;
                match r with
                | inl sc => ret sc
                | inr scErr => fail (PlainError (msg_class_lookup instance classRef scErr))
                end
            end ;;
      servicePlans <- ServicePlans_List (ExternalServicePlanName (si_Spec instance))
        (ref_Name classRef) (sc_ClusterServiceBrokerName (sc_Spec sc)) ;;
      match servicePlans with
      | ([sp], None) =>
          ret (si_with_Spec (with_ServicePlanRef
                 (Some (reference_of (sp_TypeMeta sp) (sp_Meta sp))) (si_Spec instance)) instance)
      | (items, _) =>
          let s := msg_resolve_plan instance (length items) in
          ignore (updateServiceInstanceCondition instance ConditionReady ConditionFalse
            errorNonexistentServicePlanReason
            (sprint ["The instance references a ServicePlan that does not exist. "; s])) ;;
          instance_Event instance EventTypeWarning errorNonexistentServicePlanReason s ;;
          fail (PlainError (Sprintf0 s))
      end
  end.

Definition resolveReferences (instance : ServiceInstance) : M ServiceInstance :=
  match ServiceClassRef (si_Spec instance), ServicePlanRef (si_Spec instance) with
  | Some _, Some _ => ret instance
  | _, _ =>
      r <- resolveServiceClass instance ;;
      instance <- resolveServicePlan (fst r) (snd r) ;;
      updateServiceInstanceReferences instance
  end.

(** ** Deprovisioning *)

(** The originating identity of a request: built when the feature is on; a
    failure is recorded on [toUpdate] and ends the reconciliation. *)
Definition originatingIdentityFor (verb : string) (instance toUpdate : ServiceInstance) :
    M (option AlphaOriginatingIdentity) :=
  if OriginatingIdentityEnabled then
    match buildOriginatingIdentity (si_UserInfo (si_Spec instance)) with
    | inl oi => ret oi
    | inr err =>
        let s := msg_identity verb instance err in
        instance_Event instance EventTypeWarning errorWithOriginatingIdentity s ;;
        toUpdate <- setServiceInstanceCondition toUpdate ConditionReady ConditionFalse
          errorWithOriginatingIdentity s ;;
        updateServiceInstanceStatus toUpdate ;;
        fail err
    end
  else ret None.

(** Credentials still refer to the instance. *)
Definition blockDeprovision (instance : ServiceInstance) : M unit :=
  let s := msg_blocked instance in
  instance_Event instance EventTypeWarning errorDeprovisionBlockedByCredentialsReason s ;;
  toUpdate <- setServiceInstanceCondition instance ConditionReady ConditionFalse
    errorDeprovisionBlockedByCredentialsReason (sprint ["Delete instance failed. "; s]) ;;
  updateServiceInstanceStatus toUpdate ;;
  ret tt.

Definition references_instance (instance : ServiceInstance) (c : ServiceInstanceCredential) : bool :=
  bool_decide (Name (si_Meta instance) = lref_Name (ServiceInstanceRef (bind_Spec c))).

(** [DeprovisionInstance] returned an error. *)
Definition handleDeprovisionError (instance toUpdate : ServiceInstance) (r : Resolved)
    (err : error) : M unit :=
  match IsHTTPError err with
  | Some httpErr =>
      let s := msg_deprovision_http instance (serviceClass r) (brokerName r) httpErr in
      instance_Event instance EventTypeWarning errorDeprovisionCalledReason s ;;
      toUpdate <- setServiceInstanceCondition toUpdate ConditionReady ConditionUnknown
        errorDeprovisionCalledReason (sprint ["Deprovision call failed. "; s]) ;;
      toUpdate <- (if negb (OrphanMitigationInProgress (si_Status instance)) then
          setServiceInstanceCondition toUpdate ConditionFailed ConditionTrue
            errorDeprovisionCalledReason s
        else ret toUpdate) ;;
      updateServiceInstanceStatus (clearServiceInstanceCurrentOperation toUpdate) ;;
      ret tt
  | None =>
      let s := msg_deprovision instance (serviceClass r) (brokerName r) err in
      instance_Event instance EventTypeWarning errorDeprovisionCalledReason s ;;
      toUpdate <- setServiceInstanceCondition toUpdate ConditionReady ConditionUnknown
        errorDeprovisionCalledReason (sprint ["Deprovision call failed. "; s]) ;;
      elapsed <- retryDurationElapsed (OperationStartTime (si_Status toUpdate)) ;;
      if (elapsed : bool) then
        let s := msg_timeout instance in
        instance_Event instance EventTypeWarning errorReconciliationRetryTimeoutReason s ;;
        toUpdate <- (if negb (OrphanMitigationInProgress (si_Status instance)) then
            setServiceInstanceCondition toUpdate ConditionFailed ConditionTrue
              errorReconciliationRetryTimeoutReason s
          else ret toUpdate) ;;
        updateServiceInstanceStatus (clearServiceInstanceCurrentOperation toUpdate) ;;
        ret tt
      else
        updateServiceInstanceStatus toUpdate ;;
        fail err
  end.

(** [*response.OperationKey] when the pointer is set and not empty. *)
Definition nonempty (o : option string) : option string :=
  match o with
  | Some s => if decide (s = "") then None else Some s
  | None => None
  end.

(** [DeprovisionInstance] succeeded, synchronously or not. *)
Definition handleDeprovisionResponse (instance toUpdate : ServiceInstance)
    (response : DeprovisionResponse) : M unit :=
  if dresp_Async response then
    let toUpdate := match nonempty (dresp_OperationKey response) with
      | Some key => si_upd (with_LastOperation (Some key)) toUpdate
      | None => toUpdate
      end in
    let toUpdate := si_upd (with_AsyncOpInProgress true) toUpdate in
    toUpdate <- setServiceInstanceCondition toUpdate ConditionReady ConditionFalse
      asyncDeprovisioningReason asyncDeprovisioningMessage ;;
    updateServiceInstanceStatus toUpdate ;;
    beginPollingServiceInstance instance ;;
    instance_Event instance EventTypeNormal asyncDeprovisioningReason asyncDeprovisioningMessage
  else
    let toUpdate := si_upd (with_ExternalProperties None)
      (clearServiceInstanceCurrentOperation toUpdate) in
    toUpdate <- setServiceInstanceCondition toUpdate ConditionReady ConditionFalse
      successDeprovisionReason successDeprovisionMessage ;;
    let finalizers := NewString (Finalizers (si_Meta instance)) in
    let toUpdate := match DeletionTimestamp (si_Meta instance) with
      | Some _ => si_with_Finalizers (set_Delete FinalizerServiceCatalog finalizers) toUpdate
      | None => toUpdate
      end in
    updateServiceInstanceStatus toUpdate ;;
    instance_Event instance EventTypeNormal successDeprovisionReason successDeprovisionMessage.

(** The deprovision request itself, once the class, plan and broker are known. *)
Definition deprovisionServiceInstance (instance : ServiceInstance) (r : Resolved) : M unit :=
  originatingIdentity <- originatingIdentityFor "deprovisioning" instance instance ;;
  let request := {|
    dr_InstanceID := ExternalID (si_Spec instance);
    dr_AcceptsIncomplete := true;
    dr_ServiceID := sc_ExternalID (sc_Spec (serviceClass r));
    dr_PlanID := sp_ExternalID (sp_Spec (servicePlan r));
    dr_OriginatingIdentity := originatingIdentity |} in
  toUpdate <- (if OrphanMitigationInProgress (si_Status instance) &&
                  bool_decide (OperationStartTime (si_Status instance) = None) then
      now <- Now ;; ret (si_upd (with_OperationStartTime (Some now)) instance)
    else ret instance) ;;
  toUpdate <- (if decide (CurrentOperation (si_Status toUpdate) = OperationNone) then
      recordStartOfServiceInstanceOperation toUpdate OperationDeprovision
    else ret toUpdate) ;;
  response <- try (DeprovisionInstance (brokerClient r) request) ;;
  match response with
  | inr err => handleDeprovisionError instance toUpdate r err
  | inl response => handleDeprovisionResponse instance toUpdate response
  end.

Definition reconcileServiceInstanceDelete (instance : ServiceInstance) : M unit :=
  if bool_decide (DeletionTimestamp (si_Meta instance) = None) &&
     negb (OrphanMitigationInProgress (si_Status instance)) then ret tt
  else
  credentialsList <- bindingLister_List (Namespace (si_Meta instance)) ;;
  if existsb (references_instance instance) credentialsList then blockDeprovision instance
  else
  let finalizers := NewString (Finalizers (si_Meta instance)) in
  if negb (set_Has finalizers FinalizerServiceCatalog) then ret tt
  else
  if negb (AsyncOpInProgress (si_Status instance)) &&
     negb (OrphanMitigationInProgress (si_Status instance)) &&
     (isServiceInstanceFailed instance ||
      (ReconciledGeneration (si_Status instance) =? 0)) then
    updateServiceInstanceStatus
      (si_with_Finalizers (set_Delete FinalizerServiceCatalog finalizers) instance) ;;
    ret tt
  else
  r <- getServiceClassPlanAndClusterServiceBroker instance ;;
  deprovisionServiceInstance instance r.

(** ** Provisioning *)

(** A failure that is recorded on [toUpdate] and returned. *)
Definition failWith (instance toUpdate : ServiceInstance) (reason s message : string)
    (err : error) {A} : M A :=
  instance_Event instance EventTypeWarning reason s ;;
  toUpdate <- setServiceInstanceCondition toUpdate ConditionReady ConditionFalse reason message ;;
  updateServiceInstanceStatus toUpdate ;;
  fail err.

(** The parameters for the broker, their checksum, and the redacted copy kept
    in the status. *)
Definition prepareParameters (instance toUpdate : ServiceInstance) :
    M (gmap string json * string * option RawExtension) :=
  match Parameters (si_Spec instance), ParametersFrom (si_Spec instance) with
  | None, None => ret (∅, "", None)
  | _, _ =>
      built <- try (buildParameters (Namespace (si_Meta instance))
                      (ParametersFrom (si_Spec instance)) (Parameters (si_Spec instance))) ;;
      match built with
      | inr err =>
          let s := msg_parameters instance err in
          failWith instance toUpdate errorWithParameters s s err
      | inl (parameters, parametersWithSecretsRedacted) =>
          match generateChecksumOfParameters parameters with
          | inr err =>
              let s := msg_checksum instance err in
              failWith instance toUpdate errorWithParameters (Sprintf0 s) s err
          | inl parametersChecksum =>
              match MarshalRawParameters parametersWithSecretsRedacted with
              | inr err =>
                  let s := msg_marshal instance err in
                  failWith instance toUpdate errorWithParameters (Sprintf0 s) s err
              | inl raw => ret (parameters, parametersChecksum, Some {| Raw := raw |})
              end
          end
      end
  end.

(** [ProvisionInstance] returned an error. *)
Definition handleProvisionError (instance toUpdate : ServiceInstance) (r : Resolved)
    (err : error) : M unit :=
  let s := msg_provision instance (serviceClass r) (brokerName r) err in
  match IsHTTPError err with
  | Some httpErr =>
      instance_Event instance EventTypeWarning errorProvisionCallFailedReason s ;;
      toUpdate <- setServiceInstanceCondition toUpdate ConditionFailed ConditionTrue
        "ClusterServiceBrokerReturnedFailure" s ;;
      toUpdate <- setServiceInstanceCondition toUpdate ConditionReady ConditionFalse
        errorProvisionCallFailedReason
        (sprint ["ClusterServiceBroker returned a failure for provision call; operation will not be retried: "; s]) ;;
      if shouldStartOrphanMitigation (StatusCode httpErr) then
        updateServiceInstanceStatus (setServiceInstanceStartOrphanMitigation toUpdate) ;;
        fail err
      else
        updateServiceInstanceStatus (clearServiceInstanceCurrentOperation toUpdate) ;;
        ret tt
  | None =>
      instance_Event instance EventTypeWarning errorErrorCallingProvisionReason s ;;
      if isURLTimeout err then
        toUpdate <- setServiceInstanceCondition toUpdate ConditionReady ConditionFalse
          errorErrorCallingProvisionReason
          (sprint ["Communication with the ClusterServiceBroker timed out; operation will not be retried: "; s]) ;;
        toUpdate <- setServiceInstanceCondition toUpdate ConditionFailed ConditionTrue
          errorErrorCallingProvisionReason
          (sprint ["Communication with the ClusterServiceBroker timed out; operation will not be retried: "; s]) ;;
        updateServiceInstanceStatus (setServiceInstanceStartOrphanMitigation toUpdate) ;;
        fail err
      else
        toUpdate <- setServiceInstanceCondition toUpdate ConditionReady ConditionFalse
          errorErrorCallingProvisionReason (sprint ["Provision call failed and will be retried: "; s]) ;;
        elapsed <- retryDurationElapsed (OperationStartTime (si_Status toUpdate)) ;;
        if (elapsed : bool) then
          let s := msg_timeout instance in
          instance_Event instance EventTypeWarning errorReconciliationRetryTimeoutReason s ;;
          toUpdate <- setServiceInstanceCondition toUpdate ConditionFailed ConditionTrue
            errorReconciliationRetryTimeoutReason s ;;
          updateServiceInstanceStatus (clearServiceInstanceCurrentOperation toUpdate) ;;
          ret tt
        else
          updateServiceInstanceStatus toUpdate ;;
          fail err
  end.

(** [ProvisionInstance] succeeded, synchronously or not. *)
Definition handleProvisionResponse (instance toUpdate : ServiceInstance)
    (response : ProvisionResponse) : M unit :=
  let toUpdate := match nonempty (presp_DashboardURL response) with
    | Some url => si_upd (with_DashboardURL (Some url)) toUpdate
    | None => toUpdate
    end in
  if presp_Async response then
    let toUpdate := match nonempty (presp_OperationKey response) with
      | Some key => si_upd (with_LastOperation (Some key)) toUpdate
      | None => toUpdate
      end in
    let toUpdate := si_upd (with_AsyncOpInProgress true) toUpdate in
    toUpdate <- setServiceInstanceCondition toUpdate ConditionReady ConditionFalse
      asyncProvisioningReason asyncProvisioningMessage ;;
    updateServiceInstanceStatus toUpdate ;;
    beginPollingServiceInstance instance ;;
    instance_Event instance EventTypeNormal asyncProvisioningReason asyncProvisioningMessage
  else
    let toUpdate := si_upd (fun s => with_ExternalProperties (InProgressProperties s) s) toUpdate in
    let toUpdate := clearServiceInstanceCurrentOperation toUpdate in
    toUpdate <- setServiceInstanceCondition toUpdate ConditionReady ConditionTrue
      successProvisionReason successProvisionMessage ;;
    updateServiceInstanceStatus toUpdate ;;
    instance_Event instance EventTypeNormal successProvisionReason successProvisionMessage.

(** The provision request, from the namespace lookup to the broker's answer. *)
Definition provisionServiceInstance (instance toUpdate : ServiceInstance) (r : Resolved) : M unit :=
  nsr <- try (Namespaces_Get (Namespace (si_Meta instance))) ;;
  match nsr with
  | inr err =>
      let s := msg_namespace instance err in
      failWith instance toUpdate errorFindingNamespaceServiceInstanceReason s
        (sprint ["Error finding namespace for instance. "; s]) err
  | inl ns =>
  p <- prepareParameters instance toUpdate ;;
  let '(parameters, parametersChecksum, rawParametersWithRedaction) := p in
  let toUpdate := si_upd (with_InProgressProperties (Some {|
    ps_ExternalServicePlanName := sp_ExternalName (sp_Spec (servicePlan r));
    ps_Parameters := rawParametersWithRedaction;
    ps_ParametersChecksum := parametersChecksum;
    ps_UserInfo := si_UserInfo (si_Spec instance) |})) toUpdate in
  originatingIdentity <- originatingIdentityFor "provisioning" instance toUpdate ;;
  let request := {|
    pr_InstanceID := ExternalID (si_Spec instance);
    pr_AcceptsIncomplete := true;
    pr_ServiceID := sc_ExternalID (sc_Spec (serviceClass r));
    pr_PlanID := sp_ExternalID (sp_Spec (servicePlan r));
    pr_OrganizationGUID := ns_UID ns;
    pr_SpaceGUID := ns_UID ns;
    pr_Parameters := parameters;
    pr_Context := <["namespace" := JString (Namespace (si_Meta instance))]>
                  (<["platform" := JString ContextProfilePlatformKubernetes]> ∅);
    pr_OriginatingIdentity := originatingIdentity |} in
  toUpdate <- (if decide (CurrentOperation (si_Status toUpdate) = OperationNone) then
      recordStartOfServiceInstanceOperation toUpdate OperationProvision
    else ret toUpdate) ;;
  response <- try (ProvisionInstance (brokerClient r) request) ;;
  match response with
  | inr err => handleProvisionError instance toUpdate r err
  | inl response => handleProvisionResponse instance toUpdate response
  end
  end.

(** ** Polling *)

(** [deleting] of [pollServiceInstance]. *)
Definition pollDeleting (instance : ServiceInstance) : bool :=
  bool_decide (CurrentOperation (si_Status instance) = OperationDeprovision) ||
  OrphanMitigationInProgress (si_Status instance).

(** Giving up on an asynchronous operation: a deletion is closed, a
    provisioning goes to orphan mitigation. *)
Definition stopPolling (instance toUpdate : ServiceInstance) (s : string) : M unit :=
  instance_Event instance EventTypeWarning errorReconciliationRetryTimeoutReason s ;;
  toUpdate <- (if negb (OrphanMitigationInProgress (si_Status instance)) then
      setServiceInstanceCondition toUpdate ConditionFailed ConditionTrue
        errorReconciliationRetryTimeoutReason s
    else ret toUpdate) ;;
  let toUpdate := if pollDeleting instance then clearServiceInstanceCurrentOperation toUpdate
                  else setServiceInstanceStartOrphanMitigation toUpdate in
  updateServiceInstanceStatus toUpdate ;;
  finishPollingServiceInstance instance.

(** The finalizer of an instance whose deletion is complete; orphan
    mitigation keeps it. *)
Definition clearFinalizer (instance toUpdate : ServiceInstance) : ServiceInstance :=
  if negb (OrphanMitigationInProgress (si_Status instance)) then
    let finalizers := NewString (Finalizers (si_Meta toUpdate)) in
    if set_Has finalizers FinalizerServiceCatalog
    then si_with_Finalizers (set_Delete FinalizerServiceCatalog finalizers) toUpdate
    else toUpdate
  else toUpdate.

(** [PollLastOperation] returned an error. *)
Definition handlePollError (instance : ServiceInstance) (err : error) : M unit :=
  if IsGoneError err && pollDeleting instance then
    let toUpdate := si_upd (with_ExternalProperties None)
      (clearServiceInstanceCurrentOperation instance) in
    toUpdate <- setServiceInstanceCondition toUpdate ConditionReady ConditionFalse
      successDeprovisionReason successDeprovisionMessage ;;
    updateServiceInstanceStatus (clearFinalizer instance toUpdate) ;;
    instance_Event instance EventTypeNormal successDeprovisionReason successDeprovisionMessage ;;
    finishPollingServiceInstance instance
  else
    instance_Event instance EventTypeWarning errorPollingLastOperationReason
      (msg_poll_error instance err) ;;
    elapsed <- retryDurationElapsed (OperationStartTime (si_Status instance)) ;;
    if (elapsed : bool) then stopPolling instance instance (msg_timeout instance)
    else continuePollingServiceInstance instance.

(** [osb.StateInProgress] *)
Definition handleStateInProgress (instance : ServiceInstance) (response : LastOperationResponse) :
    M unit :=
  toUpdate <- match lresp_Description response with
    | Some description =>
        let '(reason, message) := if pollDeleting instance
          then (asyncDeprovisioningReason, asyncDeprovisioningMessage)
          else (asyncProvisioningReason, asyncProvisioningMessage) in
        toUpdate <- setServiceInstanceCondition (si_upd (with_AsyncOpInProgress true) instance)
          ConditionReady ConditionFalse reason (sprint [message; " ("; description; ")"]) ;;
        ret (Some toUpdate)
    | None => ret None
    end ;;
  elapsed <- retryDurationElapsed (OperationStartTime (si_Status instance)) ;;
  if (elapsed : bool) then
    stopPolling instance (default instance toUpdate) (msg_timeout instance)
  else
    match toUpdate with
    | Some toUpdate => updateServiceInstanceStatus toUpdate ;; ret tt
    | None => ret tt
    end ;;
    continuePollingServiceInstance instance.

(** [osb.StateSucceeded] *)
Definition handleStateSucceeded (instance : ServiceInstance) : M unit :=
  let toUpdate := clearServiceInstanceCurrentOperation
    (si_upd (fun s => with_ExternalProperties (InProgressProperties s) s) instance) in
  if pollDeleting instance then
    toUpdate <- setServiceInstanceCondition toUpdate ConditionReady ConditionFalse
      successDeprovisionReason successDeprovisionMessage ;;
    updateServiceInstanceStatus (clearFinalizer instance toUpdate) ;;
    instance_Event instance EventTypeNormal successDeprovisionReason successDeprovisionMessage ;;
    finishPollingServiceInstance instance
  else
    toUpdate <- setServiceInstanceCondition toUpdate ConditionReady ConditionTrue
      successProvisionReason successProvisionMessage ;;
    updateServiceInstanceStatus toUpdate ;;
    finishPollingServiceInstance instance.

(** [osb.StateFailed] *)
Definition handleStateFailed (instance : ServiceInstance) (r : Resolved)
    (response : LastOperationResponse) : M unit :=
  let description := default "" (lresp_Description response) in
  let s := msg_poll_failed instance (serviceClass r) (brokerName r) description in
  instance_Event instance EventTypeWarning errorDeprovisionCalledReason s ;;
  let toUpdate := clearServiceInstanceCurrentOperation instance in
  let '(readyCond, reason, msg) := if pollDeleting instance
    then (ConditionUnknown, errorDeprovisionCalledReason, sprint ["Deprovision call failed:"; s])
    else (ConditionFalse, errorProvisionCallFailedReason, sprint ["Provision call failed: "; s]) in
  toUpdate <- setServiceInstanceCondition toUpdate ConditionReady readyCond reason msg ;;
  toUpdate <- (if negb (OrphanMitigationInProgress (si_Status instance)) then
      setServiceInstanceCondition toUpdate ConditionFailed ConditionTrue reason msg
    else ret toUpdate) ;;
  updateServiceInstanceStatus toUpdate ;;
  finishPollingServiceInstance instance.

(** Any other state. *)
Definition handleStateOther (instance : ServiceInstance) (st : LastOperationState) : M unit :=
  elapsed <- retryDurationElapsed (OperationStartTime (si_Status instance)) ;;
  if (elapsed : bool) then stopPolling instance instance (msg_timeout instance)
  else fail (PlainError (msg_invalid_state st)).

Definition pollServiceInstance (instance : ServiceInstance) (r : Resolved) : M unit :=
  match OperationStartTime (si_Status instance) with
  | None => stopPolling instance instance (msg_nostart instance)
  | Some _ =>
      originatingIdentity <- originatingIdentityFor "polling last operation of" instance instance ;;
      let request := {|
        lo_InstanceID := ExternalID (si_Spec instance);
        lo_ServiceID := Some (sc_ExternalID (sc_Spec (serviceClass r)));
        lo_PlanID := Some (sp_ExternalID (sp_Spec (servicePlan r)));
        lo_OperationKey := nonempty (LastOperation (si_Status instance));
        lo_OriginatingIdentity := originatingIdentity |} in
      response <- try (PollLastOperation (brokerClient r) request) ;;
      match response with
      | inr err => handlePollError instance err
      | inl response =>
          match lresp_State response with
          | StateInProgress => handleStateInProgress instance response
          | StateSucceeded => handleStateSucceeded instance
          | StateFailed => handleStateFailed instance r response
          | st => handleStateOther instance st
          end
      end
  end.

Definition pollServiceInstanceInternal (instance : ServiceInstance) : M unit :=
  r <- getServiceClassPlanAndClusterServiceBroker instance ;;
  pollServiceInstance instance r.

(** ** The control loop *)

Definition reconcileServiceInstance (instance : ServiceInstance) : M unit :=
  if AsyncOpInProgress (si_Status instance) then pollServiceInstanceInternal instance
  else
  if negb (bool_decide (DeletionTimestamp (si_Meta instance) = None)) ||
     OrphanMitigationInProgress (si_Status instance)
  then reconcileServiceInstanceDelete instance
  else
  if isServiceInstanceFailed instance then ret tt
  else
  if ReconciledGeneration (si_Status instance) =? Generation (si_Meta instance) then ret tt
  else
  toUpdate <- resolveReferences instance ;;
  r <- getServiceClassPlanAndClusterServiceBroker toUpdate ;;
  provisionServiceInstance instance toUpdate r.

Definition reconcileServiceInstanceKey (key : string) : M unit :=
  nsn <- lift (SplitMetaNamespaceKey key) ;;
  r <- try (instanceLister_Get (fst nsn) (snd nsn)) ;;
  match r with
  | inr err => if IsNotFound err then ret tt else fail err
  | inl instance => reconcileServiceInstance instance
  end.
End controller.
