(* ===== verification/InstanceSpec.v ===== *)
(** * What the ServiceInstance control loop promises

    The invariant of an instance, the laws the controller relies on of the API
    server, and the protocol every effect of a reconciliation obeys: writes
    keep the invariant, the finalizer goes only when the broker has released
    the instance, Ready is claimed only after the broker's success, a broker
    operation is recorded in the status before it is requested, at most one
    broker call is made, and polling is never lost. *)

From S2P Require Import Prelude Types Conditions Environment Sha256 Json ParametersModel Validation ControllerCommon ValidationSpec InstanceController.

(** ** Laws of the environment *)

(** What an accepted update returns: the object as submitted (the API server
    checks the resource version, so nothing else changed it meanwhile; the
    status strategy keeps the submitted status). *)
Record updated (obj obj' : ServiceInstance) : Prop := {
  updated_status : si_Status obj' = si_Status obj;
  updated_generation : Generation (si_Meta obj') = Generation (si_Meta obj);
  updated_finalizers : Finalizers (si_Meta obj') = Finalizers (si_Meta obj) }.

Definition refs_set (i : ServiceInstance) : Prop :=
  is_Some (ServiceClassRef (si_Spec i)) /\ is_Some (ServicePlanRef (si_Spec i)).

Class InstanceLaws (W : Type) {E : Env W} : Prop := {
  law_UpdateStatus i w i' w' :
    env_ServiceInstances_UpdateStatus i w = (inl i', w') -> updated i i';
  law_UpdateReferences i w i' w' :
    env_ServiceInstances_UpdateReferences i w = (inl i', w') ->
    updated i i' /\ (refs_set i -> refs_set i');
  law_brokerLister name w b w' :
    env_brokerLister_Get name w = (Some b, w') -> auth_ref_set b }.

(** What JSON encodes, YAML decodes: a JSON object is a YAML mapping. *)
Class YamlLaws {C : Config} : Prop :=
  law_yaml : forall m s, json_Marshal_map m = inl s -> is_err (yaml_Unmarshal s) = false.

(** ** The invariant *)

Section invariant.
Context {C : Config}.

(** Orphan mitigation under way. *)
Record status_mitigating (s : ServiceInstanceStatus) : Prop := {
  mit_flag : OrphanMitigationInProgress s = true;
  mit_inprogress : instance_properties_ok (InProgressProperties s);
  mit_external : instance_properties_ok (ExternalProperties s) }.

Definition status_ok (s : ServiceInstanceStatus) : Prop :=
  status_at_rest s \/ status_in_operation s \/ status_mitigating s.

(** The cases in which reconciliation looks the class and plan up without
    resolving references first. *)
Definition needs_refs (i : ServiceInstance) : bool :=
  AsyncOpInProgress (si_Status i) || OrphanMitigationInProgress (si_Status i) ||
  (negb (isServiceInstanceFailed i) && negb (ReconciledGeneration (si_Status i) =? 0)
   && bool_decide (DeletionTimestamp (si_Meta i) <> None)).

Record instance_ok (i : ServiceInstance) : Prop := {
  ok_unique : NoDup (cond_Type <$> Conditions (si_Status i));
  ok_status : status_ok (si_Status i);
  ok_refs : needs_refs i = true -> refs_set i;
  ok_deprovision : CurrentOperation (si_Status i) = OperationDeprovision ->
    DeletionTimestamp (si_Meta i) <> None \/ OrphanMitigationInProgress (si_Status i) = true }.
End invariant.

(** ** The protocol *)

Definition broker_call (e : Effect) : bool :=
  match e with
  | EProvision _ _ _ | EDeprovision _ _ _ | EPollLastOperation _ _ _
  | EBind _ _ _ | EUnbind _ _ _ | EGetCatalog _ _ => true
  | _ => false
  end.

Section protocol.
Context {C : Config} (i : ServiceInstance).

(** The versions of the instance the controller knows to be stored. *)
Definition stored (prior : list Effect) (j : ServiceInstance) : Prop :=
  j = i \/ (exists obj, EInstanceUpdateStatus obj (inl j) ∈ prior)
  \/ (exists obj, EInstanceUpdateReferences obj (inl j) ∈ prior).

(** The operation is recorded in the stored status. *)
Definition recorded (prior : list Effect) : Prop :=
  exists j, stored prior j /\ CurrentOperation (si_Status j) <> OperationNone.

Definition provisioned (prior : list Effect) : Prop :=
  (exists c req r, EProvision c req (inl r) ∈ prior /\ presp_Async r = false) \/
  (AsyncOpInProgress (si_Status i) = true /\ pollDeleting i = false /\
   exists c req r, EPollLastOperation c req (inl r) ∈ prior /\ lresp_State r = StateSucceeded).

Definition deprovisioned (prior : list Effect) : Prop :=
  (exists c req r, EDeprovision c req (inl r) ∈ prior /\ dresp_Async r = false /\
   DeletionTimestamp (si_Meta i) <> None) \/
  (AsyncOpInProgress (si_Status i) = true /\ CurrentOperation (si_Status i) = OperationDeprovision /\
   OrphanMitigationInProgress (si_Status i) = false /\
   exists c req res, EPollLastOperation c req res ∈ prior /\
     match res with inl r => lresp_State r = StateSucceeded | inr e => IsGoneError e = true end).

(** Nothing is left at the broker as far as the status says: the instance is
    being deleted, no operation is pending, and it failed or was never
    reconciled. *)
Definition abandoned : Prop :=
  DeletionTimestamp (si_Meta i) <> None /\ AsyncOpInProgress (si_Status i) = false /\
  OrphanMitigationInProgress (si_Status i) = false /\
  (isServiceInstanceFailed i = true \/ ReconciledGeneration (si_Status i) = 0).

(** Nothing left to do for this generation. *)
Record settled (obj : ServiceInstance) : Prop := {
  set_operation : CurrentOperation (si_Status obj) = OperationNone;
  set_async : AsyncOpInProgress (si_Status obj) = false;
  set_orphan : OrphanMitigationInProgress (si_Status obj) = false;
  set_generation : ReconciledGeneration (si_Status obj) = Generation (si_Meta obj) }.

Record write_ok (prior : list Effect) (obj : ServiceInstance) : Prop := {
  wo_unique : NoDup (cond_Type <$> Conditions (si_Status obj));
  wo_status : status_ok (si_Status obj);
  wo_finalizer : FinalizerServiceCatalog ∈ Finalizers (si_Meta i) ->
    FinalizerServiceCatalog ∉ Finalizers (si_Meta obj) -> abandoned \/ deprovisioned prior;
  wo_ready : isServiceInstanceReady obj = true -> isServiceInstanceReady i = true \/
    provisioned prior /\ settled obj;
  wo_mitigation : OrphanMitigationInProgress (si_Status obj) = true ->
    OrphanMitigationInProgress (si_Status i) = true \/
    CurrentOperation (si_Status obj) <> OperationNone /\ OperationStartTime (si_Status obj) = None;
  wo_generation : ReconciledGeneration (si_Status obj) = ReconciledGeneration (si_Status i) \/
    ReconciledGeneration (si_Status obj) = Generation (si_Meta i) /\
    CurrentOperation (si_Status obj) = OperationNone }.

(** When a provision request may go out. *)
Record provision_ok (prior : list Effect) (req : ProvisionRequest) : Prop := {
  po_recorded : recorded prior;
  po_single : Forall (fun e => broker_call e = false) prior;
  po_id : pr_InstanceID req = ExternalID (si_Spec i);
  po_live : DeletionTimestamp (si_Meta i) = None;
  po_async : AsyncOpInProgress (si_Status i) = false;
  po_orphan : OrphanMitigationInProgress (si_Status i) = false;
  po_failed : isServiceInstanceFailed i = false;
  po_generation : ReconciledGeneration (si_Status i) <> Generation (si_Meta i) }.

Record deprovision_ok (prior : list Effect) (req : DeprovisionRequest) : Prop := {
  do_recorded : recorded prior;
  do_single : Forall (fun e => broker_call e = false) prior;
  do_id : dr_InstanceID req = ExternalID (si_Spec i);
  do_dying : DeletionTimestamp (si_Meta i) <> None \/ OrphanMitigationInProgress (si_Status i) = true;
  do_async : AsyncOpInProgress (si_Status i) = false;
  do_finalizer : FinalizerServiceCatalog ∈ Finalizers (si_Meta i) }.

Record poll_ok (prior : list Effect) (req : LastOperationRequest) : Prop := {
  lo_single : Forall (fun e => broker_call e = false) prior;
  lo_id : lo_InstanceID req = ExternalID (si_Spec i);
  lo_async : AsyncOpInProgress (si_Status i) = true;
  lo_started : is_Some (OperationStartTime (si_Status i)) }.

(** Polling is scheduled only for an operation the stored status calls
    asynchronous. *)
Definition schedule_ok (prior : list Effect) (key : string) : Prop :=
  key = MetaNamespaceKey (si_Meta i) /\
  (AsyncOpInProgress (si_Status i) = true \/
   exists obj j, EInstanceUpdateStatus obj (inl j) ∈ prior /\ AsyncOpInProgress (si_Status obj) = true).

Definition instance_protocol (prior : list Effect) (e : Effect) : Prop :=
  match e with
  | EInstanceUpdateStatus obj _ => write_ok prior obj
  | EInstanceUpdateReferences obj _ => si_Status obj = si_Status i /\ refs_set obj
  | EProvision _ req _ => provision_ok prior req
  | EDeprovision _ req _ => deprovision_ok prior req
  | EPollLastOperation _ req _ => poll_ok prior req
  | EPollingQueueAddRateLimited key => schedule_ok prior key
  | EPollingQueueForget key => key = MetaNamespaceKey (si_Meta i)
  | ERecord _ => True
  | _ => False
  end.

(** A reconciliation that returns nil has nothing left to do, has scheduled a
    poll, or has stored a status without a pending asynchronous operation
    (whose watch event queues the instance again). *)
Definition kept (t : list Effect) : Prop :=
  (AsyncOpInProgress (si_Status i) = false /\ t = []) \/
  EPollingQueueAddRateLimited (MetaNamespaceKey (si_Meta i)) ∈ t \/
  exists obj j, EInstanceUpdateStatus obj (inl j) ∈ t /\ AsyncOpInProgress (si_Status obj) = false.

Definition finished (o : outcome unit) (t : list Effect) : Prop :=
  o <> Panic /\ (o = Ok tt -> kept t).
End protocol.
