(* ===== verification/Sample.v ===== *)
(** * A concrete environment

    An executable environment for the controller: an in-memory API server that
    stores what it is given, informer caches that read it, a clock that ticks
    on every look, and brokers with fixed answers.  The theorems quantify over
    every environment; this one shows that their hypotheses can be met, and
    runs the handlers on concrete objects. *)

From S2P Require Import Prelude Types Conditions Environment Sha256 Json ParametersModel Validation ControllerCommon ValidationSpec InstanceController InstanceSpec.

Record World := {
  w_now : Z;
  w_instances : list ServiceInstance;
  w_bindings : list ServiceInstanceCredential;
  w_brokers : list ClusterServiceBroker;
  w_classes : list ServiceClass;
  w_plans : list ServicePlan;
  w_secrets : list Secret;
  w_provision : ProvisionResponse + error;
  w_deprovision : DeprovisionResponse + error;
  w_poll : LastOperationResponse + error;
  w_bind : BindResponse + error;
  w_unbind : unit + error;
  w_catalog : CatalogResponse + error }.

Definition same_object (m1 m2 : ObjectMeta) : bool :=
  bool_decide (Namespace m1 = Namespace m2) && bool_decide (Name m1 = Name m2).
Definition has_name (name : string) (m : ObjectMeta) : bool := bool_decide (Name m = name).

Fixpoint put {A} (meta : A -> ObjectMeta) (x : A) (l : list A) : list A :=
  match l with
  | [] => [x]
  | y :: l' => if same_object (meta x) (meta y) then x :: l' else y :: put meta x l'
  end.

Definition auth_ref_setb (b : ClusterServiceBroker) : bool :=
  match AuthInfo (b_Spec b) with
  | Some ai =>
      match Basic ai, Bearer ai with
      | Some basic, _ => match bac_SecretRef basic with Some _ => true | None => false end
      | None, Some bearer => match btac_SecretRef bearer with Some _ => true | None => false end
      | None, None => true
      end
  | None => true
  end.

Definition w_with_now t (w : World) : World :=
  {| w_now := t; w_instances := w_instances w; w_bindings := w_bindings w; w_brokers := w_brokers w;
     w_classes := w_classes w; w_plans := w_plans w; w_secrets := w_secrets w;
     w_provision := w_provision w; w_deprovision := w_deprovision w; w_poll := w_poll w;
     w_bind := w_bind w; w_unbind := w_unbind w; w_catalog := w_catalog w |}.
Definition w_with_instances l (w : World) : World :=
  {| w_now := w_now w; w_instances := l; w_bindings := w_bindings w; w_brokers := w_brokers w;
     w_classes := w_classes w; w_plans := w_plans w; w_secrets := w_secrets w;
     w_provision := w_provision w; w_deprovision := w_deprovision w; w_poll := w_poll w;
     w_bind := w_bind w; w_unbind := w_unbind w; w_catalog := w_catalog w |}.
Definition w_with_bindings l (w : World) : World :=
  {| w_now := w_now w; w_instances := w_instances w; w_bindings := l; w_brokers := w_brokers w;
     w_classes := w_classes w; w_plans := w_plans w; w_secrets := w_secrets w;
     w_provision := w_provision w; w_deprovision := w_deprovision w; w_poll := w_poll w;
     w_bind := w_bind w; w_unbind := w_unbind w; w_catalog := w_catalog w |}.
Definition w_with_brokers l (w : World) : World :=
  {| w_now := w_now w; w_instances := w_instances w; w_bindings := w_bindings w; w_brokers := l;
     w_classes := w_classes w; w_plans := w_plans w; w_secrets := w_secrets w;
     w_provision := w_provision w; w_deprovision := w_deprovision w; w_poll := w_poll w;
     w_bind := w_bind w; w_unbind := w_unbind w; w_catalog := w_catalog w |}.
Definition w_with_catalog cs ps (w : World) : World :=
  {| w_now := w_now w; w_instances := w_instances w; w_bindings := w_bindings w; w_brokers := w_brokers w;
     w_classes := cs; w_plans := ps; w_secrets := w_secrets w;
     w_provision := w_provision w; w_deprovision := w_deprovision w; w_poll := w_poll w;
     w_bind := w_bind w; w_unbind := w_unbind w; w_catalog := w_catalog w |}.
Definition w_with_secrets l (w : World) : World :=
  {| w_now := w_now w; w_instances := w_instances w; w_bindings := w_bindings w; w_brokers := w_brokers w;
     w_classes := w_classes w; w_plans := w_plans w; w_secrets := l;
     w_provision := w_provision w; w_deprovision := w_deprovision w; w_poll := w_poll w;
     w_bind := w_bind w; w_unbind := w_unbind w; w_catalog := w_catalog w |}.

Definition gone {A} : A + error := inr (StatusError ReasonNotFound "not found").
Definition found {A} (o : option A) : A + error := match o with Some a => inl a | None => gone end.
Definition at_key {A} (meta : A -> ObjectMeta) ns name (l : list A) : option A :=
  List.find (fun x => bool_decide (Namespace (meta x) = ns) && bool_decide (Name (meta x) = name)) l.
Definition without {A} (meta : A -> ObjectMeta) name (l : list A) : list A :=
  List.filter (fun x => negb (has_name name (meta x))) l.

#[export] Instance sample_env : Env World := {|
  env_Now w := (w_now w, w_with_now (w_now w + 1) w);
  env_instanceLister_Get ns name w := (at_key si_Meta ns name (w_instances w), w);
  env_bindingLister_Get ns name w := (at_key bind_Meta ns name (w_bindings w), w);
  env_bindingLister_List ns w := (inl (List.filter (fun b => bool_decide (Namespace (bind_Meta b) = ns)) (w_bindings w)), w);
  env_brokerLister_Get name w :=
    (List.find (fun b => auth_ref_setb b && has_name name (b_Meta b)) (w_brokers w), w);
  env_serviceClassLister_Get name w := (List.find (fun c => has_name name (sc_Meta c)) (w_classes w), w);
  env_serviceClassLister_List w := (inl (w_classes w), w);
  env_servicePlanLister_Get name w := (List.find (fun p => has_name name (sp_Meta p)) (w_plans w), w);
  env_servicePlanLister_List w := (inl (w_plans w), w);
  env_ServiceClasses_List ext w :=
    ((List.filter (fun c => bool_decide (sc_ExternalName (sc_Spec c) = ext)) (w_classes w), None), w);
  env_ServicePlans_List ext cls br w :=
    ((List.filter (fun p => bool_decide (sp_ExternalName (sp_Spec p) = ext) &&
        bool_decide (lref_Name (sp_ServiceClassRef (sp_Spec p)) = cls) &&
        bool_decide (sp_ClusterServiceBrokerName (sp_Spec p) = br)) (w_plans w), None), w);
  env_ServiceInstances_UpdateStatus i w := (inl i, w_with_instances (put si_Meta i (w_instances w)) w);
  env_ServiceInstances_UpdateReferences i w := (inl i, w_with_instances (put si_Meta i (w_instances w)) w);
  env_Bindings_UpdateStatus b w := (inl b, w_with_bindings (put bind_Meta b (w_bindings w)) w);
  env_Brokers_Get name w := (found (List.find (fun b => has_name name (b_Meta b)) (w_brokers w)), w);
  env_Brokers_UpdateStatus b w := (inl b, w_with_brokers (put b_Meta b (w_brokers w)) w);
  env_ServiceClasses_Create c w := (inl c, w_with_catalog (put sc_Meta c (w_classes w)) (w_plans w) w);
  env_ServiceClasses_Update c w := (inl c, w_with_catalog (put sc_Meta c (w_classes w)) (w_plans w) w);
  env_ServiceClasses_Delete name w :=
    (inl tt, w_with_catalog (without sc_Meta name (w_classes w)) (w_plans w) w);
  env_ServicePlans_Create p w := (inl p, w_with_catalog (w_classes w) (put sp_Meta p (w_plans w)) w);
  env_ServicePlans_Update p w := (inl p, w_with_catalog (w_classes w) (put sp_Meta p (w_plans w)) w);
  env_ServicePlans_Delete name w :=
    (inl tt, w_with_catalog (w_classes w) (without sp_Meta name (w_plans w)) w);
  env_Namespaces_Get name w :=
    (inl {| ns_Name := name; ns_UID := sprint ["uid-"; name]; ns_Phase := NamespaceActive |}, w);
  env_Secrets_Get ns name w := (found (at_key secret_Meta ns name (w_secrets w)), w);
  env_Secrets_Create s w := (inl s, w_with_secrets (put secret_Meta s (w_secrets w)) w);
  env_Secrets_Update s w := (inl s, w_with_secrets (put secret_Meta s (w_secrets w)) w);
  env_Secrets_Delete ns name w :=
    (inl tt, w_with_secrets (List.filter (fun s => negb (bool_decide (Namespace (secret_Meta s) = ns)
       && bool_decide (Name (secret_Meta s) = name))) (w_secrets w)) w);
  env_brokerClientCreate _ w := (None, w);
  env_ProvisionInstance _ _ w := (w_provision w, w);
  env_DeprovisionInstance _ _ w := (w_deprovision w, w);
  env_PollLastOperation _ _ w := (w_poll w, w);
  env_Bind _ _ w := (w_bind w, w);
  env_Unbind _ _ w := (w_unbind w, w);
  env_GetCatalog _ w := (w_catalog w, w);
|}.

#[export] Instance sample_config : Config := {|
  reconciliationRetryDuration := 1000;
  OriginatingIdentityEnabled := true;
  yaml_Unmarshal _ := inl {[ "size" := JNum "3" ]};
  json_Unmarshal _ := inl {[ "password" := JString "hunter2" ]};
  fmt_pointer _ := "0xc0";
  fmt_raw _ := "&{}";
  fmt_value _ := "map[]";
  fmt_controllerRef _ := "<nil>" |}.

#[export] Instance sample_meta : MetaValidation := fun _ _ _ _ => [].

#[export] Instance sample_laws : InstanceLaws World.
Proof.
  split.
  - intros i w i' w' [= <- _]. done.
  - intros i w i' w' [= <- _]. done.
  - intros name w b w' [= H _]. apply List.find_some in H as [_ H]. apply andb_prop in H as [H _].
    unfold auth_ref_set, auth_ref_setb in *. destruct (AuthInfo (b_Spec b)) as [ai|]; [|done].
    destruct (Basic ai) as [ba|]; [split; [|done]|split; [done|]]; intros b' Hb'; simplify_eq.
    + by destruct (bac_SecretRef b').
    + intros Hb''. rewrite Hb'' in H. by destruct (btac_SecretRef b').
Qed.

#[export] Instance sample_yaml : YamlLaws.
Proof. by intros m s H. Qed.

(** ** Concrete objects *)

Definition noTypeMeta : TypeMeta := {| Kind := ""; APIVersion := "" |}.
Definition meta (ns name uid : string) (gen : Z) (del : option Z) (fin : list string) : ObjectMeta :=
  {| Name := name; Namespace := ns; UID := uid; ResourceVersion := "1"; Generation := gen;
     DeletionTimestamp := del; Finalizers := fin; OwnerReferences := [] |}.
Definition refTo (name : string) : ObjectReference :=
  {| ref_Kind := ""; ref_Namespace := ""; ref_Name := name; ref_UID := ""; ref_APIVersion := "";
     ref_ResourceVersion := "" |}.

Definition class1 : ServiceClass :=
  {| sc_TypeMeta := noTypeMeta; sc_Meta := meta "" "class-guid" "uid-c" 1 None [];
     sc_Spec := {| sc_ClusterServiceBrokerName := "broker"; sc_ExternalName := "mysql";
       sc_ExternalID := "class-guid"; sc_Description := "a database"; sc_Bindable := true;
       sc_PlanUpdatable := false; sc_ExternalMetadata := None; sc_Tags := []; sc_Requires := [] |} |}.
Definition plan1 : ServicePlan :=
  {| sp_TypeMeta := noTypeMeta; sp_Meta := meta "" "plan-guid" "uid-p" 1 None [];
     sp_Spec := {| sp_ClusterServiceBrokerName := "broker"; sp_ExternalName := "small";
       sp_ExternalID := "plan-guid"; sp_Description := "a plan"; sp_Bindable := None; sp_Free := true;
       sp_ExternalMetadata := None; sp_ServiceInstanceCreateParameterSchema := None;
       sp_ServiceInstanceUpdateParameterSchema := None;
       sp_ServiceInstanceCredentialCreateParameterSchema := None;
       sp_ServiceClassRef := {| lref_Name := "class-guid" |} |} |}.
Definition broker1 : ClusterServiceBroker :=
  {| b_TypeMeta := noTypeMeta;
     b_Meta := meta "" "broker" "uid-b" 1 None [FinalizerServiceCatalog];
     b_Spec := {| URL := "https://broker"; AuthInfo := None; InsecureSkipTLSVerify := false;
       CABundle := ""; RelistBehavior := RelistBehaviorDuration; RelistDuration := Some 900;
       RelistRequests := 0 |};
     b_Status := {| bs_Conditions := []; bs_ReconciledGeneration := 0; bs_OperationStartTime := None |} |}.

Definition status0 : ServiceInstanceStatus :=
  Build_ServiceInstanceStatus [] false false None None OperationNone 0 None None None.
Definition spec1 : ServiceInstanceSpec :=
  {| ExternalServiceClassName := "mysql"; ExternalServicePlanName := "small"; ServiceClassRef := None;
     ServicePlanRef := None; Parameters := None; ParametersFrom := None; ExternalID := "instance-guid";
     si_UserInfo := None |}.
Definition instance1 : ServiceInstance :=
  {| si_TypeMeta := noTypeMeta; si_Meta := meta "ns" "db" "uid-i" 1 None [FinalizerServiceCatalog];
     si_Spec := spec1; si_Status := status0 |}.

(** A provisioned instance whose deletion was requested. *)
Definition instance_deleting : ServiceInstance :=
  {| si_TypeMeta := noTypeMeta;
     si_Meta := meta "ns" "db" "uid-i" 2 (Some 5) [FinalizerServiceCatalog];
     si_Spec := with_ServicePlanRef (Some (refTo "plan-guid"))
                  (with_ServiceClassRef (Some (refTo "class-guid")) spec1);
     si_Status := with_ReconciledGeneration 1 status0 |}.

(** An instance whose deprovisioning the broker carries out asynchronously. *)
Definition instance_polling : ServiceInstance :=
  si_upd (fun s => with_AsyncOpInProgress true (with_CurrentOperation OperationDeprovision
    (with_OperationStartTime (Some 5) s))) instance_deleting.

Definition world1 : World :=
  {| w_now := 100; w_instances := [instance1]; w_bindings := []; w_brokers := [broker1];
     w_classes := [class1]; w_plans := [plan1]; w_secrets := [];
     w_provision := inl {| presp_Async := false; presp_DashboardURL := None; presp_OperationKey := None |};
     w_deprovision := inl {| dresp_Async := false; dresp_OperationKey := None |};
     w_poll := inl {| lresp_State := StateSucceeded; lresp_Description := None |};
     w_bind := inl {| bresp_Credentials := ∅ |}; w_unbind := inl tt;
     w_catalog := inl {| Services := [] |} |}.

Definition secret1 : Secret :=
  {| secret_Meta := meta "ns" "params" "uid-s" 1 None []; secret_Data := {[ "key" := "{}" ]} |}.
Definition source1 : ParametersFromSource :=
  {| pfs_SecretKeyRef := Some {| skr_Name := "params"; skr_Key := "key" |} |}.

(** The same world with other broker answers. *)
Definition world_with (prov : ProvisionResponse + error) (deprov : DeprovisionResponse + error)
    (poll : LastOperationResponse + error) (creds : list ServiceInstanceCredential) : World :=
  {| w_now := 100; w_instances := [instance1]; w_bindings := creds; w_brokers := [broker1];
     w_classes := [class1]; w_plans := [plan1]; w_secrets := [];
     w_provision := prov; w_deprovision := deprov; w_poll := poll;
     w_bind := inl {| bresp_Credentials := ∅ |}; w_unbind := inl tt;
     w_catalog := inl {| Services := [] |} |}.
Definition http (code : Z) : error := HTTPStatusCodeError code None None None.
Definition world_failing (code : Z) : World :=
  world_with (inr (http code)) (inr (http code))
    (inl {| lresp_State := StateInProgress; lresp_Description := None |}) [].

(** A binding to the sample instance. *)
Definition bstatus0 : ServiceInstanceCredentialStatus :=
  Build_ServiceInstanceCredentialStatus [] BOperationNone 0 None None None false.
Definition binding1 : ServiceInstanceCredential :=
  {| bind_TypeMeta := noTypeMeta; bind_Meta := meta "ns" "cred" "uid-k" 1 None [FinalizerServiceCatalog];
     bind_Spec := {| ServiceInstanceRef := {| lref_Name := "db" |}; bind_Parameters := None;
       bind_ParametersFrom := None; SecretName := "db-secret"; bind_ExternalID := "binding-guid";
       bind_UserInfo := None |};
     bind_Status := bstatus0 |}.

Lemma instance1_ok : instance_ok instance1.
Proof.
  split; [apply NoDup_nil_2|left; by split|done|done].
Qed.

Lemma instance_deleting_ok : instance_ok instance_deleting.
Proof. split; [apply NoDup_nil_2|left; by split|by split; eexists|done]. Qed.

Lemma instance_polling_ok : instance_ok instance_polling.
Proof.
  split; [apply NoDup_nil_2| |by split; eexists|by left].
  right; left. split; try done; [by right; right|]. by split; [intros [? ?]|].
Qed.
