(* ===== verification/InstanceProofs.v ===== *)
(** * The ServiceInstance control loop keeps its promises

    Each phase of [InstanceController] is shown to follow
    [InstanceSpec.instance_protocol]; the phases compose to the theorem on
    [reconcileServiceInstance], from which [InstanceTheorems] reads off the
    properties. *)

From S2P Require Import Prelude Types Conditions Environment Sha256 Json ParametersModel Validation ControllerCommon ValidationSpec InstanceController InstanceSpec.

(** ** Drafts

    [draft i t]: [t] is the instance [i] with changes that are not yet a
    result: conditions (Ready not true), bookkeeping of the operation. *)

Section drafts.
Context {C : Config} (i : ServiceInstance).

Record draft (t : ServiceInstance) : Prop := {
  dr_unique : NoDup (cond_Type <$> Conditions (si_Status t));
  dr_status : status_ok (si_Status t);
  dr_finalizers : Finalizers (si_Meta t) = Finalizers (si_Meta i);
  dr_generation : Generation (si_Meta t) = Generation (si_Meta i);
  dr_reconciled : ReconciledGeneration (si_Status t) = ReconciledGeneration (si_Status i);
  dr_async : AsyncOpInProgress (si_Status t) = AsyncOpInProgress (si_Status i);
  dr_orphan : OrphanMitigationInProgress (si_Status t) = OrphanMitigationInProgress (si_Status i);
  dr_operation : CurrentOperation (si_Status i) <> OperationNone -> CurrentOperation (si_Status t) <> OperationNone;
  dr_ready : isServiceInstanceReady t = true -> isServiceInstanceReady i = true }.

Lemma draft_refl : instance_ok i -> draft i.
Proof. by intros []. Qed.

Lemma draft_updated t t' : draft t -> updated t t' -> draft t'.
Proof.
  intros [] [Hs Hg Hf]. split; unfold isServiceInstanceReady in *; rewrite ?Hs, ?Hg, ?Hf; auto.
Qed.

Lemma status_ok_external s : status_ok s -> instance_properties_ok (ExternalProperties s).
Proof. by intros [[]|[[]|[]]]. Qed.

(** Setting a condition, Ready to true excepted, keeps the status valid. *)
Lemma status_ok_set s typ st r m now :
  (typ = ConditionReady -> st <> ConditionTrue) ->
  status_ok s -> status_ok (with_Conditions (set_condition (Conditions s) typ st r m now) s).
Proof.
  intros Hst [[]|[[]|[]]]; [left|right; left|right; right]; split; cbn; auto using never_ready_set.
Qed.

Lemma ready_set t typ st r m now :
  (typ = ConditionReady \/ typ = ConditionFailed) -> (typ = ConditionReady -> st <> ConditionTrue) ->
  isServiceInstanceReady (setServiceInstanceConditionInternal t typ st r m now) = true ->
  isServiceInstanceReady t = true.
Proof.
  unfold isServiceInstanceReady. cbn. intros [-> | ->] Hst.
  - rewrite first_ready_set_ready, bool_decide_eq_true. naive_solver.
  - by rewrite first_ready_set_failed.
Qed.

Lemma draft_set t typ st r m now :
  (typ = ConditionReady \/ typ = ConditionFailed) -> (typ = ConditionReady -> st <> ConditionTrue) ->
  draft t -> draft (setServiceInstanceConditionInternal t typ st r m now).
Proof.
  intros Htyp Hst []. split; cbn; auto using set_condition_NoDup, status_ok_set.
  intros H. apply dr_ready0. eapply ready_set; [exact Htyp|exact Hst|exact H].
Qed.

Lemma draft_set_ready t st r m now :
  st <> ConditionTrue -> draft t ->
  draft (setServiceInstanceConditionInternal t ConditionReady st r m now).
Proof. intros. apply draft_set; auto. Qed.

Lemma draft_set_failed t st r m now :
  draft t -> draft (setServiceInstanceConditionInternal t ConditionFailed st r m now).
Proof. intros. apply draft_set; [by right|done|done]. Qed.

Lemma draft_write prior t : draft t -> write_ok i prior t.
Proof.
  intros []. split; auto.
  - intros H1 H2. by rewrite dr_finalizers0 in H2.
  - rewrite dr_orphan0. auto.
Qed.

(** Clearing the operation of a draft gives a status at rest. *)
Lemma cleared_at_rest t :
  draft t -> status_at_rest (si_Status (clearServiceInstanceCurrentOperation t)).
Proof. intros []. split; cbn; auto using status_ok_external. Qed.

Lemma cleared_write prior t : draft t -> write_ok i prior (clearServiceInstanceCurrentOperation t).
Proof.
  intros Hd. pose proof (cleared_at_rest t Hd). destruct Hd. split; cbn; auto.
  - by left.
  - intros H1 H2. by rewrite dr_finalizers0 in H2.
Qed.

(** Starting orphan mitigation from a draft. *)
Lemma mitigation_write prior t :
  draft t -> CurrentOperation (si_Status t) <> OperationNone ->
  write_ok i prior (setServiceInstanceStartOrphanMitigation t).
Proof.
  intros [] Hop. split; cbn; auto.
  - right; right. split; cbn; auto using status_ok_external.
  - intros H1 H2. by rewrite dr_finalizers0 in H2.
Qed.

(** Going asynchronous from a draft with an operation under way. *)
Definition busy (s : ServiceInstanceStatus) : Prop :=
  status_in_operation s \/ status_mitigating s.

Lemma async_write prior t key r m now :
  draft t -> busy (si_Status t) ->
  write_ok i prior (setServiceInstanceConditionInternal
    (si_upd (with_AsyncOpInProgress true)
       (match key with Some k => si_upd (with_LastOperation (Some k)) t | None => t end))
    ConditionReady ConditionFalse r m now).
Proof.
  intros [] Hb. destruct key as [k|]; split; cbn; auto using set_condition_NoDup.
  all: try (intros H1 H2; by rewrite dr_finalizers0 in H2).
  all: try (unfold isServiceInstanceReady; cbn; by rewrite first_ready_set_ready).
  all: try (rewrite dr_orphan0; by left).
  all: right; destruct Hb as [[]|[]]; [left|right]; split; cbn; auto.
  all: by apply never_ready_set.
Qed.

Lemma with_own_Finalizers t : si_with_Finalizers (Finalizers (si_Meta t)) t = t.
Proof. by destruct t as [? [] ? ?]. Qed.

(** A finished deletion: at rest, nothing at the broker, the finalizer gone
    when the broker released the instance. *)
Lemma deleted_write prior t ps r m now fs :
  draft t -> instance_properties_ok ps ->
  (fs = Finalizers (si_Meta i) \/ deprovisioned i prior) ->
  write_ok i prior (si_with_Finalizers fs
    (setServiceInstanceConditionInternal
      (si_upd (with_ExternalProperties ps) (clearServiceInstanceCurrentOperation t))
      ConditionReady ConditionFalse r m now)).
Proof.
  intros [] Hps Hfs. split.
  - by apply set_condition_NoDup.
  - left. split; [reflexivity..|exact Hps].
  - intros H1 H2. destruct Hfs as [-> | Hfs]; [by destruct H2|by right].
  - unfold isServiceInstanceReady, setServiceInstanceConditionInternal. cbn. by rewrite first_ready_set_ready.
  - done.
  - by right.
Qed.

(** A finished provisioning. *)
Lemma provisioned_write prior t r m now :
  draft t -> instance_properties_ok (InProgressProperties (si_Status t)) -> provisioned i prior ->
  write_ok i prior (setServiceInstanceConditionInternal
    (clearServiceInstanceCurrentOperation
       (si_upd (fun s => with_ExternalProperties (InProgressProperties s) s) t))
    ConditionReady ConditionTrue r m now).
Proof.
  intros [] Hps Hp. split.
  - by apply set_condition_NoDup.
  - left. split; [reflexivity..|exact Hps].
  - intros H1 H2. destruct H2. cbn. by rewrite dr_finalizers0.
  - right. by split; [|split].
  - done.
  - right. cbn. by rewrite dr_generation0.
Qed.
End drafts.

#[export] Hint Resolve draft_refl draft_updated draft_set_ready draft_set_failed
  draft_write cleared_write mitigation_write : instance.

(** ** The phases *)

(** Splitting membership in a history. *)
Lemma elem_of_snoc {A} (x y : A) l : x ∈ l ++ [y] <-> x ∈ l \/ x = y.
Proof. rewrite elem_of_app, list_elem_of_singleton. done. Qed.

Section phases.
Context {W : Type} {E : Env W} {C : Config} {L : InstanceLaws W} {Y : YamlLaws}.
Context (i : ServiceInstance) (Hi : instance_ok i).
Local Notation safely := (wps (W:=W) (instance_protocol i)).
Local Notation quiet_calls t := (Forall (fun e => broker_call e = false) t).

Lemma safely_setCondition prior t typ st r m Q :
  (forall now, Q (Ok (setServiceInstanceConditionInternal t typ st r m now)) prior) ->
  safely prior (setServiceInstanceCondition t typ st r m) Q.
Proof. intros H. apply wps_bind, wps_Now. intros now. by apply wps_ret. Qed.

Lemma safely_updateStatus prior t Q :
  write_ok i prior t ->
  (forall t', updated t t' -> Q (Ok t') (prior ++ [EInstanceUpdateStatus t (inl t')])) ->
  (forall e, Q (Err e) (prior ++ [EInstanceUpdateStatus t (inr e)])) ->
  safely prior (updateServiceInstanceStatus t) Q.
Proof.
  intros Hw H1 H2. apply wps_api. intros w r w' Hr. split; [exact Hw|].
  destruct r as [t'|e]; [|apply H2]. apply H1. by eapply law_UpdateStatus.
Qed.

(** An update whose answer the code does not use. *)
Lemma safely_write {A} prior t (k : M W Effect A) Q :
  write_ok i prior t ->
  (forall t', safely (prior ++ [EInstanceUpdateStatus t (inl t')]) k Q) ->
  (forall e, Q (Err e) (prior ++ [EInstanceUpdateStatus t (inr e)])) ->
  safely prior (bind (updateServiceInstanceStatus t) (fun _ => k)) Q.
Proof. intros Hw H1 H2. apply wps_bind, safely_updateStatus; eauto. Qed.

Lemma safely_event prior ty r m Q :
  (forall ev, Q (Ok tt) (prior ++ [ERecord ev])) -> safely prior (instance_Event i ty r m) Q.
Proof. intros H. apply wps_emit; [done|apply H]. Qed.

Lemma safely_eventOf prior t ty r m Q :
  (forall ev, Q (Ok tt) (prior ++ [ERecord ev])) -> safely prior (instance_Event t ty r m) Q.
Proof. intros H. apply wps_emit; [done|apply H]. Qed.

Lemma safely_updateCondition prior t st r m Q :
  draft i t -> st <> ConditionTrue ->
  (forall obj res o, o <> Panic -> Q o (prior ++ [EInstanceUpdateStatus obj res])) ->
  safely prior (updateServiceInstanceCondition t ConditionReady st r m) Q.
Proof.
  intros Hd Hst H. apply wps_bind, safely_setCondition. intros now.
  apply (safely_write _ _ (ret tt)); [by auto with instance| |]; intros; [apply wps_ret|]; by apply H.
Qed.

Lemma quiet_snoc t e : quiet_calls t -> broker_call e = false -> quiet_calls (t ++ [e]).
Proof. intros. apply Forall_app. by repeat constructor. Qed.

(** Recording a failure and giving up: a write, an event, an error. *)
Lemma safely_reportAndFail {A} prior t st r m (ty : EventType) r' m' err (Q : outcome A -> list Effect -> Prop) :
  draft i t -> st <> ConditionTrue ->
  (forall e t, Q (Err e) t) ->
  safely prior (bind (ignore (updateServiceInstanceCondition t ConditionReady st r m)) (fun _ =>
    bind (instance_Event t ty r' m') (fun _ => fail err))) Q.
Proof.
  intros Hd Hst HQ. apply wps_bind, wps_ignore, safely_updateCondition; [done..|].
  intros obj res [a|e|] Ho; [| |done]; apply wps_bind, safely_eventOf; intros ev; by apply wps_fail.
Qed.

(** The lookups leave no trace when they succeed. *)
Lemma safely_lookup prior t Q :
  draft i t -> refs_set t ->
  (forall r, Q (Ok r) prior) -> (forall e t', Q (Err e) t') ->
  safely prior (getServiceClassPlanAndClusterServiceBroker t) Q.
Proof.
  intros Hd [[cr Hcr] [pr Hpr]] HQ HE.
  unfold getServiceClassPlanAndClusterServiceBroker, serviceClassLister_Get, servicePlanLister_Get, brokerLister_Get.
  rewrite Hcr, Hpr. cbn [deref].
  repeat (wps_step; try (by apply safely_reportAndFail)); try done.
  apply wps_quiet, wp_getAuthCredentials; [by eapply law_brokerLister|intros a|intros e];
    (split; [done|]); [repeat wps_step; auto|by apply safely_reportAndFail].
Qed.

(** [buildOriginatingIdentity] never fails: a user's name, groups and extra
    values are JSON. *)
Lemma buildOriginatingIdentity_ok u : exists oi, buildOriginatingIdentity u = inl oi.
Proof. destruct u as [u|]; cbn; eauto. Qed.

Lemma safely_identity prior verb t Q :
  (forall oi, Q (Ok oi) prior) -> safely prior (originatingIdentityFor verb i t) Q.
Proof.
  intros HQ. unfold originatingIdentityFor. destruct OriginatingIdentityEnabled; [|by apply wps_ret].
  destruct (buildOriginatingIdentity_ok (si_UserInfo (si_Spec i))) as [oi ->]. by apply wps_ret.
Qed.

(** [t0] is the draft [t] with in-progress properties [ps]. *)
Definition with_properties (t : ServiceInstance) ps (t0 : ServiceInstance) : Prop :=
  si_Meta t0 = si_Meta t /\ si_Status t0 = with_InProgressProperties ps (si_Status t).

Lemma with_properties_self t : with_properties t (InProgressProperties (si_Status t)) t.
Proof. split; [done|]. by destruct (si_Status t). Qed.

(** What the start of an operation stores: the operation, the time, and that
    the instance is not ready. *)
Lemma draft_start t t0 ps op now r m now' :
  draft i t -> with_properties t ps t0 ->
  (op = OperationProvision \/ op = OperationDeprovision) ->
  instance_properties_ok ps ->
  (status_at_rest (si_Status t) /\ (is_Some ps <-> op = OperationProvision)
   \/ status_mitigating (si_Status t)) ->
  let t' := setServiceInstanceConditionInternal
    (si_upd (fun s => with_OperationStartTime (Some now) (with_CurrentOperation op s)) t0)
    ConditionReady ConditionFalse r m now' in
  draft i t' /\ busy (si_Status t').
Proof.
  intros [] [Hm Hs] Hop Hpsok Hst t'.
  assert (Hb : busy (si_Status t')).
  { subst t'. unfold setServiceInstanceConditionInternal, si_upd, si_with_Status. cbn. rewrite Hs.
    destruct Hst as [[[] Hps]|[]]; [left|right]; split; cbn; auto.
    - destruct Hop as [-> | ->]; auto.
    - by apply never_ready_set_ready.
    - rewrite Hps. destruct Hop as [-> | ->]; done. }
  split; [|done]. split; [| |cbn; by rewrite ?Hm, ?Hs..| |].
  - apply set_condition_NoDup. cbn. by rewrite Hs.
  - right. exact Hb.
  - intros _. cbn. by destruct Hop as [-> | ->].
  - unfold isServiceInstanceReady. subst t'. cbn. by rewrite first_ready_set_ready.
Qed.

Lemma safely_recordStart prior t t0 ps op Q :
  draft i t -> with_properties t ps t0 ->
  (op = OperationProvision \/ op = OperationDeprovision) ->
  instance_properties_ok ps ->
  (status_at_rest (si_Status t) /\ (is_Some ps <-> op = OperationProvision)
   \/ status_mitigating (si_Status t)) ->
  (forall obj t', draft i t' -> busy (si_Status t') -> CurrentOperation (si_Status t') = op ->
     is_Some (OperationStartTime (si_Status t')) -> InProgressProperties (si_Status t') = ps ->
     Q (Ok t') (prior ++ [EInstanceUpdateStatus obj (inl t')])) ->
  (forall e t', Q (Err e) t') ->
  safely prior (recordStartOfServiceInstanceOperation t0 op) Q.
Proof.
  intros Hd Hps Hop Hpsok Hst HQ HE. unfold recordStartOfServiceInstanceOperation.
  apply wps_bind, wps_Now. intros now.
  destruct (match op with OperationProvision => _ | OperationDeprovision => _ | _ => _ end) as [r m].
  apply wps_bind, safely_setCondition. intros now'.
  destruct (draft_start t t0 ps op now r m now' Hd Hps Hop Hpsok Hst) as [Hd' Hb'].
  apply safely_updateStatus; [by apply draft_write| |auto].
  intros t' Hu. pose proof (updated_status _ _ Hu) as Hs'.
  apply HQ; [by eapply draft_updated|rewrite Hs'; exact Hb'|by rewrite Hs'|by rewrite Hs'; eexists|].
  rewrite Hs'. cbn. by rewrite (proj2 Hps).
Qed.

(** ** Ends of a reconciliation *)

Local Notation done_ := (finished i).

Lemma finished_err e t : done_ (Err e) t.
Proof. by split. Qed.

Lemma finished_write prior obj j e :
  AsyncOpInProgress (si_Status obj) = false ->
  done_ (Ok tt) (prior ++ EInstanceUpdateStatus obj (inl j) :: e).
Proof. intros H. split; [done|]. intros _. right; right. exists obj, j. set_solver. Qed.

(** Storing a status without asynchronous operation, then stopping. *)
Lemma safely_conclude prior obj :
  write_ok i prior obj -> AsyncOpInProgress (si_Status obj) = false ->
  safely prior (bind (updateServiceInstanceStatus obj) (fun _ => ret tt)) done_.
Proof.
  intros Hw Ha. apply safely_write; [done| |intros; apply finished_err].
  intros t'. apply wps_ret. by apply finished_write.
Qed.

Lemma safely_concludeErr {A} prior obj err (Q : outcome A -> list Effect -> Prop) :
  write_ok i prior obj -> (forall e t, Q (Err e) t) ->
  safely prior (bind (updateServiceInstanceStatus obj) (fun _ => fail err)) Q.
Proof. intros Hw HQ. apply safely_write; [done| |auto]. intros t'. by apply wps_fail. Qed.

(** ** Deprovisioning *)

Lemma elapsed_ok prior t Q :
  is_Some (OperationStartTime (si_Status t)) -> (forall b, Q (Ok b) prior) ->
  safely prior (retryDurationElapsed (OperationStartTime (si_Status t))) Q.
Proof.
  intros [s Hs] HQ. apply wps_bind, wps_Now. intros now. rewrite Hs. apply wps_bind, wps_ret.
  apply wps_ret, HQ.
Qed.

(** Marking the instance as failed, unless orphan mitigation is under way. *)
Lemma safely_markFailed prior t r m Q :
  draft i t ->
  (forall t', draft i t' -> Q (Ok t') prior) ->
  safely prior (if negb (OrphanMitigationInProgress (si_Status i))
                then setServiceInstanceCondition t ConditionFailed ConditionTrue r m
                else ret t) Q.
Proof.
  intros Hd HQ. destruct (negb _); [|by apply wps_ret, HQ].
  apply safely_setCondition. intros now. apply HQ. by apply draft_set_failed.
Qed.

Lemma safely_deprovisionError prior t r err :
  AsyncOpInProgress (si_Status i) = false ->
  draft i t -> is_Some (OperationStartTime (si_Status t)) ->
  safely prior (handleDeprovisionError i t r err) done_.
Proof.
  intros Ha Hd Hs. unfold handleDeprovisionError. destruct (IsHTTPError err) as [h|].
  - apply wps_bind, safely_event. intros ev. apply wps_bind, safely_setCondition. intros now.
    apply wps_bind, safely_markFailed; [by apply draft_set_ready|]. intros t' Hd'.
    by apply safely_conclude; [apply cleared_write|].
  - apply wps_bind, safely_event. intros ev. apply wps_bind, safely_setCondition. intros now.
    apply wps_bind, elapsed_ok; [done|]. intros [|].
    + apply wps_bind, safely_event. intros ev'.
      apply wps_bind, safely_markFailed; [by apply draft_set_ready|]. intros t' Hd'.
      by apply safely_conclude; [apply cleared_write|].
    + apply safely_concludeErr; [|apply finished_err]. by apply draft_write, draft_set_ready.
Qed.

Lemma safely_schedule prior obj j :
  EInstanceUpdateStatus obj (inl j) ∈ prior -> AsyncOpInProgress (si_Status obj) = true ->
  forall r m, safely prior (bind (beginPollingServiceInstance i) (fun _ =>
    instance_Event i EventTypeNormal r m)) done_.
Proof.
  intros Hin Ha r m. apply wps_bind, wps_emit.
  - split; [done|]. right. eauto.
  - apply safely_event. intros ev. split; [done|]. intros _. right; left. set_solver.
Qed.

Lemma safely_deprovisionResponse prior t response c req :
  AsyncOpInProgress (si_Status i) = false ->
  draft i t -> busy (si_Status t) -> EDeprovision c req (inl response) ∈ prior ->
  safely prior (handleDeprovisionResponse i t response) done_.
Proof.
  intros Ha Hd Hb Hin. unfold handleDeprovisionResponse. destruct (dresp_Async response) eqn:Has.
  - cbv zeta. apply wps_bind, safely_setCondition. intros now.
    apply safely_write; [by apply async_write| |intros; apply finished_err].
    intros t'. eapply safely_schedule; [apply elem_of_snoc; by right|].
    by destruct (nonempty (dresp_OperationKey response)).
  - cbv zeta. apply wps_bind, safely_setCondition. intros now.
    assert (Hw : write_ok i prior
      (match DeletionTimestamp (si_Meta i) with
       | Some _ => si_with_Finalizers (set_Delete FinalizerServiceCatalog (NewString (Finalizers (si_Meta i))))
           (setServiceInstanceConditionInternal (si_upd (with_ExternalProperties None)
             (clearServiceInstanceCurrentOperation t)) ConditionReady ConditionFalse
             successDeprovisionReason successDeprovisionMessage now)
       | None => setServiceInstanceConditionInternal (si_upd (with_ExternalProperties None)
             (clearServiceInstanceCurrentOperation t)) ConditionReady ConditionFalse
             successDeprovisionReason successDeprovisionMessage now
       end)).
    { destruct (DeletionTimestamp (si_Meta i)) as [d|] eqn:Hdel.
      - apply deleted_write; [done|done|]. right. left. exists c, req, response.
        by rewrite Hdel.
      - rewrite <-with_own_Finalizers. apply deleted_write; [done|done|left].
        apply (dr_finalizers _ _ Hd). }
    apply safely_write; [exact Hw| |intros; apply finished_err].
    intros t'. apply safely_event. intros ev. rewrite <-app_assoc. apply finished_write.
    by destruct (DeletionTimestamp (si_Meta i)).
Qed.

Lemma recorded_stored prior j :
  stored i prior j -> CurrentOperation (si_Status j) <> OperationNone -> recorded i prior.
Proof. intros. by exists j. Qed.

(** The deprovision request, once it is recorded. *)
Lemma safely_deprovisionCall prior t r req :
  AsyncOpInProgress (si_Status i) = false ->
  draft i t -> busy (si_Status t) -> is_Some (OperationStartTime (si_Status t)) ->
  deprovision_ok i prior req ->
  safely prior (bind (try (DeprovisionInstance (brokerClient r) req)) (fun response =>
    match response with
    | inr err => handleDeprovisionError i t r err
    | inl response => handleDeprovisionResponse i t response
    end)) done_.
Proof.
  intros Ha Hd Hb Hs Hreq. apply wps_bind, wps_try, wps_api. intros w res w' _. split; [exact Hreq|].
  destruct res as [response|err].
  - eapply safely_deprovisionResponse; eauto. apply elem_of_snoc. by right.
  - by apply safely_deprovisionError.
Qed.

Lemma status_ok_cases s :
  status_ok s -> CurrentOperation s = OperationNone \/
  (status_in_operation s \/ status_mitigating s) /\ CurrentOperation s <> OperationNone.
Proof.
  intros Hs. destruct (decide (CurrentOperation s = OperationNone)) as [|Hn]; [by left|right].
  split; [|done]. destruct Hs as [[]|[?|?]]; auto. done.
Qed.

(** The draft a deprovision request starts from: orphan mitigation restarts
    the clock. *)
Lemma safely_restartClock prior Q :
  (forall t, draft i t -> si_Meta t = si_Meta i ->
     CurrentOperation (si_Status t) = CurrentOperation (si_Status i) ->
     (status_mitigating (si_Status i) -> is_Some (OperationStartTime (si_Status t)) /\ status_mitigating (si_Status t)) ->
     (OrphanMitigationInProgress (si_Status i) = false -> t = i) ->
     Q (Ok t) prior) ->
  safely prior (if OrphanMitigationInProgress (si_Status i) &&
                   bool_decide (OperationStartTime (si_Status i) = None)
                then bind Now (fun now => ret (si_upd (with_OperationStartTime (Some now)) i))
                else ret i) Q.
Proof.
  intros HQ. destruct (OrphanMitigationInProgress (si_Status i)) eqn:Ho; cbn.
  - case_bool_decide as Hs; cbn.
    + apply wps_bind, wps_Now. intros now. apply wps_ret, HQ; try done.
      * destruct Hi as [Hu Hst Hr _]. split; try done. right; right. split; cbn; [done|..].
        -- destruct Hst as [[]|[[]|[]]]; cbn; try done. by rewrite rest_inprogress.
        -- by apply status_ok_external.
      * intros []. split; [by eexists|]. by split.
    + apply wps_ret, HQ; auto with instance.
      intros Hm. split; [by destruct (OperationStartTime _); [eexists|]|done].
  - apply wps_ret, HQ; auto with instance. intros []. congruence.
Qed.

Lemma safely_deprovision prior r :
  quiet_calls prior -> AsyncOpInProgress (si_Status i) = false ->
  (DeletionTimestamp (si_Meta i) <> None \/ OrphanMitigationInProgress (si_Status i) = true) ->
  FinalizerServiceCatalog ∈ Finalizers (si_Meta i) ->
  safely prior (deprovisionServiceInstance i r) done_.
Proof.
  intros Hq Ha Hdy Hf. unfold deprovisionServiceInstance.
  apply wps_bind, safely_identity. intros oi. cbv zeta.
  apply wps_bind, safely_restartClock. intros t Hd Hm Hop Hmit Heq. apply wps_bind.
  destruct (decide (CurrentOperation (si_Status t) = OperationNone)) as [Hn|Hn].
  - eapply (safely_recordStart _ t t); [done|apply with_properties_self|by right|..|intros; apply finished_err].
    + destruct (dr_status _ _ Hd) as [[]|[[]|[]]]; [by rewrite rest_inprogress|done..].
    + destruct (dr_status _ _ Hd) as [Hr|[[]|]]; [left; split; [done|]|by destruct op_valid as [?|[?|?]]; congruence|by right].
      destruct Hr. rewrite rest_inprogress. by split; [intros []|].
    + intros obj t' Hd' Hb' Hop' Hs' _. apply safely_deprovisionCall; try done.
      split; auto using quiet_snoc.
      eapply recorded_stored; [right; left; exists obj; apply elem_of_snoc; by right|].
      by rewrite Hop'.
  - apply wps_ret. rewrite Hop in Hn. destruct (status_ok_cases _ (ok_status _ Hi)) as [|[Hb _]]; [done|].
    assert (Hbs : busy (si_Status t) /\ is_Some (OperationStartTime (si_Status t))).
    { destruct (OrphanMitigationInProgress (si_Status i)) eqn:Ho.
      - assert (Hmi : status_mitigating (si_Status i)).
        { destruct Hb as [[]|?]; [|done]. by split. }
        destruct (Hmit Hmi). split; [by right|done].
      - rewrite (Heq eq_refl). destruct Hb as [Hb|[]]; [|congruence].
        split; [by left|by destruct Hb]. }
    apply safely_deprovisionCall; try tauto. split; auto.
    eapply recorded_stored; [by left|done].
Qed.

(** ** Deletion *)

Lemma safely_block prior :
  AsyncOpInProgress (si_Status i) = false -> safely prior (blockDeprovision i) done_.
Proof.
  intros Ha. apply wps_bind, safely_event. intros ev. apply wps_bind, safely_setCondition.
  intros now. apply safely_conclude; [|done]. by auto with instance.
Qed.

Lemma safely_delete :
  AsyncOpInProgress (si_Status i) = false -> safely [] (reconcileServiceInstanceDelete i) done_.
Proof.
  intros Ha. unfold reconcileServiceInstanceDelete, bindingLister_List.
  assert (Hnoop : done_ (Ok tt) []) by (split; [done|]; left; auto).
  destruct (bool_decide (DeletionTimestamp (si_Meta i) = None) &&
            negb (OrphanMitigationInProgress (si_Status i))) eqn:Hdy; [by apply wps_ret|].
  assert (Hdying : DeletionTimestamp (si_Meta i) <> None \/ OrphanMitigationInProgress (si_Status i) = true).
  { apply andb_false_iff in Hdy as [Hdy%bool_decide_eq_false|Hdy%negb_false_iff]; auto. }
  apply wps_bind, wps_read. intros w [creds|e] w' _; [|apply finished_err].
  destruct (existsb _ creds); [by apply safely_block|].
  destruct (set_Has _ FinalizerServiceCatalog) eqn:Hf; cbn; [|by apply wps_ret].
  rewrite set_Has_elem, NewString_elem in Hf. rewrite Ha. cbn.
  destruct (negb (OrphanMitigationInProgress (si_Status i)) && _) eqn:Hab.
  - apply andb_prop in Hab as [Ho%negb_true_iff Hab%orb_prop]. apply safely_conclude; [|done].
    destruct Hi. split; cbn; auto. intros _ _. left. rewrite Z.eqb_eq in Hab.
    split_and!; try done. destruct Hdying; [done|congruence].
  - apply wps_bind, safely_lookup; [by auto with instance| |intros r; apply safely_deprovision; [apply Forall_nil_2|done..]|intros; apply finished_err].
    apply (ok_refs _ Hi). unfold needs_refs. rewrite Ha. cbn.
    destruct (OrphanMitigationInProgress (si_Status i)) eqn:Ho; [done|]. cbn in Hab |- *.
    apply orb_false_iff in Hab as [-> ->]. cbn. apply bool_decide_eq_true. by destruct Hdying.
Qed.

(** ** Provisioning *)

Lemma safely_failWith {A} prior t reason s m err (Q : outcome A -> list Effect -> Prop) :
  draft i t -> (forall e t', Q (Err e) t') -> safely prior (failWith i t reason s m err) Q.
Proof.
  intros Hd HE. apply wps_bind, safely_event. intros ev. apply wps_bind, safely_setCondition.
  intros now. apply safely_concludeErr; [by auto with instance|done].
Qed.

Lemma marshalled_nonempty m s : json_Marshal_map m = inl s -> s <> "".
Proof. by intros [= <-]. Qed.

Lemma safely_prepareParameters prior t Q :
  draft i t ->
  (forall params checksum raw, properties_ok raw checksum -> Q (Ok (params, checksum, raw)) prior) ->
  (forall e t', Q (Err e) t') ->
  safely prior (prepareParameters i t) Q.
Proof.
  intros Hd HQ HE. unfold prepareParameters.
  assert (Hb : safely prior (bind (try (buildParameters (Namespace (si_Meta i))
      (ParametersFrom (si_Spec i)) (Parameters (si_Spec i)))) (fun built =>
      match built with
      | inr err => failWith i t errorWithParameters (msg_parameters i err) (msg_parameters i err) err
      | inl (parameters, red) =>
          match generateChecksumOfParameters parameters with
          | inr err => failWith i t errorWithParameters (Sprintf0 (msg_checksum i err)) (msg_checksum i err) err
          | inl parametersChecksum =>
              match MarshalRawParameters red with
              | inr err => failWith i t errorWithParameters (Sprintf0 (msg_marshal i err)) (msg_marshal i err) err
              | inl raw => ret (parameters, parametersChecksum, Some {| Raw := raw |})
              end
          end
      end)) Q).
  { apply wps_bind, wps_try, wps_quiet, wp_buildParameters.
    - intros [params red]. split; [done|].
      destruct (generateChecksumOfParameters params) as [c|] eqn:Hc; [|by apply safely_failWith].
      destruct (MarshalRawParameters red) as [raw|] eqn:Hr; [|by apply safely_failWith].
      apply wps_ret, HQ. split_and!; [by eapply marshalled_nonempty|by eapply law_yaml|].
      by eapply generated_checksum_ok.
    - intros e. split; [done|]. by apply safely_failWith. }
  destruct (Parameters (si_Spec i)), (ParametersFrom (si_Spec i)); try exact Hb.
  by apply wps_ret, HQ.
Qed.

Lemma busy_operation s :
  busy s -> OrphanMitigationInProgress s = false -> CurrentOperation s <> OperationNone.
Proof. intros [[]|[]] Ho; [by destruct op_valid as [->|[->| ->]]|congruence]. Qed.

Lemma safely_provisionError prior t r err :
  AsyncOpInProgress (si_Status i) = false -> OrphanMitigationInProgress (si_Status i) = false ->
  draft i t -> busy (si_Status t) -> is_Some (OperationStartTime (si_Status t)) ->
  safely prior (handleProvisionError i t r err) done_.
Proof.
  intros Ha Ho Hd Hb Hs. unfold handleProvisionError. cbv zeta.
  assert (Hop : CurrentOperation (si_Status t) <> OperationNone).
  { apply busy_operation; [done|]. by rewrite (dr_orphan _ _ Hd). }
  destruct (IsHTTPError err) as [h|].
  - apply wps_bind, safely_event. intros ev. apply wps_bind, safely_setCondition. intros now.
    apply wps_bind, safely_setCondition. intros now'. destruct (shouldStartOrphanMitigation _).
    + apply safely_concludeErr; [by auto 6 with instance|apply finished_err].
    + apply safely_conclude; [by auto 6 with instance|done].
  - apply wps_bind, safely_event. intros ev. destruct (isURLTimeout err).
    + apply wps_bind, safely_setCondition. intros now. apply wps_bind, safely_setCondition. intros now'.
      apply safely_concludeErr; [by auto 6 with instance|apply finished_err].
    + apply wps_bind, safely_setCondition. intros now. apply wps_bind, elapsed_ok; [done|]. intros [|].
      * apply wps_bind, safely_event. intros ev'. apply wps_bind, safely_setCondition. intros now'.
        apply safely_conclude; [by auto 6 with instance|done].
      * apply safely_concludeErr; [by auto 6 with instance|apply finished_err].
Qed.

Lemma draft_dashboard t u : draft i t -> draft i (si_upd (with_DashboardURL u) t).
Proof.
  intros []. split; try done.
  destruct dr_status0 as [[]|[[]|[]]]; [left|right; left|right; right]; by split.
Qed.

Lemma busy_dashboard t u : busy (si_Status t) -> busy (si_Status (si_upd (with_DashboardURL u) t)).
Proof. by intros [[]|[]]; [left|right]; split. Qed.

Lemma safely_provisionResponse prior t response c req :
  draft i t -> busy (si_Status t) -> instance_properties_ok (InProgressProperties (si_Status t)) ->
  EProvision c req (inl response) ∈ prior ->
  safely prior (handleProvisionResponse i t response) done_.
Proof.
  intros Hd Hb Hps Hin. unfold handleProvisionResponse. cbv zeta.
  set (t1 := match nonempty (presp_DashboardURL response) with Some _ => _ | None => _ end).
  assert (Hd1 : draft i t1 /\ busy (si_Status t1) /\
                instance_properties_ok (InProgressProperties (si_Status t1))).
  { unfold t1. destruct (nonempty _); [|done]. split_and!; auto using draft_dashboard, busy_dashboard. }
  destruct Hd1 as (Hd1 & Hb1 & Hps1). clearbody t1. destruct (presp_Async response) eqn:Has.
  - apply wps_bind, safely_setCondition. intros now.
    apply safely_write; [by apply async_write| |intros; apply finished_err].
    intros t'. eapply safely_schedule; [apply elem_of_snoc; by right|].
    by destruct (nonempty (presp_OperationKey response)).
  - apply wps_bind, safely_setCondition. intros now.
    apply safely_write; [|intros t'|intros; apply finished_err].
    + apply provisioned_write; [done..|]. left. by exists c, req, response.
    + apply safely_event. intros ev. rewrite <-app_assoc. by apply finished_write.
Qed.

Lemma safely_provisionCall prior t r req :
  AsyncOpInProgress (si_Status i) = false -> OrphanMitigationInProgress (si_Status i) = false ->
  draft i t -> busy (si_Status t) -> instance_properties_ok (InProgressProperties (si_Status t)) ->
  is_Some (OperationStartTime (si_Status t)) -> provision_ok i prior req ->
  safely prior (bind (try (ProvisionInstance (brokerClient r) req)) (fun response =>
    match response with
    | inr err => handleProvisionError i t r err
    | inl response => handleProvisionResponse i t response
    end)) done_.
Proof.
  intros Ha Ho Hd Hb Hps Hs Hreq. apply wps_bind, wps_try, wps_api. intros w res w' _. split; [exact Hreq|].
  destruct res as [response|err].
  - eapply safely_provisionResponse; eauto. apply elem_of_snoc. by right.
  - by apply safely_provisionError.
Qed.

(** In-progress properties may be replaced while provisioning. *)
Lemma draft_properties t ps :
  draft i t -> status_in_operation (si_Status t) -> CurrentOperation (si_Status t) <> OperationDeprovision ->
  instance_properties_ok (Some ps) ->
  draft i (si_upd (with_InProgressProperties (Some ps)) t) /\
  busy (si_Status (si_upd (with_InProgressProperties (Some ps)) t)).
Proof.
  intros [] [] Hop Hps.
  assert (Hb : status_in_operation (si_Status (si_upd (with_InProgressProperties (Some ps)) t))).
  { split; try done. }
  split; [|by left]. split; try done. right; by left.
Qed.

Lemma safely_provision prior t r :
  quiet_calls prior -> AsyncOpInProgress (si_Status i) = false ->
  DeletionTimestamp (si_Meta i) = None -> OrphanMitigationInProgress (si_Status i) = false ->
  isServiceInstanceFailed i = false -> ReconciledGeneration (si_Status i) <> Generation (si_Meta i) ->
  draft i t -> si_Status t = si_Status i ->
  safely prior (provisionServiceInstance i t r) done_.
Proof.
  intros Hq Ha Hdel Ho Hfail Hgen Hd Hst. unfold provisionServiceInstance.
  apply wps_bind, wps_try, wps_read. intros w res w' _.
  destruct res as [ns|e]; [|by apply safely_failWith; [|apply finished_err]].
  apply wps_bind, safely_prepareParameters; [done| |intros; apply finished_err].
  intros params checksum raw Hps. cbv zeta beta.
  apply wps_bind, safely_identity. intros oi. apply wps_bind.
  match goal with |- context [si_upd (with_InProgressProperties (Some ?x)) t] => set (ps := x) end.
  assert (Hpsok : instance_properties_ok (Some ps)) by exact Hps.
  assert (Hcases : status_at_rest (si_Status t) \/ status_in_operation (si_Status t)).
  { destruct (dr_status _ _ Hd) as [?|[?|[]]]; [by left|by right|congruence]. }
  destruct (decide (CurrentOperation _ = OperationNone)) as [Hn|Hn]; cbn in Hn.
  - eapply (safely_recordStart _ t); [done|by split|by left|exact Hpsok| |..|intros; apply finished_err].
    + left. split; [|by split; [|eexists]]. destruct Hcases as [|[]]; [done|].
      destruct op_valid as [?|[?|?]]; congruence.
    + intros obj t' Hd' Hb' Hop' Hs' Hps'. apply safely_provisionCall; try done; [by rewrite Hps'|].
      split; auto using quiet_snoc.
      eapply recorded_stored; [right; left; exists obj; apply elem_of_snoc; by right|].
      by rewrite Hop'.
  - apply wps_ret. destruct Hcases as [[]|Hop]; [done|].
    assert (Hnd : CurrentOperation (si_Status t) <> OperationDeprovision).
    { rewrite Hst. intros Hdep. destruct (ok_deprovision _ Hi Hdep); congruence. }
    destruct (draft_properties t ps Hd Hop Hnd Hpsok) as [Hd' Hb'].
    apply safely_provisionCall; try done; [by destruct Hop|]. split; auto.
    eapply recorded_stored; [by left|by rewrite <-Hst].
Qed.

(** ** References *)

Lemma updateReferences_ok prior t Q :
  si_Status t = si_Status i -> refs_set t ->
  (forall t', updated t t' -> refs_set t' -> Q (Ok t') (prior ++ [EInstanceUpdateReferences t (inl t')])) ->
  (forall e t', Q (Err e) t') ->
  safely prior (updateServiceInstanceReferences t) Q.
Proof.
  intros Hs Hr HQ HE. apply wps_api. intros w res w' Hw. split; [done|].
  destruct res as [t'|e]; [|apply HE]. destruct (law_UpdateReferences _ _ _ _ Hw). auto.
Qed.

Lemma draft_spec t s : draft i t -> draft i (si_with_Spec s t).
Proof. intros []. by split. Qed.

Lemma safely_resolvePlan prior t sc Q :
  draft i t -> si_Status t = si_Status i -> is_Some (ServiceClassRef (si_Spec t)) ->
  (forall t', draft i t' -> si_Status t' = si_Status i -> refs_set t' -> Q (Ok t') prior) ->
  (forall e t', Q (Err e) t') ->
  safely prior (resolveServicePlan t sc) Q.
Proof.
  intros Hd Hs [cr Hcr] HQ HE. unfold resolveServicePlan, serviceClassLister_Get, ServicePlans_List.
  destruct (ServicePlanRef (si_Spec t)) as [pr|] eqn:Hpr.
  { apply wps_ret, HQ; [done..|]. split; by eexists. }
  rewrite Hcr. apply wps_bind, wps_ret. apply wps_bind.
  assert (Hk : forall sc, safely prior
    (bind (call quiet (env_ServicePlans_List (ExternalServicePlanName (si_Spec t)) (ref_Name cr)
             (sc_ClusterServiceBrokerName (sc_Spec sc)))) (fun servicePlans =>
      match servicePlans with
      | ([sp], None) => ret (si_with_Spec (with_ServicePlanRef
           (Some (reference_of (sp_TypeMeta sp) (sp_Meta sp))) (si_Spec t)) t)
      | (items, _) =>
          bind (ignore (updateServiceInstanceCondition t ConditionReady ConditionFalse
            errorNonexistentServicePlanReason
            (sprint ["The instance references a ServicePlan that does not exist. "; msg_resolve_plan t (length items)]))) (fun _ =>
          bind (instance_Event t EventTypeWarning errorNonexistentServicePlanReason (msg_resolve_plan t (length items))) (fun _ =>
          fail (PlainError (Sprintf0 (msg_resolve_plan t (length items))))))
      end)) Q).
  { intros sc'. apply wps_bind, wps_query. intros w [items err] w' _.
    destruct items as [|sp [|sp' items]], err; try (by apply safely_reportAndFail).
    apply wps_ret, HQ; [by apply draft_spec|done|]. split; cbn; [by rewrite Hcr; eexists|by eexists]. }
  destruct sc as [sc|]; [by apply wps_ret|].
  apply wps_bind, wps_try, wps_lister_get. intros w [sc|] w' _; [by apply wps_ret|by apply wps_fail].
Qed.

Lemma safely_resolveReferences Q :
  (forall prior t, quiet_calls prior -> draft i t -> si_Status t = si_Status i -> refs_set t -> Q (Ok t) prior) ->
  (forall e t', Q (Err e) t') ->
  safely [] (resolveReferences i) Q.
Proof.
  intros HQ HE. unfold resolveReferences.
  assert (Hk : safely [] (bind (resolveServiceClass i) (fun r => bind (resolveServicePlan (fst r) (snd r))
                 (fun t => updateServiceInstanceReferences t))) Q).
  { apply wps_bind. eapply (wps_conseq _ _ _ (fun o t => match o with
      | Ok (t', sc) => t = [] /\ draft i t' /\ si_Status t' = si_Status i /\ is_Some (ServiceClassRef (si_Spec t'))
      | Err _ => True | Panic => False end)).
    - unfold resolveServiceClass, ServiceClasses_List.
      destruct (ServiceClassRef (si_Spec i)) as [cr|] eqn:Hcr.
      { apply wps_ret. split_and!; auto with instance. }
      apply wps_bind, wps_query. intros w [items err] w' _.
      destruct items as [|sc [|sc' items]], err; try (by apply safely_reportAndFail; auto with instance).
      apply wps_ret. split_and!; auto using draft_spec with instance.
    - intros [[t' sc]|e|] t; [|by auto|done]. intros (-> & Hd & Hs & Hcr).
      apply wps_bind, safely_resolvePlan; [done..| |done]. intros t1 Hd1 Hs1 Hr1.
      apply updateReferences_ok; [done..| |done]. intros t2 Hu Hr2. apply HQ; [|by eapply draft_updated| |done].
      + by repeat constructor.
      + by rewrite (updated_status _ _ Hu). }
  destruct (ServiceClassRef (si_Spec i)) eqn:Hc, (ServicePlanRef (si_Spec i)) eqn:Hp; try exact Hk.
  apply wps_ret, HQ; auto with instance. split; by eexists.
Qed.

(** ** Polling *)

Lemma forget_ok prior Q :
  Q (Ok tt) (prior ++ [EPollingQueueForget (MetaNamespaceKey (si_Meta i))]) ->
  safely prior (finishPollingServiceInstance i) Q.
Proof. intros H. by apply wps_emit. Qed.

Lemma continue_ok prior :
  AsyncOpInProgress (si_Status i) = true -> safely prior (continuePollingServiceInstance i) done_.
Proof.
  intros Ha. apply wps_emit; [by split; [|left]|]. split; [done|]. intros _. right; left. set_solver.
Qed.

(** Storing the end of the operation, then forgetting the key. *)
Lemma safely_concludePoll prior obj (k : M W Effect unit) :
  write_ok i prior obj -> AsyncOpInProgress (si_Status obj) = false ->
  (forall prior' (Q : outcome unit -> list Effect -> Prop),
     (forall rest, Q (Ok tt) (prior' ++ rest)) -> safely prior' k Q) ->
  safely prior (bind (updateServiceInstanceStatus obj) (fun _ => k)) done_.
Proof.
  intros Hw Ha Hk. apply safely_write; [done| |intros; apply finished_err].
  intros t'. apply Hk. intros rest. rewrite <-app_assoc. by apply finished_write.
Qed.

Lemma finish_any prior' (Q : outcome unit -> list Effect -> Prop) :
  (forall rest, Q (Ok tt) (prior' ++ rest)) -> safely prior' (finishPollingServiceInstance i) Q.
Proof. intros H. apply forget_ok, H. Qed.

Lemma eventThenFinish_any ty r m prior' (Q : outcome unit -> list Effect -> Prop) :
  (forall rest, Q (Ok tt) (prior' ++ rest)) ->
  safely prior' (bind (instance_Event i ty r m) (fun _ => finishPollingServiceInstance i)) Q.
Proof.
  intros H. apply wps_bind, safely_event. intros ev. apply forget_ok. rewrite <-app_assoc. apply H.
Qed.

Lemma safely_stopPolling prior t s :
  AsyncOpInProgress (si_Status i) = true -> draft i t -> safely prior (stopPolling i t s) done_.
Proof.
  intros Ha Hd. unfold stopPolling. apply wps_bind, safely_event. intros ev.
  apply wps_bind, safely_markFailed; [done|]. intros t' Hd'. cbv zeta.
  apply safely_concludePoll; [|by destruct (pollDeleting i)|apply finish_any].
  destruct (pollDeleting i) eqn:Hp; [by auto with instance|]. apply mitigation_write; [done|].
  apply (dr_operation _ _ Hd'). apply orb_false_iff in Hp as [_ Ho].
  destruct (ok_status _ Hi) as [[]|Hb]; [congruence|]. by apply busy_operation.
Qed.

Definition answered (prior : list Effect) (res : LastOperationResponse + error) : Prop :=
  exists c req, EPollLastOperation c req res ∈ prior.

(** Ending a deletion on the broker's word. *)
Lemma safely_finishDeletion prior res ps :
  AsyncOpInProgress (si_Status i) = true -> pollDeleting i = true -> answered prior res ->
  match res with inl r => lresp_State r = StateSucceeded | inr e => IsGoneError e = true end ->
  instance_properties_ok ps ->
  safely prior (bind (setServiceInstanceCondition
      (si_upd (with_ExternalProperties ps) (clearServiceInstanceCurrentOperation i))
      ConditionReady ConditionFalse successDeprovisionReason successDeprovisionMessage) (fun toUpdate =>
    bind (updateServiceInstanceStatus (clearFinalizer i toUpdate)) (fun _ =>
    bind (instance_Event i EventTypeNormal successDeprovisionReason successDeprovisionMessage) (fun _ =>
    finishPollingServiceInstance i)))) done_.
Proof.
  intros Ha Hp (c & req & Hin) Hres Hps. apply wps_bind, safely_setCondition. intros now.
  set (t' := setServiceInstanceConditionInternal _ _ _ _ _ _).
  assert (Hw : forall fs, fs = Finalizers (si_Meta i) \/ deprovisioned i prior ->
            write_ok i prior (si_with_Finalizers fs t')).
  { intros fs Hfs. by apply deleted_write; [auto with instance|..]. }
  assert (Hkeep : t' = si_with_Finalizers (Finalizers (si_Meta i)) t').
  { symmetry. apply (with_own_Finalizers t'). }
  apply safely_concludePoll; [| |apply eventThenFinish_any]; unfold clearFinalizer.
  - destruct (OrphanMitigationInProgress (si_Status i)) eqn:Ho; cbn; [rewrite Hkeep; auto|].
    destruct (set_Has _ _); [|rewrite Hkeep; auto]. apply Hw. right. right.
    split_and!; [done| |done|by exists c, req, res].
    unfold pollDeleting in Hp. rewrite Ho, orb_false_r in Hp. by apply bool_decide_eq_true in Hp.
  - by destruct (negb _); [destruct (set_Has _ _)|].
Qed.

Lemma safely_pollError prior err :
  AsyncOpInProgress (si_Status i) = true -> is_Some (OperationStartTime (si_Status i)) ->
  answered prior (inr err) -> safely prior (handlePollError i err) done_.
Proof.
  intros Ha Hs Hans. unfold handlePollError. destruct (IsGoneError err && pollDeleting i) eqn:Hg.
  - apply andb_prop in Hg as [Hg Hp]. cbv zeta. by apply (safely_finishDeletion _ (inr err) None).
  - apply wps_bind, safely_event. intros ev. apply wps_bind, elapsed_ok; [done|]. intros [|].
    + apply safely_stopPolling; auto with instance.
    + by apply continue_ok.
Qed.

(** A poll answered "in progress" updates the Ready message at most. *)
Lemma draft_inprogress r m now :
  AsyncOpInProgress (si_Status i) = true ->
  draft i (setServiceInstanceConditionInternal (si_upd (with_AsyncOpInProgress true) i)
             ConditionReady ConditionFalse r m now).
Proof.
  intros Ha. apply draft_set_ready; [done|]. destruct Hi as [Hu Hst _ _]. split; try done.
  destruct Hst as [[]|[[]|[]]]; [congruence|right; left|right; right]; by split.
Qed.

Lemma safely_stateInProgress prior response :
  AsyncOpInProgress (si_Status i) = true -> is_Some (OperationStartTime (si_Status i)) ->
  safely prior (handleStateInProgress i response) done_.
Proof.
  intros Ha Hs. unfold handleStateInProgress. apply wps_bind.
  eapply (wps_conseq _ _ _ (fun o t => match o with
    | Ok (Some t') => t = prior /\ draft i t' | Ok None => t = prior | _ => False end)).
  - destruct (lresp_Description response) as [d|]; [|by apply wps_ret].
    destruct (if pollDeleting i then _ else _) as [r m]. apply wps_bind, safely_setCondition.
    intros now. apply wps_ret. split; [done|]. by apply draft_inprogress.
  - intros [[t'|]|e|] t; try done.
    + intros [-> Hd]. apply wps_bind, elapsed_ok; [done|]. intros [|]; [by apply safely_stopPolling|].
      apply wps_bind, safely_write; [by apply draft_write| |intros; apply finished_err].
      intros t1. apply wps_ret. by apply continue_ok.
    + intros ->. apply wps_bind, elapsed_ok; [done|].
      intros [|]; [apply safely_stopPolling; auto with instance|].
      apply wps_bind, wps_ret. by apply continue_ok.
Qed.

Lemma inprogress_properties : instance_properties_ok (InProgressProperties (si_Status i)).
Proof.
  destruct (ok_status _ Hi) as [[]|[[]|[]]]; [by rewrite rest_inprogress|done..].
Qed.

Lemma safely_stateSucceeded prior response :
  AsyncOpInProgress (si_Status i) = true -> lresp_State response = StateSucceeded ->
  answered prior (inl response) -> safely prior (handleStateSucceeded i) done_.
Proof.
  intros Ha Hst Hans. unfold handleStateSucceeded. cbv zeta.
  destruct (pollDeleting i) eqn:Hp.
  - apply (safely_finishDeletion _ (inl response) (InProgressProperties (si_Status i)));
      auto using inprogress_properties.
  - apply wps_bind, safely_setCondition. intros now.
    apply safely_concludePoll; [|done|apply finish_any].
    apply provisioned_write; auto using inprogress_properties with instance.
    right. destruct Hans as (c & req & Hin). split_and!; auto. by exists c, req, response.
Qed.

Lemma safely_stateFailed prior r response : safely prior (handleStateFailed i r response) done_.
Proof.
  unfold handleStateFailed. cbv zeta. apply wps_bind, safely_event. intros ev.
  destruct (if pollDeleting i then _ else _) as [[st rs] m] eqn:Hif.
  assert (Hst : st <> ConditionTrue) by (destruct (pollDeleting i); by simplify_eq).
  apply wps_bind, safely_setCondition. intros now. apply wps_bind.
  assert (Hw : forall prior t, t = clearServiceInstanceCurrentOperation i ->
    forall t', t' = setServiceInstanceConditionInternal t ConditionReady st rs m now \/
      (exists now', t' = setServiceInstanceConditionInternal
        (setServiceInstanceConditionInternal t ConditionReady st rs m now) ConditionFailed ConditionTrue rs m now') ->
    write_ok i prior t' /\ AsyncOpInProgress (si_Status t') = false).
  { intros prior' t -> t' Ht'.
    pose proof (cleared_write i prior' i (draft_refl i Hi)) as [H1 H2 H3 H4 H5].
    assert (Hready : isServiceInstanceReady (setServiceInstanceConditionInternal
      (clearServiceInstanceCurrentOperation i) ConditionReady st rs m now) = false).
    { unfold isServiceInstanceReady. cbn. rewrite first_ready_set_ready. by apply bool_decide_eq_false. }
    destruct Ht' as [->|[now' ->]]; (split; [|done]); split; try done.
    - by apply set_condition_NoDup.
    - by apply status_ok_set.
    - by rewrite Hready.
    - by apply set_condition_NoDup, set_condition_NoDup.
    - apply status_ok_set; [done|]. by apply status_ok_set.
    - unfold isServiceInstanceReady in *. cbn in *. by rewrite first_ready_set_failed, Hready. }
  destruct (negb _).
  - apply safely_setCondition. intros now'.
    edestruct Hw as [H1 H2]; [reflexivity|right; by eexists|].
    apply safely_concludePoll; [exact H1|exact H2|apply finish_any].
  - apply wps_ret. edestruct Hw as [H1 H2]; [reflexivity|by left|].
    apply safely_concludePoll; [exact H1|exact H2|apply finish_any].
Qed.

Lemma safely_poll prior r :
  quiet_calls prior -> AsyncOpInProgress (si_Status i) = true ->
  safely prior (pollServiceInstance i r) done_.
Proof.
  intros Hq Ha. unfold pollServiceInstance.
  destruct (OperationStartTime (si_Status i)) as [s|] eqn:Hs.
  2: { apply safely_stopPolling; auto with instance. }
  assert (Hsome : is_Some (OperationStartTime (si_Status i))) by (rewrite Hs; by eexists).
  apply wps_bind, safely_identity. intros oi. cbv zeta. apply wps_bind, wps_try, wps_api.
  intros w res w' _. split; [by split|].
  assert (Hans : forall e, answered (prior ++ [EPollLastOperation (brokerClient r) e res]) res).
  { intros e. exists (brokerClient r), e. apply elem_of_snoc. by right. }
  destruct res as [response|err]; [|by apply safely_pollError].
  destruct (lresp_State response) eqn:Hst.
  - by apply safely_stateInProgress.
  - by eapply safely_stateSucceeded.
  - apply safely_stateFailed.
  - unfold handleStateOther. apply wps_bind, elapsed_ok; [done|].
    intros [|]; [apply safely_stopPolling; auto with instance|apply wps_fail, finished_err].
Qed.

(** ** The control loop *)

Lemma safely_reconcile : safely [] (reconcileServiceInstance i) done_.
Proof.
  unfold reconcileServiceInstance, pollServiceInstanceInternal.
  destruct (AsyncOpInProgress (si_Status i)) eqn:Ha.
  { apply wps_bind, safely_lookup; [by auto with instance| |intros r|intros; apply finished_err].
    - apply (ok_refs _ Hi). unfold needs_refs. by rewrite Ha.
    - by apply safely_poll; [apply Forall_nil_2|]. }
  assert (Hnoop : done_ (Ok tt) []) by (split; [done|]; left; auto).
  destruct (negb _ || _) eqn:Hd; [by apply safely_delete|].
  apply orb_false_iff in Hd as [Hdel%negb_false_iff Ho]. apply bool_decide_eq_true in Hdel.
  destruct (isServiceInstanceFailed i) eqn:Hf; [by apply wps_ret|].
  destruct (Z.eqb_spec (ReconciledGeneration (si_Status i)) (Generation (si_Meta i))); [by apply wps_ret|].
  apply wps_bind, safely_resolveReferences; [|intros; apply finished_err].
  intros prior t Hq Hdr Hst Hr. apply wps_bind, safely_lookup; [done..| |intros; apply finished_err].
  intros r. by apply safely_provision.
Qed.
End phases.
