(* ===== verification/InstanceTheorems.v ===== *)
(** * Properties of the ServiceInstance control loop

    What [reconcileServiceInstance] guarantees of every run, whatever the API
    server, the caches, the clock and the brokers answer, and the precise
    behaviour of its branches. *)

From S2P Require Import Prelude Types Conditions Environment Sha256 Json ParametersModel Validation ControllerCommon ValidationSpec InstanceController InstanceSpec Sample InstanceProofs.

Section runs.
Context {W : Type} {E : Env W} {C : Config} {L : InstanceLaws W} {Y : YamlLaws} {MV : MetaValidation}.
Implicit Types (i obj : ServiceInstance) (w : W).
Local Notation run i w := (trace_of (reconcileServiceInstance i) w).

Lemma run_safe i w :
  instance_ok i ->
  safe (instance_protocol i) [] (run i w) /\ finished i (outcome_of (reconcileServiceInstance i) w) (run i w).
Proof. intros Hi. apply wps_run. by apply safely_reconcile. Qed.

Lemma run_protocol i w t1 e t2 : instance_ok i -> run i w = t1 ++ e :: t2 -> instance_protocol i t1 e.
Proof. intros Hi Ht. destruct (run_safe i w Hi) as [Hs _]. rewrite Ht in Hs. by apply safe_split in Hs. Qed.

Lemma run_effect i w e : instance_ok i -> e ∈ run i w -> exists t1, instance_protocol i t1 e.
Proof. intros Hi (t1 & t2 & Ht)%list_elem_of_split. eauto using run_protocol. Qed.

(** C1: [reconcileServiceInstance] never panics on an instance that satisfies
    the invariant: no nil reference or start time is dereferenced on any path,
    whatever the API server and the brokers answer. *)
Theorem reconcile_never_panics i w :
  instance_ok i -> outcome_of (reconcileServiceInstance i) w <> Panic.
Proof. intros Hi. by destruct (run_safe i w Hi) as [_ [H _]]. Qed.

(** Every status the controller writes keeps the invariant: one condition
    per type, and a status the API server's validation accepts unless it
    carries the orphan-mitigation flag. *)
Theorem writes_keep_invariant i w obj res :
  instance_ok i -> EInstanceUpdateStatus obj res ∈ run i w ->
  NoDup (cond_Type <$> Conditions (si_Status obj)) /\
  (validateServiceInstanceStatus (si_Status obj) "status" false = [] \/
   OrphanMitigationInProgress (si_Status obj) = true).
Proof.
  intros Hi Hin. destruct (run_effect i w _ Hi Hin) as [t1 [Hu Hs _ _ _]]. split; [done|].
  rewrite validateServiceInstanceStatus_spec. destruct Hs as [?|[?|[]]]; auto.
Qed.

(** C2: the service-catalog finalizer of an instance is removed only when
    nothing is left at the broker: earlier in the same run the broker
    confirmed a deprovisioning (in answer to the request, or to a poll), or
    the instance is being deleted and its status shows it never became
    provisioned (it failed, or no generation of it was ever reconciled). *)
Theorem finalizer_removed_only_when_released i w t1 obj res t2 :
  instance_ok i -> run i w = t1 ++ EInstanceUpdateStatus obj res :: t2 ->
  FinalizerServiceCatalog ∈ Finalizers (si_Meta i) ->
  FinalizerServiceCatalog ∉ Finalizers (si_Meta obj) ->
  abandoned i \/ deprovisioned i t1.
Proof. intros Hi Ht. by destruct (run_protocol i w _ _ _ Hi Ht). Qed.

(** C3: a status that reports an instance as ready which was not ready is written
    only after the broker reported, earlier in the same run, that the instance is
    provisioned (it answered the provision request synchronously, or a poll of
    the provisioning with success); and that status has nothing in progress: no
    operation, start time, properties in progress or last operation, no
    asynchronous operation and no orphan mitigation, and the generation of the
    instance is reconciled. *)
Theorem ready_only_after_broker_success i w t1 obj res t2 :
  instance_ok i -> run i w = t1 ++ EInstanceUpdateStatus obj res :: t2 ->
  isServiceInstanceReady i = false -> isServiceInstanceReady obj = true ->
  provisioned i t1 /\ status_at_rest (si_Status obj) /\
  OrphanMitigationInProgress (si_Status obj) = false /\ ReconciledGeneration (si_Status obj) = Generation (si_Meta obj).
Proof.
  intros Hi Ht Hn Hr. pose proof (run_protocol i w _ _ _ Hi Ht) as Hw.
  destruct (wo_ready _ _ _ Hw Hr) as [|[Hp [Hop _ Horphan Hg]]]; [congruence|]. split_and!; [done| |done|done].
  destruct (wo_status _ _ _ Hw) as [H|[[[Ho|[Ho|Ho]]]|[]]]; [done|congruence..].
Qed.

(** C8: a provision request is write-ahead logged and guarded: when it goes
    out, a stored version of the instance already names a current operation,
    no other broker call was made in the run, the request carries the
    instance's external ID, and the instance is live: not being deleted, not
    failed, no asynchronous operation or orphan mitigation pending, and a
    generation not yet reconciled. *)
Theorem provision_is_recorded_first i w t1 c req res t2 :
  instance_ok i -> run i w = t1 ++ EProvision c req res :: t2 -> provision_ok i t1 req.
Proof. intros Hi Ht. exact (run_protocol i w _ _ _ Hi Ht). Qed.

(** A deprovision request is write-ahead logged and guarded: a stored
    version of the instance names a current operation, no other broker call
    was made in the run, the request carries the instance's external ID, and
    the instance is being deleted or its orphan is being mitigated while it
    still has the finalizer. *)
Theorem deprovision_is_recorded_first i w t1 c req res t2 :
  instance_ok i -> run i w = t1 ++ EDeprovision c req res :: t2 -> deprovision_ok i t1 req.
Proof. intros Hi Ht. exact (run_protocol i w _ _ _ Hi Ht). Qed.

(** C23: no work is lost: a run that returns nil, so that its worker forgets the
    key, found nothing to do (and left no effect), or scheduled a poll of the
    asynchronous operation, or stored a status with no asynchronous operation
    pending, whose watch event queues the instance again. *)
Theorem nil_return_loses_no_work i w :
  instance_ok i -> outcome_of (reconcileServiceInstance i) w = Ok tt -> kept i (run i w).
Proof. intros Hi. by destruct (run_safe i w Hi) as [_ [_ H]]. Qed.

(** C24: orphan mitigation can never start: every status write with which the
    controller starts it (the flag set on an instance that did not have it)
    keeps the current operation but drops its start time, which the API
    server's validation of the instance status refuses. *)
Theorem orphan_mitigation_writes_rejected i w obj res :
  instance_ok i -> EInstanceUpdateStatus obj res ∈ run i w ->
  OrphanMitigationInProgress (si_Status i) = false ->
  OrphanMitigationInProgress (si_Status obj) = true ->
  validateServiceInstanceStatus (si_Status obj) "status" false <> [].
Proof.
  intros Hi Hin Ho Ho'. destruct (run_effect i w _ Hi Hin) as [t1 Hw].
  destruct (wo_mitigation _ _ _ Hw Ho') as [|[Hop Hs]]; [congruence|].
  rewrite validateServiceInstanceStatus_spec. intros [[]|[]]; [done|].
  rewrite Hs in op_start. by destruct op_start.
Qed.

(** A live instance that failed, or whose generation is reconciled, is left
    alone. *)
Lemma nothing_to_do i w :
  AsyncOpInProgress (si_Status i) = false -> OrphanMitigationInProgress (si_Status i) = false ->
  DeletionTimestamp (si_Meta i) = None ->
  isServiceInstanceFailed i = true \/ ReconciledGeneration (si_Status i) = Generation (si_Meta i) ->
  reconcileServiceInstance i w = (Ok tt, w, []).
Proof.
  intros Ha Ho Hd Hdone. unfold reconcileServiceInstance. rewrite Ha, Ho, Hd. cbn.
  destruct (isServiceInstanceFailed i); [done|]. destruct Hdone as [|He]; [done|].
  by rewrite (proj2 (Z.eqb_eq _ _) He).
Qed.

(** Reconciliation converges: once a run has reported the instance ready,
    reconciling what it wrote does nothing at all, in any later state of the
    environment. *)
Theorem ready_instance_is_left_alone i w obj res w' :
  instance_ok i -> EInstanceUpdateStatus obj res ∈ run i w ->
  isServiceInstanceReady i = false -> isServiceInstanceReady obj = true ->
  DeletionTimestamp (si_Meta obj) = None ->
  reconcileServiceInstance obj w' = (Ok tt, w', []).
Proof.
  intros Hi Hin Hr Hr' Hd. destruct (run_effect i w _ Hi Hin) as [t1 Hw].
  destruct (wo_ready _ _ _ Hw Hr') as [|[_ []]]; [congruence|]. apply nothing_to_do; auto.
Qed.

(** While a credential in the instance's namespace refers to the instance,
    deleting it reaches no broker: the run records an event and one status
    write that keeps the finalizers and says why, and nothing else. *)
Theorem deletion_blocked_by_credentials i w creds w1 :
  DeletionTimestamp (si_Meta i) <> None -> AsyncOpInProgress (si_Status i) = false ->
  env_bindingLister_List (Namespace (si_Meta i)) w = (inl creds, w1) ->
  (exists c, c ∈ creds /\ lref_Name (ServiceInstanceRef (bind_Spec c)) = Name (si_Meta i)) ->
  exists ev obj res cond,
    run i w = [ERecord ev; EInstanceUpdateStatus obj res] /\
    Finalizers (si_Meta obj) = Finalizers (si_Meta i) /\
    find_condition (Conditions (si_Status obj)) ConditionReady = Some cond /\
    cond_Status cond = ConditionFalse /\ cond_Reason cond = errorDeprovisionBlockedByCredentialsReason.
Proof.
  intros Hd Ha Hl (c & Hc & Hname). unfold trace_of, reconcileServiceInstance. rewrite Ha.
  rewrite (bool_decide_eq_false_2 _ Hd). cbn.
  unfold reconcileServiceInstanceDelete, bindingLister_List. rewrite (bool_decide_eq_false_2 _ Hd). cbn.
  rewrite (run_read _ _ _ _ _ Hl). rewrite (proj2 (existsb_exists _ _)).
  2: { exists c. split; [by apply list_elem_of_In|]. by apply bool_decide_eq_true. }
  unfold blockDeprovision, setServiceInstanceCondition, updateServiceInstanceStatus,
    ServiceInstances_UpdateStatus, api, instance_Event, emit, Now, bind, call, lift, ret, fail, quiet.
  destruct (env_Now w1) as [now w2]. cbv beta iota zeta.
  destruct (env_ServiceInstances_UpdateStatus _ w2) as [[t'|e] w3] eqn:Hu; cbn;
    do 4 eexists; (split; [reflexivity|]); (split; [reflexivity|]);
    (split; [apply find_set_condition|by split]).
Qed.

(** ** Branches *)

(** Running a handler step by step on a given environment state. *)
Ltac run_handler :=
  unfold trace_of, outcome_of, setServiceInstanceCondition, updateServiceInstanceStatus,
    ServiceInstances_UpdateStatus, retryDurationElapsed, api, instance_Event, emit, Now, deref,
    bind, call, lift, ret, fail, quiet; cbv beta iota zeta.

(** How a broker's refusal to provision ends: one event and one status
    write, Failed true and Ready not true; the write starts orphan mitigation
    exactly for the codes that leave the outcome unknown
    ([shouldStartOrphanMitigation]), and otherwise closes the operation for
    this generation; the error is returned, so the key retried, exactly when
    mitigation must follow or the write failed. *)
Theorem provision_refused i t r w code m d re :
  let err := HTTPStatusCodeError code m d re in
  exists ev obj res,
    trace_of (handleProvisionError i t r err) w = [ERecord ev; EInstanceUpdateStatus obj res] /\
    isServiceInstanceFailed obj = true /\ isServiceInstanceReady obj = false /\
    OrphanMitigationInProgress (si_Status obj) = shouldStartOrphanMitigation code /\
    (shouldStartOrphanMitigation code = false -> settled obj) /\
    outcome_of (handleProvisionError i t r err) w =
      match res with
      | inr e => Err e
      | inl _ => if shouldStartOrphanMitigation code then Err err else Ok tt
      end.
Proof.
  intros err. unfold handleProvisionError, err. cbn [IsHTTPError StatusCode]. run_handler.
  destruct (env_Now w) as [n1 w1]; cbv beta iota. destruct (env_Now w1) as [n2 w2]; cbv beta iota.
  destruct (shouldStartOrphanMitigation code) eqn:Hs; cbv beta iota;
    destruct (env_ServiceInstances_UpdateStatus _ w2) as [[t'|e] w3];
    do 3 eexists; (split; [reflexivity|]);
    unfold isServiceInstanceFailed, isServiceInstanceReady; cbn;
    rewrite has_failed_set_ready, has_failed_set_failed, first_ready_set_ready;
    (repeat split); try done.
Qed.

(** Retries of a provision request that could not be delivered are bounded
    by the retry window: with [now] the clock when the answer is handled, a
    failure within the window of the operation's start is stored as not ready
    with the operation still open and returned for retry, and a failure after
    it is final: Failed is stored and the operation closed. *)
Theorem provision_retry_window i t r w err start :
  IsHTTPError err = None -> isURLTimeout err = false ->
  OperationStartTime (si_Status t) = Some start ->
  let now := fst (env_Now (snd (env_Now w))) in
  let m := handleProvisionError i t r err in
  if now <? start + reconciliationRetryDuration then
    exists ev obj res, trace_of m w = [ERecord ev; EInstanceUpdateStatus obj res] /\
      isServiceInstanceFailed obj = isServiceInstanceFailed t /\
      CurrentOperation (si_Status obj) = CurrentOperation (si_Status t) /\
      OperationStartTime (si_Status obj) = Some start /\
      outcome_of m w = match res with inr e => Err e | inl _ => Err err end
  else
    exists ev ev' obj res, trace_of m w = [ERecord ev; ERecord ev'; EInstanceUpdateStatus obj res] /\
      isServiceInstanceFailed obj = true /\ settled obj /\
      outcome_of m w = match res with inr e => Err e | inl _ => Ok tt end.
Proof.
  intros Hh Hu Hst now m. unfold m, now, handleProvisionError. rewrite Hh, Hu. run_handler.
  destruct (env_Now w) as [n1 w1]; cbv beta iota; cbn [fst snd si_Status].
  replace (OperationStartTime _) with (Some start) by (cbn; done).
  destruct (env_Now w1) as [n2 w2]; cbv beta iota; cbn [fst].
  destruct (n2 <? start + reconciliationRetryDuration); cbn [negb].
  - destruct (env_ServiceInstances_UpdateStatus _ w2) as [[t'|e] w3];
      do 3 eexists; (split; [reflexivity|]); unfold isServiceInstanceFailed; cbn;
      by rewrite has_failed_set_ready.
  - destruct (env_Now w2) as [n3 w3]; cbv beta iota.
    destruct (env_ServiceInstances_UpdateStatus _ w3) as [[t'|e] w4];
      do 4 eexists; (split; [reflexivity|]); unfold isServiceInstanceFailed; cbn;
      rewrite has_failed_set_failed; done.
Qed.

(** Deleting an instance that is marked as failed only drops the finalizer. *)
Lemma failed_deletion i w creds w1 :
  DeletionTimestamp (si_Meta i) <> None -> AsyncOpInProgress (si_Status i) = false ->
  OrphanMitigationInProgress (si_Status i) = false -> isServiceInstanceFailed i = true ->
  FinalizerServiceCatalog ∈ Finalizers (si_Meta i) ->
  env_bindingLister_List (Namespace (si_Meta i)) w = (inl creds, w1) ->
  (forall c, c ∈ creds -> lref_Name (ServiceInstanceRef (bind_Spec c)) <> Name (si_Meta i)) ->
  exists obj res, run i w = [EInstanceUpdateStatus obj res] /\
    FinalizerServiceCatalog ∉ Finalizers (si_Meta obj).
Proof.
  intros Hd Ha Ho Hf Hfin Hl Hc. unfold trace_of, reconcileServiceInstance. rewrite Ha.
  rewrite (bool_decide_eq_false_2 _ Hd). cbn.
  unfold reconcileServiceInstanceDelete, bindingLister_List. rewrite (bool_decide_eq_false_2 _ Hd). cbn.
  rewrite (run_read _ _ _ _ _ Hl). destruct (existsb _ creds) eqn:He.
  { apply existsb_exists in He as (c & Hin%list_elem_of_In & Hr%bool_decide_eq_true). by destruct (Hc c Hin). }
  rewrite Ha, Ho, Hf. rewrite (proj2 (set_Has_elem _ _)) by by apply NewString_elem. cbn.
  unfold updateServiceInstanceStatus, ServiceInstances_UpdateStatus, api. run_handler.
  destruct (env_ServiceInstances_UpdateStatus _ w1) as [[t'|e] w3]; cbn; do 2 eexists;
    (split; [reflexivity|]); cbn; rewrite set_Delete_elem; naive_solver.
Qed.

(** A deprovision request the broker refuses is forgotten: the refusal is
    stored as Failed with the operation closed, and the next reconciliation of
    what was stored removes the finalizer without calling the broker again,
    so the instance disappears from the catalog while the broker keeps it
    (the comment in [reconcileServiceInstance] has Failed set only by the
    initial provision call). *)
Theorem refused_deprovision_is_forgotten i t r w code m d re :
  OrphanMitigationInProgress (si_Status i) = false ->
  DeletionTimestamp (si_Meta t) <> None -> FinalizerServiceCatalog ∈ Finalizers (si_Meta t) ->
  exists ev obj res,
    trace_of (handleDeprovisionError i t r (HTTPStatusCodeError code m d re)) w
      = [ERecord ev; EInstanceUpdateStatus obj res] /\
    FinalizerServiceCatalog ∈ Finalizers (si_Meta obj) /\
    forall w2 creds w3,
      env_bindingLister_List (Namespace (si_Meta t)) w2 = (inl creds, w3) ->
      (forall c, c ∈ creds -> lref_Name (ServiceInstanceRef (bind_Spec c)) <> Name (si_Meta t)) ->
      exists obj' res', run obj w2 = [EInstanceUpdateStatus obj' res'] /\
        FinalizerServiceCatalog ∉ Finalizers (si_Meta obj').
Proof.
  intros Ho Hd Hf. unfold handleDeprovisionError. cbn [IsHTTPError]. rewrite Ho. cbn [negb]. run_handler.
  destruct (env_Now w) as [n1 w1]; cbv beta iota. destruct (env_Now w1) as [n2 w2]; cbv beta iota.
  match goal with |- context [env_ServiceInstances_UpdateStatus ?o w2] => set (obj := o) end.
  assert (Hobj : si_Meta obj = si_Meta t /\ AsyncOpInProgress (si_Status obj) = false /\
    OrphanMitigationInProgress (si_Status obj) = false /\ isServiceInstanceFailed obj = true).
  { subst obj. split_and!; try reflexivity. apply has_failed_set_failed. }
  clearbody obj. destruct Hobj as (Hm & Ha' & Ho' & Hf').
  destruct (env_ServiceInstances_UpdateStatus obj w2) as [[t'|e] w3]; cbv beta iota;
    eexists _, obj, _; (split; [reflexivity|]); rewrite Hm; (split; [exact Hf|]);
    intros v creds v' Hl Hc; apply (failed_deletion obj v creds v'); by rewrite ?Hm.
Qed.

(** ** What is asked of the broker *)

Definition no_provision (e : Effect) : bool :=
  match e with EProvision _ _ _ => false | _ => true end.

(** The request for instance [i] of class and plan [r]. *)
Record provision_request (i : ServiceInstance) (r : Resolved) (c : ClientConfiguration)
    (req : ProvisionRequest) : Prop := {
  prq_client : c = brokerClient r;
  prq_instance : pr_InstanceID req = ExternalID (si_Spec i);
  prq_service : pr_ServiceID req = sc_ExternalID (sc_Spec (serviceClass r));
  prq_plan : pr_PlanID req = sp_ExternalID (sp_Spec (servicePlan r));
  prq_async : pr_AcceptsIncomplete req = true;
  prq_space : pr_SpaceGUID req = pr_OrganizationGUID req;
  prq_platform : pr_Context req !! "platform" = Some (JString "kubernetes");
  prq_namespace : pr_Context req !! "namespace" = Some (JString (Namespace (si_Meta i)));
  prq_parameters : Parameters (si_Spec i) = None -> ParametersFrom (si_Spec i) = None ->
    pr_Parameters req = ∅ }.

Definition provision_effect_ok i r (prior : list Effect) (e : Effect) : Prop :=
  match e with EProvision c req _ => provision_request i r c req | _ => True end.

Ltac brute :=
  repeat (first [ wps_step
                | apply wps_quiet, wp_buildParameters; intros; (split; [reflexivity|])
                | progress unfold failWith, setServiceInstanceCondition, updateServiceInstanceStatus,
                    ServiceInstances_UpdateStatus, retryDurationElapsed, originatingIdentityFor,
                    recordStartOfServiceInstanceOperation, instance_Event, beginPollingServiceInstance,
                    prepareParameters, handleProvisionError, handleProvisionResponse
                | exact I ]).

(** What a provision request says: it goes to the client of the class's
    broker, names the instance by its external ID and the class and plan by
    theirs, accepts an asynchronous answer, and carries the platform and the
    namespace as context; without parameters in the spec it has none. *)
Theorem provision_request_contents i t r w c req res :
  EProvision c req res ∈ trace_of (provisionServiceInstance i t r) w -> provision_request i r c req.
Proof.
  intros (t1 & t2 & Ht)%list_elem_of_split.
  enough (Hs : wps (W:=W) (provision_effect_ok i r) [] (provisionServiceInstance i t r) (fun _ _ => True)).
  { destruct (wps_run _ _ _ w Hs) as [Hsafe _]. rewrite Ht in Hsafe. by apply safe_split in Hsafe. }
  unfold provisionServiceInstance, Namespaces_Get.
  apply wps_bind, wps_try, wps_read. intros w1 ns w2 _. destruct ns as [ns|e]; [|brute].
  apply wps_bind. eapply (wps_conseq _ _ _ (fun o _ => match o with
    | Ok (params, _, _) => Parameters (si_Spec i) = None -> ParametersFrom (si_Spec i) = None -> params = ∅
    | _ => True end)).
  { unfold prepareParameters.
    destruct (Parameters (si_Spec i)), (ParametersFrom (si_Spec i)); brute; done. }
  intros [[[params checksum] raw]|e|] prior Hparams; [|done..]. cbv zeta.
  apply wps_bind. apply (wps_conseq _ _ _ (fun _ _ => True)); [brute|].
  intros [oi|e|] prior' _; [|done..]. apply wps_bind.
  apply (wps_conseq _ _ _ (fun _ _ => True)).
  { destruct (decide _); [|by apply wps_ret]. unfold recordStartOfServiceInstanceOperation. brute. }
  intros [t'|e|] prior'' _; [|done..]. apply wps_bind, wps_try, wps_api.
  intros w3 resp w4 _. split; [by split|]. destruct resp as [resp|e].
  - unfold handleProvisionResponse. brute.
  - unfold handleProvisionError. brute.
Qed.
End runs.

(** ** Runs on concrete objects *)

(** The runs below, and their pieces: the object of the [n]-th effect. *)
Definition run1 : list Effect := trace_of (reconcileServiceInstance instance1) world1.
Definition run_deleting : list Effect := trace_of (reconcileServiceInstance instance_deleting) world1.
Definition run_polling : list Effect := trace_of (reconcileServiceInstance instance_polling) world1.
Definition written (n : nat) (t : list Effect) : ServiceInstance :=
  match t !! n with Some (EInstanceUpdateStatus o _) => o | _ => instance1 end.
Definition written_res (n : nat) (t : list Effect) : ServiceInstance + error :=
  match t !! n with Some (EInstanceUpdateStatus _ r) => r | _ => inl instance1 end.

Lemma reconcile_never_panics_witness :
  instance_ok instance1 /\ outcome_of (reconcileServiceInstance instance1) world1 <> Panic.
Proof. split; [exact instance1_ok|exact (reconcile_never_panics instance1 world1 instance1_ok)]. Defined.

Lemma writes_keep_invariant_witness :
  NoDup (cond_Type <$> Conditions (si_Status (written 2 run_deleting))) /\
  (validateServiceInstanceStatus (si_Status (written 2 run_deleting)) "status" false = [] \/
   OrphanMitigationInProgress (si_Status (written 2 run_deleting)) = true).
Proof.
  apply (writes_keep_invariant instance_deleting world1 _ (written_res 2 run_deleting) instance_deleting_ok).
  apply (list_elem_of_lookup_2 _ 2). vm_compute. reflexivity.
Defined.

Lemma finalizer_removed_only_when_released_witness :
  FinalizerServiceCatalog ∉ Finalizers (si_Meta (written 2 run_deleting)) /\
  (abandoned instance_deleting \/ deprovisioned instance_deleting (take 2 run_deleting)).
Proof.
  assert (Hn : FinalizerServiceCatalog ∉ Finalizers (si_Meta (written 2 run_deleting))).
  { vm_compute. intros H. inversion H. }
  split; [exact Hn|].
  refine (finalizer_removed_only_when_released instance_deleting world1 (take 2 run_deleting)
    (written 2 run_deleting) (written_res 2 run_deleting) (drop 3 run_deleting) instance_deleting_ok _ _ Hn).
  - vm_compute. reflexivity.
  - vm_compute. left.
Defined.

Lemma ready_only_after_broker_success_witness :
  isServiceInstanceReady (written 3 run1) = true /\ provisioned instance1 (take 3 run1) /\
  CurrentOperation (si_Status (written 3 run1)) = OperationNone.
Proof.
  split; [vm_compute; reflexivity|].
  destruct (ready_only_after_broker_success instance1 world1 (take 3 run1) (written 3 run1)
    (written_res 3 run1) (drop 4 run1) instance1_ok) as (Hp & [Hop] & _); [vm_compute; reflexivity..|].
  by split.
Defined.

Lemma provision_is_recorded_first_witness :
  exists req, provision_ok instance1 (take 2 run1) req.
Proof.
  eexists. eapply (provision_is_recorded_first instance1 world1 (take 2 run1) _ _ _ (drop 3 run1) instance1_ok).
  vm_compute. reflexivity.
Defined.

Lemma deprovision_is_recorded_first_witness :
  exists req, deprovision_ok instance_deleting (take 1 run_deleting) req.
Proof.
  eexists. eapply (deprovision_is_recorded_first instance_deleting world1 (take 1 run_deleting) _ _ _
    (drop 2 run_deleting) instance_deleting_ok).
  vm_compute. reflexivity.
Defined.

Lemma nil_return_loses_no_work_witness :
  outcome_of (reconcileServiceInstance instance_polling) world1 = Ok tt /\ kept instance_polling run_polling.
Proof.
  split; [vm_compute; reflexivity|].
  apply (nil_return_loses_no_work instance_polling world1 instance_polling_ok). vm_compute. reflexivity.
Defined.

Definition run_500 : list Effect := trace_of (reconcileServiceInstance instance1) (world_failing 500).

Lemma orphan_mitigation_writes_rejected_witness :
  OrphanMitigationInProgress (si_Status (written 4 run_500)) = true /\
  validateServiceInstanceStatus (si_Status (written 4 run_500)) "status" false <> [].
Proof.
  split; [vm_compute; reflexivity|].
  apply (orphan_mitigation_writes_rejected instance1 (world_failing 500) (written 4 run_500)
    (written_res 4 run_500) instance1_ok); [|vm_compute; reflexivity..].
  apply (list_elem_of_lookup_2 _ 4). vm_compute. reflexivity.
Defined.

Lemma ready_instance_is_left_alone_witness :
  reconcileServiceInstance (written 3 run1) world1 = (Ok tt, world1, []).
Proof.
  apply (ready_instance_is_left_alone instance1 world1 _ (written_res 3 run1) world1 instance1_ok);
    [|vm_compute; reflexivity..].
  apply (list_elem_of_lookup_2 _ 3). vm_compute. reflexivity.
Defined.

Definition world_bound : World :=
  world_with (w_provision world1) (w_deprovision world1) (w_poll world1) [binding1].

Lemma deletion_blocked_by_credentials_witness :
  exists ev obj res cond,
    trace_of (reconcileServiceInstance instance_deleting) world_bound = [ERecord ev; EInstanceUpdateStatus obj res] /\
    Finalizers (si_Meta obj) = [FinalizerServiceCatalog] /\
    find_condition (Conditions (si_Status obj)) ConditionReady = Some cond /\
    cond_Status cond = ConditionFalse /\ cond_Reason cond = errorDeprovisionBlockedByCredentialsReason.
Proof.
  apply (deletion_blocked_by_credentials instance_deleting world_bound [binding1] world_bound).
  - discriminate.
  - reflexivity.
  - vm_compute. reflexivity.
  - exists binding1. split; [left|reflexivity].
Defined.

Definition resolved1 : Resolved :=
  {| serviceClass := class1; servicePlan := plan1; brokerName := "broker";
     brokerClient := NewClientConfigurationForBroker broker1 None |}.

Lemma provision_retry_window_witness :
  exists ev obj res,
    trace_of (handleProvisionError instance1 instance_polling resolved1 (PlainError "no route")) world1
      = [ERecord ev; EInstanceUpdateStatus obj res] /\
    isServiceInstanceFailed obj = isServiceInstanceFailed instance_polling /\
    CurrentOperation (si_Status obj) = OperationDeprovision /\
    OperationStartTime (si_Status obj) = Some 5 /\
    outcome_of (handleProvisionError instance1 instance_polling resolved1 (PlainError "no route")) world1
      = match res with inr e => Err e | inl _ => Err (PlainError "no route") end.
Proof.
  exact (provision_retry_window instance1 instance_polling resolved1 world1 (PlainError "no route") 5
    eq_refl eq_refl eq_refl).
Defined.

Lemma refused_deprovision_is_forgotten_witness :
  exists ev obj res,
    trace_of (handleDeprovisionError instance_deleting instance_deleting resolved1 (http 400)) world1
      = [ERecord ev; EInstanceUpdateStatus obj res] /\
    FinalizerServiceCatalog ∈ Finalizers (si_Meta obj) /\
    forall w2 creds w3,
      env_bindingLister_List "ns" w2 = (inl creds, w3) ->
      (forall c, c ∈ creds -> lref_Name (ServiceInstanceRef (bind_Spec c)) <> "db") ->
      exists obj' res', trace_of (reconcileServiceInstance obj) w2 = [EInstanceUpdateStatus obj' res'] /\
        FinalizerServiceCatalog ∉ Finalizers (si_Meta obj').
Proof.
  apply (refused_deprovision_is_forgotten instance_deleting instance_deleting resolved1 world1 400 None None None).
  - reflexivity.
  - discriminate.
  - left.
Defined.

Lemma provision_request_contents_witness :
  exists c req, provision_request instance1 resolved1 c req /\ pr_InstanceID req = "instance-guid".
Proof.
  do 2 eexists. split.
  - eapply (provision_request_contents instance1 instance1 resolved1 world1).
    apply (list_elem_of_lookup_2 _ 1). vm_compute. reflexivity.
  - reflexivity.
Defined.

Definition world_secret : World := w_with_secrets [secret1] world1.

Lemma stored_parameters_are_redacted_witness :
  exists secrets inline,
    inline_parameters (Some {| Raw := "size: 3" |}) = inl inline /\
    (<["size" := JNum "3"]> {[ "password" := JString "hunter2" ]} : gmap string json) = inline ∪ ⋃ secrets /\
    (<["size" := JNum "3"]> {[ "password" := JString "<redacted>" ]} : gmap string json) =
      inline ∪ ((fun _ => JString "<redacted>") <$> ⋃ secrets).
Proof.
  destruct (stored_parameters_are_redacted "ns" (Some [source1]) (Some {| Raw := "size: 3" |}) world_secret
    (<["size" := JNum "3"]> {[ "password" := JString "hunter2" ]})
    (<["size" := JNum "3"]> {[ "password" := JString "<redacted>" ]}) world_secret []) as [H _].
  destruct H as (_ & secrets & inline & _ & Hi & _ & _ & Hf & Hr); [vm_compute; reflexivity|]. by exists secrets, inline.
Defined.
