(* ===== verification/BindingController.v ===== *)
(** * The ServiceInstanceCredential control loop

    [pkg/controller/controller_binding.go] and
    [getServiceClassPlanAndClusterServiceBrokerForServiceInstanceCredential] of
    [controller.go]: binding, secret injection, unbinding, secret ejection and
    orphan mitigation.  The long [reconcileServiceInstanceCredential] is cut
    into the phases its early returns delimit. *)

From S2P Require Import Prelude Types Conditions Environment Sha256 Json ParametersModel ControllerCommon InstanceController.

(** ** Pure helpers *)

Definition clearServiceInstanceCredentialCurrentOperation (toUpdate : ServiceInstanceCredential) :
    ServiceInstanceCredential :=
  bind_upd (fun s =>
    bwith_OrphanMitigationInProgress false
    (bwith_InProgressProperties None
    (bwith_ReconciledGeneration (Generation (bind_Meta toUpdate))
    (bwith_OperationStartTime None
    (bwith_CurrentOperation BOperationNone s))))) toUpdate.

(** The status changes of [setAndUpdateOrphanMitigation]. *)
Definition startOrphanMitigation (toUpdate : ServiceInstanceCredential) : ServiceInstanceCredential :=
  bind_upd (fun s =>
    bwith_InProgressProperties None
    (bwith_OperationStartTime None
    (bwith_OrphanMitigationInProgress true s))) toUpdate.

(** The condition on the status code of a failed bind request. *)
Definition bindNeedsOrphanMitigation (statusCode : Z) : bool :=
  (200 <? statusCode) && (statusCode <? 300) || (statusCode =? 408) ||
  (500 <=? statusCode) && (statusCode <? 600).

(** [bindingControllerKind] *)
Definition bindingControllerAPIVersion : string := "servicecatalog.k8s.io/v1alpha1".
Definition bindingControllerKind : string := "ServiceInstanceCredential".

(** ** Messages *)

Section messages.
Context {C : Config}.
Implicit Types (b : ServiceInstanceCredential) (i : ServiceInstance).

Definition bname b : string := nsname (Namespace (bind_Meta b)) (Name (bind_Meta b)).
(** Several messages print the name before the namespace. *)
Definition bname_swapped b : string := nsname (Name (bind_Meta b)) (Namespace (bind_Meta b)).

Definition bmsg_no_class b i := sprint ["ServiceInstanceCredential "; bname b;
  " references a non-existent ServiceClass "; quote (ExternalServiceClassName (si_Spec i))].
Definition bmsg_no_broker b (sc : ServiceClass) := sprint ["ServiceInstanceCredential "; bname b;
  " references a non-existent ClusterServiceBroker "; quote (sc_ClusterServiceBrokerName (sc_Spec sc))].
Definition bmsg_no_instance b := sprint ["ServiceInstanceCredential "; bname b;
  " references a non-existent ServiceInstance ";
  nsname (Namespace (bind_Meta b)) (lref_Name (ServiceInstanceRef (bind_Spec b)))].
Definition bmsg_async b := sprint ["ServiceInstanceCredential "; bname b; " trying to bind to ServiceInstance ";
  nsname (Namespace (bind_Meta b)) (lref_Name (ServiceInstanceRef (bind_Spec b)));
  " that has ongoing asynchronous operation"].
Definition bmsg_nonbindable b i := sprint ["ServiceInstanceCredential "; bname b;
  " references a non-bindable ServiceClass ("; quote (ExternalServiceClassName (si_Spec i));
  ") and Plan ("; quote (ExternalServicePlanName (si_Spec i)); ") combination"].
Definition bmsg_namespace i err := sprint ["Failed to get namespace "; quote (Namespace (si_Meta i));
  " during binding: "; Error err].
Definition bmsg_not_ready i := sprint ["ServiceInstanceCredential cannot begin because referenced instance ";
  iname i; " is not ready"].
Definition bmsg_parameters b err := sprint ["Failed to prepare ServiceInstanceCredential parameters
"; fmt_raw (bind_Parameters (bind_Spec b)); "
 "; Error err].
Definition bmsg_checksum b err := sprint
  ["Failed to generate the parameters checksum to store in the Status of ServiceInstanceCredential "; bname b; ": "; Error err].
Definition bmsg_marshal b err := sprint
  ["Failed to marshal the parameters to store in the Status of ServiceInstanceCredential "; bname b; ": "; Error err].
Definition bmsg_identity (verb : string) b err := sprint
  ["Error building originating identity headers for "; verb; " ServiceInstanceCredential "; bname b; ": "; Error err].
Definition bmsg_orphan b i (sc : ServiceClass) brokerName errorStr := sprint
  ["Starting orphan mitgation for ServiceInstanceCredential "; bname_swapped b; " for ServiceInstance "; iname i;
   " of ServiceClass "; quote (Name (sc_Meta sc)); " at ServiceBroker "; quote brokerName; ", "; errorStr].
Definition bmsg_bind_http b i (sc : ServiceClass) brokerName err := sprint
  ["Error creating ServiceInstanceCredential "; bname_swapped b; " for ServiceInstance "; iname i;
   " of ServiceClass "; quote (sc_ExternalName (sc_Spec sc)); " at ClusterServiceBroker "; quote brokerName; ", "; Error err].
Definition bmsg_bind b i (sc : ServiceClass) brokerName err := sprint
  ["Error creating ServiceInstanceCredential "; bname_swapped b; " for ServiceInstance "; iname i;
   " of ServiceClass "; quote (sc_ExternalName (sc_Spec sc)); " at ClusterServiceBroker "; quote brokerName; ": "; Error err].
Definition bmsg_timeout b := sprint ["Stopping reconciliation retries on ServiceInstanceCredential "; bname b;
  " because too much time has elapsed"].
Definition bmsg_timeout_orphan b := sprint ["Stopping reconciliation retries on ServiceInstanceCredential "; bname b;
  " because too much time has elapsed during orphan mitigation"].
Definition bmsg_inject b err := sprint ["Error injecting binding results for ServiceInstanceCredential "; bname b;
  ": "; Error err].
Definition bmsg_eject err := sprint ["Error deleting secret: "; Error err].
Definition bmsg_unbind_http b i (sc : ServiceClass) brokerName err := sprint
  ["Error unbinding ServiceInstanceCredential "; bname_swapped b; " for ServiceInstance "; iname i;
   " of ServiceClass "; quote (sc_ExternalName (sc_Spec sc)); " at ClusterServiceBroker "; quote brokerName; ": "; Error err].
Definition bmsg_unbind b i (sc : ServiceClass) brokerName err := sprint
  ["Error unbinding ServiceInstanceCredential "; bname b; " for ServiceInstance "; iname i;
   " of ServiceClass "; quote (sc_ExternalName (sc_Spec sc)); " at ClusterServiceBroker "; quote brokerName; ": "; Error err].
Definition bmsg_mitigated b := sprint ["Orphan mitigation successful for ServiceInstanceCredential "; bname b].
End messages.

Section controller.
Context {W : Type} {E : Env W} {C : Config}.
Local Notation M := (M W Effect).
Local Open Scope go_scope.

(** ** Status updates and queues *)

Definition setServiceInstanceCredentialCondition (toUpdate : ServiceInstanceCredential)
    (conditionType : ConditionType) (status : ConditionStatus) (reason message : string) :
    M ServiceInstanceCredential :=
  now <- Now ;;
  ret (setServiceInstanceCredentialConditionInternal toUpdate conditionType status reason message now).

Definition updateServiceInstanceCredentialStatus (toUpdate : ServiceInstanceCredential) :
    M ServiceInstanceCredential :=
  Bindings_UpdateStatus toUpdate.

Definition updateServiceInstanceCredentialCondition (binding : ServiceInstanceCredential)
    (conditionType : ConditionType) (status : ConditionStatus) (reason message : string) : M unit :=
  toUpdate <- setServiceInstanceCredentialCondition binding conditionType status reason message ;;
  Bindings_UpdateStatus toUpdate ;;
  ret tt.

Definition recordStartOfServiceInstanceCredentialOperation (toUpdate : ServiceInstanceCredential)
    (operation : ServiceInstanceCredentialOperation) : M ServiceInstanceCredential :=
  now <- Now ;;
  let toUpdate := bind_upd (fun s =>
    bwith_OperationStartTime (Some now) (bwith_CurrentOperation operation s)) toUpdate in
  let '(reason, message) :=
    match operation with
    | BOperationBind => (bindingInFlightReason, bindingInFlightMessage)
    | BOperationUnbind => (unbindingInFlightReason, unbindingInFlightMessage)
    | _ => ("", "")
    end in
  toUpdate <- setServiceInstanceCredentialCondition toUpdate ConditionReady ConditionFalse reason message ;;
  updateServiceInstanceCredentialStatus toUpdate.

Definition bindingAdd (binding : ServiceInstanceCredential) : M unit :=
  emit (EBindingQueueAdd (MetaNamespaceKey (bind_Meta binding))).
Definition bindingUpdate (oldObj newObj : ServiceInstanceCredential) : M unit := bindingAdd newObj.
Definition bindingDelete (obj : ServiceInstanceCredential) : M unit := ret tt.

Definition setAndUpdateOrphanMitigation (binding toUpdate : ServiceInstanceCredential)
    (instance : ServiceInstance) (serviceClass : ServiceClass) (brokerName errorStr : string) : M unit :=
  let s := bmsg_orphan binding instance serviceClass brokerName errorStr in
  let toUpdate := startOrphanMitigation toUpdate in
  toUpdate <- setServiceInstanceCredentialCondition toUpdate ConditionReady ConditionFalse
    errorServiceInstanceCredentialOrphanMitigation s ;;
  binding_Event binding EventTypeWarning errorServiceInstanceCredentialOrphanMitigation s ;;
  updateServiceInstanceCredentialStatus toUpdate ;;
  ret tt.

(** A failure that is recorded on [toUpdate], then returned. *)
Definition bindFailWith (binding toUpdate : ServiceInstanceCredential) (reason s message : string)
    (err : error) {A} : M A :=
  binding_Event binding EventTypeWarning reason s ;;
  toUpdate <- setServiceInstanceCredentialCondition toUpdate ConditionReady ConditionFalse reason message ;;
  updateServiceInstanceCredentialStatus toUpdate ;;
  fail err.

(** A refusal that is recorded on [toUpdate] and not retried. *)
Definition bindRefuse (binding toUpdate : ServiceInstanceCredential) (reason s message : string) : M unit :=
  binding_Event binding EventTypeWarning reason s ;;
  toUpdate <- setServiceInstanceCredentialCondition toUpdate ConditionReady ConditionFalse reason message ;;
  updateServiceInstanceCredentialStatus toUpdate ;;
  ret tt.

(** ** Lookups *)

(** The caller has checked that both references are set. *)
Definition getServiceClassPlanAndClusterServiceBrokerForServiceInstanceCredential
    (instance : ServiceInstance) (binding : ServiceInstanceCredential) : M Resolved :=
  let report reason message event_reason s err :=
    ignore (updateServiceInstanceCredentialCondition binding ConditionReady ConditionFalse reason message) ;;
    binding_Event binding EventTypeWarning event_reason s ;;
    fail err in
  classRef <- deref (ServiceClassRef (si_Spec instance)) ;;
  sc <- try (serviceClassLister_Get (ref_Name classRef)) ;;
  match sc with
  | inr err =>
      let s := bmsg_no_class binding instance in
      report errorNonexistentServiceClassReason
        (sprint ["The binding references a ServiceClass that does not exist. "; s])
        "ReferencesNonexistentServiceClass" s err
  | inl serviceClass =>
  planRef <- deref (ServicePlanRef (si_Spec instance)) ;;
  sp <- try (servicePlanLister_Get (ref_Name planRef)) ;;
  match sp with
  | inr _ =>
      let s := msg_no_plan instance serviceClass in
      report errorNonexistentServicePlanReason
        (sprint ["The ServiceInstanceCredential references an ServiceInstance which references ServicePlan that does not exist. "; s])
        errorNonexistentServicePlanReason s (PlainError (Sprintf0 s))
  | inl servicePlan =>
  br <- try (brokerLister_Get (sc_ClusterServiceBrokerName (sc_Spec serviceClass))) ;;
  match br with
  | inr err =>
      let s := bmsg_no_broker binding serviceClass in
      report errorNonexistentClusterServiceBrokerReason
        (sprint ["The binding references a ClusterServiceBroker that does not exist. "; s])
        errorNonexistentClusterServiceBrokerReason s err
  | inl broker =>
  auth <- try (getAuthCredentialsFromClusterServiceBroker broker) ;;
  match auth with
  | inr err =>
      let s := msg_auth broker err in
      report errorAuthCredentialsReason (sprint ["Error getting auth credentials. "; s])
        errorAuthCredentialsReason s err
  | inl authConfig =>
      brokerClient <- brokerClientCreateFunc (NewClientConfigurationForBroker broker authConfig) ;;
      ret {| serviceClass := serviceClass; servicePlan := servicePlan;
             brokerName := Name (b_Meta broker); brokerClient := brokerClient |}
  end end end end.

(** ** Secrets *)

(** [for k, v := range credentials]: every value, serialized. *)
Fixpoint serializeCredentials (l : list (string * json)) (acc : gmap string string) :
    gmap string string + error :=
  match l with
  | [] => inl acc
  | (k, v) :: l' =>
      match serialize v with
      | inl data => serializeCredentials l' (<[k := data]> acc)
      | inr err => inr (PlainError (sprint ["Unable to serialize credential value "; quote k; ": ";
                                            fmt_value v; "; "; Error err]))
      end
  end.

(** The secret a binding creates: named by the spec, owned by the binding. *)
Definition newSecret (binding : ServiceInstanceCredential) (secretData : gmap string string) : Secret :=
  {| secret_Meta :=
       {| Name := SecretName (bind_Spec binding); Namespace := Namespace (bind_Meta binding);
          UID := ""; ResourceVersion := ""; Generation := 0; DeletionTimestamp := None;
          Finalizers := [];
          OwnerReferences := [NewControllerRef (bind_Meta binding) bindingControllerAPIVersion
                                bindingControllerKind] |};
     secret_Data := secretData |}.

Definition injectServiceInstanceCredential (binding : ServiceInstanceCredential)
    (credentials : gmap string json) : M unit :=
  secretData <- lift (serializeCredentials (map_to_list credentials) ∅) ;;
  r <- try (Secrets_Get (Namespace (bind_Meta binding)) (SecretName (bind_Spec binding))) ;;
  match r with
  | inl existingSecret =>
      if negb (IsControlledBy (secret_Meta existingSecret) (bind_Meta binding)) then
        fail (PlainError (sprint ["Secret '"; Name (secret_Meta existingSecret);
          "' is not owned by ServiceInstanceCredential, controllerRef: ";
          fmt_controllerRef (GetControllerOf (secret_Meta existingSecret))]))
      else
        u <- try (Secrets_Update {| secret_Meta := secret_Meta existingSecret; secret_Data := secretData |}) ;;
        match u with
        | inl _ => ret tt
        | inr err =>
            if IsConflict err then
              fail (PlainError (sprint ["Conflicting Secret '"; Name (secret_Meta existingSecret); "' update detected"]))
            else fail (PlainError (sprint ["Unexpected error in response: "; Error err]))
        end
  | inr err =>
      if negb (IsNotFound err) then fail (PlainError (sprint ["Unexpected error in response: "; Error err]))
      else
        u <- try (Secrets_Create (newSecret binding secretData)) ;;
        match u with
        | inl _ => ret tt
        | inr err =>
            if IsAlreadyExists err then
              fail (PlainError (sprint ["Conflicting Secret '"; SecretName (bind_Spec binding); "' creation detected"]))
            else fail (PlainError (sprint ["Unexpected error in response: "; Error err]))
        end
  end.

Definition ejectServiceInstanceCredential (binding : ServiceInstanceCredential) : M unit :=
  r <- try (Secrets_Delete (Namespace (bind_Meta binding)) (SecretName (bind_Spec binding))) ;;
  match r with
  | inl _ => ret tt
  | inr err => if IsNotFound err then ret tt else fail err
  end.

(** ** Binding *)

Definition bindOriginatingIdentity (verb : string) (binding toUpdate : ServiceInstanceCredential) :
    M (option AlphaOriginatingIdentity) :=
  if OriginatingIdentityEnabled then
    match buildOriginatingIdentity (bind_UserInfo (bind_Spec binding)) with
    | inl oi => ret oi
    | inr err =>
        let s := bmsg_identity verb binding err in
        bindFailWith binding toUpdate errorWithOriginatingIdentity s s err
    end
  else ret None.

(** The parameters for the broker, their checksum, and the redacted copy. *)
Definition prepareBindParameters (binding toUpdate : ServiceInstanceCredential) :
    M (gmap string json * string * option RawExtension) :=
  match bind_Parameters (bind_Spec binding), bind_ParametersFrom (bind_Spec binding) with
  | None, None => ret (∅, "", None)
  | _, _ =>
      built <- try (buildParameters (Namespace (bind_Meta binding))
                      (bind_ParametersFrom (bind_Spec binding)) (bind_Parameters (bind_Spec binding))) ;;
      match built with
      | inr err =>
          let s := bmsg_parameters binding err in
          bindFailWith binding toUpdate errorWithParameters s s err
      | inl (parameters, parametersWithSecretsRedacted) =>
          match generateChecksumOfParameters parameters with
          | inr err =>
              let s := bmsg_checksum binding err in
              bindFailWith binding toUpdate errorWithParameters (Sprintf0 s) s err
          | inl parametersChecksum =>
              match MarshalRawParameters parametersWithSecretsRedacted with
              | inr err =>
                  let s := bmsg_marshal binding err in
                  bindFailWith binding toUpdate errorWithParameters (Sprintf0 s) s err
              | inl raw => ret (parameters, parametersChecksum, Some {| Raw := raw |})
              end
          end
      end
  end.

(** [Bind] returned an error. *)
Definition handleBindError (binding toUpdate : ServiceInstanceCredential) (instance : ServiceInstance)
    (r : Resolved) (err : error) : M unit :=
  if isNetTimeout err then
    toUpdate <- setServiceInstanceCredentialCondition toUpdate ConditionFailed ConditionTrue errorBindCallReason
      (sprint ["Communication with the ServiceBroker timed out; Bind operation will not be retried: "; Error err]) ;;
    setAndUpdateOrphanMitigation binding toUpdate instance (serviceClass r) (brokerName r) (Error err)
  else
  match IsHTTPError err with
  | Some httpErr =>
      if bindNeedsOrphanMitigation (StatusCode httpErr) then
        toUpdate <- setServiceInstanceCredentialCondition toUpdate ConditionFailed ConditionTrue errorBindCallReason
          (sprint ["ServiceBroker returned a failure; Bind operation will not be retried: "; Error err]) ;;
        setAndUpdateOrphanMitigation binding toUpdate instance (serviceClass r) (brokerName r) (Error err)
      else
        let s := bmsg_bind_http binding instance (serviceClass r) (brokerName r) err in
        binding_Event binding EventTypeWarning errorBindCallReason s ;;
        toUpdate <- setServiceInstanceCredentialCondition toUpdate ConditionFailed ConditionTrue
          "ServiceInstanceCredentialReturnedFailure" s ;;
        toUpdate <- setServiceInstanceCredentialCondition toUpdate ConditionReady ConditionFalse
          errorBindCallReason (sprint ["Bind call failed. "; s]) ;;
        updateServiceInstanceCredentialStatus (clearServiceInstanceCredentialCurrentOperation toUpdate) ;;
        ret tt
  | None =>
      let s := bmsg_bind binding instance (serviceClass r) (brokerName r) err in
      binding_Event binding EventTypeWarning errorBindCallReason s ;;
      toUpdate <- setServiceInstanceCredentialCondition toUpdate ConditionReady ConditionFalse
        errorBindCallReason (sprint ["Bind call failed. "; s]) ;;
      elapsed <- retryDurationElapsed (bind_OperationStartTime (bind_Status toUpdate)) ;;
      if (elapsed : bool) then
        let s := bmsg_timeout binding in
        binding_Event binding EventTypeWarning errorReconciliationRetryTimeoutReason s ;;
        toUpdate <- setServiceInstanceCredentialCondition toUpdate ConditionFailed ConditionTrue
          errorReconciliationRetryTimeoutReason s ;;
        updateServiceInstanceCredentialStatus (clearServiceInstanceCredentialCurrentOperation toUpdate) ;;
        ret tt
      else
        updateServiceInstanceCredentialStatus toUpdate ;;
        fail err
  end.

(** [Bind] succeeded: inject the credentials. *)
Definition handleBindResponse (binding toUpdate : ServiceInstanceCredential) (instance : ServiceInstance)
    (r : Resolved) (response : BindResponse) : M unit :=
  let toUpdate := bind_upd (fun s => bwith_ExternalProperties (bind_InProgressProperties s) s) toUpdate in
  injected <- try (injectServiceInstanceCredential binding (bresp_Credentials response)) ;;
  match injected with
  | inr err =>
      let s := bmsg_inject binding err in
      binding_Event binding EventTypeWarning errorInjectingBindResultReason s ;;
      toUpdate <- setServiceInstanceCredentialCondition toUpdate ConditionReady ConditionFalse
        errorInjectingBindResultReason (sprint ["Error injecting bind result "; s]) ;;
      elapsed <- retryDurationElapsed (bind_OperationStartTime (bind_Status toUpdate)) ;;
      if (elapsed : bool) then
        let s := bmsg_timeout binding in
        binding_Event binding EventTypeWarning errorReconciliationRetryTimeoutReason s ;;
        toUpdate <- setServiceInstanceCredentialCondition toUpdate ConditionFailed ConditionTrue
          errorReconciliationRetryTimeoutReason s ;;
        setAndUpdateOrphanMitigation binding toUpdate instance (serviceClass r) (brokerName r)
          "too much time has elapsed"
      else
        updateServiceInstanceCredentialStatus toUpdate ;;
        fail err
  | inl _ =>
      let toUpdate := clearServiceInstanceCredentialCurrentOperation toUpdate in
      toUpdate <- setServiceInstanceCredentialCondition toUpdate ConditionReady ConditionTrue
        successInjectedBindResultReason successInjectedBindResultMessage ;;
      updateServiceInstanceCredentialStatus toUpdate ;;
      binding_Event binding EventTypeNormal successInjectedBindResultReason successInjectedBindResultMessage
  end.

(** The "Add or update" half of the reconciliation. *)
Definition bindServiceInstanceCredential (binding : ServiceInstanceCredential)
    (instance : ServiceInstance) (r : Resolved) : M unit :=
  let toUpdate := binding in
  nsr <- try (Namespaces_Get (Namespace (si_Meta instance))) ;;
  match nsr with
  | inr err =>
      let s := bmsg_namespace instance err in
      bindFailWith binding toUpdate errorFindingNamespaceServiceInstanceReason (Sprintf0 s)
        (sprint ["Error finding namespace for instance. "; s]) err
  | inl ns =>
  if negb (isServiceInstanceReady instance) then
    let s := bmsg_not_ready instance in
    bindRefuse binding toUpdate errorServiceInstanceNotReadyReason (Sprintf0 s) s
  else
  p <- prepareBindParameters binding toUpdate ;;
  let '(parameters, parametersChecksum, rawParametersWithRedaction) := p in
  let toUpdate := bind_upd (bwith_InProgressProperties (Some {|
    bps_Parameters := rawParametersWithRedaction;
    bps_ParametersChecksum := parametersChecksum;
    bps_UserInfo := bind_UserInfo (bind_Spec toUpdate) |})) toUpdate in
  originatingIdentity <- bindOriginatingIdentity "binding" binding toUpdate ;;
  let request := {|
    br_BindingID := bind_ExternalID (bind_Spec binding);
    br_InstanceID := ExternalID (si_Spec instance);
    br_ServiceID := sc_ExternalID (sc_Spec (serviceClass r));
    br_PlanID := sp_ExternalID (sp_Spec (servicePlan r));
    br_AppGUID := Some (ns_UID ns);
    br_BindResource_AppGUID := Some (ns_UID ns);
    br_Parameters := parameters;
    br_OriginatingIdentity := originatingIdentity |} in
  toUpdate <- (if decide (bind_CurrentOperation (bind_Status toUpdate) = BOperationNone) then
      recordStartOfServiceInstanceCredentialOperation toUpdate BOperationBind
    else ret toUpdate) ;;
  response <- try (Bind (brokerClient r) request) ;;
  match response with
  | inr err => handleBindError binding toUpdate instance r err
  | inl response => handleBindResponse binding toUpdate instance r response
  end
  end.

(** ** Unbinding *)

(** [Unbind] returned an error. *)
Definition handleUnbindError (binding toUpdate : ServiceInstanceCredential) (instance : ServiceInstance)
    (r : Resolved) (err : error) : M unit :=
  match IsHTTPError err with
  | Some httpErr =>
      let s := bmsg_unbind_http binding instance (serviceClass r) (brokerName r) err in
      binding_Event binding EventTypeWarning errorUnbindCallReason s ;;
      toUpdate <- setServiceInstanceCredentialCondition toUpdate ConditionReady ConditionUnknown
        errorUnbindCallReason (sprint ["Unbind call failed. "; s]) ;;
      toUpdate <- (if negb (bind_OrphanMitigationInProgress (bind_Status toUpdate)) then
          setServiceInstanceCredentialCondition toUpdate ConditionFailed ConditionTrue
            errorUnbindCallReason (sprint ["Unbind call failed. "; s])
        else ret toUpdate) ;;
      updateServiceInstanceCredentialStatus (clearServiceInstanceCredentialCurrentOperation toUpdate) ;;
      ret tt
  | None =>
      let s := bmsg_unbind binding instance (serviceClass r) (brokerName r) err in
      binding_Event binding EventTypeWarning errorUnbindCallReason s ;;
      toUpdate <- setServiceInstanceCredentialCondition toUpdate ConditionReady ConditionUnknown
        errorUnbindCallReason (sprint ["Unbind call failed. "; s]) ;;
      elapsed <- retryDurationElapsed (bind_OperationStartTime (bind_Status toUpdate)) ;;
      if (elapsed : bool) then
        let s := bmsg_timeout binding in
        binding_Event binding EventTypeWarning errorReconciliationRetryTimeoutReason s ;;
        toUpdate <- setServiceInstanceCredentialCondition toUpdate ConditionFailed ConditionTrue
          errorReconciliationRetryTimeoutReason s ;;
        toUpdate <- (if bind_OrphanMitigationInProgress (bind_Status toUpdate) then
            binding_Event binding EventTypeWarning errorReconciliationRetryTimeoutReason
              (bmsg_timeout_orphan binding) ;;
            ret toUpdate
          else
            binding_Event binding EventTypeWarning errorReconciliationRetryTimeoutReason s ;;
            setServiceInstanceCredentialCondition toUpdate ConditionFailed ConditionTrue
              errorReconciliationRetryTimeoutReason s) ;;
        updateServiceInstanceCredentialStatus (clearServiceInstanceCredentialCurrentOperation toUpdate) ;;
        ret tt
      else
        updateServiceInstanceCredentialStatus toUpdate ;;
        fail err
  end.

(** [Unbind] succeeded. *)
Definition finishUnbind (binding toUpdate : ServiceInstanceCredential) : M unit :=
  toUpdate <- (if bind_OrphanMitigationInProgress (bind_Status toUpdate) then
      setServiceInstanceCredentialCondition toUpdate ConditionReady ConditionFalse
        successOrphanMitigationReason (bmsg_mitigated binding)
    else
      toUpdate <- setServiceInstanceCredentialCondition toUpdate ConditionReady ConditionFalse
        successUnboundReason "The binding was deleted successfully" ;;
      ret (bind_with_Finalizers
        (set_Delete FinalizerServiceCatalog (NewString (Finalizers (bind_Meta binding)))) toUpdate)) ;;
  let toUpdate := clearServiceInstanceCredentialCurrentOperation
    (bind_upd (bwith_ExternalProperties None) toUpdate) in
  updateServiceInstanceCredentialStatus toUpdate ;;
  binding_Event binding EventTypeNormal successUnboundReason "This binding was deleted successfully".

(** The soft-delete half of the reconciliation. *)
Definition unbindServiceInstanceCredential (binding : ServiceInstanceCredential)
    (instance : ServiceInstance) (r : Resolved) : M unit :=
  let toUpdate := binding in
  let finalizers := NewString (Finalizers (bind_Meta binding)) in
  if set_Has finalizers FinalizerServiceCatalog || bind_OrphanMitigationInProgress (bind_Status binding) then
    ejected <- try (ejectServiceInstanceCredential binding) ;;
    match ejected with
    | inr err =>
        let s := bmsg_eject err in
        binding_Event binding EventTypeWarning errorEjectingBindReason
          (sprint [errorEjectingBindMessage; " "; s]) ;;
        toUpdate <- setServiceInstanceCredentialCondition toUpdate ConditionReady ConditionUnknown
          errorEjectingBindReason (sprint [errorEjectingBindMessage; s]) ;;
        updateServiceInstanceCredentialStatus toUpdate ;;
        fail err
    | inl _ =>
        originatingIdentity <- bindOriginatingIdentity "unbinding" binding toUpdate ;;
        let unbindRequest := {|
          ur_BindingID := bind_ExternalID (bind_Spec binding);
          ur_InstanceID := ExternalID (si_Spec instance);
          ur_ServiceID := sc_ExternalID (sc_Spec (serviceClass r));
          ur_PlanID := sp_ExternalID (sp_Spec (servicePlan r));
          ur_OriginatingIdentity := originatingIdentity |} in
        toUpdate <- (if decide (bind_CurrentOperation (bind_Status toUpdate) = BOperationNone) then
            recordStartOfServiceInstanceCredentialOperation toUpdate BOperationUnbind
          else if bind_OrphanMitigationInProgress (bind_Status toUpdate) &&
                  bool_decide (bind_OperationStartTime (bind_Status toUpdate) = None) then
            now <- Now ;; ret (bind_upd (bwith_OperationStartTime (Some now)) toUpdate)
          else ret toUpdate) ;;
        response <- try (Unbind (brokerClient r) unbindRequest) ;;
        match response with
        | inr err => handleUnbindError binding toUpdate instance r err
        | inl _ => finishUnbind binding toUpdate
        end
    end
  else ret tt.

(** ** The control loop *)

Definition reconcileServiceInstanceCredential (binding : ServiceInstanceCredential) : M unit :=
  let live := bool_decide (DeletionTimestamp (bind_Meta binding) = None) in
  let mitigating := bind_OrphanMitigationInProgress (bind_Status binding) in
  if isServiceInstanceCredentialFailed binding && live && negb mitigating then ret tt
  else
  if live && (bind_ReconciledGeneration (bind_Status binding) =? Generation (bind_Meta binding)) then ret tt
  else
  ir <- try (instanceLister_Get (Namespace (bind_Meta binding))
               (lref_Name (ServiceInstanceRef (bind_Spec binding)))) ;;
  match ir with
  | inr err =>
      let s := bmsg_no_instance binding in
      bindFailWith binding binding errorNonexistentServiceInstanceReason s
        (sprint ["The binding references an ServiceInstance that does not exist. "; s]) err
  | inl instance =>
  if AsyncOpInProgress (si_Status instance) then
    bindFailWith binding binding errorWithOngoingAsyncOperation (bmsg_async binding)
      errorWithOngoingAsyncOperationMessage (PlainError "Ongoing Asynchronous operation")
  else
  match ServiceClassRef (si_Spec instance), ServicePlanRef (si_Spec instance) with
  | Some _, Some _ =>
      r <- getServiceClassPlanAndClusterServiceBrokerForServiceInstanceCredential instance binding ;;
      if negb (isPlanBindable (serviceClass r) (servicePlan r)) then
        let s := bmsg_nonbindable binding instance in
        bindRefuse binding binding errorNonbindableServiceClassReason s s
      else
      if live && negb mitigating then bindServiceInstanceCredential binding instance r
      else unbindServiceInstanceCredential binding instance r
  | _, _ =>
      fail (PlainError "ServiceClass or ServicePlan references for Instance have not been resolved yet")
  end
  end.

Definition reconcileServiceInstanceCredentialKey (key : string) : M unit :=
  nsn <- lift (SplitMetaNamespaceKey key) ;;
  r <- try (bindingLister_Get (fst nsn) (snd nsn)) ;;
  match r with
  | inr err => if IsNotFound err then ret tt else fail err
  | inl binding => reconcileServiceInstanceCredential binding
  end.
End controller.
