(* ===== verification/BindingSpec.v ===== *)
(** * What the ServiceInstanceCredential control loop promises

    The invariant of a binding, the law of its status updates, and the protocol
    every effect of its reconciliation obeys: writes keep the invariant, the
    finalizer goes only after the broker unbound, Ready is claimed only after
    the broker bound and the secret was stored, secrets of other owners are
    never overwritten, and the secret is deleted before the broker is asked to
    unbind. *)

From S2P Require Import Prelude Types Conditions Environment Sha256 Json ParametersModel Validation ControllerCommon ValidationSpec InstanceController InstanceSpec BindingController.

Record bupdated (obj obj' : ServiceInstanceCredential) : Prop := {
  bupdated_status : bind_Status obj' = bind_Status obj;
  bupdated_generation : Generation (bind_Meta obj') = Generation (bind_Meta obj);
  bupdated_finalizers : Finalizers (bind_Meta obj') = Finalizers (bind_Meta obj) }.

Class BindingLaws (W : Type) {E : Env W} : Prop :=
  law_Bindings_UpdateStatus : forall b w b' w',
    env_Bindings_UpdateStatus b w = (inl b', w') -> bupdated b b'.

(** ** The invariant *)

Definition isBindingReady (b : ServiceInstanceCredential) : bool :=
  first_ready (bind_Conditions (bind_Status b)).

Section invariant.
Context {C : Config}.

Record bstatus_mitigating (s : ServiceInstanceCredentialStatus) : Prop := {
  bmit_flag : bind_OrphanMitigationInProgress s = true;
  bmit_inprogress : binding_properties_ok (bind_InProgressProperties s);
  bmit_external : binding_properties_ok (bind_ExternalProperties s) }.

Definition bstatus_ok (s : ServiceInstanceCredentialStatus) : Prop :=
  bstatus_at_rest s \/ bstatus_in_operation s \/ bstatus_mitigating s.

Record binding_ok (b : ServiceInstanceCredential) : Prop := {
  bok_unique : NoDup (cond_Type <$> bind_Conditions (bind_Status b));
  bok_status : bstatus_ok (bind_Status b);
  bok_unbind : bind_CurrentOperation (bind_Status b) = BOperationUnbind ->
    DeletionTimestamp (bind_Meta b) <> None \/ bind_OrphanMitigationInProgress (bind_Status b) = true }.
End invariant.

(** ** The protocol *)

Section protocol.
Context {C : Config} (b : ServiceInstanceCredential).

Definition bstored (prior : list Effect) (j : ServiceInstanceCredential) : Prop :=
  j = b \/ (exists obj, EBindingUpdateStatus obj (inl j) ∈ prior).

Definition brecorded (prior : list Effect) : Prop :=
  exists j, bstored prior j /\ bind_CurrentOperation (bind_Status j) <> BOperationNone.

Definition bound (prior : list Effect) : Prop := exists c req r, EBind c req (inl r) ∈ prior.
Definition injected (prior : list Effect) : Prop :=
  exists s s', ESecretCreate s (inl s') ∈ prior \/ ESecretUpdate s (inl s') ∈ prior.
Definition unbound (prior : list Effect) : Prop := exists c req, EUnbind c req (inl tt) ∈ prior.
Definition dying : Prop :=
  DeletionTimestamp (bind_Meta b) <> None \/ bind_OrphanMitigationInProgress (bind_Status b) = true.

(** The secret is gone: deleted, or already absent. *)
Definition ejected (prior : list Effect) : Prop :=
  exists res, ESecretDelete (Namespace (bind_Meta b)) (SecretName (bind_Spec b)) res ∈ prior /\
    match res with inl _ => True | inr e => IsNotFound e = true end.

Record bsettled (obj : ServiceInstanceCredential) : Prop := {
  bset_operation : bind_CurrentOperation (bind_Status obj) = BOperationNone;
  bset_orphan : bind_OrphanMitigationInProgress (bind_Status obj) = false;
  bset_generation : bind_ReconciledGeneration (bind_Status obj) = Generation (bind_Meta obj) }.

Record bwrite_ok (prior : list Effect) (obj : ServiceInstanceCredential) : Prop := {
  bwo_unique : NoDup (cond_Type <$> bind_Conditions (bind_Status obj));
  bwo_status : bstatus_ok (bind_Status obj);
  bwo_finalizer : FinalizerServiceCatalog ∈ Finalizers (bind_Meta b) ->
    FinalizerServiceCatalog ∉ Finalizers (bind_Meta obj) ->
    unbound prior /\ ejected prior /\ DeletionTimestamp (bind_Meta b) <> None;
  bwo_ready : isBindingReady obj = true -> isBindingReady b = true \/
    bound prior /\ injected prior /\ bsettled obj;
  bwo_mitigation : bind_OrphanMitigationInProgress (bind_Status obj) = true ->
    bind_OrphanMitigationInProgress (bind_Status b) = true \/
    bind_CurrentOperation (bind_Status obj) <> BOperationNone /\ bind_OperationStartTime (bind_Status obj) = None }.

Record bind_request_ok (prior : list Effect) (req : BindRequest) : Prop := {
  bro_recorded : brecorded prior;
  bro_single : Forall (fun e => broker_call e = false) prior;
  bro_id : br_BindingID req = bind_ExternalID (bind_Spec b);
  bro_live : DeletionTimestamp (bind_Meta b) = None;
  bro_orphan : bind_OrphanMitigationInProgress (bind_Status b) = false;
  bro_failed : isServiceInstanceCredentialFailed b = false;
  bro_generation : bind_ReconciledGeneration (bind_Status b) <> Generation (bind_Meta b) }.

Record unbind_request_ok (prior : list Effect) (req : UnbindRequest) : Prop := {
  uro_recorded : brecorded prior;
  uro_single : Forall (fun e => broker_call e = false) prior;
  uro_id : ur_BindingID req = bind_ExternalID (bind_Spec b);
  uro_dying : dying;
  uro_ejected : ejected prior }.

Definition binding_protocol (prior : list Effect) (e : Effect) : Prop :=
  match e with
  | EBindingUpdateStatus obj _ => bwrite_ok prior obj
  | EBind _ req _ => bind_request_ok prior req
  | EUnbind _ req _ => unbind_request_ok prior req
  | ESecretCreate s _ =>
      bound prior /\ Namespace (secret_Meta s) = Namespace (bind_Meta b) /\
      Name (secret_Meta s) = SecretName (bind_Spec b) /\
      IsControlledBy (secret_Meta s) (bind_Meta b) = true
  | ESecretUpdate s _ => bound prior /\ IsControlledBy (secret_Meta s) (bind_Meta b) = true
  | ESecretDelete ns name _ => dying /\ ns = Namespace (bind_Meta b) /\ name = SecretName (bind_Spec b)
  | ERecord _ => True
  | _ => False
  end.

(** A reconciliation that returns nil found nothing to do or stored a status,
    whose watch event queues the binding again. *)
Definition bkept (t : list Effect) : Prop :=
  t = [] \/ exists obj j, EBindingUpdateStatus obj (inl j) ∈ t.

Definition bfinished (o : outcome unit) (t : list Effect) : Prop :=
  o <> Panic /\ (o = Ok tt -> bkept t).
End protocol.
