(* ===== verification/BindingProofs.v ===== *)
(** * The ServiceInstanceCredential control loop keeps its promises

    The phases of [BindingController] follow [BindingSpec.binding_protocol]. *)

From S2P Require Import Prelude Types Conditions Environment Sha256 Json ParametersModel Validation ControllerCommon ValidationSpec InstanceController InstanceSpec InstanceProofs BindingController BindingSpec.

(** ** Drafts *)

Section drafts.
Context {C : Config} (b : ServiceInstanceCredential).

Record bdraft (t : ServiceInstanceCredential) : Prop := {
  bdr_unique : NoDup (cond_Type <$> bind_Conditions (bind_Status t));
  bdr_status : bstatus_ok (bind_Status t);
  bdr_finalizers : Finalizers (bind_Meta t) = Finalizers (bind_Meta b);
  bdr_orphan : bind_OrphanMitigationInProgress (bind_Status t) = bind_OrphanMitigationInProgress (bind_Status b);
  bdr_ready : isBindingReady t = true -> isBindingReady b = true }.

Lemma bdraft_refl : binding_ok b -> bdraft b.
Proof. by intros []. Qed.

Lemma bdraft_updated t t' : bdraft t -> bupdated t t' -> bdraft t'.
Proof.
  intros [] [Hs Hg Hf]. split; unfold isBindingReady in *; rewrite ?Hs, ?Hg, ?Hf; auto.
Qed.

Lemma bstatus_ok_external s : bstatus_ok s -> binding_properties_ok (bind_ExternalProperties s).
Proof. by intros [[]|[[]|[]]]. Qed.

Lemma bstatus_ok_set s typ st r m now :
  (typ = ConditionReady -> st <> ConditionTrue) ->
  bstatus_ok s -> bstatus_ok (bwith_Conditions (set_condition (bind_Conditions s) typ st r m now) s).
Proof.
  intros Hst [[]|[[]|[]]]; [left|right; left|right; right]; split; cbn; auto using never_ready_set.
Qed.

Lemma bready_set t typ st r m now :
  (typ = ConditionReady \/ typ = ConditionFailed) -> (typ = ConditionReady -> st <> ConditionTrue) ->
  isBindingReady (setServiceInstanceCredentialConditionInternal t typ st r m now) = true ->
  isBindingReady t = true.
Proof.
  unfold isBindingReady. cbn. intros [-> | ->] Hst.
  - rewrite first_ready_set_ready, bool_decide_eq_true. naive_solver.
  - by rewrite first_ready_set_failed.
Qed.

Lemma bdraft_set t typ st r m now :
  (typ = ConditionReady \/ typ = ConditionFailed) -> (typ = ConditionReady -> st <> ConditionTrue) ->
  bdraft t -> bdraft (setServiceInstanceCredentialConditionInternal t typ st r m now).
Proof.
  intros Htyp Hst []. split; cbn; auto using set_condition_NoDup, bstatus_ok_set.
  intros H. apply bdr_ready0. eapply bready_set; [exact Htyp|exact Hst|exact H].
Qed.

Lemma bdraft_set_ready t st r m now :
  st <> ConditionTrue -> bdraft t ->
  bdraft (setServiceInstanceCredentialConditionInternal t ConditionReady st r m now).
Proof. intros. apply bdraft_set; auto. Qed.

Lemma bdraft_set_failed t st r m now :
  bdraft t -> bdraft (setServiceInstanceCredentialConditionInternal t ConditionFailed st r m now).
Proof. intros. apply bdraft_set; [by right|done|done]. Qed.

Lemma bdraft_write prior t : bdraft t -> bwrite_ok b prior t.
Proof.
  intros []. split; auto.
  - intros H1 H2. by rewrite bdr_finalizers0 in H2.
  - rewrite bdr_orphan0. auto.
Qed.

Lemma bcleared_write prior t :
  bdraft t -> bwrite_ok b prior (clearServiceInstanceCredentialCurrentOperation t).
Proof.
  intros []. split; cbn; auto.
  - left. split; cbn; auto using bstatus_ok_external.
  - intros H1 H2. by rewrite bdr_finalizers0 in H2.
Qed.

(** Starting orphan mitigation from a draft with an operation under way. *)
Lemma bmitigation_write prior t r m now :
  bdraft t -> bind_CurrentOperation (bind_Status t) <> BOperationNone ->
  bwrite_ok b prior (setServiceInstanceCredentialConditionInternal (startOrphanMitigation t)
    ConditionReady ConditionFalse r m now).
Proof.
  intros [] Hop. split; cbn; auto using set_condition_NoDup.
  - right; right. split; cbn; auto using bstatus_ok_external.
  - intros H1 H2. by rewrite bdr_finalizers0 in H2.
  - unfold isBindingReady. cbn. by rewrite first_ready_set_ready.
Qed.

Definition bbusy (s : ServiceInstanceCredentialStatus) : Prop :=
  bstatus_in_operation s \/ bstatus_mitigating s.

(** A bound and injected credential. *)
Lemma bound_write prior t r m now :
  bdraft t -> bound prior -> injected prior ->
  bwrite_ok b prior (setServiceInstanceCredentialConditionInternal
    (clearServiceInstanceCredentialCurrentOperation t) ConditionReady ConditionTrue r m now).
Proof.
  intros [] Hb Hinj. split.
  - by apply set_condition_NoDup.
  - left. split; [reflexivity..|exact (bstatus_ok_external _ bdr_status0)].
  - intros H1 H2. destruct H2. cbn. by rewrite bdr_finalizers0.
  - right. by split_and!.
  - done.
Qed.

(** An unbound credential. *)
Lemma unbound_write prior t r m now fs :
  bdraft t ->
  (fs = Finalizers (bind_Meta b) \/
   unbound prior /\ ejected b prior /\ DeletionTimestamp (bind_Meta b) <> None) ->
  bwrite_ok b prior (clearServiceInstanceCredentialCurrentOperation
    (bind_upd (bwith_ExternalProperties None) (bind_with_Finalizers fs
      (setServiceInstanceCredentialConditionInternal t ConditionReady ConditionFalse r m now)))).
Proof.
  intros [] Hfs. split.
  - by apply set_condition_NoDup.
  - left. by split.
  - intros H1 H2. destruct Hfs as [-> | Hfs]; [by destruct H2|done].
  - unfold isBindingReady, setServiceInstanceCredentialConditionInternal. cbn. by rewrite first_ready_set_ready.
  - done.
Qed.
End drafts.

#[export] Hint Resolve bdraft_refl bdraft_updated bdraft_set_ready bdraft_set_failed
  bdraft_write bcleared_write bmitigation_write : binding.

Lemma bind_own_Finalizers t : bind_with_Finalizers (Finalizers (bind_Meta t)) t = t.
Proof. by destruct t as [? [] ? ?]. Qed.

(** ** The phases *)

Section phases.
Context {W : Type} {E : Env W} {C : Config} {L : InstanceLaws W} {LB : BindingLaws W} {Y : YamlLaws}.
Context (b : ServiceInstanceCredential) (Hb : binding_ok b).
Local Notation safely := (wps (W:=W) (binding_protocol b)).
Local Notation quiet_calls t := (Forall (fun e => broker_call e = false) t).
Local Notation done_ := bfinished.

Lemma bsafely_setCondition prior t typ st r m Q :
  (forall now, Q (Ok (setServiceInstanceCredentialConditionInternal t typ st r m now)) prior) ->
  safely prior (setServiceInstanceCredentialCondition t typ st r m) Q.
Proof. intros H. apply wps_bind, wps_Now. intros now. by apply wps_ret. Qed.

Lemma bsafely_updateStatus prior t Q :
  bwrite_ok b prior t ->
  (forall t', bupdated t t' -> Q (Ok t') (prior ++ [EBindingUpdateStatus t (inl t')])) ->
  (forall e, Q (Err e) (prior ++ [EBindingUpdateStatus t (inr e)])) ->
  safely prior (updateServiceInstanceCredentialStatus t) Q.
Proof.
  intros Hw H1 H2. apply wps_api. intros w r w' Hr. split; [exact Hw|].
  destruct r as [t'|e]; [|apply H2]. apply H1. by eapply law_Bindings_UpdateStatus.
Qed.

Lemma bsafely_write {A} prior t (k : M W Effect A) Q :
  bwrite_ok b prior t ->
  (forall t', safely (prior ++ [EBindingUpdateStatus t (inl t')]) k Q) ->
  (forall e, Q (Err e) (prior ++ [EBindingUpdateStatus t (inr e)])) ->
  safely prior (bind (updateServiceInstanceCredentialStatus t) (fun _ => k)) Q.
Proof. intros Hw H1 H2. apply wps_bind, bsafely_updateStatus; eauto. Qed.

Lemma bsafely_event prior t ty r m Q :
  (forall ev, Q (Ok tt) (prior ++ [ERecord ev])) -> safely prior (binding_Event t ty r m) Q.
Proof. intros H. apply wps_emit; [done|apply H]. Qed.

Lemma bfinished_err e t : done_ (Err e) t.
Proof. by split. Qed.

Lemma bfinished_write prior obj j rest :
  done_ (Ok tt) (prior ++ EBindingUpdateStatus obj (inl j) :: rest).
Proof. split; [done|]. intros _. right. exists obj, j. set_solver. Qed.

Lemma bsafely_conclude prior obj :
  bwrite_ok b prior obj ->
  safely prior (bind (updateServiceInstanceCredentialStatus obj) (fun _ => ret tt)) done_.
Proof.
  intros Hw. apply bsafely_write; [done| |intros; apply bfinished_err].
  intros t'. apply wps_ret, bfinished_write.
Qed.

Lemma bsafely_concludeErr {A} prior obj err (Q : outcome A -> list Effect -> Prop) :
  bwrite_ok b prior obj -> (forall e t, Q (Err e) t) ->
  safely prior (bind (updateServiceInstanceCredentialStatus obj) (fun _ => fail err)) Q.
Proof. intros Hw HQ. apply bsafely_write; [done| |auto]. intros t'. by apply wps_fail. Qed.

Lemma bsafely_failWith {A} prior t reason s m err (Q : outcome A -> list Effect -> Prop) :
  bdraft b t -> (forall e t', Q (Err e) t') -> safely prior (bindFailWith b t reason s m err) Q.
Proof.
  intros Hd HE. apply wps_bind, bsafely_event. intros ev. apply wps_bind, bsafely_setCondition.
  intros now. apply bsafely_concludeErr; [by auto with binding|done].
Qed.

Lemma bsafely_refuse prior reason s m : safely prior (bindRefuse b b reason s m) done_.
Proof.
  apply wps_bind, bsafely_event. intros ev. apply wps_bind, bsafely_setCondition.
  intros now. apply bsafely_conclude. by auto with binding.
Qed.

Lemma bsafely_reportAndFail {A} prior reason m (ty : EventType) r' m' err (Q : outcome A -> list Effect -> Prop) :
  (forall e t, Q (Err e) t) ->
  safely prior (bind (ignore (updateServiceInstanceCredentialCondition b ConditionReady ConditionFalse reason m)) (fun _ =>
    bind (binding_Event b ty r' m') (fun _ => fail err))) Q.
Proof.
  intros HQ. apply wps_bind, wps_ignore, wps_bind, bsafely_setCondition. intros now.
  apply (bsafely_write _ _ (ret tt)); [by auto with binding|intros t'; apply wps_ret|intros e];
    apply wps_bind, bsafely_event; intros ev; by apply wps_fail.
Qed.

Lemma bsafely_lookup prior i Q :
  refs_set i -> (forall r, Q (Ok r) prior) -> (forall e t', Q (Err e) t') ->
  safely prior (getServiceClassPlanAndClusterServiceBrokerForServiceInstanceCredential i b) Q.
Proof.
  intros [[cr Hcr] [pr Hpr]] HQ HE.
  unfold getServiceClassPlanAndClusterServiceBrokerForServiceInstanceCredential,
    serviceClassLister_Get, servicePlanLister_Get, brokerLister_Get.
  rewrite Hcr, Hpr. cbv zeta. cbn [deref].
  repeat (wps_step; try (by apply bsafely_reportAndFail)); try done.
  apply wps_quiet, wp_getAuthCredentials; [by eapply law_brokerLister|intros a|intros e];
    (split; [done|]); [repeat wps_step; auto|by apply bsafely_reportAndFail].
Qed.

Lemma bsafely_identity prior verb t Q :
  (forall oi, Q (Ok oi) prior) -> safely prior (bindOriginatingIdentity verb b t) Q.
Proof.
  intros HQ. unfold bindOriginatingIdentity. destruct OriginatingIdentityEnabled; [|by apply wps_ret].
  destruct (buildOriginatingIdentity_ok (bind_UserInfo (bind_Spec b))) as [oi ->]. by apply wps_ret.
Qed.

Lemma bsafely_prepare prior Q :
  (forall params checksum raw, properties_ok raw checksum -> Q (Ok (params, checksum, raw)) prior) ->
  (forall e t', Q (Err e) t') ->
  safely prior (prepareBindParameters b b) Q.
Proof.
  intros HQ HE. unfold prepareBindParameters.
  destruct (bind_Parameters (bind_Spec b)) as [p|], (bind_ParametersFrom (bind_Spec b)) as [f|];
    [| | |by apply wps_ret, HQ].
  all: apply wps_bind, wps_try, wps_quiet, wp_buildParameters;
    [intros [params red]|intros e]; (split; [done|]); [|by apply bsafely_failWith; auto with binding].
  all: destruct (generateChecksumOfParameters params) as [c|] eqn:Hc;
    [|by apply bsafely_failWith; auto with binding].
  all: destruct (MarshalRawParameters red) as [raw|] eqn:Hr; [|by apply bsafely_failWith; auto with binding].
  all: apply wps_ret, HQ; split_and!; [by eapply marshalled_nonempty|by eapply law_yaml|].
  all: by eapply generated_checksum_ok.
Qed.

(** ** Starting an operation *)

Definition with_bproperties (t : ServiceInstanceCredential) ps (t0 : ServiceInstanceCredential) : Prop :=
  bind_Meta t0 = bind_Meta t /\ bind_Status t0 = bwith_InProgressProperties ps (bind_Status t).

Lemma with_bproperties_self t : with_bproperties t (bind_InProgressProperties (bind_Status t)) t.
Proof. split; [done|]. by destruct (bind_Status t). Qed.

Lemma bdraft_start t t0 ps op now r m now' :
  bdraft b t -> with_bproperties t ps t0 ->
  (op = BOperationBind \/ op = BOperationUnbind) -> binding_properties_ok ps ->
  (bstatus_at_rest (bind_Status t) /\ (is_Some ps <-> op = BOperationBind) \/ bstatus_mitigating (bind_Status t)) ->
  let t' := setServiceInstanceCredentialConditionInternal
    (bind_upd (fun s => bwith_OperationStartTime (Some now) (bwith_CurrentOperation op s)) t0)
    ConditionReady ConditionFalse r m now' in
  bdraft b t' /\ bbusy (bind_Status t').
Proof.
  intros [] [Hm Hs] Hop Hpsok Hst t'.
  assert (Hbusy : bbusy (bind_Status t')).
  { subst t'. unfold setServiceInstanceCredentialConditionInternal, bind_upd, bind_with_Status. cbn. rewrite Hs.
    destruct Hst as [[[] Hps]|[]]; [left|right]; split; cbn; auto.
    by apply never_ready_set_ready. }
  split; [|done]. split; [| |cbn; by rewrite ?Hm, ?Hs..|].
  - apply set_condition_NoDup. cbn. by rewrite Hs.
  - right. exact Hbusy.
  - unfold isBindingReady. subst t'. cbn. by rewrite first_ready_set_ready.
Qed.

Lemma bsafely_recordStart prior t t0 ps op Q :
  bdraft b t -> with_bproperties t ps t0 ->
  (op = BOperationBind \/ op = BOperationUnbind) -> binding_properties_ok ps ->
  (bstatus_at_rest (bind_Status t) /\ (is_Some ps <-> op = BOperationBind) \/ bstatus_mitigating (bind_Status t)) ->
  (forall obj t', bdraft b t' -> bbusy (bind_Status t') -> bind_CurrentOperation (bind_Status t') = op ->
     is_Some (bind_OperationStartTime (bind_Status t')) -> bind_InProgressProperties (bind_Status t') = ps ->
     Q (Ok t') (prior ++ [EBindingUpdateStatus obj (inl t')])) ->
  (forall e t', Q (Err e) t') ->
  safely prior (recordStartOfServiceInstanceCredentialOperation t0 op) Q.
Proof.
  intros Hd Hps Hop Hpsok Hst HQ HE. unfold recordStartOfServiceInstanceCredentialOperation.
  apply wps_bind, wps_Now. intros now.
  destruct (match op with BOperationBind => _ | BOperationUnbind => _ | _ => _ end) as [r m].
  apply wps_bind, bsafely_setCondition. intros now'.
  destruct (bdraft_start t t0 ps op now r m now' Hd Hps Hop Hpsok Hst) as [Hd' Hb'].
  apply bsafely_updateStatus; [by apply bdraft_write| |auto].
  intros t' Hu. pose proof (bupdated_status _ _ Hu) as Hs'.
  apply HQ; [by eapply bdraft_updated|rewrite Hs'; exact Hb'|by rewrite Hs'|by rewrite Hs'; eexists|].
  rewrite Hs'. cbn. by rewrite (proj2 Hps).
Qed.

Lemma belapsed_ok prior t Q :
  is_Some (bind_OperationStartTime (bind_Status t)) -> (forall e, Q (Ok e) prior) ->
  safely prior (retryDurationElapsed (bind_OperationStartTime (bind_Status t))) Q.
Proof.
  intros [s Hs] HQ. apply wps_bind, wps_Now. intros now. rewrite Hs. apply wps_bind, wps_ret.
  apply wps_ret, HQ.
Qed.

Lemma bbusy_operation s :
  bbusy s -> bind_OrphanMitigationInProgress s = false -> bind_CurrentOperation s <> BOperationNone.
Proof. intros [[]|[]] Ho; [by destruct bop_valid as [-> | ->]|congruence]. Qed.

(** ** Binding *)

Lemma bsafely_orphan prior t i sc bn es :
  bdraft b t -> bind_CurrentOperation (bind_Status t) <> BOperationNone ->
  safely prior (setAndUpdateOrphanMitigation b t i sc bn es) done_.
Proof.
  intros Hd Hop. unfold setAndUpdateOrphanMitigation. cbv zeta.
  apply wps_bind, bsafely_setCondition. intros now. apply wps_bind, bsafely_event. intros ev.
  apply bsafely_conclude. by apply bmitigation_write.
Qed.

Lemma bsafely_bindError prior t i r err :
  bdraft b t -> bind_CurrentOperation (bind_Status t) <> BOperationNone ->
  is_Some (bind_OperationStartTime (bind_Status t)) ->
  safely prior (handleBindError b t i r err) done_.
Proof.
  intros Hd Hop Hs. unfold handleBindError. destruct (isNetTimeout err).
  { apply wps_bind, bsafely_setCondition. intros now. apply bsafely_orphan; [by auto with binding|done]. }
  destruct (IsHTTPError err) as [h|]; [destruct (bindNeedsOrphanMitigation _)|].
  - apply wps_bind, bsafely_setCondition. intros now. apply bsafely_orphan; [by auto with binding|done].
  - cbv zeta. apply wps_bind, bsafely_event. intros ev. apply wps_bind, bsafely_setCondition. intros now.
    apply wps_bind, bsafely_setCondition. intros now'. apply bsafely_conclude. by auto 6 with binding.
  - cbv zeta. apply wps_bind, bsafely_event. intros ev. apply wps_bind, bsafely_setCondition. intros now.
    apply wps_bind, belapsed_ok; [done|]. intros [|].
    + apply wps_bind, bsafely_event. intros ev'. apply wps_bind, bsafely_setCondition. intros now'.
      apply bsafely_conclude. by auto 6 with binding.
    + apply bsafely_concludeErr; [by auto 6 with binding|apply bfinished_err].
Qed.

Lemma controlled_by_itself data : IsControlledBy (secret_Meta (newSecret b data)) (bind_Meta b) = true.
Proof. unfold IsControlledBy. cbn. by apply bool_decide_eq_true. Qed.

Lemma bsafely_inject prior creds Q :
  bound prior ->
  (forall prior', bound prior' -> injected prior' -> Q (Ok tt) prior') -> (forall e t, Q (Err e) (prior ++ t)) ->
  safely prior (injectServiceInstanceCredential b creds) Q.
Proof.
  intros Hbound HQ HE.
  assert (HE' : forall e, Q (Err e) prior) by (intros e; specialize (HE e []); by rewrite app_nil_r in HE).
  assert (Hgrow : forall e, bound (prior ++ [e])).
  { intros e. destruct Hbound as (c & req & r & Hin). exists c, req, r. apply elem_of_app. by left. }
  unfold injectServiceInstanceCredential, Secrets_Get, Secrets_Update, Secrets_Create.
  apply wps_bind. destruct (serializeCredentials _ _) as [data|e]; [apply wps_ret|by apply wps_fail].
  apply wps_bind, wps_try, wps_read. intros w res w' _. destruct res as [s|e].
  - destruct (IsControlledBy (secret_Meta s) (bind_Meta b)) eqn:Hc; cbn; [|by apply wps_fail].
    apply wps_bind, wps_try, wps_api. intros w1 r1 w1' _. split; [done|].
    destruct r1 as [s'|e]; [apply wps_ret, HQ; [done|]|by destruct (IsConflict e); apply wps_fail].
    eexists _, s'. right. apply elem_of_snoc. by right.
  - destruct (IsNotFound e); cbn; [|by apply wps_fail].
    apply wps_bind, wps_try, wps_api. intros w1 r1 w1' _.
    split; [by split_and!; [| | |apply controlled_by_itself]|].
    destruct r1 as [s'|e']; [apply wps_ret, HQ; [done|]|by destruct (IsAlreadyExists e'); apply wps_fail].
    eexists _, s'. left. apply elem_of_snoc. by right.
Qed.

(** Saving the external properties keeps a draft. *)
Lemma bdraft_external t :
  bdraft b t -> binding_properties_ok (bind_InProgressProperties (bind_Status t)) ->
  bdraft b (bind_upd (fun s => bwith_ExternalProperties (bind_InProgressProperties s) s) t).
Proof.
  intros [] Hps. split; try done.
  destruct bdr_status0 as [[]|[[]|[]]]; [left|right; left|right; right]; by split.
Qed.

Lemma bsafely_bindResponse prior t i r response c req :
  bdraft b t -> bind_CurrentOperation (bind_Status t) <> BOperationNone ->
  binding_properties_ok (bind_InProgressProperties (bind_Status t)) ->
  is_Some (bind_OperationStartTime (bind_Status t)) -> EBind c req (inl response) ∈ prior ->
  safely prior (handleBindResponse b t i r response) done_.
Proof.
  intros Hd0 Hop Hps Hs Hin. unfold handleBindResponse. cbv zeta.
  pose proof (bdraft_external t Hd0 Hps) as Hd. set (t1 := bind_upd _ t) in *.
  assert (Hop1 : bind_CurrentOperation (bind_Status t1) <> BOperationNone) by exact Hop.
  assert (Hs1 : is_Some (bind_OperationStartTime (bind_Status t1))) by exact Hs. clearbody t1.
  apply wps_bind, wps_try, bsafely_inject.
  - by exists c, req, response.
  - intros prior' Hbound Hinj. apply wps_bind, bsafely_setCondition. intros now.
    apply bsafely_write; [by apply bound_write| |intros; apply bfinished_err].
    intros t'. apply bsafely_event. intros ev. rewrite <-app_assoc. apply bfinished_write.
  - intros e tr. apply wps_bind, bsafely_event. intros ev. apply wps_bind, bsafely_setCondition. intros now.
    apply wps_bind, belapsed_ok; [done|]. intros [|].
    + apply wps_bind, bsafely_event. intros ev'. apply wps_bind, bsafely_setCondition. intros now'.
      apply bsafely_orphan; [by auto 6 with binding|done].
    + apply bsafely_concludeErr; [by auto 6 with binding|apply bfinished_err].
Qed.

Lemma bsafely_bindCall prior t i r req :
  bdraft b t -> bind_CurrentOperation (bind_Status t) <> BOperationNone ->
  binding_properties_ok (bind_InProgressProperties (bind_Status t)) ->
  is_Some (bind_OperationStartTime (bind_Status t)) -> bind_request_ok b prior req ->
  safely prior (bind (try (Bind (brokerClient r) req)) (fun response =>
    match response with
    | inr err => handleBindError b t i r err
    | inl response => handleBindResponse b t i r response
    end)) done_.
Proof.
  intros Hd Hop Hps Hs Hreq. apply wps_bind, wps_try, wps_api. intros w res w' _. split; [exact Hreq|].
  destruct res as [response|err].
  - eapply bsafely_bindResponse; eauto. apply elem_of_snoc. by right.
  - by apply bsafely_bindError.
Qed.

Lemma bsafely_bind prior i r :
  quiet_calls prior -> DeletionTimestamp (bind_Meta b) = None ->
  bind_OrphanMitigationInProgress (bind_Status b) = false -> isServiceInstanceCredentialFailed b = false ->
  bind_ReconciledGeneration (bind_Status b) <> Generation (bind_Meta b) ->
  safely prior (bindServiceInstanceCredential b i r) done_.
Proof.
  intros Hq Hdel Ho Hf Hgen. unfold bindServiceInstanceCredential. cbv zeta.
  pose proof (bdraft_refl b Hb) as Hd.
  apply wps_bind, wps_try, wps_read. intros w res w' _.
  destruct res as [ns|e]; [|by apply bsafely_failWith; [|apply bfinished_err]].
  destruct (negb (isServiceInstanceReady i)); [apply bsafely_refuse|].
  apply wps_bind, bsafely_prepare; [|intros; apply bfinished_err].
  intros params checksum raw Hps. apply wps_bind, bsafely_identity. intros oi. apply wps_bind.
  match goal with |- context [bind_upd (bwith_InProgressProperties (Some ?x)) b] => set (ps := x) end.
  assert (Hpsok : binding_properties_ok (Some ps)) by exact Hps.
  assert (Hcases : bstatus_at_rest (bind_Status b) \/ bstatus_in_operation (bind_Status b)).
  { destruct (bok_status _ Hb) as [?|[?|[]]]; [by left|by right|congruence]. }
  destruct (decide (bind_CurrentOperation _ = BOperationNone)) as [Hn|Hn]; cbn in Hn.
  - eapply (bsafely_recordStart _ b); [done|by split|by left|exact Hpsok| |..|intros; apply bfinished_err].
    + left. split; [|by split; [|eexists]]. destruct Hcases as [|[]]; [done|].
      destruct bop_valid; congruence.
    + intros obj t' Hd' Hb' Hop' Hs' Hps'.
      apply bsafely_bindCall; try done; [by rewrite Hop'|by rewrite Hps'|].
      split; auto using quiet_snoc. exists t'. split; [|by rewrite Hop'].
      right. exists obj. apply elem_of_snoc. by right.
  - apply wps_ret. destruct Hcases as [[]|Hop]; [done|].
    assert (Hbind : bind_CurrentOperation (bind_Status b) = BOperationBind).
    { destruct Hop as [[?|Hu] _ _ _ _ _]; [done|]. destruct (bok_unbind _ Hb Hu); congruence. }
    apply bsafely_bindCall; try done; [|by destruct Hop|split; auto; exists b; by split; [left|]].
    destruct Hd, Hop. split; try done. right; left. by split.
Qed.

(** ** Unbinding *)

Lemma bsafely_unbindError prior t i r err :
  bdraft b t -> is_Some (bind_OperationStartTime (bind_Status t)) ->
  safely prior (handleUnbindError b t i r err) done_.
Proof.
  intros Hd Hs. unfold handleUnbindError. destruct (IsHTTPError err) as [h|]; cbv zeta.
  - apply wps_bind, bsafely_event. intros ev. apply wps_bind, bsafely_setCondition. intros now.
    apply wps_bind. destruct (negb _).
    + apply bsafely_setCondition. intros now'. apply bsafely_conclude. by auto 6 with binding.
    + apply wps_ret, bsafely_conclude. by auto 6 with binding.
  - apply wps_bind, bsafely_event. intros ev. apply wps_bind, bsafely_setCondition. intros now.
    apply wps_bind, belapsed_ok; [done|]. intros [|].
    + apply wps_bind, bsafely_event. intros ev'. apply wps_bind, bsafely_setCondition. intros now'.
      apply wps_bind. destruct (bind_OrphanMitigationInProgress _); apply wps_bind, bsafely_event; intros ev''.
      * apply wps_ret, bsafely_conclude. by auto 6 with binding.
      * apply bsafely_setCondition. intros now''. apply bsafely_conclude. by auto 7 with binding.
    + apply bsafely_concludeErr; [by auto 6 with binding|apply bfinished_err].
Qed.

Lemma bsafely_finishUnbind prior t :
  bdraft b t -> unbound prior -> ejected b prior -> dying b -> safely prior (finishUnbind b t) done_.
Proof.
  intros Hd Hu He Hdy. unfold finishUnbind. cbv zeta. apply wps_bind.
  assert (Hend : forall prior' t' , bwrite_ok b prior' (clearServiceInstanceCredentialCurrentOperation
      (bind_upd (bwith_ExternalProperties None) t')) ->
    safely prior' (bind (updateServiceInstanceCredentialStatus (clearServiceInstanceCredentialCurrentOperation
      (bind_upd (bwith_ExternalProperties None) t'))) (fun _ =>
      binding_Event b EventTypeNormal successUnboundReason "This binding was deleted successfully")) done_).
  { intros prior' t' Hw. apply bsafely_write; [done| |intros; apply bfinished_err].
    intros t1. apply bsafely_event. intros ev. rewrite <-app_assoc. apply bfinished_write. }
  destruct (bind_OrphanMitigationInProgress (bind_Status t)) eqn:Ho.
  - apply bsafely_setCondition. intros now. apply Hend. rewrite <-(bind_own_Finalizers
      (setServiceInstanceCredentialConditionInternal _ _ _ _ _ _)).
    apply unbound_write; [done|]. left. apply (bdr_finalizers _ _ Hd).
  - apply wps_bind, bsafely_setCondition. intros now. apply wps_ret, Hend.
    apply unbound_write; [done|]. right. split_and!; [done..|].
    destruct Hdy as [|Ho']; [done|]. rewrite <-(bdr_orphan _ _ Hd) in Ho'. congruence.
Qed.

Lemma bsafely_unbindCall prior t i r req :
  bdraft b t -> is_Some (bind_OperationStartTime (bind_Status t)) ->
  unbind_request_ok b prior req ->
  safely prior (bind (try (Unbind (brokerClient r) req)) (fun response =>
    match response with
    | inr err => handleUnbindError b t i r err
    | inl _ => finishUnbind b t
    end)) done_.
Proof.
  intros Hd Hs Hreq. apply wps_bind, wps_try, wps_api. intros w res w' _. split; [exact Hreq|].
  destruct res as [[]|err]; [|by apply bsafely_unbindError].
  destruct Hreq. apply bsafely_finishUnbind; try done.
  - eexists _, _. apply elem_of_snoc. by right.
  - destruct uro_ejected as (x & Hin & Hx). exists x. split; [|done]. apply elem_of_app. by left.
Qed.

(** The draft an unbind request starts from, recorded and with its clock set. *)
Lemma bsafely_startUnbind prior Q :
  (forall t prior', bdraft b t -> is_Some (bind_OperationStartTime (bind_Status t)) -> brecorded b prior' ->
     (prior' = prior \/ exists obj res, prior' = prior ++ [EBindingUpdateStatus obj res]) -> Q (Ok t) prior') ->
  (forall e t, Q (Err e) t) ->
  safely prior (if decide (bind_CurrentOperation (bind_Status b) = BOperationNone) then
      recordStartOfServiceInstanceCredentialOperation b BOperationUnbind
    else if bind_OrphanMitigationInProgress (bind_Status b) &&
            bool_decide (bind_OperationStartTime (bind_Status b) = None) then
      bind Now (fun now => ret (bind_upd (bwith_OperationStartTime (Some now)) b))
    else ret b) Q.
Proof.
  intros HQ HE. pose proof (bdraft_refl b Hb) as Hd.
  destruct (decide _) as [Hn|Hn].
  - eapply (bsafely_recordStart _ b b); [done|apply with_bproperties_self|by right|..|done].
    + destruct (bok_status _ Hb) as [[]|[[]|[]]]; [by rewrite brest_inprogress|done..].
    + destruct (bok_status _ Hb) as [Hr|[[]|]]; [left; split; [done|]|by destruct bop_valid; congruence|by right].
      destruct Hr. rewrite brest_inprogress. by split; [intros [? ?]|].
    + intros obj t' Hd' Hb' Hop' Hs' _. apply HQ; [done..| |right; by eexists _, _].
      exists t'. split; [|by rewrite Hop']. right. exists obj. apply elem_of_snoc. by right.
  - assert (Hrec : brecorded b prior) by (exists b; by split; [left|]).
    destruct (bind_OrphanMitigationInProgress (bind_Status b)) eqn:Ho; cbn.
    + case_bool_decide as Hs; cbn.
      * apply wps_bind, wps_Now. intros now. apply wps_ret, HQ; [|by eexists|done|by left].
        destruct Hd. split; try done. right; right. split; cbn; [done|..].
        -- destruct bdr_status0 as [[]|[[]|[]]]; cbn; try done.
        -- by apply bstatus_ok_external.
      * apply wps_ret, HQ; [done| |done|by left]. by destruct (bind_OperationStartTime _); [eexists|].
    + apply wps_ret, HQ; [done| |done|by left].
      destruct (bok_status _ Hb) as [[]|[[]|[]]]; [done..|congruence].
Qed.

Lemma quiet_prior prior prior' :
  quiet_calls prior ->
  (prior' = prior \/ exists obj res, prior' = prior ++ [EBindingUpdateStatus obj res]) -> quiet_calls prior'.
Proof. intros Hq [->|(obj & res & ->)]; auto using quiet_snoc. Qed.

Lemma bsafely_unbind i r : dying b -> safely [] (unbindServiceInstanceCredential b i r) done_.
Proof.
  intros Hdy. unfold unbindServiceInstanceCredential. cbv zeta.
  destruct (set_Has _ _ || _); [|apply wps_ret; split; [done|by left]].
  assert (Hrest : forall prior, quiet_calls prior -> ejected b prior ->
    safely prior (bind (bindOriginatingIdentity "unbinding" b b) (fun originatingIdentity =>
      bind (if decide (bind_CurrentOperation (bind_Status b) = BOperationNone) then
          recordStartOfServiceInstanceCredentialOperation b BOperationUnbind
        else if bind_OrphanMitigationInProgress (bind_Status b) &&
                bool_decide (bind_OperationStartTime (bind_Status b) = None) then
          bind Now (fun now => ret (bind_upd (bwith_OperationStartTime (Some now)) b))
        else ret b) (fun toUpdate =>
      bind (try (Unbind (brokerClient r) {|
          ur_BindingID := bind_ExternalID (bind_Spec b);
          ur_InstanceID := ExternalID (si_Spec i);
          ur_ServiceID := sc_ExternalID (sc_Spec (serviceClass r));
          ur_PlanID := sp_ExternalID (sp_Spec (servicePlan r));
          ur_OriginatingIdentity := originatingIdentity |})) (fun response =>
        match response with
        | inr err => handleUnbindError b toUpdate i r err
        | inl _ => finishUnbind b toUpdate
        end)))) done_).
  { intros prior Hq Hej. apply wps_bind, bsafely_identity. intros oi.
    apply wps_bind, bsafely_startUnbind; [|intros; apply bfinished_err].
    intros t prior' Hd Hs Hrec Hp. apply bsafely_unbindCall; [done..|].
    split; [done|by eapply quiet_prior|done|done|].
    destruct Hej as (x & Hin & Hx). exists x. split; [|done].
    destruct Hp as [->|(obj & res & ->)]; [done|]. apply elem_of_app. by left. }
  apply wps_bind, wps_try. unfold ejectServiceInstanceCredential, Secrets_Delete.
  apply wps_bind, wps_try, wps_api. intros w res w' _. split; [done|].
  assert (Hq1 : forall e, broker_call e = false -> quiet_calls ([] ++ [e])).
  { intros e He. by repeat constructor. }
  assert (Hej : match res with inl _ => True | inr e => IsNotFound e = true end ->
    ejected b ([] ++ [ESecretDelete (Namespace (bind_Meta b)) (SecretName (bind_Spec b)) res])).
  { intros Hx. exists res. split; [|done]. apply elem_of_snoc. by right. }
  destruct res as [[]|e]; [apply wps_ret, Hrest; auto|].
  destruct (IsNotFound e) eqn:Hnf; [apply wps_ret, Hrest; auto|]. apply wps_fail.
  apply wps_bind, bsafely_event. intros ev. apply wps_bind, bsafely_setCondition. intros now.
  apply bsafely_concludeErr; [by auto 6 with binding|apply bfinished_err].
Qed.

(** ** The control loop *)

Lemma bsafely_reconcile : safely [] (reconcileServiceInstanceCredential b) done_.
Proof.
  unfold reconcileServiceInstanceCredential, instanceLister_Get. cbv zeta.
  assert (Hnoop : done_ (Ok tt) []) by (split; [done|by left]).
  destruct (isServiceInstanceCredentialFailed b && _ && _) eqn:Hf; [by apply wps_ret|].
  destruct (bool_decide _ && _) eqn:Hg; [by apply wps_ret|].
  apply wps_bind, wps_try, wps_lister_get. intros w o w' _.
  destruct o as [i|]; [|by apply bsafely_failWith; [auto with binding|apply bfinished_err]].
  destruct (AsyncOpInProgress (si_Status i)); [by apply bsafely_failWith; [auto with binding|apply bfinished_err]|].
  destruct (ServiceClassRef (si_Spec i)) eqn:Hc, (ServicePlanRef (si_Spec i)) eqn:Hp;
    try (by apply wps_fail, bfinished_err).
  apply wps_bind, bsafely_lookup; [split; rewrite ?Hc, ?Hp; by eexists| |intros; apply bfinished_err].
  intros r. destruct (negb (isPlanBindable _ _)); [apply bsafely_refuse|].
  destruct (bool_decide (DeletionTimestamp (bind_Meta b) = None)) eqn:Hdel; cbn in *.
  - apply bool_decide_eq_true in Hdel. apply Z.eqb_neq in Hg.
    destruct (bind_OrphanMitigationInProgress (bind_Status b)) eqn:Ho; cbn.
    + apply bsafely_unbind. by right.
    + rewrite !andb_true_r in Hf. by apply bsafely_bind; [apply Forall_nil_2|..].
  - apply bool_decide_eq_false in Hdel. apply bsafely_unbind. by left.
Qed.
End phases.
