(* ===== verification/BindingTheorems.v ===== *)
(** * Properties of the ServiceInstanceCredential control loop *)

From S2P Require Import Prelude Types Conditions Environment Sha256 Json ParametersModel Validation ControllerCommon ValidationSpec InstanceController InstanceSpec Sample InstanceProofs BindingController BindingSpec BindingProofs.

Section runs.
Context {W : Type} {E : Env W} {C : Config} {L : InstanceLaws W} {LB : BindingLaws W} {Y : YamlLaws}
  {MV : MetaValidation}.
Implicit Types (b obj : ServiceInstanceCredential) (w : W).
Local Notation run b w := (trace_of (reconcileServiceInstanceCredential b) w).

Lemma brun_safe b w :
  binding_ok b ->
  safe (binding_protocol b) [] (run b w) /\
  bfinished (outcome_of (reconcileServiceInstanceCredential b) w) (run b w).
Proof. intros Hb. apply wps_run. by apply bsafely_reconcile. Qed.

Lemma brun_protocol b w t1 e t2 : binding_ok b -> run b w = t1 ++ e :: t2 -> binding_protocol b t1 e.
Proof. intros Hb Ht. destruct (brun_safe b w Hb) as [Hs _]. rewrite Ht in Hs. by apply safe_split in Hs. Qed.

Lemma brun_effect b w e : binding_ok b -> e ∈ run b w -> exists t1, binding_protocol b t1 e.
Proof. intros Hb (t1 & t2 & Ht)%list_elem_of_split. eauto using brun_protocol. Qed.

(** C9: the finalizer of a binding is removed only after, in the same run, its
    secret was deleted (or found absent) and the broker confirmed the
    unbinding, and only while the binding is being deleted. *)
Theorem binding_finalizer_removed_after_unbind b w t1 obj res t2 :
  binding_ok b -> run b w = t1 ++ EBindingUpdateStatus obj res :: t2 ->
  FinalizerServiceCatalog ∈ Finalizers (bind_Meta b) ->
  FinalizerServiceCatalog ∉ Finalizers (bind_Meta obj) ->
  unbound t1 /\ ejected b t1 /\ DeletionTimestamp (bind_Meta b) <> None.
Proof. intros Hb Ht. by destruct (brun_protocol b w _ _ _ Hb Ht). Qed.

(** C10: a binding is reported ready only after, in the same run, the broker
    answered the bind request and the credentials were stored in the secret;
    the status that reports it has no operation left and the generation
    reconciled. *)
Theorem binding_ready_after_bind_and_injection b w t1 obj res t2 :
  binding_ok b -> run b w = t1 ++ EBindingUpdateStatus obj res :: t2 ->
  isBindingReady b = false -> isBindingReady obj = true ->
  bound t1 /\ injected t1 /\ bsettled obj.
Proof.
  intros Hb Ht Hr Hr'. destruct (bwo_ready _ _ _ (brun_protocol b w _ _ _ Hb Ht) Hr'); [congruence|done].
Qed.

(** A bind request is write-ahead logged and guarded: a stored version of
    the binding names a current operation, no other broker call was made in
    the run, the request carries the binding's external ID, and the binding is
    live, not failed, not being mitigated, and not yet reconciled. *)
Theorem bind_is_recorded_first b w t1 c req res t2 :
  binding_ok b -> run b w = t1 ++ EBind c req res :: t2 -> bind_request_ok b t1 req.
Proof. intros Hb Ht. exact (brun_protocol b w _ _ _ Hb Ht). Qed.


(** A secret is written only with credentials of a bind request the broker
    answered in the same run, and only when the binding controls it: a secret
    of another owner is never overwritten. *)
Theorem only_owned_secrets_are_written b w t1 e t2 s :
  binding_ok b -> run b w = t1 ++ e :: t2 ->
  (exists res, e = ESecretCreate s res \/ e = ESecretUpdate s res) ->
  bound t1 /\ IsControlledBy (secret_Meta s) (bind_Meta b) = true.
Proof.
  intros Hb Ht (res & He). pose proof (brun_protocol b w _ _ _ Hb Ht) as Hp.
  destruct He as [-> | ->]; cbn in Hp; tauto.
Qed.

(** Ejection does not look at the owner of the secret: a secret that
    injection refuses to touch because another object controls it is deleted,
    whoever owns it, when the binding is deleted. *)
Theorem ejection_ignores_ownership b w creds s w1 :
  env_Secrets_Get (Namespace (bind_Meta b)) (SecretName (bind_Spec b)) w = (inl s, w1) ->
  IsControlledBy (secret_Meta s) (bind_Meta b) = false ->
  (exists e, outcome_of (injectServiceInstanceCredential b creds) w = Err e) /\
  trace_of (injectServiceInstanceCredential b creds) w = [] /\
  trace_of (ejectServiceInstanceCredential b) w =
    [ESecretDelete (Namespace (bind_Meta b)) (SecretName (bind_Spec b))
       (fst (env_Secrets_Delete (Namespace (bind_Meta b)) (SecretName (bind_Spec b)) w))].
Proof.
  intros Hg Hc. unfold injectServiceInstanceCredential, ejectServiceInstanceCredential, Secrets_Get,
    Secrets_Delete, outcome_of, trace_of, read, api, bind, try, call, lift, ret, fail, quiet.
  split_and!.
  - destruct (serializeCredentials _ _); [|by eexists]. rewrite Hg. cbn. rewrite Hc. cbn. eexists. reflexivity.
  - destruct (serializeCredentials _ _); [|done]. rewrite Hg. cbn. by rewrite Hc.
  - destruct (env_Secrets_Delete _ _ w) as [[[]|e] w2]; cbn; [done|]. by destruct (IsNotFound e).
Qed.

(** Serialization of credentials keeps the keys and maps the values. *)
Lemma serializeCredentials_lookup (l : list (string * json)) acc data :
  NoDup l.*1 -> (forall k, k ∈ l.*1 -> acc !! k = None) ->
  serializeCredentials l acc = inl data ->
  forall k d, data !! k = Some d <-> acc !! k = Some d \/ exists v, (k, v) ∈ l /\ serialize v = inl d.
Proof.
  revert acc. induction l as [|[k0 v0] l IH]; cbn; intros acc Hnd Hacc Hs k d.
  - simplify_eq. split; [by left|]. intros [?|(v & Hin & _)]; [done|]. by apply not_elem_of_nil in Hin.
  - apply list.NoDup_cons in Hnd as [Hnin Hnd].
    destruct (serialize v0) as [d0|] eqn:Hs0; [|done].
    rewrite (IH (<[k0 := d0]> acc) Hnd); [| |exact Hs].
    + destruct (decide (k = k0)) as [->|Hne].
      * rewrite lookup_insert_eq, (Hacc k0) by left. split.
        -- intros [?|(v & Hin & _)]; simplify_eq.
           ++ right. exists v0. split; [left|done].
           ++ exfalso. apply Hnin, list_elem_of_fmap. by exists (k0, v).
        -- intros [?|(v & Hin & Hv)]; [done|]. apply elem_of_cons in Hin as [?|Hin]; simplify_eq; [left; congruence|].
           exfalso. apply Hnin, list_elem_of_fmap. by exists (k0, v).
      * rewrite lookup_insert_ne by done. setoid_rewrite elem_of_cons. naive_solver.
    + intros k' Hk'. rewrite lookup_insert_ne; [apply Hacc; by right|]. by intros ->.
Qed.

(** What lands in the secret: whatever injection stores has one entry per
    credential of the broker's answer, strings as they are and other values as
    JSON, and nothing else. *)
Theorem injected_secret_contents b creds w s res :
  (ESecretCreate s res ∈ trace_of (injectServiceInstanceCredential b creds) w \/
   ESecretUpdate s res ∈ trace_of (injectServiceInstanceCredential b creds) w) ->
  forall k d, secret_Data s !! k = Some d <-> exists v, creds !! k = Some v /\ serialize v = inl d.
Proof.
  intros Hin k d.
  assert (Hdata : exists data, serializeCredentials (map_to_list creds) ∅ = inl data /\ secret_Data s = data).
  { unfold injectServiceInstanceCredential, Secrets_Get, Secrets_Update, Secrets_Create, trace_of, read, api,
      bind, try, call, lift, ret, fail, quiet in Hin.
    destruct (serializeCredentials _ _) as [data|]; [exists data; split; [done|]|destruct Hin as [H|H]; by apply not_elem_of_nil in H].
    destruct (env_Secrets_Get _ _ w) as [[s0|e] w1]; cbn in Hin.
    - destruct (IsControlledBy _ _); cbn in Hin; [|destruct Hin as [H|H]; by apply not_elem_of_nil in H].
      destruct (env_Secrets_Update _ w1) as [[s1|e] w2]; cbn in Hin;
        try (destruct (IsConflict e); cbn in Hin); rewrite !list_elem_of_singleton in Hin; by destruct Hin; simplify_eq.
    - destruct (IsNotFound e); cbn in Hin; [|destruct Hin as [H|H]; by apply not_elem_of_nil in H].
      destruct (env_Secrets_Create _ w1) as [[s1|e'] w2]; cbn in Hin;
        try (destruct (IsAlreadyExists e'); cbn in Hin); rewrite !list_elem_of_singleton in Hin; by destruct Hin; simplify_eq. }
  destruct Hdata as (data & Hs & ->).
  rewrite (serializeCredentials_lookup _ _ _ (NoDup_fst_map_to_list creds) (fun k _ => lookup_empty k) Hs).
  rewrite lookup_empty. setoid_rewrite elem_of_map_to_list. naive_solver.
Qed.
End runs.

(** ** Runs on concrete objects *)

#[export] Instance sample_blaws : BindingLaws World.
Proof. intros b w b' w' [= <- _]. done. Qed.

Definition instance_ready : ServiceInstance :=
  si_upd (fun s => with_Conditions
    [{| cond_Type := ConditionReady; cond_Status := ConditionTrue; cond_LastTransitionTime := 3;
        cond_Reason := ""; cond_Message := "" |}] s)
  {| si_TypeMeta := noTypeMeta; si_Meta := meta "ns" "db" "uid-i" 1 None [FinalizerServiceCatalog];
     si_Spec := si_Spec instance_deleting; si_Status := si_Status instance_deleting |}.
Definition binding_deleting : ServiceInstanceCredential :=
  bind_with_Meta (meta "ns" "cred" "uid-k" 2 (Some 7) [FinalizerServiceCatalog])
    (bind_upd (bwith_ReconciledGeneration 1) binding1).
Definition world_ready : World :=
  w_with_instances [instance_ready] (world_with (w_provision world1) (w_deprovision world1) (w_poll world1) [binding1]).
(** A broker that answers 500 to the bind request. *)
Definition world_bind_500 : World :=
  {| w_now := 100; w_instances := [instance_ready]; w_bindings := [binding1]; w_brokers := [broker1];
     w_classes := [class1]; w_plans := [plan1]; w_secrets := []; w_provision := w_provision world1;
     w_deprovision := w_deprovision world1; w_poll := w_poll world1; w_bind := inr (http 500);
     w_unbind := inl tt; w_catalog := w_catalog world1 |}.

Lemma binding1_ok : binding_ok binding1.
Proof. split; [apply NoDup_nil_2|left; by split|done]. Qed.
Lemma binding_deleting_ok : binding_ok binding_deleting.
Proof. split; [apply NoDup_nil_2|left; by split|done]. Qed.

Definition brun1 : list Effect := trace_of (reconcileServiceInstanceCredential binding1) world_ready.
Definition brun_deleting : list Effect := trace_of (reconcileServiceInstanceCredential binding_deleting) world_ready.
Definition brun_500 : list Effect := trace_of (reconcileServiceInstanceCredential binding1) world_bind_500.
Definition bwritten (n : nat) (t : list Effect) : ServiceInstanceCredential :=
  match t !! n with Some (EBindingUpdateStatus o _) => o | _ => binding1 end.
Definition bwritten_res (n : nat) (t : list Effect) : ServiceInstanceCredential + error :=
  match t !! n with Some (EBindingUpdateStatus _ r) => r | _ => inl binding1 end.

Lemma binding_finalizer_removed_after_unbind_witness :
  unbound (take 3 brun_deleting) /\ ejected binding_deleting (take 3 brun_deleting) /\
  DeletionTimestamp (bind_Meta binding_deleting) <> None.
Proof.
  refine (binding_finalizer_removed_after_unbind binding_deleting world_ready (take 3 brun_deleting)
    (bwritten 3 brun_deleting) (bwritten_res 3 brun_deleting) (drop 4 brun_deleting) binding_deleting_ok _ _ _).
  - vm_compute. reflexivity.
  - vm_compute. left.
  - vm_compute. intros H. inversion H.
Defined.

Lemma binding_ready_after_bind_and_injection_witness :
  bound (take 3 brun1) /\ injected (take 3 brun1) /\ bsettled (bwritten 3 brun1).
Proof.
  refine (binding_ready_after_bind_and_injection binding1 world_ready (take 3 brun1) (bwritten 3 brun1)
    (bwritten_res 3 brun1) (drop 4 brun1) binding1_ok _ _ _); vm_compute; reflexivity.
Defined.

Lemma bind_is_recorded_first_witness : exists req, bind_request_ok binding1 (take 1 brun1) req.
Proof.
  eexists. eapply (bind_is_recorded_first binding1 world_ready (take 1 brun1) _ _ _ (drop 2 brun1) binding1_ok).
  vm_compute. reflexivity.
Defined.


Lemma only_owned_secrets_are_written_witness :
  exists s, bound (take 2 brun1) /\ IsControlledBy (secret_Meta s) (bind_Meta binding1) = true.
Proof.
  eexists. eapply (only_owned_secrets_are_written binding1 world_ready (take 2 brun1) _ (drop 3 brun1) _ binding1_ok).
  - vm_compute. reflexivity.
  - eexists. left. reflexivity.
Defined.

(** A secret of the binding's name that nobody in the catalog owns. *)
Definition foreign_secret : Secret :=
  {| secret_Meta := meta "ns" "db-secret" "uid-f" 1 None []; secret_Data := {[ "keep" := "me" ]} |}.

Lemma ejection_ignores_ownership_witness :
  (exists e, outcome_of (injectServiceInstanceCredential binding1 ∅) (w_with_secrets [foreign_secret] world_ready) = Err e) /\
  trace_of (injectServiceInstanceCredential binding1 ∅) (w_with_secrets [foreign_secret] world_ready) = [] /\
  trace_of (ejectServiceInstanceCredential binding1) (w_with_secrets [foreign_secret] world_ready) =
    [ESecretDelete "ns" "db-secret" (inl tt)].
Proof.
  exact (ejection_ignores_ownership binding1 (w_with_secrets [foreign_secret] world_ready) ∅ foreign_secret
    (w_with_secrets [foreign_secret] world_ready) eq_refl eq_refl).
Defined.

Definition creds1 : gmap string json := {[ "password" := JString "hunter2" ]}.

Lemma injected_secret_contents_witness :
  exists s, secret_Data s !! "password" = Some "hunter2" /\
    forall k d, secret_Data s !! k = Some d <-> exists v, creds1 !! k = Some v /\ serialize v = inl d.
Proof.
  eexists. split.
  2: { eapply (injected_secret_contents binding1 creds1 world_ready). left.
       apply (list_elem_of_lookup_2 _ 0). vm_compute. reflexivity. }
  vm_compute. reflexivity.
Defined.
