(* ===== verification/Catalog.v ===== *)
(** * Catalog conversion

    [convertCatalog] and [convertServicePlans] of [pkg/controller/controller.go]:
    a broker's catalog response becomes ServiceClasses and ServicePlans.  The
    theorems relate the result to a specification by service and plan: what is
    converted, in which order, and which catalogs are refused. *)

From S2P Require Import Prelude Types Json.

(** An object the controller builds: only its name is set. *)
Definition newMeta (name : string) : ObjectMeta :=
  {| Name := name; Namespace := ""; UID := ""; ResourceVersion := ""; Generation := 0;
     DeletionTimestamp := None; Finalizers := []; OwnerReferences := [] |}.
Definition newTypeMeta : TypeMeta := {| Kind := ""; APIVersion := "" |}.

(** [v != nil] then [json.Marshal(v)] into a [RawExtension]; [what] introduces
    the error message, [shown] is the [%+v] of the value. *)
Definition marshalExtension (what shown : string) (v : option json) : option RawExtension + error :=
  match v with
  | None => inl None
  | Some v =>
      match json_Marshal v with
      | inl raw => inl (Some {| Raw := raw |})
      | inr err => inr (PlainError (sprint ["Failed to marshal "; what; "
"; shown; "
 "; Error err]))
      end
  end.

(** [schemas.ServiceInstances.Create.Parameters], each step only if the
    pointer before it is not nil; then the update and the binding schema. *)
Definition instanceCreateSchema (p : Plan) : option json :=
  schemas ← plan_AlphaParameterSchemas p; instanceSchemas ← aps_ServiceInstances schemas;
  create ← asi_Create instanceSchemas; aip_Parameters create.
Definition instanceUpdateSchema (p : Plan) : option json :=
  schemas ← plan_AlphaParameterSchemas p; instanceSchemas ← aps_ServiceInstances schemas;
  update ← asi_Update instanceSchemas; aip_Parameters update.
Definition bindingCreateSchema (p : Plan) : option json :=
  schemas ← plan_AlphaParameterSchemas p; bindingSchemas ← aps_ServiceBindings schemas;
  create ← asb_Create bindingSchemas; aip_Parameters create.

Section conversion.
(** What [%+v] prints for a decoded value. *)
Context (fmt_value : json -> string).
Definition shown (v : option json) : string := default "" (fmt_value <$> v).

(** The body of the loop of [convertServicePlans]. *)
Definition convertServicePlan (serviceClassID : string) (plan : Plan) : ServicePlan + error :=
  match marshalExtension "metadata" (shown (plan_Metadata plan)) (plan_Metadata plan) with
  | inr err => inr err
  | inl metadata =>
  match marshalExtension "instance create schema " (shown (instanceCreateSchema plan)) (instanceCreateSchema plan) with
  | inr err => inr err
  | inl instanceCreate =>
  match marshalExtension "instance update schema " (shown (instanceUpdateSchema plan)) (instanceUpdateSchema plan) with
  | inr err => inr err
  | inl instanceUpdate =>
  match marshalExtension "binding create schema " (shown (bindingCreateSchema plan)) (bindingCreateSchema plan) with
  | inr err => inr err
  | inl bindingCreate =>
      inl {| sp_TypeMeta := newTypeMeta;
             sp_Meta := newMeta (plan_ID plan);
             sp_Spec := {|
               sp_ClusterServiceBrokerName := "";
               sp_ExternalName := plan_Name plan;
               sp_ExternalID := plan_ID plan;
               sp_Description := plan_Description plan;
               sp_Bindable := plan_Bindable plan;
               sp_Free := default false (plan_Free plan);
               sp_ExternalMetadata := metadata;
               sp_ServiceInstanceCreateParameterSchema := instanceCreate;
               sp_ServiceInstanceUpdateParameterSchema := instanceUpdate;
               sp_ServiceInstanceCredentialCreateParameterSchema := bindingCreate;
               sp_ServiceClassRef := {| lref_Name := serviceClassID |} |} |}
  end end end end.

Fixpoint convertPlanList (plans : list Plan) (serviceClassID : string) : list ServicePlan + error :=
  match plans with
  | [] => inl []
  | plan :: plans' =>
      match convertServicePlan serviceClassID plan with
      | inr err => inr err
      | inl servicePlan =>
          match convertPlanList plans' serviceClassID with
          | inr err => inr err
          | inl servicePlans => inl (servicePlan :: servicePlans)
          end
      end
  end.

Definition convertServicePlans (plans : list Plan) (serviceClassID : string) : list ServicePlan + error :=
  if Nat.eqb 0 (length plans) then
    inr (PlainError (sprint ["ServiceClass "; quote serviceClassID; " must have at least one plan"]))
  else convertPlanList plans serviceClassID.

(** The ServiceClass of a service, before its plans are looked at. *)
Definition convertServiceClass (svc : Service) : ServiceClass + error :=
  match marshalExtension "metadata" (shown (svc_Metadata svc)) (svc_Metadata svc) with
  | inr err => inr err
  | inl metadata =>
      inl {| sc_TypeMeta := newTypeMeta;
             sc_Meta := newMeta (svc_ID svc);
             sc_Spec := {|
               sc_ClusterServiceBrokerName := "";
               sc_ExternalName := svc_Name svc;
               sc_ExternalID := svc_ID svc;
               sc_Description := svc_Description svc;
               sc_Bindable := svc_Bindable svc;
               sc_PlanUpdatable := default false (svc_PlanUpdatable svc);
               sc_ExternalMetadata := metadata;
               sc_Tags := svc_Tags svc;
               sc_Requires := svc_Requires svc |} |}
  end.

Fixpoint convertServices (services : list Service) : (list ServiceClass * list ServicePlan) + error :=
  match services with
  | [] => inl ([], [])
  | svc :: services' =>
      match convertServiceClass svc with
      | inr err => inr err
      | inl serviceClass =>
          match convertServicePlans (svc_Plans svc) (Name (sc_Meta serviceClass)) with
          | inr err => inr err
          | inl plans =>
              match convertServices services' with
              | inr err => inr err
              | inl (serviceClasses, servicePlans) => inl (serviceClass :: serviceClasses, plans ++ servicePlans)
              end
          end
      end
  end.

Definition convertCatalog (c : CatalogResponse) : (list ServiceClass * list ServicePlan) + error :=
  convertServices (Services c).

(** ** The specification *)

Definition raw_of (v : option json) : option RawExtension := (fun v => {| Raw := Marshal_value v |}) <$> v.

(** What a converted plan and class are. *)
Definition plan_matches (classID : string) (p : Plan) (sp : ServicePlan) : Prop :=
  Name (sp_Meta sp) = plan_ID p /\ sp_ExternalID (sp_Spec sp) = plan_ID p /\
  sp_ExternalName (sp_Spec sp) = plan_Name p /\ lref_Name (sp_ServiceClassRef (sp_Spec sp)) = classID /\
  sp_Description (sp_Spec sp) = plan_Description p /\ sp_Bindable (sp_Spec sp) = plan_Bindable p /\
  sp_Free (sp_Spec sp) = default false (plan_Free p) /\
  sp_ExternalMetadata (sp_Spec sp) = raw_of (plan_Metadata p) /\
  sp_ServiceInstanceCreateParameterSchema (sp_Spec sp) = raw_of (instanceCreateSchema p) /\
  sp_ServiceInstanceUpdateParameterSchema (sp_Spec sp) = raw_of (instanceUpdateSchema p) /\
  sp_ServiceInstanceCredentialCreateParameterSchema (sp_Spec sp) = raw_of (bindingCreateSchema p).

Definition class_matches (svc : Service) (c : ServiceClass) : Prop :=
  Name (sc_Meta c) = svc_ID svc /\ sc_ExternalID (sc_Spec c) = svc_ID svc /\
  sc_ExternalName (sc_Spec c) = svc_Name svc /\ sc_Description (sc_Spec c) = svc_Description svc /\
  sc_Bindable (sc_Spec c) = svc_Bindable svc /\
  sc_PlanUpdatable (sc_Spec c) = default false (svc_PlanUpdatable svc) /\
  sc_Tags (sc_Spec c) = svc_Tags svc /\ sc_Requires (sc_Spec c) = svc_Requires svc /\
  sc_ExternalMetadata (sc_Spec c) = raw_of (svc_Metadata svc).

(** Every plan of the catalog with the ID of its service, in catalog order. *)
Definition catalog_plans (c : CatalogResponse) : list (string * Plan) :=
  flat_map (fun svc => (fun p => (svc_ID svc, p)) <$> svc_Plans svc) (Services c).

Lemma marshalExtension_ok what sh v : marshalExtension what sh v = inl (raw_of v).
Proof. by destruct v. Qed.

Lemma convertServicePlan_ok id p : exists sp, convertServicePlan id p = inl sp /\ plan_matches id p sp.
Proof. unfold convertServicePlan. rewrite !marshalExtension_ok. eexists. by split_and!. Qed.

Lemma convertPlanList_ok plans id :
  exists sps, convertPlanList plans id = inl sps /\ Forall2 (plan_matches id) plans sps.
Proof.
  induction plans as [|p plans (sps & IH & Hm)]; cbn; [by eexists|].
  destruct (convertServicePlan_ok id p) as (sp & -> & Hp). rewrite IH. eauto.
Qed.

Lemma convertServicePlans_ok plans id :
  plans <> [] ->
  exists sps, convertServicePlans plans id = inl sps /\ Forall2 (plan_matches id) plans sps.
Proof. intros Hne. unfold convertServicePlans. destruct plans; [done|apply convertPlanList_ok]. Qed.

Lemma convertServiceClass_ok svc : exists c, convertServiceClass svc = inl c /\ class_matches svc c.
Proof. unfold convertServiceClass. rewrite marshalExtension_ok. eexists. by split_and!. Qed.

Lemma convertServices_ok l :
  Forall (fun svc => svc_Plans svc <> []) l ->
  exists cs ps, convertServices l = inl (cs, ps) /\ Forall2 class_matches l cs /\
    Forall2 (fun ip sp => plan_matches (fst ip) (snd ip) sp)
      (flat_map (fun svc => (fun p => (svc_ID svc, p)) <$> svc_Plans svc) l) ps.
Proof.
  induction 1 as [|svc l Hne _ (cs & ps & IH & Hc & Hp)]; cbn; [by exists [], []|].
  destruct (convertServiceClass_ok svc) as (c & -> & Hm).
  destruct (convertServicePlans_ok (svc_Plans svc) (Name (sc_Meta c)) Hne) as (sps & -> & Hs).
  rewrite IH. eexists _, _. split_and!; [done|by constructor|].
  apply Forall2_app; [|done]. apply Forall2_fmap_l. eapply Forall2_impl; [|exact Hs].
  intros p sp. cbn. destruct Hm as [-> _]. done.
Qed.

Lemma convertServices_fails l :
  ~ Forall (fun svc => svc_Plans svc <> []) l -> exists e, convertServices l = inr e.
Proof.
  induction l as [|svc l IH]; cbn; [by intros []|]. intros Hn.
  destruct (convertServiceClass_ok svc) as (c & -> & _).
  destruct (decide (length (svc_Plans svc) = 0%nat)) as [He|Hne].
  - apply nil_length_inv in He as ->. cbn. by eexists.
  - assert (svc_Plans svc <> []) as Hp by (by destruct (svc_Plans svc)).
    destruct (convertServicePlans_ok (svc_Plans svc) (Name (sc_Meta c)) Hp) as (sps & -> & _).
    destruct IH as [e ->]; [|by eexists]. intros Hf. apply Hn. by constructor.
Qed.
End conversion.
