(* ===== verification/BrokerController.v ===== *)
(** * The ClusterServiceBroker control loop

    [pkg/controller/controller_broker.go]: when a broker is relisted, the
    reconciliation of its catalog into ServicePlans and ServiceClasses, the
    retry window of a failing catalog, and the deletion of everything the broker
    brought; and the handlers of [controller_serviceclass.go] and
    [controller_serviceplan.go].  [api.Scheme.DeepCopy] never fails on these
    types, so its error branches are left out. *)

From S2P Require Import Prelude Types Conditions Environment Json ControllerCommon Catalog.

(** ** When to reconcile *)

(** The loop over the conditions: the first Ready condition decides. *)
Fixpoint relistDue (conditions : list ServiceBrokerCondition) (spec : ClusterServiceBrokerSpec) (now : Z) : bool :=
  match conditions with
  | [] => true
  | condition :: conditions' =>
      if decide (cond_Type condition = ConditionReady) then
        if decide (cond_Status condition = ConditionTrue) then
          if decide (RelistBehavior spec = RelistBehaviorManual) then false
          else
            match RelistDuration spec with
            | None => false
            | Some duration => cond_LastTransitionTime condition + duration <? now
            end
        else true
      else relistDue conditions' spec now
  end.

Definition shouldReconcileClusterServiceBroker (broker : ClusterServiceBroker) (now : Z) : bool :=
  if negb (bs_ReconciledGeneration (b_Status broker) =? Generation (b_Meta broker)) then true
  else
  if negb (bool_decide (DeletionTimestamp (b_Meta broker) = None)) ||
     Nat.eqb (length (bs_Conditions (b_Status broker))) 0 then true
  else relistDue (bs_Conditions (b_Status broker)) (b_Spec broker) now.

(** ** Conditions *)

(** The loop of [updateClusterServiceBrokerCondition]: the first condition of
    the type is replaced; a missing type is not added. *)
Fixpoint replace_broker_condition (conds : list ServiceBrokerCondition) (typ : ConditionType)
    (status : ConditionStatus) (reason message : string) (t : Z) : list ServiceBrokerCondition :=
  match conds with
  | [] => []
  | cond :: conds' =>
      if decide (cond_Type cond = typ) then
        {| cond_Type := typ; cond_Status := status;
           cond_LastTransitionTime :=
             if decide (cond_Status cond <> status) then t else cond_LastTransitionTime cond;
           cond_Reason := reason; cond_Message := message |} :: conds'
      else cond :: replace_broker_condition conds' typ status reason message t
  end.

Definition broker_set_condition (conds : list ServiceBrokerCondition) (typ : ConditionType)
    (status : ConditionStatus) (reason message : string) (t : Z) : list ServiceBrokerCondition :=
  if Nat.eqb (length conds) 0 then
    [{| cond_Type := typ; cond_Status := status; cond_LastTransitionTime := t;
        cond_Reason := reason; cond_Message := message |}]
  else replace_broker_condition conds typ status reason message t.

(** The object [updateClusterServiceBrokerCondition] sends. *)
Definition brokerWithCondition (broker : ClusterServiceBroker) (typ : ConditionType)
    (status : ConditionStatus) (reason message : string) (t : Z) : ClusterServiceBroker :=
  let toUpdate := b_upd (fun s =>
    bs_with_Conditions (broker_set_condition (bs_Conditions s) typ status reason message t) s) broker in
  if bool_decide (typ = ConditionReady) && bool_decide (status = ConditionTrue) then
    b_upd (bs_with_ReconciledGeneration (Generation (b_Meta toUpdate))) toUpdate
  else toUpdate.

(** ** Messages *)

Definition brmsg_auth (b : ClusterServiceBroker) err := sprint
  ["Error getting broker auth credentials for broker "; quote (Name (b_Meta b)); ": "; Error err].
Definition brmsg_client (b : ClusterServiceBroker) err := sprint
  ["Error creating client for broker "; quote (Name (b_Meta b)); ": "; Error err].
Definition brmsg_catalog (b : ClusterServiceBroker) err := sprint
  ["Error getting broker catalog for broker "; quote (Name (b_Meta b)); ": "; Error err].
Definition brmsg_timeout (b : ClusterServiceBroker) := sprint
  ["Stopping reconciliation retries on ClusterServiceBroker "; quote (Name (b_Meta b));
   " because too much time has elapsed"].
Definition brmsg_convert (b : ClusterServiceBroker) err := sprint
  ["Error converting catalog payload for broker "; quote (Name (b_Meta b)); " to service-catalog API: "; Error err].
Definition brmsg_empty (b : ClusterServiceBroker) := sprint
  ["Error getting catalog payload for broker "; quote (Name (b_Meta b));
   "; received zero services; at least one service is required"].
Definition brmsg_plan (b : ClusterServiceBroker) (p : ServicePlan) err := sprint
  ["Error reconciling servicePlan "; quote (sp_ExternalName (sp_Spec p)); " (broker "; quote (Name (b_Meta b)); "): "; Error err].
Definition brmsg_class (b : ClusterServiceBroker) (c : ServiceClass) err := sprint
  ["Error reconciling serviceClass "; quote (sc_ExternalName (sc_Spec c)); " (broker "; quote (Name (b_Meta b)); "): "; Error err].
Definition brmsg_delete_plan (p : ServicePlan) (c : ServiceClass) err := sprint
  ["Error deleting ServicePlan "; quote (Name (sp_Meta p)); " (ServiceClass "; quote (sc_ExternalName (sc_Spec c)); "): "; Error err].
Definition brmsg_delete_class (b : ClusterServiceBroker) (c : ServiceClass) err := sprint
  ["Error deleting ServiceClass "; quote (sc_ExternalName (sc_Spec c)); " (ClusterServiceBroker "; quote (Name (b_Meta b)); "): "; Error err].

(** The zero value the client returns along with an error of [Get]. *)
Definition zeroBroker : ClusterServiceBroker :=
  {| b_TypeMeta := newTypeMeta; b_Meta := newMeta "";
     b_Spec := {| URL := ""; AuthInfo := None; InsecureSkipTLSVerify := false; CABundle := "";
       RelistBehavior := RelistBehaviorOther ""; RelistDuration := None; RelistRequests := 0 |};
     b_Status := {| bs_Conditions := []; bs_ReconciledGeneration := 0; bs_OperationStartTime := None |} |}.

(** ** Objects of the catalog *)

Definition sc_with_broker (name : string) (c : ServiceClass) : ServiceClass :=
  {| sc_TypeMeta := sc_TypeMeta c; sc_Meta := sc_Meta c;
     sc_Spec := {| sc_ClusterServiceBrokerName := name; sc_ExternalName := sc_ExternalName (sc_Spec c);
       sc_ExternalID := sc_ExternalID (sc_Spec c); sc_Description := sc_Description (sc_Spec c);
       sc_Bindable := sc_Bindable (sc_Spec c); sc_PlanUpdatable := sc_PlanUpdatable (sc_Spec c);
       sc_ExternalMetadata := sc_ExternalMetadata (sc_Spec c); sc_Tags := sc_Tags (sc_Spec c);
       sc_Requires := sc_Requires (sc_Spec c) |} |}.

(** The projection of a relisted class onto the stored one. *)
Definition project_class (existing relisted : ServiceClass) : ServiceClass :=
  {| sc_TypeMeta := sc_TypeMeta existing; sc_Meta := sc_Meta existing;
     sc_Spec := {| sc_ClusterServiceBrokerName := sc_ClusterServiceBrokerName (sc_Spec existing);
       sc_ExternalName := sc_ExternalName (sc_Spec existing);
       sc_ExternalID := sc_ExternalID (sc_Spec existing);
       sc_Description := sc_Description (sc_Spec relisted);
       sc_Bindable := sc_Bindable (sc_Spec relisted);
       sc_PlanUpdatable := sc_PlanUpdatable (sc_Spec relisted);
       sc_ExternalMetadata := sc_ExternalMetadata (sc_Spec existing);
       sc_Tags := sc_Tags (sc_Spec relisted);
       sc_Requires := sc_Requires (sc_Spec relisted) |} |}.

Definition sp_with_broker (name : string) (p : ServicePlan) : ServicePlan :=
  {| sp_TypeMeta := sp_TypeMeta p; sp_Meta := sp_Meta p;
     sp_Spec := {| sp_ClusterServiceBrokerName := name; sp_ExternalName := sp_ExternalName (sp_Spec p);
       sp_ExternalID := sp_ExternalID (sp_Spec p); sp_Description := sp_Description (sp_Spec p);
       sp_Bindable := sp_Bindable (sp_Spec p); sp_Free := sp_Free (sp_Spec p);
       sp_ExternalMetadata := sp_ExternalMetadata (sp_Spec p);
       sp_ServiceInstanceCreateParameterSchema := sp_ServiceInstanceCreateParameterSchema (sp_Spec p);
       sp_ServiceInstanceUpdateParameterSchema := sp_ServiceInstanceUpdateParameterSchema (sp_Spec p);
       sp_ServiceInstanceCredentialCreateParameterSchema := sp_ServiceInstanceCredentialCreateParameterSchema (sp_Spec p);
       sp_ServiceClassRef := sp_ServiceClassRef (sp_Spec p) |} |}.

Definition project_plan (existing relisted : ServicePlan) : ServicePlan :=
  {| sp_TypeMeta := sp_TypeMeta existing; sp_Meta := sp_Meta existing;
     sp_Spec := {| sp_ClusterServiceBrokerName := sp_ClusterServiceBrokerName (sp_Spec existing);
       sp_ExternalName := sp_ExternalName (sp_Spec existing);
       sp_ExternalID := sp_ExternalID (sp_Spec existing);
       sp_Description := sp_Description (sp_Spec relisted);
       sp_Bindable := sp_Bindable (sp_Spec relisted);
       sp_Free := sp_Free (sp_Spec relisted);
       sp_ExternalMetadata := sp_ExternalMetadata (sp_Spec existing);
       sp_ServiceInstanceCreateParameterSchema := sp_ServiceInstanceCreateParameterSchema (sp_Spec relisted);
       sp_ServiceInstanceUpdateParameterSchema := sp_ServiceInstanceUpdateParameterSchema (sp_Spec relisted);
       sp_ServiceInstanceCredentialCreateParameterSchema := sp_ServiceInstanceCredentialCreateParameterSchema (sp_Spec relisted);
       sp_ServiceClassRef := sp_ServiceClassRef (sp_Spec existing) |} |}.

Section controller.
Context {W : Type} {E : Env W} {C : Config}.
Local Notation M := (M W Effect).
Local Open Scope go_scope.

(** ** Queues *)

Definition brokerAdd (broker : ClusterServiceBroker) : M unit :=
  emit (EBrokerQueueAdd (MetaNamespaceKey (b_Meta broker))).
Definition brokerUpdate (oldObj newObj : ClusterServiceBroker) : M unit := brokerAdd newObj.
Definition brokerDelete (obj : ClusterServiceBroker) : M unit := ret tt.

Definition serviceClassAdd (c : ServiceClass) : M unit :=
  emit (EServiceClassQueueAdd (MetaNamespaceKey (sc_Meta c))).
Definition serviceClassUpdate (oldObj newObj : ServiceClass) : M unit := serviceClassAdd newObj.
Definition serviceClassDelete (obj : ServiceClass) : M unit := ret tt.
Definition reconcileServiceClassKey (key : string) : M unit := ret tt.
Definition reconcileServiceClass (c : ServiceClass) : M unit := ret tt.

Definition servicePlanAdd (p : ServicePlan) : M unit :=
  emit (EServicePlanQueueAdd (MetaNamespaceKey (sp_Meta p))).
Definition servicePlanUpdate (oldObj newObj : ServicePlan) : M unit := servicePlanAdd newObj.
Definition servicePlanDelete (obj : ServicePlan) : M unit := ret tt.
Definition reconcileServicePlanKey (key : string) : M unit := ret tt.

(** ** Status updates *)

Definition updateClusterServiceBrokerCondition (broker : ClusterServiceBroker) (typ : ConditionType)
    (status : ConditionStatus) (reason message : string) : M unit :=
  t <- Now ;;
  Brokers_UpdateStatus (brokerWithCondition broker typ status reason message t) ;;
  ret tt.

(** The error of [Get] is logged and then overwritten: the update goes on with
    the zero value the client returned. *)
Definition updateClusterServiceBrokerFinalizers (broker : ClusterServiceBroker) (finalizers : list string) : M unit :=
  r <- try (Brokers_Get (Name (b_Meta broker))) ;;
  let broker := match r with inl b => b | inr _ => zeroBroker end in
  Brokers_UpdateStatus (b_with_Finalizers finalizers broker) ;;
  ret tt.

(** ** Reconciling one class, one plan *)

Definition reconcileServiceClassFromClusterServiceBrokerCatalog (broker : ClusterServiceBroker)
    (serviceClass : ServiceClass) : M unit :=
  let serviceClass := sc_with_broker (Name (b_Meta broker)) serviceClass in
  r <- try (serviceClassLister_Get (Name (sc_Meta serviceClass))) ;;
  match r with
  | inr err =>
      if IsNotFound err then ServiceClasses_Create serviceClass ;; ret tt else fail err
  | inl existingServiceClass =>
      if negb (bool_decide (sc_ClusterServiceBrokerName (sc_Spec existingServiceClass) = Name (b_Meta broker))) then
        fail (PlainError (Sprintf0 (sprint ["ServiceClass "; quote (sc_ExternalName (sc_Spec serviceClass));
          " for ClusterServiceBroker "; quote (Name (b_Meta broker)); " already exists for Broker ";
          quote (sc_ClusterServiceBrokerName (sc_Spec existingServiceClass))])))
      else
      if negb (bool_decide (sc_ExternalID (sc_Spec existingServiceClass) = sc_ExternalID (sc_Spec serviceClass))) then
        fail (PlainError (Sprintf0 (sprint ["ServiceClass "; quote (sc_ExternalName (sc_Spec serviceClass));
          " already exists with OSB guid "; quote (Name (sc_Meta existingServiceClass));
          ", received different guid "; quote (Name (sc_Meta serviceClass))])))
      else
        ServiceClasses_Update (project_class existingServiceClass serviceClass) ;; ret tt
  end.

Definition reconcileServicePlan (broker : ClusterServiceBroker) (servicePlan : ServicePlan) : M unit :=
  let servicePlan := sp_with_broker (Name (b_Meta broker)) servicePlan in
  r <- try (servicePlanLister_Get (Name (sp_Meta servicePlan))) ;;
  match r with
  | inr err =>
      if IsNotFound err then ServicePlans_Create servicePlan ;; ret tt else fail err
  | inl existingServicePlan =>
      if negb (bool_decide (sp_ExternalID (sp_Spec existingServicePlan) = sp_ExternalID (sp_Spec servicePlan))) then
        fail (PlainError (Sprintf0 (sprint ["ServicePlan "; quote (Name (sp_Meta servicePlan));
          " already exists with OSB guid "; quote (sp_ExternalID (sp_Spec existingServicePlan));
          ", received different guid "; quote (sp_ExternalID (sp_Spec servicePlan))])))
      else
        ServicePlans_Update (project_plan existingServicePlan servicePlan) ;; ret tt
  end.

(** ** Adding or updating a broker *)

(** An event, a Ready=False condition, and the error. *)
Definition brokerFail (broker : ClusterServiceBroker) (eventReason event reason message : string)
    (err : error) {A} : M A :=
  broker_Event broker EventTypeWarning eventReason event ;;
  updateClusterServiceBrokerCondition broker ConditionReady ConditionFalse reason message ;;
  fail err.

(** [GetCatalog] returned an error; [now] was taken before the call. *)
Definition handleCatalogError (broker : ClusterServiceBroker) (now : Z) (err : error) : M unit :=
  let s := brmsg_catalog broker err in
  broker_Event broker EventTypeWarning errorFetchingCatalogReason (Sprintf0 s) ;;
  updateClusterServiceBrokerCondition broker ConditionReady ConditionFalse
    errorFetchingCatalogReason (sprint [errorFetchingCatalogMessage; s]) ;;
  match bs_OperationStartTime (b_Status broker) with
  | None =>
      Brokers_UpdateStatus (b_upd (bs_with_OperationStartTime (Some now)) broker) ;;
      fail err
  | Some start =>
      t <- Now ;;
      if negb (t <? start + reconciliationRetryDuration) then
        let s := brmsg_timeout broker in
        broker_Event broker EventTypeWarning errorReconciliationRetryTimeoutReason s ;;
        let toUpdate := b_upd (fun st =>
          bs_with_ReconciledGeneration (Generation (b_Meta broker)) (bs_with_OperationStartTime None st)) broker in
        updateClusterServiceBrokerCondition toUpdate ConditionFailed ConditionTrue
          errorReconciliationRetryTimeoutReason s
      else fail err
  end.

Definition syncServicePlan (broker : ClusterServiceBroker) (servicePlan : ServicePlan) : M unit :=
  r <- try (reconcileServicePlan broker servicePlan) ;;
  match r with
  | inl _ => ret tt
  | inr err =>
      let s := brmsg_plan broker servicePlan err in
      broker_Event broker EventTypeWarning errorSyncingCatalogReason (Sprintf0 s) ;;
      ignore (updateClusterServiceBrokerCondition broker ConditionReady ConditionFalse
        errorSyncingCatalogReason (sprint [errorSyncingCatalogMessage; s])) ;;
      fail err
  end.

Definition syncServiceClass (broker : ClusterServiceBroker) (serviceClass : ServiceClass) : M unit :=
  r <- try (reconcileServiceClassFromClusterServiceBrokerCatalog broker serviceClass) ;;
  match r with
  | inl _ => ret tt
  | inr err =>
      let s := brmsg_class broker serviceClass err in
      brokerFail broker errorSyncingCatalogReason (Sprintf0 s) errorSyncingCatalogReason
        (sprint [errorSyncingCatalogMessage; s]) err
  end.

(** The catalog was fetched. *)
Definition syncCatalog (broker : ClusterServiceBroker) (brokerCatalog : CatalogResponse) : M unit :=
  match bs_OperationStartTime (b_Status broker) with
  | Some _ => Brokers_UpdateStatus (b_upd (bs_with_OperationStartTime None) broker) ;; ret tt
  | None => ret tt
  end ;;
  match convertCatalog fmt_value brokerCatalog with
  | inr err =>
      let s := brmsg_convert broker err in
      brokerFail broker errorSyncingCatalogReason (Sprintf0 s) errorSyncingCatalogReason
        (sprint [errorSyncingCatalogMessage; s]) err
  | inl (serviceClasses, servicePlans) =>
      if Nat.eqb (length serviceClasses) 0 then
        let s := brmsg_empty broker in
        brokerFail broker errorSyncingCatalogReason (Sprintf0 s) errorSyncingCatalogReason
          (sprint [errorSyncingCatalogMessage; s]) (PlainError s)
      else
        range servicePlans (syncServicePlan broker) ;;
        range serviceClasses (syncServiceClass broker) ;;
        updateClusterServiceBrokerCondition broker ConditionReady ConditionTrue
          successFetchedCatalogReason successFetchedCatalogMessage ;;
        broker_Event broker EventTypeNormal successFetchedCatalogReason successFetchedCatalogMessage
  end.

Definition addOrUpdateClusterServiceBroker (broker : ClusterServiceBroker) : M unit :=
  auth <- try (getAuthCredentialsFromClusterServiceBroker broker) ;;
  match auth with
  | inr err =>
      let s := brmsg_auth broker err in
      brokerFail broker errorAuthCredentialsReason s errorFetchingCatalogReason
        (sprint [errorFetchingCatalogMessage; s]) err
  | inl authConfig =>
  client <- try (brokerClientCreateFunc (NewClientConfigurationForBroker broker authConfig)) ;;
  match client with
  | inr err =>
      let s := brmsg_client broker err in
      brokerFail broker errorAuthCredentialsReason s errorFetchingCatalogReason
        (sprint [errorFetchingCatalogMessage; s]) err
  | inl brokerClient =>
  now <- Now ;;
  catalog <- try (GetCatalog brokerClient) ;;
  match catalog with
  | inr err => handleCatalogError broker now err
  | inl brokerCatalog => syncCatalog broker brokerCatalog
  end end end.

(** ** Deleting a broker *)

(** A failure of the deletion, recorded as Ready=Unknown; the code passes the
    message where the reason goes. *)
Definition deletePlan (broker : ClusterServiceBroker) (svcClass : ServiceClass) (plan : ServicePlan) : M unit :=
  if bool_decide (Name (sc_Meta svcClass) = lref_Name (sp_ServiceClassRef (sp_Spec plan))) then
    r <- try (ServicePlans_Delete (Name (sp_Meta plan))) ;;
    match r with
    | inl _ => ret tt
    | inr err =>
        if IsNotFound err then ret tt
        else
          let s := brmsg_delete_plan plan svcClass err in
          ignore (updateClusterServiceBrokerCondition broker ConditionReady ConditionUnknown
            errorDeletingServicePlanMessage (sprint [errorDeletingServicePlanReason; s])) ;;
          broker_Event broker EventTypeWarning errorDeletingServicePlanReason
            (sprint [errorDeletingServicePlanMessage; " "; s]) ;;
          fail err
    end
  else ret tt.

Definition deleteClass (broker : ClusterServiceBroker) (svcClass : ServiceClass) : M unit :=
  if bool_decide (sc_ClusterServiceBrokerName (sc_Spec svcClass) = Name (b_Meta broker)) then
    listed <- try servicePlanLister_List ;;
    match listed with
    | inr err =>
        ignore (updateClusterServiceBrokerCondition broker ConditionReady ConditionUnknown
          errorListingServicePlansReason errorListingServicePlansMessage) ;;
        broker_Event broker EventTypeWarning errorListingServicePlansReason
          (sprint [errorListingServicePlansMessage; " "; Error err]) ;;
        fail err
    | inl plans =>
    range plans (deletePlan broker svcClass) ;;
    r <- try (ServiceClasses_Delete (Name (sc_Meta svcClass))) ;;
    match r with
    | inl _ => ret tt
    | inr err =>
        if IsNotFound err then ret tt
        else
          let s := brmsg_delete_class broker svcClass err in
          broker_Event broker EventTypeWarning errorDeletingServiceClassReason
            (sprint [errorDeletingServiceClassMessage; " "; s]) ;;
          updateClusterServiceBrokerCondition broker ConditionReady ConditionUnknown
            errorDeletingServiceClassMessage (sprint [errorDeletingServiceClassReason; s]) ;;
          fail err
    end
    end
  else ret tt.

Definition finalizeClusterServiceBroker (broker : ClusterServiceBroker) : M unit :=
  let finalizers := NewString (Finalizers (b_Meta broker)) in
  if set_Has finalizers FinalizerServiceCatalog then
    listed <- try serviceClassLister_List ;;
    match listed with
    | inr err =>
        broker_Event broker EventTypeWarning errorListingServiceClassesReason
          (sprint [errorListingServiceClassesMessage; " "; Error err]) ;;
        updateClusterServiceBrokerCondition broker ConditionReady ConditionUnknown
          errorListingServiceClassesReason errorListingServiceClassesMessage ;;
        fail err
    | inl svcClasses =>
    range svcClasses (deleteClass broker) ;;
    updateClusterServiceBrokerCondition broker ConditionReady ConditionFalse
      successClusterServiceBrokerDeletedReason "The broker was deleted successfully" ;;
    ignore (updateClusterServiceBrokerFinalizers broker (set_Delete FinalizerServiceCatalog finalizers)) ;;
    broker_Event broker EventTypeNormal successClusterServiceBrokerDeletedReason
      (sprint ["The broker "; Name (b_Meta broker); " was deleted successfully."])
    end
  else ret tt.

(** ** The control loop *)

Definition reconcileClusterServiceBroker (broker : ClusterServiceBroker) : M unit :=
  now <- Now ;;
  if negb (shouldReconcileClusterServiceBroker broker now) then ret tt
  else
  if bool_decide (DeletionTimestamp (b_Meta broker) = None) then addOrUpdateClusterServiceBroker broker
  else finalizeClusterServiceBroker broker.

Definition reconcileClusterServiceBrokerKey (key : string) : M unit :=
  r <- try (brokerLister_Get key) ;;
  match r with
  | inr err => if IsNotFound err then ret tt else fail err
  | inl broker => reconcileClusterServiceBroker broker
  end.
End controller.
