(* ===== verification/BrokerSpec.v ===== *)
(** * What the ClusterServiceBroker control loop promises

    The reading of [shouldReconcileClusterServiceBroker], the laws of the
    catalog caches, and the protocol every effect of a broker's reconciliation
    obeys: classes are written after all plans of the same catalog, Ready is
    claimed only after the whole catalog was written, classes are deleted after
    their plans, and the finalizer goes only after every class of the broker. *)

From S2P Require Import Prelude Types Conditions Environment Json ControllerCommon Catalog BrokerController.

(** A cache answers a lookup with the object of that name. *)
Class CatalogLaws (W : Type) {E : Env W} : Prop := {
  law_serviceClassLister : forall name w c w',
    env_serviceClassLister_Get name w = (Some c, w') -> Name (sc_Meta c) = name;
  law_servicePlanLister : forall name w p w',
    env_servicePlanLister_Get name w = (Some p, w') -> Name (sp_Meta p) = name }.

Definition isBrokerReady (b : ClusterServiceBroker) : bool := first_ready (bs_Conditions (b_Status b)).

(** The cases in which a broker's catalog must be listed again. *)
Definition relist_needed (b : ClusterServiceBroker) (now : Z) : Prop :=
  bs_ReconciledGeneration (b_Status b) <> Generation (b_Meta b) \/
  DeletionTimestamp (b_Meta b) <> None \/
  isBrokerReady b = false \/
  exists c d, find_condition (bs_Conditions (b_Status b)) ConditionReady = Some c /\
    RelistBehavior (b_Spec b) <> RelistBehaviorManual /\ RelistDuration (b_Spec b) = Some d /\
    cond_LastTransitionTime c + d < now.

Section protocol.
Context {W : Type} {E : Env W} {C : Config} (b : ClusterServiceBroker).
Implicit Types prior t : list Effect.
Local Notation bname := (Name (b_Meta b)).

(** ** Writing the catalog *)

Definition fetched prior (cs : list ServiceClass) (ps : list ServicePlan) : Prop :=
  exists client cat, EGetCatalog client (inl cat) ∈ prior /\ convertCatalog fmt_value cat = inl (cs, ps).

Definition plan_stored prior (p : ServicePlan) : Prop :=
  exists obj res, Name (sp_Meta obj) = Name (sp_Meta p) /\
    (EPlanCreate obj (inl res) ∈ prior \/ EPlanUpdate obj (inl res) ∈ prior).
Definition class_stored prior (c : ServiceClass) : Prop :=
  exists obj res, Name (sc_Meta obj) = Name (sc_Meta c) /\
    (EClassCreate obj (inl res) ∈ prior \/ EClassUpdate obj (inl res) ∈ prior).

(** The whole catalog the broker returned is in the API server. *)
Definition catalog_stored prior : Prop :=
  exists cs ps, fetched prior cs ps /\ cs <> [] /\
    (forall p, p ∈ ps -> plan_stored prior p) /\ (forall c, c ∈ cs -> class_stored prior c).

Definition plan_write prior (obj : ServicePlan) : Prop :=
  exists cs ps p, fetched prior cs ps /\ p ∈ ps /\
    (obj = sp_with_broker bname p \/
     exists existing, obj = project_plan existing p /\ Name (sp_Meta existing) = Name (sp_Meta p) /\
       sp_ExternalID (sp_Spec existing) = sp_ExternalID (sp_Spec p)).

Definition class_write prior (obj : ServiceClass) : Prop :=
  sc_ClusterServiceBrokerName (sc_Spec obj) = bname /\
  exists cs ps c, fetched prior cs ps /\ c ∈ cs /\ (forall p, p ∈ ps -> plan_stored prior p) /\
    (obj = sc_with_broker bname c \/
     exists existing, obj = project_class existing c /\ Name (sc_Meta existing) = Name (sc_Meta c) /\
       sc_ExternalID (sc_Spec existing) = sc_ExternalID (sc_Spec c)).

(** ** Deleting it *)

Definition plan_gone prior (name : string) : Prop :=
  exists res, EPlanDelete name res ∈ prior /\ match res with inl _ => True | inr e => IsNotFound e = true end.
Definition class_gone prior (name : string) : Prop :=
  exists res, EClassDelete name res ∈ prior /\ match res with inl _ => True | inr e => IsNotFound e = true end.

(** The class cache is listed once, when all the run did is look at the clock:
    that is its answer to a run from [w]. *)
Definition class_listing (w : W) (cs : list ServiceClass) : Prop :=
  exists w', env_serviceClassLister_List (snd (env_Now w)) = (inl cs, w').
(** What the plan cache answers. *)
Definition cached_plans (ps : list ServicePlan) : Prop :=
  exists w w', env_servicePlanLister_List w = (inl ps, w').
Definition owned (c : ServiceClass) : Prop := sc_ClusterServiceBrokerName (sc_Spec c) = bname.

Definition plans_gone prior (class : string) : Prop :=
  exists ps, cached_plans ps /\
    forall p, p ∈ ps -> lref_Name (sp_ServiceClassRef (sp_Spec p)) = class -> plan_gone prior (Name (sp_Meta p)).

(** What the class cache answered. *)
Context (listed : list ServiceClass -> Prop).

Definition class_delete prior (name : string) : Prop :=
  plans_gone prior name /\ exists cs c, listed cs /\ c ∈ cs /\ owned c /\ Name (sc_Meta c) = name.
Definition plan_delete (name : string) : Prop :=
  exists cs c ps p, listed cs /\ c ∈ cs /\ owned c /\ cached_plans ps /\ p ∈ ps /\
    Name (sp_Meta p) = name /\ lref_Name (sp_ServiceClassRef (sp_Spec p)) = Name (sc_Meta c).

Definition all_gone prior : Prop :=
  exists cs, listed cs /\ forall c, c ∈ cs -> owned c -> class_gone prior (Name (sc_Meta c)).

(** ** The protocol *)

Definition b_dying : Prop := DeletionTimestamp (b_Meta b) <> None.

Definition status_write prior (obj : ClusterServiceBroker) : Prop :=
  b_Meta obj = b_Meta b /\ b_Spec obj = b_Spec b /\
  (isBrokerReady obj = true -> isBrokerReady b = true \/
     catalog_stored prior /\ bs_ReconciledGeneration (b_Status obj) = Generation (b_Meta obj)).

Definition broker_protocol prior (e : Effect) : Prop :=
  match e with
  | ERecord _ => True
  | EGetCatalog _ _ => ~ b_dying /\ prior = []
  | EPlanCreate p _ | EPlanUpdate p _ => ~ b_dying /\ plan_write prior p
  | EClassCreate c _ | EClassUpdate c _ => ~ b_dying /\ class_write prior c
  | EPlanDelete name _ => b_dying /\ plan_delete name
  | EClassDelete name _ => b_dying /\ class_delete prior name
  | EBrokerUpdateStatus obj _ => status_write prior obj \/ b_dying /\ all_gone prior
  | _ => False
  end.

(** A reconciliation that returns nil found nothing to do or stored a status. *)
Definition brfinished (o : outcome unit) t : Prop :=
  o <> Panic /\ (o = Ok tt -> t = [] \/ exists obj res, EBrokerUpdateStatus obj (inl res) ∈ t).
End protocol.
