(* ===== verification/BrokerProofs.v ===== *)
(** * The ClusterServiceBroker control loop keeps its promises

    The phases of [BrokerController] follow [BrokerSpec.broker_protocol]. *)

From S2P Require Import Prelude Types Conditions Environment Json ControllerCommon Catalog BrokerController BrokerSpec.

(** ** Conditions *)

Section conditions.
Implicit Types conds : list ServiceBrokerCondition.

Lemma first_ready_broker_set conds typ st r m t :
  (typ = ConditionReady -> st <> ConditionTrue) ->
  first_ready (broker_set_condition conds typ st r m t) = true -> first_ready conds = true.
Proof.
  intros Hst. unfold broker_set_condition. destruct (Nat.eqb_spec (length conds) 0) as [H0|H0].
  { cbn. case_decide; [|done]. rewrite bool_decide_eq_true. naive_solver. }
  clear H0. induction conds as [|c conds IH]; cbn; [done|].
  case_decide as Ht; cbn; subst; [|by case_decide; auto].
  case_decide as Hr; [|done]. rewrite bool_decide_eq_true. naive_solver.
Qed.

(** A missing condition is never added to a list that is not empty. *)
Lemma broker_set_missing conds typ st r m t :
  conds <> [] -> find_condition conds typ = None -> broker_set_condition conds typ st r m t = conds.
Proof.
  intros Hne. unfold broker_set_condition. rewrite (proj2 (Nat.eqb_neq _ _)) by (by destruct conds).
  clear Hne. induction conds as [|c conds IH]; cbn; [done|].
  case_decide; [done|]. intros Hf. by rewrite IH.
Qed.

(** Where the type is present, the list is what an instance would have. *)
Lemma broker_set_present conds typ st r m t c :
  find_condition conds typ = Some c -> broker_set_condition conds typ st r m t = set_condition conds typ st r m t.
Proof.
  intros H. rewrite set_condition_replace. unfold broker_set_condition.
  destruct conds as [|c0 conds]; [done|]. cbn [length Nat.eqb]. revert H.
  induction (c0 :: conds) as [|d l IH]; cbn; [done|].
  case_decide; intros Hf; [|by rewrite IH].
  simplify_eq. repeat case_decide; by try congruence.
Qed.
End conditions.

Lemma relistDue_spec conds spec now :
  relistDue conds spec now = true <->
  first_ready conds = false \/
  exists c d, find_condition conds ConditionReady = Some c /\ RelistBehavior spec <> RelistBehaviorManual /\
    RelistDuration spec = Some d /\ cond_LastTransitionTime c + d < now.
Proof.
  induction conds as [|c conds IH]; cbn; [naive_solver|].
  destruct (decide (cond_Type c = ConditionReady)); [|exact IH].
  destruct (decide (cond_Status c = ConditionTrue)) as [Ht|Ht].
  - rewrite bool_decide_eq_true_2 by done. case_decide as Hm; [naive_solver|].
    destruct (RelistDuration spec) as [d|]; [rewrite Z.ltb_lt|]; naive_solver.
  - rewrite bool_decide_eq_false_2 by done. naive_solver.
Qed.

(** ** Facts that only grow with the history *)

Section growth.
Context {W : Type} {E : Env W} {C : Config}.
Implicit Types prior t : list Effect.

Lemma fetched_app prior t cs ps : fetched prior cs ps -> fetched (prior ++ t) cs ps.
Proof. intros (cl & cat & H & Hc). exists cl, cat. split; [|done]. apply elem_of_app. by left. Qed.

Lemma plan_stored_app prior t p : plan_stored prior p -> plan_stored (prior ++ t) p.
Proof. intros (o & r & Hn & H). exists o, r. rewrite !elem_of_app. naive_solver. Qed.

Lemma class_stored_app prior t c : class_stored prior c -> class_stored (prior ++ t) c.
Proof. intros (o & r & Hn & H). exists o, r. rewrite !elem_of_app. naive_solver. Qed.

Lemma plan_gone_app prior t n : plan_gone prior n -> plan_gone (prior ++ t) n.
Proof. intros (r & H & ?). exists r. rewrite elem_of_app. naive_solver. Qed.

Lemma class_gone_app prior t n : class_gone prior n -> class_gone (prior ++ t) n.
Proof. intros (r & H & ?). exists r. rewrite elem_of_app. naive_solver. Qed.

Lemma last_effect prior (e : Effect) : e ∈ prior ++ [e].
Proof. apply elem_of_app. right. left. Qed.
End growth.

#[export] Hint Resolve fetched_app plan_stored_app class_stored_app plan_gone_app class_gone_app last_effect : broker.

(** ** The phases *)

Section phases.
Context {W : Type} {E : Env W} {C : Config} {L : CatalogLaws W}.
Context (b : ClusterServiceBroker) (Hauth : auth_ref_set b) (listed : list ServiceClass -> Prop).
Local Notation safely := (wps (W:=W) (broker_protocol b listed)).

Definition anyErr {A} (Q : outcome A -> list Effect -> Prop) : Prop := forall e t, Q (Err e) t.

Lemma brfinished_err : anyErr brfinished.
Proof. intros e t. by split. Qed.
Lemma brfinished_write prior obj res rest : brfinished (Ok tt) (prior ++ EBrokerUpdateStatus obj (inl res) :: rest).
Proof.
  split; [done|]. intros _. right. exists obj, res. apply elem_of_app. right. left.
Qed.

Lemma brsafely_event prior ty r m Q :
  (forall ev, Q (Ok tt) (prior ++ [ERecord ev])) -> safely prior (broker_Event b ty r m) Q.
Proof. intros H. apply wps_emit; [done|apply H]. Qed.

Lemma status_write_set prior obj typ st r m t :
  b_Meta obj = b_Meta b -> b_Spec obj = b_Spec b -> bs_Conditions (b_Status obj) = bs_Conditions (b_Status b) ->
  (typ = ConditionReady -> st <> ConditionTrue) ->
  status_write b prior (brokerWithCondition obj typ st r m t).
Proof.
  intros Hm Hs Hc Hst. unfold brokerWithCondition. rewrite (proj2 (andb_false_iff _ _)).
  - split_and!; cbn; [done..|]. unfold isBrokerReady. cbn. rewrite Hc. intros H%first_ready_broker_set; auto.
  - rewrite !bool_decide_eq_false. destruct (decide (typ = ConditionReady)); auto.
Qed.

Lemma brsafely_condition prior obj typ st r m Q :
  b_Meta obj = b_Meta b -> b_Spec obj = b_Spec b -> bs_Conditions (b_Status obj) = bs_Conditions (b_Status b) ->
  (typ = ConditionReady -> st <> ConditionTrue) ->
  (forall o res, Q (Ok tt) (prior ++ [EBrokerUpdateStatus o (inl res)])) ->
  (forall e o, Q (Err e) (prior ++ [EBrokerUpdateStatus o (inr e)])) ->
  safely prior (updateClusterServiceBrokerCondition obj typ st r m) Q.
Proof.
  intros Hm Hs Hc Hst H1 H2. apply wps_bind, wps_Now. intros t. apply wps_bind, wps_api.
  intros w res w' _. split; [left; by apply status_write_set|].
  destruct res; [apply wps_ret, H1|apply H2].
Qed.

Lemma brsafely_fail {A} prior er ev r m err (Q : outcome A -> list Effect -> Prop) :
  anyErr Q -> safely prior (brokerFail b er ev r m err) Q.
Proof.
  intros HQ. apply wps_bind, brsafely_event. intros e. by apply wps_bind, brsafely_condition.
Qed.

(** ** The catalog cannot be fetched *)

Lemma brsafely_catalogError prior now err : safely prior (handleCatalogError b now err) brfinished.
Proof.
  apply wps_bind, brsafely_event. intros ev. apply wps_bind, brsafely_condition; [done..| |intros; apply brfinished_err].
  intros o res. destruct (bs_OperationStartTime (b_Status b)) as [start|].
  - apply wps_bind, wps_Now. intros t. destruct (negb _); [|apply wps_fail, brfinished_err].
    apply wps_bind, brsafely_event. intros ev'. apply brsafely_condition;
      [done..|intros; apply brfinished_write|intros; apply brfinished_err].
  - apply wps_bind, wps_api. intros w r w' _. split; [left; split_and!; cbn; auto|].
    destruct r; [apply wps_fail|]; apply brfinished_err.
Qed.

(** ** Writing the catalog *)

Section sync.
Context (Hlive : ~ b_dying b) (cs : list ServiceClass) (ps : list ServicePlan).

Lemma brsafely_reconcilePlan prior p Q :
  fetched prior cs ps -> p ∈ ps ->
  (forall t, plan_stored (prior ++ t) p -> Q (Ok tt) (prior ++ t)) ->
  (forall e t, Q (Err e) (prior ++ t)) ->
  safely prior (reconcileServicePlan b p) Q.
Proof.
  intros Hf Hp HQ HE. apply wps_bind, wps_try, wps_lister_get. intros w o w' Ho. destruct o as [existing|].
  - apply law_servicePlanLister in Ho. destruct (negb _) eqn:Hid.
    { apply wps_fail. specialize (HE (PlainError (Sprintf0 (sprint ["ServicePlan "; quote (Name (sp_Meta (sp_with_broker (Name (b_Meta b)) p)));
        " already exists with OSB guid "; quote (sp_ExternalID (sp_Spec existing));
        ", received different guid "; quote (sp_ExternalID (sp_Spec (sp_with_broker (Name (b_Meta b)) p)))]))) []).
      by rewrite app_nil_r in HE. }
    apply negb_false_iff, bool_decide_eq_true in Hid.
    apply wps_bind, wps_api. intros w1 r w1' _. split.
    { split; [done|]. exists cs, ps, p. split_and!; [done..|]. right. by exists existing. }
    destruct r as [r|e]; [apply wps_ret, HQ|apply HE].
    exists (project_plan existing p), r. split; [done|]. right. apply last_effect.
  - cbn. apply wps_bind, wps_api. intros w1 r w1' _. split.
    { split; [done|]. exists cs, ps, p. split_and!; [done..|]. by left. }
    destruct r as [r|e]; [apply wps_ret, HQ|apply HE].
    eexists _, r. split; [|left; apply last_effect]. done.
Qed.

Lemma brsafely_reconcileClass prior c Q :
  fetched prior cs ps -> c ∈ cs -> (forall p, p ∈ ps -> plan_stored prior p) ->
  (forall t, class_stored (prior ++ t) c -> Q (Ok tt) (prior ++ t)) ->
  (forall e t, Q (Err e) (prior ++ t)) ->
  safely prior (reconcileServiceClassFromClusterServiceBrokerCatalog b c) Q.
Proof.
  intros Hf Hc Hps HQ HE.
  assert (HE' : forall e, Q (Err e) prior) by (intros e; specialize (HE e []); by rewrite app_nil_r in HE).
  apply wps_bind, wps_try, wps_lister_get. intros w o w' Ho. destruct o as [existing|].
  - apply law_serviceClassLister in Ho.
    destruct (negb (bool_decide (sc_ClusterServiceBrokerName _ = _))) eqn:Hb; [apply wps_fail, HE'|].
    destruct (negb (bool_decide (sc_ExternalID _ = _))) eqn:Hid; [apply wps_fail, HE'|].
    apply negb_false_iff, bool_decide_eq_true in Hb, Hid.
    apply wps_bind, wps_api. intros w1 r w1' _. split.
    { split; [done|]. split; [done|]. exists cs, ps, c. split_and!; [done..|]. right. by exists existing. }
    destruct r as [r|e]; [apply wps_ret, HQ|apply HE].
    exists (project_class existing c), r. split; [done|]. right. apply last_effect.
  - cbn. apply wps_bind, wps_api. intros w1 r w1' _. split.
    { split; [done|]. split; [done|]. exists cs, ps, c. split_and!; [done..|]. by left. }
    destruct r as [r|e]; [apply wps_ret, HQ|apply HE].
    eexists _, r. split; [|left; apply last_effect]. done.
Qed.

Lemma brsafely_syncPlan prior p Q :
  fetched prior cs ps -> p ∈ ps -> anyErr Q ->
  (forall t, plan_stored (prior ++ t) p -> Q (Ok tt) (prior ++ t)) ->
  safely prior (syncServicePlan b p) Q.
Proof.
  intros Hf Hp HE HQ. apply wps_bind, wps_try, brsafely_reconcilePlan; [done..| |].
  - intros t Ht. apply wps_ret. auto.
  - intros e t. apply wps_bind, brsafely_event. intros ev.
    apply wps_bind, wps_ignore, brsafely_condition; [done..|intros; apply wps_fail, HE|intros; apply wps_fail, HE].
Qed.

Lemma brsafely_syncClass prior c Q :
  fetched prior cs ps -> c ∈ cs -> (forall p, p ∈ ps -> plan_stored prior p) -> anyErr Q ->
  (forall t, class_stored (prior ++ t) c -> Q (Ok tt) (prior ++ t)) ->
  safely prior (syncServiceClass b c) Q.
Proof.
  intros Hf Hc Hps HE HQ. apply wps_bind, wps_try, brsafely_reconcileClass; [done..| |].
  - intros t Ht. apply wps_ret. auto.
  - intros e t. by apply brsafely_fail.
Qed.

Lemma brsafely_plans prior (Q : outcome unit -> list Effect -> Prop) :
  fetched prior cs ps -> anyErr Q ->
  (forall t, fetched t cs ps -> (forall p, p ∈ ps -> plan_stored t p) -> Q (Ok tt) t) ->
  safely prior (range ps (syncServicePlan b)) Q.
Proof.
  intros Hf HE HQ.
  apply wps_range with (I := fun done t => fetched t cs ps /\ forall p, p ∈ done -> plan_stored t p).
  - intros done p rest t Hl [Hft Hd]. apply brsafely_syncPlan; [done|set_solver|intros ??; apply HE|].
    intros t' Hp. split; [by apply fetched_app|].
    intros p' [Hin| ->%list_elem_of_singleton]%elem_of_app; [apply plan_stored_app; auto|done].
  - split; [done|]. by intros p ?%not_elem_of_nil.
  - intros t []. auto.
Qed.

Lemma brsafely_classes prior (Q : outcome unit -> list Effect -> Prop) :
  fetched prior cs ps -> (forall p, p ∈ ps -> plan_stored prior p) -> anyErr Q ->
  (forall t, fetched t cs ps -> (forall p, p ∈ ps -> plan_stored t p) ->
     (forall c, c ∈ cs -> class_stored t c) -> Q (Ok tt) t) ->
  safely prior (range cs (syncServiceClass b)) Q.
Proof.
  intros Hf Hps HE HQ.
  apply wps_range with (I := fun done t => fetched t cs ps /\ (forall p, p ∈ ps -> plan_stored t p) /\
                                          forall c, c ∈ done -> class_stored t c).
  - intros done c rest t Hl (Hft & Hpt & Hd). apply brsafely_syncClass; [done|set_solver|done|intros ??; apply HE|].
    intros t' Hp. split_and!; [by apply fetched_app|intros; apply plan_stored_app; auto|].
    intros c' [Hin| ->%list_elem_of_singleton]%elem_of_app; [apply class_stored_app; auto|done].
  - split_and!; [done..|]. by intros p ?%not_elem_of_nil.
  - intros t (?&?&?). auto.
Qed.
End sync.

Lemma status_write_ready prior r m t :
  catalog_stored prior -> status_write b prior (brokerWithCondition b ConditionReady ConditionTrue r m t).
Proof. intros Hc. split_and!; [done..|]. intros _. by right. Qed.

Lemma brsafely_syncCatalog prior client cat :
  ~ b_dying b -> EGetCatalog client (inl cat) ∈ prior -> safely prior (syncCatalog b cat) brfinished.
Proof.
  intros Hlive Hg. apply wps_bind.
  assert (Hrest : forall t, EGetCatalog client (inl cat) ∈ t -> safely t
    (match convertCatalog fmt_value cat with
     | inr err => brokerFail b errorSyncingCatalogReason (Sprintf0 (brmsg_convert b err)) errorSyncingCatalogReason
         (sprint [errorSyncingCatalogMessage; brmsg_convert b err]) err
     | inl (serviceClasses, servicePlans) =>
         if Nat.eqb (length serviceClasses) 0 then
           brokerFail b errorSyncingCatalogReason (Sprintf0 (brmsg_empty b)) errorSyncingCatalogReason
             (sprint [errorSyncingCatalogMessage; brmsg_empty b]) (PlainError (brmsg_empty b))
         else bind (range servicePlans (syncServicePlan b)) (fun _ =>
              bind (range serviceClasses (syncServiceClass b)) (fun _ =>
              bind (updateClusterServiceBrokerCondition b ConditionReady ConditionTrue
                successFetchedCatalogReason successFetchedCatalogMessage) (fun _ =>
              broker_Event b EventTypeNormal successFetchedCatalogReason successFetchedCatalogMessage)))
     end) brfinished).
  { intros t Ht. destruct (convertCatalog fmt_value cat) as [[cs ps]|err] eqn:Hc; [|apply brsafely_fail, brfinished_err].
    destruct (Nat.eqb_spec (length cs) 0) as [H0|H0]; [apply brsafely_fail, brfinished_err|].
    assert (Hf : fetched t cs ps) by (by exists client, cat).
    apply wps_bind, (brsafely_plans Hlive cs ps); [done|intros ??; apply brfinished_err|]. intros t1 Hf1 Hp1.
    apply wps_bind, (brsafely_classes Hlive cs ps); [done..|intros ??; apply brfinished_err|]. intros t2 Hf2 Hp2 Hc2.
    apply wps_bind, wps_bind, wps_Now. intros now. apply wps_bind, wps_api. intros w r w' _. split.
    { left. apply status_write_ready. exists cs, ps. split_and!; [done|by destruct cs|done..]. }
    destruct r as [r|e]; [|apply brfinished_err]. apply wps_ret, brsafely_event. intros ev.
    rewrite <- app_assoc. apply brfinished_write. }
  destruct (bs_OperationStartTime (b_Status b)) as [start|].
  - apply wps_bind, wps_api. intros w r w' _. split; [left; split_and!; cbn; auto|].
    destruct r; [|apply brfinished_err]. apply wps_ret, Hrest. apply elem_of_app. by left.
  - by apply wps_ret, Hrest.
Qed.

Lemma brsafely_addOrUpdate : ~ b_dying b -> safely [] (addOrUpdateClusterServiceBroker b) brfinished.
Proof.
  intros Hlive. apply wps_bind, wps_try, wps_quiet, wp_getAuthCredentials; [done|intros a|intros e]; (split; [done|]).
  2: { apply brsafely_fail, brfinished_err. }
  apply wps_bind, wps_try, wps_brokerClientCreateFunc; [|intros e; apply brsafely_fail, brfinished_err].
  apply wps_bind, wps_Now. intros now. apply wps_bind, wps_try, wps_api. intros w r w' _. split; [done|].
  destruct r as [cat|e]; [|apply brsafely_catalogError].
  eapply brsafely_syncCatalog; [done|]. apply last_effect.
Qed.

(** ** Deleting it *)

Section finalize.
Context (Hdying : b_dying b).

Lemma brsafely_deletePlan prior c p cs ps Q :
  listed cs -> c ∈ cs -> owned b c -> cached_plans ps -> p ∈ ps -> anyErr Q ->
  (forall t, (lref_Name (sp_ServiceClassRef (sp_Spec p)) = Name (sc_Meta c) -> plan_gone (prior ++ t) (Name (sp_Meta p))) ->
     Q (Ok tt) (prior ++ t)) ->
  safely prior (deletePlan b c p) Q.
Proof.
  intros Hcs Hc Ho Hps Hp HE HQ. unfold deletePlan. case_bool_decide as Hr.
  - apply wps_bind, wps_try, wps_api. intros w r w' _.
    split; [split; [done|]; exists cs, c, ps, p; by split_and!|].
    destruct r as [u|e].
    + apply wps_ret, HQ. intros _. exists (inl u). split; [apply last_effect|done].
    + destruct (IsNotFound e) eqn:He.
      * apply wps_ret, HQ. intros _. exists (inr e). split; [apply last_effect|done].
      * apply wps_bind, wps_ignore, brsafely_condition; [done..| |]; intros;
          apply wps_bind, brsafely_event; intros ev; apply wps_fail, HE.
  - apply wps_ret. specialize (HQ []). rewrite app_nil_r in HQ. apply HQ. naive_solver.
Qed.

Lemma brsafely_deletePlans prior c cs ps Q :
  listed cs -> c ∈ cs -> owned b c -> cached_plans ps -> anyErr Q ->
  (forall t, plans_gone (prior ++ t) (Name (sc_Meta c)) -> Q (Ok tt) (prior ++ t)) ->
  safely prior (range ps (deletePlan b c)) Q.
Proof.
  intros Hcs Hc Ho Hps HE HQ.
  apply wps_range with (I := fun done t => (exists t', t = prior ++ t') /\ forall p, p ∈ done ->
    lref_Name (sp_ServiceClassRef (sp_Spec p)) = Name (sc_Meta c) -> plan_gone t (Name (sp_Meta p))).
  - intros done p rest t Hl [[t' ->] Hd]. apply (brsafely_deletePlan _ _ _ cs ps); [done..|set_solver|intros ??; apply HE|].
    intros t1 H1. split; [exists (t' ++ t1); by rewrite app_assoc|].
    intros p' [Hin| ->%list_elem_of_singleton]%elem_of_app ?; [apply plan_gone_app; auto|auto].
  - split; [exists []; by rewrite app_nil_r|]. by intros p ?%not_elem_of_nil.
  - intros t [[t' ->] H]. apply HQ. by exists ps.
Qed.

Lemma brsafely_deleteClass prior c cs Q :
  listed cs -> c ∈ cs -> anyErr Q ->
  (forall t, (owned b c -> class_gone (prior ++ t) (Name (sc_Meta c))) -> Q (Ok tt) (prior ++ t)) ->
  safely prior (deleteClass b c) Q.
Proof.
  intros Hcs Hc HE HQ. unfold deleteClass. case_bool_decide as Ho.
  - apply wps_bind, wps_try, wps_read. intros w r w' Hl. destruct r as [ps|e].
    2: { apply wps_bind, wps_ignore, brsafely_condition; [done..| |]; intros;
           apply wps_bind, brsafely_event; intros ev; apply wps_fail, HE. }
    assert (Hps : cached_plans ps) by (by exists w, w').
    apply wps_bind. apply (brsafely_deletePlans _ _ cs ps); [done..|intros ??; apply HE|]. intros t Hg.
    apply wps_bind, wps_try, wps_api. intros w1 r w1' _. split; [split; [done|]; split; [done|by exists cs, c]|].
    destruct r as [u|e].
    + rewrite <- app_assoc. apply wps_ret, HQ. intros _. exists (inl u). rewrite app_assoc. split; [apply last_effect|done].
    + destruct (IsNotFound e) eqn:He.
      * rewrite <- app_assoc. apply wps_ret, HQ. intros _. exists (inr e). rewrite app_assoc. split; [apply last_effect|done].
      * apply wps_bind, brsafely_event. intros ev. apply wps_bind, brsafely_condition; [done..|intros; apply wps_fail, HE|intros; apply HE].
  - apply wps_ret. specialize (HQ []). rewrite app_nil_r in HQ. apply HQ. done.
Qed.

(** The rest of the finalization, once the cache listed the classes. *)
Definition finalizeListed (r : list ServiceClass + error) : M W Effect unit :=
  (match r with
  | inr err =>
      broker_Event b EventTypeWarning errorListingServiceClassesReason
        (sprint [errorListingServiceClassesMessage; " "; Error err]) ;;
      updateClusterServiceBrokerCondition b ConditionReady ConditionUnknown
        errorListingServiceClassesReason errorListingServiceClassesMessage ;;
      fail err
  | inl svcClasses =>
      range svcClasses (deleteClass b) ;;
      updateClusterServiceBrokerCondition b ConditionReady ConditionFalse
        successClusterServiceBrokerDeletedReason "The broker was deleted successfully" ;;
      ignore (updateClusterServiceBrokerFinalizers b
        (set_Delete FinalizerServiceCatalog (NewString (Finalizers (b_Meta b))))) ;;
      broker_Event b EventTypeNormal successClusterServiceBrokerDeletedReason
        (sprint ["The broker "; Name (b_Meta b); " was deleted successfully."])
  end)%go.

Lemma brsafely_finalizeListed r : (forall cs, r = inl cs -> listed cs) -> safely [] (finalizeListed r) brfinished.
Proof.
  intros Hr. destruct r as [cs|e]; cbn [finalizeListed].
  2: { apply wps_bind, brsafely_event. intros ev. apply wps_bind, brsafely_condition;
         [done..|intros; apply wps_fail, brfinished_err|intros; apply brfinished_err]. }
  pose proof (Hr cs eq_refl) as Hcs. clear Hr.
  apply wps_bind, wps_range with (I := fun done t => forall c, c ∈ done -> owned b c -> class_gone t (Name (sc_Meta c))).
  - intros done c rest t Hd Hi. eapply brsafely_deleteClass; [done|set_solver|intros ??; apply brfinished_err|].
    intros t1 H1 c' [Hin| ->%list_elem_of_singleton]%elem_of_app ?; [apply class_gone_app; auto|auto].
  - by intros c ?%not_elem_of_nil.
  - intros t Hgone. apply wps_bind, brsafely_condition; [done..| |intros; apply brfinished_err].
    intros o res. apply wps_bind, wps_ignore. unfold updateClusterServiceBrokerFinalizers.
    set (t1 := t ++ _).
    assert (Hall : b_dying b /\ all_gone b listed t1).
    { split; [done|]. exists cs. split; [done|]. intros c Hc Ho. apply class_gone_app. auto. }
    assert (Hfin : forall rest, brfinished (Ok tt) (t1 ++ rest)).
    { intros rest. subst t1. rewrite <- app_assoc. apply brfinished_write. }
    clearbody t1.
    apply wps_bind, wps_try, wps_read. intros w1 r1 w1' _. destruct r1; cbn beta iota zeta; apply wps_bind, wps_api; intros w2 r2 w2' _;
      (split; [by right|]); destruct r2; try apply wps_ret; apply brsafely_event; intros ev;
      rewrite <- app_assoc; apply Hfin.
Qed.
End finalize.

End phases.

(** ** A run *)

Section run.
Context {W : Type} {E : Env W} {C : Config}.
Implicit Types w : W.

Lemma run_Now {A} (k : Z -> M W Effect A) w : bind Now k w = k (fst (env_Now w)) (snd (env_Now w)).
Proof. unfold Now, bind, call. destruct (env_Now w) as [t w']. cbn. by destruct (k t w') as [[o w''] t']. Qed.
Lemma run_try_read {R A} (f : W -> (R + error) * W) (k : R + error -> M W Effect A) w :
  bind (try (read f)) k w = k (fst (f w)) (snd (f w)).
Proof.
  unfold try, read, bind, call. destruct (f w) as [[r|e] w']; cbn; by destruct (k _ w') as [[o w''] t'].
Qed.

(** A run obeys the protocol with the answer its class cache gave. *)
Lemma brsafe_run {L : CatalogLaws W} (b : ClusterServiceBroker) w :
  auth_ref_set b ->
  safe (broker_protocol b (class_listing w)) [] (trace_of (reconcileClusterServiceBroker b) w) /\
  brfinished (outcome_of (reconcileClusterServiceBroker b) w) (trace_of (reconcileClusterServiceBroker b) w).
Proof.
  intros Hb. unfold trace_of, outcome_of, reconcileClusterServiceBroker. rewrite run_Now.
  destruct (negb _); [by split; [|split; [done|left]]|]. case_bool_decide as Hd.
  { apply (wps_run _ _ brfinished), brsafely_addOrUpdate; [done|]. unfold b_dying. tauto. }
  unfold finalizeClusterServiceBroker. destruct (set_Has _ _); [|by split; [|split; [done|left]]].
  unfold serviceClassLister_List. rewrite run_try_read. destruct (env_serviceClassLister_List _) as [r w'] eqn:Hr.
  apply (wps_run _ (finalizeListed b r) brfinished w'), brsafely_finalizeListed; [done..|]. intros cs ->. by exists w'.
Qed.
End run.
