(* ===== verification/Strategy.v ===== *)
(** * Registry strategies and defaults

    [pkg/registry/servicecatalog/*/strategy.go] and
    [pkg/apis/servicecatalog/v1alpha1/defaults.go]: what the API server makes
    of an object a user or the controller sends.  The [glog.Fatal] branches for
    objects of another type cannot be taken: the type is fixed by the route.
    [apiequality.Semantic.DeepEqual] is a parameter. *)

From S2P Require Import Prelude Types Environment Validation APIServer.

#[export] Instance ServiceInstance_Object : Object ServiceInstance := {| metaOf := si_Meta; withMeta := si_with_Meta |}.
#[export] Instance ServiceInstanceCredential_Object : Object ServiceInstanceCredential :=
  {| metaOf := bind_Meta; withMeta := bind_with_Meta |}.
#[export] Instance ClusterServiceBroker_Object : Object ClusterServiceBroker := {| metaOf := b_Meta; withMeta := b_with_Meta |}.
#[export] Instance ServiceClass_Object : Object ServiceClass :=
  {| metaOf := sc_Meta; withMeta := fun m c => {| sc_TypeMeta := sc_TypeMeta c; sc_Meta := m; sc_Spec := sc_Spec c |} |}.
#[export] Instance ServicePlan_Object : Object ServicePlan :=
  {| metaOf := sp_Meta; withMeta := fun m p => {| sp_TypeMeta := sp_TypeMeta p; sp_Meta := m; sp_Spec := sp_Spec p |} |}.

#[export] Instance ServiceInstance_ObjectLaws : ObjectLaws ServiceInstance.
Proof. by split; intros; try destruct a. Qed.
#[export] Instance ServiceInstanceCredential_ObjectLaws : ObjectLaws ServiceInstanceCredential.
Proof. by split; intros; try destruct a. Qed.
#[export] Instance ClusterServiceBroker_ObjectLaws : ObjectLaws ClusterServiceBroker.
Proof. by split; intros; try destruct a. Qed.
#[export] Instance ServiceClass_ObjectLaws : ObjectLaws ServiceClass.
Proof. by split; intros; try destruct a. Qed.
#[export] Instance ServicePlan_ObjectLaws : ObjectLaws ServicePlan.
Proof. by split; intros; try destruct a. Qed.

(** [apiequality.Semantic.DeepEqual] on the three kinds of spec. *)
Class Semantic := {
  DeepEqual_instance : ServiceInstanceSpec -> ServiceInstanceSpec -> bool;
  DeepEqual_binding : ServiceInstanceCredentialSpec -> ServiceInstanceCredentialSpec -> bool;
  DeepEqual_broker : ClusterServiceBrokerSpec -> ClusterServiceBrokerSpec -> bool }.

(** It is reflexive. *)
Class SemanticLaws {S : Semantic} : Prop := {
  DeepEqual_instance_refl s : DeepEqual_instance s s = true;
  DeepEqual_binding_refl s : DeepEqual_binding s s = true;
  DeepEqual_broker_refl s : DeepEqual_broker s s = true }.

Section strategies.
Context {C : Config} {MV : MetaValidation} {Sem : Semantic}.
Implicit Types ctx : RequestContext.

(** The user of the request as it is kept in a spec; an empty [Extra] stays nil. *)
Definition userInfoOf (user : User) : UserInfo :=
  {| ui_Username := u_Name user; ui_UID := u_UID user; ui_Groups := u_Groups user; ui_Extra := u_Extra user |}.

(** ** ServiceInstance *)

Definition setServiceInstanceUserInfo (instance : ServiceInstance) ctx : ServiceInstance :=
  si_with_Spec (with_si_UserInfo (userInfoOf <$> ctx_User ctx) (si_Spec instance)) instance.

Definition emptyInstanceStatus : ServiceInstanceStatus :=
  Build_ServiceInstanceStatus [] false false None None OperationNone 0 None None None.

Definition instancePrepareForCreate ctx (instance : ServiceInstance) : ServiceInstance :=
  let instance := if OriginatingIdentityEnabled then setServiceInstanceUserInfo instance ctx else instance in
  let instance := si_with_Status emptyInstanceStatus instance in
  let instance := si_with_Spec (with_ServicePlanRef None (with_ServiceClassRef None (si_Spec instance))) instance in
  si_with_Meta (with_Generation 1 (with_Finalizers [FinalizerServiceCatalog] (si_Meta instance))) instance.

(** The spec is restored, so the comparison that follows always succeeds. *)
Definition instancePrepareForUpdate ctx (new old : ServiceInstance) : ServiceInstance :=
  let new := si_with_Status (si_Status old) new in
  let new := si_with_Spec (with_ServicePlanRef (ServicePlanRef (si_Spec old))
               (with_ServiceClassRef (ServiceClassRef (si_Spec old)) (si_Spec new))) new in
  let new := si_with_Spec (si_Spec old) new in
  if negb (DeepEqual_instance (si_Spec old) (si_Spec new)) then
    let new := if OriginatingIdentityEnabled then setServiceInstanceUserInfo new ctx else new in
    si_with_Meta (with_Generation (Generation (si_Meta old) + 1) (si_Meta new)) new
  else new.

Definition instanceStatusPrepareForUpdate ctx (new old : ServiceInstance) : ServiceInstance :=
  si_with_Spec (si_Spec old) new.

Definition instanceReferencePrepareForUpdate ctx (new old : ServiceInstance) : ServiceInstance :=
  let newServiceClassRef := ServiceClassRef (si_Spec new) in
  let newServicePlanRef := ServicePlanRef (si_Spec new) in
  si_with_Status (si_Status old)
    (si_with_Spec (with_ServicePlanRef newServicePlanRef (with_ServiceClassRef newServiceClassRef (si_Spec old))) new).

Definition instanceCheckGracefulDelete ctx (instance : ServiceInstance) : ServiceInstance :=
  if OriginatingIdentityEnabled then setServiceInstanceUserInfo instance ctx else instance.

Definition instanceCreateStrategy : RESTCreateStrategy ServiceInstance :=
  {| NamespaceScoped := true; PrepareForCreate := instancePrepareForCreate; Validate := ValidateServiceInstance |}.
Definition instanceUpdateStrategy : RESTUpdateStrategy ServiceInstance :=
  {| AllowCreateOnUpdate := false; AllowUnconditionalUpdate := false;
     PrepareForUpdate := instancePrepareForUpdate; ValidateUpdate := ValidateServiceInstanceUpdate |}.
Definition instanceStatusUpdateStrategy : RESTUpdateStrategy ServiceInstance :=
  {| AllowCreateOnUpdate := false; AllowUnconditionalUpdate := false;
     PrepareForUpdate := instanceStatusPrepareForUpdate; ValidateUpdate := ValidateServiceInstanceStatusUpdate |}.
Definition instanceReferenceUpdateStrategy : RESTUpdateStrategy ServiceInstance :=
  {| AllowCreateOnUpdate := false; AllowUnconditionalUpdate := false;
     PrepareForUpdate := instanceReferencePrepareForUpdate; ValidateUpdate := ValidateServiceInstanceReferencesUpdate |}.
Definition instanceDeleteStrategy : RESTDeleteStrategy ServiceInstance := Some instanceCheckGracefulDelete.

(** ** ServiceInstanceCredential *)

Definition setServiceInstanceCredentialUserInfo (binding : ServiceInstanceCredential) ctx : ServiceInstanceCredential :=
  bind_with_Spec (bind_with_UserInfo (userInfoOf <$> ctx_User ctx) (bind_Spec binding)) binding.

Definition emptyBindingStatus : ServiceInstanceCredentialStatus :=
  Build_ServiceInstanceCredentialStatus [] BOperationNone 0 None None None false.

Definition bindingPrepareForCreate ctx (binding : ServiceInstanceCredential) : ServiceInstanceCredential :=
  let binding := if OriginatingIdentityEnabled then setServiceInstanceCredentialUserInfo binding ctx else binding in
  let binding := bind_with_Status emptyBindingStatus binding in
  bind_with_Meta (with_Generation 1 (with_Finalizers [FinalizerServiceCatalog] (bind_Meta binding))) binding.

Definition bindingPrepareForUpdate ctx (new old : ServiceInstanceCredential) : ServiceInstanceCredential :=
  let new := bind_with_Status (bind_Status old) new in
  let new := bind_with_Spec (bind_Spec old) new in
  if negb (DeepEqual_binding (bind_Spec old) (bind_Spec new)) then
    let new := if OriginatingIdentityEnabled then setServiceInstanceCredentialUserInfo new ctx else new in
    bind_with_Meta (with_Generation (Generation (bind_Meta old) + 1) (bind_Meta new)) new
  else new.

Definition bindingStatusPrepareForUpdate ctx (new old : ServiceInstanceCredential) : ServiceInstanceCredential :=
  bind_with_Spec (bind_Spec old) new.

Definition bindingCheckGracefulDelete ctx (binding : ServiceInstanceCredential) : ServiceInstanceCredential :=
  if OriginatingIdentityEnabled then setServiceInstanceCredentialUserInfo binding ctx else binding.

Definition bindingCreateStrategy : RESTCreateStrategy ServiceInstanceCredential :=
  {| NamespaceScoped := true; PrepareForCreate := bindingPrepareForCreate; Validate := ValidateServiceInstanceCredential |}.
Definition bindingUpdateStrategy : RESTUpdateStrategy ServiceInstanceCredential :=
  {| AllowCreateOnUpdate := false; AllowUnconditionalUpdate := false;
     PrepareForUpdate := bindingPrepareForUpdate; ValidateUpdate := ValidateServiceInstanceCredentialUpdate |}.
Definition bindingStatusUpdateStrategy : RESTUpdateStrategy ServiceInstanceCredential :=
  {| AllowCreateOnUpdate := false; AllowUnconditionalUpdate := false;
     PrepareForUpdate := bindingStatusPrepareForUpdate; ValidateUpdate := ValidateServiceInstanceCredentialStatusUpdate |}.
Definition bindingDeleteStrategy : RESTDeleteStrategy ServiceInstanceCredential := Some bindingCheckGracefulDelete.

(** ** ClusterServiceBroker *)

Definition emptyBrokerStatus : ServiceBrokerStatus :=
  {| bs_Conditions := []; bs_ReconciledGeneration := 0; bs_OperationStartTime := None |}.

Definition brokerPrepareForCreate ctx (broker : ClusterServiceBroker) : ClusterServiceBroker :=
  let broker := b_with_Status emptyBrokerStatus broker in
  b_with_Meta (with_Generation 1 (with_Finalizers [FinalizerServiceCatalog] (b_Meta broker))) broker.

Definition brokerPrepareForUpdate ctx (new old : ClusterServiceBroker) : ClusterServiceBroker :=
  let new := b_with_Status (b_Status old) new in
  if negb (DeepEqual_broker (b_Spec old) (b_Spec new)) then
    b_with_Meta (with_Generation (Generation (b_Meta old) + 1) (b_Meta new)) new
  else new.

Definition brokerStatusPrepareForUpdate ctx (new old : ClusterServiceBroker) : ClusterServiceBroker :=
  b_with_Spec (b_Spec old) new.

Definition brokerCreateStrategy : RESTCreateStrategy ClusterServiceBroker :=
  {| NamespaceScoped := false; PrepareForCreate := brokerPrepareForCreate; Validate := ValidateClusterServiceBroker |}.
Definition brokerUpdateStrategy : RESTUpdateStrategy ClusterServiceBroker :=
  {| AllowCreateOnUpdate := false; AllowUnconditionalUpdate := false;
     PrepareForUpdate := brokerPrepareForUpdate; ValidateUpdate := ValidateClusterServiceBrokerUpdate |}.
Definition brokerStatusUpdateStrategy : RESTUpdateStrategy ClusterServiceBroker :=
  {| AllowCreateOnUpdate := false; AllowUnconditionalUpdate := false;
     PrepareForUpdate := brokerStatusPrepareForUpdate; ValidateUpdate := ValidateClusterServiceBrokerStatusUpdate |}.
Definition brokerDeleteStrategy : RESTDeleteStrategy ClusterServiceBroker := None.

(** ** ServiceClass and ServicePlan *)

Definition serviceclassPrepareForUpdate ctx (new old : ServiceClass) : ServiceClass :=
  {| sc_TypeMeta := sc_TypeMeta new; sc_Meta := sc_Meta new;
     sc_Spec := {| sc_ClusterServiceBrokerName := sc_ClusterServiceBrokerName (sc_Spec old);
       sc_ExternalName := sc_ExternalName (sc_Spec new); sc_ExternalID := sc_ExternalID (sc_Spec new);
       sc_Description := sc_Description (sc_Spec new); sc_Bindable := sc_Bindable (sc_Spec new);
       sc_PlanUpdatable := sc_PlanUpdatable (sc_Spec new);
       sc_ExternalMetadata := sc_ExternalMetadata (sc_Spec new); sc_Tags := sc_Tags (sc_Spec new);
       sc_Requires := sc_Requires (sc_Spec new) |} |}.

Definition serviceplanPrepareForUpdate ctx (new old : ServicePlan) : ServicePlan :=
  {| sp_TypeMeta := sp_TypeMeta new; sp_Meta := sp_Meta new;
     sp_Spec := {| sp_ClusterServiceBrokerName := sp_ClusterServiceBrokerName (sp_Spec new);
       sp_ExternalName := sp_ExternalName (sp_Spec new); sp_ExternalID := sp_ExternalID (sp_Spec new);
       sp_Description := sp_Description (sp_Spec new); sp_Bindable := sp_Bindable (sp_Spec new);
       sp_Free := sp_Free (sp_Spec new); sp_ExternalMetadata := sp_ExternalMetadata (sp_Spec new);
       sp_ServiceInstanceCreateParameterSchema := sp_ServiceInstanceCreateParameterSchema (sp_Spec new);
       sp_ServiceInstanceUpdateParameterSchema := sp_ServiceInstanceUpdateParameterSchema (sp_Spec new);
       sp_ServiceInstanceCredentialCreateParameterSchema := sp_ServiceInstanceCredentialCreateParameterSchema (sp_Spec new);
       sp_ServiceClassRef := sp_ServiceClassRef (sp_Spec old) |} |}.

Definition serviceclassCreateStrategy : RESTCreateStrategy ServiceClass :=
  {| NamespaceScoped := false; PrepareForCreate := fun _ c => c; Validate := ValidateServiceClass |}.
Definition serviceclassUpdateStrategy : RESTUpdateStrategy ServiceClass :=
  {| AllowCreateOnUpdate := false; AllowUnconditionalUpdate := false;
     PrepareForUpdate := serviceclassPrepareForUpdate; ValidateUpdate := ValidateServiceClassUpdate |}.
Definition serviceplanCreateStrategy : RESTCreateStrategy ServicePlan :=
  {| NamespaceScoped := false; PrepareForCreate := fun _ p => p; Validate := ValidateServicePlan |}.
Definition serviceplanUpdateStrategy : RESTUpdateStrategy ServicePlan :=
  {| AllowCreateOnUpdate := false; AllowUnconditionalUpdate := false;
     PrepareForUpdate := serviceplanPrepareForUpdate; ValidateUpdate := ValidateServicePlanUpdate |}.
End strategies.

(** ** Defaults *)

(** 15 minutes, in nanoseconds. *)
Definition defaultRelistDuration : Z := 15 * 60 * 1000000000.

Definition SetDefaults_ClusterServiceBrokerSpec (spec : ClusterServiceBrokerSpec) : ClusterServiceBrokerSpec :=
  let behavior := if bool_decide (RelistBehavior spec = RelistBehaviorOther "") then RelistBehaviorDuration
                  else RelistBehavior spec in
  let duration := if bool_decide (behavior = RelistBehaviorDuration) && bool_decide (RelistDuration spec = None)
                  then Some defaultRelistDuration else RelistDuration spec in
  {| URL := URL spec; AuthInfo := AuthInfo spec; InsecureSkipTLSVerify := InsecureSkipTLSVerify spec;
     CABundle := CABundle spec; RelistBehavior := behavior; RelistDuration := duration;
     RelistRequests := RelistRequests spec |}.

(** [uuid] is what [uuid.NewV4().String()] returns. *)
Definition SetDefaults_ServiceInstanceSpec (uuid : string) (spec : ServiceInstanceSpec) : ServiceInstanceSpec :=
  if bool_decide (ExternalID spec = "") then
    {| ExternalServiceClassName := ExternalServiceClassName spec;
       ExternalServicePlanName := ExternalServicePlanName spec;
       ServiceClassRef := ServiceClassRef spec; ServicePlanRef := ServicePlanRef spec;
       Parameters := Parameters spec; ParametersFrom := ParametersFrom spec;
       ExternalID := uuid; si_UserInfo := si_UserInfo spec |}
  else spec.

Definition SetDefaults_ServiceInstanceCredentialSpec (uuid : string) (spec : ServiceInstanceCredentialSpec) :
    ServiceInstanceCredentialSpec :=
  if bool_decide (bind_ExternalID spec = "") then
    Build_ServiceInstanceCredentialSpec (ServiceInstanceRef spec) (bind_Parameters spec)
      (bind_ParametersFrom spec) (SecretName spec) uuid (bind_UserInfo spec)
  else spec.

Definition SetDefaults_ServiceInstanceCredential (binding : ServiceInstanceCredential) : ServiceInstanceCredential :=
  let spec := bind_Spec binding in
  if bool_decide (SecretName spec = "") then
    bind_with_Spec (Build_ServiceInstanceCredentialSpec (ServiceInstanceRef spec) (bind_Parameters spec)
      (bind_ParametersFrom spec) (Name (bind_Meta binding)) (bind_ExternalID spec) (bind_UserInfo spec)) binding
  else binding.
