(* ===== verification/InstanceTracking.v ===== *)
(** * Which stored version a write of the instance loop is based on

    Optimistic concurrency compares resource versions, so what an accepted
    status write does to the stored instance depends on the version the
    controller made it from.  Here the control loop is followed once more, for
    that version: every status it writes carries the resource version of a
    version it read or got back from the API server in the same run, and a
    status that commits the instance to a class and a plan is only written over
    a version that has them resolved. *)

From S2P Require Import Prelude Types Conditions Environment ParametersModel ControllerCommon InstanceController InstanceSpec.

(** The status commits the instance to the class and plan it refers to: an
    operation is or was carried out for it. *)
Definition engaged (v : ServiceInstance) : bool :=
  negb (bool_decide (CurrentOperation (si_Status v) = OperationNone)) ||
  AsyncOpInProgress (si_Status v) || OrphanMitigationInProgress (si_Status v) ||
  (negb (isServiceInstanceFailed v) && negb (ReconciledGeneration (si_Status v) =? 0)).

Lemma engaged_operation v : CurrentOperation (si_Status v) <> OperationNone -> engaged v = true.
Proof. intros H. unfold engaged. by rewrite (bool_decide_eq_false_2 _ H). Qed.

Lemma engaged_async v : AsyncOpInProgress (si_Status v) = true -> engaged v = true.
Proof. intros H. unfold engaged. by rewrite H, orb_true_r. Qed.

Section tracking.
Context {W : Type} {E : Env W} {C : Config} {L : InstanceLaws W} (i : ServiceInstance).
Implicit Types (prior : list Effect) (t obj b : ServiceInstance).

Definition may_deprovision : Prop :=
  DeletionTimestamp (si_Meta i) <> None \/ OrphanMitigationInProgress (si_Status i) = true.

(** A status the controller may write. *)
Record tracked prior obj : Prop := {
  tr_base : exists b, stored i prior b /\
    ResourceVersion (si_Meta obj) = ResourceVersion (si_Meta b) /\
    (engaged obj = true -> engaged b = true \/ refs_set b);
  tr_deprovision : CurrentOperation (si_Status obj) = OperationDeprovision -> may_deprovision }.

Definition track prior (e : Effect) : Prop :=
  match e with EInstanceUpdateStatus obj _ => tracked prior obj | _ => True end.

(** An instance in the controller's hands that stems from a version with
    resolved references, or one already engaged. *)
Record following prior t : Prop := {
  fo_base : exists b, stored i prior b /\
    ResourceVersion (si_Meta t) = ResourceVersion (si_Meta b) /\ (engaged b = true \/ refs_set b);
  fo_deprovision : CurrentOperation (si_Status t) = OperationDeprovision -> may_deprovision }.

Lemma stored_app prior l b : stored i prior b -> stored i (prior ++ l) b.
Proof.
  intros [->|[[obj H]|[obj H]]]; [by left|right; left|right; right]; exists obj; by apply elem_of_app; left.
Qed.

Lemma following_app prior l t : following prior t -> following (prior ++ l) t.
Proof. intros [(b & Hb & ?) ?]. split; [|done]. exists b. split; [by apply stored_app|done]. Qed.

(** What the controller changes in its copy keeps it following. *)
Lemma following_copy prior t t' :
  ResourceVersion (si_Meta t') = ResourceVersion (si_Meta t) ->
  (CurrentOperation (si_Status t') = OperationDeprovision ->
     CurrentOperation (si_Status t) = OperationDeprovision \/ may_deprovision) ->
  following prior t -> following prior t'.
Proof. intros Hr Ho [Hb Hd]. split; [by rewrite Hr|]. intros H. destruct (Ho H); auto. Qed.

Lemma following_tracked prior t : following prior t -> tracked prior t.
Proof. intros [(b & Hb & Hr & Hbe) Hd]. split; [|done]. exists b. by split_and!. Qed.

(** The instance that is reconciled. *)
Lemma following_self prior :
  engaged i = true \/ refs_set i ->
  (CurrentOperation (si_Status i) = OperationDeprovision -> may_deprovision) -> following prior i.
Proof. intros Hb Hd. split; [|done]. exists i. split; [by left|done]. Qed.

(** Conditions do not engage, Failed disengages. *)
Lemma tracked_set prior st r m now t :
  si_Meta t = si_Meta i -> si_Status t = si_Status i ->
  (CurrentOperation (si_Status i) = OperationDeprovision -> may_deprovision) ->
  tracked prior (setServiceInstanceConditionInternal t ConditionReady st r m now).
Proof.
  intros Hm Hs Hd. split; [|cbn; by rewrite Hs]. exists i. split; [by left|]. split; [cbn; by rewrite Hm|].
  unfold engaged, isServiceInstanceFailed. cbn. rewrite has_failed_set_ready, Hs. auto.
Qed.
End tracking.

#[export] Hint Resolve following_app following_tracked : tracking.

(** Execute, then leave the writes. *)
Ltac track_writes :=
  unfold setServiceInstanceCondition, updateServiceInstanceStatus, ServiceInstances_UpdateStatus,
    retryDurationElapsed, instance_Event, continuePollingServiceInstance, beginPollingServiceInstance,
    finishPollingServiceInstance, ProvisionInstance, DeprovisionInstance, PollLastOperation;
  repeat (cbv beta iota zeta; first [exact I | wps_step]).

(** A write made from a followed instance. *)
Ltac follow_write :=
  repeat match goal with |- context [match ?x with _ => _ end] => destruct x end;
  try exact I;
  try (apply following_tracked; (eapply following_copy; [| |eauto 10 with tracking]; [reflexivity|cbn; auto; try discriminate])).

Section passes.
Context {W : Type} {E : Env W} {C : Config} {L : InstanceLaws W} (i : ServiceInstance).
Implicit Types (prior : list Effect) (t : ServiceInstance).
Local Notation tracks := (wps (W:=W) (track i)).
Local Notation anything := (fun _ _ => True).

Lemma tracks_provisionError prior t r err :
  following i prior t -> tracks prior (handleProvisionError i t r err) anything.
Proof. intros Hf. unfold handleProvisionError. track_writes. all: follow_write. Qed.

Lemma tracks_provisionResponse prior t response :
  following i prior t -> tracks prior (handleProvisionResponse i t response) anything.
Proof. intros Hf. unfold handleProvisionResponse. track_writes. all: follow_write. Qed.

Lemma tracks_deprovisionError prior t r err :
  following i prior t -> tracks prior (handleDeprovisionError i t r err) anything.
Proof. intros Hf. unfold handleDeprovisionError. track_writes. all: follow_write. Qed.

Lemma tracks_deprovisionResponse prior t response :
  following i prior t -> tracks prior (handleDeprovisionResponse i t response) anything.
Proof. intros Hf. unfold handleDeprovisionResponse. track_writes. all: follow_write. Qed.

Lemma tracks_failWith {A} prior t reason s m err (Q : outcome A -> list Effect -> Prop) :
  following i prior t -> (forall e h, Q (Err e) h) -> tracks prior (failWith i t reason s m err) Q.
Proof. intros Hf HQ. unfold failWith. track_writes. all: auto; follow_write. Qed.

Lemma tracks_stopPolling prior t s :
  following i prior t -> tracks prior (stopPolling i t s) anything.
Proof. intros Hf. unfold stopPolling. track_writes. all: follow_write. Qed.

Lemma tracks_poll prior r :
  following i prior i -> tracks prior (pollServiceInstance i r) anything.
Proof.
  intros Hf. unfold pollServiceInstance, originatingIdentityFor, handlePollError, handleStateInProgress,
    handleStateSucceeded, handleStateFailed, handleStateOther, stopPolling, clearFinalizer.
  track_writes. all: follow_write.
Qed.

(** The lookups write nothing but conditions. *)
Lemma tracks_lookup prior t (Q : outcome Resolved -> list Effect -> Prop) :
  following i prior t ->
  (forall r, Q (Ok r) prior) -> (forall e h, Q (Err e) h) -> (forall h, Q Panic h) ->
  tracks prior (getServiceClassPlanAndClusterServiceBroker t) Q.
Proof.
  intros Hf HQ HE HP. unfold getServiceClassPlanAndClusterServiceBroker, serviceClassLister_Get,
    servicePlanLister_Get, brokerLister_Get, updateServiceInstanceCondition.
  track_writes. all: auto; try follow_write.
  apply wps_quiet, wp_getAuthCredentials; [by eapply law_brokerLister|intros a|intros e];
    (split; [done|]); track_writes; auto; follow_write.
Qed.

(** Recording the start of an operation engages the instance. *)
Lemma tracks_recordStart prior t op (Q : outcome ServiceInstance -> list Effect -> Prop) :
  following i prior t -> op <> OperationNone -> (op = OperationDeprovision -> may_deprovision i) ->
  (forall t' h, following i h t' -> Q (Ok t') h) -> (forall e h, Q (Err e) h) ->
  tracks prior (recordStartOfServiceInstanceOperation t op) Q.
Proof.
  intros Hf Hop Hdep HQ HE. unfold recordStartOfServiceInstanceOperation.
  apply wps_bind, wps_Now. intros now. destruct (match op with OperationProvision => _ | _ => _ end) as [rs m].
  unfold setServiceInstanceCondition. apply wps_bind, wps_bind, wps_Now. intros now'. apply wps_ret.
  unfold updateServiceInstanceStatus, ServiceInstances_UpdateStatus. apply wps_api. intros w res w' Hu. split.
  - apply following_tracked. apply (following_copy _ _ t); [reflexivity| |exact Hf]. cbn. auto.
  - destruct res as [t'|e]; [|apply HE]. apply HQ. pose proof (updated_status _ _ (law_UpdateStatus _ _ _ _ Hu)) as Hs.
    split; [|rewrite Hs; cbn; auto].
    exists t'. split_and!; [right; left; eexists; apply elem_of_app; right; left|done|].
    left. apply engaged_operation. by rewrite Hs.
Qed.

(** What is known of the version that is reconciled. *)
Context (Hdep : CurrentOperation (si_Status i) = OperationDeprovision -> may_deprovision i).

Lemma tracks_deprovision prior r :
  may_deprovision i -> following i prior i -> tracks prior (deprovisionServiceInstance i r) anything.
Proof.
  intros Hm Hf. unfold deprovisionServiceInstance, originatingIdentityFor.
  apply wps_bind. eapply (wps_conseq _ _ _ (fun o h => match o with Ok _ => following i h i | _ => True end)).
  { track_writes. all: try done; follow_write. }
  intros [oi|e|] prior' Hf'; [|done..]. cbv zeta. apply wps_bind.
  eapply (wps_conseq _ _ _ (fun o h => match o with Ok t0 => following i h t0 | _ => True end)).
  { track_writes. all: try done. all: by (eapply following_copy; [| |exact Hf']; [reflexivity|cbn; auto]). }
  intros [t|e|] prior1 Hf1; [|done..]. apply wps_bind.
  eapply (wps_conseq _ _ _ (fun o h => match o with Ok t0 => following i h t0 | _ => True end)).
  { destruct (decide _); [|by apply wps_ret]. by apply tracks_recordStart. }
  intros [t2|e|] prior2 Hf2; [|done..]. unfold DeprovisionInstance.
  apply wps_bind, wps_try, wps_api. intros w [response|err] w' _; (split; [exact I|]).
  - apply tracks_deprovisionResponse. auto with tracking.
  - apply tracks_deprovisionError. auto with tracking.
Qed.

Lemma engaged_of_delete :
  AsyncOpInProgress (si_Status i) = false ->
  negb (AsyncOpInProgress (si_Status i)) && negb (OrphanMitigationInProgress (si_Status i)) &&
    (isServiceInstanceFailed i || (ReconciledGeneration (si_Status i) =? 0)) = false -> engaged i = true.
Proof.
  unfold engaged. intros ->. destruct (OrphanMitigationInProgress _); [by rewrite orb_true_r|].
  cbn. destruct (isServiceInstanceFailed i), (_ =? 0); cbn; try done; intros _; by rewrite !orb_true_r.
Qed.

Lemma tracks_delete :
  AsyncOpInProgress (si_Status i) = false -> tracks [] (reconcileServiceInstanceDelete i) anything.
Proof.
  intros Ha. unfold reconcileServiceInstanceDelete, bindingLister_List.
  destruct (_ && _) eqn:Hdy; [by apply wps_ret|].
  assert (Hm : may_deprovision i).
  { apply andb_false_iff in Hdy as [Hdy%bool_decide_eq_false|Hdy%negb_false_iff]; [by left|by right]. }
  apply wps_bind, wps_read. intros w [creds|e] w' _; [|done].
  destruct (existsb _ creds).
  { unfold blockDeprovision. track_writes. by apply tracked_set. }
  cbv zeta. destruct (negb (set_Has _ _)); [by apply wps_ret|].
  destruct (_ && _ && _) eqn:Hab.
  { track_writes. split; [|done]. exists i. split_and!; [by left|done|]. auto. }
  assert (Hf : following i [] i) by (apply following_self; [left; by apply engaged_of_delete|done]).
  apply wps_bind, tracks_lookup; [done| |done..]. intros r. by apply tracks_deprovision.
Qed.

Lemma tracks_provision prior t r :
  following i prior t -> tracks prior (provisionServiceInstance i t r) anything.
Proof.
  intros Hf. unfold provisionServiceInstance. apply wps_bind, wps_try, wps_read.
  intros w [ns|e] w' _; [|by apply tracks_failWith]. apply wps_bind.
  eapply (wps_conseq _ _ _ (fun o h => match o with Ok _ => following i h t | _ => True end)).
  { unfold prepareParameters. track_writes; [..|exact Hf].
    all: apply wps_quiet, wp_buildParameters; [intros [params red]|intros e]; (split; [done|]); track_writes.
    all: first [exact Hf | by apply tracks_failWith]. }
  intros [[[params checksum] raw]|e|] h Hh; [|done..]. cbv zeta. unfold originatingIdentityFor. apply wps_bind.
  eapply (wps_conseq _ _ _ (fun o h => match o with Ok _ => following i h t | _ => True end)).
  { track_writes. all: try done; follow_write. }
  intros [oi|e|] h1 Hh1; [|done..]. cbv zeta. apply wps_bind.
  match goal with |- context [si_upd (with_InProgressProperties ?ps) t] =>
    assert (Hf2 : following i h1 (si_upd (with_InProgressProperties ps) t))
      by (eapply following_copy; [| |exact Hh1]; [reflexivity|cbn; auto]);
    set (t1 := si_upd (with_InProgressProperties ps) t) in *
  end.
  eapply (wps_conseq _ _ _ (fun o h => match o with Ok t0 => following i h t0 | _ => True end)).
  { destruct (decide _); [by apply tracks_recordStart|by apply wps_ret]. }
  intros [t2|e|] h2 Hh2; [|done..]. unfold ProvisionInstance.
  apply wps_bind, wps_try, wps_api. intros w1 [response|err] w1' _; (split; [exact I|]).
  - apply tracks_provisionResponse. auto with tracking.
  - apply tracks_provisionError. auto with tracking.
Qed.

Lemma following_reference prior obj w t w' :
  env_ServiceInstances_UpdateReferences obj w = (inl t, w') -> si_Status obj = si_Status i -> refs_set obj ->
  following i (prior ++ [EInstanceUpdateReferences obj (inl t)]) t.
Proof.
  intros Hu Hs Hr. destruct (law_UpdateReferences _ _ _ _ Hu) as [[Hst _ _] Hrt]. split; [|by rewrite Hst, Hs].
  exists t. split_and!; [right; right; eexists; apply elem_of_app; right; left|done|auto].
Qed.

(** Resolving references: until they are stored, only conditions are written,
    over the version that is reconciled. *)
Lemma tracks_resolve :
  tracks [] (resolveReferences i) (fun o h => match o with Ok t => following i h t | _ => True end).
Proof.
  unfold resolveReferences, resolveServiceClass, resolveServicePlan, updateServiceInstanceCondition,
    updateServiceInstanceReferences, ServiceInstances_UpdateReferences, serviceClassLister_Get,
    ServiceClasses_List, ServicePlans_List.
  track_writes.
  all: try (by apply tracked_set); try (apply following_self; [right; by split; eexists|done]).
  all: eapply following_reference; [eassumption|done|]; split; cbn; eauto.
Qed.

Lemma tracks_reconcile : tracks [] (reconcileServiceInstance i) anything.
Proof.
  unfold reconcileServiceInstance, pollServiceInstanceInternal.
  destruct (AsyncOpInProgress (si_Status i)) eqn:Ha.
  { assert (Hf : following i [] i) by (apply following_self; [left; by apply engaged_async|done]).
    apply wps_bind, tracks_lookup; [done| |done..]. intros r. by apply tracks_poll. }
  destruct (negb _ || _); [by apply tracks_delete|].
  destruct (isServiceInstanceFailed i); [by apply wps_ret|]. destruct (_ =? _); [by apply wps_ret|].
  apply wps_bind. eapply wps_conseq; [exact tracks_resolve|]. intros [t|e|] h Hf; [|done..]. apply wps_bind, tracks_lookup; [done| |done..].
  intros r. by apply tracks_provision.
Qed.
End passes.
