(* ===== verification/InstanceLifecycle.v ===== *)
(** * The life of a stored instance

    The API server and the control loop put together, for one instance: users
    create, update and delete it through the registry strategies, while the
    controller, working on any version it has seen, writes its status and its
    references back.  The versions the store ever holds satisfy the invariant
    the control loop was verified under, so its guarantees hold of every run in
    the life of the instance. *)

From S2P Require Import Prelude Types Conditions Environment ParametersModel Validation ControllerCommon ValidationSpec APIServer InstanceController InstanceSpec Sample InstanceProofs InstanceTheorems Strategy InstanceTracking.

Section lifecycle.
Context {W : Type} {E : Env W} {C : Config} {L : InstanceLaws W} {Y : YamlLaws}.
Context {MV : MetaValidation} {SV : StoreValidation} {Sem : Semantic}.
Implicit Types (h : list ServiceInstance) (v s obj : ServiceInstance) (ctx : RequestContext).

Definition version v : string := ResourceVersion (si_Meta v).
Definition dying v : Prop := DeletionTimestamp (si_Meta v) <> None.
Local Notation run v w := (trace_of (reconcileServiceInstance v) w).

(** What the API server answered in a run are versions it stored. *)
Definition honest h (t : list Effect) : Prop :=
  forall obj j, EInstanceUpdateStatus obj (inl j) ∈ t \/ EInstanceUpdateReferences obj (inl j) ∈ t -> j ∈ h.

(** The next version; the history lists the versions, newest first.  The
    controller may work on an old version; resource versions are never reused. *)
Inductive next_version : list ServiceInstance -> ServiceInstance -> Prop :=
| user_creates ctx uid rv obj v :
    storeCreate instanceCreateStrategy ctx uid rv None obj = Stored v -> next_version [] v
| user_updates h s ctx rv obj v :
    storeUpdate instanceUpdateStrategy true ctx rv (Some s) obj = Stored v -> next_version (s :: h) v
| user_deletes h s ctx rv now v :
    storeDelete instanceDeleteStrategy ctx rv now (Some s) = Stored v -> next_version (s :: h) v
| controller_writes_status h s ctx rv i w t1 obj res t2 v :
    i ∈ s :: h -> run i w = t1 ++ EInstanceUpdateStatus obj res :: t2 -> honest (s :: h) t1 ->
    storeUpdate instanceStatusUpdateStrategy true ctx rv (Some s) obj = Stored v -> next_version (s :: h) v
| controller_writes_references h s ctx rv i w t1 obj res t2 v :
    i ∈ s :: h -> run i w = t1 ++ EInstanceUpdateReferences obj res :: t2 -> honest (s :: h) t1 ->
    storeUpdate instanceReferenceUpdateStrategy true ctx rv (Some s) obj = Stored v -> next_version (s :: h) v.

Inductive history : list ServiceInstance -> Prop :=
| history_nil : history []
| history_cons h v : history h -> next_version h v -> version v ∉ (version <$> h) -> history (v :: h).

(** ** The invariant of stored versions *)

Record stored_ok v : Prop := {
  so_unique : NoDup (cond_Type <$> Conditions (si_Status v));
  so_status : status_at_rest (si_Status v) \/ status_in_operation (si_Status v);
  so_orphan : OrphanMitigationInProgress (si_Status v) = false;
  so_refs : engaged v = true -> refs_set v;
  so_deprovision : CurrentOperation (si_Status v) = OperationDeprovision -> dying v }.

Lemma stored_instance_ok v : stored_ok v -> instance_ok v.
Proof.
  intros []. split; auto.
  - destruct so_status0; [by left|by right; left].
  - intros Hn. apply so_refs0. revert Hn. unfold needs_refs, engaged.
    destruct (AsyncOpInProgress _), (OrphanMitigationInProgress _), (isServiceInstanceFailed v), (_ =? 0);
      cbn; rewrite ?orb_true_r; done.
  - intros Ho. left. by apply so_deprovision0.
Qed.

(** The parts of a version that never change; references and the requesting
    user aside, that is the whole spec. *)
Definition identity v :=
  let spec := si_Spec v in
  (Name (si_Meta v), Namespace (si_Meta v), UID (si_Meta v),
   (ExternalServiceClassName spec, ExternalServicePlanName spec, Parameters spec, ParametersFrom spec, ExternalID spec)).

Definition generation_of v : Z := if decide (DeletionTimestamp (si_Meta v) = None) then 1 else 2.

(** How a version follows the one before it. *)
Record succeeds s v : Prop := {
  su_identity : identity v = identity s;
  su_dying : dying s -> dying v;
  su_generation : Generation (si_Meta s) = generation_of s -> Generation (si_Meta v) = generation_of v }.

(** A strategy that leaves the metadata and the user's part of the spec alone. *)
Definition keeps (st : RESTUpdateStrategy ServiceInstance) : Prop := forall ctx new s,
  si_Meta (PrepareForUpdate st ctx new s) = si_Meta new /\
  identity (si_with_Meta (si_Meta s) (PrepareForUpdate st ctx new s)) = identity s.

Lemma updates_prepared st ctx s obj v :
  updates st ctx s obj v -> exists new, si_Spec new = si_Spec obj /\ si_Status new = si_Status obj /\
    si_Spec v = si_Spec (PrepareForUpdate st ctx new s) /\ si_Status v = si_Status (PrepareForUpdate st ctx new s).
Proof. intros [_ (m & m' & _ & -> & _) _ _ _]. by exists (si_with_Meta m obj). Qed.

Lemma updates_succeeds st ctx s obj v : keeps st -> updates st ctx s obj v -> succeeds s v.
Proof.
  intros Hk [_ (m & m' & Hm & -> & Hg) Hd (Hn & Hns & Hu) _]. cbn in *.
  destruct (Hk ctx (si_with_Meta m obj) s) as [Hmeta Hid]. split.
  - unfold identity in *. cbn in *. by rewrite Hn, Hns, Hu.
  - unfold dying. cbn. by rewrite Hd.
  - intros H. unfold generation_of in *. cbn. rewrite Hd, Hg, Hmeta. cbn. by rewrite Hm.
Qed.

(** *** The user's steps *)

Context {SL : SemanticLaws}.

(** The strategy puts the stored spec back, so nothing of the update is left
    but metadata. *)
Lemma instancePrepareForUpdate_frozen ctx new old :
  instancePrepareForUpdate ctx new old = si_with_Spec (si_Spec old) (si_with_Status (si_Status old) new).
Proof. unfold instancePrepareForUpdate. cbn. by rewrite DeepEqual_instance_refl. Qed.

Lemma same_stored_ok s v :
  si_Status v = si_Status s -> (refs_set s -> refs_set v) -> (dying s -> dying v) -> stored_ok s -> stored_ok v.
Proof.
  intros Hs Hr Hd []. split; rewrite ?Hs; auto. unfold engaged, isServiceInstanceFailed in *. rewrite Hs. auto.
Qed.

Lemma user_creates_ok ctx uid rv obj v :
  storeCreate instanceCreateStrategy ctx uid rv None obj = Stored v ->
  stored_ok v /\ Generation (si_Meta v) = generation_of v.
Proof.
  unfold storeCreate, BeforeCreate. cbn. destruct (ValidNamespace _ _) as [obj1|]; [|done].
  destruct (_ ++ _); [|done]. intros [= <-].
  unfold instancePrepareForCreate. destruct OriginatingIdentityEnabled; (split; [|done]);
    (split; [apply NoDup_nil_2|left; by split|done..]).
Qed.

Lemma user_updates_ok ctx rv s obj v :
  storeUpdate instanceUpdateStrategy true ctx rv (Some s) obj = Stored v ->
  stored_ok s -> stored_ok v /\ succeeds s v.
Proof.
  intros Hu Hs. apply storeUpdate_updates in Hu as Hup; [|done].
  destruct (updates_prepared _ _ _ _ _ Hup) as (new & _ & _ & Hsp & Hst). cbn in Hsp, Hst.
  rewrite instancePrepareForUpdate_frozen in Hsp, Hst. cbn in Hsp, Hst.
  assert (Hsucc : succeeds s v).
  { eapply updates_succeeds; [|exact Hup]. intros ctx' new' s'. cbn.
    rewrite instancePrepareForUpdate_frozen. by destruct s'. }
  split; [|done]. eapply same_stored_ok; [exact Hst| |by destruct Hsucc|done].
  unfold refs_set. by rewrite Hsp.
Qed.

Lemma graceful_delete_kept ctx s :
  let s' := BeforeDelete instanceDeleteStrategy ctx s in
  si_Meta s' = si_Meta s /\ si_Status s' = si_Status s /\ (refs_set s -> refs_set s') /\ identity s' = identity s.
Proof.
  unfold BeforeDelete, instanceDeleteStrategy, instanceCheckGracefulDelete. cbn.
  destruct (bool_decide _); [|done]. by destruct OriginatingIdentityEnabled.
Qed.

Lemma marked_succeeds now s rv :
  succeeds s (modify (with_ResourceVersion rv) (markAsDeleting now s)) /\
  dying (modify (with_ResourceVersion rv) (markAsDeleting now s)).
Proof.
  split; [|done]. destruct s as [tm [n ns uid rv0 gen [d|] fin own] sp st]; split; try done.
  - unfold identity, markAsDeleting. cbn. by destruct (0 <? gen).
  - unfold generation_of. cbn. by intros ->.
Qed.

Lemma user_deletes_ok ctx rv now s v :
  storeDelete instanceDeleteStrategy ctx rv now (Some s) = Stored v ->
  stored_ok s -> stored_ok v /\ succeeds s v.
Proof.
  unfold storeDelete. cbv zeta. destruct (graceful_delete_kept ctx s) as (Hm & Hst & Hr & Hid).
  set (s' := BeforeDelete _ ctx s) in *. destruct (Nat.eqb _ _); [done|]. intros [= <-] Hs.
  destruct (marked_succeeds now s' rv) as [[Hi Hd Hg] Hdy]. split.
  - eapply same_stored_ok; [exact Hst|exact Hr|done|done].
  - split; [by etrans; [exact Hi|]|done|]. intros Hgs. apply Hg. unfold generation_of in *. by rewrite Hm.
Qed.
(** *** The controller's steps *)

(** The first version of a history is the stored one; the invariant of the
    whole history. *)
Record history_ok h : Prop := {
  ho_versions : NoDup (version <$> h);
  ho_stored : forall v, v ∈ h -> stored_ok v;
  ho_head : forall s h', h = s :: h' -> forall v, v ∈ h ->
    identity v = identity s /\ (dying v -> dying s);
  ho_generation : forall v, v ∈ h -> Generation (si_Meta v) = generation_of v }.

(** Resource versions tell the versions apart. *)
Lemma version_inj h v v' : NoDup (version <$> h) -> v ∈ h -> v' ∈ h -> version v = version v' -> v = v'.
Proof.
  induction h as [|x h IH]; cbn; [by intros _ ?%elem_of_nil|]. intros [Hx Hnd]%list.NoDup_cons Hv Hv' He.
  rewrite elem_of_cons in Hv, Hv'. destruct Hv as [->|Hv], Hv' as [->|Hv']; auto.
  - destruct Hx. rewrite He. by apply list_elem_of_fmap_2.
  - destruct Hx. rewrite <-He. by apply list_elem_of_fmap_2.
Qed.

Lemma run_tracked i w t1 obj res t2 :
  stored_ok i -> run i w = t1 ++ EInstanceUpdateStatus obj res :: t2 -> tracked i t1 obj.
Proof.
  intros Hi Ht.
  assert (Hdep : CurrentOperation (si_Status i) = OperationDeprovision -> may_deprovision i).
  { intros Ho. left. by apply (so_deprovision i Hi). }
  destruct (wps_run _ _ _ w (tracks_reconcile i Hdep)) as [Hs _]. rewrite Ht in Hs. by apply safe_split in Hs.
Qed.

Lemma run_status i w t1 obj res t2 :
  stored_ok i -> run i w = t1 ++ EInstanceUpdateStatus obj res :: t2 -> write_ok i t1 obj.
Proof.
  intros Hi Ht. exact (run_protocol i w _ _ _ (stored_instance_ok _ Hi) Ht).
Qed.

(** The version a status write is made from is the stored one. *)
Lemma write_base h s i t1 obj :
  history_ok (s :: h) -> i ∈ s :: h -> honest (s :: h) t1 -> tracked i t1 obj -> version obj = version s ->
  (engaged obj = true -> refs_set s) /\
  (CurrentOperation (si_Status obj) = OperationDeprovision -> dying s).
Proof.
  intros Hh Hi Hhon [(b & Hb & Hrv & Hbe) Hd] Hv.
  assert (Hbin : b ∈ s :: h).
  { destruct Hb as [->|[[o Ho]|[o Ho]]]; [done|..]; apply (Hhon o); auto. }
  assert (b = s) as ->.
  { eapply version_inj; [apply (ho_versions _ Hh)|done|left|]. unfold version in *. congruence. }
  pose proof (ho_stored _ Hh s) as Hs. split.
  - intros He. destruct (Hbe He) as [He'|]; [|done]. apply so_refs; [apply Hs; left|done].
  - intros Ho. apply (ho_head _ Hh _ _ eq_refl i Hi). destruct (Hd Ho) as [|Ho']; [done|].
    rewrite (so_orphan i (ho_stored _ Hh i Hi)) in Ho'. done.
Qed.

Lemma controller_status_ok h s ctx rv i w t1 obj res t2 v :
  history_ok (s :: h) -> i ∈ s :: h -> run i w = t1 ++ EInstanceUpdateStatus obj res :: t2 ->
  honest (s :: h) t1 -> storeUpdate instanceStatusUpdateStrategy true ctx rv (Some s) obj = Stored v ->
  stored_ok v /\ succeeds s v.
Proof.
  intros Hh Hi Ht Hhon Hu. pose proof (ho_stored _ Hh i Hi) as Hiok.
  pose proof (run_tracked i w _ _ _ _ Hiok Ht) as Htr. pose proof (run_status i w _ _ _ _ Hiok Ht) as Hw.
  apply storeUpdate_updates in Hu as Hup; [|done].
  destruct (updates_prepared _ _ _ _ _ Hup) as (new & _ & Hst & Hsp & Hst').
  cbn in Hsp, Hst'. rewrite Hst in Hst'.
  assert (Hsucc : succeeds s v) by (eapply updates_succeeds; [|exact Hup]; intros ??[]; done).
  split; [|done]. destruct (write_base h s i t1 obj Hh Hi Hhon Htr (up_version _ _ _ _ _ Hup)) as [Hr Hd].
  destruct (up_valid _ _ _ _ _ Hup) as (m & Hval).
  assert (Hvalid : status_at_rest (si_Status obj) \/ status_in_operation (si_Status obj)).
  { rewrite <-(validateServiceInstanceStatus_spec _ "status"), <-Hst'.
    cbn in Hval. unfold ValidateServiceInstanceStatusUpdate, internalValidateServiceInstance in Hval.
    rewrite !app_nil_iff in Hval. by destruct_and!. }
  split; rewrite ?Hst'.
  - apply (wo_unique _ _ _ Hw).
  - done.
  - destruct (OrphanMitigationInProgress (si_Status obj)) eqn:Ho; [|done].
    destruct (wo_mitigation _ _ _ Hw Ho) as [Ho'|[Hop Hstart]]; [by rewrite (so_orphan i Hiok) in Ho'|].
    destruct Hvalid as [[]|[]]; [done|]. by rewrite Hstart in op_start; destruct op_start.
  - unfold engaged, isServiceInstanceFailed, refs_set in *. rewrite Hst', Hsp. auto.
  - intros Ho. apply (su_dying _ _ Hsucc). auto.
Qed.

Lemma controller_references_ok h s ctx rv i w t1 obj res t2 v :
  history_ok (s :: h) -> i ∈ s :: h -> run i w = t1 ++ EInstanceUpdateReferences obj res :: t2 ->
  storeUpdate instanceReferenceUpdateStrategy true ctx rv (Some s) obj = Stored v ->
  stored_ok v /\ succeeds s v.
Proof.
  intros Hh Hi Ht Hu. pose proof (ho_stored _ Hh i Hi) as Hiok.
  destruct (run_protocol i w _ _ _ (stored_instance_ok _ Hiok) Ht) as [_ Hrefs].
  apply storeUpdate_updates in Hu as Hup; [|done].
  destruct (updates_prepared _ _ _ _ _ Hup) as (new & Hsn & _ & Hsp & Hst). cbn in Hsp, Hst.
  assert (Hsucc : succeeds s v) by (eapply updates_succeeds; [|exact Hup]; intros ??[]; done).
  split; [|done]. eapply same_stored_ok; [exact Hst| |by destruct Hsucc|apply (ho_stored _ Hh); left].
  intros _. unfold refs_set. rewrite Hsp. cbn. by rewrite Hsn.
Qed.

Lemma history_ok_cons h s v :
  history_ok (s :: h) -> stored_ok v -> succeeds s v -> version v ∉ (version <$> s :: h) -> history_ok (v :: s :: h).
Proof.
  intros [Hv Hst Hhd Hg] Hok [Hi Hd Hgen] Hf. split.
  - by apply list.NoDup_cons.
  - intros x [->|Hx]%elem_of_cons; auto.
  - intros s0 h0 [= <- <-] x [->|Hx]%elem_of_cons; [done|]. destruct (Hhd _ _ eq_refl x Hx) as [H1 H2].
    split; [by rewrite Hi|auto].
  - intros x [->|Hx]%elem_of_cons; [|auto]. apply Hgen, Hg. left.
Qed.

Lemma history_invariant h : history h -> history_ok h.
Proof.
  induction 1 as [|h v Hh IH Hn Hf].
  { split; [apply NoDup_nil_2|..]; try by intros ? ?%elem_of_nil. done. }
  destruct Hn as [ctx uid rv obj v Hc|h s ctx rv obj v Hu|h s ctx rv now v Hd|h s ctx rv i w t1 obj res t2 v Hi Ht Hhon Hu
    |h s ctx rv i w t1 obj res t2 v Hi Ht Hhon Hu].
  - destruct (user_creates_ok _ _ _ _ _ Hc). split; [by apply list.NoDup_singleton|..].
    + by intros x ->%list_elem_of_singleton.
    + by intros s h' [= <- <-] x ->%list_elem_of_singleton.
    + by intros x ->%list_elem_of_singleton.
  - destruct (user_updates_ok _ _ _ _ _ Hu); [apply (ho_stored _ IH); left|]. by apply history_ok_cons.
  - destruct (user_deletes_ok _ _ _ _ _ Hd); [apply (ho_stored _ IH); left|]. by apply history_ok_cons.
  - destruct (controller_status_ok _ _ _ _ _ _ _ _ _ _ _ IH Hi Ht Hhon Hu). by apply history_ok_cons.
  - destruct (controller_references_ok _ _ _ _ _ _ _ _ _ _ _ IH Hi Ht Hu). by apply history_ok_cons.
Qed.
(** ** Properties *)

(** C4: whatever users and the controller do to an instance, in any order and
    against stale caches, every version of it the store ever holds satisfies
    the invariant of the control loop: reconciling any of them, in any state of
    the environment, never panics, and none of them has orphan mitigation in
    progress. *)
Theorem every_stored_version_is_handled h v w :
  history h -> v ∈ h ->
  instance_ok v /\ OrphanMitigationInProgress (si_Status v) = false /\
  outcome_of (reconcileServiceInstance v) w <> Panic.
Proof.
  intros Hh%history_invariant Hv. pose proof (ho_stored _ Hh v Hv) as Hs.
  pose proof (stored_instance_ok v Hs) as Hok. split_and!; [done|by destruct Hs|].
  by destruct (run_safe v w Hok) as [_ [? _]].
Qed.

(** C12: what a user asked for with an instance never changes (the API server puts
    it back on every update): any two versions that were ever stored of it have
    the same name, namespace and UID, and their specs differ in nothing but the
    three fields that are written for the user, the resolved references to class
    and plan and the requesting user.  The generation counts nothing but the
    deletion: 1 while the instance lives, 2 from the moment it is being deleted. *)
Theorem requested_spec_is_frozen h v v' :
  history h -> v ∈ h -> v' ∈ h ->
  Name (si_Meta v) = Name (si_Meta v') /\ Namespace (si_Meta v) = Namespace (si_Meta v') /\ UID (si_Meta v) = UID (si_Meta v') /\
  si_Spec v = with_si_UserInfo (si_UserInfo (si_Spec v)) (with_ServicePlanRef (ServicePlanRef (si_Spec v))
                (with_ServiceClassRef (ServiceClassRef (si_Spec v)) (si_Spec v'))) /\
  Generation (si_Meta v) = if decide (DeletionTimestamp (si_Meta v) = None) then 1 else 2.
Proof.
  intros Hh%history_invariant Hv Hv'. assert (Hsame : identity v = identity v').
  { destruct h as [|s h]; [by apply elem_of_nil in Hv|].
    destruct (ho_head _ Hh _ _ eq_refl v Hv) as [-> _]. by destruct (ho_head _ Hh _ _ eq_refl v' Hv') as [-> _]. }
  pose proof (ho_generation _ Hh v Hv) as Hg. clear Hh Hv Hv'. unfold identity in Hsame. revert Hsame.
  destruct (si_Spec v), (si_Spec v'). cbn. intros [=]. subst. by split_and!.
Qed.

(** The instance a broker request is about. *)
Definition requested_instance (e : Effect) : option string :=
  match e with
  | EProvision _ req _ => Some (pr_InstanceID req)
  | EDeprovision _ req _ => Some (dr_InstanceID req)
  | EPollLastOperation _ req _ => Some (lo_InstanceID req)
  | _ => None
  end.

(** C11: all requests ever sent to brokers for an instance, from whatever
    version and through whatever run, name one and the same instance: the
    external ID the instance was created with. *)
Theorem requests_name_one_instance h v v' w e id :
  history h -> v ∈ h -> v' ∈ h -> e ∈ run v w -> requested_instance e = Some id -> id = ExternalID (si_Spec v').
Proof.
  intros Hh%history_invariant Hv Hv' He Hid.
  assert (Hsame : identity v = identity v').
  { destruct h as [|s h]; [by apply elem_of_nil in Hv|].
    destruct (ho_head _ Hh _ _ eq_refl v Hv) as [-> _]. by destruct (ho_head _ Hh _ _ eq_refl v' Hv') as [-> _]. }
  assert (ExternalID (si_Spec v') = ExternalID (si_Spec v)) as -> by (unfold identity in Hsame; congruence).
  pose proof (stored_instance_ok v (ho_stored _ Hh v Hv)) as Hok.
  destruct (run_effect v w e Hok He) as [t1 Hp]. destruct e; try done; cbn in Hid; simplify_eq; by destruct Hp.
Qed.
End lifecycle.

(** ** A concrete history *)

#[export] Instance sample_store : StoreValidation :=
  {| validateMeta _ _ := []; validateOwnerReferences _ := [] |}.
#[export] Instance sample_semantic : Semantic :=
  {| DeepEqual_instance _ _ := true; DeepEqual_binding _ _ := true; DeepEqual_broker s1 s2 := (RelistRequests s1 =? RelistRequests s2) |}.
#[export] Instance sample_semantic_laws : SemanticLaws.
Proof. split; [done..|]. intros s. apply Z.eqb_refl. Qed.

Definition sample_context : RequestContext :=
  {| ctx_Namespace := "ns"; ctx_User := Some {| u_Name := "alice"; u_UID := "u1"; u_Groups := None; u_Extra := ∅ |} |}.

Definition stored_of (r : UpdateResult ServiceInstance) : ServiceInstance :=
  match r with Stored v => v | _ => instance1 end.

(** Created by a user, then its references resolved by the controller, then
    deleted. *)
Definition version1 : ServiceInstance :=
  stored_of (storeCreate instanceCreateStrategy sample_context "uid-1" "1" None instance1).
Definition run_version1 : list Effect := trace_of (reconcileServiceInstance version1) world1.
Definition resolved_instance : ServiceInstance :=
  match run_version1 with EInstanceUpdateReferences obj _ :: _ => obj | _ => instance1 end.
Definition version2 : ServiceInstance :=
  stored_of (storeUpdate instanceReferenceUpdateStrategy true sample_context "2" (Some version1) resolved_instance).
Definition version3 : ServiceInstance :=
  stored_of (storeDelete instanceDeleteStrategy sample_context "3" 500 (Some version2)).

Lemma sample_history : history (W:=World) [version3; version2; version1].
Proof.
  apply history_cons; [apply history_cons; [apply history_cons; [apply history_nil| |]| |]| |].
  - eapply (user_creates sample_context "uid-1" "1" instance1). vm_compute. reflexivity.
  - by apply not_elem_of_nil.
  - eapply (controller_writes_references [] version1 sample_context "2" version1 world1 [] resolved_instance _ (drop 1 run_version1)).
    + left.
    + vm_compute. reflexivity.
    + by intros ? ? [?%elem_of_nil|?%elem_of_nil].
    + vm_compute. reflexivity.
  - vm_compute. by intros ?%list_elem_of_singleton.
  - eapply (user_deletes [version1] version2 sample_context "3" 500). vm_compute. reflexivity.
  - vm_compute. by intros [?|?%list_elem_of_singleton]%elem_of_cons.
Qed.

Lemma version3_in : version3 ∈ [version3; version2; version1].
Proof. left. Qed.

Lemma every_stored_version_is_handled_witness :
  DeletionTimestamp (si_Meta version3) = Some 500 /\ instance_ok version3 /\
  OrphanMitigationInProgress (si_Status version3) = false /\
  outcome_of (reconcileServiceInstance version3) world1 <> Panic.
Proof.
  split; [vm_compute; reflexivity|].
  exact (every_stored_version_is_handled _ version3 world1 sample_history version3_in).
Defined.

Lemma requested_spec_is_frozen_witness :
  UID (si_Meta version3) = UID (si_Meta version1) /\ ExternalID (si_Spec version3) = ExternalID (si_Spec version1) /\
  Generation (si_Meta version3) = if decide (DeletionTimestamp (si_Meta version3) = None) then 1 else 2.
Proof.
  destruct (requested_spec_is_frozen _ version3 version1 sample_history version3_in) as (_ & _ & Hu & Hs & Hg); [right; right; left|].
  split_and!; [exact Hu|by rewrite Hs|exact Hg].
Defined.

Lemma requests_name_one_instance_witness :
  exists e, e ∈ trace_of (reconcileServiceInstance version2) world1 /\
    requested_instance e = Some "instance-guid" /\ "instance-guid" = ExternalID (si_Spec version3).
Proof.
  eexists. split; [apply (list_elem_of_lookup_2 _ 1); vm_compute; reflexivity|]. split; [reflexivity|].
  eapply (requests_name_one_instance _ version2 version3 world1 _ _ sample_history).
  - right; left.
  - left.
  - apply (list_elem_of_lookup_2 _ 1). vm_compute. reflexivity.
  - reflexivity.
Defined.
