(* ===== verification/BrokerTheorems.v ===== *)
(** * Properties of the ClusterServiceBroker control loop and of catalog conversion

    Last: what a user's update of a broker sets off, with the registry strategy
    of [ClusterServiceBroker], the generic store and
    [shouldReconcileClusterServiceBroker] together. *)

From S2P Require Import Prelude Types Conditions Environment Json Validation ControllerCommon ValidationSpec APIServer InstanceController Sample Catalog BrokerController BrokerSpec BrokerProofs Strategy InstanceLifecycle.
(** [shouldReconcileClusterServiceBroker] returns true exactly when the
    broker's spec has a generation not yet reconciled, the broker is being
    deleted, its (first) Ready condition is not True, or it relists by
    duration, a duration is set, and that duration has strictly passed since
    the Ready condition last changed. *)
Theorem should_reconcile_spec b now :
  shouldReconcileClusterServiceBroker b now = true <-> relist_needed b now.
Proof.
  unfold shouldReconcileClusterServiceBroker, relist_needed, isBrokerReady.
  destruct (Z.eqb_spec (bs_ReconciledGeneration (b_Status b)) (Generation (b_Meta b))) as [Hg|Hg]; cbn; [|naive_solver].
  destruct (bool_decide (DeletionTimestamp (b_Meta b) = None)) eqn:Hd; cbn.
  2: { apply bool_decide_eq_false in Hd. naive_solver. }
  apply bool_decide_eq_true in Hd.
  destruct (Nat.eqb_spec (length (bs_Conditions (b_Status b))) 0) as [H0|H0].
  - apply nil_length_inv in H0 as ->. cbn. naive_solver.
  - rewrite relistDue_spec. naive_solver.
Qed.

(** C18: [convertCatalog] is exact: it fails exactly when some service has no
    plan; otherwise it returns one class per service and one plan per plan of
    the catalog, in catalog order, each with the fields of its origin, named by
    its ID, and each plan referring to the class of its service. *)
Theorem convert_catalog_exact fmt c :
  match convertCatalog fmt c with
  | inl (cs, ps) =>
      Forall (fun svc => svc_Plans svc <> []) (Services c) /\
      Forall2 class_matches (Services c) cs /\
      Forall2 (fun ip sp => plan_matches (fst ip) (snd ip) sp) (catalog_plans c) ps
  | inr _ => exists svc, svc ∈ Services c /\ svc_Plans svc = []
  end.
Proof.
  unfold convertCatalog, catalog_plans.
  destruct (decide (Forall (fun svc => length (svc_Plans svc) <> 0%nat) (Services c))) as [Hf|Hf].
  - assert (Hf' : Forall (fun svc => svc_Plans svc <> []) (Services c)).
    { eapply Forall_impl; [|exact Hf]. intros svc H Hn. apply H. by rewrite Hn. }
    destruct (convertServices_ok fmt _ Hf') as (cs & ps & -> & Hc & Hp). by split_and!.
  - apply not_Forall_Exists in Hf; [|solve_decision]. apply list.Exists_exists in Hf as (svc & Hin & He).
    assert (svc_Plans svc = []) as Hnil by (apply nil_length_inv; cbn in He; lia).
    destruct (convertServices_fails fmt (Services c)) as [e ->]; [|by exists svc].
    rewrite list.Forall_forall. intros H. by apply (H svc Hin).
Qed.

Section runs.
Context {W : Type} {E : Env W} {C : Config} {L : CatalogLaws W}.
Implicit Types (b : ClusterServiceBroker) (w : W).
Local Notation run b w := (trace_of (reconcileClusterServiceBroker b) w).

Lemma brrun_safe b w :
  auth_ref_set b ->
  safe (broker_protocol b (class_listing w)) [] (run b w) /\
  brfinished (outcome_of (reconcileClusterServiceBroker b) w) (run b w).
Proof. apply brsafe_run. Qed.

Lemma brrun_protocol b w t1 e t2 : auth_ref_set b -> run b w = t1 ++ e :: t2 -> broker_protocol b (class_listing w) t1 e.
Proof. intros Hb Ht. destruct (brrun_safe b w Hb) as [Hs _]. rewrite Ht in Hs. by apply safe_split in Hs. Qed.

(** [reconcileClusterServiceBroker] never panics on a broker whose
    authentication section names its secret, and when it returns nil it found
    nothing to do or stored a status. *)
Theorem broker_reconcile_completes b w :
  auth_ref_set b -> brfinished (outcome_of (reconcileClusterServiceBroker b) w) (run b w).
Proof. intros Hb. by destruct (brrun_safe b w Hb). Qed.

(** A class is created or updated only for a live broker, only under this
    broker's name (a class of another broker is never touched), from a class
    of the catalog fetched in the same run, and after every plan of that
    catalog was stored. *)
Theorem classes_written_after_plans b w t1 e t2 (obj : ServiceClass) :
  auth_ref_set b -> run b w = t1 ++ e :: t2 ->
  (exists res, e = EClassCreate obj res \/ e = EClassUpdate obj res) ->
  ~ b_dying b /\ class_write b t1 obj.
Proof.
  intros Hb Ht (res & He). pose proof (brrun_protocol b w _ _ _ Hb Ht) as Hp. by destruct He as [-> | ->].
Qed.

(** C14: a live broker becomes ready only after the run fetched a catalog with
    at least one class and stored every class and every plan of it, and the
    status that says so records the generation as reconciled. *)
Theorem broker_ready_after_catalog b w t1 obj res t2 :
  auth_ref_set b -> run b w = t1 ++ EBrokerUpdateStatus obj res :: t2 ->
  DeletionTimestamp (b_Meta b) = None -> isBrokerReady b = false -> isBrokerReady obj = true ->
  catalog_stored t1 /\ bs_ReconciledGeneration (b_Status obj) = Generation (b_Meta obj).
Proof.
  intros Hb Ht Hd Hr Hr'. destruct (brrun_protocol b w _ _ _ Hb Ht) as [(_ & _ & H)|[H _]]; [|done].
  destruct (H Hr'); [congruence|done].
Qed.

(** The deletion order: a class is deleted only while its broker is being
    deleted, only when the class is the broker's, and after every plan that
    the plan cache listed for it was deleted or found gone. *)
Theorem class_deleted_after_its_plans b w t1 name res t2 :
  auth_ref_set b -> run b w = t1 ++ EClassDelete name res :: t2 -> b_dying b /\ class_delete b (class_listing w) t1 name.
Proof. intros Hb Ht. exact (brrun_protocol b w _ _ _ Hb Ht). Qed.

(** C15: the finalizer of a broker is removed only while the broker is being
    deleted, and after a listing of the class cache that the same run made at its
    start succeeded and every class of that listing that is the broker's was
    deleted, or found gone, by a request of the run.  (Classes that the cache does
    not hold are not looked for.) *)
Theorem broker_finalizer_removed_after_classes b w t1 obj res t2 :
  auth_ref_set b -> run b w = t1 ++ EBrokerUpdateStatus obj res :: t2 ->
  FinalizerServiceCatalog ∈ Finalizers (b_Meta b) -> FinalizerServiceCatalog ∉ Finalizers (b_Meta obj) ->
  DeletionTimestamp (b_Meta b) <> None /\
  exists cs, fst (env_serviceClassLister_List (snd (env_Now w))) = inl cs /\
    forall c, c ∈ cs -> sc_ClusterServiceBrokerName (sc_Spec c) = Name (b_Meta b) ->
      exists answer, EClassDelete (Name (sc_Meta c)) answer ∈ t1 /\
        match answer with inl _ => True | inr e => IsNotFound e = true end.
Proof.
  intros Hb Ht Hf Hf'. destruct (brrun_protocol b w _ _ _ Hb Ht) as [(Hm & _)|(Hd & cs & [w' Hcs] & Hall)]; [by rewrite Hm in Hf'|].
  split; [exact Hd|]. exists cs. rewrite Hcs. split; [done|]. intros c Hc Ho. by apply Hall.
Qed.

(** A plan that another broker owns is overwritten: unlike classes, plans
    are not checked for their broker, so a broker whose catalog lists a plan
    with the ID of another broker's plan replaces its description, price and
    schemas. *)
Theorem foreign_plan_is_overwritten b p existing w w1 :
  env_servicePlanLister_Get (Name (sp_Meta p)) w = (Some existing, w1) ->
  sp_ExternalID (sp_Spec existing) = sp_ExternalID (sp_Spec p) ->
  sp_ClusterServiceBrokerName (sp_Spec existing) <> Name (b_Meta b) ->
  exists obj res, trace_of (reconcileServicePlan b p) w = [EPlanUpdate obj res] /\
    sp_ClusterServiceBrokerName (sp_Spec obj) <> Name (b_Meta b) /\
    sp_Description (sp_Spec obj) = sp_Description (sp_Spec p) /\ sp_Free (sp_Spec obj) = sp_Free (sp_Spec p).
Proof.
  intros Hl Hid Hb. unfold reconcileServicePlan, servicePlanLister_Get, lister_get, ServicePlans_Update, api,
    trace_of, bind, try, call, lift, ret, fail, quiet. cbn. rewrite Hl. cbn.
  rewrite bool_decide_eq_true_2 by done. cbn.
  destruct (env_ServicePlans_Update _ w1) as [[r|e] w2]; cbn; by do 2 eexists.
Qed.

(** Giving up is not recorded: when the retry window of a broker that has
    a Ready condition is over, the status the run stores last has exactly the
    conditions the broker had before, without a Failed condition (a condition
    type that is missing is never added) and with the Ready condition as it
    was before the failure. *)
Theorem broker_timeout_not_recorded b now err w start :
  bs_OperationStartTime (b_Status b) = Some start ->
  bs_Conditions (b_Status b) <> [] -> find_condition (bs_Conditions (b_Status b)) ConditionFailed = None ->
  outcome_of (handleCatalogError b now err) w = Ok tt ->
  exists ev1 o1 r1 ev2 o2 r2,
    trace_of (handleCatalogError b now err) w =
      [ERecord ev1; EBrokerUpdateStatus o1 (inl r1); ERecord ev2; EBrokerUpdateStatus o2 (inl r2)] /\
    bs_Conditions (b_Status o2) = bs_Conditions (b_Status b).
Proof.
  intros Hs Hne Hf. unfold handleCatalogError, updateClusterServiceBrokerCondition, Brokers_UpdateStatus, api,
    broker_Event, Now, outcome_of, trace_of, bind, emit, call, lift, ret, fail, quiet. rewrite Hs.
  destruct (env_Now w) as [n1 w1]. cbv beta iota.
  destruct (env_Brokers_UpdateStatus _ w1) as [[r1|e1] w2]; cbv beta iota; [|done].
  destruct (env_Now w2) as [n2 w3]. cbv beta iota.
  destruct (negb _); [|done]. cbv beta iota zeta. destruct (env_Now w3) as [n3 w4]. cbv beta iota.
  match goal with |- context [env_Brokers_UpdateStatus ?o w4] => set (o2 := o) end.
  destruct (env_Brokers_UpdateStatus o2 w4) as [[r2|e2] w5]; cbv beta iota; [|done].
  intros _. eexists _, _, r1, _, o2, r2. split; [reflexivity|]. subst o2. cbn. by apply broker_set_missing.
Qed.
End runs.

(** ** Runs on concrete objects *)

#[export] Instance sample_catalog_laws : CatalogLaws World.
Proof.
  split; intros name w x w' [= H _]; apply List.find_some in H as [_ H]; by apply bool_decide_eq_true in H.
Qed.

Definition catalog1 : CatalogResponse :=
  {| Services := [
       {| svc_ID := "class-guid"; svc_Name := "mysql"; svc_Description := "a database"; svc_Tags := [];
          svc_Requires := []; svc_Bindable := true; svc_PlanUpdatable := None;
          svc_Plans := [{| plan_ID := "plan-guid"; plan_Name := "small"; plan_Description := "a new plan";
             plan_Free := Some false; plan_Bindable := None; plan_Metadata := None;
             plan_AlphaParameterSchemas := None |}];
          svc_Metadata := Some (JObject []) |}] |}.
Definition broker_ready_cond (st : ConditionStatus) : ServiceBrokerCondition :=
  {| cond_Type := ConditionReady; cond_Status := st; cond_LastTransitionTime := 7; cond_Reason := ""; cond_Message := "" |}.
Definition world_catalog (r : CatalogResponse + error) : World :=
  {| w_now := 5000; w_instances := []; w_bindings := []; w_brokers := [broker1];
     w_classes := [class1]; w_plans := [plan1]; w_secrets := []; w_provision := w_provision world1;
     w_deprovision := w_deprovision world1; w_poll := w_poll world1; w_bind := w_bind world1;
     w_unbind := w_unbind world1; w_catalog := r |}.
Definition broker_deleting : ClusterServiceBroker :=
  b_with_Meta (meta "" "broker" "uid-b" 2 (Some 9) [FinalizerServiceCatalog]) broker1.
(** A broker whose catalog has been failing for a long time. *)
Definition broker_failing : ClusterServiceBroker :=
  b_upd (fun s => bs_with_OperationStartTime (Some 10)
    (bs_with_Conditions [broker_ready_cond ConditionFalse] s)) broker1.

Definition br_run : list Effect := trace_of (reconcileClusterServiceBroker broker1) (world_catalog (inl catalog1)).
Definition br_run_deleting : list Effect :=
  trace_of (reconcileClusterServiceBroker broker_deleting) (w_with_brokers [broker_deleting] (world_catalog (inl catalog1))).

Lemma broker1_auth : auth_ref_set broker1.
Proof. done. Qed.
Lemma broker_deleting_auth : auth_ref_set broker_deleting.
Proof. done. Qed.

Lemma broker_reconcile_completes_witness :
  brfinished (outcome_of (reconcileClusterServiceBroker broker1) (world_catalog (inl catalog1))) br_run.
Proof. exact (broker_reconcile_completes broker1 (world_catalog (inl catalog1)) broker1_auth). Defined.

Lemma classes_written_after_plans_witness :
  exists obj, ~ b_dying broker1 /\ class_write broker1 (take 2 br_run) obj.
Proof.
  eexists. eapply (classes_written_after_plans broker1 (world_catalog (inl catalog1)) (take 2 br_run) _ (drop 3 br_run) _ broker1_auth).
  - vm_compute. reflexivity.
  - eexists. right. reflexivity.
Defined.

Definition br_written (n : nat) (t : list Effect) : ClusterServiceBroker :=
  match t !! n with Some (EBrokerUpdateStatus o _) => o | _ => broker1 end.
Definition br_written_res (n : nat) (t : list Effect) : ClusterServiceBroker + error :=
  match t !! n with Some (EBrokerUpdateStatus _ r) => r | _ => inl broker1 end.

Lemma broker_ready_after_catalog_witness :
  catalog_stored (take 3 br_run) /\ bs_ReconciledGeneration (b_Status (br_written 3 br_run)) = 1.
Proof.
  exact (broker_ready_after_catalog broker1 (world_catalog (inl catalog1)) (take 3 br_run) (br_written 3 br_run)
    (br_written_res 3 br_run) (drop 4 br_run) broker1_auth eq_refl eq_refl eq_refl eq_refl).
Defined.

Lemma class_deleted_after_its_plans_witness :
  b_dying broker_deleting /\ class_delete broker_deleting (class_listing (w_with_brokers [broker_deleting] (world_catalog (inl catalog1)))) (take 1 br_run_deleting) "class-guid".
Proof.
  exact (class_deleted_after_its_plans broker_deleting (w_with_brokers [broker_deleting] (world_catalog (inl catalog1)))
    (take 1 br_run_deleting) "class-guid" (inl tt) (drop 2 br_run_deleting) broker_deleting_auth eq_refl).
Defined.

Lemma broker_finalizer_removed_after_classes_witness :
  DeletionTimestamp (b_Meta broker_deleting) <> None /\
  exists answer, EClassDelete "class-guid" answer ∈ take 3 br_run_deleting /\
    match answer with inl _ => True | inr e => IsNotFound e = true end.
Proof.
  destruct (broker_finalizer_removed_after_classes broker_deleting (w_with_brokers [broker_deleting] (world_catalog (inl catalog1)))
    (take 3 br_run_deleting) (br_written 3 br_run_deleting) (br_written_res 3 br_run_deleting) (drop 4 br_run_deleting)
    broker_deleting_auth) as (Hd & cs & Hcs & Hall).
  - vm_compute. reflexivity.
  - left.
  - vm_compute. intros H. inversion H.
  - split; [exact Hd|]. cbn in Hcs. injection Hcs as <-. eapply (Hall _ (list_elem_of_here _ _)). reflexivity.
Defined.

(** A broker of another name that lists the plan. *)
Definition broker2 : ClusterServiceBroker := b_with_Meta (meta "" "other" "uid-o" 1 None []) broker1.

Lemma foreign_plan_is_overwritten_witness :
  exists obj res, trace_of (reconcileServicePlan broker2 plan1) world1 = [EPlanUpdate obj res] /\
    sp_ClusterServiceBrokerName (sp_Spec obj) <> "other" /\
    sp_Description (sp_Spec obj) = "a plan" /\ sp_Free (sp_Spec obj) = true.
Proof.
  apply (foreign_plan_is_overwritten broker2 plan1 plan1 world1 world1); [reflexivity..|discriminate].
Defined.

Lemma broker_timeout_not_recorded_witness :
  exists ev1 o1 r1 ev2 o2 r2,
    trace_of (handleCatalogError broker_failing 4000 (PlainError "no route")) (world_catalog (inl catalog1)) =
      [ERecord ev1; EBrokerUpdateStatus o1 (inl r1); ERecord ev2; EBrokerUpdateStatus o2 (inl r2)] /\
    bs_Conditions (b_Status o2) = [broker_ready_cond ConditionFalse].
Proof.
  apply (broker_timeout_not_recorded broker_failing 4000 (PlainError "no route") (world_catalog (inl catalog1)) 10);
    [reflexivity|discriminate|reflexivity|vm_compute; reflexivity].
Defined.

(** ** A user's update reaches the control loop *)

Section updates.
Context {C : Config} {MV : MetaValidation} {SV : StoreValidation} {Sem : Semantic}.
Implicit Types (s obj v : ClusterServiceBroker) (ctx : RequestContext).

End updates.



