(* ===== verification/BindingLifecycle.v ===== *)
(** * The life of a stored binding

    The counterpart of [InstanceLifecycle] for [ServiceInstanceCredential]:
    users act through the registry strategies, the controller writes statuses
    back, and every version the store ever holds satisfies the invariant the
    binding loop was verified under. *)

From S2P Require Import Prelude Types Conditions Environment ParametersModel Validation ControllerCommon ValidationSpec APIServer InstanceController InstanceSpec Sample InstanceProofs BindingController BindingSpec BindingProofs BindingTheorems Strategy InstanceLifecycle.

(** ** Unbinding is recorded only for bindings on their way out *)

Section tracking.
Context {W : Type} {E : Env W} {C : Config} {L : InstanceLaws W} {LB : BindingLaws W} (b : ServiceInstanceCredential).
Implicit Types (t obj : ServiceInstanceCredential).

Definition unbind_ok obj : Prop := bind_CurrentOperation (bind_Status obj) = BOperationUnbind -> BindingSpec.dying b.

Definition btrack (prior : list Effect) (e : Effect) : Prop :=
  match e with EBindingUpdateStatus obj _ => unbind_ok obj | _ => True end.

Local Notation tracks := (wps (W:=W) btrack).
Local Notation anything := (fun _ _ => True).

Ltac unbind_writes :=
  unfold setServiceInstanceCredentialCondition, updateServiceInstanceCredentialStatus, Bindings_UpdateStatus,
    retryDurationElapsed, binding_Event, Bind, Unbind, Secrets_Get, Secrets_Create, Secrets_Update, Secrets_Delete, lift;
  repeat (cbv beta iota zeta; first [exact I | wps_step]);
  repeat match goal with |- context [match ?x with _ => _ end] => destruct x end;
  try exact I; try (unfold btrack, unbind_ok in *; cbn in *; by auto).

Lemma tracks_bindError prior t i r err : unbind_ok t -> tracks prior (handleBindError b t i r err) anything.
Proof. intros Ht. unfold handleBindError, setAndUpdateOrphanMitigation. unbind_writes. Qed.

Lemma tracks_bindResponse prior t i r response :
  unbind_ok t -> tracks prior (handleBindResponse b t i r response) anything.
Proof.
  intros Ht. unfold handleBindResponse, setAndUpdateOrphanMitigation, injectServiceInstanceCredential. unbind_writes.
Qed.

Lemma tracks_unbindError prior t i r err : unbind_ok t -> tracks prior (handleUnbindError b t i r err) anything.
Proof. intros Ht. unfold handleUnbindError. unbind_writes. Qed.

Lemma tracks_finishUnbind prior t : unbind_ok t -> tracks prior (finishUnbind b t) anything.
Proof. intros Ht. unfold finishUnbind. unbind_writes. Qed.

Lemma tracks_bindFailWith {A} prior t reason s m err (Q : outcome A -> list Effect -> Prop) :
  unbind_ok t -> (forall e h, Q (Err e) h) -> tracks prior (bindFailWith b t reason s m err) Q.
Proof. intros Ht HQ. unfold bindFailWith. unbind_writes. all: auto. Qed.

Lemma tracks_bindRefuse prior t reason s m : unbind_ok t -> tracks prior (bindRefuse b t reason s m) anything.
Proof. intros Ht. unfold bindRefuse. unbind_writes. Qed.

Lemma tracks_bindIdentity prior verb t (Q : outcome (option AlphaOriginatingIdentity) -> list Effect -> Prop) :
  unbind_ok t -> (forall o h, Q o h) -> tracks prior (bindOriginatingIdentity verb b t) Q.
Proof.
  intros Ht HQ. unfold bindOriginatingIdentity. destruct OriginatingIdentityEnabled; [|by apply wps_ret].
  destruct (buildOriginatingIdentity _); [by apply wps_ret|by apply tracks_bindFailWith].
Qed.

Lemma tracks_prepareBind prior t (Q : outcome (gmap string json * string * option RawExtension) -> list Effect -> Prop) :
  unbind_ok t -> (forall o h, Q o h) -> tracks prior (prepareBindParameters b t) Q.
Proof.
  intros Ht HQ. unfold prepareBindParameters.
  destruct (bind_Parameters (bind_Spec b)), (bind_ParametersFrom (bind_Spec b)); [| | |by apply wps_ret].
  all: apply wps_bind, wps_try, wps_quiet, wp_buildParameters;
    [intros [params red]|intros e]; (split; [done|]); [|by apply tracks_bindFailWith].
  all: destruct (generateChecksumOfParameters params) as [c|]; [|by apply tracks_bindFailWith].
  all: destruct (MarshalRawParameters red) as [raw|]; [by apply wps_ret|by apply tracks_bindFailWith].
Qed.

Lemma tracks_bindLookup prior i (Q : outcome Resolved -> list Effect -> Prop) :
  unbind_ok b -> (forall o h, Q o h) ->
  tracks prior (getServiceClassPlanAndClusterServiceBrokerForServiceInstanceCredential i b) Q.
Proof.
  intros Hb HQ. unfold getServiceClassPlanAndClusterServiceBrokerForServiceInstanceCredential,
    serviceClassLister_Get, servicePlanLister_Get, brokerLister_Get, updateServiceInstanceCredentialCondition.
  unbind_writes. all: auto.
  apply wps_quiet, wp_getAuthCredentials; [by eapply law_brokerLister|intros a|intros e];
    (split; [done|]); unbind_writes; auto.
Qed.

Lemma tracks_bindRecord prior t op (Q : outcome ServiceInstanceCredential -> list Effect -> Prop) :
  (op = BOperationUnbind -> BindingSpec.dying b) ->
  (forall t' h, unbind_ok t' -> Q (Ok t') h) -> (forall e h, Q (Err e) h) ->
  tracks prior (recordStartOfServiceInstanceCredentialOperation t op) Q.
Proof.
  intros Hop HQ HE. unfold recordStartOfServiceInstanceCredentialOperation.
  apply wps_bind, wps_Now. intros now. destruct (match op with BOperationBind => _ | _ => _ end) as [rs m].
  unfold setServiceInstanceCredentialCondition. apply wps_bind, wps_bind, wps_Now. intros now'. apply wps_ret.
  apply wps_api. intros w res w' Hu. split; [exact Hop|].
  destruct res as [t'|e]; [|apply HE]. apply HQ. unfold unbind_ok.
  by rewrite (bupdated_status _ _ (law_Bindings_UpdateStatus _ _ _ _ Hu)).
Qed.

Lemma tracks_bind prior i r :
  unbind_ok b -> tracks prior (bindServiceInstanceCredential b i r) anything.
Proof.
  intros Hb. unfold bindServiceInstanceCredential. cbv zeta. apply wps_bind, wps_try, wps_read.
  intros w [ns|e] w' _; [|by apply tracks_bindFailWith]. destruct (negb _); [by apply tracks_bindRefuse|].
  apply wps_bind, tracks_prepareBind; [done|]. intros [[[params checksum] raw]|e|] h; [|done..]. cbv beta iota zeta.
  apply wps_bind, tracks_bindIdentity; [done|]. intros [oi|e|] h1; [|done..]. apply wps_bind.
  eapply (wps_conseq _ _ _ (fun o _ => match o with Ok t => unbind_ok t | _ => True end)).
  { destruct (decide _); [by apply tracks_bindRecord|by apply wps_ret]. }
  intros [t|e|] h2 Ht; [|done..]. apply wps_bind, wps_try, wps_api. intros w1 [response|err] w1' _; (split; [exact I|]).
  - by apply tracks_bindResponse.
  - by apply tracks_bindError.
Qed.

Lemma tracks_unbind prior i r :
  BindingSpec.dying b -> tracks prior (unbindServiceInstanceCredential b i r) anything.
Proof.
  intros Hd. assert (Hb : forall t, unbind_ok t) by (intros t _; exact Hd).
  unfold unbindServiceInstanceCredential. cbv zeta. destruct (_ || _); [|by apply wps_ret].
  apply wps_bind. eapply (wps_conseq _ _ _ (fun _ _ => True)).
  { unfold ejectServiceInstanceCredential. unbind_writes. }
  intros [[[]|e]|e|] h _; [| |done..]; [|unbind_writes].
  apply wps_bind, tracks_bindIdentity; [done|]. intros [oi|e|] h1; [|done..]. apply wps_bind.
  eapply (wps_conseq _ _ _ (fun _ _ => True)).
  { destruct (decide _); [by apply tracks_bindRecord|]. unbind_writes. }
  intros [t|e|] h2 _; [|done..]. apply wps_bind, wps_try, wps_api. intros w1 [response|err] w1' _; (split; [exact I|]).
  - by apply tracks_finishUnbind.
  - by apply tracks_unbindError.
Qed.

Lemma tracks_bindReconcile : unbind_ok b -> tracks [] (reconcileServiceInstanceCredential b) anything.
Proof.
  intros Hb. unfold reconcileServiceInstanceCredential, instanceLister_Get. cbv zeta.
  destruct (_ && _ && _); [by apply wps_ret|]. destruct (_ && _); [by apply wps_ret|].
  apply wps_bind, wps_try, wps_lister_get. intros w [i|] w' _; [|by apply tracks_bindFailWith].
  destruct (AsyncOpInProgress _); [by apply tracks_bindFailWith|].
  destruct (ServiceClassRef (si_Spec i)), (ServicePlanRef (si_Spec i)); try by apply wps_fail.
  apply wps_bind, tracks_bindLookup; [done|]. intros [r|e|] h; [|done..].
  destruct (negb _); [by apply tracks_bindRefuse|].
  destruct (bool_decide _ && _) eqn:Hl; [by apply tracks_bind|]. apply tracks_unbind.
  apply andb_false_iff in Hl as [Hl%bool_decide_eq_false|Hl%negb_false_iff]; [by left|by right].
Qed.
End tracking.

(** ** Histories *)

Section lifecycle.
Context {W : Type} {E : Env W} {C : Config} {L : InstanceLaws W} {LB : BindingLaws W} {Y : YamlLaws}.
Context {MV : MetaValidation} {SV : StoreValidation} {Sem : Semantic}.
Implicit Types (h : list ServiceInstanceCredential) (v s obj : ServiceInstanceCredential) (ctx : RequestContext).
Local Notation run v w := (trace_of (reconcileServiceInstanceCredential v) w).

Definition bind_dying v : Prop := DeletionTimestamp (bind_Meta v) <> None.

(** The next version of a binding. *)
Inductive next_binding : list ServiceInstanceCredential -> ServiceInstanceCredential -> Prop :=
| user_creates_binding ctx uid rv obj v :
    storeCreate bindingCreateStrategy ctx uid rv None obj = Stored v -> next_binding [] v
| user_updates_binding h s ctx rv obj v :
    storeUpdate bindingUpdateStrategy true ctx rv (Some s) obj = Stored v -> next_binding (s :: h) v
| user_deletes_binding h s ctx rv now v :
    storeDelete bindingDeleteStrategy ctx rv now (Some s) = Stored v -> next_binding (s :: h) v
| controller_writes_binding h s ctx rv b w obj res v :
    b ∈ s :: h -> EBindingUpdateStatus obj res ∈ run b w ->
    storeUpdate bindingStatusUpdateStrategy true ctx rv (Some s) obj = Stored v -> next_binding (s :: h) v.

Inductive binding_history : list ServiceInstanceCredential -> Prop :=
| binding_history_nil : binding_history []
| binding_history_cons h v : binding_history h -> next_binding h v -> binding_history (v :: h).

Record stored_binding_ok v : Prop := {
  sb_unique : NoDup (cond_Type <$> bind_Conditions (bind_Status v));
  sb_status : bstatus_at_rest (bind_Status v) \/ bstatus_in_operation (bind_Status v);
  sb_orphan : bind_OrphanMitigationInProgress (bind_Status v) = false;
  sb_unbind : bind_CurrentOperation (bind_Status v) = BOperationUnbind -> bind_dying v }.

Lemma stored_binding_binding_ok v : stored_binding_ok v -> binding_ok v.
Proof. intros []. split; [done|destruct sb_status0; [by left|by right; left]|intros H; left; by apply sb_unbind0]. Qed.

(** What never changes: all of the spec but the requesting user. *)
Definition binding_identity v :=
  let spec := bind_Spec v in
  (Name (bind_Meta v), Namespace (bind_Meta v), UID (bind_Meta v),
   (ServiceInstanceRef spec, bind_Parameters spec, bind_ParametersFrom spec, SecretName spec, bind_ExternalID spec)).

Record bsucceeds s v : Prop := {
  bsu_identity : binding_identity v = binding_identity s;
  bsu_dying : bind_dying s -> bind_dying v }.

Lemma same_stored_binding s v :
  bind_Status v = bind_Status s -> (bind_dying s -> bind_dying v) -> stored_binding_ok s -> stored_binding_ok v.
Proof. intros Hs Hd []. split; rewrite ?Hs; auto. Qed.

Definition bkeeps (st : RESTUpdateStrategy ServiceInstanceCredential) : Prop := forall ctx new s,
  binding_identity (bind_with_Meta (bind_Meta s) (PrepareForUpdate st ctx new s)) = binding_identity s.

Lemma updates_bsucceeds st ctx s obj v : bkeeps st -> updates st ctx s obj v -> bsucceeds s v.
Proof.
  intros Hk [_ (m & m' & _ & -> & _) Hd (Hn & Hns & Hu) _]. cbn in *.
  specialize (Hk ctx (bind_with_Meta m obj) s). split.
  - unfold binding_identity in *. cbn in *. by rewrite Hn, Hns, Hu.
  - unfold bind_dying. cbn. by rewrite Hd.
Qed.

Context {SL : SemanticLaws}.

Lemma bindingPrepareForUpdate_frozen ctx new old :
  bindingPrepareForUpdate ctx new old = bind_with_Spec (bind_Spec old) (bind_with_Status (bind_Status old) new).
Proof. unfold bindingPrepareForUpdate. cbn. by rewrite DeepEqual_binding_refl. Qed.

Lemma user_creates_binding_ok ctx uid rv obj v :
  storeCreate bindingCreateStrategy ctx uid rv None obj = Stored v -> stored_binding_ok v.
Proof.
  unfold storeCreate, BeforeCreate. cbn. destruct (ValidNamespace _ _) as [obj1|]; [|done].
  destruct (_ ++ _); [|done]. intros [= <-].
  unfold bindingPrepareForCreate. destruct OriginatingIdentityEnabled;
    (split; [apply NoDup_nil_2|left; by split|done..]).
Qed.

Lemma user_updates_binding_ok ctx rv s obj v :
  storeUpdate bindingUpdateStrategy true ctx rv (Some s) obj = Stored v ->
  stored_binding_ok s -> stored_binding_ok v /\ bsucceeds s v.
Proof.
  intros Hu Hs. apply storeUpdate_updates in Hu as Hup; [|done].
  assert (Hsucc : bsucceeds s v).
  { eapply updates_bsucceeds; [|exact Hup]. intros ctx' new' s'. cbn. by rewrite bindingPrepareForUpdate_frozen. }
  split; [|done]. eapply same_stored_binding; [|by destruct Hsucc|done].
  destruct Hup as [_ (m & m' & _ & -> & _) _ _ _]. cbn. by rewrite bindingPrepareForUpdate_frozen.
Qed.

Lemma user_deletes_binding_ok ctx rv now s v :
  storeDelete bindingDeleteStrategy ctx rv now (Some s) = Stored v ->
  stored_binding_ok s -> stored_binding_ok v /\ bsucceeds s v.
Proof.
  unfold storeDelete. cbv zeta. set (s' := BeforeDelete _ ctx s).
  assert (Hk : bind_Meta s' = bind_Meta s /\ bind_Status s' = bind_Status s /\ binding_identity s' = binding_identity s).
  { unfold s', BeforeDelete, bindingDeleteStrategy, bindingCheckGracefulDelete. cbn.
    destruct (bool_decide _); [|done]. by destruct OriginatingIdentityEnabled. }
  destruct Hk as (Hm & Hst & Hid). destruct (Nat.eqb _ _); [done|]. intros [= <-] Hs. split.
  - eapply same_stored_binding; [exact Hst|done|done].
  - split; [|done]. rewrite <-Hid. unfold binding_identity, markAsDeleting. cbn. by destruct (_ && _).
Qed.

(** Every version, the head's identity, and that deletions are never undone. *)
Record binding_history_ok h : Prop := {
  bho_stored : forall v, v ∈ h -> stored_binding_ok v;
  bho_head : forall s h', h = s :: h' -> forall v, v ∈ h ->
    binding_identity v = binding_identity s /\ (bind_dying v -> bind_dying s) }.

Lemma controller_writes_binding_ok h s ctx rv b w obj res v :
  binding_history_ok (s :: h) -> b ∈ s :: h -> EBindingUpdateStatus obj res ∈ run b w ->
  storeUpdate bindingStatusUpdateStrategy true ctx rv (Some s) obj = Stored v ->
  stored_binding_ok v /\ bsucceeds s v.
Proof.
  intros Hh Hb Hin Hu. pose proof (bho_stored _ Hh b Hb) as Hbok.
  apply list_elem_of_split in Hin as (t1 & t2 & Ht).
  pose proof (brun_protocol b w _ _ _ (stored_binding_binding_ok _ Hbok) Ht) as Hw. cbn in Hw.
  assert (Hun : unbind_ok b b) by (intros H; left; by apply (sb_unbind b Hbok)).
  destruct (wps_run _ _ _ w (tracks_bindReconcile b Hun)) as [Hs _]. rewrite Ht in Hs. apply safe_split in Hs. cbn in Hs.
  apply storeUpdate_updates in Hu as Hup; [|done].
  assert (Hsucc : bsucceeds s v) by (eapply updates_bsucceeds; [|exact Hup]; intros ??[]; done).
  split; [|done].
  assert (Hst : bind_Status v = bind_Status obj) by (by destruct Hup as [_ (m & m' & _ & -> & _) _ _ _]).
  destruct (up_valid _ _ _ _ _ Hup) as (m & Hval).
  assert (Hvalid : bstatus_at_rest (bind_Status obj) \/ bstatus_in_operation (bind_Status obj)).
  { rewrite <-(validateServiceInstanceCredentialStatus_spec _ "status"), <-Hst.
    cbn in Hval. unfold ValidateServiceInstanceCredentialStatusUpdate, internalValidateServiceInstanceCredential in Hval.
    rewrite !app_nil_iff in Hval. by destruct_and!. }
  split; rewrite ?Hst.
  - apply (bwo_unique _ _ _ Hw).
  - done.
  - destruct (bind_OrphanMitigationInProgress (bind_Status obj)) eqn:Ho; [|done].
    destruct (bwo_mitigation _ _ _ Hw Ho) as [Ho'|[Hop Hstart]]; [by rewrite (sb_orphan b Hbok) in Ho'|].
    destruct Hvalid as [[]|[]]; [done|]. by rewrite Hstart in bop_start; destruct bop_start.
  - intros Ho. apply (bsu_dying _ _ Hsucc), (bho_head _ Hh _ _ eq_refl b Hb).
    destruct (Hs Ho) as [|Ho']; [done|]. by rewrite (sb_orphan b Hbok) in Ho'.
Qed.

Lemma binding_history_ok_cons h s v :
  binding_history_ok (s :: h) -> stored_binding_ok v -> bsucceeds s v -> binding_history_ok (v :: s :: h).
Proof.
  intros [Hst Hhd] Hok [Hi Hd]. split.
  - intros x [->|Hx]%elem_of_cons; auto.
  - intros s0 h0 [= <- <-] x [->|Hx]%elem_of_cons; [done|]. destruct (Hhd _ _ eq_refl x Hx) as [H1 H2].
    split; [by rewrite Hi|auto].
Qed.

Lemma binding_history_invariant h : binding_history h -> binding_history_ok h.
Proof.
  induction 1 as [|h v Hh IH Hn]; [split; [by intros ? ?%elem_of_nil|done]|].
  destruct Hn as [ctx uid rv obj v Hc|h s ctx rv obj v Hu|h s ctx rv now v Hd|h s ctx rv b w obj res v Hb Ht Hu].
  - pose proof (user_creates_binding_ok _ _ _ _ _ Hc). split.
    + by intros x ->%list_elem_of_singleton.
    + by intros s h' [= <- <-] x ->%list_elem_of_singleton.
  - destruct (user_updates_binding_ok _ _ _ _ _ Hu); [apply (bho_stored _ IH); left|]. by apply binding_history_ok_cons.
  - destruct (user_deletes_binding_ok _ _ _ _ _ Hd); [apply (bho_stored _ IH); left|]. by apply binding_history_ok_cons.
  - destruct (controller_writes_binding_ok _ _ _ _ _ _ _ _ _ IH Hb Ht Hu). by apply binding_history_ok_cons.
Qed.
(** ** Properties *)

(** C7: whatever users and the controller do to a binding, in any order and
    against stale caches, every version of it the store ever holds satisfies
    the invariant of the binding loop: reconciling any of them, in any state of
    the environment, does not panic and loses no work (nil means there was
    nothing to do, or a status was stored whose watch event queues the binding
    again), and none of them has orphan mitigation in progress. *)
Theorem every_stored_binding_is_handled h v w :
  binding_history h -> v ∈ h ->
  binding_ok v /\ bind_OrphanMitigationInProgress (bind_Status v) = false /\
  bfinished (outcome_of (reconcileServiceInstanceCredential v) w) (run v w).
Proof.
  intros Hh%binding_history_invariant Hv. pose proof (bho_stored _ Hh v Hv) as Hs.
  pose proof (stored_binding_binding_ok v Hs) as Hok. split_and!; [done|by destruct Hs|].
  by destruct (brun_safe v w Hok).
Qed.

(** The binding a broker request is about. *)
Definition requested_binding (e : Effect) : option string :=
  match e with
  | EBind _ req _ => Some (br_BindingID req)
  | EUnbind _ req _ => Some (ur_BindingID req)
  | _ => None
  end.

(** The secret an effect creates or deletes. *)
Definition touched_secret (e : Effect) : option (string * string) :=
  match e with
  | ESecretCreate s _ => Some (Namespace (secret_Meta s), Name (secret_Meta s))
  | ESecretDelete ns name _ => Some (ns, name)
  | _ => None
  end.

(** Throughout the life of a binding all bind and unbind requests carry the
    external ID it was created with, and the secret that is created for it and
    the one that is deleted are the same, the one its spec named when it was
    created. *)
Theorem binding_names_are_fixed h v v' w e :
  binding_history h -> v ∈ h -> v' ∈ h -> e ∈ run v w ->
  (forall id, requested_binding e = Some id -> id = bind_ExternalID (bind_Spec v')) /\
  (forall ns name, touched_secret e = Some (ns, name) ->
     ns = Namespace (bind_Meta v') /\ name = SecretName (bind_Spec v')).
Proof.
  intros Hh%binding_history_invariant Hv Hv' He.
  assert (Hsame : binding_identity v = binding_identity v').
  { destruct h as [|s h]; [by apply elem_of_nil in Hv|].
    destruct (bho_head _ Hh _ _ eq_refl v Hv) as [-> _]. by destruct (bho_head _ Hh _ _ eq_refl v' Hv') as [-> _]. }
  unfold binding_identity in Hsame. injection Hsame as _ Hns _ _ _ _ Hsec Hid. rewrite <-Hns, <-Hsec, <-Hid.
  pose proof (stored_binding_binding_ok v (bho_stored _ Hh v Hv)) as Hok.
  destruct (brun_effect v w e Hok He) as [t1 Hp].
  split; [intros id|intros ns name]; destruct e; try done; cbn; intros; simplify_eq; destruct Hp; by destruct_and?.
Qed.
End lifecycle.

(** ** A concrete history *)

Definition stored_binding_of (r : UpdateResult ServiceInstanceCredential) : ServiceInstanceCredential :=
  match r with Stored v => v | _ => binding1 end.
Definition bversion1 : ServiceInstanceCredential :=
  stored_binding_of (storeCreate bindingCreateStrategy sample_context "uid-1" "1" None binding1).
Definition brun_version1 : list Effect := trace_of (reconcileServiceInstanceCredential bversion1) world_ready.
Definition bwritten1 : ServiceInstanceCredential :=
  match brun_version1 with EBindingUpdateStatus obj _ :: _ => obj | _ => binding1 end.
Definition bversion2 : ServiceInstanceCredential :=
  stored_binding_of (storeUpdate bindingStatusUpdateStrategy true sample_context "2" (Some bversion1) bwritten1).
Definition bversion3 : ServiceInstanceCredential :=
  stored_binding_of (storeDelete bindingDeleteStrategy sample_context "3" 500 (Some bversion2)).

Lemma sample_binding_history : binding_history (W:=World) [bversion3; bversion2; bversion1].
Proof.
  apply binding_history_cons; [apply binding_history_cons; [apply binding_history_cons; [apply binding_history_nil|]|]|].
  - eapply (user_creates_binding sample_context "uid-1" "1" binding1). vm_compute. reflexivity.
  - eapply (controller_writes_binding [] bversion1 sample_context "2" bversion1 world_ready bwritten1).
    + left.
    + apply (list_elem_of_lookup_2 _ 0). vm_compute. reflexivity.
    + vm_compute. reflexivity.
  - eapply (user_deletes_binding [bversion1] bversion2 sample_context "3" 500). vm_compute. reflexivity.
Qed.

Lemma every_stored_binding_is_handled_witness :
  bind_CurrentOperation (bind_Status bversion2) = BOperationBind /\ binding_ok bversion2 /\
  bind_OrphanMitigationInProgress (bind_Status bversion2) = false /\
  bfinished (outcome_of (reconcileServiceInstanceCredential bversion2) world_ready)
    (trace_of (reconcileServiceInstanceCredential bversion2) world_ready).
Proof.
  split; [vm_compute; reflexivity|].
  apply (every_stored_binding_is_handled _ bversion2 world_ready sample_binding_history). right; left.
Defined.

Definition bind_effect : Effect := List.nth 1 brun_version1 (EPollingQueueForget "").

Lemma binding_names_are_fixed_witness :
  requested_binding bind_effect = Some "binding-guid" /\ "binding-guid" = bind_ExternalID (bind_Spec bversion3).
Proof.
  split; [vm_compute; reflexivity|].
  apply (binding_names_are_fixed _ bversion1 bversion3 world_ready bind_effect sample_binding_history);
    [right; right; left|left| |vm_compute; reflexivity].
  apply (list_elem_of_lookup_2 _ 1). vm_compute. reflexivity.
Defined.
