(* ===== verification/WorkQueue.v ===== *)
(** * Work queues and workers

    [worker] and [createWorker] of [pkg/controller/controller.go], on the
    rate-limited queue of [k8s.io/client-go/util/workqueue] they run on: the
    queue with its dirty and processing sets, delayed additions, and the
    failure count per key.  Every queue operation is atomic (it holds the
    queue's lock), and several workers and the watch handlers interleave
    between operations.  A key that waits for its delay is in [waiting] with the
    time it becomes ready; the priority queue and the channel that feed the
    waiting loop are this map. *)

From stdpp Require Import gmap sets.
From S2P Require Import Prelude Conditions.

(** ** The queue *)

Record Queue := {
  queue : list string;
  dirty : gset string;
  processing : gset string;
  shuttingDown : bool;
  waiting : gmap string Z;
  failures : gmap string Z }.

Definition emptyQueue : Queue :=
  {| queue := []; dirty := ∅; processing := ∅; shuttingDown := false; waiting := ∅; failures := ∅ |}.

Definition Add (item : string) (q : Queue) : Queue :=
  if shuttingDown q then q
  else
  if decide (item ∈ dirty q) then q
  else
    {| queue := if decide (item ∈ processing q) then queue q else queue q ++ [item];
       dirty := {[ item ]} ∪ dirty q; processing := processing q; shuttingDown := shuttingDown q;
       waiting := waiting q; failures := failures q |}.

(** [Get] blocks on an empty queue until something is added or the queue shuts
    down. *)
Inductive GetResult :=
| Blocked
| Quit
| Item (item : string) (q : Queue).

Definition Get (q : Queue) : GetResult :=
  match queue q with
  | [] => if shuttingDown q then Quit else Blocked
  | item :: rest =>
      Item item {| queue := rest; dirty := dirty q ∖ {[ item ]}; processing := {[ item ]} ∪ processing q;
                   shuttingDown := shuttingDown q; waiting := waiting q; failures := failures q |}
  end.

Definition Done (item : string) (q : Queue) : Queue :=
  {| queue := if decide (item ∈ dirty q) then queue q ++ [item] else queue q;
     dirty := dirty q; processing := processing q ∖ {[ item ]}; shuttingDown := shuttingDown q;
     waiting := waiting q; failures := failures q |}.

Definition ShutDown (q : Queue) : Queue :=
  {| queue := queue q; dirty := dirty q; processing := processing q; shuttingDown := true;
     waiting := waiting q; failures := failures q |}.

(** [insert] of the delaying queue: a key that waits already keeps the earlier
    time. *)
Definition insertWaiting (item : string) (readyAt : Z) (w : gmap string Z) : gmap string Z :=
  match w !! item with
  | Some existing => <[item := if readyAt <? existing then readyAt else existing]> w
  | None => <[item := readyAt]> w
  end.

Definition AddAfter (item : string) (now duration : Z) (q : Queue) : Queue :=
  if shuttingDown q then q
  else if duration <=? 0 then Add item q
  else {| queue := queue q; dirty := dirty q; processing := processing q; shuttingDown := shuttingDown q;
          waiting := insertWaiting item (now + duration) (waiting q); failures := failures q |}.

(** One round of [waitingLoop] for one key: when its time has come it is added. *)
Definition addReady (item : string) (now : Z) (q : Queue) : Queue :=
  match waiting q !! item with
  | Some readyAt =>
      if shuttingDown q || (now <? readyAt) then q
      else
        let q' := Add item q in
        {| queue := queue q'; dirty := dirty q'; processing := processing q'; shuttingDown := shuttingDown q';
           waiting := delete item (waiting q'); failures := failures q' |}
  | None => q
  end.

(** ** The rate limiter *)

Definition NumRequeues (item : string) (q : Queue) : Z := default 0 (failures q !! item).

Definition Forget (item : string) (q : Queue) : Queue :=
  {| queue := queue q; dirty := dirty q; processing := processing q; shuttingDown := shuttingDown q;
     waiting := waiting q; failures := delete item (failures q) |}.

(** [ItemExponentialFailureRateLimiter.When]: the base delay doubled per
    failure and capped; a float64 holds these products exactly up to the cap. *)
Record RateLimiter := { baseDelay : Z; maxDelay : Z }.

Definition backoff (r : RateLimiter) (exp : Z) : Z :=
  let calculated := baseDelay r * 2 ^ exp in
  if maxDelay r <? calculated then maxDelay r else calculated.

(** [AddRateLimited] with the larger of that delay and [bucket], the delay of
    the overall token bucket. *)
Definition AddRateLimited (r : RateLimiter) (item : string) (now bucket : Z) (q : Queue) : Queue :=
  let exp := NumRequeues item q in
  let q := {| queue := queue q; dirty := dirty q; processing := processing q; shuttingDown := shuttingDown q;
              waiting := waiting q; failures := <[item := exp + 1]> (failures q) |} in
  AddAfter item now (Z.max (backoff r exp) bucket) q.

(** [DefaultControllerRateLimiter] and the limiter of the polling queue, in
    nanoseconds. *)
Definition DefaultControllerRateLimiter : RateLimiter := {| baseDelay := 5 * 1000000; maxDelay := 1000 * 1000000000 |}.
Definition pollingRateLimiter : RateLimiter := {| baseDelay := 1 * 1000000000; maxDelay := 3600 * 1000000000 |}.

(** ** The worker *)

(** Where a worker stands between two queue operations. *)
Inductive Position :=
| Getting
| Reconciling (key : string)
| Deciding (key : string)
| Requeueing (key : string)
| Forgetting (key : string)
| Finishing (key : string)
| Exited.

(** The answers of the outside world: what the reconciler returned, the clock,
    the token bucket. *)
Record Answers := { an_failed : bool; an_now : Z; an_bucket : Z }.

Section worker.
Context (r : RateLimiter) (forgetAfterSuccess : bool) (external : bool).

(** The next operation of a worker; [None] when [Get] blocks, or the worker has
    exited. *)
Definition worker (a : Answers) (p : Position) (q : Queue) : option (Position * Queue) :=
  match p with
  | Getting =>
      match Get q with
      | Blocked => None
      | Quit => Some (Exited, q)
      | Item key q => Some (Reconciling key, q)
      end
  | Reconciling key =>
      if an_failed a then Some (Deciding key, q)
      else if forgetAfterSuccess then Some (Forgetting key, q) else Some (Finishing key, q)
  | Deciding key =>
      if NumRequeues key q <? maxRetries then Some (Requeueing key, q) else Some (Forgetting key, q)
  | Requeueing key => Some (Finishing key, AddRateLimited r key (an_now a) (an_bucket a) q)
  | Forgetting key => Some (Finishing key, Forget key q)
  | Finishing key => Some (Getting, Done key q)
  | Exited => None
  end.

(** ** The system: any number of workers on one queue *)

Record System := { sys_queue : Queue; sys_workers : gmap nat Position }.

(** Watch handlers add keys; keys become ready; [Run] shuts the queue down;
    [wait.Until] starts an exited worker again.  The polling queue ([external])
    is also requeued and forgotten from outside, by the instance workers
    ([beginPollingServiceInstance], [finishPollingServiceInstance]).  The label
    is the position a worker moved from. *)
Inductive step : System -> option Position -> System -> Prop :=
| step_worker q ws i p a p' q' :
    ws !! i = Some p -> worker a p q = Some (p', q') ->
    step {| sys_queue := q; sys_workers := ws |} (Some p) {| sys_queue := q'; sys_workers := <[i := p']> ws |}
| step_add q ws key :
    step {| sys_queue := q; sys_workers := ws |} None {| sys_queue := Add key q; sys_workers := ws |}
| step_ready q ws key now :
    step {| sys_queue := q; sys_workers := ws |} None {| sys_queue := addReady key now q; sys_workers := ws |}
| step_shutdown q ws :
    step {| sys_queue := q; sys_workers := ws |} None {| sys_queue := ShutDown q; sys_workers := ws |}
| step_restart q ws i :
    ws !! i = Some Exited ->
    step {| sys_queue := q; sys_workers := ws |} None {| sys_queue := q; sys_workers := <[i := Getting]> ws |}
| step_requeue q ws key now bucket :
    external = true ->
    step {| sys_queue := q; sys_workers := ws |} None
         {| sys_queue := AddRateLimited r key now bucket q; sys_workers := ws |}
| step_forget q ws key :
    external = true ->
    step {| sys_queue := q; sys_workers := ws |} None {| sys_queue := Forget key q; sys_workers := ws |}.

(** [createWorker], [n] times. *)
Definition createWorkers (n : nat) : gmap nat Position := gset_to_gmap Getting (set_seq 0 n).

(** The systems reachable from [n] workers on an empty queue, with what the
    workers did, latest first. *)
Inductive reachable (n : nat) : list Position -> System -> Prop :=
| reachable_init : reachable n [] {| sys_queue := emptyQueue; sys_workers := createWorkers n |}
| reachable_step log s l s' :
    reachable n log s -> step s l s' -> reachable n (match l with Some p => p :: log | None => log end) s'.

(** ** The invariant *)

(** The key a worker is responsible for: between [Get] and [Done]. *)
Definition held (p : Position) : option string :=
  match p with
  | Reconciling key | Deciding key | Requeueing key | Forgetting key | Finishing key => Some key
  | Getting | Exited => None
  end.

(** As the comment of the queue's type says: what is queued is dirty and not
    being processed. *)
Record queue_ok (q : Queue) : Prop := {
  q_nodup : NoDup (queue q);
  q_queued key : key ∈ queue q <-> key ∈ dirty q /\ key ∉ processing q }.

Definition holds (ws : gmap nat Position) (i : nat) (key : string) : Prop :=
  exists p, ws !! i = Some p /\ held p = Some key.

Record workers_ok (pr : gset string) (ws : gmap nat Position) : Prop := {
  w_processing key : key ∈ pr <-> exists i, holds ws i key;
  w_exclusive i j key : holds ws i key -> holds ws j key -> i = j }.

(** How often a key was requeued since it was last forgotten. *)
Fixpoint requeues (key : string) (log : list Position) : Z :=
  match log with
  | [] => 0
  | Requeueing k :: log' => if decide (k = key) then requeues key log' + 1 else requeues key log'
  | Forgetting k :: log' => if decide (k = key) then 0 else requeues key log'
  | _ :: log' => requeues key log'
  end.

Record counts_ok (log : list Position) (q : Queue) (ws : gmap nat Position) : Prop := {
  c_count key : NumRequeues key q = requeues key log;
  c_bound key : 0 <= NumRequeues key q <= maxRetries;
  c_requeueing i key : ws !! i = Some (Requeueing key) -> NumRequeues key q < maxRetries }.

Record system_ok (log : list Position) (s : System) : Prop := {
  ok_queue : queue_ok (sys_queue s);
  ok_workers : workers_ok (processing (sys_queue s)) (sys_workers s);
  ok_counts : external = false -> counts_ok log (sys_queue s) (sys_workers s) }.

Lemma Add_ok key q : queue_ok q -> queue_ok (Add key q).
Proof.
  intros [Hn Hq]. unfold Add. destruct (shuttingDown q); [done|].
  destruct (decide (key ∈ dirty q)) as [|Hd]; [done|].
  destruct (decide (key ∈ processing q)) as [Hp|Hp]; split; cbn; try done.
  - intros k. rewrite Hq. set_solver.
  - apply list.NoDup_app. split_and!; [done| |apply list.NoDup_singleton].
    intros x Hx ->%list_elem_of_singleton. by apply Hq in Hx as [? _].
  - intros k. rewrite elem_of_app, list_elem_of_singleton, Hq. set_solver.
Qed.

(** Adding touches neither what is processed nor the counts. *)
Lemma Add_frame key q : processing (Add key q) = processing q /\ failures (Add key q) = failures q.
Proof. unfold Add. by destruct (shuttingDown q), (decide (key ∈ dirty q)). Qed.

Lemma AddAfter_ok key now d q : queue_ok q -> queue_ok (AddAfter key now d q).
Proof.
  intros Hq. unfold AddAfter. destruct (shuttingDown q); [done|]. destruct (d <=? 0); [by apply Add_ok|].
  by destruct Hq; split.
Qed.

Lemma AddAfter_frame key now d q :
  processing (AddAfter key now d q) = processing q /\ failures (AddAfter key now d q) = failures q.
Proof. unfold AddAfter. destruct (shuttingDown q); [done|]. destruct (d <=? 0); [apply Add_frame|done]. Qed.

Lemma addReady_ok key now q : queue_ok q -> queue_ok (addReady key now q).
Proof.
  intros Hq. unfold addReady. destruct (waiting q !! key); [|done]. destruct (_ || _); [done|].
  by destruct (Add_ok key q Hq); split.
Qed.

Lemma addReady_frame key now q :
  processing (addReady key now q) = processing q /\ failures (addReady key now q) = failures q.
Proof.
  unfold addReady. destruct (waiting q !! key); [|done]. destruct (_ || _); [done|]. apply Add_frame.
Qed.

Lemma Get_ok q key q' : queue_ok q -> Get q = Item key q' ->
  queue_ok q' /\ key ∉ processing q /\ processing q' = {[ key ]} ∪ processing q /\ failures q' = failures q.
Proof.
  intros [Hn Hq] HG. unfold Get in HG. destruct (queue q) as [|k rest] eqn:E; [by destruct (shuttingDown q)|].
  injection HG as <- <-. cbn. apply list.NoDup_cons in Hn as [Hk Hn].
  assert (Hin : k ∈ dirty q /\ k ∉ processing q) by (apply Hq; left).
  split_and!; [|by destruct Hin|done..]. split; cbn; [done|]. intros x. specialize (Hq x).
  rewrite elem_of_cons in Hq. destruct (decide (x = k)) as [->|]; set_solver.
Qed.

Lemma Done_ok key q : queue_ok q -> key ∈ processing q -> queue_ok (Done key q).
Proof.
  intros [Hn Hq] Hp. split; cbn.
  - destruct (decide _); [|done]. apply list.NoDup_app. split_and!; [done| |apply list.NoDup_singleton].
    intros x Hx ->%list_elem_of_singleton. apply Hq in Hx as [_ Hx]. done.
  - intros x. specialize (Hq x). destruct (decide (key ∈ dirty q)).
    + rewrite elem_of_app, list_elem_of_singleton. destruct (decide (x = key)) as [->|]; set_solver.
    + destruct (decide (x = key)) as [->|]; set_solver.
Qed.

(** A worker that goes on with the key it holds. *)
Lemma workers_same pr ws i p p' :
  workers_ok pr ws -> ws !! i = Some p -> held p' = held p -> workers_ok pr (<[i := p']> ws).
Proof.
  intros [Hp He] Hi Hh.
  assert (Hiff : forall j key, holds (<[i := p']> ws) j key <-> holds ws j key).
  { intros j key. unfold holds. destruct (decide (i = j)) as [->|Hne].
    - rewrite lookup_insert_eq. split; intros (q & Hq & Hk); simplify_eq; eexists; (split; [done|congruence]).
    - by rewrite lookup_insert_ne. }
  split; [|intros j k key; rewrite !Hiff; apply He]. intros key. rewrite Hp. by setoid_rewrite Hiff.
Qed.

Lemma workers_take pr ws i p key p' :
  workers_ok pr ws -> ws !! i = Some p -> held p = None -> key ∉ pr -> held p' = Some key ->
  workers_ok ({[ key ]} ∪ pr) (<[i := p']> ws).
Proof.
  intros [Hp He] Hi Hn Hk Hh.
  assert (Hiff : forall j x, holds (<[i := p']> ws) j x <-> (j = i /\ x = key) \/ holds ws j x).
  { intros j x. unfold holds. destruct (decide (i = j)) as [<-|Hne].
    - rewrite lookup_insert_eq. split; [intros (q & Hq & Hx); left; naive_solver|].
      intros [[_ ->]|(q & Hq & Hx)]; [by eexists|congruence].
    - rewrite lookup_insert_ne by done. naive_solver. }
  split.
  - intros x. rewrite elem_of_union, elem_of_singleton, Hp. setoid_rewrite Hiff. naive_solver.
  - intros j k x. rewrite !Hiff. assert (~ exists j, holds ws j key) by (by rewrite <-Hp).
    intros [[-> ->]|Hj] [[-> Hx]|Hk']; try done; [exfalso; eauto|subst; exfalso; eauto|by eapply He].
Qed.

Lemma workers_give pr ws i p key p' :
  workers_ok pr ws -> ws !! i = Some p -> held p = Some key -> held p' = None ->
  workers_ok (pr ∖ {[ key ]}) (<[i := p']> ws).
Proof.
  intros [Hp He] Hi Hk Hn.
  assert (Hiff : forall j x, holds (<[i := p']> ws) j x <-> holds ws j x /\ j <> i).
  { intros j x. unfold holds. destruct (decide (i = j)) as [<-|Hne].
    - rewrite lookup_insert_eq. split; [intros (q & Hq & Hx); simplify_eq; congruence|by intros [_ []]].
    - rewrite lookup_insert_ne by done. naive_solver. }
  assert (Hik : holds ws i key) by (by eexists).
  split.
  - intros x. rewrite elem_of_difference, elem_of_singleton, Hp. setoid_rewrite Hiff. split.
    + intros [[j Hj] Hx]. exists j. split; [done|]. intros ->. destruct Hj as (q & Hq & Hqx). congruence.
    + intros (j & Hj & Hne). split; [by eexists|]. intros ->. apply Hne. by eapply He.
  - intros j k x. rewrite !Hiff. intros [Hj _] [Hk' _]. by eapply He.
Qed.

(** ** Counting retries *)

Lemma NumRequeues_add key k now bucket q :
  NumRequeues k (AddRateLimited r key now bucket q) = if decide (key = k) then NumRequeues k q + 1 else NumRequeues k q.
Proof.
  unfold NumRequeues at 1, AddRateLimited. cbv zeta. destruct (AddAfter_frame key now (Z.max (backoff r (NumRequeues key q)) bucket)
    {| queue := queue q; dirty := dirty q; processing := processing q; shuttingDown := shuttingDown q;
       waiting := waiting q; failures := <[key := NumRequeues key q + 1]> (failures q) |}) as [_ ->]. cbn.
  destruct (decide (key = k)) as [->|]; [by rewrite lookup_insert_eq|by rewrite lookup_insert_ne].
Qed.

Lemma NumRequeues_forget key k q : NumRequeues k (Forget key q) = if decide (key = k) then 0 else NumRequeues k q.
Proof.
  unfold NumRequeues, Forget. cbn. destruct (decide (key = k)) as [->|]; [by rewrite lookup_delete_eq|by rewrite lookup_delete_ne].
Qed.

(** A step that neither counts nor makes a worker requeue. *)
Lemma counts_same log q ws p q' ws' :
  counts_ok log q ws -> failures q' = failures q ->
  (forall key, requeues key (p ++ log) = requeues key log) ->
  (forall i key, ws' !! i = Some (Requeueing key) -> ws !! i = Some (Requeueing key) \/ NumRequeues key q < maxRetries) ->
  counts_ok (p ++ log) q' ws'.
Proof.
  intros [Hc Hb Hr] Hf Hl Hw. unfold NumRequeues in *. split; intros; unfold NumRequeues; rewrite Hf; auto.
  - by rewrite Hl.
  - destruct (Hw _ _ H) as [?|?]; eauto.
Qed.

Lemma counts_requeue log q ws i key now bucket :
  workers_ok (processing q) ws -> ws !! i = Some (Requeueing key) -> counts_ok log q ws ->
  counts_ok (Requeueing key :: log) (AddRateLimited r key now bucket q) (<[i := Finishing key]> ws).
Proof.
  intros Hw Hi [Hc Hb Hr]. pose proof (Hr i key Hi) as Hlt. split.
  - intros k. rewrite NumRequeues_add. cbn. destruct (decide (key = k)) as [->|]; by rewrite <-Hc.
  - intros k. rewrite NumRequeues_add. specialize (Hb k). destruct (decide (key = k)) as [->|]; lia.
  - intros j k. rewrite lookup_insert_Some. intros [[_ [=]]|[Hij Hj]]. rewrite NumRequeues_add.
    destruct (decide (key = k)) as [->|]; [|by eapply Hr].
    destruct Hij. by eapply (w_exclusive _ _ Hw); eexists.
Qed.

Lemma counts_forget log q ws i key :
  workers_ok (processing q) ws -> ws !! i = Some (Forgetting key) -> counts_ok log q ws ->
  counts_ok (Forgetting key :: log) (Forget key q) (<[i := Finishing key]> ws).
Proof.
  intros Hw Hi [Hc Hb Hr]. split.
  - intros k. rewrite NumRequeues_forget. cbn. destruct (decide (key = k)); auto.
  - intros k. rewrite NumRequeues_forget. specialize (Hb k). destruct (decide (key = k)); [unfold maxRetries|]; lia.
  - intros j k. rewrite lookup_insert_Some. intros [[_ [=]]|[Hij Hj]]. rewrite NumRequeues_forget.
    destruct (decide (key = k)) as [->|]; [|by eapply Hr].
    destruct Hij. by eapply (w_exclusive _ _ Hw); eexists.
Qed.

Lemma requeue_other (ws : gmap nat Position) (i : nat) p : (forall key, p <> Requeueing key) ->
  forall (q : Queue) (j : nat) key, <[i := p]> ws !! j = Some (Requeueing key) ->
  ws !! j = Some (Requeueing key) \/ NumRequeues key q < maxRetries.
Proof. intros Hp q j key. rewrite lookup_insert_Some. intros [[_ H]|[_ H]]; [by destruct (Hp key)|by left]. Qed.

Lemma worker_ok log q ws i a p p' q' :
  system_ok log {| sys_queue := q; sys_workers := ws |} -> ws !! i = Some p -> worker a p q = Some (p', q') ->
  system_ok (p :: log) {| sys_queue := q'; sys_workers := <[i := p']> ws |}.
Proof.
  intros [Hq Hw Hc] Hi Hs. cbn in *. destruct p as [|key|key|key|key|key|]; cbn in Hs.
  - destruct (Get q) as [| |key q1] eqn:HG; simplify_eq.
    + split; cbn; [done|by eapply workers_same|].
      intros Hx; specialize (Hc Hx); eapply (counts_same log q' ws [Getting]); [done..|by apply requeue_other].
    + destruct (Get_ok q key q' Hq HG) as (Hq' & Hk & Hp & Hf). split; cbn; [done| |].
      * rewrite Hp. by eapply workers_take.
      * intros Hx; specialize (Hc Hx); eapply (counts_same log q ws [Getting]); [done..|by apply requeue_other].
  - assert (exists p1, Some (p1, q) = Some (p', q') /\ held p1 = Some key /\ forall k, p1 <> Requeueing k) as (p1 & [= -> ->] & Hh & Hn)
      by (destruct (an_failed a), forgetAfterSuccess; eexists; (split; [exact Hs|done])).
    split; cbn; [done|by eapply workers_same|].
    intros Hx; specialize (Hc Hx); eapply (counts_same log q' ws [Reconciling key]); [done..|by apply requeue_other].
  - destruct (Z.ltb_spec (NumRequeues key q) maxRetries); simplify_eq; (split; cbn; [done|by eapply workers_same|]).
    + intros Hx; specialize (Hc Hx); eapply (counts_same log q' ws [Deciding key]); [done..|]. intros j k. rewrite lookup_insert_Some.
      intros [[_ [= <-]]|[_ ?]]; auto.
    + intros Hx; specialize (Hc Hx); eapply (counts_same log q' ws [Deciding key]); [done..|by apply requeue_other].
  - simplify_eq. split; cbn.
    + apply AddAfter_ok. by destruct Hq; split.
    + unfold AddRateLimited. cbv zeta. rewrite (proj1 (AddAfter_frame _ _ _ _)). by eapply workers_same.
    + intros Hx. by apply counts_requeue; auto.
  - simplify_eq. split; cbn; [by destruct Hq; split|by eapply workers_same|intros Hx; by apply counts_forget; auto].
  - simplify_eq. split; cbn.
    + apply Done_ok; [done|]. apply (w_processing _ _ Hw). exists i. by eexists.
    + by eapply workers_give.
    + intros Hx; specialize (Hc Hx); eapply (counts_same log q ws [Finishing key]); [done..|by apply requeue_other].
  - done.
Qed.

Lemma reachable_ok n log s : reachable n log s -> system_ok log s.
Proof.
  induction 1 as [|log s l s' Hr IH Hs].
  - split; cbn.
    + split; cbn; [apply NoDup_nil_2|]. intros key. set_solver.
    + assert (Hno : forall i key, ~ holds (createWorkers n) i key).
      { intros i key (p & Hp & Hk). unfold createWorkers in Hp. apply lookup_gset_to_gmap_Some in Hp as [_ <-]. done. }
      split; [intros key; split; [set_solver|intros [i Hh]; by destruct (Hno i key)]|].
      intros i j key Hh. by destruct (Hno i key).
    + intros _. split; [done|by unfold maxRetries|]. intros i key Hi. unfold createWorkers in Hi.
      by apply lookup_gset_to_gmap_Some in Hi as [_ ?].
  - destruct Hs as [q ws i p a p' q' Hi Hw|q ws key|q ws key now|q ws|q ws i Hi|q ws key now bucket Hx|q ws key Hx].
    + by eapply worker_ok.
    + destruct IH as [Hq Hw Hc]. destruct (Add_frame key q) as [Hp Hf]. split; cbn in *.
      * by apply Add_ok. * by rewrite Hp. * intros Hx; specialize (Hc Hx); eapply (counts_same log q ws []); auto.
    + destruct IH as [Hq Hw Hc]. destruct (addReady_frame key now q) as [Hp Hf]. split; cbn in *.
      * by apply addReady_ok. * by rewrite Hp. * intros Hx; specialize (Hc Hx); eapply (counts_same log q ws []); auto.
    + destruct IH as [Hq Hw Hc]. split; cbn in *; [by destruct Hq; split|done|].
      intros Hx; specialize (Hc Hx); eapply (counts_same log q ws []); auto.
    + destruct IH as [Hq Hw Hc]. split; cbn in *; [done|by eapply workers_same|].
      intros Hx; specialize (Hc Hx); eapply (counts_same log q ws []); [done..|by apply requeue_other].
    + destruct IH as [Hq Hw _]. split; cbn in *; [|unfold AddRateLimited; cbv zeta|congruence].
      * apply AddAfter_ok. by destruct Hq; split.
      * by rewrite (proj1 (AddAfter_frame _ _ _ _)).
    + destruct IH as [Hq Hw _]. split; cbn in *; [by destruct Hq; split|done|congruence].
Qed.

(** ** Pending work *)

(** A key that will be processed again. *)
Definition pending (key : string) (q : Queue) : Prop := key ∈ dirty q \/ is_Some (waiting q !! key).

Lemma Add_pending key q : shuttingDown q = false -> key ∈ dirty (Add key q).
Proof. intros Hs. unfold Add. rewrite Hs. destruct (decide (key ∈ dirty q)); [done|]. cbn. set_solver. Qed.

Lemma Add_keeps k key q : pending k q -> pending k (Add key q).
Proof.
  unfold pending, Add. destruct (shuttingDown q); [done|]. destruct (decide (key ∈ dirty q)); [done|].
  cbn. intros [?|?]; [left; set_solver|by right].
Qed.

Lemma insertWaiting_keeps k key t w : is_Some (w !! k) \/ k = key -> is_Some (insertWaiting key t w !! k).
Proof.
  intros H. unfold insertWaiting. destruct (decide (key = k)) as [->|Hne].
  - destruct (w !! k); rewrite lookup_insert_eq; eauto.
  - destruct H as [H|H]; [|congruence]. destruct (w !! key); by rewrite lookup_insert_ne.
Qed.

Lemma AddAfter_pending k key now d q :
  pending k q \/ k = key /\ shuttingDown q = false -> pending k (AddAfter key now d q).
Proof.
  intros H. unfold AddAfter. destruct (shuttingDown q) eqn:Hs; [by destruct H as [?|[_ ?]]|].
  destruct (d <=? 0).
  - destruct H as [H|[-> _]]; [by apply Add_keeps|left; by apply Add_pending].
  - destruct H as [[H|H]|[-> _]]; [by left|right|right]; apply insertWaiting_keeps; auto.
Qed.

Lemma addReady_keeps k key now q : pending k q -> pending k (addReady key now q).
Proof.
  intros Hp. unfold addReady. destruct (waiting q !! key) as [t|] eqn:Hw; [|done].
  destruct (shuttingDown q || (now <? t)) eqn:Hb; [done|]. apply orb_false_iff in Hb as [Hs _].
  unfold pending. cbn. destruct (decide (key = k)) as [->|Hne]; [left; by apply Add_pending|].
  rewrite lookup_delete_ne by done. by apply Add_keeps.
Qed.

(** A worker keeps a key pending, except the one it starts to reconcile. *)
Lemma worker_keeps a p q p' q' key :
  worker a p q = Some (p', q') -> pending key q -> pending key q' \/ (p = Getting /\ p' = Reconciling key).
Proof.
  intros Hs Hp. destruct p as [|k|k|k|k|k|]; cbn in Hs.
  - unfold Get in Hs. destruct (queue q) as [|k rest]; [by destruct (shuttingDown q); simplify_eq; left|].
    simplify_eq. destruct (decide (key = k)) as [->|Hne]; [by right|left].
    destruct Hp as [Hp|Hp]; [left; cbn; set_solver|by right].
  - left. destruct (an_failed a); [by simplify_eq|]. by destruct forgetAfterSuccess; simplify_eq.
  - left. by destruct (NumRequeues k q <? maxRetries); simplify_eq.
  - left. simplify_eq. apply AddAfter_pending. by left.
  - left. by simplify_eq.
  - left. by simplify_eq.
  - done.
Qed.

(** ** Properties *)

(** C20: the reconciler is never invoked concurrently with the same key: two
    workers that are reconciling a key at the same time are one worker. *)
Theorem workers_exclude_each_other n log s i j key :
  reachable n log s -> sys_workers s !! i = Some (Reconciling key) -> sys_workers s !! j = Some (Reconciling key) ->
  i = j.
Proof.
  intros Hr Hi Hj. apply reachable_ok in Hr as [_ Hw _]. by eapply (w_exclusive _ _ Hw); eexists.
Qed.

(** C21: no change is lost: a key that was added, or waits for its delay, stays
    pending through every step of the watch handlers, the other workers and the
    clock until a worker starts to reconcile it, also when it was added while it
    was being reconciled; and a key due for processing is always either in the
    queue or in the hands of a worker that will put it back. *)
Theorem pending_work_is_not_lost n log s key :
  reachable n log s -> pending key (sys_queue s) ->
  (key ∈ dirty (sys_queue s) -> key ∈ queue (sys_queue s) \/ exists i, holds (sys_workers s) i key) /\
  forall l s', step s l s' -> pending key (sys_queue s') \/
    exists i, sys_workers s !! i = Some Getting /\ sys_workers s' !! i = Some (Reconciling key).
Proof.
  intros Hr Hp. apply reachable_ok in Hr as [Hq Hw _]. split.
  - intros Hd. destruct (decide (key ∈ processing (sys_queue s))) as [Hin|Hout].
    + right. by apply (w_processing _ _ Hw).
    + left. by apply (q_queued _ Hq).
  - intros l s' Hs. destruct Hs as [q ws i p a p' q' Hi Hwk|q ws k|q ws k now|q ws|q ws i Hi|q ws k now bucket _|q ws k _]; cbn in *.
    + destruct (worker_keeps _ _ _ _ _ _ Hwk Hp) as [|[-> ->]]; [by left|right]. exists i.
      by rewrite lookup_insert_eq.
    + left. by apply Add_keeps.
    + left. by apply addReady_keeps.
    + by left.
    + by left.
    + left. apply AddAfter_pending. by left.
    + by left.
Qed.

(** C22: on a queue only its workers requeue (all but the polling queue),
    retries are bounded: whatever the interleaving, between two times a key
    is forgotten the workers requeue it at most [maxRetries] (15) times, the
    count the queue keeps being exact; and the worker requeues a failed key
    exactly while the count is below, which (unless the queue is shutting down)
    leaves it pending. *)
Theorem retries_are_bounded n log s key :
  external = false -> reachable n log s ->
  0 <= requeues key log <= maxRetries /\
  forall a, exists p, worker a (Deciding key) (sys_queue s) = Some (p, sys_queue s) /\
    if requeues key log <? maxRetries then
      p = Requeueing key /\ forall a', exists q', worker a' p (sys_queue s) = Some (Finishing key, q') /\
        NumRequeues key q' = requeues key log + 1 /\ (shuttingDown (sys_queue s) = false -> pending key q')
    else p = Forgetting key.
Proof.
  intros Hx Hr. apply reachable_ok in Hr as [_ _ Hcounts]. destruct (Hcounts Hx) as [Hc Hb _]. specialize (Hc key). specialize (Hb key).
  split; [lia|]. intros a. cbn. rewrite Hc. destruct (requeues key log <? maxRetries); eexists; (split; [done|]); [|done].
  split; [done|]. intros a'. eexists. split; [reflexivity|]. split.
  - rewrite NumRequeues_add, Hc. by rewrite decide_True.
  - intros Hs. apply AddAfter_pending. by right.
Qed.
End worker.

(** ** A concrete system *)

Definition an (failed : bool) : Answers := {| an_failed := failed; an_now := 0; an_bucket := 0 |}.

(** Worker 0 took the key. *)
Definition taken_queue : Queue :=
  {| queue := []; dirty := ∅; processing := {[ "ns/db" ]}; shuttingDown := false; waiting := ∅; failures := ∅ |}.

(** It fails, and the key is added again meanwhile. *)
Definition busy_system : System :=
  {| sys_queue := Add "ns/db" taken_queue;
     sys_workers := <[0%nat := Deciding "ns/db"]> (<[0%nat := Reconciling "ns/db"]> (createWorkers 2)) |}.

Lemma taken_reachable :
  reachable DefaultControllerRateLimiter true false 2 [Getting]
    {| sys_queue := taken_queue; sys_workers := <[0%nat := Reconciling "ns/db"]> (createWorkers 2) |}.
Proof.
  assert (H1 : reachable DefaultControllerRateLimiter true false 2 []
    {| sys_queue := Add "ns/db" emptyQueue; sys_workers := createWorkers 2 |}).
  { change (@nil Position) with (match @None Position with Some p => [p] | None => [] end).
    eapply reachable_step; [apply reachable_init|apply step_add]. }
  refine (reachable_step _ _ _ 2 [] _ (Some Getting) _ H1 _).
  apply (step_worker _ _ _ _ _ 0%nat Getting (an false)); [reflexivity|]. vm_compute. reflexivity.
Qed.

Lemma busy_reachable : reachable DefaultControllerRateLimiter true false 2 [Reconciling "ns/db"; Getting] busy_system.
Proof.
  refine (reachable_step _ _ _ 2 [Reconciling "ns/db"; Getting] _ None _ _ _); [|apply step_add].
  refine (reachable_step _ _ _ 2 [Getting] _ (Some (Reconciling "ns/db")) _ taken_reachable _).
  by apply (step_worker _ _ _ _ _ 0%nat (Reconciling "ns/db") (an true)).
Qed.

Lemma workers_exclude_each_other_witness :
  reachable DefaultControllerRateLimiter true false 2 [Getting]
    {| sys_queue := taken_queue; sys_workers := <[0%nat := Reconciling "ns/db"]> (createWorkers 2) |} /\ 0%nat = 0%nat.
Proof.
  split; [exact taken_reachable|].
  exact (workers_exclude_each_other _ _ _ 2 _ _ 0%nat 0%nat "ns/db" taken_reachable eq_refl eq_refl).
Defined.

Lemma pending_work_is_not_lost_witness :
  queue (sys_queue busy_system) = [] /\ exists i, holds (sys_workers busy_system) i "ns/db".
Proof.
  split; [vm_compute; reflexivity|].
  assert (Hd : "ns/db" ∈ dirty (sys_queue busy_system)).
  { apply (bool_decide_eq_true_1 _). vm_compute. reflexivity. }
  destruct (proj1 (pending_work_is_not_lost _ _ _ 2 _ _ "ns/db" busy_reachable (or_introl Hd)) Hd) as [Hin|Hh]; [|exact Hh].
  by apply elem_of_nil in Hin.
Defined.

Lemma retries_are_bounded_witness :
  exists q', worker DefaultControllerRateLimiter true (an true) (Requeueing "ns/db") (sys_queue busy_system) =
    Some (Finishing "ns/db", q') /\ NumRequeues "ns/db" q' = 1 /\ pending "ns/db" q'.
Proof.
  destruct (retries_are_bounded _ _ _ 2 _ _ "ns/db" eq_refl busy_reachable) as [_ H].
  destruct (H (an true)) as (p & _ & Hif). cbn in Hif. destruct Hif as [-> Hq]. destruct (Hq (an true)) as (q' & H1 & H2 & H3).
  exists q'. split; [exact H1|]. split; [exact H2|]. apply H3. vm_compute. reflexivity.
Defined.
