(* ===== verification/Admission.v ===== *)
(** * Admission plugins

    [plugin/pkg/admission]: what the API server asks before a request reaches
    the registry.  A plugin sees the request's attributes and may change the
    object; what it looks up (informer caches, the API server's own client, the
    Kubernetes client) are operations of [AdmissionEnv], recorded in the trace
    with their answers.  [WaitForReady] of the vendored handler is such an
    operation, too: whether the plugin's caches synchronised in time. *)

From S2P Require Import Prelude Types Environment Validation APIServer Strategy.

(** ** Requests *)

Inductive Operation := Create | Update | Delete | Connect.
#[export] Instance Operation_EqDecision : EqDecision Operation.
Proof. solve_decision. Defined.

(** The object of a request, by its Go type; a delete request has none. *)
Inductive APIObject :=
| OInstance (i : ServiceInstance)
| OCredential (b : ServiceInstanceCredential)
| OBroker (b : ClusterServiceBroker)
| OOther (m : ObjectMeta).

Record Attributes := {
  a_Group : string; a_Resource : string; a_Subresource : string; a_Namespace : string;
  a_Operation : Operation; a_Object : option APIObject; a_User : option User }.

Definition a_with_Object (o : APIObject) (a : Attributes) : Attributes :=
  {| a_Group := a_Group a; a_Resource := a_Resource a; a_Subresource := a_Subresource a;
     a_Namespace := a_Namespace a; a_Operation := a_Operation a; a_Object := Some o; a_User := a_User a |}.

Definition objectMeta (o : APIObject) : ObjectMeta :=
  match o with OInstance i => si_Meta i | OCredential b => bind_Meta b | OBroker b => b_Meta b | OOther m => m end.

Definition GroupName : string := "servicecatalog.k8s.io".

(** [a.GetResource().Group == GroupName && a.GetResource().GroupResource() ==
    servicecatalog.Resource(resource)] *)
Definition about (resource : string) (a : Attributes) : bool :=
  bool_decide (a_Group a = GroupName) && bool_decide (a_Resource a = resource).

(** ** Admission errors *)

Definition GroupResource_String (group resource : string) : string :=
  if bool_decide (group = "") then resource else sprint [resource; "."; group].

(** [extractResourceName], for objects without a generated name. *)
Definition extractResourceName (a : Attributes) : string :=
  match a_Object a with
  | Some o => if bool_decide (Name (objectMeta o) = "") then "Unknown" else Name (objectMeta o)
  | None => "Unknown"
  end.

Definition IsForbidden (e : error) : bool :=
  match e with StatusError ReasonForbidden _ => true | _ => false end.

Definition NewForbidden (a : Attributes) (internalError : error) : error :=
  if IsForbidden internalError then internalError
  else StatusError ReasonForbidden
         (sprint [GroupResource_String (a_Group a) (a_Resource a); " "; quote (extractResourceName a);
                  " is forbidden: "; Error internalError]).
Definition NewNotFound (a : Attributes) : error :=
  StatusError ReasonNotFound
    (sprint [GroupResource_String (a_Group a) (a_Resource a); " "; quote (extractResourceName a); " not found"]).
Definition NewInternalError (err : error) : error :=
  StatusError ReasonInternalError (sprint ["Internal error occurred: "; Error err]).
Definition NewBadRequest (reason : string) : error := StatusError ReasonBadRequest reason.

Definition notReady : error := PlainError "not yet ready to handle request".

(** ** What the plugins look up *)

Record SubjectAccessReviewSpec := {
  sar_Namespace : string; sar_Verb : string; sar_Group : string; sar_Version : string;
  sar_Resource : string; sar_Name : string; sar_User : string; sar_Groups : option (list string);
  sar_Extra : gmap string (list string) }.
Record SubjectAccessReviewStatus := { sar_Allowed : bool; sar_Reason : string; sar_EvaluationError : string }.

Inductive Lookup :=
| LClass (name : string) (answer : ServiceClass + error)
| LClasses (externalName : string) (answer : list ServiceClass + error)
| LPlans (plans : list ServicePlan) (err : option error)
| LInstance (ns name : string) (answer : ServiceInstance + error)
| LNamespaceCached (ns : string) (answer : KNamespace + error)
| LNamespaceLive (ns : string) (answer : KNamespace + error)
| LReview (spec : SubjectAccessReviewSpec) (answer : SubjectAccessReviewStatus + error).

Class AdmissionEnv (W : Type) := {
  adm_WaitForReady : string -> W -> bool * W;
  adm_ServiceClass_Get : string -> W -> (ServiceClass + error) * W;
  adm_ServiceClasses_List : string -> W -> (list ServiceClass + error) * W;
  adm_ServicePlans_List : W -> (list ServicePlan * option error) * W;
  adm_ServiceInstance_Get : string -> string -> W -> (ServiceInstance + error) * W;
  adm_Namespace_Cached : string -> W -> (KNamespace + error) * W;
  adm_Namespace_Live : string -> W -> (KNamespace + error) * W;
  adm_SubjectAccessReview : SubjectAccessReviewSpec -> W -> (SubjectAccessReviewStatus + error) * W }.

Section admission.
Context {W : Type} {E : AdmissionEnv W}.
Local Notation M := (M W Lookup).
Local Open Scope go_scope.
Implicit Types (a : Attributes).

(** A lookup whose error the plugin examines. *)
Definition lookup_ {R} (eff : R + error -> Lookup) (f : W -> (R + error) * W) : M (R + error) :=
  call (fun r => [eff r]) f.

Definition waitForReady (plugin : string) a : M unit :=
  ready <- call (fun _ => []) (adm_WaitForReady plugin) ;;
  if ready then ret tt else fail (NewForbidden a notReady).

(** ** serviceplan/changevalidator *)

Definition denyPlanChange_compare a (instance : ServiceInstance) (sc : ServiceClass) : M Attributes :=
  if bool_decide (ExternalServicePlanName (si_Spec instance) = "") then ret a
  else
    r <- lookup_ (LInstance (Namespace (si_Meta instance)) (Name (si_Meta instance)))
           (adm_ServiceInstance_Get (Namespace (si_Meta instance)) (Name (si_Meta instance))) ;;
    match r with
    | inr err => fail err
    | inl origInstance =>
        if bool_decide (ExternalServicePlanName (si_Spec instance) = ExternalServicePlanName (si_Spec origInstance))
        then ret a
        else fail (NewForbidden a (PlainError
               (sprint ["The Service Class "; Name (sc_Meta sc); " does not allow plan changes."])))
    end.

Definition denyPlanChangeIfNotUpdatable_Admit a : M Attributes :=
  waitForReady "ServicePlanChangeValidator" a ;;
  if negb (about "serviceinstances" a) then ret a
  else
  match a_Object a with
  | Some (OInstance instance) =>
      let className := ExternalServiceClassName (si_Spec instance) in
      r <- lookup_ (LClass className) (adm_ServiceClass_Get className) ;;
      match r with
      | inr err => if IsNotFound err then ret a else fail (NewForbidden a err)
      | inl sc => if sc_PlanUpdatable (sc_Spec sc) then ret a else denyPlanChange_compare a instance sc
      end
  | _ => fail (NewBadRequest "Resource was marked with kind Instance but was unable to be converted")
  end.

(** ** serviceplan/defaultserviceplan *)

Definition with_ExternalServicePlanName (plan : string) (s : ServiceInstanceSpec) : ServiceInstanceSpec :=
  {| ExternalServiceClassName := ExternalServiceClassName s; ExternalServicePlanName := plan;
     ServiceClassRef := ServiceClassRef s; ServicePlanRef := ServicePlanRef s; Parameters := Parameters s;
     ParametersFrom := ParametersFrom s; ExternalID := ExternalID s; si_UserInfo := si_UserInfo s |}.

Definition withPlan (plan : string) (instance : ServiceInstance) : ServiceInstance :=
  si_with_Spec (with_ExternalServicePlanName plan (si_Spec instance)) instance.

(** The class found, or the error; a list of another length is NotFound. *)
Definition getServiceClassByExternalName a (scName : string) : M (ServiceClass + error) :=
  r <- lookup_ (LClasses scName) (adm_ServiceClasses_List scName) ;;
  match r with
  | inr err => ret (inr err)
  | inl [sc] => ret (inl sc)
  | inl _ => ret (inr (NewNotFound a))
  end.

(** [plans, err := d.spLister.List(...)]: the error is never looked at. *)
Definition defaultServicePlan_pick a (instance : ServiceInstance) : M Attributes :=
  r <- call (fun r => [LPlans (fst r) (snd r)]) adm_ServicePlans_List ;;
  let plans := fst r in
  if Nat.leb (length plans) 0 then
    fail (NewForbidden a (PlainError
      (sprint ["no plans found at all for service class "; quote (ExternalServiceClassName (si_Spec instance))])))
  else
  if Nat.ltb 1 (length plans) then
    fail (NewForbidden a (PlainError
      (sprint ["ServiceClass "; quote (ExternalServiceClassName (si_Spec instance));
               " has more than one plan, PlanName must be specified"])))
  else
    match plans with
    | p :: _ => ret (a_with_Object (OInstance (withPlan (sp_ExternalName (sp_Spec p)) instance)) a)
    | [] => panic
    end.

Definition defaultServicePlan_Admit a : M Attributes :=
  waitForReady "DefaultServicePlan" a ;;
  if negb (about "serviceinstances" a) then ret a
  else
  match a_Object a with
  | Some (OInstance instance) =>
      if Nat.ltb 0 (String.length (ExternalServicePlanName (si_Spec instance))) then ret a
      else
        r <- getServiceClassByExternalName a (ExternalServiceClassName (si_Spec instance)) ;;
        match r with
        | inr err =>
            if negb (IsNotFound err) then fail (NewForbidden a err)
            else fail (NewForbidden a (PlainError
                   (sprint ["ServiceClass "; quote (ExternalServiceClassName (si_Spec instance));
                            " does not exist, can not figure out the default Service Plan."])))
        | inl _ => defaultServicePlan_pick a instance
        end
  | _ => fail (NewBadRequest "Resource was marked with kind Instance but was unable to be converted")
  end.

(** ** serviceinstancecredentials/lifecycle *)

(** The message is passed to [fmt.Errorf] as its format. *)
Definition deletedInstanceWarning (credentials : ServiceInstanceCredential) : string :=
  let ns := Namespace (bind_Meta credentials) in
  sprint ["ServiceInstanceCredentials "; ns; "/"; Name (bind_Meta credentials);
          " references an instance that is being deleted: "; ns; "/";
          lref_Name (ServiceInstanceRef (bind_Spec credentials))].

Definition credentialsBlocker_Admit a : M Attributes :=
  waitForReady "ServiceInstanceCredentialsLifecycle" a ;;
  if negb (about "serviceinstancecredentials" a) then ret a
  else
  if negb (bool_decide (a_Subresource a = "")) then ret a
  else
  match a_Object a with
  | Some (OCredential credentials) =>
      let ns := Namespace (bind_Meta credentials) in
      let name := lref_Name (ServiceInstanceRef (bind_Spec credentials)) in
      r <- lookup_ (LInstance ns name) (adm_ServiceInstance_Get ns name) ;;
      match r with
      | inl instance =>
          if bool_decide (DeletionTimestamp (si_Meta instance) = None) then ret a
          else fail (NewForbidden a (PlainError (Sprintf0 (deletedInstanceWarning credentials))))
      | inr _ => ret a
      end
  | _ => fail (NewBadRequest "Resource was marked with kind ServiceInstanceCredentials but was unable to be converted")
  end.

(** ** namespace/lifecycle *)

(** The cached namespace; only NotFound is not an error. *)
Definition cachedNamespace (ns : string) : M (option KNamespace) :=
  r <- lookup_ (LNamespaceCached ns) (adm_Namespace_Cached ns) ;;
  match r with
  | inl namespace => ret (Some namespace)
  | inr err => if IsNotFound err then ret None else fail (NewInternalError err)
  end.

(** The last resort: a call to the Kubernetes API server. *)
Definition liveNamespace (ns : string) : M KNamespace :=
  r <- lookup_ (LNamespaceLive ns) (adm_Namespace_Live ns) ;;
  match r with
  | inl namespace => ret namespace
  | inr err => if IsNotFound err then fail err else fail (NewInternalError err)
  end.

(** The 50ms pause before the second look leaves no trace. *)
Definition namespaceLifecycle_Admit a : M Attributes :=
  waitForReady "KubernetesNamespaceLifecycle" a ;;
  cached <- cachedNamespace (a_Namespace a) ;;
  if bool_decide (a_Namespace a = "") then ret a
  else
    cached <- (match cached with
               | None => if decide (a_Operation a = Create) then cachedNamespace (a_Namespace a) else ret None
               | Some namespace => ret (Some namespace)
               end) ;;
    namespace <- (match cached with
                  | None => liveNamespace (a_Namespace a)
                  | Some namespace => ret namespace
                  end) ;;
    if decide (a_Operation a = Create) then
      match ns_Phase namespace with
      | NamespaceTerminating =>
          fail (NewForbidden a (PlainError (sprint ["unable to create new content in namespace "; a_Namespace a;
                                                    " because it is being terminated"])))
      | _ => ret a
      end
    else ret a.

(** ** broker/authsarcheck *)

Definition convertToSARExtra (extra : gmap string (list string)) : gmap string (list string) :=
  map_fold (fun k v ret => <[k := v]> ret) ∅ extra.

(** The reference the review is about; the pointers are not checked. *)
Definition sarSecretRef (authInfo : ServiceBrokerAuthInfo) : option ObjectReference :=
  match Basic authInfo, Bearer authInfo with
  | Some basic, _ => bac_SecretRef basic
  | None, Some bearer => btac_SecretRef bearer
  | None, None => BasicAuthSecret authInfo
  end.

Definition sarSpec (secretRef : ObjectReference) (userInfo : User) : SubjectAccessReviewSpec :=
  {| sar_Namespace := ref_Namespace secretRef; sar_Verb := "get"; sar_Group := ""; sar_Version := "v1";
     sar_Resource := "secrets"; sar_Name := ref_Name secretRef; sar_User := u_Name userInfo;
     sar_Groups := u_Groups userInfo; sar_Extra := convertToSARExtra (u_Extra userInfo) |}.

(** No ready function is set, so there is nothing to wait for. *)
Definition sarcheck_Admit a : M Attributes :=
  if negb (about "servicebrokers" a) then ret a
  else
  match a_Object a with
  | Some (OBroker broker) =>
      match AuthInfo (b_Spec broker) with
      | None => ret a
      | Some authInfo =>
          secretRef <- deref (sarSecretRef authInfo) ;;
          userInfo <- deref (a_User a) ;;
          let spec := sarSpec secretRef userInfo in
          r <- lookup_ (LReview spec) (adm_SubjectAccessReview spec) ;;
          match r with
          | inr err => fail err
          | inl status =>
              if sar_Allowed status then ret a
              else fail (NewForbidden a (PlainError
                     (sprint ["broker forbidden access to auth secret ("; ref_Name secretRef; "): Reason: ";
                              sar_Reason status; ", EvaluationError: "; sar_EvaluationError status])))
          end
      end
  | _ => fail (NewBadRequest "Resource was marked with kind ClusterServiceBroker, but was unable to be converted")
  end.

(** ** The chain *)

Record Handler := { Handles : Operation -> bool; Admit : Attributes -> M Attributes }.

Definition NewHandler (operations : list Operation) (f : Attributes -> M Attributes) : Handler :=
  {| Handles op := bool_decide (op ∈ operations); Admit := f |}.

Definition NewDenyPlanChangeIfNotUpdatable := NewHandler [Update] denyPlanChangeIfNotUpdatable_Admit.
Definition NewDefaultServicePlan := NewHandler [Create; Update] defaultServicePlan_Admit.
Definition NewCredentialsBlocker := NewHandler [Create] credentialsBlocker_Admit.
Definition NewLifecycle := NewHandler [Create; Update; Delete] namespaceLifecycle_Admit.
Definition NewSARCheck := NewHandler [Create; Update] sarcheck_Admit.

(** [registerAllAdmissionPlugins]; which of them run, and in which order, is
    configured. *)
Definition registeredPlugins : list Handler :=
  [NewLifecycle; NewDefaultServicePlan; NewCredentialsBlocker; NewDenyPlanChangeIfNotUpdatable; NewSARCheck].

Fixpoint chain_Admit (chain : list Handler) a : M Attributes :=
  match chain with
  | [] => ret a
  | handler :: chain' =>
      if Handles handler (a_Operation a) then
        a' <- Admit handler a ;;
        chain_Admit chain' a'
      else chain_Admit chain' a
  end.

Definition chain_Handles (chain : list Handler) (op : Operation) : bool := existsb (fun h => Handles h op) chain.

(** ** Create requests

    [createHandler] of the generic API server: the chain, then [Store.Create].
    The object is as the user sent it: its namespace is compared with the
    route's, or filled in, only by the store. *)

Definition createAttributes (resource : string) (ctx : RequestContext) (o : APIObject) : Attributes :=
  {| a_Group := GroupName; a_Resource := resource; a_Subresource := ""; a_Namespace := ctx_Namespace ctx;
     a_Operation := Create; a_Object := Some o; a_User := ctx_User ctx |}.

Context {C : Config} {MV : MetaValidation} {Sem : Semantic} {SV : StoreValidation}.

Definition createServiceInstance (chain : list Handler) (ctx : RequestContext) (uid next : string)
    (existing : option ServiceInstance) (instance : ServiceInstance) : M (UpdateResult ServiceInstance) :=
  a <- (let a := createAttributes "serviceinstances" ctx (OInstance instance) in
        if chain_Handles chain Create then chain_Admit chain a else ret a) ;;
  match a_Object a with
  | Some (OInstance instance) => ret (storeCreate instanceCreateStrategy ctx uid next existing instance)
  | _ => panic
  end.

Definition createServiceInstanceCredential (chain : list Handler) (ctx : RequestContext) (uid next : string)
    (existing : option ServiceInstanceCredential) (binding : ServiceInstanceCredential) :
    M (UpdateResult ServiceInstanceCredential) :=
  a <- (let a := createAttributes "serviceinstancecredentials" ctx (OCredential binding) in
        if chain_Handles chain Create then chain_Admit chain a else ret a) ;;
  match a_Object a with
  | Some (OCredential binding) => ret (storeCreate bindingCreateStrategy ctx uid next existing binding)
  | _ => panic
  end.
End admission.
