(* ===== verification/AdmissionTheorems.v ===== *)
(** * What the admission plugins guarantee

    Chains of the registered plugins, in any order and selection, and the create
    requests they guard. *)

From stdpp Require Import gmap.
From S2P Require Import Prelude Types Environment Validation ControllerCommon APIServer Strategy InstanceSpec Sample InstanceLifecycle Admission.

Section theorems.
Context {W : Type} {E : AdmissionEnv W}.
Context {C : Config} {MV : MetaValidation} {Sem : Semantic} {SV : StoreValidation}.
Implicit Types (a : Attributes) (chain : list (Handler (W:=W))) (ctx : RequestContext).

(** ** Single plugins *)

(** What a plugin may do to a request: fill in a plan that was not named. *)
Definition filled a a' : Prop :=
  a' = a \/
  exists i p, a_Object a = Some (OInstance i) /\ ExternalServicePlanName (si_Spec i) = "" /\
    a' = a_with_Object (OInstance (withPlan p i)) a.

Lemma filled_trans a a' a'' : filled a a' -> filled a' a'' -> filled a a''.
Proof.
  intros [->|(i & p & Ho & He & ->)]; [done|].
  intros [->|(i' & p' & Ho' & _ & ->)]; right; [by exists i, p|].
  injection Ho' as <-. exists i, p'. by split_and!.
Qed.

Lemma filled_frame a a' : filled a a' ->
  a_Operation a' = a_Operation a /\ a_Resource a' = a_Resource a /\ a_Group a' = a_Group a /\
  a_Subresource a' = a_Subresource a /\ a_Namespace a' = a_Namespace a.
Proof. by intros [->|(i & p & _ & _ & ->)]. Qed.

(** Only instances are changed. *)
Lemma filled_credential a a' b : filled a a' -> a_Object a = Some (OCredential b) -> a' = a.
Proof. intros [->|(i & p & Ho & _)] Hb; [done|congruence]. Qed.

Lemma wp_waitForReady plugin a Q :
  Q (Ok tt) [] -> Q (Err (NewForbidden a notReady)) [] -> wp (waitForReady (E:=E) plugin a) Q.
Proof. intros H1 H2. unfold waitForReady. apply wp_bind, wp_call. intros w r w' _. by destruct r; [apply wp_ret|apply wp_fail]. Qed.

Lemma wp_lookup {R} (eff : R + error -> Lookup) (f : W -> (R + error) * W) Q :
  (forall r, Q (Ok r) [eff r]) -> wp (lookup_ eff f) Q.
Proof. intros H. apply wp_call. intros w r w' _. apply H. Qed.

Ltac admission_step :=
  lazymatch goal with
  | |- wp (waitForReady _ _) _ => apply wp_waitForReady
  | |- wp (lookup_ _ _) _ => apply wp_lookup; intros ?r
  | |- _ => wp_step
  end.

Ltac admission_run := repeat (admission_step; cbn beta iota); rewrite ?app_nil_r, ?app_nil_l.

Lemma registered_fills h a : h ∈ registeredPlugins (E:=E) ->
  wp (Admit h a) (fun o _ => forall a', o = Ok a' -> filled a a').
Proof.
  unfold registeredPlugins. rewrite !elem_of_cons, elem_of_nil.
  intros [->|[->|[->|[->|[->|[]]]]]]; cbn;
    unfold namespaceLifecycle_Admit, cachedNamespace, liveNamespace, defaultServicePlan_Admit, defaultServicePlan_pick,
      getServiceClassByExternalName, credentialsBlocker_Admit, denyPlanChangeIfNotUpdatable_Admit,
      denyPlanChange_compare, sarcheck_Admit;
    admission_run; intros a' Ha; simplify_eq/=; try (by left);
    right; eexists _, _; (split_and!; [done| |done]).
  all: match goal with Hl : Nat.ltb 0 (String.length ?s) = false |- _ => by destruct s end.
Qed.

(** ** Chains *)

(** Every plugin of the chain that handles the operation accepted the request,
    as it stood when its turn came; the chain ends with no more than a plan
    filled in. *)
Lemma chain_accepts chain h P a :
  chain ⊆ registeredPlugins -> h ∈ chain -> Handles h (a_Operation a) = true ->
  (forall a', filled a a' -> wp (Admit h a') (fun o t => forall a'', o = Ok a'' -> P a' t)) ->
  wp (chain_Admit chain a) (fun o t => forall a', o = Ok a' ->
    exists am t1 t2 t3, filled a am /\ t = t1 ++ t2 ++ t3 /\ P am t2).
Proof.
  intros Hreg Hin Hh HP. revert a Hh HP. induction chain as [|h' chain IH]; [by apply elem_of_nil in Hin|].
  intros a Hh HP. assert (Hreg' : chain ⊆ registeredPlugins) by set_solver.
  assert (Hfill : forall a, wp (chain_Admit chain a) (fun _ _ => True)).
  { intros a0. intros w. by destruct (chain_Admit chain a0 w) as [[o w'] t]. }
  cbn. apply elem_of_cons in Hin as [<-|Hin].
  - rewrite Hh. apply wp_bind. eapply wp_conseq; [apply (HP a); by left|].
    intros [a1|e|] t1 H1; [|done..]. eapply wp_conseq; [apply Hfill|]. intros o t2 _ a' _.
    exists a, [], t1, t2. split_and!; [by left|done|by eapply H1].
  - destruct (Handles h' (a_Operation a)); [|by apply IH].
    apply wp_bind. eapply wp_conseq; [apply registered_fills; set_solver|].
    intros [a1|e|] t1 H1; [|done..]. specialize (H1 a1 eq_refl).
    destruct (filled_frame _ _ H1) as (Hop & _).
    eapply wp_conseq; [apply (IH Hreg' Hin a1); [by rewrite Hop|]|].
    + intros a2 H2. apply HP. by eapply filled_trans.
    + intros o t2 H2 a' Ho. destruct (H2 a' Ho) as (am & u1 & u2 & u3 & Hf & -> & Hp).
      exists am, (t1 ++ u1), u2, u3. split_and!; [by eapply filled_trans|by rewrite <-app_assoc|done].
Qed.

Lemma chain_fills chain a : chain ⊆ registeredPlugins (E:=E) ->
  wp (chain_Admit chain a) (fun o _ => forall a', o = Ok a' -> filled a a').
Proof.
  intros Hreg. revert a. induction chain as [|h chain IH]; intros a; cbn.
  - apply wp_ret. intros a' [= <-]. by left.
  - destruct (Handles h (a_Operation a)); [|apply IH; set_solver].
    apply wp_bind. eapply wp_conseq; [apply registered_fills; set_solver|].
    intros [a1|e|] t H1; [|done..]. eapply wp_conseq; [apply IH; set_solver|].
    intros o t2 H2 a' Ho. eapply filled_trans; [by apply H1|by apply H2].
Qed.

Lemma handled chain h op : h ∈ chain -> Handles h op = true -> chain_Handles chain op = true.
Proof. intros Hin Hh. apply existsb_exists. exists h. by rewrite <-list_elem_of_In. Qed.
(** ** Plans *)

Definition plan_of a : string :=
  match a_Object a with Some (OInstance i) => ExternalServicePlanName (si_Spec i) | _ => "" end.

(** The instance of [a] got the name of the only plan a lookup in [t] found,
    after another found the only class of that name. *)
Definition picked t a a' : Prop :=
  exists i c p err t1 t2, a_Object a = Some (OInstance i) /\ ExternalServicePlanName (si_Spec i) = "" /\
    a' = a_with_Object (OInstance (withPlan (sp_ExternalName (sp_Spec p)) i)) a /\
    t = t1 ++ [LClasses (ExternalServiceClassName (si_Spec i)) (inl [c]); LPlans [p] err] ++ t2.

Lemma picked_weaken t1 t t2 a a' : picked t a a' -> picked (t1 ++ t ++ t2) a a'.
Proof.
  intros (i & c & p & err & u1 & u2 & Ho & Hp & -> & ->). exists i, c, p, err, (t1 ++ u1), (u2 ++ t2).
  split_and!; try done. by rewrite <-!app_assoc.
Qed.

Lemma picked_trans t a a' t' a'' : picked t a a' -> picked t' a' a'' -> picked t' a a''.
Proof.
  intros (i & c & p & err & u1 & u2 & Ho & Hp & -> & _) (i' & c' & p' & err' & v1 & v2 & Ho' & Hp' & -> & ->).
  injection Ho' as <-. by exists i, c', p', err', v1, v2.
Qed.

Lemma picked_filled t a a' : picked t a a' -> filled a a'.
Proof. intros (i & c & p & err & u1 & u2 & Ho & Hp & -> & _). right. by exists i, (sp_ExternalName (sp_Spec p)). Qed.

(** The default plan plugin, exactly: what it admits and why it refuses. *)
Lemma default_plan_spec a i :
  about "serviceinstances" a = true -> a_Object a = Some (OInstance i) -> ExternalServicePlanName (si_Spec i) = "" ->
  wp (Admit NewDefaultServicePlan a) (fun o t => match o with
    | Ok a' => exists c p err, t = [LClasses (ExternalServiceClassName (si_Spec i)) (inl [c]); LPlans [p] err] /\
        a' = a_with_Object (OInstance (withPlan (sp_ExternalName (sp_Spec p)) i)) a
    | Err e => IsForbidden e = true /\
        forall c p err, t <> [LClasses (ExternalServiceClassName (si_Spec i)) (inl [c]); LPlans [p] err]
    | Panic => False
    end).
Proof.
  intros Hab Ho Hp. cbn. unfold defaultServicePlan_Admit, defaultServicePlan_pick, getServiceClassByExternalName.
  rewrite Hab, Ho. cbn. rewrite Hp. cbn.
  assert (Hf : forall e, IsForbidden (NewForbidden a e) = true).
  { intros e. unfold NewForbidden. by destruct (IsForbidden e) eqn:?. }
  admission_run; try (split; [first [apply Hf|done]|by intros c p err]).
  all: destruct r0 as [ps e]; cbn in *.
  - split; [done|]. intros c p err [=]. by subst.
  - split; [done|]. intros c p err [=]. by subst.
  - by subst.
  - subst. eexists _, _, _. split; [|done]. by destruct l1.
Qed.

(** A fill is a pick. *)
Lemma registered_picks h a : h ∈ registeredPlugins (E:=E) ->
  wp (Admit h a) (fun o t => forall a', o = Ok a' -> a' = a \/ picked t a a').
Proof.
  unfold registeredPlugins. rewrite !elem_of_cons, elem_of_nil.
  intros [->|[->|[->|[->|[->|[]]]]]]; cbn [Admit NewHandler NewLifecycle NewDefaultServicePlan NewCredentialsBlocker
    NewDenyPlanChangeIfNotUpdatable NewSARCheck].
  2:{ destruct (about "serviceinstances" a) eqn:Hab; [|unfold defaultServicePlan_Admit; rewrite Hab; cbn [negb];
        admission_run; intros a' Ha; by simplify_eq/=; left].
      destruct (a_Object a) as [[i|b|b|m]|] eqn:Ho;
        try (unfold defaultServicePlan_Admit; rewrite Hab, Ho; cbn [negb]; admission_run; intros a' Ha; by simplify_eq/=).
      destruct (decide (ExternalServicePlanName (si_Spec i) = "")) as [He|Hne].
      - eapply wp_conseq; [by apply (default_plan_spec a i)|]. intros [a1|e|] t H a' Ha; simplify_eq/=.
        destruct H as (c & p & err & -> & ->). right. exists i, c, p, err, [], []. by split_and!.
      - unfold defaultServicePlan_Admit. rewrite Hab, Ho. cbn.
        destruct (ExternalServicePlanName (si_Spec i)); [done|]. cbn. admission_run; intros a' Ha; by simplify_eq/=; left. }
  all: unfold namespaceLifecycle_Admit, cachedNamespace, liveNamespace, credentialsBlocker_Admit,
      denyPlanChangeIfNotUpdatable_Admit, denyPlanChange_compare, sarcheck_Admit;
    admission_run; intros a' Ha; simplify_eq/=; by left.
Qed.

(** A chain as a whole: it changes nothing but an empty plan, by a pick; with the
    default plan plugin it leaves no instance without a pick. *)
Lemma chain_picks chain a : chain ⊆ registeredPlugins ->
  wp (chain_Admit chain a) (fun o t => forall a', o = Ok a' ->
    (a' = a \/ picked t a a') /\
    (NewDefaultServicePlan ∈ chain -> a_Operation a = Create -> about "serviceinstances" a = true ->
     forall i, a_Object a = Some (OInstance i) -> ExternalServicePlanName (si_Spec i) = "" -> picked t a a')).
Proof.
  intros Hreg. revert a. induction chain as [|h chain IH]; intros a; cbn.
  { apply wp_ret. intros a' [= <-]. split; [by left|]. intros Hin. by apply elem_of_nil in Hin. }
  specialize (IH ltac:(set_solver)).
  destruct (Handles h (a_Operation a)) eqn:Hh.
  2:{ eapply wp_conseq; [apply IH|]. intros o t H a' Ho. destruct (H a' Ho) as [H1 H2]. split; [done|].
      intros [<-|Hin]%elem_of_cons Hop; [by rewrite Hop in Hh|by apply H2]. }
  apply wp_bind. eapply wp_conseq; [apply wp_and; [apply registered_picks; set_solver|]|].
  { instantiate (1 := fun o t => forall a1, o = Ok a1 -> h = NewDefaultServicePlan -> about "serviceinstances" a = true ->
      forall i, a_Object a = Some (OInstance i) -> ExternalServicePlanName (si_Spec i) = "" -> picked t a a1).
    intros w. destruct (Admit h a w) as [[o w'] t] eqn:Hw. intros a1 -> -> Hab i Ho Hp.
    pose proof (default_plan_spec a i Hab Ho Hp w) as H. rewrite Hw in H. destruct H as (c & p & err & -> & ->).
    exists i, c, p, err, [], []. by split_and!. }
  intros [a1|e|] t1 [H1 H1']; [|done..]. specialize (H1 a1 eq_refl). specialize (H1' a1 eq_refl).
  eapply wp_conseq; [apply IH|]. intros o t2 H2 a' Ho. destruct (H2 a' Ho) as [H3 H4]. clear H2.
  assert (Hall : a' = a \/ picked (t1 ++ t2) a a').
  { destruct H1 as [->|H1], H3 as [->|H3]; [by left|right..].
    - apply (picked_weaken t1 t2 []) in H3. by rewrite app_nil_r in H3.
    - by apply (picked_weaken [] t1 t2) in H1.
    - apply (picked_trans _ _ _ _ _ H1) in H3. apply (picked_weaken t1 t2 []) in H3. by rewrite app_nil_r in H3. }
  split; [done|]. intros Hin Hop Hab i Hi Hp.
  assert (Hlast : forall b, picked t2 b a' -> picked (t1 ++ t2) b a').
  { intros b Hb. apply (picked_weaken t1 t2 []) in Hb. by rewrite app_nil_r in Hb. }
  apply elem_of_cons in Hin as [<-|Hin].
  - specialize (H1' eq_refl Hab i Hi Hp). destruct H3 as [->|H3]; [by apply (picked_weaken [] t1 t2) in H1'|].
    apply Hlast. by eapply picked_trans.
  - destruct H1 as [->|H1]; [by apply Hlast, (H4 Hin Hop Hab i)|].
    destruct H3 as [->|H3]; [by apply (picked_weaken [] t1 t2) in H1|]. apply Hlast. by eapply picked_trans.
Qed.
(** ** Stored objects *)

Lemma create_binding_kept ctx uid next existing b v :
  storeCreate bindingCreateStrategy ctx uid next existing b = Stored v ->
  ServiceInstanceRef (bind_Spec v) = ServiceInstanceRef (bind_Spec b) /\ Name (bind_Meta v) = Name (bind_Meta b) /\
  Namespace (bind_Meta v) = ctx_Namespace ctx.
Proof.
  unfold storeCreate, BeforeCreate, scopedTo, ValidNamespace, modify. cbn.
  destruct (bool_decide (Namespace (bind_Meta b) = "")); cbn; case_bool_decide as Hns; cbn; try done;
    unfold bindingPrepareForCreate, setServiceInstanceCredentialUserInfo; destruct OriginatingIdentityEnabled; cbn;
    destruct (_ ++ _); try done; destruct existing; try done; intros [= <-]; by cbn.
Qed.

Lemma create_instance_kept ctx uid next existing i v :
  storeCreate instanceCreateStrategy ctx uid next existing i = Stored v ->
  ExternalServicePlanName (si_Spec v) = ExternalServicePlanName (si_Spec i).
Proof.
  unfold storeCreate, BeforeCreate, scopedTo, ValidNamespace, modify. cbn.
  destruct (bool_decide (Namespace (si_Meta i) = "")); cbn; case_bool_decide as Hns; cbn; try done;
    unfold instancePrepareForCreate, setServiceInstanceUserInfo; destruct OriginatingIdentityEnabled; cbn;
    destruct (_ ++ _); try done; destruct existing; try done; intros [= <-]; by cbn.
Qed.

(** To the store a namespace left out is the namespace of the route. *)
Lemma create_binding_namespace ctx uid next existing b :
  Namespace (bind_Meta b) = ctx_Namespace ctx ->
  storeCreate bindingCreateStrategy ctx uid next existing (bind_with_Meta (with_Namespace "" (bind_Meta b)) b) =
  storeCreate bindingCreateStrategy ctx uid next existing b.
Proof.
  intros Hns. unfold storeCreate, BeforeCreate.
  assert (Hs : scopedTo true ctx (bind_with_Meta (with_Namespace "" (bind_Meta b)) b) = scopedTo true ctx b); [|change (NamespaceScoped bindingCreateStrategy) with true; by rewrite Hs].
  assert (Hid : forall ns, Namespace (bind_Meta b) = ns ->
    bind_with_Meta (with_Namespace ns (bind_Meta b)) b = b) by (intros ns <-; by destruct b as [? [] ? ?]).
  unfold scopedTo, ValidNamespace, modify. cbn.
  change (bind_with_Meta (with_Namespace (ctx_Namespace ctx) (with_Namespace "" (bind_Meta b)))
    (bind_with_Meta (with_Namespace "" (bind_Meta b)) b)) with (bind_with_Meta (with_Namespace (ctx_Namespace ctx) (bind_Meta b)) b).
  rewrite (Hid _ Hns), Hns. by destruct (bool_decide (ctx_Namespace ctx = "")).
Qed.

Lemma blocker_accepts ctx b :
  let a := createAttributes "serviceinstancecredentials" ctx (OCredential b) in
  wp (Admit (NewCredentialsBlocker (E:=E)) a) (fun o t => forall a', o = Ok a' -> exists answer,
    t = [LInstance (Namespace (bind_Meta b)) (lref_Name (ServiceInstanceRef (bind_Spec b))) answer] /\
    forall i, answer = inl i -> DeletionTimestamp (si_Meta i) = None).
Proof.
  cbn. unfold credentialsBlocker_Admit. cbn. admission_run; intros a' Ha; simplify_eq/=.
  - eexists. split; [done|]. intros i [= <-]. by case_bool_decide.
  - eexists. split; [done|]. by intros i.
Qed.

(** A create request with the credentials plugin alone, once its cache is warm. *)
Lemma blocker_run ctx uid next existing b w :
  (forall plugin w, fst (adm_WaitForReady plugin w) = true) ->
  exists w', outcome_of (createServiceInstanceCredential [NewCredentialsBlocker] ctx uid next existing b) w =
    match fst (adm_ServiceInstance_Get (Namespace (bind_Meta b)) (lref_Name (ServiceInstanceRef (bind_Spec b))) w') with
    | inl instance =>
        if bool_decide (DeletionTimestamp (si_Meta instance) = None)
        then Ok (storeCreate bindingCreateStrategy ctx uid next existing b)
        else Err (NewForbidden (createAttributes "serviceinstancecredentials" ctx (OCredential b))
                    (PlainError (Sprintf0 (deletedInstanceWarning b))))
    | inr _ => Ok (storeCreate bindingCreateStrategy ctx uid next existing b)
    end.
Proof.
  intros Hready. exists (snd (adm_WaitForReady "ServiceInstanceCredentialsLifecycle" w)).
  unfold createServiceInstanceCredential, chain_Admit, NewCredentialsBlocker, NewHandler, chain_Handles. cbn.
  change (bool_decide (Create ∈ [Create])) with true. unfold credentialsBlocker_Admit.
  set (a := createAttributes _ ctx _). change (about "serviceinstancecredentials" a) with true.
  change (bool_decide (a_Subresource a = "")) with true. cbn.
  unfold waitForReady, lookup_, outcome_of, bind, call. specialize (Hready "ServiceInstanceCredentialsLifecycle" w).
  destruct (adm_WaitForReady "ServiceInstanceCredentialsLifecycle" w) as [ready w1]. cbn in Hready |- *. subst ready. cbn.
  destruct (adm_ServiceInstance_Get _ _ w1) as [[instance|e] w2]; cbn; [|done]. by destruct (bool_decide _).
Qed.

(** ** Properties *)

(** C17: no credentials for an instance the API server knows to be deleted: with
    the credentials plugin in the chain, wherever it stands among the registered
    plugins, a binding whose body names its namespace is stored only after the
    cache of instances was asked, in the same request, for the instance the
    stored binding refers to, and did not answer with one that is marked for
    deletion.  Only the cache is asked, and a lookup that fails does not stop the
    request; a body without a namespace is [empty_namespace_bypasses_blocker]. *)
Theorem no_credentials_for_deleted_instances chain ctx uid next existing b v w :
  chain ⊆ registeredPlugins -> NewCredentialsBlocker ∈ chain ->
  Namespace (bind_Meta b) = ctx_Namespace ctx ->
  outcome_of (createServiceInstanceCredential chain ctx uid next existing b) w = Ok (Stored v) ->
  exists answer,
    LInstance (Namespace (bind_Meta v)) (lref_Name (ServiceInstanceRef (bind_Spec v))) answer
      ∈ trace_of (createServiceInstanceCredential chain ctx uid next existing b) w /\
    forall i, answer = inl i -> DeletionTimestamp (si_Meta i) = None.
Proof.
  intros Hreg Hin Hns. pattern (outcome_of (createServiceInstanceCredential chain ctx uid next existing b) w),
    (trace_of (createServiceInstanceCredential chain ctx uid next existing b) w). apply wp_run.
  unfold createServiceInstanceCredential. cbv zeta.
  rewrite (handled chain NewCredentialsBlocker Create Hin) by done.
  set (a := createAttributes _ ctx _). apply wp_bind.
  eapply wp_conseq; [apply wp_and; [by apply (chain_fills chain a)|
    apply (chain_accepts chain NewCredentialsBlocker (fun am t => am = a -> exists answer,
      t = [LInstance (Namespace (bind_Meta b)) (lref_Name (ServiceInstanceRef (bind_Spec b))) answer] /\
      forall i, answer = inl i -> DeletionTimestamp (si_Meta i) = None) a Hreg Hin eq_refl)]|].
  { intros a' Hf. rewrite (filled_credential a a' b Hf eq_refl). eapply wp_conseq; [apply (blocker_accepts ctx b)|].
    intros o t H a'' Ho _. by apply (H a''). }
  intros [a'|e|] t [Hf Hacc]; [|done..]. destruct (Hacc a' eq_refl) as (am & t1 & t2 & t3 & Ham & -> & Hp).
  rewrite (filled_credential a a' b (Hf a' eq_refl) eq_refl). cbn. apply wp_ret. rewrite app_nil_r. intros [= Hv].
  apply create_binding_kept in Hv as (-> & _ & ->). rewrite <- Hns.
  destruct Hp as (answer & -> & Hd); [by rewrite (filled_credential a am b Ham eq_refl)|].
  exists answer. split; [|done]. set_solver.
Qed.

(** The credentials plugin looks the instance up in the namespace the request
    body names.  A body without a namespace is stored in the namespace of the
    route like any other, but the plugin sees no instance for it: the request is
    admitted while its instance is being deleted, which with the namespace in
    the body is refused. *)
Theorem empty_namespace_bypasses_blocker ctx uid next existing b i w :
  (forall plugin w, fst (adm_WaitForReady plugin w) = true) ->
  (forall name w, fst (adm_ServiceInstance_Get "" name w) = inr notFound) ->
  Namespace (bind_Meta b) = ctx_Namespace ctx -> DeletionTimestamp (si_Meta i) <> None ->
  (forall w, fst (adm_ServiceInstance_Get (ctx_Namespace ctx) (lref_Name (ServiceInstanceRef (bind_Spec b))) w) = inl i) ->
  let create := createServiceInstanceCredential [NewCredentialsBlocker] ctx uid next existing in
  (exists e, outcome_of (create b) w = Err e /\ IsForbidden e = true) /\
  outcome_of (create (bind_with_Meta (with_Namespace "" (bind_Meta b)) b)) w =
    Ok (storeCreate bindingCreateStrategy ctx uid next existing b).
Proof.
  intros Hready Hnone Hns Hdel Hget. cbv zeta.
  split.
  - destruct (blocker_run ctx uid next existing b w Hready) as [w' ->]. rewrite Hns, Hget, bool_decide_eq_false_2 by done.
    by eexists.
  - destruct (blocker_run ctx uid next existing (bind_with_Meta (with_Namespace "" (bind_Meta b)) b) w Hready) as [w' ->].
    cbn [bind_Meta bind_with_Meta with_Namespace Namespace bind_Spec]. rewrite Hnone. f_equal. by apply create_binding_namespace.
Qed.

(** C38: which plan an instance is created with: with the default plan plugin in
    the chain, an instance that is stored has the plan the user named or, if none
    was named, the name of the one plan in the whole catalog, of whatever class,
    found after the one class of the name the user gave; the chain changes nothing
    else in the request. *)
Theorem created_instance_has_its_plan chain ctx uid next existing i v w :
  chain ⊆ registeredPlugins -> NewDefaultServicePlan ∈ chain ->
  outcome_of (createServiceInstance chain ctx uid next existing i) w = Ok (Stored v) ->
  exists i', storeCreate instanceCreateStrategy ctx uid next existing i' = Stored v /\
    if decide (ExternalServicePlanName (si_Spec i) = "") then
      exists c p err t1 t2, i' = withPlan (ExternalServicePlanName (si_Spec v)) i /\
        ExternalServicePlanName (si_Spec v) = sp_ExternalName (sp_Spec p) /\
        trace_of (createServiceInstance chain ctx uid next existing i) w =
          t1 ++ [LClasses (ExternalServiceClassName (si_Spec i)) (inl [c]); LPlans [p] err] ++ t2
    else i' = i.
Proof.
  intros Hreg Hin. pattern (outcome_of (createServiceInstance chain ctx uid next existing i) w),
    (trace_of (createServiceInstance chain ctx uid next existing i) w). apply wp_run.
  unfold createServiceInstance. cbv zeta. rewrite (handled chain NewDefaultServicePlan Create Hin) by done.
  set (a := createAttributes _ ctx _). apply wp_bind. eapply wp_conseq; [by apply (chain_picks chain a)|].
  intros [a'|e|] t H; [|done..]. destruct (H a' eq_refl) as [Hor Hpick]. clear H.
  specialize (Hpick Hin eq_refl eq_refl i eq_refl).
  destruct (decide (ExternalServicePlanName (si_Spec i) = "")) as [He|Hne].
  - destruct (Hpick He) as (i0 & c & p & err & t1 & t2 & Ho & _ & -> & ->). injection Ho as <-. cbn.
    apply wp_ret. rewrite app_nil_r. intros [= Hv]. eexists. split; [exact Hv|].
    apply create_instance_kept in Hv as Hn. cbn in Hn. exists c, p, err, t1, t2. by rewrite Hn.
  - destruct Hor as [->|(i0 & c & p & err & t1 & t2 & Ho & He & _)]; [|by injection Ho as <-].
    cbn. apply wp_ret. intros [= Hv]. by exists i.
Qed.

(** Who may give a broker the credentials of a secret.  A request about the
    resource "servicebrokers" is admitted exactly when it needs no secret or the
    API server allowed its user to get the secret, asked about that secret and
    that user.  But brokers are served as "clusterservicebrokers": for those the
    plugin asks nothing and admits every request. *)
Theorem auth_secret_access_is_reviewed a b user :
  a_Object a = Some (OBroker b) -> a_User a = Some user ->
  (about "servicebrokers" a = true -> wp (Admit NewSARCheck a) (fun o t =>
     (o = Ok a <->
        AuthInfo (b_Spec b) = None \/
        exists authInfo secretRef status, AuthInfo (b_Spec b) = Some authInfo /\ sarSecretRef authInfo = Some secretRef /\
          t = [LReview {| sar_Namespace := ref_Namespace secretRef; sar_Verb := "get"; sar_Group := ""; sar_Version := "v1";
                          sar_Resource := "secrets"; sar_Name := ref_Name secretRef; sar_User := u_Name user;
                          sar_Groups := u_Groups user; sar_Extra := u_Extra user |} (inl status)] /\
          sar_Allowed status = true) /\
     (o = Panic <-> exists authInfo, AuthInfo (b_Spec b) = Some authInfo /\ sarSecretRef authInfo = None))) /\
  (a_Resource a = "clusterservicebrokers" -> wp (Admit NewSARCheck a) (fun o t => o = Ok a /\ t = [])).
Proof.
  intros Ho Hu. split.
  - intros Hab. cbn. unfold sarcheck_Admit. rewrite Hab, Ho, Hu. cbn.
    assert (Hx : forall m : gmap string (list string), convertToSARExtra m = m).
    { intros m. unfold convertToSARExtra. induction m using map_ind; [done|]. rewrite map_fold_insert_L; [by rewrite IHm|..|done].
      intros j1 j2 z1 z2 y Hne _ _. by apply insert_insert_ne. }
    admission_run; simplify_eq/=; (split; split; try done; try naive_solver).
    + intros _. right. eexists _, _, _. split_and!; [done..| |done]. unfold sarSpec. by rewrite Hx.
    + intros [?|(ai & ref & st & Hai & Href & Ht & Hall)]; simplify_eq/=. congruence.
  - intros Hres. cbn. unfold sarcheck_Admit, about. rewrite Hres, andb_false_r. cbn. by apply wp_ret.
Qed.

(** Namespaces: an object is created in a namespace only if a lookup found
    it and it is not terminating; other operations need only that it exists.  A
    missing namespace is looked up twice in the cache and then at the server
    before a create is refused. *)
Theorem namespace_must_live a :
  a_Namespace a <> "" -> wp (Admit NewLifecycle a) (fun o t => match o with
    | Ok a' => a' = a /\ exists ns t1 l, t = t1 ++ [l] /\
        (l = LNamespaceCached (a_Namespace a) (inl ns) \/ l = LNamespaceLive (a_Namespace a) (inl ns)) /\
        (a_Operation a = Create -> ns_Phase ns <> NamespaceTerminating)
    | Err e => IsNotFound e = true -> exists t1 e2,
        t = t1 ++ [LNamespaceCached (a_Namespace a) (inr e2); LNamespaceLive (a_Namespace a) (inr e)] /\
        (a_Operation a = Create -> exists e1, t1 = [LNamespaceCached (a_Namespace a) (inr e1)])
    | Panic => False
    end).
Proof.
  intros Hne. cbn. unfold namespaceLifecycle_Admit, cachedNamespace, liveNamespace.
  rewrite bool_decide_eq_false_2 by done.
  admission_run; cbn; unfold NewForbidden, NewInternalError in *; simplify_eq/=; try done;
    try (split; [done|]); try (intros Hnf; by destruct (IsForbidden _)).
  all: let found := (eexists; split; [reflexivity|split; [by auto|intros; congruence]]) in
       let missing := (eexists; split; [reflexivity|intros; solve [eauto|congruence]]) in
       lazymatch goal with
       | k : KNamespace |- _ => exists k; first [exists []; found | eexists [_]; found | eexists [_; _]; found]
       | |- _ => intros _; first [exists []; missing | eexists [_]; missing]
       end.
Qed.
(** The plan change plugin looks the class up by the name the user gave, while
    the classes a catalog is converted to are stored under their IDs; a class it
    does not find is no reason to refuse. *)
Theorem plan_change_guard a i :
  about "serviceinstances" a = true -> a_Object a = Some (OInstance i) ->
  wp (Admit NewDenyPlanChangeIfNotUpdatable a) (fun o t => match o with
    | Ok a' => a' = a
    | Err e => t = [] \/ exists answer t', t = LClass (ExternalServiceClassName (si_Spec i)) answer :: t' /\
        match answer with
        | inl c => sc_PlanUpdatable (sc_Spec c) = false /\ ExternalServicePlanName (si_Spec i) <> ""
        | inr err => IsNotFound err = false
        end
    | Panic => False
    end).
Proof.
  intros Hab Ho. cbn. unfold denyPlanChangeIfNotUpdatable_Admit, denyPlanChange_compare. rewrite Hab, Ho. cbn [negb].
  admission_run; rewrite ?bool_decide_eq_false in *; cbn; try done; [right..|by left]; by eexists _, _.
Qed.
End theorems.

(** ** Concrete requests *)

(** The API server's view of a [World]: users of the group "admins" may read
    secrets. *)
#[export] Instance sample_admission : AdmissionEnv World := {|
  adm_WaitForReady _ w := (true, w);
  adm_ServiceClass_Get name w := (found (List.find (fun c => has_name name (sc_Meta c)) (w_classes w)), w);
  adm_ServiceClasses_List ext w :=
    (inl (List.filter (fun c => bool_decide (sc_ExternalName (sc_Spec c) = ext)) (w_classes w)), w);
  adm_ServicePlans_List w := ((w_plans w, None), w);
  adm_ServiceInstance_Get ns name w := (found (at_key si_Meta ns name (w_instances w)), w);
  adm_Namespace_Cached ns w := (inl {| ns_Name := ns; ns_UID := ""; ns_Phase := NamespaceActive |}, w);
  adm_Namespace_Live ns w := (inl {| ns_Name := ns; ns_UID := ""; ns_Phase := NamespaceActive |}, w);
  adm_SubjectAccessReview spec w :=
    (inl {| sar_Allowed := bool_decide (sar_Groups spec = Some ["admins"]); sar_Reason := ""; sar_EvaluationError := "" |}, w) |}.

(** An API server whose only instance is being deleted. *)
Definition deleting_admission : AdmissionEnv unit := {|
  adm_WaitForReady _ w := (true, w);
  adm_ServiceClass_Get _ w := (inr notFound, w);
  adm_ServiceClasses_List _ w := (inl [], w);
  adm_ServicePlans_List w := (([], None), w);
  adm_ServiceInstance_Get ns name w :=
    (if bool_decide (ns = "ns") && bool_decide (name = "db") then inl instance_deleting else inr notFound, w);
  adm_Namespace_Cached _ w := (inr notFound, w);
  adm_Namespace_Live _ w := (inr notFound, w);
  adm_SubjectAccessReview _ w := (inr (PlainError "unavailable"), w) |}.

Definition created_binding : ServiceInstanceCredential :=
  match outcome_of (createServiceInstanceCredential registeredPlugins sample_context "uid-1" "1" None binding1) world1 with
  | Ok (Stored v) => v
  | _ => binding1
  end.

Lemma no_credentials_for_deleted_instances_witness :
  exists answer, LInstance (Namespace (bind_Meta created_binding)) (lref_Name (ServiceInstanceRef (bind_Spec created_binding))) answer
      ∈ trace_of (createServiceInstanceCredential registeredPlugins sample_context "uid-1" "1" None binding1) world1 /\
    forall i, answer = inl i -> DeletionTimestamp (si_Meta i) = None.
Proof.
  apply (no_credentials_for_deleted_instances registeredPlugins sample_context "uid-1" "1" None binding1 created_binding world1);
    [done|right; right; left|reflexivity|vm_compute; reflexivity].
Defined.

Lemma empty_namespace_bypasses_blocker_witness :
  exists v, outcome_of (createServiceInstanceCredential [NewCredentialsBlocker (E:=deleting_admission)] sample_context "uid-1" "1" None
    (bind_with_Meta (with_Namespace "" (bind_Meta binding1)) binding1)) tt = Ok (Stored v).
Proof.
  eexists. rewrite (proj2 (empty_namespace_bypasses_blocker (E:=deleting_admission) sample_context "uid-1" "1" None binding1
    instance_deleting tt (fun _ _ => eq_refl) (fun _ _ => eq_refl) eq_refl ltac:(discriminate) (fun _ => eq_refl))).
  vm_compute. reflexivity.
Defined.

Definition instance_without_plan : ServiceInstance := withPlan "" instance1.
Definition created_instance : ServiceInstance :=
  match outcome_of (createServiceInstance registeredPlugins sample_context "uid-1" "1" None instance_without_plan) world1 with
  | Ok (Stored v) => v
  | _ => instance_without_plan
  end.

Lemma created_instance_has_its_plan_witness :
  ExternalServicePlanName (si_Spec created_instance) = "small" /\
  exists i', storeCreate instanceCreateStrategy sample_context "uid-1" "1" None i' = Stored created_instance.
Proof.
  split; [vm_compute; reflexivity|].
  destruct (created_instance_has_its_plan registeredPlugins sample_context "uid-1" "1" None instance_without_plan created_instance
    world1) as (i' & H & _); [done|right; left|vm_compute; reflexivity|]. by exists i'.
Defined.

Definition broker_with_secret : ClusterServiceBroker :=
  b_with_Spec {| URL := "https://broker"; InsecureSkipTLSVerify := false; CABundle := "";
    AuthInfo := Some {| Basic := Some {| bac_SecretRef := Some (refTo "auth") |}; Bearer := None; BasicAuthSecret := None |};
    RelistBehavior := RelistBehaviorDuration; RelistDuration := Some 900; RelistRequests := 0 |} broker1.
Definition alice : User := {| u_Name := "alice"; u_UID := "u1"; u_Groups := None; u_Extra := ∅ |}.

(** Alice may not read secrets, and still gives the broker one. *)
Lemma auth_secret_access_is_reviewed_witness :
  outcome_of (Admit NewSARCheck (createAttributes "servicebrokers" sample_context (OBroker broker_with_secret))) world1 <>
    Ok (createAttributes "servicebrokers" sample_context (OBroker broker_with_secret)) /\
  outcome_of (Admit NewSARCheck (createAttributes "clusterservicebrokers" sample_context (OBroker broker_with_secret))) world1 =
    Ok (createAttributes "clusterservicebrokers" sample_context (OBroker broker_with_secret)).
Proof.
  split.
  - intros Ho.
    destruct (auth_secret_access_is_reviewed (createAttributes "servicebrokers" sample_context (OBroker broker_with_secret))
      broker_with_secret alice eq_refl eq_refl) as [H _].
    apply (wp_run _ _ world1 (H eq_refl)) in Ho. destruct Ho as [Hn|(ai & ref & st & Ha & _ & Ht & Hall)]; [discriminate|].
    vm_compute in Ht. injection Ht as _ _ <-. discriminate.
  - destruct (auth_secret_access_is_reviewed (createAttributes "clusterservicebrokers" sample_context (OBroker broker_with_secret))
      broker_with_secret alice eq_refl eq_refl) as [_ H].
    by destruct (wp_run _ _ world1 (H eq_refl)).
Defined.

Lemma namespace_must_live_witness :
  match outcome_of (Admit (NewLifecycle (E:=deleting_admission))
    (createAttributes "serviceinstances" sample_context (OInstance instance1))) tt with
  | Err e => IsNotFound e = true -> exists t1 e2,
      trace_of (Admit (NewLifecycle (E:=deleting_admission))
        (createAttributes "serviceinstances" sample_context (OInstance instance1))) tt =
        t1 ++ [LNamespaceCached "ns" (inr e2); LNamespaceLive "ns" (inr e)]
  | _ => False
  end.
Proof.
  pose proof (wp_run _ _ tt (namespace_must_live (E:=deleting_admission)
    (createAttributes "serviceinstances" sample_context (OInstance instance1)) ltac:(discriminate))) as H.
  destruct (outcome_of _ tt) as [a'|e|] eqn:Ho; [by vm_compute in Ho| |done].
  intros Hn. destruct (H Hn) as (t1 & e2 & Ht & _). by exists t1, e2.
Defined.
