(* ===== verification/JsonText.v ===== *)
(** * JSON decoding

    [json.Unmarshal] on the texts the repository decodes: the scanner of
    [encoding/json] as a parser into values, then the decoding of a value into
    [interface{}] and [map[string]interface{}].  What [strconv] makes of a
    number, and the messages of the errors, are parameters.  Strings are byte
    strings; a text is taken to be valid UTF-8, which is what the decoder makes
    of any text. *)

From stdpp Require Import gmap strings list.
From S2P Require Import Prelude Types Json.

Definition code (c : Ascii.ascii) : nat := Ascii.nat_of_ascii c.
Definition char (n : nat) : Ascii.ascii := Ascii.ascii_of_nat n.
Definition is_char (n : nat) (c : Ascii.ascii) : bool := Nat.eqb (code c) n.
Definition is_digit (c : Ascii.ascii) : bool := Nat.leb 48 (code c) && Nat.leb (code c) 57.
Definition is_space (c : Ascii.ascii) : bool := existsb (Nat.eqb (code c)) [32; 9; 10; 13]%nat.

Fixpoint skip_space (s : string) : string :=
  match s with
  | String c s' => if is_space c then skip_space s' else s
  | EmptyString => EmptyString
  end.

(** ** Strings *)

Definition hex_value (c : Ascii.ascii) : option nat :=
  let n := code c in
  if Nat.leb 48 n && Nat.leb n 57 then Some (n - 48)%nat
  else if Nat.leb 97 n && Nat.leb n 102 then Some (n - 87)%nat
  else if Nat.leb 65 n && Nat.leb n 70 then Some (n - 55)%nat
  else None.

(** [getu4]: four hexadecimal digits. *)
Definition getu4 (a b c d : Ascii.ascii) : option nat :=
  match hex_value a, hex_value b, hex_value c, hex_value d with
  | Some a, Some b, Some c, Some d => Some (((a * 16 + b) * 16 + c) * 16 + d)%nat
  | _, _, _, _ => None
  end.

(** [utf8.EncodeRune]. *)
Definition encode_rune (r : nat) : string :=
  let b n := char n in
  if Nat.ltb r 128 then String (b r) EmptyString
  else if Nat.ltb r 2048 then String (b (192 + r / 64)%nat) (String (b (128 + r mod 64)%nat) EmptyString)
  else if Nat.ltb r 65536 then
    String (b (224 + r / 4096)%nat) (String (b (128 + r / 64 mod 64)%nat) (String (b (128 + r mod 64)%nat) EmptyString))
  else String (b (240 + r / 262144)%nat) (String (b (128 + r / 4096 mod 64)%nat)
         (String (b (128 + r / 64 mod 64)%nat) (String (b (128 + r mod 64)%nat) EmptyString))).

Definition replacementChar : nat := 65533.
Definition is_surrogate (r : nat) : bool := Nat.leb 55296 r && Nat.ltb r 57344.
(** [utf16.DecodeRune]: a high and a low surrogate. *)
Definition decode_pair (r1 r2 : nat) : option nat :=
  if Nat.leb 55296 r1 && Nat.ltb r1 56320 && Nat.leb 56320 r2 && Nat.ltb r2 57344
  then Some ((r1 - 55296) * 1024 + (r2 - 56320) + 65536)%nat else None.

Definition simple_escape (c : Ascii.ascii) : option Ascii.ascii :=
  let n := code c in
  if existsb (Nat.eqb n) [34; 92; 47]%nat then Some c
  else if Nat.eqb n 98 then Some (char 8)
  else if Nat.eqb n 102 then Some (char 12)
  else if Nat.eqb n 110 then Some (char 10)
  else if Nat.eqb n 114 then Some (char 13)
  else if Nat.eqb n 116 then Some (char 9)
  else None.

Definition push (p : string) (r : option (string * string)) : option (string * string) :=
  match r with Some (s, rest) => Some (String.append p s, rest) | None => None end.

(** The rest of a string literal, after its opening quote. *)
Fixpoint parse_string (s : string) : option (string * string) :=
  match s with
  | EmptyString => None
  | String c s1 =>
      if is_char 34 c then Some (EmptyString, s1)
      else if is_char 92 c then
        match s1 with
        | EmptyString => None
        | String e s2 =>
            if is_char 117 e then
              match s2 with
              | String x1 (String x2 (String x3 (String x4 s3))) =>
                  match getu4 x1 x2 x3 x4 with
                  | None => None
                  | Some r =>
                      if is_surrogate r then
                        match s3 with
                        | String b (String u (String y1 (String y2 (String y3 (String y4 s4))))) =>
                            match (if is_char 92 b && is_char 117 u then getu4 y1 y2 y3 y4 else None) with
                            | Some r2 =>
                                match decode_pair r r2 with
                                | Some p => push (encode_rune p) (parse_string s4)
                                | None => push (encode_rune replacementChar) (parse_string s3)
                                end
                            | None => push (encode_rune replacementChar) (parse_string s3)
                            end
                        | _ => push (encode_rune replacementChar) (parse_string s3)
                        end
                      else push (encode_rune r) (parse_string s3)
                  end
              | _ => None
              end
            else
              match simple_escape e with
              | Some x => push (String x EmptyString) (parse_string s2)
              | None => None
              end
        end
      else if Nat.ltb (code c) 32 then None
      else push (String c EmptyString) (parse_string s1)
  end.

(** ** Numbers *)

Fixpoint take_digits (s : string) : string * string :=
  match s with
  | String c s' =>
      if is_digit c then let (d, rest) := take_digits s' in (String c d, rest) else (EmptyString, s)
  | EmptyString => (EmptyString, EmptyString)
  end.

(** One or more digits. *)
Definition digits1 (s : string) : option (string * string) :=
  match take_digits s with
  | (EmptyString, _) => None
  | r => Some r
  end.

Definition scan_int (s : string) : option (string * string) :=
  match s with
  | String c s' => if is_char 48 c then Some (String c EmptyString, s') else digits1 s
  | EmptyString => None
  end.

Definition scan_frac (s : string) : option (string * string) :=
  match s with
  | String c s' => if is_char 46 c then push (String c EmptyString) (digits1 s') else Some (EmptyString, s)
  | EmptyString => Some (EmptyString, EmptyString)
  end.

Definition scan_exp (s : string) : option (string * string) :=
  match s with
  | String c s' =>
      if is_char 101 c || is_char 69 c then
        match s' with
        | String sg s'' =>
            if is_char 43 sg || is_char 45 sg then push (String c (String sg EmptyString)) (digits1 s'')
            else push (String c EmptyString) (digits1 s')
        | EmptyString => None
        end
      else Some (EmptyString, s)
  | EmptyString => Some (EmptyString, EmptyString)
  end.

Definition andThen (r : option (string * string)) (k : string -> option (string * string)) : option (string * string) :=
  match r with Some (t, rest) => push t (k rest) | None => None end.

Definition scan_number (s : string) : option (string * string) :=
  match s with
  | String c s' =>
      if is_char 45 c then push (String c EmptyString) (andThen (scan_int s') (fun s => andThen (scan_frac s) scan_exp))
      else andThen (scan_int s) (fun s => andThen (scan_frac s) scan_exp)
  | EmptyString => None
  end.

(** ** Values *)

(** [expect l s]: the literal [l], then the rest. *)
Fixpoint expect (l s : string) : option string :=
  match l, s with
  | EmptyString, _ => Some s
  | String a l', String b s' => if Ascii.eqb a b then expect l' s' else None
  | _, EmptyString => None
  end.

Definition literal (l : string) (v : json) (s : string) : option (json * string) :=
  match expect l s with Some rest => Some (v, rest) | None => None end.

(** The parsers of a value, of the elements of an array and of the members of an
    object, each behind the white space before it; [fuel] bounds the calls. *)
Fixpoint parse_value (fuel : nat) (s0 : string) : option (json * string) :=
  match fuel with
  | O => None
  | S f =>
      match skip_space s0 with
      | EmptyString => None
      | String c s =>
          if is_char 34 c then
            match parse_string s with Some (t, rest) => Some (JString t, rest) | None => None end
          else if is_char 91 c then
            match skip_space s with
            | String d rest => if is_char 93 d then Some (JArray [], rest) else
                match parse_elements f s with Some (l, rest) => Some (JArray l, rest) | None => None end
            | EmptyString => None
            end
          else if is_char 123 c then
            match skip_space s with
            | String d rest => if is_char 125 d then Some (JObject [], rest) else
                match parse_members f s with Some (l, rest) => Some (JObject l, rest) | None => None end
            | EmptyString => None
            end
          else if is_char 110 c then literal "null" JNull (String c s)
          else if is_char 116 c then literal "true" (JBool true) (String c s)
          else if is_char 102 c then literal "false" (JBool false) (String c s)
          else match scan_number (String c s) with Some (t, rest) => Some (JNum t, rest) | None => None end
      end
  end
with parse_elements (fuel : nat) (s : string) : option (list json * string) :=
  match fuel with
  | O => None
  | S f =>
      match parse_value f s with
      | None => None
      | Some (v, rest) =>
          match skip_space rest with
          | String c rest' =>
              if is_char 44 c then
                match parse_elements f rest' with Some (l, r) => Some (v :: l, r) | None => None end
              else if is_char 93 c then Some ([v], rest')
              else None
          | EmptyString => None
          end
      end
  end
with parse_members (fuel : nat) (s : string) : option (list (string * json) * string) :=
  match fuel with
  | O => None
  | S f =>
      match skip_space s with
      | EmptyString => None
      | String q s1 =>
          if negb (is_char 34 q) then None
          else
          match parse_string s1 with
          | None => None
          | Some (key, s2) =>
              match skip_space s2 with
              | EmptyString => None
              | String colon s3 =>
                  if negb (is_char 58 colon) then None
                  else
                  match parse_value f s3 with
                  | None => None
                  | Some (v, rest) =>
                      match skip_space rest with
                      | String c rest' =>
                          if is_char 44 c then
                            match parse_members f rest' with Some (l, r) => Some ((key, v) :: l, r) | None => None end
                          else if is_char 125 c then Some ([(key, v)], rest')
                          else None
                      | EmptyString => None
                      end
                  end
              end
          end
      end
  end.

(** A whole text: one value and white space. *)
Definition parse_fuel (s : string) : nat := S (2 * String.length s).
Definition parse_with (fuel : nat) (s : string) : option json :=
  match parse_value fuel s with
  | Some (v, rest) => match skip_space rest with EmptyString => Some v | _ => None end
  | None => None
  end.
Definition parse (s : string) : option json := parse_with (parse_fuel s) s.

(** ** Printed texts *)

#[local] Arguments String.append !_ _ / : simpl nomatch.
#[local] Arguments is_char _ !_ / : simpl nomatch.
#[local] Arguments is_digit !_ / : simpl nomatch.
#[local] Arguments is_space !_ / : simpl nomatch.

Lemma sapp_assoc (a b c : string) : (a +:+ b) +:+ c = a +:+ (b +:+ c).
Proof. induction a; cbn; [done|by f_equal]. Qed.
Lemma sapp_nil (a : string) : a +:+ "" = a.
Proof. induction a; cbn; [done|by f_equal]. Qed.
Lemma slength_app (a b : string) : String.length (a +:+ b) = (String.length a + String.length b)%nat.
Proof. induction a; cbn; [done|by f_equal]. Qed.

(** Every string comes back from its escaped form. *)
Lemma parse_string_escape s rest : parse_string (escape s +:+ String (char 34) rest) = Some (s, rest).
Proof.
  induction s as [|c s IH]; [done|]. cbn [escape]. rewrite sapp_assoc.
  destruct c as [[] [] [] [] [] [] [] []]; exact (f_equal (push (String _ "")) IH).
Qed.

(** What may follow a number: the end, a comma, a bracket, a line break. *)
Definition delim (rest : string) : bool :=
  match rest with EmptyString => true | String c _ => existsb (Nat.eqb (code c)) [44; 93; 125; 10]%nat end.

Lemma delim_cases rest : delim rest = true ->
  rest = "" \/ exists c r, rest = String c r /\ (code c = 44 \/ code c = 93 \/ code c = 125 \/ code c = 10)%nat.
Proof.
  destruct rest as [|c r]; [by left|]. cbn. rewrite !orb_true_iff, !Nat.eqb_eq. intros H. right. exists c, r.
  split; [done|]. destruct H as [?|[?|[?|[?|?]]]]; [by auto..|done].
Qed.

Lemma delim_not_digit c r : delim (String c r) = true -> is_digit c = false.
Proof.
  intros Hd. destruct (delim_cases _ Hd) as [?|(c' & r' & Heq & H)]; [done|]. injection Heq as <- <-. unfold is_digit. by destruct H as [-> | [-> | [-> | ->]]].
Qed.

Lemma delim_not c r n : delim (String c r) = true -> existsb (Nat.eqb n) [44; 93; 125; 10]%nat = false -> is_char n c = false.
Proof.
  intros Hd. destruct (delim_cases _ Hd) as [?|(c' & r' & Heq & H)]; [done|]. injection Heq as <- <-. unfold is_char. rewrite Nat.eqb_sym.
  cbn. rewrite !orb_false_iff. intros (? & ? & ? & ? & _). by destruct H as [-> | [-> | [-> | ->]]].
Qed.

Section follow.
Context (rest : string) (Hd : delim rest = true).

Definition follows (f : string -> option (string * string)) : Prop :=
  forall t d r, f t = Some (d, r) -> f (t +:+ rest) = Some (d, r +:+ rest).

Lemma take_digits_follow t : take_digits (t +:+ rest) = ((take_digits t).1, (take_digits t).2 +:+ rest).
Proof.
  induction t as [|c t IH]; cbn.
  - destruct rest as [|c r]; [done|]. cbn. by rewrite (delim_not_digit c r Hd).
  - destruct (is_digit c); [|done]. rewrite IH. by destruct (take_digits t).
Qed.

Lemma digits1_follow : follows digits1.
Proof.
  intros t d r. unfold digits1. rewrite take_digits_follow. destruct (take_digits t) as [[|c d'] r']; [done|].
  by intros [= <- <-].
Qed.

Lemma push_follow p f t d r :
  follows f -> push p (f t) = Some (d, r) -> push p (f (t +:+ rest)) = Some (d, r +:+ rest).
Proof. intros Hf. destruct (f t) as [[d' r']|] eqn:E; [|done]. intros [= <- <-]. by rewrite (Hf _ _ _ E). Qed.

Lemma andThen_follow f k : follows f -> follows k -> follows (fun s => andThen (f s) k).
Proof.
  intros Hf Hk t d r H. destruct (f t) as [[d' r']|] eqn:E; [|done]. rewrite (Hf _ _ _ E). by apply push_follow.
Qed.

Lemma scan_int_follow : follows scan_int.
Proof.
  intros [|c t] d r; [done|]. cbn [String.append scan_int]. destruct (is_char 48 c); [by intros [= <- <-]|].
  apply (digits1_follow (String c t)).
Qed.

Lemma scan_frac_follow : follows scan_frac.
Proof.
  intros [|c t] d r; cbn.
  - intros [= <- <-]. destruct rest as [|c r0]; [done|]. cbn. by rewrite (delim_not c r0 46 Hd).
  - destruct (is_char 46 c); [apply push_follow, digits1_follow|by intros [= <- <-]].
Qed.

Lemma scan_exp_follow : follows scan_exp.
Proof.
  intros [|c t] d r; cbn.
  - intros [= <- <-]. destruct rest as [|c r0]; [done|]. cbn. by rewrite (delim_not c r0 101 Hd), (delim_not c r0 69 Hd).
  - destruct (is_char 101 c || is_char 69 c); [|by intros [= <- <-]].
    destruct t as [|sg t]; [done|]. cbn [String.append].
    destruct (is_char 43 sg || is_char 45 sg); [apply push_follow, digits1_follow|].
    apply (push_follow _ digits1 (String sg t)), digits1_follow.
Qed.

Lemma scan_number_follow : follows scan_number.
Proof.
  assert (Hn : follows (fun s => andThen (scan_int s) (fun s => andThen (scan_frac s) scan_exp))).
  { apply andThen_follow; [apply scan_int_follow|]. apply andThen_follow; [apply scan_frac_follow|apply scan_exp_follow]. }
  intros [|c t] d r; [done|]. cbn [String.append scan_number]. destruct (is_char 45 c); [exact (push_follow _ _ _ _ _ Hn)|].
  apply (Hn (String c t)).
Qed.
End follow.

(** How a number begins. *)
Lemma scan_number_first t d r : scan_number t = Some (d, r) ->
  exists c t', t = String c t' /\ (is_char 45 c || is_digit c) = true.
Proof.
  destruct t as [|c t]; [done|]. cbn. destruct (is_char 45 c) eqn:E1; [by exists c, t; rewrite E1|].
  intros H. exists c, t. split; [done|]. rewrite E1. cbn.
  destruct (is_char 48 c) eqn:E2; [unfold is_char in E2; apply Nat.eqb_eq in E2; unfold is_digit; by rewrite E2|].
  unfold digits1 in H. cbn in H. by destruct (is_digit c).
Qed.
(** *** Printing in the given order

    [json.Marshal] on a structure writes the fields in the order of their
    declaration; on a map it sorts the keys.  [encode] writes the members of an
    object in the order it has them, which is also that of a map when they are
    sorted ([marshal_sorted] below). *)

Fixpoint encode (v : json) : string :=
  match v with
  | JNull => "null"
  | JBool true => "true"
  | JBool false => "false"
  | JNum text => text
  | JString s => json_string s
  | JArray l => sprint ["["; join (map encode l); "]"]
  | JObject l => sprint ["{"; join (map (fun m => sprint [json_string (fst m); ":"; encode (snd m)]) l); "}"]
  end.

(** The numbers of a value are numbers. *)
Fixpoint printable (v : json) : Prop :=
  match v with
  | JNum t => scan_number t = Some (t, "")
  | JArray l => (fix all l := match l with [] => True | v :: l' => printable v /\ all l' end) l
  | JObject l => (fix all l := match l with [] => True | m :: l' => printable (snd m) /\ all l' end) l
  | _ => True
  end.

Section json_induction.
Context (P : json -> Prop) (Hnull : P JNull) (Hbool : forall b, P (JBool b)) (Hnum : forall t, P (JNum t))
  (Hstring : forall s, P (JString s)) (Harray : forall l, Forall P l -> P (JArray l))
  (Hobject : forall l, Forall (fun m => P (snd m)) l -> P (JObject l)).

Fixpoint json_nested_ind (v : json) : P v :=
  match v with
  | JNull => Hnull
  | JBool b => Hbool b
  | JNum t => Hnum t
  | JString s => Hstring s
  | JArray l => Harray l ((fix all l : Forall P l := match l with
      | [] => @List.Forall_nil _ P
      | v :: l' => @List.Forall_cons _ P v l' (json_nested_ind v) (all l') end) l)
  | JObject l => Hobject l ((fix all l : Forall (fun m => P (snd m)) l := match l with
      | [] => @List.Forall_nil _ (fun m => P (snd m))
      | m :: l' => @List.Forall_cons _ (fun m => P (snd m)) m l' (json_nested_ind (snd m)) (all l') end) l)
  end.
End json_induction.

Lemma printable_array l : printable (JArray l) <-> Forall printable l.
Proof. induction l as [|v l IH]; [done|]. rewrite List.Forall_cons_iff, <-IH. done. Qed.

Lemma printable_object l : printable (JObject l) <-> Forall (fun m => printable (snd m)) l.
Proof. induction l as [|m l IH]; [done|]. rewrite List.Forall_cons_iff, <-IH. done. Qed.

Definition member_text (m : string * json) : string := sprint [json_string m.1; ":"; encode m.2].

(** *** What values begin with *)

Definition begins (s : string) : Prop :=
  exists c t, s = String c t /\ is_space c = false /\ is_char 93 c = false /\ is_char 125 c = false.

Lemma begins_app s t : begins s -> begins (s +:+ t).
Proof. intros (c & s' & -> & H). exists c, (s' +:+ t). by split. Qed.

Lemma begins_skip s : begins s -> skip_space s = s.
Proof. intros (c & t & -> & H & _). cbn. by rewrite H. Qed.

Lemma number_char c : (is_char 45 c || is_digit c) = true ->
  code c = 45%nat \/ (48 <= code c <= 57)%nat.
Proof. unfold is_char, is_digit. rewrite orb_true_iff, andb_true_iff, Nat.eqb_eq, !Nat.leb_le. lia. Qed.

Lemma number_char_not c n : (is_char 45 c || is_digit c) = true -> (n < 45 \/ n = 46 \/ n = 47 \/ 57 < n)%nat -> is_char n c = false.
Proof. intros H%number_char Hn. unfold is_char. apply Nat.eqb_neq. lia. Qed.

Lemma encode_begins v : printable v -> begins (encode v).
Proof.
  destruct v as [|[]|t|s|l|l]; intros Hp; try (by eexists _, _).
  cbn in Hp. apply scan_number_first in Hp as (c & t' & -> & Hc). exists c, t'. split; [done|].
  rewrite !(number_char_not c) by (done || lia). unfold is_space. cbn.
  pose proof (number_char c Hc). rewrite !orb_false_iff, !Nat.eqb_neq. lia.
Qed.

(** *** The round trip *)

(** Tests of the characters of the grammar, evaluated. *)
Ltac chars :=
  repeat (match goal with
    | |- context [is_space (char ?n)] => let b := eval vm_compute in (is_space (char n)) in change (is_space (char n)) with b
    | |- context [is_char ?m (char ?n)] => let b := eval vm_compute in (is_char m (char n)) in change (is_char m (char n)) with b
    end); cbn.

Definition reads_back (v : json) : Prop := forall fuel rest,
  (String.length (encode v) < fuel)%nat -> delim rest = true ->
  parse_value fuel (encode v +:+ rest) = Some (v, rest).

Lemma join_cons s l : l <> [] -> join (s :: l) = s +:+ String (char 44) (join l).
Proof. destruct l; [done|]. cbn. by rewrite sapp_nil. Qed.

Lemma elements_read_back l : l <> [] -> Forall printable l -> Forall reads_back l -> forall fuel rest,
  (S (String.length (join (map encode l))) < fuel)%nat ->
  parse_elements fuel (join (map encode l) +:+ String (char 93) rest) = Some (l, rest).
Proof.
  induction l as [|v l IH]; [done|]. intros _ [Hp Hps]%List.Forall_cons_iff [Hv Hl]%List.Forall_cons_iff fuel rest Hf.
  destruct fuel as [|f]; [lia|]. destruct (decide (l = [])) as [->|Hne].
  - cbn in Hf |- *. rewrite (Hv f (String (char 93) rest)) by (done || lia). cbn. by chars.
  - cbn [map] in *. rewrite join_cons in * by (by destruct l). rewrite slength_app in Hf. cbn in Hf. rewrite sapp_assoc.
    cbn [String.append parse_elements]. rewrite (Hv f) by (done || lia). cbn. chars.
    rewrite IH by (done || lia). reflexivity.
Qed.

Lemma members_read_back l : l <> [] -> Forall (fun m => printable (snd m)) l -> Forall (fun m => reads_back (snd m)) l ->
  forall fuel rest, (S (String.length (join (map member_text l))) < fuel)%nat ->
  parse_members fuel (join (map member_text l) +:+ String (char 125) rest) = Some (l, rest).
Proof.
  assert (Hmember : forall m rest, member_text m +:+ rest =
    String (char 34) (escape m.1 +:+ String (char 34) (String (char 58) (encode m.2 +:+ rest)))).
  { intros m rest. unfold member_text, json_string, sprint, dq. rewrite !sapp_nil, !sapp_assoc. reflexivity. }
  induction l as [|[k v] l IH]; [done|]. intros _ [Hp Hps]%List.Forall_cons_iff [Hv Hl]%List.Forall_cons_iff fuel rest Hf. cbn in Hp, Hv.
  destruct fuel as [|f]; [lia|].
  assert (Hlen : (String.length (member_text (k, v)) = String.length (escape k) + 3 + String.length (encode v))%nat).
  { rewrite <-(sapp_nil (member_text (k, v))), Hmember. cbn. rewrite slength_app. cbn. rewrite sapp_nil. lia. }
  destruct (decide (l = [])) as [->|Hne].
  - cbn [map join] in *. rewrite Hmember. cbn. chars. rewrite parse_string_escape. cbn. chars.
    rewrite (Hv f (String (char 125) rest)) by (done || lia). cbn. by chars.
  - cbn [map] in *. rewrite join_cons in * by (by destruct l). rewrite slength_app in Hf. cbn [String.length] in Hf.
    rewrite sapp_assoc, Hmember. cbn. chars. rewrite parse_string_escape. cbn. chars. rewrite (Hv f) by (done || lia). cbn. chars.
    rewrite IH by (done || lia). reflexivity.
Qed.

Lemma parse_value_array f s rest : begins s ->
  parse_value (S f) (String (char 91) (s +:+ rest)) =
  match parse_elements f (s +:+ rest) with Some (l, r) => Some (JArray l, r) | None => None end.
Proof.
  intros Hb. pose proof (begins_skip _ (begins_app _ rest Hb)) as Hskip. destruct Hb as (c & t & -> & _ & H93 & _).
  transitivity (match skip_space (String c t +:+ rest) with
    | String d r => if is_char 93 d then Some (JArray [], r) else
        match parse_elements f (String c t +:+ rest) with Some (l, r) => Some (JArray l, r) | None => None end
    | EmptyString => None
    end); [reflexivity|]. rewrite Hskip. cbn. by rewrite H93.
Qed.

Lemma parse_value_object f s rest : begins s ->
  parse_value (S f) (String (char 123) (s +:+ rest)) =
  match parse_members f (s +:+ rest) with Some (l, r) => Some (JObject l, r) | None => None end.
Proof.
  intros Hb. pose proof (begins_skip _ (begins_app _ rest Hb)) as Hskip. destruct Hb as (c & t & -> & _ & _ & H125).
  transitivity (match skip_space (String c t +:+ rest) with
    | String d r => if is_char 125 d then Some (JObject [], r) else
        match parse_members f (String c t +:+ rest) with Some (l, r) => Some (JObject l, r) | None => None end
    | EmptyString => None
    end); [reflexivity|]. rewrite Hskip. cbn. by rewrite H125.
Qed.

Lemma sprint3 (a b : Ascii.ascii) t rest :
  sprint [String a ""; t; String b ""] +:+ rest = String a (t +:+ String b rest).
Proof. unfold sprint. by rewrite !sapp_nil, !sapp_assoc. Qed.

Lemma encode_reads_back v : printable v -> reads_back v.
Proof.
  induction v as [|b|t|s|l IH|l IH] using json_nested_ind; intros Hp fuel rest Hf Hd; (destruct fuel as [|f]; [lia|]).
  - reflexivity.
  - by destruct b.
  - cbn in Hp. pose proof (encode_begins (JNum t) Hp) as Hb. cbn [encode] in *.
    cbn [parse_value]. rewrite begins_skip by (by apply begins_app).
    pose proof (scan_number_follow rest Hd t t "" Hp) as Hs.
    apply scan_number_first in Hp as (c & t' & -> & Hc). cbn [String.append] in *.
    rewrite !(number_char_not c) by (done || lia). rewrite Hs. reflexivity.
  - cbn [encode]. unfold json_string, sprint. change dq with (String (char 34) ""). rewrite !sapp_nil, !sapp_assoc. cbn. chars.
    by rewrite parse_string_escape.
  - apply printable_array in Hp.
    assert (Hr : Forall reads_back l) by (eapply List.Forall_impl; [|exact (List.Forall_and IH Hp)]; naive_solver).
    destruct (decide (l = [])) as [->|Hne]; [reflexivity|].
    assert (Hb : begins (join (map encode l))).
    { destruct l as [|v l]; [done|]. apply List.Forall_cons_iff in Hp as [Hp _]. destruct l as [|v' l]; [by apply encode_begins|].
      cbn [map]. rewrite join_cons by done. by apply begins_app, encode_begins. }
    change (encode (JArray l)) with (sprint [String (char 91) ""; join (map encode l); String (char 93) ""]) in *.
    rewrite <-(sapp_nil (sprint _)), sprint3 in Hf. cbn in Hf. rewrite slength_app in Hf. cbn in Hf.
    rewrite sprint3, parse_value_array by done. rewrite elements_read_back by (done || lia). reflexivity.
  - apply printable_object in Hp.
    assert (Hr : Forall (fun m => reads_back (snd m)) l)
      by (eapply List.Forall_impl; [|exact (List.Forall_and IH Hp)]; naive_solver).
    destruct (decide (l = [])) as [->|Hne]; [reflexivity|].
    assert (Hb : begins (join (map member_text l))).
    { destruct l as [|v l]; [done|].
      destruct l as [|v' l]; cbn [map]; [|rewrite join_cons by done; apply begins_app]; by eexists _, _. }
    change (encode (JObject l))
      with (sprint [String (char 123) ""; join (map member_text l); String (char 125) ""]) in *.
    rewrite <-(sapp_nil (sprint _)), sprint3 in Hf. cbn in Hf. rewrite slength_app in Hf. cbn in Hf.
    rewrite sprint3, parse_value_object by done. rewrite members_read_back by (done || lia). reflexivity.
Qed.

Lemma parse_encode v : printable v -> parse (encode v) = Some v.
Proof.
  intros Hp. unfold parse, parse_with. pose proof (encode_reads_back v Hp (parse_fuel (encode v)) "" ltac:(unfold parse_fuel; lia) eq_refl) as H.
  rewrite sapp_nil in H. by rewrite H.
Qed.

(** The same with a line break behind it, as [json.Encoder] writes it. *)
Lemma parse_encode_line v : printable v -> parse (encode v +:+ String (char 10) "") = Some v.
Proof.
  intros Hp. unfold parse, parse_with.
  pose proof (encode_reads_back v Hp (parse_fuel (encode v +:+ String (char 10) "")) (String (char 10) "")) as H.
  rewrite H; [reflexivity| |reflexivity]. unfold parse_fuel. rewrite slength_app. cbn. lia.
Qed.

(** ** Maps *)

Fixpoint sorted_keys (l : list (string * json)) : bool :=
  match l with
  | m :: ((m' :: _) as l') => String.ltb m.1 m'.1 && sorted_keys l'
  | _ => true
  end.

(** The members of every object are in the order of their keys, as the encoder
    writes the keys of a map. *)
Fixpoint sorted (v : json) : Prop :=
  match v with
  | JArray l => (fix all l := match l with [] => True | v :: l' => sorted v /\ all l' end) l
  | JObject l => sorted_keys l = true /\
      (fix all l := match l with [] => True | m :: l' => sorted (snd m) /\ all l' end) l
  | _ => True
  end.

Lemma sorted_array l : sorted (JArray l) <-> Forall sorted l.
Proof. induction l as [|v l IH]; [done|]. rewrite List.Forall_cons_iff, <-IH. done. Qed.

Lemma sorted_object l : sorted (JObject l) <-> sorted_keys l = true /\ Forall (fun m => sorted (snd m)) l.
Proof.
  cbn. apply Morphisms_Prop.and_iff_morphism; [done|]. induction l as [|m l IH]; [done|]. by rewrite List.Forall_cons_iff, <-IH.
Qed.

Lemma ltb_compare a b : String.ltb a b = true <-> String.compare a b = Lt.
Proof. unfold String.ltb. by destruct (String.compare a b). Qed.

Lemma member_sort_sorted {f : json -> string} l : sorted_keys l = true ->
  member_sort (map (fun m => (fst m, f (snd m))) l) = map (fun m => (fst m, f (snd m))) l.
Proof.
  induction l as [|m l IH]; [done|]. intros Hs. unfold member_sort in *. cbn.
  destruct l as [|m' l]; [done|]. cbn in Hs. apply andb_true_iff in Hs as [Hlt Hs]. rewrite IH by done. cbn.
  replace (String.ltb m'.1 m.1) with false; [done|]. symmetry. revert Hlt. unfold String.ltb.
  rewrite (String.compare_antisym m'.1 m.1). by destruct (String.compare m.1 m'.1).
Qed.

Lemma marshal_sorted v : sorted v -> Marshal_value v = encode v.
Proof.
  induction v as [|b|t|s|l IH|l IH] using json_nested_ind; intros Hs; try done.
  - apply sorted_array in Hs. cbn. do 2 f_equal. f_equal. apply List.map_ext_in. intros v Hv.
    rewrite List.Forall_forall in IH, Hs. auto.
  - apply sorted_object in Hs as [Hk Hs]. cbn. unfold json_object. rewrite (member_sort_sorted l Hk), map_map.
    do 2 f_equal. f_equal. apply List.map_ext_in. intros m Hm. cbn. rewrite List.Forall_forall in IH, Hs. by rewrite IH; auto.
Qed.

(** A Go map as an object: sorted, every key once. *)
Fixpoint obj_add (m : string * json) (l : list (string * json)) : list (string * json) :=
  match l with
  | [] => [m]
  | m' :: l' =>
      match String.compare m.1 m'.1 with
      | Lt => m :: l
      | Eq => l
      | Gt => m' :: obj_add m l'
      end
  end.
Definition obj_of (l : list (string * json)) : list (string * json) := foldr obj_add [] l.
Definition JMap (m : gmap string json) : json := JObject (obj_of (map_to_list m)).

Lemma obj_add_sorted m l : sorted_keys l = true -> sorted_keys (obj_add m l) = true.
Proof.
  induction l as [|m1 l IH]; [done|]. intros Hs. cbn [obj_add]. destruct (String.compare m.1 m1.1) eqn:Hc; [done|..].
  - cbn. rewrite (proj2 (ltb_compare _ _) Hc). done.
  - assert (Hlt : String.ltb m1.1 m.1 = true).
    { apply ltb_compare. rewrite String.compare_antisym, Hc. done. }
    destruct l as [|m2 l]; [cbn; by rewrite Hlt|].
    cbn [sorted_keys] in Hs. apply andb_true_iff in Hs as [H1 H2]. specialize (IH H2).
    cbn [obj_add] in *. destruct (String.compare m.1 m2.1); cbn [sorted_keys] in *; rewrite ?H1, ?Hlt; done.
Qed.

Lemma obj_of_sorted l : sorted_keys (obj_of l) = true.
Proof. induction l as [|m l IH]; [done|]. by apply obj_add_sorted. Qed.

Lemma obj_add_perm m l : m.1 ∉ l.*1 -> obj_add m l ≡ₚ m :: l.
Proof.
  induction l as [|m1 l IH]; [done|]. cbn. rewrite not_elem_of_cons. intros [Hne Hn].
  destruct (String.compare m.1 m1.1) eqn:Hc; [by apply String.compare_eq_iff in Hc|done|]. rewrite IH by done. apply Permutation_swap.
Qed.

Lemma obj_of_perm l : NoDup l.*1 -> obj_of l ≡ₚ l.
Proof.
  induction l as [|m l IH]; [done|]. cbn. intros [Hm Hl]%list.NoDup_cons. specialize (IH Hl).
  rewrite obj_add_perm; [by f_equiv|]. by rewrite IH.
Qed.

Lemma JMap_map m : list_to_map (obj_of (map_to_list m)) = m.
Proof.
  rewrite <-(list_to_map_to_list (M:=gmap string) m) at 2. apply list_to_map_proper.
  - rewrite obj_of_perm by apply NoDup_fst_map_to_list. apply NoDup_fst_map_to_list.
  - apply obj_of_perm, NoDup_fst_map_to_list.
Qed.

(** Adding in front of what is sorted after it. *)
Lemma obj_of_id l : sorted_keys l = true -> obj_of l = l.
Proof.
  induction l as [|m l IH]; [done|]. intros Hs. change (obj_of (m :: l)) with (obj_add m (obj_of l)). destruct l as [|m' l]; [done|].
  cbn in Hs. apply andb_true_iff in Hs as [Hlt Hs]. rewrite IH by done. cbn. by rewrite (proj1 (ltb_compare _ _) Hlt).
Qed.

(** ** [interface{}] *)

Class JsonDecoding := {
  (** [strconv.ParseFloat], as the text of the number it gives; [None] when it
      is out of range *)
  float_text : string -> option string;
  (** the errors of the scanner and of the decoder *)
  syntaxError : string -> error;
  typeError : json -> string -> error }.

(** A function on every element, as long as none fails. *)
Definition traverse {A B} (f : A -> option B) : list A -> option (list B) :=
  fix go l := match l with
    | [] => Some []
    | x :: l' => match f x, go l' with Some y, Some l'' => Some (y :: l'') | _, _ => None end
    end.

Lemma traverse_id {A} (f : A -> option A) l : Forall (fun x => f x = Some x) l -> traverse f l = Some l.
Proof. induction 1 as [|x l Hx _ IH]; [done|]. cbn. by rewrite Hx, IH. Qed.

Section decode.
Context {J : JsonDecoding}.

(** Of several members with one name the last counts. *)
Fixpoint decode_any (v : json) : option json :=
  match v with
  | JNum t => JNum <$> float_text t
  | JArray l => JArray <$> traverse decode_any l
  | JObject l => JObject ∘ obj_of <$> traverse (fun m => pair (fst m) <$> decode_any (snd m)) l
  | _ => Some v
  end.

Fixpoint exact (v : json) : Prop :=
  match v with
  | JNum t => scan_number t = Some (t, "") /\ float_text t = Some t
  | JArray l => (fix all l := match l with [] => True | v :: l' => exact v /\ all l' end) l
  | JObject l => sorted_keys l = true /\
      (fix all l := match l with [] => True | m :: l' => exact (snd m) /\ all l' end) l
  | _ => True
  end.

Lemma exact_array l : exact (JArray l) <-> Forall exact l.
Proof. induction l as [|v l IH]; [done|]. rewrite List.Forall_cons_iff, <-IH. done. Qed.

Lemma exact_object l : exact (JObject l) <-> sorted_keys l = true /\ Forall (fun m => exact (snd m)) l.
Proof.
  cbn. apply Morphisms_Prop.and_iff_morphism; [done|]. induction l as [|m l IH]; [done|]. by rewrite List.Forall_cons_iff, <-IH.
Qed.

Lemma exact_printable v : exact v -> printable v /\ sorted v /\ decode_any v = Some v.
Proof.
  induction v as [|b|t|s|l IH|l IH] using json_nested_ind; intros He; try done.
  - cbn in *. destruct He as [H1 ->]. done.
  - apply exact_array in He. rewrite printable_array, sorted_array.
    pose proof (List.Forall_impl _ (fun v H => proj1 H (proj2 H)) (List.Forall_and IH He)) as H.
    split_and!; [eapply List.Forall_impl; [|exact H]; naive_solver..|].
    cbn. rewrite traverse_id; [done|]. eapply List.Forall_impl; [|exact H]; naive_solver.
  - apply exact_object in He as [Hk He]. rewrite printable_object, sorted_object.
    pose proof (List.Forall_impl _ (fun v H => proj1 H (proj2 H)) (List.Forall_and IH He)) as H.
    split_and!; try done; [eapply List.Forall_impl; [|exact H]; naive_solver..|].
    cbn. rewrite traverse_id; [cbn; by rewrite obj_of_id|].
    eapply List.Forall_impl; [|exact H]. intros [k v] (_ & _ & Hd). cbn in *. by rewrite Hd.
Qed.

(** [json.Unmarshal] into an [interface{}]. *)
Definition Unmarshal_any (data : string) : json + error :=
  match parse data with
  | None => inr (syntaxError data)
  | Some v => match decode_any v with Some v => inl v | None => inr (typeError v "interface") end
  end.
End decode.

(** ** The fuel is enough *)

Lemma skip_space_length s : (String.length (skip_space s) <= String.length s)%nat.
Proof. induction s as [|c s IH]; cbn; [done|]. destruct (is_space c); cbn; lia. Qed.

Definition consumes {A} (s : string) (r : option (A * string)) : Prop :=
  forall a rest, r = Some (a, rest) -> (String.length rest < String.length s)%nat.
Definition keeps_length {A} (s : string) (r : option (A * string)) : Prop :=
  forall a rest, r = Some (a, rest) -> (String.length rest <= String.length s)%nat.

Lemma consumes_push p s r : consumes s r -> consumes s (push p r).
Proof. intros H a rest. destruct r as [[t u]|]; [|done]. intros [= _ <-]. by eapply H. Qed.
Lemma keeps_push p s r : keeps_length s r -> keeps_length s (push p r).
Proof. intros H a rest. destruct r as [[t u]|]; [|done]. intros [= _ <-]. by eapply H. Qed.

Lemma consumes_shorter {A} s s' (r : option (A * string)) :
  consumes s' r -> (String.length s' <= String.length s)%nat -> consumes s r.
Proof. intros H Hl a rest Hr. apply H in Hr. lia. Qed.

Lemma parse_string_consumes s : consumes s (parse_string s).
Proof.
  induction s as [s IH] using (well_founded_induction (Wf_nat.well_founded_ltof _ String.length)).
  unfold Wf_nat.ltof in IH.
  assert (Hpush : forall s' p, (String.length s' < String.length s)%nat -> consumes s (push p (parse_string s'))).
  { intros s' p Hl. apply consumes_push. eapply consumes_shorter; [by apply IH|lia]. }
  assert (Hnone : forall A, consumes (A:=A) s None) by (by intros A a r).
  destruct s as [|c s1]; [apply Hnone|]. cbn [parse_string]. destruct (is_char 34 c).
  { intros a rest [= <- <-]. cbn. lia. }
  destruct (is_char 92 c).
  2:{ destruct (Nat.ltb (code c) 32); [apply Hnone|]. apply Hpush. cbn. lia. }
  destruct s1 as [|e s2]; [apply Hnone|]. destruct (is_char 117 e).
  2:{ destruct (simple_escape e); [|done]. apply Hpush. cbn. lia. }
  destruct s2 as [|x1 [|x2 [|x3 [|x4 s3]]]]; try apply Hnone. destruct (getu4 x1 x2 x3 x4); [|done].
  destruct (is_surrogate n); [|apply Hpush; cbn; lia].
  destruct s3 as [|b [|u [|y1 [|y2 [|y3 [|y4 s4]]]]]]; try (apply Hpush; cbn; lia).
  destruct (if is_char 92 b && is_char 117 u then getu4 y1 y2 y3 y4 else None); [|apply Hpush; cbn; lia].
  destruct (decode_pair n n0); apply Hpush; cbn; lia.
Qed.

Lemma take_digits_length s : (String.length (take_digits s).1 + String.length (take_digits s).2 = String.length s)%nat.
Proof. induction s as [|c s IH]; cbn; [done|]. destruct (is_digit c); [|done]. destruct (take_digits s); cbn in *; lia. Qed.

Lemma digits1_consumes s : consumes s (digits1 s).
Proof.
  intros a rest. unfold digits1. pose proof (take_digits_length s) as H. destruct (take_digits s) as [[|c d] r]; [done|].
  intros [= <- <-]. cbn in H. lia.
Qed.

Lemma consumes_keeps {A} s (r : option (A * string)) : consumes s r -> keeps_length s r.
Proof. intros H a rest Hr. apply H in Hr. lia. Qed.

Lemma scan_int_consumes s : consumes s (scan_int s).
Proof.
  destruct s as [|c s]; [done|]. cbn [scan_int]. destruct (is_char 48 c); [|apply digits1_consumes].
  intros a rest [= <- <-]. cbn. lia.
Qed.

Lemma scan_frac_keeps s : keeps_length s (scan_frac s).
Proof.
  destruct s as [|c s]; cbn; [by intros a rest [= <- <-]|]. destruct (is_char 46 c); [|by intros a rest [= <- <-]].
  apply keeps_push, consumes_keeps. eapply consumes_shorter; [apply digits1_consumes|cbn; lia].
Qed.

Lemma scan_exp_keeps s : keeps_length s (scan_exp s).
Proof.
  destruct s as [|c s]; cbn; [by intros a rest [= <- <-]|]. destruct (_ || _); [|by intros a rest [= <- <-]].
  destruct s as [|sg s]; [done|].
  destruct (_ || _); apply keeps_push, consumes_keeps; (eapply consumes_shorter; [apply digits1_consumes|cbn; lia]).
Qed.

Lemma andThen_consumes s (r : option (string * string)) k :
  consumes s r -> (forall t, keeps_length t (k t)) -> consumes s (andThen r k).
Proof.
  intros Hr Hk a rest. destruct r as [[t u]|]; [|done]. cbn. destruct (k u) as [[d v]|] eqn:E; [|done].
  intros [= _ <-]. apply Hk in E. specialize (Hr _ _ eq_refl). lia.
Qed.

Lemma andThen_keeps s (r : option (string * string)) k :
  keeps_length s r -> (forall t, keeps_length t (k t)) -> keeps_length s (andThen r k).
Proof.
  intros Hr Hk a rest. destruct r as [[t u]|]; [|done]. cbn. destruct (k u) as [[d v]|] eqn:E; [|done].
  intros [= _ <-]. apply Hk in E. specialize (Hr _ _ eq_refl). lia.
Qed.

Lemma scan_number_consumes s : consumes s (scan_number s).
Proof.
  assert (H : forall s, consumes s (andThen (scan_int s) (fun s => andThen (scan_frac s) scan_exp))).
  { intros t. apply andThen_consumes; [apply scan_int_consumes|]. intros u.
    apply andThen_keeps; [apply scan_frac_keeps|apply scan_exp_keeps]. }
  destruct s as [|c s]; [done|]. cbn [scan_number]. destruct (is_char 45 c); [|apply H].
  apply consumes_push. eapply consumes_shorter; [apply H|cbn; lia].
Qed.

Lemma literal_consumes l v s : l <> "" -> consumes s (literal l v s).
Proof.
  intros Hl a rest. unfold literal. destruct (expect l s) as [r|] eqn:E; [|done]. intros [= _ <-].
  assert (Hgen : forall l s r, expect l s = Some r -> (String.length r + String.length l = String.length s)%nat).
  { clear. induction l as [|a l IH]; intros [|b s] r; cbn; try (intros [= <-]; cbn; lia).
    destruct (Ascii.eqb a b); [|done]. intros H%IH. lia. }
  apply Hgen in E. destruct l; [done|cbn in E; lia].
Qed.

(** Whatever the fuel, a call that succeeds consumes something. *)
Lemma parsers_consume f :
  (forall s, consumes s (parse_value f s)) /\ (forall s, consumes s (parse_elements f s)) /\
  (forall s, consumes s (parse_members f s)).
Proof.
  induction f as [|f (IHv & IHe & IHm)]; [by split_and!; intros s a r|].
  split_and!; intros s a rest; pose proof (skip_space_length s) as Hs; cbn [parse_value parse_elements parse_members].
  - destruct (skip_space s) as [|c t]; [done|]. cbn in Hs. pose proof (skip_space_length t) as Ht.
    destruct (is_char 34 c).
    { pose proof (parse_string_consumes t) as H. destruct (parse_string t) as [[u r]|]; [|done].
      intros [= _ <-]. specialize (H _ _ eq_refl). lia. }
    destruct (is_char 91 c).
    { destruct (skip_space t) as [|d r] eqn:Et; [done|]. cbn in Ht. destruct (is_char 93 d); [intros [= _ <-]; lia|].
      destruct (parse_elements f t) as [[l u]|] eqn:E; [|done]. intros [= _ <-]. apply IHe in E. lia. }
    destruct (is_char 123 c).
    { destruct (skip_space t) as [|d r] eqn:Et; [done|]. cbn in Ht. destruct (is_char 125 d); [intros [= _ <-]; lia|].
      destruct (parse_members f t) as [[l u]|] eqn:E; [|done]. intros [= _ <-]. apply IHm in E. lia. }
    assert (Hlit : forall l v, l <> "" -> literal l v (String c t) = Some (a, rest) -> (String.length rest < String.length s)%nat).
    { intros l v Hl H. apply literal_consumes in H; [cbn in H; lia|done]. }
    destruct (is_char 110 c); [by apply Hlit|]. destruct (is_char 116 c); [by apply Hlit|].
    destruct (is_char 102 c); [by apply Hlit|].
    pose proof (scan_number_consumes (String c t)) as H. destruct (scan_number (String c t)) as [[u r]|]; [|done].
    intros [= _ <-]. specialize (H _ _ eq_refl). cbn in H. lia.
  - destruct (parse_value f s) as [[v r]|] eqn:E; [|done]. apply IHv in E. pose proof (skip_space_length r) as Hr.
    destruct (skip_space r) as [|c r']; [done|]. cbn in Hr. destruct (is_char 44 c).
    + destruct (parse_elements f r') as [[l u]|] eqn:E2; [|done]. intros [= _ <-]. apply IHe in E2. lia.
    + destruct (is_char 93 c); [|done]. intros [= _ <-]. lia.
  - destruct (skip_space s) as [|q s1]; [done|]. cbn in Hs. destruct (is_char 34 q); [|done]. cbn.
    pose proof (parse_string_consumes s1) as H1. destruct (parse_string s1) as [[k s2]|]; [|done]. specialize (H1 _ _ eq_refl).
    pose proof (skip_space_length s2) as H2. destruct (skip_space s2) as [|co s3]; [done|]. cbn in H2.
    destruct (is_char 58 co); [|done]. cbn. destruct (parse_value f s3) as [[v r]|] eqn:E; [|done]. apply IHv in E.
    pose proof (skip_space_length r) as Hr. destruct (skip_space r) as [|c r']; [done|]. cbn in Hr. destruct (is_char 44 c).
    + destruct (parse_members f r') as [[l u]|] eqn:E2; [|done]. intros [= _ <-]. apply IHm in E2. lia.
    + destruct (is_char 125 c); [|done]. intros [= _ <-]. lia.
Qed.

Lemma parsers_fuel f : forall g s,
  ((2 * String.length s < f)%nat -> (2 * String.length s < g)%nat -> parse_value f s = parse_value g s) /\
  ((S (2 * String.length s) < f)%nat -> (S (2 * String.length s) < g)%nat ->
    parse_elements f s = parse_elements g s /\ parse_members f s = parse_members g s).
Proof.
  induction f as [|f IH]; [intros; lia|]. intros [|g] s; [lia|].
  assert (IHv : forall t, (2 * String.length t < f)%nat -> (2 * String.length t < g)%nat -> parse_value f t = parse_value g t)
    by (intros t; apply IH).
  pose proof (skip_space_length s) as Hs. split.
  - intros Hf Hg. cbn [parse_value]. destruct (skip_space s) as [|c t]; [done|]. cbn in Hs.
    destruct (IH g t) as [_ Ht]. destruct Ht as [-> ->]; [lia..|]. done.
  - intros Hf Hg. cbn [parse_elements parse_members]. split.
    + rewrite (IHv s) by lia. destruct (parse_value g s) as [[v r]|] eqn:E; [|done].
      apply (proj1 (parsers_consume g)) in E. pose proof (skip_space_length r) as Hr.
      destruct (skip_space r) as [|c r']; [done|]. cbn in Hr.
      destruct (IH g r') as [_ H']. by destruct H' as [-> _]; [lia..|].
    + destruct (skip_space s) as [|q s1]; [done|]. cbn in Hs. destruct (negb _); [done|].
      pose proof (parse_string_consumes s1) as H1. destruct (parse_string s1) as [[k s2]|]; [|done]. specialize (H1 _ _ eq_refl).
      pose proof (skip_space_length s2) as H2. destruct (skip_space s2) as [|co s3]; [done|]. cbn in H2.
      destruct (negb _); [done|]. rewrite (IHv s3) by lia. destruct (parse_value g s3) as [[v r]|] eqn:E; [|done].
      apply (proj1 (parsers_consume g)) in E. pose proof (skip_space_length r) as Hr.
      destruct (skip_space r) as [|c r']; [done|]. cbn in Hr.
      destruct (IH g r') as [_ H']. by destruct H' as [_ ->]; [lia..|].
Qed.

Example parse_example :
  parse (sprint [" {"; dq; "a"; dq; " : [1, -2.5e+3, true ], "; dq; "b"; dq; ":"; dq; "x\u0041\n"; dq; "} "]) =
  Some (JObject [("a", JArray [JNum "1"; JNum "-2.5e+3"; JBool true]); ("b", JString ("xA" +:+ String (char 10) ""))]).
Proof. vm_compute. reflexivity. Qed.

(** More fuel than [parse_fuel] changes nothing: no text needs more. *)
Lemma parse_with_enough fuel s : (parse_fuel s <= fuel)%nat -> parse_with fuel s = parse s.
Proof.
  intros Hf. unfold parse, parse_with. unfold parse_fuel in *.
  by rewrite (proj1 (parsers_fuel fuel (S (2 * String.length s)) s)) by lia.
Qed.
