(* ===== verification/BrokerAPI.v ===== *)
(** * Open Service Broker messages as JSON

    The structures of [contrib/pkg/brokerapi] with their struct tags, and the
    wire functions of [pkg/util/utils.go].  A codec says how [encoding/json]
    writes and reads a Go type: [dec] decodes into a variable that already has
    a value, as [json.Unmarshal] does; [empty] is what [omitempty] leaves out. *)

From stdpp Require Import gmap strings list.
From S2P Require Import Prelude Types Json JsonText.

(** ** Codecs *)

Record Codec (T : Type) := {
  zero : T;
  empty_value : T -> bool;
  enc : T -> json;
  dec : json -> T -> option T }.
Arguments zero {T}.
Arguments empty_value {T}.
Arguments enc {T}.
Arguments dec {T}.

(** A field of a structure: what is written for it, and the structure after a
    member of its name was read. *)
Record Field (S : Type) := {
  f_name : string;
  f_enc : S -> option json;
  f_dec : json -> S -> option S }.
Arguments f_name {S}.
Arguments f_enc {S}.
Arguments f_dec {S}.

Definition field {S T} (name : string) (omitempty : bool) (c : Codec T) (get : S -> T) (set : T -> S -> S) : Field S :=
  {| f_name := name;
     f_enc s := if omitempty && empty_value c (get s) then None else Some (enc c (get s));
     f_dec v s := (fun t => set t s) <$> dec c v (get s) |}.

(** [bytes.EqualFold] on ASCII names. *)
Definition lower (c : Ascii.ascii) : Ascii.ascii :=
  if Nat.leb 65 (code c) && Nat.leb (code c) 90 then char (code c + 32) else c.
Fixpoint equalFold (a b : string) : bool :=
  match a, b with
  | EmptyString, EmptyString => true
  | String x a', String y b' => Ascii.eqb (lower x) (lower y) && equalFold a' b'
  | _, _ => false
  end.

(** The field a member belongs to: one of exactly that name, or else the first
    that differs in case only. *)
Definition field_of {S} (fs : list (Field S)) (key : string) : option (Field S) :=
  match List.find (fun f => bool_decide (f_name f = key)) fs with
  | Some f => Some f
  | None => List.find (fun f => equalFold (f_name f) key) fs
  end.

Fixpoint dec_members {S} (fs : list (Field S)) (ms : list (string * json)) (s : S) : option S :=
  match ms with
  | [] => Some s
  | (key, v) :: ms' =>
      match field_of fs key with
      | Some f => match f_dec f v s with Some s' => dec_members fs ms' s' | None => None end
      | None => dec_members fs ms' s
      end
  end.

Definition enc_members {S} (fs : list (Field S)) (s : S) : list (string * json) :=
  omap (fun f => pair (f_name f) <$> f_enc f s) fs.

Definition struct {S} (z : S) (fs : list (Field S)) : Codec S :=
  {| zero := z; empty_value _ := false; enc s := JObject (enc_members fs s);
     dec v s := match v with JObject ms => dec_members fs ms s | JNull => Some s | _ => None end |}.

(** ** Basic types *)

Definition string_codec : Codec string :=
  {| zero := ""; empty_value s := bool_decide (s = ""); enc := JString;
     dec v s := match v with JString t => Some t | JNull => Some s | _ => None end |}.

Definition bool_codec : Codec bool :=
  {| zero := false; empty_value := negb; enc := JBool;
     dec v s := match v with JBool b => Some b | JNull => Some s | _ => None end |}.

Definition pointer {T} (c : Codec T) : Codec (option T) :=
  {| zero := None; empty_value s := match s with None => true | Some _ => false end;
     enc s := match s with None => JNull | Some t => enc c t end;
     dec v s := match v with JNull => Some None | _ => Some <$> dec c v (default (zero c) s) end |}.

(** A slice; the elements are read into the old ones. *)
Fixpoint dec_elements {T} (c : Codec T) (l : list json) (old : list T) : option (list T) :=
  match l with
  | [] => Some []
  | v :: l' =>
      match dec c v (hd (zero c) old), dec_elements c l' (tl old) with
      | Some t, Some ts => Some (t :: ts)
      | _, _ => None
      end
  end.
Definition slice {T} (c : Codec T) : Codec (option (list T)) :=
  {| zero := None; empty_value s := match s with None | Some [] => true | _ => false end;
     enc s := match s with None => JNull | Some l => JArray (map (enc c) l) end;
     dec v s := match v with
                | JNull => Some None
                | JArray l => Some <$> dec_elements c l (default [] s)
                | _ => None
                end |}.

Section wire.
Context {J : JsonDecoding}.

(** [interface{}]; nil is null. *)
Definition any_codec : Codec json :=
  {| zero := JNull; empty_value s := match s with JNull => true | _ => false end; enc s := s;
     dec v _ := decode_any v |}.

(** [map[string]interface{}]: what is read is added to the old map. *)
Definition map_codec : Codec (option (gmap string json)) :=
  {| zero := None; empty_value s := bool_decide (default ∅ s = ∅);
     enc s := match s with None => JNull | Some m => JMap m end;
     dec v s := match decode_any v with
                | Some JNull => Some None
                | Some (JObject l) => Some (Some (list_to_map l ∪ default ∅ s))
                | _ => None
                end |}.

(** ** The messages *)

Record ContextProfile := { Platform : string; cp_Namespace : string }.
Definition ContextProfilePlatformKubernetes : string := "kubernetes".
Definition ContextProfile_codec : Codec ContextProfile :=
  struct {| Platform := ""; cp_Namespace := "" |}
    [field "platform" true string_codec Platform (fun v s => {| Platform := v; cp_Namespace := cp_Namespace s |});
     field "namespace" true string_codec cp_Namespace (fun v s => {| Platform := Platform s; cp_Namespace := v |})].

Record CreateServiceInstanceRequest := {
  csi_OrgID : string; csi_PlanID : string; csi_ServiceID : string; csi_SpaceID : string;
  csi_Parameters : option (gmap string json); csi_AcceptsIncomplete : bool; csi_ContextProfile : ContextProfile }.
Definition csi_with_Parameters (v : option (gmap string json)) (s : CreateServiceInstanceRequest) :=
  Build_CreateServiceInstanceRequest (csi_OrgID s) (csi_PlanID s) (csi_ServiceID s) (csi_SpaceID s) v
    (csi_AcceptsIncomplete s) (csi_ContextProfile s).
Definition CreateServiceInstanceRequest_codec : Codec CreateServiceInstanceRequest :=
  struct (Build_CreateServiceInstanceRequest "" "" "" "" None false (zero ContextProfile_codec))
    [field "organization_guid" true string_codec csi_OrgID (fun v s => Build_CreateServiceInstanceRequest v
       (csi_PlanID s) (csi_ServiceID s) (csi_SpaceID s) (csi_Parameters s) (csi_AcceptsIncomplete s) (csi_ContextProfile s));
     field "plan_id" true string_codec csi_PlanID (fun v s => Build_CreateServiceInstanceRequest (csi_OrgID s)
       v (csi_ServiceID s) (csi_SpaceID s) (csi_Parameters s) (csi_AcceptsIncomplete s) (csi_ContextProfile s));
     field "service_id" true string_codec csi_ServiceID (fun v s => Build_CreateServiceInstanceRequest (csi_OrgID s)
       (csi_PlanID s) v (csi_SpaceID s) (csi_Parameters s) (csi_AcceptsIncomplete s) (csi_ContextProfile s));
     field "space_guid" true string_codec csi_SpaceID (fun v s => Build_CreateServiceInstanceRequest (csi_OrgID s)
       (csi_PlanID s) (csi_ServiceID s) v (csi_Parameters s) (csi_AcceptsIncomplete s) (csi_ContextProfile s));
     field "parameters" true map_codec csi_Parameters csi_with_Parameters;
     field "accepts_incomplete" true bool_codec csi_AcceptsIncomplete (fun v s => Build_CreateServiceInstanceRequest (csi_OrgID s)
       (csi_PlanID s) (csi_ServiceID s) (csi_SpaceID s) (csi_Parameters s) v (csi_ContextProfile s));
     field "context" true ContextProfile_codec csi_ContextProfile (fun v s => Build_CreateServiceInstanceRequest (csi_OrgID s)
       (csi_PlanID s) (csi_ServiceID s) (csi_SpaceID s) (csi_Parameters s) (csi_AcceptsIncomplete s) v)].

Record CreateServiceInstanceResponse := { csr_DashboardURL : string; csr_Operation : string }.
Definition CreateServiceInstanceResponse_codec : Codec CreateServiceInstanceResponse :=
  struct {| csr_DashboardURL := ""; csr_Operation := "" |}
    [field "dashboard_url" true string_codec csr_DashboardURL
       (fun v s => {| csr_DashboardURL := v; csr_Operation := csr_Operation s |});
     field "operation" true string_codec csr_Operation
       (fun v s => {| csr_DashboardURL := csr_DashboardURL s; csr_Operation := v |})].

Record DeleteServiceInstanceRequest := { dsr_ServiceID : string; dsr_PlanID : string; dsr_AcceptsIncomplete : bool }.
Definition DeleteServiceInstanceRequest_codec : Codec DeleteServiceInstanceRequest :=
  struct {| dsr_ServiceID := ""; dsr_PlanID := ""; dsr_AcceptsIncomplete := false |}
    [field "service_id" false string_codec dsr_ServiceID (fun v s =>
       {| dsr_ServiceID := v; dsr_PlanID := dsr_PlanID s; dsr_AcceptsIncomplete := dsr_AcceptsIncomplete s |});
     field "plan_id" false string_codec dsr_PlanID (fun v s =>
       {| dsr_ServiceID := dsr_ServiceID s; dsr_PlanID := v; dsr_AcceptsIncomplete := dsr_AcceptsIncomplete s |});
     field "accepts_incomplete" true bool_codec dsr_AcceptsIncomplete (fun v s =>
       {| dsr_ServiceID := dsr_ServiceID s; dsr_PlanID := dsr_PlanID s; dsr_AcceptsIncomplete := v |})].

Record DeleteServiceInstanceResponse := { dsi_Operation : string }.
Definition DeleteServiceInstanceResponse_codec : Codec DeleteServiceInstanceResponse :=
  struct {| dsi_Operation := "" |} [field "operation" true string_codec dsi_Operation (fun v _ => {| dsi_Operation := v |})].

(** Never sent as JSON: its fields become query parameters. *)
Record LastOperationRequest := { lor_ServiceID : string; lor_PlanID : string; lor_Operation : string }.

Record LastOperationResponse := { lo_State : string; lo_Description : string }.
Definition LastOperationResponse_codec : Codec LastOperationResponse :=
  struct {| lo_State := ""; lo_Description := "" |}
    [field "state" false string_codec lo_State (fun v s => {| lo_State := v; lo_Description := lo_Description s |});
     field "description" true string_codec lo_Description (fun v s => {| lo_State := lo_State s; lo_Description := v |})].

Record BindingRequest := {
  brq_AppGUID : string; brq_PlanID : string; brq_ServiceID : string;
  brq_BindResource : option (gmap string json); brq_Parameters : option (gmap string json) }.
Definition brq_with_Parameters (v : option (gmap string json)) (s : BindingRequest) :=
  Build_BindingRequest (brq_AppGUID s) (brq_PlanID s) (brq_ServiceID s) (brq_BindResource s) v.
Definition BindingRequest_codec : Codec BindingRequest :=
  struct (Build_BindingRequest "" "" "" None None)
    [field "app_guid" true string_codec brq_AppGUID (fun v s =>
       Build_BindingRequest v (brq_PlanID s) (brq_ServiceID s) (brq_BindResource s) (brq_Parameters s));
     field "plan_id" true string_codec brq_PlanID (fun v s =>
       Build_BindingRequest (brq_AppGUID s) v (brq_ServiceID s) (brq_BindResource s) (brq_Parameters s));
     field "service_id" true string_codec brq_ServiceID (fun v s =>
       Build_BindingRequest (brq_AppGUID s) (brq_PlanID s) v (brq_BindResource s) (brq_Parameters s));
     field "bind_resource" true map_codec brq_BindResource (fun v s =>
       Build_BindingRequest (brq_AppGUID s) (brq_PlanID s) (brq_ServiceID s) v (brq_Parameters s));
     field "parameters" true map_codec brq_Parameters brq_with_Parameters].

(** [Credential] is a [map[string]interface{}]. *)
Definition Credential : Type := option (gmap string json).
Record CreateServiceBindingResponse := { csb_Credentials : Credential }.
Definition CreateServiceBindingResponse_codec : Codec CreateServiceBindingResponse :=
  struct {| csb_Credentials := None |} [field "credentials" false map_codec csb_Credentials (fun v _ => {| csb_Credentials := v |})].
(** *** The catalog *)

Record InputParameters := { inp_Parameters : json }.
Definition InputParameters_codec : Codec InputParameters :=
  struct {| inp_Parameters := JNull |} [field "parameters" true any_codec inp_Parameters (fun v _ => {| inp_Parameters := v |})].

Record ServiceInstanceSchema := { sis_Create : option InputParameters; sis_Update : option InputParameters }.
Definition ServiceInstanceSchema_codec : Codec ServiceInstanceSchema :=
  struct {| sis_Create := None; sis_Update := None |}
    [field "create" true (pointer InputParameters_codec) sis_Create (fun v s => {| sis_Create := v; sis_Update := sis_Update s |});
     field "update" true (pointer InputParameters_codec) sis_Update (fun v s => {| sis_Create := sis_Create s; sis_Update := v |})].

Record ServiceBindingSchema := { sbs_Create : option InputParameters }.
Definition ServiceBindingSchema_codec : Codec ServiceBindingSchema :=
  struct {| sbs_Create := None |}
    [field "create" true (pointer InputParameters_codec) sbs_Create (fun v _ => {| sbs_Create := v |})].

Record Schemas := { sch_ServiceInstances : option ServiceInstanceSchema; sch_ServiceBindings : option ServiceBindingSchema }.
Definition Schemas_codec : Codec Schemas :=
  struct {| sch_ServiceInstances := None; sch_ServiceBindings := None |}
    [field "service_instance" true (pointer ServiceInstanceSchema_codec) sch_ServiceInstances
       (fun v s => {| sch_ServiceInstances := v; sch_ServiceBindings := sch_ServiceBindings s |});
     field "service_binding" true (pointer ServiceBindingSchema_codec) sch_ServiceBindings
       (fun v s => {| sch_ServiceInstances := sch_ServiceInstances s; sch_ServiceBindings := v |})].

Record ServicePlan := {
  pl_Name : string; pl_ID : string; pl_Description : string; pl_Metadata : json; pl_Free : bool;
  pl_Bindable : option bool; pl_Schemas : option Schemas }.
Definition ServicePlan_codec : Codec ServicePlan :=
  struct (Build_ServicePlan "" "" "" JNull false None None)
    [field "name" false string_codec pl_Name (fun v s =>
       Build_ServicePlan v (pl_ID s) (pl_Description s) (pl_Metadata s) (pl_Free s) (pl_Bindable s) (pl_Schemas s));
     field "id" false string_codec pl_ID (fun v s =>
       Build_ServicePlan (pl_Name s) v (pl_Description s) (pl_Metadata s) (pl_Free s) (pl_Bindable s) (pl_Schemas s));
     field "description" false string_codec pl_Description (fun v s =>
       Build_ServicePlan (pl_Name s) (pl_ID s) v (pl_Metadata s) (pl_Free s) (pl_Bindable s) (pl_Schemas s));
     field "metadata" true any_codec pl_Metadata (fun v s =>
       Build_ServicePlan (pl_Name s) (pl_ID s) (pl_Description s) v (pl_Free s) (pl_Bindable s) (pl_Schemas s));
     field "free" true bool_codec pl_Free (fun v s =>
       Build_ServicePlan (pl_Name s) (pl_ID s) (pl_Description s) (pl_Metadata s) v (pl_Bindable s) (pl_Schemas s));
     field "bindable" true (pointer bool_codec) pl_Bindable (fun v s =>
       Build_ServicePlan (pl_Name s) (pl_ID s) (pl_Description s) (pl_Metadata s) (pl_Free s) v (pl_Schemas s));
     field "schemas" true (pointer Schemas_codec) pl_Schemas (fun v s =>
       Build_ServicePlan (pl_Name s) (pl_ID s) (pl_Description s) (pl_Metadata s) (pl_Free s) (pl_Bindable s) v)].

Record Service := {
  sv_Name : string; sv_ID : string; sv_Description : string; sv_Tags : option (list string);
  sv_Requires : option (list string); sv_Bindable : bool; sv_Metadata : json; sv_DashboardClient : json;
  sv_PlanUpdateable : bool; sv_Plans : option (list ServicePlan) }.
Definition Service_codec : Codec Service :=
  struct (Build_Service "" "" "" None None false JNull JNull false None)
    [field "name" false string_codec sv_Name (fun v s => Build_Service v (sv_ID s) (sv_Description s) (sv_Tags s)
       (sv_Requires s) (sv_Bindable s) (sv_Metadata s) (sv_DashboardClient s) (sv_PlanUpdateable s) (sv_Plans s));
     field "id" false string_codec sv_ID (fun v s => Build_Service (sv_Name s) v (sv_Description s) (sv_Tags s)
       (sv_Requires s) (sv_Bindable s) (sv_Metadata s) (sv_DashboardClient s) (sv_PlanUpdateable s) (sv_Plans s));
     field "description" false string_codec sv_Description (fun v s => Build_Service (sv_Name s) (sv_ID s) v (sv_Tags s)
       (sv_Requires s) (sv_Bindable s) (sv_Metadata s) (sv_DashboardClient s) (sv_PlanUpdateable s) (sv_Plans s));
     field "tags" true (slice string_codec) sv_Tags (fun v s => Build_Service (sv_Name s) (sv_ID s) (sv_Description s) v
       (sv_Requires s) (sv_Bindable s) (sv_Metadata s) (sv_DashboardClient s) (sv_PlanUpdateable s) (sv_Plans s));
     field "requires" true (slice string_codec) sv_Requires (fun v s => Build_Service (sv_Name s) (sv_ID s) (sv_Description s)
       (sv_Tags s) v (sv_Bindable s) (sv_Metadata s) (sv_DashboardClient s) (sv_PlanUpdateable s) (sv_Plans s));
     field "bindable" false bool_codec sv_Bindable (fun v s => Build_Service (sv_Name s) (sv_ID s) (sv_Description s)
       (sv_Tags s) (sv_Requires s) v (sv_Metadata s) (sv_DashboardClient s) (sv_PlanUpdateable s) (sv_Plans s));
     field "metadata" true any_codec sv_Metadata (fun v s => Build_Service (sv_Name s) (sv_ID s) (sv_Description s)
       (sv_Tags s) (sv_Requires s) (sv_Bindable s) v (sv_DashboardClient s) (sv_PlanUpdateable s) (sv_Plans s));
     field "dashboard_client" false any_codec sv_DashboardClient (fun v s => Build_Service (sv_Name s) (sv_ID s) (sv_Description s)
       (sv_Tags s) (sv_Requires s) (sv_Bindable s) (sv_Metadata s) v (sv_PlanUpdateable s) (sv_Plans s));
     field "plan_updateable" true bool_codec sv_PlanUpdateable (fun v s => Build_Service (sv_Name s) (sv_ID s) (sv_Description s)
       (sv_Tags s) (sv_Requires s) (sv_Bindable s) (sv_Metadata s) (sv_DashboardClient s) v (sv_Plans s));
     field "plans" false (slice ServicePlan_codec) sv_Plans (fun v s => Build_Service (sv_Name s) (sv_ID s) (sv_Description s)
       (sv_Tags s) (sv_Requires s) (sv_Bindable s) (sv_Metadata s) (sv_DashboardClient s) (sv_PlanUpdateable s) v)].

Record Catalog := { cat_Services : option (list (option Service)) }.
Definition Catalog_codec : Codec Catalog :=
  struct {| cat_Services := None |}
    [field "services" false (slice (pointer Service_codec)) cat_Services (fun v _ => {| cat_Services := v |})].

(** ** [json.Marshal] and [json.Unmarshal] *)

Definition Marshal {T} (c : Codec T) (t : T) : string := encode (enc c t).

(** [Unmarshal typ c data t]: into a variable of type [typ] with the value [t]. *)
Definition Unmarshal {T} (typ : string) (c : Codec T) (data : string) (t : T) : T + error :=
  match parse data with
  | None => inr (syntaxError data)
  | Some v => match dec c v t with Some t' => inl t' | None => inr (typeError v typ) end
  end.

(** ** Round trips *)

(** A value that survives: what is written for it is JSON, is read back as the
    value, and if it may be left out it is the value of a fresh variable. *)
Definition survives {T} (omitempty : bool) (c : Codec T) (t : T) : Prop :=
  printable (enc c t) /\ dec c (enc c t) (zero c) = Some t /\
  (omitempty && empty_value c t = true -> t = zero c).

Lemma wire_survives {T} o typ (c : Codec T) t : survives o c t -> Unmarshal typ c (Marshal c t) (zero c) = inl t.
Proof. intros (Hp & Hd & _). unfold Unmarshal, Marshal. by rewrite parse_encode, Hd. Qed.

(** Reading the members a structure was written as, field by field. *)
Fixpoint replay {S} (fs : list (Field S)) (s acc : S) : option S :=
  match fs with
  | [] => Some acc
  | f :: fs' =>
      match f_enc f s with
      | None => replay fs' s acc
      | Some v => match f_dec f v acc with Some acc' => replay fs' s acc' | None => None end
      end
  end.

Lemma field_of_name {S} (fs : list (Field S)) f : NoDup (map f_name fs) -> f ∈ fs -> field_of fs (f_name f) = Some f.
Proof.
  intros Hn Hf. unfold field_of.
  assert (Hfind : List.find (fun g => bool_decide (f_name g = f_name f)) fs = Some f); [|by rewrite Hfind].
  induction fs as [|g fs IH]; [by apply elem_of_nil in Hf|]. cbn in *. apply list.NoDup_cons in Hn as [Hg Hn].
  apply elem_of_cons in Hf as [<-|Hf]; [by rewrite bool_decide_eq_true_2|].
  rewrite bool_decide_eq_false_2; [by apply IH|]. intros Heq. apply Hg. rewrite Heq. by apply (list_elem_of_fmap_2 f_name).
Qed.

Lemma dec_enc_replay {S} (z s : S) (fs : list (Field S)) : NoDup (map f_name fs) ->
  dec (struct z fs) (enc (struct z fs) s) z = replay fs s z.
Proof.
  intros Hn. cbn. enough (H : forall rest acc, (forall f, f ∈ rest -> f ∈ fs) ->
    dec_members fs (enc_members rest s) acc = replay rest s acc) by by apply H.
  induction rest as [|f rest IH]; intros acc Hin; [done|]. cbn.
  assert (Hrest : forall g, g ∈ rest -> g ∈ fs) by (intros g Hg; apply Hin; by right).
  destruct (f_enc f s) as [v|]; cbn; [|by apply IH].
  rewrite field_of_name by (done || (apply Hin; by left)). destruct (f_dec f v acc); [by apply IH|done].
Qed.

Lemma replay_field {S T} name o (c : Codec T) (get : S -> T) set fs s acc :
  survives o c (get s) -> get acc = zero c -> set (zero c) acc = acc ->
  replay (field name o c get set :: fs) s acc = replay fs s (set (get s) acc).
Proof.
  intros (_ & Hd & He) Hz Hs. cbn. destruct (o && empty_value c (get s)) eqn:E.
  - by rewrite (He eq_refl), Hs.
  - by rewrite Hz, Hd.
Qed.

Definition prints {S} (s : S) (f : Field S) : Prop := match f_enc f s with Some v => printable v | None => True end.

Lemma field_prints {S T} name o (c : Codec T) (get : S -> T) set s : survives o c (get s) -> prints s (field name o c get set).
Proof. intros (Hp & _). unfold prints. cbn. by destruct (_ && _). Qed.

Lemma struct_survives {S} o (z s : S) fs :
  NoDup (map f_name fs) -> Forall (prints s) fs -> replay fs s z = Some s -> survives o (struct z fs) s.
Proof.
  intros Hn Hp Hr. split_and!; [|by rewrite dec_enc_replay|cbn; by rewrite andb_false_r].
  apply printable_object. clear Hn Hr. induction Hp as [|f fs Hf Hp IH]; [done|]. cbn. unfold prints in Hf.
  destruct (f_enc f s); cbn; [by constructor|done].
Qed.

Lemma string_survives o s : survives o string_codec s.
Proof. split_and!; [done..|]. cbn. destruct o; [|done]. cbn. by case_bool_decide. Qed.
Lemma bool_survives o b : survives o bool_codec b.
Proof. split_and!; [done..|]. by destruct o, b. Qed.
Lemma any_survives o v : exact v -> survives o any_codec v.
Proof. intros (Hp & _ & Hd)%exact_printable. split_and!; [done..|]. by destruct o, v. Qed.

Lemma pointer_survives {T} o (c : Codec T) (t : option T) :
  (forall x, t = Some x -> survives false c x /\ enc c x <> JNull) -> survives o (pointer c) t.
Proof.
  intros H. destruct t as [x|]; [|by destruct o]. destruct (H x eq_refl) as [(Hp & Hd & _) Hn].
  split_and!; [done| |by destruct o]. cbn. destruct (enc c x); try done; by rewrite Hd.
Qed.

Lemma slice_survives {T} o (c : Codec T) (t : option (list T)) :
  (forall l, t = Some l -> (o = true -> l <> []) /\ Forall (survives false c) l) -> survives o (slice c) t.
Proof.
  intros H. destruct t as [l|]; [|by destruct o]. destruct (H l eq_refl) as [Hne Hl]. split_and!.
  - apply printable_array. clear H Hne. induction Hl as [|x l (Hp & _) _ IH]; [done|]. by constructor.
  - cbn. enough (Hd : dec_elements c (map (enc c) l) [] = Some l) by by rewrite Hd.
    clear H Hne. induction Hl as [|x l (_ & Hx & _) _ IH]; [done|]. cbn. by rewrite Hx, IH.
  - destruct o; [|done]. destruct l; [by destruct (Hne eq_refl)|done].
Qed.

Definition exact_map (m : gmap string json) : Prop := map_Forall (fun _ v => exact v) m.

Lemma exact_JMap m : exact_map m -> exact (JMap m).
Proof.
  intros H. apply exact_object. split; [apply obj_of_sorted|].
  apply (Permutation_Forall (Permutation_sym (obj_of_perm _ (NoDup_fst_map_to_list m)))).
  apply List.Forall_forall. intros [k v] Hin. apply list_elem_of_In, elem_of_map_to_list in Hin. by apply (H k).
Qed.

Lemma map_survives o (t : option (gmap string json)) :
  (forall m, t = Some m -> exact_map m /\ (o = true -> m <> ∅)) -> survives o map_codec t.
Proof.
  intros H. destruct t as [m|]; [|by destruct o]. destruct (H m eq_refl) as [He Hne].
  destruct (exact_printable _ (exact_JMap m He)) as (Hp & _ & Hd). split_and!; [done|..].
  - cbn [dec enc map_codec]. rewrite Hd. cbn. by rewrite JMap_map, map_union_empty.
  - cbn. destruct o; [|done]. cbn. case_bool_decide as E; [by destruct (Hne eq_refl)|done].
Qed.

End wire.

#[export] Hint Resolve string_survives bool_survives any_survives pointer_survives slice_survives map_survives : core.

Ltac struct_survives :=
  apply struct_survives;
  [apply (bool_decide_eq_true_1 _); vm_compute; reflexivity
  |repeat (constructor; [apply field_prints; cbn; auto|]); constructor
  |repeat (rewrite replay_field by (cbn; auto);
     lazymatch goal with |- replay ?fs ?s ?acc = _ => let acc := eval cbn in acc in change (replay fs s acc = Some s) end)];
  match goal with |- replay [] ?s _ = _ => by destruct s | |- _ => idtac end.

Section messages.
Context {J : JsonDecoding}.

Lemma ContextProfile_survives o s : survives o ContextProfile_codec s.
Proof. struct_survives. Qed.
(** What a map must be to survive in an optional field: left out when it is
    empty, it would come back nil. *)
Definition sendable (t : option (gmap string json)) : Prop := forall m, t = Some m -> exact_map m /\ m <> ∅.

Lemma sendable_survives o t : sendable t -> survives o map_codec t.
Proof. intros H. apply map_survives. intros m Hm. by destruct (H m Hm). Qed.
Hint Resolve sendable_survives ContextProfile_survives : core.

Lemma CreateServiceInstanceRequest_survives o s : sendable (csi_Parameters s) -> survives o CreateServiceInstanceRequest_codec s.
Proof. intros H. struct_survives. Qed.
Lemma CreateServiceInstanceResponse_survives o s : survives o CreateServiceInstanceResponse_codec s.
Proof. struct_survives. Qed.
Lemma DeleteServiceInstanceRequest_survives o s : survives o DeleteServiceInstanceRequest_codec s.
Proof. struct_survives. Qed.
Lemma DeleteServiceInstanceResponse_survives o s : survives o DeleteServiceInstanceResponse_codec s.
Proof. struct_survives. Qed.
Lemma LastOperationResponse_survives o s : survives o LastOperationResponse_codec s.
Proof. struct_survives. Qed.
Lemma BindingRequest_survives o s : sendable (brq_BindResource s) -> sendable (brq_Parameters s) -> survives o BindingRequest_codec s.
Proof. intros H1 H2. struct_survives. Qed.
Lemma CreateServiceBindingResponse_survives o s :
  (forall m, csb_Credentials s = Some m -> exact_map m) -> survives o CreateServiceBindingResponse_codec s.
Proof.
  intros H. assert (survives false map_codec (csb_Credentials s)) by (apply map_survives; auto). struct_survives.
Qed.

(** The catalog: every JSON value in it is exact, and optional lists are nil when
    they are empty. *)
Definition params_exact (p : option InputParameters) : Prop := forall i, p = Some i -> exact (inp_Parameters i).
Definition schemas_exact (s : option Schemas) : Prop := forall sch, s = Some sch ->
  (forall i, sch_ServiceInstances sch = Some i -> params_exact (sis_Create i) /\ params_exact (sis_Update i)) /\
  (forall b, sch_ServiceBindings sch = Some b -> params_exact (sbs_Create b)).
Definition service_plan_exact (p : ServicePlan) : Prop := exact (pl_Metadata p) /\ schemas_exact (pl_Schemas p).
Definition service_exact (s : Service) : Prop :=
  sv_Tags s <> Some [] /\ sv_Requires s <> Some [] /\ exact (sv_Metadata s) /\ exact (sv_DashboardClient s) /\
  forall l, sv_Plans s = Some l -> Forall service_plan_exact l.
Definition catalog_exact (c : Catalog) : Prop :=
  forall l, cat_Services c = Some l -> Forall (fun o => forall s, o = Some s -> service_exact s) l.

Lemma InputParameters_survives o p : params_exact p -> survives o (pointer InputParameters_codec) p.
Proof.
  intros H. apply pointer_survives. intros i Hi. split; [|done]. specialize (H i Hi).
  assert (survives true any_codec (inp_Parameters i)) by auto. struct_survives.
Qed.
Hint Resolve InputParameters_survives : core.

Lemma Schemas_survives o s : schemas_exact s -> survives o (pointer Schemas_codec) s.
Proof.
  intros H. apply pointer_survives. intros sch Hsch. split; [|done]. destruct (H sch Hsch) as [Hi Hb].
  assert (survives true (pointer ServiceInstanceSchema_codec) (sch_ServiceInstances sch)).
  { apply pointer_survives. intros i Hx. split; [|done]. destruct (Hi i Hx) as [H1 H2]. struct_survives. }
  assert (survives true (pointer ServiceBindingSchema_codec) (sch_ServiceBindings sch)).
  { apply pointer_survives. intros b Hx. split; [|done]. specialize (Hb b Hx). struct_survives. }
  struct_survives.
Qed.

Lemma bool_pointer_survives o b : survives o (pointer bool_codec) b.
Proof. apply pointer_survives. intros x _. by split. Qed.
Hint Resolve Schemas_survives bool_pointer_survives : core.

Lemma service_plan_survives p : service_plan_exact p -> survives false ServicePlan_codec p.
Proof. intros [H1 H2]. struct_survives. Qed.

Lemma string_list_survives (t : option (list string)) : t <> Some [] -> survives true (slice string_codec) t.
Proof.
  intros H. apply slice_survives. intros l ->. split; [by intros _ ->|]. by apply List.Forall_forall; auto.
Qed.

Lemma Service_survives s : service_exact s -> survives false Service_codec s.
Proof.
  intros (Ht & Hr & Hm & Hd & Hp). apply string_list_survives in Ht, Hr.
  assert (survives false (slice ServicePlan_codec) (sv_Plans s)).
  { apply slice_survives. intros l Hl. split; [done|]. eapply List.Forall_impl; [|exact (Hp l Hl)]. apply service_plan_survives. }
  struct_survives.
Qed.

Lemma Catalog_survives o c : catalog_exact c -> survives o Catalog_codec c.
Proof.
  intros H. assert (survives false (slice (pointer Service_codec)) (cat_Services c)).
  { apply slice_survives. intros l Hl. split; [done|]. eapply List.Forall_impl; [|exact (H l Hl)].
    intros x Hx. apply pointer_survives. intros s ->. split; [by apply Service_survives, Hx|done]. }
  struct_survives.
Qed.
End messages.

(** ** Brokers' own records *)

(** What a broker keeps of an instance and of a binding. *)
Record ServiceInstance := {
  bsi_ID : string; bsi_DashboardURL : string; bsi_InternalID : string; bsi_ServiceID : string; bsi_PlanID : string;
  bsi_OrganizationGUID : string; bsi_SpaceGUID : string; bsi_LastOperation : option LastOperationResponse;
  bsi_Parameters : option (gmap string json) }.
Record ServiceBinding := {
  bsb_ID : string; bsb_ServiceID : string; bsb_AppID : string; bsb_ServicePlanID : string; bsb_PrivateKey : string;
  bsb_ServiceInstanceID : string; bsb_BindResource : option (gmap string json); bsb_Parameters : option (gmap string json) }.

(** ** [BrokerClient]

    What every client of a broker offers.  A call returns all its results, the
    error last; it may panic. *)
Record BrokerClient (W Eff : Type) := {
  bc_GetCatalog : M W Eff (option Catalog * option error);
  bc_CreateServiceInstance : string -> CreateServiceInstanceRequest ->
    M W Eff (option CreateServiceInstanceResponse * Z * option error);
  bc_UpdateServiceInstance : string -> CreateServiceInstanceRequest -> M W Eff (option ServiceInstance * Z * option error);
  bc_DeleteServiceInstance : string -> DeleteServiceInstanceRequest ->
    M W Eff (option DeleteServiceInstanceResponse * Z * option error);
  bc_PollServiceInstance : string -> LastOperationRequest -> M W Eff (option LastOperationResponse * Z * option error);
  bc_CreateServiceBinding : string -> string -> BindingRequest -> M W Eff (option CreateServiceBindingResponse * option error);
  bc_DeleteServiceBinding : string -> string -> string -> string -> M W Eff (option error) }.
