(* ===== verification/Http.v ===== *)
(** * HTTP between broker clients and brokers

    What the Open Service Broker client and server use of [net/http],
    [net/url] and [path], the router of [github.com/gorilla/mux], and the wire
    functions of [pkg/util/utils.go].  A request carries its URL as the parts
    the two sides look at: the address of the server, and the decoded path and
    query ([EscapedPath] and [Encode], which write them, are undone by the
    parser of the receiving side).  An address has no path of its own. *)

From stdpp Require Import gmap strings list.
From S2P Require Import Prelude Types Json JsonText BrokerAPI.

#[local] Arguments String.append !_ _ / : simpl nomatch.

(** ** URLs *)

(** [s] up to the first [c], and what follows it. *)
Fixpoint cut (c : nat) (s : string) : string * option string :=
  match s with
  | EmptyString => (EmptyString, None)
  | String x s' =>
      if is_char c x then (EmptyString, Some s')
      else let (a, b) := cut c s' in (String x a, b)
  end.

(** Percent escapes; an error carries the malformed escape.  In a query a plus
    sign stands for a space. *)
Fixpoint unescape (query : bool) (s : string) : string + string :=
  match s with
  | EmptyString => inl EmptyString
  | String c s' =>
      let keep x r := match r with inl t => inl (String x t) | inr e => inr e end in
      if is_char 37 c then
        match s' with
        | String a (String b s'') =>
            match hex_value a, hex_value b with
            | Some a, Some b => keep (char (a * 16 + b)) (unescape query s'')
            | _, _ => inr (String c (String a (String b EmptyString)))
            end
        | _ => inr s
        end
      else keep (if query && is_char 43 c then char 32 else c) (unescape query s')
  end.

Fixpoint split_on (cs : list nat) (s : string) : list string :=
  match s with
  | EmptyString => [EmptyString]
  | String x s' =>
      if existsb (fun c => is_char c x) cs then EmptyString :: split_on cs s'
      else match split_on cs s' with h :: t => String x h :: t | [] => [String x EmptyString] end
  end.

(** [url.ParseQuery] as [URL.Query] uses it: malformed pairs are left out. *)
Definition parsePair (p : string) : list (string * string) :=
  if bool_decide (p = "") then []
  else
    let (k, v) := cut 61 p in
    match unescape true k, unescape true (default "" v) with
    | inl k, inl v => [(k, v)]
    | _, _ => []
    end.
Definition parseQuery (s : string) : list (string * string) := flat_map parsePair (split_on [38; 59]%nat s).

Definition query_Get (key : string) (q : list (string * string)) : string :=
  match List.find (fun p => bool_decide (fst p = key)) q with Some p => snd p | None => "" end.
Definition query_Set (key value : string) (q : list (string * string)) : list (string * string) :=
  (key, value) :: List.filter (fun p => negb (bool_decide (fst p = key))) q.

Definition urlError (raw bad : string) : error := URLError false (sprint ["parse "; raw; ": invalid URL escape "; quote bad]).

(** [url.Parse] of the address followed by [target]: the path and the query. *)
Definition parseURL (address target : string) : (string * list (string * string)) + error :=
  let (u, fragment) := cut 35 target in
  let (path, query) := cut 63 u in
  match unescape false path with
  | inr bad => inr (urlError (sprint [address; u]) bad)
  | inl path =>
      match unescape false (default "" fragment) with
      | inr bad => inr (urlError (sprint [address; target]) bad)
      | inl _ => inl (path, parseQuery (default "" query))
      end
  end.

(** ** Messages *)

Record HTTPRequest := {
  rq_Method : string; rq_Address : string; rq_Path : string; rq_Query : list (string * string);
  rq_Header : list (string * string); rq_BasicAuth : option (string * string); rq_Body : option string }.

(** A body that cannot be read to its end is an error. *)
Record HTTPResponse := { rs_StatusCode : Z; rs_Header : list (string * string); rs_Body : string + error }.

Definition StatusOK : Z := 200.
Definition StatusCreated : Z := 201.
Definition StatusAccepted : Z := 202.
Definition StatusMovedPermanently : Z := 301.
Definition StatusBadRequest : Z := 400.
Definition StatusNotFound : Z := 404.
Definition StatusConflict : Z := 409.
Definition StatusGone : Z := 410.
Definition StatusUnprocessableEntity : Z := 422.

(** ** [pkg/util/utils.go] *)

Section util.
Context {J : JsonDecoding}.

(** Every value that is written here can be marshalled. *)
Definition WriteResponse {T} (code : Z) (c : Codec T) (object : T) : HTTPResponse :=
  {| rs_StatusCode := code; rs_Header := [("Content-Type", "application/json")]; rs_Body := inl (Marshal c object) |}.

Record ErrorBody := { eb_Error : string }.
Definition ErrorBody_codec : Codec ErrorBody :=
  struct {| eb_Error := "" |} [field "Error" false string_codec eb_Error (fun v _ => {| eb_Error := v |})].

Definition WriteErrorResponse (code : Z) (err : error) : HTTPResponse :=
  WriteResponse code ErrorBody_codec {| eb_Error := Error err |}.

Definition BodyToObject {T} (typ : string) (r : HTTPRequest) (c : Codec T) : T + error :=
  Unmarshal typ c (default "" (rq_Body r)) (zero c).

Definition ResponseBodyToObject {T} (typ : string) (r : HTTPResponse) (c : Codec T) : T + error :=
  match rs_Body r with
  | inr err => inr err
  | inl body => Unmarshal typ c body (zero c)
  end.
End util.

(** ** Routing *)

(** [path.Clean] of a rooted path, by its segments. *)
Fixpoint clean_segments (segs done : list string) : list string :=
  match segs with
  | [] => rev done
  | s :: segs' =>
      if bool_decide (s = "") || bool_decide (s = ".") then clean_segments segs' done
      else if bool_decide (s = "..") then clean_segments segs' (tl done)
      else clean_segments segs' (s :: done)
  end.

Definition path_of (segs : list string) : string :=
  match segs with [] => "/" | _ => sprint (flat_map (fun s => ["/"; s]) segs) end.

Definition ends_with_slash (p : string) : bool := match rev (split_on [47]%nat p) with "" :: _ :: _ => true | _ => false end.

(** [cleanPath] of the router. *)
Definition cleanPath (p : string) : string :=
  if bool_decide (p = "") then "/"
  else
    let p := match p with String c _ => if is_char 47 c then p else String.append "/" p | EmptyString => p end in
    let np := path_of (clean_segments (split_on [47]%nat p) []) in
    if ends_with_slash p && negb (bool_decide (np = "/")) then String.append np "/" else np.

(** A template, segment by segment: a literal, or a variable that matches
    [[^/]+]. *)
Inductive Segment := Lit (s : string) | Var (name : string).

Fixpoint match_segments (tpl : list Segment) (segs : list string) : option (list (string * string)) :=
  match tpl, segs with
  | [], [] => Some []
  | Lit l :: tpl', s :: segs' => if bool_decide (l = s) then match_segments tpl' segs' else None
  | Var name :: tpl', s :: segs' =>
      if bool_decide (s = "") then None else cons (name, s) <$> match_segments tpl' segs'
  | _, _ => None
  end.

Definition match_path (tpl : list Segment) (path : string) : option (list (string * string)) :=
  match split_on [47]%nat path with
  | "" :: segs => match_segments tpl segs
  | _ => None
  end.

(** The handlers, over the state of the server. *)
Record Route (S : Type) := {
  rt_Template : list Segment;
  rt_Method : string;
  rt_Handler : (string -> string) -> HTTPRequest -> S -> HTTPResponse * S }.
Arguments rt_Template {S}.
Arguments rt_Method {S}.
Arguments rt_Handler {S}.

Definition plain_response (code : Z) (header : list (string * string)) (body : string) : HTTPResponse :=
  {| rs_StatusCode := code; rs_Header := header; rs_Body := inl body |}.

Definition mux_Vars (vars : list (string * string)) (name : string) : string := query_Get name vars.

(** [Router.ServeHTTP]: a path that is not clean is redirected; the first route
    of the path and the method handles the request.  Of a redirect the model has
    the status and the path. *)
Fixpoint route {S} (routes : list (Route S)) (r : HTTPRequest) (s : S) : HTTPResponse * S :=
  match routes with
  | [] => (plain_response StatusNotFound [] (String.append "404 page not found" (String (char 10) "")), s)
  | rt :: routes' =>
      match match_path (rt_Template rt) (rq_Path r) with
      | Some vars => if bool_decide (rt_Method rt = rq_Method r) then rt_Handler rt (mux_Vars vars) r s else route routes' r s
      | None => route routes' r s
      end
  end.

Definition ServeHTTP {S} (routes : list (Route S)) (r : HTTPRequest) (s : S) : HTTPResponse * S :=
  if bool_decide (cleanPath (rq_Path r) = rq_Path r) then route routes r s
  else (plain_response StatusMovedPermanently [("Location", cleanPath (rq_Path r))] "", s).

(** ** Plain names in paths *)

(** A name that is a path segment of its own: it has none of the characters that
    end a segment or a path or begin an escape, and is no dot segment. *)
Fixpoint no_special (s : string) : bool :=
  match s with
  | EmptyString => true
  | String c s' => negb (existsb (fun n => is_char n c) [47; 37; 63; 35]%nat) && no_special s'
  end.
Definition plain_name (s : string) : bool :=
  no_special s && negb (bool_decide (s = "") || bool_decide (s = ".") || bool_decide (s = "..")).

(** A path of segments without special characters is itself. *)
Fixpoint tail_of (segs : list string) : string :=
  match segs with [] => EmptyString | s :: segs' => String (char 47) (s +:+ tail_of segs') end.

Lemma path_of_tail segs : segs <> [] -> path_of segs = tail_of segs.
Proof.
  intros Hne. assert (H : forall l, sprint (flat_map (fun s => ["/"; s]) l) = tail_of l).
  { induction l as [|s l IH]; [done|]. cbn [tail_of]. by rewrite <-IH. }
  destruct segs; [done|apply H].
Qed.

Lemma is_char_ne a b c : is_char a c = true -> a <> b -> is_char b c = false.
Proof. unfold is_char. rewrite Nat.eqb_eq, Nat.eqb_neq. congruence. Qed.

Lemma no_special_app a b : no_special (a +:+ b) = no_special a && no_special b.
Proof. induction a as [|c a IH]; cbn; [done|]. by rewrite IH, andb_assoc. Qed.

(** Characters of a path: no escape, query or fragment. *)
Fixpoint path_chars (s : string) : bool :=
  match s with
  | EmptyString => true
  | String c s' => negb (is_char 37 c) && negb (is_char 63 c) && negb (is_char 35 c) && path_chars s'
  end.

Lemma path_chars_app a b : path_chars (a +:+ b) = path_chars a && path_chars b.
Proof. induction a as [|c a IH]; cbn; [done|]. by rewrite IH, !andb_assoc. Qed.

Lemma no_special_path s : no_special s = true -> path_chars s = true.
Proof.
  induction s as [|c s IH]; cbn; [done|]. rewrite !andb_true_iff, !negb_true_iff, !orb_false_iff.
  intros [(_ & -> & -> & -> & _) H]. split_and!; auto.
Qed.

Lemma tail_path_chars segs : Forall (fun s => no_special s = true) segs -> path_chars (tail_of segs) = true.
Proof.
  induction 1 as [|s segs Hs _ IH]; [done|]. cbn [tail_of].
  change (path_chars (String (char 47) (s +:+ tail_of segs))) with (path_chars (s +:+ tail_of segs)).
  by rewrite path_chars_app, no_special_path, IH.
Qed.

Lemma cut_none n s : (n = 63 \/ n = 35)%nat -> path_chars s = true -> cut n s = (s, None).
Proof.
  intros Hn. induction s as [|c s IH]; cbn; [done|]. rewrite !andb_true_iff, !negb_true_iff.
  intros [[[H1 H2] H3] H]. rewrite IH by done. destruct Hn as [-> | ->]; by rewrite ?H2, ?H3.
Qed.

Lemma unescape_none s : path_chars s = true -> unescape false s = inl s.
Proof.
  induction s as [|c s IH]; cbn; [done|]. rewrite !andb_true_iff, !negb_true_iff.
  intros [[[H1 H2] H3] H]. by rewrite H1, IH.
Qed.

Lemma parseURL_path address s : path_chars s = true -> parseURL address s = inl (s, []).
Proof.
  intros H. unfold parseURL. rewrite (cut_none 35 s) by auto. rewrite (cut_none 63 s) by auto. by rewrite unescape_none.
Qed.

Lemma split_name s rest : no_special s = true ->
  split_on [47]%nat (s +:+ rest) = match split_on [47]%nat rest with h :: t => (s +:+ h) :: t | [] => [s] end.
Proof.
  intros Hs. induction s as [|c s IH]; cbn.
  - destruct (split_on [47]%nat rest) eqn:E; [|done]. destruct rest as [|c r]; cbn in E; [done|].
    destruct (is_char 47 c || false); [done|]. by destruct (split_on _ r).
  - cbn in Hs. rewrite !andb_true_iff, !negb_true_iff, !orb_false_iff in Hs. destruct Hs as [(H47 & _) Hs].
    rewrite H47, IH by done. cbn. by destruct (split_on [47]%nat rest).
Qed.

Lemma split_tail segs : Forall (fun s => no_special s = true) segs -> segs <> [] ->
  split_on [47]%nat (tail_of segs) = "" :: segs.
Proof.
  intros H _. assert (Hgen : forall segs, Forall (fun s => no_special s = true) segs -> split_on [47]%nat (tail_of segs) = "" :: segs); [|auto].
  clear. induction 1 as [|s segs Hs _ IH]; [done|]. cbn [tail_of].
  change (split_on [47]%nat (String (char 47) (s +:+ tail_of segs))) with ("" :: split_on [47]%nat (s +:+ tail_of segs)).
  rewrite split_name, IH by done. by rewrite sapp_nil.
Qed.

Lemma clean_plain segs done : Forall (fun s => plain_name s = true) segs -> clean_segments segs done = rev done ++ segs.
Proof.
  intros H. revert done. induction H as [|s segs Hs _ IH]; intros done; cbn; [by rewrite app_nil_r|].
  unfold plain_name in Hs. rewrite andb_true_iff, negb_true_iff, !orb_false_iff in Hs. destruct Hs as [_ [[-> ->] ->]]. cbn.
  rewrite IH. cbn. by rewrite <-app_assoc.
Qed.

Lemma plain_special s : plain_name s = true -> no_special s = true.
Proof. unfold plain_name. by rewrite andb_true_iff; intros [? _]. Qed.

Lemma ends_with_slash_tail segs : Forall (fun s => plain_name s = true) segs -> segs <> [] -> ends_with_slash (tail_of segs) = false.
Proof.
  intros H Hne. unfold ends_with_slash.
  rewrite split_tail by (done || (eapply List.Forall_impl; [|exact H]; apply plain_special)). cbn.
  destruct (exists_last Hne) as (l & x & ->). rewrite rev_app_distr. cbn.
  apply Forall_app in H as [_ Hx]. apply List.Forall_cons_iff in Hx as [Hx _]. by destruct x.
Qed.

Lemma cleanPath_plain segs : Forall (fun s => plain_name s = true) segs -> segs <> [] -> cleanPath (tail_of segs) = tail_of segs.
Proof.
  intros H Hne. pose proof (ends_with_slash_tail segs H Hne) as He.
  assert (Hs : split_on [47]%nat (tail_of segs) = "" :: segs).
  { apply split_tail; [|done]. eapply List.Forall_impl; [|exact H]. apply plain_special. }
  unfold cleanPath. destruct segs as [|s segs]; [done|]. cbn [tail_of] in *.
  rewrite bool_decide_eq_false_2 by done.
  change (is_char 47 (char 47)) with true. cbv zeta iota. rewrite Hs, He. cbn [andb].
  change (clean_segments ("" :: s :: segs) []) with (clean_segments (s :: segs) []).
  rewrite (clean_plain (s :: segs) []) by done. cbn [rev app]. by rewrite path_of_tail.
Qed.

Lemma match_path_tail tpl segs : Forall (fun s => no_special s = true) segs -> segs <> [] ->
  match_path tpl (tail_of segs) = match_segments tpl segs.
Proof. intros H Hne. unfold match_path. by rewrite split_tail. Qed.
