(* ===== verification/OSBClient.v ===== *)
(** * The Open Service Broker client

    [contrib/pkg/brokerapi/openservicebroker/open_service_broker_client.go].
    The calls run in the effect monad over what is at the other end of the
    network; the trace is the list of requests that were sent, each with its
    answer.  [Do] is the HTTP client, redirects and timeouts included;
    [address_error] is what [url.Parse] finds wrong with the address of a
    broker.  An address has no query and no fragment.  Everything these calls
    marshal is a JSON value, so [json.Marshal] does not fail. *)

From stdpp Require Import gmap strings list.
From S2P Require Import Prelude Types Json JsonText BrokerAPI Http.

Local Open Scope go_scope.

(** A request that was sent, and its answer. *)
Definition Exchange : Type := HTTPRequest * (HTTPResponse + error).

Class HTTPClient (W : Type) := {
  Do : HTTPRequest -> W -> (HTTPResponse + error) * W;
  address_error : string -> option error }.

(** ** Errors *)

Definition errConflict : error := PlainError "Service instance with same id but different attributes exists".
Definition errBindingConflict : error :=
  PlainError "Service binding with same service instance id and binding id already exists".
Definition errBindingGone : error := PlainError "There is no binding with the specified service instance id and binding id".
Definition errAsynchronous : error := PlainError "ServiceBroker only supports this action asynchronously".
Definition errRequest (message : string) : error := PlainError (sprint ["Failed to send request: "; message]).
Definition errResponse (message : string) : error := PlainError (sprint ["Failed to parse broker response: "; message]).
Definition errStatusCode (statusCode : Z) : error :=
  PlainError (sprint ["Unexpected status code from broker response: "; itoa statusCode]).

(** ** Addresses *)

(** [strings.TrimRight(url, "/")] *)
Fixpoint TrimRight (s : string) : string :=
  match s with
  | EmptyString => EmptyString
  | String c s' =>
      match TrimRight s' with
      | EmptyString => if is_char 47 c then EmptyString else String c EmptyString
      | t => String c t
      end
  end.

(** What the format strings put after the address. *)
Definition catalogTarget : string := "/v2/catalog".
Definition serviceInstanceTarget (ID : string) : string := sprint ["/v2/service_instances/"; ID].
Definition pollingTarget (ID : string) : string := sprint ["/v2/service_instances/"; ID; "/last_operation"].
Definition bindingTarget (instanceID bindingID : string) : string :=
  sprint ["/v2/service_instances/"; instanceID; "/service_bindings/"; bindingID].

Definition APIVersionHeader : string := "X-Broker-Api-Version".
Definition APIVersion : string := "2.11".

Record openServiceBrokerClient := { oc_name : string; oc_url : string; oc_username : string; oc_password : string }.

Section client.
Context {J : JsonDecoding} {W : Type} {H : HTTPClient W}.
Local Notation M := (M W Exchange).

Definition send (r : HTTPRequest) : M (HTTPResponse + error) := call (fun a => [(r, a)]) (Do r).

(** The query parameters are a Go map; they have different names, so the order
    in which they are set does not show. *)
Definition newOSBRequest (c : openServiceBrokerClient) (method target : string)
    (queryParams : option (list (string * string))) (body : option string) : HTTPRequest + error :=
  match address_error (oc_url c) with
  | Some err => inr err
  | None =>
      match parseURL (oc_url c) target with
      | inr err => inr err
      | inl (path, q) =>
          inl {| rq_Method := method; rq_Address := oc_url c; rq_Path := path;
                 rq_Query := match queryParams with
                             | None => q
                             | Some ps => foldr (fun p q => query_Set (fst p) (snd p) q) q ps
                             end;
                 rq_Header := match body with None => [] | Some _ => [("Content-Type", "application/json")] end
                              ++ [(APIVersionHeader, APIVersion)];
                 rq_BasicAuth := Some (oc_username c, oc_password c);
                 rq_Body := body |}
      end
  end.

Definition sendOSBRequest (c : openServiceBrokerClient) (method target : string) (queryParams : option (list (string * string)))
    (object : json) : M (option HTTPResponse * option error) :=
  let data := encode object in
  match newOSBRequest c method target queryParams (Some data) with
  | inr err => ret (None, Some (PlainError (sprint ["Failed to create request object: "; Error err])))
  | inl req =>
      a <- send req ;;
      match a with
      | inr err => ret (None, Some (PlainError (sprint ["Failed to send request: "; Error err])))
      | inl resp => ret (Some resp, None)
      end
  end.

Definition format_bool (b : bool) : string := if b then "true" else "false".

Definition GetCatalog (c : openServiceBrokerClient) : M (option Catalog * option error) :=
  match newOSBRequest c "GET" catalogTarget None None with
  | inr err => ret (None, Some err)
  | inl req =>
      a <- send req ;;
      match a with
      | inr err => ret (None, Some err)
      | inl resp =>
          match ResponseBodyToObject "brokerapi.Catalog" resp Catalog_codec with
          | inr err => ret (None, Some err)
          | inl catalog => ret (Some catalog, None)
          end
      end
  end.

Definition CreateServiceInstance (c : openServiceBrokerClient) (ID : string) (req : CreateServiceInstanceRequest) :
    M (option CreateServiceInstanceResponse * Z * option error) :=
  sent <- sendOSBRequest c "PUT" (serviceInstanceTarget ID)
                    (Some [("accepts_incomplete", format_bool (csi_AcceptsIncomplete req))])
                    (enc CreateServiceInstanceRequest_codec req) ;;
  let '(resp, err) := sent in
  match err with
  | Some err =>
      let errReq := errRequest (Error err) in
      match resp with
      | None => ret (None, 0, Some errReq)
      | Some resp => ret (None, rs_StatusCode resp, Some errReq)
      end
  | None =>
      resp <- deref resp ;;
      let code := rs_StatusCode resp in
      match ResponseBodyToObject "brokerapi.CreateServiceInstanceResponse" resp CreateServiceInstanceResponse_codec with
      | inr err => ret (None, code, Some (errResponse (Error err)))
      | inl response =>
          if (code =? StatusCreated) || (code =? StatusOK) || (code =? StatusAccepted) then ret (Some response, code, None)
          else if code =? StatusConflict then ret (None, code, Some errConflict)
          else if code =? StatusUnprocessableEntity then ret (None, code, Some errAsynchronous)
          else ret (None, code, Some (errStatusCode code))
      end
  end.

Definition UpdateServiceInstance (c : openServiceBrokerClient) (ID : string) (req : CreateServiceInstanceRequest) :
    M (option ServiceInstance * Z * option error) :=
  ret (None, 0, Some (PlainError "Not implemented")).

Definition DeleteServiceInstance (c : openServiceBrokerClient) (ID : string) (req : DeleteServiceInstanceRequest) :
    M (option DeleteServiceInstanceResponse * Z * option error) :=
  sent <- sendOSBRequest c "DELETE" (serviceInstanceTarget ID)
                    (Some [("service_id", dsr_ServiceID req); ("plan_id", dsr_PlanID req);
                           ("accepts_incomplete", format_bool (dsr_AcceptsIncomplete req))])
                    (enc DeleteServiceInstanceRequest_codec req) ;;
  let '(resp, err) := sent in
  match err with
  | Some err => resp <- deref resp ;; ret (None, rs_StatusCode resp, Some (errRequest (Error err)))
  | None =>
      resp <- deref resp ;;
      let code := rs_StatusCode resp in
      match ResponseBodyToObject "brokerapi.DeleteServiceInstanceResponse" resp DeleteServiceInstanceResponse_codec with
      | inr err => ret (None, code, Some (errResponse (Error err)))
      | inl response =>
          if (code =? StatusOK) || (code =? StatusAccepted) || (code =? StatusGone) then ret (Some response, code, None)
          else if code =? StatusUnprocessableEntity then ret (Some response, code, Some errAsynchronous)
          else ret (Some response, code, Some (errStatusCode code))
      end
  end.

Definition CreateServiceBinding (c : openServiceBrokerClient) (instanceID bindingID : string) (req : BindingRequest) :
    M (option CreateServiceBindingResponse * option error) :=
  match newOSBRequest c "PUT" (bindingTarget instanceID bindingID) None (Some (Marshal BindingRequest_codec req)) with
  | inr err => ret (None, Some err)
  | inl createHTTPReq =>
      a <- send createHTTPReq ;;
      match a with
      | inr err => ret (None, Some err)
      | inl resp =>
          let code := rs_StatusCode resp in
          match ResponseBodyToObject "brokerapi.CreateServiceBindingResponse" resp CreateServiceBindingResponse_codec with
          | inr err => ret (None, Some err)
          | inl response =>
              if (code =? StatusCreated) || (code =? StatusOK) then ret (Some response, None)
              else if code =? StatusConflict then ret (None, Some errBindingConflict)
              else ret (None, Some (errStatusCode code))
          end
      end
  end.

Definition DeleteServiceBinding (c : openServiceBrokerClient) (instanceID bindingID serviceID planID : string) :
    M (option error) :=
  match newOSBRequest c "DELETE" (bindingTarget instanceID bindingID)
          (Some [("service_id", serviceID); ("plan_id", planID)]) None with
  | inr err => ret (Some err)
  | inl deleteHTTPReq =>
      a <- send deleteHTTPReq ;;
      match a with
      | inr err => ret (Some err)
      | inl resp =>
          let code := rs_StatusCode resp in
          if code =? StatusOK then ret None
          else if code =? StatusGone then ret (Some errBindingGone)
          else ret (Some (errStatusCode code))
      end
  end.

Definition PollServiceInstance (c : openServiceBrokerClient) (ID : string) (req : LastOperationRequest) :
    M (option LastOperationResponse * Z * option error) :=
  if bool_decide (lor_ServiceID req = "") then ret (None, 0, Some (PlainError "LastOperationRequest is missing service_id"))
  else if bool_decide (lor_PlanID req = "") then ret (None, 0, Some (PlainError "LastOperationRequest is missing plan_id"))
  else
    sent <- sendOSBRequest c "GET" (pollingTarget ID)
                      (Some [("service_id", lor_ServiceID req); ("plan_id", lor_PlanID req); ("operation", lor_Operation req)])
                      JNull ;;
    let '(resp, err) := sent in
    match err with
    | Some err => ret (None, 0, Some err)
    | None =>
        resp <- deref resp ;;
        let code := rs_StatusCode resp in
        if negb (code =? StatusOK) then ret (None, code, Some (errStatusCode code))
        else
          match ResponseBodyToObject "brokerapi.LastOperationResponse" resp LastOperationResponse_codec with
          | inr err => ret (None, code, Some err)
          | inl lo => ret (Some lo, code, None)
          end
    end.

Definition NewClient (name url username password : string) : BrokerClient W Exchange :=
  let c := {| oc_name := name; oc_url := TrimRight url; oc_username := username; oc_password := password |} in
  {| bc_GetCatalog := GetCatalog c; bc_CreateServiceInstance := CreateServiceInstance c;
     bc_UpdateServiceInstance := UpdateServiceInstance c; bc_DeleteServiceInstance := DeleteServiceInstance c;
     bc_PollServiceInstance := PollServiceInstance c; bc_CreateServiceBinding := CreateServiceBinding c;
     bc_DeleteServiceBinding := DeleteServiceBinding c |}.
End client.
