(* ===== verification/OSBServer.v ===== *)
(** * The Open Service Broker server

    [contrib/pkg/broker]: the HTTP server over a [controller.Controller], and the
    user-provided service broker, which is one.  A handler gets the path
    variables, the request and the state of the controller.  The server answers
    one request at a time here: the user-provided controller takes its lock for
    the whole of every operation that reads or writes its map. *)

From stdpp Require Import gmap strings list.
From S2P Require Import Prelude Types Json JsonText BrokerAPI Http.

(** ** [controller.Controller]

    Over a state; every operation returns a pointer that may be nil, or an
    error. *)
Record Controller (S : Type) := {
  ctl_Catalog : S -> (option Catalog + error) * S;
  ctl_GetServiceInstanceLastOperation : string -> string -> string -> string -> S ->
    (option LastOperationResponse + error) * S;
  ctl_CreateServiceInstance : string -> CreateServiceInstanceRequest -> S ->
    (option CreateServiceInstanceResponse + error) * S;
  ctl_RemoveServiceInstance : string -> string -> string -> bool -> S ->
    (option DeleteServiceInstanceResponse + error) * S;
  ctl_Bind : string -> string -> BindingRequest -> S -> (option CreateServiceBindingResponse + error) * S;
  ctl_UnBind : string -> string -> string -> string -> S -> option error * S }.
Arguments ctl_Catalog {S}.
Arguments ctl_GetServiceInstanceLastOperation {S}.
Arguments ctl_CreateServiceInstance {S}.
Arguments ctl_RemoveServiceInstance {S}.
Arguments ctl_Bind {S}.
Arguments ctl_UnBind {S}.

(** ** The handlers *)

Section server.
Context {J : JsonDecoding} {S : Type} (controller : Controller S).

Definition respond {T} (code : Z) (c : Codec T) (r : (option T + error) * S) : HTTPResponse * S :=
  match r with
  | (inl result, s) => (WriteResponse code (pointer c) result, s)
  | (inr err, s) => (WriteErrorResponse StatusBadRequest err, s)
  end.

Definition catalog (vars : string -> string) (r : HTTPRequest) (s : S) : HTTPResponse * S :=
  respond StatusOK Catalog_codec (ctl_Catalog controller s).

Definition getServiceInstanceLastOperation (vars : string -> string) (r : HTTPRequest) (s : S) : HTTPResponse * S :=
  let q := rq_Query r in
  respond StatusOK LastOperationResponse_codec
    (ctl_GetServiceInstanceLastOperation controller (vars "instance_id") (query_Get "service_id" q) (query_Get "plan_id" q)
       (query_Get "operation" q) s).

Definition createServiceInstance (vars : string -> string) (r : HTTPRequest) (s : S) : HTTPResponse * S :=
  match BodyToObject "brokerapi.CreateServiceInstanceRequest" r CreateServiceInstanceRequest_codec with
  | inr err => (WriteErrorResponse StatusBadRequest err, s)
  | inl req =>
      let req := match csi_Parameters req with None => csi_with_Parameters (Some ∅) req | Some _ => req end in
      respond StatusCreated CreateServiceInstanceResponse_codec
        (ctl_CreateServiceInstance controller (vars "instance_id") req s)
  end.

Definition removeServiceInstance (vars : string -> string) (r : HTTPRequest) (s : S) : HTTPResponse * S :=
  let q := rq_Query r in
  respond StatusOK DeleteServiceInstanceResponse_codec
    (ctl_RemoveServiceInstance controller (vars "instance_id") (query_Get "service_id" q) (query_Get "plan_id" q)
       (bool_decide (query_Get "accepts_incomplete" q = "true")) s).

Definition bind (vars : string -> string) (r : HTTPRequest) (s : S) : HTTPResponse * S :=
  let bindingID := vars "binding_id" in
  let instanceID := vars "instance_id" in
  match BodyToObject "brokerapi.BindingRequest" r BindingRequest_codec with
  | inr err => (WriteErrorResponse StatusBadRequest err, s)
  | inl req =>
      let parameters := default ∅ (brq_Parameters req) in
      let req := brq_with_Parameters (Some (<["instanceId" := JString instanceID]> parameters)) req in
      respond StatusOK CreateServiceBindingResponse_codec (ctl_Bind controller instanceID bindingID req s)
  end.

(** The header is set after it was written: the type the client sees is the one
    [net/http] finds in the body. *)
Definition unBind (vars : string -> string) (r : HTTPRequest) (s : S) : HTTPResponse * S :=
  let q := rq_Query r in
  match ctl_UnBind controller (vars "instance_id") (vars "binding_id") (query_Get "service_id" q) (query_Get "plan_id" q) s with
  | (None, s) => (plain_response StatusOK [("Content-Type", "text/plain; charset=utf-8")] "{}", s)
  | (Some err, s) => (WriteErrorResponse StatusBadRequest err, s)
  end.

Definition instance_path : list Segment := [Lit "v2"; Lit "service_instances"; Var "instance_id"].
Definition binding_path : list Segment := instance_path ++ [Lit "service_bindings"; Var "binding_id"].

Definition createHandler : list (Route S) :=
  [{| rt_Template := [Lit "v2"; Lit "catalog"]; rt_Method := "GET"; rt_Handler := catalog |};
   {| rt_Template := instance_path ++ [Lit "last_operation"]; rt_Method := "GET"; rt_Handler := getServiceInstanceLastOperation |};
   {| rt_Template := instance_path; rt_Method := "PUT"; rt_Handler := createServiceInstance |};
   {| rt_Template := instance_path; rt_Method := "DELETE"; rt_Handler := removeServiceInstance |};
   {| rt_Template := binding_path; rt_Method := "PUT"; rt_Handler := bind |};
   {| rt_Template := binding_path; rt_Method := "DELETE"; rt_Handler := unBind |}].
End server.

(** ** The user-provided service broker *)

Module UserProvided.
Section controller.
Context {J : JsonDecoding}.

Definition errNoSuchInstance (instanceID : string) : error := PlainError (sprint ["no such instance with ID "; instanceID]).

(** The credential is a map no operation changes once it is stored. *)
Record userProvidedServiceInstance := { Name : string; userCredential : Credential }.
Notation instanceMap := (gmap string userProvidedServiceInstance).

Definition theCatalog : Catalog :=
  {| cat_Services := Some [Some
       {| sv_Name := "user-provided-service"; sv_ID := "4f6e6cf6-ffdd-425f-a2c7-3c9258ad2468";
          sv_Description := "A user provided service"; sv_Tags := None; sv_Requires := None; sv_Bindable := true;
          sv_Metadata := JNull; sv_DashboardClient := JNull; sv_PlanUpdateable := false;
          sv_Plans := Some [
            {| pl_Name := "default"; pl_ID := "86064792-7ea2-467b-af93-ac9694d96d52";
               pl_Description := "Sample plan description"; pl_Metadata := JNull; pl_Free := true;
               pl_Bindable := None; pl_Schemas := None |}] |}] |}.

Definition Catalog_ (m : instanceMap) : (option Catalog + error) * instanceMap := (inl (Some theCatalog), m).

Definition sampleCredential : Credential :=
  Some (<["special-key-1" := JString "special-value-1"]> {["special-key-2" := JString "special-value-2"]}).

Definition CreateServiceInstance (id : string) (req : CreateServiceInstanceRequest) (m : instanceMap) :
    (option CreateServiceInstanceResponse + error) * instanceMap :=
  let created := inl (Some (zero CreateServiceInstanceResponse_codec)) in
  match default ∅ (csi_Parameters req) !! "credentials" with
  | Some credString =>
      let jsonCred := encode credString in
      match Unmarshal "brokerapi.Credential" map_codec jsonCred None with
      | inr err => (inr err, m)
      | inl cred => (created, <[id := {| Name := id; userCredential := cred |}]> m)
      end
  | None => (created, <[id := {| Name := id; userCredential := sampleCredential |}]> m)
  end.

Definition GetServiceInstanceLastOperation (instanceID serviceID planID operation : string) (m : instanceMap) :
    (option LastOperationResponse + error) * instanceMap :=
  (inr (PlainError "Unimplemented"), m).

Definition RemoveServiceInstance (instanceID serviceID planID : string) (acceptsIncomplete : bool) (m : instanceMap) :
    (option DeleteServiceInstanceResponse + error) * instanceMap :=
  match m !! instanceID with
  | Some _ => (inl (Some (zero DeleteServiceInstanceResponse_codec)), delete instanceID m)
  | None => (inl (Some (zero DeleteServiceInstanceResponse_codec)), m)
  end.

Definition Bind (instanceID bindingID : string) (req : BindingRequest) (m : instanceMap) :
    (option CreateServiceBindingResponse + error) * instanceMap :=
  match m !! instanceID with
  | None => (inr (errNoSuchInstance instanceID), m)
  | Some instance => (inl (Some {| csb_Credentials := userCredential instance |}), m)
  end.

Definition UnBind (instanceID bindingID serviceID planID : string) (m : instanceMap) : option error * instanceMap := (None, m).

Definition CreateController : Controller instanceMap :=
  {| ctl_Catalog := Catalog_; ctl_GetServiceInstanceLastOperation := GetServiceInstanceLastOperation;
     ctl_CreateServiceInstance := CreateServiceInstance; ctl_RemoveServiceInstance := RemoveServiceInstance;
     ctl_Bind := Bind; ctl_UnBind := UnBind |}.
End controller.
End UserProvided.
