(* ===== verification/OSBRefinement.v ===== *)
(** * The client and the server together

    A client of [OSBClient] whose requests reach a server of [OSBServer]: every
    call is the operation of the controller behind the server, with the changes
    the wire makes to requests and replies written out as [direct].  Then the
    user-provided service broker is used through its client. *)

From stdpp Require Import gmap strings list.
From S2P Require Import Prelude Types Json JsonText BrokerAPI Http OSBClient OSBServer.

#[local] Arguments String.append !_ _ / : simpl nomatch.

(** ** Calls and replies *)

Inductive Call :=
| CGetCatalog
| CCreateServiceInstance (ID : string) (req : CreateServiceInstanceRequest)
| CDeleteServiceInstance (ID : string) (req : DeleteServiceInstanceRequest)
| CPollServiceInstance (ID : string) (req : LastOperationRequest)
| CCreateServiceBinding (instanceID bindingID : string) (req : BindingRequest)
| CDeleteServiceBinding (instanceID bindingID serviceID planID : string).

Inductive Reply :=
| RCatalog (c : option Catalog) (err : option error)
| RCreate (r : option CreateServiceInstanceResponse) (code : Z) (err : option error)
| RDelete (r : option DeleteServiceInstanceResponse) (code : Z) (err : option error)
| RPoll (r : option LastOperationResponse) (code : Z) (err : option error)
| RBind (r : option CreateServiceBindingResponse) (err : option error)
| RUnbind (err : option error).

(** A call through a client. *)
Definition client_call {W Eff} (cl : BrokerClient W Eff) (c : Call) : M W Eff Reply :=
  match c with
  | CGetCatalog => Prelude.bind (bc_GetCatalog _ _ cl) (fun '(c, err) => ret (RCatalog c err))
  | CCreateServiceInstance ID req =>
      Prelude.bind (bc_CreateServiceInstance _ _ cl ID req) (fun '(r, code, err) => ret (RCreate r code err))
  | CDeleteServiceInstance ID req =>
      Prelude.bind (bc_DeleteServiceInstance _ _ cl ID req) (fun '(r, code, err) => ret (RDelete r code err))
  | CPollServiceInstance ID req =>
      Prelude.bind (bc_PollServiceInstance _ _ cl ID req) (fun '(r, code, err) => ret (RPoll r code err))
  | CCreateServiceBinding i b req =>
      Prelude.bind (bc_CreateServiceBinding _ _ cl i b req) (fun '(r, err) => ret (RBind r err))
  | CDeleteServiceBinding i b sid pid =>
      Prelude.bind (bc_DeleteServiceBinding _ _ cl i b sid pid) (fun err => ret (RUnbind err))
  end.

(** Calls one after the other; a panic ends them. *)
Fixpoint client_calls {W Eff} (cl : BrokerClient W Eff) (cs : list Call) : M W Eff (list Reply) :=
  match cs with
  | [] => ret []
  | c :: cs' => Prelude.bind (client_call cl c) (fun r => Prelude.bind (client_calls cl cs') (fun rs => ret (r :: rs)))
  end.

Definition run_of {W Eff A} (m : M W Eff A) (w : W) : outcome A * W := fst (m w).

Section rpc.
Context {J : JsonDecoding} {S : Type} (ctl : Controller S).

(** The server is reached whatever its address. *)
Instance network : HTTPClient S :=
  {| Do r s := let '(resp, s') := ServeHTTP (createHandler ctl) r s in (inl resp, s'); address_error _ := None |}.

(** ** What the wire makes of a call

    An empty map in an optional field is not sent; the handlers make a map for
    the parameters and put the instance's id into a binding's.  Of an error of
    the controller nothing arrives but the status code, and of an error of
    [Catalog] not even that. *)
Definition nil_if_empty (t : option (gmap string json)) : option (gmap string json) :=
  if bool_decide (default ∅ t = ∅) then None else t.

Definition received_create (req : CreateServiceInstanceRequest) : CreateServiceInstanceRequest :=
  csi_with_Parameters (Some (default ∅ (csi_Parameters req))) req.
Definition received_bind (instanceID : string) (req : BindingRequest) : BindingRequest :=
  {| brq_AppGUID := brq_AppGUID req; brq_PlanID := brq_PlanID req; brq_ServiceID := brq_ServiceID req;
     brq_BindResource := nil_if_empty (brq_BindResource req);
     brq_Parameters := Some (<["instanceId" := JString instanceID]> (default ∅ (brq_Parameters req))) |}.

Definition refused : option error := Some (errStatusCode StatusBadRequest).

Definition direct (c : Call) (s : S) : Reply * S :=
  match c with
  | CGetCatalog =>
      match ctl_Catalog ctl s with
      | (inl r, s') => (RCatalog (Some (default (zero Catalog_codec) r)) None, s')
      | (inr _, s') => (RCatalog (Some (zero Catalog_codec)) None, s')
      end
  | CCreateServiceInstance ID req =>
      match ctl_CreateServiceInstance ctl ID (received_create req) s with
      | (inl r, s') => (RCreate (Some (default (zero CreateServiceInstanceResponse_codec) r)) StatusCreated None, s')
      | (inr _, s') => (RCreate None StatusBadRequest refused, s')
      end
  | CDeleteServiceInstance ID req =>
      match ctl_RemoveServiceInstance ctl ID (dsr_ServiceID req) (dsr_PlanID req) (dsr_AcceptsIncomplete req) s with
      | (inl r, s') => (RDelete (Some (default (zero DeleteServiceInstanceResponse_codec) r)) StatusOK None, s')
      | (inr _, s') => (RDelete (Some (zero DeleteServiceInstanceResponse_codec)) StatusBadRequest refused, s')
      end
  | CPollServiceInstance ID req =>
      if bool_decide (lor_ServiceID req = "") then (RPoll None 0 (Some (PlainError "LastOperationRequest is missing service_id")), s)
      else if bool_decide (lor_PlanID req = "") then (RPoll None 0 (Some (PlainError "LastOperationRequest is missing plan_id")), s)
      else
        match ctl_GetServiceInstanceLastOperation ctl ID (lor_ServiceID req) (lor_PlanID req) (lor_Operation req) s with
        | (inl r, s') => (RPoll (Some (default (zero LastOperationResponse_codec) r)) StatusOK None, s')
        | (inr _, s') => (RPoll None StatusBadRequest refused, s')
        end
  | CCreateServiceBinding i b req =>
      match ctl_Bind ctl i b (received_bind i req) s with
      | (inl r, s') => (RBind (Some (default (zero CreateServiceBindingResponse_codec) r)) None, s')
      | (inr _, s') => (RBind None refused, s')
      end
  | CDeleteServiceBinding i b sid pid =>
      match ctl_UnBind ctl i b sid pid s with
      | (None, s') => (RUnbind None, s')
      | (Some _, s') => (RUnbind refused, s')
      end
  end.

Fixpoint direct_calls (cs : list Call) (s : S) : list Reply * S :=
  match cs with
  | [] => ([], s)
  | c :: cs' => let '(r, s1) := direct c s in let '(rs, s2) := direct_calls cs' s1 in (r :: rs, s2)
  end.

(** A call the wire carries: ids that are path segments of their own, and values
    that JSON decoding leaves as they are. *)
Definition exact_params (t : option (gmap string json)) : Prop := exact_map (default ∅ t).
Definition carried (c : Call) : Prop :=
  match c with
  | CGetCatalog => True
  | CCreateServiceInstance ID req => plain_name ID = true /\ exact_params (csi_Parameters req)
  | CDeleteServiceInstance ID _ | CPollServiceInstance ID _ => plain_name ID = true
  | CCreateServiceBinding i b req =>
      plain_name i = true /\ plain_name b = true /\ exact_params (brq_BindResource req) /\ exact_params (brq_Parameters req)
  | CDeleteServiceBinding i b _ _ => plain_name i = true /\ plain_name b = true
  end.

(** What a controller that is used through the wire answers with, in the states
    it gets into: replies that JSON carries. *)
Class Presentable (ok : S -> Prop) := {
  presentable_step c s : ok s -> carried c -> ok (snd (direct c s));
  presentable_catalog s c : ok s -> fst (ctl_Catalog ctl s) = inl (Some c) -> catalog_exact c;
  presentable_bind i b req s r m : ok s -> fst (ctl_Bind ctl i b req s) = inl (Some r) -> csb_Credentials r = Some m -> exact_map m }.

(** ** Reading what the server writes *)

Lemma ErrorBody_survives o e : survives o ErrorBody_codec e.
Proof. struct_survives. Qed.

Lemma read_error {T} typ code err (c : Codec T) :
  (forall m, dec c (JObject [("Error", JString m)]) (zero c) = Some (zero c)) ->
  ResponseBodyToObject typ (WriteErrorResponse code err) c = inl (zero c).
Proof.
  intros Hf. unfold ResponseBodyToObject, WriteErrorResponse, WriteResponse, Unmarshal, Marshal. cbn [rs_Body].
  destruct (ErrorBody_survives false {| eb_Error := Error err |}) as [Hp _]. rewrite parse_encode by exact Hp.
  change (enc ErrorBody_codec _) with (JObject [("Error", JString (Error err))]). by rewrite Hf.
Qed.

Lemma read_result {T} typ code (c : Codec T) r :
  dec c JNull (zero c) = Some (zero c) -> (forall x, r = Some x -> survives false c x) ->
  ResponseBodyToObject typ (WriteResponse code (pointer c) r) c = inl (default (zero c) r).
Proof.
  intros Hz Hs. unfold ResponseBodyToObject, WriteResponse. cbn [rs_Body]. destruct r as [x|].
  - apply (wire_survives false typ c x (Hs x eq_refl)).
  - unfold Unmarshal, Marshal. cbn [enc pointer]. rewrite parse_encode by done. by rewrite Hz.
Qed.

(** ** Reading what the client writes *)

Lemma nil_if_empty_sendable t : exact_params t -> sendable (nil_if_empty t).
Proof.
  unfold nil_if_empty. intros H m. case_bool_decide as E; [done|]. intros ->. by split.
Qed.

Lemma map_omitted t : empty_value map_codec (nil_if_empty t) = empty_value map_codec t /\
  (empty_value map_codec t = false -> nil_if_empty t = t).
Proof.
  unfold nil_if_empty. cbn [empty_value map_codec]. destruct (bool_decide (default ∅ t = ∅)) eqn:E; [|by rewrite E].
  by split.
Qed.

Lemma field_nil_if_empty {T} name get (set : _ -> T -> T) (s s' : T) :
  get s' = nil_if_empty (get s) ->
  f_enc (field name true map_codec get set) s = f_enc (field name true map_codec get set) s'.
Proof.
  intros Hg. destruct (map_omitted (get s)) as [H1 H2]. cbn -[map_codec]. rewrite Hg, H1.
  destruct (empty_value map_codec (get s)); [done|]. by rewrite H2.
Qed.

Lemma default_nil_if_empty t : default ∅ (nil_if_empty t) = default ∅ t.
Proof. unfold nil_if_empty. by case_bool_decide as E; [rewrite E|]. Qed.

Lemma read_create_request r req : exact_params (csi_Parameters req) ->
  rq_Body r = Some (encode (enc CreateServiceInstanceRequest_codec req)) ->
  BodyToObject "brokerapi.CreateServiceInstanceRequest" r CreateServiceInstanceRequest_codec =
  inl (csi_with_Parameters (nil_if_empty (csi_Parameters req)) req).
Proof.
  intros He Hb. unfold BodyToObject. rewrite Hb. cbn [default].
  set (req' := csi_with_Parameters (nil_if_empty (csi_Parameters req)) req).
  assert (Henc : enc CreateServiceInstanceRequest_codec req = enc CreateServiceInstanceRequest_codec req').
  { cbn [enc struct CreateServiceInstanceRequest_codec]. unfold enc_members. cbn [omap list_omap].
    by rewrite (field_nil_if_empty "parameters" csi_Parameters _ req req'). }
  rewrite Henc. apply (wire_survives false), CreateServiceInstanceRequest_survives. by apply nil_if_empty_sendable.
Qed.

Lemma read_bind_request r req : exact_params (brq_BindResource req) -> exact_params (brq_Parameters req) ->
  rq_Body r = Some (Marshal BindingRequest_codec req) ->
  BodyToObject "brokerapi.BindingRequest" r BindingRequest_codec =
  inl (Build_BindingRequest (brq_AppGUID req) (brq_PlanID req) (brq_ServiceID req)
         (nil_if_empty (brq_BindResource req)) (nil_if_empty (brq_Parameters req))).
Proof.
  intros H1 H2 Hb. unfold BodyToObject. rewrite Hb. cbn [default].
  set (req' := Build_BindingRequest _ _ _ _ _).
  assert (Henc : enc BindingRequest_codec req = enc BindingRequest_codec req').
  { cbn [enc struct BindingRequest_codec]. unfold enc_members. cbn [omap list_omap].
    rewrite (field_nil_if_empty "bind_resource" brq_BindResource _ req req') by done.
    by rewrite (field_nil_if_empty "parameters" brq_Parameters _ req req'). }
  unfold Marshal. rewrite Henc. apply (wire_survives false), BindingRequest_survives; by apply nil_if_empty_sendable.
Qed.

(** ** Routing *)

(** The request a call makes. *)
Definition request_of (c : openServiceBrokerClient) (method : string) (segs : list string)
    (ps : option (list (string * string))) (body : option string) : HTTPRequest :=
  {| rq_Method := method; rq_Address := oc_url c; rq_Path := tail_of segs;
     rq_Query := match ps with None => [] | Some ps => foldr (fun p q => query_Set (fst p) (snd p) q) [] ps end;
     rq_Header := match body with None => [] | Some _ => [("Content-Type", "application/json")] end
                  ++ [(APIVersionHeader, APIVersion)];
     rq_BasicAuth := Some (oc_username c, oc_password c); rq_Body := body |}.

Lemma newOSBRequest_path c method target segs ps body :
  target = tail_of segs -> Forall (fun s => plain_name s = true) segs ->
  newOSBRequest c method target ps body = inl (request_of c method segs ps body).
Proof.
  intros -> H. unfold newOSBRequest. cbn [address_error network]. rewrite parseURL_path; [done|].
  apply tail_path_chars. eapply List.Forall_impl; [|exact H]. apply plain_special.
Qed.

(** The handler of a path and a method. *)
Fixpoint handler_of (routes : list (Route S)) (method : string) (segs : list string) :
    option (HTTPRequest -> S -> HTTPResponse * S) :=
  match routes with
  | [] => None
  | rt :: routes' =>
      match match_segments (rt_Template rt) segs with
      | Some vars =>
          if bool_decide (rt_Method rt = method) then Some (rt_Handler rt (mux_Vars vars)) else handler_of routes' method segs
      | None => handler_of routes' method segs
      end
  end.

Lemma ServeHTTP_handler routes r segs s h :
  rq_Path r = tail_of segs -> Forall (fun s => plain_name s = true) segs -> segs <> [] ->
  handler_of routes (rq_Method r) segs = Some h -> ServeHTTP routes r s = h r s.
Proof.
  intros Hp H Hne Ha. unfold ServeHTTP. rewrite Hp, cleanPath_plain, bool_decide_eq_true_2 by done.
  induction routes as [|rt routes IH]; [done|]. cbn in *.
  rewrite Hp, match_path_tail by (done || (eapply List.Forall_impl; [|exact H]; apply plain_special)).
  destruct (match_segments _ _); [|by apply IH]. case_bool_decide; [by injection Ha as <-|by apply IH].
Qed.

(** ** One call *)

Context (ok : S -> Prop) {P : Presentable ok} (name url username password : string).
Let cl := NewClient name url username password.

Definition refines (c : Call) (s : S) : Prop :=
  run_of (client_call cl c) s = (Ok (fst (direct c s)), snd (direct c s)).

Lemma target_instance ID : serviceInstanceTarget ID = tail_of ["v2"; "service_instances"; ID].
Proof. cbn. by rewrite !sapp_nil. Qed.
Lemma target_polling ID : pollingTarget ID = tail_of ["v2"; "service_instances"; ID; "last_operation"].
Proof. done. Qed.
Lemma target_binding i b : bindingTarget i b = tail_of ["v2"; "service_instances"; i; "service_bindings"; b].
Proof. cbn. by rewrite !sapp_nil. Qed.

Lemma plain_nonempty s : plain_name s = true -> bool_decide (s = "") = false.
Proof. intros Hs. apply bool_decide_eq_false. by intros ->. Qed.

Lemma outcome_bind {A B} (m : M S Exchange A) (k : A -> M S Exchange B) s :
  run_of (Prelude.bind m k) s =
  match run_of m s with (Ok a, s') => run_of (k a) s' | (Err e, s') => (Err e, s') | (Panic, s') => (Panic, s') end.
Proof.
  unfold run_of, Prelude.bind. destruct (m s) as [[[a|e|] s'] t]; cbn; [|done..]. by destruct (k a s') as [[o s''] t'].
Qed.

(** [routed target segs method h]: requests of the method to the target are
    handled by [h]. *)
Definition routed (target : string) (segs : list string) (method : string) (h : HTTPRequest -> S -> HTTPResponse * S) : Prop :=
  target = tail_of segs /\ Forall (fun s => plain_name s = true) segs /\ segs <> [] /\
  handler_of (createHandler ctl) method segs = Some h.

Ltac routed :=
  split_and!; [by rewrite ?target_instance, ?target_polling, ?target_binding| |done|];
  [repeat (constructor; [done|]); constructor|cbn; rewrite ?plain_nonempty by done; reflexivity].

Lemma routed_catalog : routed catalogTarget ["v2"; "catalog"] "GET" (catalog ctl (mux_Vars [])).
Proof. routed. Qed.
Lemma routed_last_operation ID : plain_name ID = true ->
  routed (pollingTarget ID) ["v2"; "service_instances"; ID; "last_operation"] "GET"
    (getServiceInstanceLastOperation ctl (mux_Vars [("instance_id", ID)])).
Proof. intros H. routed. Qed.
Lemma routed_create ID : plain_name ID = true ->
  routed (serviceInstanceTarget ID) ["v2"; "service_instances"; ID] "PUT"
    (createServiceInstance ctl (mux_Vars [("instance_id", ID)])).
Proof. intros H. routed. Qed.
Lemma routed_remove ID : plain_name ID = true ->
  routed (serviceInstanceTarget ID) ["v2"; "service_instances"; ID] "DELETE"
    (removeServiceInstance ctl (mux_Vars [("instance_id", ID)])).
Proof. intros H. routed. Qed.
Lemma routed_bind i b : plain_name i = true -> plain_name b = true ->
  routed (bindingTarget i b) ["v2"; "service_instances"; i; "service_bindings"; b] "PUT"
    (bind ctl (mux_Vars [("instance_id", i); ("binding_id", b)])).
Proof. intros H1 H2. routed. Qed.
Lemma routed_unbind i b : plain_name i = true -> plain_name b = true ->
  routed (bindingTarget i b) ["v2"; "service_instances"; i; "service_bindings"; b] "DELETE"
    (unBind ctl (mux_Vars [("instance_id", i); ("binding_id", b)])).
Proof. intros H1 H2. routed. Qed.

Lemma outcome_send c target method segs ps body s h : routed target segs method h ->
  newOSBRequest c method target ps body = inl (request_of c method segs ps body) /\
  run_of (send (request_of c method segs ps body)) s =
    (Ok (inl (fst (h (request_of c method segs ps body) s))), snd (h (request_of c method segs ps body) s)).
Proof.
  intros (Ht & Hs & Hne & Hh). split; [by apply newOSBRequest_path|].
  unfold run_of, send, call. cbn [Do network].
  rewrite (ServeHTTP_handler _ (request_of c method segs ps body) segs s h) by done. by destruct (h _ s).
Qed.

Lemma outcome_sendOSBRequest c method target segs ps object s h : routed target segs method h ->
  run_of (sendOSBRequest c method target ps object) s =
    (Ok (Some (fst (h (request_of c method segs ps (Some (encode object))) s)), None),
     snd (h (request_of c method segs ps (Some (encode object))) s)).
Proof.
  intros Hr. unfold sendOSBRequest. destruct (outcome_send c target method segs ps (Some (encode object)) s h Hr) as [-> Hs].
  by rewrite outcome_bind, Hs.
Qed.

(** *** The handlers on requests of the client *)

Lemma create_handled vars r req s : exact_params (csi_Parameters req) ->
  rq_Body r = Some (encode (enc CreateServiceInstanceRequest_codec req)) ->
  createServiceInstance ctl vars r s =
  respond StatusCreated CreateServiceInstanceResponse_codec (ctl_CreateServiceInstance ctl (vars "instance_id") (received_create req) s).
Proof.
  intros Hp Hb. unfold createServiceInstance. rewrite (read_create_request _ req Hp Hb). do 2 f_equal.
  unfold received_create. cbn. rewrite <-(default_nil_if_empty (csi_Parameters req)). by destruct (nil_if_empty _).
Qed.

Lemma bind_handled vars r req s : exact_params (brq_BindResource req) -> exact_params (brq_Parameters req) ->
  rq_Body r = Some (Marshal BindingRequest_codec req) ->
  bind ctl vars r s =
  respond StatusOK CreateServiceBindingResponse_codec
    (ctl_Bind ctl (vars "instance_id") (vars "binding_id") (received_bind (vars "instance_id") req) s).
Proof.
  intros H1 H2 Hb. unfold bind. rewrite (read_bind_request _ req H1 H2 Hb). cbn. by rewrite default_nil_if_empty.
Qed.

(** The client reads what [respond] wrote. *)
Ltac reply :=
  cbn [respond fst snd deref]; rewrite ?outcome_bind;
  cbn -[ResponseBodyToObject WriteResponse WriteErrorResponse Catalog_codec CreateServiceInstanceResponse_codec
        DeleteServiceInstanceResponse_codec LastOperationResponse_codec CreateServiceBindingResponse_codec];
  first [rewrite read_result by (done || eauto) | rewrite read_error by done | idtac]; done.

Lemma catalog_refines s : ok s -> refines CGetCatalog s.
Proof.
  intros Hs. unfold refines. cbn [client_call cl NewClient bc_GetCatalog direct].
  rewrite outcome_bind. unfold GetCatalog.
  destruct (outcome_send {| oc_name := name; oc_url := TrimRight url; oc_username := username; oc_password := password |}
    _ _ _ None None s _ routed_catalog) as [-> Ha]. rewrite outcome_bind, Ha. clear Ha. unfold catalog.
  pose proof (presentable_catalog s) as Hc.
  destruct (ctl_Catalog ctl s) as [[r|err] s1]; [|reply].
  assert (forall x, r = Some x -> survives false Catalog_codec x)
    by (intros x ->; apply Catalog_survives, (Hc _ Hs eq_refl)).
  reply.
Qed.

Lemma create_refines ID req s : carried (CCreateServiceInstance ID req) -> refines (CCreateServiceInstance ID req) s.
Proof.
  intros [Hid Hp]. unfold refines. cbn [client_call cl NewClient bc_CreateServiceInstance direct].
  rewrite outcome_bind. unfold CreateServiceInstance.
  rewrite outcome_bind, (outcome_sendOSBRequest _ _ _ _ _ _ _ _ (routed_create ID Hid)), (create_handled _ _ req) by done.
  change (mux_Vars [("instance_id", ID)] "instance_id") with ID.
  pose proof CreateServiceInstanceResponse_survives.
  destruct (ctl_CreateServiceInstance ctl ID (received_create req) s) as [[r|err] s1]; reply.
Qed.

Lemma delete_refines ID req s : carried (CDeleteServiceInstance ID req) -> refines (CDeleteServiceInstance ID req) s.
Proof.
  intros Hid. unfold refines. cbn [client_call cl NewClient bc_DeleteServiceInstance direct].
  rewrite outcome_bind. unfold DeleteServiceInstance.
  rewrite outcome_bind, (outcome_sendOSBRequest _ _ _ _ _ _ _ _ (routed_remove ID Hid)).
  unfold removeServiceInstance. change (mux_Vars [("instance_id", ID)] "instance_id") with ID.
  change (query_Get "service_id" _) with (dsr_ServiceID req). change (query_Get "plan_id" _) with (dsr_PlanID req).
  change (query_Get "accepts_incomplete" _) with (format_bool (dsr_AcceptsIncomplete req)).
  replace (bool_decide (format_bool (dsr_AcceptsIncomplete req) = "true")) with (dsr_AcceptsIncomplete req)
    by (by destruct (dsr_AcceptsIncomplete req)).
  pose proof DeleteServiceInstanceResponse_survives.
  destruct (ctl_RemoveServiceInstance ctl ID _ _ _ s) as [[r|err] s1]; reply.
Qed.

Lemma poll_refines ID req s : carried (CPollServiceInstance ID req) -> refines (CPollServiceInstance ID req) s.
Proof.
  intros Hid. unfold refines. cbn [client_call cl NewClient bc_PollServiceInstance direct].
  rewrite outcome_bind. unfold PollServiceInstance. case_bool_decide; [done|]. case_bool_decide; [done|].
  rewrite outcome_bind, (outcome_sendOSBRequest _ _ _ _ _ _ _ _ (routed_last_operation ID Hid)).
  unfold getServiceInstanceLastOperation. change (mux_Vars [("instance_id", ID)] "instance_id") with ID.
  change (query_Get "service_id" _) with (lor_ServiceID req). change (query_Get "plan_id" _) with (lor_PlanID req).
  change (query_Get "operation" _) with (lor_Operation req).
  pose proof LastOperationResponse_survives.
  destruct (ctl_GetServiceInstanceLastOperation ctl ID _ _ _ s) as [[r|err] s1]; reply.
Qed.

Lemma bind_refines i b req s : ok s -> carried (CCreateServiceBinding i b req) -> refines (CCreateServiceBinding i b req) s.
Proof.
  intros Hs (Hi & Hb & H1 & H2). unfold refines. cbn [client_call cl NewClient bc_CreateServiceBinding direct].
  rewrite outcome_bind. unfold CreateServiceBinding.
  destruct (outcome_send {| oc_name := name; oc_url := TrimRight url; oc_username := username; oc_password := password |}
    _ _ _ None (Some (Marshal BindingRequest_codec req)) s _ (routed_bind i b Hi Hb)) as [-> Ha].
  rewrite outcome_bind, Ha. clear Ha. rewrite (bind_handled _ _ req) by done.
  change (mux_Vars [("instance_id", i); ("binding_id", b)] "instance_id") with i.
  change (mux_Vars [("instance_id", i); ("binding_id", b)] "binding_id") with b.
  pose proof (presentable_bind i b (received_bind i req) s) as Hc.
  destruct (ctl_Bind ctl i b (received_bind i req) s) as [[r|err] s1]; [|reply].
  assert (forall x, r = Some x -> survives false CreateServiceBindingResponse_codec x)
    by (intros x ->; apply CreateServiceBindingResponse_survives; intros m; apply (Hc x m Hs eq_refl)).
  reply.
Qed.

Lemma unbind_refines i b sid pid s : carried (CDeleteServiceBinding i b sid pid) -> refines (CDeleteServiceBinding i b sid pid) s.
Proof.
  intros (Hi & Hb). unfold refines. cbn [client_call cl NewClient bc_DeleteServiceBinding direct].
  rewrite outcome_bind. unfold DeleteServiceBinding.
  destruct (outcome_send {| oc_name := name; oc_url := TrimRight url; oc_username := username; oc_password := password |}
    _ _ _ (Some [("service_id", sid); ("plan_id", pid)]) None s _ (routed_unbind i b Hi Hb)) as [-> Ha].
  rewrite outcome_bind, Ha. clear Ha. unfold unBind.
  change (mux_Vars [("instance_id", i); ("binding_id", b)] "instance_id") with i.
  change (mux_Vars [("instance_id", i); ("binding_id", b)] "binding_id") with b.
  change (query_Get "service_id" _) with sid. change (query_Get "plan_id" _) with pid.
  by destruct (ctl_UnBind ctl i b sid pid s) as [[err|] s1].
Qed.

Lemma call_refines c s : ok s -> carried c -> refines c s.
Proof.
  intros Hs Hc. destruct c;
    [by apply catalog_refines|by apply create_refines|by apply delete_refines|by apply poll_refines|by apply bind_refines|by apply unbind_refines].
Qed.

Lemma calls_refine cs s : ok s -> Forall carried cs ->
  run_of (client_calls cl cs) s = (Ok (fst (direct_calls cs s)), snd (direct_calls cs s)) /\ ok (snd (direct_calls cs s)).
Proof.
  intros Hs Hc. revert s Hs. induction Hc as [|c cs Hc _ IH]; intros s Hs; [done|].
  cbn [client_calls direct_calls]. rewrite outcome_bind. pose proof (call_refines c s Hs Hc) as Hr. unfold refines in Hr. rewrite Hr.
  pose proof (presentable_step c s Hs Hc) as H1. destruct (direct c s) as [r s1]. cbn [fst snd] in *.
  destruct (IH s1 H1) as [Ho Hok]. rewrite outcome_bind, Ho. by destruct (direct_calls cs s1) as [rs s2].
Qed.
End rpc.

(** ** The user-provided broker answers through the wire *)

Section user.
Context {J : JsonDecoding}.

(** The credentials a request asks for: those it carries, or the sample. *)
Definition credentials_of (req : CreateServiceInstanceRequest) : option Credential :=
  match default ∅ (csi_Parameters req) !! "credentials" with
  | None => Some UserProvided.sampleCredential
  | Some JNull => Some None
  | Some (JObject l) => Some (Some (list_to_map l))
  | Some _ => None
  end.

Lemma create_stores ID req m : exact_params (csi_Parameters req) ->
  UserProvided.CreateServiceInstance ID req m =
  match credentials_of req with
  | Some cred => (inl (Some (zero CreateServiceInstanceResponse_codec)),
                  <[ID := {| UserProvided.Name := ID; UserProvided.userCredential := cred |}]> m)
  | None => (inr (typeError (default JNull (default ∅ (csi_Parameters req) !! "credentials")) "brokerapi.Credential"), m)
  end.
Proof.
  intros He. unfold UserProvided.CreateServiceInstance, credentials_of.
  destruct (default ∅ (csi_Parameters req) !! "credentials") as [v|] eqn:Hv; [|done].
  destruct (exact_printable v (He _ _ Hv)) as (Hp & _ & Hd). unfold Unmarshal. rewrite parse_encode by done.
  cbn [dec map_codec]. rewrite Hd. destruct v; try done. cbn. by rewrite map_union_empty.
Qed.

Lemma credentials_exact req cred m : exact_params (csi_Parameters req) -> credentials_of req = Some cred ->
  cred = Some m -> exact_map m.
Proof.
  intros He Hc ->. unfold credentials_of in Hc. destruct (default ∅ (csi_Parameters req) !! "credentials") as [v|] eqn:Hv.
  - specialize (He _ _ Hv). destruct v as [| | | | |l]; simplify_eq. apply exact_object in He as [_ He].
    intros k v Hk. apply elem_of_list_to_map_2 in Hk. rewrite List.Forall_forall in He.
    apply list_elem_of_In in Hk. exact (He _ Hk).
  - injection Hc as [= <-]. apply map_Forall_insert_2; [done|]. by apply map_Forall_singleton.
Qed.

Definition presentable_map (m : gmap string UserProvided.userProvidedServiceInstance) : Prop :=
  map_Forall (fun _ i => forall c, UserProvided.userCredential i = Some c -> exact_map c) m.

#[export] Instance UserProvided_presentable : Presentable UserProvided.CreateController presentable_map.
Proof.
  split.
  - intros c m Hm Hc. destruct c as [|ID req|ID req|ID req|i b req|i b sid pid]; try done.
    + cbn [direct ctl_CreateServiceInstance UserProvided.CreateController]. rewrite create_stores by (destruct Hc; done).
      destruct (credentials_of (received_create req)) as [cred|] eqn:Hcr; [|done]. cbn.
      apply map_Forall_insert_2; [|done]. cbn. intros m' Hm'. eapply credentials_exact; [|exact Hcr|exact Hm']. by destruct Hc.
    + cbn. unfold UserProvided.RemoveServiceInstance. destruct (m !! ID); [|done]. by apply map_Forall_delete.
    + cbn. by repeat case_bool_decide.
    + cbn. unfold UserProvided.Bind. by destruct (m !! i).
  - intros m c _ [= <-]. intros l [= <-]. constructor; [|done]. intros s [= <-]. split_and!; try done.
    intros l [= <-]. constructor; [|done]. by split.
  - intros i b req m r cr Hm Hb Hr. cbn in Hb. unfold UserProvided.Bind in Hb.
    destruct (m !! i) as [inst|] eqn:Hi; [|done]. injection Hb as <-. exact (Hm _ _ Hi cr Hr).
Qed.
End user.
