(* ===== verification/OSBTheorems.v ===== *)
(** * Theorems on broker clients and brokers

    What the client of [OSBClient] promises over any network, the round trips of
    the messages, the refinement of [OSBRefinement] for any controller, and the
    user-provided broker as its clients see it. *)

From stdpp Require Import gmap strings list.
From S2P Require Import Prelude Types Json JsonText BrokerAPI Http OSBClient OSBServer OSBRefinement.

(** ** Samples *)

(** A decoder that keeps the text of a number. *)
#[export] Instance plainDecoding : JsonDecoding :=
  {| float_text := Some; syntaxError s := PlainError "invalid JSON"; typeError v typ := PlainError "cannot unmarshal" |}.

Module samples.
Definition secret : json := JObject [("password", JString "s3cret"); ("port", JNum "5432")].
Definition create : CreateServiceInstanceRequest :=
  {| csi_OrgID := "org"; csi_PlanID := "plan"; csi_ServiceID := "service"; csi_SpaceID := "space";
     csi_Parameters := Some {["credentials" := secret]}; csi_AcceptsIncomplete := true;
     csi_ContextProfile := {| Platform := ContextProfilePlatformKubernetes; cp_Namespace := "ns" |} |}.
Definition delete_ : DeleteServiceInstanceRequest :=
  {| dsr_ServiceID := "service"; dsr_PlanID := "plan"; dsr_AcceptsIncomplete := false |}.
Definition bind_ : BindingRequest :=
  {| brq_AppGUID := "app"; brq_PlanID := "plan"; brq_ServiceID := "service"; brq_BindResource := None; brq_Parameters := None |}.
Definition calls : list Call :=
  [CGetCatalog; CCreateServiceInstance "id-1" create; CCreateServiceBinding "id-1" "b" bind_;
   CDeleteServiceInstance "id-1" delete_; CCreateServiceBinding "id-1" "b" bind_].
(** Nothing is reached. *)
Definition unreachable : HTTPClient unit :=
  {| Do _ w := (inr (URLError false "connection refused"), w); address_error _ := None |}.

Lemma create_params : exact_params (csi_Parameters create).
Proof. apply map_Forall_singleton. cbn. by split_and!. Qed.
Lemma no_params : exact_params None.
Proof. done. Qed.
Lemma create_carried : carried (CCreateServiceInstance "id-1" create).
Proof. split; [done|apply create_params]. Qed.
Lemma calls_carried : Forall carried calls.
Proof. repeat (constructor; [first [done | apply create_carried | by split_and!]|]). constructor. Qed.
Lemma empty_presentable : presentable_map ∅.
Proof. apply map_Forall_empty. Qed.
End samples.

(** ** Messages *)

Section messages.
Context {J : JsonDecoding}.

(** The body the client sends for a create request is read by the server as
    the request, except that an empty map of parameters arrives as nil. *)
Theorem create_request_roundtrip (r : HTTPRequest) (req : CreateServiceInstanceRequest)
    (He : exact_params (csi_Parameters req)) (Hb : rq_Body r = Some (Marshal CreateServiceInstanceRequest_codec req)) :
  BodyToObject "brokerapi.CreateServiceInstanceRequest" r CreateServiceInstanceRequest_codec =
  inl (csi_with_Parameters (nil_if_empty (csi_Parameters req)) req).
Proof. exact (read_create_request r req He Hb). Qed.

(** A catalog the server writes is read by the client as the catalog. *)
Theorem catalog_roundtrip (code : Z) (c : Catalog) (Hc : catalog_exact c) :
  ResponseBodyToObject "brokerapi.Catalog" (WriteResponse code (pointer Catalog_codec) (Some c)) Catalog_codec = inl c.
Proof. apply (read_result _ _ Catalog_codec (Some c)); [done|]. intros x [= <-]. by apply Catalog_survives. Qed.
End messages.

Lemma create_request_roundtrip_witness :
  BodyToObject "brokerapi.CreateServiceInstanceRequest"
    (Build_HTTPRequest "PUT" "" "/" [] [] None (Some (Marshal CreateServiceInstanceRequest_codec samples.create)))
    CreateServiceInstanceRequest_codec = inl samples.create.
Proof. exact (create_request_roundtrip (Build_HTTPRequest "PUT" "" "/" [] [] None _) samples.create samples.create_params eq_refl). Defined.

Lemma catalog_roundtrip_witness :
  ResponseBodyToObject "brokerapi.Catalog" (WriteResponse StatusOK (pointer Catalog_codec) (Some UserProvided.theCatalog))
    Catalog_codec = inl UserProvided.theCatalog.
Proof.
  apply catalog_roundtrip.
  by apply (presentable_catalog UserProvided.CreateController ∅ UserProvided.theCatalog samples.empty_presentable).
Defined.

(** ** The client over any network *)

Section any_network.
Context {J : JsonDecoding} {W : Type} {H : HTTPClient W} (name url username password : string).
Let cl : BrokerClient W Exchange := NewClient name url username password.

Definition authenticated (r : HTTPRequest) : Prop :=
  rq_Address r = TrimRight url /\ rq_BasicAuth r = Some (username, password) /\
  (APIVersionHeader, APIVersion) ∈ rq_Header r.

(** What a trace shows of a call: nothing was sent; a request was sent and not
    answered; or it was answered. *)
Definition unsent (t : list Exchange) : Prop := t = [] \/ exists r e, t = [(r, inr e)] /\ authenticated r.
Definition answered (t : list Exchange) : Prop := exists r resp, t = [(r, inl resp)] /\ authenticated r.

Let c : openServiceBrokerClient :=
  {| oc_name := name; oc_url := TrimRight url; oc_username := username; oc_password := password |}.

Lemma newOSBRequest_authenticated method target ps body r : newOSBRequest c method target ps body = inl r -> authenticated r.
Proof.
  unfold newOSBRequest. destruct (address_error _); [done|]. destruct (parseURL _ _) as [[path q]|]; [|done].
  intros [= <-]. split_and!; try done. apply elem_of_app. right. by apply list_elem_of_singleton.
Qed.

(** What a call through the client comes to. *)
Definition call_spec (call : Call) (o : outcome Reply) (t : list Exchange) : Prop :=
  match o with
  | Ok _ => answered t \/ (unsent t /\ forall ID req, call <> CDeleteServiceInstance ID req)
  | Panic => unsent t /\ exists ID req, call = CDeleteServiceInstance ID req
  | Err _ => False
  end.

Lemma client_call_spec call : wp (client_call cl call) (call_spec call).
Proof.
  assert (Hunsent : unsent []) by by left.
  assert (Hfailed : forall r e, authenticated r -> unsent [(r, inr e)]) by (intros r e Hr; right; eauto).
  assert (Hanswered : forall r resp, authenticated r -> answered [(r, inl resp)]) by (intros r resp Hr; red; eauto).
  intros w. destruct call; cbn [client_call cl NewClient bc_GetCatalog bc_CreateServiceInstance bc_DeleteServiceInstance
    bc_PollServiceInstance bc_CreateServiceBinding bc_DeleteServiceBinding];
  unfold GetCatalog, CreateServiceInstance, DeleteServiceInstance, PollServiceInstance, CreateServiceBinding,
    DeleteServiceBinding, sendOSBRequest; repeat (case_bool_decide; [cbn; auto|]).
  all: match goal with |- context [newOSBRequest ?c ?m ?t ?ps ?b] =>
    destruct (newOSBRequest c m t ps b) as [r|e] eqn:Hr;
    [apply (newOSBRequest_authenticated m t ps b r) in Hr|clear Hr] end;
  unfold Prelude.bind, send, call; [destruct (Do r w) as [[resp|e] w']|];
  cbn -[ResponseBodyToObject Z.eqb];
  repeat (match goal with
          | |- context [ResponseBodyToObject ?typ ?resp ?c] => destruct (ResponseBodyToObject typ resp c)
          | |- context [Z.eqb ?a ?b] => destruct (Z.eqb a b)
          end; cbn -[ResponseBodyToObject Z.eqb]);
  solve [left; auto | right; split; [auto|congruence] | split; [auto|eauto]].
Qed.

(** C39: over any network, a call sends at most one request.  It panics exactly
    when it is the deletion of an instance and its request could not be made or
    was not answered; every other call returns, whatever the broker answers. *)
Theorem only_unsent_deletes_panic (call : Call) (w : W) :
  let '(o, _, t) := client_call cl call w in
  (length t <= 1)%nat /\ (forall e, o <> Err e) /\
  (o = Panic <-> (exists ID req, call = CDeleteServiceInstance ID req) /\ ~ exists r resp, t = [(r, inl resp)]).
Proof.
  pose proof (client_call_spec call w) as Hc. destruct (client_call cl call w) as [[o w'] t].
  assert (Hu : unsent t -> (length t <= 1)%nat /\ ~ exists r resp, t = [(r, inl resp)]).
  { intros [-> |(r & e & -> & _)]; (split; [cbn; lia|]); by intros (? & ? & [=]). }
  destruct o as [rep|e|]; cbn in Hc; [|done|].
  - destruct Hc as [(r & resp & -> & _)|[Ht Hn]].
    + split_and!; [done..|]. split; [done|]. intros [_ Hx]. destruct Hx; eauto.
    + split_and!; [by apply Hu|done|]. split; [done|]. intros [(ID & req & ->) _]. by destruct (Hn ID req).
  - destruct Hc as [Ht Hd]. split_and!; [by apply Hu|done|]. split; [intros _|done]. split; [done|by apply Hu].
Qed.

(** Over any network, every request a client sends goes to the broker's
    address without its trailing slashes, carries the client's credentials and
    names the version of the API. *)
Theorem requests_are_authenticated (call : Call) (w : W) :
  Forall (fun x => rq_Address (fst x) = TrimRight url /\ rq_BasicAuth (fst x) = Some (username, password) /\
                   (APIVersionHeader, APIVersion) ∈ rq_Header (fst x))
    (snd (client_call cl call w)).
Proof.
  pose proof (client_call_spec call w) as Hc. destruct (client_call cl call w) as [[o w'] t]. cbn.
  assert (H2 : unsent t \/ answered t) by (destruct o; cbn in Hc; tauto).
  destruct H2 as [[-> |(r & e & -> & Ha)]|(r & resp & -> & Ha)]; [constructor|by constructor..].
Qed.
End any_network.

(** ** Client, wire and server *)

Section over_the_wire.
Context {J : JsonDecoding} {S : Type} (ctl : Controller S) (ok : S -> Prop) {P : Presentable ctl ok}.
Context (name url username password : string).

(** C16: any sequence of calls through a client of a server has the replies and
    the effects on the controller that the calls have on the controller itself,
    up to what the wire makes of them ([direct]). *)
Theorem client_refines_controller (cs : list Call) (s : S) (Hs : ok s) (Hc : Forall carried cs) :
  run_of (client_calls (NewClient (H := network ctl) name url username password) cs) s =
  (Ok (fst (direct_calls ctl cs s)), snd (direct_calls ctl cs s)).
Proof. by apply (calls_refine ctl ok name url username password cs s Hs Hc). Qed.
End over_the_wire.

Lemma client_refines_controller_witness :
  run_of (client_calls (NewClient (H := network UserProvided.CreateController) "broker" "http://broker/" "user" "pass")
            samples.calls) ∅ =
  (Ok [RCatalog (Some UserProvided.theCatalog) None;
       RCreate (Some {| csr_DashboardURL := ""; csr_Operation := "" |}) 201 None;
       RBind (Some {| csb_Credentials := Some (<["password" := JString "s3cret"]> {["port" := JNum "5432"]}) |}) None;
       RDelete (Some {| dsi_Operation := "" |}) 200 None;
       RBind None (Some (PlainError "Unexpected status code from broker response: 400"))], ∅).
Proof.
  rewrite (client_refines_controller UserProvided.CreateController presentable_map "broker" "http://broker/" "user" "pass"
    samples.calls ∅ samples.empty_presentable samples.calls_carried).
  vm_compute. reflexivity.
Defined.

Section user_broker.
Context {J : JsonDecoding} (name url username password : string).

(** What a call makes of the credentials kept for an instance. *)
Definition stored (ID : string) (c : Call) (old : option Credential) : option Credential :=
  match c with
  | CCreateServiceInstance ID' req =>
      if bool_decide (ID' = ID) then match credentials_of req with Some cred => Some cred | None => old end else old
  | CDeleteServiceInstance ID' _ => if bool_decide (ID' = ID) then None else old
  | _ => old
  end.

Lemma direct_stores ID c m : carried c ->
  UserProvided.userCredential <$> snd (direct UserProvided.CreateController c m) !! ID =
  stored ID c (UserProvided.userCredential <$> m !! ID).
Proof.
  intros Hc. destruct c as [|ID' req|ID' req|ID' req|i b req|i b sid pid]; try done.
  - cbn [direct ctl_CreateServiceInstance UserProvided.CreateController stored].
    rewrite create_stores by (by destruct Hc). change (credentials_of (received_create req)) with (credentials_of req).
    destruct (credentials_of req); cbn [snd]; case_bool_decide as E; subst;
      [by rewrite lookup_insert_eq|by rewrite lookup_insert_ne|done..].
  - cbn [direct ctl_RemoveServiceInstance UserProvided.CreateController stored]. unfold UserProvided.RemoveServiceInstance.
    case_bool_decide as E; [subst ID'; destruct (m !! ID) eqn:Hm|destruct (m !! ID')]; cbn [snd];
      [by rewrite lookup_delete_eq|by rewrite Hm|by rewrite lookup_delete_ne|done].
  - cbn. by repeat case_bool_decide.
  - cbn. unfold UserProvided.Bind. by destruct (m !! i).
Qed.

Lemma direct_calls_store ID cs m : presentable_map m -> Forall carried cs ->
  UserProvided.userCredential <$> snd (direct_calls UserProvided.CreateController cs m) !! ID =
  fold_left (fun old c => stored ID c old) cs (UserProvided.userCredential <$> m !! ID).
Proof.
  intros Hm Hc. revert m Hm. induction Hc as [|c cs Hc _ IH]; intros m Hm; [done|]. cbn [direct_calls fold_left].
  rewrite <-direct_stores by done. pose proof (presentable_step (ok := presentable_map) UserProvided.CreateController c m Hm Hc) as H1.
  destruct (direct _ c m) as [r m1]. cbn [snd] in *. rewrite <-(IH m1 H1). by destruct (direct_calls _ cs m1).
Qed.

Lemma direct_calls_app {S} (ctl : Controller S) cs c s :
  direct_calls ctl (cs ++ [c]) s =
  (fst (direct_calls ctl cs s) ++ [fst (direct ctl c (snd (direct_calls ctl cs s)))],
   snd (direct ctl c (snd (direct_calls ctl cs s)))).
Proof.
  revert s. induction cs as [|c' cs IH]; intros s; cbn; [by destruct (direct ctl c s)|].
  destruct (direct ctl c' s) as [r s1]. rewrite IH. by destruct (direct_calls ctl cs s1).
Qed.

(** Whatever was called before, a client that binds an instance of the
    user-provided broker gets the credentials of the last accepted creation of
    that instance since its last deletion (those of the request's parameters, or
    the sample), and is refused when there is none. *)
Theorem user_broker_binding (cs : list Call) (ID bindingID : string) (req : BindingRequest) (m : gmap string UserProvided.userProvidedServiceInstance)
    (Hm : presentable_map m) (Hc : Forall carried cs) (Hb : carried (CCreateServiceBinding ID bindingID req)) :
  exists replies m',
    run_of (client_calls (NewClient (H := network UserProvided.CreateController) name url username password)
              (cs ++ [CCreateServiceBinding ID bindingID req])) m =
    (Ok (replies ++ [match fold_left (fun old c => stored ID c old) cs (UserProvided.userCredential <$> m !! ID) with
                     | Some cred => RBind (Some {| csb_Credentials := cred |}) None
                     | None => RBind None (Some (errStatusCode StatusBadRequest))
                     end]), m').
Proof.
  destruct (calls_refine UserProvided.CreateController presentable_map name url username password
    (cs ++ [CCreateServiceBinding ID bindingID req]) m Hm) as [-> _]; [by apply Forall_app; auto|].
  rewrite direct_calls_app, <-direct_calls_store by done. do 2 eexists. cbn [fst snd]. do 4 f_equal.
  cbn. unfold UserProvided.Bind. by destruct (_ !! ID).
Qed.
End user_broker.

Lemma user_broker_binding_witness :
  fold_left (fun old c => stored "id-1" c old) (take 2 samples.calls) None =
    Some (Some (<["password" := JString "s3cret"]> {["port" := JNum "5432"]})) /\
  fold_left (fun old c => stored "id-1" c old) (take 4 samples.calls) None = None /\
  exists replies m',
    run_of (client_calls (NewClient (H := network UserProvided.CreateController) "broker" "http://broker" "user" "pass")
              (take 2 samples.calls ++ [CCreateServiceBinding "id-1" "b" samples.bind_])) ∅ =
    (Ok (replies ++ [RBind (Some {| csb_Credentials := Some (<["password" := JString "s3cret"]> {["port" := JNum "5432"]}) |}) None]), m').
Proof.
  split; [vm_compute; reflexivity|]. split; [vm_compute; reflexivity|].
  exact (user_broker_binding "broker" "http://broker" "user" "pass" (take 2 samples.calls) "id-1" "b" samples.bind_ ∅
    samples.empty_presentable (Forall_take carried 2 _ samples.calls_carried) (conj eq_refl (conj eq_refl (conj samples.no_params samples.no_params)))).
Defined.
