(* ===== verification/FakeRest.v ===== *)
(** * The REST client fake

    [pkg/rest/core/fake/rest_client.go] with [pkg/api/meta]: an in-memory API
    server for tests, as a router over a nested map of objects.  The codecs of
    [testapi] are parameters, as the encoding of lists is; the watch handlers
    wait on a channel and change no storage, and are the parameter [watch].
    Lists are in the order of the map of the model; Go's order is random.

    The fake promises to respond just as an API server would: the second part
    says where it agrees with the registry store of [APIServer] on what becomes
    of an object, and where it does not. *)

From stdpp Require Import gmap strings list.
From S2P Require Import Prelude Types JsonText Environment Conditions Validation APIServer Strategy Sample InstanceLifecycle Http.

(** ** [NamespacedStorage] *)

Section storage.
Context {A : Type}.

Definition ObjStorage : Type := gmap string A.
Definition TypedStorage : Type := gmap string (gmap string A).
Definition NamespacedStorage : Type := gmap string (gmap string (gmap string A)).
Implicit Types s : gmap string (gmap string (gmap string A)).

(** A lookup in a missing map finds nothing. *)
Definition typed s (ns tipe : string) : gmap string A := default ∅ (default ∅ (s !! ns) !! tipe).

Definition storage_Set (ns tipe name : string) (obj : A) s : gmap string (gmap string (gmap string A)) :=
  let s1 := match s !! ns with None => <[ns := ∅]> s | Some _ => s end in
  let t := default ∅ (s1 !! ns) in
  let t1 := match t !! tipe with None => <[tipe := ∅]> t | Some _ => t end in
  <[ns := <[tipe := <[name := obj]> (default ∅ (t1 !! tipe))]> t1]> s1.

Definition storage_GetList (ns tipe : string) s : list A :=
  match default ∅ (s !! ns) !! tipe with
  | None => []
  | Some itemMap => snd <$> map_to_list itemMap
  end.

Definition storage_Get (ns tipe name : string) s : option A := typed s ns tipe !! name.

(** Deleting from a missing map does nothing. *)
Definition storage_Delete (ns tipe name : string) s : gmap string (gmap string (gmap string A)) :=
  match s !! ns with
  | None => s
  | Some t => match t !! tipe with None => s | Some m => <[ns := <[tipe := delete name m]> t]> s end
  end.

Lemma typed_Set ns tipe name obj s ns' tipe' :
  typed (storage_Set ns tipe name obj s) ns' tipe' =
  if bool_decide (ns' = ns /\ tipe' = tipe) then <[name := obj]> (typed s ns tipe) else typed s ns' tipe'.
Proof.
  unfold storage_Set, typed. cbv zeta. case_bool_decide as Hd.
  - destruct Hd as [-> ->]. rewrite lookup_insert_eq. cbn. rewrite lookup_insert_eq. cbn. f_equal.
    destruct (s !! ns) as [t|] eqn:Hs; rewrite ?lookup_insert_eq, ?Hs; cbn.
    + destruct (t !! tipe) eqn:Ht; by rewrite ?lookup_insert_eq, ?Ht.
    + rewrite !lookup_empty. cbn. by rewrite lookup_insert_eq.
  - destruct (decide (ns' = ns)) as [->|Hn].
    + assert (tipe' <> tipe) by naive_solver. rewrite lookup_insert_eq. cbn. rewrite lookup_insert_ne by done.
      destruct (s !! ns) as [t|] eqn:Hs; rewrite ?lookup_insert_eq, ?Hs; cbn.
      * destruct (t !! tipe) eqn:Ht; by rewrite ?lookup_insert_ne.
      * rewrite !lookup_empty. by rewrite lookup_insert_ne.
    + rewrite lookup_insert_ne by done. destruct (s !! ns); by rewrite ?lookup_insert_ne.
Qed.

Lemma typed_Delete ns tipe name s ns' tipe' :
  typed (storage_Delete ns tipe name s) ns' tipe' =
  if bool_decide (ns' = ns /\ tipe' = tipe) then delete name (typed s ns tipe) else typed s ns' tipe'.
Proof.
  unfold storage_Delete, typed. destruct (s !! ns) as [t|] eqn:Hs.
  - destruct (t !! tipe) as [m|] eqn:Ht; case_bool_decide as Hd.
    + destruct Hd as [-> ->]. rewrite lookup_insert_eq. cbn. rewrite lookup_insert_eq. cbn. by rewrite Ht.
    + destruct (decide (ns' = ns)) as [->|Hn]; [|by rewrite lookup_insert_ne].
      rewrite lookup_insert_eq. cbn. rewrite lookup_insert_ne by naive_solver. by rewrite Hs.
    + destruct Hd as [-> ->]. rewrite Hs. cbn. rewrite Ht. cbn. by rewrite delete_empty.
    + done.
  - case_bool_decide as Hd; [|done]. destruct Hd as [-> ->]. rewrite Hs. cbn. rewrite lookup_empty. cbn. by rewrite delete_empty.
Qed.

(** What is found after a write. *)
Lemma Get_Set ns tipe name obj s ns' tipe' name' :
  storage_Get ns' tipe' name' (storage_Set ns tipe name obj s) =
  if bool_decide (ns' = ns /\ tipe' = tipe /\ name' = name) then Some obj else storage_Get ns' tipe' name' s.
Proof.
  unfold storage_Get. rewrite typed_Set. repeat case_bool_decide; try naive_solver.
  - destruct_and!; subst. by rewrite lookup_insert_eq.
  - destruct_and!; subst. by rewrite lookup_insert_ne by naive_solver.
Qed.

Lemma Get_Delete ns tipe name s ns' tipe' name' :
  storage_Get ns' tipe' name' (storage_Delete ns tipe name s) =
  if bool_decide (ns' = ns /\ tipe' = tipe /\ name' = name) then None else storage_Get ns' tipe' name' s.
Proof.
  unfold storage_Get. rewrite typed_Delete. repeat case_bool_decide; try naive_solver.
  - destruct_and!; subst. by rewrite lookup_delete_eq.
  - destruct_and!; subst. by rewrite lookup_delete_ne by naive_solver.
Qed.
End storage.
Arguments NamespacedStorage : clear implicits.

(** ** Numbers *)

(** The value [strconv.Atoi] returns; with an error it is 0, or the nearest
    64-bit integer of a number that is too large ([digits] stops at one). *)
Fixpoint digits (s : string) (acc : Z) : option Z :=
  match s with
  | EmptyString => Some acc
  | String c s' => let n := Ascii.nat_of_ascii c in
      if Nat.leb 48 n && Nat.leb n 57 then
        let v := acc * 10 + Z.of_nat (n - 48) in
        if 2 ^ 64 - 1 <? v then Some v else digits s' v
      else None
  end.
Definition minInt : Z := - 2 ^ 63.
Definition maxInt : Z := 2 ^ 63 - 1.
Definition Atoi (s : string) : Z :=
  let clamp n := Z.max minInt (Z.min maxInt n) in
  match s with
  | EmptyString => 0
  | String c s' =>
      let n := Ascii.nat_of_ascii c in
      let (sign, body) := if Nat.eqb n 45 then (-1, s') else if Nat.eqb n 43 then (1, s') else (1, s) in
      if bool_decide (body = "") then 0
      else match digits body 0 with Some v => clamp (sign * v) | None => 0 end
  end.
(** [n++] *)
Definition increment (n : Z) : Z := if n =? maxInt then minInt else n + 1.

(** ** The handlers *)

(** A codec of [testapi]. *)
Record RuntimeCodec (A : Type) := { Encode : A -> string + error; Decode : string -> A + error }.
Arguments Encode {A}.
Arguments Decode {A}.

Class TestAPI (A : Type) := {
  newEmptyObj : A;
  GetCodecForObject : A -> RuntimeCodec A + error;
  (** [meta.SetList], [GetCodecForObject] and [Encode] of the list type of a resource *)
  EncodeList : string -> list A -> string + string;
  EncodeNamespaces : list string -> string;
  (** what [%#v] prints for an object *)
  goSyntax : A -> string;
  (** [Time.String] *)
  Time_String : Z -> string }.

Section handlers.
Context {A : Type} `{Object A} {T : TestAPI A}.
Notation Storage := (NamespacedStorage A).
Implicit Types (s : Storage) (vars : string -> string) (r : HTTPRequest).

(** *** [pkg/api/meta] *)

Definition GetFinalizers (obj : A) : list string := Finalizers (metaOf obj).
Definition GetDeletionTimestamp (obj : A) : option Z := DeletionTimestamp (metaOf obj).
Definition SetDeletionTimestamp (t : Z) (obj : A) : A := modify (with_DeletionTimestamp (Some t)) obj.
Definition DeletionTimestampExists (obj : A) : bool :=
  match GetDeletionTimestamp obj with None => false | Some _ => true end.
Definition AddFinalizer (value : string) (obj : A) : A :=
  modify (with_Finalizers (set_insert value (NewString (Finalizers (metaOf obj))))) obj.
Definition RemoveFinalizer (value : string) (obj : A) : list string * A :=
  let newFinalizers := set_Delete value (NewString (Finalizers (metaOf obj))) in
  (newFinalizers, modify (with_Finalizers newFinalizers) obj).

(** *** Responses

    The fake's response writer keeps the status as a header, which a second
    [WriteHeader] overwrites. *)
Definition status (code : Z) (header : list (string * string)) (body : string) : HTTPResponse :=
  plain_response code (("status", itoa code) :: header) body.
Definition StatusInternalServerError : Z := 500.
Definition json_type : list (string * string) := [("Content-Type", "application/json")].
Definition text_type : list (string * string) :=
  [("Content-Type", "text/plain; charset=utf-8"); ("X-Content-Type-Options", "nosniff")].
(** [http.Error] *)
Definition http_Error (msg : string) (code : Z) : HTTPResponse := status code text_type (String.append msg (String (char 10) "")).
Definition failed (msg : list string) : HTTPResponse := http_Error (sprint msg) StatusInternalServerError.
Definition errorText (err : error) : string := sprint [" ("; Error err; ")"].

Definition getItems vars r s : HTTPResponse * Storage :=
  let ns := vars "namespace" in
  let tipe := vars "type" in
  let items := storage_GetList ns tipe s in
  if existsb (fun t => bool_decide (t = tipe)) ["clusterservicebrokers"; "serviceclasses"; "serviceinstances"; "serviceinstancecredentials"]
  then match EncodeList tipe items with
       | inr errStr => (http_Error errStr StatusInternalServerError, s)
       | inl listBytes => (status StatusOK [] listBytes, s)
       end
  else (failed ["unrecognized resource type: "; tipe], s).

Definition createItem vars r s : HTTPResponse * Storage :=
  let ns := vars "namespace" in
  let tipe := vars "type" in
  match GetCodecForObject newEmptyObj with
  | inr err => (failed ["error getting a codec for "; goSyntax newEmptyObj; errorText err], s)
  | inl codec =>
      match Decode codec (default "" (rq_Body r)) with
      | inr err => (failed ["error decoding body bytes: "; Error err], s)
      | inl item =>
          let name := Name (metaOf item) in
          match storage_Get ns tipe name s with
          | Some _ => (status StatusConflict [] "", s)
          | None =>
              let item := modify (with_ResourceVersion "1") item in
              let s := storage_Set ns tipe name item s in
              match Encode codec item with
              | inr err => (failed ["error encoding item"; errorText err], s)
              | inl bytes => (status StatusCreated json_type bytes, s)
              end
          end
      end
  end.

Definition getItem vars r s : HTTPResponse * Storage :=
  match storage_Get (vars "namespace") (vars "type") (vars "name") s with
  | None => (status StatusNotFound [] "", s)
  | Some item =>
      match GetCodecForObject item with
      | inr err => (failed ["error getting codec"; errorText err], s)
      | inl codec =>
          match Encode codec item with
          | inr err => (failed ["error encoding item"; errorText err], s)
          | inl bytes => (status StatusOK json_type bytes, s)
          end
      end
  end.

(** The end of [updateItem]. *)
Definition updateItem_store (codec : RuntimeCodec A) (item : A) s (ns tipe name : string) : HTTPResponse * Storage :=
  let s :=
    if Nat.eqb (length (GetFinalizers item)) 0 && DeletionTimestampExists item then storage_Delete ns tipe name s
    else storage_Set ns tipe name item s in
  match Encode codec item with
  | inr err => (failed ["error encoding item: "; Error err], s)
  | inl bytes => (status StatusOK json_type bytes, s)
  end.

(** The two resource versions that are compared are both the submitted
    object's.  Timestamps are whole seconds. *)
Definition updateItem vars r s : HTTPResponse * Storage :=
  let ns := vars "namespace" in
  let tipe := vars "type" in
  let name := vars "name" in
  match storage_Get ns tipe name s with
  | None => (status StatusNotFound [] "", s)
  | Some origItem =>
      match GetCodecForObject newEmptyObj with
      | inr err => (failed ["error getting codec: "; Error err], s)
      | inl codec =>
          match Decode codec (default "" (rq_Body r)) with
          | inr err => (failed ["error decoding body bytes: "; Error err], s)
          | inl item =>
              let origResourceVersionStr := ResourceVersion (metaOf item) in
              let resourceVersionStr := ResourceVersion (metaOf item) in
              if negb (bool_decide (resourceVersionStr = "0")) && negb (bool_decide (resourceVersionStr = origResourceVersionStr))
              then (status StatusBadRequest [] "", s)
              else
                let resourceVersion := increment (Atoi origResourceVersionStr) in
                let item := modify (with_ResourceVersion (itoa resourceVersion)) item in
                match GetDeletionTimestamp item, GetDeletionTimestamp origItem with
                | Some newDT, Some oldDT =>
                    if negb (newDT =? oldDT)
                    then (http_Error (sprint ["you cannot update the deletion timestamp (old: "; quote (Time_String oldDT); ", new: ";
                                              quote (Time_String newDT); ")"]) StatusBadRequest, s)
                    else updateItem_store codec item s ns tipe name
                | _, _ => updateItem_store codec item s ns tipe name
                end
          end
      end
  end.

(** [now] is the time of the request. *)
Definition deleteItem (now : Z) vars r s : HTTPResponse * Storage :=
  let ns := vars "namespace" in
  let tipe := vars "type" in
  let name := vars "name" in
  match storage_Get ns tipe name s with
  | None => (status StatusNotFound [] "", s)
  | Some item =>
      let s :=
        if Nat.eqb (length (GetFinalizers item)) 0 then storage_Delete ns tipe name s
        else storage_Set ns tipe name (SetDeletionTimestamp now item) s in
      (status StatusOK [] "", s)
  end.

Definition listNamespaces vars r s : HTTPResponse * Storage :=
  (status StatusOK json_type (String.append (EncodeNamespaces (fst <$> map_to_list s)) (String (char 10) "")), s).

Definition notFoundHandler r s : HTTPResponse * Storage := (status StatusNotFound [] "", s).

(** *** The router *)

Definition api_path : list Segment := [Lit "apis"; Lit "servicecatalog.k8s.io"; Lit "v1alpha1"].
Definition items_path : list Segment := api_path ++ [Lit "namespaces"; Var "namespace"; Var "type"].
Definition item_path : list Segment := items_path ++ [Var "name"].

Definition getRouter (watch : HTTPRequest -> HTTPResponse) (now : Z) : list (Route Storage) :=
  let watching := fun (vars : string -> string) r s => (watch r, s) in
  [{| rt_Template := items_path; rt_Method := "GET"; rt_Handler := getItems |};
   {| rt_Template := items_path; rt_Method := "POST"; rt_Handler := createItem |};
   {| rt_Template := item_path; rt_Method := "GET"; rt_Handler := getItem |};
   {| rt_Template := item_path; rt_Method := "PUT"; rt_Handler := updateItem |};
   {| rt_Template := item_path; rt_Method := "DELETE"; rt_Handler := deleteItem now |};
   {| rt_Template := api_path ++ [Lit "watch"; Lit "namespaces"; Var "namespace"; Var "type"; Var "name"];
      rt_Method := "GET"; rt_Handler := watching |};
   {| rt_Template := api_path ++ [Lit "watch"; Lit "namespaces"; Var "namespace"; Var "type"];
      rt_Method := "GET"; rt_Handler := watching |};
   {| rt_Template := [Lit "api"; Lit "v1"; Lit "namespaces"]; rt_Method := "GET"; rt_Handler := listNamespaces |}].

(** [StrictSlash(true)]: a path that matches but for a slash at its end is
    redirected. *)
Definition without_slash (path : string) : option string :=
  match rev (split_on [47]%nat path) with
  | "" :: ((_ :: _ :: _) as segs) => Some (path_of (tl (rev segs)))
  | _ => None
  end.

Fixpoint route_strict (routes : list (Route Storage)) r s : HTTPResponse * Storage :=
  match routes with
  | [] => notFoundHandler r s
  | rt :: routes' =>
      if negb (bool_decide (rt_Method rt = rq_Method r)) then route_strict routes' r s
      else
        match match_path (rt_Template rt) (rq_Path r) with
        | Some vars => rt_Handler rt (mux_Vars vars) r s
        | None =>
            match without_slash (rq_Path r) with
            | Some path =>
                match match_path (rt_Template rt) path with
                | Some _ => (status StatusMovedPermanently [("Location", path)] "", s)
                | None => route_strict routes' r s
                end
            | None => route_strict routes' r s
            end
        end
  end.

(** A request to the client: [getRouter] and [ServeHTTP]. *)
Definition RESTClient_Do (watch : HTTPRequest -> HTTPResponse) (now : Z) r s : HTTPResponse * Storage :=
  if bool_decide (cleanPath (rq_Path r) = rq_Path r) then route_strict (getRouter watch now) r s
  else (status StatusMovedPermanently [("Location", cleanPath (rq_Path r))] "", s).
End handlers.

(** ** Against the registry store: any type of object *)

Section agreement.
Context {A : Type} `{OL : ObjectLaws A} {SV : StoreValidation} {T : TestAPI A}.
Implicit Types (obj old v : A) (s : NamespacedStorage A).

(** What an object has to say about its deletion. *)
Definition same_lifetime v v' : Prop :=
  DeletionTimestamp (metaOf v') = DeletionTimestamp (metaOf v) /\ Finalizers (metaOf v') = Finalizers (metaOf v).

Definition keeps_finalizers (st : RESTUpdateStrategy A) : Prop := forall ctx new old,
  Finalizers (metaOf (PrepareForUpdate st ctx new old)) = Finalizers (metaOf new).
Definition delete_keeps_finalizers (ds : RESTDeleteStrategy A) : Prop := forall f ctx old,
  ds = Some f -> Finalizers (metaOf (f ctx old)) = Finalizers (metaOf old).

Lemma scopedTo_finalizers scoped ctx obj obj' : scopedTo scoped ctx obj = Some obj' ->
  Finalizers (metaOf obj') = Finalizers (metaOf obj).
Proof.
  unfold scopedTo, ValidNamespace. cbv zeta. destruct scoped; [|intros [= <-]; by rewrite metaOf_modify].
  destruct (bool_decide (Namespace (metaOf obj) = "")); destruct (bool_decide _); intros [= <-]; by rewrite ?metaOf_modify.
Qed.

(** An accepted update keeps the submitted finalizers and the stored deletion
    timestamp. *)
Lemma BeforeUpdate_lifetime (st : RESTUpdateStrategy A) scoped ctx obj old v : keeps_finalizers st ->
  BeforeUpdate st scoped ctx obj old = inl v ->
  Finalizers (metaOf v) = Finalizers (metaOf obj) /\ DeletionTimestamp (metaOf v) = DeletionTimestamp (metaOf old).
Proof.
  intros Hk. unfold BeforeUpdate. destruct (scopedTo scoped ctx obj) as [obj1|] eqn:Hsc; [|done].
  apply scopedTo_finalizers in Hsc. cbv zeta. set (new := PrepareForUpdate st ctx _ old).
  destruct (_ ++ _) eqn:Hval; [|done]. intros [= <-].
  apply ValidationSpec.app_nil_iff in Hval as [_ [Hm _]%ValidationSpec.app_nil_iff]. rewrite !metaOf_modify in *.
  destruct (repairMeta_kept (metaOf new) (metaOf old)) as (_ & _ & _ & Hf).
  apply validateMetaUpdate_same in Hm as (Hd & _). split; [|done].
  rewrite Hf. unfold new. rewrite Hk. by rewrite metaOf_modify.
Qed.

Lemma updateItem_result codec vars r s old obj :
  storage_Get (vars "namespace") (vars "type") (vars "name") s = Some old ->
  GetCodecForObject newEmptyObj = inl codec -> Decode codec (default "" (rq_Body r)) = inl obj ->
  (forall t t', DeletionTimestamp (metaOf obj) = Some t -> DeletionTimestamp (metaOf old) = Some t' -> t = t') ->
  let item := modify (with_ResourceVersion (itoa (increment (Atoi (ResourceVersion (metaOf obj)))))) obj in
  updateItem vars r s = updateItem_store codec item s (vars "namespace") (vars "type") (vars "name").
Proof.
  intros Hg Hc Hd Ht item. unfold updateItem. rewrite Hg, Hc, Hd, (bool_decide_eq_true_2 (ResourceVersion _ = ResourceVersion _)) by done.
  rewrite andb_false_r. fold item. unfold GetDeletionTimestamp, item. rewrite metaOf_modify. cbn [with_ResourceVersion DeletionTimestamp].
  destruct (DeletionTimestamp (metaOf obj)) as [t|] eqn:H1, (DeletionTimestamp (metaOf old)) as [t'|] eqn:H2; try done.
  by rewrite (Ht t t' eq_refl eq_refl), Z.eqb_refl.
Qed.

Lemma updateItem_stores codec item s ns tipe name :
  storage_Get ns tipe name (snd (updateItem_store codec item s ns tipe name)) =
  if Nat.eqb (length (Finalizers (metaOf item))) 0 && negb (bool_decide (DeletionTimestamp (metaOf item) = None))
  then None else Some item.
Proof.
  unfold updateItem_store, DeletionTimestampExists, GetDeletionTimestamp, GetFinalizers. destruct (Encode codec item); cbn [snd];
    destruct (Nat.eqb _ 0); destruct (DeletionTimestamp (metaOf item)) as [t|]; cbn;
    by rewrite ?Get_Set, ?Get_Delete, bool_decide_eq_true_2.
Qed.

(** The fake and the registry store agree on what becomes of an object: for
    an update that repeats the stored deletion timestamp and that the store
    accepts, and for a deletion, the object is afterwards in the fake exactly if
    it is in the store, with the same deletion timestamp and finalizers. *)
Theorem fake_agrees_with_the_store (st : RESTUpdateStrategy A) (ds : RESTDeleteStrategy A) (scoped : bool)
    (ctx : RequestContext) (next : string) (now : Z) (codec : RuntimeCodec A) (vars : string -> string) (r : HTTPRequest) s old obj
    (Hst : keeps_finalizers st) (Hds : delete_keeps_finalizers ds)
    (Hget : storage_Get (vars "namespace") (vars "type") (vars "name") s = Some old)
    (Hcodec : GetCodecForObject newEmptyObj = inl codec) (Hbody : Decode codec (default "" (rq_Body r)) = inl obj)
    (Hdt : DeletionTimestamp (metaOf obj) = DeletionTimestamp (metaOf old)) :
  let get s := storage_Get (vars "namespace") (vars "type") (vars "name") s in
  (match storeUpdate st scoped ctx next (Some old) obj with
   | Stored v => exists v', get (snd (updateItem vars r s)) = Some v' /\ same_lifetime v v'
   | Removed _ => get (snd (updateItem vars r s)) = None
   | Refused _ => True
   end) /\
  (match storeDelete ds ctx next now (Some old) with
   | Stored v => exists v', get (snd (deleteItem now vars r s)) = Some v' /\ same_lifetime v v'
   | Removed _ => get (snd (deleteItem now vars r s)) = None
   | Refused _ => False
   end).
Proof.
  cbv zeta. split.
  - rewrite (updateItem_result codec vars r s old obj Hget Hcodec Hbody), updateItem_stores, metaOf_modify by congruence.
    cbn [with_ResourceVersion Finalizers DeletionTimestamp]. rewrite Hdt.
    assert (Hok : forall obj0 v, Finalizers (metaOf obj0) = Finalizers (metaOf obj) -> BeforeUpdate st scoped ctx obj0 old = inl v ->
      Finalizers (metaOf v) = Finalizers (metaOf obj) /\ DeletionTimestamp (metaOf v) = DeletionTimestamp (metaOf old)).
    { intros obj0 v Hf Hv. destruct (BeforeUpdate_lifetime st scoped ctx obj0 old v Hst Hv). by rewrite <-Hf. }
    unfold storeUpdate. cbv zeta. destruct (_ && _); [done|]. destruct (_ && _); [done|].
    match goal with |- context [BeforeUpdate st scoped ctx ?o old] => destruct (BeforeUpdate st scoped ctx o old) as [v|] eqn:Hv; [|done];
      assert (Hf : Finalizers (metaOf o) = Finalizers (metaOf obj)) by (destruct (_ && _); by rewrite ?metaOf_modify) end.
    destruct (Hok _ v Hf Hv) as [H1 H2]. unfold shouldDeleteDuringUpdate. rewrite H1.
    match goal with |- context [if ?b then Removed _ else _] => destruct b; [done|] end.
    eexists. split; [done|]. unfold same_lifetime. rewrite !metaOf_modify. cbn. by rewrite H1, H2, Hdt.
  - unfold deleteItem. rewrite Hget. cbn [snd]. unfold storeDelete, GetFinalizers.
    assert (Hf : Finalizers (metaOf (BeforeDelete ds ctx old)) = Finalizers (metaOf old)).
    { unfold BeforeDelete. destruct ds as [f|]; [|done]. destruct (bool_decide _); [by apply (Hds f)|done]. }
    rewrite Hf. destruct (Nat.eqb _ 0); [by rewrite Get_Delete, bool_decide_eq_true_2|].
    rewrite Get_Set, bool_decide_eq_true_2 by done. eexists. split; [done|].
    unfold same_lifetime, SetDeletionTimestamp, markAsDeleting. rewrite !metaOf_modify. cbn. split; [done|].
    rewrite <-Hf. by destruct (_ && _).
Qed.

(** Where they part: an update made against a version that is not the stored
    one is a conflict for the store; the fake compares the submitted version with
    itself, stores the object and numbers it from the submitted version, so the
    update in between is lost. *)
Theorem stale_update_is_accepted (st : RESTUpdateStrategy A) (scoped : bool) (ctx : RequestContext) (next : string)
    (codec : RuntimeCodec A) (vars : string -> string) (r : HTTPRequest) s old obj
    (Hget : storage_Get (vars "namespace") (vars "type") (vars "name") s = Some old)
    (Hcodec : GetCodecForObject newEmptyObj = inl codec) (Hbody : Decode codec (default "" (rq_Body r)) = inl obj)
    (Hdt : DeletionTimestamp (metaOf obj) = DeletionTimestamp (metaOf old)) (Hfin : Finalizers (metaOf obj) <> [])
    (Hstale : ResourceVersion (metaOf obj) <> ResourceVersion (metaOf old)) (Hset : ResourceVersion (metaOf obj) <> "") :
  storeUpdate st scoped ctx next (Some old) obj = Refused conflict /\
  storage_Get (vars "namespace") (vars "type") (vars "name") (snd (updateItem vars r s)) =
    Some (modify (with_ResourceVersion (itoa (increment (Atoi (ResourceVersion (metaOf obj)))))) obj).
Proof.
  split.
  - unfold storeUpdate. cbv zeta. rewrite (bool_decide_eq_false_2 (ResourceVersion (metaOf obj) = "")) by done.
    by rewrite bool_decide_eq_false_2.
  - rewrite (updateItem_result codec vars r s old obj Hget Hcodec Hbody), updateItem_stores, metaOf_modify by congruence.
    cbn [with_ResourceVersion Finalizers DeletionTimestamp]. by destruct (Finalizers (metaOf obj)).
Qed.
End agreement.

(** ** Instances *)

(** The user's update, the controller's status update and the deletion of an
    instance keep its finalizers, so the agreement is one about instances. *)
Lemma instance_updates_keep_finalizers {C : Config} {MV : MetaValidation} {Sem : Semantic} :
  keeps_finalizers instanceUpdateStrategy /\ keeps_finalizers instanceStatusUpdateStrategy /\
  delete_keeps_finalizers instanceDeleteStrategy.
Proof.
  split_and!.
  - intros ctx new old. cbn. unfold instancePrepareForUpdate, setServiceInstanceUserInfo. cbv zeta.
    destruct (negb _); [destruct OriginatingIdentityEnabled|]; done.
  - done.
  - intros f ctx old [= <-]. unfold instanceCheckGracefulDelete. by destruct OriginatingIdentityEnabled.
Qed.

Module fake_samples.
Definition body_of (obj : ServiceInstance) : HTTPRequest := Build_HTTPRequest "PUT" "" "" [] [] None (Some "").
(** A codec whose request bodies are [obj]. *)
Definition codec_of (obj : ServiceInstance) : RuntimeCodec ServiceInstance := {| Encode _ := inl ""; Decode _ := inl obj |}.
Definition api_of (obj : ServiceInstance) : TestAPI ServiceInstance :=
  {| newEmptyObj := instance1; GetCodecForObject _ := inl (codec_of obj); EncodeList _ _ := inl ""; EncodeNamespaces _ := "";
     goSyntax _ := ""; Time_String _ := "" |}.
Definition vars (name : string) : string :=
  if bool_decide (name = "namespace") then "ns" else if bool_decide (name = "type") then "serviceinstances" else "db".
Definition versioned (v : string) (i : ServiceInstance) : ServiceInstance := modify (with_ResourceVersion v) i.
Definition stored_instance : ServiceInstance := versioned "7" instance_deleting.
Definition storage : NamespacedStorage ServiceInstance := storage_Set "ns" "serviceinstances" "db" stored_instance ∅.
(** The update that drops the last finalizer. *)
Definition released : ServiceInstance := modify (with_Finalizers []) stored_instance.
End fake_samples.

Lemma fake_agrees_with_the_store_witness :
  (exists v, storeUpdate instanceStatusUpdateStrategy true sample_context "8" (Some fake_samples.stored_instance) fake_samples.released = Removed v) /\
  storage_Get "ns" "serviceinstances" "db"
    (snd (updateItem (T := fake_samples.api_of fake_samples.released) fake_samples.vars (fake_samples.body_of fake_samples.released)
            fake_samples.storage)) = None.
Proof.
  destruct (fake_agrees_with_the_store (H := ServiceInstance_Object) (T := fake_samples.api_of fake_samples.released) instanceStatusUpdateStrategy instanceDeleteStrategy
    true sample_context "8" 100 (fake_samples.codec_of fake_samples.released) fake_samples.vars (fake_samples.body_of fake_samples.released)
    fake_samples.storage fake_samples.stored_instance fake_samples.released
    (proj1 (proj2 instance_updates_keep_finalizers)) (proj2 (proj2 instance_updates_keep_finalizers)) eq_refl eq_refl eq_refl eq_refl) as [H _].
  split; [eexists; vm_compute; reflexivity|]. vm_compute in H |- *. exact H.
Defined.

Lemma stale_update_is_accepted_witness :
  storeUpdate instanceStatusUpdateStrategy true sample_context "8" (Some fake_samples.stored_instance)
    (fake_samples.versioned "6" fake_samples.stored_instance) = Refused conflict /\
  ResourceVersion <$> (si_Meta <$> storage_Get "ns" "serviceinstances" "db"
    (snd (updateItem (T := fake_samples.api_of (fake_samples.versioned "6" fake_samples.stored_instance)) fake_samples.vars
            (fake_samples.body_of fake_samples.stored_instance) fake_samples.storage))) = Some "7".
Proof.
  destruct (stale_update_is_accepted (H := ServiceInstance_Object) (T := fake_samples.api_of (fake_samples.versioned "6" fake_samples.stored_instance))
    instanceStatusUpdateStrategy true sample_context "8" (fake_samples.codec_of (fake_samples.versioned "6" fake_samples.stored_instance))
    fake_samples.vars (fake_samples.body_of fake_samples.stored_instance)
    fake_samples.storage fake_samples.stored_instance (fake_samples.versioned "6" fake_samples.stored_instance)
    eq_refl eq_refl eq_refl ltac:(vm_compute; reflexivity) ltac:(discriminate) ltac:(discriminate) ltac:(discriminate)) as [H1 H2].
  split; [exact H1|]. cbn [fake_samples.vars] in H2. exact (f_equal (fmap ResourceVersion ∘ fmap si_Meta) H2).
Defined.
