(* ===== verification/FakeBroker.v ===== *)
(** * The fake brokers

    [contrib/pkg/brokerapi/fake/fake.go]: an in-memory [BrokerClient] for tests.
    Its state is the three clients it embeds and the source of the UUIDs, which
    are those of [github.com/satori/go.uuid].  [Server] is the fake broker server
    ([openservicebroker/util/fake_broker_server.go]) with what a client finds
    there, [Recorder] the handler of [fake/server/handler.go]. *)

From stdpp Require Import gmap strings list.
From S2P Require Import Prelude Types Json JsonText BrokerAPI Http OSBClient OSBRefinement.

Class UUIDs (U : Type) := { NewV4 : U -> string * U }.

Definition ErrInstanceNotFound : error := PlainError "instance not found".
Definition ErrInstanceAlreadyExists : error := PlainError "instance already exists".
Definition ErrBindingNotFound : error := PlainError "binding not found".
Definition ErrBindingAlreadyExists : error := PlainError "binding already exists".

Record CatalogClient := { RetCatalog : option Catalog; RetErr : option error }.
Record InstanceClient := {
  Instances : gmap string ServiceInstance; ResponseCode : Z; ic_Operation : string; ic_DashboardURL : string;
  ic_LastOperationResponse : option LastOperationResponse; ic_DeleteServiceInstanceResponse : option DeleteServiceInstanceResponse;
  ic_CreateErr : option error; ic_UpdateErr : option error; ic_DeleteErr : option error; ic_PollErr : option error }.
Record BindingClient := {
  Bindings : gmap string ServiceBinding; BindingRequests : gmap string BindingRequest; CreateCreds : Credential;
  bc_CreateErr : option error; bc_DeleteErr : option error }.

Definition NewInstanceClient : InstanceClient := Build_InstanceClient ∅ StatusOK "" "" None None None None None None.
Definition NewBindingClient : BindingClient := Build_BindingClient ∅ ∅ None None None.

Definition with_Instances (m : gmap string ServiceInstance) (i : InstanceClient) : InstanceClient :=
  Build_InstanceClient m (ResponseCode i) (ic_Operation i) (ic_DashboardURL i) (ic_LastOperationResponse i)
    (ic_DeleteServiceInstanceResponse i) (ic_CreateErr i) (ic_UpdateErr i) (ic_DeleteErr i) (ic_PollErr i).
Definition with_Bindings (m : gmap string ServiceBinding) (b : BindingClient) : BindingClient :=
  Build_BindingClient m (BindingRequests b) (CreateCreds b) (bc_CreateErr b) (bc_DeleteErr b).
Definition with_BindingRequests (m : gmap string BindingRequest) (b : BindingClient) : BindingClient :=
  Build_BindingClient (Bindings b) m (CreateCreds b) (bc_CreateErr b) (bc_DeleteErr b).

Section fake.
Context {U : Type} {G : UUIDs U}.

Record Client := { CatalogClient_ : CatalogClient; InstanceClient_ : InstanceClient; BindingClient_ : BindingClient; uuids : U }.

Definition with_InstanceClient (i : InstanceClient) (w : Client) : Client :=
  {| CatalogClient_ := CatalogClient_ w; InstanceClient_ := i; BindingClient_ := BindingClient_ w; uuids := uuids w |}.
Definition with_BindingClient (b : BindingClient) (w : Client) : Client :=
  {| CatalogClient_ := CatalogClient_ w; InstanceClient_ := InstanceClient_ w; BindingClient_ := b; uuids := uuids w |}.
Definition with_uuids (u : U) (w : Client) : Client :=
  {| CatalogClient_ := CatalogClient_ w; InstanceClient_ := InstanceClient_ w; BindingClient_ := BindingClient_ w; uuids := u |}.

(** A method, as a function of the client; it has no effects of its own. *)
Definition method {A} (f : Client -> A * Client) : M Client Exchange A := call (fun _ => []) f.

Definition fake_GetCatalog (w : Client) : (option Catalog * option error) * Client :=
  ((RetCatalog (CatalogClient_ w), RetErr (CatalogClient_ w)), w).

Definition instance_exists (id : string) (i : InstanceClient) : bool := bool_decide (is_Some (Instances i !! id)).

Definition convertInstanceRequest (req : CreateServiceInstanceRequest) (w : Client) : ServiceInstance * Client :=
  let (id, u) := NewV4 (uuids w) in
  let (internal, u) := NewV4 u in
  ({| bsi_ID := id; bsi_DashboardURL := "https://github.com/kubernetes-incubator/service-catalog"; bsi_InternalID := internal;
      bsi_ServiceID := csi_ServiceID req; bsi_PlanID := csi_PlanID req; bsi_OrganizationGUID := csi_OrgID req;
      bsi_SpaceGUID := csi_SpaceID req; bsi_LastOperation := None; bsi_Parameters := csi_Parameters req |}, with_uuids u w).

(** [i.Instances[id] = convertInstanceRequest(req)] *)
Definition put_instance (id : string) (req : CreateServiceInstanceRequest) (w : Client) : ServiceInstance * Client :=
  let (instance, w) := convertInstanceRequest req w in
  let i := InstanceClient_ w in
  (instance, with_InstanceClient (with_Instances (<[id := instance]> (Instances i)) i) w).

Definition fake_CreateServiceInstance (id : string) (req : CreateServiceInstanceRequest) (w : Client) :
    (option CreateServiceInstanceResponse * Z * option error) * Client :=
  let i := InstanceClient_ w in
  match ic_CreateErr i with
  | Some err => ((None, ResponseCode i, Some err), w)
  | None =>
      if instance_exists id i then ((None, StatusConflict, Some ErrInstanceAlreadyExists), w)
      else if negb (bool_decide (Platform (csi_ContextProfile req) = ContextProfilePlatformKubernetes)) then
        ((None, ResponseCode i, Some (PlainError (String.append "OSB context profile not set to " ContextProfilePlatformKubernetes))), w)
      else if bool_decide (cp_Namespace (csi_ContextProfile req) = "") then
        ((None, ResponseCode i, Some (PlainError "missing valid OSB context profile namespace")), w)
      else
        let (_, w) := put_instance id req w in
        ((Some {| csr_DashboardURL := ic_DashboardURL i; csr_Operation := ic_Operation i |}, ResponseCode i, None), w)
  end.

Definition fake_UpdateServiceInstance (id : string) (req : CreateServiceInstanceRequest) (w : Client) :
    (option ServiceInstance * Z * option error) * Client :=
  let i := InstanceClient_ w in
  match ic_UpdateErr i with
  | Some err => ((None, ResponseCode i, Some err), w)
  | None =>
      if negb (instance_exists id i) then ((None, ResponseCode i, Some ErrInstanceNotFound), w)
      else let (instance, w) := put_instance id req w in ((Some instance, ResponseCode i, None), w)
  end.

Definition fake_DeleteServiceInstance (id : string) (req : DeleteServiceInstanceRequest) (w : Client) :
    (option DeleteServiceInstanceResponse * Z * option error) * Client :=
  let i := InstanceClient_ w in
  let resp := default {| dsi_Operation := "" |} (ic_DeleteServiceInstanceResponse i) in
  match ic_DeleteErr i with
  | Some err => ((Some resp, ResponseCode i, Some err), w)
  | None =>
      if negb (instance_exists id i) then ((Some resp, ResponseCode i, Some ErrInstanceNotFound), w)
      else ((Some resp, ResponseCode i, None), with_InstanceClient (with_Instances (delete id (Instances i)) i) w)
  end.

Definition fake_PollServiceInstance (ID : string) (req : LastOperationRequest) (w : Client) :
    (option LastOperationResponse * Z * option error) * Client :=
  let i := InstanceClient_ w in
  match ic_PollErr i with
  | Some err => ((None, ResponseCode i, Some err), w)
  | None => ((Some (default {| lo_State := ""; lo_Description := "" |} (ic_LastOperationResponse i)), ResponseCode i, None), w)
  end.

Definition BindingsMapKey (instanceID bindingID : string) : string := sprint [instanceID; ":"; bindingID].
Definition binding_exists (instanceID bindingID : string) (b : BindingClient) : bool :=
  bool_decide (is_Some (Bindings b !! BindingsMapKey instanceID bindingID)).

Definition convertBindingRequest (req : BindingRequest) (w : Client) : ServiceBinding * Client :=
  let (id, u) := NewV4 (uuids w) in
  ({| bsb_ID := id; bsb_ServiceID := brq_ServiceID req; bsb_AppID := brq_AppGUID req; bsb_ServicePlanID := brq_PlanID req;
      bsb_PrivateKey := ""; bsb_ServiceInstanceID := ""; bsb_BindResource := None; bsb_Parameters := brq_Parameters req |},
   with_uuids u w).

Definition fake_CreateServiceBinding (instanceID bindingID : string) (req : BindingRequest) (w : Client) :
    (option CreateServiceBindingResponse * option error) * Client :=
  match bc_CreateErr (BindingClient_ w) with
  | Some err => ((None, Some err), w)
  | None =>
      if binding_exists instanceID bindingID (BindingClient_ w) then ((None, Some ErrBindingAlreadyExists), w)
      else
        let key := BindingsMapKey instanceID bindingID in
        let (binding, w) := convertBindingRequest req w in
        let b := BindingClient_ w in
        let b := with_BindingRequests (<[key := req]> (BindingRequests b)) (with_Bindings (<[key := binding]> (Bindings b)) b) in
        ((Some {| csb_Credentials := CreateCreds b |}, None), with_BindingClient b w)
  end.

(** The recorded request stays. *)
Definition fake_DeleteServiceBinding (instanceID bindingID serviceID planID : string) (w : Client) : option error * Client :=
  let b := BindingClient_ w in
  match bc_DeleteErr b with
  | Some err => (Some err, w)
  | None =>
      if negb (binding_exists instanceID bindingID b) then (Some ErrBindingNotFound, w)
      else (None, with_BindingClient (with_Bindings (delete (BindingsMapKey instanceID bindingID) (Bindings b)) b) w)
  end.

(** [NewClientFunc]; the name, address and credentials are ignored. *)
Definition NewClientFunc : BrokerClient Client Exchange :=
  {| bc_GetCatalog := method fake_GetCatalog; bc_CreateServiceInstance id req := method (fake_CreateServiceInstance id req);
     bc_UpdateServiceInstance id req := method (fake_UpdateServiceInstance id req);
     bc_DeleteServiceInstance id req := method (fake_DeleteServiceInstance id req);
     bc_PollServiceInstance id req := method (fake_PollServiceInstance id req);
     bc_CreateServiceBinding i b req := method (fake_CreateServiceBinding i b req);
     bc_DeleteServiceBinding i b sid pid := method (fake_DeleteServiceBinding i b sid pid) |}.
End fake.
Arguments Client : clear implicits.

(** ** What the fake is a fake of

    A broker that keeps a set of instances and a set of bindings, which the
    errors and responses it was set up with do not change. *)

Section contract.
Context {U : Type} {G : UUIDs U}.

Record Known := { known_instances : gset string; known_bindings : gset string }.
Definition known (w : Client U) : Known :=
  {| known_instances := dom (Instances (InstanceClient_ w)); known_bindings := dom (Bindings (BindingClient_ w)) |}.

(** Answers that do not depend on what is known. *)
Record Settings := {
  set_Catalog : CatalogClient; set_Code : Z; set_Create : CreateServiceInstanceResponse;
  set_Delete : DeleteServiceInstanceResponse; set_Poll : LastOperationResponse; set_Creds : Credential }.
Definition settings (w : Client U) : Settings :=
  let i := InstanceClient_ w in
  {| set_Catalog := CatalogClient_ w; set_Code := ResponseCode i;
     set_Create := {| csr_DashboardURL := ic_DashboardURL i; csr_Operation := ic_Operation i |};
     set_Delete := default {| dsi_Operation := "" |} (ic_DeleteServiceInstanceResponse i);
     set_Poll := default {| lo_State := ""; lo_Description := "" |} (ic_LastOperationResponse i);
     set_Creds := CreateCreds (BindingClient_ w) |}.
Definition no_errors (w : Client U) : Prop :=
  ic_CreateErr (InstanceClient_ w) = None /\ ic_DeleteErr (InstanceClient_ w) = None /\ ic_PollErr (InstanceClient_ w) = None /\
  bc_CreateErr (BindingClient_ w) = None /\ bc_DeleteErr (BindingClient_ w) = None.

Definition profile_error (p : ContextProfile) : option error :=
  if negb (bool_decide (Platform p = ContextProfilePlatformKubernetes)) then
    Some (PlainError (String.append "OSB context profile not set to " ContextProfilePlatformKubernetes))
  else if bool_decide (cp_Namespace p = "") then Some (PlainError "missing valid OSB context profile namespace")
  else None.

Definition abstract_call (t : Settings) (c : Call) (k : Known) : Reply * Known :=
  match c with
  | CGetCatalog => (RCatalog (RetCatalog (set_Catalog t)) (RetErr (set_Catalog t)), k)
  | CCreateServiceInstance id req =>
      if bool_decide (id ∈ known_instances k) then (RCreate None StatusConflict (Some ErrInstanceAlreadyExists), k)
      else
        match profile_error (csi_ContextProfile req) with
        | Some err => (RCreate None (set_Code t) (Some err), k)
        | None => (RCreate (Some (set_Create t)) (set_Code t) None,
                   {| known_instances := {[id]} ∪ known_instances k; known_bindings := known_bindings k |})
        end
  | CDeleteServiceInstance id _ =>
      if bool_decide (id ∈ known_instances k)
      then (RDelete (Some (set_Delete t)) (set_Code t) None,
            {| known_instances := known_instances k ∖ {[id]}; known_bindings := known_bindings k |})
      else (RDelete (Some (set_Delete t)) (set_Code t) (Some ErrInstanceNotFound), k)
  | CPollServiceInstance _ _ => (RPoll (Some (set_Poll t)) (set_Code t) None, k)
  | CCreateServiceBinding i b _ =>
      if bool_decide (BindingsMapKey i b ∈ known_bindings k) then (RBind None (Some ErrBindingAlreadyExists), k)
      else (RBind (Some {| csb_Credentials := set_Creds t |}) None,
            {| known_instances := known_instances k; known_bindings := {[BindingsMapKey i b]} ∪ known_bindings k |})
  | CDeleteServiceBinding i b _ _ =>
      if bool_decide (BindingsMapKey i b ∈ known_bindings k)
      then (RUnbind None, {| known_instances := known_instances k; known_bindings := known_bindings k ∖ {[BindingsMapKey i b]} |})
      else (RUnbind (Some ErrBindingNotFound), k)
  end.

Fixpoint abstract_calls (t : Settings) (cs : list Call) (k : Known) : list Reply * Known :=
  match cs with
  | [] => ([], k)
  | c :: cs' => let '(r, k1) := abstract_call t c k in let '(rs, k2) := abstract_calls t cs' k1 in (r :: rs, k2)
  end.

Lemma exists_known id (w : Client U) : instance_exists id (InstanceClient_ w) = bool_decide (id ∈ known_instances (known w)).
Proof. apply bool_decide_ext. unfold known. cbn. by rewrite elem_of_dom. Qed.
Lemma binding_known i b (w : Client U) :
  binding_exists i b (BindingClient_ w) = bool_decide (BindingsMapKey i b ∈ known_bindings (known w)).
Proof. apply bool_decide_ext. unfold known. cbn. by rewrite elem_of_dom. Qed.

(** [w] answers as set up, and knows [k]. *)
Definition simulates (t : Settings) (k : Known) (w : Client U) : Prop := settings w = t /\ known w = k /\ no_errors w.

Lemma put_instance_simulates id req (w : Client U) t k : simulates t k w ->
  simulates t {| known_instances := {[id]} ∪ known_instances k; known_bindings := known_bindings k |} (snd (put_instance id req w)).
Proof.
  intros (<- & <- & He). unfold put_instance, convertInstanceRequest.
  destruct (NewV4 (uuids w)) as [u1 s1]. destruct (NewV4 s1) as [u2 s2]. split_and!; [done| |done].
  unfold known. cbn. f_equal. apply dom_insert_L.
Qed.

Lemma fake_call_simulates t k (w : Client U) c : simulates t k w ->
  exists w', client_call NewClientFunc c w = (Ok (fst (abstract_call t c k)), w', []) /\ simulates t (snd (abstract_call t c k)) w'.
Proof.
  intros Hsim. pose proof Hsim as (Ht & Hk & He1 & He2 & He3 & He4 & He5).
  destruct c as [|id req|id req|id req|i b req|i b sid pid]; cbn [client_call NewClientFunc bc_GetCatalog bc_CreateServiceInstance
    bc_DeleteServiceInstance bc_PollServiceInstance bc_CreateServiceBinding bc_DeleteServiceBinding];
  unfold Prelude.bind, method, call, abstract_call.
  - exists w. subst t k. by destruct w.
  - unfold fake_CreateServiceInstance, profile_error. rewrite He1, exists_known, Hk.
    case_bool_decide; [exists w; by subst|]. destruct (negb _); [exists w; by subst|]. case_bool_decide; [exists w; by subst|].
    pose proof (put_instance_simulates id req w t k Hsim) as Hput. destruct (put_instance id req w) as [inst w'].
    exists w'. by subst t.
  - unfold fake_DeleteServiceInstance. rewrite He2, exists_known, Hk. case_bool_decide; [|exists w; by subst].
    eexists. split; [by subst t|]. subst t k. split_and!; [done| |done..]. unfold known. cbn. f_equal. apply dom_delete_L.
  - unfold fake_PollServiceInstance. rewrite He3. exists w. by subst.
  - unfold fake_CreateServiceBinding. rewrite He4, binding_known, Hk. case_bool_decide; [exists w; by subst|].
    unfold convertBindingRequest. destruct (NewV4 (uuids w)) as [u s']. eexists. split; [by subst t|].
    subst t k. split_and!; [done| |done..]. unfold known. cbn. f_equal. apply dom_insert_L.
  - unfold fake_DeleteServiceBinding. rewrite He5, binding_known, Hk. case_bool_decide; [|exists w; by subst].
    eexists. split; [done|]. subst t k. split_and!; [done| |done..]. unfold known. cbn. f_equal. apply dom_delete_L.
Qed.

(** Set up without errors, the fake client answers any sequence of calls as
    the set of known instances and bindings does: an instance is known from a
    successful creation to a successful deletion, creating a known one is a
    conflict, deleting an unknown one is an error, and so for bindings. *)
Theorem fake_client_refines_sets (cs : list Call) (w : Client U) (He : no_errors w) :
  exists w', client_calls NewClientFunc cs w = (Ok (fst (abstract_calls (settings w) cs (known w))), w', []) /\
    known w' = snd (abstract_calls (settings w) cs (known w)).
Proof.
  assert (Hs : simulates (settings w) (known w) w) by by split_and!.
  revert Hs. generalize (settings w) as t. generalize (known w) at 1 2 3 as k. clear He. revert w.
  induction cs as [|c cs IH]; intros w k t Hs; [exists w; by destruct Hs as (_ & -> & _)|].
  destruct (fake_call_simulates t k w c Hs) as (w1 & Hc & Hs1). cbn [client_calls abstract_calls]. unfold Prelude.bind. rewrite Hc.
  destruct (abstract_call t c k) as [r k1]. cbn [fst snd] in *. destruct (IH w1 k1 t Hs1) as (w2 & Hcs & Hk).
  rewrite Hcs. destruct (abstract_calls t cs k1) as [rs k2]. by exists w2.
Qed.
End contract.

Definition counting : UUIDs Z := {| NewV4 n := (itoa n, n + 1) |}.
Definition new_fake : Client Z :=
  {| CatalogClient_ := {| RetCatalog := None; RetErr := None |}; InstanceClient_ := NewInstanceClient;
     BindingClient_ := NewBindingClient; uuids := 0 |}.
Definition fake_calls : list Call :=
  let create := {| csi_OrgID := ""; csi_PlanID := "p"; csi_ServiceID := "s"; csi_SpaceID := ""; csi_Parameters := None;
                   csi_AcceptsIncomplete := false; csi_ContextProfile := {| Platform := "kubernetes"; cp_Namespace := "ns" |} |} in
  let remove := {| dsr_ServiceID := "s"; dsr_PlanID := "p"; dsr_AcceptsIncomplete := false |} in
  [CCreateServiceInstance "i" create; CCreateServiceInstance "i" create; CDeleteServiceInstance "i" remove; CDeleteServiceInstance "i" remove].

Lemma fake_client_refines_sets_witness :
  exists w', client_calls (NewClientFunc (G := counting)) fake_calls new_fake =
    (Ok [RCreate (Some {| csr_DashboardURL := ""; csr_Operation := "" |}) 200 None;
         RCreate None 409 (Some ErrInstanceAlreadyExists);
         RDelete (Some {| dsi_Operation := "" |}) 200 None;
         RDelete (Some {| dsi_Operation := "" |}) 200 (Some ErrInstanceNotFound)], w', []) /\
    known_instances (known w') = ∅.
Proof.
  destruct (fake_client_refines_sets (G := counting) fake_calls new_fake) as (w' & H & Hk); [by split_and!|].
  exists w'. rewrite H, Hk. split; vm_compute; reflexivity.
Defined.

(** ** The fake broker server

    [openservicebroker/util/fake_broker_server.go]: a broker of the network that
    answers as it was told and keeps what it was sent.  [Start] and [Stop], which
    open and close its port, are the network's; what the router does with a
    request is [serve_fake].  A form value is a query parameter here: the bodies
    are read before, and none is a form. *)
Module Server.

Definition asyncProvisionQueryParamKey : string := "accepts_incomplete".
Definition LastOperationResponseTestDescription : string := "test description for last operation".

Inductive Received :=
  | ReceivedLastOperation (r : LastOperationRequest)
  | ReceivedCreate (r : CreateServiceInstanceRequest)
  | ReceivedDelete (r : DeleteServiceInstanceRequest)
  | ReceivedBinding (r : BindingRequest).

Record FakeServiceBrokerServer := {
  responseStatus : Z; operation : string; lastOperationState : string;
  RequestObject : option Received; Request : option HTTPRequest }.

Definition SetResponseStatus (status : Z) (f : FakeServiceBrokerServer) : FakeServiceBrokerServer :=
  Build_FakeServiceBrokerServer status (operation f) (lastOperationState f) (RequestObject f) (Request f).
Definition SetOperation (op : string) (f : FakeServiceBrokerServer) : FakeServiceBrokerServer :=
  Build_FakeServiceBrokerServer (responseStatus f) op (lastOperationState f) (RequestObject f) (Request f).
Definition SetLastOperationState (state : string) (f : FakeServiceBrokerServer) : FakeServiceBrokerServer :=
  Build_FakeServiceBrokerServer (responseStatus f) (operation f) state (RequestObject f) (Request f).
Definition keep_Request (r : HTTPRequest) (f : FakeServiceBrokerServer) : FakeServiceBrokerServer :=
  Build_FakeServiceBrokerServer (responseStatus f) (operation f) (lastOperationState f) (RequestObject f) (Some r).
Definition keep_RequestObject (o : Received) (f : FakeServiceBrokerServer) : FakeServiceBrokerServer :=
  Build_FakeServiceBrokerServer (responseStatus f) (operation f) (lastOperationState f) (Some o) (Request f).

Definition StatusForbidden : Z := 403.

Section handlers.
Context {J : JsonDecoding}.
Local Notation Handler := ((string -> string) -> HTTPRequest -> FakeServiceBrokerServer -> HTTPResponse * FakeServiceBrokerServer).

(** Only in the body of a message. *)
Definition LastOperationRequest_codec : Codec LastOperationRequest :=
  struct {| lor_ServiceID := ""; lor_PlanID := ""; lor_Operation := "" |}
    [field "service_id" true string_codec lor_ServiceID (fun v s =>
       {| lor_ServiceID := v; lor_PlanID := lor_PlanID s; lor_Operation := lor_Operation s |});
     field "plan_id" true string_codec lor_PlanID (fun v s =>
       {| lor_ServiceID := lor_ServiceID s; lor_PlanID := v; lor_Operation := lor_Operation s |});
     field "operation" true string_codec lor_Operation (fun v s =>
       {| lor_ServiceID := lor_ServiceID s; lor_PlanID := lor_PlanID s; lor_Operation := v |})].

Definition FormValue (r : HTTPRequest) (key : string) : string := query_Get key (rq_Query r).
Definition bad_request : HTTPResponse := plain_response StatusBadRequest [] "".

Definition catalogHandler : Handler := fun _ r f => (WriteResponse StatusOK Catalog_codec (zero Catalog_codec), f).

Definition lastOperationHandler : Handler := fun _ r f =>
  let f := keep_Request r f in
  match BodyToObject "brokerapi.LastOperationRequest" r LastOperationRequest_codec with
  | inr _ => (bad_request, f)
  | inl req =>
      let f := keep_RequestObject (ReceivedLastOperation req) f in
      let state := if bool_decide (lastOperationState f = "") then "in progress" else lastOperationState f in
      (WriteResponse (responseStatus f) LastOperationResponse_codec
         {| lo_State := state; lo_Description := LastOperationResponseTestDescription |}, f)
  end.

Definition provisionHandler : Handler := fun _ r f =>
  let f := keep_Request r f in
  match BodyToObject "brokerapi.CreateServiceInstanceRequest" r CreateServiceInstanceRequest_codec with
  | inr _ => (bad_request, f)
  | inl req =>
      let f := keep_RequestObject (ReceivedCreate req) f in
      if negb (bool_decide (FormValue r asyncProvisionQueryParamKey = "true"))
      then (WriteResponse (responseStatus f) CreateServiceInstanceResponse_codec (zero CreateServiceInstanceResponse_codec), f)
      else (WriteResponse StatusAccepted CreateServiceInstanceResponse_codec
              {| csr_DashboardURL := ""; csr_Operation := operation f |}, f)
  end.

Definition deprovisionHandler : Handler := fun _ r f =>
  let f := keep_Request r f in
  let q := rq_Query r in
  let req := {| dsr_ServiceID := query_Get "service_id" q; dsr_PlanID := query_Get "plan_id" q;
                dsr_AcceptsIncomplete := bool_decide (query_Get "accepts_incomplete" q = "true") |} in
  let f := keep_RequestObject (ReceivedDelete req) f in
  if negb (bool_decide (FormValue r asyncProvisionQueryParamKey = "true"))
  then (WriteResponse (responseStatus f) DeleteServiceInstanceResponse_codec (zero DeleteServiceInstanceResponse_codec), f)
  else (WriteResponse StatusAccepted CreateServiceInstanceResponse_codec
          {| csr_DashboardURL := ""; csr_Operation := operation f |}, f).

(** The body is [null]. *)
Definition updateHandler : Handler := fun _ r f => (WriteResponse StatusForbidden any_codec JNull, f).

Definition bindHandler : Handler := fun _ r f =>
  let f := keep_Request r f in
  match BodyToObject "brokerapi.BindingRequest" r BindingRequest_codec with
  | inr _ => (bad_request, f)
  | inl req =>
      let f := keep_RequestObject (ReceivedBinding req) f in
      (WriteResponse (responseStatus f) DeleteServiceInstanceResponse_codec (zero DeleteServiceInstanceResponse_codec), f)
  end.

Definition unbindHandler : Handler := fun _ r f =>
  let f := keep_Request r f in
  (WriteResponse (responseStatus f) DeleteServiceInstanceResponse_codec (zero DeleteServiceInstanceResponse_codec), f).

Definition fake_routes : list (Route FakeServiceBrokerServer) :=
  let instance := [Lit "v2"; Lit "service_instances"; Var "id"] in
  let binding := [Lit "v2"; Lit "service_instances"; Var "instance_id"; Lit "service_bindings"; Var "binding_id"] in
  [{| rt_Template := [Lit "v2"; Lit "catalog"]; rt_Method := "GET"; rt_Handler := catalogHandler |};
   {| rt_Template := instance ++ [Lit "last_operation"]; rt_Method := "GET"; rt_Handler := lastOperationHandler |};
   {| rt_Template := instance; rt_Method := "PUT"; rt_Handler := provisionHandler |};
   {| rt_Template := instance; rt_Method := "PATCH"; rt_Handler := updateHandler |};
   {| rt_Template := binding; rt_Method := "PUT"; rt_Handler := bindHandler |};
   {| rt_Template := binding; rt_Method := "DELETE"; rt_Handler := unbindHandler |};
   {| rt_Template := instance; rt_Method := "DELETE"; rt_Handler := deprovisionHandler |}].

(** The headers the subrouter asks for; credentials travel in a header. *)
Definition has_header (key : string) (r : HTTPRequest) : bool :=
  existsb (fun h => bool_decide (fst h = key)) (rq_Header r) ||
  bool_decide (key = "Authorization") && match rq_BasicAuth r with Some _ => true | None => false end.

Definition serve_fake (r : HTTPRequest) (f : FakeServiceBrokerServer) : HTTPResponse * FakeServiceBrokerServer :=
  ServeHTTP (if has_header APIVersionHeader r && has_header "Authorization" r then fake_routes else []) r f.

Definition at_fake : HTTPClient FakeServiceBrokerServer :=
  {| Do r f := let '(resp, f') := serve_fake r f in (inl resp, f'); address_error _ := None |}.
End handlers.

(** What a client finds: the reply of each call to a server that is set up with
    a status that comes with a body and is no redirect. *)
Section calls.
Context {J : JsonDecoding} (name url username password : string).
Let cl := NewClient (H := at_fake) name url username password.

(** The replies of the client by status code. *)
Definition create_status (resp : CreateServiceInstanceResponse) (code : Z) : Reply :=
  if (code =? StatusCreated) || (code =? StatusOK) || (code =? StatusAccepted) then RCreate (Some resp) code None
  else if code =? StatusConflict then RCreate None code (Some errConflict)
  else if code =? StatusUnprocessableEntity then RCreate None code (Some errAsynchronous)
  else RCreate None code (Some (errStatusCode code)).
Definition delete_status (resp : DeleteServiceInstanceResponse) (code : Z) : Reply :=
  RDelete (Some resp) code
    (if (code =? StatusOK) || (code =? StatusAccepted) || (code =? StatusGone) then None
     else if code =? StatusUnprocessableEntity then Some errAsynchronous else Some (errStatusCode code)).

(** The reply to a call, and what the server notes. *)
Definition fake_reply (c : Call) (f : FakeServiceBrokerServer) : Reply * option Received :=
  match c with
  | CGetCatalog => (RCatalog (Some (zero Catalog_codec)) None, RequestObject f)
  | CCreateServiceInstance _ req =>
      (if csi_AcceptsIncomplete req
       then RCreate (Some {| csr_DashboardURL := ""; csr_Operation := operation f |}) StatusAccepted None
       else create_status (zero CreateServiceInstanceResponse_codec) (responseStatus f),
       Some (ReceivedCreate (csi_with_Parameters (nil_if_empty (csi_Parameters req)) req)))
  | CDeleteServiceInstance _ req =>
      (if dsr_AcceptsIncomplete req then RDelete (Some {| dsi_Operation := operation f |}) StatusAccepted None
       else delete_status (zero DeleteServiceInstanceResponse_codec) (responseStatus f),
       Some (ReceivedDelete req))
  | CPollServiceInstance _ req =>
      if bool_decide (lor_ServiceID req = "") then
        (RPoll None 0 (Some (PlainError "LastOperationRequest is missing service_id")), RequestObject f)
      else if bool_decide (lor_PlanID req = "") then
        (RPoll None 0 (Some (PlainError "LastOperationRequest is missing plan_id")), RequestObject f)
      else
        (if responseStatus f =? StatusOK then
           RPoll (Some {| lo_State := if bool_decide (lastOperationState f = "") then "in progress" else lastOperationState f;
                          lo_Description := LastOperationResponseTestDescription |}) StatusOK None
         else RPoll None (responseStatus f) (Some (errStatusCode (responseStatus f))),
         Some (ReceivedLastOperation (zero LastOperationRequest_codec)))
  | CCreateServiceBinding _ _ req =>
      (let code := responseStatus f in
       if (code =? StatusCreated) || (code =? StatusOK) then RBind (Some {| csb_Credentials := None |}) None
       else if code =? StatusConflict then RBind None (Some errBindingConflict) else RBind None (Some (errStatusCode code)),
       Some (ReceivedBinding (Build_BindingRequest (brq_AppGUID req) (brq_PlanID req) (brq_ServiceID req)
         (nil_if_empty (brq_BindResource req)) (nil_if_empty (brq_Parameters req)))))
  | CDeleteServiceBinding _ _ _ _ =>
      (let code := responseStatus f in
       RUnbind (if code =? StatusOK then None else if code =? StatusGone then Some errBindingGone else Some (errStatusCode code)),
       RequestObject f)
  end.

(** [f] and [f'] differ in what they keep of requests only. *)
Definition same_setup (f f' : FakeServiceBrokerServer) : Prop :=
  responseStatus f' = responseStatus f /\ operation f' = operation f /\ lastOperationState f' = lastOperationState f.

Lemma request_handled c method target segs ps body h f :
  target = tail_of segs -> Forall (fun s => plain_name s = true) segs -> segs <> [] ->
  handler_of fake_routes method segs = Some h ->
  newOSBRequest (H := at_fake) c method target ps body = inl (request_of c method segs ps body) /\
  run_of (send (H := at_fake) (request_of c method segs ps body)) f =
    (Ok (inl (fst (h (request_of c method segs ps body) f))), snd (h (request_of c method segs ps body) f)).
Proof.
  intros -> Hs Hne Hh. split.
  - unfold newOSBRequest. cbn [address_error at_fake]. rewrite parseURL_path; [done|].
    apply tail_path_chars. eapply List.Forall_impl; [|exact Hs]. apply plain_special.
  - unfold run_of, send, call. cbn [Do at_fake]. unfold serve_fake.
    replace (has_header APIVersionHeader _ && _) with true by (by destruct body).
    rewrite (ServeHTTP_handler _ (request_of c method segs ps body) segs f h) by done. by destruct (h _ f).
Qed.

Lemma object_handled c method target segs ps object h f :
  target = tail_of segs -> Forall (fun s => plain_name s = true) segs -> segs <> [] ->
  handler_of fake_routes method segs = Some h ->
  run_of (sendOSBRequest (H := at_fake) c method target ps object) f =
    (Ok (Some (fst (h (request_of c method segs ps (Some (encode object))) f)), None),
     snd (h (request_of c method segs ps (Some (encode object))) f)).
Proof.
  intros Ht Hs Hne Hh. unfold sendOSBRequest.
  destruct (request_handled c method target segs ps (Some (encode object)) h f Ht Hs Hne Hh) as [-> Hr].
  by rewrite outcome_bind, Hr.
Qed.

Lemma read_reply {T} typ code (c : Codec T) t : survives false c t -> ResponseBodyToObject typ (WriteResponse code c t) c = inl t.
Proof. intros Hs. apply (wire_survives false typ c t Hs). Qed.

(** The reply to an asynchronous deletion is written as that of a creation. *)
Lemma read_operation typ code op :
  ResponseBodyToObject typ (WriteResponse code CreateServiceInstanceResponse_codec {| csr_DashboardURL := ""; csr_Operation := op |})
    DeleteServiceInstanceResponse_codec = inl {| dsi_Operation := op |}.
Proof. apply (read_reply typ code DeleteServiceInstanceResponse_codec {| dsi_Operation := op |}), DeleteServiceInstanceResponse_survives. Qed.
Lemma read_bound typ code :
  ResponseBodyToObject typ (WriteResponse code DeleteServiceInstanceResponse_codec (zero DeleteServiceInstanceResponse_codec))
    CreateServiceBindingResponse_codec = inl {| csb_Credentials := None |}.
Proof.
  unfold ResponseBodyToObject, WriteResponse, Unmarshal, Marshal. cbn [rs_Body].
  change (enc DeleteServiceInstanceResponse_codec _) with (JObject []). by rewrite parse_encode.
Qed.
Lemma format_true b : bool_decide (format_bool b = "true") = b.
Proof. by destruct b. Qed.
Lemma read_null r : rq_Body r = Some (encode JNull) ->
  BodyToObject "brokerapi.LastOperationRequest" r LastOperationRequest_codec = inl (zero LastOperationRequest_codec).
Proof. intros Hb. unfold BodyToObject, Unmarshal. rewrite Hb. cbn [default from_option id]. by rewrite parse_encode. Qed.

Lemma empty_catalog_survives : survives false Catalog_codec (zero Catalog_codec).
Proof. by apply Catalog_survives. Qed.

Ltac fake_routed :=
  first [by rewrite ?target_instance, ?target_polling, ?target_binding
        |by (repeat (constructor; [done|]); constructor)
        |by (cbn; rewrite ?plain_nonempty by done)].
Ltac read :=
  cbn [fst snd deref]; rewrite ?outcome_bind;
  cbn -[ResponseBodyToObject WriteResponse Z.eqb Catalog_codec CreateServiceInstanceResponse_codec
        DeleteServiceInstanceResponse_codec LastOperationResponse_codec CreateServiceBindingResponse_codec];
  first [rewrite read_operation | rewrite read_bound
        |rewrite read_reply by first [exact empty_catalog_survives | apply CreateServiceInstanceResponse_survives
                                     |apply DeleteServiceInstanceResponse_survives | apply LastOperationResponse_survives]
        |idtac].
Ltac forget_request :=
  match goal with |- context [request_of ?c ?m ?s ?p ?b] => generalize (request_of c m s p b) end; intros r.
Ltac status := cbn -[Z.eqb]; repeat (match goal with |- context [Z.eqb ?a ?b] => destruct (Z.eqb a b) end; cbn -[Z.eqb]).
Ltac finish := eexists; split; [unfold create_status, delete_status; first [reflexivity | status; reflexivity]|done].

Definition spec_call (c : Call) (f : FakeServiceBrokerServer) : Prop :=
  exists f', run_of (client_call cl c) f = (Ok (fst (fake_reply c f)), f') /\ same_setup f f' /\ RequestObject f' = snd (fake_reply c f).

Lemma fake_catalog f : spec_call CGetCatalog f.
Proof.
  unfold spec_call. cbn [client_call cl NewClient bc_GetCatalog fake_reply fst snd]. rewrite outcome_bind. unfold GetCatalog.
  destruct (request_handled {| oc_name := name; oc_url := TrimRight url; oc_username := username; oc_password := password |}
    "GET" catalogTarget ["v2"; "catalog"] None None (catalogHandler (mux_Vars [])) f) as [-> Hr]; [done|by repeat constructor|done|done|].
  rewrite outcome_bind, Hr. unfold catalogHandler. read. finish.
Qed.


Lemma fake_create ID req f : carried (CCreateServiceInstance ID req) -> spec_call (CCreateServiceInstance ID req) f.
Proof.
  intros [Hid Hp]. unfold spec_call. cbn [client_call cl NewClient bc_CreateServiceInstance]. rewrite outcome_bind.
  unfold CreateServiceInstance.
  rewrite outcome_bind, (object_handled _ _ _ ["v2"; "service_instances"; ID] _ _ (provisionHandler (mux_Vars [("id", ID)])))
    by (fake_routed || done).
  unfold provisionHandler. rewrite (read_create_request _ req Hp) by done.
  change (FormValue _ _) with (format_bool (csi_AcceptsIncomplete req)). forget_request. rewrite format_true. cbn [fake_reply].
  destruct (csi_AcceptsIncomplete req); read; finish.
Qed.

Lemma fake_delete ID req f : carried (CDeleteServiceInstance ID req) -> spec_call (CDeleteServiceInstance ID req) f.
Proof.
  intros Hid. unfold spec_call. cbn [client_call cl NewClient bc_DeleteServiceInstance]. rewrite outcome_bind.
  unfold DeleteServiceInstance.
  rewrite outcome_bind, (object_handled _ _ _ ["v2"; "service_instances"; ID] _ _ (deprovisionHandler (mux_Vars [("id", ID)])))
    by (fake_routed || done).
  unfold deprovisionHandler. change (FormValue _ _) with (format_bool (dsr_AcceptsIncomplete req)).
  change (query_Get "accepts_incomplete" _) with (format_bool (dsr_AcceptsIncomplete req)).
  change (query_Get "service_id" _) with (dsr_ServiceID req). change (query_Get "plan_id" _) with (dsr_PlanID req).
  rewrite format_true. forget_request. destruct req as [sid pid []]; read; finish.
Qed.

Lemma fake_poll ID req f : carried (CPollServiceInstance ID req) -> spec_call (CPollServiceInstance ID req) f.
Proof.
  intros Hid. unfold spec_call. cbn [client_call cl NewClient bc_PollServiceInstance fake_reply]. rewrite outcome_bind.
  unfold PollServiceInstance. case_bool_decide; [finish|]. case_bool_decide; [finish|].
  rewrite outcome_bind, (object_handled _ _ _ ["v2"; "service_instances"; ID; "last_operation"] _ _
    (lastOperationHandler (mux_Vars [("id", ID)]))) by (fake_routed || done).
  unfold lastOperationHandler. rewrite read_null by done. read.
  match goal with |- context [rs_StatusCode ?w] => change (rs_StatusCode w) with (responseStatus f) end.
  destruct (responseStatus f =? StatusOK) eqn:E; cbn [negb]; [|eexists; split; [reflexivity|done]].
  apply Z.eqb_eq in E. rewrite E. read. finish.
Qed.

Lemma fake_bind i b req f : carried (CCreateServiceBinding i b req) -> spec_call (CCreateServiceBinding i b req) f.
Proof.
  intros (Hi & Hb & H1 & H2). unfold spec_call. cbn [client_call cl NewClient bc_CreateServiceBinding]. rewrite outcome_bind.
  unfold CreateServiceBinding.
  destruct (request_handled {| oc_name := name; oc_url := TrimRight url; oc_username := username; oc_password := password |}
    "PUT" (bindingTarget i b) ["v2"; "service_instances"; i; "service_bindings"; b] None (Some (Marshal BindingRequest_codec req))
    (bindHandler (mux_Vars [("instance_id", i); ("binding_id", b)])) f) as [-> Hr]; [fake_routed..|].
  rewrite outcome_bind, Hr. unfold bindHandler. rewrite (read_bind_request _ req H1 H2) by done. read. finish.
Qed.

Lemma fake_unbind i b sid pid f : carried (CDeleteServiceBinding i b sid pid) -> spec_call (CDeleteServiceBinding i b sid pid) f.
Proof.
  intros (Hi & Hb). unfold spec_call. cbn [client_call cl NewClient bc_DeleteServiceBinding]. rewrite outcome_bind.
  unfold DeleteServiceBinding.
  destruct (request_handled {| oc_name := name; oc_url := TrimRight url; oc_username := username; oc_password := password |}
    "DELETE" (bindingTarget i b) ["v2"; "service_instances"; i; "service_bindings"; b] (Some [("service_id", sid); ("plan_id", pid)])
    None (unbindHandler (mux_Vars [("instance_id", i); ("binding_id", b)])) f) as [-> Hr]; [fake_routed..|].
  rewrite outcome_bind, Hr. unfold unbindHandler. finish.
Qed.

Lemma fake_reply_setup c f f' : same_setup f f' -> fst (fake_reply c f') = fst (fake_reply c f).
Proof. intros (Hs & Ho & Hl). destruct c; cbn; rewrite ?Hs, ?Ho, ?Hl; repeat case_bool_decide; done. Qed.

(** Any sequence of calls through a client gets the replies the server was set
    up for, each in the same way: asynchronous requests are accepted with the
    operation, the others answered with the status, and nothing a call does
    changes what a later one is told. *)
Theorem fake_server_answers_as_set_up (cs : list Call) (f : FakeServiceBrokerServer) (Hc : Forall carried cs) :
  exists f', run_of (client_calls cl cs) f = (Ok (map (fun c => fst (fake_reply c f)) cs), f') /\ same_setup f f'.
Proof.
  assert (Hcall : forall c g, carried c -> spec_call c g).
  { intros c g Hcc. destruct c; [by apply fake_catalog|by apply fake_create|by apply fake_delete|by apply fake_poll
                               |by apply fake_bind|by apply fake_unbind]. }
  enough (H : forall g, same_setup f g ->
    exists f', run_of (client_calls cl cs) g = (Ok (map (fun c => fst (fake_reply c f)) cs), f') /\ same_setup f f')
    by (by apply H).
  induction Hc as [|c cs Hcc _ IH]; intros g Hg; [by exists g|]. cbn [client_calls map].
  destruct (Hcall c g Hcc) as (g1 & Hr & (Hs1 & Ho1 & Hl1) & _). rewrite outcome_bind, Hr.
  destruct (IH g1) as (g2 & Hr2 & Hg2); [unfold same_setup in *; intuition congruence|].
  rewrite outcome_bind, Hr2, (fake_reply_setup c f g Hg). by exists g2.
Qed.

(** The server reads a poll's parameters from its body, where the client does
    not put them: the request it notes is empty, whatever was asked. *)
Theorem fake_server_notes_empty_polls (ID : string) (req : LastOperationRequest) (f : FakeServiceBrokerServer)
    (Hid : plain_name ID = true) (Hs : lor_ServiceID req <> "") (Hp : lor_PlanID req <> "") :
  RequestObject (snd (run_of (client_call cl (CPollServiceInstance ID req)) f)) =
  Some (ReceivedLastOperation {| lor_ServiceID := ""; lor_PlanID := ""; lor_Operation := "" |}).
Proof.
  destruct (fake_poll ID req f Hid) as (f' & -> & _ & H). cbn [snd] in *. rewrite H. cbn.
  by rewrite !bool_decide_eq_false_2 by done.
Qed.
End calls.
End Server.

(** ** The recording broker

    [fake/server/handler.go]: a [brokerapi.ServiceBroker] of
    [github.com/pivotal-cf/brokerapi] with canned answers, which keeps the
    arguments of its calls.  It only passes the types of that package on, so they
    are parameters. *)
Module Recorder.
Section handler.
Context {Service ProvisionDetails ProvisionedServiceSpec DeprovisionDetails DeprovisionServiceSpec BindDetails Binding
  UnbindDetails UpdateDetails UpdateServiceSpec LastOperation_ : Type}.

Record ProvisionRequest := { pr_InstanceID : string; pr_Details : ProvisionDetails; pr_AsyncAllowed : bool }.
Record DeprovisionRequest := { dr_InstanceID : string; dr_Details : DeprovisionDetails }.
Record BindRequest := { br_InstanceID : string; br_BindingID : string; br_Details : BindDetails }.
Record UnbindRequest := { ur_InstanceID : string; ur_BindingID : string; ur_Details : UnbindDetails }.
Record UpdateRequest := { up_InstanceID : string; up_Details : UpdateDetails; up_AsyncAllowed : bool }.
Record LastOperationRequest := { lr_InstanceID : string; lr_OperationData : string }.

(** The answers. *)
Record Answers := {
  h_Catalog : list Service;
  ProvisionResp : ProvisionedServiceSpec; ProvisionRespError : option error;
  DeprovisionResp : DeprovisionServiceSpec; DeprovisonRespErr : option error;
  BindResp : Binding; BindRespErr : option error;
  UnbindRespErr : option error;
  UpdateResp : UpdateServiceSpec; UpdateRespErr : option error;
  LastOperationResp : LastOperation_; LastOperationRespErr : option error }.

(** The calls that were noted. *)
Record Handler := {
  answers : Answers; CatalogRequests : Z; ProvisionRequests : list ProvisionRequest;
  DeprovisionRequests : list DeprovisionRequest; BindRequests : list BindRequest; UnbindRequests : list UnbindRequest;
  UpdateRequests : list UpdateRequest; LastOperationRequests : list LastOperationRequest }.

Definition Services (h : Handler) : list Service * Handler :=
  let h := Build_Handler (answers h) (CatalogRequests h + 1) (ProvisionRequests h) (DeprovisionRequests h) (BindRequests h)
             (UnbindRequests h) (UpdateRequests h) (LastOperationRequests h) in
  (h_Catalog (answers h), h).

Definition Provision (instanceID : string) (details : ProvisionDetails) (asyncAllowed : bool) (h : Handler) :
    (ProvisionedServiceSpec * option error) * Handler :=
  let r := {| pr_InstanceID := instanceID; pr_Details := details; pr_AsyncAllowed := asyncAllowed |} in
  let h := Build_Handler (answers h) (CatalogRequests h) (ProvisionRequests h ++ [r]) (DeprovisionRequests h) (BindRequests h)
             (UnbindRequests h) (UpdateRequests h) (LastOperationRequests h) in
  ((ProvisionResp (answers h), ProvisionRespError (answers h)), h).

Definition Deprovision (instanceID : string) (details : DeprovisionDetails) (asyncAllowed : bool) (h : Handler) :
    (DeprovisionServiceSpec * option error) * Handler :=
  let r := {| dr_InstanceID := instanceID; dr_Details := details |} in
  let h := Build_Handler (answers h) (CatalogRequests h) (ProvisionRequests h) (DeprovisionRequests h ++ [r]) (BindRequests h)
             (UnbindRequests h) (UpdateRequests h) (LastOperationRequests h) in
  ((DeprovisionResp (answers h), DeprovisonRespErr (answers h)), h).

Definition Bind (instanceID bindingID : string) (details : BindDetails) (h : Handler) : (Binding * option error) * Handler :=
  let r := {| br_InstanceID := instanceID; br_BindingID := bindingID; br_Details := details |} in
  let h := Build_Handler (answers h) (CatalogRequests h) (ProvisionRequests h) (DeprovisionRequests h) (BindRequests h ++ [r])
             (UnbindRequests h) (UpdateRequests h) (LastOperationRequests h) in
  ((BindResp (answers h), BindRespErr (answers h)), h).

Definition Unbind (instanceID bindingID : string) (details : UnbindDetails) (h : Handler) : option error * Handler :=
  let r := {| ur_InstanceID := instanceID; ur_BindingID := bindingID; ur_Details := details |} in
  let h := Build_Handler (answers h) (CatalogRequests h) (ProvisionRequests h) (DeprovisionRequests h) (BindRequests h)
             (UnbindRequests h ++ [r]) (UpdateRequests h) (LastOperationRequests h) in
  (UnbindRespErr (answers h), h).

Definition Update (instanceID : string) (details : UpdateDetails) (asyncAllowed : bool) (h : Handler) :
    (UpdateServiceSpec * option error) * Handler :=
  let r := {| up_InstanceID := instanceID; up_Details := details; up_AsyncAllowed := asyncAllowed |} in
  let h := Build_Handler (answers h) (CatalogRequests h) (ProvisionRequests h) (DeprovisionRequests h) (BindRequests h)
             (UnbindRequests h) (UpdateRequests h ++ [r]) (LastOperationRequests h) in
  ((UpdateResp (answers h), UpdateRespErr (answers h)), h).

Definition LastOperation (instanceID operationData : string) (h : Handler) : (LastOperation_ * option error) * Handler :=
  let r := {| lr_InstanceID := instanceID; lr_OperationData := operationData |} in
  let h := Build_Handler (answers h) (CatalogRequests h) (ProvisionRequests h) (DeprovisionRequests h) (BindRequests h)
             (UnbindRequests h) (UpdateRequests h) (LastOperationRequests h ++ [r]) in
  ((LastOperationResp (answers h), LastOperationRespErr (answers h)), h).
End handler.
End Recorder.
