(* ===== verification/Selectors.v ===== *)
(** * Field selectors

    How classes and plans are found by name: the selectors the controller and
    the admission plugins write, the parser and matcher of the vendored
    [k8s.io/apimachinery/pkg/fields], and the fields the registries of classes
    and plans select by ([toSelectableFields], [GetAttrs], [Match] of their
    [storage.go]).  Strings are taken character by character; labels are absent
    and no object has initializers. *)

From stdpp Require Import gmap strings list sorting.
From S2P Require Import Prelude Types.

#[local] Arguments String.append !_ _ / : simpl nomatch.

Definition is_code (n : nat) (c : Ascii.ascii) : bool := Nat.eqb (Ascii.nat_of_ascii c) n.
Definition backslash := is_code 92.
Definition comma := is_code 44.
Definition equals := is_code 61.
Definition bang := is_code 33.
Definition chr (n : nat) : Ascii.ascii := Ascii.ascii_of_nat n.
Definition one (c : Ascii.ascii) : string := String c EmptyString.

(** ** Selectors *)

(** [Set]; [Get] of a missing field is the empty string. *)
Notation FieldSet := (gmap string string).
Definition fields_Get (field : string) (ls : FieldSet) : string := default "" (ls !! field).

Inductive Selector :=
| hasTerm (field value : string)
| notHasTerm (field value : string)
| andTerm (l : list Selector).

Fixpoint Matches (t : Selector) (ls : FieldSet) : bool :=
  match t with
  | hasTerm field value => bool_decide (fields_Get field ls = value)
  | notHasTerm field value => negb (bool_decide (fields_Get field ls = value))
  | andTerm l => (fix all (l : list Selector) : bool :=
      match l with [] => true | q :: l' => if Matches q ls then all l' else false end) l
  end.

Fixpoint Selector_Empty (t : Selector) : bool :=
  match t with
  | hasTerm _ _ | notHasTerm _ _ => false
  | andTerm l => (fix all (l : list Selector) : bool :=
      match l with [] => true | q :: l' => if Selector_Empty q then all l' else false end) l
  end.

(** The value a field is required to have; the empty string too is found. *)
Fixpoint RequiresExactMatch (t : Selector) (field : string) : option string :=
  match t with
  | hasTerm f value => if bool_decide (f = field) then Some value else None
  | notHasTerm _ _ => None
  | andTerm l => (fix first (l : list Selector) : option string :=
      match l with
      | [] => None
      | q :: l' => match RequiresExactMatch q field with Some value => Some value | None => first l' end
      end) l
  end.

Definition Everything : Selector := andTerm [].

Definition TransformFunc : Type := string -> string -> (string * string) + error.

Definition transform_term (mk : string -> string -> Selector) (fn : TransformFunc) (field value : string) : Selector + error :=
  match fn field value with
  | inr err => inr err
  | inl (field, value) =>
      if bool_decide (field = "") && bool_decide (value = "") then inl Everything else inl (mk field value)
  end.

Fixpoint Transform (fn : TransformFunc) (t : Selector) : Selector + error :=
  match t with
  | hasTerm field value => transform_term hasTerm fn field value
  | notHasTerm field value => transform_term notHasTerm fn field value
  | andTerm l =>
      match (fix all (l : list Selector) : list Selector + error :=
        match l with
        | [] => inl []
        | s :: l' =>
            match Transform fn s with
            | inr err => inr err
            | inl n =>
                match all l' with
                | inr err => inr err
                | inl next => inl (if Selector_Empty n then next else n :: next)
                end
            end
        end) l
      with
      | inr err => inr err
      | inl next => inl (andTerm next)
      end
  end.

(** ** Text *)

Fixpoint EscapeValue (s : string) : string :=
  match s with
  | EmptyString => EmptyString
  | String c s' =>
      if backslash c || comma c || equals c then String (chr 92) (String c (EscapeValue s')) else String c (EscapeValue s')
  end.

Definition InvalidEscapeSequence (sequence : string) : error :=
  PlainError (sprint ["invalid field selector: invalid escape sequence: "; sequence]).
Definition UnescapedRune (r : Ascii.ascii) : error :=
  PlainError (sprint ["invalid field selector: unescaped character in value: "; itoa (Z.of_nat (Ascii.nat_of_ascii r))]).

Definition cons_text (c : Ascii.ascii) (r : string + error) : string + error :=
  match r with inl t => inl (String c t) | inr err => inr err end.

(** [UnescapeValue]; its shortcut for texts without special characters gives
    the same. *)
Fixpoint unescape_from (inSlash : bool) (s : string) : string + error :=
  match s with
  | EmptyString => if inSlash then inr (InvalidEscapeSequence (one (chr 92))) else inl EmptyString
  | String c s' =>
      if inSlash then
        if backslash c || comma c || equals c then cons_text c (unescape_from false s')
        else inr (InvalidEscapeSequence (String (chr 92) (one c)))
      else if backslash c then unescape_from true s'
      else if comma c || equals c then inr (UnescapedRune c)
      else cons_text c (unescape_from false s')
  end.
Definition UnescapeValue (s : string) : string + error := unescape_from false s.

Fixpoint Join (sep : string) (l : list string) : string :=
  match l with
  | [] => EmptyString
  | [t] => t
  | t :: l' => t +:+ sep +:+ Join sep l'
  end.

Fixpoint Selector_String (t : Selector) : string :=
  match t with
  | hasTerm field value => sprint [field; "="; EscapeValue value]
  | notHasTerm field value => sprint [field; "!="; EscapeValue value]
  | andTerm l => Join "," (map Selector_String l)
  end.

(** [SelectorFromSet] of a map, in the order in which Go visits it. *)
Definition SelectorFromSet (ls : list (string * string)) : Selector :=
  match map (fun p => hasTerm (fst p) (snd p)) ls with
  | [item] => item
  | items => andTerm items
  end.

(** ** The parser *)

Definition prepend (c : Ascii.ascii) (l : list string) : list string :=
  match l with t :: l' => String c t :: l' | [] => [one c] end.

Fixpoint split_terms (inSlash : bool) (s : string) : list string :=
  match s with
  | EmptyString => [EmptyString]
  | String c s' =>
      if inSlash then prepend c (split_terms false s')
      else if backslash c then prepend c (split_terms true s')
      else if comma c then EmptyString :: split_terms false s'
      else prepend c (split_terms false s')
  end.
Definition splitTerms (fieldSelector : string) : list string :=
  if bool_decide (fieldSelector = "") then [] else split_terms false fieldSelector.

Inductive TermOperator := notEqualOperator | doubleEqualOperator | equalOperator.

(** The operator a text begins with, and what follows it. *)
Definition operator_at (s : string) : option (TermOperator * string) :=
  match s with
  | String c s1 =>
      if equals c then
        match s1 with
        | String d s2 => if equals d then Some (doubleEqualOperator, s2) else Some (equalOperator, s1)
        | EmptyString => Some (equalOperator, s1)
        end
      else if bang c then
        match s1 with
        | String d s2 => if equals d then Some (notEqualOperator, s2) else None
        | EmptyString => None
        end
      else None
  | EmptyString => None
  end.

Fixpoint splitTerm (term : string) : option (string * TermOperator * string) :=
  match operator_at term with
  | Some (op, rhs) => Some (EmptyString, op, rhs)
  | None =>
      match term with
      | EmptyString => None
      | String c term' => match splitTerm term' with Some (lhs, op, rhs) => Some (String c lhs, op, rhs) | None => None end
      end
  end.

Definition parse_term (selector part : string) : Selector + error :=
  match splitTerm part with
  | None => inr (PlainError (sprint ["invalid selector: '"; selector; "'; can't understand '"; part; "'"]))
  | Some (lhs, op, rhs) =>
      match UnescapeValue rhs with
      | inr err => inr err
      | inl value => inl (match op with notEqualOperator => notHasTerm lhs value | _ => hasTerm lhs value end)
      end
  end.

Fixpoint parse_terms (selector : string) (parts : list string) : list Selector + error :=
  match parts with
  | [] => inl []
  | part :: parts' =>
      if bool_decide (part = "") then parse_terms selector parts'
      else
        match parse_term selector part with
        | inr err => inr err
        | inl item =>
            match parse_terms selector parts' with inr err => inr err | inl items => inl (item :: items) end
        end
  end.

Definition string_le (a b : string) : Prop := String.leb a b = true.
#[export] Instance string_le_dec : RelDecision string_le := fun a b => decide (String.leb a b = true).

Definition parseSelector (selector : string) (fn : TransformFunc) : Selector + error :=
  let parts := merge_sort string_le (splitTerms selector) in
  match parse_terms selector parts with
  | inr err => inr err
  | inl [item] => Transform fn item
  | inl items => Transform fn (andTerm items)
  end.
Definition ParseSelector (selector : string) : Selector + error := parseSelector selector (fun lhs rhs => inl (lhs, rhs)).

(** ** Classes and plans *)

Definition AddObjectMetaFieldsSet (source : FieldSet) (objectMeta : ObjectMeta) (hasNamespaceField : bool) : FieldSet :=
  let source := <["metadata.name" := Name objectMeta]> source in
  if hasNamespaceField then <["metadata.namespace" := Namespace objectMeta]> source else source.

(** The name of the first field is the source's. *)
Definition class_toSelectableFields (serviceClass : ServiceClass) : FieldSet :=
  let fs : FieldSet := <["spec.lusterServiceBrokerName" := sc_ClusterServiceBrokerName (sc_Spec serviceClass)]> ∅ in
  let fs := <["spec.externalName" := sc_ExternalName (sc_Spec serviceClass)]> fs in
  let fs := <["spec.externalID" := sc_ExternalID (sc_Spec serviceClass)]> fs in
  AddObjectMetaFieldsSet fs (sc_Meta serviceClass) true.

Definition plan_toSelectableFields (servicePlan : ServicePlan) : FieldSet :=
  let fs : FieldSet := <["spec.clusterServiceBrokerName" := sp_ClusterServiceBrokerName (sp_Spec servicePlan)]> ∅ in
  let fs := <["spec.serviceClassRef.name" := lref_Name (sp_ServiceClassRef (sp_Spec servicePlan))]> fs in
  let fs := <["spec.externalName" := sp_ExternalName (sp_Spec servicePlan)]> fs in
  let fs := <["spec.externalID" := sp_ExternalID (sp_Spec servicePlan)]> fs in
  AddObjectMetaFieldsSet fs (sp_Meta servicePlan) true.

Definition ServiceClassFieldLabelConversionFunc : TransformFunc := fun label value => inl (label, value).
Definition ServicePlanFieldLabelConversionFunc : TransformFunc := fun label value => inl (label, value).

(** The field selector of a list request: parsed from the query, its labels
    converted, and every object matched.  A malformed one is a bad request. *)
Definition list_by {A} (convert : TransformFunc) (toSelectableFields : A -> FieldSet) (fieldSelector : string)
    (objs : list A) : list A + error :=
  match ParseSelector fieldSelector with
  | inr err => inr (StatusError ReasonBadRequest (Error err))
  | inl selector =>
      match Transform convert selector with
      | inr err => inr (StatusError ReasonBadRequest (Error err))
      | inl selector => inl (List.filter (fun o => Matches selector (toSelectableFields o)) objs)
      end
  end.
Definition list_classes : string -> list ServiceClass -> list ServiceClass + error :=
  list_by ServiceClassFieldLabelConversionFunc class_toSelectableFields.
Definition list_plans : string -> list ServicePlan -> list ServicePlan + error :=
  list_by ServicePlanFieldLabelConversionFunc plan_toSelectableFields.

(** The selectors of [resolveReferences] and of the default plan plugin. *)
Definition class_selector (externalName : string) : string := String.append "spec.externalName==" externalName.
Definition plan_fieldSet (externalName classRef broker : string) : list (string * string) :=
  [("spec.externalName", externalName); ("spec.serviceClassRef.name", classRef); ("spec.clusterServiceBrokerName", broker)].

(** ** Escaped values come back *)

Lemma unescape_escape s : UnescapeValue (EscapeValue s) = inl s.
Proof.
  unfold UnescapeValue. induction s as [|c s IH]; [done|]. cbn [EscapeValue].
  destruct (backslash c || comma c || equals c) eqn:E.
  - cbn -[backslash comma equals]. change (backslash (chr 92)) with true. cbn -[backslash comma equals]. by rewrite E, IH.
  - apply orb_false_iff in E as [[E1 E2]%orb_false_iff E3]. cbn -[backslash comma equals]. by rewrite E1, E2, E3, IH.
Qed.

(** Whether a text leaves a term open: it has no comma of its own and does not
    end in an escape. *)
Fixpoint term_text (inSlash : bool) (s : string) : bool :=
  match s with
  | EmptyString => negb inSlash
  | String c s' =>
      if inSlash then term_text false s'
      else if backslash c then term_text true s' else negb (comma c) && term_text false s'
  end.

Lemma split_terms_nonempty b s : split_terms b s <> [].
Proof.
  destruct s as [|c s]; [done|]. cbn -[backslash comma]. unfold prepend.
  destruct b, (backslash c), (comma c); try done; by destruct (split_terms _ s).
Qed.

Lemma split_terms_app b t rest : term_text b t = true ->
  split_terms b (t +:+ rest) = match split_terms false rest with h :: l => (t +:+ h) :: l | [] => [] end.
Proof.
  revert b. induction t as [|c t IH]; intros b; cbn -[backslash comma].
  - destruct b; [done|]. intros _. by destruct (split_terms false rest).
  - pose proof (split_terms_nonempty false rest) as Hne.
    destruct b; [|destruct (backslash c); [|destruct (comma c); [done|]]]; intros H; rewrite IH by done;
      by destruct (split_terms false rest).
Qed.

Lemma splitTerms_Join l : l <> [] -> Forall (fun t => term_text false t = true /\ t <> "") l ->
  splitTerms (Join "," l) = l.
Proof.
  intros Hne Hl. unfold splitTerms. rewrite bool_decide_eq_false_2.
  2: { destruct Hl as [|t [|t' l] [_ Ht] _]; [done|done|]. cbn. by destruct t. }
  induction Hl as [|t l [Ht _] Hl IH]; [done|]. destruct l as [|t' l].
  - cbn [Join]. pose proof (split_terms_app false t "" Ht) as H. cbn in H.
    assert (Hn : forall s : string, s +:+ "" = s) by (intros s; induction s as [|c s IHs]; cbn; congruence).
    by rewrite Hn in H.
  - change (Join "," (t :: t' :: l)) with (t +:+ "," +:+ Join "," (t' :: l)). rewrite split_terms_app by done.
    change (split_terms false ("," +:+ Join "," (t' :: l))) with ("" :: split_terms false (Join "," (t' :: l))).
    rewrite IH by done. f_equal. clear. induction t as [|c t IHt]; cbn; congruence.
Qed.
