(* ===== verification/SelectorTheorems.v ===== *)
(** * What the lookups by name find

    The selectors of [Selectors] select exactly what they are meant to, for the
    names validation admits; and so the references the controller resolves are
    to the class and the plan the instance names. *)

From stdpp Require Import gmap strings list sorting.
From S2P Require Import Prelude Types Conditions Environment Regexp Sha256 Json ParametersModel Validation ControllerCommon ValidationSpec InstanceController InstanceSpec Sample Selectors.

#[local] Arguments String.append !_ _ / : simpl nomatch.

(** ** Parsing what is written *)

(** A field name: no operator, comma or escape in it. *)
Definition field_char (c : Ascii.ascii) : bool := negb (backslash c || comma c || equals c || bang c).

Lemma field_char_spec c : field_char c = true ->
  backslash c = false /\ comma c = false /\ equals c = false /\ bang c = false.
Proof. unfold field_char. by rewrite negb_true_iff, !orb_false_iff; intros [[[? ?] ?] ?]. Qed.

Lemma splitTerm_field f rest op rhs : all_chars field_char f = true -> operator_at rest = Some (op, rhs) ->
  splitTerm (f +:+ rest) = Some (f, op, rhs).
Proof.
  intros Hf Ho. induction f as [|c f IH].
  - cbn [String.append]. destruct rest as [|c rest]; [done|]. cbn [splitTerm]. by rewrite Ho.
  - cbn in Hf. apply andb_prop in Hf as [Hc Hf]. apply field_char_spec in Hc as (_ & _ & He & Hb).
    cbn -[equals bang operator_at]. cbn [operator_at]. rewrite He, Hb. by rewrite IH.
Qed.

Lemma field_term_text f rest : all_chars field_char f = true -> term_text false (f +:+ rest) = term_text false rest.
Proof.
  intros Hf. induction f as [|c f IH]; [done|]. cbn in Hf. apply andb_prop in Hf as [Hc Hf].
  apply field_char_spec in Hc as (H1 & H2 & _). cbn -[backslash comma]. by rewrite H1, H2, IH.
Qed.

Lemma escaped_term_text s : term_text false (EscapeValue s) = true.
Proof.
  induction s as [|c s IH]; [done|]. cbn [EscapeValue]. destruct (backslash c || comma c || equals c) eqn:E.
  - cbn -[backslash comma]. by change (backslash (chr 92)) with true.
  - apply orb_false_iff in E as [[E1 E2]%orb_false_iff _]. cbn -[backslash comma]. by rewrite E1, E2.
Qed.

Lemma escaped_operator s : operator_at (String (chr 61) (EscapeValue s)) = Some (equalOperator, EscapeValue s).
Proof.
  cbn [operator_at]. change (equals (chr 61)) with true. cbv iota. destruct s as [|c s]; [done|]. cbn [EscapeValue].
  destruct (backslash c || comma c || equals c) eqn:E; [done|]. apply orb_false_iff in E as [_ E]. by rewrite E.
Qed.

(** One requirement of a [SelectorFromSet]. *)
Definition requirement (p : string * string) : string := Selector_String (hasTerm (fst p) (snd p)).

Lemma requirement_text p : requirement p = fst p +:+ String (chr 61) (EscapeValue (snd p)).
Proof.
  unfold requirement. cbn [Selector_String sprint].
  by rewrite append_nil_r.
Qed.

Lemma requirement_parses selector p : all_chars field_char (fst p) = true -> parse_term selector (requirement p) = inl (hasTerm (fst p) (snd p)).
Proof.
  intros Hf. unfold parse_term. rewrite requirement_text, (splitTerm_field _ _ _ _ Hf (escaped_operator _)).
  by rewrite unescape_escape.
Qed.

Lemma requirement_term p : all_chars field_char (fst p) = true ->
  term_text false (requirement p) = true /\ requirement p <> "".
Proof.
  intros Hf. rewrite requirement_text. split; [|by destruct (fst p)].
  rewrite field_term_text by done. cbn -[backslash comma]. apply escaped_term_text.
Qed.

Lemma parse_requirements selector l : Forall (fun p => all_chars field_char (fst p) = true) l ->
  parse_terms selector (map requirement l) = inl (map (fun p => hasTerm (fst p) (snd p)) l).
Proof.
  induction 1 as [|p l Hp _ IH]; [done|]. cbn [map parse_terms].
  rewrite bool_decide_eq_false_2 by (by apply requirement_term). by rewrite requirement_parses, IH.
Qed.

(** ** Matching *)

Definition holds (fs : FieldSet) (p : string * string) : Prop := fields_Get (fst p) fs = snd p.
#[export] Instance holds_dec fs p : Decision (holds fs p).
Proof. unfold holds. apply _. Defined.

Lemma Matches_all fs l : Matches (andTerm (map (fun p => hasTerm (fst p) (snd p)) l)) fs = bool_decide (Forall (holds fs) l).
Proof.
  induction l as [|p l IH]; [done|]. cbn in *. rewrite IH. destruct (decide (holds fs p)) as [H|H].
  - unfold holds in H at 1. rewrite (bool_decide_eq_true_2 _ H). apply bool_decide_ext. rewrite List.Forall_cons_iff. tauto.
  - unfold holds in H at 1. rewrite (bool_decide_eq_false_2 _ H). symmetry. apply bool_decide_eq_false_2. rewrite List.Forall_cons_iff. tauto.
Qed.

(** What a selector requires exactly, everything it matches has. *)
Fixpoint RequiresExactMatch_sound t field v fs {struct t} :
  RequiresExactMatch t field = Some v -> Matches t fs = true -> fields_Get field fs = v.
Proof.
  destruct t as [f w|f w|l]; cbn; [|done|].
  - case_bool_decide as Hf; [|done]. intros [= ->] H. apply bool_decide_eq_true in H. by subst.
  - induction l as [|q l IH]; [done|]. destruct (RequiresExactMatch q field) as [w|] eqn:E.
    + intros [= <-] H. destruct (Matches q fs) eqn:Hq; [|done]. by apply (RequiresExactMatch_sound q).
    + intros H1 H2. destruct (Matches q fs); [|done]. by apply IH.
Qed.

(** A conversion that changes nothing. *)
Lemma Transform_terms l : Forall (fun p : string * string => fst p <> "") l ->
  Transform (fun lhs rhs => inl (lhs, rhs)) (andTerm (map (fun p => hasTerm (fst p) (snd p)) l)) =
  inl (andTerm (map (fun p => hasTerm (fst p) (snd p)) l)).
Proof.
  intros Hl. induction Hl as [|p l Hp _ IH]; [done|].
  cbn -[bool_decide Selector_Empty] in *. rewrite bool_decide_eq_false_2 by done. cbn -[bool_decide].
  match type of IH with match ?x with inl _ => _ | inr _ => _ end = _ => destruct x; [|done] end.
  by revert IH; intros [= ->].
Qed.

(** What the parser makes of parsed requirements. *)
Definition items_selector (items : list Selector) : Selector :=
  match items with [item] => item | _ => andTerm items end.

Lemma items_selector_requirements l : Forall (fun p : string * string => fst p <> "") l ->
  let t := items_selector (map (fun p => hasTerm (fst p) (snd p)) l) in
  Transform (fun lhs rhs => inl (lhs, rhs)) t = inl t /\ (forall fs, Matches t fs = bool_decide (Forall (holds fs) l)).
Proof.
  intros Hl. destruct l as [|p [|q l]].
  - done.
  - apply List.Forall_cons_iff in Hl as [H _]. cbn -[bool_decide]. split.
    + unfold transform_term. by rewrite bool_decide_eq_false_2.
    + intros fs. apply bool_decide_ext. rewrite List.Forall_cons_iff. unfold holds. naive_solver.
  - split; [by apply Transform_terms|]. intros fs. apply Matches_all.
Qed.

(** The text a [SelectorFromSet] writes selects the objects that meet every
    requirement, in whatever order the requirements were written. *)
Lemma list_by_requirements {A} (fields : A -> FieldSet) l objs : l <> [] ->
  Forall (fun p => all_chars field_char (fst p) = true /\ fst p <> "") l ->
  list_by (fun label value => inl (label, value)) fields (Selector_String (SelectorFromSet l)) objs =
  inl (List.filter (fun o => bool_decide (Forall (holds (fields o)) l)) objs).
Proof.
  intros Hne Hl. apply List.Forall_and_inv in Hl as [Hf Hn].
  assert (Ht : Selector_String (SelectorFromSet l) = Join "," (map requirement l)).
  { unfold SelectorFromSet. destruct l as [|p [|q l]]; [done|done|]. cbn [map Selector_String]. by rewrite map_map. }
  unfold list_by, ParseSelector, parseSelector. rewrite Ht, splitTerms_Join; [|by destruct l|].
  2: { apply List.Forall_map. eapply List.Forall_impl; [|exact Hf]. intros p. apply requirement_term. }
  pose proof (merge_sort_Permutation string_le (map requirement l)) as Hp.
  apply Permutation_map_inv in Hp as (l1 & He & Hp). rewrite He, parse_requirements by (by rewrite <-Hp).
  destruct (items_selector_requirements l1) as [HT HM]; [by rewrite <-Hp|].
  set (items := map (fun p : string * string => hasTerm (fst p) (snd p)) l1) in *.
  assert (Hi : match items with [item] => Transform (fun lhs rhs => inl (lhs, rhs)) item
               | _ => Transform (fun lhs rhs => inl (lhs, rhs)) (andTerm items) end = inl (items_selector items)).
  { rewrite <-HT. unfold items_selector. by destruct items as [|? [|? ?]]. }
  rewrite Hi, HT. f_equal. apply List.filter_ext. intros o. rewrite HM. apply bool_decide_ext. by rewrite Hp.
Qed.

(** ** The lookups *)

Definition plain_char (c : Ascii.ascii) : bool := negb (backslash c || comma c || equals c).

Lemma plain_char_spec c : plain_char c = true -> backslash c = false /\ comma c = false /\ equals c = false.
Proof. unfold plain_char. by rewrite negb_true_iff, !orb_false_iff; intros [[? ?] ?]. Qed.

Lemma plain_term_text s : all_chars plain_char s = true -> term_text false s = true.
Proof.
  induction s as [|c s IH]; [done|]. cbn [all_chars]. intros [Hc Hs]%andb_prop.
  apply plain_char_spec in Hc as (H1 & H2 & _). cbn -[backslash comma]. by rewrite H1, H2, IH.
Qed.

Lemma one_term t : term_text false t = true -> split_terms false t = [t].
Proof. intros H. pose proof (split_terms_app false t "" H) as E. cbn in E. by rewrite append_nil_r in E. Qed.

Lemma plain_unescape s : all_chars plain_char s = true -> UnescapeValue s = inl s.
Proof.
  unfold UnescapeValue. induction s as [|c s IH]; [done|]. cbn [all_chars]. intros [Hc Hs]%andb_prop.
  apply plain_char_spec in Hc as (H1 & H2 & H3). cbn -[backslash comma equals]. by rewrite H1, H2, H3, IH.
Qed.

(** A text [field==value] with a plain value. *)
Lemma list_by_plain {A} (fields : A -> FieldSet) f v objs :
  all_chars field_char f = true -> f <> "" -> all_chars plain_char v = true ->
  list_by (fun label value => inl (label, value)) fields (f +:+ "==" +:+ v) objs =
  inl (List.filter (fun o => bool_decide (fields_Get f (fields o) = v)) objs).
Proof.
  intros Hf Hn Hv. unfold list_by, ParseSelector, parseSelector, splitTerms.
  rewrite bool_decide_eq_false_2 by (by destruct f).
  rewrite one_term by (rewrite field_term_text by done; exact (plain_term_text v Hv)).
  destruct (items_selector_requirements [(f, v)]) as [HT _]; [by repeat constructor|].
  cbn [map items_selector fst snd] in HT.
  change (merge_sort string_le [f +:+ "==" +:+ v]) with [f +:+ "==" +:+ v]. cbn [parse_terms].
  rewrite bool_decide_eq_false_2 by (by destruct f).
  unfold parse_term. rewrite (splitTerm_field f ("==" +:+ v) doubleEqualOperator v Hf eq_refl), plain_unescape by done.
  by rewrite HT, HT.
Qed.

(** ** The names validation admits *)

Lemma subdomain_plain s : IsDNS1123Subdomain s = [] -> all_chars plain_char s = true.
Proof.
  unfold IsDNS1123Subdomain. rewrite app_nil_iff, if_nil, MatchString_spec. intros [_ H].
  revert H. apply Match_all_chars. cbn. split_and!; try done; intros [b0 b1 b2 b3 b4 b5 b6 b7];
    destruct b0, b1, b2, b3, b4, b5, b6, b7; vm_compute; done.
Qed.

Definition class_named (externalName : string) (sc : ServiceClass) : bool :=
  bool_decide (sc_ExternalName (sc_Spec sc) = externalName).
Definition plan_named (externalName classRef broker : string) (sp : ServicePlan) : bool :=
  bool_decide (sp_ExternalName (sp_Spec sp) = externalName /\ lref_Name (sp_ServiceClassRef (sp_Spec sp)) = classRef /\
    sp_ClusterServiceBrokerName (sp_Spec sp) = broker).

Lemma list_classes_named externalName classes : validateServiceClassName externalName false = [] ->
  list_classes (class_selector externalName) classes = inl (List.filter (class_named externalName) classes).
Proof.
  intros H%subdomain_plain. unfold list_classes, ServiceClassFieldLabelConversionFunc.
  change (class_selector externalName) with ("spec.externalName" +:+ "==" +:+ externalName).
  by rewrite list_by_plain.
Qed.

Lemma list_plans_named ps externalName classRef broker plans : ps ≡ₚ plan_fieldSet externalName classRef broker ->
  list_plans (Selector_String (SelectorFromSet ps)) plans = inl (List.filter (plan_named externalName classRef broker) plans).
Proof.
  intros Hp. unfold list_plans, ServicePlanFieldLabelConversionFunc. rewrite list_by_requirements.
  - f_equal. apply List.filter_ext. intros sp. apply bool_decide_ext. rewrite Hp. unfold plan_fieldSet.
    rewrite !List.Forall_cons_iff. unfold holds. cbn. naive_solver.
  - intros ->. by apply Permutation_nil_l in Hp.
  - rewrite Hp. by repeat constructor.
Qed.

(** ** The references of an instance *)

(** An API server that lists the classes and plans it stores by the selectors
    of the requests: the controller writes the requirements for a plan in the
    order in which it visits its map. *)
Definition answered {A} (r : list A + error) : list A * option error :=
  match r with inl items => (items, None) | inr err => ([], Some err) end.

Class CatalogAPI (W : Type) {E : Env W} := {
  api_classes : W -> list ServiceClass;
  api_plans : W -> list ServicePlan;
  api_list_classes externalName w : validateServiceClassName externalName false = [] ->
    fst (env_ServiceClasses_List externalName w) = answered (list_classes (class_selector externalName) (api_classes w));
  api_list_plans externalName classRef broker w : exists ps, ps ≡ₚ plan_fieldSet externalName classRef broker /\
    fst (env_ServicePlans_List externalName classRef broker w) =
      answered (list_plans (Selector_String (SelectorFromSet ps)) (api_plans w)) }.

Definition writes_references (e : Effect) : bool :=
  match e with EInstanceUpdateReferences _ _ => true | _ => false end.

(** A run that fails and writes no reference. *)
Definition unresolved {W A} (r : outcome A * W * list Effect) : Prop :=
  exists err w trace, r = (Err err, w, trace) /\ forallb (fun e => negb (writes_references e)) trace = true.

Section references.
Context {W : Type} {E : Env W} {A : CatalogAPI W}.
Local Open Scope go_scope.

Lemma bind_quiet {X Y} (f : W -> X * W) (k : X -> M W Effect Y) w : bind (call quiet f) k w = k (fst (f w)) (snd (f w)).
Proof. unfold bind, call. destruct (f w) as [x w1]. cbn. by destruct (k x w1) as [[? ?] ?]. Qed.

Lemma bind_pure {X Y} (m : M W Effect X) (k : X -> M W Effect Y) w x w1 : m w = (Ok x, w1, []) -> bind m k w = k x w1.
Proof. intros H. unfold bind. rewrite H. by destruct (k x w1) as [[? ?] ?]. Qed.

Lemma unresolved_bind {X Y} (m : M W Effect X) (k : X -> M W Effect Y) w : unresolved (m w) -> unresolved (bind m k w).
Proof. intros (err & w' & t & Hm & Ht). exists err, w', t. unfold bind. by rewrite Hm. Qed.

Lemma report_unresolved {X} (i : ServiceInstance) reason m1 kind m2 err w :
  unresolved ((ignore (updateServiceInstanceCondition i ConditionReady ConditionFalse reason m1) ;;
    instance_Event i kind reason m2 ;; fail (A := X) err) w).
Proof.
  unfold unresolved, ignore, updateServiceInstanceCondition, setServiceInstanceCondition, ServiceInstances_UpdateStatus,
    Now, api, instance_Event, bind, try, call, emit, quiet, lift, ret, fail.
  destruct (env_Now w) as [now w1]. destruct (env_ServiceInstances_UpdateStatus _ w1) as [[i'|e'] w2]; by do 3 eexists.
Qed.

Definition with_class_ref (sc : ServiceClass) (i : ServiceInstance) : ServiceInstance :=
  si_with_Spec (with_ServiceClassRef (Some (reference_of (sc_TypeMeta sc) (sc_Meta sc))) (si_Spec i)) i.
Definition with_plan_ref (sp : ServicePlan) (i : ServiceInstance) : ServiceInstance :=
  si_with_Spec (with_ServicePlanRef (Some (reference_of (sp_TypeMeta sp) (sp_Meta sp))) (si_Spec i)) i.

(** The class step: the one class of the name, or a failure. *)
Lemma resolve_class_exact (i : ServiceInstance) w :
  validateServiceClassName (ExternalServiceClassName (si_Spec i)) false = [] -> ServiceClassRef (si_Spec i) = None ->
  match List.filter (class_named (ExternalServiceClassName (si_Spec i))) (api_classes w) with
  | [sc] => resolveServiceClass i w =
      (Ok (with_class_ref sc i, Some sc), snd (env_ServiceClasses_List (ExternalServiceClassName (si_Spec i)) w), [])
  | _ => unresolved (resolveServiceClass i w)
  end.
Proof.
  intros Hv Hr. pose proof (api_list_classes _ w Hv) as Ha. rewrite (list_classes_named _ _ Hv) in Ha. cbn in Ha.
  unfold resolveServiceClass. rewrite Hr. unfold ServiceClasses_List. rewrite bind_quiet, Ha.
  destruct (List.filter _ _) as [|sc [|sc' l]]; [apply report_unresolved|done|apply report_unresolved].
Qed.

(** The plan step, after the class step. *)
Lemma resolve_plan_exact (i : ServiceInstance) sc w (spec := si_Spec i) :
  ServiceClassRef spec = Some (reference_of (sc_TypeMeta sc) (sc_Meta sc)) -> ServicePlanRef spec = None ->
  let class := Name (sc_Meta sc) in let broker := sc_ClusterServiceBrokerName (sc_Spec sc) in
  match List.filter (plan_named (ExternalServicePlanName spec) class broker) (api_plans w) with
  | [sp] => resolveServicePlan i (Some sc) w =
      (Ok (with_plan_ref sp i), snd (env_ServicePlans_List (ExternalServicePlanName spec) class broker w), [])
  | _ => unresolved (resolveServicePlan i (Some sc) w)
  end.
Proof.
  intros Hc Hp. subst spec. cbv zeta.
  destruct (api_list_plans (ExternalServicePlanName (si_Spec i)) (Name (sc_Meta sc)) (sc_ClusterServiceBrokerName (sc_Spec sc)) w)
    as (ps & Hps & Ha). rewrite (list_plans_named _ _ _ _ _ Hps) in Ha. cbn [answered] in Ha.
  unfold resolveServicePlan. rewrite Hp, Hc. cbn [deref]. rewrite (bind_pure _ _ _ _ _ eq_refl), (bind_pure _ _ _ _ _ eq_refl).
  unfold ServicePlans_List. rewrite bind_quiet. change (ref_Name (reference_of _ _)) with (Name (sc_Meta sc)). rewrite Ha.
  destruct (List.filter _ _) as [|sp [|sp' l]]; [apply report_unresolved|done|apply report_unresolved].
Qed.

(** C28: A class and a plan named by an instance that passes validation are
    resolved exactly, whatever the names and in whatever order the requirements
    are written: the references written are those of the one class of that
    external name and the one plan of that name, class and broker the API
    server has; and when either is not unique, the resolution fails and writes
    no reference. *)
Theorem references_are_exact (i : ServiceInstance) path w :
  validateServiceInstanceSpec (si_Spec i) path = [] ->
  ServiceClassRef (si_Spec i) = None -> ServicePlanRef (si_Spec i) = None ->
  let className := ExternalServiceClassName (si_Spec i) in
  let planName := ExternalServicePlanName (si_Spec i) in
  match List.filter (class_named className) (api_classes w) with
  | [sc] =>
      let w1 := snd (env_ServiceClasses_List className w) in
      let class := Name (sc_Meta sc) in
      let broker := sc_ClusterServiceBrokerName (sc_Spec sc) in
      match List.filter (plan_named planName class broker) (api_plans w1) with
      | [sp] => resolveReferences i w =
          ServiceInstances_UpdateReferences (with_plan_ref sp (with_class_ref sc i))
            (snd (env_ServicePlans_List planName class broker w1))
      | _ => unresolved (resolveReferences i w)
      end
  | _ => unresolved (resolveReferences i w)
  end.
Proof.
  intros Hv Hc Hp className planName.
  assert (Hn : validateServiceClassName className false = []).
  { unfold validateServiceInstanceSpec in Hv. rewrite !app_nil_iff, invalid_each_nil in Hv. tauto. }
  pose proof (resolve_class_exact i w Hn Hc) as H1. fold className in H1. unfold resolveReferences. rewrite Hc.
  destruct (List.filter (class_named _) _) as [|sc [|sc' l]]; [by apply unresolved_bind| |by apply unresolved_bind].
  cbv zeta. rewrite (bind_pure _ _ _ _ _ H1). cbn [fst snd].
  pose proof (resolve_plan_exact (with_class_ref sc i) sc (snd (env_ServiceClasses_List className w)) eq_refl Hp) as H2.
  cbv zeta in H2. change (ExternalServicePlanName (si_Spec (with_class_ref sc i))) with planName in H2.
  destruct (List.filter (plan_named _ _ _) _) as [|sp [|sp' l]]; [by apply unresolved_bind| |by apply unresolved_bind].
  by rewrite (bind_pure _ _ _ _ _ H2).
Qed.
End references.

(** The in-memory server of [Sample] is such a server. *)
#[export] Instance sample_catalog : CatalogAPI World.
Proof.
  refine {| api_classes := w_classes; api_plans := w_plans |}.
  - intros n w Hn. by rewrite list_classes_named.
  - intros n c b w. exists (plan_fieldSet n c b). split; [done|]. rewrite (list_plans_named (plan_fieldSet n c b) n c b) by done.
    cbn. f_equal. apply List.filter_ext. intros sp. unfold plan_named.
    destruct (decide (sp_ExternalName (sp_Spec sp) = n)), (decide (lref_Name (sp_ServiceClassRef (sp_Spec sp)) = c)),
      (decide (sp_ClusterServiceBrokerName (sp_Spec sp) = b));
      repeat first [rewrite bool_decide_eq_true_2 by (by split_and?) | rewrite bool_decide_eq_false_2 by naive_solver]; done.
Defined.

Lemma references_are_exact_witness :
  exists i', resolveReferences instance1 world1 =
    ServiceInstances_UpdateReferences i' world1 /\
  ServiceClassRef (si_Spec i') = Some (reference_of (sc_TypeMeta class1) (sc_Meta class1)) /\
  ServicePlanRef (si_Spec i') = Some (reference_of (sp_TypeMeta plan1) (sp_Meta plan1)).
Proof.
  exists (with_plan_ref plan1 (with_class_ref class1 instance1)). split; [|by vm_compute].
  exact (references_are_exact instance1 "spec" world1 ltac:(by vm_compute) eq_refl eq_refl).
Defined.

(** [toSelectableFields] of the class registry files the broker's name
    under a misspelled field, so a list of the classes of a broker, by the
    field name the class and plan types document, finds no class at all. *)
Theorem classes_of_a_broker_not_found broker classes : broker <> "" ->
  list_classes (Selector_String (SelectorFromSet [("spec.clusterServiceBrokerName", broker)])) classes = inl [].
Proof.
  intros Hb. unfold list_classes, ServiceClassFieldLabelConversionFunc. rewrite list_by_requirements by (by repeat constructor).
  f_equal. induction classes as [|sc classes IH]; [done|]. cbn [List.filter]. rewrite bool_decide_eq_false_2; [done|].
  intros H. apply List.Forall_cons_iff in H as [H _]. unfold holds in H. cbn in H. by apply Hb.
Qed.

Lemma classes_of_a_broker_not_found_witness :
  sc_ClusterServiceBrokerName (sc_Spec class1) <> "" /\
  list_classes (Selector_String (SelectorFromSet
    [("spec.clusterServiceBrokerName", sc_ClusterServiceBrokerName (sc_Spec class1))])) [class1] = inl [].
Proof.
  assert (H : sc_ClusterServiceBrokerName (sc_Spec class1) <> "") by (by vm_compute).
  exact (conj H (classes_of_a_broker_not_found _ [class1] H)).
Defined.
