(* ===== verification/Storage.v ===== *)
(** * Storage of the API server

    How the five resources are laid out in etcd and served: the options and the
    key functions ([registry/servicecatalog/server/options.go] on
    [registry.Store] of [k8s.io/apiserver]), the stores and subresources of
    each resource ([storage.go] of each registry), and the table of routes
    ([rest/storage_servicecatalog.go]).  Keys are those below the prefix of the
    etcd configuration; a request on a store is atomic, as the transactions of
    etcd make it; watches, time to live, export and tables are not modelled. *)

From stdpp Require Import gmap strings list sorting.
From S2P Require Import Prelude Types Environment Conditions Regexp Validation APIServer Strategy Selectors.

#[local] Arguments String.append !_ _ / : simpl nomatch.

(** ** Path segments *)

Definition slash := is_code 47.
Definition percent := is_code 37.
Fixpoint Contains (p : Ascii.ascii -> bool) (s : string) : bool :=
  match s with EmptyString => false | String c s' => p c || Contains p s' end.

Definition IsValidPathSegmentName (name : string) : list string :=
  if bool_decide (name = ".") then ["may not be '.'"]
  else if bool_decide (name = "..") then ["may not be '..'"]
  else (if Contains slash name then ["may not contain '/'"] else []) ++
       (if Contains percent name then ["may not contain '%'"] else []).

(** ** Keys *)

Definition BadRequest (message : string) : error := StatusError ReasonBadRequest message.

Definition NamespaceKeyRootFunc (ctx : RequestContext) (prefix : string) : string :=
  let ns := ctx_Namespace ctx in
  if negb (bool_decide (ns = "")) then sprint [prefix; "/"; ns] else prefix.

Definition checked_name (name key : string) : string + error :=
  if bool_decide (name = "") then inr (BadRequest "Name parameter required.")
  else match IsValidPathSegmentName name with
       | [] => inl key
       | msgs => inr (BadRequest (sprint ["Name parameter invalid: "; quote name; ": "; Join ";" msgs]))
       end.

Definition NamespaceKeyFunc (ctx : RequestContext) (prefix name : string) : string + error :=
  let key := NamespaceKeyRootFunc ctx prefix in
  if bool_decide (ctx_Namespace ctx = "") then inr (BadRequest "Namespace parameter required.")
  else checked_name name (sprint [key; "/"; name]).

Definition NoNamespaceKeyFunc (ctx : RequestContext) (prefix name : string) : string + error :=
  checked_name name (sprint [prefix; "/"; name]).

(** ** Options *)

Definition StorageType := string.
Definition StorageTypeEtcd : StorageType := "etcd".
Definition errUnsupportedStorageType (t : StorageType) : error := PlainError (sprint ["unsupported storage type "; t]).
Definition StorageTypeFromString (s : string) : StorageType + error :=
  if bool_decide (s = StorageTypeEtcd) then inl StorageTypeEtcd else inr (errUnsupportedStorageType s).

(** Of the REST options only the prefix of the resource matters here. *)
Record Options := { RESTOptions_ResourcePrefix : string; storageType : StorageType }.
Definition NewOptions (resourcePrefix : string) (sType : StorageType) : Options :=
  {| RESTOptions_ResourcePrefix := resourcePrefix; storageType := sType |}.

Definition Options_StorageType (o : Options) : StorageType + error :=
  if bool_decide (storageType o = StorageTypeEtcd) then inl (storageType o) else inr (errUnsupportedStorageType (storageType o)).
Definition ResourcePrefix (o : Options) : string := RESTOptions_ResourcePrefix o.

(** Both are nil for another storage type. *)
Definition KeyRootFunc (o : Options) : option (RequestContext -> string) :=
  match Options_StorageType o with
  | inr _ => None
  | inl _ => Some (fun ctx => NamespaceKeyRootFunc ctx (ResourcePrefix o))
  end.
Definition KeyFunc (o : Options) (namespaced : bool) : option (RequestContext -> string -> string + error) :=
  match Options_StorageType o with
  | inr _ => None
  | inl _ => Some (fun ctx name => if namespaced then NamespaceKeyFunc ctx (ResourcePrefix o) name
                                   else NoNamespaceKeyFunc ctx (ResourcePrefix o) name)
  end.

(** ** Objects of any resource *)

Inductive RObject :=
| RInstance (i : ServiceInstance)
| RBinding (b : ServiceInstanceCredential)
| RBroker (b : ClusterServiceBroker)
| RClass (c : ServiceClass)
| RPlan (p : ServicePlan).

(** A type of stored objects: its place in [RObject], and the name of its
    resource. *)
Class Resource (A : Type) `{Object A} := {
  resource : string;
  inject : A -> RObject;
  project : RObject -> option A }.

#[export] Instance ServiceInstance_Resource : Resource ServiceInstance :=
  {| resource := "serviceinstances"; inject := RInstance; project o := match o with RInstance i => Some i | _ => None end |}.
#[export] Instance ServiceInstanceCredential_Resource : Resource ServiceInstanceCredential :=
  {| resource := "serviceinstancecredentials"; inject := RBinding; project o := match o with RBinding b => Some b | _ => None end |}.
#[export] Instance ClusterServiceBroker_Resource : Resource ClusterServiceBroker :=
  {| resource := "clusterservicebrokers"; inject := RBroker; project o := match o with RBroker b => Some b | _ => None end |}.
#[export] Instance ServiceClass_Resource : Resource ServiceClass :=
  {| resource := "serviceclasses"; inject := RClass; project o := match o with RClass c => Some c | _ => None end |}.
#[export] Instance ServicePlan_Resource : Resource ServicePlan :=
  {| resource := "serviceplans"; inject := RPlan; project o := match o with RPlan p => Some p | _ => None end |}.

Notation etcd := (gmap string RObject).

(** ** Selection *)

Definition AttrFunc : Type := RObject -> FieldSet + error.
Record SelectionPredicate := { pred_Field : Selector; pred_GetAttrs : AttrFunc }.

Definition pred_Matches (s : SelectionPredicate) (obj : RObject) : bool + error :=
  match pred_GetAttrs s obj with
  | inr err => inr err
  | inl fields => inl (Matches (pred_Field s) fields)
  end.
Definition MatchesSingle (s : SelectionPredicate) : option string := RequiresExactMatch (pred_Field s) "metadata.name".

(** [storage.SimpleFilter]: an error is logged and counts as no match. *)
Definition SimpleFilter (s : SelectionPredicate) (obj : RObject) : bool :=
  match pred_Matches s obj with inl b => b | inr _ => false end.

(** ** The generic store *)

Record Store (A : Type) := {
  QualifiedResource : string;
  store_KeyRootFunc : RequestContext -> string;
  store_KeyFunc : RequestContext -> string -> string + error;
  PredicateFunc : Selector -> SelectionPredicate;
  CreateStrategy : RESTCreateStrategy A;
  UpdateStrategy : RESTUpdateStrategy A;
  DeleteStrategy : RESTDeleteStrategy A;
  EnableGarbageCollection : bool }.
Arguments QualifiedResource {A}.
Arguments store_KeyRootFunc {A}.
Arguments store_KeyFunc {A}.
Arguments PredicateFunc {A}.
Arguments CreateStrategy {A}.
Arguments UpdateStrategy {A}.
Arguments DeleteStrategy {A}.
Arguments EnableGarbageCollection {A}.

(** [ObjectResourceVersion] of the versioner: [strconv.ParseUint] of a version
    that is not empty. *)
Definition digit_value (c : Ascii.ascii) : Z := Z.of_nat (Ascii.nat_of_ascii c) - 48.
Fixpoint decimal (n : Z) (s : string) : option Z :=
  match s with
  | EmptyString => Some n
  | String c s' => if digit c then decimal (10 * n + digit_value c) s' else None
  end.
Definition ObjectResourceVersion (version : string) : Z + error :=
  if bool_decide (version = "") then inl 0
  else match decimal 0 version with
       | Some n => if n <? 2 ^ 64 then inl n else inr (PlainError "value out of range")
       | None => inr (PlainError "invalid syntax")
       end.

Section generic.
Context {A : Type} `{Resource A} {SV : StoreValidation}.
Implicit Types (e : Store A) (ctx : RequestContext) (db : etcd) (obj : A).

(** What is stored under a key, decoded into the type of the store. *)
Definition undecodable : error := PlainError "unable to decode the stored object".
Definition decode_at key db : option A + error :=
  match db !! key with
  | None => inl None
  | Some o => match project o with Some a => inl (Some a) | None => inr undecodable end
  end.

(** A create request must not carry a version; one that does not parse is let
    pass. *)
Definition version_set (resourceVersion : string) : bool :=
  match ObjectResourceVersion resourceVersion with inl version => negb (version =? 0) | inr _ => false end.

Definition Store_Create e ctx (uid next : string) obj db : (A + error) * etcd :=
  match BeforeCreate (CreateStrategy e) ctx uid obj with
  | inr err => (inr err, db)
  | inl obj =>
      match store_KeyFunc e ctx (Name (metaOf obj)) with
      | inr err => (inr err, db)
      | inl key =>
          if version_set (ResourceVersion (metaOf obj)) then (inr (PlainError "resourceVersion should not be set on objects to be created"), db)
          else
            match db !! key with
            | Some _ => (inr (StatusError ReasonAlreadyExists "already exists"), db)
            | None =>
                let out := modify (with_ResourceVersion next) obj in
                (inl out, <[key := inject out]> db)
            end
      end
  end.

(** Without garbage collection an update never removes the object. *)
Definition Store_Update e ctx (name next : string) obj db : (A + error) * etcd :=
  match store_KeyFunc e ctx name with
  | inr err => (inr err, db)
  | inl key =>
      match decode_at key db with
      | inr err => (inr err, db)
      | inl existing =>
          match storeUpdate (UpdateStrategy e) (NamespaceScoped (CreateStrategy e)) ctx next existing obj with
          | Refused err => (inr err, db)
          | Stored out => (inl out, <[key := inject out]> db)
          | Removed obj =>
              if EnableGarbageCollection e then (inl obj, delete key db)
              else let out := modify (with_ResourceVersion next) obj in (inl out, <[key := inject out]> db)
          end
      end
  end.

Definition Store_Get e ctx (name : string) db : (A + error) * etcd :=
  match store_KeyFunc e ctx name with
  | inr err => (inr err, db)
  | inl key =>
      match decode_at key db with
      | inr err => (inr err, db)
      | inl None => (inr (StatusError ReasonNotFound "not found"), db)
      | inl (Some obj) => (inl obj, db)
      end
  end.

(** An object that is only marked is returned; a removed one is answered with a
    status.  Without garbage collection finalizers do not hold up a deletion. *)
Definition Store_Delete e ctx (name next : string) (now : Z) db : (option A + error) * etcd :=
  match store_KeyFunc e ctx name with
  | inr err => (inr err, db)
  | inl key =>
      match decode_at key db with
      | inr err => (inr err, db)
      | inl None => (inr (StatusError ReasonNotFound "not found"), db)
      | inl (Some old) =>
          if EnableGarbageCollection e then
            match storeDelete (DeleteStrategy e) ctx next now (Some old) with
            | Stored out => (inl (Some out), <[key := inject out]> db)
            | Removed _ => (inl None, delete key db)
            | Refused err => (inr err, db)
            end
          else (inl None, delete key db)
      end
  end.

(** A range of etcd, in the order of its keys. *)
Definition key_le (p q : string * RObject) : Prop := string_le (fst p) (fst q).
#[local] Instance key_le_dec : RelDecision key_le := fun p q => decide (string_le (fst p) (fst q)).
Definition range (prefix : string) db : list RObject :=
  map snd (List.filter (fun p => String.prefix prefix (fst p)) (merge_sort key_le (map_to_list db))).

Fixpoint decodeList (elems : list RObject) (pred : SelectionPredicate) : list A + error :=
  match elems with
  | [] => inl []
  | o :: elems' =>
      match project o with
      | None => inr undecodable
      | Some a =>
          match decodeList elems' pred with
          | inr err => inr err
          | inl items => inl (if SimpleFilter pred o then a :: items else items)
          end
      end
  end.

Definition storage_List key (pred : SelectionPredicate) db : list A + error := decodeList (range (sprint [key; "/"]) db) pred.
Definition storage_GetToList key (pred : SelectionPredicate) db : list A + error :=
  decodeList (match db !! key with Some o => [o] | None => [] end) pred.

Definition ListPredicate e ctx (p : SelectionPredicate) db : list A + error :=
  match MatchesSingle p with
  | Some name =>
      match store_KeyFunc e ctx name with
      | inl key => storage_GetToList key p db
      | inr _ => storage_List (store_KeyRootFunc e ctx) p db
      end
  | None => storage_List (store_KeyRootFunc e ctx) p db
  end.
Definition Store_List e ctx (field : Selector) db : list A + error := ListPredicate e ctx (PredicateFunc e field) db.
End generic.

(** ** The resources *)

(** The metadata fields of any object. *)
Definition ObjectMetaFieldsSet (objectMeta : ObjectMeta) (hasNamespaceField : bool) : FieldSet :=
  AddObjectMetaFieldsSet ∅ objectMeta hasNamespaceField.
Definition MergeFieldsSets (source fragment : FieldSet) : FieldSet := fragment ∪ source.

Definition with_UpdateStrategy {A} (s : RESTUpdateStrategy A) (store : Store A) : Store A :=
  {| QualifiedResource := QualifiedResource store; store_KeyRootFunc := store_KeyRootFunc store;
     store_KeyFunc := store_KeyFunc store; PredicateFunc := PredicateFunc store;
     CreateStrategy := CreateStrategy store; UpdateStrategy := s; DeleteStrategy := DeleteStrategy store;
     EnableGarbageCollection := EnableGarbageCollection store |}.

(** [GetStorage] panics on another storage type, before a store is made of the
    key functions: so a store has them. *)
Definition GetStorage {A} (opts : Options) (namespaced : bool)
    (store : (RequestContext -> string) -> (RequestContext -> string -> string + error) -> Store A) : option (Store A) :=
  match KeyRootFunc opts, KeyFunc opts namespaced with
  | Some root, Some key => Some (store root key)
  | _, _ => None
  end.

Module instance.
Section storage.
Context {C : Config} {MV : MetaValidation} {Sem : Semantic}.

Definition errNotAnServiceInstance : error := PlainError "not an instance".
Definition CheckObject (obj : RObject) : option error :=
  match obj with RInstance _ => None | _ => Some errNotAnServiceInstance end.

Definition toSelectableFields (instance : ServiceInstance) : FieldSet :=
  let objectMetaFieldsSet := ObjectMetaFieldsSet (si_Meta instance) true in
  MergeFieldsSets objectMetaFieldsSet ∅.

Definition GetAttrs (obj : RObject) : FieldSet + error :=
  match obj with
  | RInstance instance => inl (toSelectableFields instance)
  | _ => inr (PlainError "given object is not an ServiceInstance")
  end.

Definition Match (field : Selector) : SelectionPredicate := {| pred_Field := field; pred_GetAttrs := GetAttrs |}.

Definition NewStorage (opts : Options) : option (Store ServiceInstance * Store ServiceInstance * Store ServiceInstance) :=
  option_map (fun store => (store, with_UpdateStrategy instanceStatusUpdateStrategy store, with_UpdateStrategy instanceReferenceUpdateStrategy store)) (GetStorage opts true (fun root key =>
    {| QualifiedResource := "serviceinstances"; store_KeyRootFunc := root; store_KeyFunc := key; PredicateFunc := Match;
       CreateStrategy := instanceCreateStrategy; UpdateStrategy := instanceUpdateStrategy; DeleteStrategy := instanceDeleteStrategy;
       EnableGarbageCollection := true |})).
End storage.
End instance.

Module binding.
Section storage.
Context {C : Config} {MV : MetaValidation} {Sem : Semantic}.

Definition errNotAServiceInstanceCredential : error := PlainError "not a binding".
Definition CheckObject (obj : RObject) : option error :=
  match obj with RBinding _ => None | _ => Some errNotAServiceInstanceCredential end.

Definition toSelectableFields (binding : ServiceInstanceCredential) : FieldSet :=
  let objectMetaFieldsSet := ObjectMetaFieldsSet (bind_Meta binding) true in
  MergeFieldsSets objectMetaFieldsSet ∅.

Definition GetAttrs (obj : RObject) : FieldSet + error :=
  match obj with
  | RBinding binding => inl (toSelectableFields binding)
  | _ => inr (PlainError "given object is not a ServiceInstanceCredential")
  end.

Definition Match (field : Selector) : SelectionPredicate := {| pred_Field := field; pred_GetAttrs := GetAttrs |}.

Definition NewStorage (opts : Options) : option (Store ServiceInstanceCredential * Store ServiceInstanceCredential) :=
  option_map (fun store => (store, with_UpdateStrategy bindingStatusUpdateStrategy store)) (GetStorage opts true (fun root key =>
    {| QualifiedResource := "serviceinstancecredentials"; store_KeyRootFunc := root; store_KeyFunc := key; PredicateFunc := Match;
       CreateStrategy := bindingCreateStrategy; UpdateStrategy := bindingUpdateStrategy; DeleteStrategy := bindingDeleteStrategy;
       EnableGarbageCollection := true |})).
End storage.
End binding.

Module broker.
Section storage.
Context {C : Config} {MV : MetaValidation} {Sem : Semantic}.

Definition errNotAClusterServiceBroker : error := PlainError "not a broker".
Definition CheckObject (obj : RObject) : option error :=
  match obj with RBroker _ => None | _ => Some errNotAClusterServiceBroker end.

Definition toSelectableFields (broker : ClusterServiceBroker) : FieldSet :=
  let objectMetaFieldsSet := ObjectMetaFieldsSet (b_Meta broker) true in
  MergeFieldsSets objectMetaFieldsSet ∅.

Definition GetAttrs (obj : RObject) : FieldSet + error :=
  match obj with
  | RBroker broker => inl (toSelectableFields broker)
  | _ => inr (PlainError "given object is not a ClusterServiceBroker")
  end.

Definition Match (field : Selector) : SelectionPredicate := {| pred_Field := field; pred_GetAttrs := GetAttrs |}.

Definition NewStorage (opts : Options) : option (Store ClusterServiceBroker * Store ClusterServiceBroker) :=
  option_map (fun store => (store, with_UpdateStrategy brokerStatusUpdateStrategy store)) (GetStorage opts false (fun root key =>
    {| QualifiedResource := "clusterservicebrokers"; store_KeyRootFunc := root; store_KeyFunc := key; PredicateFunc := Match;
       CreateStrategy := brokerCreateStrategy; UpdateStrategy := brokerUpdateStrategy; DeleteStrategy := brokerDeleteStrategy;
       EnableGarbageCollection := true |})).
End storage.
End broker.

Module serviceclass.
Section storage.
Context {C : Config} {MV : MetaValidation} {Sem : Semantic}.

Definition errNotAServiceClass : error := PlainError "not a service class".
Definition CheckObject (obj : RObject) : option error :=
  match obj with RClass _ => None | _ => Some errNotAServiceClass end.

Definition GetAttrs (obj : RObject) : FieldSet + error :=
  match obj with
  | RClass serviceclass => inl (class_toSelectableFields serviceclass)
  | _ => inr (PlainError "given object is not a ServiceClass")
  end.

Definition Match (field : Selector) : SelectionPredicate := {| pred_Field := field; pred_GetAttrs := GetAttrs |}.

Definition NewStorage (opts : Options) : option (Store ServiceClass) :=
  option_map (fun store => store) (GetStorage opts false (fun root key =>
    {| QualifiedResource := "serviceclasses"; store_KeyRootFunc := root; store_KeyFunc := key; PredicateFunc := Match;
       CreateStrategy := serviceclassCreateStrategy; UpdateStrategy := serviceclassUpdateStrategy; DeleteStrategy := None;
       EnableGarbageCollection := false |})).
End storage.
End serviceclass.

Module serviceplan.
Section storage.
Context {C : Config} {MV : MetaValidation} {Sem : Semantic}.

Definition errNotAServicePlan : error := PlainError "not a servicePlan".
Definition CheckObject (obj : RObject) : option error :=
  match obj with RPlan _ => None | _ => Some errNotAServicePlan end.

Definition GetAttrs (obj : RObject) : FieldSet + error :=
  match obj with
  | RPlan servicePlan => inl (plan_toSelectableFields servicePlan)
  | _ => inr (PlainError "given object is not a ServicePlan")
  end.

Definition Match (field : Selector) : SelectionPredicate := {| pred_Field := field; pred_GetAttrs := GetAttrs |}.

Definition NewStorage (opts : Options) : option (Store ServicePlan) :=
  option_map (fun store => store) (GetStorage opts false (fun root key =>
    {| QualifiedResource := "serviceplans"; store_KeyRootFunc := root; store_KeyFunc := key; PredicateFunc := Match;
       CreateStrategy := serviceplanCreateStrategy; UpdateStrategy := serviceplanUpdateStrategy; DeleteStrategy := None;
       EnableGarbageCollection := false |})).
End storage.
End serviceplan.

(** ** The table of routes *)

(** [etcdRESTOptionsFactory.GetRESTOptions]: the prefix of a resource is the one
    of [DefaultStorageFactory], its name in lower case, as no override is
    configured. *)
Definition lower_char (c : Ascii.ascii) : Ascii.ascii :=
  if upper c then Ascii.ascii_of_nat (Ascii.nat_of_ascii c + 32) else c.
Fixpoint ToLower (s : string) : string :=
  match s with EmptyString => EmptyString | String c s' => String (lower_char c) (ToLower s') end.
Definition DefaultStorageFactory_ResourcePrefix (groupResource : string) : string := ToLower groupResource.
Definition GetRESTOptions (groupResource : string) : string + error :=
  inl (DefaultStorageFactory_ResourcePrefix groupResource).

(** What a route serves: a store, with every verb, or a subresource ([StatusREST],
    [ReferenceREST]), which can only be read and updated. *)
Inductive rest_Storage :=
| FullREST (A : Type) (H : Object A) (R : Resource A) (store : Store A)
| SubresourceREST (A : Type) (H : Object A) (R : Resource A) (store : Store A).
Arguments FullREST {A H R}.
Arguments SubresourceREST {A H R}.

Section table.
Context {C : Config} {MV : MetaValidation} {Sem : Semantic}.

(** [StorageProvider.v1alpha1Storage], for the prefixes the REST options give
    the resources; [None] when [GetStorage] panics. *)
Definition v1alpha1Storage (sType : StorageType) (getRESTOptions : string -> string + error) :
    option (list (string * rest_Storage)) + error :=
  match getRESTOptions "clusterservicebrokers" with inr err => inr err | inl brokerPrefix =>
  match getRESTOptions "serviceclasses" with inr err => inr err | inl classPrefix =>
  match getRESTOptions "serviceplans" with inr err => inr err | inl planPrefix =>
  match getRESTOptions "serviceinstances" with inr err => inr err | inl instancePrefix =>
  match getRESTOptions "serviceinstancecredentials" with inr err => inr err | inl bindingPrefix =>
    inl (
      '(brokerStorage, brokerStatusStorage) ← broker.NewStorage (NewOptions brokerPrefix sType);
      serviceClassStorage ← serviceclass.NewStorage (NewOptions classPrefix sType);
      servicePlanStorage ← serviceplan.NewStorage (NewOptions planPrefix sType);
      '(instanceStorage, instanceStatusStorage, instanceReferencesStorage) ← instance.NewStorage (NewOptions instancePrefix sType);
      '(bindingStorage, bindingStatusStorage) ← binding.NewStorage (NewOptions bindingPrefix sType);
      Some [("clusterservicebrokers", FullREST brokerStorage);
            ("clusterservicebrokers/status", SubresourceREST brokerStatusStorage);
            ("serviceclasses", FullREST serviceClassStorage);
            ("serviceplans", FullREST servicePlanStorage);
            ("serviceinstances", FullREST instanceStorage);
            ("serviceinstances/status", SubresourceREST instanceStatusStorage);
            ("serviceinstances/reference", SubresourceREST instanceReferencesStorage);
            ("serviceinstancecredentials", FullREST bindingStorage);
            ("serviceinstancecredentials/status", SubresourceREST bindingStatusStorage)])
  end end end end end.
End table.

(** ** Requests *)

Inductive Verb :=
| VCreate (uid next : string) (obj : RObject)
| VUpdate (name next : string) (obj : RObject)
| VDelete (name next : string) (now : Z)
| VGet (name : string)
| VList (field : Selector).

Inductive Reply :=
| ReplyObject (o : RObject)
| ReplyStatus
| ReplyList (l : list RObject)
| ReplyError (err : error).

Section serve.
Context {SV : StoreValidation}.

Definition reply_object {A} `{Resource A} (r : A + error) : Reply :=
  match r with inl a => ReplyObject (inject a) | inr err => ReplyError err end.
Definition methodNotSupported : error := StatusError (ReasonOther "MethodNotAllowed") "method not supported".
(** A body of another kind than the route's is refused by the decoder. *)
Definition wrongKind : error := BadRequest "the object provided is unrecognized".

Definition serve_store {A} `{Resource A} (e : Store A) (full : bool) (ctx : RequestContext) (v : Verb) (db : etcd) : Reply * etcd :=
  match v with
  | VCreate uid next o =>
      if negb full then (ReplyError methodNotSupported, db) else
      match project o with
      | None => (ReplyError wrongKind, db)
      | Some obj => let (r, db) := Store_Create e ctx uid next obj db in (reply_object r, db)
      end
  | VUpdate name next o =>
      match project o with
      | None => (ReplyError wrongKind, db)
      | Some obj => let (r, db) := Store_Update e ctx name next obj db in (reply_object r, db)
      end
  | VDelete name next now =>
      if negb full then (ReplyError methodNotSupported, db) else
      match Store_Delete e ctx name next now db with
      | (inl (Some obj), db) => (ReplyObject (inject obj), db)
      | (inl None, db) => (ReplyStatus, db)
      | (inr err, db) => (ReplyError err, db)
      end
  | VGet name => let (r, db) := Store_Get e ctx name db in (reply_object r, db)
  | VList field =>
      if negb full then (ReplyError methodNotSupported, db) else
      match Store_List e ctx field db with
      | inl l => (ReplyList (map inject l), db)
      | inr err => (ReplyError err, db)
      end
  end.

Definition serve (s : rest_Storage) (ctx : RequestContext) (v : Verb) (db : etcd) : Reply * etcd :=
  match s with
  | FullREST store => serve_store store true ctx v db
  | SubresourceREST store => serve_store store false ctx v db
  end.
End serve.
