(* ===== verification/StorageTheorems.v ===== *)
(** * What the storage of the API server guarantees

    Every object is kept under its own key, requests act on one object as the
    one-object registry of [APIServer] does and leave the others alone, lists
    are complete, and the subresources write their own part of an object. *)

From stdpp Require Import gmap strings list sorting.
From S2P Require Import Prelude Types Environment Conditions Regexp Validation ValidationSpec APIServer Strategy Selectors SelectorTheorems Storage Sample InstanceLifecycle.

#[local] Arguments String.append !_ _ / : simpl nomatch.

(** ** Paths *)

Lemma append_assoc (a b c : string) : (a +:+ b) +:+ c = a +:+ (b +:+ c).
Proof. induction a as [|x a IH]; cbn; congruence. Qed.

Lemma Contains_append p a b : Contains p (a +:+ b) = Contains p a || Contains p b.
Proof. induction a as [|c a IH]; [done|]. cbn. by rewrite IH, orb_assoc. Qed.

Lemma segment_inj a b r r' : Contains slash a = false -> Contains slash b = false ->
  a +:+ "/" +:+ r = b +:+ "/" +:+ r' -> a = b /\ r = r'.
Proof.
  revert b. induction a as [|c a IH]; intros [|d b]; cbn -[slash]; intros Ha Hb He; simplify_eq; try done.
  apply orb_false_iff in Ha as [_ Ha], Hb as [_ Hb]. by destruct (IH b Ha Hb H) as [-> ->].
Qed.

Lemma segment_end a b r : Contains slash a = false -> Contains slash b = false -> a +:+ "/" +:+ r <> b.
Proof. intros _ Hb <-. rewrite !Contains_append in Hb. cbn -[slash] in Hb. by rewrite !orb_true_r in Hb. Qed.

Definition no_slash (s : string) : Prop := Contains slash s = false.

Lemma Join_inj l l' : Forall no_slash l -> Forall no_slash l' -> l <> [] -> l' <> [] ->
  Join "/" l = Join "/" l' -> l = l'.
Proof.
  intros Hl. revert l'. induction Hl as [|a l Ha Hl IH]; intros l' Hl' Hn Hn' He; [done|].
  destruct Hl' as [|b l' Hb Hl']; [done|]. destruct l as [|a' l], l' as [|b' l'].
  - cbn in He. by subst.
  - symmetry in He. by apply (segment_end b a (Join "/" (b' :: l'))) in He.
  - by apply (segment_end a b (Join "/" (a' :: l))) in He.
  - apply segment_inj in He as [-> He]; [|done|done]. f_equal. by apply IH.
Qed.

Lemma valid_name_no_slash name : IsValidPathSegmentName name = [] -> no_slash name.
Proof.
  unfold IsValidPathSegmentName, no_slash. do 2 (destruct (bool_decide _); [done|]).
  rewrite app_nil_iff. by destruct (Contains slash name); intros [].
Qed.

(** ** Objects and their keys *)

Definition meta_of (o : RObject) : ObjectMeta :=
  match o with RInstance i => si_Meta i | RBinding b => bind_Meta b | RBroker b => b_Meta b | RClass c => sc_Meta c | RPlan p => sp_Meta p end.
Definition resource_of (o : RObject) : string :=
  match o with
  | RInstance _ => "serviceinstances" | RBinding _ => "serviceinstancecredentials" | RBroker _ => "clusterservicebrokers"
  | RClass _ => "serviceclasses" | RPlan _ => "serviceplans"
  end.
Definition namespaced (o : RObject) : bool := match o with RInstance _ | RBinding _ => true | _ => false end.

(** Cluster-scoped objects have no namespace in their path. *)
Definition path (res : string) (scoped : bool) (ns name : string) : list string :=
  if scoped then [res; ns; name] else [res; name].
Definition key_at res scoped ns name : string := Join "/" (path res scoped ns name).
Definition key_of (o : RObject) : string :=
  key_at (resource_of o) (namespaced o) (Namespace (meta_of o)) (Name (meta_of o)).

(** The fields of an object requests may select by. *)
Definition selectable (o : RObject) : FieldSet :=
  match o with
  | RInstance i => instance.toSelectableFields i
  | RBinding b => binding.toSelectableFields b
  | RBroker b => broker.toSelectableFields b
  | RClass c => class_toSelectableFields c
  | RPlan p => plan_toSelectableFields p
  end.

Lemma selectable_name o : fields_Get "metadata.name" (selectable o) = Name (meta_of o).
Proof. by destruct o. Qed.

Record placed (o : RObject) : Prop := {
  placed_name : no_slash (Name (meta_of o)) /\ Name (meta_of o) <> "";
  placed_ns : no_slash (Namespace (meta_of o)) /\ (Namespace (meta_of o) = "" <-> namespaced o = false) }.

(** Every object is stored under its own key. *)
Definition filed (db : etcd) : Prop := forall k o, db !! k = Some o -> k = key_of o /\ placed o.

Lemma filed_empty : filed ∅.
Proof. intros k o H. by rewrite lookup_empty in H. Qed.

Lemma filed_insert db o : filed db -> placed o -> filed (<[key_of o := o]> db).
Proof. intros Hdb Ho k o'. destruct (decide (k = key_of o)) as [->|Hn]; [rewrite lookup_insert_eq; by intros [= <-]|rewrite lookup_insert_ne by done; apply Hdb]. Qed.

Lemma filed_delete db k : filed db -> filed (delete k db).
Proof. intros Hdb k' o [_ H]%lookup_delete_Some. by apply Hdb. Qed.

(** ** Stores laid out by the key functions *)

Class ResourceLaws (A : Type) `{R : Resource A} : Prop := {
  project_inject (a : A) : project (inject a) = Some a;
  inject_project o (a : A) : project o = Some a -> o = inject a;
  project_resource o : project o = None -> resource_of o <> resource;
  resource_of_inject (a : A) : resource_of (inject a) = resource;
  resource_no_slash : no_slash resource;
  meta_of_inject (a : A) : meta_of (inject a) = metaOf a }.

Ltac resource_laws := split; intros; repeat match goal with o : RObject |- _ => destruct o end; simplify_eq/=; done.
#[export] Instance ServiceInstance_ResourceLaws : ResourceLaws ServiceInstance.
Proof. resource_laws. Qed.
#[export] Instance ServiceInstanceCredential_ResourceLaws : ResourceLaws ServiceInstanceCredential.
Proof. resource_laws. Qed.
#[export] Instance ClusterServiceBroker_ResourceLaws : ResourceLaws ClusterServiceBroker.
Proof. resource_laws. Qed.
#[export] Instance ServiceClass_ResourceLaws : ResourceLaws ServiceClass.
Proof. resource_laws. Qed.
#[export] Instance ServicePlan_ResourceLaws : ResourceLaws ServicePlan.
Proof. resource_laws. Qed.

(** A store whose keys are those of its resource, whose strategies keep the
    name of an object and do not update unconditionally, and whose selectable
    fields have the name of the object. *)
Record Layout {A} `{R : Resource A} (scoped : bool) (e : Store A) : Prop := {
  layout_scoped (a : A) : namespaced (inject a) = scoped;
  layout_root ctx : store_KeyRootFunc e ctx = NamespaceKeyRootFunc ctx resource;
  layout_key ctx name : store_KeyFunc e ctx name =
    if scoped then NamespaceKeyFunc ctx resource name else NoNamespaceKeyFunc ctx resource name;
  layout_create_scoped : NamespaceScoped (CreateStrategy e) = scoped;
  layout_create ctx (a : A) :
    Name (metaOf (PrepareForCreate (CreateStrategy e) ctx a)) = Name (metaOf a) /\
    Namespace (metaOf (PrepareForCreate (CreateStrategy e) ctx a)) = Namespace (metaOf a) /\
    ResourceVersion (metaOf (PrepareForCreate (CreateStrategy e) ctx a)) = ResourceVersion (metaOf a);
  layout_delete ctx (a : A) f : DeleteStrategy e = Some f -> metaOf (f ctx a) = metaOf a;
  layout_update : AllowUnconditionalUpdate (UpdateStrategy e) = false;
  layout_attrs field : pred_Field (PredicateFunc e field) = field /\
    forall a : A, pred_GetAttrs (PredicateFunc e field) (inject a) = inl (selectable (inject a)) }.

(** A name the store takes in the namespace of the request. *)
Definition accepted_name (scoped : bool) (ctx : RequestContext) (name : string) : bool :=
  negb (bool_decide (name = "")) && bool_decide (IsValidPathSegmentName name = []) &&
  (negb scoped || negb (bool_decide (ctx_Namespace ctx = ""))).

Lemma accepted_name_spec scoped ctx name : accepted_name scoped ctx name = true ->
  name <> "" /\ no_slash name /\ (scoped = true -> ctx_Namespace ctx <> "").
Proof.
  unfold accepted_name. rewrite !andb_true_iff, orb_true_iff, !negb_true_iff, !bool_decide_eq_false, bool_decide_eq_true.
  intros [[H1 H2%valid_name_no_slash] H3]. split_and!; [done|done|]. by destruct H3 as [->|].
Qed.

Lemma key_at_spec ctx res scoped name :
  match (if scoped : bool then NamespaceKeyFunc ctx res name else NoNamespaceKeyFunc ctx res name) with
  | inl key => key = key_at res scoped (ctx_Namespace ctx) name /\ accepted_name scoped ctx name = true
  | inr _ => accepted_name scoped ctx name = false
  end.
Proof.
  unfold NamespaceKeyFunc, NoNamespaceKeyFunc, NamespaceKeyRootFunc, checked_name, accepted_name, key_at, path.
  destruct scoped.
  - destruct (bool_decide (ctx_Namespace ctx = "")); cbn [negb]; [by rewrite andb_false_r|].
    destruct (bool_decide (name = "")); [done|]. destruct (IsValidPathSegmentName name); [|done].
    split; [|done]. cbn [sprint Join]. by rewrite !append_assoc, !append_nil_r.
  - destruct (bool_decide (name = "")); [done|]. destruct (IsValidPathSegmentName name); [|done].
    split; [|done]. cbn [sprint Join]. by rewrite !append_nil_r.
Qed.

Lemma resource_of_no_slash o : no_slash (resource_of o).
Proof. by destruct o. Qed.
#[local] Hint Resolve resource_of_no_slash resource_no_slash : core.

Lemma path_no_slash res scoped ns name : no_slash res -> (scoped = true -> no_slash ns) -> no_slash name ->
  Forall no_slash (path res scoped ns name).
Proof. intros Hr Hns Hn. destruct scoped; repeat constructor; auto. Qed.

Lemma key_at_inj res res' scoped scoped' ns ns' name name' :
  no_slash res -> no_slash res' -> no_slash ns -> no_slash ns' -> no_slash name -> no_slash name' ->
  key_at res scoped ns name = key_at res' scoped' ns' name' ->
  res = res' /\ scoped = scoped' /\ name = name' /\ (scoped = true -> ns = ns').
Proof.
  intros H1 H2 H3 H4 H5 H6 He. apply Join_inj in He; [|by apply path_no_slash..|by destruct scoped|by destruct scoped'].
  unfold path in He. by destruct scoped, scoped'; simplify_eq.
Qed.

(** ** Operations keep the name of an object *)

Section names.
Context {A : Type} `{OL : ObjectLaws A} {SV : StoreValidation}.
Implicit Types (obj old v : A) (ctx : RequestContext).

Lemma scopedTo_kept scoped ctx obj obj' : scopedTo scoped ctx obj = Some obj' ->
  Name (metaOf obj') = Name (metaOf obj) /\ ResourceVersion (metaOf obj') = ResourceVersion (metaOf obj) /\
  Namespace (metaOf obj') = if scoped then ctx_Namespace ctx else "".
Proof.
  unfold scopedTo, ValidNamespace. cbv zeta. destruct scoped; [|intros [= <-]; by rewrite !metaOf_modify].
  destruct (bool_decide (Namespace (metaOf obj) = "")); case_bool_decide as Hc; intros [= <-]; by rewrite ?metaOf_modify in *.
Qed.

Lemma BeforeCreate_kept (st : RESTCreateStrategy A) ctx uid obj v :
  (forall a, Name (metaOf (PrepareForCreate st ctx a)) = Name (metaOf a) /\
    Namespace (metaOf (PrepareForCreate st ctx a)) = Namespace (metaOf a) /\
    ResourceVersion (metaOf (PrepareForCreate st ctx a)) = ResourceVersion (metaOf a)) ->
  BeforeCreate st ctx uid obj = inl v ->
  Name (metaOf v) = Name (metaOf obj) /\ ResourceVersion (metaOf v) = ResourceVersion (metaOf obj) /\
  Namespace (metaOf v) = if NamespaceScoped st then ctx_Namespace ctx else "".
Proof.
  intros Hk. unfold BeforeCreate. destruct (scopedTo _ _ _) as [obj1|] eqn:Hsc; [|done]. apply scopedTo_kept in Hsc as (H1 & H2 & H3).
  cbv zeta. destruct (_ ++ _); [|done]. intros [= <-]. rewrite !metaOf_modify. cbn.
  destruct (Hk (modify (with_DeletionTimestamp None) obj1)) as (-> & -> & ->). by rewrite !metaOf_modify.
Qed.

Lemma BeforeUpdate_kept (st : RESTUpdateStrategy A) scoped ctx obj old v :
  BeforeUpdate st scoped ctx obj old = inl v -> Name (metaOf v) = Name (metaOf old) /\ Namespace (metaOf v) = Namespace (metaOf old).
Proof.
  unfold BeforeUpdate. destruct (scopedTo _ _ _) as [obj1|]; [|done]. cbv zeta. set (new := PrepareForUpdate _ _ _ _).
  destruct (_ ++ _) eqn:Hval; [|done]. intros [= <-]. apply app_nil_iff in Hval as [_ [Hm _]%app_nil_iff].
  rewrite metaOf_modify in *. destruct (repairMeta_kept (metaOf new) (metaOf old)) as (-> & -> & _).
  by apply validateMetaUpdate_same in Hm as (_ & -> & -> & _).
Qed.

Lemma storeUpdate_kept (st : RESTUpdateStrategy A) scoped ctx next old obj v :
  storeUpdate st scoped ctx next (Some old) obj = Stored v \/ storeUpdate st scoped ctx next (Some old) obj = Removed v ->
  Name (metaOf v) = Name (metaOf old) /\ Namespace (metaOf v) = Namespace (metaOf old).
Proof.
  unfold storeUpdate. cbv zeta. repeat (destruct (_ && _); [by intros []|]).
  destruct (BeforeUpdate _ _ _ _ _) as [w|] eqn:Hb; [|by intros []]. apply BeforeUpdate_kept in Hb.
  destruct (shouldDeleteDuringUpdate _ _); intros [[= <-]|[= <-]]; by rewrite ?metaOf_modify.
Qed.

Lemma storeDelete_kept (st : RESTDeleteStrategy A) ctx next now old v :
  (forall f a, st = Some f -> metaOf (f ctx a) = metaOf a) -> storeDelete st ctx next now (Some old) = Stored v ->
  Name (metaOf v) = Name (metaOf old) /\ Namespace (metaOf v) = Namespace (metaOf old).
Proof.
  intros Hf. unfold storeDelete. cbv zeta. destruct (Nat.eqb _ _); [done|]. intros [= <-]. rewrite metaOf_modify. cbn.
  unfold markAsDeleting. rewrite metaOf_modify.
  assert (Hm : metaOf (BeforeDelete st ctx old) = metaOf old) by (unfold BeforeDelete; destruct st; [case_bool_decide|]; auto).
  rewrite Hm. by destruct (bool_decide _ && _).
Qed.
End names.

(** ** One store *)

(** The registry of one object, as [APIServer] has it: what becomes of the
    object a request is about. *)
Section one_object.
Context {A : Type} `{R : Resource A} {SV : StoreValidation}.

Definition one_object (e : Store A) (full : bool) (ctx : RequestContext) (v : Verb) (existing : option A) : option A :=
  match v with
  | VCreate uid next o =>
      match project o with
      | Some obj =>
          if full then
            match storeCreate (CreateStrategy e) ctx uid next existing obj with Stored w => Some w | _ => existing end
          else existing
      | None => existing
      end
  | VUpdate name next o =>
      match project o with
      | Some obj =>
          match storeUpdate (UpdateStrategy e) (NamespaceScoped (CreateStrategy e)) ctx next existing obj with
          | Stored w => Some w
          | Removed w => if EnableGarbageCollection e then None else Some (modify (with_ResourceVersion next) w)
          | Refused _ => existing
          end
      | None => existing
      end
  | VDelete name next now =>
      if full then
        match storeDelete (DeleteStrategy e) ctx next now existing with
        | Stored w => if EnableGarbageCollection e then Some w else None
        | _ => None
        end
      else existing
  | VGet _ | VList _ => existing
  end.
End one_object.

(** The object a request names; a list names none. *)
Definition addressed (v : Verb) : option string :=
  match v with
  | VCreate _ _ o => Some (Name (meta_of o))
  | VUpdate name _ _ | VDelete name _ _ | VGet name => Some name
  | VList _ => None
  end.

Definition alter_to (key : string) (o : option RObject) (db : etcd) : etcd :=
  match o with Some o => <[key := o]> db | None => delete key db end.

Lemma alter_to_same key db : alter_to key (db !! key) db = db.
Proof. unfold alter_to. destruct (db !! key) eqn:E; [by apply insert_id|by apply delete_id]. Qed.

Section store.
Context {A : Type} `{RL : ResourceLaws A, OL : !ObjectLaws A} {SV : StoreValidation}.
Context (e : Store A) (scoped : bool) (L : Layout scoped e).
Implicit Types (ctx : RequestContext) (db : etcd) (v : Verb) (obj : A).

Definition object_key ctx name : string := key_at resource scoped (ctx_Namespace ctx) name.

(** What is stored under a key of the store is of its type. *)
Lemma decode_filed db ctx name o : filed db -> no_slash (ctx_Namespace ctx) -> no_slash name ->
  db !! object_key ctx name = Some o ->
  exists a, o = inject a /\ Name (metaOf a) = name /\ placed o /\ (scoped = true -> Namespace (metaOf a) = ctx_Namespace ctx).
Proof.
  intros Hdb Hns Hn Ho. destruct (Hdb _ _ Ho) as [He Hp]. destruct (placed_name _ Hp) as [Hn' _], (placed_ns _ Hp) as [Hns' _].
  apply key_at_inj in He as (Hr & Hs & Hname & Hsc); auto. destruct (project o) as [a|] eqn:Ha.
  - apply inject_project in Ha as ->. rewrite meta_of_inject in *. exists a. split_and!; auto. intros Hs'. symmetry. auto.
  - by apply project_resource in Ha.
Qed.

Lemma decode_at_filed db ctx name : filed db -> no_slash (ctx_Namespace ctx) -> no_slash name ->
  decode_at (object_key ctx name) db = inl (db !! object_key ctx name ≫= project).
Proof.
  intros Hdb Hns Hn. unfold decode_at. destruct (db !! _) as [o|] eqn:Ho; [|done].
  destruct (decode_filed db ctx name o) as (a & -> & _); auto. cbn. by rewrite project_inject.
Qed.

Lemma lookup_project db ctx name : filed db -> no_slash (ctx_Namespace ctx) -> no_slash name ->
  db !! object_key ctx name = inject <$> (db !! object_key ctx name ≫= project).
Proof.
  intros Hdb Hns Hn. destruct (db !! _) as [o|] eqn:Ho; [|done].
  destruct (decode_filed db ctx name o) as (a & -> & _); auto. cbn. by rewrite project_inject.
Qed.

Lemma store_key ctx name :
  match store_KeyFunc e ctx name with
  | inl key => key = object_key ctx name /\ accepted_name scoped ctx name = true
  | inr _ => accepted_name scoped ctx name = false
  end.
Proof. rewrite (layout_key _ _ L). exact (key_at_spec ctx resource scoped name). Qed.

(** The object of a name the store takes. *)
Lemma placed_at ctx name a : no_slash (ctx_Namespace ctx) -> no_slash name -> name <> "" ->
  (scoped = true -> ctx_Namespace ctx <> "") -> Name (metaOf a) = name ->
  Namespace (metaOf a) = (if scoped then ctx_Namespace ctx else "") ->
  key_of (inject a) = object_key ctx name /\ placed (inject a).
Proof.
  intros Hns Hn Hne Hs Hname Hnsp. unfold key_of, object_key. rewrite resource_of_inject, meta_of_inject, (layout_scoped _ _ L), Hname, Hnsp.
  split; [by destruct scoped|]. split; rewrite meta_of_inject; [by rewrite Hname|].
  rewrite (layout_scoped _ _ L), Hnsp. destruct scoped; [|done]. split; [done|]. split; [intros He; by destruct (Hs eq_refl)|done].
Qed.

(** What a step of the registry of one object makes of the store. *)
Notation becomes ctx name db f := (alter_to (object_key ctx name) (inject <$> f (db !! object_key ctx name ≫= project)) db).

Lemma becomes_same ctx name db : filed db -> no_slash (ctx_Namespace ctx) -> no_slash name ->
  becomes ctx name db (fun existing => existing) = db.
Proof. intros Hdb Hns Hn. cbv beta. rewrite <-lookup_project by done. apply alter_to_same. Qed.

Lemma create_state ctx uid next obj db : filed db -> no_slash (ctx_Namespace ctx) ->
  snd (Store_Create e ctx uid next obj db) =
  if accepted_name scoped ctx (Name (metaOf obj)) && negb (version_set (ResourceVersion (metaOf obj))) then
    becomes ctx (Name (metaOf obj)) db (fun existing =>
      match storeCreate (CreateStrategy e) ctx uid next existing obj with Stored w => Some w | _ => existing end)
  else db.
Proof.
  intros Hdb Hns. destruct (accepted_name _ _ _) eqn:Ha; cbn [andb].
  - apply accepted_name_spec in Ha as Hn. destruct Hn as (_ & Hn & _). pose proof (becomes_same ctx _ db Hdb Hns Hn) as Hsame.
    unfold Store_Create, storeCreate. destruct (BeforeCreate _ _ _ _) as [w|] eqn:Hb; [|by rewrite Hsame; destruct (version_set _)].
    apply BeforeCreate_kept in Hb as (Hname & Hr & _); [|apply L]. rewrite Hname.
    pose proof (store_key ctx (Name (metaOf obj))) as Hk. destruct (store_KeyFunc e ctx _) as [key|]; [|congruence].
    destruct Hk as [-> _]. rewrite Hr. destruct (version_set _); cbn [negb]; [done|].
    rewrite (lookup_project db) by done. destruct (db !! _ ≫= project) as [old|] eqn:Ho; cbn [fmap option_fmap option_map]; [|done].
    cbn [mbind option_bind snd]. by rewrite project_inject.
  - unfold Store_Create. destruct (BeforeCreate _ _ _ _) as [w|] eqn:Hb; [|done].
    apply BeforeCreate_kept in Hb as (Hname & _); [|apply L]. rewrite Hname.
    pose proof (store_key ctx (Name (metaOf obj))) as Hk. destruct (store_KeyFunc e ctx _) as [key|]; [|done]. destruct Hk; congruence.
Qed.

Lemma update_state ctx name next obj db : filed db -> no_slash (ctx_Namespace ctx) ->
  snd (Store_Update e ctx name next obj db) =
  if accepted_name scoped ctx name then
    becomes ctx name db (fun existing =>
      match storeUpdate (UpdateStrategy e) (NamespaceScoped (CreateStrategy e)) ctx next existing obj with
      | Stored w => Some w
      | Removed w => if EnableGarbageCollection e then None else Some (modify (with_ResourceVersion next) w)
      | Refused _ => existing
      end)
  else db.
Proof.
  intros Hdb Hns. unfold Store_Update. pose proof (store_key ctx name) as Hk.
  destruct (store_KeyFunc e ctx name) as [key|]; [|by rewrite Hk]. destruct Hk as [-> Ha]. rewrite Ha.
  apply accepted_name_spec in Ha as (_ & Hn & _). pose proof (becomes_same ctx name db Hdb Hns Hn) as Hsame.
  rewrite decode_at_filed by done. destruct (storeUpdate _ _ _ _ _ _); [done| |done]. by destruct (EnableGarbageCollection e).
Qed.

Lemma delete_state ctx name next now db : filed db -> no_slash (ctx_Namespace ctx) ->
  snd (Store_Delete e ctx name next now db) =
  if accepted_name scoped ctx name then
    becomes ctx name db (fun existing =>
      match storeDelete (DeleteStrategy e) ctx next now existing with
      | Stored w => if EnableGarbageCollection e then Some w else None
      | _ => None
      end)
  else db.
Proof.
  intros Hdb Hns. unfold Store_Delete. pose proof (store_key ctx name) as Hk.
  destruct (store_KeyFunc e ctx name) as [key|]; [|by rewrite Hk]. destruct Hk as [-> Ha]. rewrite Ha.
  apply accepted_name_spec in Ha as (_ & Hn & _). pose proof (becomes_same ctx name db Hdb Hns Hn) as Hsame.
  rewrite decode_at_filed by done. destruct (db !! _ ≫= project) as [old|] eqn:Ho; [|done].
  by destruct (EnableGarbageCollection e); unfold storeDelete; cbv zeta; destruct (Nat.eqb _ _).
Qed.

(** The name a request is accepted with. *)
Definition accepted ctx (v : Verb) : option string :=
  match v with
  | VCreate _ _ o =>
      if accepted_name scoped ctx (Name (meta_of o)) &&
         negb (version_set (ResourceVersion (meta_of o)))
      then Some (Name (meta_of o)) else None
  | VUpdate name _ _ | VDelete name _ _ => if accepted_name scoped ctx name then Some name else None
  | VGet _ | VList _ => None
  end.

(** A request leaves the store as the registry of the one object it names does,
    and what the store refuses for its name or version changes nothing. *)
Lemma serve_store_state full ctx v db : filed db -> no_slash (ctx_Namespace ctx) ->
  snd (serve_store e full ctx v db) =
  match accepted ctx v with
  | Some name => becomes ctx name db (one_object e full ctx v)
  | None => db
  end.
Proof.
  intros Hdb Hns. destruct v as [uid next o|name next o|name next now|name|field]; cbn [serve_store accepted one_object].
  - destruct (accepted_name _ _ _) eqn:Ha; cbn [andb].
    + apply accepted_name_spec in Ha as Hn. destruct Hn as (_ & Hn & _). pose proof (becomes_same ctx _ db Hdb Hns Hn) as Hsame.
      destruct (project o) as [obj|] eqn:Ho.
      * apply inject_project in Ho as ->. rewrite meta_of_inject in *. pose proof (create_state ctx uid next obj db Hdb Hns) as Hc.
        rewrite Ha in Hc. destruct full; cbn [negb]; [|by destruct (version_set _); cbn; rewrite ?Hsame].
        destruct (Store_Create _ _ _ _ _ _) as [r db']. cbn [snd] in *. rewrite Hc. by destruct (version_set _).
      * by destruct full, (version_set _); cbn [negb snd]; rewrite ?Hsame.
    + destruct full; cbn [negb]; [|done]. destruct (project o) as [obj|] eqn:Ho; [|done].
      apply inject_project in Ho as ->. rewrite meta_of_inject in *. pose proof (create_state ctx uid next obj db Hdb Hns) as Hc.
      rewrite Ha in Hc. by destruct (Store_Create _ _ _ _ _ _).
  - pose proof (fun obj => update_state ctx name next obj db Hdb Hns) as Hu. destruct (accepted_name _ _ _) eqn:Ha.
    + apply accepted_name_spec in Ha as (_ & Hn & _). pose proof (becomes_same ctx name db Hdb Hns Hn) as Hsame.
      destruct (project o) as [obj|]; [|done]. specialize (Hu obj). by destruct (Store_Update _ _ _ _ _ _).
    + destruct (project o) as [obj|]; [|done]. specialize (Hu obj). by destruct (Store_Update _ _ _ _ _ _).
  - pose proof (delete_state ctx name next now db Hdb Hns) as Hd. destruct (accepted_name _ _ _) eqn:Ha.
    + apply accepted_name_spec in Ha as (_ & Hn & _). pose proof (becomes_same ctx name db Hdb Hns Hn) as Hsame.
      destruct full; cbn [negb]; [|done]. by destruct (Store_Delete _ _ _ _ _ _) as [[[a|]|err] db'].
    + destruct full; cbn [negb]; [|done]. by destruct (Store_Delete _ _ _ _ _ _) as [[[a|]|err] db'].
  - unfold Store_Get. destruct (store_KeyFunc _ _ _); [|done]. by destruct (decode_at _ _) as [[]|].
  - destruct full; cbn [negb]; [|done]. by destruct (Store_List _ _ _ _).
Qed.

Definition sits_at ctx name obj : Prop :=
  Name (metaOf obj) = name /\ Namespace (metaOf obj) = if scoped then ctx_Namespace ctx else "".

Lemma existing_sits db ctx name a : filed db -> no_slash (ctx_Namespace ctx) -> no_slash name ->
  db !! object_key ctx name ≫= project = Some a -> sits_at ctx name a.
Proof.
  intros Hdb Hns Hn Ha. destruct (db !! _) as [o|] eqn:Ho; [|done].
  destruct (decode_filed db ctx name o) as (a' & -> & Hname & Hp & Hs); auto. cbn in Ha. rewrite project_inject in Ha. simplify_eq.
  split; [done|]. pose proof (placed_ns _ Hp) as [_ H1]. rewrite meta_of_inject, (layout_scoped _ _ L) in H1.
  destruct scoped; [by apply Hs|by apply H1].
Qed.

Lemma one_object_sits full ctx v name existing a : addressed v = Some name ->
  (forall a0, existing = Some a0 -> sits_at ctx name a0) -> one_object e full ctx v existing = Some a -> sits_at ctx name a.
Proof.
  intros Hv He. unfold sits_at in *. destruct v as [uid next o|n next o|n next now|n|field]; cbn in *; simplify_eq; auto.
  - destruct (project o) as [obj|] eqn:Ho; [|auto]. apply inject_project in Ho as ->. destruct full; [|auto].
    destruct (storeCreate _ _ _ _ _ _) as [w| |] eqn:Hc; [|auto..]. intros [= <-]. revert Hc. unfold storeCreate.
    destruct (BeforeCreate _ _ _ _) as [w1|] eqn:Hb; [|done]. apply BeforeCreate_kept in Hb as (H1 & _ & H3); [|apply L].
    destruct existing; [done|]. intros [= <-]. rewrite metaOf_modify, meta_of_inject. cbn. rewrite H1, H3.
    by rewrite (layout_create_scoped _ _ L).
  - destruct (project o) as [obj|]; [|auto]. destruct existing as [old|]; [|done]. specialize (He old eq_refl).
    destruct (storeUpdate _ _ _ _ _ _) as [w|w|] eqn:Hu; [| |naive_solver].
    + intros [= <-]. by destruct (storeUpdate_kept _ _ _ _ _ _ w (or_introl Hu)) as [-> ->].
    + destruct (EnableGarbageCollection e); [done|]. intros [= <-]. rewrite metaOf_modify. cbn.
      by destruct (storeUpdate_kept _ _ _ _ _ _ w (or_intror Hu)) as [-> ->].
  - destruct full; [|auto]. destruct existing as [old|]; [|done]. specialize (He old eq_refl).
    destruct (storeDelete _ _ _ _ _) as [w| |] eqn:Hd; [|done..]. destruct (EnableGarbageCollection e); [|done]. intros [= <-].
    apply storeDelete_kept in Hd as [-> ->]; [done|]. intros f b. apply (layout_delete _ _ L).
Qed.

Lemma accepted_addressed ctx v name : accepted ctx v = Some name ->
  addressed v = Some name /\ no_slash name /\ name <> "" /\ (scoped = true -> ctx_Namespace ctx <> "").
Proof.
  destruct v; cbn; try done; destruct (accepted_name _ _ _) eqn:Ha; try done; apply accepted_name_spec in Ha;
    [destruct (version_set _); [done|]|..]; intros [= <-]; naive_solver.
Qed.

Lemma serve_store_filed full ctx v db : filed db -> no_slash (ctx_Namespace ctx) -> filed (snd (serve_store e full ctx v db)).
Proof.
  intros Hdb Hns. rewrite serve_store_state by done. destruct (accepted ctx v) as [name|] eqn:Hacc; [|done].
  apply accepted_addressed in Hacc as (Hv & Hn & Hne & Hs).
  destruct (one_object _ _ _ _ _) as [a|] eqn:Ha; cbn [fmap option_fmap option_map alter_to]; [|by apply filed_delete].
  destruct (one_object_sits full ctx v name _ a Hv (fun a0 => existing_sits db ctx name a0 Hdb Hns Hn) Ha) as [H1 H2].
  destruct (placed_at ctx name a) as [<- Hp]; auto. by apply filed_insert.
Qed.

End store.

(** ** Lists *)

Lemma filter_nil {X} (f : X -> bool) l : (forall x, In x l -> f x = false) -> List.filter f l = [].
Proof. intros H. induction l as [|x l IH]; [done|]. cbn. rewrite (H x) by (by left). apply IH. intros y Hy. apply H. by right. Qed.

Lemma filter_filter {X} (f g : X -> bool) l : List.filter f (List.filter g l) = List.filter (fun x => g x && f x) l.
Proof. induction l as [|x l IH]; [done|]. cbn. destruct (g x); cbn; by rewrite IH. Qed.

Lemma filter_permutation {X} (f : X -> bool) l l' : l ≡ₚ l' -> List.filter f l ≡ₚ List.filter f l'.
Proof. induction 1; cbn; repeat (destruct (f _)); eauto using Permutation. Qed.

Ltac ascii_cases := match goal with |- context [Ascii.ascii_dec ?x ?y] => destruct (Ascii.ascii_dec x y); [subst|] end.

Lemma prefix_segment a b r r' : no_slash a -> no_slash b ->
  String.prefix (a +:+ "/" +:+ r) (b +:+ "/" +:+ r') = true <-> a = b /\ String.prefix r r' = true.
Proof.
  unfold no_slash. revert b. induction a as [|c a IH]; intros [|d b] Ha Hb; cbn -[slash Ascii.ascii_dec] in *.
  - by split; [|intros [_ ?]].
  - apply orb_false_iff in Hb as [Hb _]. ascii_cases; [done|]. by split; [|intros []].
  - apply orb_false_iff in Ha as [Ha _]. ascii_cases; [done|]. by split; [|intros []].
  - apply orb_false_iff in Ha as [_ Ha], Hb as [_ Hb]. ascii_cases.
    + etransitivity; [by apply IH|]. naive_solver.
    + split; [done|naive_solver].
Qed.

Lemma prefix_end a b r : no_slash a -> no_slash b -> String.prefix (a +:+ "/" +:+ r) b = false.
Proof.
  unfold no_slash. revert b. induction a as [|c a IH]; intros [|d b] Ha Hb; cbn -[slash Ascii.ascii_dec] in *; try done.
  - apply orb_false_iff in Hb as [Hb _]. by ascii_cases.
  - apply orb_false_iff in Ha as [_ Ha], Hb as [_ Hb]. ascii_cases; [|done]. by apply IH.
Qed.

(** The range of a resource, and of a namespace in it. *)
Lemma key_in_range res ctx o : no_slash res -> no_slash (ctx_Namespace ctx) -> placed o ->
  (namespaced o = false -> resource_of o = res -> ctx_Namespace ctx = "") ->
  String.prefix (sprint [NamespaceKeyRootFunc ctx res; "/"]) (key_of o) =
  bool_decide (resource_of o = res) && (bool_decide (ctx_Namespace ctx = "") || bool_decide (Namespace (meta_of o) = ctx_Namespace ctx)).
Proof.
  intros Hr Hns [[Hn _] [Hns' Hsc]] Hc. unfold NamespaceKeyRootFunc. apply eq_true_iff_eq.
  rewrite andb_true_iff, orb_true_iff, !bool_decide_eq_true.
  assert (Hp : forall s, String.prefix "" s = true) by (by intros []).
  destruct (decide (ctx_Namespace ctx = "")) as [He|He].
  - rewrite bool_decide_eq_true_2 by done. cbn [negb sprint]. rewrite He.
    unfold key_of, key_at, path. destruct (namespaced o); cbn [Join];
      (etransitivity; [by apply prefix_segment|]); rewrite Hp; naive_solver.
  - rewrite bool_decide_eq_false_2 by done. cbn [negb].
    assert (sprint [sprint [res; "/"; ctx_Namespace ctx]; "/"] = res +:+ "/" +:+ ctx_Namespace ctx +:+ "/" +:+ "") as ->
      by (cbn [sprint]; by rewrite !append_assoc).
    unfold key_of, key_at, path. destruct (namespaced o); cbn [Join];
      (etransitivity; [by apply prefix_segment|]).
    + rewrite (prefix_segment (ctx_Namespace ctx) (Namespace (meta_of o)) "") by done. rewrite Hp. naive_solver.
    + rewrite (prefix_end (ctx_Namespace ctx)) by done. naive_solver.
Qed.

(** What a list request of a store selects. *)
Section lists.
Context {A : Type} `{RL : ResourceLaws A, OL : !ObjectLaws A} {SV : StoreValidation}.
Context (e : Store A) (scoped : bool) (L : Layout scoped e).
Implicit Types (ctx : RequestContext) (db : etcd).

Definition in_scope ctx (o : RObject) : bool :=
  bool_decide (resource_of o = resource) &&
  (bool_decide (ctx_Namespace ctx = "") || bool_decide (Namespace (meta_of o) = ctx_Namespace ctx)).
Definition selected ctx (field : Selector) (o : RObject) : bool := in_scope ctx o && Matches field (selectable o).

Lemma SimpleFilter_selectable field o : resource_of o = resource ->
  SimpleFilter (PredicateFunc e field) o = Matches field (selectable o).
Proof.
  intros Hr. destruct (project o) as [a|] eqn:Ha; [|by apply project_resource in Ha]. apply inject_project in Ha as ->.
  destruct (layout_attrs _ _ L field) as [Hfield Hat]. unfold SimpleFilter, pred_Matches. by rewrite Hfield, Hat.
Qed.

Lemma decodeList_inject l pred : (forall o, In o l -> resource_of o = resource) ->
  exists r : list A, decodeList l pred = inl r /\ map inject r = List.filter (SimpleFilter pred) l.
Proof.
  clear L. induction l as [|o l IH]; intros Hl; [by exists []|]. cbn. destruct (project o) as [a|] eqn:Ha.
  - apply inject_project in Ha as ->. destruct IH as (r & -> & Hr); [intros; apply Hl; by right|].
    destruct (SimpleFilter pred (inject a)); eexists; (split; [done|]); cbn; by rewrite Hr.
  - apply project_resource in Ha. destruct Ha. apply Hl. by left.
Qed.

Lemma in_db db o : In o (map snd (map_to_list db)) <-> exists k, db !! k = Some o.
Proof.
  rewrite in_map_iff. split.
  - intros ([k o'] & <- & Hk). exists k. apply elem_of_map_to_list. by apply list_elem_of_In.
  - intros [k Hk]. exists (k, o). split; [done|]. apply list_elem_of_In. by apply elem_of_map_to_list.
Qed.

Lemma range_in_scope ctx db : filed db -> no_slash (ctx_Namespace ctx) -> (scoped = false -> ctx_Namespace ctx = "") ->
  range (sprint [NamespaceKeyRootFunc ctx resource; "/"]) db ≡ₚ List.filter (in_scope ctx) (map snd (map_to_list db)).
Proof.
  intros Hdb Hns Hc. unfold range. rewrite (filter_permutation _ _ (map_to_list db)) by apply merge_sort_Permutation.
  assert (Hf : List.filter (fun p => String.prefix (sprint [NamespaceKeyRootFunc ctx resource; "/"]) (fst p)) (map_to_list db) =
    List.filter (fun p => in_scope ctx (snd p)) (map_to_list db)).
  { apply List.filter_ext_in. intros [k o] Hin. cbn [fst snd]. apply list_elem_of_In, elem_of_map_to_list, Hdb in Hin as [-> Hp].
    apply key_in_range; auto. intros Hn Hr. apply Hc. destruct (project o) as [a|] eqn:Ha.
    - apply inject_project in Ha as ->. by rewrite <-(layout_scoped _ _ L a).
    - by apply project_resource in Ha. }
  rewrite Hf. clear Hf. induction (map_to_list db) as [|[k o] l IH]; [done|]. cbn. by destruct (in_scope ctx o); cbn; rewrite IH.
Qed.

Lemma storage_List_exact ctx field db : filed db -> no_slash (ctx_Namespace ctx) -> (scoped = false -> ctx_Namespace ctx = "") ->
  exists r : list A, storage_List (store_KeyRootFunc e ctx) (PredicateFunc e field) db = inl r /\
    map inject r ≡ₚ List.filter (selected ctx field) (map snd (map_to_list db)).
Proof.
  intros Hdb Hns Hc. unfold storage_List. rewrite (layout_root _ _ L). pose proof (range_in_scope ctx db Hdb Hns Hc) as Hr.
  destruct (decodeList_inject (range (sprint [NamespaceKeyRootFunc ctx resource; "/"]) db) (PredicateFunc e field)) as (r & -> & Hm).
  { intros o Ho. apply (Permutation_in _ Hr) in Ho. apply List.filter_In in Ho as [_ Ho].
    by apply andb_prop in Ho as [Ho%bool_decide_eq_true _]. }
  exists r. split; [done|]. rewrite Hm, (filter_permutation _ _ _ Hr), filter_filter.
  erewrite List.filter_ext; [done|]. intros o. unfold selected. destruct (in_scope ctx o) eqn:Ho; [|done].
  apply andb_prop in Ho as [Ho%bool_decide_eq_true _]. by apply SimpleFilter_selectable.
Qed.

(** The exact-match shortcut reads one key; every object it leaves out has
    another name. *)
Lemma shortcut_exact ctx field name db : filed db -> no_slash (ctx_Namespace ctx) -> (scoped = false -> ctx_Namespace ctx = "") ->
  no_slash name -> (scoped = true -> ctx_Namespace ctx <> "") ->
  RequiresExactMatch field "metadata.name" = Some name ->
  exists r : list A, storage_GetToList (key_at resource scoped (ctx_Namespace ctx) name) (PredicateFunc e field) db = inl r /\
    map inject r ≡ₚ List.filter (selected ctx field) (map snd (map_to_list db)).
Proof.
  intros Hdb Hns Hc Hn Hs Hm. unfold storage_GetToList. set (key := key_at _ _ _ _).
  assert (Hother : forall k o, db !! k = Some o -> k <> key -> selected ctx field o = false).
  { intros k o Ho Hk. apply not_true_is_false. intros Hsel. destruct (Hdb k o Ho) as [-> Hp]. apply Hk. clear Hk.
    apply andb_prop in Hsel as [[Hr%bool_decide_eq_true Hsc]%andb_prop Hf].
    destruct (project o) as [a|] eqn:Ha; [|by apply project_resource in Ha]. apply inject_project in Ha as ->.
    pose proof (RequiresExactMatch_sound _ _ _ _ Hm Hf) as Hx. rewrite selectable_name in Hx.
    unfold key_of, key. rewrite Hr, Hx, meta_of_inject, (layout_scoped _ _ L) in *.
    unfold key_at, path. destruct scoped; [|done]. apply orb_prop in Hsc as [Hsc|Hsc]; apply bool_decide_eq_true in Hsc; [by destruct (Hs eq_refl)|].
    by rewrite Hsc. }
  assert (Hnil : forall db0 : etcd, db0 ⊆ db -> db0 !! key = None -> List.filter (selected ctx field) (map snd (map_to_list db0)) = []).
  { intros db0 Hsub Hk0. apply filter_nil. intros o [k Ho]%in_db. apply (Hother k); [by apply (lookup_weaken _ _ _ _ Ho)|].
    intros ->. congruence. }
  destruct (db !! key) as [o|] eqn:Ho; [|exists []; split; [done|by rewrite Hnil]].
  destruct (decode_filed scoped db ctx name o) as (a & -> & Hname & Hp & Hnsp); auto.
  destruct (decodeList_inject [inject a] (PredicateFunc e field)) as (r & -> & Hr).
  { intros o [<-|[]]. apply resource_of_inject. }
  exists r. split; [done|]. etransitivity; [|apply filter_permutation, (Permutation_map snd), (map_to_list_delete _ _ _ Ho)]. cbn [map snd List.filter].
  rewrite Hnil; [|apply delete_subseteq|by rewrite lookup_delete_eq].
  assert (in_scope ctx (inject a) = true) as Hin.
  { unfold in_scope. rewrite resource_of_inject, bool_decide_eq_true_2, meta_of_inject by done. cbn.
    destruct scoped; [|by rewrite bool_decide_eq_true_2 by auto]. rewrite (Hnsp eq_refl). apply orb_true_intro. right. by apply bool_decide_eq_true. }
  unfold selected. rewrite Hin, Hr. cbn [andb List.filter]. by rewrite SimpleFilter_selectable by apply resource_of_inject.
Qed.

(** A list is complete and exact, whichever way it is read. *)
Lemma Store_List_exact ctx field db : filed db -> no_slash (ctx_Namespace ctx) -> (scoped = false -> ctx_Namespace ctx = "") ->
  exists r : list A, Store_List e ctx field db = inl r /\
    map inject r ≡ₚ List.filter (selected ctx field) (map snd (map_to_list db)).
Proof.
  intros Hdb Hns Hc. unfold Store_List, ListPredicate, MatchesSingle. destruct (layout_attrs _ _ L field) as [-> _].
  destruct (RequiresExactMatch field "metadata.name") as [name|] eqn:Hm; [|by apply storage_List_exact].
  pose proof (store_key e scoped L ctx name) as Hk. destruct (store_KeyFunc e ctx name) as [key|]; [|by apply storage_List_exact].
  destruct Hk as [-> (_ & Hn & Hs)%accepted_name_spec]. by apply (shortcut_exact _ _ name).
Qed.
End lists.

(** ** The routes of the server *)

Section routes.
Context {C : Config} {MV : MetaValidation} {Sem : Semantic}.

Ltac layout := split;
  [done|done|done|done
  |by intros ctx a; cbn; try (unfold instancePrepareForCreate, bindingPrepareForCreate; destruct OriginatingIdentityEnabled)
  |by intros ctx a f [= <-]; try (unfold instanceCheckGracefulDelete, bindingCheckGracefulDelete; destruct OriginatingIdentityEnabled)
  |done
  |done].

Lemma instance_layouts s st sr : instance.NewStorage (NewOptions "serviceinstances" StorageTypeEtcd) = Some (s, st, sr) ->
  Layout true s /\ Layout true st /\ Layout true sr.
Proof. intros [= <- <- <-]. split_and!; layout. Qed.

Lemma binding_layouts s st : binding.NewStorage (NewOptions "serviceinstancecredentials" StorageTypeEtcd) = Some (s, st) ->
  Layout true s /\ Layout true st.
Proof. intros [= <- <-]. split_and!; layout. Qed.

Lemma broker_layouts s st : broker.NewStorage (NewOptions "clusterservicebrokers" StorageTypeEtcd) = Some (s, st) ->
  Layout false s /\ Layout false st.
Proof. intros [= <- <-]. split_and!; layout. Qed.

Lemma class_layout s : serviceclass.NewStorage (NewOptions "serviceclasses" StorageTypeEtcd) = Some s -> Layout false s.
Proof. intros [= <-]. layout. Qed.

Lemma plan_layout s : serviceplan.NewStorage (NewOptions "serviceplans" StorageTypeEtcd) = Some s -> Layout false s.
Proof. intros [= <-]. layout. Qed.

(** The table the server installs. *)
Definition routes : list (string * rest_Storage) :=
  match v1alpha1Storage StorageTypeEtcd GetRESTOptions with inl (Some t) => t | _ => [] end.

Definition rest_resource (s : rest_Storage) : string :=
  match s with @FullREST A H R _ | @SubresourceREST A H R _ => resource end.
Definition rest_scoped (s : rest_Storage) : bool :=
  match s with FullREST e | SubresourceREST e => NamespaceScoped (CreateStrategy e) end.
Definition rest_full (s : rest_Storage) : bool := match s with FullREST _ => true | SubresourceREST _ => false end.

Definition laid_out (s : rest_Storage) : Prop :=
  match s with
  | @FullREST A H R e | @SubresourceREST A H R e =>
      ObjectLaws A /\ ResourceLaws A /\ exists scoped, Layout scoped e
  end.

Lemma routes_table : exists b bs c p i ist ir d ds,
  broker.NewStorage (NewOptions "clusterservicebrokers" StorageTypeEtcd) = Some (b, bs) /\
  serviceclass.NewStorage (NewOptions "serviceclasses" StorageTypeEtcd) = Some c /\
  serviceplan.NewStorage (NewOptions "serviceplans" StorageTypeEtcd) = Some p /\
  instance.NewStorage (NewOptions "serviceinstances" StorageTypeEtcd) = Some (i, ist, ir) /\
  binding.NewStorage (NewOptions "serviceinstancecredentials" StorageTypeEtcd) = Some (d, ds) /\
  v1alpha1Storage StorageTypeEtcd GetRESTOptions = inl (Some routes) /\
  routes = [("clusterservicebrokers", FullREST b); ("clusterservicebrokers/status", SubresourceREST bs);
    ("serviceclasses", FullREST c); ("serviceplans", FullREST p);
    ("serviceinstances", FullREST i); ("serviceinstances/status", SubresourceREST ist); ("serviceinstances/reference", SubresourceREST ir);
    ("serviceinstancecredentials", FullREST d); ("serviceinstancecredentials/status", SubresourceREST ds)].
Proof. do 9 eexists. split_and!; reflexivity. Qed.

Lemma routes_laid_out route s : In (route, s) routes -> laid_out s.
Proof.
  destruct routes_table as (b & bs & c & p & i & ist & ir & d & ds & Hb & Hc & Hp & Hi & Hd & _ & ->).
  apply broker_layouts in Hb as [H1 H2]. apply class_layout in Hc as H3. apply plan_layout in Hp as H4.
  apply instance_layouts in Hi as (H5 & H6 & H7). apply binding_layouts in Hd as [H8 H9].
  cbn [In]. intros Hin. repeat (destruct Hin as [[= <- <-]|Hin]; [split; [apply _|split; [apply _|by eexists]]|]). done.
Qed.

(** ** What requests do *)

Context {SV : StoreValidation}.
Implicit Types (ctx : RequestContext) (v : Verb) (db : etcd).

(** The states of etcd any sequence of requests leads to. *)
Inductive reachable : etcd -> Prop :=
| reach_empty : reachable ∅
| reach_request route s ctx v db : In (route, s) routes -> no_slash (ctx_Namespace ctx) ->
    reachable db -> reachable (snd (serve s ctx v db)).

Lemma reachable_filed db : reachable db -> filed db.
Proof.
  induction 1 as [|route s ctx v db Hs Hns _ IH]; [apply filed_empty|]. apply routes_laid_out in Hs.
  destruct s; destruct Hs as (HO & HR & scoped & HL); by apply (serve_store_filed _ scoped HL).
Qed.

(** In every state requests lead to, every object is stored under the key
    made of its own resource, namespace and name, cluster-scoped objects have
    no namespace and the others have one. *)
Theorem objects_are_stored_under_their_key db k o : reachable db -> db !! k = Some o ->
  k = key_of o /\ placed o.
Proof. intros Hdb%reachable_filed. apply Hdb. Qed.

(** What the registry of one object makes of an object on a route. *)
Definition becomes_object (s : rest_Storage) ctx v (existing : option RObject) : option RObject :=
  match s with
  | FullREST e => inject <$> one_object e true ctx v (existing ≫= project)
  | SubresourceREST e => inject <$> one_object e false ctx v (existing ≫= project)
  end.

Lemma serve_state route s ctx v db : In (route, s) routes -> no_slash (ctx_Namespace ctx) -> filed db ->
  snd (serve s ctx v db) =
  match accepted (rest_scoped s) ctx v with
  | Some name =>
      let key := key_at (rest_resource s) (rest_scoped s) (ctx_Namespace ctx) name in
      alter_to key (becomes_object s ctx v (db !! key)) db
  | None => db
  end.
Proof.
  intros Hs Hns Hdb. apply routes_laid_out in Hs.
  destruct s; destruct Hs as (HO & HR & scoped & HL); cbn [serve rest_scoped rest_resource becomes_object];
    rewrite (layout_create_scoped _ _ HL); exact (serve_store_state _ scoped HL _ ctx v db Hdb Hns).
Qed.

(** C25: A request is the step of a registry of one object: what is stored for
    the object it names becomes what that registry makes of it, and every
    object of another resource, namespace or name stays as it was; a request
    whose name, namespace or version is not accepted changes nothing. *)
Theorem a_request_is_about_one_object route s ctx v db : In (route, s) routes -> no_slash (ctx_Namespace ctx) -> reachable db ->
  let db' := snd (serve s ctx v db) in
  match accepted (rest_scoped s) ctx v with
  | Some name =>
      let key := key_at (rest_resource s) (rest_scoped s) (ctx_Namespace ctx) name in
      db' !! key = becomes_object s ctx v (db !! key) /\
      (forall k o, db !! k = Some o ->
        resource_of o <> rest_resource s \/ Name (meta_of o) <> name \/
        (rest_scoped s = true /\ Namespace (meta_of o) <> ctx_Namespace ctx) -> db' !! k = Some o)
  | None => db' = db
  end.
Proof.
  intros Hs Hns Hdb%reachable_filed. cbv zeta. rewrite (serve_state route) by done.
  destruct (accepted _ ctx v) as [name|] eqn:Ha; [|done]. cbv zeta. set (key := key_at _ _ _ name). split.
  - unfold alter_to. destruct (becomes_object _ _ _ _); by rewrite ?lookup_insert_eq, ?lookup_delete_eq.
  - intros k o Ho Hother. assert (k <> key) as Hk.
    { intros ->. destruct (Hdb _ _ Ho) as [He Hp]. destruct (placed_name _ Hp) as [H1 _], (placed_ns _ Hp) as [H2 _].
      apply key_at_inj in He as (Hr & Hsc & Hn & Hnsp); auto; [naive_solver| |].
      - apply routes_laid_out in Hs. destruct s; destruct Hs as (HO & HR & _); apply resource_no_slash.
      - by apply accepted_addressed in Ha as (_ & Hn & _). }
    unfold alter_to. destruct (becomes_object _ _ _ _); by rewrite ?lookup_insert_ne, ?lookup_delete_ne by done.
Qed.

(** The objects a list request is about. *)
Definition wanted (s : rest_Storage) ctx (field : Selector) (o : RObject) : bool :=
  bool_decide (resource_of o = rest_resource s) &&
  (bool_decide (ctx_Namespace ctx = "") || bool_decide (Namespace (meta_of o) = ctx_Namespace ctx)) &&
  Matches field (selectable o).

(** C26: A list request finds every stored object of its resource and namespace
    (of all namespaces, without one) that its selector matches, each once, and
    nothing else: the shortcut that reads a single key when the selector asks
    for a name, and the range of keys otherwise, are the same as looking at
    every object. *)
Theorem lists_are_exact route s ctx field db : In (route, s) routes -> rest_full s = true ->
  no_slash (ctx_Namespace ctx) -> (rest_scoped s = false -> ctx_Namespace ctx = "") -> reachable db ->
  exists l, serve s ctx (VList field) db = (ReplyList l, db) /\
    l ≡ₚ List.filter (wanted s ctx field) (map snd (map_to_list db)).
Proof.
  intros Hs Hf Hns Hc Hdb%reachable_filed. apply routes_laid_out in Hs. destruct s as [A H R e|]; [|done].
  destruct Hs as (HO & HR & scoped & HL). cbn [rest_scoped] in Hc. rewrite (layout_create_scoped _ _ HL) in Hc.
  destruct (Store_List_exact e scoped HL ctx field db Hdb Hns Hc) as (r & Hr & Hp).
  exists (map inject r). split; [|exact Hp]. cbn. by rewrite Hr.
Qed.

(** ** Subresources *)

(** An update through a store applies its strategy, but for metadata. *)
Lemma storeUpdate_prepared {A} `{OL : ObjectLaws A} (st : RESTUpdateStrategy A) scoped ctx next old obj w :
  storeUpdate st scoped ctx next (Some old) obj = Stored w \/ storeUpdate st scoped ctx next (Some old) obj = Removed w ->
  exists m m', w = withMeta m' (PrepareForUpdate st ctx (withMeta m obj) old).
Proof.
  unfold storeUpdate. cbv zeta. destruct (_ && _); [by intros []|].
  destruct (_ && _); [by intros []|]. set (obj1 := if _ && _ then _ else obj).
  assert (Ho : exists m0, obj1 = withMeta m0 obj).
  { unfold obj1, modify. destruct (_ && _); [by eexists|]. exists (metaOf obj). by rewrite withMeta_metaOf. }
  destruct Ho as [m0 ->]. unfold BeforeUpdate.
  destruct (scopedTo _ _ _) as [obj2|] eqn:Hsc; [|by intros []]. apply scopedTo_meta in Hsc as [m1 ->]. cbv zeta.
  destruct (_ ++ _); [|by intros []]. rewrite !modify_withMeta, withMeta_withMeta. cbn.
  destruct (shouldDeleteDuringUpdate _ _); intros [[= <-]|[= <-]]; unfold modify; rewrite ?withMeta_withMeta; by do 2 eexists.
Qed.

Lemma Store_Update_prepared {A} `{RL : ResourceLaws A, OL : !ObjectLaws A} (e : Store A) scoped full ctx name next o db k old new :
  Layout scoped e -> filed db -> no_slash (ctx_Namespace ctx) -> db !! k = Some old ->
  snd (serve_store e full ctx (VUpdate name next o) db) !! k = Some new ->
  new = old \/ exists (a obj : A) m m', old = inject a /\
    new = inject (withMeta m' (PrepareForUpdate (UpdateStrategy e) ctx (withMeta m obj) a)).
Proof.
  intros L Hdb Hns Hold. rewrite (serve_store_state e scoped L) by done.
  destruct (accepted scoped ctx _) as [n|] eqn:Ha; [|rewrite Hold; intros [= <-]; by left].
  apply accepted_addressed in Ha as (_ & Hn & _). destruct (decide (k = object_key scoped ctx n)) as [->|Hk].
  - destruct (decode_filed scoped db ctx n old) as (a & -> & _); auto. rewrite Hold. cbn [mbind option_bind]. rewrite project_inject.
    cbn [one_object]. destruct (project o) as [obj|]; [|cbn; rewrite lookup_insert_eq; intros [= <-]; by left].
    destruct (storeUpdate _ _ _ _ _ _) as [w|w|] eqn:Hu.
    + cbn. rewrite lookup_insert_eq. intros [= <-]. right. destruct (storeUpdate_prepared _ _ _ _ _ _ w (or_introl Hu)) as (m & m' & ->).
      by exists a, obj, m, m'.
    + destruct (EnableGarbageCollection e); cbn; [by rewrite lookup_delete_eq|]. rewrite lookup_insert_eq. intros [= <-]. right.
      destruct (storeUpdate_prepared _ _ _ _ _ _ w (or_intror Hu)) as (m & m' & ->). exists a, obj, m. by rewrite modify_withMeta; eexists.
    + cbn. rewrite lookup_insert_eq. intros [= <-]. by left.
  - intros Hnew. left. unfold alter_to in Hnew.
    assert (db !! k = Some new) by (destruct (_ <$> _); by rewrite ?lookup_insert_ne, ?lookup_delete_ne in Hnew by done). congruence.
Qed.

(** What an update on a route leaves alone. *)
Definition kept (route : string) (old new : RObject) : Prop :=
  match old, new with
  | RInstance i, RInstance i' =>
      (route <> "serviceinstances/status" -> si_Status i' = si_Status i) /\
      (route <> "serviceinstances/reference" -> si_Spec i' = si_Spec i) /\
      with_ServicePlanRef None (with_ServiceClassRef None (si_Spec i')) = with_ServicePlanRef None (with_ServiceClassRef None (si_Spec i))
  | RBinding b, RBinding b' =>
      bind_Spec b' = bind_Spec b /\ (route <> "serviceinstancecredentials/status" -> bind_Status b' = bind_Status b)
  | RBroker b, RBroker b' =>
      (route <> "clusterservicebrokers/status" -> b_Status b' = b_Status b) /\
      (route <> "clusterservicebrokers" -> b_Spec b' = b_Spec b)
  | RClass c, RClass c' => sc_ClusterServiceBrokerName (sc_Spec c') = sc_ClusterServiceBrokerName (sc_Spec c)
  | RPlan p, RPlan p' => sp_ServiceClassRef (sp_Spec p') = sp_ServiceClassRef (sp_Spec p)
  | _, _ => False
  end.

Lemma kept_refl route o : kept route o o.
Proof. by destruct o. Qed.

Lemma instance_spec_kept {SL : SemanticLaws} ctx new old :
  si_Spec (instancePrepareForUpdate ctx new old) = si_Spec old /\ si_Status (instancePrepareForUpdate ctx new old) = si_Status old.
Proof. unfold instancePrepareForUpdate. cbn. by rewrite DeepEqual_instance_refl. Qed.

Lemma binding_spec_kept {SL : SemanticLaws} ctx new old :
  bind_Spec (bindingPrepareForUpdate ctx new old) = bind_Spec old /\ bind_Status (bindingPrepareForUpdate ctx new old) = bind_Status old.
Proof. unfold bindingPrepareForUpdate. cbn. by rewrite DeepEqual_binding_refl. Qed.

Lemma broker_status_kept ctx new old : b_Status (brokerPrepareForUpdate ctx new old) = b_Status old.
Proof. unfold brokerPrepareForUpdate. by destruct (negb _). Qed.

(** An update of a store whose strategy keeps its part keeps it. *)
Lemma store_keeps {A} `{RL : ResourceLaws A, OL : !ObjectLaws A} (e : Store A) scoped full route ctx name next o db k old new :
  Layout scoped e -> filed db -> no_slash (ctx_Namespace ctx) ->
  (forall (obj a : A) m', kept route (inject a) (inject (withMeta m' (PrepareForUpdate (UpdateStrategy e) ctx obj a)))) ->
  db !! k = Some old -> snd (serve_store e full ctx (VUpdate name next o) db) !! k = Some new -> kept route old new.
Proof.
  intros L Hdb Hns Hk Hold Hnew.
  destruct (Store_Update_prepared e scoped full ctx name next o db k old new L Hdb Hns Hold Hnew) as [->|(a & obj & m & m' & -> & ->)].
  - apply kept_refl.
  - apply Hk.
Qed.

(** C27: Every route writes its own part of an object: the main routes leave the
    status, and the specs of instances and bindings; the status routes leave
    the spec; the reference route of instances changes nothing of the spec but
    the two references, and not the status; a class keeps its broker and a plan
    its class. *)
Theorem routes_write_their_part {SL : SemanticLaws} route s ctx name next o db k old new :
  In (route, s) routes -> no_slash (ctx_Namespace ctx) -> reachable db ->
  db !! k = Some old -> snd (serve s ctx (VUpdate name next o) db) !! k = Some new -> kept route old new.
Proof.
  intros Hs Hns Hdb%reachable_filed Hold Hnew.
  destruct routes_table as (b & bs & c & p & i & ist & ir & d & ds & Hb & Hc & Hp & Hi & Hd & _ & Ht). rewrite Ht in Hs.
  apply broker_layouts in Hb as H12. apply class_layout in Hc as H3. apply plan_layout in Hp as H4.
  apply instance_layouts in Hi as H567. apply binding_layouts in Hd as H89. destruct_and!.
  injection Hb as <- <-. injection Hc as <-. injection Hp as <-. injection Hi as <- <- <-. injection Hd as <- <-.
  cbn [In] in Hs. repeat (destruct Hs as [[= <- <-]|Hs];
    [refine (store_keeps _ _ _ _ ctx name next o db k old new _ Hdb Hns _ Hold Hnew); [eassumption|intros obj a m']|]); [..|done];
    cbn [UpdateStrategy with_UpdateStrategy PrepareForUpdate].
  all: clear -SL.
  - split; [intros _; apply broker_status_kept|done].
  - done.
  - done.
  - done.
  - destruct (instance_spec_kept ctx obj a) as [H1 H2]. cbn -[instancePrepareForUpdate]. by rewrite H1, H2.
  - done.
  - done.
  - destruct (binding_spec_kept ctx obj a) as [H1 H2]. cbn -[bindingPrepareForUpdate]. by rewrite H1, H2.
  - done.
Qed.
End routes.

(** ** A server at work *)

Definition new_instance : ServiceInstance :=
  si_with_Meta (with_ResourceVersion "" (si_Meta instance1)) instance1.

(** The state after the requests of a script, each on the route of its number. *)
Fixpoint after (script : list (nat * Verb)) (db : etcd) : etcd :=
  match script with
  | [] => db
  | (n, v) :: script' =>
      match routes !! n with
      | Some (_, s) => after script' (snd (serve s sample_context v db))
      | None => db
      end
  end.

Lemma after_reachable script db : reachable db -> reachable (after script db).
Proof.
  revert db. induction script as [|[n v] script IH]; intros db Hdb; [done|]. cbn [after].
  destruct (routes !! n) as [[route s]|] eqn:Hn; [|done]. apply IH, (reach_request route); [|done|done].
  by apply list_elem_of_In, (list_elem_of_lookup_2 _ n).
Qed.

Definition db1 : etcd := after [(4%nat, VCreate "uid-1" "1" (RInstance new_instance))] ∅.
Lemma db1_reachable : reachable db1.
Proof. apply after_reachable, reach_empty. Qed.

Definition stored1 : RObject := default (RInstance instance1) (db1 !! "serviceinstances/ns/db").

Lemma objects_are_stored_under_their_key_witness :
  db1 !! "serviceinstances/ns/db" = Some stored1 /\ key_of stored1 = "serviceinstances/ns/db" /\ placed stored1.
Proof.
  assert (H : db1 !! "serviceinstances/ns/db" = Some stored1) by (by vm_compute).
  destruct (objects_are_stored_under_their_key db1 _ stored1 db1_reachable H) as [H1 H2]. by split_and!.
Defined.

(** The deletion marks the instance, which has a finalizer, and leaves the rest. *)
Lemma a_request_is_about_one_object_witness :
  exists s, In ("serviceinstances", s) routes /\
    let v := VDelete "db" "2" 77 in
    snd (serve s sample_context v db1) !! "serviceinstances/ns/db" =
      becomes_object s sample_context v (db1 !! "serviceinstances/ns/db") /\
    becomes_object s sample_context v (db1 !! "serviceinstances/ns/db") <> None.
Proof.
  eexists. assert (Hin : In ("serviceinstances", _) routes) by (do 4 right; left; reflexivity).
  split; [exact Hin|]. cbv zeta. split; [|by vm_compute].
  pose proof (a_request_is_about_one_object "serviceinstances" _ sample_context (VDelete "db" "2" 77) db1 Hin eq_refl db1_reachable) as H.
  exact (proj1 H).
Defined.

(** A selector by name takes the shortcut. *)
Lemma lists_are_exact_witness :
  exists s l, In ("serviceinstances", s) routes /\ 
    serve s sample_context (VList (hasTerm "metadata.name" "db")) db1 = (ReplyList l, db1) /\
    l ≡ₚ List.filter (wanted s sample_context (hasTerm "metadata.name" "db")) (map snd (map_to_list db1)).
Proof.
  eexists. assert (Hin : In ("serviceinstances", _) routes) by (do 4 right; left; reflexivity).
  pose proof (lists_are_exact "serviceinstances" _ sample_context (hasTerm "metadata.name" "db") db1 Hin) as Hl.
  specialize (Hl eq_refl eq_refl (fun H => False_ind _ (Bool.diff_true_false H)) db1_reachable).
  destruct Hl as (l & H1 & H2).
  exists l. exact (conj Hin (conj H1 H2)).
Defined.

(** A user tries to change the status through the main route. *)
Definition meddled : ServiceInstance :=
  si_with_Status (with_AsyncOpInProgress true (si_Status instance1)) (si_with_Meta (with_UID "uid-1" (si_Meta instance1)) instance1).

Definition new1 : RObject :=
  default stored1 (after [(4%nat, VUpdate "db" "2" (RInstance meddled))] db1 !! "serviceinstances/ns/db").

Lemma routes_write_their_part_witness :
  exists s new, In ("serviceinstances", s) routes /\
    snd (serve s sample_context (VUpdate "db" "2" (RInstance meddled)) db1) !! "serviceinstances/ns/db" = Some new /\
    kept "serviceinstances" stored1 new /\ new <> stored1.
Proof.
  eexists. assert (Hin : In ("serviceinstances", _) routes) by (do 4 right; left; reflexivity).
  match type of Hin with In (_, ?s) _ => pose (rs := s) end. exists new1. split; [exact Hin|].
  assert (H : snd (serve rs sample_context (VUpdate "db" "2" (RInstance meddled)) db1) !! "serviceinstances/ns/db" = Some new1)
    by (vm_compute; reflexivity).
  split; [exact H|]. split; [|by vm_compute].
  exact (routes_write_their_part "serviceinstances" rs sample_context "db" "2" (RInstance meddled) db1 "serviceinstances/ns/db"
    stored1 new1 Hin eq_refl db1_reachable ltac:(by vm_compute) H).
Defined.
