(* ===== verification/Base64.v ===== *)
(** * Base64

    [encoding/base64], [StdEncoding]: [EncodeToString] and [DecodeString], on the
    bits of the bytes.  [DecodeString] ignores line breaks, wants padding and does
    not look at the bits the padding cuts off. *)

From S2P Require Import Prelude.

(** Six bits, the highest first. *)
Record sextet := Sextet { s5 : bool; s4 : bool; s3 : bool; s2 : bool; s1 : bool; s0 : bool }.
#[export] Instance sextet_eq_dec : EqDecision sextet.
Proof. solve_decision. Defined.

Definition alphabet : string := "ABCDEFGHIJKLMNOPQRSTUVWXYZabcdefghijklmnopqrstuvwxyz0123456789+/".
Definition bit (b : bool) (n : nat) : nat := if b then n else 0%nat.
Definition sextet_value (x : sextet) : nat :=
  (bit (s5 x) 32 + bit (s4 x) 16 + bit (s3 x) 8 + bit (s2 x) 4 + bit (s1 x) 2 + bit (s0 x) 1)%nat.
Definition char_of (x : sextet) : Ascii.ascii :=
  match String.get (sextet_value x) alphabet with Some c => c | None => Ascii.zero end.

Definition sextet_of_value (n : nat) : sextet :=
  Sextet (Nat.testbit n 5) (Nat.testbit n 4) (Nat.testbit n 3) (Nat.testbit n 2) (Nat.testbit n 1) (Nat.testbit n 0).
Fixpoint position (c : Ascii.ascii) (s : string) : option nat :=
  match s with
  | EmptyString => None
  | String d s' => if Ascii.eqb c d then Some 0%nat else S <$> position c s'
  end.
Definition sextet_of (c : Ascii.ascii) : option sextet := sextet_of_value <$> position c alphabet.

Definition pad : Ascii.ascii := Ascii.ascii_of_nat 61.
Definition is_pad (c : Ascii.ascii) : bool := Ascii.eqb c pad.

Definition first_of (a : Ascii.ascii) : sextet :=
  let 'Ascii.Ascii a0 a1 a2 a3 a4 a5 a6 a7 := a in Sextet a7 a6 a5 a4 a3 a2.
Definition second_of (a b : Ascii.ascii) : sextet :=
  let 'Ascii.Ascii a0 a1 a2 a3 a4 a5 a6 a7 := a in let 'Ascii.Ascii b0 b1 b2 b3 b4 b5 b6 b7 := b in Sextet a1 a0 b7 b6 b5 b4.
Definition third_of (b c : Ascii.ascii) : sextet :=
  let 'Ascii.Ascii b0 b1 b2 b3 b4 b5 b6 b7 := b in let 'Ascii.Ascii c0 c1 c2 c3 c4 c5 c6 c7 := c in Sextet b3 b2 b1 b0 c7 c6.
Definition fourth_of (c : Ascii.ascii) : sextet :=
  let 'Ascii.Ascii c0 c1 c2 c3 c4 c5 c6 c7 := c in Sextet c5 c4 c3 c2 c1 c0.

Definition byte1 (w x : sextet) : Ascii.ascii := Ascii.Ascii (s4 x) (s5 x) (s0 w) (s1 w) (s2 w) (s3 w) (s4 w) (s5 w).
Definition byte2 (x y : sextet) : Ascii.ascii := Ascii.Ascii (s2 y) (s3 y) (s4 y) (s5 y) (s0 x) (s1 x) (s2 x) (s3 x).
Definition byte3 (y z : sextet) : Ascii.ascii := Ascii.Ascii (s0 z) (s1 z) (s2 z) (s3 z) (s4 z) (s5 z) (s0 y) (s1 y).

Definition string4 (a b c d : Ascii.ascii) (s : string) : string := String a (String b (String c (String d s))).

Fixpoint base64_EncodeToString (s : string) : string :=
  match s with
  | EmptyString => EmptyString
  | String a EmptyString => string4 (char_of (first_of a)) (char_of (second_of a Ascii.zero)) pad pad EmptyString
  | String a (String b EmptyString) =>
      string4 (char_of (first_of a)) (char_of (second_of a b)) (char_of (third_of b Ascii.zero)) pad EmptyString
  | String a (String b (String c s')) =>
      string4 (char_of (first_of a)) (char_of (second_of a b)) (char_of (third_of b c)) (char_of (fourth_of c))
        (base64_EncodeToString s')
  end.

(** Groups of four; only the last may end in padding. *)
Fixpoint decode_groups (s : string) : option string :=
  match s with
  | EmptyString => Some EmptyString
  | String a (String b (String c (String d s'))) =>
      match sextet_of a, sextet_of b with
      | Some w, Some x =>
          if is_pad c then
            if is_pad d && String.eqb s' "" then Some (String (byte1 w x) EmptyString) else None
          else
          match sextet_of c with
          | None => None
          | Some y =>
              if is_pad d then if String.eqb s' "" then Some (String (byte1 w x) (String (byte2 x y) EmptyString)) else None
              else
              match sextet_of d with
              | None => None
              | Some z =>
                  (fun rest => String (byte1 w x) (String (byte2 x y) (String (byte3 y z) rest))) <$> decode_groups s'
              end
          end
      | _, _ => None
      end
  | _ => None
  end.

Definition is_break (c : Ascii.ascii) : bool := existsb (Nat.eqb (Ascii.nat_of_ascii c)) [10; 13]%nat.
Fixpoint without_breaks (s : string) : string :=
  match s with
  | EmptyString => EmptyString
  | String c s' => if is_break c then without_breaks s' else String c (without_breaks s')
  end.
Definition base64_DecodeString (s : string) : option string := decode_groups (without_breaks s).

Example base64_example : base64_EncodeToString "light w" = "bGlnaHQgdw==" /\ base64_DecodeString "bGlnaHQgdw==" = Some "light w".
Proof. by vm_compute. Qed.

(** ** Round trip *)

Lemma char_of_sextet x : sextet_of (char_of x) = Some x /\ is_pad (char_of x) = false /\ is_break (char_of x) = false.
Proof. destruct x as [[] [] [] [] [] []]; by vm_compute. Qed.

Lemma byte1_of a b : byte1 (first_of a) (second_of a b) = a.
Proof. by destruct a, b. Qed.
Lemma byte2_of a b c : byte2 (second_of a b) (third_of b c) = b.
Proof. by destruct a, b, c. Qed.
Lemma byte3_of b c : byte3 (third_of b c) (fourth_of c) = c.
Proof. by destruct b, c. Qed.

(** Induction by groups of three bytes. *)
Lemma groups_ind (P : string -> Prop) :
  P "" -> (forall a, P (String a "")) -> (forall a b, P (String a (String b ""))) ->
  (forall a b c s, P s -> P (String a (String b (String c s)))) -> forall s, P s.
Proof. intros H0 H1 H2 H3. fix IH 1. intros [|a [|b [|c s]]]; [done|done|done|apply H3, IH]. Qed.

Lemma encode_without_breaks s : without_breaks (base64_EncodeToString s) = base64_EncodeToString s.
Proof.
  induction s as [|a|a b|a b c s IH] using groups_ind; cbn [base64_EncodeToString string4 without_breaks]; [done|..].
  all: rewrite ?(proj2 (proj2 (char_of_sextet _))). 1-2: done. by rewrite IH.
Qed.

Lemma decode_encode_groups s : decode_groups (base64_EncodeToString s) = Some s.
Proof.
  induction s as [|a|a b|a b c s IH] using groups_ind; [done|..];
    cbn [base64_EncodeToString string4 decode_groups];
    rewrite ?(proj1 (char_of_sextet _)), ?(proj1 (proj2 (char_of_sextet _))), ?IH; cbn -[byte1 byte2 byte3];
    by rewrite ?byte1_of, ?byte2_of, ?byte3_of.
Qed.

Lemma base64_decode_encode s : base64_DecodeString (base64_EncodeToString s) = Some s.
Proof. unfold base64_DecodeString. by rewrite encode_without_breaks, decode_encode_groups. Qed.

Lemma base64_empty s : base64_EncodeToString s = "" <-> s = "".
Proof. by destruct s as [|a [|b [|c s]]]. Qed.
