(* ===== verification/Selfer.v ===== *)
(** * The JSON driver of the API objects

    What the generated [CodecEncodeSelf] and [CodecDecodeSelf] methods of
    [types.generated.go] are built from: the JSON driver of
    [github.com/ugorji/go/codec] at the level of values, a member of a structure
    with its presence flag, the loops over the members of an object and the
    elements of an array, slices that are decoded into their old elements.  The
    types of [k8s.io/apimachinery] and [k8s.io/client-go] inside the objects
    bring their own JSON; it is the class [Machinery], whose instances keep the
    laws [MachineryLaws]. *)

From S2P Require Import Prelude Types Json JsonText Base64.

(** ** Writing *)

(** The handle of an encoder: [StructToArray] writes structures as arrays. *)
Record Handle := { StructToArray : bool }.
Definition JsonHandle : Handle := {| StructToArray := false |}.

(** A field as the generated encoder writes it: its key, whether it is set (the
    flag [yyq], true for a field without [omitempty]), the value, and what
    stands in an array for a field that is not set.  A value that cannot be
    marshalled is [None]. *)
Record Member := { m_key : string; m_set : bool; m_value : option json; m_empty : json }.
Definition always (key : string) (value : option json) : Member :=
  {| m_key := key; m_set := true; m_value := value; m_empty := JNull |}.
Definition omitempty (key : string) (set : bool) (value : option json) (empty : json) : Member :=
  {| m_key := key; m_set := set; m_value := value; m_empty := empty |}.

Fixpoint object_members (ms : list Member) : option (list (string * json)) :=
  match ms with
  | [] => Some []
  | m :: ms' =>
      if m_set m then
        match m_value m, object_members ms' with Some v, Some l => Some ((m_key m, v) :: l) | _, _ => None end
      else object_members ms'
  end.

Fixpoint array_elements (ms : list Member) : option (list json) :=
  match ms with
  | [] => Some []
  | m :: ms' =>
      match (if m_set m then m_value m else Some (m_empty m)), array_elements ms' with
      | Some v, Some l => Some (v :: l)
      | _, _ => None
      end
  end.

Definition EncodeStruct (h : Handle) (ms : list Member) : option json :=
  if StructToArray h then JArray <$> array_elements ms else JObject <$> object_members ms.

(** [encoding/json] writes a structure by its tags, in the order of the fields. *)
Definition MarshalStruct (ms : list Member) : option json := JObject <$> object_members ms.

Definition EncodeString (s : string) : option json := Some (JString s).
Definition EncodeBool (b : bool) : option json := Some (JBool b).
Definition EncodeInt (z : Z) : option json := Some (JNum (itoa z)).
(** Nil is null. *)
Definition EncodePtr {T} (enc : T -> option json) (p : option T) : option json :=
  match p with Some v => enc v | None => Some JNull end.
Definition EncodeArray {T} (enc : T -> option json) (l : list T) : option json := JArray <$> traverse enc l.
(** A slice of a field of type [list]: the model does not tell a nil slice from
    an empty one and writes both as nil. *)
Definition EncodeSlice {T} (enc : list T -> option json) (l : list T) : option json :=
  match l with [] => Some JNull | _ => enc l end.
Definition EncodeMembers {T} (enc : T -> option json) (l : list (string * T)) : option json :=
  JObject <$> traverse (fun m => pair (fst m) <$> enc (snd m)) l.

Definition not_nil {T} (p : option T) : bool := match p with Some _ => true | None => false end.
Definition non_empty (s : string) : bool := negb (String.eqb s "").
Definition has_elements {T} (l : list T) : bool := match l with [] => false | _ => true end.
Definition slice_elements {T} (s : option (list T)) : bool := match s with Some l => has_elements l | None => false end.

(** ** Reading *)

(** A reader decodes a value into a variable; a panic of the driver is [None]. *)
Definition reader (T : Type) : Type := json -> T -> option T.

(** [r.TryDecodeAsNil()]: null resets the variable. *)
Definition or_nil {T} (zero : T) (dec : reader T) : reader T :=
  fun v x => match v with JNull => Some zero | _ => dec v x end.
(** The same for a pointer: a nil pointer is pointed to a new variable, which is
    then decoded into. *)
Definition or_nil_ptr {T} (zero : T) (dec : reader T) : reader (option T) :=
  fun v p => match v with JNull => Some None | _ => Some <$> dec v (default zero p) end.
Definition or_nil_slice {T} (dec : reader (list T)) : reader (option (list T)) := or_nil_ptr [] dec.

(** A field of a structure. *)
Definition into {S T} (get : S -> T) (set : T -> S -> S) (dec : reader T) : json -> S -> option S :=
  fun v x => (fun t => set t x) <$> dec v (get x).

(** The [case]s of the switch on the key; [DecStructFieldNotFound] skips. *)
Fixpoint case_of {S} (cases : list (string * (json -> S -> option S))) (key : string) : json -> S -> option S :=
  match cases with
  | [] => fun _ x => Some x
  | (k, act) :: cases' => if String.eqb k key then act else case_of cases' key
  end.

Fixpoint DecodeMembers {S} (cases : list (string * (json -> S -> option S))) (l : list (string * json)) (x : S) : option S :=
  match l with
  | [] => Some x
  | (key, v) :: l' => match case_of cases key v x with Some x' => DecodeMembers cases l' x' | None => None end
  end.

(** Fields by position; missing elements leave the fields as they are, elements
    beyond the last field are skipped. *)
Fixpoint DecodeElements {S} (acts : list (json -> S -> option S)) (l : list json) (x : S) : option S :=
  match acts, l with
  | act :: acts', v :: l' => match act v x with Some x' => DecodeElements acts' l' x' | None => None end
  | _, _ => Some x
  end.

Definition DecodeStruct {S} (fromMap : list (string * json) -> S -> option S) (fromArray : list json -> S -> option S) : reader S :=
  fun v x => match v with JObject l => fromMap l x | JArray l => fromArray l x | _ => None end.

Definition DecodeString : reader string :=
  fun v _ => match v with JString s => Some s | JNull => Some "" | _ => None end.
Definition DecodeBool : reader bool := fun v _ => match v with JBool b => Some b | _ => None end.

(** [decSliceHelperStart]: an object is a slice of its keys and values in turn. *)
Definition elements_of (v : json) : option (list json) :=
  match v with
  | JArray l => Some l
  | JObject l => Some (flat_map (fun m => [JString (fst m); snd m]) l)
  | _ => None
  end.
Fixpoint DecodeInto {T} (zero : T) (dec : reader T) (l : list json) (old : list T) : option (list T) :=
  match l with
  | [] => Some []
  | v :: l' =>
      match dec v (hd zero old), DecodeInto zero dec l' (tl old) with
      | Some t, Some ts => Some (t :: ts)
      | _, _ => None
      end
  end.
Definition DecodeSlice {T} (zero : T) (dec : reader T) : reader (list T) :=
  fun v old => match elements_of v with Some l => DecodeInto zero dec l old | None => None end.

(** A map keeps its old entries; the value of an entry is decoded into nil. *)
Fixpoint DecodeEntries {T} (zero : T) (dec : reader T) (l : list (string * json)) (m : gmap string T) : option (gmap string T) :=
  match l with
  | [] => Some m
  | (key, v) :: l' => match dec v zero with Some t => DecodeEntries zero dec l' (<[key:=t]> m) | None => None end
  end.
Definition DecodeMap {T} (zero : T) (dec : reader T) : reader (gmap string T) :=
  fun v m => match v with JObject l => DecodeEntries zero dec l m | _ => None end.

(** *** Integers *)

(** [int64(u)]: two's complement. *)
Definition int64 (z : Z) : Z := (z + 2 ^ 63) mod 2 ^ 64 - 2 ^ 63.
Definition in_int64 (z : Z) : Prop := - 2 ^ 63 <= z < 2 ^ 63.

Fixpoint digits_value (s : string) (mantissa : Z) : option Z :=
  match s with
  | EmptyString => Some mantissa
  | String c s' => if is_digit c then digits_value s' (mantissa * 10 + (Z.of_nat (code c) - 48)) else None
  end.
Definition uint_of (s : string) : option Z := match s with EmptyString => None | _ => digits_value s 0 end.

(** The sign and the digits of a number without fraction and exponent. *)
Definition plain_number (t : string) : option (bool * Z) :=
  match t with
  | EmptyString => None
  | String c t' => if is_char 45 c then pair true <$> uint_of t' else pair false <$> uint_of t
  end.

(** ** The types of other packages *)

(** [metav1.ListMeta]. *)
Record ListMeta := { lm_SelfLink : string; lm_ResourceVersion : string }.

(** A type with its own JSON: what is written for a value and how a value is
    read into a variable. *)
Record Foreign (T : Type) := { foreign_enc : T -> json; foreign_dec : reader T }.
Arguments foreign_enc {T}.
Arguments foreign_dec {T}.

Class Machinery := {
  ObjectMeta_json : Foreign ObjectMeta;
  ListMeta_json : Foreign ListMeta;
  ObjectReference_json : Foreign ObjectReference;
  LocalObjectReference_json : Foreign LocalObjectReference;
  Time_json : Foreign Z;
  Duration_json : Foreign Z;
  (** [DecodeInt] on a quoted number and on one with a fraction or an exponent *)
  DecodeInt_other : json -> option Z;
  (** the order in which the entries of a map are written *)
  range : forall {T}, gmap string T -> list (string * T) }.

Section types.
Context {M : Machinery}.

(** [DecodeInt(64)]: the magnitude is an [uint64]. *)
Definition DecodeInt : reader Z :=
  fun v _ =>
    match v with
    | JNum t =>
        match plain_number t with
        | Some (neg, u) => if u <? 2 ^ 64 then Some (if neg then int64 (- int64 u) else int64 u) else None
        | None => DecodeInt_other v
        end
    | _ => DecodeInt_other v
    end.

Definition EncodeBytes (b : string) : option json := Some (JString (base64_EncodeToString b)).
(** The empty string is nil. *)
Definition DecodeBytes : reader string :=
  fun v _ =>
    match v with
    | JString s => if String.eqb s "" then Some "" else base64_DecodeString s
    | JNull => Some ""
    | _ => None
    end.

Definition EncodeForeign {T} (f : Foreign T) (x : T) : option json := Some (foreign_enc f x).

(** [runtime.RawExtension]: the bytes of any JSON value.  A nil [Raw] is null;
    the bytes read are the value as it is printed. *)
Definition RawExtension_MarshalJSON (r : RawExtension) : option json :=
  if String.eqb (Raw r) "" then Some JNull else parse (Raw r).
Definition RawExtension_UnmarshalJSON : reader RawExtension := fun v _ => Some {| Raw := encode v |}.
End types.
Definition RawExtension_zero : RawExtension := {| Raw := "" |}.
