(* ===== verification/SelferLaws.v ===== *)
(** * What is written is read back: the combinators

    [survives enc zero dec x]: something is written for [x], it is JSON and not
    null, and reading it into a fresh variable gives [x].  One lemma for every
    combinator of [Selfer]; a structure survives when each of its fields does
    ([struct_survives_members]).  The lemmas are the hint database [selfer]. *)

From S2P Require Import Prelude Types Json JsonText Base64 Selfer.

Definition survives_as {T} (enc : option json) (rd : json -> option T) (x : T) : Prop :=
  exists v, enc = Some v /\ printable v /\ rd v = Some x.
Definition survives {T} (enc : option json) (zero : T) (dec : reader T) (x : T) : Prop :=
  exists v, enc = Some v /\ printable v /\ v <> JNull /\ dec v zero = Some x.

(** ** Structures *)

(** Reading what was written for one field takes the structure from [x] to [x1]. *)
Definition plays_member {S} (m : Member) (act : json -> S -> option S) (x x1 : S) : Prop :=
  if m_set m then survives_as (m_value m) (fun v => act v x) x1
  else x1 = x /\ printable (m_empty m) /\ act (m_empty m) x = Some x.

Inductive plays {S} : list Member -> list (string * (json -> S -> option S)) -> S -> S -> Prop :=
| plays_nil x : plays [] [] x x
| plays_cons m ms act cases x x1 y :
    plays_member m act x x1 -> plays ms cases x1 y -> plays (m :: ms) ((m_key m, act) :: cases) x y.

Lemma case_of_in {S} (cases : list (string * (json -> S -> option S))) k act :
  NoDup (map fst cases) -> (k, act) ∈ cases -> case_of cases k = act.
Proof.
  induction cases as [|[k' act'] cases IH]; [by intros _ H%elem_of_nil|]. cbn. intros [Hk Hn]%list.NoDup_cons.
  rewrite elem_of_cons. intros [[= <- <-]|Hin]; [by rewrite String.eqb_refl|]. rewrite IH by done.
  destruct (String.eqb_spec k' k) as [->|]; [|done]. destruct Hk. by apply (list_elem_of_fmap_2 fst) in Hin.
Qed.

Lemma plays_object {S} all ms cases (x y : S) :
  NoDup (map fst all) -> (forall c, c ∈ cases -> c ∈ all) -> plays ms cases x y ->
  exists l, object_members ms = Some l /\ Forall (fun m => printable (snd m)) l /\ DecodeMembers all l x = Some y.
Proof.
  intros Hn Hin Hp. induction Hp as [x|m ms act cases x x1 y Hm _ IH]; [by exists []|].
  destruct IH as (l & Hl & Hpl & Hd); [by intros c Hc; apply Hin; right|]. unfold plays_member in Hm. cbn. rewrite Hl.
  destruct (m_set m).
  - destruct Hm as (v & -> & Hv & Ha). eexists. split_and!; [done|by constructor|]. cbn.
    rewrite (case_of_in all (m_key m) act) by (done || (apply Hin; left)). by rewrite Ha.
  - destruct Hm as (-> & _). by exists l.
Qed.

Lemma plays_array {S} ms cases (x y : S) : plays ms cases x y ->
  exists l, array_elements ms = Some l /\ Forall printable l /\ DecodeElements (map snd cases) l x = Some y.
Proof.
  intros Hp. induction Hp as [x|m ms act cases x x1 y Hm _ IH]; [by exists []|].
  destruct IH as (l & Hl & Hpl & Hd). unfold plays_member in Hm. cbn. rewrite Hl. destruct (m_set m).
  - destruct Hm as (v & -> & Hv & Ha). eexists. split_and!; [done|by constructor|]. cbn. by rewrite Ha.
  - destruct Hm as (-> & Hv & Ha). eexists. split_and!; [done|by constructor|]. cbn. by rewrite Ha.
Qed.

(** A structure whose fields survive one after the other, in both shapes. *)
Lemma struct_survives_members {S} h ms cases acts (zero x : S) :
  acts = map snd cases -> NoDup (map fst cases) -> plays ms cases zero x ->
  survives (EncodeStruct h ms) zero (DecodeStruct (DecodeMembers cases) (DecodeElements acts)) x.
Proof.
  intros -> Hn Hp. unfold EncodeStruct, survives. destruct (StructToArray h).
  - destruct (plays_array _ _ _ _ Hp) as (l & -> & Hl & Hd). exists (JArray l). split_and!; [done|by apply printable_array|done..].
  - destruct (plays_object cases _ _ _ _ Hn (fun _ H => H) Hp) as (l & -> & Hl & Hd). exists (JObject l).
    split_and!; [done|by apply printable_object|done..].
Qed.

Lemma plays_always {S T} key enc (get : S -> T) set rd x x1 v :
  survives_as enc (fun j => rd j (get x)) v -> x1 = set v x ->
  plays_member (always key enc) (into get set rd) x x1.
Proof. intros (j & -> & Hp & Hd) ->. exists j. split_and!; [done..|]. unfold into. by rewrite Hd. Qed.

Lemma plays_omitempty {S T} key set_ enc empty (get : S -> T) set rd x x1 v :
  (set_ = true -> survives_as enc (fun j => rd j (get x)) v) -> (set_ = false -> v = get x) ->
  printable empty -> rd empty (get x) = Some (get x) -> set (get x) x = x -> x1 = set v x ->
  plays_member (omitempty key set_ enc empty) (into get set rd) x x1.
Proof.
  intros Ht Hf Hp He Hs ->. unfold plays_member, into. cbn. destruct set_.
  - destruct (Ht eq_refl) as (j & -> & Hj & Hd). exists j. split_and!; [done..|]. by rewrite Hd.
  - rewrite (Hf eq_refl), Hs, He. cbn. by rewrite Hs.
Qed.

(** ** Null *)

Lemma survives_or_nil {T} enc (zero : T) dec x :
  survives enc zero dec x -> survives_as enc (fun v => or_nil zero dec v zero) x.
Proof. intros (v & He & Hp & Hn & Hd). exists v. split_and!; [done..|]. by destruct v. Qed.

Lemma survives_ptr {T} (enc : T -> option json) zero dec p :
  (forall x, p = Some x -> survives (enc x) zero dec x) ->
  survives_as (EncodePtr enc p) (fun v => or_nil_ptr zero dec v None) p.
Proof.
  intros H. destruct p as [x|]; [|by exists JNull]. destruct (H x eq_refl) as (v & He & Hp & Hn & Hd).
  exists v. split_and!; [done..|]. destruct v; try done; cbn in *; by rewrite Hd.
Qed.

Lemma not_nil_false {T} (p : option T) : not_nil p = false -> p = None.
Proof. by destruct p. Qed.
Lemma non_empty_false s : non_empty s = false -> s = "".
Proof. unfold non_empty. by destruct (String.eqb_spec s ""). Qed.
Lemma has_elements_false {T} (l : list T) : has_elements l = false -> l = [].
Proof. by destruct l. Qed.

(** ** Basic values *)

Lemma string_survives_driver s : survives (EncodeString s) "" DecodeString s.
Proof. by exists (JString s). Qed.
Lemma bool_survives_driver b : survives (EncodeBool b) false DecodeBool b.
Proof. by exists (JBool b). Qed.

(** ** Slices and maps *)

Lemma DecodeInto_fresh {T} (enc : T -> option json) zero dec l :
  Forall (fun x => survives_as (enc x) (fun v => dec v zero) x) l ->
  exists vs, traverse enc l = Some vs /\ Forall printable vs /\ DecodeInto zero dec vs [] = Some l.
Proof.
  induction 1 as [|x l (v & He & Hp & Hd) _ (vs & Hv & Hps & Hds)]; [by exists []|]. exists (v :: vs). cbn.
  rewrite He, Hv, Hd, Hds. split_and!; [done|by constructor|done].
Qed.

Lemma slice_survives_driver {T} (enc : T -> option json) zero dec l :
  Forall (fun x => survives_as (enc x) (fun v => dec v zero) x) l ->
  survives (EncodeArray enc l) [] (DecodeSlice zero dec) l.
Proof.
  intros (vs & Hv & Hp & Hd)%DecodeInto_fresh. exists (JArray vs). unfold EncodeArray. rewrite Hv.
  split_and!; [done|by apply printable_array|done..].
Qed.

Lemma survives_slice {T} (enc : list T -> option json) dec l :
  survives (enc l) [] dec l -> survives_as (EncodeSlice enc l) (fun v => or_nil [] dec v []) l.
Proof. intros H. destruct l; [by exists JNull|]. by apply survives_or_nil. Qed.

Lemma entries_fresh {T} (enc : T -> option json) zero dec (l : list (string * T)) (m : gmap string T) :
  Forall (fun e => survives_as (enc (snd e)) (fun v => dec v zero) (snd e)) l -> NoDup (l.*1) ->
  (forall k, k ∈ l.*1 -> m !! k = None) ->
  exists vs, traverse (fun e => pair (fst e) <$> enc (snd e)) l = Some vs /\ Forall (fun e => printable (snd e)) vs /\
    DecodeEntries zero dec vs m = Some (list_to_map l ∪ m).
Proof.
  intros Hl. revert m. induction Hl as [|[k x] l (v & He & Hp & Hd) _ IH]; intros m Hn Hm.
  { exists []. split_and!; [done..|]. cbn. by rewrite map_empty_union. }
  cbn in *. apply list.NoDup_cons in Hn as [Hk Hn].
  destruct (IH (<[k:=x]> m)) as (vs & Hv & Hps & Hds); [done| |].
  { intros k' Hk'. rewrite lookup_insert_ne; [apply Hm; by right|]. by intros ->. }
  exists ((k, v) :: vs). rewrite He, Hv. split_and!; [done|by constructor|]. cbn. rewrite Hd, Hds.
  rewrite <-insert_union_r, insert_union_l; [done|]. by apply not_elem_of_list_to_map_1.
Qed.

(** ** Integers *)

#[local] Arguments String.append !_ _ / : simpl nomatch.

Lemma digits_value_app a b x : digits_value (a +:+ b) x = (y ← digits_value a x; digits_value b y).
Proof. revert x. induction a as [|c a IH]; intros x; cbn; [done|]. by destruct (is_digit c). Qed.

Definition digit (n : Z) : Ascii.ascii := Ascii.ascii_of_nat (48 + Z.to_nat (n mod 10))%nat.

Lemma digit_code n : Z.of_nat (code (digit n)) = 48 + n mod 10.
Proof.
  unfold code, digit. pose proof (Z.mod_pos_bound n 10 ltac:(lia)). rewrite Ascii.nat_ascii_embedding; lia.
Qed.
Lemma digit_is_digit n : is_digit (digit n) = true.
Proof.
  pose proof (digit_code n). pose proof (Z.mod_pos_bound n 10 ltac:(lia)). unfold is_digit.
  apply andb_true_iff. split; apply Nat.leb_le; lia.
Qed.

Lemma itoa_digits_step f n : itoa_digits (S f) n =
  if n <? 10 then String (digit n) "" else itoa_digits f (n / 10) +:+ String (digit n) "".
Proof. done. Qed.

Lemma itoa_digits_value f n : 0 <= n < 10 ^ Z.of_nat f -> digits_value (itoa_digits f n) 0 = Some n.
Proof.
  revert n. induction f as [|f IH]; intros n Hn; [replace n with 0 by lia; done|]. rewrite itoa_digits_step.
  destruct (Z.ltb_spec n 10); [|rewrite digits_value_app, IH]; cbn; rewrite ?digit_is_digit, ?digit_code.
  - f_equal. rewrite Z.mod_small; lia.
  - f_equal. pose proof (Z.div_mod n 10). lia.
  - rewrite Nat2Z.inj_succ, Z.pow_succ_r in Hn by lia. split; [apply Z.div_pos; lia|]. apply Z.div_lt_upper_bound; lia.
Qed.

Fixpoint all_digits (s : string) : bool :=
  match s with EmptyString => true | String c s' => is_digit c && all_digits s' end.
Lemma all_digits_app a b : all_digits (a +:+ b) = all_digits a && all_digits b.
Proof. induction a as [|c a IH]; cbn; [done|]. by rewrite IH, andb_assoc. Qed.
Lemma take_digits_all s : all_digits s = true -> take_digits s = (s, "").
Proof. induction s as [|c s IH]; [done|]. cbn. intros [-> H]%andb_true_iff. by rewrite (IH H). Qed.

(** The digits of a positive number begin with one that is not zero. *)
Lemma itoa_digits_shape f n : 0 < n < 10 ^ Z.of_nat f ->
  exists c s, itoa_digits f n = String c s /\ is_char 48 c = false /\ is_digit c = true /\ all_digits s = true.
Proof.
  revert n. induction f as [|f IH]; intros n Hn; [cbn in Hn; lia|]. rewrite itoa_digits_step.
  rewrite Nat2Z.inj_succ, Z.pow_succ_r in Hn by lia. destruct (Z.ltb_spec n 10).
  - exists (digit n), "". split_and!; [done| |apply digit_is_digit|done]. pose proof (digit_code n) as Hc.
    rewrite Z.mod_small in Hc by lia. unfold is_char. apply Nat.eqb_neq. lia.
  - destruct (IH (n / 10)) as (c & s & -> & Hc & Hd & Hs).
    { split; [apply Z.div_str_pos; lia|apply Z.div_lt_upper_bound; lia]. }
    exists c, (s +:+ String (digit n) ""). split_and!; [done..|]. rewrite all_digits_app, Hs. cbn. by rewrite digit_is_digit.
Qed.

Lemma scan_digits f n : 0 <= n < 10 ^ Z.of_nat f -> 0 < Z.of_nat f ->
  andThen (scan_int (itoa_digits f n)) (fun s => andThen (scan_frac s) scan_exp) = Some (itoa_digits f n, "") /\
  exists c s, itoa_digits f n = String c s /\ is_digit c = true.
Proof.
  intros Hn Hf. destruct (Z.eq_dec n 0) as [->|Hne].
  { destruct f; [lia|]. split; [done|]. by exists (digit 0), "". }
  destruct (itoa_digits_shape f n) as (c & s & Heq & Hc & Hd & Hs); [lia|]. split; [|by exists c, s].
  rewrite Heq. unfold scan_int. rewrite Hc. unfold digits1.
  rewrite (take_digits_all (String c s)) by (cbn; by rewrite Hd). cbn. by rewrite !sapp_nil.
Qed.

Lemma digit_not_minus c : is_digit c = true -> is_char 45 c = false.
Proof. unfold is_digit, is_char. rewrite andb_true_iff, !Nat.leb_le, Nat.eqb_neq. lia. Qed.

Lemma itoa_cases z : itoa z = if z <? 0 then String (char 45) (itoa_digits 20 (- z)) else itoa_digits 20 z.
Proof. unfold itoa. destruct (z <? 0); [|done]. cbn [sprint]. by rewrite sapp_nil. Qed.

Lemma in_int64_digits z : in_int64 z -> 0 <= Z.abs z < 10 ^ Z.of_nat 20.
Proof. unfold in_int64. intros H. split; [lia|]. transitivity (2 ^ 63 + 1); [lia|done]. Qed.

Lemma itoa_printable z : in_int64 z -> printable (JNum (itoa z)).
Proof.
  intros Hz%in_int64_digits. cbn. rewrite itoa_cases. destruct (Z.ltb_spec z 0).
  - destruct (scan_digits 20 (- z)) as [H1 _]; [lia..|]. cbn [scan_number]. rewrite H1. done.
  - destruct (scan_digits 20 z) as (H1 & c & s & Heq & Hc); [lia..|]. rewrite Heq in *. cbn [scan_number].
    by rewrite digit_not_minus, H1.
Qed.

Lemma plain_itoa z : in_int64 z -> plain_number (itoa z) = Some (z <? 0, Z.abs z).
Proof.
  intros Hz%in_int64_digits. rewrite itoa_cases. destruct (Z.ltb_spec z 0).
  - destruct (scan_digits 20 (- z)) as (_ & c & s & Heq & _); [lia..|]. cbn [plain_number].
    change (is_char 45 (char 45)) with true. unfold uint_of. rewrite Heq. rewrite <-Heq, itoa_digits_value by lia.
    cbn. do 2 f_equal. lia.
  - destruct (scan_digits 20 z) as (_ & c & s & Heq & Hc); [lia..|]. unfold plain_number, uint_of. rewrite Heq.
    rewrite digit_not_minus by done. rewrite <-Heq, itoa_digits_value by lia. cbn. do 2 f_equal. lia.
Qed.

Lemma int64_in z : in_int64 z -> int64 z = z.
Proof. unfold int64, in_int64. intros H. rewrite Z.mod_small by lia. lia. Qed.
(** The magnitude of the smallest integer wraps around twice. *)
Lemma int64_neg z : in_int64 z -> int64 (- int64 (- z)) = z.
Proof.
  intros Hz. destruct (Z.eq_dec z (- 2 ^ 63)) as [->|Hne]; [reflexivity|].
  rewrite (int64_in (- z)), Z.opp_involutive, int64_in; unfold in_int64 in *; lia || done.
Qed.

Section machinery.
Context {M : Machinery}.

Lemma map_survives_driver {T} (enc : T -> option json) zero dec (m : gmap string T) :
  (forall (m : gmap string T), range m ≡ₚ map_to_list m) ->
  map_Forall (fun _ x => survives_as (enc x) (fun v => dec v zero) x) m ->
  survives (EncodeMembers enc (range m)) ∅ (DecodeMap zero dec) m.
Proof.
  intros Hr Hm. destruct (entries_fresh enc zero dec (range m) ∅) as (vs & Hv & Hp & Hd).
  - eapply Permutation_Forall; [symmetry; apply Hr|]. apply List.Forall_forall. intros [k x] Hin.
    apply list_elem_of_In, elem_of_map_to_list in Hin. exact (Hm k x Hin).
  - rewrite Hr. apply NoDup_fst_map_to_list.
  - intros k _. apply lookup_empty.
  - exists (JObject vs). unfold EncodeMembers. rewrite Hv. split_and!; [done|by apply printable_object|done|].
    cbn. rewrite Hd, map_union_empty. f_equal. rewrite <-(list_to_map_to_list (M:=gmap string) m) at 2.
    apply list_to_map_proper; [rewrite Hr; apply NoDup_fst_map_to_list|apply Hr].
Qed.

Lemma int_survives_driver z : in_int64 z -> survives (EncodeInt z) 0 DecodeInt z.
Proof.
  intros Hz. exists (JNum (itoa z)). split_and!; [done|by apply itoa_printable|done|]. cbn. rewrite plain_itoa by done.
  replace (Z.abs z <? 2 ^ 64) with true by (symmetry; apply Z.ltb_lt; unfold in_int64 in Hz; lia).
  destruct (Z.ltb_spec z 0); f_equal.
  - replace (Z.abs z) with (- z) by lia. by apply int64_neg.
  - replace (Z.abs z) with z by lia. by apply int64_in.
Qed.

(** The bytes of a JSON value in the form they are printed in. *)
Definition raw_stored (r : RawExtension) : Prop := exists v, Raw r = encode v /\ printable v /\ v <> JNull.

Lemma raw_survives r : raw_stored r ->
  survives (RawExtension_MarshalJSON r) RawExtension_zero RawExtension_UnmarshalJSON r.
Proof.
  destruct r as [raw]. intros (v & Hr & Hp & Hn). cbn in Hr. subst raw. exists v. unfold RawExtension_MarshalJSON. cbn.
  destruct (encode_begins v Hp) as (c & s & Heq & _). rewrite Heq. cbn. rewrite <-Heq, parse_encode by done. done.
Qed.
End machinery.

(** ** The laws of the other packages *)

(** A value of another package's type that survives its JSON; only the zero
    value may be null. *)
Definition foreign_stored {T} (f : Foreign T) (zero x : T) : Prop :=
  printable (foreign_enc f x) /\ or_nil zero (foreign_dec f) (foreign_enc f x) zero = Some x.

Class MachineryLaws (M : Machinery) := {
  range_perm : forall T (m : gmap string T), range m ≡ₚ map_to_list m }.

Section laws.
Context {M : Machinery} {ML : MachineryLaws M}.

Lemma bytes_survive_driver b : survives (EncodeBytes b) "" DecodeBytes b.
Proof.
  exists (JString (base64_EncodeToString b)). split_and!; [done..|]. cbn.
  destruct (String.eqb_spec (base64_EncodeToString b) "") as [E|]; [|apply base64_decode_encode].
  by apply base64_empty in E as ->.
Qed.

Lemma foreign_survives_as {T} (f : Foreign T) zero x : foreign_stored f zero x ->
  survives_as (EncodeForeign f x) (fun v => or_nil zero (foreign_dec f) v zero) x.
Proof. intros [Hp Hd]. by eexists. Qed.

Lemma foreign_survives {T} (f : Foreign T) zero x : foreign_stored f zero x -> foreign_enc f x <> JNull ->
  survives (EncodeForeign f x) zero (foreign_dec f) x.
Proof. intros [Hp Hd] Hn. eexists. split_and!; [done..|]. by destruct (foreign_enc f x). Qed.
End laws.
