(* ===== verification/Fields.v ===== *)
(** * Fields of the API objects

    The list types of [pkg/apis/servicecatalog/v1alpha1/types.go], the values of
    new variables ([.._zero]), the assignment of one field ([set_..]) and the
    strings of the enumerations. *)

From S2P Require Import Prelude Types Selfer.

(** ** Lists *)

Record ClusterServiceBrokerList := { cbl_TypeMeta : TypeMeta; cbl_ListMeta : ListMeta; cbl_Items : list ClusterServiceBroker }.
Record ServiceClassList := { scl_TypeMeta : TypeMeta; scl_ListMeta : ListMeta; scl_Items : list ServiceClass }.
Record ServicePlanList := { spl_TypeMeta : TypeMeta; spl_ListMeta : ListMeta; spl_Items : list ServicePlan }.
Record ServiceInstanceList := { sil_TypeMeta : TypeMeta; sil_ListMeta : ListMeta; sil_Items : list ServiceInstance }.
Record ServiceInstanceCredentialList := { sicl_TypeMeta : TypeMeta; sicl_ListMeta : ListMeta; sicl_Items : list ServiceInstanceCredential }.

(** ** Enumerations

    [E_string] is the string of a constant, [E_of_string] the constant of a
    string; a value is canonical when it is the constant of its string. *)

Definition ServiceBrokerRelistBehavior_string (x : ServiceBrokerRelistBehavior) : string :=
  match x with
  | RelistBehaviorDuration => "Duration"
  | RelistBehaviorManual => "Manual"
  | RelistBehaviorOther s => s
  end.
Definition ServiceBrokerRelistBehavior_of_string (s : string) : ServiceBrokerRelistBehavior :=
  if String.eqb s "Duration" then RelistBehaviorDuration
  else if String.eqb s "Manual" then RelistBehaviorManual
  else RelistBehaviorOther s.
Lemma ServiceBrokerRelistBehavior_string_of s : ServiceBrokerRelistBehavior_string (ServiceBrokerRelistBehavior_of_string s) = s.
Proof. unfold ServiceBrokerRelistBehavior_of_string. by repeat match goal with |- context [String.eqb s ?t] => destruct (String.eqb_spec s t) as [->|]; [done|] end. Qed.

Definition ConditionType_string (x : ConditionType) : string :=
  match x with
  | ConditionReady => "Ready"
  | ConditionFailed => "Failed"
  | ConditionTypeOther s => s
  end.
Definition ConditionType_of_string (s : string) : ConditionType :=
  if String.eqb s "Ready" then ConditionReady
  else if String.eqb s "Failed" then ConditionFailed
  else ConditionTypeOther s.
Lemma ConditionType_string_of s : ConditionType_string (ConditionType_of_string s) = s.
Proof. unfold ConditionType_of_string. by repeat match goal with |- context [String.eqb s ?t] => destruct (String.eqb_spec s t) as [->|]; [done|] end. Qed.

Definition ConditionStatus_string (x : ConditionStatus) : string :=
  match x with
  | ConditionTrue => "True"
  | ConditionFalse => "False"
  | ConditionUnknown => "Unknown"
  | ConditionStatusOther s => s
  end.
Definition ConditionStatus_of_string (s : string) : ConditionStatus :=
  if String.eqb s "True" then ConditionTrue
  else if String.eqb s "False" then ConditionFalse
  else if String.eqb s "Unknown" then ConditionUnknown
  else ConditionStatusOther s.
Lemma ConditionStatus_string_of s : ConditionStatus_string (ConditionStatus_of_string s) = s.
Proof. unfold ConditionStatus_of_string. by repeat match goal with |- context [String.eqb s ?t] => destruct (String.eqb_spec s t) as [->|]; [done|] end. Qed.

Definition ServiceInstanceOperation_string (x : ServiceInstanceOperation) : string :=
  match x with
  | OperationNone => ""
  | OperationProvision => "Provision"
  | OperationUpdate => "Update"
  | OperationDeprovision => "Deprovision"
  | OperationOther s => s
  end.
Definition ServiceInstanceOperation_of_string (s : string) : ServiceInstanceOperation :=
  if String.eqb s "" then OperationNone
  else if String.eqb s "Provision" then OperationProvision
  else if String.eqb s "Update" then OperationUpdate
  else if String.eqb s "Deprovision" then OperationDeprovision
  else OperationOther s.
Lemma ServiceInstanceOperation_string_of s : ServiceInstanceOperation_string (ServiceInstanceOperation_of_string s) = s.
Proof. unfold ServiceInstanceOperation_of_string. by repeat match goal with |- context [String.eqb s ?t] => destruct (String.eqb_spec s t) as [->|]; [done|] end. Qed.

Definition ServiceInstanceCredentialOperation_string (x : ServiceInstanceCredentialOperation) : string :=
  match x with
  | BOperationNone => ""
  | BOperationBind => "Bind"
  | BOperationUnbind => "Unbind"
  | BOperationOther s => s
  end.
Definition ServiceInstanceCredentialOperation_of_string (s : string) : ServiceInstanceCredentialOperation :=
  if String.eqb s "" then BOperationNone
  else if String.eqb s "Bind" then BOperationBind
  else if String.eqb s "Unbind" then BOperationUnbind
  else BOperationOther s.
Lemma ServiceInstanceCredentialOperation_string_of s : ServiceInstanceCredentialOperation_string (ServiceInstanceCredentialOperation_of_string s) = s.
Proof. unfold ServiceInstanceCredentialOperation_of_string. by repeat match goal with |- context [String.eqb s ?t] => destruct (String.eqb_spec s t) as [->|]; [done|] end. Qed.

(** ** New variables and assignments *)

Definition TypeMeta_zero : TypeMeta := {| Kind := ""; APIVersion := "" |}.
Definition set_Kind (v : string) (m : TypeMeta) : TypeMeta := {| Kind := v; APIVersion := APIVersion m |}.
Definition set_APIVersion (v : string) (m : TypeMeta) : TypeMeta := {| Kind := Kind m; APIVersion := v |}.
Definition ObjectMeta_zero : ObjectMeta := Build_ObjectMeta "" "" "" "" 0 None [] [].
Definition ListMeta_zero : ListMeta := {| lm_SelfLink := ""; lm_ResourceVersion := "" |}.
Definition ObjectReference_zero : ObjectReference := Build_ObjectReference "" "" "" "" "" "".
Definition LocalObjectReference_zero : LocalObjectReference := {| lref_Name := "" |}.

Definition SecretKeyReference_zero : SecretKeyReference := Build_SecretKeyReference "" "".
Definition set_skr_Name (v : string) (x : SecretKeyReference) : SecretKeyReference := Build_SecretKeyReference v (skr_Key x).
Definition set_skr_Key (v : string) (x : SecretKeyReference) : SecretKeyReference := Build_SecretKeyReference (skr_Name x) v.
Definition ParametersFromSource_zero : ParametersFromSource := Build_ParametersFromSource None.
Definition set_pfs_SecretKeyRef (v : option SecretKeyReference) (x : ParametersFromSource) : ParametersFromSource := Build_ParametersFromSource v.
Definition UserInfo_zero : UserInfo := Build_UserInfo "" "" None ∅.
Definition set_ui_Username (v : string) (x : UserInfo) : UserInfo := Build_UserInfo v (ui_UID x) (ui_Groups x) (ui_Extra x).
Definition set_ui_UID (v : string) (x : UserInfo) : UserInfo := Build_UserInfo (ui_Username x) v (ui_Groups x) (ui_Extra x).
Definition set_ui_Groups (v : option (list string)) (x : UserInfo) : UserInfo := Build_UserInfo (ui_Username x) (ui_UID x) v (ui_Extra x).
Definition set_ui_Extra (v : gmap string (list string)) (x : UserInfo) : UserInfo := Build_UserInfo (ui_Username x) (ui_UID x) (ui_Groups x) v.
Definition BasicAuthConfig_zero : BasicAuthConfig := Build_BasicAuthConfig None.
Definition set_bac_SecretRef (v : option ObjectReference) (x : BasicAuthConfig) : BasicAuthConfig := Build_BasicAuthConfig v.
Definition BearerTokenAuthConfig_zero : BearerTokenAuthConfig := Build_BearerTokenAuthConfig None.
Definition set_btac_SecretRef (v : option ObjectReference) (x : BearerTokenAuthConfig) : BearerTokenAuthConfig := Build_BearerTokenAuthConfig v.
Definition ServiceBrokerAuthInfo_zero : ServiceBrokerAuthInfo := Build_ServiceBrokerAuthInfo None None None.
Definition set_Basic (v : option BasicAuthConfig) (x : ServiceBrokerAuthInfo) : ServiceBrokerAuthInfo := Build_ServiceBrokerAuthInfo v (Bearer x) (BasicAuthSecret x).
Definition set_Bearer (v : option BearerTokenAuthConfig) (x : ServiceBrokerAuthInfo) : ServiceBrokerAuthInfo := Build_ServiceBrokerAuthInfo (Basic x) v (BasicAuthSecret x).
Definition set_BasicAuthSecret (v : option ObjectReference) (x : ServiceBrokerAuthInfo) : ServiceBrokerAuthInfo := Build_ServiceBrokerAuthInfo (Basic x) (Bearer x) v.
Definition ClusterServiceBrokerSpec_zero : ClusterServiceBrokerSpec := Build_ClusterServiceBrokerSpec "" None false "" (ServiceBrokerRelistBehavior_of_string "") None 0.
Definition set_URL (v : string) (x : ClusterServiceBrokerSpec) : ClusterServiceBrokerSpec := Build_ClusterServiceBrokerSpec v (AuthInfo x) (InsecureSkipTLSVerify x) (CABundle x) (RelistBehavior x) (RelistDuration x) (RelistRequests x).
Definition set_AuthInfo (v : option ServiceBrokerAuthInfo) (x : ClusterServiceBrokerSpec) : ClusterServiceBrokerSpec := Build_ClusterServiceBrokerSpec (URL x) v (InsecureSkipTLSVerify x) (CABundle x) (RelistBehavior x) (RelistDuration x) (RelistRequests x).
Definition set_InsecureSkipTLSVerify (v : bool) (x : ClusterServiceBrokerSpec) : ClusterServiceBrokerSpec := Build_ClusterServiceBrokerSpec (URL x) (AuthInfo x) v (CABundle x) (RelistBehavior x) (RelistDuration x) (RelistRequests x).
Definition set_CABundle (v : string) (x : ClusterServiceBrokerSpec) : ClusterServiceBrokerSpec := Build_ClusterServiceBrokerSpec (URL x) (AuthInfo x) (InsecureSkipTLSVerify x) v (RelistBehavior x) (RelistDuration x) (RelistRequests x).
Definition set_RelistBehavior (v : ServiceBrokerRelistBehavior) (x : ClusterServiceBrokerSpec) : ClusterServiceBrokerSpec := Build_ClusterServiceBrokerSpec (URL x) (AuthInfo x) (InsecureSkipTLSVerify x) (CABundle x) v (RelistDuration x) (RelistRequests x).
Definition set_RelistDuration (v : option Z) (x : ClusterServiceBrokerSpec) : ClusterServiceBrokerSpec := Build_ClusterServiceBrokerSpec (URL x) (AuthInfo x) (InsecureSkipTLSVerify x) (CABundle x) (RelistBehavior x) v (RelistRequests x).
Definition set_RelistRequests (v : Z) (x : ClusterServiceBrokerSpec) : ClusterServiceBrokerSpec := Build_ClusterServiceBrokerSpec (URL x) (AuthInfo x) (InsecureSkipTLSVerify x) (CABundle x) (RelistBehavior x) (RelistDuration x) v.
Definition ServiceBrokerCondition_zero : ServiceBrokerCondition := Build_ServiceInstanceCondition (ConditionType_of_string "") (ConditionStatus_of_string "") 0 "" "".
Definition set_cond_Type (v : ConditionType) (x : ServiceInstanceCondition) : ServiceInstanceCondition := Build_ServiceInstanceCondition v (cond_Status x) (cond_LastTransitionTime x) (cond_Reason x) (cond_Message x).
Definition set_cond_Status (v : ConditionStatus) (x : ServiceInstanceCondition) : ServiceInstanceCondition := Build_ServiceInstanceCondition (cond_Type x) v (cond_LastTransitionTime x) (cond_Reason x) (cond_Message x).
Definition set_cond_LastTransitionTime (v : Z) (x : ServiceInstanceCondition) : ServiceInstanceCondition := Build_ServiceInstanceCondition (cond_Type x) (cond_Status x) v (cond_Reason x) (cond_Message x).
Definition set_cond_Reason (v : string) (x : ServiceInstanceCondition) : ServiceInstanceCondition := Build_ServiceInstanceCondition (cond_Type x) (cond_Status x) (cond_LastTransitionTime x) v (cond_Message x).
Definition set_cond_Message (v : string) (x : ServiceInstanceCondition) : ServiceInstanceCondition := Build_ServiceInstanceCondition (cond_Type x) (cond_Status x) (cond_LastTransitionTime x) (cond_Reason x) v.
Definition ServiceBrokerStatus_zero : ServiceBrokerStatus := Build_ServiceBrokerStatus [] 0 None.
Definition set_bs_Conditions (v : list ServiceBrokerCondition) (x : ServiceBrokerStatus) : ServiceBrokerStatus := Build_ServiceBrokerStatus v (bs_ReconciledGeneration x) (bs_OperationStartTime x).
Definition set_bs_ReconciledGeneration (v : Z) (x : ServiceBrokerStatus) : ServiceBrokerStatus := Build_ServiceBrokerStatus (bs_Conditions x) v (bs_OperationStartTime x).
Definition set_bs_OperationStartTime (v : option Z) (x : ServiceBrokerStatus) : ServiceBrokerStatus := Build_ServiceBrokerStatus (bs_Conditions x) (bs_ReconciledGeneration x) v.
Definition ClusterServiceBroker_zero : ClusterServiceBroker := Build_ClusterServiceBroker TypeMeta_zero ObjectMeta_zero ClusterServiceBrokerSpec_zero ServiceBrokerStatus_zero.
Definition set_b_TypeMeta (v : TypeMeta) (x : ClusterServiceBroker) : ClusterServiceBroker := Build_ClusterServiceBroker v (b_Meta x) (b_Spec x) (b_Status x).
Definition set_b_Kind (v : string) (x : ClusterServiceBroker) : ClusterServiceBroker := set_b_TypeMeta (set_Kind v (b_TypeMeta x)) x.
Definition set_b_APIVersion (v : string) (x : ClusterServiceBroker) : ClusterServiceBroker := set_b_TypeMeta (set_APIVersion v (b_TypeMeta x)) x.
Definition set_b_Meta (v : ObjectMeta) (x : ClusterServiceBroker) : ClusterServiceBroker := Build_ClusterServiceBroker (b_TypeMeta x) v (b_Spec x) (b_Status x).
Definition set_b_Spec (v : ClusterServiceBrokerSpec) (x : ClusterServiceBroker) : ClusterServiceBroker := Build_ClusterServiceBroker (b_TypeMeta x) (b_Meta x) v (b_Status x).
Definition set_b_Status (v : ServiceBrokerStatus) (x : ClusterServiceBroker) : ClusterServiceBroker := Build_ClusterServiceBroker (b_TypeMeta x) (b_Meta x) (b_Spec x) v.
Definition ClusterServiceBrokerList_zero : ClusterServiceBrokerList := Build_ClusterServiceBrokerList TypeMeta_zero ListMeta_zero [].
Definition set_cbl_TypeMeta (v : TypeMeta) (x : ClusterServiceBrokerList) : ClusterServiceBrokerList := Build_ClusterServiceBrokerList v (cbl_ListMeta x) (cbl_Items x).
Definition set_cbl_Kind (v : string) (x : ClusterServiceBrokerList) : ClusterServiceBrokerList := set_cbl_TypeMeta (set_Kind v (cbl_TypeMeta x)) x.
Definition set_cbl_APIVersion (v : string) (x : ClusterServiceBrokerList) : ClusterServiceBrokerList := set_cbl_TypeMeta (set_APIVersion v (cbl_TypeMeta x)) x.
Definition set_cbl_ListMeta (v : ListMeta) (x : ClusterServiceBrokerList) : ClusterServiceBrokerList := Build_ClusterServiceBrokerList (cbl_TypeMeta x) v (cbl_Items x).
Definition set_cbl_Items (v : list ClusterServiceBroker) (x : ClusterServiceBrokerList) : ClusterServiceBrokerList := Build_ClusterServiceBrokerList (cbl_TypeMeta x) (cbl_ListMeta x) v.
Definition ServiceClassSpec_zero : ServiceClassSpec := Build_ServiceClassSpec "" "" "" "" false false None [] [].
Definition set_sc_ClusterServiceBrokerName (v : string) (x : ServiceClassSpec) : ServiceClassSpec := Build_ServiceClassSpec v (sc_ExternalName x) (sc_ExternalID x) (sc_Description x) (sc_Bindable x) (sc_PlanUpdatable x) (sc_ExternalMetadata x) (sc_Tags x) (sc_Requires x).
Definition set_sc_ExternalName (v : string) (x : ServiceClassSpec) : ServiceClassSpec := Build_ServiceClassSpec (sc_ClusterServiceBrokerName x) v (sc_ExternalID x) (sc_Description x) (sc_Bindable x) (sc_PlanUpdatable x) (sc_ExternalMetadata x) (sc_Tags x) (sc_Requires x).
Definition set_sc_ExternalID (v : string) (x : ServiceClassSpec) : ServiceClassSpec := Build_ServiceClassSpec (sc_ClusterServiceBrokerName x) (sc_ExternalName x) v (sc_Description x) (sc_Bindable x) (sc_PlanUpdatable x) (sc_ExternalMetadata x) (sc_Tags x) (sc_Requires x).
Definition set_sc_Description (v : string) (x : ServiceClassSpec) : ServiceClassSpec := Build_ServiceClassSpec (sc_ClusterServiceBrokerName x) (sc_ExternalName x) (sc_ExternalID x) v (sc_Bindable x) (sc_PlanUpdatable x) (sc_ExternalMetadata x) (sc_Tags x) (sc_Requires x).
Definition set_sc_Bindable (v : bool) (x : ServiceClassSpec) : ServiceClassSpec := Build_ServiceClassSpec (sc_ClusterServiceBrokerName x) (sc_ExternalName x) (sc_ExternalID x) (sc_Description x) v (sc_PlanUpdatable x) (sc_ExternalMetadata x) (sc_Tags x) (sc_Requires x).
Definition set_sc_PlanUpdatable (v : bool) (x : ServiceClassSpec) : ServiceClassSpec := Build_ServiceClassSpec (sc_ClusterServiceBrokerName x) (sc_ExternalName x) (sc_ExternalID x) (sc_Description x) (sc_Bindable x) v (sc_ExternalMetadata x) (sc_Tags x) (sc_Requires x).
Definition set_sc_ExternalMetadata (v : option RawExtension) (x : ServiceClassSpec) : ServiceClassSpec := Build_ServiceClassSpec (sc_ClusterServiceBrokerName x) (sc_ExternalName x) (sc_ExternalID x) (sc_Description x) (sc_Bindable x) (sc_PlanUpdatable x) v (sc_Tags x) (sc_Requires x).
Definition set_sc_Tags (v : list string) (x : ServiceClassSpec) : ServiceClassSpec := Build_ServiceClassSpec (sc_ClusterServiceBrokerName x) (sc_ExternalName x) (sc_ExternalID x) (sc_Description x) (sc_Bindable x) (sc_PlanUpdatable x) (sc_ExternalMetadata x) v (sc_Requires x).
Definition set_sc_Requires (v : list string) (x : ServiceClassSpec) : ServiceClassSpec := Build_ServiceClassSpec (sc_ClusterServiceBrokerName x) (sc_ExternalName x) (sc_ExternalID x) (sc_Description x) (sc_Bindable x) (sc_PlanUpdatable x) (sc_ExternalMetadata x) (sc_Tags x) v.
Definition ServiceClass_zero : ServiceClass := Build_ServiceClass TypeMeta_zero ObjectMeta_zero ServiceClassSpec_zero.
Definition set_sc_TypeMeta (v : TypeMeta) (x : ServiceClass) : ServiceClass := Build_ServiceClass v (sc_Meta x) (sc_Spec x).
Definition set_sc_Kind (v : string) (x : ServiceClass) : ServiceClass := set_sc_TypeMeta (set_Kind v (sc_TypeMeta x)) x.
Definition set_sc_APIVersion (v : string) (x : ServiceClass) : ServiceClass := set_sc_TypeMeta (set_APIVersion v (sc_TypeMeta x)) x.
Definition set_sc_Meta (v : ObjectMeta) (x : ServiceClass) : ServiceClass := Build_ServiceClass (sc_TypeMeta x) v (sc_Spec x).
Definition set_sc_Spec (v : ServiceClassSpec) (x : ServiceClass) : ServiceClass := Build_ServiceClass (sc_TypeMeta x) (sc_Meta x) v.
Definition ServiceClassList_zero : ServiceClassList := Build_ServiceClassList TypeMeta_zero ListMeta_zero [].
Definition set_scl_TypeMeta (v : TypeMeta) (x : ServiceClassList) : ServiceClassList := Build_ServiceClassList v (scl_ListMeta x) (scl_Items x).
Definition set_scl_Kind (v : string) (x : ServiceClassList) : ServiceClassList := set_scl_TypeMeta (set_Kind v (scl_TypeMeta x)) x.
Definition set_scl_APIVersion (v : string) (x : ServiceClassList) : ServiceClassList := set_scl_TypeMeta (set_APIVersion v (scl_TypeMeta x)) x.
Definition set_scl_ListMeta (v : ListMeta) (x : ServiceClassList) : ServiceClassList := Build_ServiceClassList (scl_TypeMeta x) v (scl_Items x).
Definition set_scl_Items (v : list ServiceClass) (x : ServiceClassList) : ServiceClassList := Build_ServiceClassList (scl_TypeMeta x) (scl_ListMeta x) v.
Definition ServicePlanSpec_zero : ServicePlanSpec := Build_ServicePlanSpec "" "" "" "" None false None None None None LocalObjectReference_zero.
Definition set_sp_ClusterServiceBrokerName (v : string) (x : ServicePlanSpec) : ServicePlanSpec := Build_ServicePlanSpec v (sp_ExternalName x) (sp_ExternalID x) (sp_Description x) (sp_Bindable x) (sp_Free x) (sp_ExternalMetadata x) (sp_ServiceInstanceCreateParameterSchema x) (sp_ServiceInstanceUpdateParameterSchema x) (sp_ServiceInstanceCredentialCreateParameterSchema x) (sp_ServiceClassRef x).
Definition set_sp_ExternalName (v : string) (x : ServicePlanSpec) : ServicePlanSpec := Build_ServicePlanSpec (sp_ClusterServiceBrokerName x) v (sp_ExternalID x) (sp_Description x) (sp_Bindable x) (sp_Free x) (sp_ExternalMetadata x) (sp_ServiceInstanceCreateParameterSchema x) (sp_ServiceInstanceUpdateParameterSchema x) (sp_ServiceInstanceCredentialCreateParameterSchema x) (sp_ServiceClassRef x).
Definition set_sp_ExternalID (v : string) (x : ServicePlanSpec) : ServicePlanSpec := Build_ServicePlanSpec (sp_ClusterServiceBrokerName x) (sp_ExternalName x) v (sp_Description x) (sp_Bindable x) (sp_Free x) (sp_ExternalMetadata x) (sp_ServiceInstanceCreateParameterSchema x) (sp_ServiceInstanceUpdateParameterSchema x) (sp_ServiceInstanceCredentialCreateParameterSchema x) (sp_ServiceClassRef x).
Definition set_sp_Description (v : string) (x : ServicePlanSpec) : ServicePlanSpec := Build_ServicePlanSpec (sp_ClusterServiceBrokerName x) (sp_ExternalName x) (sp_ExternalID x) v (sp_Bindable x) (sp_Free x) (sp_ExternalMetadata x) (sp_ServiceInstanceCreateParameterSchema x) (sp_ServiceInstanceUpdateParameterSchema x) (sp_ServiceInstanceCredentialCreateParameterSchema x) (sp_ServiceClassRef x).
Definition set_sp_Bindable (v : option bool) (x : ServicePlanSpec) : ServicePlanSpec := Build_ServicePlanSpec (sp_ClusterServiceBrokerName x) (sp_ExternalName x) (sp_ExternalID x) (sp_Description x) v (sp_Free x) (sp_ExternalMetadata x) (sp_ServiceInstanceCreateParameterSchema x) (sp_ServiceInstanceUpdateParameterSchema x) (sp_ServiceInstanceCredentialCreateParameterSchema x) (sp_ServiceClassRef x).
Definition set_sp_Free (v : bool) (x : ServicePlanSpec) : ServicePlanSpec := Build_ServicePlanSpec (sp_ClusterServiceBrokerName x) (sp_ExternalName x) (sp_ExternalID x) (sp_Description x) (sp_Bindable x) v (sp_ExternalMetadata x) (sp_ServiceInstanceCreateParameterSchema x) (sp_ServiceInstanceUpdateParameterSchema x) (sp_ServiceInstanceCredentialCreateParameterSchema x) (sp_ServiceClassRef x).
Definition set_sp_ExternalMetadata (v : option RawExtension) (x : ServicePlanSpec) : ServicePlanSpec := Build_ServicePlanSpec (sp_ClusterServiceBrokerName x) (sp_ExternalName x) (sp_ExternalID x) (sp_Description x) (sp_Bindable x) (sp_Free x) v (sp_ServiceInstanceCreateParameterSchema x) (sp_ServiceInstanceUpdateParameterSchema x) (sp_ServiceInstanceCredentialCreateParameterSchema x) (sp_ServiceClassRef x).
Definition set_sp_ServiceInstanceCreateParameterSchema (v : option RawExtension) (x : ServicePlanSpec) : ServicePlanSpec := Build_ServicePlanSpec (sp_ClusterServiceBrokerName x) (sp_ExternalName x) (sp_ExternalID x) (sp_Description x) (sp_Bindable x) (sp_Free x) (sp_ExternalMetadata x) v (sp_ServiceInstanceUpdateParameterSchema x) (sp_ServiceInstanceCredentialCreateParameterSchema x) (sp_ServiceClassRef x).
Definition set_sp_ServiceInstanceUpdateParameterSchema (v : option RawExtension) (x : ServicePlanSpec) : ServicePlanSpec := Build_ServicePlanSpec (sp_ClusterServiceBrokerName x) (sp_ExternalName x) (sp_ExternalID x) (sp_Description x) (sp_Bindable x) (sp_Free x) (sp_ExternalMetadata x) (sp_ServiceInstanceCreateParameterSchema x) v (sp_ServiceInstanceCredentialCreateParameterSchema x) (sp_ServiceClassRef x).
Definition set_sp_ServiceInstanceCredentialCreateParameterSchema (v : option RawExtension) (x : ServicePlanSpec) : ServicePlanSpec := Build_ServicePlanSpec (sp_ClusterServiceBrokerName x) (sp_ExternalName x) (sp_ExternalID x) (sp_Description x) (sp_Bindable x) (sp_Free x) (sp_ExternalMetadata x) (sp_ServiceInstanceCreateParameterSchema x) (sp_ServiceInstanceUpdateParameterSchema x) v (sp_ServiceClassRef x).
Definition set_sp_ServiceClassRef (v : LocalObjectReference) (x : ServicePlanSpec) : ServicePlanSpec := Build_ServicePlanSpec (sp_ClusterServiceBrokerName x) (sp_ExternalName x) (sp_ExternalID x) (sp_Description x) (sp_Bindable x) (sp_Free x) (sp_ExternalMetadata x) (sp_ServiceInstanceCreateParameterSchema x) (sp_ServiceInstanceUpdateParameterSchema x) (sp_ServiceInstanceCredentialCreateParameterSchema x) v.
Definition ServicePlan_zero : ServicePlan := Build_ServicePlan TypeMeta_zero ObjectMeta_zero ServicePlanSpec_zero.
Definition set_sp_TypeMeta (v : TypeMeta) (x : ServicePlan) : ServicePlan := Build_ServicePlan v (sp_Meta x) (sp_Spec x).
Definition set_sp_Kind (v : string) (x : ServicePlan) : ServicePlan := set_sp_TypeMeta (set_Kind v (sp_TypeMeta x)) x.
Definition set_sp_APIVersion (v : string) (x : ServicePlan) : ServicePlan := set_sp_TypeMeta (set_APIVersion v (sp_TypeMeta x)) x.
Definition set_sp_Meta (v : ObjectMeta) (x : ServicePlan) : ServicePlan := Build_ServicePlan (sp_TypeMeta x) v (sp_Spec x).
Definition set_sp_Spec (v : ServicePlanSpec) (x : ServicePlan) : ServicePlan := Build_ServicePlan (sp_TypeMeta x) (sp_Meta x) v.
Definition ServicePlanList_zero : ServicePlanList := Build_ServicePlanList TypeMeta_zero ListMeta_zero [].
Definition set_spl_TypeMeta (v : TypeMeta) (x : ServicePlanList) : ServicePlanList := Build_ServicePlanList v (spl_ListMeta x) (spl_Items x).
Definition set_spl_Kind (v : string) (x : ServicePlanList) : ServicePlanList := set_spl_TypeMeta (set_Kind v (spl_TypeMeta x)) x.
Definition set_spl_APIVersion (v : string) (x : ServicePlanList) : ServicePlanList := set_spl_TypeMeta (set_APIVersion v (spl_TypeMeta x)) x.
Definition set_spl_ListMeta (v : ListMeta) (x : ServicePlanList) : ServicePlanList := Build_ServicePlanList (spl_TypeMeta x) v (spl_Items x).
Definition set_spl_Items (v : list ServicePlan) (x : ServicePlanList) : ServicePlanList := Build_ServicePlanList (spl_TypeMeta x) (spl_ListMeta x) v.
Definition ServiceInstanceSpec_zero : ServiceInstanceSpec := Build_ServiceInstanceSpec "" "" None None None None "" None.
Definition set_ExternalServiceClassName (v : string) (x : ServiceInstanceSpec) : ServiceInstanceSpec := Build_ServiceInstanceSpec v (ExternalServicePlanName x) (ServiceClassRef x) (ServicePlanRef x) (Parameters x) (ParametersFrom x) (ExternalID x) (si_UserInfo x).
Definition set_ExternalServicePlanName (v : string) (x : ServiceInstanceSpec) : ServiceInstanceSpec := Build_ServiceInstanceSpec (ExternalServiceClassName x) v (ServiceClassRef x) (ServicePlanRef x) (Parameters x) (ParametersFrom x) (ExternalID x) (si_UserInfo x).
Definition set_ServiceClassRef (v : option ObjectReference) (x : ServiceInstanceSpec) : ServiceInstanceSpec := Build_ServiceInstanceSpec (ExternalServiceClassName x) (ExternalServicePlanName x) v (ServicePlanRef x) (Parameters x) (ParametersFrom x) (ExternalID x) (si_UserInfo x).
Definition set_ServicePlanRef (v : option ObjectReference) (x : ServiceInstanceSpec) : ServiceInstanceSpec := Build_ServiceInstanceSpec (ExternalServiceClassName x) (ExternalServicePlanName x) (ServiceClassRef x) v (Parameters x) (ParametersFrom x) (ExternalID x) (si_UserInfo x).
Definition set_Parameters (v : option RawExtension) (x : ServiceInstanceSpec) : ServiceInstanceSpec := Build_ServiceInstanceSpec (ExternalServiceClassName x) (ExternalServicePlanName x) (ServiceClassRef x) (ServicePlanRef x) v (ParametersFrom x) (ExternalID x) (si_UserInfo x).
Definition set_ParametersFrom (v : option (list ParametersFromSource)) (x : ServiceInstanceSpec) : ServiceInstanceSpec := Build_ServiceInstanceSpec (ExternalServiceClassName x) (ExternalServicePlanName x) (ServiceClassRef x) (ServicePlanRef x) (Parameters x) v (ExternalID x) (si_UserInfo x).
Definition set_ExternalID (v : string) (x : ServiceInstanceSpec) : ServiceInstanceSpec := Build_ServiceInstanceSpec (ExternalServiceClassName x) (ExternalServicePlanName x) (ServiceClassRef x) (ServicePlanRef x) (Parameters x) (ParametersFrom x) v (si_UserInfo x).
Definition set_si_UserInfo (v : option UserInfo) (x : ServiceInstanceSpec) : ServiceInstanceSpec := Build_ServiceInstanceSpec (ExternalServiceClassName x) (ExternalServicePlanName x) (ServiceClassRef x) (ServicePlanRef x) (Parameters x) (ParametersFrom x) (ExternalID x) v.
Definition ServiceInstancePropertiesState_zero : ServiceInstancePropertiesState := Build_ServiceInstancePropertiesState "" None "" None.
Definition set_ps_ExternalServicePlanName (v : string) (x : ServiceInstancePropertiesState) : ServiceInstancePropertiesState := Build_ServiceInstancePropertiesState v (ps_Parameters x) (ps_ParametersChecksum x) (ps_UserInfo x).
Definition set_ps_Parameters (v : option RawExtension) (x : ServiceInstancePropertiesState) : ServiceInstancePropertiesState := Build_ServiceInstancePropertiesState (ps_ExternalServicePlanName x) v (ps_ParametersChecksum x) (ps_UserInfo x).
Definition set_ps_ParametersChecksum (v : string) (x : ServiceInstancePropertiesState) : ServiceInstancePropertiesState := Build_ServiceInstancePropertiesState (ps_ExternalServicePlanName x) (ps_Parameters x) v (ps_UserInfo x).
Definition set_ps_UserInfo (v : option UserInfo) (x : ServiceInstancePropertiesState) : ServiceInstancePropertiesState := Build_ServiceInstancePropertiesState (ps_ExternalServicePlanName x) (ps_Parameters x) (ps_ParametersChecksum x) v.
Definition ServiceInstanceCondition_zero : ServiceInstanceCondition := Build_ServiceInstanceCondition (ConditionType_of_string "") (ConditionStatus_of_string "") 0 "" "".
Definition ServiceInstanceStatus_zero : ServiceInstanceStatus := Build_ServiceInstanceStatus [] false false None None (ServiceInstanceOperation_of_string "") 0 None None None.
Definition set_Conditions (v : list ServiceInstanceCondition) (x : ServiceInstanceStatus) : ServiceInstanceStatus := Build_ServiceInstanceStatus v (AsyncOpInProgress x) (OrphanMitigationInProgress x) (LastOperation x) (DashboardURL x) (CurrentOperation x) (ReconciledGeneration x) (OperationStartTime x) (InProgressProperties x) (ExternalProperties x).
Definition set_AsyncOpInProgress (v : bool) (x : ServiceInstanceStatus) : ServiceInstanceStatus := Build_ServiceInstanceStatus (Conditions x) v (OrphanMitigationInProgress x) (LastOperation x) (DashboardURL x) (CurrentOperation x) (ReconciledGeneration x) (OperationStartTime x) (InProgressProperties x) (ExternalProperties x).
Definition set_OrphanMitigationInProgress (v : bool) (x : ServiceInstanceStatus) : ServiceInstanceStatus := Build_ServiceInstanceStatus (Conditions x) (AsyncOpInProgress x) v (LastOperation x) (DashboardURL x) (CurrentOperation x) (ReconciledGeneration x) (OperationStartTime x) (InProgressProperties x) (ExternalProperties x).
Definition set_LastOperation (v : option string) (x : ServiceInstanceStatus) : ServiceInstanceStatus := Build_ServiceInstanceStatus (Conditions x) (AsyncOpInProgress x) (OrphanMitigationInProgress x) v (DashboardURL x) (CurrentOperation x) (ReconciledGeneration x) (OperationStartTime x) (InProgressProperties x) (ExternalProperties x).
Definition set_DashboardURL (v : option string) (x : ServiceInstanceStatus) : ServiceInstanceStatus := Build_ServiceInstanceStatus (Conditions x) (AsyncOpInProgress x) (OrphanMitigationInProgress x) (LastOperation x) v (CurrentOperation x) (ReconciledGeneration x) (OperationStartTime x) (InProgressProperties x) (ExternalProperties x).
Definition set_CurrentOperation (v : ServiceInstanceOperation) (x : ServiceInstanceStatus) : ServiceInstanceStatus := Build_ServiceInstanceStatus (Conditions x) (AsyncOpInProgress x) (OrphanMitigationInProgress x) (LastOperation x) (DashboardURL x) v (ReconciledGeneration x) (OperationStartTime x) (InProgressProperties x) (ExternalProperties x).
Definition set_ReconciledGeneration (v : Z) (x : ServiceInstanceStatus) : ServiceInstanceStatus := Build_ServiceInstanceStatus (Conditions x) (AsyncOpInProgress x) (OrphanMitigationInProgress x) (LastOperation x) (DashboardURL x) (CurrentOperation x) v (OperationStartTime x) (InProgressProperties x) (ExternalProperties x).
Definition set_OperationStartTime (v : option Z) (x : ServiceInstanceStatus) : ServiceInstanceStatus := Build_ServiceInstanceStatus (Conditions x) (AsyncOpInProgress x) (OrphanMitigationInProgress x) (LastOperation x) (DashboardURL x) (CurrentOperation x) (ReconciledGeneration x) v (InProgressProperties x) (ExternalProperties x).
Definition set_InProgressProperties (v : option ServiceInstancePropertiesState) (x : ServiceInstanceStatus) : ServiceInstanceStatus := Build_ServiceInstanceStatus (Conditions x) (AsyncOpInProgress x) (OrphanMitigationInProgress x) (LastOperation x) (DashboardURL x) (CurrentOperation x) (ReconciledGeneration x) (OperationStartTime x) v (ExternalProperties x).
Definition set_ExternalProperties (v : option ServiceInstancePropertiesState) (x : ServiceInstanceStatus) : ServiceInstanceStatus := Build_ServiceInstanceStatus (Conditions x) (AsyncOpInProgress x) (OrphanMitigationInProgress x) (LastOperation x) (DashboardURL x) (CurrentOperation x) (ReconciledGeneration x) (OperationStartTime x) (InProgressProperties x) v.
Definition ServiceInstance_zero : ServiceInstance := Build_ServiceInstance TypeMeta_zero ObjectMeta_zero ServiceInstanceSpec_zero ServiceInstanceStatus_zero.
Definition set_si_TypeMeta (v : TypeMeta) (x : ServiceInstance) : ServiceInstance := Build_ServiceInstance v (si_Meta x) (si_Spec x) (si_Status x).
Definition set_si_Kind (v : string) (x : ServiceInstance) : ServiceInstance := set_si_TypeMeta (set_Kind v (si_TypeMeta x)) x.
Definition set_si_APIVersion (v : string) (x : ServiceInstance) : ServiceInstance := set_si_TypeMeta (set_APIVersion v (si_TypeMeta x)) x.
Definition set_si_Meta (v : ObjectMeta) (x : ServiceInstance) : ServiceInstance := Build_ServiceInstance (si_TypeMeta x) v (si_Spec x) (si_Status x).
Definition set_si_Spec (v : ServiceInstanceSpec) (x : ServiceInstance) : ServiceInstance := Build_ServiceInstance (si_TypeMeta x) (si_Meta x) v (si_Status x).
Definition set_si_Status (v : ServiceInstanceStatus) (x : ServiceInstance) : ServiceInstance := Build_ServiceInstance (si_TypeMeta x) (si_Meta x) (si_Spec x) v.
Definition ServiceInstanceList_zero : ServiceInstanceList := Build_ServiceInstanceList TypeMeta_zero ListMeta_zero [].
Definition set_sil_TypeMeta (v : TypeMeta) (x : ServiceInstanceList) : ServiceInstanceList := Build_ServiceInstanceList v (sil_ListMeta x) (sil_Items x).
Definition set_sil_Kind (v : string) (x : ServiceInstanceList) : ServiceInstanceList := set_sil_TypeMeta (set_Kind v (sil_TypeMeta x)) x.
Definition set_sil_APIVersion (v : string) (x : ServiceInstanceList) : ServiceInstanceList := set_sil_TypeMeta (set_APIVersion v (sil_TypeMeta x)) x.
Definition set_sil_ListMeta (v : ListMeta) (x : ServiceInstanceList) : ServiceInstanceList := Build_ServiceInstanceList (sil_TypeMeta x) v (sil_Items x).
Definition set_sil_Items (v : list ServiceInstance) (x : ServiceInstanceList) : ServiceInstanceList := Build_ServiceInstanceList (sil_TypeMeta x) (sil_ListMeta x) v.
Definition ServiceInstanceCredentialSpec_zero : ServiceInstanceCredentialSpec := Build_ServiceInstanceCredentialSpec LocalObjectReference_zero None None "" "" None.
Definition set_ServiceInstanceRef (v : LocalObjectReference) (x : ServiceInstanceCredentialSpec) : ServiceInstanceCredentialSpec := Build_ServiceInstanceCredentialSpec v (bind_Parameters x) (bind_ParametersFrom x) (SecretName x) (bind_ExternalID x) (bind_UserInfo x).
Definition set_bind_Parameters (v : option RawExtension) (x : ServiceInstanceCredentialSpec) : ServiceInstanceCredentialSpec := Build_ServiceInstanceCredentialSpec (ServiceInstanceRef x) v (bind_ParametersFrom x) (SecretName x) (bind_ExternalID x) (bind_UserInfo x).
Definition set_bind_ParametersFrom (v : option (list ParametersFromSource)) (x : ServiceInstanceCredentialSpec) : ServiceInstanceCredentialSpec := Build_ServiceInstanceCredentialSpec (ServiceInstanceRef x) (bind_Parameters x) v (SecretName x) (bind_ExternalID x) (bind_UserInfo x).
Definition set_SecretName (v : string) (x : ServiceInstanceCredentialSpec) : ServiceInstanceCredentialSpec := Build_ServiceInstanceCredentialSpec (ServiceInstanceRef x) (bind_Parameters x) (bind_ParametersFrom x) v (bind_ExternalID x) (bind_UserInfo x).
Definition set_bind_ExternalID (v : string) (x : ServiceInstanceCredentialSpec) : ServiceInstanceCredentialSpec := Build_ServiceInstanceCredentialSpec (ServiceInstanceRef x) (bind_Parameters x) (bind_ParametersFrom x) (SecretName x) v (bind_UserInfo x).
Definition set_bind_UserInfo (v : option UserInfo) (x : ServiceInstanceCredentialSpec) : ServiceInstanceCredentialSpec := Build_ServiceInstanceCredentialSpec (ServiceInstanceRef x) (bind_Parameters x) (bind_ParametersFrom x) (SecretName x) (bind_ExternalID x) v.
Definition ServiceInstanceCredentialPropertiesState_zero : ServiceInstanceCredentialPropertiesState := Build_ServiceInstanceCredentialPropertiesState None "" None.
Definition set_bps_Parameters (v : option RawExtension) (x : ServiceInstanceCredentialPropertiesState) : ServiceInstanceCredentialPropertiesState := Build_ServiceInstanceCredentialPropertiesState v (bps_ParametersChecksum x) (bps_UserInfo x).
Definition set_bps_ParametersChecksum (v : string) (x : ServiceInstanceCredentialPropertiesState) : ServiceInstanceCredentialPropertiesState := Build_ServiceInstanceCredentialPropertiesState (bps_Parameters x) v (bps_UserInfo x).
Definition set_bps_UserInfo (v : option UserInfo) (x : ServiceInstanceCredentialPropertiesState) : ServiceInstanceCredentialPropertiesState := Build_ServiceInstanceCredentialPropertiesState (bps_Parameters x) (bps_ParametersChecksum x) v.
Definition ServiceInstanceCredentialCondition_zero : ServiceInstanceCredentialCondition := Build_ServiceInstanceCondition (ConditionType_of_string "") (ConditionStatus_of_string "") 0 "" "".
Definition ServiceInstanceCredentialStatus_zero : ServiceInstanceCredentialStatus := Build_ServiceInstanceCredentialStatus [] (ServiceInstanceCredentialOperation_of_string "") 0 None None None false.
Definition set_bind_Conditions (v : list ServiceInstanceCredentialCondition) (x : ServiceInstanceCredentialStatus) : ServiceInstanceCredentialStatus := Build_ServiceInstanceCredentialStatus v (bind_CurrentOperation x) (bind_ReconciledGeneration x) (bind_OperationStartTime x) (bind_InProgressProperties x) (bind_ExternalProperties x) (bind_OrphanMitigationInProgress x).
Definition set_bind_CurrentOperation (v : ServiceInstanceCredentialOperation) (x : ServiceInstanceCredentialStatus) : ServiceInstanceCredentialStatus := Build_ServiceInstanceCredentialStatus (bind_Conditions x) v (bind_ReconciledGeneration x) (bind_OperationStartTime x) (bind_InProgressProperties x) (bind_ExternalProperties x) (bind_OrphanMitigationInProgress x).
Definition set_bind_ReconciledGeneration (v : Z) (x : ServiceInstanceCredentialStatus) : ServiceInstanceCredentialStatus := Build_ServiceInstanceCredentialStatus (bind_Conditions x) (bind_CurrentOperation x) v (bind_OperationStartTime x) (bind_InProgressProperties x) (bind_ExternalProperties x) (bind_OrphanMitigationInProgress x).
Definition set_bind_OperationStartTime (v : option Z) (x : ServiceInstanceCredentialStatus) : ServiceInstanceCredentialStatus := Build_ServiceInstanceCredentialStatus (bind_Conditions x) (bind_CurrentOperation x) (bind_ReconciledGeneration x) v (bind_InProgressProperties x) (bind_ExternalProperties x) (bind_OrphanMitigationInProgress x).
Definition set_bind_InProgressProperties (v : option ServiceInstanceCredentialPropertiesState) (x : ServiceInstanceCredentialStatus) : ServiceInstanceCredentialStatus := Build_ServiceInstanceCredentialStatus (bind_Conditions x) (bind_CurrentOperation x) (bind_ReconciledGeneration x) (bind_OperationStartTime x) v (bind_ExternalProperties x) (bind_OrphanMitigationInProgress x).
Definition set_bind_ExternalProperties (v : option ServiceInstanceCredentialPropertiesState) (x : ServiceInstanceCredentialStatus) : ServiceInstanceCredentialStatus := Build_ServiceInstanceCredentialStatus (bind_Conditions x) (bind_CurrentOperation x) (bind_ReconciledGeneration x) (bind_OperationStartTime x) (bind_InProgressProperties x) v (bind_OrphanMitigationInProgress x).
Definition set_bind_OrphanMitigationInProgress (v : bool) (x : ServiceInstanceCredentialStatus) : ServiceInstanceCredentialStatus := Build_ServiceInstanceCredentialStatus (bind_Conditions x) (bind_CurrentOperation x) (bind_ReconciledGeneration x) (bind_OperationStartTime x) (bind_InProgressProperties x) (bind_ExternalProperties x) v.
Definition ServiceInstanceCredential_zero : ServiceInstanceCredential := Build_ServiceInstanceCredential TypeMeta_zero ObjectMeta_zero ServiceInstanceCredentialSpec_zero ServiceInstanceCredentialStatus_zero.
Definition set_bind_TypeMeta (v : TypeMeta) (x : ServiceInstanceCredential) : ServiceInstanceCredential := Build_ServiceInstanceCredential v (bind_Meta x) (bind_Spec x) (bind_Status x).
Definition set_bind_Kind (v : string) (x : ServiceInstanceCredential) : ServiceInstanceCredential := set_bind_TypeMeta (set_Kind v (bind_TypeMeta x)) x.
Definition set_bind_APIVersion (v : string) (x : ServiceInstanceCredential) : ServiceInstanceCredential := set_bind_TypeMeta (set_APIVersion v (bind_TypeMeta x)) x.
Definition set_bind_Meta (v : ObjectMeta) (x : ServiceInstanceCredential) : ServiceInstanceCredential := Build_ServiceInstanceCredential (bind_TypeMeta x) v (bind_Spec x) (bind_Status x).
Definition set_bind_Spec (v : ServiceInstanceCredentialSpec) (x : ServiceInstanceCredential) : ServiceInstanceCredential := Build_ServiceInstanceCredential (bind_TypeMeta x) (bind_Meta x) v (bind_Status x).
Definition set_bind_Status (v : ServiceInstanceCredentialStatus) (x : ServiceInstanceCredential) : ServiceInstanceCredential := Build_ServiceInstanceCredential (bind_TypeMeta x) (bind_Meta x) (bind_Spec x) v.
Definition ServiceInstanceCredentialList_zero : ServiceInstanceCredentialList := Build_ServiceInstanceCredentialList TypeMeta_zero ListMeta_zero [].
Definition set_sicl_TypeMeta (v : TypeMeta) (x : ServiceInstanceCredentialList) : ServiceInstanceCredentialList := Build_ServiceInstanceCredentialList v (sicl_ListMeta x) (sicl_Items x).
Definition set_sicl_Kind (v : string) (x : ServiceInstanceCredentialList) : ServiceInstanceCredentialList := set_sicl_TypeMeta (set_Kind v (sicl_TypeMeta x)) x.
Definition set_sicl_APIVersion (v : string) (x : ServiceInstanceCredentialList) : ServiceInstanceCredentialList := set_sicl_TypeMeta (set_APIVersion v (sicl_TypeMeta x)) x.
Definition set_sicl_ListMeta (v : ListMeta) (x : ServiceInstanceCredentialList) : ServiceInstanceCredentialList := Build_ServiceInstanceCredentialList (sicl_TypeMeta x) v (sicl_Items x).
Definition set_sicl_Items (v : list ServiceInstanceCredential) (x : ServiceInstanceCredentialList) : ServiceInstanceCredentialList := Build_ServiceInstanceCredentialList (sicl_TypeMeta x) (sicl_ListMeta x) v.
