(* ===== verification/ApiCodec.v ===== *)
(** * The generated codec of the API objects

    [pkg/apis/servicecatalog/v1alpha1/types.generated.go]: for every structure
    [T] the four methods that write and read it, for every slice and map the
    helpers [encSlice..], [decSlice..].  The encoder lists the fields with their
    presence flags; the decoder has its own list of keys for an object and of
    positions for an array.  [h] is the handle of the encoder. *)

From S2P Require Import Prelude Types Selfer Fields.

Section codec.
Context {M : Machinery}.

(** ** Enumerations and slices of strings *)

Definition ServiceBrokerRelistBehavior_CodecEncodeSelf (x : ServiceBrokerRelistBehavior) : option json := EncodeString (ServiceBrokerRelistBehavior_string x).
Definition ServiceBrokerRelistBehavior_CodecDecodeSelf : reader ServiceBrokerRelistBehavior := fun v x => ServiceBrokerRelistBehavior_of_string <$> DecodeString v (ServiceBrokerRelistBehavior_string x).
Definition ServiceBrokerConditionType_CodecEncodeSelf (x : ConditionType) : option json := EncodeString (ConditionType_string x).
Definition ServiceBrokerConditionType_CodecDecodeSelf : reader ConditionType := fun v x => ConditionType_of_string <$> DecodeString v (ConditionType_string x).
Definition ConditionStatus_CodecEncodeSelf (x : ConditionStatus) : option json := EncodeString (ConditionStatus_string x).
Definition ConditionStatus_CodecDecodeSelf : reader ConditionStatus := fun v x => ConditionStatus_of_string <$> DecodeString v (ConditionStatus_string x).
Definition ServiceInstanceConditionType_CodecEncodeSelf (x : ConditionType) : option json := EncodeString (ConditionType_string x).
Definition ServiceInstanceConditionType_CodecDecodeSelf : reader ConditionType := fun v x => ConditionType_of_string <$> DecodeString v (ConditionType_string x).
Definition ServiceInstanceOperation_CodecEncodeSelf (x : ServiceInstanceOperation) : option json := EncodeString (ServiceInstanceOperation_string x).
Definition ServiceInstanceOperation_CodecDecodeSelf : reader ServiceInstanceOperation := fun v x => ServiceInstanceOperation_of_string <$> DecodeString v (ServiceInstanceOperation_string x).
Definition ServiceInstanceCredentialConditionType_CodecEncodeSelf (x : ConditionType) : option json := EncodeString (ConditionType_string x).
Definition ServiceInstanceCredentialConditionType_CodecDecodeSelf : reader ConditionType := fun v x => ConditionType_of_string <$> DecodeString v (ConditionType_string x).
Definition ServiceInstanceCredentialOperation_CodecEncodeSelf (x : ServiceInstanceCredentialOperation) : option json := EncodeString (ServiceInstanceCredentialOperation_string x).
Definition ServiceInstanceCredentialOperation_CodecDecodeSelf : reader ServiceInstanceCredentialOperation := fun v x => ServiceInstanceCredentialOperation_of_string <$> DecodeString v (ServiceInstanceCredentialOperation_string x).

(** [z.F.EncSliceStringV], [z.F.DecSliceStringX]. *)
Definition EncSliceString (v : list string) : option json := EncodeArray EncodeString v.
Definition DecSliceString : reader (list string) := DecodeSlice "" DecodeString.

Definition encExtraValue (v : list string) : option json := EncodeArray EncodeString v.
Definition decExtraValue : reader (list string) := DecodeSlice "" (or_nil "" DecodeString).
Definition ExtraValue_CodecEncodeSelf (x : list string) : option json := EncodeSlice encExtraValue x.
Definition ExtraValue_CodecDecodeSelf : reader (list string) := decExtraValue.
Definition encMapstringExtraValue (v : gmap string (list string)) : option json :=
  EncodeMembers (EncodeSlice ExtraValue_CodecEncodeSelf) (range v).
Definition decMapstringExtraValue : reader (gmap string (list string)) :=
  DecodeMap [] (or_nil [] ExtraValue_CodecDecodeSelf).

(** ** SecretKeyReference *)

Definition SecretKeyReference_CodecEncodeSelf (h : Handle) (x : SecretKeyReference) : option json :=
  EncodeStruct h
    [always "name" (EncodeString (skr_Name x));
     always "key" (EncodeString (skr_Key x))].

Definition SecretKeyReference_codecDecodeSelfFromMap : list (string * json) -> SecretKeyReference -> option SecretKeyReference :=
  DecodeMembers
    [("name", into skr_Name set_skr_Name (or_nil "" DecodeString));
     ("key", into skr_Key set_skr_Key (or_nil "" DecodeString))].

Definition SecretKeyReference_codecDecodeSelfFromArray : list json -> SecretKeyReference -> option SecretKeyReference :=
  DecodeElements
    [into skr_Name set_skr_Name (or_nil "" DecodeString);
     into skr_Key set_skr_Key (or_nil "" DecodeString)].

Definition SecretKeyReference_CodecDecodeSelf : reader SecretKeyReference :=
  DecodeStruct SecretKeyReference_codecDecodeSelfFromMap SecretKeyReference_codecDecodeSelfFromArray.

(** ** ParametersFromSource *)

Definition ParametersFromSource_CodecEncodeSelf (h : Handle) (x : ParametersFromSource) : option json :=
  EncodeStruct h
    [omitempty "secretKeyRef" (not_nil (pfs_SecretKeyRef x)) (EncodePtr (SecretKeyReference_CodecEncodeSelf h) (pfs_SecretKeyRef x)) JNull].

Definition ParametersFromSource_codecDecodeSelfFromMap : list (string * json) -> ParametersFromSource -> option ParametersFromSource :=
  DecodeMembers
    [("secretKeyRef", into pfs_SecretKeyRef set_pfs_SecretKeyRef (or_nil_ptr SecretKeyReference_zero SecretKeyReference_CodecDecodeSelf))].

Definition ParametersFromSource_codecDecodeSelfFromArray : list json -> ParametersFromSource -> option ParametersFromSource :=
  DecodeElements
    [into pfs_SecretKeyRef set_pfs_SecretKeyRef (or_nil_ptr SecretKeyReference_zero SecretKeyReference_CodecDecodeSelf)].

Definition ParametersFromSource_CodecDecodeSelf : reader ParametersFromSource :=
  DecodeStruct ParametersFromSource_codecDecodeSelfFromMap ParametersFromSource_codecDecodeSelfFromArray.

Definition encSliceParametersFromSource (h : Handle) (v : list ParametersFromSource) : option json := EncodeArray (ParametersFromSource_CodecEncodeSelf h) v.
Definition decSliceParametersFromSource : reader (list ParametersFromSource) := DecodeSlice ParametersFromSource_zero (or_nil ParametersFromSource_zero ParametersFromSource_CodecDecodeSelf).

(** ** UserInfo *)

Definition UserInfo_CodecEncodeSelf (h : Handle) (x : UserInfo) : option json :=
  EncodeStruct h
    [always "username" (EncodeString (ui_Username x));
     always "uid" (EncodeString (ui_UID x));
     omitempty "groups" (slice_elements (ui_Groups x)) (EncodePtr EncSliceString (ui_Groups x)) JNull;
     omitempty "extra" (has_elements (map_to_list (ui_Extra x))) (encMapstringExtraValue (ui_Extra x)) JNull].

Definition UserInfo_codecDecodeSelfFromMap : list (string * json) -> UserInfo -> option UserInfo :=
  DecodeMembers
    [("username", into ui_Username set_ui_Username (or_nil "" DecodeString));
     ("uid", into ui_UID set_ui_UID (or_nil "" DecodeString));
     ("groups", into ui_Groups set_ui_Groups (or_nil_slice DecSliceString));
     ("extra", into ui_Extra set_ui_Extra (or_nil ∅ decMapstringExtraValue))].

Definition UserInfo_codecDecodeSelfFromArray : list json -> UserInfo -> option UserInfo :=
  DecodeElements
    [into ui_Username set_ui_Username (or_nil "" DecodeString);
     into ui_UID set_ui_UID (or_nil "" DecodeString);
     into ui_Groups set_ui_Groups (or_nil_slice DecSliceString);
     into ui_Extra set_ui_Extra (or_nil ∅ decMapstringExtraValue)].

Definition UserInfo_CodecDecodeSelf : reader UserInfo :=
  DecodeStruct UserInfo_codecDecodeSelfFromMap UserInfo_codecDecodeSelfFromArray.

(** ** BasicAuthConfig *)

Definition BasicAuthConfig_CodecEncodeSelf (h : Handle) (x : BasicAuthConfig) : option json :=
  EncodeStruct h
    [omitempty "secretRef" (not_nil (bac_SecretRef x)) (EncodePtr (EncodeForeign ObjectReference_json) (bac_SecretRef x)) JNull].

Definition BasicAuthConfig_codecDecodeSelfFromMap : list (string * json) -> BasicAuthConfig -> option BasicAuthConfig :=
  DecodeMembers
    [("secretRef", into bac_SecretRef set_bac_SecretRef (or_nil_ptr ObjectReference_zero (foreign_dec ObjectReference_json)))].

Definition BasicAuthConfig_codecDecodeSelfFromArray : list json -> BasicAuthConfig -> option BasicAuthConfig :=
  DecodeElements
    [into bac_SecretRef set_bac_SecretRef (or_nil_ptr ObjectReference_zero (foreign_dec ObjectReference_json))].

Definition BasicAuthConfig_CodecDecodeSelf : reader BasicAuthConfig :=
  DecodeStruct BasicAuthConfig_codecDecodeSelfFromMap BasicAuthConfig_codecDecodeSelfFromArray.

(** ** BearerTokenAuthConfig *)

Definition BearerTokenAuthConfig_CodecEncodeSelf (h : Handle) (x : BearerTokenAuthConfig) : option json :=
  EncodeStruct h
    [omitempty "secretRef" (not_nil (btac_SecretRef x)) (EncodePtr (EncodeForeign ObjectReference_json) (btac_SecretRef x)) JNull].

Definition BearerTokenAuthConfig_codecDecodeSelfFromMap : list (string * json) -> BearerTokenAuthConfig -> option BearerTokenAuthConfig :=
  DecodeMembers
    [("secretRef", into btac_SecretRef set_btac_SecretRef (or_nil_ptr ObjectReference_zero (foreign_dec ObjectReference_json)))].

Definition BearerTokenAuthConfig_codecDecodeSelfFromArray : list json -> BearerTokenAuthConfig -> option BearerTokenAuthConfig :=
  DecodeElements
    [into btac_SecretRef set_btac_SecretRef (or_nil_ptr ObjectReference_zero (foreign_dec ObjectReference_json))].

Definition BearerTokenAuthConfig_CodecDecodeSelf : reader BearerTokenAuthConfig :=
  DecodeStruct BearerTokenAuthConfig_codecDecodeSelfFromMap BearerTokenAuthConfig_codecDecodeSelfFromArray.

(** ** ServiceBrokerAuthInfo *)

Definition ServiceBrokerAuthInfo_CodecEncodeSelf (h : Handle) (x : ServiceBrokerAuthInfo) : option json :=
  EncodeStruct h
    [omitempty "basic" (not_nil (Basic x)) (EncodePtr (BasicAuthConfig_CodecEncodeSelf h) (Basic x)) JNull;
     omitempty "bearer" (not_nil (Bearer x)) (EncodePtr (BearerTokenAuthConfig_CodecEncodeSelf h) (Bearer x)) JNull;
     omitempty "basicAuthSecret" (not_nil (BasicAuthSecret x)) (EncodePtr (EncodeForeign ObjectReference_json) (BasicAuthSecret x)) JNull].

Definition ServiceBrokerAuthInfo_codecDecodeSelfFromMap : list (string * json) -> ServiceBrokerAuthInfo -> option ServiceBrokerAuthInfo :=
  DecodeMembers
    [("basic", into Basic set_Basic (or_nil_ptr BasicAuthConfig_zero BasicAuthConfig_CodecDecodeSelf));
     ("bearer", into Bearer set_Bearer (or_nil_ptr BearerTokenAuthConfig_zero BearerTokenAuthConfig_CodecDecodeSelf));
     ("basicAuthSecret", into BasicAuthSecret set_BasicAuthSecret (or_nil_ptr ObjectReference_zero (foreign_dec ObjectReference_json)))].

Definition ServiceBrokerAuthInfo_codecDecodeSelfFromArray : list json -> ServiceBrokerAuthInfo -> option ServiceBrokerAuthInfo :=
  DecodeElements
    [into Basic set_Basic (or_nil_ptr BasicAuthConfig_zero BasicAuthConfig_CodecDecodeSelf);
     into Bearer set_Bearer (or_nil_ptr BearerTokenAuthConfig_zero BearerTokenAuthConfig_CodecDecodeSelf);
     into BasicAuthSecret set_BasicAuthSecret (or_nil_ptr ObjectReference_zero (foreign_dec ObjectReference_json))].

Definition ServiceBrokerAuthInfo_CodecDecodeSelf : reader ServiceBrokerAuthInfo :=
  DecodeStruct ServiceBrokerAuthInfo_codecDecodeSelfFromMap ServiceBrokerAuthInfo_codecDecodeSelfFromArray.

(** ** ClusterServiceBrokerSpec *)

Definition ClusterServiceBrokerSpec_CodecEncodeSelf (h : Handle) (x : ClusterServiceBrokerSpec) : option json :=
  EncodeStruct h
    [always "url" (EncodeString (URL x));
     omitempty "authInfo" (not_nil (AuthInfo x)) (EncodePtr (ServiceBrokerAuthInfo_CodecEncodeSelf h) (AuthInfo x)) JNull;
     omitempty "insecureSkipTLSVerify" (InsecureSkipTLSVerify x) (EncodeBool (InsecureSkipTLSVerify x)) (JBool false);
     omitempty "caBundle" (non_empty (CABundle x)) (EncodeBytes (CABundle x)) JNull;
     always "relistBehavior" (ServiceBrokerRelistBehavior_CodecEncodeSelf (RelistBehavior x));
     omitempty "relistDuration" (not_nil (RelistDuration x)) (EncodePtr (EncodeForeign Duration_json) (RelistDuration x)) JNull;
     always "relistRequests" (EncodeInt (RelistRequests x))].

Definition ClusterServiceBrokerSpec_codecDecodeSelfFromMap : list (string * json) -> ClusterServiceBrokerSpec -> option ClusterServiceBrokerSpec :=
  DecodeMembers
    [("url", into URL set_URL (or_nil "" DecodeString));
     ("authInfo", into AuthInfo set_AuthInfo (or_nil_ptr ServiceBrokerAuthInfo_zero ServiceBrokerAuthInfo_CodecDecodeSelf));
     ("insecureSkipTLSVerify", into InsecureSkipTLSVerify set_InsecureSkipTLSVerify (or_nil false DecodeBool));
     ("caBundle", into CABundle set_CABundle (or_nil "" DecodeBytes));
     ("relistBehavior", into RelistBehavior set_RelistBehavior (or_nil (ServiceBrokerRelistBehavior_of_string "") ServiceBrokerRelistBehavior_CodecDecodeSelf));
     ("relistDuration", into RelistDuration set_RelistDuration (or_nil_ptr 0 (foreign_dec Duration_json)));
     ("relistRequests", into RelistRequests set_RelistRequests (or_nil 0 DecodeInt))].

Definition ClusterServiceBrokerSpec_codecDecodeSelfFromArray : list json -> ClusterServiceBrokerSpec -> option ClusterServiceBrokerSpec :=
  DecodeElements
    [into URL set_URL (or_nil "" DecodeString);
     into AuthInfo set_AuthInfo (or_nil_ptr ServiceBrokerAuthInfo_zero ServiceBrokerAuthInfo_CodecDecodeSelf);
     into InsecureSkipTLSVerify set_InsecureSkipTLSVerify (or_nil false DecodeBool);
     into CABundle set_CABundle (or_nil "" DecodeBytes);
     into RelistBehavior set_RelistBehavior (or_nil (ServiceBrokerRelistBehavior_of_string "") ServiceBrokerRelistBehavior_CodecDecodeSelf);
     into RelistDuration set_RelistDuration (or_nil_ptr 0 (foreign_dec Duration_json));
     into RelistRequests set_RelistRequests (or_nil 0 DecodeInt)].

Definition ClusterServiceBrokerSpec_CodecDecodeSelf : reader ClusterServiceBrokerSpec :=
  DecodeStruct ClusterServiceBrokerSpec_codecDecodeSelfFromMap ClusterServiceBrokerSpec_codecDecodeSelfFromArray.

(** ** ServiceBrokerCondition *)

Definition ServiceBrokerCondition_CodecEncodeSelf (h : Handle) (x : ServiceBrokerCondition) : option json :=
  EncodeStruct h
    [always "type" (ServiceBrokerConditionType_CodecEncodeSelf (cond_Type x));
     always "status" (ConditionStatus_CodecEncodeSelf (cond_Status x));
     always "lastTransitionTime" (EncodeForeign Time_json (cond_LastTransitionTime x));
     always "reason" (EncodeString (cond_Reason x));
     always "message" (EncodeString (cond_Message x))].

Definition ServiceBrokerCondition_codecDecodeSelfFromMap : list (string * json) -> ServiceBrokerCondition -> option ServiceBrokerCondition :=
  DecodeMembers
    [("type", into cond_Type set_cond_Type (or_nil (ConditionType_of_string "") ServiceBrokerConditionType_CodecDecodeSelf));
     ("status", into cond_Status set_cond_Status (or_nil (ConditionStatus_of_string "") ConditionStatus_CodecDecodeSelf));
     ("lastTransitionTime", into cond_LastTransitionTime set_cond_LastTransitionTime (or_nil 0 (foreign_dec Time_json)));
     ("reason", into cond_Reason set_cond_Reason (or_nil "" DecodeString));
     ("message", into cond_Message set_cond_Message (or_nil "" DecodeString))].

Definition ServiceBrokerCondition_codecDecodeSelfFromArray : list json -> ServiceBrokerCondition -> option ServiceBrokerCondition :=
  DecodeElements
    [into cond_Type set_cond_Type (or_nil (ConditionType_of_string "") ServiceBrokerConditionType_CodecDecodeSelf);
     into cond_Status set_cond_Status (or_nil (ConditionStatus_of_string "") ConditionStatus_CodecDecodeSelf);
     into cond_LastTransitionTime set_cond_LastTransitionTime (or_nil 0 (foreign_dec Time_json));
     into cond_Reason set_cond_Reason (or_nil "" DecodeString);
     into cond_Message set_cond_Message (or_nil "" DecodeString)].

Definition ServiceBrokerCondition_CodecDecodeSelf : reader ServiceBrokerCondition :=
  DecodeStruct ServiceBrokerCondition_codecDecodeSelfFromMap ServiceBrokerCondition_codecDecodeSelfFromArray.

Definition encSliceServiceBrokerCondition (h : Handle) (v : list ServiceBrokerCondition) : option json := EncodeArray (ServiceBrokerCondition_CodecEncodeSelf h) v.
Definition decSliceServiceBrokerCondition : reader (list ServiceBrokerCondition) := DecodeSlice ServiceBrokerCondition_zero (or_nil ServiceBrokerCondition_zero ServiceBrokerCondition_CodecDecodeSelf).

(** ** ServiceBrokerStatus *)

Definition ServiceBrokerStatus_CodecEncodeSelf (h : Handle) (x : ServiceBrokerStatus) : option json :=
  EncodeStruct h
    [always "conditions" (EncodeSlice (encSliceServiceBrokerCondition h) (bs_Conditions x));
     always "reconciledGeneration" (EncodeInt (bs_ReconciledGeneration x));
     omitempty "operationStartTime" (not_nil (bs_OperationStartTime x)) (EncodePtr (EncodeForeign Time_json) (bs_OperationStartTime x)) JNull].

Definition ServiceBrokerStatus_codecDecodeSelfFromMap : list (string * json) -> ServiceBrokerStatus -> option ServiceBrokerStatus :=
  DecodeMembers
    [("conditions", into bs_Conditions set_bs_Conditions (or_nil [] decSliceServiceBrokerCondition));
     ("reconciledGeneration", into bs_ReconciledGeneration set_bs_ReconciledGeneration (or_nil 0 DecodeInt));
     ("operationStartTime", into bs_OperationStartTime set_bs_OperationStartTime (or_nil_ptr 0 (foreign_dec Time_json)))].

Definition ServiceBrokerStatus_codecDecodeSelfFromArray : list json -> ServiceBrokerStatus -> option ServiceBrokerStatus :=
  DecodeElements
    [into bs_Conditions set_bs_Conditions (or_nil [] decSliceServiceBrokerCondition);
     into bs_ReconciledGeneration set_bs_ReconciledGeneration (or_nil 0 DecodeInt);
     into bs_OperationStartTime set_bs_OperationStartTime (or_nil_ptr 0 (foreign_dec Time_json))].

Definition ServiceBrokerStatus_CodecDecodeSelf : reader ServiceBrokerStatus :=
  DecodeStruct ServiceBrokerStatus_codecDecodeSelfFromMap ServiceBrokerStatus_codecDecodeSelfFromArray.

(** ** ClusterServiceBroker *)

Definition ClusterServiceBroker_CodecEncodeSelf (h : Handle) (x : ClusterServiceBroker) : option json :=
  EncodeStruct h
    [omitempty "kind" (non_empty (Kind (b_TypeMeta x))) (EncodeString (Kind (b_TypeMeta x))) (JString "");
     omitempty "apiVersion" (non_empty (APIVersion (b_TypeMeta x))) (EncodeString (APIVersion (b_TypeMeta x))) (JString "");
     omitempty "metadata" true (EncodeForeign ObjectMeta_json (b_Meta x)) JNull;
     always "spec" (ClusterServiceBrokerSpec_CodecEncodeSelf h (b_Spec x));
     always "status" (ServiceBrokerStatus_CodecEncodeSelf h (b_Status x))].

Definition ClusterServiceBroker_codecDecodeSelfFromMap : list (string * json) -> ClusterServiceBroker -> option ClusterServiceBroker :=
  DecodeMembers
    [("kind", into (fun x => Kind (b_TypeMeta x)) set_b_Kind (or_nil "" DecodeString));
     ("apiVersion", into (fun x => APIVersion (b_TypeMeta x)) set_b_APIVersion (or_nil "" DecodeString));
     ("metadata", into b_Meta set_b_Meta (or_nil ObjectMeta_zero (foreign_dec ObjectMeta_json)));
     ("spec", into b_Spec set_b_Spec (or_nil ClusterServiceBrokerSpec_zero ClusterServiceBrokerSpec_CodecDecodeSelf));
     ("status", into b_Status set_b_Status (or_nil ServiceBrokerStatus_zero ServiceBrokerStatus_CodecDecodeSelf))].

Definition ClusterServiceBroker_codecDecodeSelfFromArray : list json -> ClusterServiceBroker -> option ClusterServiceBroker :=
  DecodeElements
    [into (fun x => Kind (b_TypeMeta x)) set_b_Kind (or_nil "" DecodeString);
     into (fun x => APIVersion (b_TypeMeta x)) set_b_APIVersion (or_nil "" DecodeString);
     into b_Meta set_b_Meta (or_nil ObjectMeta_zero (foreign_dec ObjectMeta_json));
     into b_Spec set_b_Spec (or_nil ClusterServiceBrokerSpec_zero ClusterServiceBrokerSpec_CodecDecodeSelf);
     into b_Status set_b_Status (or_nil ServiceBrokerStatus_zero ServiceBrokerStatus_CodecDecodeSelf)].

Definition ClusterServiceBroker_CodecDecodeSelf : reader ClusterServiceBroker :=
  DecodeStruct ClusterServiceBroker_codecDecodeSelfFromMap ClusterServiceBroker_codecDecodeSelfFromArray.

Definition encSliceClusterServiceBroker (h : Handle) (v : list ClusterServiceBroker) : option json := EncodeArray (ClusterServiceBroker_CodecEncodeSelf h) v.
Definition decSliceClusterServiceBroker : reader (list ClusterServiceBroker) := DecodeSlice ClusterServiceBroker_zero (or_nil ClusterServiceBroker_zero ClusterServiceBroker_CodecDecodeSelf).

(** ** ClusterServiceBrokerList *)

Definition ClusterServiceBrokerList_CodecEncodeSelf (h : Handle) (x : ClusterServiceBrokerList) : option json :=
  EncodeStruct h
    [omitempty "kind" (non_empty (Kind (cbl_TypeMeta x))) (EncodeString (Kind (cbl_TypeMeta x))) (JString "");
     omitempty "apiVersion" (non_empty (APIVersion (cbl_TypeMeta x))) (EncodeString (APIVersion (cbl_TypeMeta x))) (JString "");
     omitempty "metadata" true (EncodeForeign ListMeta_json (cbl_ListMeta x)) JNull;
     always "items" (EncodeSlice (encSliceClusterServiceBroker h) (cbl_Items x))].

Definition ClusterServiceBrokerList_codecDecodeSelfFromMap : list (string * json) -> ClusterServiceBrokerList -> option ClusterServiceBrokerList :=
  DecodeMembers
    [("kind", into (fun x => Kind (cbl_TypeMeta x)) set_cbl_Kind (or_nil "" DecodeString));
     ("apiVersion", into (fun x => APIVersion (cbl_TypeMeta x)) set_cbl_APIVersion (or_nil "" DecodeString));
     ("metadata", into cbl_ListMeta set_cbl_ListMeta (or_nil ListMeta_zero (foreign_dec ListMeta_json)));
     ("items", into cbl_Items set_cbl_Items (or_nil [] decSliceClusterServiceBroker))].

Definition ClusterServiceBrokerList_codecDecodeSelfFromArray : list json -> ClusterServiceBrokerList -> option ClusterServiceBrokerList :=
  DecodeElements
    [into (fun x => Kind (cbl_TypeMeta x)) set_cbl_Kind (or_nil "" DecodeString);
     into (fun x => APIVersion (cbl_TypeMeta x)) set_cbl_APIVersion (or_nil "" DecodeString);
     into cbl_ListMeta set_cbl_ListMeta (or_nil ListMeta_zero (foreign_dec ListMeta_json));
     into cbl_Items set_cbl_Items (or_nil [] decSliceClusterServiceBroker)].

Definition ClusterServiceBrokerList_CodecDecodeSelf : reader ClusterServiceBrokerList :=
  DecodeStruct ClusterServiceBrokerList_codecDecodeSelfFromMap ClusterServiceBrokerList_codecDecodeSelfFromArray.

(** ** ServiceClassSpec *)

Definition ServiceClassSpec_CodecEncodeSelf (h : Handle) (x : ServiceClassSpec) : option json :=
  EncodeStruct h
    [always "clusterServiceBrokerName" (EncodeString (sc_ClusterServiceBrokerName x));
     always "externalName" (EncodeString (sc_ExternalName x));
     always "externalID" (EncodeString (sc_ExternalID x));
     always "description" (EncodeString (sc_Description x));
     always "bindable" (EncodeBool (sc_Bindable x));
     always "planUpdatable" (EncodeBool (sc_PlanUpdatable x));
     omitempty "externalMetadata" (not_nil (sc_ExternalMetadata x)) (EncodePtr RawExtension_MarshalJSON (sc_ExternalMetadata x)) JNull;
     omitempty "tags" (has_elements (sc_Tags x)) (EncodeSlice EncSliceString (sc_Tags x)) JNull;
     omitempty "requires" (has_elements (sc_Requires x)) (EncodeSlice EncSliceString (sc_Requires x)) JNull].

Definition ServiceClassSpec_codecDecodeSelfFromMap : list (string * json) -> ServiceClassSpec -> option ServiceClassSpec :=
  DecodeMembers
    [("clusterServiceBrokerName", into sc_ClusterServiceBrokerName set_sc_ClusterServiceBrokerName (or_nil "" DecodeString));
     ("externalName", into sc_ExternalName set_sc_ExternalName (or_nil "" DecodeString));
     ("externalID", into sc_ExternalID set_sc_ExternalID (or_nil "" DecodeString));
     ("description", into sc_Description set_sc_Description (or_nil "" DecodeString));
     ("bindable", into sc_Bindable set_sc_Bindable (or_nil false DecodeBool));
     ("planUpdatable", into sc_PlanUpdatable set_sc_PlanUpdatable (or_nil false DecodeBool));
     ("externalMetadata", into sc_ExternalMetadata set_sc_ExternalMetadata (or_nil_ptr RawExtension_zero RawExtension_UnmarshalJSON));
     ("tags", into sc_Tags set_sc_Tags (or_nil [] DecSliceString));
     ("requires", into sc_Requires set_sc_Requires (or_nil [] DecSliceString))].

Definition ServiceClassSpec_codecDecodeSelfFromArray : list json -> ServiceClassSpec -> option ServiceClassSpec :=
  DecodeElements
    [into sc_ClusterServiceBrokerName set_sc_ClusterServiceBrokerName (or_nil "" DecodeString);
     into sc_ExternalName set_sc_ExternalName (or_nil "" DecodeString);
     into sc_ExternalID set_sc_ExternalID (or_nil "" DecodeString);
     into sc_Description set_sc_Description (or_nil "" DecodeString);
     into sc_Bindable set_sc_Bindable (or_nil false DecodeBool);
     into sc_PlanUpdatable set_sc_PlanUpdatable (or_nil false DecodeBool);
     into sc_ExternalMetadata set_sc_ExternalMetadata (or_nil_ptr RawExtension_zero RawExtension_UnmarshalJSON);
     into sc_Tags set_sc_Tags (or_nil [] DecSliceString);
     into sc_Requires set_sc_Requires (or_nil [] DecSliceString)].

Definition ServiceClassSpec_CodecDecodeSelf : reader ServiceClassSpec :=
  DecodeStruct ServiceClassSpec_codecDecodeSelfFromMap ServiceClassSpec_codecDecodeSelfFromArray.

(** ** ServiceClass *)

Definition ServiceClass_CodecEncodeSelf (h : Handle) (x : ServiceClass) : option json :=
  EncodeStruct h
    [omitempty "kind" (non_empty (Kind (sc_TypeMeta x))) (EncodeString (Kind (sc_TypeMeta x))) (JString "");
     omitempty "apiVersion" (non_empty (APIVersion (sc_TypeMeta x))) (EncodeString (APIVersion (sc_TypeMeta x))) (JString "");
     omitempty "metadata" true (EncodeForeign ObjectMeta_json (sc_Meta x)) JNull;
     always "spec" (ServiceClassSpec_CodecEncodeSelf h (sc_Spec x))].

Definition ServiceClass_codecDecodeSelfFromMap : list (string * json) -> ServiceClass -> option ServiceClass :=
  DecodeMembers
    [("kind", into (fun x => Kind (sc_TypeMeta x)) set_sc_Kind (or_nil "" DecodeString));
     ("apiVersion", into (fun x => APIVersion (sc_TypeMeta x)) set_sc_APIVersion (or_nil "" DecodeString));
     ("metadata", into sc_Meta set_sc_Meta (or_nil ObjectMeta_zero (foreign_dec ObjectMeta_json)));
     ("spec", into sc_Spec set_sc_Spec (or_nil ServiceClassSpec_zero ServiceClassSpec_CodecDecodeSelf))].

Definition ServiceClass_codecDecodeSelfFromArray : list json -> ServiceClass -> option ServiceClass :=
  DecodeElements
    [into (fun x => Kind (sc_TypeMeta x)) set_sc_Kind (or_nil "" DecodeString);
     into (fun x => APIVersion (sc_TypeMeta x)) set_sc_APIVersion (or_nil "" DecodeString);
     into sc_Meta set_sc_Meta (or_nil ObjectMeta_zero (foreign_dec ObjectMeta_json));
     into sc_Spec set_sc_Spec (or_nil ServiceClassSpec_zero ServiceClassSpec_CodecDecodeSelf)].

Definition ServiceClass_CodecDecodeSelf : reader ServiceClass :=
  DecodeStruct ServiceClass_codecDecodeSelfFromMap ServiceClass_codecDecodeSelfFromArray.

Definition encSliceServiceClass (h : Handle) (v : list ServiceClass) : option json := EncodeArray (ServiceClass_CodecEncodeSelf h) v.
Definition decSliceServiceClass : reader (list ServiceClass) := DecodeSlice ServiceClass_zero (or_nil ServiceClass_zero ServiceClass_CodecDecodeSelf).

(** ** ServiceClassList *)

Definition ServiceClassList_CodecEncodeSelf (h : Handle) (x : ServiceClassList) : option json :=
  EncodeStruct h
    [omitempty "kind" (non_empty (Kind (scl_TypeMeta x))) (EncodeString (Kind (scl_TypeMeta x))) (JString "");
     omitempty "apiVersion" (non_empty (APIVersion (scl_TypeMeta x))) (EncodeString (APIVersion (scl_TypeMeta x))) (JString "");
     omitempty "metadata" true (EncodeForeign ListMeta_json (scl_ListMeta x)) JNull;
     always "items" (EncodeSlice (encSliceServiceClass h) (scl_Items x))].

Definition ServiceClassList_codecDecodeSelfFromMap : list (string * json) -> ServiceClassList -> option ServiceClassList :=
  DecodeMembers
    [("kind", into (fun x => Kind (scl_TypeMeta x)) set_scl_Kind (or_nil "" DecodeString));
     ("apiVersion", into (fun x => APIVersion (scl_TypeMeta x)) set_scl_APIVersion (or_nil "" DecodeString));
     ("metadata", into scl_ListMeta set_scl_ListMeta (or_nil ListMeta_zero (foreign_dec ListMeta_json)));
     ("items", into scl_Items set_scl_Items (or_nil [] decSliceServiceClass))].

Definition ServiceClassList_codecDecodeSelfFromArray : list json -> ServiceClassList -> option ServiceClassList :=
  DecodeElements
    [into (fun x => Kind (scl_TypeMeta x)) set_scl_Kind (or_nil "" DecodeString);
     into (fun x => APIVersion (scl_TypeMeta x)) set_scl_APIVersion (or_nil "" DecodeString);
     into scl_ListMeta set_scl_ListMeta (or_nil ListMeta_zero (foreign_dec ListMeta_json));
     into scl_Items set_scl_Items (or_nil [] decSliceServiceClass)].

Definition ServiceClassList_CodecDecodeSelf : reader ServiceClassList :=
  DecodeStruct ServiceClassList_codecDecodeSelfFromMap ServiceClassList_codecDecodeSelfFromArray.

(** ** ServicePlanSpec *)

Definition ServicePlanSpec_CodecEncodeSelf (h : Handle) (x : ServicePlanSpec) : option json :=
  EncodeStruct h
    [always "clusterServiceBrokerName" (EncodeString (sp_ClusterServiceBrokerName x));
     always "externalName" (EncodeString (sp_ExternalName x));
     always "externalID" (EncodeString (sp_ExternalID x));
     always "description" (EncodeString (sp_Description x));
     omitempty "bindable" (not_nil (sp_Bindable x)) (EncodePtr EncodeBool (sp_Bindable x)) JNull;
     always "free" (EncodeBool (sp_Free x));
     omitempty "externalMetadata" (not_nil (sp_ExternalMetadata x)) (EncodePtr RawExtension_MarshalJSON (sp_ExternalMetadata x)) JNull;
     omitempty "instanceCreateParameterSchema" (not_nil (sp_ServiceInstanceCreateParameterSchema x)) (EncodePtr RawExtension_MarshalJSON (sp_ServiceInstanceCreateParameterSchema x)) JNull;
     omitempty "instanceUpdateParameterSchema" (not_nil (sp_ServiceInstanceUpdateParameterSchema x)) (EncodePtr RawExtension_MarshalJSON (sp_ServiceInstanceUpdateParameterSchema x)) JNull;
     omitempty "serviceInstanceCredentialCreateParameterSchema" (not_nil (sp_ServiceInstanceCredentialCreateParameterSchema x)) (EncodePtr RawExtension_MarshalJSON (sp_ServiceInstanceCredentialCreateParameterSchema x)) JNull;
     always "serviceClassRef" (EncodeForeign LocalObjectReference_json (sp_ServiceClassRef x))].

Definition ServicePlanSpec_codecDecodeSelfFromMap : list (string * json) -> ServicePlanSpec -> option ServicePlanSpec :=
  DecodeMembers
    [("clusterServiceBrokerName", into sp_ClusterServiceBrokerName set_sp_ClusterServiceBrokerName (or_nil "" DecodeString));
     ("externalName", into sp_ExternalName set_sp_ExternalName (or_nil "" DecodeString));
     ("externalID", into sp_ExternalID set_sp_ExternalID (or_nil "" DecodeString));
     ("description", into sp_Description set_sp_Description (or_nil "" DecodeString));
     ("bindable", into sp_Bindable set_sp_Bindable (or_nil_ptr false DecodeBool));
     ("free", into sp_Free set_sp_Free (or_nil false DecodeBool));
     ("externalMetadata", into sp_ExternalMetadata set_sp_ExternalMetadata (or_nil_ptr RawExtension_zero RawExtension_UnmarshalJSON));
     ("instanceCreateParameterSchema", into sp_ServiceInstanceCreateParameterSchema set_sp_ServiceInstanceCreateParameterSchema (or_nil_ptr RawExtension_zero RawExtension_UnmarshalJSON));
     ("instanceUpdateParameterSchema", into sp_ServiceInstanceUpdateParameterSchema set_sp_ServiceInstanceUpdateParameterSchema (or_nil_ptr RawExtension_zero RawExtension_UnmarshalJSON));
     ("serviceInstanceCredentialCreateParameterSchema", into sp_ServiceInstanceCredentialCreateParameterSchema set_sp_ServiceInstanceCredentialCreateParameterSchema (or_nil_ptr RawExtension_zero RawExtension_UnmarshalJSON));
     ("serviceClassRef", into sp_ServiceClassRef set_sp_ServiceClassRef (or_nil LocalObjectReference_zero (foreign_dec LocalObjectReference_json)))].

Definition ServicePlanSpec_codecDecodeSelfFromArray : list json -> ServicePlanSpec -> option ServicePlanSpec :=
  DecodeElements
    [into sp_ClusterServiceBrokerName set_sp_ClusterServiceBrokerName (or_nil "" DecodeString);
     into sp_ExternalName set_sp_ExternalName (or_nil "" DecodeString);
     into sp_ExternalID set_sp_ExternalID (or_nil "" DecodeString);
     into sp_Description set_sp_Description (or_nil "" DecodeString);
     into sp_Bindable set_sp_Bindable (or_nil_ptr false DecodeBool);
     into sp_Free set_sp_Free (or_nil false DecodeBool);
     into sp_ExternalMetadata set_sp_ExternalMetadata (or_nil_ptr RawExtension_zero RawExtension_UnmarshalJSON);
     into sp_ServiceInstanceCreateParameterSchema set_sp_ServiceInstanceCreateParameterSchema (or_nil_ptr RawExtension_zero RawExtension_UnmarshalJSON);
     into sp_ServiceInstanceUpdateParameterSchema set_sp_ServiceInstanceUpdateParameterSchema (or_nil_ptr RawExtension_zero RawExtension_UnmarshalJSON);
     into sp_ServiceInstanceCredentialCreateParameterSchema set_sp_ServiceInstanceCredentialCreateParameterSchema (or_nil_ptr RawExtension_zero RawExtension_UnmarshalJSON);
     into sp_ServiceClassRef set_sp_ServiceClassRef (or_nil LocalObjectReference_zero (foreign_dec LocalObjectReference_json))].

Definition ServicePlanSpec_CodecDecodeSelf : reader ServicePlanSpec :=
  DecodeStruct ServicePlanSpec_codecDecodeSelfFromMap ServicePlanSpec_codecDecodeSelfFromArray.

(** ** ServicePlan *)

Definition ServicePlan_CodecEncodeSelf (h : Handle) (x : ServicePlan) : option json :=
  EncodeStruct h
    [omitempty "kind" (non_empty (Kind (sp_TypeMeta x))) (EncodeString (Kind (sp_TypeMeta x))) (JString "");
     omitempty "apiVersion" (non_empty (APIVersion (sp_TypeMeta x))) (EncodeString (APIVersion (sp_TypeMeta x))) (JString "");
     omitempty "metadata" true (EncodeForeign ObjectMeta_json (sp_Meta x)) JNull;
     always "spec" (ServicePlanSpec_CodecEncodeSelf h (sp_Spec x))].

Definition ServicePlan_codecDecodeSelfFromMap : list (string * json) -> ServicePlan -> option ServicePlan :=
  DecodeMembers
    [("kind", into (fun x => Kind (sp_TypeMeta x)) set_sp_Kind (or_nil "" DecodeString));
     ("apiVersion", into (fun x => APIVersion (sp_TypeMeta x)) set_sp_APIVersion (or_nil "" DecodeString));
     ("metadata", into sp_Meta set_sp_Meta (or_nil ObjectMeta_zero (foreign_dec ObjectMeta_json)));
     ("spec", into sp_Spec set_sp_Spec (or_nil ServicePlanSpec_zero ServicePlanSpec_CodecDecodeSelf))].

Definition ServicePlan_codecDecodeSelfFromArray : list json -> ServicePlan -> option ServicePlan :=
  DecodeElements
    [into (fun x => Kind (sp_TypeMeta x)) set_sp_Kind (or_nil "" DecodeString);
     into (fun x => APIVersion (sp_TypeMeta x)) set_sp_APIVersion (or_nil "" DecodeString);
     into sp_Meta set_sp_Meta (or_nil ObjectMeta_zero (foreign_dec ObjectMeta_json));
     into sp_Spec set_sp_Spec (or_nil ServicePlanSpec_zero ServicePlanSpec_CodecDecodeSelf)].

Definition ServicePlan_CodecDecodeSelf : reader ServicePlan :=
  DecodeStruct ServicePlan_codecDecodeSelfFromMap ServicePlan_codecDecodeSelfFromArray.

Definition encSliceServicePlan (h : Handle) (v : list ServicePlan) : option json := EncodeArray (ServicePlan_CodecEncodeSelf h) v.
Definition decSliceServicePlan : reader (list ServicePlan) := DecodeSlice ServicePlan_zero (or_nil ServicePlan_zero ServicePlan_CodecDecodeSelf).

(** ** ServicePlanList *)

Definition ServicePlanList_CodecEncodeSelf (h : Handle) (x : ServicePlanList) : option json :=
  EncodeStruct h
    [omitempty "kind" (non_empty (Kind (spl_TypeMeta x))) (EncodeString (Kind (spl_TypeMeta x))) (JString "");
     omitempty "apiVersion" (non_empty (APIVersion (spl_TypeMeta x))) (EncodeString (APIVersion (spl_TypeMeta x))) (JString "");
     omitempty "metadata" true (EncodeForeign ListMeta_json (spl_ListMeta x)) JNull;
     always "items" (EncodeSlice (encSliceServicePlan h) (spl_Items x))].

Definition ServicePlanList_codecDecodeSelfFromMap : list (string * json) -> ServicePlanList -> option ServicePlanList :=
  DecodeMembers
    [("kind", into (fun x => Kind (spl_TypeMeta x)) set_spl_Kind (or_nil "" DecodeString));
     ("apiVersion", into (fun x => APIVersion (spl_TypeMeta x)) set_spl_APIVersion (or_nil "" DecodeString));
     ("metadata", into spl_ListMeta set_spl_ListMeta (or_nil ListMeta_zero (foreign_dec ListMeta_json)));
     ("items", into spl_Items set_spl_Items (or_nil [] decSliceServicePlan))].

Definition ServicePlanList_codecDecodeSelfFromArray : list json -> ServicePlanList -> option ServicePlanList :=
  DecodeElements
    [into (fun x => Kind (spl_TypeMeta x)) set_spl_Kind (or_nil "" DecodeString);
     into (fun x => APIVersion (spl_TypeMeta x)) set_spl_APIVersion (or_nil "" DecodeString);
     into spl_ListMeta set_spl_ListMeta (or_nil ListMeta_zero (foreign_dec ListMeta_json));
     into spl_Items set_spl_Items (or_nil [] decSliceServicePlan)].

Definition ServicePlanList_CodecDecodeSelf : reader ServicePlanList :=
  DecodeStruct ServicePlanList_codecDecodeSelfFromMap ServicePlanList_codecDecodeSelfFromArray.

(** ** ServiceInstanceSpec *)

Definition ServiceInstanceSpec_CodecEncodeSelf (h : Handle) (x : ServiceInstanceSpec) : option json :=
  EncodeStruct h
    [always "externalServiceClassName" (EncodeString (ExternalServiceClassName x));
     omitempty "externalServicePlanName" (non_empty (ExternalServicePlanName x)) (EncodeString (ExternalServicePlanName x)) (JString "");
     omitempty "serviceClassRef" (not_nil (ServiceClassRef x)) (EncodePtr (EncodeForeign ObjectReference_json) (ServiceClassRef x)) JNull;
     omitempty "servicePlanRef" (not_nil (ServicePlanRef x)) (EncodePtr (EncodeForeign ObjectReference_json) (ServicePlanRef x)) JNull;
     omitempty "parameters" (not_nil (Parameters x)) (EncodePtr RawExtension_MarshalJSON (Parameters x)) JNull;
     omitempty "parametersFrom" (slice_elements (ParametersFrom x)) (EncodePtr (encSliceParametersFromSource h) (ParametersFrom x)) JNull;
     always "externalID" (EncodeString (ExternalID x));
     omitempty "userInfo" (not_nil (si_UserInfo x)) (EncodePtr (UserInfo_CodecEncodeSelf h) (si_UserInfo x)) JNull].

Definition ServiceInstanceSpec_codecDecodeSelfFromMap : list (string * json) -> ServiceInstanceSpec -> option ServiceInstanceSpec :=
  DecodeMembers
    [("externalServiceClassName", into ExternalServiceClassName set_ExternalServiceClassName (or_nil "" DecodeString));
     ("externalServicePlanName", into ExternalServicePlanName set_ExternalServicePlanName (or_nil "" DecodeString));
     ("serviceClassRef", into ServiceClassRef set_ServiceClassRef (or_nil_ptr ObjectReference_zero (foreign_dec ObjectReference_json)));
     ("servicePlanRef", into ServicePlanRef set_ServicePlanRef (or_nil_ptr ObjectReference_zero (foreign_dec ObjectReference_json)));
     ("parameters", into Parameters set_Parameters (or_nil_ptr RawExtension_zero RawExtension_UnmarshalJSON));
     ("parametersFrom", into ParametersFrom set_ParametersFrom (or_nil_slice decSliceParametersFromSource));
     ("externalID", into ExternalID set_ExternalID (or_nil "" DecodeString));
     ("userInfo", into si_UserInfo set_si_UserInfo (or_nil_ptr UserInfo_zero UserInfo_CodecDecodeSelf))].

Definition ServiceInstanceSpec_codecDecodeSelfFromArray : list json -> ServiceInstanceSpec -> option ServiceInstanceSpec :=
  DecodeElements
    [into ExternalServiceClassName set_ExternalServiceClassName (or_nil "" DecodeString);
     into ExternalServicePlanName set_ExternalServicePlanName (or_nil "" DecodeString);
     into ServiceClassRef set_ServiceClassRef (or_nil_ptr ObjectReference_zero (foreign_dec ObjectReference_json));
     into ServicePlanRef set_ServicePlanRef (or_nil_ptr ObjectReference_zero (foreign_dec ObjectReference_json));
     into Parameters set_Parameters (or_nil_ptr RawExtension_zero RawExtension_UnmarshalJSON);
     into ParametersFrom set_ParametersFrom (or_nil_slice decSliceParametersFromSource);
     into ExternalID set_ExternalID (or_nil "" DecodeString);
     into si_UserInfo set_si_UserInfo (or_nil_ptr UserInfo_zero UserInfo_CodecDecodeSelf)].

Definition ServiceInstanceSpec_CodecDecodeSelf : reader ServiceInstanceSpec :=
  DecodeStruct ServiceInstanceSpec_codecDecodeSelfFromMap ServiceInstanceSpec_codecDecodeSelfFromArray.

(** ** ServiceInstancePropertiesState *)

Definition ServiceInstancePropertiesState_CodecEncodeSelf (h : Handle) (x : ServiceInstancePropertiesState) : option json :=
  EncodeStruct h
    [always "externalServicePlanName" (EncodeString (ps_ExternalServicePlanName x));
     omitempty "parameters" (not_nil (ps_Parameters x)) (EncodePtr RawExtension_MarshalJSON (ps_Parameters x)) JNull;
     omitempty "parameterChecksum" (non_empty (ps_ParametersChecksum x)) (EncodeString (ps_ParametersChecksum x)) (JString "");
     omitempty "userInfo" (not_nil (ps_UserInfo x)) (EncodePtr (UserInfo_CodecEncodeSelf h) (ps_UserInfo x)) JNull].

Definition ServiceInstancePropertiesState_codecDecodeSelfFromMap : list (string * json) -> ServiceInstancePropertiesState -> option ServiceInstancePropertiesState :=
  DecodeMembers
    [("externalServicePlanName", into ps_ExternalServicePlanName set_ps_ExternalServicePlanName (or_nil "" DecodeString));
     ("parameters", into ps_Parameters set_ps_Parameters (or_nil_ptr RawExtension_zero RawExtension_UnmarshalJSON));
     ("parameterChecksum", into ps_ParametersChecksum set_ps_ParametersChecksum (or_nil "" DecodeString));
     ("userInfo", into ps_UserInfo set_ps_UserInfo (or_nil_ptr UserInfo_zero UserInfo_CodecDecodeSelf))].

Definition ServiceInstancePropertiesState_codecDecodeSelfFromArray : list json -> ServiceInstancePropertiesState -> option ServiceInstancePropertiesState :=
  DecodeElements
    [into ps_ExternalServicePlanName set_ps_ExternalServicePlanName (or_nil "" DecodeString);
     into ps_Parameters set_ps_Parameters (or_nil_ptr RawExtension_zero RawExtension_UnmarshalJSON);
     into ps_ParametersChecksum set_ps_ParametersChecksum (or_nil "" DecodeString);
     into ps_UserInfo set_ps_UserInfo (or_nil_ptr UserInfo_zero UserInfo_CodecDecodeSelf)].

Definition ServiceInstancePropertiesState_CodecDecodeSelf : reader ServiceInstancePropertiesState :=
  DecodeStruct ServiceInstancePropertiesState_codecDecodeSelfFromMap ServiceInstancePropertiesState_codecDecodeSelfFromArray.

(** ** ServiceInstanceCondition *)

Definition ServiceInstanceCondition_CodecEncodeSelf (h : Handle) (x : ServiceInstanceCondition) : option json :=
  EncodeStruct h
    [always "type" (ServiceInstanceConditionType_CodecEncodeSelf (cond_Type x));
     always "status" (ConditionStatus_CodecEncodeSelf (cond_Status x));
     always "lastTransitionTime" (EncodeForeign Time_json (cond_LastTransitionTime x));
     always "reason" (EncodeString (cond_Reason x));
     always "message" (EncodeString (cond_Message x))].

Definition ServiceInstanceCondition_codecDecodeSelfFromMap : list (string * json) -> ServiceInstanceCondition -> option ServiceInstanceCondition :=
  DecodeMembers
    [("type", into cond_Type set_cond_Type (or_nil (ConditionType_of_string "") ServiceInstanceConditionType_CodecDecodeSelf));
     ("status", into cond_Status set_cond_Status (or_nil (ConditionStatus_of_string "") ConditionStatus_CodecDecodeSelf));
     ("lastTransitionTime", into cond_LastTransitionTime set_cond_LastTransitionTime (or_nil 0 (foreign_dec Time_json)));
     ("reason", into cond_Reason set_cond_Reason (or_nil "" DecodeString));
     ("message", into cond_Message set_cond_Message (or_nil "" DecodeString))].

Definition ServiceInstanceCondition_codecDecodeSelfFromArray : list json -> ServiceInstanceCondition -> option ServiceInstanceCondition :=
  DecodeElements
    [into cond_Type set_cond_Type (or_nil (ConditionType_of_string "") ServiceInstanceConditionType_CodecDecodeSelf);
     into cond_Status set_cond_Status (or_nil (ConditionStatus_of_string "") ConditionStatus_CodecDecodeSelf);
     into cond_LastTransitionTime set_cond_LastTransitionTime (or_nil 0 (foreign_dec Time_json));
     into cond_Reason set_cond_Reason (or_nil "" DecodeString);
     into cond_Message set_cond_Message (or_nil "" DecodeString)].

Definition ServiceInstanceCondition_CodecDecodeSelf : reader ServiceInstanceCondition :=
  DecodeStruct ServiceInstanceCondition_codecDecodeSelfFromMap ServiceInstanceCondition_codecDecodeSelfFromArray.

Definition encSliceServiceInstanceCondition (h : Handle) (v : list ServiceInstanceCondition) : option json := EncodeArray (ServiceInstanceCondition_CodecEncodeSelf h) v.
Definition decSliceServiceInstanceCondition : reader (list ServiceInstanceCondition) := DecodeSlice ServiceInstanceCondition_zero (or_nil ServiceInstanceCondition_zero ServiceInstanceCondition_CodecDecodeSelf).

(** ** ServiceInstanceStatus *)

Definition ServiceInstanceStatus_CodecEncodeSelf (h : Handle) (x : ServiceInstanceStatus) : option json :=
  EncodeStruct h
    [always "conditions" (EncodeSlice (encSliceServiceInstanceCondition h) (Conditions x));
     always "asyncOpInProgress" (EncodeBool (AsyncOpInProgress x));
     always "orphanMitigationInProgress" (EncodeBool (OrphanMitigationInProgress x));
     omitempty "lastOperation" (not_nil (LastOperation x)) (EncodePtr EncodeString (LastOperation x)) JNull;
     omitempty "dashboardURL" (not_nil (DashboardURL x)) (EncodePtr EncodeString (DashboardURL x)) JNull;
     omitempty "currentOperation" (non_empty (ServiceInstanceOperation_string (CurrentOperation x))) (ServiceInstanceOperation_CodecEncodeSelf (CurrentOperation x)) (JString "");
     always "reconciledGeneration" (EncodeInt (ReconciledGeneration x));
     omitempty "operationStartTime" (not_nil (OperationStartTime x)) (EncodePtr (EncodeForeign Time_json) (OperationStartTime x)) JNull;
     omitempty "inProgressProperties" (not_nil (InProgressProperties x)) (EncodePtr (ServiceInstancePropertiesState_CodecEncodeSelf h) (InProgressProperties x)) JNull;
     omitempty "externalProperties" (not_nil (ExternalProperties x)) (EncodePtr (ServiceInstancePropertiesState_CodecEncodeSelf h) (ExternalProperties x)) JNull].

Definition ServiceInstanceStatus_codecDecodeSelfFromMap : list (string * json) -> ServiceInstanceStatus -> option ServiceInstanceStatus :=
  DecodeMembers
    [("conditions", into Conditions set_Conditions (or_nil [] decSliceServiceInstanceCondition));
     ("asyncOpInProgress", into AsyncOpInProgress set_AsyncOpInProgress (or_nil false DecodeBool));
     ("orphanMitigationInProgress", into OrphanMitigationInProgress set_OrphanMitigationInProgress (or_nil false DecodeBool));
     ("lastOperation", into LastOperation set_LastOperation (or_nil_ptr "" DecodeString));
     ("dashboardURL", into DashboardURL set_DashboardURL (or_nil_ptr "" DecodeString));
     ("currentOperation", into CurrentOperation set_CurrentOperation (or_nil (ServiceInstanceOperation_of_string "") ServiceInstanceOperation_CodecDecodeSelf));
     ("reconciledGeneration", into ReconciledGeneration set_ReconciledGeneration (or_nil 0 DecodeInt));
     ("operationStartTime", into OperationStartTime set_OperationStartTime (or_nil_ptr 0 (foreign_dec Time_json)));
     ("inProgressProperties", into InProgressProperties set_InProgressProperties (or_nil_ptr ServiceInstancePropertiesState_zero ServiceInstancePropertiesState_CodecDecodeSelf));
     ("externalProperties", into ExternalProperties set_ExternalProperties (or_nil_ptr ServiceInstancePropertiesState_zero ServiceInstancePropertiesState_CodecDecodeSelf))].

Definition ServiceInstanceStatus_codecDecodeSelfFromArray : list json -> ServiceInstanceStatus -> option ServiceInstanceStatus :=
  DecodeElements
    [into Conditions set_Conditions (or_nil [] decSliceServiceInstanceCondition);
     into AsyncOpInProgress set_AsyncOpInProgress (or_nil false DecodeBool);
     into OrphanMitigationInProgress set_OrphanMitigationInProgress (or_nil false DecodeBool);
     into LastOperation set_LastOperation (or_nil_ptr "" DecodeString);
     into DashboardURL set_DashboardURL (or_nil_ptr "" DecodeString);
     into CurrentOperation set_CurrentOperation (or_nil (ServiceInstanceOperation_of_string "") ServiceInstanceOperation_CodecDecodeSelf);
     into ReconciledGeneration set_ReconciledGeneration (or_nil 0 DecodeInt);
     into OperationStartTime set_OperationStartTime (or_nil_ptr 0 (foreign_dec Time_json));
     into InProgressProperties set_InProgressProperties (or_nil_ptr ServiceInstancePropertiesState_zero ServiceInstancePropertiesState_CodecDecodeSelf);
     into ExternalProperties set_ExternalProperties (or_nil_ptr ServiceInstancePropertiesState_zero ServiceInstancePropertiesState_CodecDecodeSelf)].

Definition ServiceInstanceStatus_CodecDecodeSelf : reader ServiceInstanceStatus :=
  DecodeStruct ServiceInstanceStatus_codecDecodeSelfFromMap ServiceInstanceStatus_codecDecodeSelfFromArray.

(** ** ServiceInstance *)

Definition ServiceInstance_CodecEncodeSelf (h : Handle) (x : ServiceInstance) : option json :=
  EncodeStruct h
    [omitempty "kind" (non_empty (Kind (si_TypeMeta x))) (EncodeString (Kind (si_TypeMeta x))) (JString "");
     omitempty "apiVersion" (non_empty (APIVersion (si_TypeMeta x))) (EncodeString (APIVersion (si_TypeMeta x))) (JString "");
     omitempty "metadata" true (EncodeForeign ObjectMeta_json (si_Meta x)) JNull;
     always "spec" (ServiceInstanceSpec_CodecEncodeSelf h (si_Spec x));
     always "status" (ServiceInstanceStatus_CodecEncodeSelf h (si_Status x))].

Definition ServiceInstance_codecDecodeSelfFromMap : list (string * json) -> ServiceInstance -> option ServiceInstance :=
  DecodeMembers
    [("kind", into (fun x => Kind (si_TypeMeta x)) set_si_Kind (or_nil "" DecodeString));
     ("apiVersion", into (fun x => APIVersion (si_TypeMeta x)) set_si_APIVersion (or_nil "" DecodeString));
     ("metadata", into si_Meta set_si_Meta (or_nil ObjectMeta_zero (foreign_dec ObjectMeta_json)));
     ("spec", into si_Spec set_si_Spec (or_nil ServiceInstanceSpec_zero ServiceInstanceSpec_CodecDecodeSelf));
     ("status", into si_Status set_si_Status (or_nil ServiceInstanceStatus_zero ServiceInstanceStatus_CodecDecodeSelf))].

Definition ServiceInstance_codecDecodeSelfFromArray : list json -> ServiceInstance -> option ServiceInstance :=
  DecodeElements
    [into (fun x => Kind (si_TypeMeta x)) set_si_Kind (or_nil "" DecodeString);
     into (fun x => APIVersion (si_TypeMeta x)) set_si_APIVersion (or_nil "" DecodeString);
     into si_Meta set_si_Meta (or_nil ObjectMeta_zero (foreign_dec ObjectMeta_json));
     into si_Spec set_si_Spec (or_nil ServiceInstanceSpec_zero ServiceInstanceSpec_CodecDecodeSelf);
     into si_Status set_si_Status (or_nil ServiceInstanceStatus_zero ServiceInstanceStatus_CodecDecodeSelf)].

Definition ServiceInstance_CodecDecodeSelf : reader ServiceInstance :=
  DecodeStruct ServiceInstance_codecDecodeSelfFromMap ServiceInstance_codecDecodeSelfFromArray.

Definition encSliceServiceInstance (h : Handle) (v : list ServiceInstance) : option json := EncodeArray (ServiceInstance_CodecEncodeSelf h) v.
Definition decSliceServiceInstance : reader (list ServiceInstance) := DecodeSlice ServiceInstance_zero (or_nil ServiceInstance_zero ServiceInstance_CodecDecodeSelf).

(** ** ServiceInstanceList *)

Definition ServiceInstanceList_CodecEncodeSelf (h : Handle) (x : ServiceInstanceList) : option json :=
  EncodeStruct h
    [omitempty "kind" (non_empty (Kind (sil_TypeMeta x))) (EncodeString (Kind (sil_TypeMeta x))) (JString "");
     omitempty "apiVersion" (non_empty (APIVersion (sil_TypeMeta x))) (EncodeString (APIVersion (sil_TypeMeta x))) (JString "");
     omitempty "metadata" true (EncodeForeign ListMeta_json (sil_ListMeta x)) JNull;
     always "items" (EncodeSlice (encSliceServiceInstance h) (sil_Items x))].

Definition ServiceInstanceList_codecDecodeSelfFromMap : list (string * json) -> ServiceInstanceList -> option ServiceInstanceList :=
  DecodeMembers
    [("kind", into (fun x => Kind (sil_TypeMeta x)) set_sil_Kind (or_nil "" DecodeString));
     ("apiVersion", into (fun x => APIVersion (sil_TypeMeta x)) set_sil_APIVersion (or_nil "" DecodeString));
     ("metadata", into sil_ListMeta set_sil_ListMeta (or_nil ListMeta_zero (foreign_dec ListMeta_json)));
     ("items", into sil_Items set_sil_Items (or_nil [] decSliceServiceInstance))].

Definition ServiceInstanceList_codecDecodeSelfFromArray : list json -> ServiceInstanceList -> option ServiceInstanceList :=
  DecodeElements
    [into (fun x => Kind (sil_TypeMeta x)) set_sil_Kind (or_nil "" DecodeString);
     into (fun x => APIVersion (sil_TypeMeta x)) set_sil_APIVersion (or_nil "" DecodeString);
     into sil_ListMeta set_sil_ListMeta (or_nil ListMeta_zero (foreign_dec ListMeta_json));
     into sil_Items set_sil_Items (or_nil [] decSliceServiceInstance)].

Definition ServiceInstanceList_CodecDecodeSelf : reader ServiceInstanceList :=
  DecodeStruct ServiceInstanceList_codecDecodeSelfFromMap ServiceInstanceList_codecDecodeSelfFromArray.

(** ** ServiceInstanceCredentialSpec *)

Definition ServiceInstanceCredentialSpec_CodecEncodeSelf (h : Handle) (x : ServiceInstanceCredentialSpec) : option json :=
  EncodeStruct h
    [always "instanceRef" (EncodeForeign LocalObjectReference_json (ServiceInstanceRef x));
     omitempty "parameters" (not_nil (bind_Parameters x)) (EncodePtr RawExtension_MarshalJSON (bind_Parameters x)) JNull;
     omitempty "parametersFrom" (slice_elements (bind_ParametersFrom x)) (EncodePtr (encSliceParametersFromSource h) (bind_ParametersFrom x)) JNull;
     omitempty "secretName" (non_empty (SecretName x)) (EncodeString (SecretName x)) (JString "");
     always "externalID" (EncodeString (bind_ExternalID x));
     omitempty "userInfo" (not_nil (bind_UserInfo x)) (EncodePtr (UserInfo_CodecEncodeSelf h) (bind_UserInfo x)) JNull].

Definition ServiceInstanceCredentialSpec_codecDecodeSelfFromMap : list (string * json) -> ServiceInstanceCredentialSpec -> option ServiceInstanceCredentialSpec :=
  DecodeMembers
    [("instanceRef", into ServiceInstanceRef set_ServiceInstanceRef (or_nil LocalObjectReference_zero (foreign_dec LocalObjectReference_json)));
     ("parameters", into bind_Parameters set_bind_Parameters (or_nil_ptr RawExtension_zero RawExtension_UnmarshalJSON));
     ("parametersFrom", into bind_ParametersFrom set_bind_ParametersFrom (or_nil_slice decSliceParametersFromSource));
     ("secretName", into SecretName set_SecretName (or_nil "" DecodeString));
     ("externalID", into bind_ExternalID set_bind_ExternalID (or_nil "" DecodeString));
     ("userInfo", into bind_UserInfo set_bind_UserInfo (or_nil_ptr UserInfo_zero UserInfo_CodecDecodeSelf))].

Definition ServiceInstanceCredentialSpec_codecDecodeSelfFromArray : list json -> ServiceInstanceCredentialSpec -> option ServiceInstanceCredentialSpec :=
  DecodeElements
    [into ServiceInstanceRef set_ServiceInstanceRef (or_nil LocalObjectReference_zero (foreign_dec LocalObjectReference_json));
     into bind_Parameters set_bind_Parameters (or_nil_ptr RawExtension_zero RawExtension_UnmarshalJSON);
     into bind_ParametersFrom set_bind_ParametersFrom (or_nil_slice decSliceParametersFromSource);
     into SecretName set_SecretName (or_nil "" DecodeString);
     into bind_ExternalID set_bind_ExternalID (or_nil "" DecodeString);
     into bind_UserInfo set_bind_UserInfo (or_nil_ptr UserInfo_zero UserInfo_CodecDecodeSelf)].

Definition ServiceInstanceCredentialSpec_CodecDecodeSelf : reader ServiceInstanceCredentialSpec :=
  DecodeStruct ServiceInstanceCredentialSpec_codecDecodeSelfFromMap ServiceInstanceCredentialSpec_codecDecodeSelfFromArray.

(** ** ServiceInstanceCredentialPropertiesState *)

Definition ServiceInstanceCredentialPropertiesState_CodecEncodeSelf (h : Handle) (x : ServiceInstanceCredentialPropertiesState) : option json :=
  EncodeStruct h
    [omitempty "parameters" (not_nil (bps_Parameters x)) (EncodePtr RawExtension_MarshalJSON (bps_Parameters x)) JNull;
     omitempty "parameterChecksum" (non_empty (bps_ParametersChecksum x)) (EncodeString (bps_ParametersChecksum x)) (JString "");
     omitempty "userInfo" (not_nil (bps_UserInfo x)) (EncodePtr (UserInfo_CodecEncodeSelf h) (bps_UserInfo x)) JNull].

Definition ServiceInstanceCredentialPropertiesState_codecDecodeSelfFromMap : list (string * json) -> ServiceInstanceCredentialPropertiesState -> option ServiceInstanceCredentialPropertiesState :=
  DecodeMembers
    [("parameters", into bps_Parameters set_bps_Parameters (or_nil_ptr RawExtension_zero RawExtension_UnmarshalJSON));
     ("parameterChecksum", into bps_ParametersChecksum set_bps_ParametersChecksum (or_nil "" DecodeString));
     ("userInfo", into bps_UserInfo set_bps_UserInfo (or_nil_ptr UserInfo_zero UserInfo_CodecDecodeSelf))].

Definition ServiceInstanceCredentialPropertiesState_codecDecodeSelfFromArray : list json -> ServiceInstanceCredentialPropertiesState -> option ServiceInstanceCredentialPropertiesState :=
  DecodeElements
    [into bps_Parameters set_bps_Parameters (or_nil_ptr RawExtension_zero RawExtension_UnmarshalJSON);
     into bps_ParametersChecksum set_bps_ParametersChecksum (or_nil "" DecodeString);
     into bps_UserInfo set_bps_UserInfo (or_nil_ptr UserInfo_zero UserInfo_CodecDecodeSelf)].

Definition ServiceInstanceCredentialPropertiesState_CodecDecodeSelf : reader ServiceInstanceCredentialPropertiesState :=
  DecodeStruct ServiceInstanceCredentialPropertiesState_codecDecodeSelfFromMap ServiceInstanceCredentialPropertiesState_codecDecodeSelfFromArray.

(** ** ServiceInstanceCredentialCondition *)

Definition ServiceInstanceCredentialCondition_CodecEncodeSelf (h : Handle) (x : ServiceInstanceCredentialCondition) : option json :=
  EncodeStruct h
    [always "type" (ServiceInstanceCredentialConditionType_CodecEncodeSelf (cond_Type x));
     always "status" (ConditionStatus_CodecEncodeSelf (cond_Status x));
     always "lastTransitionTime" (EncodeForeign Time_json (cond_LastTransitionTime x));
     always "reason" (EncodeString (cond_Reason x));
     always "message" (EncodeString (cond_Message x))].

Definition ServiceInstanceCredentialCondition_codecDecodeSelfFromMap : list (string * json) -> ServiceInstanceCredentialCondition -> option ServiceInstanceCredentialCondition :=
  DecodeMembers
    [("type", into cond_Type set_cond_Type (or_nil (ConditionType_of_string "") ServiceInstanceCredentialConditionType_CodecDecodeSelf));
     ("status", into cond_Status set_cond_Status (or_nil (ConditionStatus_of_string "") ConditionStatus_CodecDecodeSelf));
     ("lastTransitionTime", into cond_LastTransitionTime set_cond_LastTransitionTime (or_nil 0 (foreign_dec Time_json)));
     ("reason", into cond_Reason set_cond_Reason (or_nil "" DecodeString));
     ("message", into cond_Message set_cond_Message (or_nil "" DecodeString))].

Definition ServiceInstanceCredentialCondition_codecDecodeSelfFromArray : list json -> ServiceInstanceCredentialCondition -> option ServiceInstanceCredentialCondition :=
  DecodeElements
    [into cond_Type set_cond_Type (or_nil (ConditionType_of_string "") ServiceInstanceCredentialConditionType_CodecDecodeSelf);
     into cond_Status set_cond_Status (or_nil (ConditionStatus_of_string "") ConditionStatus_CodecDecodeSelf);
     into cond_LastTransitionTime set_cond_LastTransitionTime (or_nil 0 (foreign_dec Time_json));
     into cond_Reason set_cond_Reason (or_nil "" DecodeString);
     into cond_Message set_cond_Message (or_nil "" DecodeString)].

Definition ServiceInstanceCredentialCondition_CodecDecodeSelf : reader ServiceInstanceCredentialCondition :=
  DecodeStruct ServiceInstanceCredentialCondition_codecDecodeSelfFromMap ServiceInstanceCredentialCondition_codecDecodeSelfFromArray.

Definition encSliceServiceInstanceCredentialCondition (h : Handle) (v : list ServiceInstanceCredentialCondition) : option json := EncodeArray (ServiceInstanceCredentialCondition_CodecEncodeSelf h) v.
Definition decSliceServiceInstanceCredentialCondition : reader (list ServiceInstanceCredentialCondition) := DecodeSlice ServiceInstanceCredentialCondition_zero (or_nil ServiceInstanceCredentialCondition_zero ServiceInstanceCredentialCondition_CodecDecodeSelf).

(** ** ServiceInstanceCredentialStatus *)

Definition ServiceInstanceCredentialStatus_CodecEncodeSelf (h : Handle) (x : ServiceInstanceCredentialStatus) : option json :=
  EncodeStruct h
    [always "conditions" (EncodeSlice (encSliceServiceInstanceCredentialCondition h) (bind_Conditions x));
     omitempty "currentOperation" (non_empty (ServiceInstanceCredentialOperation_string (bind_CurrentOperation x))) (ServiceInstanceCredentialOperation_CodecEncodeSelf (bind_CurrentOperation x)) (JString "");
     always "reconciledGeneration" (EncodeInt (bind_ReconciledGeneration x));
     omitempty "operationStartTime" (not_nil (bind_OperationStartTime x)) (EncodePtr (EncodeForeign Time_json) (bind_OperationStartTime x)) JNull;
     omitempty "inProgressProperties" (not_nil (bind_InProgressProperties x)) (EncodePtr (ServiceInstanceCredentialPropertiesState_CodecEncodeSelf h) (bind_InProgressProperties x)) JNull;
     omitempty "externalProperties" (not_nil (bind_ExternalProperties x)) (EncodePtr (ServiceInstanceCredentialPropertiesState_CodecEncodeSelf h) (bind_ExternalProperties x)) JNull;
     always "orphanMitigationInProgress" (EncodeBool (bind_OrphanMitigationInProgress x))].

Definition ServiceInstanceCredentialStatus_codecDecodeSelfFromMap : list (string * json) -> ServiceInstanceCredentialStatus -> option ServiceInstanceCredentialStatus :=
  DecodeMembers
    [("conditions", into bind_Conditions set_bind_Conditions (or_nil [] decSliceServiceInstanceCredentialCondition));
     ("currentOperation", into bind_CurrentOperation set_bind_CurrentOperation (or_nil (ServiceInstanceCredentialOperation_of_string "") ServiceInstanceCredentialOperation_CodecDecodeSelf));
     ("reconciledGeneration", into bind_ReconciledGeneration set_bind_ReconciledGeneration (or_nil 0 DecodeInt));
     ("operationStartTime", into bind_OperationStartTime set_bind_OperationStartTime (or_nil_ptr 0 (foreign_dec Time_json)));
     ("inProgressProperties", into bind_InProgressProperties set_bind_InProgressProperties (or_nil_ptr ServiceInstanceCredentialPropertiesState_zero ServiceInstanceCredentialPropertiesState_CodecDecodeSelf));
     ("externalProperties", into bind_ExternalProperties set_bind_ExternalProperties (or_nil_ptr ServiceInstanceCredentialPropertiesState_zero ServiceInstanceCredentialPropertiesState_CodecDecodeSelf));
     ("orphanMitigationInProgress", into bind_OrphanMitigationInProgress set_bind_OrphanMitigationInProgress (or_nil false DecodeBool))].

Definition ServiceInstanceCredentialStatus_codecDecodeSelfFromArray : list json -> ServiceInstanceCredentialStatus -> option ServiceInstanceCredentialStatus :=
  DecodeElements
    [into bind_Conditions set_bind_Conditions (or_nil [] decSliceServiceInstanceCredentialCondition);
     into bind_CurrentOperation set_bind_CurrentOperation (or_nil (ServiceInstanceCredentialOperation_of_string "") ServiceInstanceCredentialOperation_CodecDecodeSelf);
     into bind_ReconciledGeneration set_bind_ReconciledGeneration (or_nil 0 DecodeInt);
     into bind_OperationStartTime set_bind_OperationStartTime (or_nil_ptr 0 (foreign_dec Time_json));
     into bind_InProgressProperties set_bind_InProgressProperties (or_nil_ptr ServiceInstanceCredentialPropertiesState_zero ServiceInstanceCredentialPropertiesState_CodecDecodeSelf);
     into bind_ExternalProperties set_bind_ExternalProperties (or_nil_ptr ServiceInstanceCredentialPropertiesState_zero ServiceInstanceCredentialPropertiesState_CodecDecodeSelf);
     into bind_OrphanMitigationInProgress set_bind_OrphanMitigationInProgress (or_nil false DecodeBool)].

Definition ServiceInstanceCredentialStatus_CodecDecodeSelf : reader ServiceInstanceCredentialStatus :=
  DecodeStruct ServiceInstanceCredentialStatus_codecDecodeSelfFromMap ServiceInstanceCredentialStatus_codecDecodeSelfFromArray.

(** ** ServiceInstanceCredential *)

Definition ServiceInstanceCredential_CodecEncodeSelf (h : Handle) (x : ServiceInstanceCredential) : option json :=
  EncodeStruct h
    [omitempty "kind" (non_empty (Kind (bind_TypeMeta x))) (EncodeString (Kind (bind_TypeMeta x))) (JString "");
     omitempty "apiVersion" (non_empty (APIVersion (bind_TypeMeta x))) (EncodeString (APIVersion (bind_TypeMeta x))) (JString "");
     omitempty "metadata" true (EncodeForeign ObjectMeta_json (bind_Meta x)) JNull;
     always "spec" (ServiceInstanceCredentialSpec_CodecEncodeSelf h (bind_Spec x));
     always "status" (ServiceInstanceCredentialStatus_CodecEncodeSelf h (bind_Status x))].

Definition ServiceInstanceCredential_codecDecodeSelfFromMap : list (string * json) -> ServiceInstanceCredential -> option ServiceInstanceCredential :=
  DecodeMembers
    [("kind", into (fun x => Kind (bind_TypeMeta x)) set_bind_Kind (or_nil "" DecodeString));
     ("apiVersion", into (fun x => APIVersion (bind_TypeMeta x)) set_bind_APIVersion (or_nil "" DecodeString));
     ("metadata", into bind_Meta set_bind_Meta (or_nil ObjectMeta_zero (foreign_dec ObjectMeta_json)));
     ("spec", into bind_Spec set_bind_Spec (or_nil ServiceInstanceCredentialSpec_zero ServiceInstanceCredentialSpec_CodecDecodeSelf));
     ("status", into bind_Status set_bind_Status (or_nil ServiceInstanceCredentialStatus_zero ServiceInstanceCredentialStatus_CodecDecodeSelf))].

Definition ServiceInstanceCredential_codecDecodeSelfFromArray : list json -> ServiceInstanceCredential -> option ServiceInstanceCredential :=
  DecodeElements
    [into (fun x => Kind (bind_TypeMeta x)) set_bind_Kind (or_nil "" DecodeString);
     into (fun x => APIVersion (bind_TypeMeta x)) set_bind_APIVersion (or_nil "" DecodeString);
     into bind_Meta set_bind_Meta (or_nil ObjectMeta_zero (foreign_dec ObjectMeta_json));
     into bind_Spec set_bind_Spec (or_nil ServiceInstanceCredentialSpec_zero ServiceInstanceCredentialSpec_CodecDecodeSelf);
     into bind_Status set_bind_Status (or_nil ServiceInstanceCredentialStatus_zero ServiceInstanceCredentialStatus_CodecDecodeSelf)].

Definition ServiceInstanceCredential_CodecDecodeSelf : reader ServiceInstanceCredential :=
  DecodeStruct ServiceInstanceCredential_codecDecodeSelfFromMap ServiceInstanceCredential_codecDecodeSelfFromArray.

Definition encSliceServiceInstanceCredential (h : Handle) (v : list ServiceInstanceCredential) : option json := EncodeArray (ServiceInstanceCredential_CodecEncodeSelf h) v.
Definition decSliceServiceInstanceCredential : reader (list ServiceInstanceCredential) := DecodeSlice ServiceInstanceCredential_zero (or_nil ServiceInstanceCredential_zero ServiceInstanceCredential_CodecDecodeSelf).

(** ** ServiceInstanceCredentialList *)

Definition ServiceInstanceCredentialList_CodecEncodeSelf (h : Handle) (x : ServiceInstanceCredentialList) : option json :=
  EncodeStruct h
    [omitempty "kind" (non_empty (Kind (sicl_TypeMeta x))) (EncodeString (Kind (sicl_TypeMeta x))) (JString "");
     omitempty "apiVersion" (non_empty (APIVersion (sicl_TypeMeta x))) (EncodeString (APIVersion (sicl_TypeMeta x))) (JString "");
     omitempty "metadata" true (EncodeForeign ListMeta_json (sicl_ListMeta x)) JNull;
     always "items" (EncodeSlice (encSliceServiceInstanceCredential h) (sicl_Items x))].

Definition ServiceInstanceCredentialList_codecDecodeSelfFromMap : list (string * json) -> ServiceInstanceCredentialList -> option ServiceInstanceCredentialList :=
  DecodeMembers
    [("kind", into (fun x => Kind (sicl_TypeMeta x)) set_sicl_Kind (or_nil "" DecodeString));
     ("apiVersion", into (fun x => APIVersion (sicl_TypeMeta x)) set_sicl_APIVersion (or_nil "" DecodeString));
     ("metadata", into sicl_ListMeta set_sicl_ListMeta (or_nil ListMeta_zero (foreign_dec ListMeta_json)));
     ("items", into sicl_Items set_sicl_Items (or_nil [] decSliceServiceInstanceCredential))].

Definition ServiceInstanceCredentialList_codecDecodeSelfFromArray : list json -> ServiceInstanceCredentialList -> option ServiceInstanceCredentialList :=
  DecodeElements
    [into (fun x => Kind (sicl_TypeMeta x)) set_sicl_Kind (or_nil "" DecodeString);
     into (fun x => APIVersion (sicl_TypeMeta x)) set_sicl_APIVersion (or_nil "" DecodeString);
     into sicl_ListMeta set_sicl_ListMeta (or_nil ListMeta_zero (foreign_dec ListMeta_json));
     into sicl_Items set_sicl_Items (or_nil [] decSliceServiceInstanceCredential)].

Definition ServiceInstanceCredentialList_CodecDecodeSelf : reader ServiceInstanceCredentialList :=
  DecodeStruct ServiceInstanceCredentialList_codecDecodeSelfFromMap ServiceInstanceCredentialList_codecDecodeSelfFromArray.

End codec.
