(* ===== verification/ApiCodecLaws.v ===== *)
(** * API objects come back from their JSON

    [T_stored x]: what an API object must satisfy to be kept in JSON without
    loss: integers of 64 bits, enumerations with the constant of their string,
    no slice that is empty but not nil where the field has [omitempty], raw JSON
    other than null.  For every structure, [T_survives]: whatever the shape the
    encoder chooses, the decoder reads back what was written. *)

From S2P Require Import Prelude Types Json JsonText Selfer SelferLaws Fields ApiCodec.

Definition pointed {T} (P : T -> Prop) (p : option T) : Prop := forall x, p = Some x -> P x.
Definition foreign_set {T} (f : Foreign T) (zero x : T) : Prop := foreign_stored f zero x /\ foreign_enc f x <> JNull.

Section stored.
Context {M : Machinery}.

Definition SecretKeyReference_stored (x : SecretKeyReference) : Prop :=
  True.
Definition ParametersFromSource_stored (x : ParametersFromSource) : Prop :=
  pointed SecretKeyReference_stored (pfs_SecretKeyRef x).
Definition UserInfo_stored (x : UserInfo) : Prop :=
  (ui_Groups x) <> Some [].
Definition BasicAuthConfig_stored (x : BasicAuthConfig) : Prop :=
  pointed (foreign_set ObjectReference_json ObjectReference_zero) (bac_SecretRef x).
Definition BearerTokenAuthConfig_stored (x : BearerTokenAuthConfig) : Prop :=
  pointed (foreign_set ObjectReference_json ObjectReference_zero) (btac_SecretRef x).
Definition ServiceBrokerAuthInfo_stored (x : ServiceBrokerAuthInfo) : Prop :=
  pointed BasicAuthConfig_stored (Basic x) /\
  pointed BearerTokenAuthConfig_stored (Bearer x) /\
  pointed (foreign_set ObjectReference_json ObjectReference_zero) (BasicAuthSecret x).
Definition ClusterServiceBrokerSpec_stored (x : ClusterServiceBrokerSpec) : Prop :=
  pointed ServiceBrokerAuthInfo_stored (AuthInfo x) /\
  ServiceBrokerRelistBehavior_of_string (ServiceBrokerRelistBehavior_string (RelistBehavior x)) = (RelistBehavior x) /\
  pointed (foreign_set Duration_json 0) (RelistDuration x) /\
  in_int64 (RelistRequests x).
Definition ServiceBrokerCondition_stored (x : ServiceBrokerCondition) : Prop :=
  ConditionType_of_string (ConditionType_string (cond_Type x)) = (cond_Type x) /\
  ConditionStatus_of_string (ConditionStatus_string (cond_Status x)) = (cond_Status x) /\
  foreign_stored Time_json 0 (cond_LastTransitionTime x).
Definition ServiceBrokerStatus_stored (x : ServiceBrokerStatus) : Prop :=
  Forall ServiceBrokerCondition_stored (bs_Conditions x) /\
  in_int64 (bs_ReconciledGeneration x) /\
  pointed (foreign_set Time_json 0) (bs_OperationStartTime x).
Definition ClusterServiceBroker_stored (x : ClusterServiceBroker) : Prop :=
  foreign_stored ObjectMeta_json ObjectMeta_zero (b_Meta x) /\
  ClusterServiceBrokerSpec_stored (b_Spec x) /\
  ServiceBrokerStatus_stored (b_Status x).
Definition ClusterServiceBrokerList_stored (x : ClusterServiceBrokerList) : Prop :=
  foreign_stored ListMeta_json ListMeta_zero (cbl_ListMeta x) /\
  Forall ClusterServiceBroker_stored (cbl_Items x).
Definition ServiceClassSpec_stored (x : ServiceClassSpec) : Prop :=
  pointed raw_stored (sc_ExternalMetadata x).
Definition ServiceClass_stored (x : ServiceClass) : Prop :=
  foreign_stored ObjectMeta_json ObjectMeta_zero (sc_Meta x) /\
  ServiceClassSpec_stored (sc_Spec x).
Definition ServiceClassList_stored (x : ServiceClassList) : Prop :=
  foreign_stored ListMeta_json ListMeta_zero (scl_ListMeta x) /\
  Forall ServiceClass_stored (scl_Items x).
Definition ServicePlanSpec_stored (x : ServicePlanSpec) : Prop :=
  pointed raw_stored (sp_ExternalMetadata x) /\
  pointed raw_stored (sp_ServiceInstanceCreateParameterSchema x) /\
  pointed raw_stored (sp_ServiceInstanceUpdateParameterSchema x) /\
  pointed raw_stored (sp_ServiceInstanceCredentialCreateParameterSchema x) /\
  foreign_stored LocalObjectReference_json LocalObjectReference_zero (sp_ServiceClassRef x).
Definition ServicePlan_stored (x : ServicePlan) : Prop :=
  foreign_stored ObjectMeta_json ObjectMeta_zero (sp_Meta x) /\
  ServicePlanSpec_stored (sp_Spec x).
Definition ServicePlanList_stored (x : ServicePlanList) : Prop :=
  foreign_stored ListMeta_json ListMeta_zero (spl_ListMeta x) /\
  Forall ServicePlan_stored (spl_Items x).
Definition ServiceInstanceSpec_stored (x : ServiceInstanceSpec) : Prop :=
  pointed (foreign_set ObjectReference_json ObjectReference_zero) (ServiceClassRef x) /\
  pointed (foreign_set ObjectReference_json ObjectReference_zero) (ServicePlanRef x) /\
  pointed raw_stored (Parameters x) /\
  (ParametersFrom x) <> Some [] /\
  Forall ParametersFromSource_stored (default [] (ParametersFrom x)) /\
  pointed UserInfo_stored (si_UserInfo x).
Definition ServiceInstancePropertiesState_stored (x : ServiceInstancePropertiesState) : Prop :=
  pointed raw_stored (ps_Parameters x) /\
  pointed UserInfo_stored (ps_UserInfo x).
Definition ServiceInstanceCondition_stored (x : ServiceInstanceCondition) : Prop :=
  ConditionType_of_string (ConditionType_string (cond_Type x)) = (cond_Type x) /\
  ConditionStatus_of_string (ConditionStatus_string (cond_Status x)) = (cond_Status x) /\
  foreign_stored Time_json 0 (cond_LastTransitionTime x).
Definition ServiceInstanceStatus_stored (x : ServiceInstanceStatus) : Prop :=
  Forall ServiceInstanceCondition_stored (Conditions x) /\
  ServiceInstanceOperation_of_string (ServiceInstanceOperation_string (CurrentOperation x)) = (CurrentOperation x) /\
  in_int64 (ReconciledGeneration x) /\
  pointed (foreign_set Time_json 0) (OperationStartTime x) /\
  pointed ServiceInstancePropertiesState_stored (InProgressProperties x) /\
  pointed ServiceInstancePropertiesState_stored (ExternalProperties x).
Definition ServiceInstance_stored (x : ServiceInstance) : Prop :=
  foreign_stored ObjectMeta_json ObjectMeta_zero (si_Meta x) /\
  ServiceInstanceSpec_stored (si_Spec x) /\
  ServiceInstanceStatus_stored (si_Status x).
Definition ServiceInstanceList_stored (x : ServiceInstanceList) : Prop :=
  foreign_stored ListMeta_json ListMeta_zero (sil_ListMeta x) /\
  Forall ServiceInstance_stored (sil_Items x).
Definition ServiceInstanceCredentialSpec_stored (x : ServiceInstanceCredentialSpec) : Prop :=
  foreign_stored LocalObjectReference_json LocalObjectReference_zero (ServiceInstanceRef x) /\
  pointed raw_stored (bind_Parameters x) /\
  (bind_ParametersFrom x) <> Some [] /\
  Forall ParametersFromSource_stored (default [] (bind_ParametersFrom x)) /\
  pointed UserInfo_stored (bind_UserInfo x).
Definition ServiceInstanceCredentialPropertiesState_stored (x : ServiceInstanceCredentialPropertiesState) : Prop :=
  pointed raw_stored (bps_Parameters x) /\
  pointed UserInfo_stored (bps_UserInfo x).
Definition ServiceInstanceCredentialCondition_stored (x : ServiceInstanceCredentialCondition) : Prop :=
  ConditionType_of_string (ConditionType_string (cond_Type x)) = (cond_Type x) /\
  ConditionStatus_of_string (ConditionStatus_string (cond_Status x)) = (cond_Status x) /\
  foreign_stored Time_json 0 (cond_LastTransitionTime x).
Definition ServiceInstanceCredentialStatus_stored (x : ServiceInstanceCredentialStatus) : Prop :=
  Forall ServiceInstanceCredentialCondition_stored (bind_Conditions x) /\
  ServiceInstanceCredentialOperation_of_string (ServiceInstanceCredentialOperation_string (bind_CurrentOperation x)) = (bind_CurrentOperation x) /\
  in_int64 (bind_ReconciledGeneration x) /\
  pointed (foreign_set Time_json 0) (bind_OperationStartTime x) /\
  pointed ServiceInstanceCredentialPropertiesState_stored (bind_InProgressProperties x) /\
  pointed ServiceInstanceCredentialPropertiesState_stored (bind_ExternalProperties x).
Definition ServiceInstanceCredential_stored (x : ServiceInstanceCredential) : Prop :=
  foreign_stored ObjectMeta_json ObjectMeta_zero (bind_Meta x) /\
  ServiceInstanceCredentialSpec_stored (bind_Spec x) /\
  ServiceInstanceCredentialStatus_stored (bind_Status x).
Definition ServiceInstanceCredentialList_stored (x : ServiceInstanceCredentialList) : Prop :=
  foreign_stored ListMeta_json ListMeta_zero (sicl_ListMeta x) /\
  Forall ServiceInstanceCredential_stored (sicl_Items x).
End stored.

(** ** Playing the fields *)

Lemma plays_done {S} (x y : S) : x = y -> plays [] [] x y.
Proof. intros ->. apply plays_nil. Qed.

Lemma enum_survives {E} (to : E -> string) (fro : string -> E) (x : E) : fro (to x) = x ->
  survives (EncodeString (to x)) (fro "") (fun v x => fro <$> DecodeString v (to x)) x.
Proof. intros Hx. exists (JString (to x)). split_and!; [done..|]. cbn. by rewrite Hx. Qed.

Lemma enum_empty {E} (to : E -> string) (fro : string -> E) (x : E) :
  fro (to x) = x -> non_empty (to x) = false -> x = fro "".
Proof. intros Hx H%non_empty_false. by rewrite <-Hx, H. Qed.
Lemma slice_elements_false {T} (s : option (list T)) : s <> Some [] -> slice_elements s = false -> s = None.
Proof. by destruct s as [[]|]. Qed.
Lemma entries_false {T} (m : gmap string T) : has_elements (map_to_list m) = false -> m = ∅.
Proof. intros H%has_elements_false. by apply map_to_list_empty_iff. Qed.

Section survive.
Context {M : Machinery} {ML : MachineryLaws M}.

Lemma strings_survive l : survives (EncSliceString l) [] DecSliceString l.
Proof. apply slice_survives_driver, List.Forall_forall. intros s _. by exists (JString s). Qed.

Lemma ExtraValue_survives l : survives_as (EncodeSlice ExtraValue_CodecEncodeSelf l) (fun v => or_nil [] ExtraValue_CodecDecodeSelf v []) l.
Proof.
  destruct l as [|s l]; [by exists JNull|]. apply survives_or_nil. apply slice_survives_driver, List.Forall_forall.
  intros t _. by exists (JString t).
Qed.

Lemma extra_survives m : survives (encMapstringExtraValue m) ∅ decMapstringExtraValue m.
Proof. apply map_survives_driver; [apply range_perm|]. intros k l _. apply ExtraValue_survives. Qed.

Lemma slice_of_survives {T} (enc : T -> option json) zero dec l (P : T -> Prop) :
  (forall x, P x -> survives (enc x) zero dec x) -> Forall P l ->
  survives (EncodeArray enc l) [] (DecodeSlice zero (or_nil zero dec)) l.
Proof. intros H Hl. apply slice_survives_driver. eapply List.Forall_impl; [|exact Hl]. intros x Hx. by apply survives_or_nil, H. Qed.

Lemma pointed_survives {T} (P : T -> Prop) (enc : T -> option json) zero dec p :
  pointed P p -> (forall x, P x -> survives (enc x) zero dec x) ->
  survives_as (EncodePtr enc p) (fun v => or_nil_ptr zero dec v None) p.
Proof. intros Hp H. apply survives_ptr. intros x Hx. by apply H, Hp. Qed.

Lemma foreign_set_survives {T} (f : Foreign T) zero x : foreign_set f zero x -> survives (EncodeForeign f x) zero (foreign_dec f) x.
Proof. intros [H Hn]. by apply foreign_survives. Qed.

(** The assignments and the new variables, to be computed. *)
Ltac assign :=
  cbv beta delta [TypeMeta_zero set_Kind set_APIVersion SecretKeyReference_zero set_skr_Name set_skr_Key
    ParametersFromSource_zero set_pfs_SecretKeyRef UserInfo_zero set_ui_Username set_ui_UID set_ui_Groups
    set_ui_Extra BasicAuthConfig_zero set_bac_SecretRef BearerTokenAuthConfig_zero set_btac_SecretRef
    ServiceBrokerAuthInfo_zero set_Basic set_Bearer set_BasicAuthSecret ClusterServiceBrokerSpec_zero set_URL
    set_AuthInfo set_InsecureSkipTLSVerify set_CABundle set_RelistBehavior set_RelistDuration set_RelistRequests
    ServiceBrokerCondition_zero set_cond_Type set_cond_Status set_cond_LastTransitionTime set_cond_Reason
    set_cond_Message ServiceBrokerStatus_zero set_bs_Conditions set_bs_ReconciledGeneration
    set_bs_OperationStartTime ClusterServiceBroker_zero set_b_TypeMeta set_b_Kind set_b_APIVersion set_b_Meta
    set_b_Spec set_b_Status ClusterServiceBrokerList_zero set_cbl_TypeMeta set_cbl_Kind set_cbl_APIVersion
    set_cbl_ListMeta set_cbl_Items ServiceClassSpec_zero set_sc_ClusterServiceBrokerName set_sc_ExternalName
    set_sc_ExternalID set_sc_Description set_sc_Bindable set_sc_PlanUpdatable set_sc_ExternalMetadata set_sc_Tags
    set_sc_Requires ServiceClass_zero set_sc_TypeMeta set_sc_Kind set_sc_APIVersion set_sc_Meta set_sc_Spec
    ServiceClassList_zero set_scl_TypeMeta set_scl_Kind set_scl_APIVersion set_scl_ListMeta set_scl_Items
    ServicePlanSpec_zero set_sp_ClusterServiceBrokerName set_sp_ExternalName set_sp_ExternalID set_sp_Description
    set_sp_Bindable set_sp_Free set_sp_ExternalMetadata set_sp_ServiceInstanceCreateParameterSchema
    set_sp_ServiceInstanceUpdateParameterSchema set_sp_ServiceInstanceCredentialCreateParameterSchema
    set_sp_ServiceClassRef ServicePlan_zero set_sp_TypeMeta set_sp_Kind set_sp_APIVersion set_sp_Meta set_sp_Spec
    ServicePlanList_zero set_spl_TypeMeta set_spl_Kind set_spl_APIVersion set_spl_ListMeta set_spl_Items
    ServiceInstanceSpec_zero set_ExternalServiceClassName set_ExternalServicePlanName set_ServiceClassRef
    set_ServicePlanRef set_Parameters set_ParametersFrom set_ExternalID set_si_UserInfo
    ServiceInstancePropertiesState_zero set_ps_ExternalServicePlanName set_ps_Parameters set_ps_ParametersChecksum
    set_ps_UserInfo ServiceInstanceCondition_zero ServiceInstanceStatus_zero set_Conditions set_AsyncOpInProgress
    set_OrphanMitigationInProgress set_LastOperation set_DashboardURL set_CurrentOperation set_ReconciledGeneration
    set_OperationStartTime set_InProgressProperties set_ExternalProperties ServiceInstance_zero set_si_TypeMeta
    set_si_Kind set_si_APIVersion set_si_Meta set_si_Spec set_si_Status ServiceInstanceList_zero set_sil_TypeMeta
    set_sil_Kind set_sil_APIVersion set_sil_ListMeta set_sil_Items ServiceInstanceCredentialSpec_zero
    set_ServiceInstanceRef set_bind_Parameters set_bind_ParametersFrom set_SecretName set_bind_ExternalID
    set_bind_UserInfo ServiceInstanceCredentialPropertiesState_zero set_bps_Parameters set_bps_ParametersChecksum
    set_bps_UserInfo ServiceInstanceCredentialCondition_zero ServiceInstanceCredentialStatus_zero
    set_bind_Conditions set_bind_CurrentOperation set_bind_ReconciledGeneration set_bind_OperationStartTime
    set_bind_InProgressProperties set_bind_ExternalProperties set_bind_OrphanMitigationInProgress
    ServiceInstanceCredential_zero set_bind_TypeMeta set_bind_Kind set_bind_APIVersion set_bind_Meta set_bind_Spec
    set_bind_Status ServiceInstanceCredentialList_zero set_sicl_TypeMeta set_sicl_Kind set_sicl_APIVersion
    set_sicl_ListMeta set_sicl_Items];
  cbn.

Lemma ServiceBrokerRelistBehavior_survives x : ServiceBrokerRelistBehavior_of_string (ServiceBrokerRelistBehavior_string x) = x ->
  survives (ServiceBrokerRelistBehavior_CodecEncodeSelf x) (ServiceBrokerRelistBehavior_of_string "") ServiceBrokerRelistBehavior_CodecDecodeSelf x.
Proof. apply enum_survives. Qed.
Lemma ServiceBrokerConditionType_survives x : ConditionType_of_string (ConditionType_string x) = x ->
  survives (ServiceBrokerConditionType_CodecEncodeSelf x) (ConditionType_of_string "") ServiceBrokerConditionType_CodecDecodeSelf x.
Proof. apply enum_survives. Qed.
Lemma ConditionStatus_survives x : ConditionStatus_of_string (ConditionStatus_string x) = x ->
  survives (ConditionStatus_CodecEncodeSelf x) (ConditionStatus_of_string "") ConditionStatus_CodecDecodeSelf x.
Proof. apply enum_survives. Qed.
Lemma ServiceInstanceConditionType_survives x : ConditionType_of_string (ConditionType_string x) = x ->
  survives (ServiceInstanceConditionType_CodecEncodeSelf x) (ConditionType_of_string "") ServiceInstanceConditionType_CodecDecodeSelf x.
Proof. apply enum_survives. Qed.
Lemma ServiceInstanceOperation_survives x : ServiceInstanceOperation_of_string (ServiceInstanceOperation_string x) = x ->
  survives (ServiceInstanceOperation_CodecEncodeSelf x) (ServiceInstanceOperation_of_string "") ServiceInstanceOperation_CodecDecodeSelf x.
Proof. apply enum_survives. Qed.
Lemma ServiceInstanceCredentialConditionType_survives x : ConditionType_of_string (ConditionType_string x) = x ->
  survives (ServiceInstanceCredentialConditionType_CodecEncodeSelf x) (ConditionType_of_string "") ServiceInstanceCredentialConditionType_CodecDecodeSelf x.
Proof. apply enum_survives. Qed.
Lemma ServiceInstanceCredentialOperation_survives x : ServiceInstanceCredentialOperation_of_string (ServiceInstanceCredentialOperation_string x) = x ->
  survives (ServiceInstanceCredentialOperation_CodecEncodeSelf x) (ServiceInstanceCredentialOperation_of_string "") ServiceInstanceCredentialOperation_CodecDecodeSelf x.
Proof. apply enum_survives. Qed.
Ltac enum_value := first [apply ServiceBrokerRelistBehavior_survives | apply ServiceBrokerConditionType_survives | apply ConditionStatus_survives | apply ServiceInstanceConditionType_survives | apply ServiceInstanceOperation_survives | apply ServiceInstanceCredentialConditionType_survives | apply ServiceInstanceCredentialOperation_survives]; assumption.

Ltac survive_value :=
  cbn; first
    [ by eapply foreign_survives_as; eauto
    | apply survives_slice; first [apply strings_survive | by eapply slice_of_survives; eauto with selfer]
    | apply survives_or_nil; first
        [ apply string_survives_driver | apply bool_survives_driver | by apply int_survives_driver
        | apply bytes_survive_driver | apply extra_survives | by enum_value | by eauto with selfer ]
    | by eapply pointed_survives; [eassumption | eauto using raw_survives, foreign_set_survives with selfer]
    | apply survives_ptr; intros; first [apply string_survives_driver | apply bool_survives_driver]
    | apply survives_ptr; intros ? ->; cbn in *; first [apply strings_survive | by eapply slice_of_survives; eauto with selfer] ].

Ltac survive_absent :=
  intros; first
    [ done | by apply entries_false; assumption
    | apply (enum_empty ServiceInstanceOperation_string ServiceInstanceOperation_of_string); assumption
    | apply (enum_empty ServiceInstanceCredentialOperation_string ServiceInstanceCredentialOperation_of_string); assumption
    | by apply slice_elements_false | by apply not_nil_false | by apply non_empty_false | by apply has_elements_false ].

Ltac survive_field :=
  eapply plays_cons;
  [ first
      [ eapply plays_always; [survive_value | assign; reflexivity]
      | eapply plays_omitempty; [intros _; survive_value | survive_absent | done | cbn; try done | assign; reflexivity | assign; reflexivity] ]
  | ].

Tactic Notation "survive" reference(stored) reference(encode) reference(fromMap) reference(fromArray) reference(decode) :=
  intros Hs;
  match type of Hs with _ ?x => destruct x end;
  repeat match goal with m : TypeMeta |- _ => destruct m end;
  unfold stored in Hs; cbn in Hs; destruct_and? Hs;
  unfold encode, decode, fromMap, fromArray;
  eapply struct_survives_members;
  [ reflexivity
  | match goal with |- NoDup ?l => apply (bool_decide_eq_true_1 (NoDup l)) end; vm_compute; reflexivity
  | cbn; repeat survive_field; apply plays_nil ].


Lemma SecretKeyReference_survives h x : SecretKeyReference_stored x -> survives (SecretKeyReference_CodecEncodeSelf h x) SecretKeyReference_zero SecretKeyReference_CodecDecodeSelf x.
Proof.
  survive SecretKeyReference_stored SecretKeyReference_CodecEncodeSelf SecretKeyReference_codecDecodeSelfFromMap
    SecretKeyReference_codecDecodeSelfFromArray SecretKeyReference_CodecDecodeSelf.
Qed.
#[local] Hint Resolve SecretKeyReference_survives : selfer.
Lemma ParametersFromSource_survives h x : ParametersFromSource_stored x -> survives (ParametersFromSource_CodecEncodeSelf h x) ParametersFromSource_zero ParametersFromSource_CodecDecodeSelf x.
Proof.
  survive ParametersFromSource_stored ParametersFromSource_CodecEncodeSelf ParametersFromSource_codecDecodeSelfFromMap
    ParametersFromSource_codecDecodeSelfFromArray ParametersFromSource_CodecDecodeSelf.
Qed.
#[local] Hint Resolve ParametersFromSource_survives : selfer.
Lemma UserInfo_survives h x : UserInfo_stored x -> survives (UserInfo_CodecEncodeSelf h x) UserInfo_zero UserInfo_CodecDecodeSelf x.
Proof.
  survive UserInfo_stored UserInfo_CodecEncodeSelf UserInfo_codecDecodeSelfFromMap
    UserInfo_codecDecodeSelfFromArray UserInfo_CodecDecodeSelf.
Qed.
#[local] Hint Resolve UserInfo_survives : selfer.
Lemma BasicAuthConfig_survives h x : BasicAuthConfig_stored x -> survives (BasicAuthConfig_CodecEncodeSelf h x) BasicAuthConfig_zero BasicAuthConfig_CodecDecodeSelf x.
Proof.
  survive BasicAuthConfig_stored BasicAuthConfig_CodecEncodeSelf BasicAuthConfig_codecDecodeSelfFromMap
    BasicAuthConfig_codecDecodeSelfFromArray BasicAuthConfig_CodecDecodeSelf.
Qed.
#[local] Hint Resolve BasicAuthConfig_survives : selfer.
Lemma BearerTokenAuthConfig_survives h x : BearerTokenAuthConfig_stored x -> survives (BearerTokenAuthConfig_CodecEncodeSelf h x) BearerTokenAuthConfig_zero BearerTokenAuthConfig_CodecDecodeSelf x.
Proof.
  survive BearerTokenAuthConfig_stored BearerTokenAuthConfig_CodecEncodeSelf BearerTokenAuthConfig_codecDecodeSelfFromMap
    BearerTokenAuthConfig_codecDecodeSelfFromArray BearerTokenAuthConfig_CodecDecodeSelf.
Qed.
#[local] Hint Resolve BearerTokenAuthConfig_survives : selfer.
Lemma ServiceBrokerAuthInfo_survives h x : ServiceBrokerAuthInfo_stored x -> survives (ServiceBrokerAuthInfo_CodecEncodeSelf h x) ServiceBrokerAuthInfo_zero ServiceBrokerAuthInfo_CodecDecodeSelf x.
Proof.
  survive ServiceBrokerAuthInfo_stored ServiceBrokerAuthInfo_CodecEncodeSelf ServiceBrokerAuthInfo_codecDecodeSelfFromMap
    ServiceBrokerAuthInfo_codecDecodeSelfFromArray ServiceBrokerAuthInfo_CodecDecodeSelf.
Qed.
#[local] Hint Resolve ServiceBrokerAuthInfo_survives : selfer.
Lemma ClusterServiceBrokerSpec_survives h x : ClusterServiceBrokerSpec_stored x -> survives (ClusterServiceBrokerSpec_CodecEncodeSelf h x) ClusterServiceBrokerSpec_zero ClusterServiceBrokerSpec_CodecDecodeSelf x.
Proof.
  survive ClusterServiceBrokerSpec_stored ClusterServiceBrokerSpec_CodecEncodeSelf ClusterServiceBrokerSpec_codecDecodeSelfFromMap
    ClusterServiceBrokerSpec_codecDecodeSelfFromArray ClusterServiceBrokerSpec_CodecDecodeSelf.
Qed.
#[local] Hint Resolve ClusterServiceBrokerSpec_survives : selfer.
Lemma ServiceBrokerCondition_survives h x : ServiceBrokerCondition_stored x -> survives (ServiceBrokerCondition_CodecEncodeSelf h x) ServiceBrokerCondition_zero ServiceBrokerCondition_CodecDecodeSelf x.
Proof.
  survive ServiceBrokerCondition_stored ServiceBrokerCondition_CodecEncodeSelf ServiceBrokerCondition_codecDecodeSelfFromMap
    ServiceBrokerCondition_codecDecodeSelfFromArray ServiceBrokerCondition_CodecDecodeSelf.
Qed.
#[local] Hint Resolve ServiceBrokerCondition_survives : selfer.
Lemma ServiceBrokerStatus_survives h x : ServiceBrokerStatus_stored x -> survives (ServiceBrokerStatus_CodecEncodeSelf h x) ServiceBrokerStatus_zero ServiceBrokerStatus_CodecDecodeSelf x.
Proof.
  survive ServiceBrokerStatus_stored ServiceBrokerStatus_CodecEncodeSelf ServiceBrokerStatus_codecDecodeSelfFromMap
    ServiceBrokerStatus_codecDecodeSelfFromArray ServiceBrokerStatus_CodecDecodeSelf.
Qed.
#[local] Hint Resolve ServiceBrokerStatus_survives : selfer.
Lemma ClusterServiceBroker_survives h x : ClusterServiceBroker_stored x -> survives (ClusterServiceBroker_CodecEncodeSelf h x) ClusterServiceBroker_zero ClusterServiceBroker_CodecDecodeSelf x.
Proof.
  survive ClusterServiceBroker_stored ClusterServiceBroker_CodecEncodeSelf ClusterServiceBroker_codecDecodeSelfFromMap
    ClusterServiceBroker_codecDecodeSelfFromArray ClusterServiceBroker_CodecDecodeSelf.
Qed.
#[local] Hint Resolve ClusterServiceBroker_survives : selfer.
Lemma ClusterServiceBrokerList_survives h x : ClusterServiceBrokerList_stored x -> survives (ClusterServiceBrokerList_CodecEncodeSelf h x) ClusterServiceBrokerList_zero ClusterServiceBrokerList_CodecDecodeSelf x.
Proof.
  survive ClusterServiceBrokerList_stored ClusterServiceBrokerList_CodecEncodeSelf ClusterServiceBrokerList_codecDecodeSelfFromMap
    ClusterServiceBrokerList_codecDecodeSelfFromArray ClusterServiceBrokerList_CodecDecodeSelf.
Qed.
#[local] Hint Resolve ClusterServiceBrokerList_survives : selfer.
Lemma ServiceClassSpec_survives h x : ServiceClassSpec_stored x -> survives (ServiceClassSpec_CodecEncodeSelf h x) ServiceClassSpec_zero ServiceClassSpec_CodecDecodeSelf x.
Proof.
  survive ServiceClassSpec_stored ServiceClassSpec_CodecEncodeSelf ServiceClassSpec_codecDecodeSelfFromMap
    ServiceClassSpec_codecDecodeSelfFromArray ServiceClassSpec_CodecDecodeSelf.
Qed.
#[local] Hint Resolve ServiceClassSpec_survives : selfer.
Lemma ServiceClass_survives h x : ServiceClass_stored x -> survives (ServiceClass_CodecEncodeSelf h x) ServiceClass_zero ServiceClass_CodecDecodeSelf x.
Proof.
  survive ServiceClass_stored ServiceClass_CodecEncodeSelf ServiceClass_codecDecodeSelfFromMap
    ServiceClass_codecDecodeSelfFromArray ServiceClass_CodecDecodeSelf.
Qed.
#[local] Hint Resolve ServiceClass_survives : selfer.
Lemma ServiceClassList_survives h x : ServiceClassList_stored x -> survives (ServiceClassList_CodecEncodeSelf h x) ServiceClassList_zero ServiceClassList_CodecDecodeSelf x.
Proof.
  survive ServiceClassList_stored ServiceClassList_CodecEncodeSelf ServiceClassList_codecDecodeSelfFromMap
    ServiceClassList_codecDecodeSelfFromArray ServiceClassList_CodecDecodeSelf.
Qed.
#[local] Hint Resolve ServiceClassList_survives : selfer.
Lemma ServicePlanSpec_survives h x : ServicePlanSpec_stored x -> survives (ServicePlanSpec_CodecEncodeSelf h x) ServicePlanSpec_zero ServicePlanSpec_CodecDecodeSelf x.
Proof.
  survive ServicePlanSpec_stored ServicePlanSpec_CodecEncodeSelf ServicePlanSpec_codecDecodeSelfFromMap
    ServicePlanSpec_codecDecodeSelfFromArray ServicePlanSpec_CodecDecodeSelf.
Qed.
#[local] Hint Resolve ServicePlanSpec_survives : selfer.
Lemma ServicePlan_survives h x : ServicePlan_stored x -> survives (ServicePlan_CodecEncodeSelf h x) ServicePlan_zero ServicePlan_CodecDecodeSelf x.
Proof.
  survive ServicePlan_stored ServicePlan_CodecEncodeSelf ServicePlan_codecDecodeSelfFromMap
    ServicePlan_codecDecodeSelfFromArray ServicePlan_CodecDecodeSelf.
Qed.
#[local] Hint Resolve ServicePlan_survives : selfer.
Lemma ServicePlanList_survives h x : ServicePlanList_stored x -> survives (ServicePlanList_CodecEncodeSelf h x) ServicePlanList_zero ServicePlanList_CodecDecodeSelf x.
Proof.
  survive ServicePlanList_stored ServicePlanList_CodecEncodeSelf ServicePlanList_codecDecodeSelfFromMap
    ServicePlanList_codecDecodeSelfFromArray ServicePlanList_CodecDecodeSelf.
Qed.
#[local] Hint Resolve ServicePlanList_survives : selfer.
Lemma ServiceInstanceSpec_survives h x : ServiceInstanceSpec_stored x -> survives (ServiceInstanceSpec_CodecEncodeSelf h x) ServiceInstanceSpec_zero ServiceInstanceSpec_CodecDecodeSelf x.
Proof.
  survive ServiceInstanceSpec_stored ServiceInstanceSpec_CodecEncodeSelf ServiceInstanceSpec_codecDecodeSelfFromMap
    ServiceInstanceSpec_codecDecodeSelfFromArray ServiceInstanceSpec_CodecDecodeSelf.
Qed.
#[local] Hint Resolve ServiceInstanceSpec_survives : selfer.
Lemma ServiceInstancePropertiesState_survives h x : ServiceInstancePropertiesState_stored x -> survives (ServiceInstancePropertiesState_CodecEncodeSelf h x) ServiceInstancePropertiesState_zero ServiceInstancePropertiesState_CodecDecodeSelf x.
Proof.
  survive ServiceInstancePropertiesState_stored ServiceInstancePropertiesState_CodecEncodeSelf ServiceInstancePropertiesState_codecDecodeSelfFromMap
    ServiceInstancePropertiesState_codecDecodeSelfFromArray ServiceInstancePropertiesState_CodecDecodeSelf.
Qed.
#[local] Hint Resolve ServiceInstancePropertiesState_survives : selfer.
Lemma ServiceInstanceCondition_survives h x : ServiceInstanceCondition_stored x -> survives (ServiceInstanceCondition_CodecEncodeSelf h x) ServiceInstanceCondition_zero ServiceInstanceCondition_CodecDecodeSelf x.
Proof.
  survive ServiceInstanceCondition_stored ServiceInstanceCondition_CodecEncodeSelf ServiceInstanceCondition_codecDecodeSelfFromMap
    ServiceInstanceCondition_codecDecodeSelfFromArray ServiceInstanceCondition_CodecDecodeSelf.
Qed.
#[local] Hint Resolve ServiceInstanceCondition_survives : selfer.
Lemma ServiceInstanceStatus_survives h x : ServiceInstanceStatus_stored x -> survives (ServiceInstanceStatus_CodecEncodeSelf h x) ServiceInstanceStatus_zero ServiceInstanceStatus_CodecDecodeSelf x.
Proof.
  survive ServiceInstanceStatus_stored ServiceInstanceStatus_CodecEncodeSelf ServiceInstanceStatus_codecDecodeSelfFromMap
    ServiceInstanceStatus_codecDecodeSelfFromArray ServiceInstanceStatus_CodecDecodeSelf.
Qed.
#[local] Hint Resolve ServiceInstanceStatus_survives : selfer.
Lemma ServiceInstance_survives h x : ServiceInstance_stored x -> survives (ServiceInstance_CodecEncodeSelf h x) ServiceInstance_zero ServiceInstance_CodecDecodeSelf x.
Proof.
  survive ServiceInstance_stored ServiceInstance_CodecEncodeSelf ServiceInstance_codecDecodeSelfFromMap
    ServiceInstance_codecDecodeSelfFromArray ServiceInstance_CodecDecodeSelf.
Qed.
#[local] Hint Resolve ServiceInstance_survives : selfer.
Lemma ServiceInstanceList_survives h x : ServiceInstanceList_stored x -> survives (ServiceInstanceList_CodecEncodeSelf h x) ServiceInstanceList_zero ServiceInstanceList_CodecDecodeSelf x.
Proof.
  survive ServiceInstanceList_stored ServiceInstanceList_CodecEncodeSelf ServiceInstanceList_codecDecodeSelfFromMap
    ServiceInstanceList_codecDecodeSelfFromArray ServiceInstanceList_CodecDecodeSelf.
Qed.
#[local] Hint Resolve ServiceInstanceList_survives : selfer.
Lemma ServiceInstanceCredentialSpec_survives h x : ServiceInstanceCredentialSpec_stored x -> survives (ServiceInstanceCredentialSpec_CodecEncodeSelf h x) ServiceInstanceCredentialSpec_zero ServiceInstanceCredentialSpec_CodecDecodeSelf x.
Proof.
  survive ServiceInstanceCredentialSpec_stored ServiceInstanceCredentialSpec_CodecEncodeSelf ServiceInstanceCredentialSpec_codecDecodeSelfFromMap
    ServiceInstanceCredentialSpec_codecDecodeSelfFromArray ServiceInstanceCredentialSpec_CodecDecodeSelf.
Qed.
#[local] Hint Resolve ServiceInstanceCredentialSpec_survives : selfer.
Lemma ServiceInstanceCredentialPropertiesState_survives h x : ServiceInstanceCredentialPropertiesState_stored x -> survives (ServiceInstanceCredentialPropertiesState_CodecEncodeSelf h x) ServiceInstanceCredentialPropertiesState_zero ServiceInstanceCredentialPropertiesState_CodecDecodeSelf x.
Proof.
  survive ServiceInstanceCredentialPropertiesState_stored ServiceInstanceCredentialPropertiesState_CodecEncodeSelf ServiceInstanceCredentialPropertiesState_codecDecodeSelfFromMap
    ServiceInstanceCredentialPropertiesState_codecDecodeSelfFromArray ServiceInstanceCredentialPropertiesState_CodecDecodeSelf.
Qed.
#[local] Hint Resolve ServiceInstanceCredentialPropertiesState_survives : selfer.
Lemma ServiceInstanceCredentialCondition_survives h x : ServiceInstanceCredentialCondition_stored x -> survives (ServiceInstanceCredentialCondition_CodecEncodeSelf h x) ServiceInstanceCredentialCondition_zero ServiceInstanceCredentialCondition_CodecDecodeSelf x.
Proof.
  survive ServiceInstanceCredentialCondition_stored ServiceInstanceCredentialCondition_CodecEncodeSelf ServiceInstanceCredentialCondition_codecDecodeSelfFromMap
    ServiceInstanceCredentialCondition_codecDecodeSelfFromArray ServiceInstanceCredentialCondition_CodecDecodeSelf.
Qed.
#[local] Hint Resolve ServiceInstanceCredentialCondition_survives : selfer.
Lemma ServiceInstanceCredentialStatus_survives h x : ServiceInstanceCredentialStatus_stored x -> survives (ServiceInstanceCredentialStatus_CodecEncodeSelf h x) ServiceInstanceCredentialStatus_zero ServiceInstanceCredentialStatus_CodecDecodeSelf x.
Proof.
  survive ServiceInstanceCredentialStatus_stored ServiceInstanceCredentialStatus_CodecEncodeSelf ServiceInstanceCredentialStatus_codecDecodeSelfFromMap
    ServiceInstanceCredentialStatus_codecDecodeSelfFromArray ServiceInstanceCredentialStatus_CodecDecodeSelf.
Qed.
#[local] Hint Resolve ServiceInstanceCredentialStatus_survives : selfer.
Lemma ServiceInstanceCredential_survives h x : ServiceInstanceCredential_stored x -> survives (ServiceInstanceCredential_CodecEncodeSelf h x) ServiceInstanceCredential_zero ServiceInstanceCredential_CodecDecodeSelf x.
Proof.
  survive ServiceInstanceCredential_stored ServiceInstanceCredential_CodecEncodeSelf ServiceInstanceCredential_codecDecodeSelfFromMap
    ServiceInstanceCredential_codecDecodeSelfFromArray ServiceInstanceCredential_CodecDecodeSelf.
Qed.
#[local] Hint Resolve ServiceInstanceCredential_survives : selfer.
Lemma ServiceInstanceCredentialList_survives h x : ServiceInstanceCredentialList_stored x -> survives (ServiceInstanceCredentialList_CodecEncodeSelf h x) ServiceInstanceCredentialList_zero ServiceInstanceCredentialList_CodecDecodeSelf x.
Proof.
  survive ServiceInstanceCredentialList_stored ServiceInstanceCredentialList_CodecEncodeSelf ServiceInstanceCredentialList_codecDecodeSelfFromMap
    ServiceInstanceCredentialList_codecDecodeSelfFromArray ServiceInstanceCredentialList_CodecDecodeSelf.
Qed.
#[local] Hint Resolve ServiceInstanceCredentialList_survives : selfer.
End survive.
