(* ===== verification/ApiJson.v ===== *)
(** * The JSON of the API objects

    [json.Marshal] on the structures of
    [pkg/apis/servicecatalog/v1alpha1/types.go], by their tags, in the order of
    the fields.  The API server writes objects with [encoding/json] and reads
    them with the generated codec of [ApiCodec].

    Second, that both encoders write the same: when it goes through maps in key
    order, the generated encoder writes what [encoding/json] writes by the tags
    ([T_marshals]); so what the API server writes is what the generated decoder
    reads back ([T_JSON_survives]). *)

From stdpp Require Import sorting.
From S2P Require Import Prelude Types Json JsonText Selfer SelferLaws Fields ApiCodec ApiCodecLaws.

(** The keys of a map are written in order. *)
Definition key_le {T} (a b : string * T) : Prop := String.leb (fst a) (fst b) = true.
#[export] Instance key_le_dec {T} : RelDecision (@key_le T) := fun a b => decide (_ = _).
Definition sorted_entries {T} (m : gmap string T) : list (string * T) := merge_sort key_le (map_to_list m).

Definition ExtraValue_MarshalJSON (x : list string) : option json := EncodeSlice (EncodeArray EncodeString) x.
(** A slice of strings. *)
Definition strings_MarshalJSON (x : list string) : option json := EncodeArray EncodeString x.

Section json.
Context {M : Machinery}.

Definition SecretKeyReference_MarshalJSON (x : SecretKeyReference) : option json :=
  MarshalStruct
    [always "name" (EncodeString (skr_Name x));
     always "key" (EncodeString (skr_Key x))].

Definition ParametersFromSource_MarshalJSON (x : ParametersFromSource) : option json :=
  MarshalStruct
    [omitempty "secretKeyRef" (not_nil (pfs_SecretKeyRef x)) (EncodePtr SecretKeyReference_MarshalJSON (pfs_SecretKeyRef x)) JNull].

Definition UserInfo_MarshalJSON (x : UserInfo) : option json :=
  MarshalStruct
    [always "username" (EncodeString (ui_Username x));
     always "uid" (EncodeString (ui_UID x));
     omitempty "groups" (slice_elements (ui_Groups x)) (EncodePtr strings_MarshalJSON (ui_Groups x)) JNull;
     omitempty "extra" (has_elements (map_to_list (ui_Extra x))) (EncodeMembers ExtraValue_MarshalJSON (sorted_entries (ui_Extra x))) JNull].

Definition BasicAuthConfig_MarshalJSON (x : BasicAuthConfig) : option json :=
  MarshalStruct
    [omitempty "secretRef" (not_nil (bac_SecretRef x)) (EncodePtr (EncodeForeign ObjectReference_json) (bac_SecretRef x)) JNull].

Definition BearerTokenAuthConfig_MarshalJSON (x : BearerTokenAuthConfig) : option json :=
  MarshalStruct
    [omitempty "secretRef" (not_nil (btac_SecretRef x)) (EncodePtr (EncodeForeign ObjectReference_json) (btac_SecretRef x)) JNull].

Definition ServiceBrokerAuthInfo_MarshalJSON (x : ServiceBrokerAuthInfo) : option json :=
  MarshalStruct
    [omitempty "basic" (not_nil (Basic x)) (EncodePtr BasicAuthConfig_MarshalJSON (Basic x)) JNull;
     omitempty "bearer" (not_nil (Bearer x)) (EncodePtr BearerTokenAuthConfig_MarshalJSON (Bearer x)) JNull;
     omitempty "basicAuthSecret" (not_nil (BasicAuthSecret x)) (EncodePtr (EncodeForeign ObjectReference_json) (BasicAuthSecret x)) JNull].

Definition ClusterServiceBrokerSpec_MarshalJSON (x : ClusterServiceBrokerSpec) : option json :=
  MarshalStruct
    [always "url" (EncodeString (URL x));
     omitempty "authInfo" (not_nil (AuthInfo x)) (EncodePtr ServiceBrokerAuthInfo_MarshalJSON (AuthInfo x)) JNull;
     omitempty "insecureSkipTLSVerify" (InsecureSkipTLSVerify x) (EncodeBool (InsecureSkipTLSVerify x)) JNull;
     omitempty "caBundle" (non_empty (CABundle x)) (EncodeBytes (CABundle x)) JNull;
     always "relistBehavior" (EncodeString (ServiceBrokerRelistBehavior_string (RelistBehavior x)));
     omitempty "relistDuration" (not_nil (RelistDuration x)) (EncodePtr (EncodeForeign Duration_json) (RelistDuration x)) JNull;
     always "relistRequests" (EncodeInt (RelistRequests x))].

Definition ServiceBrokerCondition_MarshalJSON (x : ServiceBrokerCondition) : option json :=
  MarshalStruct
    [always "type" (EncodeString (ConditionType_string (cond_Type x)));
     always "status" (EncodeString (ConditionStatus_string (cond_Status x)));
     always "lastTransitionTime" (EncodeForeign Time_json (cond_LastTransitionTime x));
     always "reason" (EncodeString (cond_Reason x));
     always "message" (EncodeString (cond_Message x))].

Definition ServiceBrokerStatus_MarshalJSON (x : ServiceBrokerStatus) : option json :=
  MarshalStruct
    [always "conditions" (EncodeSlice (EncodeArray ServiceBrokerCondition_MarshalJSON) (bs_Conditions x));
     always "reconciledGeneration" (EncodeInt (bs_ReconciledGeneration x));
     omitempty "operationStartTime" (not_nil (bs_OperationStartTime x)) (EncodePtr (EncodeForeign Time_json) (bs_OperationStartTime x)) JNull].

Definition ClusterServiceBroker_MarshalJSON (x : ClusterServiceBroker) : option json :=
  MarshalStruct
    [omitempty "kind" (non_empty (Kind (b_TypeMeta x))) (EncodeString (Kind (b_TypeMeta x))) JNull;
     omitempty "apiVersion" (non_empty (APIVersion (b_TypeMeta x))) (EncodeString (APIVersion (b_TypeMeta x))) JNull;
     always "metadata" (EncodeForeign ObjectMeta_json (b_Meta x));
     always "spec" (ClusterServiceBrokerSpec_MarshalJSON (b_Spec x));
     always "status" (ServiceBrokerStatus_MarshalJSON (b_Status x))].

Definition ClusterServiceBrokerList_MarshalJSON (x : ClusterServiceBrokerList) : option json :=
  MarshalStruct
    [omitempty "kind" (non_empty (Kind (cbl_TypeMeta x))) (EncodeString (Kind (cbl_TypeMeta x))) JNull;
     omitempty "apiVersion" (non_empty (APIVersion (cbl_TypeMeta x))) (EncodeString (APIVersion (cbl_TypeMeta x))) JNull;
     always "metadata" (EncodeForeign ListMeta_json (cbl_ListMeta x));
     always "items" (EncodeSlice (EncodeArray ClusterServiceBroker_MarshalJSON) (cbl_Items x))].

Definition ServiceClassSpec_MarshalJSON (x : ServiceClassSpec) : option json :=
  MarshalStruct
    [always "clusterServiceBrokerName" (EncodeString (sc_ClusterServiceBrokerName x));
     always "externalName" (EncodeString (sc_ExternalName x));
     always "externalID" (EncodeString (sc_ExternalID x));
     always "description" (EncodeString (sc_Description x));
     always "bindable" (EncodeBool (sc_Bindable x));
     always "planUpdatable" (EncodeBool (sc_PlanUpdatable x));
     omitempty "externalMetadata" (not_nil (sc_ExternalMetadata x)) (EncodePtr RawExtension_MarshalJSON (sc_ExternalMetadata x)) JNull;
     omitempty "tags" (has_elements (sc_Tags x)) (EncodeSlice strings_MarshalJSON (sc_Tags x)) JNull;
     omitempty "requires" (has_elements (sc_Requires x)) (EncodeSlice strings_MarshalJSON (sc_Requires x)) JNull].

Definition ServiceClass_MarshalJSON (x : ServiceClass) : option json :=
  MarshalStruct
    [omitempty "kind" (non_empty (Kind (sc_TypeMeta x))) (EncodeString (Kind (sc_TypeMeta x))) JNull;
     omitempty "apiVersion" (non_empty (APIVersion (sc_TypeMeta x))) (EncodeString (APIVersion (sc_TypeMeta x))) JNull;
     always "metadata" (EncodeForeign ObjectMeta_json (sc_Meta x));
     always "spec" (ServiceClassSpec_MarshalJSON (sc_Spec x))].

Definition ServiceClassList_MarshalJSON (x : ServiceClassList) : option json :=
  MarshalStruct
    [omitempty "kind" (non_empty (Kind (scl_TypeMeta x))) (EncodeString (Kind (scl_TypeMeta x))) JNull;
     omitempty "apiVersion" (non_empty (APIVersion (scl_TypeMeta x))) (EncodeString (APIVersion (scl_TypeMeta x))) JNull;
     always "metadata" (EncodeForeign ListMeta_json (scl_ListMeta x));
     always "items" (EncodeSlice (EncodeArray ServiceClass_MarshalJSON) (scl_Items x))].

Definition ServicePlanSpec_MarshalJSON (x : ServicePlanSpec) : option json :=
  MarshalStruct
    [always "clusterServiceBrokerName" (EncodeString (sp_ClusterServiceBrokerName x));
     always "externalName" (EncodeString (sp_ExternalName x));
     always "externalID" (EncodeString (sp_ExternalID x));
     always "description" (EncodeString (sp_Description x));
     omitempty "bindable" (not_nil (sp_Bindable x)) (EncodePtr EncodeBool (sp_Bindable x)) JNull;
     always "free" (EncodeBool (sp_Free x));
     omitempty "externalMetadata" (not_nil (sp_ExternalMetadata x)) (EncodePtr RawExtension_MarshalJSON (sp_ExternalMetadata x)) JNull;
     omitempty "instanceCreateParameterSchema" (not_nil (sp_ServiceInstanceCreateParameterSchema x)) (EncodePtr RawExtension_MarshalJSON (sp_ServiceInstanceCreateParameterSchema x)) JNull;
     omitempty "instanceUpdateParameterSchema" (not_nil (sp_ServiceInstanceUpdateParameterSchema x)) (EncodePtr RawExtension_MarshalJSON (sp_ServiceInstanceUpdateParameterSchema x)) JNull;
     omitempty "serviceInstanceCredentialCreateParameterSchema" (not_nil (sp_ServiceInstanceCredentialCreateParameterSchema x)) (EncodePtr RawExtension_MarshalJSON (sp_ServiceInstanceCredentialCreateParameterSchema x)) JNull;
     always "serviceClassRef" (EncodeForeign LocalObjectReference_json (sp_ServiceClassRef x))].

Definition ServicePlan_MarshalJSON (x : ServicePlan) : option json :=
  MarshalStruct
    [omitempty "kind" (non_empty (Kind (sp_TypeMeta x))) (EncodeString (Kind (sp_TypeMeta x))) JNull;
     omitempty "apiVersion" (non_empty (APIVersion (sp_TypeMeta x))) (EncodeString (APIVersion (sp_TypeMeta x))) JNull;
     always "metadata" (EncodeForeign ObjectMeta_json (sp_Meta x));
     always "spec" (ServicePlanSpec_MarshalJSON (sp_Spec x))].

Definition ServicePlanList_MarshalJSON (x : ServicePlanList) : option json :=
  MarshalStruct
    [omitempty "kind" (non_empty (Kind (spl_TypeMeta x))) (EncodeString (Kind (spl_TypeMeta x))) JNull;
     omitempty "apiVersion" (non_empty (APIVersion (spl_TypeMeta x))) (EncodeString (APIVersion (spl_TypeMeta x))) JNull;
     always "metadata" (EncodeForeign ListMeta_json (spl_ListMeta x));
     always "items" (EncodeSlice (EncodeArray ServicePlan_MarshalJSON) (spl_Items x))].

Definition ServiceInstanceSpec_MarshalJSON (x : ServiceInstanceSpec) : option json :=
  MarshalStruct
    [always "externalServiceClassName" (EncodeString (ExternalServiceClassName x));
     omitempty "externalServicePlanName" (non_empty (ExternalServicePlanName x)) (EncodeString (ExternalServicePlanName x)) JNull;
     omitempty "serviceClassRef" (not_nil (ServiceClassRef x)) (EncodePtr (EncodeForeign ObjectReference_json) (ServiceClassRef x)) JNull;
     omitempty "servicePlanRef" (not_nil (ServicePlanRef x)) (EncodePtr (EncodeForeign ObjectReference_json) (ServicePlanRef x)) JNull;
     omitempty "parameters" (not_nil (Parameters x)) (EncodePtr RawExtension_MarshalJSON (Parameters x)) JNull;
     omitempty "parametersFrom" (slice_elements (ParametersFrom x)) (EncodePtr (EncodeArray ParametersFromSource_MarshalJSON) (ParametersFrom x)) JNull;
     always "externalID" (EncodeString (ExternalID x));
     omitempty "userInfo" (not_nil (si_UserInfo x)) (EncodePtr UserInfo_MarshalJSON (si_UserInfo x)) JNull].

Definition ServiceInstancePropertiesState_MarshalJSON (x : ServiceInstancePropertiesState) : option json :=
  MarshalStruct
    [always "externalServicePlanName" (EncodeString (ps_ExternalServicePlanName x));
     omitempty "parameters" (not_nil (ps_Parameters x)) (EncodePtr RawExtension_MarshalJSON (ps_Parameters x)) JNull;
     omitempty "parameterChecksum" (non_empty (ps_ParametersChecksum x)) (EncodeString (ps_ParametersChecksum x)) JNull;
     omitempty "userInfo" (not_nil (ps_UserInfo x)) (EncodePtr UserInfo_MarshalJSON (ps_UserInfo x)) JNull].

Definition ServiceInstanceCondition_MarshalJSON (x : ServiceInstanceCondition) : option json :=
  MarshalStruct
    [always "type" (EncodeString (ConditionType_string (cond_Type x)));
     always "status" (EncodeString (ConditionStatus_string (cond_Status x)));
     always "lastTransitionTime" (EncodeForeign Time_json (cond_LastTransitionTime x));
     always "reason" (EncodeString (cond_Reason x));
     always "message" (EncodeString (cond_Message x))].

Definition ServiceInstanceStatus_MarshalJSON (x : ServiceInstanceStatus) : option json :=
  MarshalStruct
    [always "conditions" (EncodeSlice (EncodeArray ServiceInstanceCondition_MarshalJSON) (Conditions x));
     always "asyncOpInProgress" (EncodeBool (AsyncOpInProgress x));
     always "orphanMitigationInProgress" (EncodeBool (OrphanMitigationInProgress x));
     omitempty "lastOperation" (not_nil (LastOperation x)) (EncodePtr EncodeString (LastOperation x)) JNull;
     omitempty "dashboardURL" (not_nil (DashboardURL x)) (EncodePtr EncodeString (DashboardURL x)) JNull;
     omitempty "currentOperation" (non_empty (ServiceInstanceOperation_string (CurrentOperation x))) (EncodeString (ServiceInstanceOperation_string (CurrentOperation x))) JNull;
     always "reconciledGeneration" (EncodeInt (ReconciledGeneration x));
     omitempty "operationStartTime" (not_nil (OperationStartTime x)) (EncodePtr (EncodeForeign Time_json) (OperationStartTime x)) JNull;
     omitempty "inProgressProperties" (not_nil (InProgressProperties x)) (EncodePtr ServiceInstancePropertiesState_MarshalJSON (InProgressProperties x)) JNull;
     omitempty "externalProperties" (not_nil (ExternalProperties x)) (EncodePtr ServiceInstancePropertiesState_MarshalJSON (ExternalProperties x)) JNull].

Definition ServiceInstance_MarshalJSON (x : ServiceInstance) : option json :=
  MarshalStruct
    [omitempty "kind" (non_empty (Kind (si_TypeMeta x))) (EncodeString (Kind (si_TypeMeta x))) JNull;
     omitempty "apiVersion" (non_empty (APIVersion (si_TypeMeta x))) (EncodeString (APIVersion (si_TypeMeta x))) JNull;
     always "metadata" (EncodeForeign ObjectMeta_json (si_Meta x));
     always "spec" (ServiceInstanceSpec_MarshalJSON (si_Spec x));
     always "status" (ServiceInstanceStatus_MarshalJSON (si_Status x))].

Definition ServiceInstanceList_MarshalJSON (x : ServiceInstanceList) : option json :=
  MarshalStruct
    [omitempty "kind" (non_empty (Kind (sil_TypeMeta x))) (EncodeString (Kind (sil_TypeMeta x))) JNull;
     omitempty "apiVersion" (non_empty (APIVersion (sil_TypeMeta x))) (EncodeString (APIVersion (sil_TypeMeta x))) JNull;
     always "metadata" (EncodeForeign ListMeta_json (sil_ListMeta x));
     always "items" (EncodeSlice (EncodeArray ServiceInstance_MarshalJSON) (sil_Items x))].

Definition ServiceInstanceCredentialSpec_MarshalJSON (x : ServiceInstanceCredentialSpec) : option json :=
  MarshalStruct
    [always "instanceRef" (EncodeForeign LocalObjectReference_json (ServiceInstanceRef x));
     omitempty "parameters" (not_nil (bind_Parameters x)) (EncodePtr RawExtension_MarshalJSON (bind_Parameters x)) JNull;
     omitempty "parametersFrom" (slice_elements (bind_ParametersFrom x)) (EncodePtr (EncodeArray ParametersFromSource_MarshalJSON) (bind_ParametersFrom x)) JNull;
     omitempty "secretName" (non_empty (SecretName x)) (EncodeString (SecretName x)) JNull;
     always "externalID" (EncodeString (bind_ExternalID x));
     omitempty "userInfo" (not_nil (bind_UserInfo x)) (EncodePtr UserInfo_MarshalJSON (bind_UserInfo x)) JNull].

Definition ServiceInstanceCredentialPropertiesState_MarshalJSON (x : ServiceInstanceCredentialPropertiesState) : option json :=
  MarshalStruct
    [omitempty "parameters" (not_nil (bps_Parameters x)) (EncodePtr RawExtension_MarshalJSON (bps_Parameters x)) JNull;
     omitempty "parameterChecksum" (non_empty (bps_ParametersChecksum x)) (EncodeString (bps_ParametersChecksum x)) JNull;
     omitempty "userInfo" (not_nil (bps_UserInfo x)) (EncodePtr UserInfo_MarshalJSON (bps_UserInfo x)) JNull].

Definition ServiceInstanceCredentialCondition_MarshalJSON (x : ServiceInstanceCredentialCondition) : option json :=
  MarshalStruct
    [always "type" (EncodeString (ConditionType_string (cond_Type x)));
     always "status" (EncodeString (ConditionStatus_string (cond_Status x)));
     always "lastTransitionTime" (EncodeForeign Time_json (cond_LastTransitionTime x));
     always "reason" (EncodeString (cond_Reason x));
     always "message" (EncodeString (cond_Message x))].

Definition ServiceInstanceCredentialStatus_MarshalJSON (x : ServiceInstanceCredentialStatus) : option json :=
  MarshalStruct
    [always "conditions" (EncodeSlice (EncodeArray ServiceInstanceCredentialCondition_MarshalJSON) (bind_Conditions x));
     omitempty "currentOperation" (non_empty (ServiceInstanceCredentialOperation_string (bind_CurrentOperation x))) (EncodeString (ServiceInstanceCredentialOperation_string (bind_CurrentOperation x))) JNull;
     always "reconciledGeneration" (EncodeInt (bind_ReconciledGeneration x));
     omitempty "operationStartTime" (not_nil (bind_OperationStartTime x)) (EncodePtr (EncodeForeign Time_json) (bind_OperationStartTime x)) JNull;
     omitempty "inProgressProperties" (not_nil (bind_InProgressProperties x)) (EncodePtr ServiceInstanceCredentialPropertiesState_MarshalJSON (bind_InProgressProperties x)) JNull;
     omitempty "externalProperties" (not_nil (bind_ExternalProperties x)) (EncodePtr ServiceInstanceCredentialPropertiesState_MarshalJSON (bind_ExternalProperties x)) JNull;
     always "orphanMitigationInProgress" (EncodeBool (bind_OrphanMitigationInProgress x))].

Definition ServiceInstanceCredential_MarshalJSON (x : ServiceInstanceCredential) : option json :=
  MarshalStruct
    [omitempty "kind" (non_empty (Kind (bind_TypeMeta x))) (EncodeString (Kind (bind_TypeMeta x))) JNull;
     omitempty "apiVersion" (non_empty (APIVersion (bind_TypeMeta x))) (EncodeString (APIVersion (bind_TypeMeta x))) JNull;
     always "metadata" (EncodeForeign ObjectMeta_json (bind_Meta x));
     always "spec" (ServiceInstanceCredentialSpec_MarshalJSON (bind_Spec x));
     always "status" (ServiceInstanceCredentialStatus_MarshalJSON (bind_Status x))].

Definition ServiceInstanceCredentialList_MarshalJSON (x : ServiceInstanceCredentialList) : option json :=
  MarshalStruct
    [omitempty "kind" (non_empty (Kind (sicl_TypeMeta x))) (EncodeString (Kind (sicl_TypeMeta x))) JNull;
     omitempty "apiVersion" (non_empty (APIVersion (sicl_TypeMeta x))) (EncodeString (APIVersion (sicl_TypeMeta x))) JNull;
     always "metadata" (EncodeForeign ListMeta_json (sicl_ListMeta x));
     always "items" (EncodeSlice (EncodeArray ServiceInstanceCredential_MarshalJSON) (sicl_Items x))].

End json.

(** ** The generated encoder writes the same *)

(** The same packages, with maps in key order. *)
Definition in_key_order (M : Machinery) : Machinery :=
  {| ObjectMeta_json := @ObjectMeta_json M; ListMeta_json := @ListMeta_json M;
     ObjectReference_json := @ObjectReference_json M; LocalObjectReference_json := @LocalObjectReference_json M;
     Time_json := @Time_json M; Duration_json := @Duration_json M;
     DecodeInt_other := @DecodeInt_other M; range := @sorted_entries |}.

#[export] Instance in_key_order_laws M (L : MachineryLaws M) : MachineryLaws (in_key_order M).
Proof.
  split; cbn. intros T m. apply merge_sort_Permutation.
Qed.

(** Members that differ at most in what stands for a missing field. *)
Definition same_member (a b : Member) : Prop := m_key a = m_key b /\ m_set a = m_set b /\ m_value a = m_value b.

Lemma same_members ms ms' : Forall2 same_member ms ms' -> EncodeStruct JsonHandle ms = MarshalStruct ms'.
Proof.
  intros H. unfold EncodeStruct, MarshalStruct. cbn. f_equal.
  induction H as [|a b ms ms' (Hk & Hs & Hv) _ IH]; [done|]. cbn. by rewrite Hk, Hs, Hv, IH.
Qed.

Lemma EncodePtr_ext {T} (f g : T -> option json) p : (forall x, f x = g x) -> EncodePtr f p = EncodePtr g p.
Proof. intros H. destruct p; [apply H|done]. Qed.
Lemma EncodeArray_ext {T} (f g : T -> option json) l : (forall x, f x = g x) -> EncodeArray f l = EncodeArray g l.
Proof. intros H. unfold EncodeArray. f_equal. induction l as [|x l IH]; [done|]. cbn. by rewrite H, IH. Qed.
Lemma EncodeSlice_ext {T} (f g : list T -> option json) l : (forall x, f x = g x) -> EncodeSlice f l = EncodeSlice g l.
Proof. intros H. destruct l; [done|apply H]. Qed.
Lemma EncodeMembers_ext {T} (f g : T -> option json) l : (forall x, f x = g x) -> EncodeMembers f l = EncodeMembers g l.
Proof. intros H. unfold EncodeMembers. f_equal. induction l as [|[k x] l IH]; [done|]. cbn. by rewrite H, IH. Qed.
Lemma EncodeSlice_twice {T} (f : list T -> option json) l : EncodeSlice (EncodeSlice f) l = EncodeSlice f l.
Proof. by destruct l. Qed.

Lemma same_always k v v' ms ms' : v = v' -> Forall2 same_member ms ms' ->
  Forall2 same_member (always k v :: ms) (always k v' :: ms').
Proof. intros -> H. by constructor. Qed.
Lemma same_omitempty k b v v' e e' ms ms' : v = v' -> Forall2 same_member ms ms' ->
  Forall2 same_member (omitempty k b v e :: ms) (omitempty k b v' e' :: ms').
Proof. intros -> H. by constructor. Qed.
Lemma same_structure k v v' e ms ms' : v = v' -> Forall2 same_member ms ms' ->
  Forall2 same_member (omitempty k true v e :: ms) (always k v' :: ms').
Proof. intros -> H. by constructor. Qed.

Ltac marshals_value :=
  first
    [ solve [eauto with marshals nocore]
    | apply EncodePtr_ext; intros; marshals_value
    | apply EncodeSlice_ext; intros; marshals_value
    | apply EncodeArray_ext; intros; marshals_value
    | apply EncodeMembers_ext; intros; apply EncodeSlice_twice
    | reflexivity ].
Ltac marshals :=
  apply same_members; repeat first [apply same_always | apply same_omitempty | apply same_structure | apply Forall2_nil_2]; marshals_value.

(** The decoder does not depend on the order. *)
Tactic Notation "by_key_order" constr(l) constr(H) :=
  first [exact (l (in_key_order _) _ JsonHandle _ H) | exact (l (in_key_order _) JsonHandle _ H) | exact (l JsonHandle _ H)].

Section marshals.
Context {M : Machinery} {ML : MachineryLaws M}.

Lemma SecretKeyReference_marshals x : SecretKeyReference_CodecEncodeSelf JsonHandle x = SecretKeyReference_MarshalJSON x.
Proof. marshals. Qed.
#[local] Hint Resolve SecretKeyReference_marshals : marshals.
Lemma ParametersFromSource_marshals x : ParametersFromSource_CodecEncodeSelf JsonHandle x = ParametersFromSource_MarshalJSON x.
Proof. marshals. Qed.
#[local] Hint Resolve ParametersFromSource_marshals : marshals.
Lemma UserInfo_marshals x : @UserInfo_CodecEncodeSelf (in_key_order M) JsonHandle x = UserInfo_MarshalJSON x.
Proof. marshals. Qed.
#[local] Hint Resolve UserInfo_marshals : marshals.
Lemma BasicAuthConfig_marshals x : @BasicAuthConfig_CodecEncodeSelf (in_key_order M) JsonHandle x = BasicAuthConfig_MarshalJSON x.
Proof. marshals. Qed.
#[local] Hint Resolve BasicAuthConfig_marshals : marshals.
Lemma BearerTokenAuthConfig_marshals x : @BearerTokenAuthConfig_CodecEncodeSelf (in_key_order M) JsonHandle x = BearerTokenAuthConfig_MarshalJSON x.
Proof. marshals. Qed.
#[local] Hint Resolve BearerTokenAuthConfig_marshals : marshals.
Lemma ServiceBrokerAuthInfo_marshals x : @ServiceBrokerAuthInfo_CodecEncodeSelf (in_key_order M) JsonHandle x = ServiceBrokerAuthInfo_MarshalJSON x.
Proof. marshals. Qed.
#[local] Hint Resolve ServiceBrokerAuthInfo_marshals : marshals.
Lemma ClusterServiceBrokerSpec_marshals x : @ClusterServiceBrokerSpec_CodecEncodeSelf (in_key_order M) JsonHandle x = ClusterServiceBrokerSpec_MarshalJSON x.
Proof. marshals. Qed.
#[local] Hint Resolve ClusterServiceBrokerSpec_marshals : marshals.
Lemma ServiceBrokerCondition_marshals x : @ServiceBrokerCondition_CodecEncodeSelf (in_key_order M) JsonHandle x = ServiceBrokerCondition_MarshalJSON x.
Proof. marshals. Qed.
#[local] Hint Resolve ServiceBrokerCondition_marshals : marshals.
Lemma ServiceBrokerStatus_marshals x : @ServiceBrokerStatus_CodecEncodeSelf (in_key_order M) JsonHandle x = ServiceBrokerStatus_MarshalJSON x.
Proof. marshals. Qed.
#[local] Hint Resolve ServiceBrokerStatus_marshals : marshals.
Lemma ClusterServiceBroker_marshals x : @ClusterServiceBroker_CodecEncodeSelf (in_key_order M) JsonHandle x = ClusterServiceBroker_MarshalJSON x.
Proof. marshals. Qed.
#[local] Hint Resolve ClusterServiceBroker_marshals : marshals.
Lemma ClusterServiceBrokerList_marshals x : @ClusterServiceBrokerList_CodecEncodeSelf (in_key_order M) JsonHandle x = ClusterServiceBrokerList_MarshalJSON x.
Proof. marshals. Qed.
#[local] Hint Resolve ClusterServiceBrokerList_marshals : marshals.
Lemma ServiceClassSpec_marshals x : ServiceClassSpec_CodecEncodeSelf JsonHandle x = ServiceClassSpec_MarshalJSON x.
Proof. marshals. Qed.
#[local] Hint Resolve ServiceClassSpec_marshals : marshals.
Lemma ServiceClass_marshals x : @ServiceClass_CodecEncodeSelf (in_key_order M) JsonHandle x = ServiceClass_MarshalJSON x.
Proof. marshals. Qed.
#[local] Hint Resolve ServiceClass_marshals : marshals.
Lemma ServiceClassList_marshals x : @ServiceClassList_CodecEncodeSelf (in_key_order M) JsonHandle x = ServiceClassList_MarshalJSON x.
Proof. marshals. Qed.
#[local] Hint Resolve ServiceClassList_marshals : marshals.
Lemma ServicePlanSpec_marshals x : @ServicePlanSpec_CodecEncodeSelf (in_key_order M) JsonHandle x = ServicePlanSpec_MarshalJSON x.
Proof. marshals. Qed.
#[local] Hint Resolve ServicePlanSpec_marshals : marshals.
Lemma ServicePlan_marshals x : @ServicePlan_CodecEncodeSelf (in_key_order M) JsonHandle x = ServicePlan_MarshalJSON x.
Proof. marshals. Qed.
#[local] Hint Resolve ServicePlan_marshals : marshals.
Lemma ServicePlanList_marshals x : @ServicePlanList_CodecEncodeSelf (in_key_order M) JsonHandle x = ServicePlanList_MarshalJSON x.
Proof. marshals. Qed.
#[local] Hint Resolve ServicePlanList_marshals : marshals.
Lemma ServiceInstanceSpec_marshals x : @ServiceInstanceSpec_CodecEncodeSelf (in_key_order M) JsonHandle x = ServiceInstanceSpec_MarshalJSON x.
Proof. marshals. Qed.
#[local] Hint Resolve ServiceInstanceSpec_marshals : marshals.
Lemma ServiceInstancePropertiesState_marshals x : @ServiceInstancePropertiesState_CodecEncodeSelf (in_key_order M) JsonHandle x = ServiceInstancePropertiesState_MarshalJSON x.
Proof. marshals. Qed.
#[local] Hint Resolve ServiceInstancePropertiesState_marshals : marshals.
Lemma ServiceInstanceCondition_marshals x : @ServiceInstanceCondition_CodecEncodeSelf (in_key_order M) JsonHandle x = ServiceInstanceCondition_MarshalJSON x.
Proof. marshals. Qed.
#[local] Hint Resolve ServiceInstanceCondition_marshals : marshals.
Lemma ServiceInstanceStatus_marshals x : @ServiceInstanceStatus_CodecEncodeSelf (in_key_order M) JsonHandle x = ServiceInstanceStatus_MarshalJSON x.
Proof. marshals. Qed.
#[local] Hint Resolve ServiceInstanceStatus_marshals : marshals.
Lemma ServiceInstance_marshals x : @ServiceInstance_CodecEncodeSelf (in_key_order M) JsonHandle x = ServiceInstance_MarshalJSON x.
Proof. marshals. Qed.
#[local] Hint Resolve ServiceInstance_marshals : marshals.
Lemma ServiceInstanceList_marshals x : @ServiceInstanceList_CodecEncodeSelf (in_key_order M) JsonHandle x = ServiceInstanceList_MarshalJSON x.
Proof. marshals. Qed.
#[local] Hint Resolve ServiceInstanceList_marshals : marshals.
Lemma ServiceInstanceCredentialSpec_marshals x : @ServiceInstanceCredentialSpec_CodecEncodeSelf (in_key_order M) JsonHandle x = ServiceInstanceCredentialSpec_MarshalJSON x.
Proof. marshals. Qed.
#[local] Hint Resolve ServiceInstanceCredentialSpec_marshals : marshals.
Lemma ServiceInstanceCredentialPropertiesState_marshals x : @ServiceInstanceCredentialPropertiesState_CodecEncodeSelf (in_key_order M) JsonHandle x = ServiceInstanceCredentialPropertiesState_MarshalJSON x.
Proof. marshals. Qed.
#[local] Hint Resolve ServiceInstanceCredentialPropertiesState_marshals : marshals.
Lemma ServiceInstanceCredentialCondition_marshals x : @ServiceInstanceCredentialCondition_CodecEncodeSelf (in_key_order M) JsonHandle x = ServiceInstanceCredentialCondition_MarshalJSON x.
Proof. marshals. Qed.
#[local] Hint Resolve ServiceInstanceCredentialCondition_marshals : marshals.
Lemma ServiceInstanceCredentialStatus_marshals x : @ServiceInstanceCredentialStatus_CodecEncodeSelf (in_key_order M) JsonHandle x = ServiceInstanceCredentialStatus_MarshalJSON x.
Proof. marshals. Qed.
#[local] Hint Resolve ServiceInstanceCredentialStatus_marshals : marshals.
Lemma ServiceInstanceCredential_marshals x : @ServiceInstanceCredential_CodecEncodeSelf (in_key_order M) JsonHandle x = ServiceInstanceCredential_MarshalJSON x.
Proof. marshals. Qed.
#[local] Hint Resolve ServiceInstanceCredential_marshals : marshals.
Lemma ServiceInstanceCredentialList_marshals x : @ServiceInstanceCredentialList_CodecEncodeSelf (in_key_order M) JsonHandle x = ServiceInstanceCredentialList_MarshalJSON x.
Proof. marshals. Qed.
#[local] Hint Resolve ServiceInstanceCredentialList_marshals : marshals.

Lemma SecretKeyReference_JSON_survives x : SecretKeyReference_stored x -> survives (SecretKeyReference_MarshalJSON x) SecretKeyReference_zero SecretKeyReference_CodecDecodeSelf x.
Proof. intros H. rewrite <-SecretKeyReference_marshals. by_key_order @SecretKeyReference_survives H. Qed.
Lemma ParametersFromSource_JSON_survives x : ParametersFromSource_stored x -> survives (ParametersFromSource_MarshalJSON x) ParametersFromSource_zero ParametersFromSource_CodecDecodeSelf x.
Proof. intros H. rewrite <-ParametersFromSource_marshals. by_key_order @ParametersFromSource_survives H. Qed.
Lemma UserInfo_JSON_survives x : UserInfo_stored x -> survives (UserInfo_MarshalJSON x) UserInfo_zero UserInfo_CodecDecodeSelf x.
Proof. intros H. rewrite <-UserInfo_marshals. by_key_order @UserInfo_survives H. Qed.
Lemma BasicAuthConfig_JSON_survives x : BasicAuthConfig_stored x -> survives (BasicAuthConfig_MarshalJSON x) BasicAuthConfig_zero BasicAuthConfig_CodecDecodeSelf x.
Proof. intros H. rewrite <-BasicAuthConfig_marshals. by_key_order @BasicAuthConfig_survives H. Qed.
Lemma BearerTokenAuthConfig_JSON_survives x : BearerTokenAuthConfig_stored x -> survives (BearerTokenAuthConfig_MarshalJSON x) BearerTokenAuthConfig_zero BearerTokenAuthConfig_CodecDecodeSelf x.
Proof. intros H. rewrite <-BearerTokenAuthConfig_marshals. by_key_order @BearerTokenAuthConfig_survives H. Qed.
Lemma ServiceBrokerAuthInfo_JSON_survives x : ServiceBrokerAuthInfo_stored x -> survives (ServiceBrokerAuthInfo_MarshalJSON x) ServiceBrokerAuthInfo_zero ServiceBrokerAuthInfo_CodecDecodeSelf x.
Proof. intros H. rewrite <-ServiceBrokerAuthInfo_marshals. by_key_order @ServiceBrokerAuthInfo_survives H. Qed.
Lemma ClusterServiceBrokerSpec_JSON_survives x : ClusterServiceBrokerSpec_stored x -> survives (ClusterServiceBrokerSpec_MarshalJSON x) ClusterServiceBrokerSpec_zero ClusterServiceBrokerSpec_CodecDecodeSelf x.
Proof. intros H. rewrite <-ClusterServiceBrokerSpec_marshals. by_key_order @ClusterServiceBrokerSpec_survives H. Qed.
Lemma ServiceBrokerCondition_JSON_survives x : ServiceBrokerCondition_stored x -> survives (ServiceBrokerCondition_MarshalJSON x) ServiceBrokerCondition_zero ServiceBrokerCondition_CodecDecodeSelf x.
Proof. intros H. rewrite <-ServiceBrokerCondition_marshals. by_key_order @ServiceBrokerCondition_survives H. Qed.
Lemma ServiceBrokerStatus_JSON_survives x : ServiceBrokerStatus_stored x -> survives (ServiceBrokerStatus_MarshalJSON x) ServiceBrokerStatus_zero ServiceBrokerStatus_CodecDecodeSelf x.
Proof. intros H. rewrite <-ServiceBrokerStatus_marshals. by_key_order @ServiceBrokerStatus_survives H. Qed.
Lemma ClusterServiceBroker_JSON_survives x : ClusterServiceBroker_stored x -> survives (ClusterServiceBroker_MarshalJSON x) ClusterServiceBroker_zero ClusterServiceBroker_CodecDecodeSelf x.
Proof. intros H. rewrite <-ClusterServiceBroker_marshals. by_key_order @ClusterServiceBroker_survives H. Qed.
Lemma ClusterServiceBrokerList_JSON_survives x : ClusterServiceBrokerList_stored x -> survives (ClusterServiceBrokerList_MarshalJSON x) ClusterServiceBrokerList_zero ClusterServiceBrokerList_CodecDecodeSelf x.
Proof. intros H. rewrite <-ClusterServiceBrokerList_marshals. by_key_order @ClusterServiceBrokerList_survives H. Qed.
Lemma ServiceClassSpec_JSON_survives x : ServiceClassSpec_stored x -> survives (ServiceClassSpec_MarshalJSON x) ServiceClassSpec_zero ServiceClassSpec_CodecDecodeSelf x.
Proof. intros H. rewrite <-ServiceClassSpec_marshals. by_key_order @ServiceClassSpec_survives H. Qed.
Lemma ServiceClass_JSON_survives x : ServiceClass_stored x -> survives (ServiceClass_MarshalJSON x) ServiceClass_zero ServiceClass_CodecDecodeSelf x.
Proof. intros H. rewrite <-ServiceClass_marshals. by_key_order @ServiceClass_survives H. Qed.
Lemma ServiceClassList_JSON_survives x : ServiceClassList_stored x -> survives (ServiceClassList_MarshalJSON x) ServiceClassList_zero ServiceClassList_CodecDecodeSelf x.
Proof. intros H. rewrite <-ServiceClassList_marshals. by_key_order @ServiceClassList_survives H. Qed.
Lemma ServicePlanSpec_JSON_survives x : ServicePlanSpec_stored x -> survives (ServicePlanSpec_MarshalJSON x) ServicePlanSpec_zero ServicePlanSpec_CodecDecodeSelf x.
Proof. intros H. rewrite <-ServicePlanSpec_marshals. by_key_order @ServicePlanSpec_survives H. Qed.
Lemma ServicePlan_JSON_survives x : ServicePlan_stored x -> survives (ServicePlan_MarshalJSON x) ServicePlan_zero ServicePlan_CodecDecodeSelf x.
Proof. intros H. rewrite <-ServicePlan_marshals. by_key_order @ServicePlan_survives H. Qed.
Lemma ServicePlanList_JSON_survives x : ServicePlanList_stored x -> survives (ServicePlanList_MarshalJSON x) ServicePlanList_zero ServicePlanList_CodecDecodeSelf x.
Proof. intros H. rewrite <-ServicePlanList_marshals. by_key_order @ServicePlanList_survives H. Qed.
Lemma ServiceInstanceSpec_JSON_survives x : ServiceInstanceSpec_stored x -> survives (ServiceInstanceSpec_MarshalJSON x) ServiceInstanceSpec_zero ServiceInstanceSpec_CodecDecodeSelf x.
Proof. intros H. rewrite <-ServiceInstanceSpec_marshals. by_key_order @ServiceInstanceSpec_survives H. Qed.
Lemma ServiceInstancePropertiesState_JSON_survives x : ServiceInstancePropertiesState_stored x -> survives (ServiceInstancePropertiesState_MarshalJSON x) ServiceInstancePropertiesState_zero ServiceInstancePropertiesState_CodecDecodeSelf x.
Proof. intros H. rewrite <-ServiceInstancePropertiesState_marshals. by_key_order @ServiceInstancePropertiesState_survives H. Qed.
Lemma ServiceInstanceCondition_JSON_survives x : ServiceInstanceCondition_stored x -> survives (ServiceInstanceCondition_MarshalJSON x) ServiceInstanceCondition_zero ServiceInstanceCondition_CodecDecodeSelf x.
Proof. intros H. rewrite <-ServiceInstanceCondition_marshals. by_key_order @ServiceInstanceCondition_survives H. Qed.
Lemma ServiceInstanceStatus_JSON_survives x : ServiceInstanceStatus_stored x -> survives (ServiceInstanceStatus_MarshalJSON x) ServiceInstanceStatus_zero ServiceInstanceStatus_CodecDecodeSelf x.
Proof. intros H. rewrite <-ServiceInstanceStatus_marshals. by_key_order @ServiceInstanceStatus_survives H. Qed.
Lemma ServiceInstance_JSON_survives x : ServiceInstance_stored x -> survives (ServiceInstance_MarshalJSON x) ServiceInstance_zero ServiceInstance_CodecDecodeSelf x.
Proof. intros H. rewrite <-ServiceInstance_marshals. by_key_order @ServiceInstance_survives H. Qed.
Lemma ServiceInstanceList_JSON_survives x : ServiceInstanceList_stored x -> survives (ServiceInstanceList_MarshalJSON x) ServiceInstanceList_zero ServiceInstanceList_CodecDecodeSelf x.
Proof. intros H. rewrite <-ServiceInstanceList_marshals. by_key_order @ServiceInstanceList_survives H. Qed.
Lemma ServiceInstanceCredentialSpec_JSON_survives x : ServiceInstanceCredentialSpec_stored x -> survives (ServiceInstanceCredentialSpec_MarshalJSON x) ServiceInstanceCredentialSpec_zero ServiceInstanceCredentialSpec_CodecDecodeSelf x.
Proof. intros H. rewrite <-ServiceInstanceCredentialSpec_marshals. by_key_order @ServiceInstanceCredentialSpec_survives H. Qed.
Lemma ServiceInstanceCredentialPropertiesState_JSON_survives x : ServiceInstanceCredentialPropertiesState_stored x -> survives (ServiceInstanceCredentialPropertiesState_MarshalJSON x) ServiceInstanceCredentialPropertiesState_zero ServiceInstanceCredentialPropertiesState_CodecDecodeSelf x.
Proof. intros H. rewrite <-ServiceInstanceCredentialPropertiesState_marshals. by_key_order @ServiceInstanceCredentialPropertiesState_survives H. Qed.
Lemma ServiceInstanceCredentialCondition_JSON_survives x : ServiceInstanceCredentialCondition_stored x -> survives (ServiceInstanceCredentialCondition_MarshalJSON x) ServiceInstanceCredentialCondition_zero ServiceInstanceCredentialCondition_CodecDecodeSelf x.
Proof. intros H. rewrite <-ServiceInstanceCredentialCondition_marshals. by_key_order @ServiceInstanceCredentialCondition_survives H. Qed.
Lemma ServiceInstanceCredentialStatus_JSON_survives x : ServiceInstanceCredentialStatus_stored x -> survives (ServiceInstanceCredentialStatus_MarshalJSON x) ServiceInstanceCredentialStatus_zero ServiceInstanceCredentialStatus_CodecDecodeSelf x.
Proof. intros H. rewrite <-ServiceInstanceCredentialStatus_marshals. by_key_order @ServiceInstanceCredentialStatus_survives H. Qed.
Lemma ServiceInstanceCredential_JSON_survives x : ServiceInstanceCredential_stored x -> survives (ServiceInstanceCredential_MarshalJSON x) ServiceInstanceCredential_zero ServiceInstanceCredential_CodecDecodeSelf x.
Proof. intros H. rewrite <-ServiceInstanceCredential_marshals. by_key_order @ServiceInstanceCredential_survives H. Qed.
Lemma ServiceInstanceCredentialList_JSON_survives x : ServiceInstanceCredentialList_stored x -> survives (ServiceInstanceCredentialList_MarshalJSON x) ServiceInstanceCredentialList_zero ServiceInstanceCredentialList_CodecDecodeSelf x.
Proof. intros H. rewrite <-ServiceInstanceCredentialList_marshals. by_key_order @ServiceInstanceCredentialList_survives H. Qed.
End marshals.
