(* ===== verification/InternalTypes.v ===== *)
(** * The internal API types

    [pkg/apis/servicecatalog/types.go]: the version of the API objects the API
    server works on.  The structures are those of [Types], in their own types;
    an enumeration is a string, as it is in Go, with its constants.  [ExtraValue]
    and every slice the model of v1alpha1 has as a list are lists here too. *)

From S2P Require Import Prelude Types Selfer Fields.

Module servicecatalog.

Definition ServiceBrokerRelistBehavior : Type := string.
Definition ServiceBrokerRelistBehaviorDuration : ServiceBrokerRelistBehavior := "Duration".
Definition ServiceBrokerRelistBehaviorManual : ServiceBrokerRelistBehavior := "Manual".

Definition ServiceBrokerConditionType : Type := string.
Definition ServiceBrokerConditionReady : ServiceBrokerConditionType := "Ready".
Definition ServiceBrokerConditionFailed : ServiceBrokerConditionType := "Failed".

Definition ConditionStatus : Type := string.
Definition ConditionTrue : ConditionStatus := "True".
Definition ConditionFalse : ConditionStatus := "False".
Definition ConditionUnknown : ConditionStatus := "Unknown".

Definition ServiceInstanceConditionType : Type := string.
Definition ServiceInstanceConditionReady : ServiceInstanceConditionType := "Ready".
Definition ServiceInstanceConditionFailed : ServiceInstanceConditionType := "Failed".

Definition ServiceInstanceOperation : Type := string.
Definition ServiceInstanceOperationProvision : ServiceInstanceOperation := "Provision".
Definition ServiceInstanceOperationUpdate : ServiceInstanceOperation := "Update".
Definition ServiceInstanceOperationDeprovision : ServiceInstanceOperation := "Deprovision".

Definition ServiceInstanceCredentialConditionType : Type := string.
Definition ServiceInstanceCredentialConditionReady : ServiceInstanceCredentialConditionType := "Ready".
Definition ServiceInstanceCredentialConditionFailed : ServiceInstanceCredentialConditionType := "Failed".

Definition ServiceInstanceCredentialOperation : Type := string.
Definition ServiceInstanceCredentialOperationBind : ServiceInstanceCredentialOperation := "Bind".
Definition ServiceInstanceCredentialOperationUnbind : ServiceInstanceCredentialOperation := "Unbind".

Definition ExtraValue : Type := list string.

Record SecretKeyReference := {
  skr_Name : string; skr_Key : string }.
Record ParametersFromSource := {
  pfs_SecretKeyRef : option SecretKeyReference }.
Record UserInfo := {
  ui_Username : string; ui_UID : string; ui_Groups : option (list string); ui_Extra : gmap string ExtraValue }.
Record BasicAuthConfig := {
  bac_SecretRef : option ObjectReference }.
Record BearerTokenAuthConfig := {
  btac_SecretRef : option ObjectReference }.
Record ServiceBrokerAuthInfo := {
  Basic : option BasicAuthConfig; Bearer : option BearerTokenAuthConfig; BasicAuthSecret : option ObjectReference }.
Record ClusterServiceBrokerSpec := {
  URL : string; AuthInfo : option ServiceBrokerAuthInfo; InsecureSkipTLSVerify : bool; CABundle : string;
  RelistBehavior : ServiceBrokerRelistBehavior; RelistDuration : option Z; RelistRequests : Z }.
Record ServiceBrokerCondition := {
  sbc_Type : ServiceBrokerConditionType; sbc_Status : ConditionStatus; sbc_LastTransitionTime : Z;
  sbc_Reason : string; sbc_Message : string }.
Record ServiceBrokerStatus := {
  bs_Conditions : list ServiceBrokerCondition; bs_ReconciledGeneration : Z; bs_OperationStartTime : option Z }.
Record ClusterServiceBroker := {
  b_TypeMeta : TypeMeta; b_Meta : ObjectMeta; b_Spec : ClusterServiceBrokerSpec; b_Status : ServiceBrokerStatus }.
Record ClusterServiceBrokerList := {
  cbl_TypeMeta : TypeMeta; cbl_ListMeta : ListMeta; cbl_Items : list ClusterServiceBroker }.
Record ServiceClassSpec := {
  sc_ClusterServiceBrokerName : string; sc_ExternalName : string; sc_ExternalID : string;
  sc_Description : string; sc_Bindable : bool; sc_PlanUpdatable : bool;
  sc_ExternalMetadata : option RawExtension; sc_Tags : list string; sc_Requires : list string }.
Record ServiceClass := {
  sc_TypeMeta : TypeMeta; sc_Meta : ObjectMeta; sc_Spec : ServiceClassSpec }.
Record ServiceClassList := {
  scl_TypeMeta : TypeMeta; scl_ListMeta : ListMeta; scl_Items : list ServiceClass }.
Record ServicePlanSpec := {
  sp_ClusterServiceBrokerName : string; sp_ExternalName : string; sp_ExternalID : string;
  sp_Description : string; sp_Bindable : option bool; sp_Free : bool; sp_ExternalMetadata : option RawExtension;
  sp_ServiceInstanceCreateParameterSchema : option RawExtension;
  sp_ServiceInstanceUpdateParameterSchema : option RawExtension;
  sp_ServiceInstanceCredentialCreateParameterSchema : option RawExtension;
  sp_ServiceClassRef : LocalObjectReference }.
Record ServicePlan := {
  sp_TypeMeta : TypeMeta; sp_Meta : ObjectMeta; sp_Spec : ServicePlanSpec }.
Record ServicePlanList := {
  spl_TypeMeta : TypeMeta; spl_ListMeta : ListMeta; spl_Items : list ServicePlan }.
Record ServiceInstanceSpec := {
  ExternalServiceClassName : string; ExternalServicePlanName : string; ServiceClassRef : option ObjectReference;
  ServicePlanRef : option ObjectReference; Parameters : option RawExtension;
  ParametersFrom : option (list ParametersFromSource); ExternalID : string; si_UserInfo : option UserInfo }.
Record ServiceInstancePropertiesState := {
  ps_ExternalServicePlanName : string; ps_Parameters : option RawExtension; ps_ParametersChecksum : string;
  ps_UserInfo : option UserInfo }.
Record ServiceInstanceCondition := {
  sic_Type : ServiceInstanceConditionType; sic_Status : ConditionStatus; sic_LastTransitionTime : Z;
  sic_Reason : string; sic_Message : string }.
Record ServiceInstanceStatus := {
  Conditions : list ServiceInstanceCondition; AsyncOpInProgress : bool; OrphanMitigationInProgress : bool;
  LastOperation : option string; DashboardURL : option string; CurrentOperation : ServiceInstanceOperation;
  ReconciledGeneration : Z; OperationStartTime : option Z;
  InProgressProperties : option ServiceInstancePropertiesState;
  ExternalProperties : option ServiceInstancePropertiesState }.
Record ServiceInstance := {
  si_TypeMeta : TypeMeta; si_Meta : ObjectMeta; si_Spec : ServiceInstanceSpec; si_Status : ServiceInstanceStatus }.
Record ServiceInstanceList := {
  sil_TypeMeta : TypeMeta; sil_ListMeta : ListMeta; sil_Items : list ServiceInstance }.
Record ServiceInstanceCredentialSpec := {
  ServiceInstanceRef : LocalObjectReference; bind_Parameters : option RawExtension;
  bind_ParametersFrom : option (list ParametersFromSource); SecretName : string; bind_ExternalID : string;
  bind_UserInfo : option UserInfo }.
Record ServiceInstanceCredentialPropertiesState := {
  bps_Parameters : option RawExtension; bps_ParametersChecksum : string; bps_UserInfo : option UserInfo }.
Record ServiceInstanceCredentialCondition := {
  sicc_Type : ServiceInstanceCredentialConditionType; sicc_Status : ConditionStatus; sicc_LastTransitionTime : Z;
  sicc_Reason : string; sicc_Message : string }.
Record ServiceInstanceCredentialStatus := {
  bind_Conditions : list ServiceInstanceCredentialCondition;
  bind_CurrentOperation : ServiceInstanceCredentialOperation; bind_ReconciledGeneration : Z;
  bind_OperationStartTime : option Z;
  bind_InProgressProperties : option ServiceInstanceCredentialPropertiesState;
  bind_ExternalProperties : option ServiceInstanceCredentialPropertiesState;
  bind_OrphanMitigationInProgress : bool }.
Record ServiceInstanceCredential := {
  bind_TypeMeta : TypeMeta; bind_Meta : ObjectMeta; bind_Spec : ServiceInstanceCredentialSpec;
  bind_Status : ServiceInstanceCredentialStatus }.
Record ServiceInstanceCredentialList := {
  sicl_TypeMeta : TypeMeta; sicl_ListMeta : ListMeta; sicl_Items : list ServiceInstanceCredential }.

End servicecatalog.
