(* ===== verification/Conversion.v ===== *)
(** * Conversion between v1alpha1 and the internal version

    [pkg/apis/servicecatalog/v1alpha1/zz_generated.conversion.go].  [in] is the
    first argument, [out] the second: a conversion assigns the fields of [out]
    that the function assigns and keeps the others (the type meta of objects).
    A conversion through [unsafe.Pointer] reads the memory of one type as the
    other: [unsafe_..] goes by the position of the fields.  The conversions
    never fail, so the error they return, always nil, is left out. *)

From S2P Require Import Prelude Types Selfer Fields InternalTypes.

Import servicecatalog (ExtraValue).

(** [if in == nil { out = make(.., 0) } else { out = v }]. *)
Definition or_make {A B} (l : list A) (v : list B) : list B := match l with [] => [] | _ => v end.

(** ** Memory of one version read as the other *)

Definition unsafe_v1alpha1_SecretKeyReference (x : SecretKeyReference) : servicecatalog.SecretKeyReference :=
  let '(Build_SecretKeyReference a b) := x in
  servicecatalog.Build_SecretKeyReference a b.
Definition unsafe_servicecatalog_SecretKeyReference (x : servicecatalog.SecretKeyReference) : SecretKeyReference :=
  let '(servicecatalog.Build_SecretKeyReference a b) := x in
  Build_SecretKeyReference a b.
Definition unsafe_v1alpha1_ParametersFromSource (x : ParametersFromSource) : servicecatalog.ParametersFromSource :=
  let '(Build_ParametersFromSource a) := x in
  servicecatalog.Build_ParametersFromSource (unsafe_v1alpha1_SecretKeyReference <$> a).
Definition unsafe_servicecatalog_ParametersFromSource (x : servicecatalog.ParametersFromSource) : ParametersFromSource :=
  let '(servicecatalog.Build_ParametersFromSource a) := x in
  Build_ParametersFromSource (unsafe_servicecatalog_SecretKeyReference <$> a).
Definition unsafe_v1alpha1_UserInfo (x : UserInfo) : servicecatalog.UserInfo :=
  let '(Build_UserInfo a b c d) := x in
  servicecatalog.Build_UserInfo a b c d.
Definition unsafe_servicecatalog_UserInfo (x : servicecatalog.UserInfo) : UserInfo :=
  let '(servicecatalog.Build_UserInfo a b c d) := x in
  Build_UserInfo a b c d.
Definition unsafe_v1alpha1_BasicAuthConfig (x : BasicAuthConfig) : servicecatalog.BasicAuthConfig :=
  let '(Build_BasicAuthConfig a) := x in
  servicecatalog.Build_BasicAuthConfig a.
Definition unsafe_servicecatalog_BasicAuthConfig (x : servicecatalog.BasicAuthConfig) : BasicAuthConfig :=
  let '(servicecatalog.Build_BasicAuthConfig a) := x in
  Build_BasicAuthConfig a.
Definition unsafe_v1alpha1_BearerTokenAuthConfig (x : BearerTokenAuthConfig) : servicecatalog.BearerTokenAuthConfig :=
  let '(Build_BearerTokenAuthConfig a) := x in
  servicecatalog.Build_BearerTokenAuthConfig a.
Definition unsafe_servicecatalog_BearerTokenAuthConfig (x : servicecatalog.BearerTokenAuthConfig) : BearerTokenAuthConfig :=
  let '(servicecatalog.Build_BearerTokenAuthConfig a) := x in
  Build_BearerTokenAuthConfig a.
Definition unsafe_v1alpha1_ServiceBrokerAuthInfo (x : ServiceBrokerAuthInfo) : servicecatalog.ServiceBrokerAuthInfo :=
  let '(Build_ServiceBrokerAuthInfo a b c) := x in
  servicecatalog.Build_ServiceBrokerAuthInfo (unsafe_v1alpha1_BasicAuthConfig <$> a) (unsafe_v1alpha1_BearerTokenAuthConfig <$> b) c.
Definition unsafe_servicecatalog_ServiceBrokerAuthInfo (x : servicecatalog.ServiceBrokerAuthInfo) : ServiceBrokerAuthInfo :=
  let '(servicecatalog.Build_ServiceBrokerAuthInfo a b c) := x in
  Build_ServiceBrokerAuthInfo (unsafe_servicecatalog_BasicAuthConfig <$> a) (unsafe_servicecatalog_BearerTokenAuthConfig <$> b) c.
Definition unsafe_v1alpha1_ClusterServiceBrokerSpec (x : ClusterServiceBrokerSpec) : servicecatalog.ClusterServiceBrokerSpec :=
  let '(Build_ClusterServiceBrokerSpec a b c d e f g) := x in
  servicecatalog.Build_ClusterServiceBrokerSpec a (unsafe_v1alpha1_ServiceBrokerAuthInfo <$> b) c d (ServiceBrokerRelistBehavior_string e) f g.
Definition unsafe_servicecatalog_ClusterServiceBrokerSpec (x : servicecatalog.ClusterServiceBrokerSpec) : ClusterServiceBrokerSpec :=
  let '(servicecatalog.Build_ClusterServiceBrokerSpec a b c d e f g) := x in
  Build_ClusterServiceBrokerSpec a (unsafe_servicecatalog_ServiceBrokerAuthInfo <$> b) c d (ServiceBrokerRelistBehavior_of_string e) f g.
Definition unsafe_v1alpha1_ServiceBrokerCondition (x : ServiceBrokerCondition) : servicecatalog.ServiceBrokerCondition :=
  let '(Build_ServiceInstanceCondition a b c d e) := x in
  servicecatalog.Build_ServiceBrokerCondition (ConditionType_string a) (ConditionStatus_string b) c d e.
Definition unsafe_servicecatalog_ServiceBrokerCondition (x : servicecatalog.ServiceBrokerCondition) : ServiceBrokerCondition :=
  let '(servicecatalog.Build_ServiceBrokerCondition a b c d e) := x in
  Build_ServiceInstanceCondition (ConditionType_of_string a) (ConditionStatus_of_string b) c d e.
Definition unsafe_v1alpha1_ServiceBrokerStatus (x : ServiceBrokerStatus) : servicecatalog.ServiceBrokerStatus :=
  let '(Build_ServiceBrokerStatus a b c) := x in
  servicecatalog.Build_ServiceBrokerStatus (map unsafe_v1alpha1_ServiceBrokerCondition a) b c.
Definition unsafe_servicecatalog_ServiceBrokerStatus (x : servicecatalog.ServiceBrokerStatus) : ServiceBrokerStatus :=
  let '(servicecatalog.Build_ServiceBrokerStatus a b c) := x in
  Build_ServiceBrokerStatus (map unsafe_servicecatalog_ServiceBrokerCondition a) b c.
Definition unsafe_v1alpha1_ClusterServiceBroker (x : ClusterServiceBroker) : servicecatalog.ClusterServiceBroker :=
  let '(Build_ClusterServiceBroker a b c d) := x in
  servicecatalog.Build_ClusterServiceBroker a b (unsafe_v1alpha1_ClusterServiceBrokerSpec c) (unsafe_v1alpha1_ServiceBrokerStatus d).
Definition unsafe_servicecatalog_ClusterServiceBroker (x : servicecatalog.ClusterServiceBroker) : ClusterServiceBroker :=
  let '(servicecatalog.Build_ClusterServiceBroker a b c d) := x in
  Build_ClusterServiceBroker a b (unsafe_servicecatalog_ClusterServiceBrokerSpec c) (unsafe_servicecatalog_ServiceBrokerStatus d).
Definition unsafe_v1alpha1_ServiceClassSpec (x : ServiceClassSpec) : servicecatalog.ServiceClassSpec :=
  let '(Build_ServiceClassSpec a b c d e f g h i) := x in
  servicecatalog.Build_ServiceClassSpec a b c d e f g h i.
Definition unsafe_servicecatalog_ServiceClassSpec (x : servicecatalog.ServiceClassSpec) : ServiceClassSpec :=
  let '(servicecatalog.Build_ServiceClassSpec a b c d e f g h i) := x in
  Build_ServiceClassSpec a b c d e f g h i.
Definition unsafe_v1alpha1_ServiceClass (x : ServiceClass) : servicecatalog.ServiceClass :=
  let '(Build_ServiceClass a b c) := x in
  servicecatalog.Build_ServiceClass a b (unsafe_v1alpha1_ServiceClassSpec c).
Definition unsafe_servicecatalog_ServiceClass (x : servicecatalog.ServiceClass) : ServiceClass :=
  let '(servicecatalog.Build_ServiceClass a b c) := x in
  Build_ServiceClass a b (unsafe_servicecatalog_ServiceClassSpec c).
Definition unsafe_v1alpha1_ServicePlanSpec (x : ServicePlanSpec) : servicecatalog.ServicePlanSpec :=
  let '(Build_ServicePlanSpec a b c d e f g h i j k) := x in
  servicecatalog.Build_ServicePlanSpec a b c d e f g h i j k.
Definition unsafe_servicecatalog_ServicePlanSpec (x : servicecatalog.ServicePlanSpec) : ServicePlanSpec :=
  let '(servicecatalog.Build_ServicePlanSpec a b c d e f g h i j k) := x in
  Build_ServicePlanSpec a b c d e f g h i j k.
Definition unsafe_v1alpha1_ServicePlan (x : ServicePlan) : servicecatalog.ServicePlan :=
  let '(Build_ServicePlan a b c) := x in
  servicecatalog.Build_ServicePlan a b (unsafe_v1alpha1_ServicePlanSpec c).
Definition unsafe_servicecatalog_ServicePlan (x : servicecatalog.ServicePlan) : ServicePlan :=
  let '(servicecatalog.Build_ServicePlan a b c) := x in
  Build_ServicePlan a b (unsafe_servicecatalog_ServicePlanSpec c).
Definition unsafe_v1alpha1_ServiceInstanceSpec (x : ServiceInstanceSpec) : servicecatalog.ServiceInstanceSpec :=
  let '(Build_ServiceInstanceSpec a b c d e f g h) := x in
  servicecatalog.Build_ServiceInstanceSpec a b c d e (map unsafe_v1alpha1_ParametersFromSource <$> f) g (unsafe_v1alpha1_UserInfo <$> h).
Definition unsafe_servicecatalog_ServiceInstanceSpec (x : servicecatalog.ServiceInstanceSpec) : ServiceInstanceSpec :=
  let '(servicecatalog.Build_ServiceInstanceSpec a b c d e f g h) := x in
  Build_ServiceInstanceSpec a b c d e (map unsafe_servicecatalog_ParametersFromSource <$> f) g (unsafe_servicecatalog_UserInfo <$> h).
Definition unsafe_v1alpha1_ServiceInstancePropertiesState (x : ServiceInstancePropertiesState) : servicecatalog.ServiceInstancePropertiesState :=
  let '(Build_ServiceInstancePropertiesState a b c d) := x in
  servicecatalog.Build_ServiceInstancePropertiesState a b c (unsafe_v1alpha1_UserInfo <$> d).
Definition unsafe_servicecatalog_ServiceInstancePropertiesState (x : servicecatalog.ServiceInstancePropertiesState) : ServiceInstancePropertiesState :=
  let '(servicecatalog.Build_ServiceInstancePropertiesState a b c d) := x in
  Build_ServiceInstancePropertiesState a b c (unsafe_servicecatalog_UserInfo <$> d).
Definition unsafe_v1alpha1_ServiceInstanceCondition (x : ServiceInstanceCondition) : servicecatalog.ServiceInstanceCondition :=
  let '(Build_ServiceInstanceCondition a b c d e) := x in
  servicecatalog.Build_ServiceInstanceCondition (ConditionType_string a) (ConditionStatus_string b) c d e.
Definition unsafe_servicecatalog_ServiceInstanceCondition (x : servicecatalog.ServiceInstanceCondition) : ServiceInstanceCondition :=
  let '(servicecatalog.Build_ServiceInstanceCondition a b c d e) := x in
  Build_ServiceInstanceCondition (ConditionType_of_string a) (ConditionStatus_of_string b) c d e.
Definition unsafe_v1alpha1_ServiceInstanceStatus (x : ServiceInstanceStatus) : servicecatalog.ServiceInstanceStatus :=
  let '(Build_ServiceInstanceStatus a b c d e f g h i j) := x in
  servicecatalog.Build_ServiceInstanceStatus (map unsafe_v1alpha1_ServiceInstanceCondition a) b c d e (ServiceInstanceOperation_string f) g h (unsafe_v1alpha1_ServiceInstancePropertiesState <$> i) (unsafe_v1alpha1_ServiceInstancePropertiesState <$> j).
Definition unsafe_servicecatalog_ServiceInstanceStatus (x : servicecatalog.ServiceInstanceStatus) : ServiceInstanceStatus :=
  let '(servicecatalog.Build_ServiceInstanceStatus a b c d e f g h i j) := x in
  Build_ServiceInstanceStatus (map unsafe_servicecatalog_ServiceInstanceCondition a) b c d e (ServiceInstanceOperation_of_string f) g h (unsafe_servicecatalog_ServiceInstancePropertiesState <$> i) (unsafe_servicecatalog_ServiceInstancePropertiesState <$> j).
Definition unsafe_v1alpha1_ServiceInstance (x : ServiceInstance) : servicecatalog.ServiceInstance :=
  let '(Build_ServiceInstance a b c d) := x in
  servicecatalog.Build_ServiceInstance a b (unsafe_v1alpha1_ServiceInstanceSpec c) (unsafe_v1alpha1_ServiceInstanceStatus d).
Definition unsafe_servicecatalog_ServiceInstance (x : servicecatalog.ServiceInstance) : ServiceInstance :=
  let '(servicecatalog.Build_ServiceInstance a b c d) := x in
  Build_ServiceInstance a b (unsafe_servicecatalog_ServiceInstanceSpec c) (unsafe_servicecatalog_ServiceInstanceStatus d).
Definition unsafe_v1alpha1_ServiceInstanceCredentialSpec (x : ServiceInstanceCredentialSpec) : servicecatalog.ServiceInstanceCredentialSpec :=
  let '(Build_ServiceInstanceCredentialSpec a b c d e f) := x in
  servicecatalog.Build_ServiceInstanceCredentialSpec a b (map unsafe_v1alpha1_ParametersFromSource <$> c) d e (unsafe_v1alpha1_UserInfo <$> f).
Definition unsafe_servicecatalog_ServiceInstanceCredentialSpec (x : servicecatalog.ServiceInstanceCredentialSpec) : ServiceInstanceCredentialSpec :=
  let '(servicecatalog.Build_ServiceInstanceCredentialSpec a b c d e f) := x in
  Build_ServiceInstanceCredentialSpec a b (map unsafe_servicecatalog_ParametersFromSource <$> c) d e (unsafe_servicecatalog_UserInfo <$> f).
Definition unsafe_v1alpha1_ServiceInstanceCredentialPropertiesState (x : ServiceInstanceCredentialPropertiesState) : servicecatalog.ServiceInstanceCredentialPropertiesState :=
  let '(Build_ServiceInstanceCredentialPropertiesState a b c) := x in
  servicecatalog.Build_ServiceInstanceCredentialPropertiesState a b (unsafe_v1alpha1_UserInfo <$> c).
Definition unsafe_servicecatalog_ServiceInstanceCredentialPropertiesState (x : servicecatalog.ServiceInstanceCredentialPropertiesState) : ServiceInstanceCredentialPropertiesState :=
  let '(servicecatalog.Build_ServiceInstanceCredentialPropertiesState a b c) := x in
  Build_ServiceInstanceCredentialPropertiesState a b (unsafe_servicecatalog_UserInfo <$> c).
Definition unsafe_v1alpha1_ServiceInstanceCredentialCondition (x : ServiceInstanceCredentialCondition) : servicecatalog.ServiceInstanceCredentialCondition :=
  let '(Build_ServiceInstanceCondition a b c d e) := x in
  servicecatalog.Build_ServiceInstanceCredentialCondition (ConditionType_string a) (ConditionStatus_string b) c d e.
Definition unsafe_servicecatalog_ServiceInstanceCredentialCondition (x : servicecatalog.ServiceInstanceCredentialCondition) : ServiceInstanceCredentialCondition :=
  let '(servicecatalog.Build_ServiceInstanceCredentialCondition a b c d e) := x in
  Build_ServiceInstanceCondition (ConditionType_of_string a) (ConditionStatus_of_string b) c d e.
Definition unsafe_v1alpha1_ServiceInstanceCredentialStatus (x : ServiceInstanceCredentialStatus) : servicecatalog.ServiceInstanceCredentialStatus :=
  let '(Build_ServiceInstanceCredentialStatus a b c d e f g) := x in
  servicecatalog.Build_ServiceInstanceCredentialStatus (map unsafe_v1alpha1_ServiceInstanceCredentialCondition a) (ServiceInstanceCredentialOperation_string b) c d (unsafe_v1alpha1_ServiceInstanceCredentialPropertiesState <$> e) (unsafe_v1alpha1_ServiceInstanceCredentialPropertiesState <$> f) g.
Definition unsafe_servicecatalog_ServiceInstanceCredentialStatus (x : servicecatalog.ServiceInstanceCredentialStatus) : ServiceInstanceCredentialStatus :=
  let '(servicecatalog.Build_ServiceInstanceCredentialStatus a b c d e f g) := x in
  Build_ServiceInstanceCredentialStatus (map unsafe_servicecatalog_ServiceInstanceCredentialCondition a) (ServiceInstanceCredentialOperation_of_string b) c d (unsafe_servicecatalog_ServiceInstanceCredentialPropertiesState <$> e) (unsafe_servicecatalog_ServiceInstanceCredentialPropertiesState <$> f) g.
Definition unsafe_v1alpha1_ServiceInstanceCredential (x : ServiceInstanceCredential) : servicecatalog.ServiceInstanceCredential :=
  let '(Build_ServiceInstanceCredential a b c d) := x in
  servicecatalog.Build_ServiceInstanceCredential a b (unsafe_v1alpha1_ServiceInstanceCredentialSpec c) (unsafe_v1alpha1_ServiceInstanceCredentialStatus d).
Definition unsafe_servicecatalog_ServiceInstanceCredential (x : servicecatalog.ServiceInstanceCredential) : ServiceInstanceCredential :=
  let '(servicecatalog.Build_ServiceInstanceCredential a b c d) := x in
  Build_ServiceInstanceCredential a b (unsafe_servicecatalog_ServiceInstanceCredentialSpec c) (unsafe_servicecatalog_ServiceInstanceCredentialStatus d).

(** ** SecretKeyReference *)

Definition autoConvert_v1alpha1_SecretKeyReference_To_servicecatalog_SecretKeyReference
    (x : SecretKeyReference) (out : servicecatalog.SecretKeyReference) : servicecatalog.SecretKeyReference :=
  {| servicecatalog.skr_Name := skr_Name x;
     servicecatalog.skr_Key := skr_Key x |}.
Definition Convert_v1alpha1_SecretKeyReference_To_servicecatalog_SecretKeyReference
    (x : SecretKeyReference) (out : servicecatalog.SecretKeyReference) : servicecatalog.SecretKeyReference :=
  autoConvert_v1alpha1_SecretKeyReference_To_servicecatalog_SecretKeyReference x out.

Definition autoConvert_servicecatalog_SecretKeyReference_To_v1alpha1_SecretKeyReference
    (x : servicecatalog.SecretKeyReference) (out : SecretKeyReference) : SecretKeyReference :=
  {| skr_Name := servicecatalog.skr_Name x;
     skr_Key := servicecatalog.skr_Key x |}.
Definition Convert_servicecatalog_SecretKeyReference_To_v1alpha1_SecretKeyReference
    (x : servicecatalog.SecretKeyReference) (out : SecretKeyReference) : SecretKeyReference :=
  autoConvert_servicecatalog_SecretKeyReference_To_v1alpha1_SecretKeyReference x out.

(** ** ParametersFromSource *)

Definition autoConvert_v1alpha1_ParametersFromSource_To_servicecatalog_ParametersFromSource
    (x : ParametersFromSource) (out : servicecatalog.ParametersFromSource) : servicecatalog.ParametersFromSource :=
  {| servicecatalog.pfs_SecretKeyRef := (unsafe_v1alpha1_SecretKeyReference <$> (pfs_SecretKeyRef x)) |}.
Definition Convert_v1alpha1_ParametersFromSource_To_servicecatalog_ParametersFromSource
    (x : ParametersFromSource) (out : servicecatalog.ParametersFromSource) : servicecatalog.ParametersFromSource :=
  autoConvert_v1alpha1_ParametersFromSource_To_servicecatalog_ParametersFromSource x out.

Definition autoConvert_servicecatalog_ParametersFromSource_To_v1alpha1_ParametersFromSource
    (x : servicecatalog.ParametersFromSource) (out : ParametersFromSource) : ParametersFromSource :=
  {| pfs_SecretKeyRef := (unsafe_servicecatalog_SecretKeyReference <$> (servicecatalog.pfs_SecretKeyRef x)) |}.
Definition Convert_servicecatalog_ParametersFromSource_To_v1alpha1_ParametersFromSource
    (x : servicecatalog.ParametersFromSource) (out : ParametersFromSource) : ParametersFromSource :=
  autoConvert_servicecatalog_ParametersFromSource_To_v1alpha1_ParametersFromSource x out.

(** ** UserInfo *)

Definition autoConvert_v1alpha1_UserInfo_To_servicecatalog_UserInfo
    (x : UserInfo) (out : servicecatalog.UserInfo) : servicecatalog.UserInfo :=
  {| servicecatalog.ui_Username := ui_Username x;
     servicecatalog.ui_UID := ui_UID x;
     servicecatalog.ui_Groups := ui_Groups x;
     servicecatalog.ui_Extra := ui_Extra x |}.
Definition Convert_v1alpha1_UserInfo_To_servicecatalog_UserInfo
    (x : UserInfo) (out : servicecatalog.UserInfo) : servicecatalog.UserInfo :=
  autoConvert_v1alpha1_UserInfo_To_servicecatalog_UserInfo x out.

Definition autoConvert_servicecatalog_UserInfo_To_v1alpha1_UserInfo
    (x : servicecatalog.UserInfo) (out : UserInfo) : UserInfo :=
  {| ui_Username := servicecatalog.ui_Username x;
     ui_UID := servicecatalog.ui_UID x;
     ui_Groups := servicecatalog.ui_Groups x;
     ui_Extra := servicecatalog.ui_Extra x |}.
Definition Convert_servicecatalog_UserInfo_To_v1alpha1_UserInfo
    (x : servicecatalog.UserInfo) (out : UserInfo) : UserInfo :=
  autoConvert_servicecatalog_UserInfo_To_v1alpha1_UserInfo x out.

(** ** BasicAuthConfig *)

Definition autoConvert_v1alpha1_BasicAuthConfig_To_servicecatalog_BasicAuthConfig
    (x : BasicAuthConfig) (out : servicecatalog.BasicAuthConfig) : servicecatalog.BasicAuthConfig :=
  {| servicecatalog.bac_SecretRef := bac_SecretRef x |}.
Definition Convert_v1alpha1_BasicAuthConfig_To_servicecatalog_BasicAuthConfig
    (x : BasicAuthConfig) (out : servicecatalog.BasicAuthConfig) : servicecatalog.BasicAuthConfig :=
  autoConvert_v1alpha1_BasicAuthConfig_To_servicecatalog_BasicAuthConfig x out.

Definition autoConvert_servicecatalog_BasicAuthConfig_To_v1alpha1_BasicAuthConfig
    (x : servicecatalog.BasicAuthConfig) (out : BasicAuthConfig) : BasicAuthConfig :=
  {| bac_SecretRef := servicecatalog.bac_SecretRef x |}.
Definition Convert_servicecatalog_BasicAuthConfig_To_v1alpha1_BasicAuthConfig
    (x : servicecatalog.BasicAuthConfig) (out : BasicAuthConfig) : BasicAuthConfig :=
  autoConvert_servicecatalog_BasicAuthConfig_To_v1alpha1_BasicAuthConfig x out.

(** ** BearerTokenAuthConfig *)

Definition autoConvert_v1alpha1_BearerTokenAuthConfig_To_servicecatalog_BearerTokenAuthConfig
    (x : BearerTokenAuthConfig) (out : servicecatalog.BearerTokenAuthConfig) : servicecatalog.BearerTokenAuthConfig :=
  {| servicecatalog.btac_SecretRef := btac_SecretRef x |}.
Definition Convert_v1alpha1_BearerTokenAuthConfig_To_servicecatalog_BearerTokenAuthConfig
    (x : BearerTokenAuthConfig) (out : servicecatalog.BearerTokenAuthConfig) : servicecatalog.BearerTokenAuthConfig :=
  autoConvert_v1alpha1_BearerTokenAuthConfig_To_servicecatalog_BearerTokenAuthConfig x out.

Definition autoConvert_servicecatalog_BearerTokenAuthConfig_To_v1alpha1_BearerTokenAuthConfig
    (x : servicecatalog.BearerTokenAuthConfig) (out : BearerTokenAuthConfig) : BearerTokenAuthConfig :=
  {| btac_SecretRef := servicecatalog.btac_SecretRef x |}.
Definition Convert_servicecatalog_BearerTokenAuthConfig_To_v1alpha1_BearerTokenAuthConfig
    (x : servicecatalog.BearerTokenAuthConfig) (out : BearerTokenAuthConfig) : BearerTokenAuthConfig :=
  autoConvert_servicecatalog_BearerTokenAuthConfig_To_v1alpha1_BearerTokenAuthConfig x out.

(** ** ServiceBrokerAuthInfo *)

Definition autoConvert_v1alpha1_ServiceBrokerAuthInfo_To_servicecatalog_ServiceBrokerAuthInfo
    (x : ServiceBrokerAuthInfo) (out : servicecatalog.ServiceBrokerAuthInfo) : servicecatalog.ServiceBrokerAuthInfo :=
  {| servicecatalog.Basic := (unsafe_v1alpha1_BasicAuthConfig <$> (Basic x));
     servicecatalog.Bearer := (unsafe_v1alpha1_BearerTokenAuthConfig <$> (Bearer x));
     servicecatalog.BasicAuthSecret := BasicAuthSecret x |}.
Definition Convert_v1alpha1_ServiceBrokerAuthInfo_To_servicecatalog_ServiceBrokerAuthInfo
    (x : ServiceBrokerAuthInfo) (out : servicecatalog.ServiceBrokerAuthInfo) : servicecatalog.ServiceBrokerAuthInfo :=
  autoConvert_v1alpha1_ServiceBrokerAuthInfo_To_servicecatalog_ServiceBrokerAuthInfo x out.

Definition autoConvert_servicecatalog_ServiceBrokerAuthInfo_To_v1alpha1_ServiceBrokerAuthInfo
    (x : servicecatalog.ServiceBrokerAuthInfo) (out : ServiceBrokerAuthInfo) : ServiceBrokerAuthInfo :=
  {| Basic := (unsafe_servicecatalog_BasicAuthConfig <$> (servicecatalog.Basic x));
     Bearer := (unsafe_servicecatalog_BearerTokenAuthConfig <$> (servicecatalog.Bearer x));
     BasicAuthSecret := servicecatalog.BasicAuthSecret x |}.
Definition Convert_servicecatalog_ServiceBrokerAuthInfo_To_v1alpha1_ServiceBrokerAuthInfo
    (x : servicecatalog.ServiceBrokerAuthInfo) (out : ServiceBrokerAuthInfo) : ServiceBrokerAuthInfo :=
  autoConvert_servicecatalog_ServiceBrokerAuthInfo_To_v1alpha1_ServiceBrokerAuthInfo x out.

(** ** ClusterServiceBrokerSpec *)

Definition autoConvert_v1alpha1_ClusterServiceBrokerSpec_To_servicecatalog_ClusterServiceBrokerSpec
    (x : ClusterServiceBrokerSpec) (out : servicecatalog.ClusterServiceBrokerSpec) : servicecatalog.ClusterServiceBrokerSpec :=
  {| servicecatalog.URL := URL x;
     servicecatalog.AuthInfo := (unsafe_v1alpha1_ServiceBrokerAuthInfo <$> (AuthInfo x));
     servicecatalog.InsecureSkipTLSVerify := InsecureSkipTLSVerify x;
     servicecatalog.CABundle := CABundle x;
     servicecatalog.RelistBehavior := (ServiceBrokerRelistBehavior_string (RelistBehavior x));
     servicecatalog.RelistDuration := RelistDuration x;
     servicecatalog.RelistRequests := RelistRequests x |}.
Definition Convert_v1alpha1_ClusterServiceBrokerSpec_To_servicecatalog_ClusterServiceBrokerSpec
    (x : ClusterServiceBrokerSpec) (out : servicecatalog.ClusterServiceBrokerSpec) : servicecatalog.ClusterServiceBrokerSpec :=
  autoConvert_v1alpha1_ClusterServiceBrokerSpec_To_servicecatalog_ClusterServiceBrokerSpec x out.

Definition autoConvert_servicecatalog_ClusterServiceBrokerSpec_To_v1alpha1_ClusterServiceBrokerSpec
    (x : servicecatalog.ClusterServiceBrokerSpec) (out : ClusterServiceBrokerSpec) : ClusterServiceBrokerSpec :=
  {| URL := servicecatalog.URL x;
     AuthInfo := (unsafe_servicecatalog_ServiceBrokerAuthInfo <$> (servicecatalog.AuthInfo x));
     InsecureSkipTLSVerify := servicecatalog.InsecureSkipTLSVerify x;
     CABundle := servicecatalog.CABundle x;
     RelistBehavior := (ServiceBrokerRelistBehavior_of_string (servicecatalog.RelistBehavior x));
     RelistDuration := servicecatalog.RelistDuration x;
     RelistRequests := servicecatalog.RelistRequests x |}.
Definition Convert_servicecatalog_ClusterServiceBrokerSpec_To_v1alpha1_ClusterServiceBrokerSpec
    (x : servicecatalog.ClusterServiceBrokerSpec) (out : ClusterServiceBrokerSpec) : ClusterServiceBrokerSpec :=
  autoConvert_servicecatalog_ClusterServiceBrokerSpec_To_v1alpha1_ClusterServiceBrokerSpec x out.

(** ** ServiceBrokerCondition *)

Definition autoConvert_v1alpha1_ServiceBrokerCondition_To_servicecatalog_ServiceBrokerCondition
    (x : ServiceBrokerCondition) (out : servicecatalog.ServiceBrokerCondition) : servicecatalog.ServiceBrokerCondition :=
  {| servicecatalog.sbc_Type := (ConditionType_string (cond_Type x));
     servicecatalog.sbc_Status := (ConditionStatus_string (cond_Status x));
     servicecatalog.sbc_LastTransitionTime := cond_LastTransitionTime x;
     servicecatalog.sbc_Reason := cond_Reason x;
     servicecatalog.sbc_Message := cond_Message x |}.
Definition Convert_v1alpha1_ServiceBrokerCondition_To_servicecatalog_ServiceBrokerCondition
    (x : ServiceBrokerCondition) (out : servicecatalog.ServiceBrokerCondition) : servicecatalog.ServiceBrokerCondition :=
  autoConvert_v1alpha1_ServiceBrokerCondition_To_servicecatalog_ServiceBrokerCondition x out.

Definition autoConvert_servicecatalog_ServiceBrokerCondition_To_v1alpha1_ServiceBrokerCondition
    (x : servicecatalog.ServiceBrokerCondition) (out : ServiceBrokerCondition) : ServiceBrokerCondition :=
  {| cond_Type := (ConditionType_of_string (servicecatalog.sbc_Type x));
     cond_Status := (ConditionStatus_of_string (servicecatalog.sbc_Status x));
     cond_LastTransitionTime := servicecatalog.sbc_LastTransitionTime x;
     cond_Reason := servicecatalog.sbc_Reason x;
     cond_Message := servicecatalog.sbc_Message x |}.
Definition Convert_servicecatalog_ServiceBrokerCondition_To_v1alpha1_ServiceBrokerCondition
    (x : servicecatalog.ServiceBrokerCondition) (out : ServiceBrokerCondition) : ServiceBrokerCondition :=
  autoConvert_servicecatalog_ServiceBrokerCondition_To_v1alpha1_ServiceBrokerCondition x out.

(** ** ServiceBrokerStatus *)

Definition autoConvert_v1alpha1_ServiceBrokerStatus_To_servicecatalog_ServiceBrokerStatus
    (x : ServiceBrokerStatus) (out : servicecatalog.ServiceBrokerStatus) : servicecatalog.ServiceBrokerStatus :=
  {| servicecatalog.bs_Conditions := (map unsafe_v1alpha1_ServiceBrokerCondition (bs_Conditions x));
     servicecatalog.bs_ReconciledGeneration := bs_ReconciledGeneration x;
     servicecatalog.bs_OperationStartTime := bs_OperationStartTime x |}.
Definition Convert_v1alpha1_ServiceBrokerStatus_To_servicecatalog_ServiceBrokerStatus
    (x : ServiceBrokerStatus) (out : servicecatalog.ServiceBrokerStatus) : servicecatalog.ServiceBrokerStatus :=
  autoConvert_v1alpha1_ServiceBrokerStatus_To_servicecatalog_ServiceBrokerStatus x out.

Definition autoConvert_servicecatalog_ServiceBrokerStatus_To_v1alpha1_ServiceBrokerStatus
    (x : servicecatalog.ServiceBrokerStatus) (out : ServiceBrokerStatus) : ServiceBrokerStatus :=
  {| bs_Conditions := (or_make (servicecatalog.bs_Conditions x) (map unsafe_servicecatalog_ServiceBrokerCondition (servicecatalog.bs_Conditions x)));
     bs_ReconciledGeneration := servicecatalog.bs_ReconciledGeneration x;
     bs_OperationStartTime := servicecatalog.bs_OperationStartTime x |}.
Definition Convert_servicecatalog_ServiceBrokerStatus_To_v1alpha1_ServiceBrokerStatus
    (x : servicecatalog.ServiceBrokerStatus) (out : ServiceBrokerStatus) : ServiceBrokerStatus :=
  autoConvert_servicecatalog_ServiceBrokerStatus_To_v1alpha1_ServiceBrokerStatus x out.

(** ** ClusterServiceBroker *)

Definition autoConvert_v1alpha1_ClusterServiceBroker_To_servicecatalog_ClusterServiceBroker
    (x : ClusterServiceBroker) (out : servicecatalog.ClusterServiceBroker) : servicecatalog.ClusterServiceBroker :=
  {| servicecatalog.b_TypeMeta := servicecatalog.b_TypeMeta out;
     servicecatalog.b_Meta := b_Meta x;
     servicecatalog.b_Spec := (Convert_v1alpha1_ClusterServiceBrokerSpec_To_servicecatalog_ClusterServiceBrokerSpec (b_Spec x) (servicecatalog.b_Spec out));
     servicecatalog.b_Status := (Convert_v1alpha1_ServiceBrokerStatus_To_servicecatalog_ServiceBrokerStatus (b_Status x) (servicecatalog.b_Status out)) |}.
Definition Convert_v1alpha1_ClusterServiceBroker_To_servicecatalog_ClusterServiceBroker
    (x : ClusterServiceBroker) (out : servicecatalog.ClusterServiceBroker) : servicecatalog.ClusterServiceBroker :=
  autoConvert_v1alpha1_ClusterServiceBroker_To_servicecatalog_ClusterServiceBroker x out.

Definition autoConvert_servicecatalog_ClusterServiceBroker_To_v1alpha1_ClusterServiceBroker
    (x : servicecatalog.ClusterServiceBroker) (out : ClusterServiceBroker) : ClusterServiceBroker :=
  {| b_TypeMeta := b_TypeMeta out;
     b_Meta := servicecatalog.b_Meta x;
     b_Spec := (Convert_servicecatalog_ClusterServiceBrokerSpec_To_v1alpha1_ClusterServiceBrokerSpec (servicecatalog.b_Spec x) (b_Spec out));
     b_Status := (Convert_servicecatalog_ServiceBrokerStatus_To_v1alpha1_ServiceBrokerStatus (servicecatalog.b_Status x) (b_Status out)) |}.
Definition Convert_servicecatalog_ClusterServiceBroker_To_v1alpha1_ClusterServiceBroker
    (x : servicecatalog.ClusterServiceBroker) (out : ClusterServiceBroker) : ClusterServiceBroker :=
  autoConvert_servicecatalog_ClusterServiceBroker_To_v1alpha1_ClusterServiceBroker x out.

(** ** ClusterServiceBrokerList *)

Definition autoConvert_v1alpha1_ClusterServiceBrokerList_To_servicecatalog_ClusterServiceBrokerList
    (x : ClusterServiceBrokerList) (out : servicecatalog.ClusterServiceBrokerList) : servicecatalog.ClusterServiceBrokerList :=
  {| servicecatalog.cbl_TypeMeta := servicecatalog.cbl_TypeMeta out;
     servicecatalog.cbl_ListMeta := cbl_ListMeta x;
     servicecatalog.cbl_Items := (map unsafe_v1alpha1_ClusterServiceBroker (cbl_Items x)) |}.
Definition Convert_v1alpha1_ClusterServiceBrokerList_To_servicecatalog_ClusterServiceBrokerList
    (x : ClusterServiceBrokerList) (out : servicecatalog.ClusterServiceBrokerList) : servicecatalog.ClusterServiceBrokerList :=
  autoConvert_v1alpha1_ClusterServiceBrokerList_To_servicecatalog_ClusterServiceBrokerList x out.

Definition autoConvert_servicecatalog_ClusterServiceBrokerList_To_v1alpha1_ClusterServiceBrokerList
    (x : servicecatalog.ClusterServiceBrokerList) (out : ClusterServiceBrokerList) : ClusterServiceBrokerList :=
  {| cbl_TypeMeta := cbl_TypeMeta out;
     cbl_ListMeta := servicecatalog.cbl_ListMeta x;
     cbl_Items := (or_make (servicecatalog.cbl_Items x) (map unsafe_servicecatalog_ClusterServiceBroker (servicecatalog.cbl_Items x))) |}.
Definition Convert_servicecatalog_ClusterServiceBrokerList_To_v1alpha1_ClusterServiceBrokerList
    (x : servicecatalog.ClusterServiceBrokerList) (out : ClusterServiceBrokerList) : ClusterServiceBrokerList :=
  autoConvert_servicecatalog_ClusterServiceBrokerList_To_v1alpha1_ClusterServiceBrokerList x out.

(** ** ServiceClassSpec *)

Definition autoConvert_v1alpha1_ServiceClassSpec_To_servicecatalog_ServiceClassSpec
    (x : ServiceClassSpec) (out : servicecatalog.ServiceClassSpec) : servicecatalog.ServiceClassSpec :=
  {| servicecatalog.sc_ClusterServiceBrokerName := sc_ClusterServiceBrokerName x;
     servicecatalog.sc_ExternalName := sc_ExternalName x;
     servicecatalog.sc_ExternalID := sc_ExternalID x;
     servicecatalog.sc_Description := sc_Description x;
     servicecatalog.sc_Bindable := sc_Bindable x;
     servicecatalog.sc_PlanUpdatable := sc_PlanUpdatable x;
     servicecatalog.sc_ExternalMetadata := sc_ExternalMetadata x;
     servicecatalog.sc_Tags := sc_Tags x;
     servicecatalog.sc_Requires := sc_Requires x |}.
Definition Convert_v1alpha1_ServiceClassSpec_To_servicecatalog_ServiceClassSpec
    (x : ServiceClassSpec) (out : servicecatalog.ServiceClassSpec) : servicecatalog.ServiceClassSpec :=
  autoConvert_v1alpha1_ServiceClassSpec_To_servicecatalog_ServiceClassSpec x out.

Definition autoConvert_servicecatalog_ServiceClassSpec_To_v1alpha1_ServiceClassSpec
    (x : servicecatalog.ServiceClassSpec) (out : ServiceClassSpec) : ServiceClassSpec :=
  {| sc_ClusterServiceBrokerName := servicecatalog.sc_ClusterServiceBrokerName x;
     sc_ExternalName := servicecatalog.sc_ExternalName x;
     sc_ExternalID := servicecatalog.sc_ExternalID x;
     sc_Description := servicecatalog.sc_Description x;
     sc_Bindable := servicecatalog.sc_Bindable x;
     sc_PlanUpdatable := servicecatalog.sc_PlanUpdatable x;
     sc_ExternalMetadata := servicecatalog.sc_ExternalMetadata x;
     sc_Tags := servicecatalog.sc_Tags x;
     sc_Requires := servicecatalog.sc_Requires x |}.
Definition Convert_servicecatalog_ServiceClassSpec_To_v1alpha1_ServiceClassSpec
    (x : servicecatalog.ServiceClassSpec) (out : ServiceClassSpec) : ServiceClassSpec :=
  autoConvert_servicecatalog_ServiceClassSpec_To_v1alpha1_ServiceClassSpec x out.

(** ** ServiceClass *)

Definition autoConvert_v1alpha1_ServiceClass_To_servicecatalog_ServiceClass
    (x : ServiceClass) (out : servicecatalog.ServiceClass) : servicecatalog.ServiceClass :=
  {| servicecatalog.sc_TypeMeta := servicecatalog.sc_TypeMeta out;
     servicecatalog.sc_Meta := sc_Meta x;
     servicecatalog.sc_Spec := (Convert_v1alpha1_ServiceClassSpec_To_servicecatalog_ServiceClassSpec (sc_Spec x) (servicecatalog.sc_Spec out)) |}.
Definition Convert_v1alpha1_ServiceClass_To_servicecatalog_ServiceClass
    (x : ServiceClass) (out : servicecatalog.ServiceClass) : servicecatalog.ServiceClass :=
  autoConvert_v1alpha1_ServiceClass_To_servicecatalog_ServiceClass x out.

Definition autoConvert_servicecatalog_ServiceClass_To_v1alpha1_ServiceClass
    (x : servicecatalog.ServiceClass) (out : ServiceClass) : ServiceClass :=
  {| sc_TypeMeta := sc_TypeMeta out;
     sc_Meta := servicecatalog.sc_Meta x;
     sc_Spec := (Convert_servicecatalog_ServiceClassSpec_To_v1alpha1_ServiceClassSpec (servicecatalog.sc_Spec x) (sc_Spec out)) |}.
Definition Convert_servicecatalog_ServiceClass_To_v1alpha1_ServiceClass
    (x : servicecatalog.ServiceClass) (out : ServiceClass) : ServiceClass :=
  autoConvert_servicecatalog_ServiceClass_To_v1alpha1_ServiceClass x out.

(** ** ServiceClassList *)

Definition autoConvert_v1alpha1_ServiceClassList_To_servicecatalog_ServiceClassList
    (x : ServiceClassList) (out : servicecatalog.ServiceClassList) : servicecatalog.ServiceClassList :=
  {| servicecatalog.scl_TypeMeta := servicecatalog.scl_TypeMeta out;
     servicecatalog.scl_ListMeta := scl_ListMeta x;
     servicecatalog.scl_Items := (map unsafe_v1alpha1_ServiceClass (scl_Items x)) |}.
Definition Convert_v1alpha1_ServiceClassList_To_servicecatalog_ServiceClassList
    (x : ServiceClassList) (out : servicecatalog.ServiceClassList) : servicecatalog.ServiceClassList :=
  autoConvert_v1alpha1_ServiceClassList_To_servicecatalog_ServiceClassList x out.

Definition autoConvert_servicecatalog_ServiceClassList_To_v1alpha1_ServiceClassList
    (x : servicecatalog.ServiceClassList) (out : ServiceClassList) : ServiceClassList :=
  {| scl_TypeMeta := scl_TypeMeta out;
     scl_ListMeta := servicecatalog.scl_ListMeta x;
     scl_Items := (or_make (servicecatalog.scl_Items x) (map unsafe_servicecatalog_ServiceClass (servicecatalog.scl_Items x))) |}.
Definition Convert_servicecatalog_ServiceClassList_To_v1alpha1_ServiceClassList
    (x : servicecatalog.ServiceClassList) (out : ServiceClassList) : ServiceClassList :=
  autoConvert_servicecatalog_ServiceClassList_To_v1alpha1_ServiceClassList x out.

(** ** ServicePlanSpec *)

Definition autoConvert_v1alpha1_ServicePlanSpec_To_servicecatalog_ServicePlanSpec
    (x : ServicePlanSpec) (out : servicecatalog.ServicePlanSpec) : servicecatalog.ServicePlanSpec :=
  {| servicecatalog.sp_ClusterServiceBrokerName := sp_ClusterServiceBrokerName x;
     servicecatalog.sp_ExternalName := sp_ExternalName x;
     servicecatalog.sp_ExternalID := sp_ExternalID x;
     servicecatalog.sp_Description := sp_Description x;
     servicecatalog.sp_Bindable := sp_Bindable x;
     servicecatalog.sp_Free := sp_Free x;
     servicecatalog.sp_ExternalMetadata := sp_ExternalMetadata x;
     servicecatalog.sp_ServiceInstanceCreateParameterSchema := sp_ServiceInstanceCreateParameterSchema x;
     servicecatalog.sp_ServiceInstanceUpdateParameterSchema := sp_ServiceInstanceUpdateParameterSchema x;
     servicecatalog.sp_ServiceInstanceCredentialCreateParameterSchema := sp_ServiceInstanceCredentialCreateParameterSchema x;
     servicecatalog.sp_ServiceClassRef := sp_ServiceClassRef x |}.
Definition Convert_v1alpha1_ServicePlanSpec_To_servicecatalog_ServicePlanSpec
    (x : ServicePlanSpec) (out : servicecatalog.ServicePlanSpec) : servicecatalog.ServicePlanSpec :=
  autoConvert_v1alpha1_ServicePlanSpec_To_servicecatalog_ServicePlanSpec x out.

Definition autoConvert_servicecatalog_ServicePlanSpec_To_v1alpha1_ServicePlanSpec
    (x : servicecatalog.ServicePlanSpec) (out : ServicePlanSpec) : ServicePlanSpec :=
  {| sp_ClusterServiceBrokerName := servicecatalog.sp_ClusterServiceBrokerName x;
     sp_ExternalName := servicecatalog.sp_ExternalName x;
     sp_ExternalID := servicecatalog.sp_ExternalID x;
     sp_Description := servicecatalog.sp_Description x;
     sp_Bindable := servicecatalog.sp_Bindable x;
     sp_Free := servicecatalog.sp_Free x;
     sp_ExternalMetadata := servicecatalog.sp_ExternalMetadata x;
     sp_ServiceInstanceCreateParameterSchema := servicecatalog.sp_ServiceInstanceCreateParameterSchema x;
     sp_ServiceInstanceUpdateParameterSchema := servicecatalog.sp_ServiceInstanceUpdateParameterSchema x;
     sp_ServiceInstanceCredentialCreateParameterSchema := servicecatalog.sp_ServiceInstanceCredentialCreateParameterSchema x;
     sp_ServiceClassRef := servicecatalog.sp_ServiceClassRef x |}.
Definition Convert_servicecatalog_ServicePlanSpec_To_v1alpha1_ServicePlanSpec
    (x : servicecatalog.ServicePlanSpec) (out : ServicePlanSpec) : ServicePlanSpec :=
  autoConvert_servicecatalog_ServicePlanSpec_To_v1alpha1_ServicePlanSpec x out.

(** ** ServicePlan *)

Definition autoConvert_v1alpha1_ServicePlan_To_servicecatalog_ServicePlan
    (x : ServicePlan) (out : servicecatalog.ServicePlan) : servicecatalog.ServicePlan :=
  {| servicecatalog.sp_TypeMeta := servicecatalog.sp_TypeMeta out;
     servicecatalog.sp_Meta := sp_Meta x;
     servicecatalog.sp_Spec := (Convert_v1alpha1_ServicePlanSpec_To_servicecatalog_ServicePlanSpec (sp_Spec x) (servicecatalog.sp_Spec out)) |}.
Definition Convert_v1alpha1_ServicePlan_To_servicecatalog_ServicePlan
    (x : ServicePlan) (out : servicecatalog.ServicePlan) : servicecatalog.ServicePlan :=
  autoConvert_v1alpha1_ServicePlan_To_servicecatalog_ServicePlan x out.

Definition autoConvert_servicecatalog_ServicePlan_To_v1alpha1_ServicePlan
    (x : servicecatalog.ServicePlan) (out : ServicePlan) : ServicePlan :=
  {| sp_TypeMeta := sp_TypeMeta out;
     sp_Meta := servicecatalog.sp_Meta x;
     sp_Spec := (Convert_servicecatalog_ServicePlanSpec_To_v1alpha1_ServicePlanSpec (servicecatalog.sp_Spec x) (sp_Spec out)) |}.
Definition Convert_servicecatalog_ServicePlan_To_v1alpha1_ServicePlan
    (x : servicecatalog.ServicePlan) (out : ServicePlan) : ServicePlan :=
  autoConvert_servicecatalog_ServicePlan_To_v1alpha1_ServicePlan x out.

(** ** ServicePlanList *)

Definition autoConvert_v1alpha1_ServicePlanList_To_servicecatalog_ServicePlanList
    (x : ServicePlanList) (out : servicecatalog.ServicePlanList) : servicecatalog.ServicePlanList :=
  {| servicecatalog.spl_TypeMeta := servicecatalog.spl_TypeMeta out;
     servicecatalog.spl_ListMeta := spl_ListMeta x;
     servicecatalog.spl_Items := (map unsafe_v1alpha1_ServicePlan (spl_Items x)) |}.
Definition Convert_v1alpha1_ServicePlanList_To_servicecatalog_ServicePlanList
    (x : ServicePlanList) (out : servicecatalog.ServicePlanList) : servicecatalog.ServicePlanList :=
  autoConvert_v1alpha1_ServicePlanList_To_servicecatalog_ServicePlanList x out.

Definition autoConvert_servicecatalog_ServicePlanList_To_v1alpha1_ServicePlanList
    (x : servicecatalog.ServicePlanList) (out : ServicePlanList) : ServicePlanList :=
  {| spl_TypeMeta := spl_TypeMeta out;
     spl_ListMeta := servicecatalog.spl_ListMeta x;
     spl_Items := (or_make (servicecatalog.spl_Items x) (map unsafe_servicecatalog_ServicePlan (servicecatalog.spl_Items x))) |}.
Definition Convert_servicecatalog_ServicePlanList_To_v1alpha1_ServicePlanList
    (x : servicecatalog.ServicePlanList) (out : ServicePlanList) : ServicePlanList :=
  autoConvert_servicecatalog_ServicePlanList_To_v1alpha1_ServicePlanList x out.

(** ** ServiceInstanceSpec *)

Definition autoConvert_v1alpha1_ServiceInstanceSpec_To_servicecatalog_ServiceInstanceSpec
    (x : ServiceInstanceSpec) (out : servicecatalog.ServiceInstanceSpec) : servicecatalog.ServiceInstanceSpec :=
  {| servicecatalog.ExternalServiceClassName := ExternalServiceClassName x;
     servicecatalog.ExternalServicePlanName := ExternalServicePlanName x;
     servicecatalog.ServiceClassRef := ServiceClassRef x;
     servicecatalog.ServicePlanRef := ServicePlanRef x;
     servicecatalog.Parameters := Parameters x;
     servicecatalog.ParametersFrom := (map unsafe_v1alpha1_ParametersFromSource <$> (ParametersFrom x));
     servicecatalog.ExternalID := ExternalID x;
     servicecatalog.si_UserInfo := (unsafe_v1alpha1_UserInfo <$> (si_UserInfo x)) |}.
Definition Convert_v1alpha1_ServiceInstanceSpec_To_servicecatalog_ServiceInstanceSpec
    (x : ServiceInstanceSpec) (out : servicecatalog.ServiceInstanceSpec) : servicecatalog.ServiceInstanceSpec :=
  autoConvert_v1alpha1_ServiceInstanceSpec_To_servicecatalog_ServiceInstanceSpec x out.

Definition autoConvert_servicecatalog_ServiceInstanceSpec_To_v1alpha1_ServiceInstanceSpec
    (x : servicecatalog.ServiceInstanceSpec) (out : ServiceInstanceSpec) : ServiceInstanceSpec :=
  {| ExternalServiceClassName := servicecatalog.ExternalServiceClassName x;
     ExternalServicePlanName := servicecatalog.ExternalServicePlanName x;
     ServiceClassRef := servicecatalog.ServiceClassRef x;
     ServicePlanRef := servicecatalog.ServicePlanRef x;
     Parameters := servicecatalog.Parameters x;
     ParametersFrom := (map unsafe_servicecatalog_ParametersFromSource <$> (servicecatalog.ParametersFrom x));
     ExternalID := servicecatalog.ExternalID x;
     si_UserInfo := (unsafe_servicecatalog_UserInfo <$> (servicecatalog.si_UserInfo x)) |}.
Definition Convert_servicecatalog_ServiceInstanceSpec_To_v1alpha1_ServiceInstanceSpec
    (x : servicecatalog.ServiceInstanceSpec) (out : ServiceInstanceSpec) : ServiceInstanceSpec :=
  autoConvert_servicecatalog_ServiceInstanceSpec_To_v1alpha1_ServiceInstanceSpec x out.

(** ** ServiceInstancePropertiesState *)

Definition autoConvert_v1alpha1_ServiceInstancePropertiesState_To_servicecatalog_ServiceInstancePropertiesState
    (x : ServiceInstancePropertiesState) (out : servicecatalog.ServiceInstancePropertiesState) : servicecatalog.ServiceInstancePropertiesState :=
  {| servicecatalog.ps_ExternalServicePlanName := ps_ExternalServicePlanName x;
     servicecatalog.ps_Parameters := ps_Parameters x;
     servicecatalog.ps_ParametersChecksum := ps_ParametersChecksum x;
     servicecatalog.ps_UserInfo := (unsafe_v1alpha1_UserInfo <$> (ps_UserInfo x)) |}.
Definition Convert_v1alpha1_ServiceInstancePropertiesState_To_servicecatalog_ServiceInstancePropertiesState
    (x : ServiceInstancePropertiesState) (out : servicecatalog.ServiceInstancePropertiesState) : servicecatalog.ServiceInstancePropertiesState :=
  autoConvert_v1alpha1_ServiceInstancePropertiesState_To_servicecatalog_ServiceInstancePropertiesState x out.

Definition autoConvert_servicecatalog_ServiceInstancePropertiesState_To_v1alpha1_ServiceInstancePropertiesState
    (x : servicecatalog.ServiceInstancePropertiesState) (out : ServiceInstancePropertiesState) : ServiceInstancePropertiesState :=
  {| ps_ExternalServicePlanName := servicecatalog.ps_ExternalServicePlanName x;
     ps_Parameters := servicecatalog.ps_Parameters x;
     ps_ParametersChecksum := servicecatalog.ps_ParametersChecksum x;
     ps_UserInfo := (unsafe_servicecatalog_UserInfo <$> (servicecatalog.ps_UserInfo x)) |}.
Definition Convert_servicecatalog_ServiceInstancePropertiesState_To_v1alpha1_ServiceInstancePropertiesState
    (x : servicecatalog.ServiceInstancePropertiesState) (out : ServiceInstancePropertiesState) : ServiceInstancePropertiesState :=
  autoConvert_servicecatalog_ServiceInstancePropertiesState_To_v1alpha1_ServiceInstancePropertiesState x out.

(** ** ServiceInstanceCondition *)

Definition autoConvert_v1alpha1_ServiceInstanceCondition_To_servicecatalog_ServiceInstanceCondition
    (x : ServiceInstanceCondition) (out : servicecatalog.ServiceInstanceCondition) : servicecatalog.ServiceInstanceCondition :=
  {| servicecatalog.sic_Type := (ConditionType_string (cond_Type x));
     servicecatalog.sic_Status := (ConditionStatus_string (cond_Status x));
     servicecatalog.sic_LastTransitionTime := cond_LastTransitionTime x;
     servicecatalog.sic_Reason := cond_Reason x;
     servicecatalog.sic_Message := cond_Message x |}.
Definition Convert_v1alpha1_ServiceInstanceCondition_To_servicecatalog_ServiceInstanceCondition
    (x : ServiceInstanceCondition) (out : servicecatalog.ServiceInstanceCondition) : servicecatalog.ServiceInstanceCondition :=
  autoConvert_v1alpha1_ServiceInstanceCondition_To_servicecatalog_ServiceInstanceCondition x out.

Definition autoConvert_servicecatalog_ServiceInstanceCondition_To_v1alpha1_ServiceInstanceCondition
    (x : servicecatalog.ServiceInstanceCondition) (out : ServiceInstanceCondition) : ServiceInstanceCondition :=
  {| cond_Type := (ConditionType_of_string (servicecatalog.sic_Type x));
     cond_Status := (ConditionStatus_of_string (servicecatalog.sic_Status x));
     cond_LastTransitionTime := servicecatalog.sic_LastTransitionTime x;
     cond_Reason := servicecatalog.sic_Reason x;
     cond_Message := servicecatalog.sic_Message x |}.
Definition Convert_servicecatalog_ServiceInstanceCondition_To_v1alpha1_ServiceInstanceCondition
    (x : servicecatalog.ServiceInstanceCondition) (out : ServiceInstanceCondition) : ServiceInstanceCondition :=
  autoConvert_servicecatalog_ServiceInstanceCondition_To_v1alpha1_ServiceInstanceCondition x out.

(** ** ServiceInstanceStatus *)

Definition autoConvert_v1alpha1_ServiceInstanceStatus_To_servicecatalog_ServiceInstanceStatus
    (x : ServiceInstanceStatus) (out : servicecatalog.ServiceInstanceStatus) : servicecatalog.ServiceInstanceStatus :=
  {| servicecatalog.Conditions := (map unsafe_v1alpha1_ServiceInstanceCondition (Conditions x));
     servicecatalog.AsyncOpInProgress := AsyncOpInProgress x;
     servicecatalog.OrphanMitigationInProgress := OrphanMitigationInProgress x;
     servicecatalog.LastOperation := LastOperation x;
     servicecatalog.DashboardURL := DashboardURL x;
     servicecatalog.CurrentOperation := (ServiceInstanceOperation_string (CurrentOperation x));
     servicecatalog.ReconciledGeneration := ReconciledGeneration x;
     servicecatalog.OperationStartTime := OperationStartTime x;
     servicecatalog.InProgressProperties := (unsafe_v1alpha1_ServiceInstancePropertiesState <$> (InProgressProperties x));
     servicecatalog.ExternalProperties := (unsafe_v1alpha1_ServiceInstancePropertiesState <$> (ExternalProperties x)) |}.
Definition Convert_v1alpha1_ServiceInstanceStatus_To_servicecatalog_ServiceInstanceStatus
    (x : ServiceInstanceStatus) (out : servicecatalog.ServiceInstanceStatus) : servicecatalog.ServiceInstanceStatus :=
  autoConvert_v1alpha1_ServiceInstanceStatus_To_servicecatalog_ServiceInstanceStatus x out.

Definition autoConvert_servicecatalog_ServiceInstanceStatus_To_v1alpha1_ServiceInstanceStatus
    (x : servicecatalog.ServiceInstanceStatus) (out : ServiceInstanceStatus) : ServiceInstanceStatus :=
  {| Conditions := (or_make (servicecatalog.Conditions x) (map unsafe_servicecatalog_ServiceInstanceCondition (servicecatalog.Conditions x)));
     AsyncOpInProgress := servicecatalog.AsyncOpInProgress x;
     OrphanMitigationInProgress := servicecatalog.OrphanMitigationInProgress x;
     LastOperation := servicecatalog.LastOperation x;
     DashboardURL := servicecatalog.DashboardURL x;
     CurrentOperation := (ServiceInstanceOperation_of_string (servicecatalog.CurrentOperation x));
     ReconciledGeneration := servicecatalog.ReconciledGeneration x;
     OperationStartTime := servicecatalog.OperationStartTime x;
     InProgressProperties := (unsafe_servicecatalog_ServiceInstancePropertiesState <$> (servicecatalog.InProgressProperties x));
     ExternalProperties := (unsafe_servicecatalog_ServiceInstancePropertiesState <$> (servicecatalog.ExternalProperties x)) |}.
Definition Convert_servicecatalog_ServiceInstanceStatus_To_v1alpha1_ServiceInstanceStatus
    (x : servicecatalog.ServiceInstanceStatus) (out : ServiceInstanceStatus) : ServiceInstanceStatus :=
  autoConvert_servicecatalog_ServiceInstanceStatus_To_v1alpha1_ServiceInstanceStatus x out.

(** ** ServiceInstance *)

Definition autoConvert_v1alpha1_ServiceInstance_To_servicecatalog_ServiceInstance
    (x : ServiceInstance) (out : servicecatalog.ServiceInstance) : servicecatalog.ServiceInstance :=
  {| servicecatalog.si_TypeMeta := servicecatalog.si_TypeMeta out;
     servicecatalog.si_Meta := si_Meta x;
     servicecatalog.si_Spec := (Convert_v1alpha1_ServiceInstanceSpec_To_servicecatalog_ServiceInstanceSpec (si_Spec x) (servicecatalog.si_Spec out));
     servicecatalog.si_Status := (Convert_v1alpha1_ServiceInstanceStatus_To_servicecatalog_ServiceInstanceStatus (si_Status x) (servicecatalog.si_Status out)) |}.
Definition Convert_v1alpha1_ServiceInstance_To_servicecatalog_ServiceInstance
    (x : ServiceInstance) (out : servicecatalog.ServiceInstance) : servicecatalog.ServiceInstance :=
  autoConvert_v1alpha1_ServiceInstance_To_servicecatalog_ServiceInstance x out.

Definition autoConvert_servicecatalog_ServiceInstance_To_v1alpha1_ServiceInstance
    (x : servicecatalog.ServiceInstance) (out : ServiceInstance) : ServiceInstance :=
  {| si_TypeMeta := si_TypeMeta out;
     si_Meta := servicecatalog.si_Meta x;
     si_Spec := (Convert_servicecatalog_ServiceInstanceSpec_To_v1alpha1_ServiceInstanceSpec (servicecatalog.si_Spec x) (si_Spec out));
     si_Status := (Convert_servicecatalog_ServiceInstanceStatus_To_v1alpha1_ServiceInstanceStatus (servicecatalog.si_Status x) (si_Status out)) |}.
Definition Convert_servicecatalog_ServiceInstance_To_v1alpha1_ServiceInstance
    (x : servicecatalog.ServiceInstance) (out : ServiceInstance) : ServiceInstance :=
  autoConvert_servicecatalog_ServiceInstance_To_v1alpha1_ServiceInstance x out.

(** ** ServiceInstanceList *)

Definition autoConvert_v1alpha1_ServiceInstanceList_To_servicecatalog_ServiceInstanceList
    (x : ServiceInstanceList) (out : servicecatalog.ServiceInstanceList) : servicecatalog.ServiceInstanceList :=
  {| servicecatalog.sil_TypeMeta := servicecatalog.sil_TypeMeta out;
     servicecatalog.sil_ListMeta := sil_ListMeta x;
     servicecatalog.sil_Items := (map unsafe_v1alpha1_ServiceInstance (sil_Items x)) |}.
Definition Convert_v1alpha1_ServiceInstanceList_To_servicecatalog_ServiceInstanceList
    (x : ServiceInstanceList) (out : servicecatalog.ServiceInstanceList) : servicecatalog.ServiceInstanceList :=
  autoConvert_v1alpha1_ServiceInstanceList_To_servicecatalog_ServiceInstanceList x out.

Definition autoConvert_servicecatalog_ServiceInstanceList_To_v1alpha1_ServiceInstanceList
    (x : servicecatalog.ServiceInstanceList) (out : ServiceInstanceList) : ServiceInstanceList :=
  {| sil_TypeMeta := sil_TypeMeta out;
     sil_ListMeta := servicecatalog.sil_ListMeta x;
     sil_Items := (or_make (servicecatalog.sil_Items x) (map unsafe_servicecatalog_ServiceInstance (servicecatalog.sil_Items x))) |}.
Definition Convert_servicecatalog_ServiceInstanceList_To_v1alpha1_ServiceInstanceList
    (x : servicecatalog.ServiceInstanceList) (out : ServiceInstanceList) : ServiceInstanceList :=
  autoConvert_servicecatalog_ServiceInstanceList_To_v1alpha1_ServiceInstanceList x out.

(** ** ServiceInstanceCredentialSpec *)

Definition autoConvert_v1alpha1_ServiceInstanceCredentialSpec_To_servicecatalog_ServiceInstanceCredentialSpec
    (x : ServiceInstanceCredentialSpec) (out : servicecatalog.ServiceInstanceCredentialSpec) : servicecatalog.ServiceInstanceCredentialSpec :=
  {| servicecatalog.ServiceInstanceRef := ServiceInstanceRef x;
     servicecatalog.bind_Parameters := bind_Parameters x;
     servicecatalog.bind_ParametersFrom := (map unsafe_v1alpha1_ParametersFromSource <$> (bind_ParametersFrom x));
     servicecatalog.SecretName := SecretName x;
     servicecatalog.bind_ExternalID := bind_ExternalID x;
     servicecatalog.bind_UserInfo := (unsafe_v1alpha1_UserInfo <$> (bind_UserInfo x)) |}.
Definition Convert_v1alpha1_ServiceInstanceCredentialSpec_To_servicecatalog_ServiceInstanceCredentialSpec
    (x : ServiceInstanceCredentialSpec) (out : servicecatalog.ServiceInstanceCredentialSpec) : servicecatalog.ServiceInstanceCredentialSpec :=
  autoConvert_v1alpha1_ServiceInstanceCredentialSpec_To_servicecatalog_ServiceInstanceCredentialSpec x out.

Definition autoConvert_servicecatalog_ServiceInstanceCredentialSpec_To_v1alpha1_ServiceInstanceCredentialSpec
    (x : servicecatalog.ServiceInstanceCredentialSpec) (out : ServiceInstanceCredentialSpec) : ServiceInstanceCredentialSpec :=
  {| ServiceInstanceRef := servicecatalog.ServiceInstanceRef x;
     bind_Parameters := servicecatalog.bind_Parameters x;
     bind_ParametersFrom := (map unsafe_servicecatalog_ParametersFromSource <$> (servicecatalog.bind_ParametersFrom x));
     SecretName := servicecatalog.SecretName x;
     bind_ExternalID := servicecatalog.bind_ExternalID x;
     bind_UserInfo := (unsafe_servicecatalog_UserInfo <$> (servicecatalog.bind_UserInfo x)) |}.
Definition Convert_servicecatalog_ServiceInstanceCredentialSpec_To_v1alpha1_ServiceInstanceCredentialSpec
    (x : servicecatalog.ServiceInstanceCredentialSpec) (out : ServiceInstanceCredentialSpec) : ServiceInstanceCredentialSpec :=
  autoConvert_servicecatalog_ServiceInstanceCredentialSpec_To_v1alpha1_ServiceInstanceCredentialSpec x out.

(** ** ServiceInstanceCredentialPropertiesState *)

Definition autoConvert_v1alpha1_ServiceInstanceCredentialPropertiesState_To_servicecatalog_ServiceInstanceCredentialPropertiesState
    (x : ServiceInstanceCredentialPropertiesState) (out : servicecatalog.ServiceInstanceCredentialPropertiesState) : servicecatalog.ServiceInstanceCredentialPropertiesState :=
  {| servicecatalog.bps_Parameters := bps_Parameters x;
     servicecatalog.bps_ParametersChecksum := bps_ParametersChecksum x;
     servicecatalog.bps_UserInfo := (unsafe_v1alpha1_UserInfo <$> (bps_UserInfo x)) |}.
Definition Convert_v1alpha1_ServiceInstanceCredentialPropertiesState_To_servicecatalog_ServiceInstanceCredentialPropertiesState
    (x : ServiceInstanceCredentialPropertiesState) (out : servicecatalog.ServiceInstanceCredentialPropertiesState) : servicecatalog.ServiceInstanceCredentialPropertiesState :=
  autoConvert_v1alpha1_ServiceInstanceCredentialPropertiesState_To_servicecatalog_ServiceInstanceCredentialPropertiesState x out.

Definition autoConvert_servicecatalog_ServiceInstanceCredentialPropertiesState_To_v1alpha1_ServiceInstanceCredentialPropertiesState
    (x : servicecatalog.ServiceInstanceCredentialPropertiesState) (out : ServiceInstanceCredentialPropertiesState) : ServiceInstanceCredentialPropertiesState :=
  {| bps_Parameters := servicecatalog.bps_Parameters x;
     bps_ParametersChecksum := servicecatalog.bps_ParametersChecksum x;
     bps_UserInfo := (unsafe_servicecatalog_UserInfo <$> (servicecatalog.bps_UserInfo x)) |}.
Definition Convert_servicecatalog_ServiceInstanceCredentialPropertiesState_To_v1alpha1_ServiceInstanceCredentialPropertiesState
    (x : servicecatalog.ServiceInstanceCredentialPropertiesState) (out : ServiceInstanceCredentialPropertiesState) : ServiceInstanceCredentialPropertiesState :=
  autoConvert_servicecatalog_ServiceInstanceCredentialPropertiesState_To_v1alpha1_ServiceInstanceCredentialPropertiesState x out.

(** ** ServiceInstanceCredentialCondition *)

Definition autoConvert_v1alpha1_ServiceInstanceCredentialCondition_To_servicecatalog_ServiceInstanceCredentialCondition
    (x : ServiceInstanceCredentialCondition) (out : servicecatalog.ServiceInstanceCredentialCondition) : servicecatalog.ServiceInstanceCredentialCondition :=
  {| servicecatalog.sicc_Type := (ConditionType_string (cond_Type x));
     servicecatalog.sicc_Status := (ConditionStatus_string (cond_Status x));
     servicecatalog.sicc_LastTransitionTime := cond_LastTransitionTime x;
     servicecatalog.sicc_Reason := cond_Reason x;
     servicecatalog.sicc_Message := cond_Message x |}.
Definition Convert_v1alpha1_ServiceInstanceCredentialCondition_To_servicecatalog_ServiceInstanceCredentialCondition
    (x : ServiceInstanceCredentialCondition) (out : servicecatalog.ServiceInstanceCredentialCondition) : servicecatalog.ServiceInstanceCredentialCondition :=
  autoConvert_v1alpha1_ServiceInstanceCredentialCondition_To_servicecatalog_ServiceInstanceCredentialCondition x out.

Definition autoConvert_servicecatalog_ServiceInstanceCredentialCondition_To_v1alpha1_ServiceInstanceCredentialCondition
    (x : servicecatalog.ServiceInstanceCredentialCondition) (out : ServiceInstanceCredentialCondition) : ServiceInstanceCredentialCondition :=
  {| cond_Type := (ConditionType_of_string (servicecatalog.sicc_Type x));
     cond_Status := (ConditionStatus_of_string (servicecatalog.sicc_Status x));
     cond_LastTransitionTime := servicecatalog.sicc_LastTransitionTime x;
     cond_Reason := servicecatalog.sicc_Reason x;
     cond_Message := servicecatalog.sicc_Message x |}.
Definition Convert_servicecatalog_ServiceInstanceCredentialCondition_To_v1alpha1_ServiceInstanceCredentialCondition
    (x : servicecatalog.ServiceInstanceCredentialCondition) (out : ServiceInstanceCredentialCondition) : ServiceInstanceCredentialCondition :=
  autoConvert_servicecatalog_ServiceInstanceCredentialCondition_To_v1alpha1_ServiceInstanceCredentialCondition x out.

(** ** ServiceInstanceCredentialStatus *)

Definition autoConvert_v1alpha1_ServiceInstanceCredentialStatus_To_servicecatalog_ServiceInstanceCredentialStatus
    (x : ServiceInstanceCredentialStatus) (out : servicecatalog.ServiceInstanceCredentialStatus) : servicecatalog.ServiceInstanceCredentialStatus :=
  {| servicecatalog.bind_Conditions := (map unsafe_v1alpha1_ServiceInstanceCredentialCondition (bind_Conditions x));
     servicecatalog.bind_CurrentOperation := (ServiceInstanceCredentialOperation_string (bind_CurrentOperation x));
     servicecatalog.bind_ReconciledGeneration := bind_ReconciledGeneration x;
     servicecatalog.bind_OperationStartTime := bind_OperationStartTime x;
     servicecatalog.bind_InProgressProperties := (unsafe_v1alpha1_ServiceInstanceCredentialPropertiesState <$> (bind_InProgressProperties x));
     servicecatalog.bind_ExternalProperties := (unsafe_v1alpha1_ServiceInstanceCredentialPropertiesState <$> (bind_ExternalProperties x));
     servicecatalog.bind_OrphanMitigationInProgress := bind_OrphanMitigationInProgress x |}.
Definition Convert_v1alpha1_ServiceInstanceCredentialStatus_To_servicecatalog_ServiceInstanceCredentialStatus
    (x : ServiceInstanceCredentialStatus) (out : servicecatalog.ServiceInstanceCredentialStatus) : servicecatalog.ServiceInstanceCredentialStatus :=
  autoConvert_v1alpha1_ServiceInstanceCredentialStatus_To_servicecatalog_ServiceInstanceCredentialStatus x out.

Definition autoConvert_servicecatalog_ServiceInstanceCredentialStatus_To_v1alpha1_ServiceInstanceCredentialStatus
    (x : servicecatalog.ServiceInstanceCredentialStatus) (out : ServiceInstanceCredentialStatus) : ServiceInstanceCredentialStatus :=
  {| bind_Conditions := (or_make (servicecatalog.bind_Conditions x) (map unsafe_servicecatalog_ServiceInstanceCredentialCondition (servicecatalog.bind_Conditions x)));
     bind_CurrentOperation := (ServiceInstanceCredentialOperation_of_string (servicecatalog.bind_CurrentOperation x));
     bind_ReconciledGeneration := servicecatalog.bind_ReconciledGeneration x;
     bind_OperationStartTime := servicecatalog.bind_OperationStartTime x;
     bind_InProgressProperties := (unsafe_servicecatalog_ServiceInstanceCredentialPropertiesState <$> (servicecatalog.bind_InProgressProperties x));
     bind_ExternalProperties := (unsafe_servicecatalog_ServiceInstanceCredentialPropertiesState <$> (servicecatalog.bind_ExternalProperties x));
     bind_OrphanMitigationInProgress := servicecatalog.bind_OrphanMitigationInProgress x |}.
Definition Convert_servicecatalog_ServiceInstanceCredentialStatus_To_v1alpha1_ServiceInstanceCredentialStatus
    (x : servicecatalog.ServiceInstanceCredentialStatus) (out : ServiceInstanceCredentialStatus) : ServiceInstanceCredentialStatus :=
  autoConvert_servicecatalog_ServiceInstanceCredentialStatus_To_v1alpha1_ServiceInstanceCredentialStatus x out.

(** ** ServiceInstanceCredential *)

Definition autoConvert_v1alpha1_ServiceInstanceCredential_To_servicecatalog_ServiceInstanceCredential
    (x : ServiceInstanceCredential) (out : servicecatalog.ServiceInstanceCredential) : servicecatalog.ServiceInstanceCredential :=
  {| servicecatalog.bind_TypeMeta := servicecatalog.bind_TypeMeta out;
     servicecatalog.bind_Meta := bind_Meta x;
     servicecatalog.bind_Spec := (Convert_v1alpha1_ServiceInstanceCredentialSpec_To_servicecatalog_ServiceInstanceCredentialSpec (bind_Spec x) (servicecatalog.bind_Spec out));
     servicecatalog.bind_Status := (Convert_v1alpha1_ServiceInstanceCredentialStatus_To_servicecatalog_ServiceInstanceCredentialStatus (bind_Status x) (servicecatalog.bind_Status out)) |}.
Definition Convert_v1alpha1_ServiceInstanceCredential_To_servicecatalog_ServiceInstanceCredential
    (x : ServiceInstanceCredential) (out : servicecatalog.ServiceInstanceCredential) : servicecatalog.ServiceInstanceCredential :=
  autoConvert_v1alpha1_ServiceInstanceCredential_To_servicecatalog_ServiceInstanceCredential x out.

Definition autoConvert_servicecatalog_ServiceInstanceCredential_To_v1alpha1_ServiceInstanceCredential
    (x : servicecatalog.ServiceInstanceCredential) (out : ServiceInstanceCredential) : ServiceInstanceCredential :=
  {| bind_TypeMeta := bind_TypeMeta out;
     bind_Meta := servicecatalog.bind_Meta x;
     bind_Spec := (Convert_servicecatalog_ServiceInstanceCredentialSpec_To_v1alpha1_ServiceInstanceCredentialSpec (servicecatalog.bind_Spec x) (bind_Spec out));
     bind_Status := (Convert_servicecatalog_ServiceInstanceCredentialStatus_To_v1alpha1_ServiceInstanceCredentialStatus (servicecatalog.bind_Status x) (bind_Status out)) |}.
Definition Convert_servicecatalog_ServiceInstanceCredential_To_v1alpha1_ServiceInstanceCredential
    (x : servicecatalog.ServiceInstanceCredential) (out : ServiceInstanceCredential) : ServiceInstanceCredential :=
  autoConvert_servicecatalog_ServiceInstanceCredential_To_v1alpha1_ServiceInstanceCredential x out.

(** ** ServiceInstanceCredentialList *)

Definition autoConvert_v1alpha1_ServiceInstanceCredentialList_To_servicecatalog_ServiceInstanceCredentialList
    (x : ServiceInstanceCredentialList) (out : servicecatalog.ServiceInstanceCredentialList) : servicecatalog.ServiceInstanceCredentialList :=
  {| servicecatalog.sicl_TypeMeta := servicecatalog.sicl_TypeMeta out;
     servicecatalog.sicl_ListMeta := sicl_ListMeta x;
     servicecatalog.sicl_Items := (map unsafe_v1alpha1_ServiceInstanceCredential (sicl_Items x)) |}.
Definition Convert_v1alpha1_ServiceInstanceCredentialList_To_servicecatalog_ServiceInstanceCredentialList
    (x : ServiceInstanceCredentialList) (out : servicecatalog.ServiceInstanceCredentialList) : servicecatalog.ServiceInstanceCredentialList :=
  autoConvert_v1alpha1_ServiceInstanceCredentialList_To_servicecatalog_ServiceInstanceCredentialList x out.

Definition autoConvert_servicecatalog_ServiceInstanceCredentialList_To_v1alpha1_ServiceInstanceCredentialList
    (x : servicecatalog.ServiceInstanceCredentialList) (out : ServiceInstanceCredentialList) : ServiceInstanceCredentialList :=
  {| sicl_TypeMeta := sicl_TypeMeta out;
     sicl_ListMeta := servicecatalog.sicl_ListMeta x;
     sicl_Items := (or_make (servicecatalog.sicl_Items x) (map unsafe_servicecatalog_ServiceInstanceCredential (servicecatalog.sicl_Items x))) |}.
Definition Convert_servicecatalog_ServiceInstanceCredentialList_To_v1alpha1_ServiceInstanceCredentialList
    (x : servicecatalog.ServiceInstanceCredentialList) (out : ServiceInstanceCredentialList) : ServiceInstanceCredentialList :=
  autoConvert_servicecatalog_ServiceInstanceCredentialList_To_v1alpha1_ServiceInstanceCredentialList x out.

