(* ===== verification/ConversionLaws.v ===== *)
(** * Conversions lose nothing

    The memory casts of [Conversion] agree with the conversions by name
    ([T_cast], [T_cast_back]), so no two fields are confused; an internal object
    that is converted to v1alpha1 and back is itself ([T_there_and_back]), and so
    is a canonical object of v1alpha1 whose memory is read as the other version and
    back ([T_unsafe_forth]). *)

From S2P Require Import Prelude Types Selfer Fields InternalTypes Conversion.

Lemma fmap_same {A B} (f g : A -> B) (p : option A) : (forall x, f x = g x) -> f <$> p = g <$> p.
Proof. intros H. destruct p as [x|]; [|done]. cbn. by rewrite H. Qed.
Lemma fmap_back {A B} (f : A -> B) (g : B -> A) (p : option A) : (forall x, g (f x) = x) -> g <$> (f <$> p) = p.
Proof. intros H. destruct p as [x|]; [|done]. cbn. by rewrite H. Qed.
Lemma map_back {A B} (f : A -> B) (g : B -> A) (l : list A) : (forall x, g (f x) = x) -> map g (map f l) = l.
Proof. intros H. induction l as [|x l IH]; [done|]. cbn. by rewrite H, IH. Qed.
Lemma fmap_map_back {A B} (f : A -> B) (g : B -> A) (p : option (list A)) :
  (forall x, g (f x) = x) -> map g <$> (map f <$> p) = p.
Proof. intros H. apply fmap_back. intros l. by apply map_back. Qed.
Lemma or_make_map {A B} (f : A -> B) (l : list A) : or_make l (map f l) = map f l.
Proof. by destruct l. Qed.

Create HintDb converts discriminated.
#[local] Hint Rewrite ServiceBrokerRelistBehavior_string_of ConditionType_string_of ConditionStatus_string_of
  ServiceInstanceOperation_string_of ServiceInstanceCredentialOperation_string_of : converts.
#[local] Hint Rewrite @or_make_map : converts.

Ltac converts_field :=
  first
    [ reflexivity
    | progress autorewrite with converts; converts_field
    | solve [eauto with converts nocore]
    | apply fmap_back; intros; converts_field
    | apply map_back; intros; converts_field
    | apply fmap_map_back; intros; converts_field ].
Ltac converts := intros; repeat match goal with x : _ |- _ => progress (destruct x) end; cbn in *; subst; f_equal; converts_field.

Lemma SecretKeyReference_unsafe_back x : unsafe_v1alpha1_SecretKeyReference (unsafe_servicecatalog_SecretKeyReference x) = x.
Proof. destruct x; cbn; f_equal; converts_field. Qed.
#[local] Hint Resolve SecretKeyReference_unsafe_back : converts.
Lemma ParametersFromSource_unsafe_back x : unsafe_v1alpha1_ParametersFromSource (unsafe_servicecatalog_ParametersFromSource x) = x.
Proof. destruct x; cbn; f_equal; converts_field. Qed.
#[local] Hint Resolve ParametersFromSource_unsafe_back : converts.
Lemma UserInfo_unsafe_back x : unsafe_v1alpha1_UserInfo (unsafe_servicecatalog_UserInfo x) = x.
Proof. destruct x; cbn; f_equal; converts_field. Qed.
#[local] Hint Resolve UserInfo_unsafe_back : converts.
Lemma BasicAuthConfig_unsafe_back x : unsafe_v1alpha1_BasicAuthConfig (unsafe_servicecatalog_BasicAuthConfig x) = x.
Proof. destruct x; cbn; f_equal; converts_field. Qed.
#[local] Hint Resolve BasicAuthConfig_unsafe_back : converts.
Lemma BearerTokenAuthConfig_unsafe_back x : unsafe_v1alpha1_BearerTokenAuthConfig (unsafe_servicecatalog_BearerTokenAuthConfig x) = x.
Proof. destruct x; cbn; f_equal; converts_field. Qed.
#[local] Hint Resolve BearerTokenAuthConfig_unsafe_back : converts.
Lemma ServiceBrokerAuthInfo_unsafe_back x : unsafe_v1alpha1_ServiceBrokerAuthInfo (unsafe_servicecatalog_ServiceBrokerAuthInfo x) = x.
Proof. destruct x; cbn; f_equal; converts_field. Qed.
#[local] Hint Resolve ServiceBrokerAuthInfo_unsafe_back : converts.
Lemma ClusterServiceBrokerSpec_unsafe_back x : unsafe_v1alpha1_ClusterServiceBrokerSpec (unsafe_servicecatalog_ClusterServiceBrokerSpec x) = x.
Proof. destruct x; cbn; f_equal; converts_field. Qed.
#[local] Hint Resolve ClusterServiceBrokerSpec_unsafe_back : converts.
Lemma ServiceBrokerCondition_unsafe_back x : unsafe_v1alpha1_ServiceBrokerCondition (unsafe_servicecatalog_ServiceBrokerCondition x) = x.
Proof. destruct x; cbn; f_equal; converts_field. Qed.
#[local] Hint Resolve ServiceBrokerCondition_unsafe_back : converts.
Lemma ServiceBrokerStatus_unsafe_back x : unsafe_v1alpha1_ServiceBrokerStatus (unsafe_servicecatalog_ServiceBrokerStatus x) = x.
Proof. destruct x; cbn; f_equal; converts_field. Qed.
#[local] Hint Resolve ServiceBrokerStatus_unsafe_back : converts.
Lemma ClusterServiceBroker_unsafe_back x : unsafe_v1alpha1_ClusterServiceBroker (unsafe_servicecatalog_ClusterServiceBroker x) = x.
Proof. destruct x; cbn; f_equal; converts_field. Qed.
#[local] Hint Resolve ClusterServiceBroker_unsafe_back : converts.
Lemma ServiceClassSpec_unsafe_back x : unsafe_v1alpha1_ServiceClassSpec (unsafe_servicecatalog_ServiceClassSpec x) = x.
Proof. destruct x; cbn; f_equal; converts_field. Qed.
#[local] Hint Resolve ServiceClassSpec_unsafe_back : converts.
Lemma ServiceClass_unsafe_back x : unsafe_v1alpha1_ServiceClass (unsafe_servicecatalog_ServiceClass x) = x.
Proof. destruct x; cbn; f_equal; converts_field. Qed.
#[local] Hint Resolve ServiceClass_unsafe_back : converts.
Lemma ServicePlanSpec_unsafe_back x : unsafe_v1alpha1_ServicePlanSpec (unsafe_servicecatalog_ServicePlanSpec x) = x.
Proof. destruct x; cbn; f_equal; converts_field. Qed.
#[local] Hint Resolve ServicePlanSpec_unsafe_back : converts.
Lemma ServicePlan_unsafe_back x : unsafe_v1alpha1_ServicePlan (unsafe_servicecatalog_ServicePlan x) = x.
Proof. destruct x; cbn; f_equal; converts_field. Qed.
#[local] Hint Resolve ServicePlan_unsafe_back : converts.
Lemma ServiceInstanceSpec_unsafe_back x : unsafe_v1alpha1_ServiceInstanceSpec (unsafe_servicecatalog_ServiceInstanceSpec x) = x.
Proof. destruct x; cbn; f_equal; converts_field. Qed.
#[local] Hint Resolve ServiceInstanceSpec_unsafe_back : converts.
Lemma ServiceInstancePropertiesState_unsafe_back x : unsafe_v1alpha1_ServiceInstancePropertiesState (unsafe_servicecatalog_ServiceInstancePropertiesState x) = x.
Proof. destruct x; cbn; f_equal; converts_field. Qed.
#[local] Hint Resolve ServiceInstancePropertiesState_unsafe_back : converts.
Lemma ServiceInstanceCondition_unsafe_back x : unsafe_v1alpha1_ServiceInstanceCondition (unsafe_servicecatalog_ServiceInstanceCondition x) = x.
Proof. destruct x; cbn; f_equal; converts_field. Qed.
#[local] Hint Resolve ServiceInstanceCondition_unsafe_back : converts.
Lemma ServiceInstanceStatus_unsafe_back x : unsafe_v1alpha1_ServiceInstanceStatus (unsafe_servicecatalog_ServiceInstanceStatus x) = x.
Proof. destruct x; cbn; f_equal; converts_field. Qed.
#[local] Hint Resolve ServiceInstanceStatus_unsafe_back : converts.
Lemma ServiceInstance_unsafe_back x : unsafe_v1alpha1_ServiceInstance (unsafe_servicecatalog_ServiceInstance x) = x.
Proof. destruct x; cbn; f_equal; converts_field. Qed.
#[local] Hint Resolve ServiceInstance_unsafe_back : converts.
Lemma ServiceInstanceCredentialSpec_unsafe_back x : unsafe_v1alpha1_ServiceInstanceCredentialSpec (unsafe_servicecatalog_ServiceInstanceCredentialSpec x) = x.
Proof. destruct x; cbn; f_equal; converts_field. Qed.
#[local] Hint Resolve ServiceInstanceCredentialSpec_unsafe_back : converts.
Lemma ServiceInstanceCredentialPropertiesState_unsafe_back x : unsafe_v1alpha1_ServiceInstanceCredentialPropertiesState (unsafe_servicecatalog_ServiceInstanceCredentialPropertiesState x) = x.
Proof. destruct x; cbn; f_equal; converts_field. Qed.
#[local] Hint Resolve ServiceInstanceCredentialPropertiesState_unsafe_back : converts.
Lemma ServiceInstanceCredentialCondition_unsafe_back x : unsafe_v1alpha1_ServiceInstanceCredentialCondition (unsafe_servicecatalog_ServiceInstanceCredentialCondition x) = x.
Proof. destruct x; cbn; f_equal; converts_field. Qed.
#[local] Hint Resolve ServiceInstanceCredentialCondition_unsafe_back : converts.
Lemma ServiceInstanceCredentialStatus_unsafe_back x : unsafe_v1alpha1_ServiceInstanceCredentialStatus (unsafe_servicecatalog_ServiceInstanceCredentialStatus x) = x.
Proof. destruct x; cbn; f_equal; converts_field. Qed.
#[local] Hint Resolve ServiceInstanceCredentialStatus_unsafe_back : converts.
Lemma ServiceInstanceCredential_unsafe_back x : unsafe_v1alpha1_ServiceInstanceCredential (unsafe_servicecatalog_ServiceInstanceCredential x) = x.
Proof. destruct x; cbn; f_equal; converts_field. Qed.
#[local] Hint Resolve ServiceInstanceCredential_unsafe_back : converts.

(** ** Canonical values

    The types of strings of v1alpha1 have the model's names for the constants of
    the package, and a constructor for every other string; a value is canonical
    if a string that has a name goes by it.  It says nothing of the program, whose
    values are the strings. *)

Definition condition_canonical (c : ServiceInstanceCondition) : Prop :=
  ConditionType_of_string (ConditionType_string (cond_Type c)) = cond_Type c /\
  ConditionStatus_of_string (ConditionStatus_string (cond_Status c)) = cond_Status c.
Definition ClusterServiceBroker_canonical (b : ClusterServiceBroker) : Prop :=
  ServiceBrokerRelistBehavior_of_string (ServiceBrokerRelistBehavior_string (RelistBehavior (b_Spec b))) = RelistBehavior (b_Spec b) /\
  List.Forall condition_canonical (bs_Conditions (b_Status b)).
Definition ServiceInstance_canonical (i : ServiceInstance) : Prop :=
  ServiceInstanceOperation_of_string (ServiceInstanceOperation_string (CurrentOperation (si_Status i))) = CurrentOperation (si_Status i) /\
  List.Forall condition_canonical (Conditions (si_Status i)).
Definition ServiceInstanceCredential_canonical (b : ServiceInstanceCredential) : Prop :=
  ServiceInstanceCredentialOperation_of_string (ServiceInstanceCredentialOperation_string (bind_CurrentOperation (bind_Status b))) =
    bind_CurrentOperation (bind_Status b) /\
  List.Forall condition_canonical (bind_Conditions (bind_Status b)).

Lemma map_forth {A B} (P : A -> Prop) (f : A -> B) (g : B -> A) (l : list A) :
  (forall x, P x -> g (f x) = x) -> List.Forall P l -> map g (map f l) = l.
Proof. intros H. induction 1 as [|x l Hx _ IH]; [done|]. cbn. by rewrite H, IH. Qed.
Lemma ServiceInstanceCondition_unsafe_forth x : condition_canonical x ->
  unsafe_servicecatalog_ServiceInstanceCondition (unsafe_v1alpha1_ServiceInstanceCondition x) = x.
Proof. destruct x. by intros [H1 H2]; cbn in *; rewrite H1, H2. Qed.
Lemma ServiceBrokerCondition_unsafe_forth x : condition_canonical x ->
  unsafe_servicecatalog_ServiceBrokerCondition (unsafe_v1alpha1_ServiceBrokerCondition x) = x.
Proof. destruct x. by intros [H1 H2]; cbn in *; rewrite H1, H2. Qed.
Lemma ServiceInstanceCredentialCondition_unsafe_forth x : condition_canonical x ->
  unsafe_servicecatalog_ServiceInstanceCredentialCondition (unsafe_v1alpha1_ServiceInstanceCredentialCondition x) = x.
Proof. destruct x. by intros [H1 H2]; cbn in *; rewrite H1, H2. Qed.
Lemma SecretKeyReference_unsafe_forth x : unsafe_servicecatalog_SecretKeyReference (unsafe_v1alpha1_SecretKeyReference x) = x.
Proof. destruct x; cbn; f_equal; converts_field. Qed.
#[local] Hint Resolve SecretKeyReference_unsafe_forth : converts.
Lemma ParametersFromSource_unsafe_forth x : unsafe_servicecatalog_ParametersFromSource (unsafe_v1alpha1_ParametersFromSource x) = x.
Proof. destruct x; cbn; f_equal; converts_field. Qed.
#[local] Hint Resolve ParametersFromSource_unsafe_forth : converts.
Lemma UserInfo_unsafe_forth x : unsafe_servicecatalog_UserInfo (unsafe_v1alpha1_UserInfo x) = x.
Proof. destruct x; cbn; f_equal; converts_field. Qed.
#[local] Hint Resolve UserInfo_unsafe_forth : converts.
Lemma BasicAuthConfig_unsafe_forth x : unsafe_servicecatalog_BasicAuthConfig (unsafe_v1alpha1_BasicAuthConfig x) = x.
Proof. destruct x; cbn; f_equal; converts_field. Qed.
#[local] Hint Resolve BasicAuthConfig_unsafe_forth : converts.
Lemma BearerTokenAuthConfig_unsafe_forth x : unsafe_servicecatalog_BearerTokenAuthConfig (unsafe_v1alpha1_BearerTokenAuthConfig x) = x.
Proof. destruct x; cbn; f_equal; converts_field. Qed.
#[local] Hint Resolve BearerTokenAuthConfig_unsafe_forth : converts.
Lemma ServiceBrokerAuthInfo_unsafe_forth x : unsafe_servicecatalog_ServiceBrokerAuthInfo (unsafe_v1alpha1_ServiceBrokerAuthInfo x) = x.
Proof. destruct x; cbn; f_equal; converts_field. Qed.
#[local] Hint Resolve ServiceBrokerAuthInfo_unsafe_forth : converts.
Lemma ServiceClassSpec_unsafe_forth x : unsafe_servicecatalog_ServiceClassSpec (unsafe_v1alpha1_ServiceClassSpec x) = x.
Proof. destruct x; cbn; f_equal; converts_field. Qed.
#[local] Hint Resolve ServiceClassSpec_unsafe_forth : converts.
Lemma ServiceClass_unsafe_forth x : unsafe_servicecatalog_ServiceClass (unsafe_v1alpha1_ServiceClass x) = x.
Proof. destruct x; cbn; f_equal; converts_field. Qed.
#[local] Hint Resolve ServiceClass_unsafe_forth : converts.
Lemma ServicePlanSpec_unsafe_forth x : unsafe_servicecatalog_ServicePlanSpec (unsafe_v1alpha1_ServicePlanSpec x) = x.
Proof. destruct x; cbn; f_equal; converts_field. Qed.
#[local] Hint Resolve ServicePlanSpec_unsafe_forth : converts.
Lemma ServicePlan_unsafe_forth x : unsafe_servicecatalog_ServicePlan (unsafe_v1alpha1_ServicePlan x) = x.
Proof. destruct x; cbn; f_equal; converts_field. Qed.
#[local] Hint Resolve ServicePlan_unsafe_forth : converts.
Lemma ServiceInstanceSpec_unsafe_forth x : unsafe_servicecatalog_ServiceInstanceSpec (unsafe_v1alpha1_ServiceInstanceSpec x) = x.
Proof. destruct x; cbn; f_equal; converts_field. Qed.
#[local] Hint Resolve ServiceInstanceSpec_unsafe_forth : converts.
Lemma ServiceInstancePropertiesState_unsafe_forth x : unsafe_servicecatalog_ServiceInstancePropertiesState (unsafe_v1alpha1_ServiceInstancePropertiesState x) = x.
Proof. destruct x; cbn; f_equal; converts_field. Qed.
#[local] Hint Resolve ServiceInstancePropertiesState_unsafe_forth : converts.
Lemma ServiceInstanceCredentialSpec_unsafe_forth x : unsafe_servicecatalog_ServiceInstanceCredentialSpec (unsafe_v1alpha1_ServiceInstanceCredentialSpec x) = x.
Proof. destruct x; cbn; f_equal; converts_field. Qed.
#[local] Hint Resolve ServiceInstanceCredentialSpec_unsafe_forth : converts.
Lemma ServiceInstanceCredentialPropertiesState_unsafe_forth x : unsafe_servicecatalog_ServiceInstanceCredentialPropertiesState (unsafe_v1alpha1_ServiceInstanceCredentialPropertiesState x) = x.
Proof. destruct x; cbn; f_equal; converts_field. Qed.
#[local] Hint Resolve ServiceInstanceCredentialPropertiesState_unsafe_forth : converts.
Lemma ClusterServiceBroker_unsafe_forth x : ClusterServiceBroker_canonical x ->
  unsafe_servicecatalog_ClusterServiceBroker (unsafe_v1alpha1_ClusterServiceBroker x) = x.
Proof.
  destruct x as [t m [] []]. intros [H1 H2]. cbn in *. rewrite H1, (@map_forth ServiceBrokerCondition _ condition_canonical _ _ _ ServiceBrokerCondition_unsafe_forth H2).
  do 2 f_equal; converts_field.
Qed.
Lemma ServiceInstance_unsafe_forth x : ServiceInstance_canonical x ->
  unsafe_servicecatalog_ServiceInstance (unsafe_v1alpha1_ServiceInstance x) = x.
Proof.
  destruct x as [t m [] []]. intros [H1 H2]. cbn in *. rewrite H1, (@map_forth ServiceInstanceCondition _ condition_canonical _ _ _ ServiceInstanceCondition_unsafe_forth H2).
  do 2 f_equal; converts_field.
Qed.
Lemma ServiceInstanceCredential_unsafe_forth x : ServiceInstanceCredential_canonical x ->
  unsafe_servicecatalog_ServiceInstanceCredential (unsafe_v1alpha1_ServiceInstanceCredential x) = x.
Proof.
  destruct x as [t m [] []]. intros [H1 H2]. cbn in *. rewrite H1, (@map_forth ServiceInstanceCredentialCondition _ condition_canonical _ _ _ ServiceInstanceCredentialCondition_unsafe_forth H2).
  do 2 f_equal; converts_field.
Qed.

(** ** By position and by name *)

Lemma SecretKeyReference_cast x out : unsafe_v1alpha1_SecretKeyReference x = Convert_v1alpha1_SecretKeyReference_To_servicecatalog_SecretKeyReference x out.
Proof. unfold Convert_v1alpha1_SecretKeyReference_To_servicecatalog_SecretKeyReference, autoConvert_v1alpha1_SecretKeyReference_To_servicecatalog_SecretKeyReference. destruct x; cbn; f_equal; autorewrite with converts; done. Qed.
Lemma SecretKeyReference_cast_back x out : unsafe_servicecatalog_SecretKeyReference x = Convert_servicecatalog_SecretKeyReference_To_v1alpha1_SecretKeyReference x out.
Proof. unfold Convert_servicecatalog_SecretKeyReference_To_v1alpha1_SecretKeyReference, autoConvert_servicecatalog_SecretKeyReference_To_v1alpha1_SecretKeyReference. destruct x; cbn; f_equal; autorewrite with converts; done. Qed.
#[local] Hint Resolve SecretKeyReference_cast SecretKeyReference_cast_back : converts.
Lemma ParametersFromSource_cast x out : unsafe_v1alpha1_ParametersFromSource x = Convert_v1alpha1_ParametersFromSource_To_servicecatalog_ParametersFromSource x out.
Proof. unfold Convert_v1alpha1_ParametersFromSource_To_servicecatalog_ParametersFromSource, autoConvert_v1alpha1_ParametersFromSource_To_servicecatalog_ParametersFromSource. destruct x; cbn; f_equal; autorewrite with converts; done. Qed.
Lemma ParametersFromSource_cast_back x out : unsafe_servicecatalog_ParametersFromSource x = Convert_servicecatalog_ParametersFromSource_To_v1alpha1_ParametersFromSource x out.
Proof. unfold Convert_servicecatalog_ParametersFromSource_To_v1alpha1_ParametersFromSource, autoConvert_servicecatalog_ParametersFromSource_To_v1alpha1_ParametersFromSource. destruct x; cbn; f_equal; autorewrite with converts; done. Qed.
#[local] Hint Resolve ParametersFromSource_cast ParametersFromSource_cast_back : converts.
Lemma UserInfo_cast x out : unsafe_v1alpha1_UserInfo x = Convert_v1alpha1_UserInfo_To_servicecatalog_UserInfo x out.
Proof. unfold Convert_v1alpha1_UserInfo_To_servicecatalog_UserInfo, autoConvert_v1alpha1_UserInfo_To_servicecatalog_UserInfo. destruct x; cbn; f_equal; autorewrite with converts; done. Qed.
Lemma UserInfo_cast_back x out : unsafe_servicecatalog_UserInfo x = Convert_servicecatalog_UserInfo_To_v1alpha1_UserInfo x out.
Proof. unfold Convert_servicecatalog_UserInfo_To_v1alpha1_UserInfo, autoConvert_servicecatalog_UserInfo_To_v1alpha1_UserInfo. destruct x; cbn; f_equal; autorewrite with converts; done. Qed.
#[local] Hint Resolve UserInfo_cast UserInfo_cast_back : converts.
Lemma BasicAuthConfig_cast x out : unsafe_v1alpha1_BasicAuthConfig x = Convert_v1alpha1_BasicAuthConfig_To_servicecatalog_BasicAuthConfig x out.
Proof. unfold Convert_v1alpha1_BasicAuthConfig_To_servicecatalog_BasicAuthConfig, autoConvert_v1alpha1_BasicAuthConfig_To_servicecatalog_BasicAuthConfig. destruct x; cbn; f_equal; autorewrite with converts; done. Qed.
Lemma BasicAuthConfig_cast_back x out : unsafe_servicecatalog_BasicAuthConfig x = Convert_servicecatalog_BasicAuthConfig_To_v1alpha1_BasicAuthConfig x out.
Proof. unfold Convert_servicecatalog_BasicAuthConfig_To_v1alpha1_BasicAuthConfig, autoConvert_servicecatalog_BasicAuthConfig_To_v1alpha1_BasicAuthConfig. destruct x; cbn; f_equal; autorewrite with converts; done. Qed.
#[local] Hint Resolve BasicAuthConfig_cast BasicAuthConfig_cast_back : converts.
Lemma BearerTokenAuthConfig_cast x out : unsafe_v1alpha1_BearerTokenAuthConfig x = Convert_v1alpha1_BearerTokenAuthConfig_To_servicecatalog_BearerTokenAuthConfig x out.
Proof. unfold Convert_v1alpha1_BearerTokenAuthConfig_To_servicecatalog_BearerTokenAuthConfig, autoConvert_v1alpha1_BearerTokenAuthConfig_To_servicecatalog_BearerTokenAuthConfig. destruct x; cbn; f_equal; autorewrite with converts; done. Qed.
Lemma BearerTokenAuthConfig_cast_back x out : unsafe_servicecatalog_BearerTokenAuthConfig x = Convert_servicecatalog_BearerTokenAuthConfig_To_v1alpha1_BearerTokenAuthConfig x out.
Proof. unfold Convert_servicecatalog_BearerTokenAuthConfig_To_v1alpha1_BearerTokenAuthConfig, autoConvert_servicecatalog_BearerTokenAuthConfig_To_v1alpha1_BearerTokenAuthConfig. destruct x; cbn; f_equal; autorewrite with converts; done. Qed.
#[local] Hint Resolve BearerTokenAuthConfig_cast BearerTokenAuthConfig_cast_back : converts.
Lemma ServiceBrokerAuthInfo_cast x out : unsafe_v1alpha1_ServiceBrokerAuthInfo x = Convert_v1alpha1_ServiceBrokerAuthInfo_To_servicecatalog_ServiceBrokerAuthInfo x out.
Proof. unfold Convert_v1alpha1_ServiceBrokerAuthInfo_To_servicecatalog_ServiceBrokerAuthInfo, autoConvert_v1alpha1_ServiceBrokerAuthInfo_To_servicecatalog_ServiceBrokerAuthInfo. destruct x; cbn; f_equal; autorewrite with converts; done. Qed.
Lemma ServiceBrokerAuthInfo_cast_back x out : unsafe_servicecatalog_ServiceBrokerAuthInfo x = Convert_servicecatalog_ServiceBrokerAuthInfo_To_v1alpha1_ServiceBrokerAuthInfo x out.
Proof. unfold Convert_servicecatalog_ServiceBrokerAuthInfo_To_v1alpha1_ServiceBrokerAuthInfo, autoConvert_servicecatalog_ServiceBrokerAuthInfo_To_v1alpha1_ServiceBrokerAuthInfo. destruct x; cbn; f_equal; autorewrite with converts; done. Qed.
#[local] Hint Resolve ServiceBrokerAuthInfo_cast ServiceBrokerAuthInfo_cast_back : converts.
Lemma ClusterServiceBrokerSpec_cast x out : unsafe_v1alpha1_ClusterServiceBrokerSpec x = Convert_v1alpha1_ClusterServiceBrokerSpec_To_servicecatalog_ClusterServiceBrokerSpec x out.
Proof. unfold Convert_v1alpha1_ClusterServiceBrokerSpec_To_servicecatalog_ClusterServiceBrokerSpec, autoConvert_v1alpha1_ClusterServiceBrokerSpec_To_servicecatalog_ClusterServiceBrokerSpec. destruct x; cbn; f_equal; autorewrite with converts; done. Qed.
Lemma ClusterServiceBrokerSpec_cast_back x out : unsafe_servicecatalog_ClusterServiceBrokerSpec x = Convert_servicecatalog_ClusterServiceBrokerSpec_To_v1alpha1_ClusterServiceBrokerSpec x out.
Proof. unfold Convert_servicecatalog_ClusterServiceBrokerSpec_To_v1alpha1_ClusterServiceBrokerSpec, autoConvert_servicecatalog_ClusterServiceBrokerSpec_To_v1alpha1_ClusterServiceBrokerSpec. destruct x; cbn; f_equal; autorewrite with converts; done. Qed.
#[local] Hint Resolve ClusterServiceBrokerSpec_cast ClusterServiceBrokerSpec_cast_back : converts.
Lemma ServiceBrokerCondition_cast x out : unsafe_v1alpha1_ServiceBrokerCondition x = Convert_v1alpha1_ServiceBrokerCondition_To_servicecatalog_ServiceBrokerCondition x out.
Proof. unfold Convert_v1alpha1_ServiceBrokerCondition_To_servicecatalog_ServiceBrokerCondition, autoConvert_v1alpha1_ServiceBrokerCondition_To_servicecatalog_ServiceBrokerCondition. destruct x; cbn; f_equal; autorewrite with converts; done. Qed.
Lemma ServiceBrokerCondition_cast_back x out : unsafe_servicecatalog_ServiceBrokerCondition x = Convert_servicecatalog_ServiceBrokerCondition_To_v1alpha1_ServiceBrokerCondition x out.
Proof. unfold Convert_servicecatalog_ServiceBrokerCondition_To_v1alpha1_ServiceBrokerCondition, autoConvert_servicecatalog_ServiceBrokerCondition_To_v1alpha1_ServiceBrokerCondition. destruct x; cbn; f_equal; autorewrite with converts; done. Qed.
#[local] Hint Resolve ServiceBrokerCondition_cast ServiceBrokerCondition_cast_back : converts.
Lemma ServiceBrokerStatus_cast x out : unsafe_v1alpha1_ServiceBrokerStatus x = Convert_v1alpha1_ServiceBrokerStatus_To_servicecatalog_ServiceBrokerStatus x out.
Proof. unfold Convert_v1alpha1_ServiceBrokerStatus_To_servicecatalog_ServiceBrokerStatus, autoConvert_v1alpha1_ServiceBrokerStatus_To_servicecatalog_ServiceBrokerStatus. destruct x; cbn; f_equal; autorewrite with converts; done. Qed.
Lemma ServiceBrokerStatus_cast_back x out : unsafe_servicecatalog_ServiceBrokerStatus x = Convert_servicecatalog_ServiceBrokerStatus_To_v1alpha1_ServiceBrokerStatus x out.
Proof. unfold Convert_servicecatalog_ServiceBrokerStatus_To_v1alpha1_ServiceBrokerStatus, autoConvert_servicecatalog_ServiceBrokerStatus_To_v1alpha1_ServiceBrokerStatus. destruct x; cbn; f_equal; autorewrite with converts; done. Qed.
#[local] Hint Resolve ServiceBrokerStatus_cast ServiceBrokerStatus_cast_back : converts.
Lemma ClusterServiceBroker_cast x out : servicecatalog.b_TypeMeta out = b_TypeMeta x -> unsafe_v1alpha1_ClusterServiceBroker x = Convert_v1alpha1_ClusterServiceBroker_To_servicecatalog_ClusterServiceBroker x out.
Proof. intros H. unfold Convert_v1alpha1_ClusterServiceBroker_To_servicecatalog_ClusterServiceBroker, autoConvert_v1alpha1_ClusterServiceBroker_To_servicecatalog_ClusterServiceBroker. rewrite H. destruct x; cbn; f_equal; eauto with converts nocore. Qed.
Lemma ClusterServiceBroker_cast_back x out : b_TypeMeta out = servicecatalog.b_TypeMeta x -> unsafe_servicecatalog_ClusterServiceBroker x = Convert_servicecatalog_ClusterServiceBroker_To_v1alpha1_ClusterServiceBroker x out.
Proof. intros H. unfold Convert_servicecatalog_ClusterServiceBroker_To_v1alpha1_ClusterServiceBroker, autoConvert_servicecatalog_ClusterServiceBroker_To_v1alpha1_ClusterServiceBroker. rewrite H. destruct x; cbn; f_equal; eauto with converts nocore. Qed.
Lemma ServiceClassSpec_cast x out : unsafe_v1alpha1_ServiceClassSpec x = Convert_v1alpha1_ServiceClassSpec_To_servicecatalog_ServiceClassSpec x out.
Proof. unfold Convert_v1alpha1_ServiceClassSpec_To_servicecatalog_ServiceClassSpec, autoConvert_v1alpha1_ServiceClassSpec_To_servicecatalog_ServiceClassSpec. destruct x; cbn; f_equal; autorewrite with converts; done. Qed.
Lemma ServiceClassSpec_cast_back x out : unsafe_servicecatalog_ServiceClassSpec x = Convert_servicecatalog_ServiceClassSpec_To_v1alpha1_ServiceClassSpec x out.
Proof. unfold Convert_servicecatalog_ServiceClassSpec_To_v1alpha1_ServiceClassSpec, autoConvert_servicecatalog_ServiceClassSpec_To_v1alpha1_ServiceClassSpec. destruct x; cbn; f_equal; autorewrite with converts; done. Qed.
#[local] Hint Resolve ServiceClassSpec_cast ServiceClassSpec_cast_back : converts.
Lemma ServiceClass_cast x out : servicecatalog.sc_TypeMeta out = sc_TypeMeta x -> unsafe_v1alpha1_ServiceClass x = Convert_v1alpha1_ServiceClass_To_servicecatalog_ServiceClass x out.
Proof. intros H. unfold Convert_v1alpha1_ServiceClass_To_servicecatalog_ServiceClass, autoConvert_v1alpha1_ServiceClass_To_servicecatalog_ServiceClass. rewrite H. destruct x; cbn; f_equal; eauto with converts nocore. Qed.
Lemma ServiceClass_cast_back x out : sc_TypeMeta out = servicecatalog.sc_TypeMeta x -> unsafe_servicecatalog_ServiceClass x = Convert_servicecatalog_ServiceClass_To_v1alpha1_ServiceClass x out.
Proof. intros H. unfold Convert_servicecatalog_ServiceClass_To_v1alpha1_ServiceClass, autoConvert_servicecatalog_ServiceClass_To_v1alpha1_ServiceClass. rewrite H. destruct x; cbn; f_equal; eauto with converts nocore. Qed.
Lemma ServicePlanSpec_cast x out : unsafe_v1alpha1_ServicePlanSpec x = Convert_v1alpha1_ServicePlanSpec_To_servicecatalog_ServicePlanSpec x out.
Proof. unfold Convert_v1alpha1_ServicePlanSpec_To_servicecatalog_ServicePlanSpec, autoConvert_v1alpha1_ServicePlanSpec_To_servicecatalog_ServicePlanSpec. destruct x; cbn; f_equal; autorewrite with converts; done. Qed.
Lemma ServicePlanSpec_cast_back x out : unsafe_servicecatalog_ServicePlanSpec x = Convert_servicecatalog_ServicePlanSpec_To_v1alpha1_ServicePlanSpec x out.
Proof. unfold Convert_servicecatalog_ServicePlanSpec_To_v1alpha1_ServicePlanSpec, autoConvert_servicecatalog_ServicePlanSpec_To_v1alpha1_ServicePlanSpec. destruct x; cbn; f_equal; autorewrite with converts; done. Qed.
#[local] Hint Resolve ServicePlanSpec_cast ServicePlanSpec_cast_back : converts.
Lemma ServicePlan_cast x out : servicecatalog.sp_TypeMeta out = sp_TypeMeta x -> unsafe_v1alpha1_ServicePlan x = Convert_v1alpha1_ServicePlan_To_servicecatalog_ServicePlan x out.
Proof. intros H. unfold Convert_v1alpha1_ServicePlan_To_servicecatalog_ServicePlan, autoConvert_v1alpha1_ServicePlan_To_servicecatalog_ServicePlan. rewrite H. destruct x; cbn; f_equal; eauto with converts nocore. Qed.
Lemma ServicePlan_cast_back x out : sp_TypeMeta out = servicecatalog.sp_TypeMeta x -> unsafe_servicecatalog_ServicePlan x = Convert_servicecatalog_ServicePlan_To_v1alpha1_ServicePlan x out.
Proof. intros H. unfold Convert_servicecatalog_ServicePlan_To_v1alpha1_ServicePlan, autoConvert_servicecatalog_ServicePlan_To_v1alpha1_ServicePlan. rewrite H. destruct x; cbn; f_equal; eauto with converts nocore. Qed.
Lemma ServiceInstanceSpec_cast x out : unsafe_v1alpha1_ServiceInstanceSpec x = Convert_v1alpha1_ServiceInstanceSpec_To_servicecatalog_ServiceInstanceSpec x out.
Proof. unfold Convert_v1alpha1_ServiceInstanceSpec_To_servicecatalog_ServiceInstanceSpec, autoConvert_v1alpha1_ServiceInstanceSpec_To_servicecatalog_ServiceInstanceSpec. destruct x; cbn; f_equal; autorewrite with converts; done. Qed.
Lemma ServiceInstanceSpec_cast_back x out : unsafe_servicecatalog_ServiceInstanceSpec x = Convert_servicecatalog_ServiceInstanceSpec_To_v1alpha1_ServiceInstanceSpec x out.
Proof. unfold Convert_servicecatalog_ServiceInstanceSpec_To_v1alpha1_ServiceInstanceSpec, autoConvert_servicecatalog_ServiceInstanceSpec_To_v1alpha1_ServiceInstanceSpec. destruct x; cbn; f_equal; autorewrite with converts; done. Qed.
#[local] Hint Resolve ServiceInstanceSpec_cast ServiceInstanceSpec_cast_back : converts.
Lemma ServiceInstancePropertiesState_cast x out : unsafe_v1alpha1_ServiceInstancePropertiesState x = Convert_v1alpha1_ServiceInstancePropertiesState_To_servicecatalog_ServiceInstancePropertiesState x out.
Proof. unfold Convert_v1alpha1_ServiceInstancePropertiesState_To_servicecatalog_ServiceInstancePropertiesState, autoConvert_v1alpha1_ServiceInstancePropertiesState_To_servicecatalog_ServiceInstancePropertiesState. destruct x; cbn; f_equal; autorewrite with converts; done. Qed.
Lemma ServiceInstancePropertiesState_cast_back x out : unsafe_servicecatalog_ServiceInstancePropertiesState x = Convert_servicecatalog_ServiceInstancePropertiesState_To_v1alpha1_ServiceInstancePropertiesState x out.
Proof. unfold Convert_servicecatalog_ServiceInstancePropertiesState_To_v1alpha1_ServiceInstancePropertiesState, autoConvert_servicecatalog_ServiceInstancePropertiesState_To_v1alpha1_ServiceInstancePropertiesState. destruct x; cbn; f_equal; autorewrite with converts; done. Qed.
#[local] Hint Resolve ServiceInstancePropertiesState_cast ServiceInstancePropertiesState_cast_back : converts.
Lemma ServiceInstanceCondition_cast x out : unsafe_v1alpha1_ServiceInstanceCondition x = Convert_v1alpha1_ServiceInstanceCondition_To_servicecatalog_ServiceInstanceCondition x out.
Proof. unfold Convert_v1alpha1_ServiceInstanceCondition_To_servicecatalog_ServiceInstanceCondition, autoConvert_v1alpha1_ServiceInstanceCondition_To_servicecatalog_ServiceInstanceCondition. destruct x; cbn; f_equal; autorewrite with converts; done. Qed.
Lemma ServiceInstanceCondition_cast_back x out : unsafe_servicecatalog_ServiceInstanceCondition x = Convert_servicecatalog_ServiceInstanceCondition_To_v1alpha1_ServiceInstanceCondition x out.
Proof. unfold Convert_servicecatalog_ServiceInstanceCondition_To_v1alpha1_ServiceInstanceCondition, autoConvert_servicecatalog_ServiceInstanceCondition_To_v1alpha1_ServiceInstanceCondition. destruct x; cbn; f_equal; autorewrite with converts; done. Qed.
#[local] Hint Resolve ServiceInstanceCondition_cast ServiceInstanceCondition_cast_back : converts.
Lemma ServiceInstanceStatus_cast x out : unsafe_v1alpha1_ServiceInstanceStatus x = Convert_v1alpha1_ServiceInstanceStatus_To_servicecatalog_ServiceInstanceStatus x out.
Proof. unfold Convert_v1alpha1_ServiceInstanceStatus_To_servicecatalog_ServiceInstanceStatus, autoConvert_v1alpha1_ServiceInstanceStatus_To_servicecatalog_ServiceInstanceStatus. destruct x; cbn; f_equal; autorewrite with converts; done. Qed.
Lemma ServiceInstanceStatus_cast_back x out : unsafe_servicecatalog_ServiceInstanceStatus x = Convert_servicecatalog_ServiceInstanceStatus_To_v1alpha1_ServiceInstanceStatus x out.
Proof. unfold Convert_servicecatalog_ServiceInstanceStatus_To_v1alpha1_ServiceInstanceStatus, autoConvert_servicecatalog_ServiceInstanceStatus_To_v1alpha1_ServiceInstanceStatus. destruct x; cbn; f_equal; autorewrite with converts; done. Qed.
#[local] Hint Resolve ServiceInstanceStatus_cast ServiceInstanceStatus_cast_back : converts.
Lemma ServiceInstance_cast x out : servicecatalog.si_TypeMeta out = si_TypeMeta x -> unsafe_v1alpha1_ServiceInstance x = Convert_v1alpha1_ServiceInstance_To_servicecatalog_ServiceInstance x out.
Proof. intros H. unfold Convert_v1alpha1_ServiceInstance_To_servicecatalog_ServiceInstance, autoConvert_v1alpha1_ServiceInstance_To_servicecatalog_ServiceInstance. rewrite H. destruct x; cbn; f_equal; eauto with converts nocore. Qed.
Lemma ServiceInstance_cast_back x out : si_TypeMeta out = servicecatalog.si_TypeMeta x -> unsafe_servicecatalog_ServiceInstance x = Convert_servicecatalog_ServiceInstance_To_v1alpha1_ServiceInstance x out.
Proof. intros H. unfold Convert_servicecatalog_ServiceInstance_To_v1alpha1_ServiceInstance, autoConvert_servicecatalog_ServiceInstance_To_v1alpha1_ServiceInstance. rewrite H. destruct x; cbn; f_equal; eauto with converts nocore. Qed.
Lemma ServiceInstanceCredentialSpec_cast x out : unsafe_v1alpha1_ServiceInstanceCredentialSpec x = Convert_v1alpha1_ServiceInstanceCredentialSpec_To_servicecatalog_ServiceInstanceCredentialSpec x out.
Proof. unfold Convert_v1alpha1_ServiceInstanceCredentialSpec_To_servicecatalog_ServiceInstanceCredentialSpec, autoConvert_v1alpha1_ServiceInstanceCredentialSpec_To_servicecatalog_ServiceInstanceCredentialSpec. destruct x; cbn; f_equal; autorewrite with converts; done. Qed.
Lemma ServiceInstanceCredentialSpec_cast_back x out : unsafe_servicecatalog_ServiceInstanceCredentialSpec x = Convert_servicecatalog_ServiceInstanceCredentialSpec_To_v1alpha1_ServiceInstanceCredentialSpec x out.
Proof. unfold Convert_servicecatalog_ServiceInstanceCredentialSpec_To_v1alpha1_ServiceInstanceCredentialSpec, autoConvert_servicecatalog_ServiceInstanceCredentialSpec_To_v1alpha1_ServiceInstanceCredentialSpec. destruct x; cbn; f_equal; autorewrite with converts; done. Qed.
#[local] Hint Resolve ServiceInstanceCredentialSpec_cast ServiceInstanceCredentialSpec_cast_back : converts.
Lemma ServiceInstanceCredentialPropertiesState_cast x out : unsafe_v1alpha1_ServiceInstanceCredentialPropertiesState x = Convert_v1alpha1_ServiceInstanceCredentialPropertiesState_To_servicecatalog_ServiceInstanceCredentialPropertiesState x out.
Proof. unfold Convert_v1alpha1_ServiceInstanceCredentialPropertiesState_To_servicecatalog_ServiceInstanceCredentialPropertiesState, autoConvert_v1alpha1_ServiceInstanceCredentialPropertiesState_To_servicecatalog_ServiceInstanceCredentialPropertiesState. destruct x; cbn; f_equal; autorewrite with converts; done. Qed.
Lemma ServiceInstanceCredentialPropertiesState_cast_back x out : unsafe_servicecatalog_ServiceInstanceCredentialPropertiesState x = Convert_servicecatalog_ServiceInstanceCredentialPropertiesState_To_v1alpha1_ServiceInstanceCredentialPropertiesState x out.
Proof. unfold Convert_servicecatalog_ServiceInstanceCredentialPropertiesState_To_v1alpha1_ServiceInstanceCredentialPropertiesState, autoConvert_servicecatalog_ServiceInstanceCredentialPropertiesState_To_v1alpha1_ServiceInstanceCredentialPropertiesState. destruct x; cbn; f_equal; autorewrite with converts; done. Qed.
#[local] Hint Resolve ServiceInstanceCredentialPropertiesState_cast ServiceInstanceCredentialPropertiesState_cast_back : converts.
Lemma ServiceInstanceCredentialCondition_cast x out : unsafe_v1alpha1_ServiceInstanceCredentialCondition x = Convert_v1alpha1_ServiceInstanceCredentialCondition_To_servicecatalog_ServiceInstanceCredentialCondition x out.
Proof. unfold Convert_v1alpha1_ServiceInstanceCredentialCondition_To_servicecatalog_ServiceInstanceCredentialCondition, autoConvert_v1alpha1_ServiceInstanceCredentialCondition_To_servicecatalog_ServiceInstanceCredentialCondition. destruct x; cbn; f_equal; autorewrite with converts; done. Qed.
Lemma ServiceInstanceCredentialCondition_cast_back x out : unsafe_servicecatalog_ServiceInstanceCredentialCondition x = Convert_servicecatalog_ServiceInstanceCredentialCondition_To_v1alpha1_ServiceInstanceCredentialCondition x out.
Proof. unfold Convert_servicecatalog_ServiceInstanceCredentialCondition_To_v1alpha1_ServiceInstanceCredentialCondition, autoConvert_servicecatalog_ServiceInstanceCredentialCondition_To_v1alpha1_ServiceInstanceCredentialCondition. destruct x; cbn; f_equal; autorewrite with converts; done. Qed.
#[local] Hint Resolve ServiceInstanceCredentialCondition_cast ServiceInstanceCredentialCondition_cast_back : converts.
Lemma ServiceInstanceCredentialStatus_cast x out : unsafe_v1alpha1_ServiceInstanceCredentialStatus x = Convert_v1alpha1_ServiceInstanceCredentialStatus_To_servicecatalog_ServiceInstanceCredentialStatus x out.
Proof. unfold Convert_v1alpha1_ServiceInstanceCredentialStatus_To_servicecatalog_ServiceInstanceCredentialStatus, autoConvert_v1alpha1_ServiceInstanceCredentialStatus_To_servicecatalog_ServiceInstanceCredentialStatus. destruct x; cbn; f_equal; autorewrite with converts; done. Qed.
Lemma ServiceInstanceCredentialStatus_cast_back x out : unsafe_servicecatalog_ServiceInstanceCredentialStatus x = Convert_servicecatalog_ServiceInstanceCredentialStatus_To_v1alpha1_ServiceInstanceCredentialStatus x out.
Proof. unfold Convert_servicecatalog_ServiceInstanceCredentialStatus_To_v1alpha1_ServiceInstanceCredentialStatus, autoConvert_servicecatalog_ServiceInstanceCredentialStatus_To_v1alpha1_ServiceInstanceCredentialStatus. destruct x; cbn; f_equal; autorewrite with converts; done. Qed.
#[local] Hint Resolve ServiceInstanceCredentialStatus_cast ServiceInstanceCredentialStatus_cast_back : converts.
Lemma ServiceInstanceCredential_cast x out : servicecatalog.bind_TypeMeta out = bind_TypeMeta x -> unsafe_v1alpha1_ServiceInstanceCredential x = Convert_v1alpha1_ServiceInstanceCredential_To_servicecatalog_ServiceInstanceCredential x out.
Proof. intros H. unfold Convert_v1alpha1_ServiceInstanceCredential_To_servicecatalog_ServiceInstanceCredential, autoConvert_v1alpha1_ServiceInstanceCredential_To_servicecatalog_ServiceInstanceCredential. rewrite H. destruct x; cbn; f_equal; eauto with converts nocore. Qed.
Lemma ServiceInstanceCredential_cast_back x out : bind_TypeMeta out = servicecatalog.bind_TypeMeta x -> unsafe_servicecatalog_ServiceInstanceCredential x = Convert_servicecatalog_ServiceInstanceCredential_To_v1alpha1_ServiceInstanceCredential x out.
Proof. intros H. unfold Convert_servicecatalog_ServiceInstanceCredential_To_v1alpha1_ServiceInstanceCredential, autoConvert_servicecatalog_ServiceInstanceCredential_To_v1alpha1_ServiceInstanceCredential. rewrite H. destruct x; cbn; f_equal; eauto with converts nocore. Qed.

(** ** There and back *)

Lemma SecretKeyReference_there_and_back x y out : Convert_v1alpha1_SecretKeyReference_To_servicecatalog_SecretKeyReference (Convert_servicecatalog_SecretKeyReference_To_v1alpha1_SecretKeyReference x y) out = x.
Proof. unfold Convert_v1alpha1_SecretKeyReference_To_servicecatalog_SecretKeyReference, autoConvert_v1alpha1_SecretKeyReference_To_servicecatalog_SecretKeyReference, Convert_servicecatalog_SecretKeyReference_To_v1alpha1_SecretKeyReference, autoConvert_servicecatalog_SecretKeyReference_To_v1alpha1_SecretKeyReference. destruct x; cbn; f_equal; converts_field. Qed.
#[local] Hint Resolve SecretKeyReference_there_and_back : converts.
Lemma ParametersFromSource_there_and_back x y out : Convert_v1alpha1_ParametersFromSource_To_servicecatalog_ParametersFromSource (Convert_servicecatalog_ParametersFromSource_To_v1alpha1_ParametersFromSource x y) out = x.
Proof. unfold Convert_v1alpha1_ParametersFromSource_To_servicecatalog_ParametersFromSource, autoConvert_v1alpha1_ParametersFromSource_To_servicecatalog_ParametersFromSource, Convert_servicecatalog_ParametersFromSource_To_v1alpha1_ParametersFromSource, autoConvert_servicecatalog_ParametersFromSource_To_v1alpha1_ParametersFromSource. destruct x; cbn; f_equal; converts_field. Qed.
#[local] Hint Resolve ParametersFromSource_there_and_back : converts.
Lemma UserInfo_there_and_back x y out : Convert_v1alpha1_UserInfo_To_servicecatalog_UserInfo (Convert_servicecatalog_UserInfo_To_v1alpha1_UserInfo x y) out = x.
Proof. unfold Convert_v1alpha1_UserInfo_To_servicecatalog_UserInfo, autoConvert_v1alpha1_UserInfo_To_servicecatalog_UserInfo, Convert_servicecatalog_UserInfo_To_v1alpha1_UserInfo, autoConvert_servicecatalog_UserInfo_To_v1alpha1_UserInfo. destruct x; cbn; f_equal; converts_field. Qed.
#[local] Hint Resolve UserInfo_there_and_back : converts.
Lemma BasicAuthConfig_there_and_back x y out : Convert_v1alpha1_BasicAuthConfig_To_servicecatalog_BasicAuthConfig (Convert_servicecatalog_BasicAuthConfig_To_v1alpha1_BasicAuthConfig x y) out = x.
Proof. unfold Convert_v1alpha1_BasicAuthConfig_To_servicecatalog_BasicAuthConfig, autoConvert_v1alpha1_BasicAuthConfig_To_servicecatalog_BasicAuthConfig, Convert_servicecatalog_BasicAuthConfig_To_v1alpha1_BasicAuthConfig, autoConvert_servicecatalog_BasicAuthConfig_To_v1alpha1_BasicAuthConfig. destruct x; cbn; f_equal; converts_field. Qed.
#[local] Hint Resolve BasicAuthConfig_there_and_back : converts.
Lemma BearerTokenAuthConfig_there_and_back x y out : Convert_v1alpha1_BearerTokenAuthConfig_To_servicecatalog_BearerTokenAuthConfig (Convert_servicecatalog_BearerTokenAuthConfig_To_v1alpha1_BearerTokenAuthConfig x y) out = x.
Proof. unfold Convert_v1alpha1_BearerTokenAuthConfig_To_servicecatalog_BearerTokenAuthConfig, autoConvert_v1alpha1_BearerTokenAuthConfig_To_servicecatalog_BearerTokenAuthConfig, Convert_servicecatalog_BearerTokenAuthConfig_To_v1alpha1_BearerTokenAuthConfig, autoConvert_servicecatalog_BearerTokenAuthConfig_To_v1alpha1_BearerTokenAuthConfig. destruct x; cbn; f_equal; converts_field. Qed.
#[local] Hint Resolve BearerTokenAuthConfig_there_and_back : converts.
Lemma ServiceBrokerAuthInfo_there_and_back x y out : Convert_v1alpha1_ServiceBrokerAuthInfo_To_servicecatalog_ServiceBrokerAuthInfo (Convert_servicecatalog_ServiceBrokerAuthInfo_To_v1alpha1_ServiceBrokerAuthInfo x y) out = x.
Proof. unfold Convert_v1alpha1_ServiceBrokerAuthInfo_To_servicecatalog_ServiceBrokerAuthInfo, autoConvert_v1alpha1_ServiceBrokerAuthInfo_To_servicecatalog_ServiceBrokerAuthInfo, Convert_servicecatalog_ServiceBrokerAuthInfo_To_v1alpha1_ServiceBrokerAuthInfo, autoConvert_servicecatalog_ServiceBrokerAuthInfo_To_v1alpha1_ServiceBrokerAuthInfo. destruct x; cbn; f_equal; converts_field. Qed.
#[local] Hint Resolve ServiceBrokerAuthInfo_there_and_back : converts.
Lemma ClusterServiceBrokerSpec_there_and_back x y out : Convert_v1alpha1_ClusterServiceBrokerSpec_To_servicecatalog_ClusterServiceBrokerSpec (Convert_servicecatalog_ClusterServiceBrokerSpec_To_v1alpha1_ClusterServiceBrokerSpec x y) out = x.
Proof. unfold Convert_v1alpha1_ClusterServiceBrokerSpec_To_servicecatalog_ClusterServiceBrokerSpec, autoConvert_v1alpha1_ClusterServiceBrokerSpec_To_servicecatalog_ClusterServiceBrokerSpec, Convert_servicecatalog_ClusterServiceBrokerSpec_To_v1alpha1_ClusterServiceBrokerSpec, autoConvert_servicecatalog_ClusterServiceBrokerSpec_To_v1alpha1_ClusterServiceBrokerSpec. destruct x; cbn; f_equal; converts_field. Qed.
#[local] Hint Resolve ClusterServiceBrokerSpec_there_and_back : converts.
Lemma ServiceBrokerCondition_there_and_back x y out : Convert_v1alpha1_ServiceBrokerCondition_To_servicecatalog_ServiceBrokerCondition (Convert_servicecatalog_ServiceBrokerCondition_To_v1alpha1_ServiceBrokerCondition x y) out = x.
Proof. unfold Convert_v1alpha1_ServiceBrokerCondition_To_servicecatalog_ServiceBrokerCondition, autoConvert_v1alpha1_ServiceBrokerCondition_To_servicecatalog_ServiceBrokerCondition, Convert_servicecatalog_ServiceBrokerCondition_To_v1alpha1_ServiceBrokerCondition, autoConvert_servicecatalog_ServiceBrokerCondition_To_v1alpha1_ServiceBrokerCondition. destruct x; cbn; f_equal; converts_field. Qed.
#[local] Hint Resolve ServiceBrokerCondition_there_and_back : converts.
Lemma ServiceBrokerStatus_there_and_back x y out : Convert_v1alpha1_ServiceBrokerStatus_To_servicecatalog_ServiceBrokerStatus (Convert_servicecatalog_ServiceBrokerStatus_To_v1alpha1_ServiceBrokerStatus x y) out = x.
Proof. unfold Convert_v1alpha1_ServiceBrokerStatus_To_servicecatalog_ServiceBrokerStatus, autoConvert_v1alpha1_ServiceBrokerStatus_To_servicecatalog_ServiceBrokerStatus, Convert_servicecatalog_ServiceBrokerStatus_To_v1alpha1_ServiceBrokerStatus, autoConvert_servicecatalog_ServiceBrokerStatus_To_v1alpha1_ServiceBrokerStatus. destruct x; cbn; f_equal; converts_field. Qed.
#[local] Hint Resolve ServiceBrokerStatus_there_and_back : converts.
Lemma ClusterServiceBroker_there_and_back x y out : servicecatalog.b_TypeMeta out = servicecatalog.b_TypeMeta x -> Convert_v1alpha1_ClusterServiceBroker_To_servicecatalog_ClusterServiceBroker (Convert_servicecatalog_ClusterServiceBroker_To_v1alpha1_ClusterServiceBroker x y) out = x.
Proof. intros H. unfold Convert_v1alpha1_ClusterServiceBroker_To_servicecatalog_ClusterServiceBroker, autoConvert_v1alpha1_ClusterServiceBroker_To_servicecatalog_ClusterServiceBroker. rewrite H. unfold Convert_servicecatalog_ClusterServiceBroker_To_v1alpha1_ClusterServiceBroker, autoConvert_servicecatalog_ClusterServiceBroker_To_v1alpha1_ClusterServiceBroker. destruct x; cbn; f_equal; converts_field. Qed.
Lemma ClusterServiceBrokerList_there_and_back x y out : servicecatalog.cbl_TypeMeta out = servicecatalog.cbl_TypeMeta x -> Convert_v1alpha1_ClusterServiceBrokerList_To_servicecatalog_ClusterServiceBrokerList (Convert_servicecatalog_ClusterServiceBrokerList_To_v1alpha1_ClusterServiceBrokerList x y) out = x.
Proof. intros H. unfold Convert_v1alpha1_ClusterServiceBrokerList_To_servicecatalog_ClusterServiceBrokerList, autoConvert_v1alpha1_ClusterServiceBrokerList_To_servicecatalog_ClusterServiceBrokerList. rewrite H. unfold Convert_servicecatalog_ClusterServiceBrokerList_To_v1alpha1_ClusterServiceBrokerList, autoConvert_servicecatalog_ClusterServiceBrokerList_To_v1alpha1_ClusterServiceBrokerList. destruct x; cbn; f_equal; converts_field. Qed.
Lemma ServiceClassSpec_there_and_back x y out : Convert_v1alpha1_ServiceClassSpec_To_servicecatalog_ServiceClassSpec (Convert_servicecatalog_ServiceClassSpec_To_v1alpha1_ServiceClassSpec x y) out = x.
Proof. unfold Convert_v1alpha1_ServiceClassSpec_To_servicecatalog_ServiceClassSpec, autoConvert_v1alpha1_ServiceClassSpec_To_servicecatalog_ServiceClassSpec, Convert_servicecatalog_ServiceClassSpec_To_v1alpha1_ServiceClassSpec, autoConvert_servicecatalog_ServiceClassSpec_To_v1alpha1_ServiceClassSpec. destruct x; cbn; f_equal; converts_field. Qed.
#[local] Hint Resolve ServiceClassSpec_there_and_back : converts.
Lemma ServiceClass_there_and_back x y out : servicecatalog.sc_TypeMeta out = servicecatalog.sc_TypeMeta x -> Convert_v1alpha1_ServiceClass_To_servicecatalog_ServiceClass (Convert_servicecatalog_ServiceClass_To_v1alpha1_ServiceClass x y) out = x.
Proof. intros H. unfold Convert_v1alpha1_ServiceClass_To_servicecatalog_ServiceClass, autoConvert_v1alpha1_ServiceClass_To_servicecatalog_ServiceClass. rewrite H. unfold Convert_servicecatalog_ServiceClass_To_v1alpha1_ServiceClass, autoConvert_servicecatalog_ServiceClass_To_v1alpha1_ServiceClass. destruct x; cbn; f_equal; converts_field. Qed.
Lemma ServiceClassList_there_and_back x y out : servicecatalog.scl_TypeMeta out = servicecatalog.scl_TypeMeta x -> Convert_v1alpha1_ServiceClassList_To_servicecatalog_ServiceClassList (Convert_servicecatalog_ServiceClassList_To_v1alpha1_ServiceClassList x y) out = x.
Proof. intros H. unfold Convert_v1alpha1_ServiceClassList_To_servicecatalog_ServiceClassList, autoConvert_v1alpha1_ServiceClassList_To_servicecatalog_ServiceClassList. rewrite H. unfold Convert_servicecatalog_ServiceClassList_To_v1alpha1_ServiceClassList, autoConvert_servicecatalog_ServiceClassList_To_v1alpha1_ServiceClassList. destruct x; cbn; f_equal; converts_field. Qed.
Lemma ServicePlanSpec_there_and_back x y out : Convert_v1alpha1_ServicePlanSpec_To_servicecatalog_ServicePlanSpec (Convert_servicecatalog_ServicePlanSpec_To_v1alpha1_ServicePlanSpec x y) out = x.
Proof. unfold Convert_v1alpha1_ServicePlanSpec_To_servicecatalog_ServicePlanSpec, autoConvert_v1alpha1_ServicePlanSpec_To_servicecatalog_ServicePlanSpec, Convert_servicecatalog_ServicePlanSpec_To_v1alpha1_ServicePlanSpec, autoConvert_servicecatalog_ServicePlanSpec_To_v1alpha1_ServicePlanSpec. destruct x; cbn; f_equal; converts_field. Qed.
#[local] Hint Resolve ServicePlanSpec_there_and_back : converts.
Lemma ServicePlan_there_and_back x y out : servicecatalog.sp_TypeMeta out = servicecatalog.sp_TypeMeta x -> Convert_v1alpha1_ServicePlan_To_servicecatalog_ServicePlan (Convert_servicecatalog_ServicePlan_To_v1alpha1_ServicePlan x y) out = x.
Proof. intros H. unfold Convert_v1alpha1_ServicePlan_To_servicecatalog_ServicePlan, autoConvert_v1alpha1_ServicePlan_To_servicecatalog_ServicePlan. rewrite H. unfold Convert_servicecatalog_ServicePlan_To_v1alpha1_ServicePlan, autoConvert_servicecatalog_ServicePlan_To_v1alpha1_ServicePlan. destruct x; cbn; f_equal; converts_field. Qed.
Lemma ServicePlanList_there_and_back x y out : servicecatalog.spl_TypeMeta out = servicecatalog.spl_TypeMeta x -> Convert_v1alpha1_ServicePlanList_To_servicecatalog_ServicePlanList (Convert_servicecatalog_ServicePlanList_To_v1alpha1_ServicePlanList x y) out = x.
Proof. intros H. unfold Convert_v1alpha1_ServicePlanList_To_servicecatalog_ServicePlanList, autoConvert_v1alpha1_ServicePlanList_To_servicecatalog_ServicePlanList. rewrite H. unfold Convert_servicecatalog_ServicePlanList_To_v1alpha1_ServicePlanList, autoConvert_servicecatalog_ServicePlanList_To_v1alpha1_ServicePlanList. destruct x; cbn; f_equal; converts_field. Qed.
Lemma ServiceInstanceSpec_there_and_back x y out : Convert_v1alpha1_ServiceInstanceSpec_To_servicecatalog_ServiceInstanceSpec (Convert_servicecatalog_ServiceInstanceSpec_To_v1alpha1_ServiceInstanceSpec x y) out = x.
Proof. unfold Convert_v1alpha1_ServiceInstanceSpec_To_servicecatalog_ServiceInstanceSpec, autoConvert_v1alpha1_ServiceInstanceSpec_To_servicecatalog_ServiceInstanceSpec, Convert_servicecatalog_ServiceInstanceSpec_To_v1alpha1_ServiceInstanceSpec, autoConvert_servicecatalog_ServiceInstanceSpec_To_v1alpha1_ServiceInstanceSpec. destruct x; cbn; f_equal; converts_field. Qed.
#[local] Hint Resolve ServiceInstanceSpec_there_and_back : converts.
Lemma ServiceInstancePropertiesState_there_and_back x y out : Convert_v1alpha1_ServiceInstancePropertiesState_To_servicecatalog_ServiceInstancePropertiesState (Convert_servicecatalog_ServiceInstancePropertiesState_To_v1alpha1_ServiceInstancePropertiesState x y) out = x.
Proof. unfold Convert_v1alpha1_ServiceInstancePropertiesState_To_servicecatalog_ServiceInstancePropertiesState, autoConvert_v1alpha1_ServiceInstancePropertiesState_To_servicecatalog_ServiceInstancePropertiesState, Convert_servicecatalog_ServiceInstancePropertiesState_To_v1alpha1_ServiceInstancePropertiesState, autoConvert_servicecatalog_ServiceInstancePropertiesState_To_v1alpha1_ServiceInstancePropertiesState. destruct x; cbn; f_equal; converts_field. Qed.
#[local] Hint Resolve ServiceInstancePropertiesState_there_and_back : converts.
Lemma ServiceInstanceCondition_there_and_back x y out : Convert_v1alpha1_ServiceInstanceCondition_To_servicecatalog_ServiceInstanceCondition (Convert_servicecatalog_ServiceInstanceCondition_To_v1alpha1_ServiceInstanceCondition x y) out = x.
Proof. unfold Convert_v1alpha1_ServiceInstanceCondition_To_servicecatalog_ServiceInstanceCondition, autoConvert_v1alpha1_ServiceInstanceCondition_To_servicecatalog_ServiceInstanceCondition, Convert_servicecatalog_ServiceInstanceCondition_To_v1alpha1_ServiceInstanceCondition, autoConvert_servicecatalog_ServiceInstanceCondition_To_v1alpha1_ServiceInstanceCondition. destruct x; cbn; f_equal; converts_field. Qed.
#[local] Hint Resolve ServiceInstanceCondition_there_and_back : converts.
Lemma ServiceInstanceStatus_there_and_back x y out : Convert_v1alpha1_ServiceInstanceStatus_To_servicecatalog_ServiceInstanceStatus (Convert_servicecatalog_ServiceInstanceStatus_To_v1alpha1_ServiceInstanceStatus x y) out = x.
Proof. unfold Convert_v1alpha1_ServiceInstanceStatus_To_servicecatalog_ServiceInstanceStatus, autoConvert_v1alpha1_ServiceInstanceStatus_To_servicecatalog_ServiceInstanceStatus, Convert_servicecatalog_ServiceInstanceStatus_To_v1alpha1_ServiceInstanceStatus, autoConvert_servicecatalog_ServiceInstanceStatus_To_v1alpha1_ServiceInstanceStatus. destruct x; cbn; f_equal; converts_field. Qed.
#[local] Hint Resolve ServiceInstanceStatus_there_and_back : converts.
Lemma ServiceInstance_there_and_back x y out : servicecatalog.si_TypeMeta out = servicecatalog.si_TypeMeta x -> Convert_v1alpha1_ServiceInstance_To_servicecatalog_ServiceInstance (Convert_servicecatalog_ServiceInstance_To_v1alpha1_ServiceInstance x y) out = x.
Proof. intros H. unfold Convert_v1alpha1_ServiceInstance_To_servicecatalog_ServiceInstance, autoConvert_v1alpha1_ServiceInstance_To_servicecatalog_ServiceInstance. rewrite H. unfold Convert_servicecatalog_ServiceInstance_To_v1alpha1_ServiceInstance, autoConvert_servicecatalog_ServiceInstance_To_v1alpha1_ServiceInstance. destruct x; cbn; f_equal; converts_field. Qed.
Lemma ServiceInstanceList_there_and_back x y out : servicecatalog.sil_TypeMeta out = servicecatalog.sil_TypeMeta x -> Convert_v1alpha1_ServiceInstanceList_To_servicecatalog_ServiceInstanceList (Convert_servicecatalog_ServiceInstanceList_To_v1alpha1_ServiceInstanceList x y) out = x.
Proof. intros H. unfold Convert_v1alpha1_ServiceInstanceList_To_servicecatalog_ServiceInstanceList, autoConvert_v1alpha1_ServiceInstanceList_To_servicecatalog_ServiceInstanceList. rewrite H. unfold Convert_servicecatalog_ServiceInstanceList_To_v1alpha1_ServiceInstanceList, autoConvert_servicecatalog_ServiceInstanceList_To_v1alpha1_ServiceInstanceList. destruct x; cbn; f_equal; converts_field. Qed.
Lemma ServiceInstanceCredentialSpec_there_and_back x y out : Convert_v1alpha1_ServiceInstanceCredentialSpec_To_servicecatalog_ServiceInstanceCredentialSpec (Convert_servicecatalog_ServiceInstanceCredentialSpec_To_v1alpha1_ServiceInstanceCredentialSpec x y) out = x.
Proof. unfold Convert_v1alpha1_ServiceInstanceCredentialSpec_To_servicecatalog_ServiceInstanceCredentialSpec, autoConvert_v1alpha1_ServiceInstanceCredentialSpec_To_servicecatalog_ServiceInstanceCredentialSpec, Convert_servicecatalog_ServiceInstanceCredentialSpec_To_v1alpha1_ServiceInstanceCredentialSpec, autoConvert_servicecatalog_ServiceInstanceCredentialSpec_To_v1alpha1_ServiceInstanceCredentialSpec. destruct x; cbn; f_equal; converts_field. Qed.
#[local] Hint Resolve ServiceInstanceCredentialSpec_there_and_back : converts.
Lemma ServiceInstanceCredentialPropertiesState_there_and_back x y out : Convert_v1alpha1_ServiceInstanceCredentialPropertiesState_To_servicecatalog_ServiceInstanceCredentialPropertiesState (Convert_servicecatalog_ServiceInstanceCredentialPropertiesState_To_v1alpha1_ServiceInstanceCredentialPropertiesState x y) out = x.
Proof. unfold Convert_v1alpha1_ServiceInstanceCredentialPropertiesState_To_servicecatalog_ServiceInstanceCredentialPropertiesState, autoConvert_v1alpha1_ServiceInstanceCredentialPropertiesState_To_servicecatalog_ServiceInstanceCredentialPropertiesState, Convert_servicecatalog_ServiceInstanceCredentialPropertiesState_To_v1alpha1_ServiceInstanceCredentialPropertiesState, autoConvert_servicecatalog_ServiceInstanceCredentialPropertiesState_To_v1alpha1_ServiceInstanceCredentialPropertiesState. destruct x; cbn; f_equal; converts_field. Qed.
#[local] Hint Resolve ServiceInstanceCredentialPropertiesState_there_and_back : converts.
Lemma ServiceInstanceCredentialCondition_there_and_back x y out : Convert_v1alpha1_ServiceInstanceCredentialCondition_To_servicecatalog_ServiceInstanceCredentialCondition (Convert_servicecatalog_ServiceInstanceCredentialCondition_To_v1alpha1_ServiceInstanceCredentialCondition x y) out = x.
Proof. unfold Convert_v1alpha1_ServiceInstanceCredentialCondition_To_servicecatalog_ServiceInstanceCredentialCondition, autoConvert_v1alpha1_ServiceInstanceCredentialCondition_To_servicecatalog_ServiceInstanceCredentialCondition, Convert_servicecatalog_ServiceInstanceCredentialCondition_To_v1alpha1_ServiceInstanceCredentialCondition, autoConvert_servicecatalog_ServiceInstanceCredentialCondition_To_v1alpha1_ServiceInstanceCredentialCondition. destruct x; cbn; f_equal; converts_field. Qed.
#[local] Hint Resolve ServiceInstanceCredentialCondition_there_and_back : converts.
Lemma ServiceInstanceCredentialStatus_there_and_back x y out : Convert_v1alpha1_ServiceInstanceCredentialStatus_To_servicecatalog_ServiceInstanceCredentialStatus (Convert_servicecatalog_ServiceInstanceCredentialStatus_To_v1alpha1_ServiceInstanceCredentialStatus x y) out = x.
Proof. unfold Convert_v1alpha1_ServiceInstanceCredentialStatus_To_servicecatalog_ServiceInstanceCredentialStatus, autoConvert_v1alpha1_ServiceInstanceCredentialStatus_To_servicecatalog_ServiceInstanceCredentialStatus, Convert_servicecatalog_ServiceInstanceCredentialStatus_To_v1alpha1_ServiceInstanceCredentialStatus, autoConvert_servicecatalog_ServiceInstanceCredentialStatus_To_v1alpha1_ServiceInstanceCredentialStatus. destruct x; cbn; f_equal; converts_field. Qed.
#[local] Hint Resolve ServiceInstanceCredentialStatus_there_and_back : converts.
Lemma ServiceInstanceCredential_there_and_back x y out : servicecatalog.bind_TypeMeta out = servicecatalog.bind_TypeMeta x -> Convert_v1alpha1_ServiceInstanceCredential_To_servicecatalog_ServiceInstanceCredential (Convert_servicecatalog_ServiceInstanceCredential_To_v1alpha1_ServiceInstanceCredential x y) out = x.
Proof. intros H. unfold Convert_v1alpha1_ServiceInstanceCredential_To_servicecatalog_ServiceInstanceCredential, autoConvert_v1alpha1_ServiceInstanceCredential_To_servicecatalog_ServiceInstanceCredential. rewrite H. unfold Convert_servicecatalog_ServiceInstanceCredential_To_v1alpha1_ServiceInstanceCredential, autoConvert_servicecatalog_ServiceInstanceCredential_To_v1alpha1_ServiceInstanceCredential. destruct x; cbn; f_equal; converts_field. Qed.
Lemma ServiceInstanceCredentialList_there_and_back x y out : servicecatalog.sicl_TypeMeta out = servicecatalog.sicl_TypeMeta x -> Convert_v1alpha1_ServiceInstanceCredentialList_To_servicecatalog_ServiceInstanceCredentialList (Convert_servicecatalog_ServiceInstanceCredentialList_To_v1alpha1_ServiceInstanceCredentialList x y) out = x.
Proof. intros H. unfold Convert_v1alpha1_ServiceInstanceCredentialList_To_servicecatalog_ServiceInstanceCredentialList, autoConvert_v1alpha1_ServiceInstanceCredentialList_To_servicecatalog_ServiceInstanceCredentialList. rewrite H. unfold Convert_servicecatalog_ServiceInstanceCredentialList_To_v1alpha1_ServiceInstanceCredentialList, autoConvert_servicecatalog_ServiceInstanceCredentialList_To_v1alpha1_ServiceInstanceCredentialList. destruct x; cbn; f_equal; converts_field. Qed.
