(* ===== verification/Serialization.v ===== *)
(** * Objects in etcd

    How the API server keeps an object: it is converted to v1alpha1, gets its
    kind and version, is written with [encoding/json], and read back with the
    generated codec, defaulted and converted to the internal version
    ([Encode], [Decode] of [k8s.io/apimachinery/pkg/runtime/serializer/versioning]
    on [serializer/json]).  etcd holds a text and the revision it was written
    at; the text has no resource version ([k8s.io/apiserver/pkg/storage/etcd3]).
    A text of another version than v1alpha1, or without one, is not read. *)

From S2P Require Import BrokerAPI.
From S2P Require Import Prelude Types Environment APIServer Strategy Selectors Storage Json JsonText.
From S2P Require Import Selfer SelferLaws Fields ApiCodec ApiJson ApiCodecLaws InternalTypes Conversion ConversionLaws.

(** ** Objects of the scheme *)

(** An object of the internal version; one of v1alpha1 is an [RObject]. *)
Inductive internal_object :=
| IInstance (i : servicecatalog.ServiceInstance)
| IBinding (b : servicecatalog.ServiceInstanceCredential)
| IBroker (b : servicecatalog.ClusterServiceBroker)
| IClass (c : servicecatalog.ServiceClass)
| IPlan (p : servicecatalog.ServicePlan).

Definition SchemeGroupVersion : string := "servicecatalog.k8s.io/v1alpha1".

Definition kind_of (o : RObject) : string :=
  match o with
  | RInstance _ => "ServiceInstance" | RBinding _ => "ServiceInstanceCredential"
  | RBroker _ => "ClusterServiceBroker" | RClass _ => "ServiceClass" | RPlan _ => "ServicePlan"
  end.
Definition SetGroupVersionKind (t : TypeMeta) (o : RObject) : RObject :=
  match o with
  | RInstance i => RInstance (set_si_TypeMeta t i)
  | RBinding b => RBinding (set_bind_TypeMeta t b)
  | RBroker b => RBroker (set_b_TypeMeta t b)
  | RClass c => RClass (set_sc_TypeMeta t c)
  | RPlan p => RPlan (set_sp_TypeMeta t p)
  end.

(** [Scheme.New]. *)
Definition New (kind : string) : option RObject :=
  if String.eqb kind "ServiceInstance" then Some (RInstance ServiceInstance_zero)
  else if String.eqb kind "ServiceInstanceCredential" then Some (RBinding ServiceInstanceCredential_zero)
  else if String.eqb kind "ClusterServiceBroker" then Some (RBroker ClusterServiceBroker_zero)
  else if String.eqb kind "ServiceClass" then Some (RClass ServiceClass_zero)
  else if String.eqb kind "ServicePlan" then Some (RPlan ServicePlan_zero)
  else None.

(** ** Conversion and defaults *)

(** [ConvertToVersion(obj, v1alpha1)]: a new object, converted, with its kind. *)
Definition ConvertToVersion (o : internal_object) : RObject :=
  let out :=
    match o with
    | IInstance i => RInstance (Convert_servicecatalog_ServiceInstance_To_v1alpha1_ServiceInstance i ServiceInstance_zero)
    | IBinding b => RBinding (Convert_servicecatalog_ServiceInstanceCredential_To_v1alpha1_ServiceInstanceCredential b ServiceInstanceCredential_zero)
    | IBroker b => RBroker (Convert_servicecatalog_ClusterServiceBroker_To_v1alpha1_ClusterServiceBroker b ClusterServiceBroker_zero)
    | IClass c => RClass (Convert_servicecatalog_ServiceClass_To_v1alpha1_ServiceClass c ServiceClass_zero)
    | IPlan p => RPlan (Convert_servicecatalog_ServicePlan_To_v1alpha1_ServicePlan p ServicePlan_zero)
    end in
  SetGroupVersionKind {| Kind := kind_of out; APIVersion := SchemeGroupVersion |} out.

(** [Convert(obj, into)]; there is no conversion between different kinds. *)
Definition ConvertInto (o : RObject) (into : internal_object) : option internal_object :=
  match o, into with
  | RInstance i, IInstance out => Some (IInstance (Convert_v1alpha1_ServiceInstance_To_servicecatalog_ServiceInstance i out))
  | RBinding b, IBinding out => Some (IBinding (Convert_v1alpha1_ServiceInstanceCredential_To_servicecatalog_ServiceInstanceCredential b out))
  | RBroker b, IBroker out => Some (IBroker (Convert_v1alpha1_ClusterServiceBroker_To_servicecatalog_ClusterServiceBroker b out))
  | RClass c, IClass out => Some (IClass (Convert_v1alpha1_ServiceClass_To_servicecatalog_ServiceClass c out))
  | RPlan p, IPlan out => Some (IPlan (Convert_v1alpha1_ServicePlan_To_servicecatalog_ServicePlan p out))
  | _, _ => None
  end.

Definition SetObjectDefaults_ClusterServiceBroker (b : ClusterServiceBroker) : ClusterServiceBroker :=
  set_b_Spec (SetDefaults_ClusterServiceBrokerSpec (b_Spec b)) b.
Definition SetObjectDefaults_ServiceInstance (uuid : string) (i : ServiceInstance) : ServiceInstance :=
  set_si_Spec (SetDefaults_ServiceInstanceSpec uuid (si_Spec i)) i.
Definition SetObjectDefaults_ServiceInstanceCredential (uuid : string) (b : ServiceInstanceCredential) : ServiceInstanceCredential :=
  let b := SetDefaults_ServiceInstanceCredential b in
  set_bind_Spec (SetDefaults_ServiceInstanceCredentialSpec uuid (bind_Spec b)) b.
(** [Scheme.Default] with the functions [RegisterDefaults] registers; [uuid] is
    what [uuid.NewV4] returns. *)
Definition SetObjectDefaults (uuid : string) (o : RObject) : RObject :=
  match o with
  | RInstance i => RInstance (SetObjectDefaults_ServiceInstance uuid i)
  | RBinding b => RBinding (SetObjectDefaults_ServiceInstanceCredential uuid b)
  | RBroker b => RBroker (SetObjectDefaults_ClusterServiceBroker b)
  | RClass _ | RPlan _ => o
  end.

(** ** The kind of a text *)

Definition findKind_codec : Codec TypeMeta :=
  struct TypeMeta_zero
    [field "apiVersion" true string_codec APIVersion set_APIVersion;
     field "kind" true string_codec Kind set_Kind].
(** [Interpret]: [json.Unmarshal] into the two fields. *)
Definition Interpret (v : json) : option TypeMeta := dec findKind_codec v TypeMeta_zero.

Section codec.
Context {M : Machinery}.

Definition MarshalJSON (o : RObject) : option json :=
  match o with
  | RInstance i => ServiceInstance_MarshalJSON i
  | RBinding b => ServiceInstanceCredential_MarshalJSON b
  | RBroker b => ClusterServiceBroker_MarshalJSON b
  | RClass c => ServiceClass_MarshalJSON c
  | RPlan p => ServicePlan_MarshalJSON p
  end.
Definition CodecDecodeSelf : reader RObject :=
  fun v o =>
    match o with
    | RInstance i => RInstance <$> ServiceInstance_CodecDecodeSelf v i
    | RBinding b => RBinding <$> ServiceInstanceCredential_CodecDecodeSelf v b
    | RBroker b => RBroker <$> ClusterServiceBroker_CodecDecodeSelf v b
    | RClass c => RClass <$> ServiceClass_CodecDecodeSelf v c
    | RPlan p => RPlan <$> ServicePlan_CodecDecodeSelf v p
    end.

(** [json.Encoder] puts a line break behind the text. *)
Definition Serializer_Encode (o : RObject) : option string :=
  (fun v => encode v +:+ String (char 10) "") <$> MarshalJSON o.
Definition Serializer_Decode (data : string) : option RObject :=
  match parse data with
  | None => None
  | Some v =>
      match Interpret v with
      | None => None
      | Some t =>
          if String.eqb (APIVersion t) SchemeGroupVersion then
            match New (Kind t) with Some o => CodecDecodeSelf v o | None => None end
          else None
      end
  end.

Definition Encode (o : internal_object) : option string := Serializer_Encode (ConvertToVersion o).
Definition Decode (uuid data : string) (into : internal_object) : option internal_object :=
  match Serializer_Decode data with
  | Some o => ConvertInto (SetObjectDefaults uuid o) into
  | None => None
  end.
End codec.

(** ** etcd *)

Definition TypeMeta_of (i : internal_object) : TypeMeta :=
  match i with
  | IInstance i => servicecatalog.si_TypeMeta i
  | IBinding b => servicecatalog.bind_TypeMeta b
  | IBroker b => servicecatalog.b_TypeMeta b
  | IClass c => servicecatalog.sc_TypeMeta c
  | IPlan p => servicecatalog.sp_TypeMeta p
  end.

(** The object as [Storage] has it, in the types of [Types]. *)
Definition object_of (i : internal_object) : RObject :=
  match i with
  | IInstance i => RInstance (unsafe_servicecatalog_ServiceInstance i)
  | IBinding b => RBinding (unsafe_servicecatalog_ServiceInstanceCredential b)
  | IBroker b => RBroker (unsafe_servicecatalog_ClusterServiceBroker b)
  | IClass c => RClass (unsafe_servicecatalog_ServiceClass c)
  | IPlan p => RPlan (unsafe_servicecatalog_ServicePlan p)
  end.
Definition internal_of (o : RObject) : internal_object :=
  match o with
  | RInstance i => IInstance (unsafe_v1alpha1_ServiceInstance i)
  | RBinding b => IBinding (unsafe_v1alpha1_ServiceInstanceCredential b)
  | RBroker b => IBroker (unsafe_v1alpha1_ClusterServiceBroker b)
  | RClass c => IClass (unsafe_v1alpha1_ServiceClass c)
  | RPlan p => IPlan (unsafe_v1alpha1_ServicePlan p)
  end.

(** [APIObjectVersioner.UpdateObject]. *)
Definition UpdateObject (resourceVersion : string) (o : RObject) : RObject :=
  match o with
  | RInstance i => RInstance (set_si_Meta (with_ResourceVersion resourceVersion (si_Meta i)) i)
  | RBinding b => RBinding (set_bind_Meta (with_ResourceVersion resourceVersion (bind_Meta b)) b)
  | RBroker b => RBroker (set_b_Meta (with_ResourceVersion resourceVersion (b_Meta b)) b)
  | RClass c => RClass (set_sc_Meta (with_ResourceVersion resourceVersion (sc_Meta c)) c)
  | RPlan p => RPlan (set_sp_Meta (with_ResourceVersion resourceVersion (sp_Meta p)) p)
  end.

(** A value of etcd and the revision of the transaction that wrote it. *)
Record Entry := { e_data : string; e_rev : string }.
Notation etcd3 := (gmap string Entry).

Section store.
Context {M : Machinery} (uuid : string).

(** The text of an object, without its version. *)
Definition data_of (o : RObject) : option string := Encode (internal_of (UpdateObject "" o)).

(** [decode]: into a new object of the store's kind. *)
Definition decode_entry (kind : string) (e : Entry) : option RObject :=
  match New kind with
  | None => None
  | Some into =>
      match Decode uuid (e_data e) (internal_of into) with
      | Some i => Some (UpdateObject (e_rev e) (object_of i))
      | None => None
      end
  end.

(** [Create] and the transaction of [GuaranteedUpdate]: a text that did not
    change is not written. *)
Definition etcd3_put (key next : string) (o : RObject) (db : etcd3) : option etcd3 :=
  match data_of o with
  | None => None
  | Some data =>
      match db !! key with
      | Some e => if String.eqb data (e_data e) then Some db else Some (<[key := {| e_data := data; e_rev := next |}]> db)
      | None => Some (<[key := {| e_data := data; e_rev := next |}]> db)
      end
  end.
Definition etcd3_get (key kind : string) (db : etcd3) : option RObject :=
  match db !! key with Some e => decode_entry kind e | None => None end.

(** The object of an entry, whatever its kind. *)
Definition entry_object (e : Entry) : option RObject :=
  match Serializer_Decode (e_data e) with Some o => decode_entry (kind_of o) e | None => None end.
(** The [etcd] of [Storage] that a store of texts stands for. *)
Definition objects (db : etcd3) : etcd := omap entry_object db.
End store.
