(* ===== verification/SerializationTheorems.v ===== *)
(** * What the API server writes to etcd it reads back

    A stored object survives the conversions, the encoder and the decoder
    ([Serializer_reads_back], [Codec_reads_back]); so a store of texts behaves
    as the store of objects of [Storage] ([put_objects], [get_objects]). *)

From stdpp Require Import sorting.
From S2P Require Import BrokerAPI.
From S2P Require Import Prelude Types Environment APIServer Strategy Selectors Storage Json JsonText.
From S2P Require Import Selfer SelferLaws Fields ApiCodec ApiJson ApiCodecLaws InternalTypes Conversion ConversionLaws Serialization.
From S2P Require Import Sample.

(** ** The kind of a text *)

Lemma object_members_keys ms l : object_members ms = Some l -> Forall (fun m => fst m ∈ map m_key ms) l.
Proof.
  revert l. induction ms as [|m ms IH]; intros l; cbn; [by intros [= <-]|].
  assert (Hw : forall l : list (string * json), Forall (fun x => fst x ∈ map m_key ms) l -> Forall (fun x => fst x ∈ m_key m :: map m_key ms) l).
  { intros l' H. eapply List.Forall_impl; [|exact H]. intros x Hx. by right. }
  destruct (m_set m); [|intros H; by apply Hw, IH].
  destruct (m_value m) as [v|], (object_members ms) as [l'|]; try done. intros [= <-].
  constructor; [by left|]. by apply Hw, IH.
Qed.

Definition other_key (key : string) : bool := negb (equalFold "kind" key || equalFold "apiVersion" key).

Lemma Interpret_others (l : list (string * json)) t : Forall (fun m => other_key (fst m) = true) l ->
  dec findKind_codec (JObject l) t = Some t.
Proof.
  intros H. cbn. induction H as [|[key v] l Hk _ IH]; [done|]. cbn in Hk |- *. unfold other_key in Hk.
  apply negb_true_iff, orb_false_iff in Hk as [Hk Ha].
  assert (Hf : field_of [field "apiVersion" true string_codec APIVersion set_APIVersion;
     field "kind" true string_codec Kind set_Kind] key = None); [|by rewrite Hf].
  unfold field_of. cbn -[equalFold bool_decide]. rewrite Hk, Ha, !bool_decide_eq_false_2; [done|by intros <-..].
Qed.

Lemma Interpret_object k a l : Forall (fun m => other_key (fst m) = true) l ->
  Interpret (JObject (("kind", JString k) :: ("apiVersion", JString a) :: l)) = Some {| Kind := k; APIVersion := a |}.
Proof. intros H. exact (Interpret_others l {| Kind := k; APIVersion := a |} H). Qed.

(** ** The serializer *)

Section theorems.
Context {M : Machinery} {ML : MachineryLaws M}.

Definition TypeMetaR (o : RObject) : TypeMeta :=
  match o with
  | RInstance i => si_TypeMeta i | RBinding b => bind_TypeMeta b | RBroker b => b_TypeMeta b
  | RClass c => sc_TypeMeta c | RPlan p => sp_TypeMeta p
  end.
Definition Stored (o : RObject) : Prop :=
  match o with
  | RInstance i => ServiceInstance_stored i
  | RBinding b => ServiceInstanceCredential_stored b
  | RBroker b => ClusterServiceBroker_stored b
  | RClass c => ServiceClass_stored c
  | RPlan p => ServicePlan_stored p
  end.

Lemma MarshalStruct_kind k a ms v : k <> "" -> a <> "" -> Forall (fun m => other_key (m_key m) = true) ms ->
  MarshalStruct (omitempty "kind" (non_empty k) (EncodeString k) JNull ::
                 omitempty "apiVersion" (non_empty a) (EncodeString a) JNull :: ms) = Some v ->
  Interpret v = Some {| Kind := k; APIVersion := a |}.
Proof.
  intros Hk Ha Hms. unfold MarshalStruct, non_empty. cbn -[String.eqb].
  destruct (String.eqb_spec k ""), (String.eqb_spec a ""); try done. cbn.
  destruct (object_members ms) as [l|] eqn:El; [|done]. intros [= <-]. apply Interpret_object.
  apply object_members_keys in El. eapply List.Forall_impl; [|exact El]. intros m Hm.
  apply list_elem_of_In, in_map_iff in Hm as (m' & <- & Hin). rewrite List.Forall_forall in Hms. auto.
Qed.

Lemma MarshalJSON_kind o v : TypeMetaR o = {| Kind := kind_of o; APIVersion := SchemeGroupVersion |} ->
  MarshalJSON o = Some v -> Interpret v = Some (TypeMetaR o).
Proof.
  intros Ht. rewrite Ht. destruct o as [x|x|x|x|x]; cbn in Ht; cbn [MarshalJSON kind_of].
  all: unfold ServiceInstance_MarshalJSON, ServiceInstanceCredential_MarshalJSON, ClusterServiceBroker_MarshalJSON,
    ServiceClass_MarshalJSON, ServicePlan_MarshalJSON; rewrite Ht; cbn [Kind APIVersion].
  all: by apply MarshalStruct_kind; [..|repeat constructor].
Qed.

Lemma MarshalJSON_survives o : Stored o ->
  exists v z, MarshalJSON o = Some v /\ printable v /\ New (kind_of o) = Some z /\ CodecDecodeSelf v z = Some o.
Proof.
  destruct o as [x|x|x|x|x]; intros H; cbn in H.
  all: first [apply ServiceInstance_JSON_survives in H | apply ServiceInstanceCredential_JSON_survives in H
    | apply ClusterServiceBroker_JSON_survives in H | apply ServiceClass_JSON_survives in H | apply ServicePlan_JSON_survives in H].
  all: destruct H as (v & He & Hp & _ & Hd); eexists v, _; split_and!; [exact He|exact Hp|reflexivity|]; cbn; by rewrite Hd.
Qed.

Lemma Serializer_reads_back o : Stored o -> TypeMetaR o = {| Kind := kind_of o; APIVersion := SchemeGroupVersion |} ->
  exists t, Serializer_Encode o = Some t /\ Serializer_Decode t = Some o.
Proof.
  intros Hs Ht. destruct (MarshalJSON_survives o Hs) as (v & z & He & Hp & Hz & Hd).
  unfold Serializer_Encode. rewrite He. eexists. split; [done|]. unfold Serializer_Decode.
  rewrite parse_encode_line by done. rewrite (MarshalJSON_kind o v Ht He), Ht. cbn -[String.eqb New].
  rewrite String.eqb_refl, Hz. exact Hd.
Qed.

(** ** The codec *)

Definition v1alpha1_meta (o : RObject) : TypeMeta := {| Kind := kind_of o; APIVersion := SchemeGroupVersion |}.

Lemma SetGroupVersionKind_meta t o : TypeMetaR (SetGroupVersionKind t o) = t /\ kind_of (SetGroupVersionKind t o) = kind_of o.
Proof. by destruct o. Qed.

Lemma ConvertToVersion_meta i : TypeMetaR (ConvertToVersion i) = v1alpha1_meta (ConvertToVersion i).
Proof. by destruct i. Qed.

Definition same_kind (i into : internal_object) : bool :=
  match i, into with
  | IInstance _, IInstance _ | IBinding _, IBinding _ | IBroker _, IBroker _ | IClass _, IClass _ | IPlan _, IPlan _ => true
  | _, _ => false
  end.

(** Converting to v1alpha1 and back, into an object of the same kind. *)
Lemma Convert_there_and_back i into : same_kind i into = true -> TypeMeta_of into = TypeMeta_of i ->
  ConvertInto (ConvertToVersion i) into = Some i.
Proof.
  destruct i, into; try done; intros _ Ht; cbn in Ht |- *; do 2 f_equal.
  - by apply (ServiceInstance_there_and_back _ (set_si_TypeMeta _ _)).
  - by apply (ServiceInstanceCredential_there_and_back _ (set_bind_TypeMeta _ _)).
  - by apply (ClusterServiceBroker_there_and_back _ (set_b_TypeMeta _ _)).
  - by apply (ServiceClass_there_and_back _ (set_sc_TypeMeta _ _)).
  - by apply (ServicePlan_there_and_back _ (set_sp_TypeMeta _ _)).
Qed.

(** An object that etcd can keep: its JSON loses nothing, and no default is
    missing. *)
Definition Storable (i : internal_object) : Prop :=
  Stored (ConvertToVersion i) /\ forall uuid, SetObjectDefaults uuid (ConvertToVersion i) = ConvertToVersion i.

Lemma Codec_reads_back i : Storable i ->
  exists t, Encode i = Some t /\ Serializer_Decode t = Some (ConvertToVersion i) /\
    forall uuid into, same_kind i into = true -> TypeMeta_of into = TypeMeta_of i -> Decode uuid t into = Some i.
Proof.
  intros [Hs Hd]. destruct (Serializer_reads_back _ Hs (ConvertToVersion_meta i)) as (t & He & Ht).
  exists t. split_and!; [done|done|]. intros uuid into Hk Hm. unfold Decode. rewrite Ht, Hd. by apply Convert_there_and_back.
Qed.

(** ** etcd *)

Lemma object_of_UpdateObject rv o : object_of (internal_of (UpdateObject rv o)) = UpdateObject rv (object_of (internal_of o)).
Proof. destruct o as [[]|[]|[]|[]|[]]; reflexivity. Qed.
Lemma UpdateObject_twice rv rv' o : UpdateObject rv (UpdateObject rv' o) = UpdateObject rv o.
Proof. destruct o as [[? [] ? ?]|[? [] ? ?]|[? [] ? ?]|[? [] ?]|[? [] ?]]; reflexivity. Qed.
Lemma kind_of_UpdateObject rv o : kind_of (UpdateObject rv o) = kind_of o.
Proof. by destruct o. Qed.
Lemma kind_of_ConvertToVersion o : kind_of (ConvertToVersion (internal_of o)) = kind_of o.
Proof. by destruct o. Qed.

Lemma New_kind kind o : New kind = Some o -> kind_of o = kind.
Proof.
  unfold New. repeat match goal with |- context [String.eqb kind ?t] => destruct (String.eqb_spec kind t) as [->|]; [by intros [= <-]|] end.
  done.
Qed.
Lemma New_of_kind o : exists z, New (kind_of o) = Some z /\ same_kind (internal_of o) (internal_of z) = true /\ TypeMetaR z = TypeMeta_zero.
Proof. destruct o; eexists; split_and!; reflexivity. Qed.

(** An object of [Storage] that etcd can keep; its type meta is empty, as that
    of internal objects is. *)
Definition Kept (o : RObject) : Prop :=
  TypeMetaR o = TypeMeta_zero /\ object_of (internal_of o) = o /\ Storable (internal_of (UpdateObject "" o)).

Lemma decode_data uuid o d rev : Kept o -> data_of o = Some d ->
  decode_entry uuid (kind_of o) {| e_data := d; e_rev := rev |} = Some (UpdateObject rev o) /\
  (exists v, Serializer_Decode d = Some v /\ kind_of v = kind_of o).
Proof.
  intros (Ht & Ho & Hs) Hd. destruct (Codec_reads_back _ Hs) as (t & He & Hv & Hdec). unfold data_of in Hd.
  rewrite He in Hd. injection Hd as <-. split.
  - unfold decode_entry. destruct (New_of_kind o) as (z & -> & Hk & Hz). cbn [e_data].
    rewrite Hdec.
    + cbn [e_rev]. by rewrite object_of_UpdateObject, Ho, UpdateObject_twice.
    + by destruct o, z.
    + destruct o as [[]|[]|[]|[]|[]], z as [[]|[]|[]|[]|[]]; try done; cbn in Ht, Hz; subst; done.
  - exists (ConvertToVersion (internal_of (UpdateObject "" o))).
    by rewrite kind_of_ConvertToVersion, kind_of_UpdateObject.
Qed.

Lemma entry_object_data uuid o d rev : Kept o -> data_of o = Some d ->
  entry_object uuid {| e_data := d; e_rev := rev |} = Some (UpdateObject rev o).
Proof.
  intros Hk Hd. destruct (decode_data uuid o d rev Hk Hd) as (H & v & Hv & Hkv). unfold entry_object. cbn [e_data].
  by rewrite Hv, Hkv.
Qed.

Lemma data_of_kept o : Kept o -> exists d, data_of o = Some d.
Proof. intros (_ & _ & Hs). destruct (Codec_reads_back _ Hs) as (t & He & _). by exists t. Qed.

Lemma decode_entry_of_kind uuid kind e o : decode_entry uuid kind e = Some o -> kind_of o = kind.
Proof.
  unfold decode_entry, Decode. destruct (New kind) as [z|] eqn:Hz; [|done]. apply New_kind in Hz as <-.
  destruct (Serializer_Decode (e_data e)) as [v|]; [|done]. destruct (ConvertInto _ _) as [i|] eqn:Hi; [|done].
  intros [= <-]. rewrite kind_of_UpdateObject. destruct z, v; cbn in Hi; try done; injection Hi as <-; reflexivity.
Qed.

Lemma decode_entry_objects uuid kind e :
  decode_entry uuid kind e =
  match entry_object uuid e with Some o => if String.eqb (kind_of o) kind then Some o else None | None => None end.
Proof.
  unfold entry_object. destruct (Serializer_Decode (e_data e)) as [v|] eqn:Hv.
  2:{ unfold decode_entry, Decode. rewrite Hv. by destruct (New kind). }
  destruct (String.eqb_spec (kind_of v) kind) as [<-|Hne].
  - destruct (decode_entry uuid (kind_of v) e) as [o|] eqn:Ho; [|done].
    by rewrite (decode_entry_of_kind _ _ _ _ Ho), String.eqb_refl.
  - assert (H : decode_entry uuid kind e = None).
    { unfold decode_entry, Decode. rewrite Hv. destruct (New kind) as [z|] eqn:Hz; [|done]. apply New_kind in Hz as <-.
      destruct v, z; done. }
    rewrite H. destruct (decode_entry uuid (kind_of v) e) as [o|] eqn:Ho; [|done].
    rewrite (decode_entry_of_kind _ _ _ _ Ho). by destruct (String.eqb_spec (kind_of v) kind).
Qed.

Lemma get_objects uuid key kind db :
  etcd3_get uuid key kind db =
  match objects uuid db !! key with Some o => if String.eqb (kind_of o) kind then Some o else None | None => None end.
Proof.
  unfold etcd3_get, objects. rewrite lookup_omap. destruct (db !! key) as [e|]; [|done]. apply decode_entry_objects.
Qed.

(** ** The theorems *)



(** The casts of v1alpha1 agree with the conversions by name. *)
Lemma ConvertToVersion_casts i : SetGroupVersionKind (TypeMetaR (ConvertToVersion i)) (object_of i) = ConvertToVersion i.
Proof.
  destruct i; cbn; f_equal.
  - by rewrite (ServiceInstance_cast_back _ (set_si_TypeMeta (servicecatalog.si_TypeMeta i) ServiceInstance_zero)).
  - by rewrite (ServiceInstanceCredential_cast_back _ (set_bind_TypeMeta (servicecatalog.bind_TypeMeta b) ServiceInstanceCredential_zero)).
  - by rewrite (ClusterServiceBroker_cast_back _ (set_b_TypeMeta (servicecatalog.b_TypeMeta b) ClusterServiceBroker_zero)).
  - by rewrite (ServiceClass_cast_back _ (set_sc_TypeMeta (servicecatalog.sc_TypeMeta c) ServiceClass_zero)).
  - by rewrite (ServicePlan_cast_back _ (set_sp_TypeMeta (servicecatalog.sp_TypeMeta p) ServicePlan_zero)).
Qed.
Lemma ConvertInto_casts o z : same_kind (internal_of o) z = true ->
  ConvertInto o z = Some (internal_of (SetGroupVersionKind (TypeMeta_of z) o)).
Proof.
  destruct o, z; try done; intros _; cbn; do 2 f_equal; symmetry.
  - by apply (ServiceInstance_cast (set_si_TypeMeta _ _)).
  - by apply (ServiceInstanceCredential_cast (set_bind_TypeMeta _ _)).
  - by apply (ClusterServiceBroker_cast (set_b_TypeMeta _ _)).
  - by apply (ServiceClass_cast (set_sc_TypeMeta _ _)).
  - by apply (ServicePlan_cast (set_sp_TypeMeta _ _)).
Qed.

Definition Canonical (o : RObject) : Prop :=
  match o with
  | RInstance i => ServiceInstance_canonical i
  | RBinding b => ServiceInstanceCredential_canonical b
  | RBroker b => ClusterServiceBroker_canonical b
  | RClass _ | RPlan _ => True
  end.
Lemma Canonical_forth t o : Canonical o ->
  object_of (internal_of (SetGroupVersionKind t o)) = SetGroupVersionKind t o.
Proof.
  destruct o; cbn; intros H; f_equal.
  - by apply (ServiceInstance_unsafe_forth (set_si_TypeMeta _ _)).
  - by apply (ServiceInstanceCredential_unsafe_forth (set_bind_TypeMeta _ _)).
  - by apply (ClusterServiceBroker_unsafe_forth (set_b_TypeMeta _ _)).
  - by apply (ServiceClass_unsafe_forth (set_sc_TypeMeta _ _)).
  - by apply (ServicePlan_unsafe_forth (set_sp_TypeMeta _ _)).
Qed.

(** C31: the generated conversions lose nothing but the type meta, for the five
    kinds. A v1alpha1 object converted into an internal object of its kind and
    back to v1alpha1 is itself with the kind and the version the scheme gives
    it; the internal object has the type meta it was converted into.  An internal
    object converted to v1alpha1 and back, into an object with its type meta, is
    itself.  And in both directions conversion field by field is reading the memory as
    the other version, so the casts through unsafe pointers are sound.  (Lists do
    not tell nil slices from empty ones: the conversions that make an empty slice
    of a nil one, of conditions and of tags, are the identity here.) *)
Theorem conversions_lose_nothing o i z :
  same_kind (internal_of o) z = true -> same_kind i z = true -> Canonical o ->
  (exists i', ConvertInto o z = Some i' /\ TypeMeta_of i' = TypeMeta_of z /\
     ConvertToVersion i' = SetGroupVersionKind {| Kind := kind_of o; APIVersion := SchemeGroupVersion |} o) /\
  (TypeMeta_of z = TypeMeta_of i -> ConvertInto (ConvertToVersion i) z = Some i) /\
  ConvertInto o z = Some (internal_of (SetGroupVersionKind (TypeMeta_of z) o)) /\
  ConvertToVersion i = SetGroupVersionKind (TypeMetaR (ConvertToVersion i)) (object_of i).
Proof.
  intros Ho Hi Hc. split_and!; [|by apply Convert_there_and_back|by apply ConvertInto_casts|by rewrite ConvertToVersion_casts].
  eexists. split; [by apply ConvertInto_casts|]. split; [by destruct o|].
  rewrite <- ConvertToVersion_casts, Canonical_forth, ConvertToVersion_meta by done. by destruct o.
Qed.

(** C29: what is stored in etcd is read back: putting an object under a key (a
    [Kept] one: its JSON keeps it, defaults leave it as it is, its type meta is empty)
    leaves the text of the object there, with the revision the entry had if it held
    the same text, and with the next revision otherwise, and the other keys as
    they were.  The text decodes, in the store of its kind, to the object with
    that revision, and in a store of another kind to nothing.  So the objects
    [Storage] keeps are those the texts of etcd stand for. *)
Theorem etcd_reads_back_what_was_stored uuid uuid' key next o db : Kept o ->
  exists data, data_of o = Some data /\
    let rev := match db !! key with
               | Some e => if String.eqb data (e_data e) then e_rev e else next
               | None => next
               end in
    let db' := <[key := {| e_data := data; e_rev := rev |}]> db in
    etcd3_put key next o db = Some db' /\
    etcd3_get uuid key (kind_of o) db' = Some (UpdateObject rev o) /\
    (forall kind, kind <> kind_of o -> etcd3_get uuid key kind db' = None) /\
    objects uuid' db' = <[key := UpdateObject rev o]> (objects uuid' db).
Proof.
  intros Hk. destruct (data_of_kept o Hk) as [d Hd]. exists d. split; [done|]. intros rev db'.
  assert (Ho : forall uuid, objects uuid db' = <[key := UpdateObject rev o]> (objects uuid db))
    by (intros u; apply omap_insert_Some, entry_object_data; done).
  split_and!; [|by rewrite get_objects, Ho, lookup_insert_eq, kind_of_UpdateObject, String.eqb_refl| |apply Ho].
  - unfold etcd3_put. rewrite Hd. subst db' rev. destruct (db !! key) as [[d' r]|] eqn:He; [|done]. cbn.
    destruct (String.eqb_spec d d') as [<-|]; [|done]. by rewrite insert_id.
  - intros kind Hne. rewrite get_objects, Ho, lookup_insert_eq, kind_of_UpdateObject. by destruct (String.eqb_spec (kind_of o) kind).
Qed.
End theorems.

(** ** A sample *)

(** JSON of the metadata of an object without owners, of references and of
    times; times are decimal. *)
Definition meta_members (m : ObjectMeta) : list Member :=
  [omitempty "name" (non_empty (Name m)) (EncodeString (Name m)) JNull;
   omitempty "namespace" (non_empty (Namespace m)) (EncodeString (Namespace m)) JNull;
   omitempty "uid" (non_empty (UID m)) (EncodeString (UID m)) JNull;
   omitempty "resourceVersion" (non_empty (ResourceVersion m)) (EncodeString (ResourceVersion m)) JNull;
   omitempty "generation" (negb (Generation m =? 0)) (EncodeInt (Generation m)) JNull;
   omitempty "deletionTimestamp" (not_nil (DeletionTimestamp m)) (EncodePtr EncodeInt (DeletionTimestamp m)) JNull;
   omitempty "finalizers" (has_elements (Finalizers m)) (EncodeArray EncodeString (Finalizers m)) JNull].
Definition int_text (v : json) : option Z :=
  match v with JNum t => match plain_number t with Some (neg, u) => Some (if neg : bool then - u else u) | None => None end | _ => None end.
Definition set_Name (v : string) (m : ObjectMeta) : ObjectMeta :=
  Build_ObjectMeta v (Namespace m) (UID m) (ResourceVersion m) (Generation m) (DeletionTimestamp m) (Finalizers m) (OwnerReferences m).
Definition meta_decode : reader ObjectMeta :=
  DecodeStruct (DecodeMembers
    [("name", into Name set_Name DecodeString); ("namespace", into Namespace with_Namespace DecodeString);
     ("uid", into UID with_UID DecodeString);
     ("resourceVersion", into ResourceVersion with_ResourceVersion DecodeString);
     ("generation", into Generation with_Generation (fun v _ => int_text v));
     ("deletionTimestamp", into DeletionTimestamp with_DeletionTimestamp (fun v _ => Some <$> int_text v));
     ("finalizers", into Finalizers with_Finalizers (DecodeSlice "" DecodeString))]) (fun _ m => Some m).
Definition written (ms : list Member) : json := default JNull (MarshalStruct ms).
Definition int_foreign : Foreign Z :=
  {| foreign_enc z := JNum (itoa z); foreign_dec v _ := int_text v |}.

#[export] Instance sample_machinery : Machinery :=
  {| ObjectMeta_json := {| foreign_enc m := written (meta_members m); foreign_dec := meta_decode |};
     ListMeta_json := {| foreign_enc m := written [always "resourceVersion" (EncodeString (lm_ResourceVersion m))];
       foreign_dec v m := match v with
         | JObject [(_, JString s)] => Some {| lm_SelfLink := lm_SelfLink m; lm_ResourceVersion := s |} | _ => None end |};
     ObjectReference_json := {| foreign_enc r := written [always "name" (EncodeString (ref_Name r))];
       foreign_dec v r := match v with JObject [(_, JString s)] => Some (refTo s) | _ => None end |};
     LocalObjectReference_json := {| foreign_enc r := written [always "name" (EncodeString (lref_Name r))];
       foreign_dec v r := match v with JObject [(_, JString s)] => Some {| lref_Name := s |} | _ => None end |};
     Time_json := int_foreign; Duration_json := int_foreign; DecodeInt_other _ := None; range := @sorted_entries |}.
#[export] Instance sample_machinery_laws : MachineryLaws sample_machinery.
Proof. split. intros T m. apply merge_sort_Permutation. Qed.

(** A ready instance with parameters and the user who created it. *)
Definition stored_parameters : json := JObject [("size", JNum "3"); ("tags", JArray [JString "a"; JNull])].
Definition user1 : UserInfo :=
  {| ui_Username := "alice"; ui_UID := "uid-a"; ui_Groups := Some ["devs"]; ui_Extra := {["scopes" := ["read"; "write"]]} |}.
Definition instance_kept : ServiceInstance :=
  Build_ServiceInstance TypeMeta_zero (si_Meta instance1)
    (Build_ServiceInstanceSpec "mysql" "small" (Some (refTo "class-guid")) (Some (refTo "plan-guid"))
       (Some {| Raw := encode stored_parameters |})
       (Some [{| pfs_SecretKeyRef := Some {| skr_Name := "secret"; skr_Key := "password" |} |}]) "instance-guid" (Some user1))
    (Build_ServiceInstanceStatus [Build_ServiceInstanceCondition ConditionReady ConditionTrue 7 "ProvisionedSuccessfully" "ready"]
       false false (Some "task") None OperationNone 1 None None
       (Some (Build_ServiceInstancePropertiesState "small" (Some {| Raw := encode stored_parameters |}) "checksum" (Some user1)))).

Definition meta_kept : ObjectMeta := with_ResourceVersion "" (si_Meta instance1).
Definition written_instance : ServiceInstance :=
  set_si_TypeMeta {| Kind := "ServiceInstance"; APIVersion := SchemeGroupVersion |} (set_si_Meta meta_kept instance_kept).

Lemma raw_parameters_stored : raw_stored {| Raw := encode stored_parameters |}.
Proof. exists stored_parameters. by repeat split. Qed.
Lemma user1_stored : UserInfo_stored user1.
Proof. done. Qed.
Lemma refTo_set name : foreign_set ObjectReference_json ObjectReference_zero (refTo name).
Proof. by repeat split. Qed.

Lemma written_instance_stored : ServiceInstance_stored written_instance.
Proof.
  unfold ServiceInstance_stored. split_and!.
  - split; vm_compute; [by repeat split|reflexivity].
  - unfold ServiceInstanceSpec_stored. split_and!; try (intros x [= <-]); try apply refTo_set; 
      [apply raw_parameters_stored|done| |apply user1_stored]. constructor; [|constructor]. by intros x [= <-].
  - unfold ServiceInstanceStatus_stored. split_and!; try done.
    + constructor; [|constructor]. by repeat split.
    + intros x [= <-]. split; [intros x [= <-]; apply raw_parameters_stored|intros x [= <-]; apply user1_stored].
Qed.

Lemma instance_kept_kept : Kept (RInstance instance_kept).
Proof.
  split_and!; [reflexivity|reflexivity|]. split; [exact written_instance_stored|intros uuid; reflexivity].
Qed.


Lemma conversions_lose_nothing_witness :
  let o := RInstance instance_kept in
  let z := internal_of (RInstance ServiceInstance_zero) in
  exists i', ConvertInto o z = Some i' /\ TypeMeta_of i' = TypeMeta_zero /\
    ConvertToVersion i' = SetGroupVersionKind {| Kind := "ServiceInstance"; APIVersion := SchemeGroupVersion |} o /\
    ConvertInto (ConvertToVersion (internal_of o)) z = Some (internal_of o).
Proof.
  intros o z. destruct (conversions_lose_nothing o (internal_of o) z) as ((i' & Hi & Ht & Hb) & Hr & _); [reflexivity..| |].
  - split; [reflexivity|]. repeat constructor.
  - exists i'. split_and!; [exact Hi|exact Ht|exact Hb|exact (Hr eq_refl)].
Defined.

(** The first write of the sample, and the second one, which changes no text. *)
Lemma etcd_reads_back_what_was_stored_witness :
  exists db', etcd3_put "/serviceinstances/ns/db" "7" (RInstance instance_kept) ∅ = Some db' /\
    etcd3_get "new" "/serviceinstances/ns/db" "ServiceInstance" db' = Some (UpdateObject "7" (RInstance instance_kept)) /\
    etcd3_put "/serviceinstances/ns/db" "8" (RInstance instance_kept) db' = Some db'.
Proof.
  destruct (etcd_reads_back_what_was_stored "new" "other" "/serviceinstances/ns/db" "7" (RInstance instance_kept) ∅ instance_kept_kept)
    as (d & Hd & Hp & Hg & _).
  destruct (etcd_reads_back_what_was_stored "new" "other" "/serviceinstances/ns/db" "8" (RInstance instance_kept)
    (<["/serviceinstances/ns/db" := {| e_data := d; e_rev := "7" |}]> ∅) instance_kept_kept) as (d' & Hd' & Hp' & _).
  rewrite Hd in Hd'. injection Hd' as <-. rewrite lookup_insert_eq in Hp'. cbn [e_data e_rev] in Hp'. rewrite String.eqb_refl, insert_insert_eq in Hp'.
  rewrite lookup_empty in Hp, Hg. eexists. split; [exact Hp|]. split; [exact Hg|exact Hp'].
Defined.

(** The text of the sample. *)
Example text_of_spec :
  from_option encode "" (SecretKeyReference_MarshalJSON {| skr_Name := "secret"; skr_Key := "password" |}) =
  sprint ["{"; dq; "name"; dq; ":"; dq; "secret"; dq; ","; dq; "key"; dq; ":"; dq; "password"; dq; "}"].
Proof. vm_compute. reflexivity. Qed.

(** A counter beyond the range of [int64] is not refused: it wraps around. *)
Lemma counters_wrap_around spec :
  ClusterServiceBrokerSpec_CodecDecodeSelf (JObject [("relistRequests", JNum "9223372036854775808")]) spec =
  Some (set_RelistRequests (- 2 ^ 63) spec).
Proof. reflexivity. Qed.

(** Null resets what it is read into, a missing key leaves it, and a key nobody
    knows is skipped. *)
Lemma absent_null_and_unknown spec :
  ServiceInstanceSpec_CodecDecodeSelf (JObject [("parameters", JNull); ("colour", JBool true)]) spec =
  Some (set_Parameters None spec).
Proof. reflexivity. Qed.
