(* ===== verification/Memory.v ===== *)
(** * Go values in memory

    Values of structures, pointers, slices and maps in a heap of cells, and what
    it means to copy them deeply.  The type of a value is its [shape]; [read]
    follows every pointer of a value and returns what it finds, as a [tree],
    with the cells it went through.  A copier is [deep] for a shape when the
    copy reads as the original does, and only through new cells. *)

From stdpp Require Import gmap strings list fin_sets.
From S2P Require Import Prelude.

(** A pointer, a slice or a map is a reference to a cell, or nil; the elements
    of a slice and the entries of a map are in its cell. *)
Inductive value :=
| VBasic (b : string)
| VRef (r : option nat)
| VSeq (l : list value)
| VStruct (fields : gmap string value)
| VMap (entries : gmap string value).
Notation heap := (gmap nat value).

(** The type of a value.  Basic types are copied by assignment: numbers,
    strings, times; a structure type has its name and its fields in order. *)
Inductive shape :=
| SBasic
| SPtr (s : shape)
| SSlice (s : shape)
| SMap (s : shape)
| SInterface
| SStruct (name : string) (fields : list (string * shape)).

Inductive tree :=
| TBasic (b : string)
| TNil
| TPtr (t : tree)
| TSeq (l : list tree)
| TMap (entries : gmap string tree)
| TStruct (l : list tree).

(** ** Reading *)

Notation cells := (gset nat).

Section lists.
Context {A B : Type} (rd : A -> option (B * cells)).
Fixpoint read_all (l : list A) : option (list B * cells) :=
  match l with
  | [] => Some ([], ∅)
  | v :: l' =>
      match rd v, read_all l' with
      | Some (t, F), Some (ts, Fs) => Some (t :: ts, F ∪ Fs)
      | _, _ => None
      end
  end.
End lists.

(** What a reference refers to, read with [k]. *)
Definition read_cell (h : heap) (k : value -> option (tree * cells)) (v : value) : option (tree * cells) :=
  match v with
  | VRef None => Some (TNil, ∅)
  | VRef (Some l) =>
      match h !! l with
      | Some c => match k c with Some (t, F) => Some (t, {[l]} ∪ F) | None => None end
      | None => None
      end
  | _ => None
  end.

Definition read_seq (rd : value -> option (tree * cells)) (c : value) : option (tree * cells) :=
  match c with
  | VSeq vs => match read_all rd vs with Some (ts, F) => Some (TSeq ts, F) | None => None end
  | _ => None
  end.

Definition read_entry (rd : value -> option (tree * cells)) (e : string * value) : option (string * tree * cells) :=
  match rd (snd e) with Some (t, F) => Some (fst e, t, F) | None => None end.

Definition read_map (rd : value -> option (tree * cells)) (c : value) : option (tree * cells) :=
  match c with
  | VMap m =>
      match read_all (read_entry rd) (map_to_list m) with
      | Some (es, F) => Some (TMap (list_to_map es), F)
      | None => None
      end
  | _ => None
  end.

(** What a value is, and the cells it reaches; an interface is nil in objects
    that were decoded. *)
Fixpoint read (s : shape) (h : heap) (v : value) : option (tree * cells) :=
  match s with
  | SBasic => match v with VBasic b => Some (TBasic b, ∅) | _ => None end
  | SInterface => match v with VRef None => Some (TNil, ∅) | _ => None end
  | SPtr s' => read_cell h (fun c => match read s' h c with Some (t, F) => Some (TPtr t, F) | None => None end) v
  | SSlice s' => read_cell h (read_seq (read s' h)) v
  | SMap s' => read_cell h (read_map (read s' h)) v
  | SStruct _ fs =>
      match v with
      | VStruct m =>
          match read_all (fun f => match m !! fst f with Some w => read (snd f) h w | None => None end) fs with
          | Some (ts, F) => Some (TStruct ts, F)
          | None => None
          end
      | _ => None
      end
  end.

Definition read_pointee (rd : value -> option (tree * cells)) (c : value) : option (tree * cells) :=
  match rd c with Some (t, F) => Some (TPtr t, F) | None => None end.

Lemma read_ptr s h v : read (SPtr s) h v = read_cell h (read_pointee (read s h)) v.
Proof. done. Qed.
Lemma read_slice s h v : read (SSlice s) h v = read_cell h (read_seq (read s h)) v.
Proof. done. Qed.
Lemma read_table s h v : read (SMap s) h v = read_cell h (read_map (read s h)) v.
Proof. done. Qed.

(** Induction on shapes. *)
Section shape_induction.
Context (P : shape -> Prop) (Hb : P SBasic) (Hp : forall s, P s -> P (SPtr s)) (Hs : forall s, P s -> P (SSlice s))
  (Hm : forall s, P s -> P (SMap s)) (Hi : P SInterface)
  (Hf : forall name fs, Forall (fun f => P (snd f)) fs -> P (SStruct name fs)).
Fixpoint shape_nested_ind (s : shape) : P s :=
  match s with
  | SBasic => Hb
  | SPtr s' => Hp s' (shape_nested_ind s')
  | SSlice s' => Hs s' (shape_nested_ind s')
  | SMap s' => Hm s' (shape_nested_ind s')
  | SInterface => Hi
  | SStruct name fs => Hf name fs ((fix go fs : Forall (fun f => P (snd f)) fs :=
      match fs with
      | [] => @List.Forall_nil _ _
      | f :: fs' => @List.Forall_cons _ _ f fs' (shape_nested_ind (snd f)) (go fs')
      end) fs)
  end.
End shape_induction.

(** ** What reading depends on *)

Lemma read_all_ext {A B} (rd rd' : A -> option (B * cells)) l ts F :
  read_all rd l = Some (ts, F) ->
  (forall x t G, x ∈ l -> rd x = Some (t, G) -> G ⊆ F -> rd' x = Some (t, G)) -> read_all rd' l = Some (ts, F).
Proof.
  revert ts F. induction l as [|x l IH]; intros ts F; cbn; [done|].
  destruct (rd x) as [[t G]|] eqn:Hx; [|done]. destruct (read_all rd l) as [[ts' Gs]|] eqn:Hl; [|done]. intros [= <- <-] H.
  rewrite (H x t G); [|by left|done|set_solver]. rewrite (IH ts' Gs); [done|done|].
  intros y u K Hy Hr HK. apply (H y u K); [by right|done|set_solver].
Qed.

Lemma read_all_cells {A B} (rd : A -> option (B * cells)) l ts F (D : cells) :
  read_all rd l = Some (ts, F) -> (forall x t G, x ∈ l -> rd x = Some (t, G) -> G ⊆ D) -> F ⊆ D.
Proof.
  revert ts F. induction l as [|x l IH]; intros ts F; cbn; [intros [= <- <-]; set_solver|].
  destruct (rd x) as [[t G]|] eqn:Hx; [|done]. destruct (read_all rd l) as [[ts' Gs]|] eqn:Hl; [|done]. intros [= <- <-] H.
  apply union_least; [by apply (H x t); [left|]|]. apply (IH ts' Gs); [done|]. intros y u K Hy. apply H. by right.
Qed.

Lemma read_all_perm {A B} (rd : A -> option (B * cells)) l l' ts F :
  l ≡ₚ l' -> read_all rd l = Some (ts, F) -> exists ts', read_all rd l' = Some (ts', F) /\ ts ≡ₚ ts'.
Proof.
  intros Hp. revert ts F. induction Hp as [|x l l' _ IH|x y l|l1 l2 l3 _ IH1 _ IH2]; intros ts F; cbn.
  - intros [= <- <-]. by exists [].
  - destruct (rd x) as [[t G]|]; [|done]. destruct (read_all rd l) as [[us Gs]|] eqn:Hl; [|done]. intros [= <- <-].
    destruct (IH us Gs eq_refl) as (us' & -> & Hus). eexists. split; [done|]. by constructor.
  - destruct (rd y) as [[u K]|], (rd x) as [[t G]|]; try done; destruct (read_all rd l) as [[us Gs]|]; try done.
    intros [= <- <-]. exists (t :: u :: us). split; [do 2 f_equal; set_solver|]. apply Permutation_swap.
  - intros H. destruct (IH1 _ _ H) as (ts1 & H1 & P1). destruct (IH2 _ _ H1) as (ts2 & H2 & P2).
    exists ts2. split; [done|]. by transitivity ts1.
Qed.

Lemma read_cell_inv h k v t F :
  read_cell h k v = Some (t, F) ->
  v = VRef None /\ t = TNil /\ F = ∅ \/
  exists l c G, v = VRef (Some l) /\ h !! l = Some c /\ k c = Some (t, G) /\ F = {[l]} ∪ G.
Proof.
  destruct v as [|[l|]| | |]; cbn; try done; [|intros [= <- <-]; by left].
  destruct (h !! l) as [c|] eqn:Hc; [|done]. destruct (k c) as [[u G]|] eqn:Hk; [|done]. intros [= <- <-]. right. by exists l, c, G.
Qed.

(** The cells a value reaches are allocated. *)
Lemma read_cells s : forall h v t F, read s h v = Some (t, F) -> F ⊆ dom h.
Proof.
  induction s as [|s IH|s IH|s IH| |name fs IH] using shape_nested_ind; intros h v t F.
  1, 5: by destruct v as [|[]| | |]; cbn; try done; intros [= <- <-]; set_solver.
  4:{ cbn. destruct v as [| | |m|]; try done. destruct (read_all _ fs) as [[ts G]|] eqn:Hf; [|done]. intros [= <- <-].
      eapply read_all_cells; [exact Hf|]. intros [n s] u K Hin. cbn. destruct (m !! n) as [w|]; [|done].
      rewrite List.Forall_forall in IH. apply (IH (n, s)). by apply list_elem_of_In. }
  all: intros Hr; rewrite ?read_ptr, ?read_slice, ?read_table in Hr; apply read_cell_inv in Hr as [(-> & -> & ->)|(l & c & G & -> & Hc & Hk & ->)]; [set_solver|];
    (assert (l ∈ dom h) by (apply elem_of_dom; by exists c)); (enough (G ⊆ dom h) by set_solver).
  - unfold read_pointee in *. destruct (read s h c) as [[u G']|] eqn:Hu; [|done]. injection Hk as <- <-. by apply (IH h c u).
  - destruct c as [| |vs| |]; try done. cbn in Hk. destruct (read_all _ vs) as [[us G']|] eqn:Hu; [|done].
    injection Hk as <- <-. eapply read_all_cells; [exact Hu|]. intros x u K _. apply IH.
  - destruct c as [| | | |m]; try done. cbn in Hk. destruct (read_all _ (map_to_list m)) as [[us G']|] eqn:Hu; [|done].
    injection Hk as <- <-. eapply read_all_cells; [exact Hu|]. intros [n x] [n' u] K _. unfold read_entry. cbn.
    destruct (read s h x) as [[w L]|] eqn:Hw; [|done]. intros [= <- <- <-]. by apply (IH h x w).
Qed.

(** Only the cells it reaches matter to what a value is. *)
Lemma read_frame s : forall h h' v t F,
  read s h v = Some (t, F) -> (forall l, l ∈ F -> h' !! l = h !! l) -> read s h' v = Some (t, F).
Proof.
  induction s as [|s IH|s IH|s IH| |name fs IH] using shape_nested_ind; intros h h' v t F Hr Hl.
  1, 5: by destruct v.
  4:{ cbn in *. destruct v as [| | |m|]; try done. destruct (read_all _ fs) as [[ts G]|] eqn:Hf; [|done]. injection Hr as <- <-.
      erewrite read_all_ext; [done|exact Hf|]. intros [n s] u K Hin. cbn. destruct (m !! n) as [w|]; [|done]. intros Hw HK.
      rewrite List.Forall_forall in IH. apply (IH (n, s)) with h; [by apply list_elem_of_In|done|]. intros l Hin'. apply Hl. set_solver. }
  all: rewrite ?read_ptr, ?read_slice, ?read_table in *; apply read_cell_inv in Hr as [(-> & -> & ->)|(l & c & G & -> & Hc & Hk & ->)]; [done|];
    cbn [read_cell]; rewrite Hl, Hc by set_solver;
    (assert (Hl' : forall k, k ∈ G -> h' !! k = h !! k) by (intros; apply Hl; set_solver)).
  - unfold read_pointee in *. destruct (read s h c) as [[u G']|] eqn:Hu; [|done]. injection Hk as <- <-. by rewrite (IH h h' c u G').
  - destruct c as [| |vs| |]; try done. cbn in Hk |- *. destruct (read_all _ vs) as [[us G']|] eqn:Hu; [|done].
    injection Hk as <- <-. erewrite read_all_ext; [done|exact Hu|]. intros x u K _ Hx HK. apply (IH h); [done|]. set_solver.
  - destruct c as [| | | |m]; try done. cbn in Hk |- *. destruct (read_all _ (map_to_list m)) as [[us G']|] eqn:Hu; [|done].
    injection Hk as <- <-. erewrite read_all_ext; [done|exact Hu|]. intros [n x] [n' u] K _. unfold read_entry. cbn.
    destruct (read s h x) as [[w L]|] eqn:Hw; [|done]. intros [= <- <- <-] HK. rewrite (IH h h' x w L); [done..|set_solver].
Qed.

Lemma read_grows s h h' v t F : read s h v = Some (t, F) -> h ⊆ h' -> read s h' v = Some (t, F).
Proof.
  intros Hr Hs. apply (read_frame s h); [done|]. intros l Hl. apply read_cells in Hr.
  destruct (elem_of_dom h l) as [[x Hx] _]; [set_solver|]. rewrite Hx. by eapply lookup_weaken.
Qed.

(** ** Copying

    A copier takes the value to copy and returns the copy; it may allocate.
    [copying] is a generated function: [*out = *in], then the fields it copies,
    one after another. *)

Definition copier := value -> heap -> option (value * heap).

(** [out.F = in.F], or the copy of an immutable value. *)
Definition assign : copier := fun v h => Some (v, h).

Definition alloc (c : value) (h : heap) : value * heap := let l := fresh (dom h) in (VRef (Some l), <[l:=c]> h).

(** [if in.F != nil { *out = new(T); f( **in, **out) }]. *)
Definition new_cell (f : copier) : copier := fun v h =>
  match v with
  | VRef None => Some (v, h)
  | VRef (Some l) =>
      match h !! l with
      | Some c => match f c h with Some (c', h') => Some (alloc c' h') | None => None end
      | None => None
      end
  | _ => None
  end.

Fixpoint copy_all {A} (f : A -> heap -> option (A * heap)) (l : list A) (h : heap) : option (list A * heap) :=
  match l with
  | [] => Some ([], h)
  | x :: l' =>
      match f x h with
      | Some (y, h') => match copy_all f l' h' with Some (ys, h'') => Some (y :: ys, h'') | None => None end
      | None => None
      end
  end.

(** [make([]T, len( *in))] and the loop over the elements. *)
Definition elements (f : copier) : copier := fun c h =>
  match c with
  | VSeq vs => match copy_all f vs h with Some (ws, h') => Some (VSeq ws, h') | None => None end
  | _ => None
  end.

Definition copy_entry (f : copier) (e : string * value) (h : heap) : option (string * value * heap) :=
  match f (snd e) h with Some (w, h') => Some (fst e, w, h') | None => None end.

(** [make(map[string]T)] and the loop over the entries. *)
Definition entries (f : copier) : copier := fun c h =>
  match c with
  | VMap m =>
      match copy_all (copy_entry f) (map_to_list m) h with Some (es, h') => Some (VMap (list_to_map es), h') | None => None end
  | _ => None
  end.

Fixpoint copy_fields (m : gmap string value) (steps : list (string * copier)) (out : gmap string value) (h : heap)
  : option (gmap string value * heap) :=
  match steps with
  | [] => Some (out, h)
  | (n, f) :: steps' =>
      match m !! n with
      | Some w => match f w h with Some (w', h') => copy_fields m steps' (<[n:=w']> out) h' | None => None end
      | None => None
      end
  end.

Definition copying (steps : list (string * copier)) : copier := fun v h =>
  match v with
  | VStruct m => match copy_fields m steps m h with Some (out, h') => Some (VStruct out, h') | None => None end
  | _ => None
  end.

(** The cloner's reflective copy, with what it does for a pointer to a
    registered structure type: conversion/cloner.go. *)
Section cloner.
Context (generatedDeepCopyFuncs : string -> option copier).

Fixpoint deepCopy (s : shape) : copier :=
  match s with
  | SBasic | SInterface => assign
  | SPtr s' =>
      new_cell match s' with
               | SStruct name _ => match generatedDeepCopyFuncs name with Some f => f | None => deepCopy s' end
               | _ => deepCopy s'
               end
  | SSlice s' => new_cell (elements (deepCopy s'))
  | SMap s' => new_cell (entries (deepCopy s'))
  | SStruct _ fs => copying (map (fun f => (fst f, deepCopy (snd f))) fs)
  end.
End cloner.

(** What a copy has to be: it reads as the original did, no cell that was
    allocated before changes, and it reaches new cells only. *)
Definition deep (f : copier) (s : shape) : Prop :=
  forall h v t F, read s h v = Some (t, F) ->
  exists v' h' F', f v h = Some (v', h') /\ h ⊆ h' /\ read s h' v' = Some (t, F') /\ F' ## dom h.

(** No pointer, slice or map below. *)
Fixpoint flat (s : shape) : bool :=
  match s with
  | SBasic | SInterface => true
  | SStruct _ fs => forallb (fun f => flat (snd f)) fs
  | _ => false
  end.

Lemma flat_reaches_nothing s : flat s = true -> forall h h' v t F, read s h v = Some (t, F) -> F = ∅ /\ read s h' v = Some (t, F).
Proof.
  intros Hs. assert (He : forall h v t F, read s h v = Some (t, F) -> F = ∅).
  { revert Hs. induction s as [|s IH|s IH|s IH| |name fs IH] using shape_nested_ind; try done; intros Hs h v t F.
    1, 2: by destruct v as [|[]| | |]; cbn; try done; intros [= <- <-].
    cbn. destruct v as [| | |m|]; try done. destruct (read_all _ fs) as [[ts G]|] eqn:Hf; [|done]. intros [= <- <-].
    enough (G ⊆ ∅) by set_solver. eapply read_all_cells; [exact Hf|]. intros [n s] u K Hin. cbn.
    destruct (m !! n) as [w|]; [|done]. apply list_elem_of_In in Hin. rewrite List.Forall_forall in IH. intros Hw.
    cbn in Hs. rewrite List.forallb_forall in Hs. rewrite (IH _ Hin (Hs _ Hin) _ _ _ _ Hw). done. }
  intros h h' v t F Hr. pose proof (He h v t F Hr) as ->. split; [done|]. apply (read_frame s h); [done|]. set_solver.
Qed.

Lemma deep_assign s : flat s = true -> deep assign s.
Proof.
  intros Hs h v t F Hr. destruct (flat_reaches_nothing s Hs h h v t F Hr) as [-> _]. exists v, h, ∅.
  split; [done|]. split; [done|]. split; [done|]. set_solver.
Qed.

Lemma alloc_spec c h : exists l, alloc c h = (VRef (Some l), <[l:=c]> h) /\ l ∉ dom h /\ h ⊆ <[l:=c]> h.
Proof.
  exists (fresh (dom h)). pose proof (is_fresh (dom h)) as Hl. split; [done|]. split; [done|].
  apply insert_subseteq. by apply not_elem_of_dom.
Qed.

(** Copying what a reference refers to. *)
Lemma deep_cell f k k' v h t F :
  (forall h c t F, k h c = Some (t, F) ->
   exists c' h' F', f c h = Some (c', h') /\ h ⊆ h' /\ k' h' c' = Some (t, F') /\ F' ## dom h) ->
  (forall h h' c t F, k' h c = Some (t, F) -> h ⊆ h' -> k' h' c = Some (t, F)) ->
  read_cell h (k h) v = Some (t, F) ->
  exists v' h' F', new_cell f v h = Some (v', h') /\ h ⊆ h' /\ read_cell h' (k' h') v' = Some (t, F') /\ F' ## dom h.
Proof.
  intros Hf Hg [(-> & -> & ->)|(l & c & G & -> & Hc & Hk & ->)]%read_cell_inv.
  { exists (VRef None), h, ∅. cbn. repeat split; set_solver. }
  destruct (Hf _ _ _ _ Hk) as (c' & h' & F' & Hcopy & Hh & Hr & HF).
  destruct (alloc_spec c' h') as (l' & Ha & Hl & Hh'). exists (VRef (Some l')), (<[l':=c']> h'), ({[l']} ∪ F').
  assert (Hd : dom h ⊆ dom h') by by apply subseteq_dom. cbn. rewrite Hc, Hcopy, Ha, lookup_insert_eq, (Hg _ _ _ _ _ Hr Hh').
  split; [done|]. split; [by transitivity h'|]. split; [done|]. set_solver.
Qed.

Lemma read_pointee_grows s h h' c t F : read_pointee (read s h) c = Some (t, F) -> h ⊆ h' -> read_pointee (read s h') c = Some (t, F).
Proof. unfold read_pointee. destruct (read s h c) as [[u G]|] eqn:Hu; [|done]. intros H Hs. by rewrite (read_grows _ _ _ _ _ _ Hu Hs). Qed.

Lemma deep_new_cell f s : deep f s -> deep (new_cell f) (SPtr s).
Proof.
  intros Hf h v t F. rewrite read_ptr. intros Hr. setoid_rewrite read_ptr.
  eapply (deep_cell f (fun h => read_pointee (read s h)) (fun h => read_pointee (read s h)));
    [|intros *; apply read_pointee_grows|exact Hr].
  clear - Hf. intros h c t F. unfold read_pointee. destruct (read s h c) as [[u G]|] eqn:Hu; [|done]. intros [= <- <-].
  destruct (Hf _ _ _ _ Hu) as (c' & h' & F' & -> & Hh & Hr & HF). exists c', h', F'. by rewrite Hr.
Qed.

(** Copying many values one after another. *)
Lemma deep_all {A B} (f : A -> heap -> option (A * heap)) (rd : heap -> A -> option (B * cells)) l :
  (forall x h h' t F, rd h x = Some (t, F) -> h ⊆ h' -> rd h' x = Some (t, F)) ->
  (forall x h t F, rd h x = Some (t, F) ->
   exists y h' F', f x h = Some (y, h') /\ h ⊆ h' /\ rd h' y = Some (t, F') /\ F' ## dom h) ->
  forall h ts F, read_all (rd h) l = Some (ts, F) ->
  exists ys h' F', copy_all f l h = Some (ys, h') /\ h ⊆ h' /\ read_all (rd h') ys = Some (ts, F') /\ F' ## dom h.
Proof.
  intros Hg Hf. induction l as [|x l IH]; intros h ts F; cbn.
  { intros [= <- <-]. exists [], h, ∅. repeat split; set_solver. }
  destruct (rd h x) as [[t G]|] eqn:Hx; [|done]. destruct (read_all (rd h) l) as [[us Gs]|] eqn:Hl; [|done]. intros [= <- <-].
  destruct (Hf _ _ _ _ Hx) as (y & h1 & F1 & -> & Hh1 & Hy & HF1).
  assert (Hl1 : read_all (rd h1) l = Some (us, Gs)) by (eapply read_all_ext; [exact Hl|]; intros; by eapply Hg).
  destruct (IH _ _ _ Hl1) as (ys & h2 & F2 & -> & Hh2 & Hys & HF2). exists (y :: ys), h2, (F1 ∪ F2). cbn.
  rewrite (Hg _ _ _ _ _ Hy Hh2), Hys. assert (Hd : dom h ⊆ dom h1) by by apply subseteq_dom.
  split; [done|]. split; [by transitivity h1|]. split; [done|]. set_solver.
Qed.

Lemma read_seq_grows s h h' c t F : read_seq (read s h) c = Some (t, F) -> h ⊆ h' -> read_seq (read s h') c = Some (t, F).
Proof.
  destruct c as [| |vs| |]; try done. cbn. destruct (read_all (read s h) vs) as [[ts G]|] eqn:Hv; [|done]. intros [= <- <-] Hs.
  erewrite read_all_ext; [done|exact Hv|]. intros x u K _ Hx _. by eapply read_grows.
Qed.

Lemma deep_elements f s : deep f s -> deep (new_cell (elements f)) (SSlice s).
Proof.
  intros Hf h v t F. rewrite read_slice. intros Hr. setoid_rewrite read_slice.
  eapply (deep_cell _ (fun h => read_seq (read s h)) (fun h => read_seq (read s h))); [|intros *; apply read_seq_grows|exact Hr].
  clear - Hf. intros h [| |vs| |] t F; try done. cbn. destruct (read_all (read s h) vs) as [[ts G]|] eqn:Hv; [|done]. intros [= <- <-].
  destruct (deep_all f (read s) vs) with (h := h) (ts := ts) (F := G) as (ys & h' & F' & -> & Hh & Hy & HF);
    [intros *; apply read_grows|exact (fun x h => Hf h x)|done|].
  exists (VSeq ys), h', F'. cbn. by rewrite Hy.
Qed.

Lemma read_entry_grows s h h' e t F : read_entry (read s h) e = Some (t, F) -> h ⊆ h' -> read_entry (read s h') e = Some (t, F).
Proof. unfold read_entry. destruct (read s h e.2) as [[u G]|] eqn:Hu; [|done]. intros H Hs. by rewrite (read_grows _ _ _ _ _ _ Hu Hs). Qed.

Lemma read_map_grows s h h' c t F : read_map (read s h) c = Some (t, F) -> h ⊆ h' -> read_map (read s h') c = Some (t, F).
Proof.
  destruct c as [| | | |m]; try done. cbn. destruct (read_all _ (map_to_list m)) as [[ts G]|] eqn:Hv; [|done]. intros [= <- <-] Hs.
  erewrite read_all_ext; [done|exact Hv|]. intros x u K _ Hx _. by eapply read_entry_grows.
Qed.

Lemma entries_keys s h es ts F : read_all (read_entry (read s h)) es = Some (ts, F) -> map fst ts = map fst es.
Proof.
  revert ts F. induction es as [|e es IH]; intros ts F; cbn; [by intros [= <- <-]|]. unfold read_entry at 1.
  destruct (read s h e.2) as [[u G]|]; [|done]. destruct (read_all _ es) as [[us Gs]|] eqn:Hs; [|done]. intros [= <- <-].
  cbn. f_equal. by eapply IH.
Qed.

Lemma deep_entries f s : deep f s -> deep (new_cell (entries f)) (SMap s).
Proof.
  intros Hf h v t F. rewrite read_table. intros Hr. setoid_rewrite read_table.
  eapply (deep_cell _ (fun h => read_map (read s h)) (fun h => read_map (read s h))); [|intros *; apply read_map_grows|exact Hr].
  clear - Hf. intros h [| | | |m] t F; try done. cbn. destruct (read_all _ (map_to_list m)) as [[ts G]|] eqn:Hm; [|done]. intros [= <- <-].
  destruct (deep_all (copy_entry f) (fun h => read_entry (read s h)) (map_to_list m)) with (h := h) (ts := ts) (F := G)
    as (ys & h' & F' & -> & Hh & Hy & HF); [intros *; apply read_entry_grows| |done|].
  { intros [n x] k u K. unfold read_entry at 1, copy_entry. cbn. destruct (read s k x) as [[w L]|] eqn:Hw; [|done]. intros [= <- <-].
    destruct (Hf _ _ _ _ Hw) as (x' & k' & F' & -> & Hk & Hx & HF). exists (n, x'), k', F'. unfold read_entry. cbn. by rewrite Hx. }
  assert (Hkeys : map fst ys = map fst (map_to_list m)) by (rewrite <- (entries_keys _ _ _ _ _ Hy); by apply entries_keys in Hm).
  assert (Hn : NoDup ys.*1) by (change (NoDup (map fst ys)); rewrite Hkeys; apply NoDup_fst_map_to_list).
  destruct (read_all_perm _ _ (map_to_list (list_to_map ys : gmap string value)) _ _ (Permutation_sym (map_to_list_to_map ys Hn)) Hy)
    as (ts' & Hr & Hp).
  exists (VMap (list_to_map ys)), h', F'. cbn. rewrite Hr. split; [done|]. split; [done|]. split; [|done]. do 3 f_equal.
  apply list_to_map_proper; [|by symmetry]. change (NoDup (map fst ts')). rewrite <- Hp, (entries_keys _ _ _ _ _ Hy). exact Hn.
Qed.

(** *** Structures *)

Fixpoint field_shape (n : string) (fs : list (string * shape)) : option shape :=
  match fs with
  | [] => None
  | (n', s) :: fs' => if decide (n = n') then Some s else field_shape n fs'
  end.

(** Each step is for a field of its own and copies it deeply ([copied]); the fields that no step
    copies are flat ([rest_flat]). *)
Inductive copied (fs : list (string * shape)) : list (string * copier) -> Prop :=
| copied_nil : copied fs []
| copied_cons n f s steps :
    field_shape n fs = Some s -> deep f s -> n ∉ map fst steps -> copied fs steps -> copied fs ((n, f) :: steps).

Definition rest_flat (steps : list (string * copier)) (fs : list (string * shape)) : bool :=
  forallb (fun f => bool_decide (fst f ∈ map fst steps) || flat (snd f)) fs && bool_decide (NoDup (map fst fs)).

Lemma field_shape_in fs n s : NoDup (map fst fs) -> (n, s) ∈ fs -> field_shape n fs = Some s.
Proof.
  induction fs as [|[n' s'] fs IH]; cbn; [by intros _ ?%not_elem_of_nil|]. intros [Hn Hnd]%list.NoDup_cons [[= -> ->]|Hin]%elem_of_cons.
  - by rewrite decide_True.
  - rewrite decide_False; [by apply IH|]. intros ->. apply Hn. change (n' ∈ fs.*1). apply list_elem_of_fmap. by exists (n', s).
Qed.

Lemma field_shape_elem fs n s : field_shape n fs = Some s -> (n, s) ∈ fs.
Proof. induction fs as [|[n' s'] fs IH]; cbn; [done|]. destruct (decide (n = n')) as [->|]; [intros [= ->]; by left|]. right. by apply IH. Qed.

Lemma copy_fields_spec fs m steps :
  copied fs steps -> forall h out,
  (forall n s, field_shape n fs = Some s -> exists w t F, m !! n = Some w /\ read s h w = Some (t, F)) ->
  exists out' h', copy_fields m steps out h = Some (out', h') /\ h ⊆ h' /\
    (forall n, n ∉ map fst steps -> out' !! n = out !! n) /\
    (forall n s w t F, n ∈ map fst steps -> field_shape n fs = Some s -> m !! n = Some w -> read s h w = Some (t, F) ->
     exists w' F', out' !! n = Some w' /\ read s h' w' = Some (t, F') /\ F' ## dom h).
Proof.
  induction 1 as [|n f s steps Hs Hf Hn _ IH]; intros h out Hall; cbn.
  { exists out, h. split; [done|]. split; [done|]. split; [done|]. by intros ????? ?%not_elem_of_nil. }
  destruct (Hall n s Hs) as (w & t & F & Hm & Hw). rewrite Hm. destruct (Hf _ _ _ _ Hw) as (w' & h1 & F' & -> & Hh & Hw' & HF).
  destruct (IH h1 (<[n:=w']> out)) as (out' & h2 & -> & Hh2 & Hrest & Hdone).
  { intros k u Hk. destruct (Hall k u Hk) as (x & tx & Fx & Hx & Hrx). exists x, tx, Fx. split; [done|]. by eapply read_grows. }
  exists out', h2. split; [done|]. split; [by transitivity h1|]. split.
  - intros k [Hk1 Hk2]%not_elem_of_cons. rewrite Hrest by done. by apply lookup_insert_ne.
  - intros k s' x tx Fx [->|Hk]%elem_of_cons Hs' Hx Hrx.
    + rewrite Hs in Hs'. injection Hs' as <-. rewrite Hm in Hx. injection Hx as <-. rewrite Hw in Hrx. injection Hrx as <- <-.
      exists w', F'. rewrite Hrest, lookup_insert_eq by done. split; [done|]. split; [by eapply read_grows|done].
    + destruct (Hdone k s' x tx Fx Hk Hs' Hx) as (y & Fy & Hy & Hry & HFy); [by eapply read_grows|].
      exists y, Fy. split; [done|]. split; [done|]. assert (Hd : dom h ⊆ dom h1) by by apply subseteq_dom. set_solver.
Qed.

Lemma read_all_copied {A B} (rd rd' : A -> option (B * cells)) l ts F (D : cells) :
  read_all rd l = Some (ts, F) ->
  (forall x t G, x ∈ l -> rd x = Some (t, G) -> exists G', rd' x = Some (t, G') /\ G' ## D) ->
  exists F', read_all rd' l = Some (ts, F') /\ F' ## D.
Proof.
  revert ts F. induction l as [|x l IH]; intros ts F; cbn; [intros [= <- <-] _; exists ∅; split; [done|set_solver]|].
  destruct (rd x) as [[t G]|] eqn:Hx; [|done]. destruct (read_all rd l) as [[us Gs]|]; [|done]. intros [= <- <-] H.
  destruct (H x t G) as (G' & -> & HG); [by left|done|]. destruct (IH us Gs eq_refl) as (Gs' & -> & HGs).
  { intros y u K Hy. apply H. by right. }
  exists (G' ∪ Gs'). split; [done|set_solver].
Qed.

Lemma read_all_elem {A B} (rd : A -> option (B * cells)) l ts F x :
  read_all rd l = Some (ts, F) -> x ∈ l -> exists t G, rd x = Some (t, G).
Proof.
  revert ts F. induction l as [|y l IH]; intros ts F; cbn; [by intros _ ?%not_elem_of_nil|].
  destruct (rd y) as [[t G]|] eqn:Hy; [|done]. destruct (read_all rd l) as [[us Gs]|]; [|done]. intros _ [->|Hin]%elem_of_cons; [eauto|].
  by eapply IH.
Qed.

Lemma deep_copying steps name fs : copied fs steps -> rest_flat steps fs = true -> deep (copying steps) (SStruct name fs).
Proof.
  intros Hc [Hflat Hnd%bool_decide_eq_true_1]%andb_prop h v t F. rewrite List.forallb_forall in Hflat.
  unfold copying. cbn. destruct v as [| | |m|]; try done. destruct (read_all _ fs) as [[ts G]|] eqn:Hr; [|done]. intros [= <- <-].
  destruct (copy_fields_spec fs m steps Hc h m) as (out & h' & -> & Hh & Hrest & Hdone).
  { intros n s Hin%field_shape_elem. destruct (read_all_elem _ _ _ _ _ Hr Hin) as (t & K & Ht). cbn in Ht.
    destruct (m !! n) as [w|]; [|done]. by exists w, t, K. }
  destruct (read_all_copied _ (fun f => match out !! fst f with Some w => read (snd f) h' w | None => None end) _ _ _ (dom h) Hr)
    as (F' & Hr' & HF); [|exists (VStruct out), h', F'; by rewrite Hr'].
  intros [n s] t K Hin. cbn. destruct (m !! n) as [w|] eqn:Hw; [|done]. intros Hrw.
  pose proof (field_shape_in _ _ _ Hnd Hin) as Hs. destruct (decide (n ∈ map fst steps)) as [Hin'|Hin'].
  - destruct (Hdone n s w t K Hin' Hs Hw Hrw) as (w' & G' & -> & Hr' & HG). by exists G'.
  - apply list_elem_of_In in Hin. specialize (Hflat _ Hin). rewrite (bool_decide_eq_false_2 _ Hin') in Hflat.
    rewrite Hrest, Hw by done. destruct (flat_reaches_nothing s Hflat h h' w t K Hrw) as [-> Hr']. exists ∅. split; [done|set_solver].
Qed.

(** ** The reflective copy *)

(** Field names are distinct. *)
Fixpoint well_formed (s : shape) : bool :=
  match s with
  | SBasic | SInterface => true
  | SPtr s' | SSlice s' | SMap s' => well_formed s'
  | SStruct _ fs => forallb (fun f => well_formed (snd f)) fs && bool_decide (NoDup (map fst fs))
  end.

Lemma copied_map (g : shape -> copier) fs :
  NoDup (map fst fs) -> Forall (fun f => deep (g (snd f)) (snd f)) fs -> copied fs (map (fun f => (fst f, g (snd f))) fs).
Proof.
  intros Hall. cut (forall l, NoDup (map fst l) -> Forall (fun f => deep (g (snd f)) (snd f)) l -> (forall f, f ∈ l -> f ∈ fs) ->
    copied fs (map (fun f => (fst f, g (snd f))) l)).
  { intros H Hd. by apply H. }
  induction l as [|[n s] l IH]; intros Hnd Hd Hsub; [constructor|].
  apply list.NoDup_cons in Hnd as [Hn Hnd]. apply list.Forall_cons in Hd as [Hs Hd]. cbn. econstructor.
  - apply field_shape_in; [done|]. apply Hsub. by left.
  - exact Hs.
  - by rewrite map_map.
  - apply IH; [done..|]. intros f Hf. apply Hsub. by right.
Qed.

(** No pointer to a registered structure type. *)
Fixpoint plain (registered : string -> option copier) (s : shape) : bool :=
  match s with
  | SBasic | SInterface => true
  | SPtr s' =>
      match s' with
      | SStruct name _ => match registered name with Some _ => false | None => true end
      | _ => true
      end && plain registered s'
  | SSlice s' | SMap s' => plain registered s'
  | SStruct _ fs => forallb (fun f => plain registered (snd f)) fs
  end.

(** The reflective copy is deep where no registered function takes over: what
    conversion.NewCloner() does with any value, and what a scheme's cloner does with
    values that hold no pointers to registered types. *)
Lemma deep_deepCopy registered s : well_formed s = true -> plain registered s = true -> deep (deepCopy registered s) s.
Proof.
  intros Hw Hp. induction s as [|s IH|s IH|s IH| |name fs IH] using shape_nested_ind; cbn in *.
  1, 5: by apply deep_assign.
  - apply andb_prop in Hp as [Hn Hp]. apply deep_new_cell. destruct s; try by apply IH. destruct (registered name); [done|]. by apply IH.
  - by apply deep_elements, IH.
  - by apply deep_entries, IH.
  - apply andb_prop in Hw as [Hw Hnd%bool_decide_eq_true_1]. rewrite List.forallb_forall in Hw. apply deep_copying.
    + rewrite List.forallb_forall in Hp. apply copied_map; [done|]. apply Forall_forall. intros f Hf.
      rewrite List.Forall_forall in IH. by apply IH; [|apply Hw|apply Hp].
    + unfold rest_flat. rewrite bool_decide_eq_true_2 by done. rewrite andb_true_r. apply List.forallb_forall. intros f Hf.
      rewrite bool_decide_eq_true_2; [done|]. rewrite map_map. cbn. apply list_elem_of_In. by apply in_map.
Qed.

(** ** Independence *)

(** Whatever is written through the copy, the original stays what it was, and the other way round. *)
Definition independent (s : shape) (h : heap) (v : value) (h' : heap) (v' : value) : Prop :=
  exists t F F', read s h v = Some (t, F) /\ read s h' v' = Some (t, F') /\
    (forall h'', (forall l, l ∉ F' -> h'' !! l = h' !! l) -> read s h'' v = Some (t, F)) /\
    (forall h'', (forall l, l ∉ dom h -> h'' !! l = h' !! l) -> read s h'' v' = Some (t, F')).

Lemma deep_independent f s h v t F :
  deep f s -> read s h v = Some (t, F) -> exists v' h', f v h = Some (v', h') /\ independent s h v h' v'.
Proof.
  intros Hf Hr. destruct (Hf _ _ _ _ Hr) as (v' & h' & F' & Hc & Hh & Hr' & HF). exists v', h'. split; [done|].
  exists t, F, F'. split; [done|]. split; [done|]. pose proof (read_cells _ _ _ _ _ Hr) as Hd. split.
  - intros h'' Hl. apply (read_frame s h'); [by eapply read_grows|]. intros l Hin. apply Hl. set_solver.
  - intros h'' Hl. apply (read_frame s h'); [done|]. intros l Hin. apply Hl. set_solver.
Qed.
