(* ===== verification/DeepCopy.v ===== *)
(** * The deep copies of the API objects

    zz_generated.deepcopy.go of both packages of types, the functions of the API
    machinery they call, and the two cloners that run them: the scheme's
    (api.Scheme.DeepCopy, which every control loop calls on the object it got from
    its cache before it changes it) and the empty one of conversion.NewCloner() (the
    REST client fake).  Memory.v has the heap, the copiers the functions are put
    together from, and what a copy has to be.

    A function is a copier: from the value its pointer [in] points to, to the
    value it leaves behind [out].  A [Cloner] gives, for a type, what c.DeepCopy
    does with the value of a pointer to it. *)

From stdpp Require Import gmap strings list.
From S2P Require Import Prelude Memory.

Definition Cloner := shape -> copier.

(** ** The API machinery

    The types of apimachinery's meta/v1 and runtime packages and of client-go's
    api/v1 that the objects hold, and the generated functions of meta/v1 that a
    copy of an object runs. *)

Definition TypeMeta : shape := SStruct "v1.TypeMeta" [("Kind", SBasic); ("APIVersion", SBasic)].
Definition ListMeta : shape := SStruct "v1.ListMeta" [("SelfLink", SBasic); ("ResourceVersion", SBasic)].
Definition LocalObjectReference : shape := SStruct "api.v1.LocalObjectReference" [("Name", SBasic)].
Definition ObjectReference : shape :=
  SStruct "api.v1.ObjectReference" [
    ("Kind", SBasic); ("Namespace", SBasic); ("Name", SBasic); ("UID", SBasic); ("APIVersion", SBasic);
    ("ResourceVersion", SBasic); ("FieldPath", SBasic)].
Definition RawExtension : shape := SStruct "runtime.RawExtension" [("Raw", SSlice SBasic); ("Object", SInterface)].

Definition OwnerReference : shape :=
  SStruct "v1.OwnerReference" [
    ("APIVersion", SBasic); ("Kind", SBasic); ("Name", SBasic); ("UID", SBasic); ("Controller", SPtr SBasic);
    ("BlockOwnerDeletion", SPtr SBasic)].
Definition StatusCause : shape := SStruct "v1.StatusCause" [("Type", SBasic); ("Message", SBasic); ("Field", SBasic)].
Definition StatusDetails : shape :=
  SStruct "v1.StatusDetails" [
    ("Name", SBasic); ("Group", SBasic); ("Kind", SBasic); ("UID", SBasic); ("Causes", SSlice StatusCause);
    ("RetryAfterSeconds", SBasic)].
Definition Status : shape :=
  SStruct "v1.Status" [
    ("TypeMeta", TypeMeta); ("ListMeta", ListMeta); ("Status", SBasic); ("Message", SBasic); ("Reason", SBasic);
    ("Details", SPtr StatusDetails); ("Code", SBasic)].
Definition Initializer : shape := SStruct "v1.Initializer" [("Name", SBasic)].
Definition Initializers : shape := SStruct "v1.Initializers" [("Pending", SSlice Initializer); ("Result", SPtr Status)].
Definition ObjectMeta : shape :=
  SStruct "v1.ObjectMeta" [
    ("Name", SBasic); ("GenerateName", SBasic); ("Namespace", SBasic); ("SelfLink", SBasic); ("UID", SBasic);
    ("ResourceVersion", SBasic); ("Generation", SBasic); ("CreationTimestamp", SBasic); ("DeletionTimestamp", SPtr SBasic);
    ("DeletionGracePeriodSeconds", SPtr SBasic); ("Labels", SMap SBasic); ("Annotations", SMap SBasic);
    ("OwnerReferences", SSlice OwnerReference); ("Initializers", SPtr Initializers); ("Finalizers", SSlice SBasic);
    ("ClusterName", SBasic)].

Definition DeepCopy_v1_OwnerReference (c : Cloner) : copier :=
  copying [("Controller", new_cell assign); ("BlockOwnerDeletion", new_cell assign)].

Definition DeepCopy_v1_StatusDetails (c : Cloner) : copier :=
  copying [("Causes", new_cell (elements assign))].

Definition DeepCopy_v1_Status (c : Cloner) : copier :=
  copying [("Details", new_cell (c StatusDetails))].

Definition DeepCopy_v1_Initializers (c : Cloner) : copier :=
  copying [("Pending", new_cell (elements assign)); ("Result", new_cell (c Status))].

Definition DeepCopy_v1_ObjectMeta (c : Cloner) : copier :=
  copying [
    ("CreationTimestamp", assign); ("DeletionTimestamp", new_cell assign); ("DeletionGracePeriodSeconds", new_cell assign);
    ("Labels", new_cell (entries assign)); ("Annotations", new_cell (entries assign));
    ("OwnerReferences", new_cell (elements (c OwnerReference))); ("Initializers", new_cell (c Initializers));
    ("Finalizers", new_cell (elements assign))].

(** The functions of meta/v1 that register.go adds to the scheme, those that copies of the
    objects reach; the runtime package's are not added to any scheme. *)
Definition GetGeneratedDeepCopyFuncs : list (string * (Cloner -> copier)) := [
  ("v1.Initializers", DeepCopy_v1_Initializers); ("v1.ObjectMeta", DeepCopy_v1_ObjectMeta);
  ("v1.OwnerReference", DeepCopy_v1_OwnerReference); ("v1.Status", DeepCopy_v1_Status);
  ("v1.StatusDetails", DeepCopy_v1_StatusDetails)].


(** ** The versioned types

    The shapes of the types of src/pkg/apis/servicecatalog/v1alpha1/types.go,
    and the functions of zz_generated.deepcopy.go beside it. *)
Module v1alpha1.

(** [ExtraValue] is a slice of strings. *)
Definition ExtraValue : shape := SSlice SBasic.

Definition SecretKeyReference : shape :=
  SStruct "v1alpha1.SecretKeyReference" [
    ("Name", SBasic); ("Key", SBasic)].

Definition ParametersFromSource : shape :=
  SStruct "v1alpha1.ParametersFromSource" [
    ("SecretKeyRef", SPtr SecretKeyReference)].

Definition UserInfo : shape :=
  SStruct "v1alpha1.UserInfo" [
    ("Username", SBasic); ("UID", SBasic); ("Groups", SSlice SBasic); ("Extra", SMap ExtraValue)].

Definition BasicAuthConfig : shape :=
  SStruct "v1alpha1.BasicAuthConfig" [
    ("SecretRef", SPtr ObjectReference)].

Definition BearerTokenAuthConfig : shape :=
  SStruct "v1alpha1.BearerTokenAuthConfig" [
    ("SecretRef", SPtr ObjectReference)].

Definition ServiceBrokerAuthInfo : shape :=
  SStruct "v1alpha1.ServiceBrokerAuthInfo" [
    ("Basic", SPtr BasicAuthConfig); ("Bearer", SPtr BearerTokenAuthConfig); ("BasicAuthSecret", SPtr ObjectReference)].

Definition ClusterServiceBrokerSpec : shape :=
  SStruct "v1alpha1.ClusterServiceBrokerSpec" [
    ("URL", SBasic); ("AuthInfo", SPtr ServiceBrokerAuthInfo); ("InsecureSkipTLSVerify", SBasic);
    ("CABundle", SSlice SBasic); ("RelistBehavior", SBasic); ("RelistDuration", SPtr SBasic);
    ("RelistRequests", SBasic)].

Definition ServiceBrokerCondition : shape :=
  SStruct "v1alpha1.ServiceBrokerCondition" [
    ("Type", SBasic); ("Status", SBasic); ("LastTransitionTime", SBasic); ("Reason", SBasic); ("Message", SBasic)].

Definition ServiceBrokerStatus : shape :=
  SStruct "v1alpha1.ServiceBrokerStatus" [
    ("Conditions", SSlice ServiceBrokerCondition); ("ReconciledGeneration", SBasic);
    ("OperationStartTime", SPtr SBasic)].

Definition ClusterServiceBroker : shape :=
  SStruct "v1alpha1.ClusterServiceBroker" [
    ("TypeMeta", TypeMeta); ("ObjectMeta", ObjectMeta); ("Spec", ClusterServiceBrokerSpec);
    ("Status", ServiceBrokerStatus)].

Definition ClusterServiceBrokerList : shape :=
  SStruct "v1alpha1.ClusterServiceBrokerList" [
    ("TypeMeta", TypeMeta); ("ListMeta", ListMeta); ("Items", SSlice ClusterServiceBroker)].

Definition ServiceClassSpec : shape :=
  SStruct "v1alpha1.ServiceClassSpec" [
    ("ClusterServiceBrokerName", SBasic); ("ExternalName", SBasic); ("ExternalID", SBasic); ("Description", SBasic);
    ("Bindable", SBasic); ("PlanUpdatable", SBasic); ("ExternalMetadata", SPtr RawExtension); ("Tags", SSlice SBasic);
    ("Requires", SSlice SBasic)].

Definition ServiceClass : shape :=
  SStruct "v1alpha1.ServiceClass" [
    ("TypeMeta", TypeMeta); ("ObjectMeta", ObjectMeta); ("Spec", ServiceClassSpec)].

Definition ServiceClassList : shape :=
  SStruct "v1alpha1.ServiceClassList" [
    ("TypeMeta", TypeMeta); ("ListMeta", ListMeta); ("Items", SSlice ServiceClass)].

Definition ServicePlanSpec : shape :=
  SStruct "v1alpha1.ServicePlanSpec" [
    ("ClusterServiceBrokerName", SBasic); ("ExternalName", SBasic); ("ExternalID", SBasic); ("Description", SBasic);
    ("Bindable", SPtr SBasic); ("Free", SBasic); ("ExternalMetadata", SPtr RawExtension);
    ("ServiceInstanceCreateParameterSchema", SPtr RawExtension);
    ("ServiceInstanceUpdateParameterSchema", SPtr RawExtension);
    ("ServiceInstanceCredentialCreateParameterSchema", SPtr RawExtension); ("ServiceClassRef", LocalObjectReference)].

Definition ServicePlan : shape :=
  SStruct "v1alpha1.ServicePlan" [
    ("TypeMeta", TypeMeta); ("ObjectMeta", ObjectMeta); ("Spec", ServicePlanSpec)].

Definition ServicePlanList : shape :=
  SStruct "v1alpha1.ServicePlanList" [
    ("TypeMeta", TypeMeta); ("ListMeta", ListMeta); ("Items", SSlice ServicePlan)].

Definition ServiceInstanceSpec : shape :=
  SStruct "v1alpha1.ServiceInstanceSpec" [
    ("ExternalServiceClassName", SBasic); ("ExternalServicePlanName", SBasic);
    ("ServiceClassRef", SPtr ObjectReference); ("ServicePlanRef", SPtr ObjectReference);
    ("Parameters", SPtr RawExtension); ("ParametersFrom", SSlice ParametersFromSource); ("ExternalID", SBasic);
    ("UserInfo", SPtr UserInfo)].

Definition ServiceInstancePropertiesState : shape :=
  SStruct "v1alpha1.ServiceInstancePropertiesState" [
    ("ExternalServicePlanName", SBasic); ("Parameters", SPtr RawExtension); ("ParametersChecksum", SBasic);
    ("UserInfo", SPtr UserInfo)].

Definition ServiceInstanceCondition : shape :=
  SStruct "v1alpha1.ServiceInstanceCondition" [
    ("Type", SBasic); ("Status", SBasic); ("LastTransitionTime", SBasic); ("Reason", SBasic); ("Message", SBasic)].

Definition ServiceInstanceStatus : shape :=
  SStruct "v1alpha1.ServiceInstanceStatus" [
    ("Conditions", SSlice ServiceInstanceCondition); ("AsyncOpInProgress", SBasic);
    ("OrphanMitigationInProgress", SBasic); ("LastOperation", SPtr SBasic); ("DashboardURL", SPtr SBasic);
    ("CurrentOperation", SBasic); ("ReconciledGeneration", SBasic); ("OperationStartTime", SPtr SBasic);
    ("InProgressProperties", SPtr ServiceInstancePropertiesState);
    ("ExternalProperties", SPtr ServiceInstancePropertiesState)].

Definition ServiceInstance : shape :=
  SStruct "v1alpha1.ServiceInstance" [
    ("TypeMeta", TypeMeta); ("ObjectMeta", ObjectMeta); ("Spec", ServiceInstanceSpec);
    ("Status", ServiceInstanceStatus)].

Definition ServiceInstanceList : shape :=
  SStruct "v1alpha1.ServiceInstanceList" [
    ("TypeMeta", TypeMeta); ("ListMeta", ListMeta); ("Items", SSlice ServiceInstance)].

Definition ServiceInstanceCredentialSpec : shape :=
  SStruct "v1alpha1.ServiceInstanceCredentialSpec" [
    ("ServiceInstanceRef", LocalObjectReference); ("Parameters", SPtr RawExtension);
    ("ParametersFrom", SSlice ParametersFromSource); ("SecretName", SBasic); ("ExternalID", SBasic);
    ("UserInfo", SPtr UserInfo)].

Definition ServiceInstanceCredentialPropertiesState : shape :=
  SStruct "v1alpha1.ServiceInstanceCredentialPropertiesState" [
    ("Parameters", SPtr RawExtension); ("ParametersChecksum", SBasic); ("UserInfo", SPtr UserInfo)].

Definition ServiceInstanceCredentialCondition : shape :=
  SStruct "v1alpha1.ServiceInstanceCredentialCondition" [
    ("Type", SBasic); ("Status", SBasic); ("LastTransitionTime", SBasic); ("Reason", SBasic); ("Message", SBasic)].

Definition ServiceInstanceCredentialStatus : shape :=
  SStruct "v1alpha1.ServiceInstanceCredentialStatus" [
    ("Conditions", SSlice ServiceInstanceCredentialCondition); ("CurrentOperation", SBasic);
    ("ReconciledGeneration", SBasic); ("OperationStartTime", SPtr SBasic);
    ("InProgressProperties", SPtr ServiceInstanceCredentialPropertiesState);
    ("ExternalProperties", SPtr ServiceInstanceCredentialPropertiesState); ("OrphanMitigationInProgress", SBasic)].

Definition ServiceInstanceCredential : shape :=
  SStruct "v1alpha1.ServiceInstanceCredential" [
    ("TypeMeta", TypeMeta); ("ObjectMeta", ObjectMeta); ("Spec", ServiceInstanceCredentialSpec);
    ("Status", ServiceInstanceCredentialStatus)].

Definition ServiceInstanceCredentialList : shape :=
  SStruct "v1alpha1.ServiceInstanceCredentialList" [
    ("TypeMeta", TypeMeta); ("ListMeta", ListMeta); ("Items", SSlice ServiceInstanceCredential)].

Definition DeepCopy_v1alpha1_SecretKeyReference (c : Cloner) : copier :=
  copying [].

Definition DeepCopy_v1alpha1_ParametersFromSource (c : Cloner) : copier :=
  copying [("SecretKeyRef", new_cell assign)].

Definition DeepCopy_v1alpha1_UserInfo (c : Cloner) : copier :=
  copying [("Groups", new_cell (elements assign)); ("Extra", new_cell (entries (c ExtraValue)))].

Definition DeepCopy_v1alpha1_BasicAuthConfig (c : Cloner) : copier :=
  copying [("SecretRef", new_cell assign)].

Definition DeepCopy_v1alpha1_BearerTokenAuthConfig (c : Cloner) : copier :=
  copying [("SecretRef", new_cell assign)].

Definition DeepCopy_v1alpha1_ServiceBrokerAuthInfo (c : Cloner) : copier :=
  copying [
    ("Basic", new_cell (DeepCopy_v1alpha1_BasicAuthConfig c));
    ("Bearer", new_cell (DeepCopy_v1alpha1_BearerTokenAuthConfig c)); ("BasicAuthSecret", new_cell assign)].

Definition DeepCopy_v1alpha1_ClusterServiceBrokerSpec (c : Cloner) : copier :=
  copying [
    ("AuthInfo", new_cell (DeepCopy_v1alpha1_ServiceBrokerAuthInfo c)); ("CABundle", new_cell (elements assign));
    ("RelistDuration", new_cell assign)].

Definition DeepCopy_v1alpha1_ServiceBrokerCondition (c : Cloner) : copier :=
  copying [("LastTransitionTime", assign)].

Definition DeepCopy_v1alpha1_ServiceBrokerStatus (c : Cloner) : copier :=
  copying [
    ("Conditions", new_cell (elements (DeepCopy_v1alpha1_ServiceBrokerCondition c)));
    ("OperationStartTime", new_cell assign)].

Definition DeepCopy_v1alpha1_ClusterServiceBroker (c : Cloner) : copier :=
  copying [
    ("ObjectMeta", c ObjectMeta); ("Spec", DeepCopy_v1alpha1_ClusterServiceBrokerSpec c);
    ("Status", DeepCopy_v1alpha1_ServiceBrokerStatus c)].

Definition DeepCopy_v1alpha1_ClusterServiceBrokerList (c : Cloner) : copier :=
  copying [("Items", new_cell (elements (DeepCopy_v1alpha1_ClusterServiceBroker c)))].

Definition DeepCopy_v1alpha1_ServiceClassSpec (c : Cloner) : copier :=
  copying [
    ("ExternalMetadata", new_cell (c RawExtension)); ("Tags", new_cell (elements assign));
    ("Requires", new_cell (elements assign))].

Definition DeepCopy_v1alpha1_ServiceClass (c : Cloner) : copier :=
  copying [("ObjectMeta", c ObjectMeta); ("Spec", DeepCopy_v1alpha1_ServiceClassSpec c)].

Definition DeepCopy_v1alpha1_ServiceClassList (c : Cloner) : copier :=
  copying [("Items", new_cell (elements (DeepCopy_v1alpha1_ServiceClass c)))].

Definition DeepCopy_v1alpha1_ServicePlanSpec (c : Cloner) : copier :=
  copying [
    ("Bindable", new_cell assign); ("ExternalMetadata", new_cell (c RawExtension));
    ("ServiceInstanceCreateParameterSchema", new_cell (c RawExtension));
    ("ServiceInstanceUpdateParameterSchema", new_cell (c RawExtension));
    ("ServiceInstanceCredentialCreateParameterSchema", new_cell (c RawExtension))].

Definition DeepCopy_v1alpha1_ServicePlan (c : Cloner) : copier :=
  copying [("ObjectMeta", c ObjectMeta); ("Spec", DeepCopy_v1alpha1_ServicePlanSpec c)].

Definition DeepCopy_v1alpha1_ServicePlanList (c : Cloner) : copier :=
  copying [("Items", new_cell (elements (DeepCopy_v1alpha1_ServicePlan c)))].

Definition DeepCopy_v1alpha1_ServiceInstanceSpec (c : Cloner) : copier :=
  copying [
    ("ServiceClassRef", new_cell assign); ("ServicePlanRef", new_cell assign);
    ("Parameters", new_cell (c RawExtension));
    ("ParametersFrom", new_cell (elements (DeepCopy_v1alpha1_ParametersFromSource c)));
    ("UserInfo", new_cell (DeepCopy_v1alpha1_UserInfo c))].

Definition DeepCopy_v1alpha1_ServiceInstancePropertiesState (c : Cloner) : copier :=
  copying [("Parameters", new_cell (c RawExtension)); ("UserInfo", new_cell (DeepCopy_v1alpha1_UserInfo c))].

Definition DeepCopy_v1alpha1_ServiceInstanceCondition (c : Cloner) : copier :=
  copying [("LastTransitionTime", assign)].

Definition DeepCopy_v1alpha1_ServiceInstanceStatus (c : Cloner) : copier :=
  copying [
    ("Conditions", new_cell (elements (DeepCopy_v1alpha1_ServiceInstanceCondition c)));
    ("LastOperation", new_cell assign); ("DashboardURL", new_cell assign); ("OperationStartTime", new_cell assign);
    ("InProgressProperties", new_cell (DeepCopy_v1alpha1_ServiceInstancePropertiesState c));
    ("ExternalProperties", new_cell (DeepCopy_v1alpha1_ServiceInstancePropertiesState c))].

Definition DeepCopy_v1alpha1_ServiceInstance (c : Cloner) : copier :=
  copying [
    ("ObjectMeta", c ObjectMeta); ("Spec", DeepCopy_v1alpha1_ServiceInstanceSpec c);
    ("Status", DeepCopy_v1alpha1_ServiceInstanceStatus c)].

Definition DeepCopy_v1alpha1_ServiceInstanceList (c : Cloner) : copier :=
  copying [("Items", new_cell (elements (DeepCopy_v1alpha1_ServiceInstance c)))].

Definition DeepCopy_v1alpha1_ServiceInstanceCredentialSpec (c : Cloner) : copier :=
  copying [
    ("Parameters", new_cell (c RawExtension));
    ("ParametersFrom", new_cell (elements (DeepCopy_v1alpha1_ParametersFromSource c)));
    ("UserInfo", new_cell (DeepCopy_v1alpha1_UserInfo c))].

Definition DeepCopy_v1alpha1_ServiceInstanceCredentialPropertiesState (c : Cloner) : copier :=
  copying [("Parameters", new_cell (c RawExtension)); ("UserInfo", new_cell (DeepCopy_v1alpha1_UserInfo c))].

Definition DeepCopy_v1alpha1_ServiceInstanceCredentialCondition (c : Cloner) : copier :=
  copying [("LastTransitionTime", assign)].

Definition DeepCopy_v1alpha1_ServiceInstanceCredentialStatus (c : Cloner) : copier :=
  copying [
    ("Conditions", new_cell (elements (DeepCopy_v1alpha1_ServiceInstanceCredentialCondition c)));
    ("OperationStartTime", new_cell assign);
    ("InProgressProperties", new_cell (DeepCopy_v1alpha1_ServiceInstanceCredentialPropertiesState c));
    ("ExternalProperties", new_cell (DeepCopy_v1alpha1_ServiceInstanceCredentialPropertiesState c))].

Definition DeepCopy_v1alpha1_ServiceInstanceCredential (c : Cloner) : copier :=
  copying [
    ("ObjectMeta", c ObjectMeta); ("Spec", DeepCopy_v1alpha1_ServiceInstanceCredentialSpec c);
    ("Status", DeepCopy_v1alpha1_ServiceInstanceCredentialStatus c)].

Definition DeepCopy_v1alpha1_ServiceInstanceCredentialList (c : Cloner) : copier :=
  copying [("Items", new_cell (elements (DeepCopy_v1alpha1_ServiceInstanceCredential c)))].

(** The functions the scheme is given, under the names of their types. *)
Definition RegisterDeepCopies : list (string * (Cloner -> copier)) := [
  ("v1alpha1.BasicAuthConfig", DeepCopy_v1alpha1_BasicAuthConfig);
  ("v1alpha1.BearerTokenAuthConfig", DeepCopy_v1alpha1_BearerTokenAuthConfig);
  ("v1alpha1.ClusterServiceBroker", DeepCopy_v1alpha1_ClusterServiceBroker);
  ("v1alpha1.ClusterServiceBrokerList", DeepCopy_v1alpha1_ClusterServiceBrokerList);
  ("v1alpha1.ClusterServiceBrokerSpec", DeepCopy_v1alpha1_ClusterServiceBrokerSpec);
  ("v1alpha1.ParametersFromSource", DeepCopy_v1alpha1_ParametersFromSource);
  ("v1alpha1.SecretKeyReference", DeepCopy_v1alpha1_SecretKeyReference);
  ("v1alpha1.ServiceBrokerAuthInfo", DeepCopy_v1alpha1_ServiceBrokerAuthInfo);
  ("v1alpha1.ServiceBrokerCondition", DeepCopy_v1alpha1_ServiceBrokerCondition);
  ("v1alpha1.ServiceBrokerStatus", DeepCopy_v1alpha1_ServiceBrokerStatus);
  ("v1alpha1.ServiceClass", DeepCopy_v1alpha1_ServiceClass);
  ("v1alpha1.ServiceClassList", DeepCopy_v1alpha1_ServiceClassList);
  ("v1alpha1.ServiceClassSpec", DeepCopy_v1alpha1_ServiceClassSpec);
  ("v1alpha1.ServiceInstance", DeepCopy_v1alpha1_ServiceInstance);
  ("v1alpha1.ServiceInstanceCondition", DeepCopy_v1alpha1_ServiceInstanceCondition);
  ("v1alpha1.ServiceInstanceCredential", DeepCopy_v1alpha1_ServiceInstanceCredential);
  ("v1alpha1.ServiceInstanceCredentialCondition", DeepCopy_v1alpha1_ServiceInstanceCredentialCondition);
  ("v1alpha1.ServiceInstanceCredentialList", DeepCopy_v1alpha1_ServiceInstanceCredentialList);
  ("v1alpha1.ServiceInstanceCredentialPropertiesState", DeepCopy_v1alpha1_ServiceInstanceCredentialPropertiesState);
  ("v1alpha1.ServiceInstanceCredentialSpec", DeepCopy_v1alpha1_ServiceInstanceCredentialSpec);
  ("v1alpha1.ServiceInstanceCredentialStatus", DeepCopy_v1alpha1_ServiceInstanceCredentialStatus);
  ("v1alpha1.ServiceInstanceList", DeepCopy_v1alpha1_ServiceInstanceList);
  ("v1alpha1.ServiceInstancePropertiesState", DeepCopy_v1alpha1_ServiceInstancePropertiesState);
  ("v1alpha1.ServiceInstanceSpec", DeepCopy_v1alpha1_ServiceInstanceSpec);
  ("v1alpha1.ServiceInstanceStatus", DeepCopy_v1alpha1_ServiceInstanceStatus);
  ("v1alpha1.ServicePlan", DeepCopy_v1alpha1_ServicePlan);
  ("v1alpha1.ServicePlanList", DeepCopy_v1alpha1_ServicePlanList);
  ("v1alpha1.ServicePlanSpec", DeepCopy_v1alpha1_ServicePlanSpec); ("v1alpha1.UserInfo", DeepCopy_v1alpha1_UserInfo)].

Definition types : list shape := [
  BasicAuthConfig; BearerTokenAuthConfig; ClusterServiceBroker; ClusterServiceBrokerList; ClusterServiceBrokerSpec;
  ParametersFromSource; SecretKeyReference; ServiceBrokerAuthInfo; ServiceBrokerCondition; ServiceBrokerStatus;
  ServiceClass; ServiceClassList; ServiceClassSpec; ServiceInstance; ServiceInstanceCondition;
  ServiceInstanceCredential; ServiceInstanceCredentialCondition; ServiceInstanceCredentialList;
  ServiceInstanceCredentialPropertiesState; ServiceInstanceCredentialSpec; ServiceInstanceCredentialStatus;
  ServiceInstanceList; ServiceInstancePropertiesState; ServiceInstanceSpec; ServiceInstanceStatus; ServicePlan;
  ServicePlanList; ServicePlanSpec; UserInfo].

End v1alpha1.

(** ** The internal types

    The shapes of the types of src/pkg/apis/servicecatalog/types.go,
    and the functions of zz_generated.deepcopy.go beside it. *)
Module servicecatalog.

(** [ExtraValue] is a slice of strings. *)
Definition ExtraValue : shape := SSlice SBasic.

Definition SecretKeyReference : shape :=
  SStruct "servicecatalog.SecretKeyReference" [
    ("Name", SBasic); ("Key", SBasic)].

Definition ParametersFromSource : shape :=
  SStruct "servicecatalog.ParametersFromSource" [
    ("SecretKeyRef", SPtr SecretKeyReference)].

Definition UserInfo : shape :=
  SStruct "servicecatalog.UserInfo" [
    ("Username", SBasic); ("UID", SBasic); ("Groups", SSlice SBasic); ("Extra", SMap ExtraValue)].

Definition BasicAuthConfig : shape :=
  SStruct "servicecatalog.BasicAuthConfig" [
    ("SecretRef", SPtr ObjectReference)].

Definition BearerTokenAuthConfig : shape :=
  SStruct "servicecatalog.BearerTokenAuthConfig" [
    ("SecretRef", SPtr ObjectReference)].

Definition ServiceBrokerAuthInfo : shape :=
  SStruct "servicecatalog.ServiceBrokerAuthInfo" [
    ("Basic", SPtr BasicAuthConfig); ("Bearer", SPtr BearerTokenAuthConfig); ("BasicAuthSecret", SPtr ObjectReference)].

Definition ClusterServiceBrokerSpec : shape :=
  SStruct "servicecatalog.ClusterServiceBrokerSpec" [
    ("URL", SBasic); ("AuthInfo", SPtr ServiceBrokerAuthInfo); ("InsecureSkipTLSVerify", SBasic);
    ("CABundle", SSlice SBasic); ("RelistBehavior", SBasic); ("RelistDuration", SPtr SBasic);
    ("RelistRequests", SBasic)].

Definition ServiceBrokerCondition : shape :=
  SStruct "servicecatalog.ServiceBrokerCondition" [
    ("Type", SBasic); ("Status", SBasic); ("LastTransitionTime", SBasic); ("Reason", SBasic); ("Message", SBasic)].

Definition ServiceBrokerStatus : shape :=
  SStruct "servicecatalog.ServiceBrokerStatus" [
    ("Conditions", SSlice ServiceBrokerCondition); ("ReconciledGeneration", SBasic);
    ("OperationStartTime", SPtr SBasic)].

Definition ClusterServiceBroker : shape :=
  SStruct "servicecatalog.ClusterServiceBroker" [
    ("TypeMeta", TypeMeta); ("ObjectMeta", ObjectMeta); ("Spec", ClusterServiceBrokerSpec);
    ("Status", ServiceBrokerStatus)].

Definition ClusterServiceBrokerList : shape :=
  SStruct "servicecatalog.ClusterServiceBrokerList" [
    ("TypeMeta", TypeMeta); ("ListMeta", ListMeta); ("Items", SSlice ClusterServiceBroker)].

Definition ServiceClassSpec : shape :=
  SStruct "servicecatalog.ServiceClassSpec" [
    ("ClusterServiceBrokerName", SBasic); ("ExternalName", SBasic); ("ExternalID", SBasic); ("Description", SBasic);
    ("Bindable", SBasic); ("PlanUpdatable", SBasic); ("ExternalMetadata", SPtr RawExtension); ("Tags", SSlice SBasic);
    ("Requires", SSlice SBasic)].

Definition ServiceClass : shape :=
  SStruct "servicecatalog.ServiceClass" [
    ("TypeMeta", TypeMeta); ("ObjectMeta", ObjectMeta); ("Spec", ServiceClassSpec)].

Definition ServiceClassList : shape :=
  SStruct "servicecatalog.ServiceClassList" [
    ("TypeMeta", TypeMeta); ("ListMeta", ListMeta); ("Items", SSlice ServiceClass)].

Definition ServicePlanSpec : shape :=
  SStruct "servicecatalog.ServicePlanSpec" [
    ("ClusterServiceBrokerName", SBasic); ("ExternalName", SBasic); ("ExternalID", SBasic); ("Description", SBasic);
    ("Bindable", SPtr SBasic); ("Free", SBasic); ("ExternalMetadata", SPtr RawExtension);
    ("ServiceInstanceCreateParameterSchema", SPtr RawExtension);
    ("ServiceInstanceUpdateParameterSchema", SPtr RawExtension);
    ("ServiceInstanceCredentialCreateParameterSchema", SPtr RawExtension); ("ServiceClassRef", LocalObjectReference)].

Definition ServicePlan : shape :=
  SStruct "servicecatalog.ServicePlan" [
    ("TypeMeta", TypeMeta); ("ObjectMeta", ObjectMeta); ("Spec", ServicePlanSpec)].

Definition ServicePlanList : shape :=
  SStruct "servicecatalog.ServicePlanList" [
    ("TypeMeta", TypeMeta); ("ListMeta", ListMeta); ("Items", SSlice ServicePlan)].

Definition ServiceInstanceSpec : shape :=
  SStruct "servicecatalog.ServiceInstanceSpec" [
    ("ExternalServiceClassName", SBasic); ("ExternalServicePlanName", SBasic);
    ("ServiceClassRef", SPtr ObjectReference); ("ServicePlanRef", SPtr ObjectReference);
    ("Parameters", SPtr RawExtension); ("ParametersFrom", SSlice ParametersFromSource); ("ExternalID", SBasic);
    ("UserInfo", SPtr UserInfo)].

Definition ServiceInstancePropertiesState : shape :=
  SStruct "servicecatalog.ServiceInstancePropertiesState" [
    ("ExternalServicePlanName", SBasic); ("Parameters", SPtr RawExtension); ("ParametersChecksum", SBasic);
    ("UserInfo", SPtr UserInfo)].

Definition ServiceInstanceCondition : shape :=
  SStruct "servicecatalog.ServiceInstanceCondition" [
    ("Type", SBasic); ("Status", SBasic); ("LastTransitionTime", SBasic); ("Reason", SBasic); ("Message", SBasic)].

Definition ServiceInstanceStatus : shape :=
  SStruct "servicecatalog.ServiceInstanceStatus" [
    ("Conditions", SSlice ServiceInstanceCondition); ("AsyncOpInProgress", SBasic);
    ("OrphanMitigationInProgress", SBasic); ("LastOperation", SPtr SBasic); ("DashboardURL", SPtr SBasic);
    ("CurrentOperation", SBasic); ("ReconciledGeneration", SBasic); ("OperationStartTime", SPtr SBasic);
    ("InProgressProperties", SPtr ServiceInstancePropertiesState);
    ("ExternalProperties", SPtr ServiceInstancePropertiesState)].

Definition ServiceInstance : shape :=
  SStruct "servicecatalog.ServiceInstance" [
    ("TypeMeta", TypeMeta); ("ObjectMeta", ObjectMeta); ("Spec", ServiceInstanceSpec);
    ("Status", ServiceInstanceStatus)].

Definition ServiceInstanceList : shape :=
  SStruct "servicecatalog.ServiceInstanceList" [
    ("TypeMeta", TypeMeta); ("ListMeta", ListMeta); ("Items", SSlice ServiceInstance)].

Definition ServiceInstanceCredentialSpec : shape :=
  SStruct "servicecatalog.ServiceInstanceCredentialSpec" [
    ("ServiceInstanceRef", LocalObjectReference); ("Parameters", SPtr RawExtension);
    ("ParametersFrom", SSlice ParametersFromSource); ("SecretName", SBasic); ("ExternalID", SBasic);
    ("UserInfo", SPtr UserInfo)].

Definition ServiceInstanceCredentialPropertiesState : shape :=
  SStruct "servicecatalog.ServiceInstanceCredentialPropertiesState" [
    ("Parameters", SPtr RawExtension); ("ParametersChecksum", SBasic); ("UserInfo", SPtr UserInfo)].

Definition ServiceInstanceCredentialCondition : shape :=
  SStruct "servicecatalog.ServiceInstanceCredentialCondition" [
    ("Type", SBasic); ("Status", SBasic); ("LastTransitionTime", SBasic); ("Reason", SBasic); ("Message", SBasic)].

Definition ServiceInstanceCredentialStatus : shape :=
  SStruct "servicecatalog.ServiceInstanceCredentialStatus" [
    ("Conditions", SSlice ServiceInstanceCredentialCondition); ("CurrentOperation", SBasic);
    ("ReconciledGeneration", SBasic); ("OperationStartTime", SPtr SBasic);
    ("InProgressProperties", SPtr ServiceInstanceCredentialPropertiesState);
    ("ExternalProperties", SPtr ServiceInstanceCredentialPropertiesState); ("OrphanMitigationInProgress", SBasic)].

Definition ServiceInstanceCredential : shape :=
  SStruct "servicecatalog.ServiceInstanceCredential" [
    ("TypeMeta", TypeMeta); ("ObjectMeta", ObjectMeta); ("Spec", ServiceInstanceCredentialSpec);
    ("Status", ServiceInstanceCredentialStatus)].

Definition ServiceInstanceCredentialList : shape :=
  SStruct "servicecatalog.ServiceInstanceCredentialList" [
    ("TypeMeta", TypeMeta); ("ListMeta", ListMeta); ("Items", SSlice ServiceInstanceCredential)].

Definition DeepCopy_servicecatalog_SecretKeyReference (c : Cloner) : copier :=
  copying [].

Definition DeepCopy_servicecatalog_ParametersFromSource (c : Cloner) : copier :=
  copying [("SecretKeyRef", new_cell assign)].

Definition DeepCopy_servicecatalog_UserInfo (c : Cloner) : copier :=
  copying [("Groups", new_cell (elements assign)); ("Extra", new_cell (entries (c ExtraValue)))].

Definition DeepCopy_servicecatalog_BasicAuthConfig (c : Cloner) : copier :=
  copying [("SecretRef", new_cell assign)].

Definition DeepCopy_servicecatalog_BearerTokenAuthConfig (c : Cloner) : copier :=
  copying [("SecretRef", new_cell assign)].

Definition DeepCopy_servicecatalog_ServiceBrokerAuthInfo (c : Cloner) : copier :=
  copying [
    ("Basic", new_cell (DeepCopy_servicecatalog_BasicAuthConfig c));
    ("Bearer", new_cell (DeepCopy_servicecatalog_BearerTokenAuthConfig c)); ("BasicAuthSecret", new_cell assign)].

Definition DeepCopy_servicecatalog_ClusterServiceBrokerSpec (c : Cloner) : copier :=
  copying [
    ("AuthInfo", new_cell (DeepCopy_servicecatalog_ServiceBrokerAuthInfo c));
    ("CABundle", new_cell (elements assign)); ("RelistDuration", new_cell assign)].

Definition DeepCopy_servicecatalog_ServiceBrokerCondition (c : Cloner) : copier :=
  copying [("LastTransitionTime", assign)].

Definition DeepCopy_servicecatalog_ServiceBrokerStatus (c : Cloner) : copier :=
  copying [
    ("Conditions", new_cell (elements (DeepCopy_servicecatalog_ServiceBrokerCondition c)));
    ("OperationStartTime", new_cell assign)].

Definition DeepCopy_servicecatalog_ClusterServiceBroker (c : Cloner) : copier :=
  copying [
    ("ObjectMeta", c ObjectMeta); ("Spec", DeepCopy_servicecatalog_ClusterServiceBrokerSpec c);
    ("Status", DeepCopy_servicecatalog_ServiceBrokerStatus c)].

Definition DeepCopy_servicecatalog_ClusterServiceBrokerList (c : Cloner) : copier :=
  copying [("Items", new_cell (elements (DeepCopy_servicecatalog_ClusterServiceBroker c)))].

Definition DeepCopy_servicecatalog_ServiceClassSpec (c : Cloner) : copier :=
  copying [
    ("ExternalMetadata", new_cell (c RawExtension)); ("Tags", new_cell (elements assign));
    ("Requires", new_cell (elements assign))].

Definition DeepCopy_servicecatalog_ServiceClass (c : Cloner) : copier :=
  copying [("ObjectMeta", c ObjectMeta); ("Spec", DeepCopy_servicecatalog_ServiceClassSpec c)].

Definition DeepCopy_servicecatalog_ServiceClassList (c : Cloner) : copier :=
  copying [("Items", new_cell (elements (DeepCopy_servicecatalog_ServiceClass c)))].

Definition DeepCopy_servicecatalog_ServicePlanSpec (c : Cloner) : copier :=
  copying [
    ("Bindable", new_cell assign); ("ExternalMetadata", new_cell (c RawExtension));
    ("ServiceInstanceCreateParameterSchema", new_cell (c RawExtension));
    ("ServiceInstanceUpdateParameterSchema", new_cell (c RawExtension));
    ("ServiceInstanceCredentialCreateParameterSchema", new_cell (c RawExtension))].

Definition DeepCopy_servicecatalog_ServicePlan (c : Cloner) : copier :=
  copying [("ObjectMeta", c ObjectMeta); ("Spec", DeepCopy_servicecatalog_ServicePlanSpec c)].

Definition DeepCopy_servicecatalog_ServicePlanList (c : Cloner) : copier :=
  copying [("Items", new_cell (elements (DeepCopy_servicecatalog_ServicePlan c)))].

Definition DeepCopy_servicecatalog_ServiceInstanceSpec (c : Cloner) : copier :=
  copying [
    ("ServiceClassRef", new_cell assign); ("ServicePlanRef", new_cell assign);
    ("Parameters", new_cell (c RawExtension));
    ("ParametersFrom", new_cell (elements (DeepCopy_servicecatalog_ParametersFromSource c)));
    ("UserInfo", new_cell (DeepCopy_servicecatalog_UserInfo c))].

Definition DeepCopy_servicecatalog_ServiceInstancePropertiesState (c : Cloner) : copier :=
  copying [
    ("Parameters", new_cell (c RawExtension)); ("UserInfo", new_cell (DeepCopy_servicecatalog_UserInfo c))].

Definition DeepCopy_servicecatalog_ServiceInstanceCondition (c : Cloner) : copier :=
  copying [("LastTransitionTime", assign)].

Definition DeepCopy_servicecatalog_ServiceInstanceStatus (c : Cloner) : copier :=
  copying [
    ("Conditions", new_cell (elements (DeepCopy_servicecatalog_ServiceInstanceCondition c)));
    ("LastOperation", new_cell assign); ("DashboardURL", new_cell assign); ("OperationStartTime", new_cell assign);
    ("InProgressProperties", new_cell (DeepCopy_servicecatalog_ServiceInstancePropertiesState c));
    ("ExternalProperties", new_cell (DeepCopy_servicecatalog_ServiceInstancePropertiesState c))].

Definition DeepCopy_servicecatalog_ServiceInstance (c : Cloner) : copier :=
  copying [
    ("ObjectMeta", c ObjectMeta); ("Spec", DeepCopy_servicecatalog_ServiceInstanceSpec c);
    ("Status", DeepCopy_servicecatalog_ServiceInstanceStatus c)].

Definition DeepCopy_servicecatalog_ServiceInstanceList (c : Cloner) : copier :=
  copying [("Items", new_cell (elements (DeepCopy_servicecatalog_ServiceInstance c)))].

Definition DeepCopy_servicecatalog_ServiceInstanceCredentialSpec (c : Cloner) : copier :=
  copying [
    ("Parameters", new_cell (c RawExtension));
    ("ParametersFrom", new_cell (elements (DeepCopy_servicecatalog_ParametersFromSource c)));
    ("UserInfo", new_cell (DeepCopy_servicecatalog_UserInfo c))].

Definition DeepCopy_servicecatalog_ServiceInstanceCredentialPropertiesState (c : Cloner) : copier :=
  copying [
    ("Parameters", new_cell (c RawExtension)); ("UserInfo", new_cell (DeepCopy_servicecatalog_UserInfo c))].

Definition DeepCopy_servicecatalog_ServiceInstanceCredentialCondition (c : Cloner) : copier :=
  copying [("LastTransitionTime", assign)].

Definition DeepCopy_servicecatalog_ServiceInstanceCredentialStatus (c : Cloner) : copier :=
  copying [
    ("Conditions", new_cell (elements (DeepCopy_servicecatalog_ServiceInstanceCredentialCondition c)));
    ("OperationStartTime", new_cell assign);
    ("InProgressProperties", new_cell (DeepCopy_servicecatalog_ServiceInstanceCredentialPropertiesState c));
    ("ExternalProperties", new_cell (DeepCopy_servicecatalog_ServiceInstanceCredentialPropertiesState c))].

Definition DeepCopy_servicecatalog_ServiceInstanceCredential (c : Cloner) : copier :=
  copying [
    ("ObjectMeta", c ObjectMeta); ("Spec", DeepCopy_servicecatalog_ServiceInstanceCredentialSpec c);
    ("Status", DeepCopy_servicecatalog_ServiceInstanceCredentialStatus c)].

Definition DeepCopy_servicecatalog_ServiceInstanceCredentialList (c : Cloner) : copier :=
  copying [("Items", new_cell (elements (DeepCopy_servicecatalog_ServiceInstanceCredential c)))].

(** The functions the scheme is given, under the names of their types. *)
Definition RegisterDeepCopies : list (string * (Cloner -> copier)) := [
  ("servicecatalog.BasicAuthConfig", DeepCopy_servicecatalog_BasicAuthConfig);
  ("servicecatalog.BearerTokenAuthConfig", DeepCopy_servicecatalog_BearerTokenAuthConfig);
  ("servicecatalog.ClusterServiceBroker", DeepCopy_servicecatalog_ClusterServiceBroker);
  ("servicecatalog.ClusterServiceBrokerList", DeepCopy_servicecatalog_ClusterServiceBrokerList);
  ("servicecatalog.ClusterServiceBrokerSpec", DeepCopy_servicecatalog_ClusterServiceBrokerSpec);
  ("servicecatalog.ParametersFromSource", DeepCopy_servicecatalog_ParametersFromSource);
  ("servicecatalog.SecretKeyReference", DeepCopy_servicecatalog_SecretKeyReference);
  ("servicecatalog.ServiceBrokerAuthInfo", DeepCopy_servicecatalog_ServiceBrokerAuthInfo);
  ("servicecatalog.ServiceBrokerCondition", DeepCopy_servicecatalog_ServiceBrokerCondition);
  ("servicecatalog.ServiceBrokerStatus", DeepCopy_servicecatalog_ServiceBrokerStatus);
  ("servicecatalog.ServiceClass", DeepCopy_servicecatalog_ServiceClass);
  ("servicecatalog.ServiceClassList", DeepCopy_servicecatalog_ServiceClassList);
  ("servicecatalog.ServiceClassSpec", DeepCopy_servicecatalog_ServiceClassSpec);
  ("servicecatalog.ServiceInstance", DeepCopy_servicecatalog_ServiceInstance);
  ("servicecatalog.ServiceInstanceCondition", DeepCopy_servicecatalog_ServiceInstanceCondition);
  ("servicecatalog.ServiceInstanceCredential", DeepCopy_servicecatalog_ServiceInstanceCredential);
  ("servicecatalog.ServiceInstanceCredentialCondition", DeepCopy_servicecatalog_ServiceInstanceCredentialCondition);
  ("servicecatalog.ServiceInstanceCredentialList", DeepCopy_servicecatalog_ServiceInstanceCredentialList);
  ("servicecatalog.ServiceInstanceCredentialPropertiesState", DeepCopy_servicecatalog_ServiceInstanceCredentialPropertiesState);
  ("servicecatalog.ServiceInstanceCredentialSpec", DeepCopy_servicecatalog_ServiceInstanceCredentialSpec);
  ("servicecatalog.ServiceInstanceCredentialStatus", DeepCopy_servicecatalog_ServiceInstanceCredentialStatus);
  ("servicecatalog.ServiceInstanceList", DeepCopy_servicecatalog_ServiceInstanceList);
  ("servicecatalog.ServiceInstancePropertiesState", DeepCopy_servicecatalog_ServiceInstancePropertiesState);
  ("servicecatalog.ServiceInstanceSpec", DeepCopy_servicecatalog_ServiceInstanceSpec);
  ("servicecatalog.ServiceInstanceStatus", DeepCopy_servicecatalog_ServiceInstanceStatus);
  ("servicecatalog.ServicePlan", DeepCopy_servicecatalog_ServicePlan);
  ("servicecatalog.ServicePlanList", DeepCopy_servicecatalog_ServicePlanList);
  ("servicecatalog.ServicePlanSpec", DeepCopy_servicecatalog_ServicePlanSpec);
  ("servicecatalog.UserInfo", DeepCopy_servicecatalog_UserInfo)].

Definition types : list shape := [
  BasicAuthConfig; BearerTokenAuthConfig; ClusterServiceBroker; ClusterServiceBrokerList; ClusterServiceBrokerSpec;
  ParametersFromSource; SecretKeyReference; ServiceBrokerAuthInfo; ServiceBrokerCondition; ServiceBrokerStatus;
  ServiceClass; ServiceClassList; ServiceClassSpec; ServiceInstance; ServiceInstanceCondition;
  ServiceInstanceCredential; ServiceInstanceCredentialCondition; ServiceInstanceCredentialList;
  ServiceInstanceCredentialPropertiesState; ServiceInstanceCredentialSpec; ServiceInstanceCredentialStatus;
  ServiceInstanceList; ServiceInstancePropertiesState; ServiceInstanceSpec; ServiceInstanceStatus; ServicePlan;
  ServicePlanList; ServicePlanSpec; UserInfo].

End servicecatalog.

(** ** The cloners *)

(** What api.Scheme's cloner holds once both packages and meta/v1 are registered. *)
Definition generatedDeepCopyFuncs : list (string * (Cloner -> copier)) :=
  GetGeneratedDeepCopyFuncs ++ v1alpha1.RegisterDeepCopies ++ servicecatalog.RegisterDeepCopies.

Fixpoint find_func (name : string) (fs : list (string * (Cloner -> copier))) : option (Cloner -> copier) :=
  match fs with
  | [] => None
  | (n, f) :: fs' => if decide (name = n) then Some f else find_func name fs'
  end.

(** What a cloner does with the value of a non-nil pointer: the function of its
    type, or else the reflective copy.  [registered] has the functions. *)
Definition clone (registered : string -> option copier) : Cloner := fun s =>
  match s with
  | SStruct name _ => match registered name with Some f => f | None => deepCopy registered s end
  | _ => deepCopy registered s
  end.

(** The functions call the cloner again; [fuel] bounds how deep, and without
    any no function can be called. *)
Fixpoint SchemeCloner (fuel : nat) : Cloner :=
  clone (fun name =>
    match find_func name generatedDeepCopyFuncs with
    | Some f => Some match fuel with O => fun _ _ => None | S fuel' => f (SchemeCloner fuel') end
    | None => None
    end).

(** conversion.NewCloner() *)
Definition NewCloner : Cloner := clone (fun _ => None).

(** c.DeepCopy of a pointer: nil stays nil, and otherwise the copy is in a cell of its own. *)
Definition DeepCopy (c : Cloner) (s : shape) : copier := new_cell (c s).

(** ** Every function copies deeply *)

Create HintDb deep discriminated.
#[export] Hint Resolve deep_new_cell deep_elements deep_entries : deep.
#[export] Hint Extern 1 (deep assign _) => (apply deep_assign; reflexivity) : deep.

(** A generated function: its steps one by one, then that the other fields are flat. *)
Tactic Notation "deep_copy" reference(f) :=
  unfold f; apply deep_copying; [|vm_compute; reflexivity];
  repeat (eapply copied_cons; [reflexivity|solve [eauto 4 with deep]|apply (bool_decide_eq_true_1 _); reflexivity|]);
  apply copied_nil.

(** What the functions rely on the cloner for. *)
Class Clones (c : Cloner) : Prop := {
  clones_ObjectMeta : deep (c ObjectMeta) ObjectMeta;
  clones_RawExtension : deep (c RawExtension) RawExtension;
  clones_ExtraValue : deep (c (SSlice SBasic)) (SSlice SBasic);
}.

Section generated.
Context (c : Cloner) `{!Clones c}.
#[local] Hint Resolve clones_ObjectMeta clones_RawExtension clones_ExtraValue : deep.
#[local] Hint Extern 1 (deep (c v1alpha1.ExtraValue) _) => apply clones_ExtraValue : deep.
#[local] Hint Extern 1 (deep (c servicecatalog.ExtraValue) _) => apply clones_ExtraValue : deep.

Lemma DeepCopy_v1alpha1_SecretKeyReference_deep : deep (v1alpha1.DeepCopy_v1alpha1_SecretKeyReference c) v1alpha1.SecretKeyReference.
Proof. deep_copy v1alpha1.DeepCopy_v1alpha1_SecretKeyReference. Qed.
#[local] Hint Resolve DeepCopy_v1alpha1_SecretKeyReference_deep : deep.
Lemma DeepCopy_v1alpha1_ParametersFromSource_deep : deep (v1alpha1.DeepCopy_v1alpha1_ParametersFromSource c) v1alpha1.ParametersFromSource.
Proof. deep_copy v1alpha1.DeepCopy_v1alpha1_ParametersFromSource. Qed.
#[local] Hint Resolve DeepCopy_v1alpha1_ParametersFromSource_deep : deep.
Lemma DeepCopy_v1alpha1_UserInfo_deep : deep (v1alpha1.DeepCopy_v1alpha1_UserInfo c) v1alpha1.UserInfo.
Proof. deep_copy v1alpha1.DeepCopy_v1alpha1_UserInfo. Qed.
#[local] Hint Resolve DeepCopy_v1alpha1_UserInfo_deep : deep.
Lemma DeepCopy_v1alpha1_BasicAuthConfig_deep : deep (v1alpha1.DeepCopy_v1alpha1_BasicAuthConfig c) v1alpha1.BasicAuthConfig.
Proof. deep_copy v1alpha1.DeepCopy_v1alpha1_BasicAuthConfig. Qed.
#[local] Hint Resolve DeepCopy_v1alpha1_BasicAuthConfig_deep : deep.
Lemma DeepCopy_v1alpha1_BearerTokenAuthConfig_deep : deep (v1alpha1.DeepCopy_v1alpha1_BearerTokenAuthConfig c) v1alpha1.BearerTokenAuthConfig.
Proof. deep_copy v1alpha1.DeepCopy_v1alpha1_BearerTokenAuthConfig. Qed.
#[local] Hint Resolve DeepCopy_v1alpha1_BearerTokenAuthConfig_deep : deep.
Lemma DeepCopy_v1alpha1_ServiceBrokerAuthInfo_deep : deep (v1alpha1.DeepCopy_v1alpha1_ServiceBrokerAuthInfo c) v1alpha1.ServiceBrokerAuthInfo.
Proof. deep_copy v1alpha1.DeepCopy_v1alpha1_ServiceBrokerAuthInfo. Qed.
#[local] Hint Resolve DeepCopy_v1alpha1_ServiceBrokerAuthInfo_deep : deep.
Lemma DeepCopy_v1alpha1_ClusterServiceBrokerSpec_deep : deep (v1alpha1.DeepCopy_v1alpha1_ClusterServiceBrokerSpec c) v1alpha1.ClusterServiceBrokerSpec.
Proof. deep_copy v1alpha1.DeepCopy_v1alpha1_ClusterServiceBrokerSpec. Qed.
#[local] Hint Resolve DeepCopy_v1alpha1_ClusterServiceBrokerSpec_deep : deep.
Lemma DeepCopy_v1alpha1_ServiceBrokerCondition_deep : deep (v1alpha1.DeepCopy_v1alpha1_ServiceBrokerCondition c) v1alpha1.ServiceBrokerCondition.
Proof. deep_copy v1alpha1.DeepCopy_v1alpha1_ServiceBrokerCondition. Qed.
#[local] Hint Resolve DeepCopy_v1alpha1_ServiceBrokerCondition_deep : deep.
Lemma DeepCopy_v1alpha1_ServiceBrokerStatus_deep : deep (v1alpha1.DeepCopy_v1alpha1_ServiceBrokerStatus c) v1alpha1.ServiceBrokerStatus.
Proof. deep_copy v1alpha1.DeepCopy_v1alpha1_ServiceBrokerStatus. Qed.
#[local] Hint Resolve DeepCopy_v1alpha1_ServiceBrokerStatus_deep : deep.
Lemma DeepCopy_v1alpha1_ClusterServiceBroker_deep : deep (v1alpha1.DeepCopy_v1alpha1_ClusterServiceBroker c) v1alpha1.ClusterServiceBroker.
Proof. deep_copy v1alpha1.DeepCopy_v1alpha1_ClusterServiceBroker. Qed.
#[local] Hint Resolve DeepCopy_v1alpha1_ClusterServiceBroker_deep : deep.
Lemma DeepCopy_v1alpha1_ClusterServiceBrokerList_deep : deep (v1alpha1.DeepCopy_v1alpha1_ClusterServiceBrokerList c) v1alpha1.ClusterServiceBrokerList.
Proof. deep_copy v1alpha1.DeepCopy_v1alpha1_ClusterServiceBrokerList. Qed.
#[local] Hint Resolve DeepCopy_v1alpha1_ClusterServiceBrokerList_deep : deep.
Lemma DeepCopy_v1alpha1_ServiceClassSpec_deep : deep (v1alpha1.DeepCopy_v1alpha1_ServiceClassSpec c) v1alpha1.ServiceClassSpec.
Proof. deep_copy v1alpha1.DeepCopy_v1alpha1_ServiceClassSpec. Qed.
#[local] Hint Resolve DeepCopy_v1alpha1_ServiceClassSpec_deep : deep.
Lemma DeepCopy_v1alpha1_ServiceClass_deep : deep (v1alpha1.DeepCopy_v1alpha1_ServiceClass c) v1alpha1.ServiceClass.
Proof. deep_copy v1alpha1.DeepCopy_v1alpha1_ServiceClass. Qed.
#[local] Hint Resolve DeepCopy_v1alpha1_ServiceClass_deep : deep.
Lemma DeepCopy_v1alpha1_ServiceClassList_deep : deep (v1alpha1.DeepCopy_v1alpha1_ServiceClassList c) v1alpha1.ServiceClassList.
Proof. deep_copy v1alpha1.DeepCopy_v1alpha1_ServiceClassList. Qed.
#[local] Hint Resolve DeepCopy_v1alpha1_ServiceClassList_deep : deep.
Lemma DeepCopy_v1alpha1_ServicePlanSpec_deep : deep (v1alpha1.DeepCopy_v1alpha1_ServicePlanSpec c) v1alpha1.ServicePlanSpec.
Proof. deep_copy v1alpha1.DeepCopy_v1alpha1_ServicePlanSpec. Qed.
#[local] Hint Resolve DeepCopy_v1alpha1_ServicePlanSpec_deep : deep.
Lemma DeepCopy_v1alpha1_ServicePlan_deep : deep (v1alpha1.DeepCopy_v1alpha1_ServicePlan c) v1alpha1.ServicePlan.
Proof. deep_copy v1alpha1.DeepCopy_v1alpha1_ServicePlan. Qed.
#[local] Hint Resolve DeepCopy_v1alpha1_ServicePlan_deep : deep.
Lemma DeepCopy_v1alpha1_ServicePlanList_deep : deep (v1alpha1.DeepCopy_v1alpha1_ServicePlanList c) v1alpha1.ServicePlanList.
Proof. deep_copy v1alpha1.DeepCopy_v1alpha1_ServicePlanList. Qed.
#[local] Hint Resolve DeepCopy_v1alpha1_ServicePlanList_deep : deep.
Lemma DeepCopy_v1alpha1_ServiceInstanceSpec_deep : deep (v1alpha1.DeepCopy_v1alpha1_ServiceInstanceSpec c) v1alpha1.ServiceInstanceSpec.
Proof. deep_copy v1alpha1.DeepCopy_v1alpha1_ServiceInstanceSpec. Qed.
#[local] Hint Resolve DeepCopy_v1alpha1_ServiceInstanceSpec_deep : deep.
Lemma DeepCopy_v1alpha1_ServiceInstancePropertiesState_deep : deep (v1alpha1.DeepCopy_v1alpha1_ServiceInstancePropertiesState c) v1alpha1.ServiceInstancePropertiesState.
Proof. deep_copy v1alpha1.DeepCopy_v1alpha1_ServiceInstancePropertiesState. Qed.
#[local] Hint Resolve DeepCopy_v1alpha1_ServiceInstancePropertiesState_deep : deep.
Lemma DeepCopy_v1alpha1_ServiceInstanceCondition_deep : deep (v1alpha1.DeepCopy_v1alpha1_ServiceInstanceCondition c) v1alpha1.ServiceInstanceCondition.
Proof. deep_copy v1alpha1.DeepCopy_v1alpha1_ServiceInstanceCondition. Qed.
#[local] Hint Resolve DeepCopy_v1alpha1_ServiceInstanceCondition_deep : deep.
Lemma DeepCopy_v1alpha1_ServiceInstanceStatus_deep : deep (v1alpha1.DeepCopy_v1alpha1_ServiceInstanceStatus c) v1alpha1.ServiceInstanceStatus.
Proof. deep_copy v1alpha1.DeepCopy_v1alpha1_ServiceInstanceStatus. Qed.
#[local] Hint Resolve DeepCopy_v1alpha1_ServiceInstanceStatus_deep : deep.
Lemma DeepCopy_v1alpha1_ServiceInstance_deep : deep (v1alpha1.DeepCopy_v1alpha1_ServiceInstance c) v1alpha1.ServiceInstance.
Proof. deep_copy v1alpha1.DeepCopy_v1alpha1_ServiceInstance. Qed.
#[local] Hint Resolve DeepCopy_v1alpha1_ServiceInstance_deep : deep.
Lemma DeepCopy_v1alpha1_ServiceInstanceList_deep : deep (v1alpha1.DeepCopy_v1alpha1_ServiceInstanceList c) v1alpha1.ServiceInstanceList.
Proof. deep_copy v1alpha1.DeepCopy_v1alpha1_ServiceInstanceList. Qed.
#[local] Hint Resolve DeepCopy_v1alpha1_ServiceInstanceList_deep : deep.
Lemma DeepCopy_v1alpha1_ServiceInstanceCredentialSpec_deep : deep (v1alpha1.DeepCopy_v1alpha1_ServiceInstanceCredentialSpec c) v1alpha1.ServiceInstanceCredentialSpec.
Proof. deep_copy v1alpha1.DeepCopy_v1alpha1_ServiceInstanceCredentialSpec. Qed.
#[local] Hint Resolve DeepCopy_v1alpha1_ServiceInstanceCredentialSpec_deep : deep.
Lemma DeepCopy_v1alpha1_ServiceInstanceCredentialPropertiesState_deep : deep (v1alpha1.DeepCopy_v1alpha1_ServiceInstanceCredentialPropertiesState c) v1alpha1.ServiceInstanceCredentialPropertiesState.
Proof. deep_copy v1alpha1.DeepCopy_v1alpha1_ServiceInstanceCredentialPropertiesState. Qed.
#[local] Hint Resolve DeepCopy_v1alpha1_ServiceInstanceCredentialPropertiesState_deep : deep.
Lemma DeepCopy_v1alpha1_ServiceInstanceCredentialCondition_deep : deep (v1alpha1.DeepCopy_v1alpha1_ServiceInstanceCredentialCondition c) v1alpha1.ServiceInstanceCredentialCondition.
Proof. deep_copy v1alpha1.DeepCopy_v1alpha1_ServiceInstanceCredentialCondition. Qed.
#[local] Hint Resolve DeepCopy_v1alpha1_ServiceInstanceCredentialCondition_deep : deep.
Lemma DeepCopy_v1alpha1_ServiceInstanceCredentialStatus_deep : deep (v1alpha1.DeepCopy_v1alpha1_ServiceInstanceCredentialStatus c) v1alpha1.ServiceInstanceCredentialStatus.
Proof. deep_copy v1alpha1.DeepCopy_v1alpha1_ServiceInstanceCredentialStatus. Qed.
#[local] Hint Resolve DeepCopy_v1alpha1_ServiceInstanceCredentialStatus_deep : deep.
Lemma DeepCopy_v1alpha1_ServiceInstanceCredential_deep : deep (v1alpha1.DeepCopy_v1alpha1_ServiceInstanceCredential c) v1alpha1.ServiceInstanceCredential.
Proof. deep_copy v1alpha1.DeepCopy_v1alpha1_ServiceInstanceCredential. Qed.
#[local] Hint Resolve DeepCopy_v1alpha1_ServiceInstanceCredential_deep : deep.
Lemma DeepCopy_v1alpha1_ServiceInstanceCredentialList_deep : deep (v1alpha1.DeepCopy_v1alpha1_ServiceInstanceCredentialList c) v1alpha1.ServiceInstanceCredentialList.
Proof. deep_copy v1alpha1.DeepCopy_v1alpha1_ServiceInstanceCredentialList. Qed.
#[local] Hint Resolve DeepCopy_v1alpha1_ServiceInstanceCredentialList_deep : deep.
Lemma DeepCopy_servicecatalog_SecretKeyReference_deep : deep (servicecatalog.DeepCopy_servicecatalog_SecretKeyReference c) servicecatalog.SecretKeyReference.
Proof. deep_copy servicecatalog.DeepCopy_servicecatalog_SecretKeyReference. Qed.
#[local] Hint Resolve DeepCopy_servicecatalog_SecretKeyReference_deep : deep.
Lemma DeepCopy_servicecatalog_ParametersFromSource_deep : deep (servicecatalog.DeepCopy_servicecatalog_ParametersFromSource c) servicecatalog.ParametersFromSource.
Proof. deep_copy servicecatalog.DeepCopy_servicecatalog_ParametersFromSource. Qed.
#[local] Hint Resolve DeepCopy_servicecatalog_ParametersFromSource_deep : deep.
Lemma DeepCopy_servicecatalog_UserInfo_deep : deep (servicecatalog.DeepCopy_servicecatalog_UserInfo c) servicecatalog.UserInfo.
Proof. deep_copy servicecatalog.DeepCopy_servicecatalog_UserInfo. Qed.
#[local] Hint Resolve DeepCopy_servicecatalog_UserInfo_deep : deep.
Lemma DeepCopy_servicecatalog_BasicAuthConfig_deep : deep (servicecatalog.DeepCopy_servicecatalog_BasicAuthConfig c) servicecatalog.BasicAuthConfig.
Proof. deep_copy servicecatalog.DeepCopy_servicecatalog_BasicAuthConfig. Qed.
#[local] Hint Resolve DeepCopy_servicecatalog_BasicAuthConfig_deep : deep.
Lemma DeepCopy_servicecatalog_BearerTokenAuthConfig_deep : deep (servicecatalog.DeepCopy_servicecatalog_BearerTokenAuthConfig c) servicecatalog.BearerTokenAuthConfig.
Proof. deep_copy servicecatalog.DeepCopy_servicecatalog_BearerTokenAuthConfig. Qed.
#[local] Hint Resolve DeepCopy_servicecatalog_BearerTokenAuthConfig_deep : deep.
Lemma DeepCopy_servicecatalog_ServiceBrokerAuthInfo_deep : deep (servicecatalog.DeepCopy_servicecatalog_ServiceBrokerAuthInfo c) servicecatalog.ServiceBrokerAuthInfo.
Proof. deep_copy servicecatalog.DeepCopy_servicecatalog_ServiceBrokerAuthInfo. Qed.
#[local] Hint Resolve DeepCopy_servicecatalog_ServiceBrokerAuthInfo_deep : deep.
Lemma DeepCopy_servicecatalog_ClusterServiceBrokerSpec_deep : deep (servicecatalog.DeepCopy_servicecatalog_ClusterServiceBrokerSpec c) servicecatalog.ClusterServiceBrokerSpec.
Proof. deep_copy servicecatalog.DeepCopy_servicecatalog_ClusterServiceBrokerSpec. Qed.
#[local] Hint Resolve DeepCopy_servicecatalog_ClusterServiceBrokerSpec_deep : deep.
Lemma DeepCopy_servicecatalog_ServiceBrokerCondition_deep : deep (servicecatalog.DeepCopy_servicecatalog_ServiceBrokerCondition c) servicecatalog.ServiceBrokerCondition.
Proof. deep_copy servicecatalog.DeepCopy_servicecatalog_ServiceBrokerCondition. Qed.
#[local] Hint Resolve DeepCopy_servicecatalog_ServiceBrokerCondition_deep : deep.
Lemma DeepCopy_servicecatalog_ServiceBrokerStatus_deep : deep (servicecatalog.DeepCopy_servicecatalog_ServiceBrokerStatus c) servicecatalog.ServiceBrokerStatus.
Proof. deep_copy servicecatalog.DeepCopy_servicecatalog_ServiceBrokerStatus. Qed.
#[local] Hint Resolve DeepCopy_servicecatalog_ServiceBrokerStatus_deep : deep.
Lemma DeepCopy_servicecatalog_ClusterServiceBroker_deep : deep (servicecatalog.DeepCopy_servicecatalog_ClusterServiceBroker c) servicecatalog.ClusterServiceBroker.
Proof. deep_copy servicecatalog.DeepCopy_servicecatalog_ClusterServiceBroker. Qed.
#[local] Hint Resolve DeepCopy_servicecatalog_ClusterServiceBroker_deep : deep.
Lemma DeepCopy_servicecatalog_ClusterServiceBrokerList_deep : deep (servicecatalog.DeepCopy_servicecatalog_ClusterServiceBrokerList c) servicecatalog.ClusterServiceBrokerList.
Proof. deep_copy servicecatalog.DeepCopy_servicecatalog_ClusterServiceBrokerList. Qed.
#[local] Hint Resolve DeepCopy_servicecatalog_ClusterServiceBrokerList_deep : deep.
Lemma DeepCopy_servicecatalog_ServiceClassSpec_deep : deep (servicecatalog.DeepCopy_servicecatalog_ServiceClassSpec c) servicecatalog.ServiceClassSpec.
Proof. deep_copy servicecatalog.DeepCopy_servicecatalog_ServiceClassSpec. Qed.
#[local] Hint Resolve DeepCopy_servicecatalog_ServiceClassSpec_deep : deep.
Lemma DeepCopy_servicecatalog_ServiceClass_deep : deep (servicecatalog.DeepCopy_servicecatalog_ServiceClass c) servicecatalog.ServiceClass.
Proof. deep_copy servicecatalog.DeepCopy_servicecatalog_ServiceClass. Qed.
#[local] Hint Resolve DeepCopy_servicecatalog_ServiceClass_deep : deep.
Lemma DeepCopy_servicecatalog_ServiceClassList_deep : deep (servicecatalog.DeepCopy_servicecatalog_ServiceClassList c) servicecatalog.ServiceClassList.
Proof. deep_copy servicecatalog.DeepCopy_servicecatalog_ServiceClassList. Qed.
#[local] Hint Resolve DeepCopy_servicecatalog_ServiceClassList_deep : deep.
Lemma DeepCopy_servicecatalog_ServicePlanSpec_deep : deep (servicecatalog.DeepCopy_servicecatalog_ServicePlanSpec c) servicecatalog.ServicePlanSpec.
Proof. deep_copy servicecatalog.DeepCopy_servicecatalog_ServicePlanSpec. Qed.
#[local] Hint Resolve DeepCopy_servicecatalog_ServicePlanSpec_deep : deep.
Lemma DeepCopy_servicecatalog_ServicePlan_deep : deep (servicecatalog.DeepCopy_servicecatalog_ServicePlan c) servicecatalog.ServicePlan.
Proof. deep_copy servicecatalog.DeepCopy_servicecatalog_ServicePlan. Qed.
#[local] Hint Resolve DeepCopy_servicecatalog_ServicePlan_deep : deep.
Lemma DeepCopy_servicecatalog_ServicePlanList_deep : deep (servicecatalog.DeepCopy_servicecatalog_ServicePlanList c) servicecatalog.ServicePlanList.
Proof. deep_copy servicecatalog.DeepCopy_servicecatalog_ServicePlanList. Qed.
#[local] Hint Resolve DeepCopy_servicecatalog_ServicePlanList_deep : deep.
Lemma DeepCopy_servicecatalog_ServiceInstanceSpec_deep : deep (servicecatalog.DeepCopy_servicecatalog_ServiceInstanceSpec c) servicecatalog.ServiceInstanceSpec.
Proof. deep_copy servicecatalog.DeepCopy_servicecatalog_ServiceInstanceSpec. Qed.
#[local] Hint Resolve DeepCopy_servicecatalog_ServiceInstanceSpec_deep : deep.
Lemma DeepCopy_servicecatalog_ServiceInstancePropertiesState_deep : deep (servicecatalog.DeepCopy_servicecatalog_ServiceInstancePropertiesState c) servicecatalog.ServiceInstancePropertiesState.
Proof. deep_copy servicecatalog.DeepCopy_servicecatalog_ServiceInstancePropertiesState. Qed.
#[local] Hint Resolve DeepCopy_servicecatalog_ServiceInstancePropertiesState_deep : deep.
Lemma DeepCopy_servicecatalog_ServiceInstanceCondition_deep : deep (servicecatalog.DeepCopy_servicecatalog_ServiceInstanceCondition c) servicecatalog.ServiceInstanceCondition.
Proof. deep_copy servicecatalog.DeepCopy_servicecatalog_ServiceInstanceCondition. Qed.
#[local] Hint Resolve DeepCopy_servicecatalog_ServiceInstanceCondition_deep : deep.
Lemma DeepCopy_servicecatalog_ServiceInstanceStatus_deep : deep (servicecatalog.DeepCopy_servicecatalog_ServiceInstanceStatus c) servicecatalog.ServiceInstanceStatus.
Proof. deep_copy servicecatalog.DeepCopy_servicecatalog_ServiceInstanceStatus. Qed.
#[local] Hint Resolve DeepCopy_servicecatalog_ServiceInstanceStatus_deep : deep.
Lemma DeepCopy_servicecatalog_ServiceInstance_deep : deep (servicecatalog.DeepCopy_servicecatalog_ServiceInstance c) servicecatalog.ServiceInstance.
Proof. deep_copy servicecatalog.DeepCopy_servicecatalog_ServiceInstance. Qed.
#[local] Hint Resolve DeepCopy_servicecatalog_ServiceInstance_deep : deep.
Lemma DeepCopy_servicecatalog_ServiceInstanceList_deep : deep (servicecatalog.DeepCopy_servicecatalog_ServiceInstanceList c) servicecatalog.ServiceInstanceList.
Proof. deep_copy servicecatalog.DeepCopy_servicecatalog_ServiceInstanceList. Qed.
#[local] Hint Resolve DeepCopy_servicecatalog_ServiceInstanceList_deep : deep.
Lemma DeepCopy_servicecatalog_ServiceInstanceCredentialSpec_deep : deep (servicecatalog.DeepCopy_servicecatalog_ServiceInstanceCredentialSpec c) servicecatalog.ServiceInstanceCredentialSpec.
Proof. deep_copy servicecatalog.DeepCopy_servicecatalog_ServiceInstanceCredentialSpec. Qed.
#[local] Hint Resolve DeepCopy_servicecatalog_ServiceInstanceCredentialSpec_deep : deep.
Lemma DeepCopy_servicecatalog_ServiceInstanceCredentialPropertiesState_deep : deep (servicecatalog.DeepCopy_servicecatalog_ServiceInstanceCredentialPropertiesState c) servicecatalog.ServiceInstanceCredentialPropertiesState.
Proof. deep_copy servicecatalog.DeepCopy_servicecatalog_ServiceInstanceCredentialPropertiesState. Qed.
#[local] Hint Resolve DeepCopy_servicecatalog_ServiceInstanceCredentialPropertiesState_deep : deep.
Lemma DeepCopy_servicecatalog_ServiceInstanceCredentialCondition_deep : deep (servicecatalog.DeepCopy_servicecatalog_ServiceInstanceCredentialCondition c) servicecatalog.ServiceInstanceCredentialCondition.
Proof. deep_copy servicecatalog.DeepCopy_servicecatalog_ServiceInstanceCredentialCondition. Qed.
#[local] Hint Resolve DeepCopy_servicecatalog_ServiceInstanceCredentialCondition_deep : deep.
Lemma DeepCopy_servicecatalog_ServiceInstanceCredentialStatus_deep : deep (servicecatalog.DeepCopy_servicecatalog_ServiceInstanceCredentialStatus c) servicecatalog.ServiceInstanceCredentialStatus.
Proof. deep_copy servicecatalog.DeepCopy_servicecatalog_ServiceInstanceCredentialStatus. Qed.
#[local] Hint Resolve DeepCopy_servicecatalog_ServiceInstanceCredentialStatus_deep : deep.
Lemma DeepCopy_servicecatalog_ServiceInstanceCredential_deep : deep (servicecatalog.DeepCopy_servicecatalog_ServiceInstanceCredential c) servicecatalog.ServiceInstanceCredential.
Proof. deep_copy servicecatalog.DeepCopy_servicecatalog_ServiceInstanceCredential. Qed.
#[local] Hint Resolve DeepCopy_servicecatalog_ServiceInstanceCredential_deep : deep.
Lemma DeepCopy_servicecatalog_ServiceInstanceCredentialList_deep : deep (servicecatalog.DeepCopy_servicecatalog_ServiceInstanceCredentialList c) servicecatalog.ServiceInstanceCredentialList.
Proof. deep_copy servicecatalog.DeepCopy_servicecatalog_ServiceInstanceCredentialList. Qed.
#[local] Hint Resolve DeepCopy_servicecatalog_ServiceInstanceCredentialList_deep : deep.
End generated.

(** *** The scheme's cloner *)

(** Calls go five deep: an object, its [ObjectMeta], [Initializers], [Status], [StatusDetails]. *)
Lemma SchemeCloner_details n : deep (SchemeCloner (S n) StatusDetails) StatusDetails.
Proof. change (deep (DeepCopy_v1_StatusDetails (SchemeCloner n)) StatusDetails). deep_copy DeepCopy_v1_StatusDetails. Qed.

Lemma SchemeCloner_owner n : deep (SchemeCloner (S n) OwnerReference) OwnerReference.
Proof. change (deep (DeepCopy_v1_OwnerReference (SchemeCloner n)) OwnerReference). deep_copy DeepCopy_v1_OwnerReference. Qed.

#[local] Hint Resolve SchemeCloner_details SchemeCloner_owner : deep.

Lemma SchemeCloner_status n : deep (SchemeCloner (S (S n)) Status) Status.
Proof. change (deep (DeepCopy_v1_Status (SchemeCloner (S n))) Status). deep_copy DeepCopy_v1_Status. Qed.

#[local] Hint Resolve SchemeCloner_status : deep.

Lemma SchemeCloner_initializers n : deep (SchemeCloner (S (S (S n))) Initializers) Initializers.
Proof. change (deep (DeepCopy_v1_Initializers (SchemeCloner (S (S n)))) Initializers). deep_copy DeepCopy_v1_Initializers. Qed.

#[local] Hint Resolve SchemeCloner_initializers : deep.

#[export] Instance SchemeCloner_clones n : Clones (SchemeCloner (S (S (S (S n))))).
Proof.
  split.
  - change (deep (DeepCopy_v1_ObjectMeta (SchemeCloner (S (S (S n))))) ObjectMeta). deep_copy DeepCopy_v1_ObjectMeta.
  - by apply deep_deepCopy.
  - by apply deep_deepCopy.
Qed.

(** The types of both packages, as their functions are registered. *)
Definition api_types : list shape := v1alpha1.types ++ servicecatalog.types.

Lemma SchemeCloner_types n : Clones (SchemeCloner n) -> List.Forall (fun s => deep (SchemeCloner (S n) s) s) api_types.
Proof.
  intros H.
  apply List.Forall_cons; [exact (DeepCopy_v1alpha1_BasicAuthConfig_deep (SchemeCloner n))|].
  apply List.Forall_cons; [exact (DeepCopy_v1alpha1_BearerTokenAuthConfig_deep (SchemeCloner n))|].
  apply List.Forall_cons; [exact (DeepCopy_v1alpha1_ClusterServiceBroker_deep (SchemeCloner n))|].
  apply List.Forall_cons; [exact (DeepCopy_v1alpha1_ClusterServiceBrokerList_deep (SchemeCloner n))|].
  apply List.Forall_cons; [exact (DeepCopy_v1alpha1_ClusterServiceBrokerSpec_deep (SchemeCloner n))|].
  apply List.Forall_cons; [exact (DeepCopy_v1alpha1_ParametersFromSource_deep (SchemeCloner n))|].
  apply List.Forall_cons; [exact (DeepCopy_v1alpha1_SecretKeyReference_deep (SchemeCloner n))|].
  apply List.Forall_cons; [exact (DeepCopy_v1alpha1_ServiceBrokerAuthInfo_deep (SchemeCloner n))|].
  apply List.Forall_cons; [exact (DeepCopy_v1alpha1_ServiceBrokerCondition_deep (SchemeCloner n))|].
  apply List.Forall_cons; [exact (DeepCopy_v1alpha1_ServiceBrokerStatus_deep (SchemeCloner n))|].
  apply List.Forall_cons; [exact (DeepCopy_v1alpha1_ServiceClass_deep (SchemeCloner n))|].
  apply List.Forall_cons; [exact (DeepCopy_v1alpha1_ServiceClassList_deep (SchemeCloner n))|].
  apply List.Forall_cons; [exact (DeepCopy_v1alpha1_ServiceClassSpec_deep (SchemeCloner n))|].
  apply List.Forall_cons; [exact (DeepCopy_v1alpha1_ServiceInstance_deep (SchemeCloner n))|].
  apply List.Forall_cons; [exact (DeepCopy_v1alpha1_ServiceInstanceCondition_deep (SchemeCloner n))|].
  apply List.Forall_cons; [exact (DeepCopy_v1alpha1_ServiceInstanceCredential_deep (SchemeCloner n))|].
  apply List.Forall_cons; [exact (DeepCopy_v1alpha1_ServiceInstanceCredentialCondition_deep (SchemeCloner n))|].
  apply List.Forall_cons; [exact (DeepCopy_v1alpha1_ServiceInstanceCredentialList_deep (SchemeCloner n))|].
  apply List.Forall_cons; [exact (DeepCopy_v1alpha1_ServiceInstanceCredentialPropertiesState_deep (SchemeCloner n))|].
  apply List.Forall_cons; [exact (DeepCopy_v1alpha1_ServiceInstanceCredentialSpec_deep (SchemeCloner n))|].
  apply List.Forall_cons; [exact (DeepCopy_v1alpha1_ServiceInstanceCredentialStatus_deep (SchemeCloner n))|].
  apply List.Forall_cons; [exact (DeepCopy_v1alpha1_ServiceInstanceList_deep (SchemeCloner n))|].
  apply List.Forall_cons; [exact (DeepCopy_v1alpha1_ServiceInstancePropertiesState_deep (SchemeCloner n))|].
  apply List.Forall_cons; [exact (DeepCopy_v1alpha1_ServiceInstanceSpec_deep (SchemeCloner n))|].
  apply List.Forall_cons; [exact (DeepCopy_v1alpha1_ServiceInstanceStatus_deep (SchemeCloner n))|].
  apply List.Forall_cons; [exact (DeepCopy_v1alpha1_ServicePlan_deep (SchemeCloner n))|].
  apply List.Forall_cons; [exact (DeepCopy_v1alpha1_ServicePlanList_deep (SchemeCloner n))|].
  apply List.Forall_cons; [exact (DeepCopy_v1alpha1_ServicePlanSpec_deep (SchemeCloner n))|].
  apply List.Forall_cons; [exact (DeepCopy_v1alpha1_UserInfo_deep (SchemeCloner n))|].
  apply List.Forall_cons; [exact (DeepCopy_servicecatalog_BasicAuthConfig_deep (SchemeCloner n))|].
  apply List.Forall_cons; [exact (DeepCopy_servicecatalog_BearerTokenAuthConfig_deep (SchemeCloner n))|].
  apply List.Forall_cons; [exact (DeepCopy_servicecatalog_ClusterServiceBroker_deep (SchemeCloner n))|].
  apply List.Forall_cons; [exact (DeepCopy_servicecatalog_ClusterServiceBrokerList_deep (SchemeCloner n))|].
  apply List.Forall_cons; [exact (DeepCopy_servicecatalog_ClusterServiceBrokerSpec_deep (SchemeCloner n))|].
  apply List.Forall_cons; [exact (DeepCopy_servicecatalog_ParametersFromSource_deep (SchemeCloner n))|].
  apply List.Forall_cons; [exact (DeepCopy_servicecatalog_SecretKeyReference_deep (SchemeCloner n))|].
  apply List.Forall_cons; [exact (DeepCopy_servicecatalog_ServiceBrokerAuthInfo_deep (SchemeCloner n))|].
  apply List.Forall_cons; [exact (DeepCopy_servicecatalog_ServiceBrokerCondition_deep (SchemeCloner n))|].
  apply List.Forall_cons; [exact (DeepCopy_servicecatalog_ServiceBrokerStatus_deep (SchemeCloner n))|].
  apply List.Forall_cons; [exact (DeepCopy_servicecatalog_ServiceClass_deep (SchemeCloner n))|].
  apply List.Forall_cons; [exact (DeepCopy_servicecatalog_ServiceClassList_deep (SchemeCloner n))|].
  apply List.Forall_cons; [exact (DeepCopy_servicecatalog_ServiceClassSpec_deep (SchemeCloner n))|].
  apply List.Forall_cons; [exact (DeepCopy_servicecatalog_ServiceInstance_deep (SchemeCloner n))|].
  apply List.Forall_cons; [exact (DeepCopy_servicecatalog_ServiceInstanceCondition_deep (SchemeCloner n))|].
  apply List.Forall_cons; [exact (DeepCopy_servicecatalog_ServiceInstanceCredential_deep (SchemeCloner n))|].
  apply List.Forall_cons; [exact (DeepCopy_servicecatalog_ServiceInstanceCredentialCondition_deep (SchemeCloner n))|].
  apply List.Forall_cons; [exact (DeepCopy_servicecatalog_ServiceInstanceCredentialList_deep (SchemeCloner n))|].
  apply List.Forall_cons; [exact (DeepCopy_servicecatalog_ServiceInstanceCredentialPropertiesState_deep (SchemeCloner n))|].
  apply List.Forall_cons; [exact (DeepCopy_servicecatalog_ServiceInstanceCredentialSpec_deep (SchemeCloner n))|].
  apply List.Forall_cons; [exact (DeepCopy_servicecatalog_ServiceInstanceCredentialStatus_deep (SchemeCloner n))|].
  apply List.Forall_cons; [exact (DeepCopy_servicecatalog_ServiceInstanceList_deep (SchemeCloner n))|].
  apply List.Forall_cons; [exact (DeepCopy_servicecatalog_ServiceInstancePropertiesState_deep (SchemeCloner n))|].
  apply List.Forall_cons; [exact (DeepCopy_servicecatalog_ServiceInstanceSpec_deep (SchemeCloner n))|].
  apply List.Forall_cons; [exact (DeepCopy_servicecatalog_ServiceInstanceStatus_deep (SchemeCloner n))|].
  apply List.Forall_cons; [exact (DeepCopy_servicecatalog_ServicePlan_deep (SchemeCloner n))|].
  apply List.Forall_cons; [exact (DeepCopy_servicecatalog_ServicePlanList_deep (SchemeCloner n))|].
  apply List.Forall_cons; [exact (DeepCopy_servicecatalog_ServicePlanSpec_deep (SchemeCloner n))|].
  apply List.Forall_cons; [exact (DeepCopy_servicecatalog_UserInfo_deep (SchemeCloner n))|].
  exact (@List.Forall_nil _ _).
Qed.

Lemma NewCloner_types : List.Forall (fun s => deep (NewCloner s) s) api_types.
Proof. repeat (apply List.Forall_cons; [by apply deep_deepCopy|]). exact (@List.Forall_nil _ _). Qed.

(** C37: a deep copy of an object of any type of the API, versioned or internal,
    succeeds, reads exactly as the object does, and is independent of it: nothing
    written through the copy changes the object (which is shared with the
    controller's caches), and nothing written to memory the object reaches, or to
    any other memory there was, changes the copy. This holds of api.Scheme's
    cloner, with five nested calls or more, and of a new, empty one. *)
Theorem deep_copies_are_independent n s h p t F :
  s ∈ api_types -> read (SPtr s) h p = Some (t, F) ->
  (exists p' h', DeepCopy (SchemeCloner (5 + n)) s p h = Some (p', h') /\ independent (SPtr s) h p h' p') /\
  (exists p' h', DeepCopy NewCloner s p h = Some (p', h') /\ independent (SPtr s) h p h' p').
Proof.
  intros Hs%list_elem_of_In Hr. split; eapply deep_independent; try exact Hr; apply deep_new_cell.
  - pose proof (SchemeCloner_types (4 + n) _) as H. rewrite List.Forall_forall in H. exact (H s Hs).
  - pose proof NewCloner_types as H. rewrite List.Forall_forall in H. exact (H s Hs).
Qed.

(** An instance with parameters and a finalizer; everything else has its zero value. *)
Fixpoint zero (s : shape) : value :=
  match s with
  | SBasic => VBasic ""
  | SStruct _ fs => VStruct (list_to_map (map (fun f => (fst f, zero (snd f))) fs))
  | _ => VRef None
  end.

Definition set_field (n : string) (w v : value) : value :=
  match v with VStruct m => VStruct (<[n:=w]> m) | _ => v end.

Definition sample_heap : heap :=
  list_to_map [
    (0%nat, set_field "ObjectMeta" (set_field "Finalizers" (VRef (Some 1%nat)) (zero ObjectMeta))
          (set_field "Spec" (set_field "Parameters" (VRef (Some 2%nat)) (zero v1alpha1.ServiceInstanceSpec)) (zero v1alpha1.ServiceInstance)));
    (1%nat, VSeq [VBasic "kubernetes-incubator/service-catalog"]);
    (2%nat, set_field "Raw" (VRef (Some 3%nat)) (zero RawExtension));
    (3%nat, VSeq [VBasic "{"; VBasic "}"])].

Lemma deep_copies_are_independent_witness :
  exists t, read (SPtr v1alpha1.ServiceInstance) sample_heap (VRef (Some 0%nat)) = Some (t, {[0%nat; 1%nat; 2%nat; 3%nat]}) /\
  exists p' h', DeepCopy (SchemeCloner 5) v1alpha1.ServiceInstance (VRef (Some 0%nat)) sample_heap = Some (p', h') /\
    independent (SPtr v1alpha1.ServiceInstance) sample_heap (VRef (Some 0%nat)) h' p'.
Proof.
  eexists. split; [vm_compute; reflexivity|].
  eapply (deep_copies_are_independent 0%nat); [|vm_compute; reflexivity].
  apply list_elem_of_In. vm_compute. auto 30.
Defined.

(** Assigning the structure alone is not enough: the copy would share the cells of the object. *)
Lemma assignment_is_not_deep : ~ deep assign v1alpha1.BasicAuthConfig.
Proof.
  intros H. pose (h := {[7%nat := zero ObjectReference]} : heap).
  pose (v := set_field "SecretRef" (VRef (Some 7%nat)) (zero v1alpha1.BasicAuthConfig)).
  assert (Hr : exists t, read v1alpha1.BasicAuthConfig h v = Some (t, {[7%nat]})) by (eexists; vm_compute; reflexivity).
  destruct Hr as [t Hr]. destruct (H h v t _ Hr) as (v' & h' & F' & [= <- <-] & _ & Hr' & HF).
  rewrite Hr in Hr'. injection Hr' as <-. apply (HF 7%nat); [by apply elem_of_singleton|].
  apply elem_of_dom. by eexists.
Qed.
