(* ===== verification/System.v ===== *)
(** * The system put together

    One instance from its creation to its end: the user's requests to the API
    server, the registry store with the strategies of instances, the control loop run
    on the instance's key again and again (as the workers of its queues do), and a
    broker that holds instances.  The environment of the control loop is the
    rest of the system.  The caches are up to date, the catalog stays as it is,
    and no credential refers to the instance; the broker takes its time, as its
    scripts say: calls fail before one is accepted, an accepted call may be
    carried out asynchronously, and polls fail or find the operation in
    progress before one finds it done. *)

From stdpp Require Import gmap strings list.
From S2P Require Import Prelude Types Conditions Environment Validation ParametersModel ControllerCommon APIServer InstanceController Strategy.

(** ** The broker *)

Inductive Request :=
| RProvision (req : ProvisionRequest)
| RDeprovision (req : DeprovisionRequest)
| RPoll (req : LastOperationRequest).

(** How a kind of operation goes: the errors of the calls before one is accepted,
    whether it is asynchronous, and what the polls find before it is done: an
    error, or an operation in progress with its description. *)
Record Script := { failures : list error; async : bool; polls : list (error + option string) }.

Inductive Operation := Provisioning | Deprovisioning.

(** [held] are the instances the broker has, [pending] is the asynchronous
    operation under way with the instance it is about, [received] every request so far. *)
Record Broker := {
  held : gset string;
  pending : option (Operation * string);
  provisioning : Script;
  deprovisioning : Script;
  received : list Request }.

Definition with_script (o : Operation) (s : Script) (b : Broker) : Broker :=
  match o with
  | Provisioning => {| held := held b; pending := pending b; provisioning := s; deprovisioning := deprovisioning b; received := received b |}
  | Deprovisioning => {| held := held b; pending := pending b; provisioning := provisioning b; deprovisioning := s; received := received b |}
  end.
Definition script (o : Operation) (b : Broker) : Script :=
  match o with Provisioning => provisioning b | Deprovisioning => deprovisioning b end.
Definition with_pending (p : option (Operation * string)) (b : Broker) : Broker :=
  {| held := held b; pending := p; provisioning := provisioning b; deprovisioning := deprovisioning b; received := received b |}.
Definition receive (r : Request) (b : Broker) : Broker :=
  {| held := held b; pending := pending b; provisioning := provisioning b; deprovisioning := deprovisioning b;
     received := received b ++ [r] |}.

(** The operation is carried out. *)
Definition carry_out (o : Operation) (id : string) (b : Broker) : Broker :=
  {| held := match o with Provisioning => {[ id ]} ∪ held b | Deprovisioning => held b ∖ {[ id ]} end;
     pending := None; provisioning := provisioning b; deprovisioning := deprovisioning b; received := received b |}.

(** A call for an operation on [id]: whether it is asynchronous, or an error. *)
Definition broker_accept (o : Operation) (id : string) (b : Broker) : (bool + error) * Broker :=
  let s := script o b in
  match failures s with
  | e :: es => (inr e, with_script o {| failures := es; async := async s; polls := polls s |} b)
  | [] => if async s then (inl true, with_pending (Some (o, id)) b) else (inl false, carry_out o id b)
  end.

Definition broker_provision (req : ProvisionRequest) (b : Broker) : (ProvisionResponse + error) * Broker :=
  match broker_accept Provisioning (pr_InstanceID req) (receive (RProvision req) b) with
  | (inl a, b') => (inl {| presp_Async := a; presp_DashboardURL := None; presp_OperationKey := None |}, b')
  | (inr e, b') => (inr e, b')
  end.

Definition broker_deprovision (req : DeprovisionRequest) (b : Broker) : (DeprovisionResponse + error) * Broker :=
  match broker_accept Deprovisioning (dr_InstanceID req) (receive (RDeprovision req) b) with
  | (inl a, b') => (inl {| dresp_Async := a; dresp_OperationKey := None |}, b')
  | (inr e, b') => (inr e, b')
  end.

Definition broker_poll (req : LastOperationRequest) (b : Broker) : (LastOperationResponse + error) * Broker :=
  let b := receive (RPoll req) b in
  match pending b with
  | None => (inr (HTTPStatusCodeError 410 None None None), b)
  | Some (o, id) =>
      let s := script o b in
      let rest l := with_script o {| failures := failures s; async := async s; polls := l |} b in
      match polls s with
      | inl e :: l => (inr e, rest l)
      | inr d :: l => (inl {| lresp_State := StateInProgress; lresp_Description := d |}, rest l)
      | [] => (inl {| lresp_State := StateSucceeded; lresp_Description := None |}, carry_out o id b)
      end
  end.

(** ** The API server and the clock *)

(** [looks] counts the looks at the clock, [revision] the writes of the store. *)
Record System := { looks : nat; revision : nat; stored_instance : option ServiceInstance; broker : Broker }.

Definition next (w : System) : string := itoa (Z.of_nat (revision w)).
Definition with_stored (o : option ServiceInstance) (w : System) : System :=
  {| looks := looks w; revision := S (revision w); stored_instance := o; broker := broker w |}.
Definition with_broker (b : Broker) (w : System) : System :=
  {| looks := looks w; revision := revision w; stored_instance := stored_instance w; broker := b |}.
Definition look (w : System) : System :=
  {| looks := S (looks w); revision := revision w; stored_instance := stored_instance w; broker := broker w |}.

Definition missing {A} : A + error := inr (StatusError ReasonNotFound "not found").

Section system.
Context {C : Config} {MV : MetaValidation} {SV : StoreValidation} {Sem : Semantic}.
Context (clock : nat -> Z) (classes : list ServiceClass) (plans : list ServicePlan) (brokers : list ClusterServiceBroker)
  (secrets : list Secret) (namespaceUID : string -> string) (controller : option User).

(** What a write of the store answers and leaves; a removed object is answered as it was last. *)
Definition written (r : UpdateResult ServiceInstance) (w : System) : (ServiceInstance + error) * System :=
  match r with
  | Stored v => (inl v, with_stored (Some v) w)
  | Removed v => (inl v, with_stored None w)
  | Refused e => (inr e, w)
  end.

Definition instance_update (s : RESTUpdateStrategy ServiceInstance) (obj : ServiceInstance) (w : System) :
    (ServiceInstance + error) * System :=
  let ctx := {| ctx_Namespace := Namespace (si_Meta obj); ctx_User := controller |} in
  written (storeUpdate s true ctx (next w) (stored_instance w) obj) w.

Definition request_create (ctx : RequestContext) (uid : string) (obj : ServiceInstance) (w : System) :
    (ServiceInstance + error) * System :=
  written (storeCreate instanceCreateStrategy ctx uid (next w) (stored_instance w) obj) w.

Definition request_delete (ctx : RequestContext) (w : System) : (ServiceInstance + error) * System :=
  written (storeDelete instanceDeleteStrategy ctx (next w) (clock (looks w)) (stored_instance w)) (look w).

Definition named (name : string) (m : ObjectMeta) : bool := bool_decide (Name m = name).
Definition class_called (ext : string) (c : ServiceClass) : bool := bool_decide (sc_ExternalName (sc_Spec c) = ext).
Definition plan_called (ext cls br : string) (p : ServicePlan) : bool :=
  bool_decide (sp_ExternalName (sp_Spec p) = ext) && bool_decide (lref_Name (sp_ServiceClassRef (sp_Spec p)) = cls) &&
  bool_decide (sp_ClusterServiceBrokerName (sp_Spec p) = br).
Definition keyed {A} (meta : A -> ObjectMeta) (ns name : string) (x : A) : bool :=
  bool_decide (Namespace (meta x) = ns) && bool_decide (Name (meta x) = name).

(** The environment of the control loop of instances; what other loops call finds nothing. *)
Instance system_env : Env System := {|
  env_Now w := (clock (looks w), look w);
  env_instanceLister_Get ns name w :=
    (match stored_instance w with Some v => if keyed si_Meta ns name v then Some v else None | None => None end, w);
  env_bindingLister_Get _ _ w := (None, w);
  env_bindingLister_List _ w := (inl [], w);
  env_brokerLister_Get name w := (List.find (fun b => named name (b_Meta b)) brokers, w);
  env_serviceClassLister_Get name w := (List.find (fun c => named name (sc_Meta c)) classes, w);
  env_serviceClassLister_List w := (inl classes, w);
  env_servicePlanLister_Get name w := (List.find (fun p => named name (sp_Meta p)) plans, w);
  env_servicePlanLister_List w := (inl plans, w);
  env_ServiceClasses_List ext w := ((List.filter (class_called ext) classes, None), w);
  env_ServicePlans_List ext cls br w := ((List.filter (plan_called ext cls br) plans, None), w);
  env_ServiceInstances_UpdateStatus := instance_update instanceStatusUpdateStrategy;
  env_ServiceInstances_UpdateReferences := instance_update instanceReferenceUpdateStrategy;
  env_Bindings_UpdateStatus _ w := (missing, w);
  env_Brokers_Get _ w := (missing, w);
  env_Brokers_UpdateStatus _ w := (missing, w);
  env_ServiceClasses_Create _ w := (missing, w);
  env_ServiceClasses_Update _ w := (missing, w);
  env_ServiceClasses_Delete _ w := (missing, w);
  env_ServicePlans_Create _ w := (missing, w);
  env_ServicePlans_Update _ w := (missing, w);
  env_ServicePlans_Delete _ w := (missing, w);
  env_Namespaces_Get name w := (inl {| ns_Name := name; ns_UID := namespaceUID name; ns_Phase := NamespaceActive |}, w);
  env_Secrets_Get ns name w :=
    (match List.find (keyed secret_Meta ns name) secrets with Some s => inl s | None => missing end, w);
  env_Secrets_Create _ w := (missing, w);
  env_Secrets_Update _ w := (missing, w);
  env_Secrets_Delete _ _ w := (missing, w);
  env_brokerClientCreate _ w := (None, w);
  env_ProvisionInstance _ req w := let (r, b) := broker_provision req (broker w) in (r, with_broker b w);
  env_DeprovisionInstance _ req w := let (r, b) := broker_deprovision req (broker w) in (r, with_broker b w);
  env_PollLastOperation _ req w := let (r, b) := broker_poll req (broker w) in (r, with_broker b w);
  env_Bind _ _ w := (missing, w);
  env_Unbind _ _ w := (missing, w);
  env_GetCatalog _ w := (missing, w);
|}.

(** One pass of a worker over the key of the instance, and [n] of them. *)
Definition sync (key : string) (w : System) : System := world_of (reconcileServiceInstanceKey key) w.

Fixpoint syncs (n : nat) (key : string) (w : System) : System :=
  match n with O => w | S n' => syncs n' key (sync key w) end.
End system.
