(* ===== verification/SystemTheorems.v ===== *)
(** * An instance comes to exist and ceases to exist

    Liveness of the whole system ([System]): whatever the broker's scripts, a
    created instance becomes ready after as many passes as the scripts ask for,
    with the instance at the broker, and a deleted one disappears from the API
    server and from the broker.  The proofs run the control loop: [ends] is an
    exact run, with a rule per construct. *)

From stdpp Require Import gmap strings list.
From S2P Require Import Prelude Types Conditions Environment Json Validation ParametersModel ControllerCommon ValidationSpec APIServer InstanceController InstanceSpec Sample InstanceProofs Strategy InstanceTracking InstanceLifecycle System.

(** ** Running a program *)

Section runs.
Context {W Eff : Type}.

Definition ends {A} (m : M W Eff A) (w : W) (o : outcome A) (w' : W) : Prop := exists t, m w = (o, w', t).

Lemma ends_ret {A} (a : A) w : ends (ret a) w (Ok a) w.
Proof. by exists []. Qed.
Lemma ends_fail {A} e w : ends (fail e : M W Eff A) w (Err e) w.
Proof. by exists []. Qed.
Lemma ends_bind {A B} (m : M W Eff A) (k : A -> M W Eff B) w a w1 o w2 :
  ends m w (Ok a) w1 -> ends (k a) w1 o w2 -> ends (bind m k) w o w2.
Proof. intros [t1 H1] [t2 H2]. exists (t1 ++ t2). unfold bind. by rewrite H1, H2. Qed.
Lemma ends_bind_err {A B} (m : M W Eff A) (k : A -> M W Eff B) w e w1 :
  ends m w (Err e) w1 -> ends (bind m k) w (Err e) w1.
Proof. intros [t1 H1]. exists t1. unfold bind. by rewrite H1. Qed.
Lemma ends_try {A} (m : M W Eff A) w a w1 : ends m w (Ok a) w1 -> ends (try m) w (Ok (inl a)) w1.
Proof. intros [t1 H1]. exists t1. unfold try. by rewrite H1. Qed.
Lemma ends_try_err {A} (m : M W Eff A) w e w1 : ends m w (Err e) w1 -> ends (try m) w (Ok (inr e)) w1.
Proof. intros [t1 H1]. exists t1. unfold try. by rewrite H1. Qed.
Lemma ends_emit e w : ends (emit e) w (Ok tt) w.
Proof. by exists [e]. Qed.
Lemma ends_call {R} (eff : R -> list Eff) f w r w' : f w = (r, w') -> ends (call eff f) w (Ok r) w'.
Proof. intros H. exists (eff r). unfold call. by rewrite H. Qed.
Lemma ends_world {A} (m : M W Eff A) w o w' : ends m w o w' -> world_of m w = w'.
Proof. intros [t H]. unfold world_of. by rewrite H. Qed.
End runs.

Section calls.
Context {W : Type} {E : Env W}.

Lemma ends_api {R} (eff : R + error -> Effect) (f : W -> (R + error) * W) w a w' : f w = (inl a, w') -> ends (api eff f) w (Ok a) w'.
Proof. intros H. eapply ends_bind; [by apply ends_call|apply ends_ret]. Qed.
Lemma ends_api_err {R} (eff : R + error -> Effect) (f : W -> (R + error) * W) w e w' : f w = (inr e, w') -> ends (api eff f) w (Err e) w'.
Proof. intros H. eapply ends_bind; [by apply ends_call|apply ends_fail]. Qed.
Lemma ends_read {R} (f : W -> (R + error) * W) w a w' : f w = (inl a, w') -> ends (read f) w (Ok a) w'.
Proof. intros H. eapply ends_bind; [by apply ends_call|apply ends_ret]. Qed.
Lemma ends_lister_get {A} (f : W -> option A * W) w a w' : f w = (Some a, w') -> ends (lister_get f) w (Ok a) w'.
Proof. intros H. eapply ends_bind; [by apply ends_call|apply ends_ret]. Qed.
End calls.

(** ** Building parameters *)

Section parameters.
Context {W : Type} {E : Env W} {C : Config} {Y : YamlLaws}.

(** Once the parameters can be built, so can what is stored of them, and it is valid. *)
Lemma ends_prepareParameters (i : ServiceInstance) :
  (forall w, exists p, ends (buildParameters (Namespace (si_Meta i)) (ParametersFrom (si_Spec i)) (Parameters (si_Spec i))) w (Ok p) w) ->
  forall t w, exists p c raw, ends (prepareParameters i t) w (Ok (p, c, raw)) w /\ properties_ok raw c.
Proof.
  intros Hb t w. destruct (Hb w) as [[p red] Hp].
  assert (Hr : exists raw, MarshalRawParameters red = inl raw) by (unfold MarshalRawParameters, json_Marshal_map; eauto).
  assert (Hc : exists c, generateChecksumOfParameters p = inl c) by (unfold generateChecksumOfParameters, json_Marshal_map; eauto).
  destruct Hr as [raw Hr], Hc as [c Hc]. unfold prepareParameters.
  destruct (Parameters (si_Spec i)) as [ps|] eqn:Hps, (ParametersFrom (si_Spec i)) as [l|] eqn:Hl.
  4:{ exists ∅, "", None. split; [apply ends_ret|done]. }
  all: exists p, c, (Some {| Raw := raw |}); (split; [|split_and!; [by eapply marshalled_nonempty|by eapply law_yaml|by eapply generated_checksum_ok]]).
  all: eapply ends_bind; [apply ends_try, Hp|cbv beta iota; rewrite Hc; cbv beta iota; rewrite Hr; apply ends_ret].
Qed.
End parameters.

(** ** Accepted writes *)

Section accepted.
Context {SV : StoreValidation}.
Implicit Types (m : ObjectMeta) (s obj : ServiceInstance).

Lemma modify_same (f : ObjectMeta -> ObjectMeta) obj : f (metaOf obj) = metaOf obj -> modify f obj = obj.
Proof. intros H. unfold modify. by rewrite H, withMeta_metaOf. Qed.

Lemma repairMeta_finalizers fs m : repairMeta (with_Finalizers fs m) m = with_Finalizers fs m.
Proof. destruct m as [n ns uid rv g [d|] f o]; unfold repairMeta; cbn; by case_bool_decide. Qed.

Lemma validateMetaUpdate_finalizers fs m :
  ResourceVersion m <> "" -> fs ⊆ Finalizers m -> validateOwnerReferences (OwnerReferences m) = [] ->
  validateMetaUpdate (with_Finalizers fs m) m = [].
Proof.
  intros Hv Hfs Ho. unfold validateMetaUpdate, ValidateImmutableField, ValidateNoNewFinalizers. cbn.
  rewrite !app_nil_iff, !when_nil, Z.ltb_irrefl. rewrite (bool_decide_eq_true_2 (DeletionTimestamp m = DeletionTimestamp m)) by done.
  rewrite andb_false_r. split_and!; try done; repeat case_bool_decide; try done. apply when_nil, negb_false_iff, List.forallb_forall.
  intros x Hx. apply bool_decide_eq_true, Hfs. by apply list_elem_of_In.
Qed.

(** A write from the stored version that changes no metadata but to drop finalizers. *)
Lemma storeUpdate_accepted st ctx rv s obj fs :
  AllowUnconditionalUpdate st = false -> (forall new, si_Meta (PrepareForUpdate st ctx new s) = si_Meta new) ->
  si_Meta obj = with_Finalizers fs (si_Meta s) -> fs ⊆ Finalizers (si_Meta s) ->
  ctx_Namespace ctx = Namespace (si_Meta s) -> ResourceVersion (si_Meta s) <> "" ->
  validateMeta (si_Meta obj) true = [] -> validateOwnerReferences (OwnerReferences (si_Meta s)) = [] ->
  ValidateUpdate st (PrepareForUpdate st ctx obj s) s = [] ->
  storeUpdate st true ctx rv (Some s) obj =
    if Nat.eqb (length fs) 0 && negb (bool_decide (DeletionTimestamp (si_Meta s) = None))
    then Removed (PrepareForUpdate st ctx obj s)
    else Stored (modify (with_ResourceVersion rv) (PrepareForUpdate st ctx obj s)).
Proof.
  intros Hu Hp Hm Hfs Hns Hrv Hvm Hvo Hval. unfold storeUpdate. cbn [metaOf ServiceInstance_Object]. rewrite Hu, andb_false_r, Hm. cbn.
  rewrite (bool_decide_eq_false_2 _ Hrv), bool_decide_eq_true_2 by done. cbn.
  assert (Hsc : scopedTo true ctx obj = Some obj).
  { unfold scopedTo, ValidNamespace. cbn [metaOf ServiceInstance_Object].
    assert (Hn : Namespace (si_Meta obj) = ctx_Namespace ctx) by (rewrite Hm, Hns; done).
    assert (He : modify (with_Namespace (ctx_Namespace ctx)) obj = obj)
      by (apply modify_same; cbn; rewrite <- Hn; by destruct (si_Meta obj)).
    rewrite He. destruct (bool_decide (Namespace _ = "")); by rewrite bool_decide_eq_true_2. }
  unfold BeforeUpdate. rewrite Hsc. cbv zeta. rewrite (modify_same (with_Generation _)); [|cbn; rewrite Hm; by destruct (si_Meta s)].
  cbn [metaOf ServiceInstance_Object]. rewrite Hp, (modify_same (fun m => repairMeta m _)); cbn [metaOf ServiceInstance_Object];
    rewrite Hp, ?Hm, ?repairMeta_finalizers; [|done].
  rewrite <- Hm, Hvm, Hm, validateMetaUpdate_finalizers, Hval by done. cbn.
  unfold shouldDeleteDuringUpdate. cbn [metaOf ServiceInstance_Object]. by rewrite Hp, Hm.
Qed.
End accepted.

(** ** The setting *)

(** What the metadata of an instance has to be for every update to pass: the
    checks look at what no update changes. *)
Record metadata_accepted {MV : MetaValidation} {SV : StoreValidation} (ns name : string) (owners : list OwnerReference) : Prop := {
  ma_store m : Name m = name -> Namespace m = ns -> OwnerReferences m = owners -> validateMeta m true = [];
  ma_object m : Name m = name -> Namespace m = ns -> OwnerReferences m = owners ->
    ValidateObjectMeta m true validateServiceInstanceName "metadata" = [];
  ma_owners : validateOwnerReferences owners = [] }.

(** The catalog has one class and one plan of the names the instance asks for, and their broker. *)
Record catalog_has (classes : list ServiceClass) (plans : list ServicePlan) (brokers : list ClusterServiceBroker)
    (class_name plan_name : string) (sc : ServiceClass) (sp : ServicePlan) (b : ClusterServiceBroker) : Prop := {
  ch_class : List.filter (class_called class_name) classes = [sc];
  ch_class_get : List.find (fun c => named (Name (sc_Meta sc)) (sc_Meta c)) classes = Some sc;
  ch_plan : List.filter (plan_called plan_name (Name (sc_Meta sc)) (sc_ClusterServiceBrokerName (sc_Spec sc))) plans = [sp];
  ch_plan_get : List.find (fun p => named (Name (sp_Meta sp)) (sp_Meta p)) plans = Some sp;
  ch_broker : List.find (fun x => named (sc_ClusterServiceBrokerName (sc_Spec sc)) (b_Meta x)) brokers = Some b }.

(** Errors after which the controller tries again. *)
Definition transient (e : error) : Prop := IsHTTPError e = None /\ isURLTimeout e = false.
Definition temporary (s : Script) : Prop :=
  Forall transient (failures s) /\ Forall (fun p => forall e, p = inl e -> IsGoneError e = false) (polls s).

Section system.
Context {C : Config} {MV : MetaValidation} {SV : StoreValidation} {Sem : Semantic} {Y : YamlLaws}.
Context (clock : nat -> Z) (classes : list ServiceClass) (plans : list ServicePlan) (brokers : list ClusterServiceBroker)
  (secrets : list Secret) (namespaceUID : string -> string) (controller : option User).
#[local] Instance env : Env System := system_env clock classes plans brokers secrets namespaceUID controller.

(** The instance, and what it finds. *)
Context (ns name id class_name plan_name key : string) (params : option RawExtension) (from : option (list ParametersFromSource))
  (owners : list OwnerReference) (sc : ServiceClass) (sp : ServicePlan) (b : ClusterServiceBroker) (auth : option AuthConfig).
Hypothesis Hmeta : metadata_accepted ns name owners.
Hypothesis Hcatalog : catalog_has classes plans brokers class_name plan_name sc sp b.
Hypothesis Hauth : forall w, ends (getAuthCredentialsFromClusterServiceBroker b) w (Ok auth) w.
Hypothesis Hparams : forall w, exists p, ends (buildParameters ns from params) w (Ok p) w.
Hypothesis Hwindow : forall j k, clock j < clock k + reconciliationRetryDuration.
Hypothesis Hkey : SplitMetaNamespaceKey key = inl (ns, name).

(** *** Storing a status *)

(** What stays as it is in the life of the instance. *)
Record ours (v : ServiceInstance) : Prop := {
  our_name : Name (si_Meta v) = name;
  our_namespace : Namespace (si_Meta v) = ns;
  our_owners : OwnerReferences (si_Meta v) = owners;
  our_version : ResourceVersion (si_Meta v) <> "";
  our_finalizers : Finalizers (si_Meta v) = [FinalizerServiceCatalog];
  our_id : ExternalID (si_Spec v) = id;
  our_class : ExternalServiceClassName (si_Spec v) = class_name;
  our_plan : ExternalServicePlanName (si_Spec v) = plan_name;
  our_params : Parameters (si_Spec v) = params;
  our_from : ParametersFrom (si_Spec v) = from;
  our_spec : validateServiceInstanceSpec (si_Spec v) "spec" = [] }.

Record storable (v : ServiceInstance) : Prop := {
  sto_status : status_at_rest (si_Status v) \/ status_in_operation (si_Status v);
  sto_generation : ReconciledGeneration (si_Status v) <= Generation (si_Meta v);
  sto_current : ReconciledGeneration (si_Status v) = Generation (si_Meta v) -> CurrentOperation (si_Status v) = OperationNone }.

(** [t] is the stored version with a status of its own. *)
Definition based (t : ServiceInstance) (w : System) : Prop :=
  exists s, stored_instance w = Some s /\ si_Meta t = si_Meta s /\ si_Spec t = si_Spec s.

Definition saved (w : System) (t : ServiceInstance) : ServiceInstance := modify (with_ResourceVersion (next w)) t.

Lemma itoa_digits_nonempty f n : itoa_digits (S f) n <> "".
Proof. cbn. destruct (n <? 10); [done|]. by destruct (itoa_digits f (n / 10)). Qed.

Lemma next_nonempty w : next w <> "".
Proof. unfold next, itoa. destruct (_ <? 0); [done|]. apply itoa_digits_nonempty. Qed.

Lemma valid_instance (v : ServiceInstance) : ours v -> storable v -> internalValidateServiceInstance v false = [].
Proof.
  intros [] []. unfold internalValidateServiceInstance, validateServiceInstanceUpdate. rewrite !app_nil_iff. split_and!.
  - by apply (ma_object _ _ _ Hmeta).
  - done.
  - by apply validateServiceInstanceStatus_spec.
  - destruct (Z.eqb_spec (ReconciledGeneration (si_Status v)) (Generation (si_Meta v))); apply when_nil.
    + apply bool_decide_eq_false. auto.
    + apply Z.ltb_ge. lia.
Qed.

Lemma ends_UpdateStatus t w :
  based t w -> ours t -> storable t ->
  ends (updateServiceInstanceStatus t) w (Ok (saved w t)) (with_stored (Some (saved w t)) w).
Proof.
  intros (s & Hs & Hm & Hsp) Ho Hst. apply ends_api. cbn. unfold instance_update. rewrite Hs.
  assert (Hprep : PrepareForUpdate instanceStatusUpdateStrategy {| ctx_Namespace := Namespace (si_Meta t); ctx_User := controller |} t s = t).
  { cbn. unfold instanceStatusPrepareForUpdate. rewrite <- Hsp. by destruct t. }
  rewrite (storeUpdate_accepted _ _ _ _ _ (Finalizers (si_Meta t))); rewrite ?Hprep, <- ?Hm; try done.
  - by rewrite (our_finalizers _ Ho).
  - by destruct (si_Meta t).
  - by destruct Ho.
  - by destruct Ho; apply (ma_store _ _ _ Hmeta).
  - rewrite (our_owners _ Ho). apply Hmeta.
  - by apply valid_instance.
Qed.

(** *** The phases of an instance *)

Definition operation (o : Operation) : ServiceInstanceOperation :=
  match o with Provisioning => OperationProvision | Deprovisioning => OperationDeprovision end.

(** The generation that was reconciled before the operation, and the metadata meanwhile. *)
Definition done_before (o : Operation) : Z := match o with Provisioning => 0 | Deprovisioning => 1 end.
Definition lifetime (o : Operation) (m : ObjectMeta) : Prop :=
  Generation m = done_before o + 1 /\ (DeletionTimestamp m = None <-> o = Provisioning).

Record steady (o : Operation) (v : ServiceInstance) : Prop := {
  st_ours : ours v;
  st_orphan : OrphanMitigationInProgress (si_Status v) = false;
  st_failed : isServiceInstanceFailed v = false;
  st_unique : NoDup (cond_Type <$> Conditions (si_Status v));
  st_reconciled : ReconciledGeneration (si_Status v) = done_before o;
  st_lifetime : lifetime o (si_Meta v) }.

Definition resolved : Resolved :=
  {| serviceClass := sc; servicePlan := sp; brokerName := Name (b_Meta b);
     brokerClient := NewClientConfigurationForBroker b auth |}.

Definition refs_to (v : ServiceInstance) : Prop :=
  ServiceClassRef (si_Spec v) = Some (reference_of (sc_TypeMeta sc) (sc_Meta sc)) /\
  ServicePlanRef (si_Spec v) = Some (reference_of (sp_TypeMeta sp) (sp_Meta sp)).

(** Before the operation, with the references resolved. *)
Record waiting (o : Operation) (v : ServiceInstance) : Prop := {
  wt_steady : steady o v; wt_refs : refs_to v; wt_rest : status_at_rest (si_Status v) }.

(** In the operation; [a] if the broker carries it out asynchronously. *)
Record flying (o : Operation) (a : bool) (v : ServiceInstance) : Prop := {
  fl_steady : steady o v; fl_refs : refs_to v;
  fl_status : status_in_operation (si_Status v);
  fl_operation : CurrentOperation (si_Status v) = operation o;
  fl_start : exists k, OperationStartTime (si_Status v) = Some (clock k);
  fl_async : AsyncOpInProgress (si_Status v) = a }.

Lemma ours_meta v v' :
  ours v -> si_Spec v' = si_Spec v -> (exists rv, si_Meta v' = with_ResourceVersion rv (si_Meta v) /\ rv <> "") -> ours v'.
Proof. intros [] Hs (rv & Hm & Hrv). split; rewrite ?Hs, ?Hm; done. Qed.

Lemma ours_saved w v : ours v -> ours (saved w v).
Proof. intros H. eapply ours_meta; [exact H|done|]. exists (next w). split; [done|apply next_nonempty]. Qed.

Lemma steady_saved o w v : steady o v -> steady o (saved w v).
Proof. intros []. split; try done. by apply ours_saved. Qed.

Lemma flying_saved o a w v : flying o a v -> flying o a (saved w v).
Proof. intros []. split; try done. by apply steady_saved. Qed.

Lemma flying_storable o a v : flying o a v -> storable v.
Proof.
  intros [[] _ Hs _ _ _]. destruct st_lifetime0 as [Hg _]. split; [by right|..]; rewrite st_reconciled0, Hg; lia.
Qed.

(** Steps that change the status. *)
Lemma flying_ready o a v st r m t :
  flying o a v -> st <> ConditionTrue -> flying o a (setServiceInstanceConditionInternal v ConditionReady st r m t).
Proof.
  intros [[] ? [] ? ? ?] Hst. split; try done; split; try done.
  - by destruct st_ours0.
  - unfold isServiceInstanceFailed. cbn. by rewrite has_failed_set_ready.
  - by apply set_condition_NoDup.
  - by apply never_ready_set.
Qed.

Lemma flying_async o a v : flying o a v -> flying o true (si_upd (with_AsyncOpInProgress true) v).
Proof. intros [[] ? [] ? ? ?]. split; try done; split; try done. by destruct st_ours0. Qed.

Lemma flying_properties a v ps :
  flying Provisioning a v -> properties_ok (ps_Parameters ps) (ps_ParametersChecksum ps) ->
  flying Provisioning a (si_upd (with_InProgressProperties (Some ps)) v).
Proof.
  intros [[] ? [] Ho ? ?] Hps. split; try done; split; try done; [by destruct st_ours0|]. cbn. rewrite Ho. split; [done|eauto].
Qed.

(** The start of an operation; a deletion has no properties in progress. *)
Lemma flying_started o v ps k r m t :
  waiting o v -> (is_Some ps <-> o = Provisioning) -> instance_properties_ok ps ->
  flying o false (setServiceInstanceConditionInternal (si_upd (fun s =>
    with_OperationStartTime (Some (clock k)) (with_CurrentOperation (operation o) s)) (si_upd (with_InProgressProperties ps) v))
    ConditionReady ConditionFalse r m t).
Proof.
  intros [[] ? []] Hps Hok. split; try done; [split; try done|split|..]; cbn.
  - by destruct st_ours0.
  - unfold isServiceInstanceFailed. cbn. by rewrite has_failed_set_ready.
  - by apply set_condition_NoDup.
  - destruct o; auto.
  - eauto.
  - by apply never_ready_set_ready.
  - rewrite Hps. by destruct o.
  - done.
  - done.
  - by exists k.
Qed.

Lemma based_same t t' w : si_Meta t' = si_Meta t -> si_Spec t' = si_Spec t -> based t w -> based t' w.
Proof. intros Hm Hs (s & ? & ? & ?). exists s. by rewrite Hm, Hs. Qed.

Lemma based_saved w t : based (saved w t) (with_stored (Some (saved w t)) w).
Proof. by exists (saved w t). Qed.

Lemma store_flying o a t w :
  based t w -> flying o a t ->
  ends (updateServiceInstanceStatus t) w (Ok (saved w t)) (with_stored (Some (saved w t)) w).
Proof. intros Hb Hf. apply ends_UpdateStatus; [done|apply Hf|by eapply flying_storable]. Qed.

(** *** The parts of a pass *)

Lemma ends_setCondition t st r m w :
  ends (setServiceInstanceCondition t ConditionReady st r m) w
    (Ok (setServiceInstanceConditionInternal t ConditionReady st r m (clock (looks w)))) (look w).
Proof. eapply ends_bind; [by apply ends_call|apply ends_ret]. Qed.

Lemma ends_Event (i : ServiceInstance) ty r m (w : System) : ends (instance_Event i ty r m) w (Ok tt) w.
Proof. apply ends_emit. Qed.

Lemma ends_not_elapsed k w : ends (retryDurationElapsed (Some (clock k))) w (Ok false) (look w).
Proof.
  eapply ends_bind; [by apply ends_call|]. eapply ends_bind; [apply ends_ret|]. cbn.
  rewrite (proj2 (Z.ltb_lt _ _)) by apply Hwindow. apply ends_ret.
Qed.

Lemma ends_identity verb i t w : exists oi, ends (originatingIdentityFor verb i t) w (Ok oi) w.
Proof.
  unfold originatingIdentityFor. destruct OriginatingIdentityEnabled; [|exists None; apply ends_ret].
  destruct (buildOriginatingIdentity_ok (si_UserInfo (si_Spec i))) as [oi ->]. exists oi. apply ends_ret.
Qed.

Lemma ends_lookup v w : refs_to v -> ends (getServiceClassPlanAndClusterServiceBroker v) w (Ok resolved) w.
Proof.
  intros [Hc Hp]. unfold getServiceClassPlanAndClusterServiceBroker. rewrite Hc, Hp.
  eapply ends_bind; [apply ends_ret|].
  eapply ends_bind; [apply ends_try, ends_lister_get; cbn; by rewrite (ch_class_get _ _ _ _ _ _ _ _ Hcatalog)|].
  eapply ends_bind; [apply ends_ret|].
  eapply ends_bind; [apply ends_try, ends_lister_get; cbn; by rewrite (ch_plan_get _ _ _ _ _ _ _ _ Hcatalog)|].
  eapply ends_bind; [apply ends_try, ends_lister_get; cbn; by rewrite (ch_broker _ _ _ _ _ _ _ _ Hcatalog)|].
  eapply ends_bind; [apply ends_try, Hauth|].
  eapply ends_bind; [eapply ends_bind; [by apply ends_call|apply ends_ret]|]. apply ends_ret.
Qed.

Lemma ends_start o t ps w :
  based t w -> waiting o t -> (is_Some ps <-> o = Provisioning) -> instance_properties_ok ps ->
  exists t' w', ends (recordStartOfServiceInstanceOperation (si_upd (with_InProgressProperties ps) t) (operation o)) w (Ok t') w' /\
    flying o false t' /\ stored_instance w' = Some t' /\ broker w' = broker w.
Proof.
  intros Hb Hw Hps Hok. unfold recordStartOfServiceInstanceOperation.
  pose proof (fun r m => flying_started o t ps (looks w) r m (clock (looks (look w))) Hw Hps Hok) as Hf.
  destruct o; eexists _, _; (split; [|split]).
  1, 4: eapply ends_bind; [by apply ends_call|]; cbv beta iota zeta delta [operation];
    (eapply ends_bind; [apply ends_setCondition|]); eapply store_flying; [by apply (based_same t)|apply Hf].
  all: first [apply flying_saved, Hf | done].
Qed.

(** Resolving the references of a new instance. *)
Lemma ends_resolve v w :
  stored_instance w = Some v -> steady Provisioning v -> status_at_rest (si_Status v) ->
  ServiceClassRef (si_Spec v) = None -> ServicePlanRef (si_Spec v) = None ->
  exists t w', ends (resolveReferences v) w (Ok t) w' /\ waiting Provisioning t /\ stored_instance w' = Some t /\ broker w' = broker w.
Proof.
  intros Hs Hst Hr Hc Hp. pose proof (st_ours _ _ Hst) as Ho. unfold resolveReferences. rewrite Hc.
  set (t := si_with_Spec (with_ServicePlanRef (Some (reference_of (sp_TypeMeta sp) (sp_Meta sp)))
    (with_ServiceClassRef (Some (reference_of (sc_TypeMeta sc) (sc_Meta sc))) (si_Spec v))) v).
  assert (Ht : ours t) by by destruct Ho.
  exists (saved w t), (with_stored (Some (saved w t)) w). split; [|split; [|done]].
  - eapply ends_bind.
    { unfold resolveServiceClass. rewrite Hc. eapply ends_bind; [by apply ends_call|].
      rewrite (our_class _ Ho), (ch_class _ _ _ _ _ _ _ _ Hcatalog). apply ends_ret. }
    eapply ends_bind.
    { unfold resolveServicePlan. cbn. rewrite Hp. eapply ends_bind; [apply ends_ret|]. eapply ends_bind; [apply ends_ret|].
      eapply ends_bind; [by apply ends_call|]. rewrite (our_plan _ Ho). cbn.
      rewrite (ch_plan _ _ _ _ _ _ _ _ Hcatalog). apply ends_ret. }
    apply ends_api. cbn. unfold instance_update. rewrite Hs. fold t.
    assert (Hprep : PrepareForUpdate instanceReferenceUpdateStrategy {| ctx_Namespace := Namespace (si_Meta t); ctx_User := controller |} t v = t)
      by done.
    rewrite (storeUpdate_accepted _ _ _ _ _ (Finalizers (si_Meta v))); rewrite ?Hprep; try done.
    + by rewrite (our_finalizers _ Ho).
    + cbn. by destruct (si_Meta v).
    + by destruct Ho.
    + destruct Ho. by apply (ma_store _ _ _ Hmeta).
    + rewrite (our_owners _ Ho). apply Hmeta.
    + apply valid_instance; [done|]. destruct Hst as [_ _ _ _ Hrec [Hg _]]. split; cbn; [by left|rewrite Hrec, Hg; cbn; lia|].
      rewrite Hrec, Hg. cbn. lia.
  - split; [|done|done]. destruct Hst. split; try done. by apply ours_saved.
Qed.

(** *** Requests to the broker *)

(** What a provisioned instance looks like, until it is deleted. *)
Record ready (v : ServiceInstance) : Prop := {
  rd_ours : ours v;
  rd_orphan : OrphanMitigationInProgress (si_Status v) = false;
  rd_failed : isServiceInstanceFailed v = false;
  rd_unique : NoDup (cond_Type <$> Conditions (si_Status v));
  rd_reconciled : ReconciledGeneration (si_Status v) = 1;
  rd_lifetime : lifetime Provisioning (si_Meta v);
  rd_refs : refs_to v;
  rd_rest : status_at_rest (si_Status v);
  rd_ready : isServiceInstanceReady v = true }.

Definition finished (o : Operation) (w : System) : Prop :=
  match o with
  | Provisioning => exists v, stored_instance w = Some v /\ ready v
  | Deprovisioning => stored_instance w = None
  end.

Definition in_flight (o : Operation) (a : bool) (w : System) : Prop :=
  exists v, stored_instance w = Some v /\ flying o a v.

(** The request asks for the operation on this instance, of its class and plan. *)
Definition asks (o : Operation) (r : Request) : Prop :=
  match o, r with
  | Provisioning, RProvision req =>
      pr_InstanceID req = id /\ pr_ServiceID req = sc_ExternalID (sc_Spec sc) /\ pr_PlanID req = sp_ExternalID (sp_Spec sp)
  | Deprovisioning, RDeprovision req =>
      dr_InstanceID req = id /\ dr_ServiceID req = sc_ExternalID (sc_Spec sc) /\ dr_PlanID req = sp_ExternalID (sp_Spec sp)
  | _, _ => False
  end.

(** One request, and the phase its answer leads to. *)
Definition requested (o : Operation) (w w' : System) : Prop :=
  exists r res, asks o r /\ broker_accept o id (receive r (broker w)) = (res, broker w') /\
    match res with
    | inl true => in_flight o true w'
    | inl false => finished o w'
    | inr _ => in_flight o false w'
    end.

(** The status of a provisioning that is over. *)
Lemma flying_over a t now :
  flying Provisioning a t ->
  ready (setServiceInstanceConditionInternal
    (clearServiceInstanceCurrentOperation (si_upd (fun s => with_ExternalProperties (InProgressProperties s) s) t))
    ConditionReady ConditionTrue successProvisionReason successProvisionMessage now).
Proof.
  intros Hf. pose proof (fl_steady _ _ _ Hf) as [Ho _ Hfl Hu _ [Hg Hd]]. pose proof (fl_status _ _ _ Hf) as Hs. split; cbn; try done.
  - by destruct Ho.
  - unfold isServiceInstanceFailed. cbn. by rewrite has_failed_set_ready.
  - by apply set_condition_NoDup.
  - apply Hf.
  - by destruct Hs.
  - unfold isServiceInstanceReady. cbn. by rewrite first_ready_set_ready.
Qed.

Lemma ready_saved w v : ready v -> ready (saved w v).
Proof. intros []. split; try done. by apply ours_saved. Qed.

Lemma ready_storable v : ready v -> storable v.
Proof. intros [? ? ? ? Hr [Hg _] _ Hrest _]. split; [by left|rewrite Hr, Hg; cbn; lia|intros _; by destruct Hrest]. Qed.

Lemma ends_provisionError i t w err :
  based t w -> flying Provisioning false t -> transient err ->
  exists w', ends (handleProvisionError i t resolved err) w (Err err) w' /\ in_flight Provisioning false w' /\ broker w' = broker w.
Proof.
  intros Hb Hf [H1 H2]. destruct (fl_start _ _ _ Hf) as [k Hk]. unfold handleProvisionError. rewrite H1. cbv zeta. eexists. split.
  - eapply ends_bind; [apply ends_Event|]. rewrite H2. eapply ends_bind; [apply ends_setCondition|].
    eapply ends_bind; [cbn; rewrite Hk; apply ends_not_elapsed|]. cbv iota.
    eapply ends_bind; [|apply ends_fail]. eapply store_flying; [by apply (based_same t)|by apply flying_ready].
  - split; [|done]. eexists. split; [done|]. apply flying_saved; by apply flying_ready.
Qed.

Lemma ends_provisionResponse i t w a :
  based t w -> flying Provisioning false t ->
  exists w', ends (handleProvisionResponse i t {| presp_Async := a; presp_DashboardURL := None; presp_OperationKey := None |}) w (Ok tt) w' /\
    (if a then in_flight Provisioning true w' else finished Provisioning w') /\ broker w' = broker w.
Proof.
  intros Hb Hf. unfold handleProvisionResponse. cbn [presp_Async presp_DashboardURL presp_OperationKey nonempty]. destruct a.
  - eexists. split; [|split].
    + eapply ends_bind; [apply ends_setCondition|]. eapply ends_bind.
      { eapply store_flying; [by apply (based_same t)|]. eapply flying_ready; [eapply flying_async; exact Hf|done]. }
      eapply ends_bind; [apply ends_emit|apply ends_Event].
    + eexists. split; [done|]. eapply flying_saved, flying_ready; [eapply flying_async; exact Hf|done].
    + done.
  - pose proof (flying_over _ _ (clock (looks w)) Hf) as Hr. eexists. split; [|split].
    + eapply ends_bind; [apply ends_setCondition|]. eapply ends_bind; [|apply ends_Event].
      apply ends_UpdateStatus; [by apply (based_same t)|apply Hr|by apply ready_storable].
    + eexists. split; [done|]. by apply ready_saved.
    + done.
Qed.

Lemma provision_step i t w :
  ours i -> stored_instance w = Some t -> waiting Provisioning t \/ flying Provisioning false t ->
  Forall transient (failures (provisioning (broker w))) ->
  exists o w', ends (provisionServiceInstance i t resolved) w o w' /\ requested Provisioning w w'.
Proof.
  intros Hi Hst Hph Htr.
  destruct (ends_prepareParameters i) with (t := t) (w := w) as (p & c & raw & Hprep & Hok).
  { rewrite (our_namespace _ Hi), (our_from _ Hi), (our_params _ Hi). exact Hparams. }
  set (ps := {| ps_ExternalServicePlanName := sp_ExternalName (sp_Spec sp); ps_Parameters := raw;
    ps_ParametersChecksum := c; ps_UserInfo := si_UserInfo (si_Spec i) |}).
  destruct (ends_identity "provisioning" i (si_upd (with_InProgressProperties (Some ps)) t) w) as [oi Hoi].
  assert (Hrec : exists t' w', ends (if decide (CurrentOperation (si_Status (si_upd (with_InProgressProperties (Some ps)) t)) = OperationNone)
      then recordStartOfServiceInstanceOperation (si_upd (with_InProgressProperties (Some ps)) t) OperationProvision
      else ret (si_upd (with_InProgressProperties (Some ps)) t)) w (Ok t') w' /\
    flying Provisioning false t' /\ based t' w' /\ broker w' = broker w).
  { destruct Hph as [Hw|Hf].
    - rewrite decide_True by (cbn; by destruct Hw as [_ _ []]).
      destruct (ends_start Provisioning t (Some ps) w) as (t' & w' & He & Hf & Hs & Hb); [by exists t|done|naive_solver|done|].
      exists t', w'. split_and!; try done. by exists t'.
    - rewrite decide_False by (cbn; by rewrite (fl_operation _ _ _ Hf)).
      eexists _, w. split; [apply ends_ret|]. split; [by apply flying_properties|]. split; [|done]. by exists t. }
  destruct Hrec as (t' & w1 & Hrec & Hf & Hb & Hbr).
  set (req := {| pr_InstanceID := ExternalID (si_Spec i); pr_AcceptsIncomplete := true; pr_ServiceID := sc_ExternalID (sc_Spec sc);
    pr_PlanID := sp_ExternalID (sp_Spec sp); pr_OrganizationGUID := namespaceUID (Namespace (si_Meta i));
    pr_SpaceGUID := namespaceUID (Namespace (si_Meta i)); pr_Parameters := p;
    pr_Context := <["namespace" := JString (Namespace (si_Meta i))]> (<["platform" := JString ContextProfilePlatformKubernetes]> ∅);
    pr_OriginatingIdentity := oi |}).
  assert (Hask : asks Provisioning (RProvision req)) by (split_and!; [apply Hi|done|done]).
  destruct (broker_accept Provisioning id (receive (RProvision req) (broker w))) as [res br] eqn:Hacc.
  assert (Hcall : env_ProvisionInstance (brokerClient resolved) req w1 =
    (match res with inl a => inl {| presp_Async := a; presp_DashboardURL := None; presp_OperationKey := None |} | inr e => inr e end,
     with_broker br w1)).
  { cbn. unfold broker_provision. cbn [req pr_InstanceID]. rewrite Hbr, (our_id _ Hi), Hacc. by destruct res. }
  assert (Hb' : based t' (with_broker br w1)) by exact Hb.
  assert (Hend : exists o w', ends (match res with
      | inl a => handleProvisionResponse i t' {| presp_Async := a; presp_DashboardURL := None; presp_OperationKey := None |}
      | inr e => handleProvisionError i t' resolved e end) (with_broker br w1) o w' /\
    match res with inl true => in_flight Provisioning true w' | inl false => finished Provisioning w' | inr _ => in_flight Provisioning false w' end
    /\ broker w' = br).
  { destruct res as [a|e].
    - destruct (ends_provisionResponse i t' _ a Hb' Hf) as (w' & He & Hph' & Hbr'). exists (Ok tt), w'. by destruct a.
    - destruct (ends_provisionError i t' _ e Hb' Hf) as (w' & He & Hph' & Hbr'); [|by exists (Err e), w'].
      revert Htr Hacc. unfold broker_accept. cbn. destruct (failures _) as [|e' es]; [by destruct (async _)|].
      intros [H _]%list.Forall_cons [= <- _]. done. }
  destruct Hend as (o & w' & Hend & Hph' & Hbr'). exists o, w'. split.
  - unfold provisionServiceInstance. eapply ends_bind; [by apply ends_try, ends_read|]. eapply ends_bind; [exact Hprep|].
    eapply ends_bind; [exact Hoi|]. eapply ends_bind; [exact Hrec|]. destruct res as [a|e].
    + eapply ends_bind; [apply ends_try, ends_api, Hcall|exact Hend].
    + eapply ends_bind; [apply ends_try_err, ends_api_err, Hcall|exact Hend].
  - exists (RProvision req), res. rewrite Hacc, Hbr'. by destruct res as [[]|].
Qed.

(** *** Deprovisioning and polling *)

(** The last write of a deletion: without the finalizer the store removes the object. *)
Lemma ends_removal t w fs :
  based t w -> ours t -> lifetime Deprovisioning (si_Meta t) -> fs = [] -> storable t ->
  ends (updateServiceInstanceStatus (si_with_Finalizers fs t)) w (Ok (si_with_Finalizers [] t)) (with_stored None w).
Proof.
  intros (s & Hs & Hm & Hsp) Ho [_ Hd] -> Hst. apply ends_api. cbn. unfold instance_update. rewrite Hs.
  set (t' := si_with_Finalizers [] t).
  assert (Hprep : PrepareForUpdate instanceStatusUpdateStrategy {| ctx_Namespace := Namespace (si_Meta t'); ctx_User := controller |} t' s = t').
  { cbn. unfold instanceStatusPrepareForUpdate. rewrite <- Hsp. by destruct t. }
  rewrite (storeUpdate_accepted _ _ _ _ _ []); rewrite ?Hprep, <- ?Hm; try done.
  - cbn. rewrite bool_decide_eq_false_2; [done|]. intros H. by apply Hd in H.
  - apply list_subseteq_nil.
  - by destruct Ho.
  - destruct Ho. by apply (ma_store _ _ _ Hmeta).
  - rewrite (our_owners _ Ho). apply Hmeta.
  - pose proof (valid_instance _ Ho Hst) as Hv. revert Hv. cbn. unfold ValidateServiceInstanceStatusUpdate,
      internalValidateServiceInstance, validateServiceInstanceUpdate. rewrite !app_nil_iff. intros (_ & Hv).
    split; [destruct Ho; by apply (ma_object _ _ _ Hmeta)|exact Hv].
Qed.

Lemma finalizers_cleared v : ours v -> set_Delete FinalizerServiceCatalog (NewString (Finalizers (si_Meta v))) = [].
Proof. intros H. by rewrite (our_finalizers _ H). Qed.

(** What is left of the status when a deprovisioning is over. *)
Definition closed (t : ServiceInstance) (k : Z) : ServiceInstance :=
  setServiceInstanceConditionInternal (si_upd (with_ExternalProperties None) (clearServiceInstanceCurrentOperation t))
    ConditionReady ConditionFalse successDeprovisionReason successDeprovisionMessage k.

Lemma flying_closed a t k : flying Deprovisioning a t -> ours (closed t k) /\ storable (closed t k).
Proof.
  intros [[[]] ? [] ? ? ?]. split; [by split|]. split; cbn; [by left|lia|done].
Qed.

Lemma flying_deleting a t : flying Deprovisioning a t -> exists d, DeletionTimestamp (si_Meta t) = Some d.
Proof.
  intros [[_ _ _ _ _ [_ Hd]] _ _ _ _ _]. destruct (DeletionTimestamp (si_Meta t)) as [d|]; [by exists d|].
  discriminate (proj1 Hd eq_refl).
Qed.

Lemma ends_deprovisionError i t w err :
  based t w -> flying Deprovisioning false t -> IsHTTPError err = None ->
  exists w', ends (handleDeprovisionError i t resolved err) w (Err err) w' /\ in_flight Deprovisioning false w' /\ broker w' = broker w.
Proof.
  intros Hb Hf H1. destruct (fl_start _ _ _ Hf) as [k Hk]. unfold handleDeprovisionError. rewrite H1. cbv zeta. eexists. split.
  - eapply ends_bind; [apply ends_Event|]. eapply ends_bind; [apply ends_setCondition|].
    eapply ends_bind; [cbn; rewrite Hk; apply ends_not_elapsed|]. cbv iota.
    eapply ends_bind; [|apply ends_fail]. eapply store_flying; [by apply (based_same t)|by apply flying_ready].
  - split; [|done]. eexists. split; [done|]. apply flying_saved. by apply flying_ready.
Qed.

Lemma ends_deprovisionResponse i t w a :
  ours i -> (exists d, DeletionTimestamp (si_Meta i) = Some d) -> based t w -> flying Deprovisioning false t ->
  exists w', ends (handleDeprovisionResponse i t {| dresp_Async := a; dresp_OperationKey := None |}) w (Ok tt) w' /\
    (if a then in_flight Deprovisioning true w' else finished Deprovisioning w') /\ broker w' = broker w.
Proof.
  intros Hi [d Hd] Hb Hf. unfold handleDeprovisionResponse. cbn [dresp_Async dresp_OperationKey nonempty]. destruct a.
  - eexists. split; [|split].
    + eapply ends_bind; [apply ends_setCondition|]. eapply ends_bind.
      { eapply store_flying; [by apply (based_same t)|]. eapply flying_ready; [eapply flying_async; exact Hf|done]. }
      eapply ends_bind; [apply ends_emit|apply ends_Event].
    + eexists. split; [done|]. eapply flying_saved, flying_ready; [eapply flying_async; exact Hf|done].
    + done.
  - rewrite Hd. destruct (flying_closed _ _ (clock (looks w)) Hf) as [Ho Hs]. eexists. split; [|split].
    + eapply ends_bind; [apply ends_setCondition|]. fold (closed t (clock (looks w))). cbv zeta. eapply ends_bind; [|apply ends_Event].
      apply ends_removal; [by apply (based_same t)|done| |by apply finalizers_cleared|done].
      apply (st_lifetime _ _ (fl_steady _ _ _ Hf)).
    + done.
    + done.
Qed.

Lemma deprovision_step t w :
  stored_instance w = Some t -> waiting Deprovisioning t \/ flying Deprovisioning false t ->
  Forall transient (failures (deprovisioning (broker w))) ->
  exists o w', ends (deprovisionServiceInstance t resolved) w o w' /\ requested Deprovisioning w w'.
Proof.
  intros Hst Hph Htr.
  assert (Hsteady : steady Deprovisioning t) by by destruct Hph as [[]|[]].
  pose proof (st_ours _ _ Hsteady) as Hi.
  destruct (ends_identity "deprovisioning" t t w) as [oi Hoi].
  assert (Hrec : exists t' w', ends (if decide (CurrentOperation (si_Status t) = OperationNone)
      then recordStartOfServiceInstanceOperation t OperationDeprovision else ret t) w (Ok t') w' /\
    flying Deprovisioning false t' /\ based t' w' /\ broker w' = broker w).
  { destruct Hph as [Hw|Hf].
    - rewrite decide_True by (by destruct Hw as [_ _ []]).
      destruct (ends_start Deprovisioning t None w) as (t' & w' & He & Hf & Hs & Hb);
        [by exists t|done|split; [by intros [? ?]|done]|done|].
      assert (Ht : si_upd (with_InProgressProperties None) t = t).
      { destruct Hw as [_ _ [_ _ _ _ Hn _]]. destruct t as [? ? ? []]. cbn in Hn. by subst. }
      rewrite Ht in He. exists t', w'. split_and!; try done. by exists t'.
    - rewrite decide_False by (by rewrite (fl_operation _ _ _ Hf)).
      exists t, w. split; [apply ends_ret|]. split; [done|]. split; [by exists t|done]. }
  destruct Hrec as (t' & w1 & Hrec & Hf & Hb & Hbr).
  set (req := {| dr_InstanceID := ExternalID (si_Spec t); dr_AcceptsIncomplete := true; dr_ServiceID := sc_ExternalID (sc_Spec sc);
    dr_PlanID := sp_ExternalID (sp_Spec sp); dr_OriginatingIdentity := oi |}).
  assert (Hask : asks Deprovisioning (RDeprovision req)) by (split_and!; [apply Hi|done|done]).
  destruct (broker_accept Deprovisioning id (receive (RDeprovision req) (broker w))) as [res br] eqn:Hacc.
  assert (Hcall : env_DeprovisionInstance (brokerClient resolved) req w1 =
    (match res with inl a => inl {| dresp_Async := a; dresp_OperationKey := None |} | inr e => inr e end, with_broker br w1)).
  { cbn. unfold broker_deprovision. cbn [req dr_InstanceID]. rewrite Hbr, (our_id _ Hi), Hacc. by destruct res. }
  assert (Hb' : based t' (with_broker br w1)) by exact Hb.
  assert (Hdel : exists d, DeletionTimestamp (si_Meta t) = Some d).
  { destruct (DeletionTimestamp (si_Meta t)) as [d|] eqn:Hd; [by exists d|].
    destruct (st_lifetime _ _ Hsteady) as [_ Hl]. discriminate (proj1 Hl Hd). }
  assert (Hend : exists o w', ends (match res with
      | inl a => handleDeprovisionResponse t t' {| dresp_Async := a; dresp_OperationKey := None |}
      | inr e => handleDeprovisionError t t' resolved e end) (with_broker br w1) o w' /\
    match res with inl true => in_flight Deprovisioning true w' | inl false => finished Deprovisioning w' | inr _ => in_flight Deprovisioning false w' end
    /\ broker w' = br).
  { destruct res as [a|e].
    - destruct (ends_deprovisionResponse t t' _ a Hi Hdel Hb' Hf) as (w' & He & Hph' & Hbr'). exists (Ok tt), w'. by destruct a.
    - destruct (ends_deprovisionError t t' _ e Hb' Hf) as (w' & He & Hph' & Hbr'); [|by exists (Err e), w'].
      revert Htr Hacc. unfold broker_accept. cbn. destruct (failures _) as [|e' es]; [by destruct (async _)|].
      intros [[H _] _]%list.Forall_cons [= <- _]. done. }
  destruct Hend as (o & w' & Hend & Hph' & Hbr'). exists o, w'. split.
  - unfold deprovisionServiceInstance. rewrite (st_orphan _ _ Hsteady). eapply ends_bind; [exact Hoi|].
    eapply ends_bind; [apply ends_ret|]. eapply ends_bind; [exact Hrec|]. destruct res as [a|e].
    + eapply ends_bind; [apply ends_try, ends_api, Hcall|exact Hend].
    + eapply ends_bind; [apply ends_try_err, ends_api_err, Hcall|exact Hend].
  - exists (RDeprovision req), res. rewrite Hacc, Hbr'. by destruct res as [[]|].
Qed.

(** One poll of the operation under way, and the phase its answer leads to. *)
Definition polled (o : Operation) (w w' : System) : Prop :=
  exists req, lo_InstanceID req = id /\ broker w' = snd (broker_poll req (broker w)) /\
    match polls (script o (broker w)) with [] => finished o w' | _ => in_flight o true w' end.

Lemma flying_pollDeleting o a v : flying o a v -> pollDeleting v = match o with Provisioning => false | Deprovisioning => true end.
Proof. intros [[] _ _ Ho _ _]. unfold pollDeleting. rewrite Ho, st_orphan0. by destruct o. Qed.

Lemma ends_pollError o v w e :
  stored_instance w = Some v -> flying o true v -> IsGoneError e = false ->
  exists w', ends (handlePollError v e) w (Ok tt) w' /\ in_flight o true w' /\ broker w' = broker w.
Proof.
  intros Hs Hf He. destruct (fl_start _ _ _ Hf) as [k Hk]. unfold handlePollError. rewrite He. cbn [andb].
  eexists. split; [|split].
  - eapply ends_bind; [apply ends_Event|]. eapply ends_bind; [rewrite Hk; apply ends_not_elapsed|]. apply ends_emit.
  - by exists v.
  - done.
Qed.

Lemma ends_inProgress o v w d :
  stored_instance w = Some v -> flying o true v ->
  exists w', ends (handleStateInProgress v {| lresp_State := StateInProgress; lresp_Description := d |}) w (Ok tt) w' /\
    in_flight o true w' /\ broker w' = broker w.
Proof.
  intros Hs Hf. destruct (fl_start _ _ _ Hf) as [k Hk]. unfold handleStateInProgress. rewrite Hk. cbn [lresp_Description].
  destruct d as [d|].
  - destruct (if pollDeleting v then _ else _) as [reason message].
    pose proof (fun r m t => flying_ready o true _ ConditionFalse r m t (flying_async _ _ _ Hf) ltac:(done)) as Hf'.
    eexists. split; [|split].
    + eapply ends_bind; [eapply ends_bind; [apply ends_setCondition|apply ends_ret]|].
      eapply ends_bind; [apply ends_not_elapsed|]. cbv iota.
      eapply ends_bind; [eapply ends_bind; [eapply store_flying; [by exists v|apply Hf']|apply ends_ret]|]. apply ends_emit.
    + eexists. split; [done|]. apply flying_saved, Hf'.
    + done.
  - eexists. split; [|split].
    + eapply ends_bind; [apply ends_ret|]. eapply ends_bind; [apply ends_not_elapsed|]. cbv iota.
      eapply ends_bind; [apply ends_ret|]. apply ends_emit.
    + by exists v.
    + done.
Qed.

Lemma ends_succeeded o v w :
  stored_instance w = Some v -> flying o true v ->
  exists w', ends (handleStateSucceeded v) w (Ok tt) w' /\ finished o w' /\ broker w' = broker w.
Proof.
  intros Hs Hf. unfold handleStateSucceeded. rewrite (flying_pollDeleting _ _ _ Hf). destruct o.
  - pose proof (flying_over _ _ (clock (looks w)) Hf) as Hr. eexists. split; [|split].
    + eapply ends_bind; [apply ends_setCondition|]. eapply ends_bind; [|apply ends_emit].
      apply ends_UpdateStatus; [by exists v|apply Hr|by apply ready_storable].
    + eexists. split; [done|]. by apply ready_saved.
    + done.
  - pose proof (fl_steady _ _ _ Hf) as Hst. pose proof (st_ours _ _ Hst) as Ho.
    destruct (flying_closed _ _ (clock (looks w)) Hf) as [Hco Hcs].
    assert (Hsame : si_upd (fun s => with_ExternalProperties (InProgressProperties s) s) v = si_upd (with_ExternalProperties None) v).
    { assert (Hn : InProgressProperties (si_Status v) = None).
      { destruct (InProgressProperties (si_Status v)) as [ps|] eqn:Hps; [|done].
        destruct (op_inprogress _ (fl_status _ _ _ Hf)) as [Hi _]. rewrite Hps, (fl_operation _ _ _ Hf) in Hi. by destruct Hi. }
      unfold si_upd. by rewrite Hn. }
    rewrite Hsame. eexists. split; [|split].
    + eapply ends_bind; [apply ends_setCondition|].
      unfold clearFinalizer. rewrite (st_orphan _ _ Hst). cbv zeta. cbn [negb].
      assert (Hfin : Finalizers (si_Meta v) = [FinalizerServiceCatalog]) by apply Ho.
      cbn [si_Meta setServiceInstanceConditionInternal si_upd si_with_Status clearServiceInstanceCurrentOperation].
      rewrite Hfin. change (set_Has (NewString [FinalizerServiceCatalog]) FinalizerServiceCatalog) with true. cbv iota.
      eapply ends_bind; [|eapply ends_bind; [apply ends_Event|apply ends_emit]].
      apply (ends_removal (closed v (clock (looks w)))); [by exists v|done|by apply Hst|by vm_compute|done].
    + done.
    + done.
Qed.

Lemma poll_step o v w :
  stored_instance w = Some v -> flying o true v -> pending (broker w) = Some (o, id) ->
  Forall (fun p => forall e, p = inl e -> IsGoneError e = false) (polls (script o (broker w))) ->
  exists w', ends (pollServiceInstance v resolved) w (Ok tt) w' /\ polled o w w'.
Proof.
  intros Hs Hf Hp Hpolls. destruct (fl_start _ _ _ Hf) as [k Hk]. unfold pollServiceInstance. rewrite Hk.
  destruct (ends_identity "polling last operation of" v v w) as [oi Hoi].
  set (req := {| lo_InstanceID := ExternalID (si_Spec v); lo_ServiceID := Some (sc_ExternalID (sc_Spec sc));
    lo_PlanID := Some (sp_ExternalID (sp_Spec sp)); lo_OperationKey := nonempty (LastOperation (si_Status v));
    lo_OriginatingIdentity := oi |}).
  assert (Hreq : lo_InstanceID req = id) by apply Hf.
  destruct (broker_poll req (broker w)) as [res br] eqn:Hpoll.
  assert (Hcall : env_PollLastOperation (brokerClient resolved) req w = (res, with_broker br w)) by (cbn; by rewrite Hpoll).
  set (w1 := with_broker br w) in *. assert (Hs1 : stored_instance w1 = Some v) by exact Hs.
  assert (Hend : exists w', ends (match res with
      | inr err => handlePollError v err
      | inl response => match lresp_State response with
                        | StateInProgress => handleStateInProgress v response
                        | StateSucceeded => handleStateSucceeded v
                        | StateFailed => handleStateFailed v resolved response
                        | st => handleStateOther v st
                        end
      end) w1 (Ok tt) w' /\
    match polls (script o (broker w)) with [] => finished o w' | _ => in_flight o true w' end /\ broker w' = br).
  { assert (Hb1 : br = broker w1) by done. rewrite Hb1. clearbody w1. revert Hpoll Hpolls. unfold broker_poll. cbn [pending receive].
    rewrite Hp. destruct o; cbn [script receive provisioning deprovisioning]; destruct (polls _) as [|[e|d] l]; intros [= <- <-].
    1, 4: intros _; apply (ends_succeeded _ v); done.
    1, 3: intros [He _]%list.Forall_cons; eapply ends_pollError; eauto.
    all: intros _; eapply ends_inProgress; eauto. }
  destruct Hend as (w' & Hend & Hph & Hbr). exists w'. split.
  - eapply ends_bind; [exact Hoi|]. destruct res as [r|e].
    + eapply ends_bind; [apply ends_try, ends_api, Hcall|exact Hend].
    + eapply ends_bind; [apply ends_try_err, ends_api_err, Hcall|exact Hend].
  - exists req. by rewrite Hpoll, Hbr.
Qed.

(** *** A pass of the worker *)

Lemma sync_reconcile v w o w' :
  stored_instance w = Some v -> ours v -> ends (reconcileServiceInstance v) w o w' ->
  sync clock classes plans brokers secrets namespaceUID controller key w = w'.
Proof.
  intros Hs Ho Hr. eapply ends_world. unfold reconcileServiceInstanceKey. rewrite Hkey.
  eapply ends_bind; [apply ends_ret|]. apply (ends_bind _ _ _ (inl v) w); [|exact Hr].
  apply ends_try, ends_lister_get. cbn. unfold keyed. rewrite Hs, (our_namespace _ Ho), (our_name _ Ho).
  by rewrite !bool_decide_eq_true_2.
Qed.
Local Notation pass := (sync clock classes plans brokers secrets namespaceUID controller key).

(** The version from which an operation is requested: new, waiting or being tried. *)
Definition pre_flight (o : Operation) (w : System) : Prop :=
  exists v, stored_instance w = Some v /\
    (waiting o v \/ flying o false v \/
     o = Provisioning /\ steady o v /\ status_at_rest (si_Status v) /\
     ServiceClassRef (si_Spec v) = None /\ ServicePlanRef (si_Spec v) = None).

Lemma pass_requests o w :
  pre_flight o w -> Forall transient (failures (script o (broker w))) -> requested o w (pass w).
Proof.
  intros (v & Hs & Hv) Htr.
  assert (Hst : steady o v) by by destruct Hv as [[]|[[]|(_ & ? & _)]].
  assert (Ha : AsyncOpInProgress (si_Status v) = false) by by destruct Hv as [[_ _ []]|[[]|(_ & _ & [] & _)]].
  pose proof (st_lifetime _ _ Hst) as [Hg Hd].
  destruct o.
  - assert (Hpre : exists t w1, ends (resolveReferences v) w (Ok t) w1 /\ stored_instance w1 = Some t /\
      (waiting Provisioning t \/ flying Provisioning false t) /\ broker w1 = broker w).
    { destruct Hv as [Hv|[Hv|(_ & _ & Hr & Hc & Hp)]].
      1, 2: exists v, w; (split; [|by auto]); unfold resolveReferences; destruct Hv as [_ [-> ->] _]; apply ends_ret.
      destruct (ends_resolve v w Hs Hst Hr Hc Hp) as (t & w1 & He & Hw & Hs1 & Hb). exists t, w1. auto. }
    destruct Hpre as (t & w1 & Hres & Hs1 & Ht & Hb).
    assert (Hrefs : refs_to t) by by destruct Ht as [[]|[]].
    destruct (provision_step v t w1) as (o & w' & Hend & (r & res & Hask & Hacc & Hph)); [apply Hst|done..|by rewrite Hb|].
    rewrite (sync_reconcile v w o w'); [|done|apply Hst|].
    + exists r, res. by rewrite <- Hb.
    + unfold reconcileServiceInstance. rewrite Ha, (st_orphan _ _ Hst), bool_decide_eq_true_2 by by apply Hd. cbn [negb orb].
      rewrite (st_failed _ _ Hst), (st_reconciled _ _ Hst), Hg. cbn [Z.eqb done_before Z.add].
      eapply ends_bind; [exact Hres|]. eapply ends_bind; [by apply ends_lookup|exact Hend].
  - assert (Hv' : waiting Deprovisioning v \/ flying Deprovisioning false v) by (destruct Hv as [?|[?|[? _]]]; [by left|by right|done]).
    assert (Hrefs : refs_to v) by by destruct Hv' as [[]|[]].
    destruct (deprovision_step v w Hs Hv' Htr) as (o & w' & Hend & Hreq).
    rewrite (sync_reconcile v w o w'); [done|done|apply Hst|].
    assert (Hn : DeletionTimestamp (si_Meta v) <> None) by (intros H; discriminate (proj1 Hd H)).
    unfold reconcileServiceInstance. rewrite Ha, bool_decide_eq_false_2 by done. cbn [negb orb].
    unfold reconcileServiceInstanceDelete. rewrite bool_decide_eq_false_2 by done. cbn [andb].
    eapply ends_bind; [by apply ends_read|]. cbn [existsb]. cbv zeta. rewrite (our_finalizers _ (st_ours _ _ Hst)).
    change (set_Has (NewString [FinalizerServiceCatalog]) FinalizerServiceCatalog) with true. cbn [negb].
    rewrite Ha, (st_orphan _ _ Hst), (st_failed _ _ Hst), (st_reconciled _ _ Hst). cbn [negb andb orb Z.eqb done_before].
    eapply ends_bind; [by apply ends_lookup|exact Hend].
Qed.

Lemma pass_polls o w :
  in_flight o true w -> pending (broker w) = Some (o, id) ->
  Forall (fun p => forall e, p = inl e -> IsGoneError e = false) (polls (script o (broker w))) -> polled o w (pass w).
Proof.
  intros (v & Hs & Hf) Hp Hpolls. destruct (poll_step o v w Hs Hf Hp Hpolls) as (w' & Hend & Hpoll).
  rewrite (sync_reconcile v w (Ok tt) w'); [done|done|apply Hf|].
  unfold reconcileServiceInstance. rewrite (fl_async _ _ _ Hf). unfold pollServiceInstanceInternal.
  eapply ends_bind; [apply ends_lookup, Hf|exact Hend].
Qed.

(** *** Until the operation is over *)

Definition other (o : Operation) : Operation := match o with Provisioning => Deprovisioning | Deprovisioning => Provisioning end.
Definition carried (o : Operation) (h : gset string) : gset string :=
  match o with Provisioning => {[ id ]} ∪ h | Deprovisioning => h ∖ {[ id ]} end.
Definition about (o : Operation) (r : Request) : Prop :=
  asks o r \/ exists req, r = RPoll req /\ lo_InstanceID req = id.

(** The operation was carried out, once, and every request on the way was about it. *)
Record settles (o : Operation) (w w' : System) : Prop := {
  se_finished : finished o w';
  se_held : held (broker w') = carried o (held (broker w));
  se_other : script (other o) (broker w') = script (other o) (broker w);
  se_requests : exists rs, received (broker w') = received (broker w) ++ rs /\ Forall (about o) rs }.

Local Notation run n := (syncs clock classes plans brokers secrets namespaceUID controller n key).

Lemma settles_after o w w1 w' rs :
  held (broker w1) = held (broker w) -> script (other o) (broker w1) = script (other o) (broker w) ->
  received (broker w1) = received (broker w) ++ rs -> Forall (about o) rs -> settles o w1 w' -> settles o w w'.
Proof.
  intros Hh Ho Hr Hrs [Hf Hh' Ho' (rs' & Hr' & Hrs')]. split; [done|by rewrite Hh', Hh|by rewrite Ho', Ho|].
  exists (rs ++ rs'). split; [by rewrite Hr', Hr, app_assoc|by apply Forall_app].
Qed.

(** Polls until the operation is done. *)
Lemma polls_settle o l : forall w,
  in_flight o true w -> pending (broker w) = Some (o, id) -> polls (script o (broker w)) = l ->
  Forall (fun p => forall e, p = inl e -> IsGoneError e = false) l -> settles o w (run (S (length l)) w).
Proof.
  induction l as [|p l IH]; intros w Hf Hp Hl Hok.
  all: destruct (pass_polls o w Hf Hp) as (req & Hid & Hb & Hph); [by rewrite Hl|]; rewrite Hl in Hph.
  all: assert (Ha : about o (RPoll req)) by (right; by exists req).
  - cbn [length syncs]. revert Hb. unfold broker_poll. cbn [pending receive]. rewrite Hp.
    destruct o; cbn [script receive provisioning deprovisioning] in *; rewrite Hl; cbn; intros Hb.
    all: split; [done|by rewrite Hb|by rewrite Hb|exists [RPoll req]; rewrite Hb; split; [done|by apply list.Forall_singleton]].
  - change (run (S (length (p :: l))) w) with (run (S (length l)) (pass w)). apply list.Forall_cons in Hok as [_ Hok].
    revert Hb. unfold broker_poll. cbn [pending receive]. rewrite Hp.
    destruct o; cbn [script receive provisioning deprovisioning] in *; rewrite Hl; destruct p; cbn; intros Hb.
    all: eapply (settles_after _ _ (pass w) _ [RPoll req]); rewrite ?Hb; try done; [by apply list.Forall_singleton|].
    all: apply IH; rewrite ?Hb; done.
Qed.

Definition passes (s : Script) : nat :=
  length (failures s) + S (if async s then S (length (polls s)) else 0).

(** Calls until one is accepted, and then polls if need be. *)
Lemma requests_settle o l : forall w,
  pre_flight o w -> failures (script o (broker w)) = l -> temporary (script o (broker w)) ->
  settles o w (run (passes (script o (broker w))) w).
Proof.
  induction l as [|e l IH]; intros w Hpre Hl [Htr Hok].
  all: destruct (pass_requests o w Hpre Htr) as (r & res & Hask & Hacc & Hph).
  all: assert (Ha : Forall (about o) [r]) by (apply list.Forall_singleton; by left).
  all: unfold passes; rewrite Hl; revert Hacc; unfold broker_accept.
  - cbn [length Nat.add syncs].
    destruct o; cbn [script receive provisioning deprovisioning] in *; rewrite Hl; destruct (async _); cbn [syncs]; intros [= <- Hb].
    1, 3: eapply (settles_after _ _ (pass w) _ [r]); rewrite <- ?Hb; try done; apply polls_settle; rewrite <- ?Hb; done.
    all: split; [done|by rewrite <- Hb|by rewrite <- Hb|exists [r]; by rewrite <- Hb].
  - cbn [length Nat.add syncs]. assert (Hpre' : in_flight o false (pass w) -> pre_flight o (pass w)).
    { intros (v & Hv & Hf). exists v. auto. }
    destruct o; cbn [script receive provisioning deprovisioning] in *; rewrite Hl; intros [= <- Hb].
    all: rewrite Hl in Htr; apply list.Forall_cons in Htr as [_ Htr].
    all: specialize (IH (pass w) (Hpre' Hph)); rewrite <- Hb in IH; cbn [script with_script provisioning deprovisioning] in IH.
    all: eapply (settles_after _ _ (pass w) _ [r]); rewrite <- ?Hb; try done; apply IH; done.
Qed.

(** *** The user's requests, and what stays as it is *)

(** What creation stores. *)
Lemma created_version ctx uid obj w v w' :
  request_create ctx uid obj w = (inl v, w') ->
  stored_instance w' = Some v /\ broker w' = broker w /\
  Generation (si_Meta v) = 1 /\ DeletionTimestamp (si_Meta v) = None /\ ResourceVersion (si_Meta v) <> "" /\
  Finalizers (si_Meta v) = [FinalizerServiceCatalog] /\ si_Status v = emptyInstanceStatus /\
  ServiceClassRef (si_Spec v) = None /\ ServicePlanRef (si_Spec v) = None /\ validateServiceInstanceSpec (si_Spec v) "spec" = [].
Proof.
  unfold request_create, storeCreate, BeforeCreate. cbn [NamespaceScoped instanceCreateStrategy].
  destruct (scopedTo true ctx obj) as [o1|]; [|done]. cbv zeta. cbn [Validate PrepareForCreate instanceCreateStrategy].
  set (o2 := modify (with_UID uid) _). destruct (ValidateServiceInstance o2 ++ _) eqn:Hv; [|done].
  apply app_nil_iff in Hv as [Hv _]. unfold ValidateServiceInstance, internalValidateServiceInstance in Hv. rewrite !app_nil_iff in Hv.
  destruct Hv as (_ & Hv & _). destruct (stored_instance w); [done|]. cbn [written]. intros [= <- <-].
  assert (Ho : Generation (si_Meta o2) = 1 /\ DeletionTimestamp (si_Meta o2) = None /\ Finalizers (si_Meta o2) = [FinalizerServiceCatalog] /\
    si_Status o2 = emptyInstanceStatus /\ ServiceClassRef (si_Spec o2) = None /\ ServicePlanRef (si_Spec o2) = None).
  { subst o2. unfold instancePrepareForCreate. by destruct OriginatingIdentityEnabled. }
  destruct Ho as (H1 & H2 & H3 & H4 & H5 & H6). split_and!; try done. apply next_nonempty.
Qed.

(** A delete request for a provisioned instance marks it; nothing else changes but the user. *)
Lemma deleted_version ctx v w r w' :
  stored_instance w = Some v -> ready v -> request_delete clock ctx w = (r, w') ->
  pre_flight Deprovisioning w' /\ broker w' = broker w.
Proof.
  intros Hs Hr. unfold request_delete, storeDelete. rewrite Hs. unfold BeforeDelete, instanceDeleteStrategy. cbn [metaOf ServiceInstance_Object].
  destruct Hr as [[] ? ? ? ? [Hg Hd] [] [] ?]. assert (Hdt : DeletionTimestamp (si_Meta v) = None) by by apply Hd.
  rewrite bool_decide_eq_true_2 by done. set (v1 := instanceCheckGracefulDelete ctx v).
  assert (Hm : si_Meta v1 = si_Meta v) by (unfold v1, instanceCheckGracefulDelete; by destruct OriginatingIdentityEnabled).
  assert (Hst : si_Status v1 = si_Status v) by (unfold v1, instanceCheckGracefulDelete; by destruct OriginatingIdentityEnabled).
  assert (Hsp : exists u, si_Spec v1 = with_si_UserInfo u (si_Spec v)).
  { unfold v1, instanceCheckGracefulDelete. destruct OriginatingIdentityEnabled; [by eexists|].
    exists (si_UserInfo (si_Spec v)). by destruct (si_Spec v). }
  destruct Hsp as [u Hsp]. rewrite Hm, our_finalizers0. cbn [length Nat.eqb written]. intros [= <- <-]. split; [|done].
  eexists. split; [done|]. left. cbn [si_Meta]. split; [split|split|split]; cbn; rewrite ?Hst, ?Hsp; try done.
  - split; cbn; rewrite ?Hsp; try done; unfold markAsDeleting; rewrite ?Hm; cbn; rewrite ?Hdt, ?Hg; try done. apply next_nonempty.
  - unfold isServiceInstanceFailed. cbn. by rewrite Hst.
  - split; cbn; rewrite ?Hm, ?Hdt, ?Hg; done.
Qed.


(** So is the key of an instance that is gone. *)
Lemma pass_gone w : stored_instance w = None -> pass w = w.
Proof.
  intros Hs. apply (ends_world _ _ (Ok tt)). unfold reconcileServiceInstanceKey. rewrite Hkey.
  eapply ends_bind; [apply ends_ret|]. apply (ends_bind _ _ _ (inr notFound) w); [|apply ends_ret].
  apply ends_try_err. eapply ends_bind; [by apply ends_call|]. rewrite Hs. apply ends_fail.
Qed.
End system.

(** ** From creation to the end *)

Section lifecycle.
Context {C : Config} {MV : MetaValidation} {SV : StoreValidation} {Sem : Semantic} {Y : YamlLaws}.
Context (clock : nat -> Z) (classes : list ServiceClass) (plans : list ServicePlan) (brokers : list ClusterServiceBroker)
  (secrets : list Secret) (namespaceUID : string -> string) (controller : option User).
#[local] Instance lifecycle_env : Env System := system_env clock classes plans brokers secrets namespaceUID controller.

(** The version [v] that a create request stored, and what it finds: metadata that
    updates may keep, its class, plan and broker, credentials and parameters that can
    be read, and a retry window that is long enough. *)
Context (v : ServiceInstance) (key : string) (sc : ServiceClass) (sp : ServicePlan) (b : ClusterServiceBroker) (auth : option AuthConfig).
Hypothesis Hmeta : metadata_accepted (Namespace (si_Meta v)) (Name (si_Meta v)) (OwnerReferences (si_Meta v)).
Hypothesis Hcatalog :
  catalog_has classes plans brokers (ExternalServiceClassName (si_Spec v)) (ExternalServicePlanName (si_Spec v)) sc sp b.
Hypothesis Hauth : forall w, ends (getAuthCredentialsFromClusterServiceBroker b) w (Ok auth) w.
Hypothesis Hparams : forall w, exists p,
  ends (buildParameters (Namespace (si_Meta v)) (ParametersFrom (si_Spec v)) (Parameters (si_Spec v))) w (Ok p) w.
Hypothesis Hwindow : forall j k, clock j < clock k + reconciliationRetryDuration.
Hypothesis Hkey : SplitMetaNamespaceKey key = inl (Namespace (si_Meta v), Name (si_Meta v)).
Context (ctx : RequestContext) (uid : string) (obj : ServiceInstance) (w w1 : System).
Hypothesis Hcreated : request_create ctx uid obj w = (inl v, w1).

Local Notation id := (ExternalID (si_Spec v)).
Local Notation pass := (sync clock classes plans brokers secrets namespaceUID controller key).
Local Notation run n := (syncs clock classes plans brokers secrets namespaceUID controller n key).
Local Notation ours_v := (ours (Namespace (si_Meta v)) (Name (si_Meta v)) id (ExternalServiceClassName (si_Spec v))
  (ExternalServicePlanName (si_Spec v)) (Parameters (si_Spec v)) (ParametersFrom (si_Spec v)) (OwnerReferences (si_Meta v))).
Local Notation ready_v := (ready (Namespace (si_Meta v)) (Name (si_Meta v)) id (ExternalServiceClassName (si_Spec v))
  (ExternalServicePlanName (si_Spec v)) (Parameters (si_Spec v)) (ParametersFrom (si_Spec v)) (OwnerReferences (si_Meta v)) sc sp).

Lemma run_fixed w0 n : pass w0 = w0 -> run n w0 = w0.
Proof. intros H. induction n as [|n IH]; [done|]. cbn. by rewrite H. Qed.

Lemma created_settles :
  temporary (provisioning (broker w)) ->
  let w2 := run (passes (provisioning (broker w))) w1 in
  (exists v2, stored_instance w2 = Some v2 /\ ready_v v2) /\
  held (broker w2) = {[ id ]} ∪ held (broker w) /\ deprovisioning (broker w2) = deprovisioning (broker w) /\
  exists rs, received (broker w2) = received (broker w) ++ rs /\ Forall (about id sc sp Provisioning) rs.
Proof.
  intros Htemp. destruct (created_version _ _ _ _ _ _ Hcreated) as (Hs & Hb & Hg & Hd & Hv & Hf & Hst & Hc & Hp & Hsp).
  assert (Ho : ours_v v) by done.
  edestruct (requests_settle clock classes plans brokers secrets namespaceUID controller) with
    (o := Provisioning) (w := w1) as [Hfin Hheld Hother Hreqs];
    [exact Hmeta|exact Hcatalog|exact Hauth|exact Hparams|exact Hwindow|exact Hkey| |reflexivity|cbn; by rewrite Hb|].
  { exists v. split; [done|]. right. right. rewrite Hst. split_and!; try done. split; rewrite ?Hst; try done.
    - unfold isServiceInstanceFailed. by rewrite Hst.
    - by apply NoDup_nil_2. }
  cbn [script] in *. rewrite Hb in *. split_and!; done.
Qed.


(** C6: a deleted instance goes away when nothing refuses it. In the setting of this
    section (metadata that updates may keep, one class, one plan and their broker in the
    catalog, readable credentials and parameters, no credential of the instance, no two
    looks at the clock further apart than the retry window), and when the errors of
    the broker are [temporary] for both operations (a failed call is no HTTP error answer
    and no timeout, a failed poll is not "gone"): when the instance that became ready is
    deleted, after one pass per answer of the broker it is no longer stored and the
    broker no longer holds it, so what creation and deletion leave is what there was
    before; all requests were about the instance, and further passes do nothing.  A
    deprovision request that the broker answers with an HTTP error is none of this:
    [InstanceTheorems.refused_deprovision_is_forgotten]. *)
Theorem deleted_instance_goes_away dctx r w3 :
  temporary (provisioning (broker w)) -> temporary (deprovisioning (broker w)) ->
  request_delete clock dctx (run (passes (provisioning (broker w))) w1) = (r, w3) ->
  let w4 := run (passes (deprovisioning (broker w))) w3 in
  stored_instance w4 = None /\ held (broker w4) = held (broker w) ∖ {[ id ]} /\
  (exists rs, received (broker w4) = received (broker w3) ++ rs /\ Forall (about id sc sp Deprovisioning) rs) /\
  forall n, run n w4 = w4.
Proof.
  intros Htemp Hdtemp Hdel w4. destruct (created_settles Htemp) as ((v2 & Hs & Hr) & Hheld & Hde & _).
  destruct (deleted_version clock _ _ _ _ _ _ _ _ _ _ _ _ _ _ _ Hs Hr Hdel) as [Hpre Hb].
  edestruct (requests_settle clock classes plans brokers secrets namespaceUID controller) with
    (o := Deprovisioning) (w := w3) as [Hfin Hheld' _ Hreqs];
    [exact Hmeta|exact Hcatalog|exact Hauth|exact Hparams|exact Hwindow|exact Hkey|exact Hpre|reflexivity|cbn; by rewrite Hb, Hde|].
  cbn [script] in *. rewrite Hb, Hde in Hfin, Hheld', Hreqs. fold w4 in Hfin, Hheld', Hreqs. cbn [finished carried] in Hfin, Hheld'.
  split_and!.
  - exact Hfin.
  - rewrite Hheld', Hheld. set_solver.
  - by rewrite Hb.
  - intros n. apply run_fixed. by eapply pass_gone.
Qed.
End lifecycle.

(** ** A concrete life *)

(** A broker that refuses a first connection, provisions asynchronously, and is slow and once
    unreachable meanwhile; it deprovisions at once. *)
Definition sample_broker : Broker :=
  {| held := {[ "another" ]}; pending := None;
     provisioning := {| failures := [NetError false "connection refused"]; async := true;
                        polls := [inr (Some "starting"); inl (NetError true "timeout"); inr None] |};
     deprovisioning := {| failures := []; async := false; polls := [] |};
     received := [] |}.
Definition sample_system : System := {| looks := 0; revision := 7; stored_instance := None; broker := sample_broker |}.
Definition sample_clock (k : nat) : Z := Z.of_nat (Nat.min k 500).

Definition sample_created : ServiceInstance :=
  match fst (request_create sample_context "uid-1" instance1 sample_system) with inl v => v | inr _ => instance1 end.
Definition sample_start : System := snd (request_create sample_context "uid-1" instance1 sample_system).
Definition sample_run (s : Script) : System -> System :=
  syncs sample_clock [class1] [plan1] [broker1] [] (fun _ => "namespace-uid") None (passes s) "ns/db".

Lemma sample_clock_window j k : sample_clock j < sample_clock k + reconciliationRetryDuration.
Proof. unfold sample_clock. cbn. lia. Qed.

Lemma sample_metadata : metadata_accepted "ns" "db" [].
Proof. by split. Qed.

Lemma sample_catalog : catalog_has [class1] [plan1] [broker1] "mysql" "small" class1 plan1 broker1.
Proof. split; vm_compute; reflexivity. Qed.

#[local] Instance sample_system_env : Env System :=
  system_env sample_clock [class1] [plan1] [broker1] [] (fun _ => "namespace-uid") None.

Lemma sample_auth (w : System) : ends (getAuthCredentialsFromClusterServiceBroker broker1) w (Ok None) w.
Proof. by eexists. Qed.

Lemma sample_parameters (w : System) : exists p, ends (buildParameters "ns" None None) w (Ok p) w.
Proof. eexists. eexists. reflexivity. Qed.

Lemma sample_temporary : temporary (provisioning sample_broker) /\ temporary (deprovisioning sample_broker).
Proof.
  split; (split; [|]); repeat constructor; by intros ? [= <-].
Qed.

Lemma sample_request : request_create sample_context "uid-1" instance1 sample_system = (inl sample_created, sample_start).
Proof. vm_compute. reflexivity. Qed.

Definition sample_ready : System := sample_run (provisioning (broker sample_system)) sample_start.
Definition sample_deleted : System := snd (request_delete sample_clock sample_context sample_ready).
Definition sample_answer : ServiceInstance + error := fst (request_delete sample_clock sample_context sample_ready).


Lemma deleted_instance_goes_away_witness :
  let w4 := sample_run (deprovisioning (broker sample_system)) sample_deleted in
  stored_instance w4 = None /\ held (broker w4) = {[ "another" ]}.
Proof.
  destruct (deleted_instance_goes_away sample_clock [class1] [plan1] [broker1] [] (fun _ => "namespace-uid") None
    sample_created "ns/db" class1 plan1 broker1 None sample_metadata sample_catalog sample_auth sample_parameters sample_clock_window
    eq_refl sample_context "uid-1" instance1 sample_system sample_start sample_request sample_context sample_answer sample_deleted
    (proj1 sample_temporary) (proj2 sample_temporary)) as (Hs & Hh & _ & _).
  { apply surjective_pairing. }
  unfold sample_run. split; [exact Hs|]. cbv zeta. rewrite Hh. vm_compute. reflexivity.
Defined.
