(* ===== verification/OpenAPI.v ===== *)
(** * The OpenAPI schemas of the API types

    [pkg/openapi/openapi_generated.go]: a schema for every type of
    [v1alpha1] and of the metadata package, by its import path, and the
    definitions it refers to.  The descriptions are documentation and are left
    out.  [conforms] is what a schema means for a JSON value. *)

From S2P Require Import Prelude Types Json JsonText Base64 Selfer.

(** ** Schemas

    The fields of [spec.SchemaProps] that are set; a property is in at most one
    of the shapes below.  Extensions do not restrict the values. *)
Inductive Schema := {
  schema_Ref : option string;
  schema_Type : option string;
  schema_Format : string;
  schema_Properties : list (string * Schema);
  schema_Required : list string;
  schema_Items : option Schema;
  schema_AdditionalProperties : option Schema;
  schema_Extensions : list (string * string) }.

Record OpenAPIDefinition := { Definition_Schema : Schema; Dependencies : list string }.
Definition define (s : Schema) (deps : list string) : OpenAPIDefinition := {| Definition_Schema := s; Dependencies := deps |}.

(** The composite literals of the source. *)
Definition Ref (path : string) : Schema := Build_Schema (Some path) None "" [] [] None None [].
Definition value (type format : string) : Schema := Build_Schema None (Some type) format [] [] None None [].
Definition array (items : Schema) : Schema := Build_Schema None (Some "array") "" [] [] (Some items) None [].
Definition map_of (values : Schema) : Schema := Build_Schema None (Some "object") "" [] [] None (Some values) [].
Definition object (properties : list (string * Schema)) (required : list string) : Schema :=
  Build_Schema None None "" properties required None None [].
Definition extend (extensions : list (string * string)) (s : Schema) : Schema :=
  Build_Schema (schema_Ref s) (schema_Type s) (schema_Format s) (schema_Properties s) (schema_Required s)
    (schema_Items s) (schema_AdditionalProperties s) extensions.

(** Types by package. *)
Definition v1alpha1 (type : string) : string :=
  sprint ["github.com/kubernetes-incubator/service-catalog/pkg/apis/servicecatalog/v1alpha1."; type].
Definition meta_v1 (type : string) : string := sprint ["k8s.io/apimachinery/pkg/apis/meta/v1."; type].
Definition api_v1 (type : string) : string := sprint ["k8s.io/client-go/pkg/api/v1."; type].
Definition runtime (type : string) : string := sprint ["k8s.io/apimachinery/pkg/runtime."; type].

(** ** Meaning *)

Definition definitions := list (string * OpenAPIDefinition).
Fixpoint assoc {A} (key : string) (l : list (string * A)) : option A :=
  match l with
  | [] => None
  | (k, a) :: l' => if String.eqb k key then Some a else assoc key l'
  end.

(** The schema behind a reference; [None] when it is of a type without a definition. *)
Definition resolve (defs : definitions) (s : Schema) : option Schema :=
  match schema_Ref s with Some path => Definition_Schema <$> assoc path defs | None => Some s end.

Definition has_type (type : string) (s : Schema) : bool := bool_decide (schema_Type s = Some type).
(** A schema without a type describes an object. *)
Definition describes_object (s : Schema) : bool := has_type "object" s || bool_decide (schema_Type s = None).

Definition in_range (format : string) (z : Z) : bool :=
  if String.eqb format "int64" then (- 2 ^ 63 <=? z) && (z <? 2 ^ 63)
  else if String.eqb format "int32" then (- 2 ^ 31 <=? z) && (z <? 2 ^ 31)
  else true.
Definition integer_of (t : string) : option Z :=
  match plain_number t with Some (neg, u) => Some (if neg then - u else u) | None => None end.

(** Bytes are in base64; the format [date-time] is not looked into. *)
Definition string_fits (format s : string) : bool :=
  if String.eqb format "byte" then match base64_DecodeString s with Some _ => true | None => false end else true.

Definition property (s : Schema) (key : string) : option Schema :=
  match assoc key (schema_Properties s) with Some p => Some p | None => schema_AdditionalProperties s end.

(** What may be null: [encoding/json] writes a nil slice as null, and
    [metav1.Time] the zero time. *)
Definition nullable (s : Schema) : bool := has_type "array" s || (has_type "string" s && String.eqb (schema_Format s) "date-time").

(** A member that is neither a property nor an additional property does not
    conform.  [foreign] tells the JSON of the types of other packages, which are
    referred to without a definition. *)
Fixpoint conforms (foreign : string -> json -> bool) (defs : definitions) (s : Schema) (v : json) : bool :=
  match resolve defs s with
  | None => match schema_Ref s with Some path => foreign path v | None => false end
  | Some s =>
      match v with
      | JNull => nullable s
      | JBool _ => has_type "boolean" s
      | JNum t => has_type "integer" s && match integer_of t with Some z => in_range (schema_Format s) z | None => false end
      | JString t => has_type "string" s && string_fits (schema_Format s) t
      | JArray l =>
          has_type "array" s &&
          forallb (fun w => match schema_Items s with Some items => conforms foreign defs items w | None => true end) l
      | JObject l =>
          describes_object s &&
          forallb (fun key => existsb (fun m => String.eqb key (fst m)) l) (schema_Required s) &&
          forallb (fun m => match property s (fst m) with Some p => conforms foreign defs p (snd m) | None => false end) l
      end
  end.

(** ** The definitions *)

Definition Time_OpenAPIDefinition : OpenAPIDefinition := define (value "string" "date-time") [].
Definition MicroTime_OpenAPIDefinition : OpenAPIDefinition := define (value "string" "date-time") [].

Definition v1alpha1_BasicAuthConfig : OpenAPIDefinition :=
  define (object
      [("secretRef", (Ref (api_v1 "ObjectReference")))]
      [])
    [(api_v1 "ObjectReference")].

Definition v1alpha1_BearerTokenAuthConfig : OpenAPIDefinition :=
  define (object
      [("secretRef", (Ref (api_v1 "ObjectReference")))]
      [])
    [(api_v1 "ObjectReference")].

Definition v1alpha1_ClusterServiceBroker : OpenAPIDefinition :=
  define (object
      [("kind", (value "string" ""));
       ("apiVersion", (value "string" ""));
       ("metadata", (Ref (meta_v1 "ObjectMeta")));
       ("spec", (Ref (v1alpha1 "ClusterServiceBrokerSpec")));
       ("status", (Ref (v1alpha1 "ServiceBrokerStatus")))]
      ["spec"; "status"])
    [(v1alpha1 "ClusterServiceBrokerSpec"); (v1alpha1 "ServiceBrokerStatus"); (meta_v1 "ObjectMeta")].

Definition v1alpha1_ClusterServiceBrokerList : OpenAPIDefinition :=
  define (object
      [("kind", (value "string" ""));
       ("apiVersion", (value "string" ""));
       ("metadata", (Ref (meta_v1 "ListMeta")));
       ("items", (array (Ref (v1alpha1 "ClusterServiceBroker"))))]
      ["items"])
    [(v1alpha1 "ClusterServiceBroker"); (meta_v1 "ListMeta")].

Definition v1alpha1_ClusterServiceBrokerSpec : OpenAPIDefinition :=
  define (object
      [("url", (value "string" ""));
       ("authInfo", (Ref (v1alpha1 "ServiceBrokerAuthInfo")));
       ("insecureSkipTLSVerify", (value "boolean" ""));
       ("caBundle", (value "string" "byte"));
       ("relistBehavior", (value "string" ""));
       ("relistDuration", (Ref (meta_v1 "Duration")));
       ("relistRequests", (value "integer" "int64"))]
      ["url"; "relistBehavior"; "relistRequests"])
    [(v1alpha1 "ServiceBrokerAuthInfo"); (meta_v1 "Duration")].

Definition v1alpha1_ParametersFromSource : OpenAPIDefinition :=
  define (object
      [("secretKeyRef", (Ref (v1alpha1 "SecretKeyReference")))]
      [])
    [(v1alpha1 "SecretKeyReference")].

Definition v1alpha1_SecretKeyReference : OpenAPIDefinition :=
  define (object
      [("name", (value "string" ""));
       ("key", (value "string" ""))]
      ["name"; "key"])
    [].

Definition v1alpha1_ServiceBrokerAuthInfo : OpenAPIDefinition :=
  define (object
      [("basic", (Ref (v1alpha1 "BasicAuthConfig")));
       ("bearer", (Ref (v1alpha1 "BearerTokenAuthConfig")));
       ("basicAuthSecret", (Ref (api_v1 "ObjectReference")))]
      [])
    [(v1alpha1 "BasicAuthConfig"); (v1alpha1 "BearerTokenAuthConfig"); (api_v1 "ObjectReference")].

Definition v1alpha1_ServiceBrokerCondition : OpenAPIDefinition :=
  define (object
      [("type", (value "string" ""));
       ("status", (value "string" ""));
       ("lastTransitionTime", (Ref (meta_v1 "Time")));
       ("reason", (value "string" ""));
       ("message", (value "string" ""))]
      ["type"; "status"; "lastTransitionTime"; "reason"; "message"])
    [(meta_v1 "Time")].

Definition v1alpha1_ServiceBrokerStatus : OpenAPIDefinition :=
  define (object
      [("conditions", (array (Ref (v1alpha1 "ServiceBrokerCondition"))));
       ("reconciledGeneration", (value "integer" "int64"));
       ("operationStartTime", (Ref (meta_v1 "Time")))]
      ["conditions"; "reconciledGeneration"])
    [(v1alpha1 "ServiceBrokerCondition"); (meta_v1 "Time")].

Definition v1alpha1_ServiceClass : OpenAPIDefinition :=
  define (object
      [("kind", (value "string" ""));
       ("apiVersion", (value "string" ""));
       ("metadata", (Ref (meta_v1 "ObjectMeta")));
       ("spec", (Ref (v1alpha1 "ServiceClassSpec")))]
      ["spec"])
    [(v1alpha1 "ServiceClassSpec"); (meta_v1 "ObjectMeta")].

Definition v1alpha1_ServiceClassList : OpenAPIDefinition :=
  define (object
      [("kind", (value "string" ""));
       ("apiVersion", (value "string" ""));
       ("metadata", (Ref (meta_v1 "ListMeta")));
       ("items", (array (Ref (v1alpha1 "ServiceClass"))))]
      ["items"])
    [(v1alpha1 "ServiceClass"); (meta_v1 "ListMeta")].

Definition v1alpha1_ServiceClassSpec : OpenAPIDefinition :=
  define (object
      [("clusterServiceBrokerName", (value "string" ""));
       ("externalName", (value "string" ""));
       ("externalID", (value "string" ""));
       ("description", (value "string" ""));
       ("bindable", (value "boolean" ""));
       ("planUpdatable", (value "boolean" ""));
       ("externalMetadata", (Ref (runtime "RawExtension")));
       ("tags", (array (value "string" "")));
       ("requires", (array (value "string" "")))]
      ["clusterServiceBrokerName"; "externalName"; "externalID"; "description"; "bindable"; "planUpdatable"])
    [(runtime "RawExtension")].

Definition v1alpha1_ServiceInstance : OpenAPIDefinition :=
  define (object
      [("kind", (value "string" ""));
       ("apiVersion", (value "string" ""));
       ("metadata", (Ref (meta_v1 "ObjectMeta")));
       ("spec", (Ref (v1alpha1 "ServiceInstanceSpec")));
       ("status", (Ref (v1alpha1 "ServiceInstanceStatus")))]
      ["spec"; "status"])
    [(v1alpha1 "ServiceInstanceSpec"); (v1alpha1 "ServiceInstanceStatus"); (meta_v1 "ObjectMeta")].

Definition v1alpha1_ServiceInstanceCondition : OpenAPIDefinition :=
  define (object
      [("type", (value "string" ""));
       ("status", (value "string" ""));
       ("lastTransitionTime", (Ref (meta_v1 "Time")));
       ("reason", (value "string" ""));
       ("message", (value "string" ""))]
      ["type"; "status"; "lastTransitionTime"; "reason"; "message"])
    [(meta_v1 "Time")].

Definition v1alpha1_ServiceInstanceCredential : OpenAPIDefinition :=
  define (object
      [("kind", (value "string" ""));
       ("apiVersion", (value "string" ""));
       ("metadata", (Ref (meta_v1 "ObjectMeta")));
       ("spec", (Ref (v1alpha1 "ServiceInstanceCredentialSpec")));
       ("status", (Ref (v1alpha1 "ServiceInstanceCredentialStatus")))]
      ["spec"; "status"])
    [(v1alpha1 "ServiceInstanceCredentialSpec"); (v1alpha1 "ServiceInstanceCredentialStatus"); (meta_v1 "ObjectMeta")].

Definition v1alpha1_ServiceInstanceCredentialCondition : OpenAPIDefinition :=
  define (object
      [("type", (value "string" ""));
       ("status", (value "string" ""));
       ("lastTransitionTime", (Ref (meta_v1 "Time")));
       ("reason", (value "string" ""));
       ("message", (value "string" ""))]
      ["type"; "status"; "lastTransitionTime"; "reason"; "message"])
    [(meta_v1 "Time")].

Definition v1alpha1_ServiceInstanceCredentialList : OpenAPIDefinition :=
  define (object
      [("kind", (value "string" ""));
       ("apiVersion", (value "string" ""));
       ("metadata", (Ref (meta_v1 "ListMeta")));
       ("items", (array (Ref (v1alpha1 "ServiceInstanceCredential"))))]
      ["items"])
    [(v1alpha1 "ServiceInstanceCredential"); (meta_v1 "ListMeta")].

Definition v1alpha1_ServiceInstanceCredentialPropertiesState : OpenAPIDefinition :=
  define (object
      [("parameters", (Ref (runtime "RawExtension")));
       ("parameterChecksum", (value "string" ""));
       ("userInfo", (Ref (v1alpha1 "UserInfo")))]
      [])
    [(v1alpha1 "UserInfo"); (runtime "RawExtension")].

Definition v1alpha1_ServiceInstanceCredentialSpec : OpenAPIDefinition :=
  define (object
      [("instanceRef", (Ref (api_v1 "LocalObjectReference")));
       ("parameters", (Ref (runtime "RawExtension")));
       ("parametersFrom", (array (Ref (v1alpha1 "ParametersFromSource"))));
       ("secretName", (value "string" ""));
       ("externalID", (value "string" ""));
       ("userInfo", (Ref (v1alpha1 "UserInfo")))]
      ["instanceRef"; "externalID"])
    [(v1alpha1 "ParametersFromSource"); (v1alpha1 "UserInfo"); (runtime "RawExtension"); (api_v1 "LocalObjectReference")].

Definition v1alpha1_ServiceInstanceCredentialStatus : OpenAPIDefinition :=
  define (object
      [("conditions", (array (Ref (v1alpha1 "ServiceInstanceCredentialCondition"))));
       ("currentOperation", (value "string" ""));
       ("reconciledGeneration", (value "integer" "int64"));
       ("operationStartTime", (Ref (meta_v1 "Time")));
       ("inProgressProperties", (Ref (v1alpha1 "ServiceInstanceCredentialPropertiesState")));
       ("externalProperties", (Ref (v1alpha1 "ServiceInstanceCredentialPropertiesState")));
       ("orphanMitigationInProgress", (value "boolean" ""))]
      ["conditions"; "reconciledGeneration"; "orphanMitigationInProgress"])
    [(v1alpha1 "ServiceInstanceCredentialCondition"); (v1alpha1 "ServiceInstanceCredentialPropertiesState"); (meta_v1 "Time")].

Definition v1alpha1_ServiceInstanceList : OpenAPIDefinition :=
  define (object
      [("kind", (value "string" ""));
       ("apiVersion", (value "string" ""));
       ("metadata", (Ref (meta_v1 "ListMeta")));
       ("items", (array (Ref (v1alpha1 "ServiceInstance"))))]
      ["items"])
    [(v1alpha1 "ServiceInstance"); (meta_v1 "ListMeta")].

Definition v1alpha1_ServiceInstancePropertiesState : OpenAPIDefinition :=
  define (object
      [("externalServicePlanName", (value "string" ""));
       ("parameters", (Ref (runtime "RawExtension")));
       ("parameterChecksum", (value "string" ""));
       ("userInfo", (Ref (v1alpha1 "UserInfo")))]
      ["externalServicePlanName"])
    [(v1alpha1 "UserInfo"); (runtime "RawExtension")].

Definition v1alpha1_ServiceInstanceSpec : OpenAPIDefinition :=
  define (object
      [("externalServiceClassName", (value "string" ""));
       ("externalServicePlanName", (value "string" ""));
       ("serviceClassRef", (Ref (api_v1 "ObjectReference")));
       ("servicePlanRef", (Ref (api_v1 "ObjectReference")));
       ("parameters", (Ref (runtime "RawExtension")));
       ("parametersFrom", (array (Ref (v1alpha1 "ParametersFromSource"))));
       ("externalID", (value "string" ""));
       ("userInfo", (Ref (v1alpha1 "UserInfo")))]
      ["externalServiceClassName"; "externalID"])
    [(v1alpha1 "ParametersFromSource"); (v1alpha1 "UserInfo"); (runtime "RawExtension"); (api_v1 "ObjectReference")].

Definition v1alpha1_ServiceInstanceStatus : OpenAPIDefinition :=
  define (object
      [("conditions", (array (Ref (v1alpha1 "ServiceInstanceCondition"))));
       ("asyncOpInProgress", (value "boolean" ""));
       ("orphanMitigationInProgress", (value "boolean" ""));
       ("lastOperation", (value "string" ""));
       ("dashboardURL", (value "string" ""));
       ("currentOperation", (value "string" ""));
       ("reconciledGeneration", (value "integer" "int64"));
       ("operationStartTime", (Ref (meta_v1 "Time")));
       ("inProgressProperties", (Ref (v1alpha1 "ServiceInstancePropertiesState")));
       ("externalProperties", (Ref (v1alpha1 "ServiceInstancePropertiesState")))]
      ["conditions"; "asyncOpInProgress"; "orphanMitigationInProgress"; "reconciledGeneration"])
    [(v1alpha1 "ServiceInstanceCondition"); (v1alpha1 "ServiceInstancePropertiesState"); (meta_v1 "Time")].

Definition v1alpha1_ServicePlan : OpenAPIDefinition :=
  define (object
      [("kind", (value "string" ""));
       ("apiVersion", (value "string" ""));
       ("metadata", (Ref (meta_v1 "ObjectMeta")));
       ("spec", (Ref (v1alpha1 "ServicePlanSpec")))]
      ["spec"])
    [(v1alpha1 "ServicePlanSpec"); (meta_v1 "ObjectMeta")].

Definition v1alpha1_ServicePlanList : OpenAPIDefinition :=
  define (object
      [("kind", (value "string" ""));
       ("apiVersion", (value "string" ""));
       ("metadata", (Ref (meta_v1 "ListMeta")));
       ("items", (array (Ref (v1alpha1 "ServicePlan"))))]
      ["items"])
    [(v1alpha1 "ServicePlan"); (meta_v1 "ListMeta")].

Definition v1alpha1_ServicePlanSpec : OpenAPIDefinition :=
  define (object
      [("clusterServiceBrokerName", (value "string" ""));
       ("externalName", (value "string" ""));
       ("externalID", (value "string" ""));
       ("description", (value "string" ""));
       ("bindable", (value "boolean" ""));
       ("free", (value "boolean" ""));
       ("externalMetadata", (Ref (runtime "RawExtension")));
       ("instanceCreateParameterSchema", (Ref (runtime "RawExtension")));
       ("instanceUpdateParameterSchema", (Ref (runtime "RawExtension")));
       ("serviceInstanceCredentialCreateParameterSchema", (Ref (runtime "RawExtension")));
       ("serviceClassRef", (Ref (api_v1 "LocalObjectReference")))]
      ["clusterServiceBrokerName"; "externalName"; "externalID"; "description"; "free"; "serviceClassRef"])
    [(runtime "RawExtension"); (api_v1 "LocalObjectReference")].

Definition v1alpha1_UserInfo : OpenAPIDefinition :=
  define (object
      [("username", (value "string" ""));
       ("uid", (value "string" ""));
       ("groups", (array (value "string" "")));
       ("extra", (map_of (array (value "string" ""))))]
      ["username"; "uid"])
    [].

Definition meta_v1_APIGroup : OpenAPIDefinition :=
  define (object
      [("kind", (value "string" ""));
       ("apiVersion", (value "string" ""));
       ("name", (value "string" ""));
       ("versions", (array (Ref (meta_v1 "GroupVersionForDiscovery"))));
       ("preferredVersion", (Ref (meta_v1 "GroupVersionForDiscovery")));
       ("serverAddressByClientCIDRs", (array (Ref (meta_v1 "ServerAddressByClientCIDR"))))]
      ["name"; "versions"; "serverAddressByClientCIDRs"])
    [(meta_v1 "GroupVersionForDiscovery"); (meta_v1 "ServerAddressByClientCIDR")].

Definition meta_v1_APIGroupList : OpenAPIDefinition :=
  define (object
      [("kind", (value "string" ""));
       ("apiVersion", (value "string" ""));
       ("groups", (array (Ref (meta_v1 "APIGroup"))))]
      ["groups"])
    [(meta_v1 "APIGroup")].

Definition meta_v1_APIResource : OpenAPIDefinition :=
  define (object
      [("name", (value "string" ""));
       ("singularName", (value "string" ""));
       ("namespaced", (value "boolean" ""));
       ("kind", (value "string" ""));
       ("verbs", (array (value "string" "")));
       ("shortNames", (array (value "string" "")));
       ("categories", (array (value "string" "")))]
      ["name"; "singularName"; "namespaced"; "kind"; "verbs"])
    [].

Definition meta_v1_APIResourceList : OpenAPIDefinition :=
  define (object
      [("kind", (value "string" ""));
       ("apiVersion", (value "string" ""));
       ("groupVersion", (value "string" ""));
       ("resources", (array (Ref (meta_v1 "APIResource"))))]
      ["groupVersion"; "resources"])
    [(meta_v1 "APIResource")].

Definition meta_v1_APIVersions : OpenAPIDefinition :=
  define (object
      [("kind", (value "string" ""));
       ("apiVersion", (value "string" ""));
       ("versions", (array (value "string" "")));
       ("serverAddressByClientCIDRs", (array (Ref (meta_v1 "ServerAddressByClientCIDR"))))]
      ["versions"; "serverAddressByClientCIDRs"])
    [(meta_v1 "ServerAddressByClientCIDR")].

Definition meta_v1_DeleteOptions : OpenAPIDefinition :=
  define (object
      [("kind", (value "string" ""));
       ("apiVersion", (value "string" ""));
       ("gracePeriodSeconds", (value "integer" "int64"));
       ("preconditions", (Ref (meta_v1 "Preconditions")));
       ("orphanDependents", (value "boolean" ""));
       ("propagationPolicy", (value "string" ""))]
      [])
    [(meta_v1 "Preconditions")].

Definition meta_v1_Duration : OpenAPIDefinition :=
  define (object
      [("Duration", (value "integer" "int64"))]
      ["Duration"])
    [].

Definition meta_v1_ExportOptions : OpenAPIDefinition :=
  define (object
      [("kind", (value "string" ""));
       ("apiVersion", (value "string" ""));
       ("export", (value "boolean" ""));
       ("exact", (value "boolean" ""))]
      ["export"; "exact"])
    [].

Definition meta_v1_GetOptions : OpenAPIDefinition :=
  define (object
      [("kind", (value "string" ""));
       ("apiVersion", (value "string" ""));
       ("resourceVersion", (value "string" ""));
       ("includeUninitialized", (value "boolean" ""))]
      [])
    [].

Definition meta_v1_GroupKind : OpenAPIDefinition :=
  define (object
      [("group", (value "string" ""));
       ("kind", (value "string" ""))]
      ["group"; "kind"])
    [].

Definition meta_v1_GroupResource : OpenAPIDefinition :=
  define (object
      [("group", (value "string" ""));
       ("resource", (value "string" ""))]
      ["group"; "resource"])
    [].

Definition meta_v1_GroupVersion : OpenAPIDefinition :=
  define (object
      [("group", (value "string" ""));
       ("version", (value "string" ""))]
      ["group"; "version"])
    [].

Definition meta_v1_GroupVersionForDiscovery : OpenAPIDefinition :=
  define (object
      [("groupVersion", (value "string" ""));
       ("version", (value "string" ""))]
      ["groupVersion"; "version"])
    [].

Definition meta_v1_GroupVersionKind : OpenAPIDefinition :=
  define (object
      [("group", (value "string" ""));
       ("version", (value "string" ""));
       ("kind", (value "string" ""))]
      ["group"; "version"; "kind"])
    [].

Definition meta_v1_GroupVersionResource : OpenAPIDefinition :=
  define (object
      [("group", (value "string" ""));
       ("version", (value "string" ""));
       ("resource", (value "string" ""))]
      ["group"; "version"; "resource"])
    [].

Definition meta_v1_Initializer : OpenAPIDefinition :=
  define (object
      [("name", (value "string" ""))]
      ["name"])
    [].

Definition meta_v1_Initializers : OpenAPIDefinition :=
  define (object
      [("pending", (array (Ref (meta_v1 "Initializer"))));
       ("result", (Ref (meta_v1 "Status")))]
      ["pending"])
    [(meta_v1 "Initializer"); (meta_v1 "Status")].

Definition meta_v1_InternalEvent : OpenAPIDefinition :=
  define (object
      [("Type", (value "string" ""));
       ("Object", (Ref (runtime "Object")))]
      ["Type"; "Object"])
    [(runtime "Object")].

Definition meta_v1_LabelSelector : OpenAPIDefinition :=
  define (object
      [("matchLabels", (map_of (value "string" "")));
       ("matchExpressions", (array (Ref (meta_v1 "LabelSelectorRequirement"))))]
      [])
    [(meta_v1 "LabelSelectorRequirement")].

Definition meta_v1_LabelSelectorRequirement : OpenAPIDefinition :=
  define (object
      [("key", (extend [("x-kubernetes-patch-merge-key", "key"); ("x-kubernetes-patch-strategy", "merge")] (value "string" "")));
       ("operator", (value "string" ""));
       ("values", (array (value "string" "")))]
      ["key"; "operator"])
    [].

Definition meta_v1_ListMeta : OpenAPIDefinition :=
  define (object
      [("selfLink", (value "string" ""));
       ("resourceVersion", (value "string" ""))]
      [])
    [].

Definition meta_v1_ListOptions : OpenAPIDefinition :=
  define (object
      [("kind", (value "string" ""));
       ("apiVersion", (value "string" ""));
       ("labelSelector", (value "string" ""));
       ("fieldSelector", (value "string" ""));
       ("includeUninitialized", (value "boolean" ""));
       ("watch", (value "boolean" ""));
       ("resourceVersion", (value "string" ""));
       ("timeoutSeconds", (value "integer" "int64"))]
      [])
    [].

Definition meta_v1_ObjectMeta : OpenAPIDefinition :=
  define (object
      [("name", (value "string" ""));
       ("generateName", (value "string" ""));
       ("namespace", (value "string" ""));
       ("selfLink", (value "string" ""));
       ("uid", (value "string" ""));
       ("resourceVersion", (value "string" ""));
       ("generation", (value "integer" "int64"));
       ("creationTimestamp", (Ref (meta_v1 "Time")));
       ("deletionTimestamp", (Ref (meta_v1 "Time")));
       ("deletionGracePeriodSeconds", (value "integer" "int64"));
       ("labels", (map_of (value "string" "")));
       ("annotations", (map_of (value "string" "")));
       ("ownerReferences", (extend [("x-kubernetes-patch-merge-key", "uid"); ("x-kubernetes-patch-strategy", "merge")] (array (Ref (meta_v1 "OwnerReference")))));
       ("initializers", (Ref (meta_v1 "Initializers")));
       ("finalizers", (extend [("x-kubernetes-patch-strategy", "merge")] (array (value "string" ""))));
       ("clusterName", (value "string" ""))]
      [])
    [(meta_v1 "Initializers"); (meta_v1 "OwnerReference"); (meta_v1 "Time")].

Definition meta_v1_OwnerReference : OpenAPIDefinition :=
  define (object
      [("apiVersion", (value "string" ""));
       ("kind", (value "string" ""));
       ("name", (value "string" ""));
       ("uid", (value "string" ""));
       ("controller", (value "boolean" ""));
       ("blockOwnerDeletion", (value "boolean" ""))]
      ["apiVersion"; "kind"; "name"; "uid"])
    [].

Definition meta_v1_Patch : OpenAPIDefinition :=
  define (object
      []
      [])
    [].

Definition meta_v1_Preconditions : OpenAPIDefinition :=
  define (object
      [("uid", (value "string" ""))]
      [])
    [].

Definition meta_v1_RootPaths : OpenAPIDefinition :=
  define (object
      [("paths", (array (value "string" "")))]
      ["paths"])
    [].

Definition meta_v1_ServerAddressByClientCIDR : OpenAPIDefinition :=
  define (object
      [("clientCIDR", (value "string" ""));
       ("serverAddress", (value "string" ""))]
      ["clientCIDR"; "serverAddress"])
    [].

Definition meta_v1_Status : OpenAPIDefinition :=
  define (object
      [("kind", (value "string" ""));
       ("apiVersion", (value "string" ""));
       ("metadata", (Ref (meta_v1 "ListMeta")));
       ("status", (value "string" ""));
       ("message", (value "string" ""));
       ("reason", (value "string" ""));
       ("details", (Ref (meta_v1 "StatusDetails")));
       ("code", (value "integer" "int32"))]
      [])
    [(meta_v1 "ListMeta"); (meta_v1 "StatusDetails")].

Definition meta_v1_StatusCause : OpenAPIDefinition :=
  define (object
      [("reason", (value "string" ""));
       ("message", (value "string" ""));
       ("field", (value "string" ""))]
      [])
    [].

Definition meta_v1_StatusDetails : OpenAPIDefinition :=
  define (object
      [("name", (value "string" ""));
       ("group", (value "string" ""));
       ("kind", (value "string" ""));
       ("uid", (value "string" ""));
       ("causes", (array (Ref (meta_v1 "StatusCause"))));
       ("retryAfterSeconds", (value "integer" "int32"))]
      [])
    [(meta_v1 "StatusCause")].

Definition meta_v1_Timestamp : OpenAPIDefinition :=
  define (object
      [("seconds", (value "integer" "int64"));
       ("nanos", (value "integer" "int32"))]
      ["seconds"; "nanos"])
    [].

Definition meta_v1_TypeMeta : OpenAPIDefinition :=
  define (object
      [("kind", (value "string" ""));
       ("apiVersion", (value "string" ""))]
      [])
    [].

Definition meta_v1_WatchEvent : OpenAPIDefinition :=
  define (object
      [("type", (value "string" ""));
       ("object", (Ref (runtime "RawExtension")))]
      ["type"; "object"])
    [(runtime "RawExtension")].

(** ** The table *)

Definition GetOpenAPIDefinitions : list (string * OpenAPIDefinition) :=
  [(v1alpha1 "BasicAuthConfig", v1alpha1_BasicAuthConfig);
   (v1alpha1 "BearerTokenAuthConfig", v1alpha1_BearerTokenAuthConfig);
   (v1alpha1 "ClusterServiceBroker", v1alpha1_ClusterServiceBroker);
   (v1alpha1 "ClusterServiceBrokerList", v1alpha1_ClusterServiceBrokerList);
   (v1alpha1 "ClusterServiceBrokerSpec", v1alpha1_ClusterServiceBrokerSpec);
   (v1alpha1 "ParametersFromSource", v1alpha1_ParametersFromSource);
   (v1alpha1 "SecretKeyReference", v1alpha1_SecretKeyReference);
   (v1alpha1 "ServiceBrokerAuthInfo", v1alpha1_ServiceBrokerAuthInfo);
   (v1alpha1 "ServiceBrokerCondition", v1alpha1_ServiceBrokerCondition);
   (v1alpha1 "ServiceBrokerStatus", v1alpha1_ServiceBrokerStatus);
   (v1alpha1 "ServiceClass", v1alpha1_ServiceClass);
   (v1alpha1 "ServiceClassList", v1alpha1_ServiceClassList);
   (v1alpha1 "ServiceClassSpec", v1alpha1_ServiceClassSpec);
   (v1alpha1 "ServiceInstance", v1alpha1_ServiceInstance);
   (v1alpha1 "ServiceInstanceCondition", v1alpha1_ServiceInstanceCondition);
   (v1alpha1 "ServiceInstanceCredential", v1alpha1_ServiceInstanceCredential);
   (v1alpha1 "ServiceInstanceCredentialCondition", v1alpha1_ServiceInstanceCredentialCondition);
   (v1alpha1 "ServiceInstanceCredentialList", v1alpha1_ServiceInstanceCredentialList);
   (v1alpha1 "ServiceInstanceCredentialPropertiesState", v1alpha1_ServiceInstanceCredentialPropertiesState);
   (v1alpha1 "ServiceInstanceCredentialSpec", v1alpha1_ServiceInstanceCredentialSpec);
   (v1alpha1 "ServiceInstanceCredentialStatus", v1alpha1_ServiceInstanceCredentialStatus);
   (v1alpha1 "ServiceInstanceList", v1alpha1_ServiceInstanceList);
   (v1alpha1 "ServiceInstancePropertiesState", v1alpha1_ServiceInstancePropertiesState);
   (v1alpha1 "ServiceInstanceSpec", v1alpha1_ServiceInstanceSpec);
   (v1alpha1 "ServiceInstanceStatus", v1alpha1_ServiceInstanceStatus);
   (v1alpha1 "ServicePlan", v1alpha1_ServicePlan);
   (v1alpha1 "ServicePlanList", v1alpha1_ServicePlanList);
   (v1alpha1 "ServicePlanSpec", v1alpha1_ServicePlanSpec);
   (v1alpha1 "UserInfo", v1alpha1_UserInfo);
   (meta_v1 "APIGroup", meta_v1_APIGroup);
   (meta_v1 "APIGroupList", meta_v1_APIGroupList);
   (meta_v1 "APIResource", meta_v1_APIResource);
   (meta_v1 "APIResourceList", meta_v1_APIResourceList);
   (meta_v1 "APIVersions", meta_v1_APIVersions);
   (meta_v1 "DeleteOptions", meta_v1_DeleteOptions);
   (meta_v1 "Duration", meta_v1_Duration);
   (meta_v1 "ExportOptions", meta_v1_ExportOptions);
   (meta_v1 "GetOptions", meta_v1_GetOptions);
   (meta_v1 "GroupKind", meta_v1_GroupKind);
   (meta_v1 "GroupResource", meta_v1_GroupResource);
   (meta_v1 "GroupVersion", meta_v1_GroupVersion);
   (meta_v1 "GroupVersionForDiscovery", meta_v1_GroupVersionForDiscovery);
   (meta_v1 "GroupVersionKind", meta_v1_GroupVersionKind);
   (meta_v1 "GroupVersionResource", meta_v1_GroupVersionResource);
   (meta_v1 "Initializer", meta_v1_Initializer);
   (meta_v1 "Initializers", meta_v1_Initializers);
   (meta_v1 "InternalEvent", meta_v1_InternalEvent);
   (meta_v1 "LabelSelector", meta_v1_LabelSelector);
   (meta_v1 "LabelSelectorRequirement", meta_v1_LabelSelectorRequirement);
   (meta_v1 "ListMeta", meta_v1_ListMeta);
   (meta_v1 "ListOptions", meta_v1_ListOptions);
   (meta_v1 "MicroTime", MicroTime_OpenAPIDefinition);
   (meta_v1 "ObjectMeta", meta_v1_ObjectMeta);
   (meta_v1 "OwnerReference", meta_v1_OwnerReference);
   (meta_v1 "Patch", meta_v1_Patch);
   (meta_v1 "Preconditions", meta_v1_Preconditions);
   (meta_v1 "RootPaths", meta_v1_RootPaths);
   (meta_v1 "ServerAddressByClientCIDR", meta_v1_ServerAddressByClientCIDR);
   (meta_v1 "Status", meta_v1_Status);
   (meta_v1 "StatusCause", meta_v1_StatusCause);
   (meta_v1 "StatusDetails", meta_v1_StatusDetails);
   (meta_v1 "Time", Time_OpenAPIDefinition);
   (meta_v1 "Timestamp", meta_v1_Timestamp);
   (meta_v1 "TypeMeta", meta_v1_TypeMeta);
   (meta_v1 "WatchEvent", meta_v1_WatchEvent)].
