(* ===== verification/OpenAPITheorems.v ===== *)
(** * What is written conforms to the published schemas

    The JSON of every object of the API satisfies the schema of its type
    ([T_conforms]): the members that are written are properties of the schema,
    with values of their types, and the required ones are always there; what other
    packages write is assumed of their encoders ([MachineryConforms]).  The
    exception is the relist duration of a broker: its schema is that of the Go
    structure, its JSON is a string.

    The table itself is closed: a definition names each type it refers to as
    a dependency, and all but four of those are in the table. *)

From S2P Require Import Prelude Types Json JsonText Base64 Selfer SelferLaws Fields ApiJson Strategy Storage Serialization OpenAPI.

Notation defs := GetOpenAPIDefinitions.

Section values.
Context (foreign : string -> json -> bool).
Local Notation conforms := (conforms foreign).

(** Whatever is written conforms. *)
Definition conform (s : Schema) (written : option json) : Prop := forall v, written = Some v -> conforms defs s v = true.

(** ** References *)

Lemma conforms_Ref path d v : assoc path defs = Some d -> schema_Ref (Definition_Schema d) = None ->
  conforms defs (Ref path) v = conforms defs (Definition_Schema d) v.
Proof. intros Ha Hr. destruct v; cbn -[assoc]; unfold resolve; cbn -[assoc]; by rewrite Ha, Hr. Qed.
Lemma conform_Ref path d e : assoc path defs = Some d -> schema_Ref (Definition_Schema d) = None ->
  conform (Definition_Schema d) e -> conform (Ref path) e.
Proof. intros Ha Hr H v Hv. rewrite (conforms_Ref path d) by done. auto. Qed.
(** A type of another package is what [foreign] says. *)
Lemma conform_foreign path e : assoc path defs = None -> (forall v, e = Some v -> foreign path v = true) -> conform (Ref path) e.
Proof. intros Ha H v Hv. destruct v; cbn -[assoc]; unfold resolve; cbn -[assoc]; rewrite Ha; cbn; by apply H. Qed.

(** ** Values *)

Lemma conform_string s : conform (value "string" "") (EncodeString s).
Proof. by intros v [= <-]. Qed.
Lemma conform_bool b : conform (value "boolean" "") (EncodeBool b).
Proof. by intros v [= <-]. Qed.
Lemma conform_bytes b : conform (value "string" "byte") (EncodeBytes b).
Proof. intros v [= <-]. cbn -[base64_EncodeToString]. unfold string_fits. cbn -[base64_DecodeString]. by rewrite base64_decode_encode. Qed.
Lemma integer_itoa z : in_int64 z -> integer_of (itoa z) = Some z.
Proof. intros H. unfold integer_of. rewrite plain_itoa by done. f_equal. destruct (Z.ltb_spec z 0); lia. Qed.
Lemma conform_int z : in_int64 z -> conform (value "integer" "int64") (EncodeInt z).
Proof.
  intros H v [= <-]. cbn -[itoa Z.pow integer_of]. rewrite integer_itoa by done. apply andb_true_intro. split; [reflexivity|].
  unfold in_range. cbn -[Z.pow]. unfold in_int64 in H. apply andb_true_intro. split; [apply Z.leb_le|apply Z.ltb_lt]; lia.
Qed.

Lemma conform_ptr {T} (enc : T -> option json) s p : p <> None -> (forall x, p = Some x -> conform s (enc x)) -> conform s (EncodePtr enc p).
Proof. intros Hp H. destruct p as [x|]; [by apply H|done]. Qed.

Lemma traverse_forall {T} (enc : T -> option json) (P : json -> Prop) l vs :
  (forall x v, In x l -> enc x = Some v -> P v) -> traverse enc l = Some vs -> forall v, In v vs -> P v.
Proof.
  revert vs. induction l as [|x l IH]; cbn; intros vs H; [by intros [= <-]|].
  destruct (enc x) as [v0|] eqn:Ex; [|done]. destruct (traverse enc l) as [vs0|] eqn:El; [|done]. intros [= <-] v [<-|Hv].
  - apply (H x); auto.
  - apply (IH vs0); eauto.
Qed.
Lemma conform_array {T} (enc : T -> option json) s l : (forall x, In x l -> conform s (enc x)) -> conform (array s) (EncodeArray enc l).
Proof.
  intros H v Hv. unfold EncodeArray in Hv. destruct (traverse enc l) as [vs|] eqn:El; [|done]. injection Hv as <-. cbn.
  apply forallb_forall. intros w Hw. by apply (traverse_forall enc _ l vs (fun x v Hx Hv => H x Hx v Hv) El).
Qed.
Lemma conform_slice {T} (enc : list T -> option json) s l : conform (array s) (enc l) -> conform (array s) (EncodeSlice enc l).
Proof. destruct l; [|done]. by intros _ v [= <-]. Qed.

Lemma conform_members {T} (enc : T -> option json) s (l : list (string * T)) :
  (forall k x, In (k, x) l -> conform s (enc x)) -> conform (map_of s) (EncodeMembers enc l).
Proof.
  intros H v Hv. unfold EncodeMembers in Hv. destruct (traverse _ l) as [vs|] eqn:El; [|done]. injection Hv as <-. cbn.
  apply forallb_forall. revert vs El. induction l as [|[k x] l IH]; cbn; intros vs El; [by injection El as <-|].
  destruct (enc x) as [w|] eqn:Ex; [|done]. cbn in El. destruct (traverse _ l) as [ws|]; [|done]. injection El as <-.
  intros m [<-|Hm]; [by apply (H k x (or_introl eq_refl))|]. apply (IH (fun k x Hx => H k x (or_intror Hx)) ws); done.
Qed.

Lemma conform_strings l : conform (array (value "string" "")) (strings_MarshalJSON l).
Proof. apply conform_array. intros x _. apply conform_string. Qed.
Lemma conform_extra l : conform (array (value "string" "")) (ExtraValue_MarshalJSON l).
Proof. apply conform_slice, conform_strings. Qed.

(** ** Structures *)

Definition provides (ms : list Member) (key : string) : bool := existsb (fun m => String.eqb key (m_key m) && m_set m) ms.
Definition described (ps : list (string * Schema)) (m : Member) : Prop :=
  exists p, assoc (m_key m) ps = Some p /\ (m_set m = true -> conform p (m_value m)).

Lemma conform_struct ps req ms : forallb (provides ms) req = true -> Forall (described ps) ms ->
  conform (object ps req) (MarshalStruct ms).
Proof.
  intros Hreq Hms v Hv. unfold MarshalStruct in Hv. destruct (object_members ms) as [l|] eqn:El; [|done]. injection Hv as <-.
  cbn -[assoc]. apply andb_true_intro. split.
  - apply forallb_forall. intros key Hk. apply (proj1 (forallb_forall _ _) Hreq) in Hk. clear Hreq Hms. revert l El Hk.
    induction ms as [|m ms IH]; cbn; [done|]. intros l. destruct (m_set m).
    + destruct (m_value m), (object_members ms) as [l0|]; try done. intros [= <-]. cbn. rewrite andb_true_r.
      destruct (String.eqb key (m_key m)); [done|]. by apply IH.
    + rewrite andb_false_r. apply IH.
  - apply forallb_forall. clear Hreq. revert l El. induction Hms as [|m ms (p & Hp & Hm) _ IH]; cbn; [by intros l [= <-]|].
    intros l. destruct (m_set m); [|apply IH]. destruct (m_value m) as [w|], (object_members ms) as [l0|]; try done.
    intros [= <-] x [<-|Hx]; [|by apply (IH l0)]. unfold property. cbn -[assoc conforms]. rewrite Hp. by apply Hm.
Qed.

Lemma described_all ps ms : (forall m, In m ms -> described ps m) -> Forall (described ps) ms.
Proof. apply List.Forall_forall. Qed.
Lemma describe_always ps p k v : assoc k ps = Some p -> conform p v -> described ps (always k v).
Proof. intros Ha Hv. exists p. split; [done|]. by intros _. Qed.
Lemma describe_omitempty ps p k b v e : assoc k ps = Some p -> (b = true -> conform p v) -> described ps (omitempty k b v e).
Proof. intros Ha Hv. by exists p. Qed.

(** The other way round: what conforms has conforming members. *)
Lemma conforms_written ps req ms m v : MarshalStruct ms = Some v -> conforms defs (object ps req) v = true ->
  In m ms -> m_set m = true ->
  exists p w, assoc (m_key m) ps = Some p /\ m_value m = Some w /\ conforms defs p w = true.
Proof.
  unfold MarshalStruct. intros Hv Hc Hm Hs. destruct (object_members ms) as [l|] eqn:El; [|done]. injection Hv as <-.
  assert (exists w, m_value m = Some w /\ In (m_key m, w) l) as (w & Hw & Hin).
  { clear Hc. revert l El Hm. induction ms as [|m' ms IH]; cbn; [done|]. intros l El [->|Hm].
    - rewrite Hs in El. destruct (m_value m) as [w|], (object_members ms); try done. injection El as <-. exists w. by split; [|left].
    - destruct (m_set m'); [|by apply IH]. destruct (m_value m'), (object_members ms) as [l0|]; try done. injection El as <-.
      destruct (IH l0 eq_refl Hm) as (w & Hw & Hin). exists w. by split; [|right]. }
  cbn -[assoc] in Hc. apply andb_prop in Hc as [_ Hc]. apply (proj1 (forallb_forall _ _) Hc) in Hin. unfold property in Hin.
  cbn -[assoc conforms] in Hin. destruct (assoc (m_key m) ps) as [p|]; [|done]. by exists p, w.
Qed.

End values.

(** Unfolds a type to its definition, goes through its members and closes the
    values with the database [conform]. *)
Create HintDb conform discriminated.
#[export] Hint Resolve conform_string conform_bool conform_bytes conform_int conform_strings conform_extra : conform.
Ltac conform_value :=
  lazymatch goal with
  | |- conform _ _ (EncodePtr _ ?p) =>
      apply conform_ptr;
      [let Hp := fresh in intros Hp; match goal with H : _ p = true |- _ => rewrite Hp in H; discriminate end
      |intros; conform_value]
  | |- conform _ _ (EncodeSlice _ _) => apply conform_slice; conform_value
  | |- conform _ _ (EncodeArray _ _) => apply conform_array; intros; conform_value
  | |- conform _ _ (EncodeMembers _ _) => apply conform_members; intros; conform_value
  | |- _ => first [ solve [eauto with conform nocore] | idtac ]
  end.
Ltac conform_struct d :=
  apply (conform_Ref _ _ d); [vm_compute; reflexivity|reflexivity|];
  apply conform_struct; [reflexivity|];
  repeat first [ apply List.Forall_nil
               | apply List.Forall_cons; [first [apply describe_always with (1 := eq_refl) | apply describe_omitempty with (1 := eq_refl); intros ?; try discriminate]|] ];
  conform_value.

(** What is assumed of the encoders of other packages: metadata and times
    conform to their definitions in the table, and references and embedded JSON
    are what [foreign] knows them by. *)
Class MachineryConforms (foreign : string -> json -> bool) (M : Machinery) := {
  metadata_conforms m : conforms foreign defs (Ref (meta_v1 "ObjectMeta")) (foreign_enc ObjectMeta_json m) = true;
  list_metadata_conforms m : conforms foreign defs (Ref (meta_v1 "ListMeta")) (foreign_enc ListMeta_json m) = true;
  time_conforms t : conforms foreign defs (Ref (meta_v1 "Time")) (foreign_enc Time_json t) = true;
  ObjectReference_foreign r : foreign (api_v1 "ObjectReference") (foreign_enc ObjectReference_json r) = true;
  LocalObjectReference_foreign r : foreign (api_v1 "LocalObjectReference") (foreign_enc LocalObjectReference_json r) = true;
  RawExtension_foreign x v : RawExtension_MarshalJSON x = Some v -> foreign (runtime "RawExtension") v = true }.

Section types.
Context {foreign : string -> json -> bool} {M : Machinery} {MC : MachineryConforms foreign M}.
Local Notation conforms := (conforms foreign).
Local Notation conform := (conform foreign).

Lemma conform_metadata m : conform (Ref (meta_v1 "ObjectMeta")) (EncodeForeign ObjectMeta_json m).
Proof. intros v [= <-]. apply metadata_conforms. Qed.
Lemma conform_list_metadata m : conform (Ref (meta_v1 "ListMeta")) (EncodeForeign ListMeta_json m).
Proof. intros v [= <-]. apply list_metadata_conforms. Qed.
Lemma conform_time t : conform (Ref (meta_v1 "Time")) (EncodeForeign Time_json t).
Proof. intros v [= <-]. apply time_conforms. Qed.
Lemma conform_ObjectReference r : conform (Ref (api_v1 "ObjectReference")) (EncodeForeign ObjectReference_json r).
Proof. apply conform_foreign; [by vm_compute|]. intros v [= <-]. apply ObjectReference_foreign. Qed.
Lemma conform_LocalObjectReference r : conform (Ref (api_v1 "LocalObjectReference")) (EncodeForeign LocalObjectReference_json r).
Proof. apply conform_foreign; [by vm_compute|]. intros v [= <-]. apply LocalObjectReference_foreign. Qed.
Lemma conform_RawExtension x : conform (Ref (runtime "RawExtension")) (RawExtension_MarshalJSON x).
Proof. apply conform_foreign; [by vm_compute|]. intros v. apply RawExtension_foreign. Qed.
#[local] Hint Resolve conform_metadata conform_list_metadata conform_time : conform.
#[local] Hint Resolve conform_ObjectReference conform_LocalObjectReference conform_RawExtension : conform.

Lemma SecretKeyReference_conforms x : conform (Ref (v1alpha1 "SecretKeyReference")) (SecretKeyReference_MarshalJSON x).
Proof. conform_struct v1alpha1_SecretKeyReference. Qed.
#[local] Hint Resolve SecretKeyReference_conforms : conform.
Lemma ParametersFromSource_conforms x : conform (Ref (v1alpha1 "ParametersFromSource")) (ParametersFromSource_MarshalJSON x).
Proof. conform_struct v1alpha1_ParametersFromSource. Qed.
#[local] Hint Resolve ParametersFromSource_conforms : conform.
Lemma UserInfo_conforms x : conform (Ref (v1alpha1 "UserInfo")) (UserInfo_MarshalJSON x).
Proof. conform_struct v1alpha1_UserInfo. Qed.
#[local] Hint Resolve UserInfo_conforms : conform.
Lemma BasicAuthConfig_conforms x : conform (Ref (v1alpha1 "BasicAuthConfig")) (BasicAuthConfig_MarshalJSON x).
Proof. conform_struct v1alpha1_BasicAuthConfig. Qed.
#[local] Hint Resolve BasicAuthConfig_conforms : conform.
Lemma BearerTokenAuthConfig_conforms x : conform (Ref (v1alpha1 "BearerTokenAuthConfig")) (BearerTokenAuthConfig_MarshalJSON x).
Proof. conform_struct v1alpha1_BearerTokenAuthConfig. Qed.
#[local] Hint Resolve BearerTokenAuthConfig_conforms : conform.
Lemma ServiceBrokerAuthInfo_conforms x : conform (Ref (v1alpha1 "ServiceBrokerAuthInfo")) (ServiceBrokerAuthInfo_MarshalJSON x).
Proof. conform_struct v1alpha1_ServiceBrokerAuthInfo. Qed.
#[local] Hint Resolve ServiceBrokerAuthInfo_conforms : conform.
Lemma ClusterServiceBrokerSpec_conforms x : RelistDuration x = None -> in_int64 (RelistRequests x) -> conform (Ref (v1alpha1 "ClusterServiceBrokerSpec")) (ClusterServiceBrokerSpec_MarshalJSON x).
Proof. intros Hd Hr. unfold ClusterServiceBrokerSpec_MarshalJSON. rewrite Hd. conform_struct v1alpha1_ClusterServiceBrokerSpec. Qed.
#[local] Hint Resolve ClusterServiceBrokerSpec_conforms : conform.
Lemma ServiceBrokerCondition_conforms x : conform (Ref (v1alpha1 "ServiceBrokerCondition")) (ServiceBrokerCondition_MarshalJSON x).
Proof. conform_struct v1alpha1_ServiceBrokerCondition. Qed.
#[local] Hint Resolve ServiceBrokerCondition_conforms : conform.
Lemma ServiceBrokerStatus_conforms x : in_int64 (bs_ReconciledGeneration x) -> conform (Ref (v1alpha1 "ServiceBrokerStatus")) (ServiceBrokerStatus_MarshalJSON x).
Proof. intros. conform_struct v1alpha1_ServiceBrokerStatus. Qed.
#[local] Hint Resolve ServiceBrokerStatus_conforms : conform.
Lemma ServiceClassSpec_conforms x : conform (Ref (v1alpha1 "ServiceClassSpec")) (ServiceClassSpec_MarshalJSON x).
Proof. conform_struct v1alpha1_ServiceClassSpec. Qed.
#[local] Hint Resolve ServiceClassSpec_conforms : conform.
Lemma ServicePlanSpec_conforms x : conform (Ref (v1alpha1 "ServicePlanSpec")) (ServicePlanSpec_MarshalJSON x).
Proof. conform_struct v1alpha1_ServicePlanSpec. Qed.
#[local] Hint Resolve ServicePlanSpec_conforms : conform.
Lemma ServiceInstanceSpec_conforms x : conform (Ref (v1alpha1 "ServiceInstanceSpec")) (ServiceInstanceSpec_MarshalJSON x).
Proof. conform_struct v1alpha1_ServiceInstanceSpec. Qed.
#[local] Hint Resolve ServiceInstanceSpec_conforms : conform.
Lemma ServiceInstancePropertiesState_conforms x : conform (Ref (v1alpha1 "ServiceInstancePropertiesState")) (ServiceInstancePropertiesState_MarshalJSON x).
Proof. conform_struct v1alpha1_ServiceInstancePropertiesState. Qed.
#[local] Hint Resolve ServiceInstancePropertiesState_conforms : conform.
Lemma ServiceInstanceCondition_conforms x : conform (Ref (v1alpha1 "ServiceInstanceCondition")) (ServiceInstanceCondition_MarshalJSON x).
Proof. conform_struct v1alpha1_ServiceInstanceCondition. Qed.
#[local] Hint Resolve ServiceInstanceCondition_conforms : conform.
Lemma ServiceInstanceStatus_conforms x : in_int64 (ReconciledGeneration x) -> conform (Ref (v1alpha1 "ServiceInstanceStatus")) (ServiceInstanceStatus_MarshalJSON x).
Proof. intros. conform_struct v1alpha1_ServiceInstanceStatus. Qed.
#[local] Hint Resolve ServiceInstanceStatus_conforms : conform.
Lemma ServiceInstanceCredentialSpec_conforms x : conform (Ref (v1alpha1 "ServiceInstanceCredentialSpec")) (ServiceInstanceCredentialSpec_MarshalJSON x).
Proof. conform_struct v1alpha1_ServiceInstanceCredentialSpec. Qed.
#[local] Hint Resolve ServiceInstanceCredentialSpec_conforms : conform.
Lemma ServiceInstanceCredentialPropertiesState_conforms x : conform (Ref (v1alpha1 "ServiceInstanceCredentialPropertiesState")) (ServiceInstanceCredentialPropertiesState_MarshalJSON x).
Proof. conform_struct v1alpha1_ServiceInstanceCredentialPropertiesState. Qed.
#[local] Hint Resolve ServiceInstanceCredentialPropertiesState_conforms : conform.
Lemma ServiceInstanceCredentialCondition_conforms x : conform (Ref (v1alpha1 "ServiceInstanceCredentialCondition")) (ServiceInstanceCredentialCondition_MarshalJSON x).
Proof. conform_struct v1alpha1_ServiceInstanceCredentialCondition. Qed.
#[local] Hint Resolve ServiceInstanceCredentialCondition_conforms : conform.
Lemma ServiceInstanceCredentialStatus_conforms x : in_int64 (bind_ReconciledGeneration x) -> conform (Ref (v1alpha1 "ServiceInstanceCredentialStatus")) (ServiceInstanceCredentialStatus_MarshalJSON x).
Proof. intros. conform_struct v1alpha1_ServiceInstanceCredentialStatus. Qed.
#[local] Hint Resolve ServiceInstanceCredentialStatus_conforms : conform.

Lemma ClusterServiceBroker_conforms x : RelistDuration (b_Spec x) = None -> in_int64 (RelistRequests (b_Spec x)) -> in_int64 (bs_ReconciledGeneration (b_Status x)) -> conform (Ref (v1alpha1 "ClusterServiceBroker")) (ClusterServiceBroker_MarshalJSON x).
Proof. intros. conform_struct v1alpha1_ClusterServiceBroker. Qed.
#[local] Hint Resolve ClusterServiceBroker_conforms : conform.
Lemma ServiceClass_conforms x : conform (Ref (v1alpha1 "ServiceClass")) (ServiceClass_MarshalJSON x).
Proof. conform_struct v1alpha1_ServiceClass. Qed.
#[local] Hint Resolve ServiceClass_conforms : conform.
Lemma ServicePlan_conforms x : conform (Ref (v1alpha1 "ServicePlan")) (ServicePlan_MarshalJSON x).
Proof. conform_struct v1alpha1_ServicePlan. Qed.
#[local] Hint Resolve ServicePlan_conforms : conform.
Lemma ServiceInstance_conforms x : in_int64 (ReconciledGeneration (si_Status x)) -> conform (Ref (v1alpha1 "ServiceInstance")) (ServiceInstance_MarshalJSON x).
Proof. intros. conform_struct v1alpha1_ServiceInstance. Qed.
#[local] Hint Resolve ServiceInstance_conforms : conform.
Lemma ServiceInstanceCredential_conforms x : in_int64 (bind_ReconciledGeneration (bind_Status x)) -> conform (Ref (v1alpha1 "ServiceInstanceCredential")) (ServiceInstanceCredential_MarshalJSON x).
Proof. intros. conform_struct v1alpha1_ServiceInstanceCredential. Qed.
#[local] Hint Resolve ServiceInstanceCredential_conforms : conform.

(** The numbers are in range, and there is no relist duration. *)
Definition Describable (o : RObject) : Prop :=
  match o with
  | RInstance i => in_int64 (ReconciledGeneration (si_Status i))
  | RBinding b => in_int64 (bind_ReconciledGeneration (bind_Status b))
  | RBroker b => RelistDuration (b_Spec b) = None /\ in_int64 (RelistRequests (b_Spec b)) /\ in_int64 (bs_ReconciledGeneration (b_Status b))
  | RClass _ | RPlan _ => True
  end.

(** ** Lists *)

#[local] Ltac conform_items :=
  match goal with H : forall y, In y _ -> _, Hy : In _ _ |- _ => apply H in Hy; cbn in Hy; intuition (auto with conform) end.

Lemma ClusterServiceBrokerList_conforms x : (forall y, In y (cbl_Items x) -> Describable (RBroker y)) -> conform (Ref (v1alpha1 "ClusterServiceBrokerList")) (ClusterServiceBrokerList_MarshalJSON x).
Proof. intros H. conform_struct v1alpha1_ClusterServiceBrokerList. conform_items. Qed.
Lemma ServiceClassList_conforms x : conform (Ref (v1alpha1 "ServiceClassList")) (ServiceClassList_MarshalJSON x).
Proof. conform_struct v1alpha1_ServiceClassList. Qed.
Lemma ServicePlanList_conforms x : conform (Ref (v1alpha1 "ServicePlanList")) (ServicePlanList_MarshalJSON x).
Proof. conform_struct v1alpha1_ServicePlanList. Qed.
Lemma ServiceInstanceList_conforms x : (forall y, In y (sil_Items x) -> Describable (RInstance y)) -> conform (Ref (v1alpha1 "ServiceInstanceList")) (ServiceInstanceList_MarshalJSON x).
Proof. intros H. conform_struct v1alpha1_ServiceInstanceList. conform_items. Qed.
Lemma ServiceInstanceCredentialList_conforms x : (forall y, In y (sicl_Items x) -> Describable (RBinding y)) -> conform (Ref (v1alpha1 "ServiceInstanceCredentialList")) (ServiceInstanceCredentialList_MarshalJSON x).
Proof. intros H. conform_struct v1alpha1_ServiceInstanceCredentialList. conform_items. Qed.

Definition type_of (o : RObject) : string :=
  match o with
  | RInstance _ => "ServiceInstance" | RBinding _ => "ServiceInstanceCredential" | RBroker _ => "ClusterServiceBroker"
  | RClass _ => "ServiceClass" | RPlan _ => "ServicePlan"
  end.

(** C36: What [encoding/json] writes for an object of the API conforms to the
    schema that is generated for its type: all members are properties with values
    of their types and formats, down to the last level, and the required ones
    are there; null is written only for a nil slice and the zero time.  The types of
    other packages are as good as their encoders: metadata and times are assumed
    to conform to their schemas in the table, and where the table has no definition
    (references to objects, embedded JSON) the value is one that the encoder of
    that type writes, whatever predicate [foreign] that is.  Numbers are in the
    range of [int64] and a broker has no relist duration
    ([relist_duration_does_not_conform]). *)
Theorem written_objects_conform o v : Describable o -> MarshalJSON o = Some v ->
  conforms GetOpenAPIDefinitions (Ref (v1alpha1 (type_of o))) v = true.
Proof.
  intros Ho. assert (conform (Ref (v1alpha1 (type_of o))) (MarshalJSON o)) as H; [|apply H].
  destruct o.
  - by apply ServiceInstance_conforms.
  - by apply ServiceInstanceCredential_conforms.
  - destruct Ho as (? & ? & ?). by apply ClusterServiceBroker_conforms.
  - apply ServiceClass_conforms.
  - apply ServicePlan_conforms.
Qed.

(** A relist duration is written as [metav1.Duration] marshals, as a string, but its
    schema is the structure of the Go type. *)
Lemma relist_duration_does_not_conform b d s v :
  RelistDuration (b_Spec b) = Some d -> foreign_enc Duration_json d = JString s -> MarshalJSON (RBroker b) = Some v ->
  conforms GetOpenAPIDefinitions (Ref (v1alpha1 "ClusterServiceBroker")) v = false.
Proof.
  intros Hd Hs Hv. apply not_true_is_false. intros Hc.
  rewrite (conforms_Ref _ _ v1alpha1_ClusterServiceBroker) in Hc by (vm_compute; reflexivity).
  destruct (conforms_written _ _ _ _ (always "spec" _) _ Hv Hc ltac:(right; right; right; left; reflexivity) eq_refl) as (p & w & Hp & Hw & Hcw).
  injection Hp as <-. cbn [m_value always] in Hw.
  rewrite (conforms_Ref _ _ v1alpha1_ClusterServiceBrokerSpec) in Hcw by (vm_compute; reflexivity).
  destruct (conforms_written _ _ _ _ (omitempty "relistDuration" _ _ _) _ Hw Hcw ltac:(do 5 right; left; reflexivity))
    as (p & w' & Hp & Hw' & Hcw'); [cbn; by rewrite Hd|].
  injection Hp as <-. cbn [m_value omitempty] in Hw'. rewrite Hd in Hw'. injection Hw' as <-. rewrite Hs in Hcw'. discriminate.
Qed.
End types.

(** ** The table *)

Fixpoint refs (s : Schema) : list string :=
  match schema_Ref s with Some path => [path] | None => [] end ++
  flat_map (fun p => refs (snd p)) (schema_Properties s) ++
  match schema_Items s with Some items => refs items | None => [] end ++
  match schema_AdditionalProperties s with Some values => refs values | None => [] end.
Definition includes (l l' : list string) : bool := forallb (fun x => existsb (String.eqb x) l') l.
Definition foreign_types : list string := [runtime "RawExtension"; runtime "Object"; api_v1 "ObjectReference"; api_v1 "LocalObjectReference"].

Lemma includes_In l l' x : includes l l' = true -> In x l -> In x l'.
Proof.
  intros H Hx. apply (proj1 (forallb_forall _ _) H), existsb_exists in Hx as (y & Hy & Heq).
  by destruct (String.eqb_spec x y) as [->|].
Qed.
Lemma assoc_In {A} (l : list (string * A)) k a : List.NoDup (map fst l) -> In (k, a) l -> assoc k l = Some a.
Proof.
  induction l as [|[k' a'] l IH]; [done|]. cbn. intros [Hk Hn]%List.NoDup_cons_iff [[= -> ->]|Hin]; [by rewrite String.eqb_refl|].
  destruct (String.eqb_spec k' k) as [->|]; [|auto]. destruct Hk. by apply (in_map fst) in Hin.
Qed.
Fixpoint distinct (l : list string) : bool :=
  match l with [] => true | x :: l' => negb (existsb (String.eqb x) l') && distinct l' end.
Lemma distinct_NoDup l : distinct l = true -> List.NoDup l.
Proof.
  induction l as [|x l IH]; cbn; [constructor|]. intros [H1 H2]%andb_prop. constructor; [|auto]. intros Hx.
  apply negb_true_iff in H1. rewrite <-not_true_iff_false in H1. apply H1, existsb_exists. exists x. by rewrite String.eqb_refl.
Qed.

Definition closed_definition (d : OpenAPIDefinition) : bool :=
  includes (Dependencies d) (refs (Definition_Schema d)) && includes (refs (Definition_Schema d)) (Dependencies d) &&
  includes (Dependencies d) (map fst GetOpenAPIDefinitions ++ foreign_types).
Lemma all_closed : forallb (fun p => closed_definition (snd p)) GetOpenAPIDefinitions = true.
Proof. vm_compute. reflexivity. Qed.
Lemma paths_distinct : distinct (map fst GetOpenAPIDefinitions) = true.
Proof. vm_compute. reflexivity. Qed.

(** Every path has one definition, which lists what it refers to as its
    dependencies, and nothing else; what is not defined in the table is one of
    four types of other packages. *)
Lemma table_is_closed path d : In (path, d) GetOpenAPIDefinitions ->
  assoc path GetOpenAPIDefinitions = Some d /\
  (forall dep, In dep (Dependencies d) <-> In dep (refs (Definition_Schema d))) /\
  (forall dep, In dep (Dependencies d) -> In dep (map fst GetOpenAPIDefinitions) \/ In dep foreign_types).
Proof.
  intros Hin. pose proof (proj1 (forallb_forall _ _) all_closed _ Hin) as H. unfold closed_definition in H. cbn [snd] in H.
  apply andb_prop in H as [[H1 H2]%andb_prop H3]. split_and!.
  - apply assoc_In; [|done]. apply distinct_NoDup, paths_distinct.
  - intros dep. split; by apply includes_In.
  - intros dep Hd. by apply (includes_In _ _ dep H3), in_app_or in Hd.
Qed.

(** ** A broker as it is written *)

(** Metadata, times and durations as the packages of Kubernetes write them, of the
    fields the sample has. *)
Definition plain {T} (enc : T -> json) : Foreign T := {| foreign_enc := enc; foreign_dec v x := Some x |}.
Definition plain_machinery : Machinery :=
  {| ObjectMeta_json := plain (fun m => JObject [("name", JString (Name m)); ("uid", JString (UID m)); ("generation", JNum "1")]);
     ListMeta_json := plain (fun m => JObject [("resourceVersion", JString (lm_ResourceVersion m))]);
     ObjectReference_json := plain (fun r => JObject [("name", JString (ref_Name r))]);
     LocalObjectReference_json := plain (fun r => JObject [("name", JString (lref_Name r))]);
     Time_json := plain (fun t => if t =? 0 then JNull else JString "2017-10-01T00:00:00Z");
     Duration_json := plain (fun d => JString (sprint [itoa d; "ns"]));
     DecodeInt_other _ := None; Selfer.range := @sorted_entries |}.
(** References have a name; embedded JSON is any value. *)
Definition plain_foreign (path : string) (v : json) : bool :=
  if String.eqb path (runtime "RawExtension") then true else match v with JObject [(key, JString _)] => String.eqb key "name" | _ => false end.
#[export] Instance plain_machinery_conforms : MachineryConforms plain_foreign plain_machinery.
Proof.
  split; intros.
  - rewrite (conforms_Ref _ _ meta_v1_ObjectMeta) by (vm_compute; reflexivity). reflexivity.
  - rewrite (conforms_Ref _ _ meta_v1_ListMeta) by (vm_compute; reflexivity). reflexivity.
  - rewrite (conforms_Ref _ _ Time_OpenAPIDefinition) by (vm_compute; reflexivity). cbn. by destruct (t =? 0).
  - reflexivity.
  - reflexivity.
  - reflexivity.
Qed.

Definition broker_written (relist : option Z) : ClusterServiceBroker :=
  Build_ClusterServiceBroker {| Kind := "ClusterServiceBroker"; APIVersion := "servicecatalog.k8s.io/v1alpha1" |}
    (Build_ObjectMeta "broker" "" "uid-1" "1" 1 None [] [])
    (Build_ClusterServiceBrokerSpec "http://broker" (Some (Build_ServiceBrokerAuthInfo (Some (Build_BasicAuthConfig (Some (Build_ObjectReference "" "ns" "auth" "" "" "")))) None None))
       false "cert" RelistBehaviorManual relist (-3))
    (Build_ServiceBrokerStatus [Build_ServiceInstanceCondition ConditionReady ConditionTrue 7 "FetchedCatalog" "ok"] 1 (Some 9)).
Definition json_written (relist : option Z) : json := default JNull (@MarshalJSON plain_machinery (RBroker (broker_written relist))).

Lemma written_objects_conform_witness :
  Describable (RBroker (broker_written None)) /\ json_written None <> JNull /\
  conforms plain_foreign GetOpenAPIDefinitions (Ref (v1alpha1 "ClusterServiceBroker")) (json_written None) = true.
Proof.
  split; [done|]. split; [done|]. apply (@written_objects_conform plain_foreign plain_machinery _ (RBroker (broker_written None))); [done|reflexivity].
Defined.

(** The schema does not just accept everything. *)
Example duration_is_refused :
  conforms plain_foreign GetOpenAPIDefinitions (Ref (v1alpha1 "ClusterServiceBroker")) (json_written (Some 900)) = false.
Proof. vm_compute. reflexivity. Qed.
Example missing_url_is_refused :
  conforms plain_foreign GetOpenAPIDefinitions (Ref (v1alpha1 "ClusterServiceBrokerSpec")) (JObject [("relistBehavior", JString "Manual"); ("relistRequests", JNum "0")]) = false.
Proof. vm_compute. reflexivity. Qed.
Example unknown_member_is_refused :
  conforms plain_foreign GetOpenAPIDefinitions (Ref (v1alpha1 "SecretKeyReference")) (JObject [("name", JString "a"); ("key", JString "b"); ("data", JNull)]) = false.
Proof. vm_compute. reflexivity. Qed.
Example null_is_refused :
  conforms plain_foreign GetOpenAPIDefinitions (Ref (v1alpha1 "SecretKeyReference")) (JObject [("name", JNull); ("key", JString "b")]) = false.
Proof. vm_compute. reflexivity. Qed.
Example wrong_reference_is_refused :
  conforms plain_foreign GetOpenAPIDefinitions (Ref (v1alpha1 "BasicAuthConfig")) (JObject [("secretRef", JNull)]) = false.
Proof. vm_compute. reflexivity. Qed.
