(* ===== verification/RestClient.v ===== *)
(** * The REST client of Kubernetes

    The request builder of [k8s.io/client-go/rest/request.go], on which the
    generated clients stand: the setters with the error they keep, the URL, the
    checks and retries of [Do], and what becomes of a response.  Of a URL there
    are the path and the query; bodies are objects ([Serialization] shows that
    their texts stand for them); throttling, back-off and metrics delay a
    request but do not change it. *)

From stdpp Require Import gmap strings list.
From S2P Require Import Prelude Types Selfer Fields Selectors APIServer Storage Http.

(** ** Groups, versions, kinds and resources

    [k8s.io/apimachinery/pkg/runtime/schema] *)

Record GroupVersion := { gv_Group : string; gv_Version : string }.
#[export] Instance GroupVersion_eq_dec : EqDecision GroupVersion.
Proof. solve_decision. Defined.
#[export] Instance GroupVersion_countable : Countable GroupVersion.
Proof.
  refine (inj_countable' (fun v => (gv_Group v, gv_Version v)) (fun t => {| gv_Group := t.1; gv_Version := t.2 |}) _).
  by intros [].
Defined.
Record GroupVersionResource := { gvr_Group : string; gvr_Version : string; gvr_Resource : string }.
#[export] Instance GroupVersionResource_eq_dec : EqDecision GroupVersionResource.
Proof. solve_decision. Defined.
#[export] Instance GroupVersionResource_countable : Countable GroupVersionResource.
Proof.
  refine (inj_countable' (fun r => (gvr_Group r, gvr_Version r, gvr_Resource r))
    (fun t => {| gvr_Group := t.1.1; gvr_Version := t.1.2; gvr_Resource := t.2 |}) _).
  by intros [].
Defined.
Record GroupVersionKind := { gvk_Group : string; gvk_Version : string; gvk_Kind : string }.

Definition APIVersionInternal : string := "__internal".
Definition GroupVersion_String (gv : GroupVersion) : string :=
  if bool_decide (gv_Group gv = "") && bool_decide (gv_Version gv = "") then ""
  else if bool_decide (gv_Group gv = "") && bool_decide (gv_Version gv = "v1") then gv_Version gv
  else if negb (bool_decide (gv_Group gv = "")) then sprint [gv_Group gv; "/"; gv_Version gv]
  else gv_Version gv.
Definition GroupVersionResource_text (r : GroupVersionResource) : string :=
  sprint ["{"; gvr_Group r; " "; gvr_Version r; " "; gvr_Resource r; "}"].

(** A resource with its group. *)
Definition GroupResource (gvr : GroupVersionResource) : string * string := (gvr_Group gvr, gvr_Resource gvr).
Definition GroupResource_String (gr : string * string) : string :=
  if bool_decide (fst gr = "") then snd gr else sprint [snd gr; "."; fst gr].

(** ** Options *)

Record DeleteOptions := {
  GracePeriodSeconds : option Z; Preconditions : option (option string);
  OrphanDependents : option bool; PropagationPolicy : option string }.
Record GetOptions := { go_ResourceVersion : string; go_IncludeUninitialized : bool }.
Record ListOptions := {
  LabelSelector : string; FieldSelector : string; lo_IncludeUninitialized : bool; lo_Watch : bool;
  lo_ResourceVersion : string; TimeoutSeconds : option Z }.
Definition with_Watch (b : bool) (o : ListOptions) : ListOptions :=
  {| LabelSelector := LabelSelector o; FieldSelector := FieldSelector o; lo_IncludeUninitialized := lo_IncludeUninitialized o;
     lo_Watch := b; lo_ResourceVersion := lo_ResourceVersion o; TimeoutSeconds := TimeoutSeconds o |}.

(** [EncodeParameters]: the fields that are not empty. *)
Definition text_param (key value : string) : list (string * string) := if bool_decide (value = "") then [] else [(key, value)].
Definition flag_param (key : string) (b : bool) : list (string * string) := if b then [(key, "true")] else [].
Definition GetOptions_params (o : GetOptions) : list (string * string) :=
  text_param "resourceVersion" (go_ResourceVersion o) ++ flag_param "includeUninitialized" (go_IncludeUninitialized o).
Definition ListOptions_params (o : ListOptions) : list (string * string) :=
  text_param "labelSelector" (LabelSelector o) ++ text_param "fieldSelector" (FieldSelector o) ++
  flag_param "includeUninitialized" (lo_IncludeUninitialized o) ++ flag_param "watch" (lo_Watch o) ++
  text_param "resourceVersion" (lo_ResourceVersion o) ++
  match TimeoutSeconds o with Some n => [("timeoutSeconds", itoa n)] | None => [] end.

(** ** Messages *)

Inductive Payload :=
| Empty
| Item (o : RObject)
| Items (typ : TypeMeta) (meta : ListMeta) (l : list RObject)
| Options (o : DeleteOptions)
| PatchData (data : string)
(** [metav1.Status]: of success, or of a failure *)
| Status (failure : option error)
| Undecodable (err : error).

(** What goes over the wire. *)
Record HTTPCall := { hc_Method : string; hc_Path : string; hc_Query : list (string * string); hc_ContentType : string; hc_Body : Payload }.

(** [rp_Text]: the body as it is quoted in an error, if its type is a text. *)
Record Response := { rp_StatusCode : Z; rp_RetryAfter : option Z; rp_Text : option string; rp_Body : Payload }.

Inductive Sent :=
| Answered (r : Response)
| NotSent (err : error) (reset : bool).

(** [http.Client.Do], over a world the server is part of. *)
Class Transport (W : Type) := send : HTTPCall -> W -> Sent * W.

(** ** Paths *)

(** [path.Join] and [path.Clean]. *)
Definition rooted (p : string) : bool := match p with String c _ => slash c | EmptyString => false end.
Definition Clean (p : string) : string :=
  if bool_decide (p = "") then "."
  else if rooted p then path_of (clean_segments (split_on [47]%nat p) [])
  else Join "/" (clean_segments (split_on [47]%nat p) []).
Definition path_Join (elems : list string) : string :=
  match List.filter (fun e => negb (bool_decide (e = ""))) elems with [] => "" | l => Clean (Join "/" l) end.

(** ** Requests *)

Record RESTClient := { versionedAPIPath : string; client_Group : string }.

Record Request := {
  req_client : RESTClient; req_verb : string; req_contentType : string; req_pathPrefix : string;
  req_params : list (string * string);
  req_namespace : string; req_namespaceSet : bool; req_resource : string; req_resourceName : string; req_subresource : string;
  req_err : option error; req_body : Payload }.

Definition req_fail (msg : string) (r : Request) : Request :=
  {| req_client := req_client r; req_verb := req_verb r; req_contentType := req_contentType r; req_pathPrefix := req_pathPrefix r;
     req_params := req_params r; req_namespace := req_namespace r; req_namespaceSet := req_namespaceSet r;
     req_resource := req_resource r; req_resourceName := req_resourceName r; req_subresource := req_subresource r;
     req_err := Some (PlainError msg); req_body := req_body r |}.
Definition req_with_params (ps : list (string * string)) (r : Request) : Request :=
  {| req_client := req_client r; req_verb := req_verb r; req_contentType := req_contentType r; req_pathPrefix := req_pathPrefix r;
     req_params := ps; req_namespace := req_namespace r; req_namespaceSet := req_namespaceSet r;
     req_resource := req_resource r; req_resourceName := req_resourceName r; req_subresource := req_subresource r;
     req_err := req_err r; req_body := req_body r |}.
Definition req_with_path (ns : string) (nsSet : bool) (resource name sub : string) (r : Request) : Request :=
  {| req_client := req_client r; req_verb := req_verb r; req_contentType := req_contentType r; req_pathPrefix := req_pathPrefix r;
     req_params := req_params r; req_namespace := ns; req_namespaceSet := nsSet;
     req_resource := resource; req_resourceName := name; req_subresource := sub;
     req_err := req_err r; req_body := req_body r |}.
Definition req_with_body (contentType : string) (b : Payload) (r : Request) : Request :=
  {| req_client := req_client r; req_verb := req_verb r; req_contentType := contentType; req_pathPrefix := req_pathPrefix r;
     req_params := req_params r; req_namespace := req_namespace r; req_namespaceSet := req_namespaceSet r;
     req_resource := req_resource r; req_resourceName := req_resourceName r; req_subresource := req_subresource r;
     req_err := req_err r; req_body := b |}.

Definition NewRequest (c : RESTClient) (verb : string) : Request :=
  {| req_client := c; req_verb := verb; req_contentType := ""; req_pathPrefix := path_Join ["/"; versionedAPIPath c];
     req_params := []; req_namespace := ""; req_namespaceSet := false; req_resource := ""; req_resourceName := "";
     req_subresource := ""; req_err := None; req_body := Empty |}.

Definition RESTClient_Post (c : RESTClient) : Request := NewRequest c "POST".
Definition RESTClient_Put (c : RESTClient) : Request := NewRequest c "PUT".
Definition RESTClient_Get (c : RESTClient) : Request := NewRequest c "GET".
Definition RESTClient_Delete (c : RESTClient) : Request := NewRequest c "DELETE".
Definition RESTClient_Patch (pt : string) (c : RESTClient) : Request := req_with_body pt Empty (NewRequest c "PATCH").

(** A setter does nothing once there is an error. *)
Definition setter (f : Request -> Request) (r : Request) : Request := match req_err r with Some _ => r | None => f r end.

Definition msgs_text (msgs : list string) : string := sprint ["["; Join " " msgs; "]"].

Definition Request_Resource (resource : string) : Request -> Request := setter (fun r =>
  if negb (bool_decide (req_resource r = "")) then
    req_fail (sprint ["resource already set to "; quote (req_resource r); ", cannot change to "; quote resource]) r
  else match IsValidPathSegmentName resource with
       | [] => req_with_path (req_namespace r) (req_namespaceSet r) resource (req_resourceName r) (req_subresource r) r
       | msgs => req_fail (sprint ["invalid resource "; quote resource; ": "; msgs_text msgs]) r
       end).

(** The first segment that is not valid, with what is wrong with it. *)
Fixpoint invalid_segment (l : list string) : option (string * list string) :=
  match l with
  | [] => None
  | s :: l' => match IsValidPathSegmentName s with [] => invalid_segment l' | msgs => Some (s, msgs) end
  end.

Definition Request_SubResource (subresources : list string) : Request -> Request := setter (fun r =>
  let subresource := path_Join subresources in
  if negb (bool_decide (req_subresource r = "")) then
    req_fail (sprint ["subresource already set to "; quote (req_resource r); ", cannot change to "; quote subresource]) r
  else match invalid_segment subresources with
       | Some (s, msgs) => req_fail (sprint ["invalid subresource "; quote s; ": "; msgs_text msgs]) r
       | None => req_with_path (req_namespace r) (req_namespaceSet r) (req_resource r) (req_resourceName r) subresource r
       end).

Definition Request_Name (resourceName : string) : Request -> Request := setter (fun r =>
  if bool_decide (resourceName = "") then req_fail "resource name may not be empty" r
  else if negb (bool_decide (req_resourceName r = "")) then
    req_fail (sprint ["resource name already set to "; quote (req_resourceName r); ", cannot change to "; quote resourceName]) r
  else match IsValidPathSegmentName resourceName with
       | [] => req_with_path (req_namespace r) (req_namespaceSet r) (req_resource r) resourceName (req_subresource r) r
       | msgs => req_fail (sprint ["invalid resource name "; quote resourceName; ": "; msgs_text msgs]) r
       end).

Definition Request_Namespace (namespace : string) : Request -> Request := setter (fun r =>
  if req_namespaceSet r then
    req_fail (sprint ["namespace already set to "; quote (req_namespace r); ", cannot change to "; quote namespace]) r
  else match IsValidPathSegmentName namespace with
       | [] => req_with_path namespace true (req_resource r) (req_resourceName r) (req_subresource r) r
       | msgs => req_fail (sprint ["invalid namespace "; quote namespace; ": "; msgs_text msgs]) r
       end).

(** [setParam]; [timeout] is not to be set directly. *)
Definition setParam (key value : string) (r : Request) : Request :=
  if bool_decide (key = "timeout") then req_fail (sprint ["must set "; key; " through the corresponding function, not directly."]) r
  else req_with_params (req_params r ++ [(key, value)]) r.

(** Empty selectors are left out; a field selector is parsed, its fields are those
    of the API group (none is mapped for this one) and it is written again. *)
Definition versioned_param (p : string * string) (r : Request) : Request :=
  let (k, value) := p in
  match req_err r with
  | Some _ => r
  | None =>
      if bool_decide (k = "labelSelector") && bool_decide (value = "") then r
      else if bool_decide (k = "fieldSelector") then
        if bool_decide (value = "") then r
        else match ParseSelector value with
             | inr err => req_fail (sprint ["unparsable field selector: "; Error err]) r
             | inl selector =>
                 match Transform (fun field value => inl (field, value)) selector with
                 | inr err => req_fail (sprint ["untransformable field selector: "; Error err]) r
                 | inl filteredSelector => setParam k (Selector_String filteredSelector) r
                 end
             end
      else setParam k value r
  end.
Definition VersionedParams (params : list (string * string)) : Request -> Request := setter (fun r =>
  fold_left (fun r p => versioned_param p r) params r).

(** The body: an object is encoded, and a nil one is left out. *)
Definition Body_object (o : RObject) : Request -> Request := setter (req_with_body "application/json" (Item o)).
Definition Body_options (o : option DeleteOptions) : Request -> Request := setter (fun r =>
  match o with Some o => req_with_body "application/json" (Options o) r | None => r end).
Definition Body_data (data : string) : Request -> Request := setter (fun r => req_with_body (req_contentType r) (PatchData data) r).

Definition Request_path (r : Request) : string :=
  let p := req_pathPrefix r in
  let p := if req_namespaceSet r && negb (bool_decide (req_namespace r = "")) then path_Join [p; "namespaces"; req_namespace r] else p in
  let p := if negb (bool_decide (req_resource r = "")) then path_Join [p; ToLower (req_resource r)] else p in
  if negb (bool_decide (req_resourceName r = "")) || negb (bool_decide (req_subresource r = ""))
  then path_Join [p; req_resourceName r; req_subresource r] else p.
Definition URL (r : Request) : HTTPCall :=
  {| hc_Method := req_verb r; hc_Path := Request_path r; hc_Query := req_params r; hc_ContentType := req_contentType r; hc_Body := req_body r |}.

(** ** Sending *)

(** The checks before anything is sent. *)
Definition request_error (r : Request) : option error :=
  match req_err r with
  | Some err => Some err
  | None =>
      if (bool_decide (req_verb r = "GET") || bool_decide (req_verb r = "PUT") || bool_decide (req_verb r = "DELETE")) &&
         req_namespaceSet r && negb (bool_decide (req_resourceName r = "")) && bool_decide (req_namespace r = "")
      then Some (PlainError "an empty namespace may not be set when a resource name is provided")
      else if bool_decide (req_verb r = "POST") && req_namespaceSet r && bool_decide (req_namespace r = "")
      then Some (PlainError "an empty namespace may not be set during creation")
      else None
  end.

(** [checkWait]: whether the server asks to wait and try again. *)
Definition checkWait (resp : Response) : bool :=
  ((rp_StatusCode resp =? 429) || (500 <=? rp_StatusCode resp)) && match rp_RetryAfter resp with Some _ => true | None => false end.
Definition resetResponse : Response := {| rp_StatusCode := 500; rp_RetryAfter := Some 1; rp_Text := Some ""; rp_Body := Empty |}.

Definition maxRetries : nat := 10.

Section client.
Context {W : Type} {T : Transport W}.

(** The loop; [left] counts the retries that may follow. *)
Fixpoint attempt (left : nat) (r : Request) (w : W) : (Response + error) * W :=
  let (sent, w) := send (URL r) w in
  let respond (resp : Response) :=
    if checkWait resp then match left with O => (inl resp, w) | S left' => attempt left' r w end else (inl resp, w) in
  match sent with
  | NotSent err reset => if negb reset || negb (bool_decide (req_verb r = "GET")) then (inr err, w) else respond resetResponse
  | Answered resp => respond resp
  end.

Definition request (r : Request) (w : W) : (Response + error) * W :=
  match request_error r with
  | Some err => (inr err, w)
  | None => attempt (maxRetries - 1) r w
  end.

(** ** Results *)

(** An error is marked when it stands for an unexpected answer of the server. *)
Record Result := { res_body : Payload; res_err : option (bool * error) }.

(** [errors.NewGenericServerResponse]: the reason and the message of a status code. *)
Definition generic_status (code : Z) (verb text : string) : StatusReason * string :=
  if code =? 409 then ((if bool_decide (verb = "POST") then ReasonAlreadyExists else ReasonConflict), "the server reported a conflict")
  else if code =? 404 then (ReasonNotFound, "the server could not find the requested resource")
  else if code =? 400 then (ReasonBadRequest, "the server rejected our request for an unknown reason")
  else if code =? 401 then (ReasonOther "Unauthorized", "the server has asked for the client to provide credentials")
  else if code =? 403 then (ReasonForbidden, text)
  else if code =? 405 then (ReasonOther "MethodNotAllowed", "the server does not allow this method on the requested resource")
  else if code =? 422 then (ReasonInvalid, "the server rejected our request due to an error in our request")
  else if code =? 504 then (ReasonOther "ServerTimeout", "the server cannot complete the requested operation at this time, try again later")
  else if code =? 429 then (ReasonOther "Timeout", "the server has received too many requests and has asked us to try again later")
  else if 500 <=? code then (ReasonInternalError, sprint ["an error on the server ("; quote text; ") has prevented the request from succeeding"])
  else (ReasonOther "", sprint ["the server responded with the status code "; itoa code; " but did not return more information"]).

Definition newUnstructuredResponseError (r : Request) (resp : Response) : error :=
  let (reason, message) := generic_status (rp_StatusCode resp) (req_verb r) (default "unknown" (rp_Text resp)) in
  let where_ :=
    if bool_decide (req_resource r = "") then ""
    else sprint ([" ("; ToLower (req_verb r); " "; req_resource r; "."; client_Group (req_client r)] ++
                 (if bool_decide (req_resourceName r = "") then [] else [" "; req_resourceName r]) ++ [")"]) in
  StatusError reason (sprint [message; where_]).

Definition transformResponse (r : Request) (resp : Response) : Result :=
  let code := rp_StatusCode resp in
  if (code =? 101) || ((200 <=? code) && (code <=? 206)) then {| res_body := rp_Body resp; res_err := None |}
  else {| res_body := rp_Body resp; res_err := Some (true, newUnstructuredResponseError r resp) |}.

Definition Do (r : Request) (w : W) : Result * W :=
  let (answer, w) := request r w in
  (match answer with
   | inl resp => transformResponse r resp
   | inr err => {| res_body := Empty; res_err := Some (false, err) |}
   end, w).

(** [Result.Error]: a status in the body is preferred. *)
Definition Result_Error (res : Result) : option error :=
  match res_err res with
  | None => None
  | Some (false, err) => Some err
  | Some (true, err) => match res_body res with Status (Some failure) => Some failure | _ => Some err end
  end.

(** [Into]: what is decoded into the result variable, which starts as [zero]; an
    object of another kind leaves it as it is. *)
Definition Result_Into {A} (zero : A) (read : Payload -> option A) (res : Result) : A * option error :=
  match res_err res with
  | Some _ => (zero, Result_Error res)
  | None =>
      match res_body res with
      | Empty => (zero, Some (PlainError "0-length response"))
      | Undecodable err => (zero, Some err)
      | Status (Some failure) => (zero, Some failure)
      | body => (default zero (read body), None)
      end
  end.

(** A call of a client: its result and error, and the world after it. *)
Definition Call (A : Type) : Type := W -> (A * option error) * W.
Definition Into {A} (zero : A) (read : Payload -> option A) (d : W -> Result * W) : Call A :=
  fun w => let (res, w) := d w in (Result_Into zero read res, w).
Definition Call_Error (d : W -> Result * W) : W -> option error * W := fun w => let (res, w) := d w in (Result_Error res, w).

(** ** Watches *)

(** A watch without events, or the stream of a response. *)
Inductive Watcher := EmptyWatch | StreamWatcher (resp : Response).

(** [net.IsProbableEOF], which looks at the text of an error, is a parameter. *)
Definition Watch (IsProbableEOF : error -> bool) (r : Request) (w : W) : (Watcher + error) * W :=
  match req_err r with
  | Some err => (inr err, w)
  | None =>
      let (sent, w) := send (URL r) w in
      (match sent with
       | NotSent err _ => if IsProbableEOF err then inl EmptyWatch else inr err
       | Answered resp =>
           if negb (rp_StatusCode resp =? 200) then
             match res_err (transformResponse r resp) with
             | Some (_, err) => inr err
             | None => inr (PlainError (sprint ["for request '"; Request_path r; "', got status: "; itoa (rp_StatusCode resp)]))
             end
           else inl (StreamWatcher resp)
       end, w)
  end.
End client.

(** Chains of calls are written as in the source. *)
Notation "r |> f" := (f r) (at level 50, left associativity, only parsing).
