(* ===== verification/ApiHandlers.v ===== *)
(** * The HTTP front of the API server

    What a request of a client becomes before it reaches the stores of
    [Storage]: the resource, namespace and name of its URL
    ([endpoints/request/requestinfo.go]), the route ([endpoints/installer.go] on
    the table of [Storage]) and the handler ([endpoints/handlers/rest.go]).  The
    legacy prefixes are the default ones.  Admission is the matter of
    [Admission]; patches, watches, deletions of collections, label selectors and
    deletions with options are answered by a parameter. *)

From stdpp Require Import gmap strings list.
From S2P Require Import Prelude Types Selfer Fields Selectors APIServer Strategy Storage Http RestClient.

(** ** The resource of a URL *)

Record RequestInfo := {
  ri_IsResourceRequest : bool; ri_Path : string; ri_Verb : string; ri_APIPrefix : string; ri_APIGroup : string; ri_APIVersion : string;
  ri_Namespace : string; ri_Resource : string; ri_Subresource : string; ri_Name : string; ri_Parts : list string }.

Fixpoint trim_empty (l : list string) : list string := match l with "" :: l' => trim_empty l' | _ => l end.
Definition splitPath (path : string) : list string := rev (trim_empty (rev (trim_empty (split_on [47]%nat path)))).

Definition APIPrefixes : list string := ["apis"; "api"].
Definition GrouplessAPIPrefixes : list string := ["api"].
Definition specialVerbs : list string := ["proxy"; "redirect"; "watch"].
Definition specialVerbsNoSubresources : list string := ["proxy"; "redirect"].
Definition namespaceSubresources : list string := ["status"; "finalize"].

Definition verb_of_method (method : string) : string :=
  if bool_decide (method = "POST") then "create"
  else if bool_decide (method = "GET") || bool_decide (method = "HEAD") then "get"
  else if bool_decide (method = "PUT") then "update"
  else if bool_decide (method = "PATCH") then "patch"
  else if bool_decide (method = "DELETE") then "delete"
  else "".

Definition nonResource (method path : string) : RequestInfo :=
  {| ri_IsResourceRequest := false; ri_Path := path; ri_Verb := ToLower method; ri_APIPrefix := ""; ri_APIGroup := ""; ri_APIVersion := "";
     ri_Namespace := ""; ri_Resource := ""; ri_Subresource := ""; ri_Name := ""; ri_Parts := [] |}.

(** A get without a name is a list or a watch, a delete without one the deletion of
    a collection. *)
Definition verb_without_name (query : list (string * string)) (verb : string) : string :=
  if bool_decide (verb = "get") then
    if set_Has ["false"; "0"; ""] (ToLower (query_Get "watch" query)) then "list" else "watch"
  else if bool_decide (verb = "delete") then "deletecollection"
  else verb.

(** The parts behind the version: [namespaces/{namespace}/{kind}/*] or
    [{kind}/*]. *)
Definition namespace_parts (currentParts : list string) : string * list string :=
  match currentParts with
  | "namespaces" :: ns :: [] => (ns, currentParts)
  | "namespaces" :: ns :: kind :: rest => (ns, if set_Has namespaceSubresources kind then currentParts else kind :: rest)
  | _ => ("", currentParts)
  end.

Definition resource_info (prefix group version verb : string) (method path : string) (query : list (string * string)) (currentParts : list string) : RequestInfo :=
  let (namespace, parts) := namespace_parts currentParts in
  let name := nth 1 parts "" in
  {| ri_IsResourceRequest := true; ri_Path := path;
     ri_Verb := if bool_decide (name = "") then verb_without_name query verb else verb;
     ri_APIPrefix := prefix; ri_APIGroup := group; ri_APIVersion := version; ri_Namespace := namespace;
     ri_Resource := nth 0 parts ""; ri_Subresource := if set_Has specialVerbsNoSubresources verb then "" else nth 2 parts "";
     ri_Name := name; ri_Parts := parts |}.

Definition NewRequestInfo (method path : string) (query : list (string * string)) : RequestInfo + error :=
  let resource_request prefix group parts :=
    match parts with
    | version :: special :: currentParts =>
        if set_Has specialVerbs special then
          match currentParts with
          | [] => inr (PlainError (sprint ["unable to determine kind and namespace from url, "; path]))
          | _ => inl (resource_info prefix group version special method path query currentParts)
          end
        else inl (resource_info prefix group version (verb_of_method method) method path query (special :: currentParts))
    | _ => inl (nonResource method path)
    end in
  match splitPath path with
  | prefix :: ((_ :: _ :: _) as parts) =>
      if negb (set_Has APIPrefixes prefix) then inl (nonResource method path)
      else if set_Has GrouplessAPIPrefixes prefix then resource_request prefix "" parts
      else match parts with
           | group :: ((_ :: _ :: _) as parts') => resource_request prefix group parts'
           | _ => inl (nonResource method path)
           end
  | _ => inl (nonResource method path)
  end.

(** ** Routes *)

Inductive Action := LIST | POST | DELETECOLLECTION | GET | PUT | PATCH | DELETE.

Definition action_method (a : Action) : string :=
  match a with LIST | GET => "GET" | POST => "POST" | PUT => "PUT" | PATCH => "PATCH" | DELETE | DELETECOLLECTION => "DELETE" end.

Definition splitSubresource (path : string) : (string * string) + error :=
  match split_on [47]%nat path with
  | [resource; subresource] => inl (resource, subresource)
  | [resource] => inl (resource, "")
  | _ => inr (PlainError "api_installer allows only one or two segment paths (resource or resource/subresource)")
  end.

Definition full_storage (s : rest_Storage) : bool := match s with FullREST _ => true | SubresourceREST _ => false end.
Definition namespaced_storage (s : rest_Storage) : bool :=
  match s with FullREST e | SubresourceREST e => NamespaceScoped (CreateStrategy e) end.

Definition appendIf {A} (actions : list A) (a : A) (shouldAppend : bool) : list A := if shouldAppend then actions ++ [a] else actions.

(** The actions of [registerResourceHandlers] with their paths below the version;
    a store of a resource has every verb, a subresource is read, replaced and
    patched. *)
Definition resource_actions (resource subresource : string) (s : rest_Storage) : list (Action * list Segment) :=
  let full := full_storage s in
  let hasSubresource := negb (bool_decide (subresource = "")) in
  let base := if namespaced_storage s then [Lit "namespaces"; Var "namespace"; Lit resource] else [Lit resource] in
  let itemPath := base ++ [Var "name"] ++ if hasSubresource then [Lit subresource] else [] in
  let resourcePath := if hasSubresource then itemPath else base in
  let actions := appendIf [] (LIST, resourcePath) full in
  let actions := appendIf actions (POST, resourcePath) full in
  let actions := appendIf actions (DELETECOLLECTION, resourcePath) full in
  let actions := appendIf actions (GET, itemPath) true in
  let actions := appendIf actions (PUT, itemPath) true in
  let actions := appendIf actions (PATCH, itemPath) true in
  let actions := appendIf actions (DELETE, itemPath) full in
  if namespaced_storage s && negb hasSubresource then appendIf actions (LIST, [Lit resource]) full else actions.

(** The web service of the group version: every action with the storage behind it. *)
Definition root_segments : list Segment := [Lit "apis"; Lit "servicecatalog.k8s.io"; Lit "v1alpha1"].
Definition storage_routes (r : string * rest_Storage) : list (list Segment * Action * rest_Storage) :=
  match splitSubresource (fst r) with
  | inl (resource, subresource) => map (fun a => (root_segments ++ snd a, fst a, snd r)) (resource_actions resource subresource (snd r))
  | inr _ => []
  end.

Fixpoint select_route (routes : list (list Segment * Action * rest_Storage)) (method : string) (segments : list string) : option (Action * rest_Storage) :=
  match routes with
  | [] => None
  | (tpl, a, s) :: routes' =>
      if bool_decide (action_method a = method) && match match_segments tpl segments with Some _ => true | None => false end
      then Some (a, s) else select_route routes' method segments
  end.

(** ** Answers *)

(** The code of a reason. *)
Definition reason_code (r : StatusReason) : Z :=
  match r with
  | ReasonNotFound => 404
  | ReasonAlreadyExists | ReasonConflict => 409
  | ReasonInvalid => 422
  | ReasonForbidden => 403
  | ReasonBadRequest => 400
  | ReasonInternalError => 500
  | ReasonOther s => if bool_decide (s = "MethodNotAllowed") then 405 else 500
  end.
Definition ErrorToAPIStatus (err : error) : Z * error :=
  match err with
  | StatusError reason message => (reason_code reason, err)
  | _ => (500, StatusError (ReasonOther "") (Error err))
  end.

Definition answer (code : Z) (body : Payload) : Response :=
  {| rp_StatusCode := code; rp_RetryAfter := None; rp_Text := None; rp_Body := body |}.
Definition scope_err (err : error) : Response := let (code, status) := ErrorToAPIStatus err in answer code (Status (Some status)).

Definition respond (code : Z) (listType : TypeMeta) (listMeta : ListMeta) (r : Reply) : Response :=
  match r with
  | ReplyObject o => answer code (Item o)
  | ReplyStatus => answer 200 (Status None)
  | ReplyList l => answer 200 (Items listType listMeta l)
  | ReplyError err => scope_err err
  end.

(** ** Handlers *)

Definition kind_of_storage (s : rest_Storage) : string :=
  let resource := match s with @FullREST A H R _ | @SubresourceREST A H R _ => @resource A H R end in
  if bool_decide (resource = "serviceinstances") then "ServiceInstance"
  else if bool_decide (resource = "serviceinstancecredentials") then "ServiceInstanceCredential"
  else if bool_decide (resource = "clusterservicebrokers") then "ClusterServiceBroker"
  else if bool_decide (resource = "serviceclasses") then "ServiceClass"
  else "ServicePlan".

(** [Scheme.ConvertFieldLabel]: only classes and plans have a conversion. *)
Definition ConvertFieldLabel (kind : string) : TransformFunc := fun label value =>
  if bool_decide (kind = "ServiceClass") then ServiceClassFieldLabelConversionFunc label value
  else if bool_decide (kind = "ServicePlan") then ServicePlanFieldLabelConversionFunc label value
  else inr (PlainError (sprint ["No field label conversion function found for version servicecatalog.k8s.io/v1alpha1 and kind "; kind])).

Definition metaOfR (o : RObject) : ObjectMeta :=
  match o with RInstance i => si_Meta i | RBinding b => bind_Meta b | RBroker b => b_Meta b | RClass c => sc_Meta c | RPlan p => sp_Meta p end.

Definition errEmptyName : error := BadRequest "name must be provided".
Definition checkName (o : RObject) (name namespace : string) : option error :=
  let objName := Name (metaOfR o) in
  let objNamespace := Namespace (metaOfR o) in
  if bool_decide (objName = "") then
    Some (BadRequest (sprint ["the name of the object ("; name; " based on URL) was undeterminable: "; Error errEmptyName]))
  else if negb (bool_decide (objName = name)) then
    Some (BadRequest (sprint ["the name of the object ("; objName; ") does not match the name on the URL ("; name; ")"]))
  else if negb (bool_decide (namespace = "")) && negb (bool_decide (objNamespace = "")) && negb (bool_decide (objNamespace = namespace)) then
    Some (BadRequest (sprint ["the namespace of the object ("; objNamespace; ") does not match the namespace on the request ("; namespace; ")"]))
  else None.

(** The field selector of a list: none is everything. *)
Definition list_selector (kind : string) (query : list (string * string)) : Selector + error :=
  match List.find (fun p => bool_decide (fst p = "fieldSelector")) query with
  | None => inl Everything
  | Some (_, text) =>
      match ParseSelector text with
      | inr err => inr (BadRequest (Error err))
      | inl selector =>
          match Transform (ConvertFieldLabel kind) selector with
          | inr err => inr (BadRequest (Error err))
          | inl selector => inl selector
          end
      end
  end.

Definition has_key (key : string) (query : list (string * string)) : bool := existsb (fun p => bool_decide (fst p = key)) query.

(** The state of the server: what etcd holds, and how many requests there were. *)
Record Server := { sv_db : etcd; sv_count : nat }.

Section server.
Context {SV : StoreValidation}.
Context (routes : list (string * rest_Storage)) (user : option User)
  (uid_at rev_at : nat -> string) (now_at : nat -> Z) (listMeta_at : nat -> ListMeta)
  (others : Action -> rest_Storage -> RequestInfo -> HTTPCall -> etcd -> Response * etcd).

Definition context_of (info : RequestInfo) : RequestContext := {| ctx_Namespace := ri_Namespace info; ctx_User := user |}.

Definition listTypeOf (s : rest_Storage) : TypeMeta :=
  {| Kind := sprint [kind_of_storage s; "List"]; APIVersion := "servicecatalog.k8s.io/v1alpha1" |}.
(** The storage is asked; [n] numbers the request. *)
Definition finishRequest (n : nat) (s : rest_Storage) (info : RequestInfo) (code : Z) (v : Verb) (db : etcd) : Response * etcd :=
  let (r, db') := serve s (context_of info) v db in (respond code (listTypeOf s) (listMeta_at n) r, db').

Definition GetResource (n : nat) (s : rest_Storage) (info : RequestInfo) (db : etcd) : Response * etcd :=
  if bool_decide (ri_Name info = "") then (scope_err errEmptyName, db) else finishRequest n s info 200 (VGet (ri_Name info)) db.

Definition ListResource (n : nat) (s : rest_Storage) (info : RequestInfo) (call : HTTPCall) (db : etcd) : Response * etcd :=
  if has_key "watch" (hc_Query call) || has_key "labelSelector" (hc_Query call) then others LIST s info call db
  else match list_selector (kind_of_storage s) (hc_Query call) with
       | inr err => (scope_err err, db)
       | inl field => finishRequest n s info 200 (VList field) db
       end.

Definition CreateResource (n : nat) (s : rest_Storage) (info : RequestInfo) (call : HTTPCall) (db : etcd) : Response * etcd :=
  match hc_Body call with
  | Item o => finishRequest n s info 201 (VCreate (uid_at n) (rev_at n) o) db
  | _ => (scope_err wrongKind, db)
  end.

Definition UpdateResource (n : nat) (s : rest_Storage) (info : RequestInfo) (call : HTTPCall) (db : etcd) : Response * etcd :=
  if bool_decide (ri_Name info = "") then (scope_err errEmptyName, db) else
  match hc_Body call with
  | Item o =>
      match checkName o (ri_Name info) (ri_Namespace info) with
      | Some err => (scope_err err, db)
      | None => finishRequest n s info 200 (VUpdate (ri_Name info) (rev_at n) o) db
      end
  | _ => (scope_err wrongKind, db)
  end.

Definition DeleteResource (n : nat) (s : rest_Storage) (info : RequestInfo) (call : HTTPCall) (db : etcd) : Response * etcd :=
  if bool_decide (ri_Name info = "") then (scope_err errEmptyName, db) else
  match hc_Body call, hc_Query call with
  | Empty, [] => finishRequest n s info 200 (VDelete (ri_Name info) (rev_at n) (now_at n)) db
  | _, _ => others DELETE s info call db
  end.

Definition handle (n : nat) (a : Action) (s : rest_Storage) (info : RequestInfo) (call : HTTPCall) (db : etcd) : Response * etcd :=
  match a with
  | POST => CreateResource n s info call db
  | GET => GetResource n s info db
  | PUT => UpdateResource n s info call db
  | DELETE => DeleteResource n s info call db
  | LIST => ListResource n s info call db
  | PATCH | DELETECOLLECTION => others a s info call db
  end.

Definition ServeRequest (call : HTTPCall) (sv : Server) : Response * Server :=
  let n := sv_count sv in
  let (resp, db) :=
    match NewRequestInfo (hc_Method call) (hc_Path call) (hc_Query call) with
    | inr err => (scope_err err, sv_db sv)
    | inl info =>
        match select_route (flat_map storage_routes routes) (hc_Method call) (splitPath (hc_Path call)) with
        | Some (a, s) => handle n a s info call (sv_db sv)
        | None => (answer 404 Empty, sv_db sv)
        end
    end in
  (resp, {| sv_db := db; sv_count := S n |}).

(** The server behind a client. *)
#[local] Instance server_transport : Transport Server := fun call sv => let (resp, sv') := ServeRequest call sv in (Answered resp, sv').
End server.
