(* ===== verification/Clientset.v ===== *)
(** * The client set of [v1alpha1]

    [pkg/client/clientset_generated/clientset]: the clients of the five
    resources, which the controller and the admission plugins call, each a
    chain of calls on the builder of [RestClient], and how a client set is made
    from a configuration.  The REST client, the discovery client and the rate
    limiter of a configuration are made by [k8s.io/client-go] and are
    parameters.

    First, the kinds the generated clients carry.  Both client sets are generated
    from the same templates, one over the types of [v1alpha1] and one over the
    internal ones.  A client encodes and decodes with the codec of its scheme;
    for the internal types that codec converts, so what goes over the wire is
    the [v1alpha1] object. *)

From stdpp Require Import gmap strings list.
From S2P Require Import Prelude Types Selfer Fields InternalTypes Conversion ConversionLaws APIServer Storage RestClient.

(** ** Kinds *)

(** An object type of a client: its metadata, a new variable, and what the codec
    writes and reads for it. *)
Class ApiKind (A : Type) := {
  kind_meta : A -> ObjectMeta;
  kind_zero : A;
  kind_inject : A -> RObject;
  kind_project : RObject -> option A }.

Class ApiList (L A : Type) := { list_name : string; list_zero : L; list_of : TypeMeta -> ListMeta -> list A -> L }.

Fixpoint project_all {A} `{ApiKind A} (l : list RObject) : option (list A) :=
  match l with
  | [] => Some []
  | o :: l' => match kind_project o, project_all l' with Some a, Some l => Some (a :: l) | _, _ => None end
  end.

Definition read_item {A} `{ApiKind A} (b : Payload) : option A := match b with Item o => kind_project o | _ => None end.
Definition read_list {L A} `{ApiKind A, ApiList L A} (b : Payload) : option L :=
  match b with
  | Items t m l => if bool_decide (Kind t = list_name) then list_of t m <$> project_all l else None
  | _ => None
  end.

(** ** The versioned types *)

#[export] Instance ClusterServiceBroker_kind : ApiKind ClusterServiceBroker :=
  {| kind_meta := b_Meta; kind_zero := ClusterServiceBroker_zero; kind_inject := RBroker; kind_project o := match o with RBroker x => Some x | _ => None end |}.
#[export] Instance ClusterServiceBrokerList_list : ApiList ClusterServiceBrokerList ClusterServiceBroker :=
  {| list_name := "ClusterServiceBrokerList"; list_zero := ClusterServiceBrokerList_zero; list_of := Build_ClusterServiceBrokerList |}.
#[export] Instance ServiceClass_kind : ApiKind ServiceClass :=
  {| kind_meta := sc_Meta; kind_zero := ServiceClass_zero; kind_inject := RClass; kind_project o := match o with RClass x => Some x | _ => None end |}.
#[export] Instance ServiceClassList_list : ApiList ServiceClassList ServiceClass :=
  {| list_name := "ServiceClassList"; list_zero := ServiceClassList_zero; list_of := Build_ServiceClassList |}.
#[export] Instance ServicePlan_kind : ApiKind ServicePlan :=
  {| kind_meta := sp_Meta; kind_zero := ServicePlan_zero; kind_inject := RPlan; kind_project o := match o with RPlan x => Some x | _ => None end |}.
#[export] Instance ServicePlanList_list : ApiList ServicePlanList ServicePlan :=
  {| list_name := "ServicePlanList"; list_zero := ServicePlanList_zero; list_of := Build_ServicePlanList |}.
#[export] Instance ServiceInstance_kind : ApiKind ServiceInstance :=
  {| kind_meta := si_Meta; kind_zero := ServiceInstance_zero; kind_inject := RInstance; kind_project o := match o with RInstance x => Some x | _ => None end |}.
#[export] Instance ServiceInstanceList_list : ApiList ServiceInstanceList ServiceInstance :=
  {| list_name := "ServiceInstanceList"; list_zero := ServiceInstanceList_zero; list_of := Build_ServiceInstanceList |}.
#[export] Instance ServiceInstanceCredential_kind : ApiKind ServiceInstanceCredential :=
  {| kind_meta := bind_Meta; kind_zero := ServiceInstanceCredential_zero; kind_inject := RBinding; kind_project o := match o with RBinding x => Some x | _ => None end |}.
#[export] Instance ServiceInstanceCredentialList_list : ApiList ServiceInstanceCredentialList ServiceInstanceCredential :=
  {| list_name := "ServiceInstanceCredentialList"; list_zero := ServiceInstanceCredentialList_zero; list_of := Build_ServiceInstanceCredentialList |}.

(** ** The internal types *)

Definition internal_ClusterServiceBrokerSpec_zero : servicecatalog.ClusterServiceBrokerSpec := servicecatalog.Build_ClusterServiceBrokerSpec "" None false "" "" None 0.
Definition internal_ServiceBrokerStatus_zero : servicecatalog.ServiceBrokerStatus := servicecatalog.Build_ServiceBrokerStatus [] 0 None.
Definition internal_ClusterServiceBroker_zero : servicecatalog.ClusterServiceBroker := servicecatalog.Build_ClusterServiceBroker TypeMeta_zero ObjectMeta_zero internal_ClusterServiceBrokerSpec_zero internal_ServiceBrokerStatus_zero.
Definition internal_ServiceClassSpec_zero : servicecatalog.ServiceClassSpec := servicecatalog.Build_ServiceClassSpec "" "" "" "" false false None [] [].
Definition internal_ServiceClass_zero : servicecatalog.ServiceClass := servicecatalog.Build_ServiceClass TypeMeta_zero ObjectMeta_zero internal_ServiceClassSpec_zero.
Definition internal_ServicePlanSpec_zero : servicecatalog.ServicePlanSpec := servicecatalog.Build_ServicePlanSpec "" "" "" "" None false None None None None LocalObjectReference_zero.
Definition internal_ServicePlan_zero : servicecatalog.ServicePlan := servicecatalog.Build_ServicePlan TypeMeta_zero ObjectMeta_zero internal_ServicePlanSpec_zero.
Definition internal_ServiceInstanceSpec_zero : servicecatalog.ServiceInstanceSpec := servicecatalog.Build_ServiceInstanceSpec "" "" None None None None "" None.
Definition internal_ServiceInstanceStatus_zero : servicecatalog.ServiceInstanceStatus := servicecatalog.Build_ServiceInstanceStatus [] false false None None "" 0 None None None.
Definition internal_ServiceInstance_zero : servicecatalog.ServiceInstance := servicecatalog.Build_ServiceInstance TypeMeta_zero ObjectMeta_zero internal_ServiceInstanceSpec_zero internal_ServiceInstanceStatus_zero.
Definition internal_ServiceInstanceCredentialSpec_zero : servicecatalog.ServiceInstanceCredentialSpec := servicecatalog.Build_ServiceInstanceCredentialSpec LocalObjectReference_zero None None "" "" None.
Definition internal_ServiceInstanceCredentialStatus_zero : servicecatalog.ServiceInstanceCredentialStatus := servicecatalog.Build_ServiceInstanceCredentialStatus [] "" 0 None None None false.
Definition internal_ServiceInstanceCredential_zero : servicecatalog.ServiceInstanceCredential := servicecatalog.Build_ServiceInstanceCredential TypeMeta_zero ObjectMeta_zero internal_ServiceInstanceCredentialSpec_zero internal_ServiceInstanceCredentialStatus_zero.

#[export] Instance internal_ClusterServiceBroker_kind : ApiKind servicecatalog.ClusterServiceBroker :=
  {| kind_meta := servicecatalog.b_Meta; kind_zero := internal_ClusterServiceBroker_zero;
     kind_inject i := RBroker (Convert_servicecatalog_ClusterServiceBroker_To_v1alpha1_ClusterServiceBroker i ClusterServiceBroker_zero);
     kind_project o := match o with RBroker x => Some (Convert_v1alpha1_ClusterServiceBroker_To_servicecatalog_ClusterServiceBroker x internal_ClusterServiceBroker_zero) | _ => None end |}.
#[export] Instance internal_ClusterServiceBrokerList_list : ApiList servicecatalog.ClusterServiceBrokerList servicecatalog.ClusterServiceBroker :=
  {| list_name := "ClusterServiceBrokerList"; list_zero := servicecatalog.Build_ClusterServiceBrokerList TypeMeta_zero ListMeta_zero []; list_of := servicecatalog.Build_ClusterServiceBrokerList |}.
#[export] Instance internal_ServiceClass_kind : ApiKind servicecatalog.ServiceClass :=
  {| kind_meta := servicecatalog.sc_Meta; kind_zero := internal_ServiceClass_zero;
     kind_inject i := RClass (Convert_servicecatalog_ServiceClass_To_v1alpha1_ServiceClass i ServiceClass_zero);
     kind_project o := match o with RClass x => Some (Convert_v1alpha1_ServiceClass_To_servicecatalog_ServiceClass x internal_ServiceClass_zero) | _ => None end |}.
#[export] Instance internal_ServiceClassList_list : ApiList servicecatalog.ServiceClassList servicecatalog.ServiceClass :=
  {| list_name := "ServiceClassList"; list_zero := servicecatalog.Build_ServiceClassList TypeMeta_zero ListMeta_zero []; list_of := servicecatalog.Build_ServiceClassList |}.
#[export] Instance internal_ServicePlan_kind : ApiKind servicecatalog.ServicePlan :=
  {| kind_meta := servicecatalog.sp_Meta; kind_zero := internal_ServicePlan_zero;
     kind_inject i := RPlan (Convert_servicecatalog_ServicePlan_To_v1alpha1_ServicePlan i ServicePlan_zero);
     kind_project o := match o with RPlan x => Some (Convert_v1alpha1_ServicePlan_To_servicecatalog_ServicePlan x internal_ServicePlan_zero) | _ => None end |}.
#[export] Instance internal_ServicePlanList_list : ApiList servicecatalog.ServicePlanList servicecatalog.ServicePlan :=
  {| list_name := "ServicePlanList"; list_zero := servicecatalog.Build_ServicePlanList TypeMeta_zero ListMeta_zero []; list_of := servicecatalog.Build_ServicePlanList |}.
#[export] Instance internal_ServiceInstance_kind : ApiKind servicecatalog.ServiceInstance :=
  {| kind_meta := servicecatalog.si_Meta; kind_zero := internal_ServiceInstance_zero;
     kind_inject i := RInstance (Convert_servicecatalog_ServiceInstance_To_v1alpha1_ServiceInstance i ServiceInstance_zero);
     kind_project o := match o with RInstance x => Some (Convert_v1alpha1_ServiceInstance_To_servicecatalog_ServiceInstance x internal_ServiceInstance_zero) | _ => None end |}.
#[export] Instance internal_ServiceInstanceList_list : ApiList servicecatalog.ServiceInstanceList servicecatalog.ServiceInstance :=
  {| list_name := "ServiceInstanceList"; list_zero := servicecatalog.Build_ServiceInstanceList TypeMeta_zero ListMeta_zero []; list_of := servicecatalog.Build_ServiceInstanceList |}.
#[export] Instance internal_ServiceInstanceCredential_kind : ApiKind servicecatalog.ServiceInstanceCredential :=
  {| kind_meta := servicecatalog.bind_Meta; kind_zero := internal_ServiceInstanceCredential_zero;
     kind_inject i := RBinding (Convert_servicecatalog_ServiceInstanceCredential_To_v1alpha1_ServiceInstanceCredential i ServiceInstanceCredential_zero);
     kind_project o := match o with RBinding x => Some (Convert_v1alpha1_ServiceInstanceCredential_To_servicecatalog_ServiceInstanceCredential x internal_ServiceInstanceCredential_zero) | _ => None end |}.
#[export] Instance internal_ServiceInstanceCredentialList_list : ApiList servicecatalog.ServiceInstanceCredentialList servicecatalog.ServiceInstanceCredential :=
  {| list_name := "ServiceInstanceCredentialList"; list_zero := servicecatalog.Build_ServiceInstanceCredentialList TypeMeta_zero ListMeta_zero []; list_of := servicecatalog.Build_ServiceInstanceCredentialList |}.

(** ** The client of the group *)

Record ServicecatalogV1alpha1Client := { restClient : RESTClient }.

(** The fields of [rest.Config] that are looked at. *)
Record Config := {
  cfg_GroupVersion : option (string * string); cfg_APIPath : string; cfg_UserAgent : string;
  cfg_NegotiatedSerializer : string; cfg_RateLimiter : option string; cfg_QPS : Z; cfg_Burst : Z }.

Definition SchemeGroupVersion : string * string := ("servicecatalog.k8s.io", "v1alpha1").

Definition setConfigDefaults (DefaultKubernetesUserAgent : string) (config : Config) : Config :=
  {| cfg_GroupVersion := Some SchemeGroupVersion; cfg_APIPath := "/apis";
     cfg_UserAgent := if bool_decide (cfg_UserAgent config = "") then DefaultKubernetesUserAgent else cfg_UserAgent config;
     cfg_NegotiatedSerializer := "DirectCodecFactory{CodecFactory: scheme.Codecs}";
     cfg_RateLimiter := cfg_RateLimiter config; cfg_QPS := cfg_QPS config; cfg_Burst := cfg_Burst config |}.

(** The path of [DefaultServerURL]. *)
Definition DefaultServerURL_path (apiPath : string) (groupVersion : string * string) : string :=
  let versionedAPIPath := path_Join ["/"; apiPath] in
  if negb (bool_decide (fst groupVersion = "")) then path_Join [versionedAPIPath; fst groupVersion; snd groupVersion]
  else path_Join [versionedAPIPath; snd groupVersion].

Section clients.
Context {W : Type} {T : Transport W}.

(** ** ClusterServiceBroker *)

Record clusterServiceBrokers := { clusterServiceBrokers_client : RESTClient }.
Definition newClusterServiceBrokers (c : ServicecatalogV1alpha1Client) : clusterServiceBrokers := {| clusterServiceBrokers_client := restClient c |}.

Definition clusterServiceBrokers_Create (c : clusterServiceBrokers) (clusterServiceBroker : ClusterServiceBroker) : Call ClusterServiceBroker :=
  clusterServiceBrokers_client c |> RESTClient_Post
  |> Request_Resource "clusterservicebrokers"
  |> Body_object (kind_inject clusterServiceBroker)
  |> Do
  |> Into kind_zero read_item.
Definition clusterServiceBrokers_Update (c : clusterServiceBrokers) (clusterServiceBroker : ClusterServiceBroker) : Call ClusterServiceBroker :=
  clusterServiceBrokers_client c |> RESTClient_Put
  |> Request_Resource "clusterservicebrokers"
  |> Request_Name (Name (kind_meta clusterServiceBroker))
  |> Body_object (kind_inject clusterServiceBroker)
  |> Do
  |> Into kind_zero read_item.
Definition clusterServiceBrokers_UpdateStatus (c : clusterServiceBrokers) (clusterServiceBroker : ClusterServiceBroker) : Call ClusterServiceBroker :=
  clusterServiceBrokers_client c |> RESTClient_Put
  |> Request_Resource "clusterservicebrokers"
  |> Request_Name (Name (kind_meta clusterServiceBroker))
  |> Request_SubResource ["status"]
  |> Body_object (kind_inject clusterServiceBroker)
  |> Do
  |> Into kind_zero read_item.
Definition clusterServiceBrokers_Delete (c : clusterServiceBrokers) (name : string) (options : option DeleteOptions) : W -> option error * W :=
  clusterServiceBrokers_client c |> RESTClient_Delete
  |> Request_Resource "clusterservicebrokers"
  |> Request_Name name
  |> Body_options options
  |> Do
  |> Call_Error.
Definition clusterServiceBrokers_DeleteCollection (c : clusterServiceBrokers) (options : option DeleteOptions) (listOptions : ListOptions) : W -> option error * W :=
  clusterServiceBrokers_client c |> RESTClient_Delete
  |> Request_Resource "clusterservicebrokers"
  |> VersionedParams (ListOptions_params listOptions)
  |> Body_options options
  |> Do
  |> Call_Error.
Definition clusterServiceBrokers_Get (c : clusterServiceBrokers) (name : string) (options : GetOptions) : Call ClusterServiceBroker :=
  clusterServiceBrokers_client c |> RESTClient_Get
  |> Request_Resource "clusterservicebrokers"
  |> Request_Name name
  |> VersionedParams (GetOptions_params options)
  |> Do
  |> Into kind_zero read_item.
Definition clusterServiceBrokers_List (c : clusterServiceBrokers) (opts : ListOptions) : Call (ClusterServiceBrokerList) :=
  clusterServiceBrokers_client c |> RESTClient_Get
  |> Request_Resource "clusterservicebrokers"
  |> VersionedParams (ListOptions_params opts)
  |> Do
  |> Into list_zero read_list.
Definition clusterServiceBrokers_Watch (c : clusterServiceBrokers) (IsProbableEOF : error -> bool) (opts : ListOptions) : W -> (Watcher + error) * W :=
  let opts := with_Watch true opts in
  clusterServiceBrokers_client c |> RESTClient_Get
  |> Request_Resource "clusterservicebrokers"
  |> VersionedParams (ListOptions_params opts)
  |> Watch IsProbableEOF.
Definition clusterServiceBrokers_Patch (c : clusterServiceBrokers) (name : string) (pt : string) (data : string) (subresources : list string) : Call ClusterServiceBroker :=
  clusterServiceBrokers_client c |> RESTClient_Patch pt
  |> Request_Resource "clusterservicebrokers"
  |> Request_SubResource subresources
  |> Request_Name name
  |> Body_data data
  |> Do
  |> Into kind_zero read_item.

(** ** ServiceClass *)

Record serviceClasses := { serviceClasses_client : RESTClient }.
Definition newServiceClasses (c : ServicecatalogV1alpha1Client) : serviceClasses := {| serviceClasses_client := restClient c |}.

Definition serviceClasses_Create (c : serviceClasses) (serviceClass : ServiceClass) : Call ServiceClass :=
  serviceClasses_client c |> RESTClient_Post
  |> Request_Resource "serviceclasses"
  |> Body_object (kind_inject serviceClass)
  |> Do
  |> Into kind_zero read_item.
Definition serviceClasses_Update (c : serviceClasses) (serviceClass : ServiceClass) : Call ServiceClass :=
  serviceClasses_client c |> RESTClient_Put
  |> Request_Resource "serviceclasses"
  |> Request_Name (Name (kind_meta serviceClass))
  |> Body_object (kind_inject serviceClass)
  |> Do
  |> Into kind_zero read_item.
Definition serviceClasses_Delete (c : serviceClasses) (name : string) (options : option DeleteOptions) : W -> option error * W :=
  serviceClasses_client c |> RESTClient_Delete
  |> Request_Resource "serviceclasses"
  |> Request_Name name
  |> Body_options options
  |> Do
  |> Call_Error.
Definition serviceClasses_DeleteCollection (c : serviceClasses) (options : option DeleteOptions) (listOptions : ListOptions) : W -> option error * W :=
  serviceClasses_client c |> RESTClient_Delete
  |> Request_Resource "serviceclasses"
  |> VersionedParams (ListOptions_params listOptions)
  |> Body_options options
  |> Do
  |> Call_Error.
Definition serviceClasses_Get (c : serviceClasses) (name : string) (options : GetOptions) : Call ServiceClass :=
  serviceClasses_client c |> RESTClient_Get
  |> Request_Resource "serviceclasses"
  |> Request_Name name
  |> VersionedParams (GetOptions_params options)
  |> Do
  |> Into kind_zero read_item.
Definition serviceClasses_List (c : serviceClasses) (opts : ListOptions) : Call (ServiceClassList) :=
  serviceClasses_client c |> RESTClient_Get
  |> Request_Resource "serviceclasses"
  |> VersionedParams (ListOptions_params opts)
  |> Do
  |> Into list_zero read_list.
Definition serviceClasses_Watch (c : serviceClasses) (IsProbableEOF : error -> bool) (opts : ListOptions) : W -> (Watcher + error) * W :=
  let opts := with_Watch true opts in
  serviceClasses_client c |> RESTClient_Get
  |> Request_Resource "serviceclasses"
  |> VersionedParams (ListOptions_params opts)
  |> Watch IsProbableEOF.
Definition serviceClasses_Patch (c : serviceClasses) (name : string) (pt : string) (data : string) (subresources : list string) : Call ServiceClass :=
  serviceClasses_client c |> RESTClient_Patch pt
  |> Request_Resource "serviceclasses"
  |> Request_SubResource subresources
  |> Request_Name name
  |> Body_data data
  |> Do
  |> Into kind_zero read_item.

(** ** ServiceInstance *)

Record serviceInstances := { serviceInstances_client : RESTClient; serviceInstances_ns : string }.
Definition newServiceInstances (c : ServicecatalogV1alpha1Client) (namespace : string) : serviceInstances := {| serviceInstances_client := restClient c; serviceInstances_ns := namespace |}.

Definition serviceInstances_Create (c : serviceInstances) (serviceInstance : ServiceInstance) : Call ServiceInstance :=
  serviceInstances_client c |> RESTClient_Post
  |> Request_Namespace (serviceInstances_ns c)
  |> Request_Resource "serviceinstances"
  |> Body_object (kind_inject serviceInstance)
  |> Do
  |> Into kind_zero read_item.
Definition serviceInstances_Update (c : serviceInstances) (serviceInstance : ServiceInstance) : Call ServiceInstance :=
  serviceInstances_client c |> RESTClient_Put
  |> Request_Namespace (serviceInstances_ns c)
  |> Request_Resource "serviceinstances"
  |> Request_Name (Name (kind_meta serviceInstance))
  |> Body_object (kind_inject serviceInstance)
  |> Do
  |> Into kind_zero read_item.
Definition serviceInstances_UpdateStatus (c : serviceInstances) (serviceInstance : ServiceInstance) : Call ServiceInstance :=
  serviceInstances_client c |> RESTClient_Put
  |> Request_Namespace (serviceInstances_ns c)
  |> Request_Resource "serviceinstances"
  |> Request_Name (Name (kind_meta serviceInstance))
  |> Request_SubResource ["status"]
  |> Body_object (kind_inject serviceInstance)
  |> Do
  |> Into kind_zero read_item.
Definition serviceInstances_Delete (c : serviceInstances) (name : string) (options : option DeleteOptions) : W -> option error * W :=
  serviceInstances_client c |> RESTClient_Delete
  |> Request_Namespace (serviceInstances_ns c)
  |> Request_Resource "serviceinstances"
  |> Request_Name name
  |> Body_options options
  |> Do
  |> Call_Error.
Definition serviceInstances_DeleteCollection (c : serviceInstances) (options : option DeleteOptions) (listOptions : ListOptions) : W -> option error * W :=
  serviceInstances_client c |> RESTClient_Delete
  |> Request_Namespace (serviceInstances_ns c)
  |> Request_Resource "serviceinstances"
  |> VersionedParams (ListOptions_params listOptions)
  |> Body_options options
  |> Do
  |> Call_Error.
Definition serviceInstances_Get (c : serviceInstances) (name : string) (options : GetOptions) : Call ServiceInstance :=
  serviceInstances_client c |> RESTClient_Get
  |> Request_Namespace (serviceInstances_ns c)
  |> Request_Resource "serviceinstances"
  |> Request_Name name
  |> VersionedParams (GetOptions_params options)
  |> Do
  |> Into kind_zero read_item.
Definition serviceInstances_List (c : serviceInstances) (opts : ListOptions) : Call (ServiceInstanceList) :=
  serviceInstances_client c |> RESTClient_Get
  |> Request_Namespace (serviceInstances_ns c)
  |> Request_Resource "serviceinstances"
  |> VersionedParams (ListOptions_params opts)
  |> Do
  |> Into list_zero read_list.
Definition serviceInstances_Watch (c : serviceInstances) (IsProbableEOF : error -> bool) (opts : ListOptions) : W -> (Watcher + error) * W :=
  let opts := with_Watch true opts in
  serviceInstances_client c |> RESTClient_Get
  |> Request_Namespace (serviceInstances_ns c)
  |> Request_Resource "serviceinstances"
  |> VersionedParams (ListOptions_params opts)
  |> Watch IsProbableEOF.
Definition serviceInstances_Patch (c : serviceInstances) (name : string) (pt : string) (data : string) (subresources : list string) : Call ServiceInstance :=
  serviceInstances_client c |> RESTClient_Patch pt
  |> Request_Namespace (serviceInstances_ns c)
  |> Request_Resource "serviceinstances"
  |> Request_SubResource subresources
  |> Request_Name name
  |> Body_data data
  |> Do
  |> Into kind_zero read_item.
Definition serviceInstances_UpdateReferences (c : serviceInstances) (serviceInstance : ServiceInstance) : Call ServiceInstance :=
  serviceInstances_client c |> RESTClient_Put
  |> Request_Namespace (Namespace (kind_meta serviceInstance))
  |> Request_Resource "serviceinstances"
  |> Request_Name (Name (kind_meta serviceInstance))
  |> Request_SubResource ["reference"]
  |> Body_object (kind_inject serviceInstance)
  |> Do
  |> Into kind_zero read_item.

(** ** ServiceInstanceCredential *)

Record serviceInstanceCredentials := { serviceInstanceCredentials_client : RESTClient; serviceInstanceCredentials_ns : string }.
Definition newServiceInstanceCredentials (c : ServicecatalogV1alpha1Client) (namespace : string) : serviceInstanceCredentials := {| serviceInstanceCredentials_client := restClient c; serviceInstanceCredentials_ns := namespace |}.

Definition serviceInstanceCredentials_Create (c : serviceInstanceCredentials) (serviceInstanceCredential : ServiceInstanceCredential) : Call ServiceInstanceCredential :=
  serviceInstanceCredentials_client c |> RESTClient_Post
  |> Request_Namespace (serviceInstanceCredentials_ns c)
  |> Request_Resource "serviceinstancecredentials"
  |> Body_object (kind_inject serviceInstanceCredential)
  |> Do
  |> Into kind_zero read_item.
Definition serviceInstanceCredentials_Update (c : serviceInstanceCredentials) (serviceInstanceCredential : ServiceInstanceCredential) : Call ServiceInstanceCredential :=
  serviceInstanceCredentials_client c |> RESTClient_Put
  |> Request_Namespace (serviceInstanceCredentials_ns c)
  |> Request_Resource "serviceinstancecredentials"
  |> Request_Name (Name (kind_meta serviceInstanceCredential))
  |> Body_object (kind_inject serviceInstanceCredential)
  |> Do
  |> Into kind_zero read_item.
Definition serviceInstanceCredentials_UpdateStatus (c : serviceInstanceCredentials) (serviceInstanceCredential : ServiceInstanceCredential) : Call ServiceInstanceCredential :=
  serviceInstanceCredentials_client c |> RESTClient_Put
  |> Request_Namespace (serviceInstanceCredentials_ns c)
  |> Request_Resource "serviceinstancecredentials"
  |> Request_Name (Name (kind_meta serviceInstanceCredential))
  |> Request_SubResource ["status"]
  |> Body_object (kind_inject serviceInstanceCredential)
  |> Do
  |> Into kind_zero read_item.
Definition serviceInstanceCredentials_Delete (c : serviceInstanceCredentials) (name : string) (options : option DeleteOptions) : W -> option error * W :=
  serviceInstanceCredentials_client c |> RESTClient_Delete
  |> Request_Namespace (serviceInstanceCredentials_ns c)
  |> Request_Resource "serviceinstancecredentials"
  |> Request_Name name
  |> Body_options options
  |> Do
  |> Call_Error.
Definition serviceInstanceCredentials_DeleteCollection (c : serviceInstanceCredentials) (options : option DeleteOptions) (listOptions : ListOptions) : W -> option error * W :=
  serviceInstanceCredentials_client c |> RESTClient_Delete
  |> Request_Namespace (serviceInstanceCredentials_ns c)
  |> Request_Resource "serviceinstancecredentials"
  |> VersionedParams (ListOptions_params listOptions)
  |> Body_options options
  |> Do
  |> Call_Error.
Definition serviceInstanceCredentials_Get (c : serviceInstanceCredentials) (name : string) (options : GetOptions) : Call ServiceInstanceCredential :=
  serviceInstanceCredentials_client c |> RESTClient_Get
  |> Request_Namespace (serviceInstanceCredentials_ns c)
  |> Request_Resource "serviceinstancecredentials"
  |> Request_Name name
  |> VersionedParams (GetOptions_params options)
  |> Do
  |> Into kind_zero read_item.
Definition serviceInstanceCredentials_List (c : serviceInstanceCredentials) (opts : ListOptions) : Call (ServiceInstanceCredentialList) :=
  serviceInstanceCredentials_client c |> RESTClient_Get
  |> Request_Namespace (serviceInstanceCredentials_ns c)
  |> Request_Resource "serviceinstancecredentials"
  |> VersionedParams (ListOptions_params opts)
  |> Do
  |> Into list_zero read_list.
Definition serviceInstanceCredentials_Watch (c : serviceInstanceCredentials) (IsProbableEOF : error -> bool) (opts : ListOptions) : W -> (Watcher + error) * W :=
  let opts := with_Watch true opts in
  serviceInstanceCredentials_client c |> RESTClient_Get
  |> Request_Namespace (serviceInstanceCredentials_ns c)
  |> Request_Resource "serviceinstancecredentials"
  |> VersionedParams (ListOptions_params opts)
  |> Watch IsProbableEOF.
Definition serviceInstanceCredentials_Patch (c : serviceInstanceCredentials) (name : string) (pt : string) (data : string) (subresources : list string) : Call ServiceInstanceCredential :=
  serviceInstanceCredentials_client c |> RESTClient_Patch pt
  |> Request_Namespace (serviceInstanceCredentials_ns c)
  |> Request_Resource "serviceinstancecredentials"
  |> Request_SubResource subresources
  |> Request_Name name
  |> Body_data data
  |> Do
  |> Into kind_zero read_item.

(** ** ServicePlan *)

Record servicePlans := { servicePlans_client : RESTClient }.
Definition newServicePlans (c : ServicecatalogV1alpha1Client) : servicePlans := {| servicePlans_client := restClient c |}.

Definition servicePlans_Create (c : servicePlans) (servicePlan : ServicePlan) : Call ServicePlan :=
  servicePlans_client c |> RESTClient_Post
  |> Request_Resource "serviceplans"
  |> Body_object (kind_inject servicePlan)
  |> Do
  |> Into kind_zero read_item.
Definition servicePlans_Update (c : servicePlans) (servicePlan : ServicePlan) : Call ServicePlan :=
  servicePlans_client c |> RESTClient_Put
  |> Request_Resource "serviceplans"
  |> Request_Name (Name (kind_meta servicePlan))
  |> Body_object (kind_inject servicePlan)
  |> Do
  |> Into kind_zero read_item.
Definition servicePlans_Delete (c : servicePlans) (name : string) (options : option DeleteOptions) : W -> option error * W :=
  servicePlans_client c |> RESTClient_Delete
  |> Request_Resource "serviceplans"
  |> Request_Name name
  |> Body_options options
  |> Do
  |> Call_Error.
Definition servicePlans_DeleteCollection (c : servicePlans) (options : option DeleteOptions) (listOptions : ListOptions) : W -> option error * W :=
  servicePlans_client c |> RESTClient_Delete
  |> Request_Resource "serviceplans"
  |> VersionedParams (ListOptions_params listOptions)
  |> Body_options options
  |> Do
  |> Call_Error.
Definition servicePlans_Get (c : servicePlans) (name : string) (options : GetOptions) : Call ServicePlan :=
  servicePlans_client c |> RESTClient_Get
  |> Request_Resource "serviceplans"
  |> Request_Name name
  |> VersionedParams (GetOptions_params options)
  |> Do
  |> Into kind_zero read_item.
Definition servicePlans_List (c : servicePlans) (opts : ListOptions) : Call (ServicePlanList) :=
  servicePlans_client c |> RESTClient_Get
  |> Request_Resource "serviceplans"
  |> VersionedParams (ListOptions_params opts)
  |> Do
  |> Into list_zero read_list.
Definition servicePlans_Watch (c : servicePlans) (IsProbableEOF : error -> bool) (opts : ListOptions) : W -> (Watcher + error) * W :=
  let opts := with_Watch true opts in
  servicePlans_client c |> RESTClient_Get
  |> Request_Resource "serviceplans"
  |> VersionedParams (ListOptions_params opts)
  |> Watch IsProbableEOF.
Definition servicePlans_Patch (c : servicePlans) (name : string) (pt : string) (data : string) (subresources : list string) : Call ServicePlan :=
  servicePlans_client c |> RESTClient_Patch pt
  |> Request_Resource "serviceplans"
  |> Request_SubResource subresources
  |> Request_Name name
  |> Body_data data
  |> Do
  |> Into kind_zero read_item.
End clients.

Definition ClusterServiceBrokers (c : ServicecatalogV1alpha1Client) : clusterServiceBrokers := newClusterServiceBrokers c.
Definition ServiceClasses (c : ServicecatalogV1alpha1Client) : serviceClasses := newServiceClasses c.
Definition ServiceInstances (c : ServicecatalogV1alpha1Client) (namespace : string) : serviceInstances := newServiceInstances c namespace.
Definition ServiceInstanceCredentials (c : ServicecatalogV1alpha1Client) (namespace : string) : serviceInstanceCredentials :=
  newServiceInstanceCredentials c namespace.
Definition ServicePlans (c : ServicecatalogV1alpha1Client) : servicePlans := newServicePlans c.

(** ** Making clients *)

Section config.
Context (DefaultKubernetesUserAgent : string) (RESTClientFor : Config -> RESTClient + error).
Context {DiscoveryClient : Type} (NewDiscoveryClientForConfig : Config -> DiscoveryClient + error)
  (NewDiscoveryClient : RESTClient -> DiscoveryClient) (NewTokenBucketRateLimiter : Z -> Z -> string).

Definition ServicecatalogV1alpha1Client_NewForConfig (c : Config) : ServicecatalogV1alpha1Client + error :=
  match RESTClientFor (setConfigDefaults DefaultKubernetesUserAgent c) with
  | inr err => inr err
  | inl client => inl {| restClient := client |}
  end.
(** [None] is a panic. *)
Definition ServicecatalogV1alpha1Client_NewForConfigOrDie (c : Config) : option ServicecatalogV1alpha1Client :=
  match ServicecatalogV1alpha1Client_NewForConfig c with inl client => Some client | inr _ => None end.
Definition ServicecatalogV1alpha1Client_New (c : RESTClient) : ServicecatalogV1alpha1Client := {| restClient := c |}.
(** A nil client has no REST client. *)
Definition ServicecatalogV1alpha1Client_RESTClient (c : option ServicecatalogV1alpha1Client) : option RESTClient := restClient <$> c.

Record Clientset := { clientset_Discovery : DiscoveryClient; clientset_V1alpha1 : ServicecatalogV1alpha1Client }.

Definition Clientset_ServicecatalogV1alpha1 (c : option Clientset) : option ServicecatalogV1alpha1Client := clientset_V1alpha1 <$> c.
Definition Clientset_Servicecatalog (c : option Clientset) : option ServicecatalogV1alpha1Client := clientset_V1alpha1 <$> c.
Definition Clientset_DiscoveryInterface (c : option Clientset) : option DiscoveryClient := clientset_Discovery <$> c.

(** Both clients get the limiter that is made here. *)
Definition with_default_limiter (c : Config) : Config :=
  match cfg_RateLimiter c with
  | None =>
      if 0 <? cfg_QPS c then
        {| cfg_GroupVersion := cfg_GroupVersion c; cfg_APIPath := cfg_APIPath c; cfg_UserAgent := cfg_UserAgent c;
           cfg_NegotiatedSerializer := cfg_NegotiatedSerializer c;
           cfg_RateLimiter := Some (NewTokenBucketRateLimiter (cfg_QPS c) (cfg_Burst c)); cfg_QPS := cfg_QPS c; cfg_Burst := cfg_Burst c |}
      else c
  | Some _ => c
  end.
Definition Clientset_NewForConfig (c : Config) : Clientset + error :=
  let configShallowCopy := with_default_limiter c in
  match ServicecatalogV1alpha1Client_NewForConfig configShallowCopy with
  | inr err => inr err
  | inl client =>
      match NewDiscoveryClientForConfig configShallowCopy with
      | inr err => inr err
      | inl discovery => inl {| clientset_Discovery := discovery; clientset_V1alpha1 := client |}
      end
  end.
Definition Clientset_NewForConfigOrDie (c : Config) : option Clientset :=
  match ServicecatalogV1alpha1Client_NewForConfigOrDie c, NewDiscoveryClientForConfig c with
  | Some client, inl discovery => Some {| clientset_Discovery := discovery; clientset_V1alpha1 := client |}
  | _, _ => None
  end.
Definition Clientset_New (c : RESTClient) : Clientset :=
  {| clientset_Discovery := NewDiscoveryClient c; clientset_V1alpha1 := ServicecatalogV1alpha1Client_New c |}.
End config.
