(* ===== verification/InternalClientset.v ===== *)
(** * The client set of the internal types

    [pkg/client/clientset_generated/internalclientset], which the admission
    plugins call: the same clients as in [Clientset], over the internal types. *)

From stdpp Require Import gmap strings list.
From S2P Require Import Prelude Types Selfer Fields InternalTypes APIServer Storage RestClient Clientset.

Record ServicecatalogClient := { internal_restClient : RESTClient }.

(** The group version is that of the registered group, unless the configuration
    has one of the group already. *)
Definition internal_setConfigDefaults (Registry_Group : string -> (string * string) + error) (DefaultKubernetesUserAgent : string) (config : Config) :
    Config + error :=
  match Registry_Group "servicecatalog.k8s.io" with
  | inr err => inr err
  | inl g =>
      inl {| cfg_GroupVersion :=
               match cfg_GroupVersion config with
               | Some gv => if bool_decide (fst gv = fst g) then Some gv else Some g
               | None => Some g
               end;
             cfg_APIPath := "/apis";
             cfg_UserAgent := if bool_decide (cfg_UserAgent config = "") then DefaultKubernetesUserAgent else cfg_UserAgent config;
             cfg_NegotiatedSerializer := "scheme.Codecs"; cfg_RateLimiter := cfg_RateLimiter config;
             cfg_QPS := if cfg_QPS config =? 0 then 5 else cfg_QPS config;
             cfg_Burst := if cfg_Burst config =? 0 then 10 else cfg_Burst config |}
  end.

Section clients.
Context {W : Type} {T : Transport W}.

(** ** ClusterServiceBroker *)

Record internal_clusterServiceBrokers := { internal_clusterServiceBrokers_client : RESTClient }.
Definition internal_newClusterServiceBrokers (c : ServicecatalogClient) : internal_clusterServiceBrokers := {| internal_clusterServiceBrokers_client := internal_restClient c |}.

Definition internal_clusterServiceBrokers_Create (c : internal_clusterServiceBrokers) (clusterServiceBroker : servicecatalog.ClusterServiceBroker) : Call servicecatalog.ClusterServiceBroker :=
  internal_clusterServiceBrokers_client c |> RESTClient_Post
  |> Request_Resource "clusterservicebrokers"
  |> Body_object (kind_inject clusterServiceBroker)
  |> Do
  |> Into kind_zero read_item.
Definition internal_clusterServiceBrokers_Update (c : internal_clusterServiceBrokers) (clusterServiceBroker : servicecatalog.ClusterServiceBroker) : Call servicecatalog.ClusterServiceBroker :=
  internal_clusterServiceBrokers_client c |> RESTClient_Put
  |> Request_Resource "clusterservicebrokers"
  |> Request_Name (Name (kind_meta clusterServiceBroker))
  |> Body_object (kind_inject clusterServiceBroker)
  |> Do
  |> Into kind_zero read_item.
Definition internal_clusterServiceBrokers_UpdateStatus (c : internal_clusterServiceBrokers) (clusterServiceBroker : servicecatalog.ClusterServiceBroker) : Call servicecatalog.ClusterServiceBroker :=
  internal_clusterServiceBrokers_client c |> RESTClient_Put
  |> Request_Resource "clusterservicebrokers"
  |> Request_Name (Name (kind_meta clusterServiceBroker))
  |> Request_SubResource ["status"]
  |> Body_object (kind_inject clusterServiceBroker)
  |> Do
  |> Into kind_zero read_item.
Definition internal_clusterServiceBrokers_Delete (c : internal_clusterServiceBrokers) (name : string) (options : option DeleteOptions) : W -> option error * W :=
  internal_clusterServiceBrokers_client c |> RESTClient_Delete
  |> Request_Resource "clusterservicebrokers"
  |> Request_Name name
  |> Body_options options
  |> Do
  |> Call_Error.
Definition internal_clusterServiceBrokers_DeleteCollection (c : internal_clusterServiceBrokers) (options : option DeleteOptions) (listOptions : ListOptions) : W -> option error * W :=
  internal_clusterServiceBrokers_client c |> RESTClient_Delete
  |> Request_Resource "clusterservicebrokers"
  |> VersionedParams (ListOptions_params listOptions)
  |> Body_options options
  |> Do
  |> Call_Error.
Definition internal_clusterServiceBrokers_Get (c : internal_clusterServiceBrokers) (name : string) (options : GetOptions) : Call servicecatalog.ClusterServiceBroker :=
  internal_clusterServiceBrokers_client c |> RESTClient_Get
  |> Request_Resource "clusterservicebrokers"
  |> Request_Name name
  |> VersionedParams (GetOptions_params options)
  |> Do
  |> Into kind_zero read_item.
Definition internal_clusterServiceBrokers_List (c : internal_clusterServiceBrokers) (opts : ListOptions) : Call (servicecatalog.ClusterServiceBrokerList) :=
  internal_clusterServiceBrokers_client c |> RESTClient_Get
  |> Request_Resource "clusterservicebrokers"
  |> VersionedParams (ListOptions_params opts)
  |> Do
  |> Into list_zero read_list.
Definition internal_clusterServiceBrokers_Watch (c : internal_clusterServiceBrokers) (IsProbableEOF : error -> bool) (opts : ListOptions) : W -> (Watcher + error) * W :=
  let opts := with_Watch true opts in
  internal_clusterServiceBrokers_client c |> RESTClient_Get
  |> Request_Resource "clusterservicebrokers"
  |> VersionedParams (ListOptions_params opts)
  |> Watch IsProbableEOF.
Definition internal_clusterServiceBrokers_Patch (c : internal_clusterServiceBrokers) (name : string) (pt : string) (data : string) (subresources : list string) : Call servicecatalog.ClusterServiceBroker :=
  internal_clusterServiceBrokers_client c |> RESTClient_Patch pt
  |> Request_Resource "clusterservicebrokers"
  |> Request_SubResource subresources
  |> Request_Name name
  |> Body_data data
  |> Do
  |> Into kind_zero read_item.

(** ** ServiceClass *)

Record internal_serviceClasses := { internal_serviceClasses_client : RESTClient }.
Definition internal_newServiceClasses (c : ServicecatalogClient) : internal_serviceClasses := {| internal_serviceClasses_client := internal_restClient c |}.

Definition internal_serviceClasses_Create (c : internal_serviceClasses) (serviceClass : servicecatalog.ServiceClass) : Call servicecatalog.ServiceClass :=
  internal_serviceClasses_client c |> RESTClient_Post
  |> Request_Resource "serviceclasses"
  |> Body_object (kind_inject serviceClass)
  |> Do
  |> Into kind_zero read_item.
Definition internal_serviceClasses_Update (c : internal_serviceClasses) (serviceClass : servicecatalog.ServiceClass) : Call servicecatalog.ServiceClass :=
  internal_serviceClasses_client c |> RESTClient_Put
  |> Request_Resource "serviceclasses"
  |> Request_Name (Name (kind_meta serviceClass))
  |> Body_object (kind_inject serviceClass)
  |> Do
  |> Into kind_zero read_item.
Definition internal_serviceClasses_Delete (c : internal_serviceClasses) (name : string) (options : option DeleteOptions) : W -> option error * W :=
  internal_serviceClasses_client c |> RESTClient_Delete
  |> Request_Resource "serviceclasses"
  |> Request_Name name
  |> Body_options options
  |> Do
  |> Call_Error.
Definition internal_serviceClasses_DeleteCollection (c : internal_serviceClasses) (options : option DeleteOptions) (listOptions : ListOptions) : W -> option error * W :=
  internal_serviceClasses_client c |> RESTClient_Delete
  |> Request_Resource "serviceclasses"
  |> VersionedParams (ListOptions_params listOptions)
  |> Body_options options
  |> Do
  |> Call_Error.
Definition internal_serviceClasses_Get (c : internal_serviceClasses) (name : string) (options : GetOptions) : Call servicecatalog.ServiceClass :=
  internal_serviceClasses_client c |> RESTClient_Get
  |> Request_Resource "serviceclasses"
  |> Request_Name name
  |> VersionedParams (GetOptions_params options)
  |> Do
  |> Into kind_zero read_item.
Definition internal_serviceClasses_List (c : internal_serviceClasses) (opts : ListOptions) : Call (servicecatalog.ServiceClassList) :=
  internal_serviceClasses_client c |> RESTClient_Get
  |> Request_Resource "serviceclasses"
  |> VersionedParams (ListOptions_params opts)
  |> Do
  |> Into list_zero read_list.
Definition internal_serviceClasses_Watch (c : internal_serviceClasses) (IsProbableEOF : error -> bool) (opts : ListOptions) : W -> (Watcher + error) * W :=
  let opts := with_Watch true opts in
  internal_serviceClasses_client c |> RESTClient_Get
  |> Request_Resource "serviceclasses"
  |> VersionedParams (ListOptions_params opts)
  |> Watch IsProbableEOF.
Definition internal_serviceClasses_Patch (c : internal_serviceClasses) (name : string) (pt : string) (data : string) (subresources : list string) : Call servicecatalog.ServiceClass :=
  internal_serviceClasses_client c |> RESTClient_Patch pt
  |> Request_Resource "serviceclasses"
  |> Request_SubResource subresources
  |> Request_Name name
  |> Body_data data
  |> Do
  |> Into kind_zero read_item.

(** ** ServiceInstance *)

Record internal_serviceInstances := { internal_serviceInstances_client : RESTClient; internal_serviceInstances_ns : string }.
Definition internal_newServiceInstances (c : ServicecatalogClient) (namespace : string) : internal_serviceInstances := {| internal_serviceInstances_client := internal_restClient c; internal_serviceInstances_ns := namespace |}.

Definition internal_serviceInstances_Create (c : internal_serviceInstances) (serviceInstance : servicecatalog.ServiceInstance) : Call servicecatalog.ServiceInstance :=
  internal_serviceInstances_client c |> RESTClient_Post
  |> Request_Namespace (internal_serviceInstances_ns c)
  |> Request_Resource "serviceinstances"
  |> Body_object (kind_inject serviceInstance)
  |> Do
  |> Into kind_zero read_item.
Definition internal_serviceInstances_Update (c : internal_serviceInstances) (serviceInstance : servicecatalog.ServiceInstance) : Call servicecatalog.ServiceInstance :=
  internal_serviceInstances_client c |> RESTClient_Put
  |> Request_Namespace (internal_serviceInstances_ns c)
  |> Request_Resource "serviceinstances"
  |> Request_Name (Name (kind_meta serviceInstance))
  |> Body_object (kind_inject serviceInstance)
  |> Do
  |> Into kind_zero read_item.
Definition internal_serviceInstances_UpdateStatus (c : internal_serviceInstances) (serviceInstance : servicecatalog.ServiceInstance) : Call servicecatalog.ServiceInstance :=
  internal_serviceInstances_client c |> RESTClient_Put
  |> Request_Namespace (internal_serviceInstances_ns c)
  |> Request_Resource "serviceinstances"
  |> Request_Name (Name (kind_meta serviceInstance))
  |> Request_SubResource ["status"]
  |> Body_object (kind_inject serviceInstance)
  |> Do
  |> Into kind_zero read_item.
Definition internal_serviceInstances_Delete (c : internal_serviceInstances) (name : string) (options : option DeleteOptions) : W -> option error * W :=
  internal_serviceInstances_client c |> RESTClient_Delete
  |> Request_Namespace (internal_serviceInstances_ns c)
  |> Request_Resource "serviceinstances"
  |> Request_Name name
  |> Body_options options
  |> Do
  |> Call_Error.
Definition internal_serviceInstances_DeleteCollection (c : internal_serviceInstances) (options : option DeleteOptions) (listOptions : ListOptions) : W -> option error * W :=
  internal_serviceInstances_client c |> RESTClient_Delete
  |> Request_Namespace (internal_serviceInstances_ns c)
  |> Request_Resource "serviceinstances"
  |> VersionedParams (ListOptions_params listOptions)
  |> Body_options options
  |> Do
  |> Call_Error.
Definition internal_serviceInstances_Get (c : internal_serviceInstances) (name : string) (options : GetOptions) : Call servicecatalog.ServiceInstance :=
  internal_serviceInstances_client c |> RESTClient_Get
  |> Request_Namespace (internal_serviceInstances_ns c)
  |> Request_Resource "serviceinstances"
  |> Request_Name name
  |> VersionedParams (GetOptions_params options)
  |> Do
  |> Into kind_zero read_item.
Definition internal_serviceInstances_List (c : internal_serviceInstances) (opts : ListOptions) : Call (servicecatalog.ServiceInstanceList) :=
  internal_serviceInstances_client c |> RESTClient_Get
  |> Request_Namespace (internal_serviceInstances_ns c)
  |> Request_Resource "serviceinstances"
  |> VersionedParams (ListOptions_params opts)
  |> Do
  |> Into list_zero read_list.
Definition internal_serviceInstances_Watch (c : internal_serviceInstances) (IsProbableEOF : error -> bool) (opts : ListOptions) : W -> (Watcher + error) * W :=
  let opts := with_Watch true opts in
  internal_serviceInstances_client c |> RESTClient_Get
  |> Request_Namespace (internal_serviceInstances_ns c)
  |> Request_Resource "serviceinstances"
  |> VersionedParams (ListOptions_params opts)
  |> Watch IsProbableEOF.
Definition internal_serviceInstances_Patch (c : internal_serviceInstances) (name : string) (pt : string) (data : string) (subresources : list string) : Call servicecatalog.ServiceInstance :=
  internal_serviceInstances_client c |> RESTClient_Patch pt
  |> Request_Namespace (internal_serviceInstances_ns c)
  |> Request_Resource "serviceinstances"
  |> Request_SubResource subresources
  |> Request_Name name
  |> Body_data data
  |> Do
  |> Into kind_zero read_item.

(** ** ServiceInstanceCredential *)

Record internal_serviceInstanceCredentials := { internal_serviceInstanceCredentials_client : RESTClient; internal_serviceInstanceCredentials_ns : string }.
Definition internal_newServiceInstanceCredentials (c : ServicecatalogClient) (namespace : string) : internal_serviceInstanceCredentials := {| internal_serviceInstanceCredentials_client := internal_restClient c; internal_serviceInstanceCredentials_ns := namespace |}.

Definition internal_serviceInstanceCredentials_Create (c : internal_serviceInstanceCredentials) (serviceInstanceCredential : servicecatalog.ServiceInstanceCredential) : Call servicecatalog.ServiceInstanceCredential :=
  internal_serviceInstanceCredentials_client c |> RESTClient_Post
  |> Request_Namespace (internal_serviceInstanceCredentials_ns c)
  |> Request_Resource "serviceinstancecredentials"
  |> Body_object (kind_inject serviceInstanceCredential)
  |> Do
  |> Into kind_zero read_item.
Definition internal_serviceInstanceCredentials_Update (c : internal_serviceInstanceCredentials) (serviceInstanceCredential : servicecatalog.ServiceInstanceCredential) : Call servicecatalog.ServiceInstanceCredential :=
  internal_serviceInstanceCredentials_client c |> RESTClient_Put
  |> Request_Namespace (internal_serviceInstanceCredentials_ns c)
  |> Request_Resource "serviceinstancecredentials"
  |> Request_Name (Name (kind_meta serviceInstanceCredential))
  |> Body_object (kind_inject serviceInstanceCredential)
  |> Do
  |> Into kind_zero read_item.
Definition internal_serviceInstanceCredentials_UpdateStatus (c : internal_serviceInstanceCredentials) (serviceInstanceCredential : servicecatalog.ServiceInstanceCredential) : Call servicecatalog.ServiceInstanceCredential :=
  internal_serviceInstanceCredentials_client c |> RESTClient_Put
  |> Request_Namespace (internal_serviceInstanceCredentials_ns c)
  |> Request_Resource "serviceinstancecredentials"
  |> Request_Name (Name (kind_meta serviceInstanceCredential))
  |> Request_SubResource ["status"]
  |> Body_object (kind_inject serviceInstanceCredential)
  |> Do
  |> Into kind_zero read_item.
Definition internal_serviceInstanceCredentials_Delete (c : internal_serviceInstanceCredentials) (name : string) (options : option DeleteOptions) : W -> option error * W :=
  internal_serviceInstanceCredentials_client c |> RESTClient_Delete
  |> Request_Namespace (internal_serviceInstanceCredentials_ns c)
  |> Request_Resource "serviceinstancecredentials"
  |> Request_Name name
  |> Body_options options
  |> Do
  |> Call_Error.
Definition internal_serviceInstanceCredentials_DeleteCollection (c : internal_serviceInstanceCredentials) (options : option DeleteOptions) (listOptions : ListOptions) : W -> option error * W :=
  internal_serviceInstanceCredentials_client c |> RESTClient_Delete
  |> Request_Namespace (internal_serviceInstanceCredentials_ns c)
  |> Request_Resource "serviceinstancecredentials"
  |> VersionedParams (ListOptions_params listOptions)
  |> Body_options options
  |> Do
  |> Call_Error.
Definition internal_serviceInstanceCredentials_Get (c : internal_serviceInstanceCredentials) (name : string) (options : GetOptions) : Call servicecatalog.ServiceInstanceCredential :=
  internal_serviceInstanceCredentials_client c |> RESTClient_Get
  |> Request_Namespace (internal_serviceInstanceCredentials_ns c)
  |> Request_Resource "serviceinstancecredentials"
  |> Request_Name name
  |> VersionedParams (GetOptions_params options)
  |> Do
  |> Into kind_zero read_item.
Definition internal_serviceInstanceCredentials_List (c : internal_serviceInstanceCredentials) (opts : ListOptions) : Call (servicecatalog.ServiceInstanceCredentialList) :=
  internal_serviceInstanceCredentials_client c |> RESTClient_Get
  |> Request_Namespace (internal_serviceInstanceCredentials_ns c)
  |> Request_Resource "serviceinstancecredentials"
  |> VersionedParams (ListOptions_params opts)
  |> Do
  |> Into list_zero read_list.
Definition internal_serviceInstanceCredentials_Watch (c : internal_serviceInstanceCredentials) (IsProbableEOF : error -> bool) (opts : ListOptions) : W -> (Watcher + error) * W :=
  let opts := with_Watch true opts in
  internal_serviceInstanceCredentials_client c |> RESTClient_Get
  |> Request_Namespace (internal_serviceInstanceCredentials_ns c)
  |> Request_Resource "serviceinstancecredentials"
  |> VersionedParams (ListOptions_params opts)
  |> Watch IsProbableEOF.
Definition internal_serviceInstanceCredentials_Patch (c : internal_serviceInstanceCredentials) (name : string) (pt : string) (data : string) (subresources : list string) : Call servicecatalog.ServiceInstanceCredential :=
  internal_serviceInstanceCredentials_client c |> RESTClient_Patch pt
  |> Request_Namespace (internal_serviceInstanceCredentials_ns c)
  |> Request_Resource "serviceinstancecredentials"
  |> Request_SubResource subresources
  |> Request_Name name
  |> Body_data data
  |> Do
  |> Into kind_zero read_item.

(** ** ServicePlan *)

Record internal_servicePlans := { internal_servicePlans_client : RESTClient }.
Definition internal_newServicePlans (c : ServicecatalogClient) : internal_servicePlans := {| internal_servicePlans_client := internal_restClient c |}.

Definition internal_servicePlans_Create (c : internal_servicePlans) (servicePlan : servicecatalog.ServicePlan) : Call servicecatalog.ServicePlan :=
  internal_servicePlans_client c |> RESTClient_Post
  |> Request_Resource "serviceplans"
  |> Body_object (kind_inject servicePlan)
  |> Do
  |> Into kind_zero read_item.
Definition internal_servicePlans_Update (c : internal_servicePlans) (servicePlan : servicecatalog.ServicePlan) : Call servicecatalog.ServicePlan :=
  internal_servicePlans_client c |> RESTClient_Put
  |> Request_Resource "serviceplans"
  |> Request_Name (Name (kind_meta servicePlan))
  |> Body_object (kind_inject servicePlan)
  |> Do
  |> Into kind_zero read_item.
Definition internal_servicePlans_Delete (c : internal_servicePlans) (name : string) (options : option DeleteOptions) : W -> option error * W :=
  internal_servicePlans_client c |> RESTClient_Delete
  |> Request_Resource "serviceplans"
  |> Request_Name name
  |> Body_options options
  |> Do
  |> Call_Error.
Definition internal_servicePlans_DeleteCollection (c : internal_servicePlans) (options : option DeleteOptions) (listOptions : ListOptions) : W -> option error * W :=
  internal_servicePlans_client c |> RESTClient_Delete
  |> Request_Resource "serviceplans"
  |> VersionedParams (ListOptions_params listOptions)
  |> Body_options options
  |> Do
  |> Call_Error.
Definition internal_servicePlans_Get (c : internal_servicePlans) (name : string) (options : GetOptions) : Call servicecatalog.ServicePlan :=
  internal_servicePlans_client c |> RESTClient_Get
  |> Request_Resource "serviceplans"
  |> Request_Name name
  |> VersionedParams (GetOptions_params options)
  |> Do
  |> Into kind_zero read_item.
Definition internal_servicePlans_List (c : internal_servicePlans) (opts : ListOptions) : Call (servicecatalog.ServicePlanList) :=
  internal_servicePlans_client c |> RESTClient_Get
  |> Request_Resource "serviceplans"
  |> VersionedParams (ListOptions_params opts)
  |> Do
  |> Into list_zero read_list.
Definition internal_servicePlans_Watch (c : internal_servicePlans) (IsProbableEOF : error -> bool) (opts : ListOptions) : W -> (Watcher + error) * W :=
  let opts := with_Watch true opts in
  internal_servicePlans_client c |> RESTClient_Get
  |> Request_Resource "serviceplans"
  |> VersionedParams (ListOptions_params opts)
  |> Watch IsProbableEOF.
Definition internal_servicePlans_Patch (c : internal_servicePlans) (name : string) (pt : string) (data : string) (subresources : list string) : Call servicecatalog.ServicePlan :=
  internal_servicePlans_client c |> RESTClient_Patch pt
  |> Request_Resource "serviceplans"
  |> Request_SubResource subresources
  |> Request_Name name
  |> Body_data data
  |> Do
  |> Into kind_zero read_item.
End clients.

Definition internal_ClusterServiceBrokers (c : ServicecatalogClient) : internal_clusterServiceBrokers := internal_newClusterServiceBrokers c.
Definition internal_ServiceClasses (c : ServicecatalogClient) : internal_serviceClasses := internal_newServiceClasses c.
Definition internal_ServiceInstances (c : ServicecatalogClient) (namespace : string) : internal_serviceInstances :=
  internal_newServiceInstances c namespace.
Definition internal_ServiceInstanceCredentials (c : ServicecatalogClient) (namespace : string) : internal_serviceInstanceCredentials :=
  internal_newServiceInstanceCredentials c namespace.
Definition internal_ServicePlans (c : ServicecatalogClient) : internal_servicePlans := internal_newServicePlans c.

Section config.
Context (Registry_Group : string -> (string * string) + error) (DefaultKubernetesUserAgent : string) (RESTClientFor : Config -> RESTClient + error).
Context {DiscoveryClient : Type} (NewDiscoveryClientForConfig : Config -> DiscoveryClient + error)
  (NewDiscoveryClient : RESTClient -> DiscoveryClient) (NewTokenBucketRateLimiter : Z -> Z -> string).

Definition ServicecatalogClient_NewForConfig (c : Config) : ServicecatalogClient + error :=
  match internal_setConfigDefaults Registry_Group DefaultKubernetesUserAgent c with
  | inr err => inr err
  | inl config => match RESTClientFor config with inr err => inr err | inl client => inl {| internal_restClient := client |} end
  end.
Definition ServicecatalogClient_NewForConfigOrDie (c : Config) : option ServicecatalogClient :=
  match ServicecatalogClient_NewForConfig c with inl client => Some client | inr _ => None end.
Definition ServicecatalogClient_New (c : RESTClient) : ServicecatalogClient := {| internal_restClient := c |}.
Definition ServicecatalogClient_RESTClient (c : option ServicecatalogClient) : option RESTClient := internal_restClient <$> c.

Record internal_Clientset := { internal_clientset_Discovery : DiscoveryClient; internal_clientset_Servicecatalog : ServicecatalogClient }.
Definition internal_Clientset_Servicecatalog (c : option internal_Clientset) : option ServicecatalogClient := internal_clientset_Servicecatalog <$> c.
Definition internal_Clientset_DiscoveryInterface (c : option internal_Clientset) : option DiscoveryClient := internal_clientset_Discovery <$> c.

Definition internal_Clientset_NewForConfig (c : Config) : internal_Clientset + error :=
  let configShallowCopy := with_default_limiter NewTokenBucketRateLimiter c in
  match ServicecatalogClient_NewForConfig configShallowCopy with
  | inr err => inr err
  | inl client =>
      match NewDiscoveryClientForConfig configShallowCopy with
      | inr err => inr err
      | inl discovery => inl {| internal_clientset_Discovery := discovery; internal_clientset_Servicecatalog := client |}
      end
  end.
Definition internal_Clientset_NewForConfigOrDie (c : Config) : option internal_Clientset :=
  match ServicecatalogClient_NewForConfigOrDie c, NewDiscoveryClientForConfig c with
  | Some client, inl discovery => Some {| internal_clientset_Discovery := discovery; internal_clientset_Servicecatalog := client |}
  | _, _ => None
  end.
Definition internal_Clientset_New (c : RESTClient) : internal_Clientset :=
  {| internal_clientset_Discovery := NewDiscoveryClient c; internal_clientset_Servicecatalog := ServicecatalogClient_New c |}.
End config.
