(* ===== verification/TypedClients.v ===== *)
(** * One interface for the generated clients

    The five clients of each client set come from one template: a resource, a
    namespace for those that have one, and methods that are chains of calls on
    the builder.  [TypedClient] is that interface, its laws say that the methods
    are the chains of the template, and the ten clients are its instances. *)

From stdpp Require Import gmap strings list.
From S2P Require Import Prelude Types Environment Selfer Fields InternalTypes Conversion Selectors APIServer Storage StorageTheorems.
From S2P Require Import RestClient Clientset InternalClientset.

(** ** The template *)

Definition at_namespace (ns : option string) (r : Request) : Request :=
  match ns with Some n => Request_Namespace n r | None => r end.
Definition at_resource (rc : RESTClient) (verb : string) (ns : option string) (res : string) : Request :=
  NewRequest rc verb |> at_namespace ns |> Request_Resource res.
Definition at_item rc verb ns res name : Request := at_resource rc verb ns res |> Request_Name name.

Definition create_request rc ns res (o : RObject) : Request := at_resource rc "POST" ns res |> Body_object o.
Definition update_request rc ns res name sub (o : RObject) : Request :=
  at_item rc "PUT" ns res name |> (fun r => if bool_decide (sub = "") then r else Request_SubResource [sub] r) |> Body_object o.
Definition delete_request rc ns res name (options : option DeleteOptions) : Request := at_item rc "DELETE" ns res name |> Body_options options.
Definition get_request rc ns res name (options : GetOptions) : Request := at_item rc "GET" ns res name |> VersionedParams (GetOptions_params options).
Definition list_request rc ns res (opts : ListOptions) : Request := at_resource rc "GET" ns res |> VersionedParams (ListOptions_params opts).

(** ** The interface of the clients *)

(** A client of a resource; an update has the subresource it goes to and the
    namespace it goes to, which need not be that of the client. *)
Class TypedClient (K A L : Type) `{ApiKind A, ApiList L A} := {
  tc_resource : string;
  tc_rest : K -> RESTClient;
  tc_namespace : K -> option string;
  tc_Create : forall (W : Type) (T : Transport W), K -> A -> Call (W := W) A;
  tc_updates : list (string * (K -> A -> option string) * (forall (W : Type) (T : Transport W), K -> A -> Call (W := W) A));
  tc_Delete : forall (W : Type) (T : Transport W), K -> string -> option DeleteOptions -> W -> option error * W;
  tc_Get : forall (W : Type) (T : Transport W), K -> string -> GetOptions -> Call (W := W) A;
  tc_List : forall (W : Type) (T : Transport W), K -> ListOptions -> Call (W := W) L }.

(** The resources, whether they have namespaces, and their subresources. *)
Definition resources : list (string * bool * list string) :=
  [("clusterservicebrokers", false, ["status"]); ("serviceclasses", false, []); ("serviceplans", false, []);
   ("serviceinstances", true, ["status"; "reference"]); ("serviceinstancecredentials", true, ["status"])].
Definition kind_of_resource (res : string) : string :=
  if bool_decide (res = "serviceinstances") then "ServiceInstance"
  else if bool_decide (res = "serviceinstancecredentials") then "ServiceInstanceCredential"
  else if bool_decide (res = "clusterservicebrokers") then "ClusterServiceBroker"
  else if bool_decide (res = "serviceclasses") then "ServiceClass"
  else "ServicePlan".

Class TypedClientLaws (K A L : Type) `{TypedClient K A L} : Prop := {
  tc_known : exists subs, forall k, In (tc_resource, not_nil (tc_namespace k), subs) resources /\
    forall sub ns u, In (sub, ns, u) tc_updates -> sub = "" \/ In sub subs;
  tc_update_scope k a sub ns u : In (sub, ns, u) tc_updates -> not_nil (ns k a) = not_nil (tc_namespace k);
  kind_meta_inject (a : A) : meta_of (kind_inject a) = kind_meta a;
  kind_projects o : resource_of o = tc_resource -> exists a, kind_project o = Some a;
  kind_meta_project o (a : A) : kind_project o = Some a -> kind_meta a = meta_of o;
  list_name_kind : list_name = kind_of_resource tc_resource +:+ "List";
  tc_Create_request W T k a :
    tc_Create W T k a = Into kind_zero read_item (Do (create_request (tc_rest k) (tc_namespace k) tc_resource (kind_inject a)));
  tc_update_request W T k a sub ns u : In (sub, ns, u) tc_updates ->
    u W T k a = Into kind_zero read_item (Do (update_request (tc_rest k) (ns k a) tc_resource (Name (kind_meta a)) sub (kind_inject a)));
  tc_Delete_request W T k name options :
    tc_Delete W T k name options = Call_Error (Do (delete_request (tc_rest k) (tc_namespace k) tc_resource name options));
  tc_Get_request W T k name options :
    tc_Get W T k name options = Into kind_zero read_item (Do (get_request (tc_rest k) (tc_namespace k) tc_resource name options));
  tc_List_request W T k opts :
    tc_List W T k opts = Into list_zero read_list (Do (list_request (tc_rest k) (tc_namespace k) tc_resource opts)) }.

Ltac client_laws :=
  split; [eexists; intros k; split; [cbn; tauto|]
         |..];
  [intros sub ns u; cbn; intuition (simplify_eq; auto)
  |intros k a sub ns u; cbn; intuition (simplify_eq; auto)
  |done|intros []; cbn; intros; simplify_eq; eauto|intros []; cbn; intros; by simplify_eq|reflexivity|reflexivity
  |intros W T k a sub ns u; cbn; intuition (simplify_eq; auto)
  |reflexivity|reflexivity|reflexivity].
(** ** The clients of [v1alpha1] *)

#[export] Instance clusterServiceBrokers_client_of : TypedClient clusterServiceBrokers ClusterServiceBroker ClusterServiceBrokerList :=
  {| tc_resource := "clusterservicebrokers"; tc_rest := clusterServiceBrokers_client; tc_namespace k := None; tc_Create _ _ := clusterServiceBrokers_Create;
     tc_updates := [("", fun k _ => None, fun _ _ => clusterServiceBrokers_Update); ("status", fun k _ => None, fun _ _ => clusterServiceBrokers_UpdateStatus)];
     tc_Delete _ _ := clusterServiceBrokers_Delete; tc_Get _ _ := clusterServiceBrokers_Get; tc_List _ _ := clusterServiceBrokers_List |}.
#[export] Instance clusterServiceBrokers_client_laws : TypedClientLaws clusterServiceBrokers ClusterServiceBroker ClusterServiceBrokerList.
Proof. client_laws. Qed.

#[export] Instance serviceClasses_client_of : TypedClient serviceClasses ServiceClass ServiceClassList :=
  {| tc_resource := "serviceclasses"; tc_rest := serviceClasses_client; tc_namespace k := None; tc_Create _ _ := serviceClasses_Create;
     tc_updates := [("", fun k _ => None, fun _ _ => serviceClasses_Update)];
     tc_Delete _ _ := serviceClasses_Delete; tc_Get _ _ := serviceClasses_Get; tc_List _ _ := serviceClasses_List |}.
#[export] Instance serviceClasses_client_laws : TypedClientLaws serviceClasses ServiceClass ServiceClassList.
Proof. client_laws. Qed.

#[export] Instance servicePlans_client_of : TypedClient servicePlans ServicePlan ServicePlanList :=
  {| tc_resource := "serviceplans"; tc_rest := servicePlans_client; tc_namespace k := None; tc_Create _ _ := servicePlans_Create;
     tc_updates := [("", fun k _ => None, fun _ _ => servicePlans_Update)];
     tc_Delete _ _ := servicePlans_Delete; tc_Get _ _ := servicePlans_Get; tc_List _ _ := servicePlans_List |}.
#[export] Instance servicePlans_client_laws : TypedClientLaws servicePlans ServicePlan ServicePlanList.
Proof. client_laws. Qed.

#[export] Instance serviceInstances_client_of : TypedClient serviceInstances ServiceInstance ServiceInstanceList :=
  {| tc_resource := "serviceinstances"; tc_rest := serviceInstances_client; tc_namespace k := Some (serviceInstances_ns k); tc_Create _ _ := serviceInstances_Create;
     tc_updates := [("", fun k _ => Some (serviceInstances_ns k), fun _ _ => serviceInstances_Update); ("status", fun k _ => Some (serviceInstances_ns k), fun _ _ => serviceInstances_UpdateStatus); ("reference", fun _ a => Some (Namespace (kind_meta a)), fun _ _ => serviceInstances_UpdateReferences)];
     tc_Delete _ _ := serviceInstances_Delete; tc_Get _ _ := serviceInstances_Get; tc_List _ _ := serviceInstances_List |}.
#[export] Instance serviceInstances_client_laws : TypedClientLaws serviceInstances ServiceInstance ServiceInstanceList.
Proof. client_laws. Qed.

#[export] Instance serviceInstanceCredentials_client_of : TypedClient serviceInstanceCredentials ServiceInstanceCredential ServiceInstanceCredentialList :=
  {| tc_resource := "serviceinstancecredentials"; tc_rest := serviceInstanceCredentials_client; tc_namespace k := Some (serviceInstanceCredentials_ns k); tc_Create _ _ := serviceInstanceCredentials_Create;
     tc_updates := [("", fun k _ => Some (serviceInstanceCredentials_ns k), fun _ _ => serviceInstanceCredentials_Update); ("status", fun k _ => Some (serviceInstanceCredentials_ns k), fun _ _ => serviceInstanceCredentials_UpdateStatus)];
     tc_Delete _ _ := serviceInstanceCredentials_Delete; tc_Get _ _ := serviceInstanceCredentials_Get; tc_List _ _ := serviceInstanceCredentials_List |}.
#[export] Instance serviceInstanceCredentials_client_laws : TypedClientLaws serviceInstanceCredentials ServiceInstanceCredential ServiceInstanceCredentialList.
Proof. client_laws. Qed.

(** ** The clients of the internal types *)

#[export] Instance internal_clusterServiceBrokers_client_of : TypedClient internal_clusterServiceBrokers servicecatalog.ClusterServiceBroker servicecatalog.ClusterServiceBrokerList :=
  {| tc_resource := "clusterservicebrokers"; tc_rest := internal_clusterServiceBrokers_client; tc_namespace k := None; tc_Create _ _ := internal_clusterServiceBrokers_Create;
     tc_updates := [("", fun k _ => None, fun _ _ => internal_clusterServiceBrokers_Update); ("status", fun k _ => None, fun _ _ => internal_clusterServiceBrokers_UpdateStatus)];
     tc_Delete _ _ := internal_clusterServiceBrokers_Delete; tc_Get _ _ := internal_clusterServiceBrokers_Get; tc_List _ _ := internal_clusterServiceBrokers_List |}.
#[export] Instance internal_clusterServiceBrokers_client_laws : TypedClientLaws internal_clusterServiceBrokers servicecatalog.ClusterServiceBroker servicecatalog.ClusterServiceBrokerList.
Proof. client_laws. Qed.

#[export] Instance internal_serviceClasses_client_of : TypedClient internal_serviceClasses servicecatalog.ServiceClass servicecatalog.ServiceClassList :=
  {| tc_resource := "serviceclasses"; tc_rest := internal_serviceClasses_client; tc_namespace k := None; tc_Create _ _ := internal_serviceClasses_Create;
     tc_updates := [("", fun k _ => None, fun _ _ => internal_serviceClasses_Update)];
     tc_Delete _ _ := internal_serviceClasses_Delete; tc_Get _ _ := internal_serviceClasses_Get; tc_List _ _ := internal_serviceClasses_List |}.
#[export] Instance internal_serviceClasses_client_laws : TypedClientLaws internal_serviceClasses servicecatalog.ServiceClass servicecatalog.ServiceClassList.
Proof. client_laws. Qed.

#[export] Instance internal_servicePlans_client_of : TypedClient internal_servicePlans servicecatalog.ServicePlan servicecatalog.ServicePlanList :=
  {| tc_resource := "serviceplans"; tc_rest := internal_servicePlans_client; tc_namespace k := None; tc_Create _ _ := internal_servicePlans_Create;
     tc_updates := [("", fun k _ => None, fun _ _ => internal_servicePlans_Update)];
     tc_Delete _ _ := internal_servicePlans_Delete; tc_Get _ _ := internal_servicePlans_Get; tc_List _ _ := internal_servicePlans_List |}.
#[export] Instance internal_servicePlans_client_laws : TypedClientLaws internal_servicePlans servicecatalog.ServicePlan servicecatalog.ServicePlanList.
Proof. client_laws. Qed.

#[export] Instance internal_serviceInstances_client_of : TypedClient internal_serviceInstances servicecatalog.ServiceInstance servicecatalog.ServiceInstanceList :=
  {| tc_resource := "serviceinstances"; tc_rest := internal_serviceInstances_client; tc_namespace k := Some (internal_serviceInstances_ns k); tc_Create _ _ := internal_serviceInstances_Create;
     tc_updates := [("", fun k _ => Some (internal_serviceInstances_ns k), fun _ _ => internal_serviceInstances_Update); ("status", fun k _ => Some (internal_serviceInstances_ns k), fun _ _ => internal_serviceInstances_UpdateStatus)];
     tc_Delete _ _ := internal_serviceInstances_Delete; tc_Get _ _ := internal_serviceInstances_Get; tc_List _ _ := internal_serviceInstances_List |}.
#[export] Instance internal_serviceInstances_client_laws : TypedClientLaws internal_serviceInstances servicecatalog.ServiceInstance servicecatalog.ServiceInstanceList.
Proof. client_laws. Qed.

#[export] Instance internal_serviceInstanceCredentials_client_of : TypedClient internal_serviceInstanceCredentials servicecatalog.ServiceInstanceCredential servicecatalog.ServiceInstanceCredentialList :=
  {| tc_resource := "serviceinstancecredentials"; tc_rest := internal_serviceInstanceCredentials_client; tc_namespace k := Some (internal_serviceInstanceCredentials_ns k); tc_Create _ _ := internal_serviceInstanceCredentials_Create;
     tc_updates := [("", fun k _ => Some (internal_serviceInstanceCredentials_ns k), fun _ _ => internal_serviceInstanceCredentials_Update); ("status", fun k _ => Some (internal_serviceInstanceCredentials_ns k), fun _ _ => internal_serviceInstanceCredentials_UpdateStatus)];
     tc_Delete _ _ := internal_serviceInstanceCredentials_Delete; tc_Get _ _ := internal_serviceInstanceCredentials_Get; tc_List _ _ := internal_serviceInstanceCredentials_List |}.
#[export] Instance internal_serviceInstanceCredentials_client_laws : TypedClientLaws internal_serviceInstanceCredentials servicecatalog.ServiceInstanceCredential servicecatalog.ServiceInstanceCredentialList.
Proof. client_laws. Qed.

