(* ===== verification/ClientPaths.v ===== *)
(** * The URLs of the generated clients

    A request of the builder goes to the path of its segments, and the API
    server reads these segments off the path again: the namespace, resource,
    name and subresource the client gave ([request_info]), and the route of the
    storage behind them ([select_item], [select_collection]). *)

From stdpp Require Import gmap strings list.
From S2P Require Import Prelude Types Environment Validation JsonText Selectors Selfer APIServer Strategy Storage StorageTheorems Http RestClient ApiHandlers.

#[local] Arguments String.append !_ _ / : simpl nomatch.

(** ** Segments *)

(** A text that is a segment of a path as it is. *)
Definition segment (s : string) : Prop := no_slash s /\ s <> "" /\ s <> "." /\ s <> "..".

Lemma valid_segment name : IsValidPathSegmentName name = [] -> name <> "" -> segment name.
Proof.
  intros Hv Hn. split_and!; [by apply valid_name_no_slash|done| |]; intros ->; by vm_compute in Hv.
Qed.

Lemma slash_is_char c : slash c = is_char 47 c.
Proof. done. Qed.

Lemma split_segment s rest : no_slash s ->
  split_on [47]%nat (s +:+ rest) = match split_on [47]%nat rest with h :: t => (s +:+ h) :: t | [] => [s] end.
Proof.
  unfold no_slash. induction s as [|c s IH]; intros Hs.
  - cbn [String.append]. destruct (split_on [47]%nat rest) eqn:E; [|done]. destruct rest as [|c r]; cbn in E; [done|].
    destruct (is_char 47 c || false); [done|]. by destruct (split_on _ r).
  - cbn -[slash] in Hs. apply orb_false_iff in Hs as [Hc Hs]. rewrite slash_is_char in Hc. cbn. rewrite Hc, IH by done. cbn.
    by destruct (split_on [47]%nat rest).
Qed.

Lemma split_segments segs : Forall no_slash segs -> split_on [47]%nat (tail_of segs) = "" :: segs.
Proof.
  induction 1 as [|s segs Hs _ IH]; [done|]. cbn [tail_of].
  change (split_on [47]%nat (String (char 47) (s +:+ tail_of segs))) with ("" :: split_on [47]%nat (s +:+ tail_of segs)).
  rewrite split_segment, IH by done. by rewrite sapp_nil.
Qed.

Lemma clean_all segs done : Forall segment segs -> clean_segments segs done = rev done ++ segs.
Proof.
  intros H. revert done. induction H as [|s segs (_ & H1 & H2 & H3) _ IH]; intros done; cbn; [by rewrite app_nil_r|].
  rewrite !bool_decide_eq_false_2 by done. cbn. rewrite IH. cbn. by rewrite <-app_assoc.
Qed.

Lemma segments_no_slash segs : Forall segment segs -> Forall no_slash segs.
Proof. intros H. eapply List.Forall_impl; [|exact H]. by intros s []. Qed.

Lemma Clean_segments segs : segs <> [] -> Forall segment segs -> Clean (tail_of segs) = tail_of segs.
Proof.
  intros Hne H. unfold Clean. assert (tail_of segs <> "") as Ht by (by destruct segs). rewrite bool_decide_eq_false_2 by done.
  assert (rooted (tail_of segs) = true) as -> by (by destruct segs). rewrite split_segments by (by apply segments_no_slash).
  change (clean_segments ("" :: segs) []) with (clean_segments segs []). rewrite clean_all by done. cbn [rev app]. by apply path_of_tail.
Qed.

(** Joining with [/] continues a path. *)
Lemma Join_tail a l : Join "/" (a :: l) = a +:+ tail_of l.
Proof.
  revert a. induction l as [|b l IH]; intros a; [by rewrite sapp_nil|]. change (Join "/" (a :: b :: l)) with (a +:+ "/" +:+ Join "/" (b :: l)).
  by rewrite IH.
Qed.
Lemma tail_of_app l l' : tail_of (l ++ l') = tail_of l +:+ tail_of l'.
Proof. induction l as [|a l IH]; [done|]. cbn [tail_of app]. rewrite IH. cbn. by rewrite append_assoc. Qed.

Lemma path_Join_segments segs l : segs <> [] -> Forall segment segs ->
  Forall (fun s => s = "" \/ segment s) l ->
  path_Join (tail_of segs :: l) = tail_of (segs ++ List.filter (fun e => negb (bool_decide (e = ""))) l).
Proof.
  intros Hne Hs Hl. unfold path_Join. cbn [List.filter].
  assert (negb (bool_decide (tail_of segs = "")) = true) as -> by (destruct segs; [done|by rewrite bool_decide_eq_false_2]).
  rewrite Join_tail, <-tail_of_app. apply Clean_segments; [by destruct segs|].
  apply Forall_app. split; [done|]. apply List.Forall_forall. intros x [Hx Hn]%filter_In.
  rewrite List.Forall_forall in Hl. destruct (Hl x Hx) as [->|]; done.
Qed.

(** ** Paths of requests *)

Definition root : list string := ["apis"; "servicecatalog.k8s.io"; "v1alpha1"].
Definition group_path : string := "/apis/servicecatalog.k8s.io/v1alpha1".

(** The segments a client addresses: below the namespace, if there is one. *)
Definition addressed_segments (ns : option string) (res name sub : string) : list string :=
  root ++ match ns with Some n => if bool_decide (n = "") then [] else ["namespaces"; n] | None => [] end ++ [res] ++
  List.filter (fun e => negb (bool_decide (e = ""))) [name; sub].

Lemma root_segments_ok : Forall segment root.
Proof. repeat constructor; done. Qed.

Lemma path_Join_one segs s : segs <> [] -> Forall segment segs -> segment s -> path_Join [tail_of segs; s] = tail_of (segs ++ [s]).
Proof.
  intros Hne Hs H. rewrite path_Join_segments by (done || (constructor; [by right|done])). cbn.
  destruct H as (_ & H & _). by rewrite bool_decide_eq_false_2.
Qed.

Lemma Request_path_segments r ns res name sub :
  req_pathPrefix r = group_path -> req_namespaceSet r = not_nil ns -> req_namespace r = default "" ns ->
  req_resource r = res -> ToLower res = res -> segment res -> req_resourceName r = name -> req_subresource r = sub ->
  (forall n, ns = Some n -> n = "" \/ segment n) -> (name = "" \/ segment name) -> (sub = "" \/ segment sub) ->
  Request_path r = tail_of (addressed_segments ns res name sub).
Proof.
  intros Hp Hset Hns Hres Hlow Hresok Hname Hsub Hnsok Hnameok Hsubok. unfold Request_path, addressed_segments. cbv zeta.
  rewrite Hp, Hset, Hns, Hres, Hname, Hsub, Hlow. change group_path with (tail_of root).
  assert (exists pre, Forall segment pre /\ pre <> [] /\
    (if not_nil ns && negb (bool_decide (default "" ns = "")) then path_Join [tail_of root; "namespaces"; default "" ns] else tail_of root) = tail_of pre /\
    pre = root ++ match ns with Some n => if bool_decide (n = "") then [] else ["namespaces"; n] | None => [] end) as (pre & Hpre & Hne & -> & Hpe).
  { destruct ns as [n|]; cbn [andb default from_option id not_nil].
    - case_bool_decide as Hn; cbn [negb]; [exists root; split_and!; [apply root_segments_ok|done..]|].
      destruct (Hnsok n eq_refl) as [|Hs]; [done|]. exists (root ++ ["namespaces"; n]). split_and!; [|done| |done].
      + apply Forall_app. split; [apply root_segments_ok|]. constructor; [by repeat split|by constructor].
      + rewrite path_Join_segments; [|done|apply root_segments_ok|constructor; [by right; repeat split|constructor; [by right|done]]].
        cbn [List.filter]. rewrite !bool_decide_eq_false_2 by done. done.
    - exists root. split_and!; [apply root_segments_ok|done|done|]. by rewrite app_nil_r. }
  rewrite app_assoc, <-Hpe. rewrite (bool_decide_eq_false_2 (res = "")) by (by destruct Hresok as (_ & ? & _)). cbn [negb].
  clear Hpe. rewrite path_Join_one by done.
  destruct (negb (bool_decide (name = "")) || negb (bool_decide (sub = ""))) eqn:E.
  - rewrite path_Join_segments; [by rewrite <-app_assoc|by destruct pre| |by constructor; [|constructor]].
    apply Forall_app. by split; [|constructor].
  - apply orb_false_iff in E as [E1 E2]. cbn [List.filter]. by rewrite E1, E2, app_nil_r.
Qed.

(** ** Reading the URL *)

Lemma trim_segments segs : Forall segment segs -> trim_empty segs = segs.
Proof. destruct 1 as [|s segs (_ & Hs & _) _]; [done|]. cbn. by destruct s. Qed.
Lemma splitPath_segments segs : Forall segment segs -> splitPath (tail_of segs) = segs.
Proof.
  intros H. unfold splitPath. rewrite split_segments by (by apply segments_no_slash). cbn [trim_empty].
  rewrite (trim_segments segs) by done. rewrite trim_segments by (by apply Forall_rev). apply rev_involutive.
Qed.

Lemma addressed_ok ns res name sub : segment res -> (forall n, ns = Some n -> n = "" \/ segment n) -> (name = "" \/ segment name) -> (sub = "" \/ segment sub) ->
  Forall segment (addressed_segments ns res name sub).
Proof.
  intros Hr Hns Hn Hs. unfold addressed_segments. apply Forall_app. split; [apply root_segments_ok|].
  apply Forall_app. split.
  - destruct ns as [n|]; [|done]. case_bool_decide; [done|]. destruct (Hns n eq_refl); [done|].
    constructor; [by repeat split|by constructor].
  - constructor; [done|]. apply List.Forall_forall. intros x [Hx Hne]%filter_In. cbn in Hx.
    destruct Hx as [<-|[<-|[]]]; [destruct Hn as [->|]|destruct Hs as [->|]]; done.
Qed.

Lemma info_namespaced method query n res rest :
  Forall segment (n :: res :: rest) -> set_Has namespaceSubresources res = false ->
  exists info, NewRequestInfo method (tail_of (root ++ "namespaces" :: n :: res :: rest)) query = inl info /\
    ri_Namespace info = n /\ ri_Name info = nth 0 rest "".
Proof.
  intros Hs Hr. unfold NewRequestInfo. rewrite splitPath_segments.
  2: { apply Forall_app. split; [apply root_segments_ok|]. constructor; [by repeat split|done]. }
  cbn [root app].
  change (set_Has APIPrefixes "apis") with true. change (set_Has GrouplessAPIPrefixes "apis") with false.
  change (set_Has specialVerbs "namespaces") with false. cbn [negb]. cbv iota beta zeta.
  unfold resource_info, namespace_parts. rewrite Hr. eexists. split; [reflexivity|]. done.
Qed.

Lemma info_cluster method query res rest :
  Forall segment (res :: rest) -> set_Has specialVerbs res = false -> res <> "namespaces" ->
  exists info, NewRequestInfo method (tail_of (root ++ res :: rest)) query = inl info /\
    ri_Namespace info = "" /\ ri_Name info = nth 0 rest "".
Proof.
  intros Hs Hr Hn. unfold NewRequestInfo. rewrite splitPath_segments by (apply Forall_app; split; [apply root_segments_ok|done]).
  cbn [root app].
  change (set_Has APIPrefixes "apis") with true. change (set_Has GrouplessAPIPrefixes "apis") with false.
  rewrite Hr. cbn [negb]. cbv iota beta zeta. unfold resource_info.
  assert (namespace_parts (res :: rest) = ("", res :: rest)) as ->.
  { unfold namespace_parts. destruct (String.eqb_spec res "namespaces") as [|Hne]; [done|].
    repeat (destruct res as [|[[] [] [] [] [] [] [] []] res]; try reflexivity). by destruct Hne. }
  eexists. split; [reflexivity|]. done.
Qed.

(** ** Choosing the route *)

Section routes.
Context {C : Config} {MV : MetaValidation} {Sem : Semantic} {SV : StoreValidation}.

Definition api_routes : list (list Segment * Action * rest_Storage) := flat_map storage_routes routes.

(** The table, with the scopes of the storages. *)
Lemma api_routes_table : exists (b bs : Store ClusterServiceBroker) (c : Store ServiceClass) (p : Store ServicePlan)
    (i ist ir : Store ServiceInstance) (d ds : Store ServiceInstanceCredential),
  routes = [("clusterservicebrokers", FullREST b); ("clusterservicebrokers/status", SubresourceREST bs);
    ("serviceclasses", FullREST c); ("serviceplans", FullREST p);
    ("serviceinstances", FullREST i); ("serviceinstances/status", SubresourceREST ist); ("serviceinstances/reference", SubresourceREST ir);
    ("serviceinstancecredentials", FullREST d); ("serviceinstancecredentials/status", SubresourceREST ds)] /\
  map (fun r => namespaced_storage (snd r)) routes = [false; false; false; false; true; true; true; true; true].
Proof. destruct routes_table as (b & bs & c & p & i & ist & ir & d & ds & _ & _ & _ & _ & _ & _ & Hr). do 9 eexists. split; [exact Hr|reflexivity]. Qed.

(** The action of a method on an item, and on a collection. *)
Definition item_action (full : bool) (method : string) : option Action :=
  if bool_decide (method = "GET") then Some GET else if bool_decide (method = "PUT") then Some PUT
  else if full && bool_decide (method = "DELETE") then Some DELETE else None.

Ltac each Hin := repeat (destruct Hin as [[= <- <-]|Hin]); [..|destruct Hin].

Lemma select_item path s res sub method a ns name :
  In (path, s) routes -> splitSubresource path = inl (res, sub) ->
  method ∈ ["GET"; "PUT"; "DELETE"] -> item_action (full_storage s) method = Some a ->
  name <> "" -> (if namespaced_storage s then exists n, ns = Some n /\ n <> "" else ns = None) ->
  select_route api_routes method (addressed_segments ns res name sub) = Some (a, s).
Proof.
  destruct api_routes_table as (b & bs & c & p & i & ist & ir & d & ds & Hr & Hm).
  unfold api_routes. rewrite Hr in *. cbn [map snd] in Hm. injection Hm as H1 H2 H3 H4 H5 H6 H7 H8 H9.
  cbn [flat_map]. unfold storage_routes, resource_actions, namespaced_storage. cbn [fst snd].
  rewrite H1, H2, H3, H4, H5, H6, H7, H8, H9.
  intros Hin Hs Hmeth Ha Hname Hns. destruct name as [|c0 name]; [done|]. clear Hname.
  cbn [In] in Hin. rewrite !elem_of_cons in Hmeth.
  each Hin; injection Hs as <- <-; rewrite ?H1, ?H2, ?H3, ?H4, ?H5, ?H6, ?H7, ?H8, ?H9 in Hns;
    (destruct Hns as (n & -> & Hn) || subst ns); try (destruct n as [|c1 n]; [done|]);
    (destruct Hmeth as [->|[->|[->|?]]]; [..|by apply elem_of_nil in H]); try discriminate Ha; injection Ha as <-;
    vm_compute; reflexivity.
Qed.

(** A list in no namespace is one of all namespaces. *)
Lemma select_collection res s method a ns :
  In (res, s) routes -> full_storage s = true ->
  (method = "GET" /\ a = LIST /\ (if namespaced_storage s then not_nil ns = true else ns = None) \/
   method = "POST" /\ a = POST /\ (if namespaced_storage s then exists n, ns = Some n /\ n <> "" else ns = None)) ->
  select_route api_routes method (addressed_segments ns res "" "") = Some (a, s).
Proof.
  destruct api_routes_table as (b & bs & c & p & i & ist & ir & d & ds & Hr & Hm).
  unfold api_routes. rewrite Hr in *. cbn [map snd] in Hm. injection Hm as H1 H2 H3 H4 H5 H6 H7 H8 H9.
  cbn [flat_map]. unfold storage_routes, resource_actions, namespaced_storage. cbn [fst snd].
  rewrite H1, H2, H3, H4, H5, H6, H7, H8, H9.
  intros Hin Hf Ha. cbn [In] in Hin.
  each Hin; try discriminate Hf; rewrite ?H1, ?H2, ?H3, ?H4, ?H5, ?H6, ?H7, ?H8, ?H9 in Ha;
    (destruct Ha as [(-> & -> & Hns)|(-> & -> & Hns)]; [try (destruct ns as [n|]; [|done])|try destruct Hns as (n & -> & Hn)]); try subst ns;
    try (destruct n as [|c1 n]; try done); vm_compute; reflexivity.
Qed.
End routes.
