(* ===== verification/ClientsetTheorems.v ===== *)
(** * What the generated clients do

    The creations, updates, deletions, reads and lists of a generated client are
    refused before anything is sent, refused by the front of the server, or one
    operation on the storage of their resource ([clients_reach_their_stores]); the
    theorem is proved against the interface of [TypedClients].  The second
    part is what the retries of the REST client may repeat. *)

From stdpp Require Import gmap strings list.
From S2P Require Import Prelude Types Environment Validation JsonText Selfer Fields Selectors APIServer Strategy Storage StorageTheorems Http.
From S2P Require Import RestClient ApiHandlers Clientset InternalClientset TypedClients ClientPaths Sample InstanceLifecycle.

(** ** What the builder makes of its arguments *)

Definition invalid_namespace n msgs : error := PlainError (sprint ["invalid namespace "; quote n; ": "; msgs_text msgs]).
Definition invalid_name name msgs : error := PlainError (sprint ["invalid resource name "; quote name; ": "; msgs_text msgs]).

(** Why a namespace is refused, and a name in it. *)
Definition namespace_refusal (ns : option string) : option error :=
  match ns with
  | Some n => match IsValidPathSegmentName n with [] => None | msgs => Some (invalid_namespace n msgs) end
  | None => None
  end.
Definition collection_refusal (creates : bool) (ns : option string) : option error :=
  match namespace_refusal ns with
  | Some err => Some err
  | None => if creates && bool_decide (ns = Some "") then Some (PlainError "an empty namespace may not be set during creation") else None
  end.
Definition name_refusal (name : string) : option error :=
  if bool_decide (name = "") then Some (PlainError "resource name may not be empty")
  else match IsValidPathSegmentName name with [] => None | msgs => Some (invalid_name name msgs) end.
Definition item_refusal (ns : option string) (name : string) : option error :=
  match namespace_refusal ns with
  | Some err => Some err
  | None =>
      match name_refusal name with
      | Some err => Some err
      | None => if bool_decide (ns = Some "") then Some (PlainError "an empty namespace may not be set when a resource name is provided") else None
      end
  end.

Lemma setter_err f r err : req_err r = Some err -> setter f r = r.
Proof. unfold setter. by intros ->. Qed.

(** A resource that needs no escaping. *)
Definition plain_resource (res : string) : Prop := IsValidPathSegmentName res = [] /\ res <> "" /\ ToLower res = res.

Lemma at_resource_spec rc verb ns res : plain_resource res ->
  match namespace_refusal ns with
  | Some err => req_err (at_resource rc verb ns res) = Some err
  | None => at_resource rc verb ns res = req_with_path (default "" ns) (not_nil ns) res "" "" (NewRequest rc verb)
  end.
Proof.
  intros (Hv & _ & _). unfold at_resource, at_namespace, namespace_refusal.
  unfold Request_Resource, Request_Namespace, setter. destruct ns as [n|]; cbn [req_err req_namespaceSet NewRequest].
  - destruct (IsValidPathSegmentName n); cbn; [by rewrite Hv|done].
  - cbn. by rewrite Hv.
Qed.

Lemma at_item_spec rc verb ns res name : plain_resource res ->
  match match namespace_refusal ns with Some err => Some err | None => name_refusal name end with
  | Some err => req_err (at_item rc verb ns res name) = Some err
  | None => at_item rc verb ns res name = req_with_path (default "" ns) (not_nil ns) res name "" (NewRequest rc verb)
  end.
Proof.
  intros Hres. pose proof (at_resource_spec rc verb ns res Hres) as H. unfold at_item.
  destruct (namespace_refusal ns) as [err|]; [unfold Request_Name; by rewrite (setter_err _ _ err)|].
  rewrite H. unfold name_refusal, Request_Name, setter. cbn [req_err req_with_path NewRequest].
  case_bool_decide; [done|]. cbn. by destruct (IsValidPathSegmentName name).
Qed.

(** ** Sending to the server *)

Section calls.
Context {W : Type} {T : Transport W}.

Lemma Do_refused r (w : W) err : request_error r = Some err -> Do r w = ({| res_body := Empty; res_err := Some (false, err) |}, w).
Proof. unfold Do, request. by intros ->. Qed.
Lemma request_error_kept r err : req_err r = Some err -> request_error r = Some err.
Proof. unfold request_error. by intros ->. Qed.

(** A response that does not ask to try again ends the loop. *)
Lemma Do_answered r (w w' : W) resp : request_error r = None -> send (URL r) w = (Answered resp, w') -> rp_RetryAfter resp = None ->
  Do r w = (transformResponse r resp, w').
Proof.
  intros Hr Hs Hw. unfold Do, request. rewrite Hr. cbn [attempt maxRetries Nat.sub]. rewrite Hs. unfold checkWait. by rewrite Hw, andb_false_r.
Qed.
End calls.

(** ** What the caller is told *)

Definition status_of (err : error) : error := snd (ErrorToAPIStatus err).

Definition item_result {A} `{ApiKind A} (r : Reply) : A * option error :=
  match r with
  | ReplyObject o => (default kind_zero (kind_project o), None)
  | ReplyError err => (kind_zero, Some (status_of err))
  | _ => (kind_zero, None)
  end.
Definition delete_result (r : Reply) : option error := match r with ReplyError err => Some (status_of err) | _ => None end.
Definition list_result {L A} `{ApiKind A, ApiList L A} (t : TypeMeta) (m : ListMeta) (r : Reply) : L * option error :=
  match r with
  | ReplyList l => (list_of t m (omap kind_project l), None)
  | ReplyError err => (list_zero, Some (status_of err))
  | _ => (list_zero, None)
  end.

Definition success (code : Z) : bool := (code =? 101) || ((200 <=? code) && (code <=? 206)).
Lemma transformResponse_success r code body : success code = true -> transformResponse r (answer code body) = {| res_body := body; res_err := None |}.
Proof. unfold transformResponse, success. cbn. by intros ->. Qed.

Lemma status_fails err : success (fst (ErrorToAPIStatus err)) = false.
Proof. destruct err; try done. cbn. destruct reason; try done. cbn. by case_bool_decide. Qed.

Lemma transformResponse_error r err : exists e, transformResponse r (scope_err err) = {| res_body := Status (Some (status_of err)); res_err := Some (true, e) |}.
Proof.
  unfold scope_err, status_of. pose proof (status_fails err) as H. destruct (ErrorToAPIStatus err) as [code status]. cbn in H.
  unfold transformResponse. cbn. unfold success in H. rewrite H. by eexists.
Qed.

Lemma respond_waits code t m reply : rp_RetryAfter (respond code t m reply) = None.
Proof. destruct reply; try done. cbn. unfold scope_err. by destruct (ErrorToAPIStatus err). Qed.

Lemma read_item_reply {A} `{ApiKind A} r code t m reply : success code = true ->
  Result_Into (A := A) kind_zero read_item (transformResponse r (respond code t m reply)) = item_result reply.
Proof.
  intros Hc. destruct reply as [o| |l|err]; cbn [respond].
  - by rewrite transformResponse_success.
  - by rewrite transformResponse_success.
  - by rewrite transformResponse_success.
  - destruct (transformResponse_error r err) as [e ->]. done.
Qed.
Lemma read_error_reply r code t m reply : success code = true ->
  Result_Error (transformResponse r (respond code t m reply)) = delete_result reply.
Proof.
  intros Hc. destruct reply as [o| |l|err]; cbn [respond]; rewrite ?transformResponse_success by done; try done.
  by destruct (transformResponse_error r err) as [e ->].
Qed.
Lemma project_all_known {A} `{ApiKind A} l : (forall o, In o l -> exists a, kind_project o = Some a) -> project_all l = Some (omap kind_project l).
Proof.
  induction l as [|o l IH]; intros Hl; [done|]. cbn. destruct (Hl o) as [a Ha]; [by left|].
  rewrite Ha, IH; [done|]. intros o' Ho'. apply Hl. by right.
Qed.
Lemma read_list_reply {L A} `{ApiKind A, ApiList L A} r t m reply :
  Kind t = list_name -> (forall l, reply = ReplyList l -> forall o, In o l -> exists a, kind_project o = Some a) ->
  Result_Into (A := L) list_zero read_list (transformResponse r (respond 200 t m reply)) = list_result t m reply.
Proof.
  intros Ht Hl. destruct reply as [o| |l|err]; cbn [respond]; rewrite ?transformResponse_success by done; try done.
  - cbn. by rewrite bool_decide_eq_true_2, project_all_known by eauto.
  - by destruct (transformResponse_error r err) as [e ->].
Qed.

(** ** The server behind the client *)

Lemma resource_facts res scoped subs : In (res, scoped, subs) resources ->
  plain_resource res /\ segment res /\ set_Has namespaceSubresources res = false /\ set_Has specialVerbs res = false /\ res <> "namespaces" /\
  forall sub, In sub subs -> segment sub /\ IsValidPathSegmentName sub = [] /\ path_Join [sub] = sub.
Proof. cbn. intros H. decompose [or] H; simplify_eq; (split_and!; [by repeat split..|]); cbn; intros sub Hs; decompose [or] Hs; subst; by repeat split. Qed.

(** What the server reads off the URL of a client. *)
Lemma addressed_info method query ns res scoped subs name sub : In (res, scoped, subs) resources ->
  scoped = not_nil ns \/ ns = None -> (forall n, ns = Some n -> n = "" \/ segment n) -> (name = "" /\ sub = "" \/ segment name) -> (sub = "" \/ segment sub) ->
  exists info, NewRequestInfo method (tail_of (addressed_segments ns res name sub)) query = inl info /\
    ri_Namespace info = default "" ns /\ ri_Name info = name /\
    splitPath (tail_of (addressed_segments ns res name sub)) = addressed_segments ns res name sub.
Proof.
  intros (_ & Hres & Hns1 & Hsv & Hnn & _)%resource_facts Hsc Hns Hname Hsub.
  assert (Forall segment (res :: List.filter (fun e => negb (bool_decide (e = ""))) [name; sub])) as Hrest.
  { constructor; [done|]. apply List.Forall_forall. intros x [Hx Hne]%filter_In. cbn in Hx.
    destruct Hx as [<-|[<-|[]]]; [destruct Hname as [[-> _]|]|destruct Hsub as [->|]]; done. }
  assert (nth 0 (List.filter (fun e => negb (bool_decide (e = ""))) [name; sub]) "" = name) as Hfirst.
  { cbn [List.filter]. destruct Hname as [[-> ->]|(_ & Hn & _)]; [done|]. by rewrite bool_decide_eq_false_2. }
  assert (splitPath (tail_of (addressed_segments ns res name sub)) = addressed_segments ns res name sub) as Hsp.
  { apply splitPath_segments, addressed_ok; try done. destruct Hname as [[? _]|?]; auto. }
  unfold addressed_segments. destruct ns as [n|].
  - case_bool_decide as Hn.
    + subst n. destruct (info_cluster method query res _ Hrest Hsv Hnn) as (info & Hi & H1 & H2). exists info. split_and!; [done|done|congruence|].
      unfold addressed_segments in Hsp. by rewrite bool_decide_eq_true_2 in Hsp.
    + destruct (Hns n eq_refl) as [|Hsn]; [done|].
      destruct (info_namespaced method query n res (List.filter (fun e => negb (bool_decide (e = ""))) [name; sub])) as (info & Hi & H1 & H2);
        [by constructor|done|]. exists info. split_and!; [done|done|congruence|]. unfold addressed_segments in Hsp. by rewrite bool_decide_eq_false_2 in Hsp.
  - destruct (info_cluster method query res _ Hrest Hsv Hnn) as (info & Hi & H1 & H2). exists info. split_and!; [done|done|congruence|done].
Qed.

Lemma path_of_base rc verb ns res name sub : versionedAPIPath rc = group_path -> plain_resource res -> segment res ->
  (forall n, ns = Some n -> n = "" \/ segment n) -> (name = "" \/ segment name) -> (sub = "" \/ segment sub) ->
  forall r, req_pathPrefix r = req_pathPrefix (NewRequest rc verb) -> req_namespace r = default "" ns -> req_namespaceSet r = not_nil ns ->
    req_resource r = res -> req_resourceName r = name -> req_subresource r = sub ->
  Request_path r = tail_of (addressed_segments ns res name sub).
Proof.
  intros Hrc (_ & _ & Hlow) Hseg Hns Hname Hsub r Hp H1 H2 H3 H4 H5. apply Request_path_segments; try done.
  rewrite Hp. cbn [NewRequest req_pathPrefix]. rewrite Hrc. done.
Qed.

Section server.
Context {C : Environment.Config} {MV : MetaValidation} {Sem : Semantic} {SV : StoreValidation}.
Context (user : option User)
  (uid_at rev_at : nat -> string) (now_at : nat -> Z) (listMeta_at : nat -> ListMeta)
  (others : Action -> rest_Storage -> RequestInfo -> HTTPCall -> etcd -> Response * etcd).

#[local] Instance serving : Transport Server := server_transport routes user uid_at rev_at now_at listMeta_at others.

Notation handled := (handle user uid_at rev_at now_at listMeta_at others).

Lemma served call sv ns res scoped subs name sub a s : In (res, scoped, subs) resources ->
  scoped = not_nil ns \/ ns = None -> (forall n, ns = Some n -> n = "" \/ segment n) -> (name = "" /\ sub = "" \/ segment name) -> (sub = "" \/ segment sub) ->
  hc_Path call = tail_of (addressed_segments ns res name sub) ->
  select_route api_routes (hc_Method call) (addressed_segments ns res name sub) = Some (a, s) ->
  exists info, ri_Namespace info = default "" ns /\ ri_Name info = name /\
    send call sv = (Answered (fst (handled (sv_count sv) a s info call (sv_db sv))),
                    {| sv_db := snd (handled (sv_count sv) a s info call (sv_db sv)); sv_count := S (sv_count sv) |}).
Proof.
  intros Hres Hsc Hns Hname Hsub Hpath Hsel.
  destruct (addressed_info (hc_Method call) (hc_Query call) ns res scoped subs name sub) as (info & Hi & H1 & H2 & H3); try done.
  exists info. split_and!; [done|done|]. unfold send, serving, server_transport, ServeRequest. rewrite Hpath, Hi, H3.
  change (flat_map storage_routes routes) with api_routes. rewrite Hsel. by destruct (handle _ _ _ _ _ _ _ _ _ _ _ _).
Qed.

(** ** The client as it is meant *)

(** A request on a storage; the server counts it. *)
Definition ask (s : rest_Storage) (ns : option string) (v : nat -> Verb) (sv : Server) : Reply * Server :=
  let (r, db) := serve s {| ctx_Namespace := default "" ns; ctx_User := user |} (v (sv_count sv)) (sv_db sv) in
  (r, {| sv_db := db; sv_count := S (sv_count sv) |}).
(** A request the server refuses by itself. *)
Definition told (err : error) (sv : Server) : Reply * Server := (ReplyError err, {| sv_db := sv_db sv; sv_count := S (sv_count sv) |}).

(** The namespace of an object against that of the request. *)
Definition clash (ns : option string) (o_ns : string) : option error :=
  let n := default "" ns in
  if negb (bool_decide (n = "")) && negb (bool_decide (o_ns = "")) && negb (bool_decide (o_ns = n)) then
    Some (BadRequest (sprint ["the namespace of the object ("; o_ns; ") does not match the namespace on the request ("; n; ")"]))
  else None.

(** The field selector a client writes, if it can be read. *)
Definition sent_selector (text : string) : list (string * string) + error :=
  if bool_decide (text = "") then inl [] else
  match ParseSelector text with
  | inr err => inr (PlainError (sprint ["unparsable field selector: "; Error err]))
  | inl selector =>
      match Transform (fun field value => inl (field, value)) selector with
      | inr err => inr (PlainError (sprint ["untransformable field selector: "; Error err]))
      | inl selector => inl [("fieldSelector", Selector_String selector)]
      end
  end.

Section abstract.
Context {A L : Type} `{ApiKind A, ApiList L A}.

Definition abstract_Create ns s (a : A) : Call (W := Server) A := fun sv =>
  match collection_refusal true ns with
  | Some err => ((kind_zero, Some err), sv)
  | None => let (r, sv) := ask s ns (fun n => VCreate (uid_at n) (rev_at n) (kind_inject a)) sv in (item_result r, sv)
  end.
Definition abstract_Update ns s (a : A) : Call (W := Server) A := fun sv =>
  let name := Name (kind_meta a) in
  match item_refusal ns name with
  | Some err => ((kind_zero, Some err), sv)
  | None =>
      let (r, sv) := match clash ns (Namespace (kind_meta a)) with
                     | Some err => told err sv
                     | None => ask s ns (fun n => VUpdate name (rev_at n) (kind_inject a)) sv
                     end in (item_result r, sv)
  end.
Definition abstract_Delete ns s (name : string) : Server -> option error * Server := fun sv =>
  match item_refusal ns name with
  | Some err => (Some err, sv)
  | None => let (r, sv) := ask s ns (fun n => VDelete name (rev_at n) (now_at n)) sv in (delete_result r, sv)
  end.
Definition abstract_Get ns s (name : string) : Call (W := Server) A := fun sv =>
  match item_refusal ns name with
  | Some err => ((kind_zero, Some err), sv)
  | None => let (r, sv) := ask s ns (fun n => VGet name) sv in (item_result r, sv)
  end.
Definition abstract_List ns s res (text : string) : Call (W := Server) L := fun sv =>
  match collection_refusal false ns with
  | Some err => ((list_zero, Some err), sv)
  | None =>
      match sent_selector text with
      | inr err => ((list_zero, Some err), sv)
      | inl query =>
          let (r, sv') := match list_selector (kind_of_resource res) query with
                          | inr err => told err sv
                          | inl field => ask s ns (fun n => VList field) sv
                          end in
          (list_result {| Kind := kind_of_resource res +:+ "List"; APIVersion := "servicecatalog.k8s.io/v1alpha1" |} (listMeta_at (sv_count sv)) r, sv')
      end
  end.
End abstract.

(** ** The storages of a resource *)

Lemma resource_storage res scoped subs : In (res, scoped, subs) resources -> exists s, In (res, s) routes /\ full_storage s = true /\
  namespaced_storage s = scoped /\ rest_resource s = res /\ kind_of_storage s = kind_of_resource res.
Proof.
  destruct api_routes_table as (b & bs & c & p & i & ist & ir & d & ds & Hr & Hm). rewrite Hr in Hm |- *.
  cbn [map snd] in Hm. injection Hm as H1 H2 H3 H4 H5 H6 H7 H8 H9.
  cbn [In resources]. intros Hin. decompose [or] Hin; try contradiction; simplify_eq; eexists; (split; [repeat first [left; reflexivity|right]|by split_and!]).
Qed.

Definition route_path (res sub : string) : string := if bool_decide (sub = "") then res else res +:+ "/" +:+ sub.
Lemma subresource_storage res scoped subs sub : In (res, scoped, subs) resources -> sub = "" \/ In sub subs -> exists s, In (route_path res sub, s) routes /\
  namespaced_storage s = scoped /\ rest_resource s = res /\ splitSubresource (route_path res sub) = inl (res, sub).
Proof.
  intros Hin [->|Hsub].
  - destruct (resource_storage res scoped subs Hin) as (s & H1 & _ & H2 & H3 & _). exists s. split_and!; [done..|].
    clear -Hin. cbn in Hin. decompose [or] Hin; by simplify_eq.
  - destruct api_routes_table as (b & bs & c & p & i & ist & ir & d & ds & Hr & Hm). rewrite Hr in Hm |- *.
    cbn [map snd] in Hm. injection Hm as H1 H2 H3 H4 H5 H6 H7 H8 H9.
    cbn [In resources] in Hin |- *. decompose [or] Hin; try contradiction; simplify_eq; cbn in Hsub; decompose [or] Hsub; try contradiction; subst; eexists; (split; [repeat first [left; reflexivity|right]|by split_and!]).
Qed.

Lemma listed_of_resource path s ctx field db l db' : In (path, s) routes -> serve s ctx (VList field) db = (ReplyList l, db') ->
  forall o, In o l -> resource_of o = rest_resource s.
Proof.
  intros Hs%routes_laid_out. destruct s as [A H R e|A H R e]; destruct Hs as (HO & HR & _); cbn; [|done].
  destruct (Store_List e ctx field db) as [r|err]; [|done]. intros [= <- <-] o (a & <- & _)%in_map_iff. apply resource_of_inject.
Qed.

(** ** Each method *)

(** A request as the builder leaves it. *)
Definition built rc verb ns res name sub ct body params : Request :=
  {| req_client := rc; req_verb := verb; req_contentType := ct; req_pathPrefix := path_Join ["/"; versionedAPIPath rc]; req_params := params;
     req_namespace := default "" ns; req_namespaceSet := not_nil ns; req_resource := res; req_resourceName := name; req_subresource := sub;
     req_err := None; req_body := body |}.

Lemma request_error_built rc verb ns res name sub ct body params : ns <> Some "" -> request_error (built rc verb ns res name sub ct body params) = None.
Proof.
  intros Hns. unfold request_error. cbn [req_err built req_verb req_namespaceSet req_namespace]. destruct ns as [n|]; cbn [not_nil default from_option id].
  - rewrite (bool_decide_eq_false_2 (n = "")) by congruence. by rewrite !andb_false_r.
  - by rewrite !andb_false_r.
Qed.

Lemma namespace_ok ns : namespace_refusal ns = None -> forall n, ns = Some n -> n = "" \/ segment n.
Proof.
  intros H n ->. cbn in H. destruct (IsValidPathSegmentName n) eqn:E; [|done].
  destruct (decide (n = "")); [by left|right; by apply valid_segment].
Qed.
Lemma name_ok name : name_refusal name = None -> segment name.
Proof. unfold name_refusal. case_bool_decide; [done|]. intros H1. destruct (IsValidPathSegmentName name) eqn:E; [|done]. by apply valid_segment. Qed.

Lemma Do_served rc verb ns res scoped subs name sub ct body params a s sv : let r := built rc verb ns res name sub ct body params in
  versionedAPIPath rc = group_path -> In (res, scoped, subs) resources -> scoped = not_nil ns ->
  namespace_refusal ns = None -> (name = "" /\ sub = "" \/ name_refusal name = None) -> sub = "" \/ In sub subs ->
  request_error r = None -> select_route api_routes verb (addressed_segments ns res name sub) = Some (a, s) ->
  (forall info, rp_RetryAfter (fst (handled (sv_count sv) a s info (URL r) (sv_db sv))) = None) ->
  exists info, ri_Namespace info = default "" ns /\ ri_Name info = name /\
    Do r sv = (transformResponse r (fst (handled (sv_count sv) a s info (URL r) (sv_db sv))),
               {| sv_db := snd (handled (sv_count sv) a s info (URL r) (sv_db sv)); sv_count := S (sv_count sv) |}).
Proof.
  cbv zeta. intros Hrc Hin Hsc Hns0 Hname Hsub He Hsel Hw. pose proof (namespace_ok ns Hns0) as Hns.
  pose proof (resource_facts _ _ _ Hin) as (Hp & Hseg & _ & _ & _ & Hsubs).
  assert (name = "" /\ sub = "" \/ segment name) as Hname' by (destruct Hname as [|?%name_ok]; auto).
  assert (sub = "" \/ segment sub) as Hsub' by (destruct Hsub as [|Hs]; [by left|right; by apply Hsubs]).
  destruct (served (URL (built rc verb ns res name sub ct body params)) sv ns res scoped subs name sub a s) as (info & H1 & H2 & Hsend); auto.
  - cbn [URL hc_Path]. apply (path_of_base rc verb); try done; destruct Hname' as [[? _]|?]; auto.
  - exists info. split_and!; [done|done|]. apply Do_answered; auto.
Qed.

Lemma create_spec {A} `{ApiKind A} rc ns res scoped subs s (a : A) sv :
  versionedAPIPath rc = group_path -> In (res, scoped, subs) resources -> scoped = not_nil ns ->
  In (res, s) routes -> full_storage s = true -> namespaced_storage s = scoped ->
  Into kind_zero read_item (Do (create_request rc ns res (kind_inject a))) sv = abstract_Create ns s a sv.
Proof.
  intros Hrc Hin Hsc Hs Hf Hn. pose proof (resource_facts _ _ _ Hin) as (Hp & _).
  pose proof (at_resource_spec rc "POST" ns res Hp) as Hr. unfold abstract_Create, collection_refusal, create_request, Into.
  destruct (namespace_refusal ns) as [err|] eqn:Hns.
  { unfold Body_object. rewrite (setter_err _ _ err) by done. by rewrite (Do_refused _ _ err) by (by apply request_error_kept). }
  rewrite Hr. change (Body_object (kind_inject a) (req_with_path (default "" ns) (not_nil ns) res "" "" (NewRequest rc "POST"))) with
    (built rc "POST" ns res "" "" "application/json" (Item (kind_inject a)) []).
  cbn [andb]. case_bool_decide as He.
  { subst ns. by rewrite (Do_refused _ _ (PlainError "an empty namespace may not be set during creation")). }
  destruct (Do_served rc "POST" ns res scoped subs "" "" "application/json" (Item (kind_inject a)) [] POST s sv) as (info & H1 & H2 & ->); try done; auto.
  - by apply request_error_built.
  - apply select_collection; [done..|]. right. split_and!; [done|done|]. rewrite Hn, Hsc. destruct ns as [n|]; [|done]. exists n. split; [done|congruence].
  - intros info. cbn [handle]. unfold CreateResource, finishRequest. cbn. destruct (serve _ _ _ _). apply respond_waits.
  - unfold handle, CreateResource, GetResource, UpdateResource, DeleteResource, ListResource, finishRequest, context_of, ask. cbn. rewrite H1. destruct (serve s _ _ _) as [r db]. cbn. by rewrite read_item_reply.
Qed.

Lemma item_call rc verb ns res scoped subs name sub ct body params path s a (f : Request -> Request) sv :
  versionedAPIPath rc = group_path -> In (res, scoped, subs) resources -> scoped = not_nil ns -> sub = "" \/ In sub subs ->
  In (path, s) routes -> splitSubresource path = inl (res, sub) -> namespaced_storage s = scoped ->
  verb ∈ ["GET"; "PUT"; "DELETE"] -> item_action (full_storage s) verb = Some a ->
  (forall r err, req_err r = Some err -> f r = r) ->
  f (req_with_path (default "" ns) (not_nil ns) res name "" (NewRequest rc verb)) = built rc verb ns res name sub ct body params ->
  let call := URL (built rc verb ns res name sub ct body params) in
  (forall info, rp_RetryAfter (fst (handled (sv_count sv) a s info call (sv_db sv))) = None) ->
  match item_refusal ns name with
  | Some err => Do (f (at_item rc verb ns res name)) sv = ({| res_body := Empty; res_err := Some (false, err) |}, sv)
  | None => exists info, ri_Namespace info = default "" ns /\ ri_Name info = name /\
      Do (f (at_item rc verb ns res name)) sv =
      (transformResponse (built rc verb ns res name sub ct body params) (fst (handled (sv_count sv) a s info call (sv_db sv))),
       {| sv_db := snd (handled (sv_count sv) a s info call (sv_db sv)); sv_count := S (sv_count sv) |})
  end.
Proof.
  cbv zeta. intros Hrc Hin Hsc Hsub Hs Hp Hn Hverb Ha Hf Hb Hw. pose proof (resource_facts _ _ _ Hin) as (Hpl & _).
  pose proof (at_item_spec rc verb ns res name Hpl) as Hr. unfold item_refusal.
  destruct (namespace_refusal ns) as [err|] eqn:Hns.
  { rewrite (Hf _ err) by done. by rewrite (Do_refused _ _ err) by (by apply request_error_kept). }
  destruct (name_refusal name) as [err|] eqn:Hname.
  { rewrite (Hf _ err) by done. by rewrite (Do_refused _ _ err) by (by apply request_error_kept). }
  pose proof (name_ok _ Hname) as (_ & Hne & _). rewrite Hr, Hb. case_bool_decide as He.
  - subst ns. rewrite (Do_refused _ _ (PlainError "an empty namespace may not be set when a resource name is provided")); [done|].
    unfold request_error. cbn [built req_err req_verb req_namespaceSet req_resourceName req_namespace not_nil default from_option id].
    rewrite (bool_decide_eq_false_2 (name = "")) by done. rewrite !elem_of_cons in Hverb.
    destruct Hverb as [->|[->|[->|H]]]; [done..|]. by apply elem_of_nil in H.
  - apply (Do_served rc verb ns res scoped subs name sub ct body params a s sv); try done; auto; [by apply request_error_built|].
    apply (select_item path); try done. rewrite Hn, Hsc. destruct ns as [n|]; [|done]. exists n. split; [done|congruence].
Qed.

Lemma item_refusal_name ns name : item_refusal ns name = None -> name <> "".
Proof. unfold item_refusal, name_refusal. intros H ->. by destruct (namespace_refusal ns). Qed.
Lemma metaOfR_meta_of o : metaOfR o = meta_of o.
Proof. done. Qed.
Lemma checkName_clash ns o name namespace : Name (metaOfR o) = name -> name <> "" -> namespace = default "" ns ->
  checkName o name namespace = clash ns (Namespace (metaOfR o)).
Proof. intros H Hn ->. unfold checkName, clash. cbv zeta. rewrite H, (bool_decide_eq_false_2 (name = "")), bool_decide_eq_true_2 by done. done. Qed.

Lemma update_spec {A} `{ApiKind A} rc ns res scoped subs sub s (a : A) sv :
  versionedAPIPath rc = group_path -> In (res, scoped, subs) resources -> scoped = not_nil ns -> sub = "" \/ In sub subs ->
  In (route_path res sub, s) routes -> splitSubresource (route_path res sub) = inl (res, sub) -> namespaced_storage s = scoped ->
  meta_of (kind_inject a) = kind_meta a ->
  Into kind_zero read_item (Do (update_request rc ns res (Name (kind_meta a)) sub (kind_inject a))) sv = abstract_Update ns s a sv.
Proof.
  intros Hrc Hin Hsc Hsub Hs Hp Hn Hmeta. set (name := Name (kind_meta a)). set (o := kind_inject a) in *.
  opose proof* (item_call rc "PUT" ns res scoped subs name sub "application/json" (Item o) [] (route_path res sub) s PUT
    (fun r => r |> (fun r => if bool_decide (sub = "") then r else Request_SubResource [sub] r) |> Body_object o) sv) as Hc; try done.
  - set_solver.
  - intros r err Hr. case_bool_decide; unfold Request_SubResource, Body_object; by rewrite ?(setter_err _ r err).
  - destruct Hsub as [->|Hsub]; [done|]. pose proof (resource_facts _ _ _ Hin) as (_ & _ & _ & _ & _ & Hsubs).
    destruct (Hsubs _ Hsub) as ((_ & Hne & _) & Hv & Hj). rewrite bool_decide_eq_false_2 by done.
    unfold Request_SubResource, setter. cbn -[path_Join IsValidPathSegmentName]. by rewrite Hv, Hj.
  - intros info. unfold handle, CreateResource, GetResource, UpdateResource, DeleteResource, ListResource, finishRequest. cbn [hc_Body URL built req_body]. case_bool_decide; [done|].
    destruct (checkName _ _ _) as [err|]; [|destruct (serve _ _ _ _); apply respond_waits].
    exact (respond_waits 200 TypeMeta_zero (listMeta_at 0%nat) (ReplyError err)).
  - unfold abstract_Update, Into, update_request. fold name o. cbv zeta beta in Hc |- *.
    destruct (item_refusal ns name) as [err|] eqn:Hit; [by rewrite Hc|]. destruct Hc as (info & H1 & H2 & ->).
    unfold handle, CreateResource, GetResource, UpdateResource, DeleteResource, ListResource, finishRequest. cbn [hc_Body URL built req_body]. rewrite H2.
    rewrite bool_decide_eq_false_2 by (by apply item_refusal_name in Hit). rewrite (checkName_clash ns), metaOfR_meta_of, Hmeta;
      [|by rewrite metaOfR_meta_of, Hmeta|by apply item_refusal_name in Hit|done].
    destruct (clash ns (Namespace (kind_meta a))) as [err|].
    + unfold told. cbn [fst snd]. f_equal. exact (read_item_reply _ 200 TypeMeta_zero (listMeta_at 0%nat) (ReplyError err) eq_refl).
    + unfold ask, context_of. rewrite H1. destruct (serve s _ _ _) as [r db]. cbn [fst snd]. by rewrite read_item_reply.
Qed.

Lemma delete_spec rc ns res scoped subs s name sv :
  versionedAPIPath rc = group_path -> In (res, scoped, subs) resources -> scoped = not_nil ns ->
  In (res, s) routes -> splitSubresource res = inl (res, "") -> full_storage s = true -> namespaced_storage s = scoped ->
  Call_Error (Do (delete_request rc ns res name None)) sv = abstract_Delete ns s name sv.
Proof.
  intros Hrc Hin Hsc Hs Hp Hf Hn.
  opose proof* (item_call rc "DELETE" ns res scoped subs name "" "" Empty [] res s DELETE (Body_options None) sv) as Hc; try done; auto.
  - set_solver.
  - by rewrite Hf.
  - intros r err Hr. unfold Body_options. by rewrite (setter_err _ r err).
  - intros info. unfold handle, CreateResource, GetResource, UpdateResource, DeleteResource, ListResource, finishRequest. cbn [hc_Body hc_Query URL built req_body req_params]. case_bool_decide; [by apply (respond_waits 200 TypeMeta_zero (listMeta_at 0%nat) (ReplyError errEmptyName))|].
    destruct (serve _ _ _ _); apply respond_waits.
  - unfold abstract_Delete, Call_Error, delete_request. cbv zeta beta in Hc |- *.
    destruct (item_refusal ns name) as [err|] eqn:Hit; [by rewrite Hc|]. destruct Hc as (info & H1 & H2 & ->).
    unfold handle, CreateResource, GetResource, UpdateResource, DeleteResource, ListResource, finishRequest. cbn [hc_Body hc_Query URL built req_body req_params]. rewrite H2.
    rewrite bool_decide_eq_false_2 by (by apply item_refusal_name in Hit).
    unfold ask, context_of. rewrite H1. destruct (serve s _ _ _) as [r db]. cbn [fst snd]. by rewrite read_error_reply.
Qed.

(** Parameters without a field selector are only added. *)
Lemma params_added r ps : req_err r = None ->
  Forall (fun p => fst p <> "labelSelector" /\ fst p <> "fieldSelector" /\ fst p <> "timeout") ps ->
  fold_left (fun r p => versioned_param p r) ps r = req_with_params (req_params r ++ ps) r.
Proof.
  intros Hr H. revert r Hr. induction H as [|[k v] ps (H1 & H2 & H3) _ IH]; intros r Hr; [rewrite app_nil_r; by destruct r|].
  cbn [fold_left versioned_param]. rewrite Hr. cbn in H1, H2, H3.
  rewrite (bool_decide_eq_false_2 (k = "labelSelector")), (bool_decide_eq_false_2 (k = "fieldSelector")) by done. cbn [andb].
  unfold setParam. rewrite bool_decide_eq_false_2 by done. rewrite IH by done. cbn. by rewrite <-app_assoc.
Qed.

Lemma params_after_error r ps err : req_err r = Some err -> req_err (fold_left (fun r p => versioned_param p r) ps r) = Some err.
Proof.
  revert r. induction ps as [|[k v] ps IH]; intros r Hr; [done|]. apply IH. cbn. by rewrite Hr.
Qed.

Lemma get_spec {A} `{ApiKind A} rc ns res scoped subs s name options sv :
  versionedAPIPath rc = group_path -> In (res, scoped, subs) resources -> scoped = not_nil ns ->
  In (res, s) routes -> splitSubresource res = inl (res, "") -> namespaced_storage s = scoped ->
  Into (A := A) kind_zero read_item (Do (get_request rc ns res name options)) sv = abstract_Get ns s name sv.
Proof.
  intros Hrc Hin Hsc Hs Hp Hn.
  opose proof* (item_call rc "GET" ns res scoped subs name "" "" Empty (GetOptions_params options) res s GET (VersionedParams (GetOptions_params options)) sv) as Hc; try done; auto.
  - set_solver.
  - intros r err Hr. unfold VersionedParams. by rewrite (setter_err _ r err).
  - unfold VersionedParams, setter. cbn [req_with_path req_err NewRequest]. rewrite params_added; [done|done|].
    unfold GetOptions_params, text_param, flag_param. apply Forall_app. split; case_match; repeat constructor; cbn; done.
  - intros info. unfold handle, CreateResource, GetResource, UpdateResource, DeleteResource, ListResource, finishRequest. cbn [hc_Body URL built req_body]. case_bool_decide; [by apply (respond_waits 200 TypeMeta_zero (listMeta_at 0%nat) (ReplyError errEmptyName))|].
    destruct (serve _ _ _ _); apply respond_waits.
  - unfold abstract_Get, Into, get_request. cbv zeta beta in Hc |- *.
    destruct (item_refusal ns name) as [err|] eqn:Hit; [by rewrite Hc|]. destruct Hc as (info & H1 & H2 & ->).
    unfold handle, CreateResource, GetResource, UpdateResource, DeleteResource, ListResource, finishRequest. cbn [hc_Body URL built req_body]. rewrite H2.
    rewrite bool_decide_eq_false_2 by (by apply item_refusal_name in Hit).
    unfold ask, context_of. rewrite H1. destruct (serve s _ _ _) as [r db]. cbn [fst snd]. by rewrite read_item_reply.
Qed.

(** What a list sends: the selector, and parameters the server does not look at. *)
Lemma list_params opts r : LabelSelector opts = "" -> lo_Watch opts = false -> req_err r = None ->
  match sent_selector (FieldSelector opts) with
  | inr err => req_err (VersionedParams (ListOptions_params opts) r) = Some err
  | inl query => exists rest, VersionedParams (ListOptions_params opts) r = req_with_params (req_params r ++ query ++ rest) r /\
      Forall (fun p => fst p <> "labelSelector" /\ fst p <> "fieldSelector" /\ fst p <> "watch") rest
  end.
Proof.
  intros Hl Hw Hr. unfold VersionedParams, setter. rewrite Hr. unfold ListOptions_params. rewrite Hl, Hw.
  change (text_param "labelSelector" "") with (@nil (string * string)). cbn [app].
  set (rest := flag_param "includeUninitialized" _ ++ _).
  assert (Forall (fun p => fst p <> "labelSelector" /\ fst p <> "fieldSelector" /\ fst p <> "timeout" /\ fst p <> "watch") rest) as Hrest.
  { unfold rest, flag_param, text_param. repeat (apply Forall_app; split); try done; case_match; repeat constructor; cbn; done. }
  unfold sent_selector, text_param. case_bool_decide as Ht.
  - cbn [app]. exists rest. rewrite params_added; [split; [done|]|done|]; (eapply List.Forall_impl; [|exact Hrest]); by intros p (? & ? & ? & ?).
  - cbn [app fold_left versioned_param]. rewrite Hr. change (bool_decide ("fieldSelector" = "labelSelector")) with false.
    change (bool_decide ("fieldSelector" = "fieldSelector")) with true. cbn [andb]. rewrite (bool_decide_eq_false_2 _ Ht). destruct (ParseSelector (FieldSelector opts)) as [sel|err]; [destruct (Transform _ sel) as [sel'|err]|].
    + exists rest. unfold setParam. change (bool_decide ("fieldSelector" = "timeout")) with false. cbv iota. rewrite params_added; [split|done|].
      * cbn. by rewrite <-app_assoc.
      * eapply List.Forall_impl; [|exact Hrest]; by intros p (? & ? & ? & ?).
      * eapply List.Forall_impl; [|exact Hrest]; by intros p (? & ? & ? & ?).
    + by apply params_after_error.
    + by apply params_after_error.
Qed.

Lemma sent_query text query : sent_selector text = inl query -> query = [] \/ exists t, query = [("fieldSelector", t)].
Proof. unfold sent_selector. repeat case_match; intros; simplify_eq; eauto. Qed.

Lemma received_query kind query rest : query = [] \/ (exists t, query = [("fieldSelector", t)]) ->
  Forall (fun p : string * string => fst p <> "labelSelector" /\ fst p <> "fieldSelector" /\ fst p <> "watch") rest ->
  has_key "watch" (query ++ rest) = false /\ has_key "labelSelector" (query ++ rest) = false /\
  list_selector kind (query ++ rest) = list_selector kind query.
Proof.
  intros Hq Hr. assert (has_key "watch" rest = false /\ has_key "labelSelector" rest = false /\
    List.find (fun p : string * string => bool_decide (fst p = "fieldSelector")) rest = None) as (H1 & H2 & H3).
  { induction Hr as [|p rest (Ha & Hb & Hc) _ (IH1 & IH2 & IH3)]; [done|]. unfold has_key in *. cbn.
    by rewrite !bool_decide_eq_false_2 by done. }
  destruct Hq as [->|[t ->]]; [|done]. split_and!; [done|done|]. unfold list_selector. cbn [app]. by rewrite H3.
Qed.

Lemma list_spec {A L} `{ApiKind A, ApiList L A} rc ns res scoped subs s opts sv :
  versionedAPIPath rc = group_path -> In (res, scoped, subs) resources -> scoped = not_nil ns ->
  In (res, s) routes -> full_storage s = true -> namespaced_storage s = scoped -> rest_resource s = res -> kind_of_storage s = kind_of_resource res ->
  (forall o, resource_of o = res -> exists a, kind_project o = Some a) -> list_name = kind_of_resource res +:+ "List" ->
  LabelSelector opts = "" -> lo_Watch opts = false ->
  Into (A := L) list_zero read_list (Do (list_request rc ns res opts)) sv = abstract_List ns s res (FieldSelector opts) sv.
Proof.
  intros Hrc Hin Hsc Hs Hf Hn Hr Hk Hproj Hname Hl Hw. pose proof (resource_facts _ _ _ Hin) as (Hp & _).
  pose proof (at_resource_spec rc "GET" ns res Hp) as Hreq. unfold abstract_List, collection_refusal, list_request, Into. cbn [andb].
  destruct (namespace_refusal ns) as [err|] eqn:Hns.
  { unfold VersionedParams. rewrite (setter_err _ _ err) by done. by rewrite (Do_refused _ _ err) by (by apply request_error_kept). }
  rewrite Hreq. pose proof (list_params opts (req_with_path (default "" ns) (not_nil ns) res "" "" (NewRequest rc "GET")) Hl Hw eq_refl) as Hps.
  destruct (sent_selector (FieldSelector opts)) as [query|err] eqn:Hsent; [|by rewrite (Do_refused _ _ err) by (by apply request_error_kept)].
  destruct Hps as (rest & -> & Hrest). cbn [req_params req_with_path NewRequest app].
  change (req_with_params (query ++ rest) (req_with_path (default "" ns) (not_nil ns) res "" "" (NewRequest rc "GET"))) with
    (built rc "GET" ns res "" "" "" Empty (query ++ rest)).
  destruct (received_query (kind_of_resource res) query rest (sent_query _ _ Hsent) Hrest) as (Hq1 & Hq2 & Hq3).
  destruct (Do_served rc "GET" ns res scoped subs "" "" "" Empty (query ++ rest) LIST s sv) as (info & H1 & H2 & ->); try done; auto.
  - unfold request_error. cbn. by rewrite andb_false_r.
  - apply select_collection; [done..|]. left. split_and!; [done|done|]. rewrite Hn, Hsc. by destruct ns.
  - intros info. unfold handle, CreateResource, GetResource, UpdateResource, DeleteResource, ListResource, finishRequest. cbn [hc_Query URL built req_params]. rewrite Hq1, Hq2, Hk, Hq3. cbn [orb].
    destruct (list_selector _ query) as [field|err]; [destruct (serve _ _ _ _); apply respond_waits|].
    exact (respond_waits 200 TypeMeta_zero (listMeta_at 0%nat) (ReplyError err)).
  - unfold handle, CreateResource, GetResource, UpdateResource, DeleteResource, ListResource, finishRequest. cbn [hc_Query URL built req_params]. rewrite Hq1, Hq2, Hk, Hq3. cbn [orb].
    set (listType := listTypeOf s).
    assert (listType = {| Kind := kind_of_resource res +:+ "List"; APIVersion := "servicecatalog.k8s.io/v1alpha1" |}) as Ht by (unfold listType, listTypeOf; by rewrite Hk).
    destruct (list_selector _ query) as [field|err].
    + unfold ask, context_of. rewrite H1. destruct (serve s _ _ _) as [r db] eqn:Hserve. cbn [fst snd].
      rewrite read_list_reply; [by rewrite Ht|by rewrite Ht, Hname|].
      intros l -> o Ho. apply Hproj. rewrite <-Hr. by eapply listed_of_resource.
    + cbn [fst snd told]. f_equal. rewrite <-Ht. apply (read_list_reply _ listType (listMeta_at (sv_count sv)) (ReplyError err)); [by rewrite Ht, Hname|done].
Qed.

(** ** The clients of the interface *)

(** C32: Creations, updates on the main route and on every subresource,
    deletions without options, reads, and lists without a label selector and
    without a watch, of every generated client of either client set, are the calls
    [abstract_Create], ..., [abstract_List] on the storage that the routes have for
    the resource (for an update: for its subresource).  Each of these has one of three
    outcomes: an error with nothing sent and the server as it was (a namespace or a
    name that is empty where it may not be or no path segment, a field selector that
    cannot be parsed); one request that the front of the server refuses without asking a
    storage, so that what is stored stays as it was (the object of an update is of
    another namespace, a field selector has an unsupported field); or one operation on that
    storage, at the namespace and name the client was given.  In the last two
    the caller gets the answer, as an object or an error.  Patches, watches,
    deletions of collections and deletions with options are not in the statement. *)
Theorem clients_reach_their_stores {K A L} `{TCL : TypedClientLaws K A L} (k : K) : versionedAPIPath (tc_rest k) = group_path ->
  exists s, In (tc_resource, s) routes /\ rest_resource s = tc_resource /\
    (forall a sv, tc_Create Server serving k a sv = abstract_Create (tc_namespace k) s a sv) /\
    (forall sub ns u, In (sub, ns, u) tc_updates ->
       exists s', In (route_path tc_resource sub, s') routes /\ rest_resource s' = tc_resource /\
         forall a sv, u Server serving k a sv = abstract_Update (ns k a) s' a sv) /\
    (forall name sv, tc_Delete Server serving k name None sv = abstract_Delete (tc_namespace k) s name sv) /\
    (forall name options sv, tc_Get Server serving k name options sv = abstract_Get (tc_namespace k) s name sv) /\
    (forall opts sv, LabelSelector opts = "" -> lo_Watch opts = false ->
       tc_List Server serving k opts sv = abstract_List (tc_namespace k) s tc_resource (FieldSelector opts) sv).
Proof.
  intros Hrc. destruct tc_known as (subs & Hk). destruct (Hk k) as [Hin Hsubs].
  destruct (resource_storage _ _ _ Hin) as (s & Hs & Hf & Hn & Hr & Hkind).
  destruct (subresource_storage _ _ _ "" Hin (or_introl eq_refl)) as (_ & _ & _ & _ & Hsplit).
  exists s. split_and!; [done|done| | | | |].
  - intros a sv. rewrite tc_Create_request. by eapply create_spec.
  - intros sub ns u Hu. destruct (subresource_storage _ _ _ sub Hin (Hsubs _ _ _ Hu)) as (s' & Hs' & Hn' & Hr' & Hsplit').
    exists s'. split_and!; [done|done|]. intros a sv. rewrite (tc_update_request _ _ _ _ sub ns u Hu).
    apply (update_spec _ _ _ (not_nil (tc_namespace k)) subs sub); try done; [symmetry; by apply (tc_update_scope k a sub ns u)|by apply (Hsubs _ ns u)|apply kind_meta_inject].
  - intros name sv. rewrite tc_Delete_request. by eapply delete_spec.
  - intros name options sv. rewrite tc_Get_request. by eapply get_spec.
  - intros opts sv Hl Hw. rewrite tc_List_request. eapply list_spec; try done; [apply kind_projects|apply list_name_kind].
Qed.
End server.
(** ** A client at work *)

Definition sample_rest : RESTClient := {| versionedAPIPath := DefaultServerURL_path "/apis" SchemeGroupVersion; client_Group := fst SchemeGroupVersion |}.
Definition sample_client : serviceInstances := ServiceInstances (ServicecatalogV1alpha1Client_New sample_rest) "ns".
Lemma sample_client_path : versionedAPIPath (tc_rest sample_client) = group_path.
Proof. by vm_compute. Qed.
Definition no_others (_ : Action) (_ : rest_Storage) (_ : RequestInfo) (_ : HTTPCall) (db : etcd) : Response * etcd := (answer 405 Empty, db).
#[local] Instance sample_server : Transport Server :=
  server_transport routes None (fun _ => "uid-1") (fun _ => "1") (fun _ => 77) (fun _ => ListMeta_zero) no_others.

Lemma clients_reach_their_stores_witness : exists s, In ("serviceinstances", s) routes /\
  serviceInstances_Create sample_client new_instance {| sv_db := ∅; sv_count := 0 |} =
    abstract_Create None (fun _ => "uid-1") (fun _ => "1") (Some "ns") s new_instance {| sv_db := ∅; sv_count := 0 |} /\
  snd (fst (serviceInstances_Create sample_client new_instance {| sv_db := ∅; sv_count := 0 |})) = None.
Proof.
  destruct (clients_reach_their_stores None (fun _ => "uid-1") (fun _ => "1") (fun _ => 77) (fun _ => ListMeta_zero) no_others sample_client sample_client_path)
    as (s & Hs & _ & Hc & _).
  cbn [tc_Create tc_namespace tc_resource serviceInstances_client_of] in Hc, Hs.
  exists s. split_and!; [exact Hs|exact (Hc new_instance {| sv_db := ∅; sv_count := 0 |})|by vm_compute].
Defined.

(** Only classes and plans can be listed by fields: the others have no conversion
    of field labels, so the server answers every selector with a bad request. *)
Lemma no_fields_of_instances kind field value : kind <> "ServiceClass" -> kind <> "ServicePlan" ->
  exists err, Transform (ConvertFieldLabel kind) (hasTerm field value) = inr err.
Proof. intros H1 H2. cbn. unfold transform_term, ConvertFieldLabel. rewrite !bool_decide_eq_false_2 by done. by eexists. Qed.

Example instances_by_name_refused :
  snd (fst (serviceInstances_List sample_client
    {| LabelSelector := ""; FieldSelector := "metadata.name=db"; lo_IncludeUninitialized := false; lo_Watch := false; lo_ResourceVersion := ""; TimeoutSeconds := None |}
    {| sv_db := db1; sv_count := 1 |})) <> None.
Proof. by vm_compute. Qed.

(** ** Retries *)

Section retries.
Context {W : Type} {T : Transport W}.

(** The transport with a counter of what is sent. *)
#[local] Instance counted : Transport (nat * W) := fun call w => let (s, w') := send call (snd w) in (s, (S (fst w), w')).

Lemma attempts_are_bounded left r (w : nat * W) : (fst w < fst (snd (attempt left r w)) <= fst w + S left)%nat.
Proof.
  revert w. induction left as [|left IH]; intros [n w]; cbn [attempt];
    change (send (URL r) (n, w)) with (let (s, w') := send (URL r) w in (s, (S n, w'))); destruct (send (URL r) w) as [s w'].
  - destruct s as [resp|err reset]; [destruct (checkWait resp)|destruct (_ || _)]; cbn [fst snd checkWait resetResponse]; try lia.
    destruct (checkWait resetResponse); cbn [fst snd]; lia.
  - specialize (IH (S n, w')). cbn [fst] in IH.
    destruct s as [resp|err reset]; [destruct (checkWait resp)|destruct (_ || _); [|destruct (checkWait resetResponse)]]; cbn [fst snd]; lia.
Qed.

(** A request is sent at most ten times. *)
Lemma requests_are_bounded r (w : nat * W) : (fst (snd (request r w)) <= fst w + maxRetries)%nat.
Proof.
  unfold request. destruct (request_error r); [cbn; lia|]. pose proof (attempts_are_bounded (maxRetries - 1) r w) as H.
  change (S (maxRetries - 1)) with maxRetries in H. lia.
Qed.

(** A request that writes is not sent again when it is not known whether it was
    received. *)
Lemma writes_are_not_resent left r (w : W) err reset w' : req_verb r <> "GET" -> send (URL r) w = (NotSent err reset, w') ->
  attempt left r w = (inr err, w').
Proof.
  intros Hv Hs. destruct left; cbn [attempt]; rewrite Hs, (bool_decide_eq_false_2 _ Hv); by rewrite orb_true_r.
Qed.
End retries.
