(* ===== verification/Cache.v ===== *)
(** * The object cache of Kubernetes

    [k8s.io/client-go/tools/cache]: the thread-safe map with its indices
    ([thread_safe_store.go]), the cache that files objects under keys
    ([store.go], [index.go]) and the loops the listers run over it
    ([listers.go]).  Each operation holds the lock of the map, so operations are
    steps of one state.  The order in which Go ranges over a map is not fixed:
    it is a parameter ([GoMapOrder]). *)

From stdpp Require Import gmap strings list.
From S2P Require Import Prelude Types Environment Fields APIServer Http Selectors Storage RestClient Clientset.

Definition with_Name (name : string) (m : ObjectMeta) : ObjectMeta :=
  {| Name := name; Namespace := Namespace m; UID := UID m; ResourceVersion := ResourceVersion m;
     Generation := Generation m; DeletionTimestamp := DeletionTimestamp m; Finalizers := Finalizers m;
     OwnerReferences := OwnerReferences m |}.

(** ** Ranging over maps *)

Class GoMapOrder := {
  go_range {V : Type} : gmap string V -> list (string * V);
  go_range_all {V} (m : gmap string V) : go_range m ≡ₚ map_to_list m;
  go_set : gset string -> list string;
  go_set_all s : go_set s ≡ₚ elements s }.

(** [sets.String.List]: sorted. *)
Definition set_List (s : gset string) : list string := sorting.merge_sort string_le (elements s).

Section cache.
Context {G : GoMapOrder} {A : Type} `{ApiKind A}.

(** What index and key functions are applied to: an object, or one that has
    nothing but metadata. *)
Inductive Entry := Stored (a : A) | MetaOnly (m : ObjectMeta).
Definition Accessor (e : Entry) : ObjectMeta := match e with Stored a => kind_meta a | MetaOnly m => m end.

Definition IndexFunc : Type := Entry -> list string + error.
Notation Index := (gmap string (gset string)).
Definition NamespaceIndex : string := "namespace".
(** Every entry has metadata, so there is no error. *)
Definition MetaNamespaceIndexFunc : IndexFunc := fun obj => inl [Namespace (Accessor obj)].

(** ** [threadSafeMap] *)

Record threadSafeMap := {
  tsm_items : gmap string A;
  tsm_indexers : gmap string IndexFunc;
  tsm_indices : gmap string Index }.
Definition with_indices i (c : threadSafeMap) : threadSafeMap :=
  {| tsm_items := tsm_items c; tsm_indexers := tsm_indexers c; tsm_indices := i |}.
Definition with_items i (c : threadSafeMap) : threadSafeMap :=
  {| tsm_items := i; tsm_indexers := tsm_indexers c; tsm_indices := tsm_indices c |}.

Definition NewThreadSafeStore (indexers : gmap string IndexFunc) (indices : gmap string Index) : threadSafeMap :=
  {| tsm_items := ∅; tsm_indexers := indexers; tsm_indices := indices |}.

(** One index, for one more or one less object under [key]. *)
Definition index_insert (key : string) (values : list string) (index : Index) : Index :=
  fold_left (fun index v => <[v := {[key]} ∪ default ∅ (index !! v)]> index) values index.
Definition index_delete (key : string) (values : list string) (index : Index) : Index :=
  fold_left (fun index v => match index !! v with Some set => <[v := set ∖ {[key]}]> index | None => index end) values index.

(** Both loops stop at the first index function that fails; their error is
    ignored by every caller. *)
Fixpoint delete_loop (l : list (string * IndexFunc)) (obj : A) (key : string) (indices : gmap string Index) : gmap string Index :=
  match l with
  | [] => indices
  | (name, indexFunc) :: l' =>
      match indexFunc (Stored obj) with
      | inr _ => indices
      | inl values =>
          match indices !! name with
          | None => delete_loop l' obj key indices
          | Some index => delete_loop l' obj key (<[name := index_delete key values index]> indices)
          end
      end
  end.
Definition deleteFromIndices (obj : A) (key : string) (c : threadSafeMap) : threadSafeMap :=
  with_indices (delete_loop (go_range (tsm_indexers c)) obj key (tsm_indices c)) c.

Fixpoint update_loop (l : list (string * IndexFunc)) (obj : A) (key : string) (indices : gmap string Index) : gmap string Index :=
  match l with
  | [] => indices
  | (name, indexFunc) :: l' =>
      match indexFunc (Stored obj) with
      | inr _ => indices
      | inl values => update_loop l' obj key (<[name := index_insert key values (default ∅ (indices !! name))]> indices)
      end
  end.
Definition updateIndices (oldObj : option A) (newObj : A) (key : string) (c : threadSafeMap) : threadSafeMap :=
  let c := match oldObj with Some old => deleteFromIndices old key c | None => c end in
  with_indices (update_loop (go_range (tsm_indexers c)) newObj key (tsm_indices c)) c.

Definition tsm_Add (key : string) (obj : A) (c : threadSafeMap) : threadSafeMap :=
  let oldObject := tsm_items c !! key in
  updateIndices oldObject obj key (with_items (<[key := obj]> (tsm_items c)) c).
Definition tsm_Update (key : string) (obj : A) (c : threadSafeMap) : threadSafeMap :=
  let oldObject := tsm_items c !! key in
  updateIndices oldObject obj key (with_items (<[key := obj]> (tsm_items c)) c).
Definition tsm_Delete (key : string) (c : threadSafeMap) : threadSafeMap :=
  match tsm_items c !! key with
  | Some obj => let c := deleteFromIndices obj key c in with_items (delete key (tsm_items c)) c
  | None => c
  end.
Definition tsm_Get (key : string) (c : threadSafeMap) : option A := tsm_items c !! key.
Definition tsm_List (c : threadSafeMap) : list A := map snd (go_range (tsm_items c)).
Definition tsm_ListKeys (c : threadSafeMap) : list string := map fst (go_range (tsm_items c)).
Definition tsm_Replace (items : gmap string A) (c : threadSafeMap) : threadSafeMap :=
  let c := with_indices ∅ (with_items items c) in
  fold_left (fun c p => updateIndices None (snd p) (fst p) c) (go_range items) c.

Definition noIndex (indexName : string) : error := PlainError (sprint ["Index with name "; indexName; " does not exist"]).

(** The objects under keys; a key without an object would be a nil item. *)
Definition items_at (keys : list string) (c : threadSafeMap) : list (option A) := map (fun k => tsm_items c !! k) keys.
Definition index_at (indexName : string) (c : threadSafeMap) : Index := default ∅ (tsm_indices c !! indexName).
Definition tsm_Index (indexName : string) (obj : Entry) (c : threadSafeMap) : list (option A) + error :=
  match (tsm_indexers c !! indexName : option IndexFunc) with
  | None => inr (noIndex indexName)
  | Some indexFunc =>
      match indexFunc obj with
      | inr err => inr err
      | inl indexKeys =>
          let returnKeySet : gset string := fold_left (fun set indexKey => set ∪ default ∅ (index_at indexName c !! indexKey)) indexKeys ∅ in
          inl (items_at (go_set returnKeySet) c)
      end
  end.
Definition tsm_ByIndex (indexName indexKey : string) (c : threadSafeMap) : list (option A) + error :=
  match tsm_indexers c !! indexName with
  | None => inr (noIndex indexName)
  | Some _ => inl (items_at (set_List (default ∅ (index_at indexName c !! indexKey))) c)
  end.
Definition tsm_IndexKeys (indexName indexKey : string) (c : threadSafeMap) : list string + error :=
  match tsm_indexers c !! indexName with
  | None => inr (noIndex indexName)
  | Some _ => inl (set_List (default ∅ (index_at indexName c !! indexKey)))
  end.
Definition tsm_ListIndexFuncValues (indexName : string) (c : threadSafeMap) : list string := map fst (go_range (index_at indexName c)).

Definition tsm_AddIndexers (newIndexers : gmap string IndexFunc) (c : threadSafeMap) : option error * threadSafeMap :=
  if negb (bool_decide (tsm_items c = ∅)) then (Some (PlainError "cannot add indexers to running index"), c)
  else
    let both := dom (tsm_indexers c) ∩ dom newIndexers in
    if negb (bool_decide (both = ∅)) then (Some (PlainError (sprint ["indexer conflict: ["; Join " " (set_List both); "]"])), c)
    else (None, {| tsm_items := tsm_items c; tsm_indexers := newIndexers ∪ tsm_indexers c; tsm_indices := tsm_indices c |}).

(** ** Keys *)

(** An explicit key, or something with metadata. *)
Inductive Keyed := ExplicitKey (key : string) | Object (e : Entry) | DeletedFinalStateUnknown (key : string).
Definition MetaNamespaceKey (m : ObjectMeta) : string :=
  if negb (bool_decide (Namespace m = "")) then sprint [Namespace m; "/"; Name m] else Name m.
Definition MetaNamespaceKeyFunc (obj : Keyed) : string + error :=
  match obj with
  | ExplicitKey key => inl key
  | Object e => inl (MetaNamespaceKey (Accessor e))
  | DeletedFinalStateUnknown _ => inr (PlainError "object has no meta: object does not implement the Object interfaces")
  end.
Definition DeletionHandlingMetaNamespaceKeyFunc (obj : Keyed) : string + error :=
  match obj with DeletedFinalStateUnknown key => inl key | _ => MetaNamespaceKeyFunc obj end.
Definition SplitMetaNamespaceKey (key : string) : (string * string) + error :=
  match split_on [47]%nat key with
  | [name] => inl ("", name)
  | [namespace; name] => inl (namespace, name)
  | _ => inr (PlainError (sprint ["unexpected key format: "; quote key]))
  end.

(** ** [cache] *)

Record Cache := { cacheStorage : threadSafeMap; keyFunc : Keyed -> string + error }.
Definition with_storage s (c : Cache) : Cache := {| cacheStorage := s; keyFunc := keyFunc c |}.
Definition KeyError (err : error) : error := PlainError (sprint ["couldn't create key for object: "; Error err]).

Definition NewIndexer (keyFunc : Keyed -> string + error) (indexers : gmap string IndexFunc) : Cache :=
  {| cacheStorage := NewThreadSafeStore indexers ∅; keyFunc := keyFunc |}.
Definition NewStore (keyFunc : Keyed -> string + error) : Cache := NewIndexer keyFunc ∅.

Definition keyed (c : Cache) (obj : Keyed) (f : string -> threadSafeMap -> threadSafeMap) : option error * Cache :=
  match keyFunc c obj with
  | inr err => (Some (KeyError err), c)
  | inl key => (None, with_storage (f key (cacheStorage c)) c)
  end.
Definition cache_Add (obj : A) (c : Cache) : option error * Cache := keyed c (Object (Stored obj)) (fun key => tsm_Add key obj).
Definition cache_Update (obj : A) (c : Cache) : option error * Cache := keyed c (Object (Stored obj)) (fun key => tsm_Update key obj).
Definition cache_Delete (obj : Keyed) (c : Cache) : option error * Cache := keyed c obj tsm_Delete.
Definition cache_List (c : Cache) : list A := tsm_List (cacheStorage c).
Definition cache_ListKeys (c : Cache) : list string := tsm_ListKeys (cacheStorage c).
Definition cache_Index (indexName : string) (obj : Entry) (c : Cache) : list (option A) + error := tsm_Index indexName obj (cacheStorage c).
Definition cache_GetByKey (key : string) (c : Cache) : option A + error := inl (tsm_Get key (cacheStorage c)).
Definition cache_Get (obj : Keyed) (c : Cache) : option A + error :=
  match keyFunc c obj with inr err => inr (KeyError err) | inl key => cache_GetByKey key c end.

Definition cache_AddIndexers (newIndexers : gmap string IndexFunc) (c : Cache) : option error * Cache :=
  let (err, s) := tsm_AddIndexers newIndexers (cacheStorage c) in (err, with_storage s c).

(** The new contents; a later object of the same key is the one that stays. *)
Fixpoint keyed_items (keyFunc : Keyed -> string + error) (l : list A) (items : gmap string A) : gmap string A + error :=
  match l with
  | [] => inl items
  | item :: l' =>
      match keyFunc (Object (Stored item)) with
      | inr err => inr (KeyError err)
      | inl key => keyed_items keyFunc l' (<[key := item]> items)
      end
  end.
Definition cache_Replace (l : list A) (c : Cache) : option error * Cache :=
  match keyed_items (keyFunc c) l ∅ with
  | inr err => (Some err, c)
  | inl items => (None, with_storage (tsm_Replace items (cacheStorage c)) c)
  end.

(** ** The loops of the listers *)

(** A label selector is known by what it matches. *)
Definition LabelsSelector : Type := ObjectMeta -> bool.

(** An item that is nil has no metadata. *)
Definition noMeta : error := PlainError "object does not implement the Object interfaces".
Fixpoint matching (items : list (option A)) (selector : ObjectMeta -> bool) : list A * option error :=
  match items with
  | [] => ([], None)
  | None :: _ => ([], Some noMeta)
  | Some m :: items' =>
      let (ret, err) := matching items' selector in
      (if selector (kind_meta m) then m :: ret else ret, err)
  end.
Definition ListAll (store : Cache) (selector : LabelsSelector) : list A * option error := matching (map Some (cache_List store)) selector.
Definition ListAllByNamespace (indexer : Cache) (namespace : string) (selector : LabelsSelector) : list A * option error :=
  if bool_decide (namespace = "") then matching (map Some (cache_List indexer)) selector
  else
    match cache_Index NamespaceIndex (MetaOnly (with_Namespace namespace ObjectMeta_zero)) indexer with
    | inr _ => matching (map Some (cache_List indexer)) (fun metadata => bool_decide (Namespace metadata = namespace) && selector metadata)
    | inl items => matching items selector
    end.
End cache.
Arguments Entry A : clear implicits.
Arguments Keyed A : clear implicits.
Arguments IndexFunc A : clear implicits.
Arguments threadSafeMap A : clear implicits.
Arguments Cache A : clear implicits.
