(* ===== verification/Listers.v ===== *)
(** * The generated listers

    [pkg/client/listers_generated]: for each kind, in the versioned and the
    internal types, what the controller and the admission plugins read the
    caches of their informers with. A lister points to the indexer of its
    informer; here it holds what the indexer holds when it is used. *)

From stdpp Require Import gmap strings list.
From S2P Require Import Prelude Types Environment Fields InternalTypes APIServer Storage RestClient Clientset Cache.

(** [errors.NewNotFound] of a resource of the group. *)
Definition ResourceOf (resource : string) : string * string := ("servicecatalog.k8s.io", resource).
Definition NewNotFoundError (qualifiedResource : string * string) (name : string) : error :=
  StatusError ReasonNotFound (sprint [snd qualifiedResource; "."; fst qualifiedResource; " "; quote name; " not found"]).

Section listers.
Context {G : GoMapOrder}.

(** ** The listers of [v1alpha1] *)

Record clusterServiceBrokerLister := { clusterServiceBrokerLister_indexer : Cache ClusterServiceBroker }.
Definition NewClusterServiceBrokerLister (indexer : Cache ClusterServiceBroker) : clusterServiceBrokerLister := {| clusterServiceBrokerLister_indexer := indexer |}.
Definition clusterServiceBrokerLister_List (s : clusterServiceBrokerLister) (selector : LabelsSelector) : list ClusterServiceBroker * option error := ListAll (clusterServiceBrokerLister_indexer s) selector.
Definition clusterServiceBrokerLister_Get (s : clusterServiceBrokerLister) (name : string) : ClusterServiceBroker + error :=
  match cache_Get (Object (MetaOnly (with_Name name ObjectMeta_zero))) (clusterServiceBrokerLister_indexer s) with
  | inr err => inr err
  | inl None => inr (NewNotFoundError (ResourceOf "clusterservicebroker") name)
  | inl (Some obj) => inl obj
  end.

Record serviceClassLister := { serviceClassLister_indexer : Cache ServiceClass }.
Definition NewServiceClassLister (indexer : Cache ServiceClass) : serviceClassLister := {| serviceClassLister_indexer := indexer |}.
Definition serviceClassLister_List (s : serviceClassLister) (selector : LabelsSelector) : list ServiceClass * option error := ListAll (serviceClassLister_indexer s) selector.
Definition serviceClassLister_Get (s : serviceClassLister) (name : string) : ServiceClass + error :=
  match cache_Get (Object (MetaOnly (with_Name name ObjectMeta_zero))) (serviceClassLister_indexer s) with
  | inr err => inr err
  | inl None => inr (NewNotFoundError (ResourceOf "serviceclass") name)
  | inl (Some obj) => inl obj
  end.

Record servicePlanLister := { servicePlanLister_indexer : Cache ServicePlan }.
Definition NewServicePlanLister (indexer : Cache ServicePlan) : servicePlanLister := {| servicePlanLister_indexer := indexer |}.
Definition servicePlanLister_List (s : servicePlanLister) (selector : LabelsSelector) : list ServicePlan * option error := ListAll (servicePlanLister_indexer s) selector.
Definition servicePlanLister_Get (s : servicePlanLister) (name : string) : ServicePlan + error :=
  match cache_Get (Object (MetaOnly (with_Name name ObjectMeta_zero))) (servicePlanLister_indexer s) with
  | inr err => inr err
  | inl None => inr (NewNotFoundError (ResourceOf "serviceplan") name)
  | inl (Some obj) => inl obj
  end.

Record serviceInstanceLister := { serviceInstanceLister_indexer : Cache ServiceInstance }.
Definition NewServiceInstanceLister (indexer : Cache ServiceInstance) : serviceInstanceLister := {| serviceInstanceLister_indexer := indexer |}.
Definition serviceInstanceLister_List (s : serviceInstanceLister) (selector : LabelsSelector) : list ServiceInstance * option error := ListAll (serviceInstanceLister_indexer s) selector.
Record serviceInstanceNamespaceLister := { serviceInstanceNamespaceLister_indexer : Cache ServiceInstance; serviceInstanceNamespaceLister_namespace : string }.
Definition serviceInstanceLister_ServiceInstances (s : serviceInstanceLister) (namespace : string) : serviceInstanceNamespaceLister := {| serviceInstanceNamespaceLister_indexer := serviceInstanceLister_indexer s; serviceInstanceNamespaceLister_namespace := namespace |}.
Definition serviceInstanceNamespaceLister_List (s : serviceInstanceNamespaceLister) (selector : LabelsSelector) : list ServiceInstance * option error :=
  ListAllByNamespace (serviceInstanceNamespaceLister_indexer s) (serviceInstanceNamespaceLister_namespace s) selector.
Definition serviceInstanceNamespaceLister_Get (s : serviceInstanceNamespaceLister) (name : string) : ServiceInstance + error :=
  match cache_GetByKey (sprint [serviceInstanceNamespaceLister_namespace s; "/"; name]) (serviceInstanceNamespaceLister_indexer s) with
  | inr err => inr err
  | inl None => inr (NewNotFoundError (ResourceOf "serviceinstance") name)
  | inl (Some obj) => inl obj
  end.

Record serviceInstanceCredentialLister := { serviceInstanceCredentialLister_indexer : Cache ServiceInstanceCredential }.
Definition NewServiceInstanceCredentialLister (indexer : Cache ServiceInstanceCredential) : serviceInstanceCredentialLister := {| serviceInstanceCredentialLister_indexer := indexer |}.
Definition serviceInstanceCredentialLister_List (s : serviceInstanceCredentialLister) (selector : LabelsSelector) : list ServiceInstanceCredential * option error := ListAll (serviceInstanceCredentialLister_indexer s) selector.
Record serviceInstanceCredentialNamespaceLister := { serviceInstanceCredentialNamespaceLister_indexer : Cache ServiceInstanceCredential; serviceInstanceCredentialNamespaceLister_namespace : string }.
Definition serviceInstanceCredentialLister_ServiceInstanceCredentials (s : serviceInstanceCredentialLister) (namespace : string) : serviceInstanceCredentialNamespaceLister := {| serviceInstanceCredentialNamespaceLister_indexer := serviceInstanceCredentialLister_indexer s; serviceInstanceCredentialNamespaceLister_namespace := namespace |}.
Definition serviceInstanceCredentialNamespaceLister_List (s : serviceInstanceCredentialNamespaceLister) (selector : LabelsSelector) : list ServiceInstanceCredential * option error :=
  ListAllByNamespace (serviceInstanceCredentialNamespaceLister_indexer s) (serviceInstanceCredentialNamespaceLister_namespace s) selector.
Definition serviceInstanceCredentialNamespaceLister_Get (s : serviceInstanceCredentialNamespaceLister) (name : string) : ServiceInstanceCredential + error :=
  match cache_GetByKey (sprint [serviceInstanceCredentialNamespaceLister_namespace s; "/"; name]) (serviceInstanceCredentialNamespaceLister_indexer s) with
  | inr err => inr err
  | inl None => inr (NewNotFoundError (ResourceOf "serviceinstancecredential") name)
  | inl (Some obj) => inl obj
  end.

(** ** The listers of the internal types *)

Record internal_clusterServiceBrokerLister := { internal_clusterServiceBrokerLister_indexer : Cache servicecatalog.ClusterServiceBroker }.
Definition internal_NewClusterServiceBrokerLister (indexer : Cache servicecatalog.ClusterServiceBroker) : internal_clusterServiceBrokerLister := {| internal_clusterServiceBrokerLister_indexer := indexer |}.
Definition internal_clusterServiceBrokerLister_List (s : internal_clusterServiceBrokerLister) (selector : LabelsSelector) : list servicecatalog.ClusterServiceBroker * option error := ListAll (internal_clusterServiceBrokerLister_indexer s) selector.
Definition internal_clusterServiceBrokerLister_Get (s : internal_clusterServiceBrokerLister) (name : string) : servicecatalog.ClusterServiceBroker + error :=
  match cache_Get (Object (MetaOnly (with_Name name ObjectMeta_zero))) (internal_clusterServiceBrokerLister_indexer s) with
  | inr err => inr err
  | inl None => inr (NewNotFoundError (ResourceOf "clusterservicebroker") name)
  | inl (Some obj) => inl obj
  end.

Record internal_serviceClassLister := { internal_serviceClassLister_indexer : Cache servicecatalog.ServiceClass }.
Definition internal_NewServiceClassLister (indexer : Cache servicecatalog.ServiceClass) : internal_serviceClassLister := {| internal_serviceClassLister_indexer := indexer |}.
Definition internal_serviceClassLister_List (s : internal_serviceClassLister) (selector : LabelsSelector) : list servicecatalog.ServiceClass * option error := ListAll (internal_serviceClassLister_indexer s) selector.
Definition internal_serviceClassLister_Get (s : internal_serviceClassLister) (name : string) : servicecatalog.ServiceClass + error :=
  match cache_Get (Object (MetaOnly (with_Name name ObjectMeta_zero))) (internal_serviceClassLister_indexer s) with
  | inr err => inr err
  | inl None => inr (NewNotFoundError (ResourceOf "serviceclass") name)
  | inl (Some obj) => inl obj
  end.

Record internal_servicePlanLister := { internal_servicePlanLister_indexer : Cache servicecatalog.ServicePlan }.
Definition internal_NewServicePlanLister (indexer : Cache servicecatalog.ServicePlan) : internal_servicePlanLister := {| internal_servicePlanLister_indexer := indexer |}.
Definition internal_servicePlanLister_List (s : internal_servicePlanLister) (selector : LabelsSelector) : list servicecatalog.ServicePlan * option error := ListAll (internal_servicePlanLister_indexer s) selector.
Definition internal_servicePlanLister_Get (s : internal_servicePlanLister) (name : string) : servicecatalog.ServicePlan + error :=
  match cache_Get (Object (MetaOnly (with_Name name ObjectMeta_zero))) (internal_servicePlanLister_indexer s) with
  | inr err => inr err
  | inl None => inr (NewNotFoundError (ResourceOf "serviceplan") name)
  | inl (Some obj) => inl obj
  end.

Record internal_serviceInstanceLister := { internal_serviceInstanceLister_indexer : Cache servicecatalog.ServiceInstance }.
Definition internal_NewServiceInstanceLister (indexer : Cache servicecatalog.ServiceInstance) : internal_serviceInstanceLister := {| internal_serviceInstanceLister_indexer := indexer |}.
Definition internal_serviceInstanceLister_List (s : internal_serviceInstanceLister) (selector : LabelsSelector) : list servicecatalog.ServiceInstance * option error := ListAll (internal_serviceInstanceLister_indexer s) selector.
Record internal_serviceInstanceNamespaceLister := { internal_serviceInstanceNamespaceLister_indexer : Cache servicecatalog.ServiceInstance; internal_serviceInstanceNamespaceLister_namespace : string }.
Definition internal_serviceInstanceLister_ServiceInstances (s : internal_serviceInstanceLister) (namespace : string) : internal_serviceInstanceNamespaceLister := {| internal_serviceInstanceNamespaceLister_indexer := internal_serviceInstanceLister_indexer s; internal_serviceInstanceNamespaceLister_namespace := namespace |}.
Definition internal_serviceInstanceNamespaceLister_List (s : internal_serviceInstanceNamespaceLister) (selector : LabelsSelector) : list servicecatalog.ServiceInstance * option error :=
  ListAllByNamespace (internal_serviceInstanceNamespaceLister_indexer s) (internal_serviceInstanceNamespaceLister_namespace s) selector.
Definition internal_serviceInstanceNamespaceLister_Get (s : internal_serviceInstanceNamespaceLister) (name : string) : servicecatalog.ServiceInstance + error :=
  match cache_GetByKey (sprint [internal_serviceInstanceNamespaceLister_namespace s; "/"; name]) (internal_serviceInstanceNamespaceLister_indexer s) with
  | inr err => inr err
  | inl None => inr (NewNotFoundError (ResourceOf "serviceinstance") name)
  | inl (Some obj) => inl obj
  end.

Record internal_serviceInstanceCredentialLister := { internal_serviceInstanceCredentialLister_indexer : Cache servicecatalog.ServiceInstanceCredential }.
Definition internal_NewServiceInstanceCredentialLister (indexer : Cache servicecatalog.ServiceInstanceCredential) : internal_serviceInstanceCredentialLister := {| internal_serviceInstanceCredentialLister_indexer := indexer |}.
Definition internal_serviceInstanceCredentialLister_List (s : internal_serviceInstanceCredentialLister) (selector : LabelsSelector) : list servicecatalog.ServiceInstanceCredential * option error := ListAll (internal_serviceInstanceCredentialLister_indexer s) selector.
Record internal_serviceInstanceCredentialNamespaceLister := { internal_serviceInstanceCredentialNamespaceLister_indexer : Cache servicecatalog.ServiceInstanceCredential; internal_serviceInstanceCredentialNamespaceLister_namespace : string }.
Definition internal_serviceInstanceCredentialLister_ServiceInstanceCredentials (s : internal_serviceInstanceCredentialLister) (namespace : string) : internal_serviceInstanceCredentialNamespaceLister := {| internal_serviceInstanceCredentialNamespaceLister_indexer := internal_serviceInstanceCredentialLister_indexer s; internal_serviceInstanceCredentialNamespaceLister_namespace := namespace |}.
Definition internal_serviceInstanceCredentialNamespaceLister_List (s : internal_serviceInstanceCredentialNamespaceLister) (selector : LabelsSelector) : list servicecatalog.ServiceInstanceCredential * option error :=
  ListAllByNamespace (internal_serviceInstanceCredentialNamespaceLister_indexer s) (internal_serviceInstanceCredentialNamespaceLister_namespace s) selector.
Definition internal_serviceInstanceCredentialNamespaceLister_Get (s : internal_serviceInstanceCredentialNamespaceLister) (name : string) : servicecatalog.ServiceInstanceCredential + error :=
  match cache_GetByKey (sprint [internal_serviceInstanceCredentialNamespaceLister_namespace s; "/"; name]) (internal_serviceInstanceCredentialNamespaceLister_indexer s) with
  | inr err => inr err
  | inl None => inr (NewNotFoundError (ResourceOf "serviceinstancecredential") name)
  | inl (Some obj) => inl obj
  end.
End listers.

(** ** One interface for the listers *)

Class Lister (K A : Type) `{GoMapOrder, ApiKind A} := {
  ls_resource : string;
  ls_indexer : K -> Cache A;
  ls_List : K -> LabelsSelector -> list A * option error;
  ls_namespaces : option (K -> string -> LabelsSelector -> list A * option error);
  ls_Get : K -> string -> string -> A + error }.

(** A lister of a kind with namespaces reads by key, the others by an object
    that has only a name. *)
Definition lister_Get {A} `{ApiKind A} (namespaced : bool) (resource : string) (c : Cache A) (ns name : string) : A + error :=
  match (if namespaced then cache_GetByKey (sprint [ns; "/"; name]) c else cache_Get (Object (MetaOnly (with_Name name ObjectMeta_zero))) c) with
  | inr err => inr err
  | inl None => inr (NewNotFoundError (ResourceOf resource) name)
  | inl (Some obj) => inl obj
  end.

Class ListerLaws (K A : Type) `{Lister K A} : Prop := {
  ls_List_all k selector : ls_List k selector = ListAll (ls_indexer k) selector;
  ls_List_namespace by_ns k ns selector : ls_namespaces = Some by_ns -> by_ns k ns selector = ListAllByNamespace (ls_indexer k) ns selector;
  ls_Get_key k ns name : ls_Get k ns name = lister_Get (match ls_namespaces with Some _ => true | None => false end) ls_resource (ls_indexer k) ns name }.

Ltac lister_laws := split; [done|by intros by_ns k ns selector; cbn; intros [= <-]|done].

Section instances.
Context {G : GoMapOrder}.

#[export] Instance clusterServiceBrokerLister_lister : Lister clusterServiceBrokerLister ClusterServiceBroker :=
  {| ls_resource := "clusterservicebroker"; ls_indexer := clusterServiceBrokerLister_indexer; ls_List := clusterServiceBrokerLister_List; ls_namespaces := None; ls_Get := fun k _ name => clusterServiceBrokerLister_Get k name |}.
#[export] Instance clusterServiceBrokerLister_lister_laws : ListerLaws clusterServiceBrokerLister ClusterServiceBroker.
Proof. lister_laws. Qed.
#[export] Instance serviceClassLister_lister : Lister serviceClassLister ServiceClass :=
  {| ls_resource := "serviceclass"; ls_indexer := serviceClassLister_indexer; ls_List := serviceClassLister_List; ls_namespaces := None; ls_Get := fun k _ name => serviceClassLister_Get k name |}.
#[export] Instance serviceClassLister_lister_laws : ListerLaws serviceClassLister ServiceClass.
Proof. lister_laws. Qed.
#[export] Instance servicePlanLister_lister : Lister servicePlanLister ServicePlan :=
  {| ls_resource := "serviceplan"; ls_indexer := servicePlanLister_indexer; ls_List := servicePlanLister_List; ls_namespaces := None; ls_Get := fun k _ name => servicePlanLister_Get k name |}.
#[export] Instance servicePlanLister_lister_laws : ListerLaws servicePlanLister ServicePlan.
Proof. lister_laws. Qed.
#[export] Instance serviceInstanceLister_lister : Lister serviceInstanceLister ServiceInstance :=
  {| ls_resource := "serviceinstance"; ls_indexer := serviceInstanceLister_indexer; ls_List := serviceInstanceLister_List; ls_namespaces := Some (fun k ns => serviceInstanceNamespaceLister_List (serviceInstanceLister_ServiceInstances k ns)); ls_Get := fun k ns name => serviceInstanceNamespaceLister_Get (serviceInstanceLister_ServiceInstances k ns) name |}.
#[export] Instance serviceInstanceLister_lister_laws : ListerLaws serviceInstanceLister ServiceInstance.
Proof. lister_laws. Qed.
#[export] Instance serviceInstanceCredentialLister_lister : Lister serviceInstanceCredentialLister ServiceInstanceCredential :=
  {| ls_resource := "serviceinstancecredential"; ls_indexer := serviceInstanceCredentialLister_indexer; ls_List := serviceInstanceCredentialLister_List; ls_namespaces := Some (fun k ns => serviceInstanceCredentialNamespaceLister_List (serviceInstanceCredentialLister_ServiceInstanceCredentials k ns)); ls_Get := fun k ns name => serviceInstanceCredentialNamespaceLister_Get (serviceInstanceCredentialLister_ServiceInstanceCredentials k ns) name |}.
#[export] Instance serviceInstanceCredentialLister_lister_laws : ListerLaws serviceInstanceCredentialLister ServiceInstanceCredential.
Proof. lister_laws. Qed.
#[export] Instance internal_clusterServiceBrokerLister_lister : Lister internal_clusterServiceBrokerLister servicecatalog.ClusterServiceBroker :=
  {| ls_resource := "clusterservicebroker"; ls_indexer := internal_clusterServiceBrokerLister_indexer; ls_List := internal_clusterServiceBrokerLister_List; ls_namespaces := None; ls_Get := fun k _ name => internal_clusterServiceBrokerLister_Get k name |}.
#[export] Instance internal_clusterServiceBrokerLister_lister_laws : ListerLaws internal_clusterServiceBrokerLister servicecatalog.ClusterServiceBroker.
Proof. lister_laws. Qed.
#[export] Instance internal_serviceClassLister_lister : Lister internal_serviceClassLister servicecatalog.ServiceClass :=
  {| ls_resource := "serviceclass"; ls_indexer := internal_serviceClassLister_indexer; ls_List := internal_serviceClassLister_List; ls_namespaces := None; ls_Get := fun k _ name => internal_serviceClassLister_Get k name |}.
#[export] Instance internal_serviceClassLister_lister_laws : ListerLaws internal_serviceClassLister servicecatalog.ServiceClass.
Proof. lister_laws. Qed.
#[export] Instance internal_servicePlanLister_lister : Lister internal_servicePlanLister servicecatalog.ServicePlan :=
  {| ls_resource := "serviceplan"; ls_indexer := internal_servicePlanLister_indexer; ls_List := internal_servicePlanLister_List; ls_namespaces := None; ls_Get := fun k _ name => internal_servicePlanLister_Get k name |}.
#[export] Instance internal_servicePlanLister_lister_laws : ListerLaws internal_servicePlanLister servicecatalog.ServicePlan.
Proof. lister_laws. Qed.
#[export] Instance internal_serviceInstanceLister_lister : Lister internal_serviceInstanceLister servicecatalog.ServiceInstance :=
  {| ls_resource := "serviceinstance"; ls_indexer := internal_serviceInstanceLister_indexer; ls_List := internal_serviceInstanceLister_List; ls_namespaces := Some (fun k ns => internal_serviceInstanceNamespaceLister_List (internal_serviceInstanceLister_ServiceInstances k ns)); ls_Get := fun k ns name => internal_serviceInstanceNamespaceLister_Get (internal_serviceInstanceLister_ServiceInstances k ns) name |}.
#[export] Instance internal_serviceInstanceLister_lister_laws : ListerLaws internal_serviceInstanceLister servicecatalog.ServiceInstance.
Proof. lister_laws. Qed.
#[export] Instance internal_serviceInstanceCredentialLister_lister : Lister internal_serviceInstanceCredentialLister servicecatalog.ServiceInstanceCredential :=
  {| ls_resource := "serviceinstancecredential"; ls_indexer := internal_serviceInstanceCredentialLister_indexer; ls_List := internal_serviceInstanceCredentialLister_List; ls_namespaces := Some (fun k ns => internal_serviceInstanceCredentialNamespaceLister_List (internal_serviceInstanceCredentialLister_ServiceInstanceCredentials k ns)); ls_Get := fun k ns name => internal_serviceInstanceCredentialNamespaceLister_Get (internal_serviceInstanceCredentialLister_ServiceInstanceCredentials k ns) name |}.
#[export] Instance internal_serviceInstanceCredentialLister_lister_laws : ListerLaws internal_serviceInstanceCredentialLister servicecatalog.ServiceInstanceCredential.
Proof. lister_laws. Qed.
End instances.
