(* ===== verification/CacheTheorems.v ===== *)
(** * What the listers find

    The indices of a cache always say where its objects are ([well_indexed]),
    whatever is added, updated, deleted or replaced; so the loop of a lister
    over the index of a namespace finds the objects of that namespace, and a
    lookup finds the object of a name ([listers_read_the_cache]). *)

From Stdlib Require Finite.
From stdpp Require Import gmap strings list.
From S2P Require Import Prelude Types Environment Fields InternalTypes JsonText APIServer Http Selectors Storage StorageTheorems RestClient Clientset Cache Listers.

Section cache.
Context {G : GoMapOrder} {A : Type} `{ApiKind A}.
Implicit Types (c : threadSafeMap A) (f : IndexFunc A) (a : A) (e : Entry A).

(** The values of an index function that does not fail. *)
Definition values_of f e : list string := match f e with inl vs => vs | inr _ => [] end.
Definition total f : Prop := forall e, exists vs, f e = inl vs.
Lemma values_total f e : total f -> f e = inl (values_of f e).
Proof. unfold values_of. intros Hf. by destruct (Hf e) as [vs ->]. Qed.

(** What an index has under a value. *)
Definition under (index : gmap string (gset string)) (v : string) : gset string := default ∅ (index !! v).

Lemma index_insert_spec key vs index v k : k ∈ under (index_insert key vs index) v <-> k ∈ under index v \/ (k = key /\ v ∈ vs).
Proof.
  unfold index_insert. revert index. induction vs as [|w vs IH]; intros index; cbn [fold_left]; [set_solver|].
  rewrite IH. unfold under at 1. destruct (decide (v = w)) as [->|Hn].
  - rewrite lookup_insert_eq. cbn. unfold under. set_solver.
  - rewrite lookup_insert_ne by done. fold (under index v). set_solver.
Qed.
Lemma index_delete_spec key vs index v k : k ∈ under (index_delete key vs index) v <-> k ∈ under index v /\ ~ (k = key /\ v ∈ vs).
Proof.
  unfold index_delete. revert index. induction vs as [|w vs IH]; intros index; cbn [fold_left]; [set_solver|].
  rewrite IH. destruct (index !! w) as [set|] eqn:Hw.
  - unfold under at 1. destruct (decide (v = w)) as [->|Hn].
    + rewrite lookup_insert_eq. cbn. unfold under. rewrite Hw. cbn. set_solver.
    + rewrite lookup_insert_ne by done. fold (under index v). set_solver.
  - destruct (decide (v = w)) as [->|Hn]; [|set_solver]. unfold under. rewrite Hw. cbn. set_solver.
Qed.

(** ** The loops over the indexers *)

Implicit Types (l : list (string * IndexFunc A)) (indices : gmap string (gmap string (gset string))).
Definition at_index indices name : gmap string (gset string) := default ∅ (indices !! name).

Lemma update_loop_other l a key indices name : name ∉ map fst l -> Forall (fun p => total (snd p)) l ->
  update_loop l a key indices !! name = indices !! name.
Proof.
  intros Hn Hl. revert indices. induction Hl as [|[n f] l Hf _ IH]; intros indices; [done|]. cbn [map fst] in Hn. apply not_elem_of_cons in Hn as [H1 H2].
  cbn [update_loop]. rewrite (values_total f _ Hf), IH by done. by rewrite lookup_insert_ne.
Qed.
Lemma update_loop_at l a key indices name f : NoDup (map fst l) -> (name, f) ∈ l -> Forall (fun p => total (snd p)) l ->
  at_index (update_loop l a key indices) name = index_insert key (values_of f (Stored a)) (at_index indices name).
Proof.
  intros Hd Hin Hl. revert indices Hd Hin. induction Hl as [|[n g] l Hg Hl IH]; intros indices Hd Hin; [by apply elem_of_nil in Hin|].
  cbn [map fst] in Hd. apply list.NoDup_cons in Hd as [Hn Hd]. cbn [update_loop]. cbn in Hg. rewrite (values_total g _ Hg).
  apply elem_of_cons in Hin as [[= -> ->]|Hin].
  - unfold at_index at 1. rewrite update_loop_other by done. by rewrite lookup_insert_eq.
  - rewrite IH by done. f_equal. unfold at_index. rewrite lookup_insert_ne; [done|].
    intros ->. apply Hn, list_elem_of_In, in_map_iff. exists (name, f). split; [done|by apply list_elem_of_In].
Qed.
Lemma delete_loop_other l a key indices name : name ∉ map fst l -> Forall (fun p => total (snd p)) l ->
  delete_loop l a key indices !! name = indices !! name.
Proof.
  intros Hn Hl. revert indices. induction Hl as [|[n f] l Hf _ IH]; intros indices; [done|]. cbn [map fst] in Hn. apply not_elem_of_cons in Hn as [H1 H2].
  cbn [delete_loop]. rewrite (values_total f _ Hf). destruct (indices !! n); rewrite IH by done; [by rewrite lookup_insert_ne|done].
Qed.
Lemma delete_loop_at l a key indices name f v k : NoDup (map fst l) -> (name, f) ∈ l -> Forall (fun p => total (snd p)) l ->
  k ∈ under (at_index (delete_loop l a key indices) name) v <-> k ∈ under (at_index indices name) v /\ ~ (k = key /\ v ∈ values_of f (Stored a)).
Proof.
  intros Hd Hin Hl. revert indices Hd Hin. induction Hl as [|[n g] l Hg Hl IH]; intros indices Hd Hin; [by apply elem_of_nil in Hin|].
  cbn [map fst] in Hd. apply list.NoDup_cons in Hd as [Hn Hd]. cbn [delete_loop]. cbn in Hg. rewrite (values_total g _ Hg).
  apply elem_of_cons in Hin as [[= -> ->]|Hin].
  - destruct (indices !! n) as [index|] eqn:Hi; unfold at_index at 1; rewrite delete_loop_other by done.
    + rewrite lookup_insert_eq. cbn. rewrite index_delete_spec. unfold at_index. by rewrite Hi.
    + unfold at_index. rewrite Hi. cbn. unfold under. rewrite lookup_empty. cbn. set_solver.
  - assert (name <> n) as Hne.
    { intros ->. apply Hn, list_elem_of_In, in_map_iff. exists (n, f). split; [done|by apply list_elem_of_In]. }
    destruct (indices !! n) as [index|] eqn:Hi; rewrite IH by done; [|done]. unfold at_index. by rewrite lookup_insert_ne.
Qed.

(** ** The invariant *)

(** Index functions do not fail, an index has a key under a value exactly if the
    object of the key has the value, and there are no other indices. *)
Record well_indexed c : Prop := {
  wi_total name f : tsm_indexers c !! name = Some f -> total f;
  wi_index name f v k : tsm_indexers c !! name = Some f ->
    k ∈ under (index_at name c) v <-> exists a, tsm_items c !! k = Some a /\ v ∈ values_of f (Stored a);
  wi_known name : tsm_indexers c !! name = None -> tsm_indices c !! name = None }.

Lemma range_fst {V} (m : gmap string V) : NoDup (map fst (go_range m)).
Proof.
  change (NoDup ((go_range m).*1)). rewrite go_range_all. apply NoDup_fst_map_to_list.
Qed.
Lemma range_in {V} (m : gmap string V) k v : (k, v) ∈ go_range m <-> m !! k = Some v.
Proof. rewrite go_range_all. apply elem_of_map_to_list. Qed.
Lemma range_not_in {V} (m : gmap string V) k : m !! k = None -> k ∉ map fst (go_range m).
Proof.
  intros Hk Hin%list_elem_of_In. apply in_map_iff in Hin as ([k' v] & <- & Hv%list_elem_of_In). apply range_in in Hv. by simplify_eq/=.
Qed.
Lemma range_total (m : gmap string (IndexFunc A)) : (forall name f, m !! name = Some f -> total f) -> Forall (fun p => total (snd p)) (go_range m).
Proof. intros Hm. apply List.Forall_forall. intros [name f] Hin%list_elem_of_In%range_in. by apply (Hm name). Qed.

(** The steps keep the indexers. *)
Lemma updateIndices_frame old a key c : tsm_items (updateIndices old a key c) = tsm_items c /\ tsm_indexers (updateIndices old a key c) = tsm_indexers c.
Proof. by destruct old. Qed.

Lemma update_indexed old a key c : (forall name f, tsm_indexers c !! name = Some f -> total f) ->
  (forall name, tsm_indexers c !! name = None -> tsm_indices c !! name = None) ->
  let c' := updateIndices old a key c in
  (forall name, tsm_indexers c !! name = None -> tsm_indices c' !! name = None) /\
  forall name f v k, tsm_indexers c !! name = Some f ->
    k ∈ under (index_at name c') v <->
    (k ∈ under (index_at name c) v /\ ~ (k = key /\ exists o, old = Some o /\ v ∈ values_of f (Stored o))) \/ (k = key /\ v ∈ values_of f (Stored a)).
Proof.
  intros Ht Hn. cbv zeta. pose proof (range_total _ Ht) as Hf. pose proof (range_fst (tsm_indexers c)) as Hd. split.
  - intros name Hname. unfold updateIndices. destruct old as [o|]; cbn; rewrite update_loop_other by (done || by apply range_not_in); [|by apply Hn].
    rewrite delete_loop_other by (done || by apply range_not_in). by apply Hn.
  - intros name f v k Hname%range_in. unfold updateIndices, index_at. destruct old as [o|]; cbn [with_indices tsm_indices tsm_indexers deleteFromIndices].
    + fold (at_index (update_loop (go_range (tsm_indexers c)) a key (delete_loop (go_range (tsm_indexers c)) o key (tsm_indices c))) name).
      rewrite (update_loop_at _ _ _ _ name f), index_insert_spec, (delete_loop_at _ _ _ _ name f) by done. unfold at_index. naive_solver.
    + fold (at_index (update_loop (go_range (tsm_indexers c)) a key (tsm_indices c)) name).
      rewrite (update_loop_at _ _ _ _ name f), index_insert_spec by done. unfold at_index. naive_solver.
Qed.

Lemma new_well_indexed indexers : (forall name f, indexers !! name = Some f -> total f) -> well_indexed (NewThreadSafeStore (A := A) indexers ∅).
Proof.
  intros Ht. split; [done| |done]. intros name f v k _. cbn. unfold under, index_at. cbn. rewrite !lookup_empty. cbn. split; [set_solver|].
  by intros (a & Ha & _).
Qed.

Lemma add_well_indexed key a c : well_indexed c -> well_indexed (tsm_Add key a c).
Proof.
  intros [Ht Hi Hk]. unfold tsm_Add. cbv zeta. set (old := tsm_items c !! key). set (c1 := with_items (<[key := a]> (tsm_items c)) c).
  destruct (updateIndices_frame old a key c1) as [Hit Hix]. destruct (update_indexed old a key c1 Ht Hk) as [H1 H2].
  split; rewrite ?Hix; [exact Ht| |exact H1]. intros name f v k Hname. rewrite Hit, (H2 name f v k Hname).
  change (index_at name c1) with (index_at name c). rewrite (Hi name f v k Hname). cbn [c1 with_items tsm_items].
  destruct (decide (k = key)) as [->|Hne].
  - rewrite lookup_insert_eq. fold old. naive_solver.
  - rewrite lookup_insert_ne by done. naive_solver.
Qed.
Lemma update_well_indexed key a c : well_indexed c -> well_indexed (tsm_Update key a c).
Proof. exact (add_well_indexed key a c). Qed.

Lemma delete_well_indexed key c : well_indexed c -> well_indexed (tsm_Delete key c).
Proof.
  intros Hc. unfold tsm_Delete. destruct (tsm_items c !! key) as [old|] eqn:Hold; [|done]. destruct Hc as [Ht Hi Hk]. cbv zeta.
  pose proof (range_total _ Ht) as Hf. pose proof (range_fst (tsm_indexers c)) as Hd. split; cbn.
  - exact Ht.
  - intros name f v k Hname. unfold index_at. cbn. fold (at_index (delete_loop (go_range (tsm_indexers c)) old key (tsm_indices c)) name).
    rewrite (delete_loop_at _ _ _ _ name f) by (done || by apply range_in). change (at_index (tsm_indices c) name) with (index_at name c).
    rewrite (Hi name f v k Hname). destruct (decide (k = key)) as [->|Hne].
    + rewrite lookup_delete_eq, Hold. naive_solver.
    + rewrite lookup_delete_ne by done. naive_solver.
  - intros name Hname. rewrite delete_loop_other by (done || by apply range_not_in). by apply Hk.
Qed.

(** A replacement indexes the new objects one by one. *)
Lemma replace_loop (l : list (string * A)) c (filed : gmap string A) : NoDup (map fst l) ->
  (forall name f, tsm_indexers c !! name = Some f -> total f) ->
  (forall name, tsm_indexers c !! name = None -> tsm_indices c !! name = None) ->
  (forall p, p ∈ l -> filed !! (fst p) = None) ->
  (forall name f v k, tsm_indexers c !! name = Some f -> k ∈ under (index_at name c) v <-> exists a, filed !! k = Some a /\ v ∈ values_of f (Stored a)) ->
  let c' := fold_left (fun c (p : string * A) => updateIndices None (snd p) (fst p) c) l c in
  tsm_items c' = tsm_items c /\ tsm_indexers c' = tsm_indexers c /\
  (forall name, tsm_indexers c !! name = None -> tsm_indices c' !! name = None) /\
  forall name f v k, tsm_indexers c !! name = Some f -> k ∈ under (index_at name c') v <->
    exists a, (list_to_map l ∪ filed) !! k = Some a /\ v ∈ values_of f (Stored a).
Proof.
  cbv zeta. revert c filed. induction l as [|[key a] l IH]; intros c filed Hd Ht Hk Hnew Hi; cbn [fold_left fst snd].
  { split_and!; [reflexivity|reflexivity|exact Hk|]. intros name f v k Hname. rewrite list_to_map_nil, map_empty_union. by apply Hi. }
  cbn [map fst] in Hd. apply list.NoDup_cons in Hd as [Hn Hd]. destruct (updateIndices_frame None a key c) as [Hit Hix].
  destruct (update_indexed None a key c Ht Hk) as [H1 H2].
  destruct (IH (updateIndices None a key c) (<[key := a]> filed)) as (HA & HB & HC & HD); rewrite ?Hix; try assumption.
  - intros [k' a'] Hp. rewrite lookup_insert_ne; [apply Hnew; by right|]. cbn. intros ->. apply Hn, list_elem_of_In, in_map_iff.
    exists (k', a'). split; [reflexivity|by apply list_elem_of_In].
  - intros name f v k Hname. rewrite (H2 name f v k Hname), (Hi name f v k Hname). destruct (decide (k = key)) as [->|Hne].
    + rewrite lookup_insert_eq. pose proof (Hnew (key, a)) as Hkey. cbn in Hkey. rewrite Hkey by (left). naive_solver.
    + rewrite lookup_insert_ne by congruence. naive_solver.
  - rewrite HA, HB, Hit, Hix. split_and!; [reflexivity|reflexivity| |].
    + intros name Hname. apply HC. by rewrite Hix.
    + intros name f v k Hname. rewrite (HD name f v k) by (by rewrite Hix).
      assert (list_to_map l ∪ <[key := a]> filed = list_to_map ((key, a) :: l) ∪ filed) as ->; [|done].
      cbn. rewrite <-insert_union_l, insert_union_r; [reflexivity|]. by apply not_elem_of_list_to_map_1.
Qed.

Lemma replace_well_indexed items c : well_indexed c -> well_indexed (tsm_Replace items c) /\ tsm_items (tsm_Replace items c) = items.
Proof.
  intros [Ht Hi Hk]. unfold tsm_Replace. cbv zeta.
  destruct (replace_loop (go_range items) (with_indices ∅ (with_items items c)) ∅) as (HA & HB & HC & HD); try done.
  - apply range_fst.
  - intros name f v k _. unfold index_at, under. cbn. rewrite !lookup_empty. cbn. split; [set_solver|]. by intros (a & Ha & _).
  - split; [|exact HA]. split; rewrite ?HB, ?HA; [exact Ht| |exact HC]. intros name f v k Hname. rewrite (HD name f v k Hname).
    assert (list_to_map (go_range items) ∪ ∅ = items) as ->; [|done]. rewrite map_union_empty. apply map_eq. intros i.
    apply option_eq. intros x. rewrite <-elem_of_list_to_map by apply range_fst. apply range_in.
Qed.

Lemma indexers_well_indexed new c : (forall name f, new !! name = Some f -> total f) -> well_indexed c -> well_indexed (snd (tsm_AddIndexers new c)).
Proof.
  intros Hnew Hc. unfold tsm_AddIndexers. case_bool_decide as He; [|done]. cbn [negb]. case_bool_decide; [|done]. cbn [negb snd].
  destruct Hc as [Ht Hi Hk]. split; cbn.
  - intros name f [Hn|[_ Hn]]%lookup_union_Some_raw; [by apply (Hnew name)|by apply (Ht name)].
  - intros name f v k [Hn|[_ Hn]]%lookup_union_Some_raw; [|by apply Hi].
    rewrite He. destruct (tsm_indexers c !! name) as [g|] eqn:Hg.
    + change (index_at name _) with (index_at name c). rewrite (Hi name g v k Hg), He. split; by intros (a & Ha & _).
    + unfold index_at, under. cbn. rewrite (Hk name Hg). cbn. rewrite lookup_empty. cbn. split; [set_solver|]. by intros (a & Ha & _).
  - intros name [_ Hn]%lookup_union_None. by apply Hk.
Qed.

End cache.

(** ** Caches of informers *)

Section reach.
Context {G : GoMapOrder} {A : Type} `{ApiKind A}.
Implicit Types (ch : Cache A) (a : A).

(** The indexer an informer makes, and what happens to it. *)
Definition informer_indexers : gmap string (IndexFunc A) := {[ NamespaceIndex := MetaNamespaceIndexFunc ]}.
Inductive cache_reach : Cache A -> Prop :=
| reach_new : cache_reach (NewIndexer DeletionHandlingMetaNamespaceKeyFunc informer_indexers)
| reach_add a ch : cache_reach ch -> cache_reach (snd (cache_Add a ch))
| reach_update a ch : cache_reach ch -> cache_reach (snd (cache_Update a ch))
| reach_delete obj ch : cache_reach ch -> cache_reach (snd (cache_Delete obj ch))
| reach_replace l ch : cache_reach ch -> cache_reach (snd (cache_Replace l ch))
| reach_indexers new ch : (forall name f, new !! name = Some f -> total f) -> cache_reach ch -> cache_reach (snd (cache_AddIndexers new ch)).

Definition contents (ch : Cache A) : gmap string A := tsm_items (cacheStorage ch).

Record cache_ok (ch : Cache A) : Prop := {
  ok_key : keyFunc ch = DeletionHandlingMetaNamespaceKeyFunc;
  ok_indexed : well_indexed (cacheStorage ch);
  ok_namespaces : tsm_indexers (cacheStorage ch) !! NamespaceIndex = Some MetaNamespaceIndexFunc;
  ok_filed k a : contents ch !! k = Some a -> k = MetaNamespaceKey (kind_meta a) }.

Lemma add_ok a ch : cache_ok ch -> cache_ok (snd (cache_Add a ch)).
Proof.
  intros [Hk Hw Hn Hf]. unfold cache_Add, keyed. rewrite Hk. cbn [DeletionHandlingMetaNamespaceKeyFunc MetaNamespaceKeyFunc snd Accessor].
  set (key := MetaNamespaceKey (kind_meta a)).
  destruct (updateIndices_frame (tsm_items (cacheStorage ch) !! key) a key (with_items (<[key := a]> (tsm_items (cacheStorage ch))) (cacheStorage ch))) as [Hit Hix].
  split; cbn [with_storage cacheStorage keyFunc]; [done|by apply add_well_indexed| |].
  - unfold tsm_Add. cbv zeta. by rewrite Hix.
  - intros k b. unfold contents. cbn [with_storage cacheStorage]. unfold tsm_Add. cbv zeta. rewrite Hit. cbn [with_items tsm_items].
    intros [[<- <-]|[_ Hb]]%lookup_insert_Some; [done|by apply Hf].
Qed.

Lemma keyed_items_filed l (items items' : gmap string A) : (forall k a, items !! k = Some a -> k = MetaNamespaceKey (kind_meta a)) ->
  keyed_items DeletionHandlingMetaNamespaceKeyFunc l items = inl items' -> forall k a, items' !! k = Some a -> k = MetaNamespaceKey (kind_meta a).
Proof.
  revert items. induction l as [|b l IH]; intros items Hf; cbn; [by intros [= <-]|]. apply IH.
  intros k a [[<- <-]|[_ Ha]]%lookup_insert_Some; [done|by apply Hf].
Qed.

Lemma replace_ok (l : list A) ch : cache_ok ch -> cache_ok (snd (cache_Replace l ch)).
Proof.
  intros [Hk Hw Hn Hf]. unfold cache_Replace. rewrite Hk. destruct (keyed_items _ l ∅) as [items|err] eqn:Hl; [|by split].
  destruct (replace_well_indexed items _ Hw) as [Hr Hi]. cbn [snd]. split; cbn [with_storage cacheStorage keyFunc]; [done|done| |].
  - assert (forall l c, tsm_indexers (fold_left (fun (c : threadSafeMap A) (p : string * A) => updateIndices None (snd p) (fst p) c) l c) = tsm_indexers c) as Hx.
    { intros l'. induction l' as [|p l' IH]; intros c'; [done|]. cbn [fold_left]. by rewrite IH. }
    unfold tsm_Replace. cbv zeta. by rewrite Hx.
  - intros k b. unfold contents. cbn [with_storage cacheStorage]. rewrite Hi. apply (keyed_items_filed l ∅); [|done].
    intros k' a'. by rewrite lookup_empty.
Qed.

Lemma reach_ok ch : cache_reach ch -> cache_ok ch.
Proof.
  induction 1 as [|a ch _ IH|a ch _ IH|obj ch _ IH|l ch _ IH|new ch Hnew _ IH].
  - split; [done| |done|]; [|intros k a; cbn; by rewrite lookup_empty]. apply new_well_indexed.
    intros name f Hname e. unfold informer_indexers in Hname. apply lookup_singleton_Some in Hname as [_ <-]. by eexists.
  - by apply add_ok.
  - exact (add_ok a ch IH).
  - destruct IH as [Hk Hw Hn Hf]. unfold cache_Delete, keyed. destruct (keyFunc ch obj) as [key|err]; [|by split].
    cbn [snd]. split; cbn [with_storage cacheStorage keyFunc]; [done|by apply delete_well_indexed| |].
    + unfold tsm_Delete. by destruct (tsm_items (cacheStorage ch) !! key).
    + intros k b. unfold contents. cbn. unfold tsm_Delete. destruct (tsm_items (cacheStorage ch) !! key); cbn; [|by apply Hf].
      intros [_ Hb]%lookup_delete_Some. by apply Hf.
  - by apply replace_ok.
  - destruct IH as [Hk Hw Hn Hf]. unfold cache_AddIndexers. pose proof (indexers_well_indexed new _ Hnew Hw) as Hw'.
    destruct (tsm_AddIndexers new (cacheStorage ch)) as [err s] eqn:Hs. cbn [snd] in *. unfold tsm_AddIndexers in Hs.
    case_bool_decide; cbn [negb] in Hs; [case_bool_decide as Hdom; cbn [negb] in Hs|]; simplify_eq; split; try done; cbn.
    rewrite lookup_union_r; [done|]. apply not_elem_of_dom. intros Hin. apply elem_of_dom_2 in Hn. set_solver.
Qed.

(** ** What the loops find *)

Definition objects ch : list A := map snd (map_to_list (contents ch)).

Lemma matching_all l (selector : ObjectMeta -> bool) : matching (map Some l) selector = (List.filter (fun a => selector (kind_meta a)) l, None).
Proof. induction l as [|a l IH]; [done|]. cbn. rewrite IH. by destruct (selector (kind_meta a)). Qed.

Lemma items_hit (items : gmap string A) keys : (forall k, k ∈ keys -> is_Some (items !! k)) ->
  map (fun k => items !! k) keys = map Some (omap (fun k => items !! k) keys).
Proof.
  induction keys as [|k keys IH]; intros Hk; [done|]. cbn. destruct (Hk k) as [a Ha]; [by left|]. rewrite Ha. cbn. f_equal. apply IH. intros. apply Hk. by right.
Qed.

Lemma omap_lookup (items : gmap string A) (l : list (string * A)) : (forall p, p ∈ l -> items !! (fst p) = Some (snd p)) ->
  omap (fun k => items !! k) (map fst l) = map snd l.
Proof.
  induction l as [|[k a] l IH]; intros Hl; [done|]. cbn. pose proof (Hl (k, a)) as Hk. cbn in Hk. rewrite Hk by left. f_equal. apply IH. intros. apply Hl. by right.
Qed.

Lemma filter_snd (g : A -> bool) (l : list (string * A)) : map snd (List.filter (fun p => g (snd p)) l) = List.filter g (map snd l).
Proof. induction l as [|[k a] l IH]; [done|]. cbn. destruct (g a); cbn; by rewrite IH. Qed.

Lemma index_items ns ch : cache_ok ch -> exists l,
  cache_Index NamespaceIndex (MetaOnly (with_Namespace ns ObjectMeta_zero)) ch = inl (map Some l) /\
  l ≡ₚ List.filter (fun a => bool_decide (Namespace (kind_meta a) = ns)) (objects ch).
Proof.
  intros [_ Hw Hn _]. unfold cache_Index, tsm_Index. rewrite Hn. cbn [MetaNamespaceIndexFunc Accessor fold_left].
  set (keys := go_set _).
  assert (forall k, k ∈ keys <-> exists a, contents ch !! k = Some a /\ Namespace (kind_meta a) = ns) as Hkeys.
  { intros k. unfold keys. rewrite go_set_all, elem_of_elements. pose proof (wi_index _ Hw NamespaceIndex _ ns k Hn) as Hi. unfold under in Hi.
    change (Namespace (with_Namespace ns ObjectMeta_zero)) with ns. rewrite elem_of_union, Hi.
    unfold values_of. cbn. split; [intros [Hx|(a & Ha & Hx)]; [by apply elem_of_empty in Hx|]|intros (a & Ha & <-); right]; exists a; [|by split; [|left]].
    by apply list_elem_of_singleton in Hx as <-. }
  exists (omap (fun k => contents ch !! k) keys). split.
  - unfold items_at. f_equal. apply items_hit. intros k (a & Ha & _)%Hkeys. by exists a.
  - assert (keys ≡ₚ map fst (List.filter (fun p => bool_decide (Namespace (kind_meta (snd p)) = ns)) (map_to_list (contents ch)))) as ->.
    { apply NoDup_Permutation.
      - unfold keys. rewrite go_set_all. apply NoDup_elements.
      - apply NoDup_ListNoDup, Finite.Injective_map_NoDup_in; [|apply List.NoDup_filter, NoDup_ListNoDup, NoDup_map_to_list].
        intros [k a] [k' a'] [Ha _]%filter_In [Ha' _]%filter_In. cbn. intros <-. apply list_elem_of_In, elem_of_map_to_list in Ha, Ha'. congruence.
      - intros k. rewrite Hkeys, list_elem_of_In, in_map_iff. split.
        + intros (a & Ha & Hns). exists (k, a). split; [done|]. apply filter_In. split; [by apply list_elem_of_In, elem_of_map_to_list|by apply bool_decide_eq_true].
        + intros ([k' a] & <- & [Ha Hns]%filter_In). exists a. split; [by apply elem_of_map_to_list, list_elem_of_In|by apply bool_decide_eq_true in Hns]. }
    rewrite omap_lookup; [unfold objects; by rewrite <-(filter_snd (fun a => bool_decide (Namespace (kind_meta a) = ns)))|].
    intros [k a] [Ha _]%list_elem_of_In%filter_In. by apply elem_of_map_to_list, list_elem_of_In.
Qed.

Lemma list_items ch : cache_List ch ≡ₚ objects ch.
Proof. unfold cache_List, tsm_List, objects. by rewrite go_range_all. Qed.

Lemma ListAll_exact ch selector : exists l, ListAll ch selector = (l, None) /\ l ≡ₚ List.filter (fun a => selector (kind_meta a)) (objects ch).
Proof. eexists. split; [apply matching_all|]. by apply filter_permutation, list_items. Qed.

Lemma ListAllByNamespace_exact ch ns selector : cache_ok ch -> exists l, ListAllByNamespace ch ns selector = (l, None) /\
  l ≡ₚ List.filter (fun a => (bool_decide (ns = "") || bool_decide (Namespace (kind_meta a) = ns)) && selector (kind_meta a)) (objects ch).
Proof.
  intros Hok. unfold ListAllByNamespace. case_bool_decide as Hns; [exact (ListAll_exact ch selector)|].
  destruct (index_items ns ch Hok) as (l & -> & Hl). eexists. split; [apply matching_all|]. rewrite (filter_permutation _ _ _ Hl), filter_filter. done.
Qed.

(** An object of a name, where no name has a slash. *)
Definition plain_names ch : Prop := forall a, In a (objects ch) -> no_slash (Name (kind_meta a)) /\ no_slash (Namespace (kind_meta a)).
Definition named ns name a : Prop := Namespace (kind_meta a) = ns /\ Name (kind_meta a) = name.

Lemma objects_in ch a : In a (objects ch) <-> exists k, contents ch !! k = Some a.
Proof.
  unfold objects. rewrite in_map_iff. split.
  - intros ([k b] & <- & Hk%list_elem_of_In%elem_of_map_to_list). by exists k.
  - intros (k & Hk). exists (k, a). split; [done|]. by apply list_elem_of_In, elem_of_map_to_list.
Qed.

Lemma meta_key_named m ns name : no_slash (Name m) -> no_slash (Namespace m) -> no_slash ns -> no_slash name ->
  MetaNamespaceKey m = (if bool_decide (ns = "") then name else sprint [ns; "/"; name]) <-> Namespace m = ns /\ Name m = name.
Proof.
  intros H1 H2 Hns Hname. unfold MetaNamespaceKey. case_bool_decide as Hn; case_bool_decide as Hm; cbn [negb].
  - subst ns. rewrite Hn. naive_solver.
  - split; [|by intros [<- _]]. intros He. exfalso. unfold no_slash in H1. rewrite He in H1. cbn [sprint] in H1. rewrite !Contains_append in H1. by rewrite orb_true_r in H1.
  - split; [|by intros [<- _]; subst]. intros He. exfalso. unfold no_slash in Hname. rewrite <-He in Hname. cbn [sprint] in Hname. rewrite !Contains_append in Hname. by rewrite orb_true_r in Hname.
  - split; [|by intros [-> ->]]. cbn [sprint]. rewrite !sapp_nil. intros He. by apply segment_inj in He as [-> ->].
Qed.

Lemma key_named ch a ns name : plain_names ch -> In a (objects ch) -> no_slash ns -> no_slash name ->
  MetaNamespaceKey (kind_meta a) = (if bool_decide (ns = "") then name else sprint [ns; "/"; name]) <-> named ns name a.
Proof. intros Hp Ha Hns Hname. destruct (Hp a Ha) as [H1 H2]. by apply meta_key_named. Qed.

Lemma lookup_named ch ns name : cache_ok ch -> plain_names ch -> no_slash ns -> no_slash name ->
  match contents ch !! (if bool_decide (ns = "") then name else sprint [ns; "/"; name]) with
  | Some a => In a (objects ch) /\ named ns name a
  | None => forall a, In a (objects ch) -> ~ named ns name a
  end.
Proof.
  intros [_ _ _ Hf] Hp Hns Hname. destruct (contents ch !! _) as [a|] eqn:Ha.
  - assert (In a (objects ch)) as Hin by (apply objects_in; by eexists). split; [done|]. apply (key_named ch); try done. symmetry. by apply Hf.
  - intros a Hin Hnm. apply (key_named ch) in Hnm; try done. apply objects_in in Hin as [k Hk]. pose proof (Hf _ _ Hk) as ->. rewrite Hnm in Hk. congruence.
Qed.

(** C34: In every state a cache of an informer gets into, whatever is added,
    updated, deleted and replaced in it, a lister of either version returns the
    objects of the cache its selector matches, each once, and for a namespace,
    through the index, those of that namespace; a lookup returns the object of
    that namespace and name, or that there is none. *)
Theorem listers_read_the_cache {K} `{LS : !Lister K A, LL : !ListerLaws K A} (k : K) : cache_reach (ls_indexer k) ->
  let ch := ls_indexer k in
  (forall selector, exists l, ls_List k selector = (l, None) /\ l ≡ₚ List.filter (fun a => selector (kind_meta a)) (objects ch)) /\
  (forall by_ns ns selector, ls_namespaces = Some by_ns -> exists l, by_ns k ns selector = (l, None) /\
     l ≡ₚ List.filter (fun a => (bool_decide (ns = "") || bool_decide (Namespace (kind_meta a) = ns)) && selector (kind_meta a)) (objects ch)) /\
  (forall ns name, plain_names ch -> no_slash ns -> no_slash name -> (if ls_namespaces then ns <> "" else ns = "") ->
     match ls_Get k ns name with
     | inl a => In a (objects ch) /\ named ns name a
     | inr err => err = NewNotFoundError (ResourceOf ls_resource) name /\ forall a, In a (objects ch) -> ~ named ns name a
     end).
Proof.
  intros Hok%reach_ok. cbv zeta. split_and!.
  - intros selector. rewrite ls_List_all. apply ListAll_exact.
  - intros by_ns ns selector Hby. rewrite (ls_List_namespace _ _ _ _ Hby). by apply ListAllByNamespace_exact.
  - intros ns name Hp Hns Hname Hsc. rewrite ls_Get_key. pose proof (lookup_named _ ns name Hok Hp Hns Hname) as Hl. unfold lister_Get.
    destruct ls_namespaces as [by_ns|].
    + rewrite bool_decide_eq_false_2 in Hl by done. unfold cache_GetByKey, tsm_Get. fold (contents (ls_indexer k)). by destruct (contents (ls_indexer k) !! _).
    + subst ns. rewrite bool_decide_eq_true_2 in Hl by done. unfold cache_Get. rewrite (ok_key _ Hok). cbn [DeletionHandlingMetaNamespaceKeyFunc MetaNamespaceKeyFunc Accessor].
      change (MetaNamespaceKey (with_Name name ObjectMeta_zero)) with name. unfold cache_GetByKey, tsm_Get. fold (contents (ls_indexer k)). by destruct (contents (ls_indexer k) !! name).
Qed.
End reach.
