(* ===== verification/Informers.v ===== *)
(** * The generated informers

    [pkg/client/informers_generated]: the factories that share one informer per
    type, and for each kind how its informer lists and watches the API server
    and which lister reads its indexer.  The informer itself
    ([cache.NewSharedIndexInformer]) runs by itself: its configuration is data,
    and what its indexer holds is a parameter ([CacheTheorems] says what can be
    in it).  A factory is shared and locked: its operations are steps of one
    state. *)

From stdpp Require Import gmap strings list.
From S2P Require Import Prelude Types Environment Fields InternalTypes APIServer Storage RestClient Clientset InternalClientset Cache Listers.

(** What a list call of any kind returns: an object of some type. *)
Definition RuntimeObject : Type := {T : Type & T}.
Section informers.
Context {G : GoMapOrder} {W : Type} {T : Transport W} {DiscoveryClient : Type} (IsProbableEOF : error -> bool).

Record ListWatch := {
  ListFunc : ListOptions -> W -> (RuntimeObject * option error) * W;
  WatchFunc : ListOptions -> W -> (Watcher + error) * W }.
Definition runtime_object {A} (call : Call (W := W) A) : W -> (RuntimeObject * option error) * W :=
  fun w => match call w with ((a, err), w) => ((existT A a, err), w) end.

(** [cache.NewSharedIndexInformer]: its configuration, with a new indexer. *)
Record SharedIndexInformer := {
  sii_listerWatcher : ListWatch; sii_objectType : string; sii_resync : Z; sii_indexer : {A : Type & Cache A} }.
Definition NewSharedIndexInformer {A} `{ApiKind A} (lw : ListWatch) (objType : string) (resyncPeriod : Z) (indexers : gmap string (IndexFunc A)) : SharedIndexInformer :=
  {| sii_listerWatcher := lw; sii_objectType := objType; sii_resync := resyncPeriod;
     sii_indexer := existT A (NewIndexer DeletionHandlingMetaNamespaceKeyFunc indexers) |}.

(** What the indexer of an informer of objects of a type holds. *)
Context (GetIndexer : forall A : Type, SharedIndexInformer -> Cache A) (HasSynced : SharedIndexInformer -> bool).

(** ** Factories *)

Record SharedInformerFactory (Client : Type) := {
  sif_client : Client; sif_defaultResync : Z;
  sif_informers : gmap string SharedIndexInformer;
  sif_startedInformers : gset string }.
Arguments sif_client {Client}.
Arguments sif_defaultResync {Client}.
Arguments sif_informers {Client}.
Arguments sif_startedInformers {Client}.

Definition NewSharedInformerFactory {Client} (client : Client) (defaultResync : Z) : SharedInformerFactory Client :=
  {| sif_client := client; sif_defaultResync := defaultResync; sif_informers := ∅; sif_startedInformers := ∅ |}.

(** With the informers that are started: each runs from then on. *)
Definition Factory_Start {Client} (f : SharedInformerFactory Client) : list (string * SharedIndexInformer) * SharedInformerFactory Client :=
  let starting := List.filter (fun p => negb (bool_decide (fst p ∈ sif_startedInformers f))) (go_range (sif_informers f)) in
  (starting, {| sif_client := sif_client f; sif_defaultResync := sif_defaultResync f; sif_informers := sif_informers f;
                sif_startedInformers := list_to_set (map fst starting) ∪ sif_startedInformers f |}).
(** [HasSynced] is whether the informer synced before it was told to stop. *)
Definition Factory_WaitForCacheSync {Client} (f : SharedInformerFactory Client) : gmap string bool :=
  HasSynced <$> filter (fun p => fst p ∈ sif_startedInformers f) (sif_informers f).
Definition InformerFor {Client} (informerType : string) (newFunc : Client -> Z -> SharedIndexInformer) (f : SharedInformerFactory Client) :
    SharedIndexInformer * SharedInformerFactory Client :=
  match sif_informers f !! informerType with
  | Some informer => (informer, f)
  | None =>
      let informer := newFunc (sif_client f) (sif_defaultResync f) in
      (informer, {| sif_client := sif_client f; sif_defaultResync := sif_defaultResync f;
                    sif_informers := <[informerType := informer]> (sif_informers f); sif_startedInformers := sif_startedInformers f |})
  end.

Record genericInformer := { gi_informer : SharedIndexInformer; gi_resource : string * string }.
(** A generic lister and its namespaces: [NewGenericLister]. *)
Definition genericInformer_Lister (A : Type) (f : genericInformer) : Cache A * (string * string) := (GetIndexer A (gi_informer f), gi_resource f).

(** ** The informers of [v1alpha1] *)

Notation Factory := (SharedInformerFactory (@Clientset.Clientset DiscoveryClient)).

Definition newClusterServiceBrokerInformer (client : @Clientset.Clientset DiscoveryClient) (resyncPeriod : Z) : SharedIndexInformer :=
  NewSharedIndexInformer
    {| ListFunc options := runtime_object (clusterServiceBrokers_List (ClusterServiceBrokers (clientset_V1alpha1 client)) options);
       WatchFunc options := clusterServiceBrokers_Watch (ClusterServiceBrokers (clientset_V1alpha1 client)) IsProbableEOF options |}
    "v1alpha1.ClusterServiceBroker" resyncPeriod ({[ NamespaceIndex := MetaNamespaceIndexFunc ]} : gmap string (IndexFunc ClusterServiceBroker)).
Definition clusterServiceBrokerInformer_Informer : Factory -> SharedIndexInformer * Factory := InformerFor "v1alpha1.ClusterServiceBroker" newClusterServiceBrokerInformer.
Definition clusterServiceBrokerInformer_Lister (f : Factory) : clusterServiceBrokerLister * Factory :=
  let (informer, f) := clusterServiceBrokerInformer_Informer f in (NewClusterServiceBrokerLister (GetIndexer ClusterServiceBroker informer), f).

Definition newServiceClassInformer (client : @Clientset.Clientset DiscoveryClient) (resyncPeriod : Z) : SharedIndexInformer :=
  NewSharedIndexInformer
    {| ListFunc options := runtime_object (serviceClasses_List (ServiceClasses (clientset_V1alpha1 client)) options);
       WatchFunc options := serviceClasses_Watch (ServiceClasses (clientset_V1alpha1 client)) IsProbableEOF options |}
    "v1alpha1.ServiceClass" resyncPeriod ({[ NamespaceIndex := MetaNamespaceIndexFunc ]} : gmap string (IndexFunc ServiceClass)).
Definition serviceClassInformer_Informer : Factory -> SharedIndexInformer * Factory := InformerFor "v1alpha1.ServiceClass" newServiceClassInformer.
Definition serviceClassInformer_Lister (f : Factory) : serviceClassLister * Factory :=
  let (informer, f) := serviceClassInformer_Informer f in (NewServiceClassLister (GetIndexer ServiceClass informer), f).

Definition newServicePlanInformer (client : @Clientset.Clientset DiscoveryClient) (resyncPeriod : Z) : SharedIndexInformer :=
  NewSharedIndexInformer
    {| ListFunc options := runtime_object (servicePlans_List (ServicePlans (clientset_V1alpha1 client)) options);
       WatchFunc options := servicePlans_Watch (ServicePlans (clientset_V1alpha1 client)) IsProbableEOF options |}
    "v1alpha1.ServicePlan" resyncPeriod ({[ NamespaceIndex := MetaNamespaceIndexFunc ]} : gmap string (IndexFunc ServicePlan)).
Definition servicePlanInformer_Informer : Factory -> SharedIndexInformer * Factory := InformerFor "v1alpha1.ServicePlan" newServicePlanInformer.
Definition servicePlanInformer_Lister (f : Factory) : servicePlanLister * Factory :=
  let (informer, f) := servicePlanInformer_Informer f in (NewServicePlanLister (GetIndexer ServicePlan informer), f).

Definition newServiceInstanceInformer (client : @Clientset.Clientset DiscoveryClient) (resyncPeriod : Z) : SharedIndexInformer :=
  NewSharedIndexInformer
    {| ListFunc options := runtime_object (serviceInstances_List (ServiceInstances (clientset_V1alpha1 client) "") options);
       WatchFunc options := serviceInstances_Watch (ServiceInstances (clientset_V1alpha1 client) "") IsProbableEOF options |}
    "v1alpha1.ServiceInstance" resyncPeriod ({[ NamespaceIndex := MetaNamespaceIndexFunc ]} : gmap string (IndexFunc ServiceInstance)).
Definition serviceInstanceInformer_Informer : Factory -> SharedIndexInformer * Factory := InformerFor "v1alpha1.ServiceInstance" newServiceInstanceInformer.
Definition serviceInstanceInformer_Lister (f : Factory) : serviceInstanceLister * Factory :=
  let (informer, f) := serviceInstanceInformer_Informer f in (NewServiceInstanceLister (GetIndexer ServiceInstance informer), f).

Definition newServiceInstanceCredentialInformer (client : @Clientset.Clientset DiscoveryClient) (resyncPeriod : Z) : SharedIndexInformer :=
  NewSharedIndexInformer
    {| ListFunc options := runtime_object (serviceInstanceCredentials_List (ServiceInstanceCredentials (clientset_V1alpha1 client) "") options);
       WatchFunc options := serviceInstanceCredentials_Watch (ServiceInstanceCredentials (clientset_V1alpha1 client) "") IsProbableEOF options |}
    "v1alpha1.ServiceInstanceCredential" resyncPeriod ({[ NamespaceIndex := MetaNamespaceIndexFunc ]} : gmap string (IndexFunc ServiceInstanceCredential)).
Definition serviceInstanceCredentialInformer_Informer : Factory -> SharedIndexInformer * Factory := InformerFor "v1alpha1.ServiceInstanceCredential" newServiceInstanceCredentialInformer.
Definition serviceInstanceCredentialInformer_Lister (f : Factory) : serviceInstanceCredentialLister * Factory :=
  let (informer, f) := serviceInstanceCredentialInformer_Informer f in (NewServiceInstanceCredentialLister (GetIndexer ServiceInstanceCredential informer), f).

Definition ForResource (resource : GroupVersionResource) (f : Factory) : (genericInformer + error) * Factory :=
  let informer (r : SharedIndexInformer * Factory) := (inl {| gi_informer := fst r; gi_resource := (gvr_Group resource, gvr_Resource resource) |}, snd r) in
  if bool_decide (resource = {| gvr_Group := "servicecatalog.k8s.io"; gvr_Version := "v1alpha1"; gvr_Resource := "clusterservicebrokers" |}) then informer (clusterServiceBrokerInformer_Informer f)
  else if bool_decide (resource = {| gvr_Group := "servicecatalog.k8s.io"; gvr_Version := "v1alpha1"; gvr_Resource := "serviceclasses" |}) then informer (serviceClassInformer_Informer f)
  else if bool_decide (resource = {| gvr_Group := "servicecatalog.k8s.io"; gvr_Version := "v1alpha1"; gvr_Resource := "serviceinstances" |}) then informer (serviceInstanceInformer_Informer f)
  else if bool_decide (resource = {| gvr_Group := "servicecatalog.k8s.io"; gvr_Version := "v1alpha1"; gvr_Resource := "serviceinstancecredentials" |}) then informer (serviceInstanceCredentialInformer_Informer f)
  else if bool_decide (resource = {| gvr_Group := "servicecatalog.k8s.io"; gvr_Version := "v1alpha1"; gvr_Resource := "serviceplans" |}) then informer (servicePlanInformer_Informer f)
  else (inr (PlainError (sprint ["no informer found for "; GroupVersionResource_text resource])), f).

(** ** The informers of the internal types *)

Notation internal_Factory := (SharedInformerFactory (@internal_Clientset DiscoveryClient)).

(** The factory of the internal version has its own copy of the same code. *)
Definition internal_NewSharedInformerFactory : @internal_Clientset DiscoveryClient -> Z -> internal_Factory := NewSharedInformerFactory.
Definition internal_Factory_Start : internal_Factory -> list (string * SharedIndexInformer) * internal_Factory := Factory_Start.
Definition internal_Factory_WaitForCacheSync : internal_Factory -> gmap string bool := Factory_WaitForCacheSync.
Definition internal_InformerFor : string -> (@internal_Clientset DiscoveryClient -> Z -> SharedIndexInformer) -> internal_Factory -> SharedIndexInformer * internal_Factory :=
  InformerFor.

Definition internal_newClusterServiceBrokerInformer (client : @internal_Clientset DiscoveryClient) (resyncPeriod : Z) : SharedIndexInformer :=
  NewSharedIndexInformer
    {| ListFunc options := runtime_object (internal_clusterServiceBrokers_List (internal_ClusterServiceBrokers (internal_clientset_Servicecatalog client)) options);
       WatchFunc options := internal_clusterServiceBrokers_Watch (internal_ClusterServiceBrokers (internal_clientset_Servicecatalog client)) IsProbableEOF options |}
    "servicecatalog.ClusterServiceBroker" resyncPeriod ({[ NamespaceIndex := MetaNamespaceIndexFunc ]} : gmap string (IndexFunc servicecatalog.ClusterServiceBroker)).
Definition internal_clusterServiceBrokerInformer_Informer : internal_Factory -> SharedIndexInformer * internal_Factory := internal_InformerFor "servicecatalog.ClusterServiceBroker" internal_newClusterServiceBrokerInformer.
Definition internal_clusterServiceBrokerInformer_Lister (f : internal_Factory) : internal_clusterServiceBrokerLister * internal_Factory :=
  let (informer, f) := internal_clusterServiceBrokerInformer_Informer f in (internal_NewClusterServiceBrokerLister (GetIndexer servicecatalog.ClusterServiceBroker informer), f).

Definition internal_newServiceClassInformer (client : @internal_Clientset DiscoveryClient) (resyncPeriod : Z) : SharedIndexInformer :=
  NewSharedIndexInformer
    {| ListFunc options := runtime_object (internal_serviceClasses_List (internal_ServiceClasses (internal_clientset_Servicecatalog client)) options);
       WatchFunc options := internal_serviceClasses_Watch (internal_ServiceClasses (internal_clientset_Servicecatalog client)) IsProbableEOF options |}
    "servicecatalog.ServiceClass" resyncPeriod ({[ NamespaceIndex := MetaNamespaceIndexFunc ]} : gmap string (IndexFunc servicecatalog.ServiceClass)).
Definition internal_serviceClassInformer_Informer : internal_Factory -> SharedIndexInformer * internal_Factory := internal_InformerFor "servicecatalog.ServiceClass" internal_newServiceClassInformer.
Definition internal_serviceClassInformer_Lister (f : internal_Factory) : internal_serviceClassLister * internal_Factory :=
  let (informer, f) := internal_serviceClassInformer_Informer f in (internal_NewServiceClassLister (GetIndexer servicecatalog.ServiceClass informer), f).

Definition internal_newServicePlanInformer (client : @internal_Clientset DiscoveryClient) (resyncPeriod : Z) : SharedIndexInformer :=
  NewSharedIndexInformer
    {| ListFunc options := runtime_object (internal_servicePlans_List (internal_ServicePlans (internal_clientset_Servicecatalog client)) options);
       WatchFunc options := internal_servicePlans_Watch (internal_ServicePlans (internal_clientset_Servicecatalog client)) IsProbableEOF options |}
    "servicecatalog.ServicePlan" resyncPeriod ({[ NamespaceIndex := MetaNamespaceIndexFunc ]} : gmap string (IndexFunc servicecatalog.ServicePlan)).
Definition internal_servicePlanInformer_Informer : internal_Factory -> SharedIndexInformer * internal_Factory := internal_InformerFor "servicecatalog.ServicePlan" internal_newServicePlanInformer.
Definition internal_servicePlanInformer_Lister (f : internal_Factory) : internal_servicePlanLister * internal_Factory :=
  let (informer, f) := internal_servicePlanInformer_Informer f in (internal_NewServicePlanLister (GetIndexer servicecatalog.ServicePlan informer), f).

Definition internal_newServiceInstanceInformer (client : @internal_Clientset DiscoveryClient) (resyncPeriod : Z) : SharedIndexInformer :=
  NewSharedIndexInformer
    {| ListFunc options := runtime_object (internal_serviceInstances_List (internal_ServiceInstances (internal_clientset_Servicecatalog client) "") options);
       WatchFunc options := internal_serviceInstances_Watch (internal_ServiceInstances (internal_clientset_Servicecatalog client) "") IsProbableEOF options |}
    "servicecatalog.ServiceInstance" resyncPeriod ({[ NamespaceIndex := MetaNamespaceIndexFunc ]} : gmap string (IndexFunc servicecatalog.ServiceInstance)).
Definition internal_serviceInstanceInformer_Informer : internal_Factory -> SharedIndexInformer * internal_Factory := internal_InformerFor "servicecatalog.ServiceInstance" internal_newServiceInstanceInformer.
Definition internal_serviceInstanceInformer_Lister (f : internal_Factory) : internal_serviceInstanceLister * internal_Factory :=
  let (informer, f) := internal_serviceInstanceInformer_Informer f in (internal_NewServiceInstanceLister (GetIndexer servicecatalog.ServiceInstance informer), f).

Definition internal_newServiceInstanceCredentialInformer (client : @internal_Clientset DiscoveryClient) (resyncPeriod : Z) : SharedIndexInformer :=
  NewSharedIndexInformer
    {| ListFunc options := runtime_object (internal_serviceInstanceCredentials_List (internal_ServiceInstanceCredentials (internal_clientset_Servicecatalog client) "") options);
       WatchFunc options := internal_serviceInstanceCredentials_Watch (internal_ServiceInstanceCredentials (internal_clientset_Servicecatalog client) "") IsProbableEOF options |}
    "servicecatalog.ServiceInstanceCredential" resyncPeriod ({[ NamespaceIndex := MetaNamespaceIndexFunc ]} : gmap string (IndexFunc servicecatalog.ServiceInstanceCredential)).
Definition internal_serviceInstanceCredentialInformer_Informer : internal_Factory -> SharedIndexInformer * internal_Factory := internal_InformerFor "servicecatalog.ServiceInstanceCredential" internal_newServiceInstanceCredentialInformer.
Definition internal_serviceInstanceCredentialInformer_Lister (f : internal_Factory) : internal_serviceInstanceCredentialLister * internal_Factory :=
  let (informer, f) := internal_serviceInstanceCredentialInformer_Informer f in (internal_NewServiceInstanceCredentialLister (GetIndexer servicecatalog.ServiceInstanceCredential informer), f).

Definition internal_ForResource (resource : GroupVersionResource) (f : internal_Factory) : (genericInformer + error) * internal_Factory :=
  let informer (r : SharedIndexInformer * internal_Factory) := (inl {| gi_informer := fst r; gi_resource := (gvr_Group resource, gvr_Resource resource) |}, snd r) in
  if bool_decide (resource = {| gvr_Group := "servicecatalog.k8s.io"; gvr_Version := "__internal"; gvr_Resource := "clusterservicebrokers" |}) then informer (internal_clusterServiceBrokerInformer_Informer f)
  else if bool_decide (resource = {| gvr_Group := "servicecatalog.k8s.io"; gvr_Version := "__internal"; gvr_Resource := "serviceclasses" |}) then informer (internal_serviceClassInformer_Informer f)
  else if bool_decide (resource = {| gvr_Group := "servicecatalog.k8s.io"; gvr_Version := "__internal"; gvr_Resource := "serviceinstances" |}) then informer (internal_serviceInstanceInformer_Informer f)
  else if bool_decide (resource = {| gvr_Group := "servicecatalog.k8s.io"; gvr_Version := "__internal"; gvr_Resource := "serviceinstancecredentials" |}) then informer (internal_serviceInstanceCredentialInformer_Informer f)
  else if bool_decide (resource = {| gvr_Group := "servicecatalog.k8s.io"; gvr_Version := "__internal"; gvr_Resource := "serviceplans" |}) then informer (internal_servicePlanInformer_Informer f)
  else (inr (PlainError (sprint ["no informer found for "; GroupVersionResource_text resource])), f).
End informers.
Arguments sif_client {W Client}.
Arguments sif_defaultResync {W Client}.
Arguments sif_informers {W Client}.
Arguments sif_startedInformers {W Client}.
