(* ===== verification/InformerTheorems.v ===== *)
(** * What informers promise

    A factory makes one informer per type and runs it once
    ([informers_are_shared]); and once the cache of an informer holds what its
    list call returned, the listers find exactly the objects the API server
    stores ([synced_listers_read_the_store]): the composition of the generated
    clients, the server and its storage, the cache and the generated listers. *)

From stdpp Require Import gmap strings list.
From S2P Require Import Prelude Types Environment Validation Fields InternalTypes JsonText APIServer Http Selectors Strategy Storage StorageTheorems Selfer.
From S2P Require Import RestClient ApiHandlers Clientset InternalClientset TypedClients ClientPaths ClientsetTheorems.
From S2P Require Import Cache Listers CacheTheorems Informers Sample InstanceLifecycle.

(** ** Sharing *)

Section sharing.
Context {G : GoMapOrder} {W : Type} {Client : Type}.
Notation Inf := (@SharedIndexInformer W).
Notation F := (@SharedInformerFactory W Client).

Inductive FactoryOp := Request_informer (informerType : string) (newFunc : Client -> Z -> Inf) | Start_factory.

(** A factory at work, with the informers handed out and those set running. *)
Record Working := { wk_factory : F; wk_given : list (string * Inf); wk_running : list (string * Inf) }.
Definition work (op : FactoryOp) (w : Working) : Working :=
  match op with
  | Request_informer t newFunc =>
      let (i, f) := InformerFor t newFunc (wk_factory w) in {| wk_factory := f; wk_given := (t, i) :: wk_given w; wk_running := wk_running w |}
  | Start_factory =>
      let (started, f) := Factory_Start (wk_factory w) in {| wk_factory := f; wk_given := wk_given w; wk_running := started ++ wk_running w |}
  end.
Definition working (client : Client) (resync : Z) (ops : list FactoryOp) : Working :=
  fold_right work {| wk_factory := NewSharedInformerFactory client resync; wk_given := []; wk_running := [] |} ops.

Record sound (client : Client) (resync : Z) (ops : list FactoryOp) (w : Working) : Prop := {
  sd_client : sif_client (wk_factory w) = client /\ sif_defaultResync (wk_factory w) = resync;
  sd_given p : p ∈ wk_given w -> sif_informers (wk_factory w) !! (fst p) = Some (snd p);
  sd_made t i : sif_informers (wk_factory w) !! t = Some i ->
    exists newFunc, Request_informer t newFunc ∈ ops /\ i = newFunc client resync;
  sd_running p : p ∈ wk_running w -> sif_informers (wk_factory w) !! (fst p) = Some (snd p) /\ fst p ∈ sif_startedInformers (wk_factory w);
  sd_once : NoDup (map fst (wk_running w)) }.

(** Every request for a type, at any time, is given the same informer, which was
    made by a request for it with the client and the resync period of the
    factory; each informer is set running at most once. *)
Theorem informers_are_shared client resync ops : sound client resync ops (working client resync ops).
Proof.
  induction ops as [|op ops [[Hc Hr] Hg Hm Hrun Ho]]; cbn [working fold_right].
  { split; cbn; [done|set_solver|intros t i Hi; by rewrite lookup_empty in Hi|set_solver|constructor]. }
  fold (working client resync ops). set (w := working client resync ops) in *. destruct op as [t newFunc|]; cbn [work].
  - unfold InformerFor. destruct (sif_informers (wk_factory w) !! t) as [i|] eqn:Hi.
    + split; cbn; [done| | |done|done].
      * intros p [->|Hp]%elem_of_cons; [done|by apply Hg].
      * intros t' i' Hi'. destruct (Hm t' i' Hi') as (n & Hn & ->). exists n. split; [by right|done].
    + split; cbn; [done| | | |done].
      * intros p [->|Hp]%elem_of_cons; cbn; [by rewrite lookup_insert_eq|]. rewrite lookup_insert_ne; [by apply Hg|].
        intros ->. apply Hg in Hp. congruence.
      * intros t' i' [[<- <-]|[_ Hi']]%lookup_insert_Some; [exists newFunc; split; [by left|by rewrite Hc, Hr]|].
        destruct (Hm t' i' Hi') as (n & Hn & ->). exists n. split; [by right|done].
      * intros p Hp. destruct (Hrun p Hp) as [H1 H2]. split; [|done]. rewrite lookup_insert_ne; [done|]. intros ->. congruence.
  - unfold Factory_Start. set (starting := List.filter _ _). split; cbn; [done|done| | |].
    + intros t' i' Hi'. destruct (Hm t' i' Hi') as (n & Hn & ->). exists n. split; [by right|done].
    + intros p [Hp|Hp]%elem_of_app.
      * split; [|apply elem_of_union_l, elem_of_list_to_set, list_elem_of_In, in_map_iff; exists p; split; [done|by apply list_elem_of_In]].
        apply list_elem_of_In, filter_In in Hp as [Hp _]. destruct p. by apply range_in, list_elem_of_In.
      * destruct (Hrun p Hp) as [H1 H2]. split; [done|]. by apply elem_of_union_r.
    + rewrite map_app. apply list.NoDup_app. split_and!; [| |done].
      * apply NoDup_ListNoDup. unfold starting. pose proof (range_fst (sif_informers (wk_factory w))) as Hd%NoDup_ListNoDup.
        revert Hd. generalize (go_range (sif_informers (wk_factory w))). intros l. induction l as [|p l IH]; [done|].
        cbn. intros Hd%List.NoDup_cons_iff. destruct Hd as [Hn Hd]. destruct (negb _); cbn; [|by apply IH]. constructor; [|by apply IH].
        rewrite in_map_iff. intros (q & Hq & [Hin _]%filter_In). apply Hn, in_map_iff. by exists q.
      * intros x Hx%list_elem_of_In Hx'%list_elem_of_In. apply in_map_iff in Hx as (p & <- & [_ Hp]%filter_In), Hx' as (q & Hpq & Hq%list_elem_of_In).
        destruct (Hrun q Hq) as [_ Hs]. rewrite Hpq in Hs. by rewrite bool_decide_eq_true_2 in Hp.
Qed.
End sharing.

(** ** From the store to the listers *)

Definition all_options : ListOptions :=
  {| LabelSelector := ""; FieldSelector := ""; lo_IncludeUninitialized := false; lo_Watch := false; lo_ResourceVersion := ""; TimeoutSeconds := None |}.

(** A client of all namespaces, as the informers use it. *)
Definition everywhere {K A L} `{TypedClient K A L} (k : K) : Prop := tc_namespace k = None \/ tc_namespace k = Some "".

Section synced.
Context {G : GoMapOrder} {C : Environment.Config} {MV : MetaValidation} {Sem : Semantic} {SV : StoreValidation}.
Context (user : option User)
  (uid_at rev_at : nat -> string) (now_at : nat -> Z) (listMeta_at : nat -> ListMeta)
  (others : Action -> rest_Storage -> RequestInfo -> HTTPCall -> etcd -> Response * etcd).
Notation informer_server := (serving user uid_at rev_at now_at listMeta_at others).
Context {K A L : Type} `{TCL : TypedClientLaws K A L}.

Definition stored_of (db : etcd) (res : string) : list RObject :=
  List.filter (fun o => bool_decide (resource_of o = res)) (map snd (map_to_list db)).

Lemma serve_everything path s db : In (path, s) routes -> full_storage s = true -> filed db ->
  exists l, serve s {| ctx_Namespace := ""; ctx_User := user |} (VList Everything) db = (ReplyList l, db) /\ l ≡ₚ stored_of db (rest_resource s).
Proof.
  intros Hs%routes_laid_out Hf Hdb. destruct s as [B H' R e|]; [|done]. destruct Hs as (HO & HR & scoped & HL).
  destruct (Store_List_exact e scoped HL {| ctx_Namespace := ""; ctx_User := user |} Everything db Hdb eq_refl (fun _ => eq_refl)) as (r & Hr & Hp).
  exists (map inject r). split; [cbn; by rewrite Hr|]. rewrite Hp. unfold stored_of. apply reflexive_eq, List.filter_ext.
  intros o. unfold selected, in_scope. cbn. by rewrite !andb_true_r.
Qed.

(** A client of all namespaces lists every stored object of its resource. *)
Lemma list_everything k sv : versionedAPIPath (tc_rest k) = group_path -> everywhere k -> filed (sv_db sv) ->
  exists t m l, tc_List Server informer_server k all_options sv =
      ((list_of t m (omap kind_project l), None), {| sv_db := sv_db sv; sv_count := S (sv_count sv) |}) /\
    l ≡ₚ stored_of (sv_db sv) tc_resource.
Proof.
  intros Hrc He Hdb. destruct tc_known as (subs & Hk). destruct (Hk k) as [Hin _].
  destruct (resource_storage _ _ _ Hin) as (s & Hs & Hf & Hn & Hr & Hkind).
  rewrite tc_List_request.
  rewrite (list_spec user uid_at rev_at now_at listMeta_at others (tc_rest k) _ tc_resource _ subs s all_options sv Hrc Hin eq_refl Hs Hf Hn Hr Hkind kind_projects list_name_kind eq_refl eq_refl).
  unfold abstract_List. assert (collection_refusal false (tc_namespace k) = None) as -> by (by destruct He as [->| ->]).
  assert (default "" (tc_namespace k) = "") as Hns by (by destruct He as [->| ->]).
  cbn [all_options FieldSelector sent_selector]. change (sent_selector "") with (@inl (list (string * string)) error []).
  cbv iota. change (list_selector (kind_of_resource tc_resource) []) with (@inl Selector error Everything). cbv iota.
  unfold ask. rewrite Hns. destruct (serve_everything _ s (sv_db sv) Hs Hf Hdb) as (l & -> & Hl). rewrite Hr in Hl.
  do 3 eexists. split; [reflexivity|done].
Qed.

Lemma resource_scope res scoped subs o : In (res, scoped, subs) resources -> resource_of o = res -> namespaced o = scoped.
Proof. cbn. intros Hin. decompose [or] Hin; try contradiction; simplify_eq; by destruct o. Qed.

(** ** Replacing the contents of a cache *)

Lemma keyed_items_all (l : list A) (items : gmap string A) :
  keyed_items DeletionHandlingMetaNamespaceKeyFunc l items = inl (fold_left (fun m a => <[MetaNamespaceKey (kind_meta a) := a]> m) l items).
Proof. revert items. induction l as [|a l IH]; intros items; [done|]. cbn. by rewrite IH. Qed.

Lemma inserted_lookup (l : list A) (items : gmap string A) key a :
  (forall b, In b l -> MetaNamespaceKey (kind_meta b) = key -> b = a) -> (items !! key = Some a \/ items !! key = None) ->
  fold_left (fun m b => <[MetaNamespaceKey (kind_meta b) := b]> m) l items !! key = Some a <->
  (items !! key = Some a \/ exists b, In b l /\ MetaNamespaceKey (kind_meta b) = key).
Proof.
  revert items. induction l as [|b l IH]; intros items Hl Hi; cbn [fold_left]; [naive_solver|].
  destruct (decide (MetaNamespaceKey (kind_meta b) = key)) as [Hb|Hb].
  - pose proof (Hl b (or_introl eq_refl) Hb) as ->. rewrite IH.
    + rewrite Hb, lookup_insert_eq. split; [|by left]. intros _. right. exists a. split; [by left|done].
    + intros c Hc. apply Hl. by right.
    + left. by rewrite Hb, lookup_insert_eq.
  - rewrite IH.
    + rewrite lookup_insert_ne by done. cbn [In]. naive_solver.
    + intros c Hc. apply Hl. by right.
    + by rewrite lookup_insert_ne.
Qed.

Lemma replaced_contents ch (l : list A) : cache_ok ch ->
  fst (cache_Replace l ch) = None /\ cache_ok (snd (cache_Replace l ch)) /\
  contents (snd (cache_Replace l ch)) = fold_left (fun m a => <[MetaNamespaceKey (kind_meta a) := a]> m) l ∅.
Proof.
  intros Hok. assert (cache_ok (snd (cache_Replace l ch))) as Hok' by (by apply replace_ok).
  unfold cache_Replace in *. rewrite (ok_key _ Hok), keyed_items_all in *. split_and!; [done|done|].
  unfold contents. cbn [snd with_storage cacheStorage]. by destruct (replace_well_indexed (fold_left (fun m a => <[MetaNamespaceKey (kind_meta a) := a]> m) l ∅) _ (ok_indexed _ Hok)) as [_ ->].
Qed.

Lemma inserted_in (l : list A) (items : gmap string A) key a :
  fold_left (fun m b => <[MetaNamespaceKey (kind_meta b) := b]> m) l items !! key = Some a ->
  items !! key = Some a \/ (In a l /\ MetaNamespaceKey (kind_meta a) = key).
Proof.
  revert items. induction l as [|b l IH]; intros items Hl; cbn [fold_left] in Hl; [by left|]. apply IH in Hl as [Hl|[Hl <-]]; [|right; split; [by right|done]].
  apply lookup_insert_Some in Hl as [[<- ->]|[_ Hl]]; [right; split; [by left|done]|by left].
Qed.

(** The key in the cache and the key in the store say the same. *)
Lemma keys_agree scoped subs o ns name : In (tc_resource, scoped, subs) resources -> placed o -> resource_of o = tc_resource ->
  no_slash ns -> no_slash name -> (if scoped then ns <> "" else ns = "") ->
  MetaNamespaceKey (meta_of o) = (if bool_decide (ns = "") then name else sprint [ns; "/"; name]) <-> key_of o = key_at tc_resource scoped ns name.
Proof.
  intros Hin [[Hn _] [Hns Hsc]] Hr Hsl1 Hsl2 Hscope. pose proof (resource_scope _ _ _ o Hin Hr) as Ho. rewrite meta_key_named by done.
  pose proof (resource_facts _ _ _ Hin) as (_ & (Hres & _) & _). unfold key_of. rewrite Ho, Hr. split.
  - by intros [-> ->].
  - intros He. apply key_at_inj in He as (_ & _ & -> & Hsame); try done. split; [|done]. destruct scoped; [by apply Hsame|].
    rewrite Hscope. by apply Hsc.
Qed.

Lemma listed_object (db : etcd) l (a : A) : l ≡ₚ stored_of db tc_resource -> In a (omap kind_project l) <->
  exists key o, db !! key = Some o /\ resource_of o = tc_resource /\ kind_project o = Some a.
Proof.
  intros Hl. rewrite <-list_elem_of_In, list_elem_of_omap. setoid_rewrite Hl. split.
  - intros (o & Ho & Ha). apply list_elem_of_In, filter_In in Ho as [Ho Hr%bool_decide_eq_true]. apply in_db in Ho as (key & Hk). by exists key, o.
  - intros (key & o & Hk & Hr & Ha). exists o. split; [|done]. apply list_elem_of_In, filter_In. split; [apply in_db; by exists key|by apply bool_decide_eq_true].
Qed.

Lemma synced_lookup k db l ns name : filed db -> l ≡ₚ stored_of db tc_resource -> no_slash ns -> no_slash name ->
  (if not_nil (tc_namespace k) then ns <> "" else ns = "") ->
  fold_left (fun m a => <[MetaNamespaceKey (kind_meta a) := a]> m) (omap kind_project l) (∅ : gmap string A) !!
    (if bool_decide (ns = "") then name else sprint [ns; "/"; name]) =
  db !! key_at tc_resource (not_nil (tc_namespace k)) ns name ≫= kind_project.
Proof.
  intros Hdb Hl Hns Hname Hscope. destruct tc_known as (subs & Hk). destruct (Hk k) as [Hin _].
  pose proof (resource_facts _ _ _ Hin) as (_ & (Hres & _) & _).
  destruct (db !! key_at tc_resource (not_nil (tc_namespace k)) ns name) as [o|] eqn:Ho; cbn.
  - destruct (Hdb _ _ Ho) as [He Hp]. assert (resource_of o = tc_resource) as Hr.
    { destruct (placed_name _ Hp) as [Hsl1 _], (placed_ns _ Hp) as [Hsl2 _]. symmetry. apply key_at_inj in He as (? & _); try done. apply resource_of_no_slash. }
    destruct (kind_projects o Hr) as [a Ha]. rewrite Ha. apply inserted_lookup; [|right; apply lookup_empty|right].
    + intros b (key & o' & Ho' & Hr' & Hb)%(listed_object db) Hkey; [|done]. destruct (Hdb _ _ Ho') as [He' Hp'].
      rewrite (kind_meta_project o' b Hb) in Hkey. apply (keys_agree (not_nil (tc_namespace k)) subs) in Hkey; try done. congruence.
    + exists a. split; [by apply (listed_object db); [done|exists (key_of o), o; rewrite <-He]|].
      rewrite (kind_meta_project o a Ha). by apply (keys_agree (not_nil (tc_namespace k)) subs).
  - apply eq_None_not_Some. intros [a Ha]. apply inserted_in in Ha as [Ha|[Ha Hkey]]; [by rewrite lookup_empty in Ha|].
    apply (listed_object db) in Ha as (key & o & Hk' & Hr & Hp); [|done]. destruct (Hdb _ _ Hk') as [He Hpl].
    rewrite (kind_meta_project o a Hp) in Hkey. apply (keys_agree (not_nil (tc_namespace k)) subs) in Hkey; try done. congruence.
Qed.

(** C33: When the cache of an informer is filled with what its client lists from
    the API server, in any state requests lead to, its lister finds for every
    namespace and name exactly the object the server stores there, and that
    there is none where the server stores none; this holds for both client
    sets and every kind. *)
Theorem synced_listers_read_the_store {Kl} `{LS : !Lister Kl A, LL : !ListerLaws Kl A} (k : K) (kl : Kl) ch sv :
  versionedAPIPath (tc_rest k) = group_path -> everywhere k -> reachable (sv_db sv) -> cache_reach ch ->
  exists t m l, fst (tc_List Server informer_server k all_options sv) = (list_of t m l, None) /\
    fst (cache_Replace l ch) = None /\
    (ls_indexer kl = snd (cache_Replace l ch) -> not_nil ls_namespaces = not_nil (tc_namespace k) ->
     forall ns name, no_slash ns -> no_slash name -> (if not_nil (tc_namespace k) then ns <> "" else ns = "") ->
       match sv_db sv !! key_at tc_resource (not_nil (tc_namespace k)) ns name with
       | Some o => exists a, kind_project o = Some a /\ ls_Get kl ns name = inl a
       | None => ls_Get kl ns name = inr (NewNotFoundError (ResourceOf ls_resource) name)
       end).
Proof.
  intros Hrc He Hdb%reachable_filed Hch%reach_ok. destruct (list_everything k sv Hrc He Hdb) as (t & m & l & Hlist & Hl).
  exists t, m, (omap kind_project l). rewrite Hlist. destruct (replaced_contents ch (omap kind_project l) Hch) as (Hnone & Hok & Hcont).
  split_and!; [done|done|]. intros Hkl Hsc ns name Hns Hname Hscope. rewrite ls_Get_key, Hkl. unfold lister_Get.
  pose proof (synced_lookup k (sv_db sv) l ns name Hdb Hl Hns Hname Hscope) as Hlook. rewrite <-Hcont in Hlook.
  assert ((if match ls_namespaces with Some _ => true | None => false end then cache_GetByKey (sprint [ns; "/"; name]) (snd (cache_Replace (omap kind_project l) ch))
           else cache_Get (Object (MetaOnly (with_Name name ObjectMeta_zero))) (snd (cache_Replace (omap kind_project l) ch))) =
    inl (sv_db sv !! key_at tc_resource (not_nil (tc_namespace k)) ns name ≫= kind_project)) as ->.
  { fold (not_nil ls_namespaces). rewrite Hsc, <-Hlook. destruct (not_nil (tc_namespace k)).
    - rewrite bool_decide_eq_false_2 by done. done.
    - rewrite bool_decide_eq_true_2 by done. unfold cache_Get. rewrite (ok_key _ Hok). done. }
  destruct (sv_db sv !! key_at tc_resource (not_nil (tc_namespace k)) ns name) as [o|] eqn:Ho; cbn; [|done].
  destruct (kind_projects o) as [a Ha]; [|rewrite Ha; eauto].
  destruct (Hdb _ _ Ho) as [Hk Hp], tc_known as (subs & Hin). destruct (Hin k) as [Hi _]. pose proof (resource_facts _ _ _ Hi) as (_ & (Hres & _) & _).
  destruct (placed_name _ Hp) as [Hsl1 _], (placed_ns _ Hp) as [Hsl2 _]. symmetry. apply key_at_inj in Hk as (? & _); try done. apply resource_of_no_slash.
Qed.
End synced.

(** ** An informer at work *)

#[local] Instance some_order : GoMapOrder :=
  {| go_range V m := map_to_list m; go_range_all V m := reflexivity (map_to_list m);
     go_set s := elements s; go_set_all s := reflexivity (elements s) |}.

Definition informer_client : serviceInstances := ServiceInstances (ServicecatalogV1alpha1Client_New sample_rest) "".
Definition stored_instance : ServiceInstance := match stored1 with RInstance i => i | _ => instance1 end.
Definition empty_cache : Cache ServiceInstance := NewIndexer DeletionHandlingMetaNamespaceKeyFunc informer_indexers.
Definition synced_lister : serviceInstanceLister := NewServiceInstanceLister (snd (cache_Replace [stored_instance] empty_cache)).
Definition at_work : Server := {| sv_db := db1; sv_count := 1 |}.

Lemma synced_listers_read_the_store_witness :
  serviceInstanceNamespaceLister_Get (serviceInstanceLister_ServiceInstances synced_lister "ns") "db" = inl stored_instance /\
  serviceInstanceNamespaceLister_Get (serviceInstanceLister_ServiceInstances synced_lister "ns") "other" =
    inr (NewNotFoundError (ResourceOf "serviceinstance") "other").
Proof.
  destruct (synced_listers_read_the_store None (fun _ => "uid-1") (fun _ => "1") (fun _ => 77) (fun _ => ListMeta_zero) no_others
    informer_client synced_lister empty_cache at_work ltac:(by vm_compute) (or_intror eq_refl) db1_reachable reach_new) as (t & m & l & Hlist & _ & Hget).
  assert (l = [stored_instance]) as ->.
  { apply (f_equal (fun r => sil_Items (fst r))) in Hlist. refine (eq_trans _ (eq_trans (eq_sym Hlist) _)); [done|by vm_compute]. }
  specialize (Hget eq_refl eq_refl "ns").
  split.
  - specialize (Hget "db" eq_refl eq_refl ltac:(done)).
    match type of Hget with match ?x with _ => _ end => assert (x = Some (RInstance stored_instance)) as E by (vm_compute; reflexivity) end.
    rewrite E in Hget. destruct Hget as (a & [= <-] & Ha). exact Ha.
  - specialize (Hget "other" eq_refl eq_refl ltac:(done)).
    match type of Hget with match ?x with _ => _ end => assert (x = None) as E by (vm_compute; reflexivity) end.
    rewrite E in Hget. exact Hget.
Defined.

Definition filled_lister : serviceInstanceLister := NewServiceInstanceLister (snd (cache_Add stored_instance empty_cache)).

Lemma listers_read_the_cache_witness :
  exists l, serviceInstanceNamespaceLister_List (serviceInstanceLister_ServiceInstances filled_lister "ns") (fun _ => true) = (l, None) /\
    l ≡ₚ [stored_instance].
Proof.
  assert (Hr : cache_reach (serviceInstanceLister_indexer filled_lister)) by (apply reach_add, reach_new).
  destruct (listers_read_the_cache (LS := serviceInstanceLister_lister) filled_lister Hr) as (_ & Hns & _).
  destruct (Hns _ "ns" (fun _ => true) eq_refl) as (l & H1 & H2). exists l. split; [exact H1|].
  rewrite H2. apply reflexive_eq. by vm_compute.
Defined.
