(* ===== verification/ServerConfig.v ===== *)
(** * The configuration of the API server

    [pkg/apiserver] and the start of [cmd/apiserver/app/server/run_server.go]:
    which versions objects are stored in ([options/storage_versions.go]), which
    resources are enabled ([default_storage_factory_builder.go] on
    [k8s.io/apiserver/pkg/server/storage]), the REST options of a resource and
    the API group that is installed ([etcd_config.go]).  The generic server,
    codecs and the connection to etcd are parameters; overrides of serializers
    and transformers are left out of the storage factory.  The order in which Go
    ranges over a map is the parameter [GoMapOrder]. *)

From stdpp Require Import gmap strings list.
From S2P Require Import Prelude Types Environment Validation JsonText APIServer Http Selectors Strategy Storage StorageTheorems RestClient ClientPaths Clientset Cache.

(** ** Group versions *)

Definition ParseGroupVersion (gv : string) : GroupVersion + error :=
  if bool_decide (gv = "") || bool_decide (gv = "/") then inl {| gv_Group := ""; gv_Version := "" |}
  else match split_on [47]%nat gv with
       | [version] => inl {| gv_Group := ""; gv_Version := version |}
       | [group; version] => inl {| gv_Group := group; gv_Version := version |}
       | _ => inr (PlainError ("unexpected GroupVersion string: " +:+ gv))
       end.

(** [registered.APIRegistrationManager]: the registered versions, and of each
    group its preferred one. *)
Record APIRegistrationManager := { registeredVersions : gset GroupVersion; groupMetaMap : gmap string GroupVersion }.
Definition RegisteredGroupVersions (m : APIRegistrationManager) : list GroupVersion := elements (registeredVersions m).
Definition IsRegisteredVersion (m : APIRegistrationManager) (v : GroupVersion) : bool := bool_decide (v ∈ registeredVersions m).
Definition Registry_Group (m : APIRegistrationManager) (group : string) : GroupVersion + error :=
  match groupMetaMap m !! group with
  | Some groupMeta => inl groupMeta
  | None => inr (PlainError (sprint ["group "; group; " has not been registered"]))
  end.
Definition AllPreferredGroupVersions (m : APIRegistrationManager) : string :=
  if bool_decide (groupMetaMap m = ∅) then ""
  else Join "," (sorting.merge_sort string_le (map (fun p => GroupVersion_String (snd p)) (map_to_list (groupMetaMap m)))).

(** [api.Registry] after [install.Install]. *)
Definition v1alpha1_version : GroupVersion := {| gv_Group := "servicecatalog.k8s.io"; gv_Version := "v1alpha1" |}.
Definition Registry : APIRegistrationManager :=
  {| registeredVersions := {[ v1alpha1_version ]}; groupMetaMap := {[ "servicecatalog.k8s.io" := v1alpha1_version ]} |}.

(** ** Storage versions *)

Record StorageSerializationOptions := { StorageVersions : string; DefaultStorageVersions : string }.
Definition NewStorageSerializationOptions (registry : APIRegistrationManager) : StorageSerializationOptions :=
  {| DefaultStorageVersions := AllPreferredGroupVersions registry; StorageVersions := AllPreferredGroupVersions registry |}.

(** [strings.SplitN] at the first of a character, if there is one. *)
Fixpoint split_first (c : nat) (s : string) : option (string * string) :=
  match s with
  | EmptyString => None
  | String x s' => if is_char c x then Some (EmptyString, s')
                   else match split_first c s' with Some (a, b) => Some (String x a, b) | None => None end
  end.

(** One element of the list: group and version, or a group and the group and
    version its objects are stored in; an empty one is passed over. *)
Definition read_storage_version (gvString : string) : option (string * GroupVersion) + error :=
  if bool_decide (gvString = "") then inl None
  else match split_first 61 gvString with
       | None => match ParseGroupVersion gvString with inl gv => inl (Some (gv_Group gv, gv)) | inr err => inr err end
       | Some (group, version) => match ParseGroupVersion version with inl gv => inl (Some (group, gv)) | inr err => inr err end
       end.
Fixpoint merge_versions (l : list string) (dest : gmap string GroupVersion) : gmap string GroupVersion + error :=
  match l with
  | [] => inl dest
  | gvString :: l' =>
      match read_storage_version gvString with
      | inr err => inr err
      | inl None => merge_versions l' dest
      | inl (Some (group, gv)) => merge_versions l' (<[group := gv]> dest)
      end
  end.
Definition mergeGroupVersionIntoMap (gvList : string) (dest : gmap string GroupVersion) : gmap string GroupVersion + error :=
  merge_versions (split_on [44]%nat gvList) dest.

Definition StorageGroupsToEncodingVersion (s : StorageSerializationOptions) : gmap string GroupVersion + error :=
  match mergeGroupVersionIntoMap (DefaultStorageVersions s) ∅ with
  | inr err => inr err
  | inl storageVersionMap => mergeGroupVersionIntoMap (StorageVersions s) storageVersionMap
  end.

(** ** Enabled versions and resources *)

Record GroupVersionResourceConfig := { Enable : bool; DisabledResources : gset string; EnabledResources : gset string }.
Notation ResourceConfig := (gmap GroupVersion GroupVersionResourceConfig).

Definition NewResourceConfig : ResourceConfig := ∅.
Definition NewGroupVersionResourceConfig : GroupVersionResourceConfig := {| Enable := true; DisabledResources := ∅; EnabledResources := ∅ |}.
(** The configuration of a version, made if it is missing. *)
Definition config_of (o : ResourceConfig) (version : GroupVersion) : GroupVersionResourceConfig :=
  default NewGroupVersionResourceConfig (o !! version).

Definition set_enable (b : bool) (c : GroupVersionResourceConfig) : GroupVersionResourceConfig :=
  {| Enable := b; DisabledResources := DisabledResources c; EnabledResources := EnabledResources c |}.
Definition disable_resource (r : string) (c : GroupVersionResourceConfig) : GroupVersionResourceConfig :=
  {| Enable := Enable c; DisabledResources := {[r]} ∪ DisabledResources c; EnabledResources := EnabledResources c |}.
Definition enable_resource (r : string) (c : GroupVersionResourceConfig) : GroupVersionResourceConfig :=
  {| Enable := Enable c; DisabledResources := DisabledResources c ∖ {[r]}; EnabledResources := {[r]} ∪ EnabledResources c |}.

Definition DisableVersions (versions : list GroupVersion) (o : ResourceConfig) : ResourceConfig :=
  fold_left (fun o version => <[version := set_enable false (config_of o version)]> o) versions o.
Definition EnableVersions (versions : list GroupVersion) (o : ResourceConfig) : ResourceConfig :=
  fold_left (fun o version => <[version := set_enable true (config_of o version)]> o) versions o.
Definition DisableResources (version : GroupVersion) (resource : string) (o : ResourceConfig) : ResourceConfig :=
  <[version := disable_resource resource (config_of o version)]> o.
Definition EnableResources (version : GroupVersion) (resource : string) (o : ResourceConfig) : ResourceConfig :=
  <[version := enable_resource resource (config_of o version)]> o.

Definition ResourceEnabled (o : ResourceConfig) (version : GroupVersion) (resource : string) : bool :=
  match o !! version with
  | None => false
  | Some versionOverride =>
      if negb (Enable versionOverride) then false
      else if bool_decide (resource ∈ DisabledResources versionOverride) then false
      else if negb (bool_decide (EnabledResources versionOverride = ∅)) then bool_decide (resource ∈ EnabledResources versionOverride)
      else true
  end.
Definition AnyVersionOfResourceEnabled (o : ResourceConfig) (gr : string * string) : bool :=
  existsb (fun p => bool_decide (gv_Group (fst p) = fst gr) && ResourceEnabled o (fst p) (snd gr)) (map_to_list o).
Definition AllResourcesForVersionEnabled (o : ResourceConfig) (version : GroupVersion) : bool :=
  match o !! version with
  | None => false
  | Some c => Enable c && bool_decide (EnabledResources c = ∅) && bool_decide (DisabledResources c = ∅)
  end.
Definition AnyResourcesForVersionEnabled (o : ResourceConfig) (version : GroupVersion) : bool :=
  match o !! version with None => false | Some c => Enable c end.
Definition AnyResourcesForGroupEnabled (o : ResourceConfig) (group : string) : bool :=
  existsb (fun p => bool_decide (gv_Group (fst p) = group) && AnyResourcesForVersionEnabled o (fst p)) (map_to_list o).

Definition DefaultAPIResourceConfigSource : ResourceConfig := EnableVersions [v1alpha1_version] NewResourceConfig.

(** *** Overrides of the command line *)

(** [strconv.ParseBool] *)
Definition ParseBool (str : string) : bool + error :=
  if bool_decide (str ∈ ["1"; "t"; "T"; "true"; "TRUE"; "True"]) then inl true
  else if bool_decide (str ∈ ["0"; "f"; "F"; "false"; "FALSE"; "False"]) then inl false
  else inr (PlainError (sprint ["strconv.ParseBool: parsing "; quote str; ": invalid syntax"])).

Definition getRuntimeConfigValue (overrides : gmap string string) (apiKey : string) (defaultValue : bool) : bool + error :=
  match overrides !! apiKey with
  | Some flagValue =>
      if bool_decide (flagValue = "") then inl true
      else match ParseBool flagValue with
           | inr err => inr (PlainError (sprint ["invalid value of "; apiKey; ": "; flagValue; ", err: "; Error err]))
           | inl boolValue => inl boolValue
           end
  | None => inl defaultValue
  end.

(** The version two tokens of a key name. *)
Definition groupVersionString (a b : string) : string :=
  let s := sprint [a; "/"; b] in if bool_decide (s = "api/v1") then "v1" else s.
Definition key_version (registry : APIRegistrationManager) (key a b : string) : GroupVersion + error :=
  match ParseGroupVersion (groupVersionString a b) with
  | inr _ => inr (PlainError ("invalid key " +:+ key))
  | inl groupVersion =>
      if negb (IsRegisteredVersion registry groupVersion) then
        inr (PlainError (sprint ["group version "; GroupVersion_String groupVersion; " that has not been registered"]))
      else inl groupVersion
  end.

(** The two loops over the keys. *)
Fixpoint merge_version_keys (registry : APIRegistrationManager) (overrides : gmap string string) (keys : list string) (resourceConfig : ResourceConfig) :
    ResourceConfig + error :=
  match keys with
  | [] => inl resourceConfig
  | key :: keys' =>
      if bool_decide (key = "api/all") || bool_decide (key = "api/legacy") then merge_version_keys registry overrides keys' resourceConfig
      else match split_on [47]%nat key with
           | [a; b] =>
               match key_version registry key a b with
               | inr err => inr err
               | inl groupVersion =>
                   match getRuntimeConfigValue overrides key false with
                   | inr err => inr err
                   | inl enabled => merge_version_keys registry overrides keys'
                       (if (enabled : bool) then EnableVersions [groupVersion] resourceConfig else DisableVersions [groupVersion] resourceConfig)
                   end
               end
           | _ => merge_version_keys registry overrides keys' resourceConfig
           end
  end.
Fixpoint merge_resource_keys (registry : APIRegistrationManager) (overrides : gmap string string) (keys : list string) (resourceConfig : ResourceConfig) :
    ResourceConfig + error :=
  match keys with
  | [] => inl resourceConfig
  | key :: keys' =>
      match split_on [47]%nat key with
      | [a; b; resource] =>
          match key_version registry key a b with
          | inr err => inr err
          | inl groupVersion =>
              if negb (AnyResourcesForVersionEnabled resourceConfig groupVersion) then
                inr (PlainError (sprint [GroupVersion_String groupVersion; " is disabled, you cannot configure its resources individually"]))
              else
                match getRuntimeConfigValue overrides key false with
                | inr err => inr err
                | inl enabled => merge_resource_keys registry overrides keys'
                    (if (enabled : bool) then EnableResources groupVersion resource resourceConfig else DisableResources groupVersion resource resourceConfig)
                end
          end
      | _ => merge_resource_keys registry overrides keys' resourceConfig
      end
  end.
Definition merge_all (registry : APIRegistrationManager) (overrides : gmap string string) (resourceConfig : ResourceConfig) : ResourceConfig :=
  match overrides !! "api/all" with
  | Some allAPIFlagValue =>
      if bool_decide (allAPIFlagValue = "false") then DisableVersions (RegisteredGroupVersions registry) resourceConfig
      else if bool_decide (allAPIFlagValue = "true") then EnableVersions (RegisteredGroupVersions registry) resourceConfig
      else resourceConfig
  | None => resourceConfig
  end.

(** ** Encodings *)

Record GroupResourceEncodingConfig := {
  DefaultExternalEncoding : GroupVersion; ExternalResourceEncodings : gmap string GroupVersion;
  DefaultInternalEncoding : GroupVersion; InternalResourceEncodings : gmap string GroupVersion }.
Record DefaultResourceEncodingConfig := { encoding_groups : gmap string GroupResourceEncodingConfig; encoding_registry : APIRegistrationManager }.
Definition with_groups groups (o : DefaultResourceEncodingConfig) : DefaultResourceEncodingConfig :=
  {| encoding_groups := groups; encoding_registry := encoding_registry o |}.

Definition NewDefaultResourceEncodingConfig (registry : APIRegistrationManager) : DefaultResourceEncodingConfig :=
  {| encoding_groups := ∅; encoding_registry := registry |}.
Definition newGroupResourceEncodingConfig (defaultEncoding defaultInternalVersion : GroupVersion) : GroupResourceEncodingConfig :=
  {| DefaultExternalEncoding := defaultEncoding; ExternalResourceEncodings := ∅;
     DefaultInternalEncoding := defaultInternalVersion; InternalResourceEncodings := ∅ |}.

Definition SetVersionEncoding (group : string) (externalEncodingVersion internalVersion : GroupVersion) (o : DefaultResourceEncodingConfig) :
    DefaultResourceEncodingConfig :=
  let c := default (newGroupResourceEncodingConfig externalEncodingVersion internalVersion) (encoding_groups o !! group) in
  with_groups (<[group := {| DefaultExternalEncoding := externalEncodingVersion; ExternalResourceEncodings := ExternalResourceEncodings c;
                             DefaultInternalEncoding := internalVersion; InternalResourceEncodings := InternalResourceEncodings c |}]> (encoding_groups o)) o.
Definition SetResourceEncoding (resourceBeingStored : string * string) (externalEncodingVersion internalVersion : GroupVersion)
    (o : DefaultResourceEncodingConfig) : DefaultResourceEncodingConfig :=
  let (group, resource) := resourceBeingStored in
  let c := default (newGroupResourceEncodingConfig externalEncodingVersion internalVersion) (encoding_groups o !! group) in
  with_groups (<[group := {| DefaultExternalEncoding := DefaultExternalEncoding c;
                             ExternalResourceEncodings := <[resource := externalEncodingVersion]> (ExternalResourceEncodings c);
                             DefaultInternalEncoding := DefaultInternalEncoding c;
                             InternalResourceEncodings := <[resource := internalVersion]> (InternalResourceEncodings c) |}]> (encoding_groups o)) o.

Definition StorageEncodingFor (o : DefaultResourceEncodingConfig) (gr : string * string) : GroupVersion + error :=
  match Registry_Group (encoding_registry o) (fst gr) with
  | inr err => inr err
  | inl groupVersion =>
      match encoding_groups o !! fst gr with
      | None => inl groupVersion
      | Some groupEncoding => inl (default (DefaultExternalEncoding groupEncoding) (ExternalResourceEncodings groupEncoding !! snd gr))
      end
  end.
Definition InMemoryEncodingFor (o : DefaultResourceEncodingConfig) (gr : string * string) : GroupVersion + error :=
  match Registry_Group (encoding_registry o) (fst gr) with
  | inr err => inr err
  | inl _ =>
      match encoding_groups o !! fst gr with
      | None => inl {| gv_Group := fst gr; gv_Version := APIVersionInternal |}
      | Some groupEncoding => inl (default (DefaultInternalEncoding groupEncoding) (InternalResourceEncodings groupEncoding !! snd gr))
      end
  end.

(** ** Starting up *)

(** A start-up returns, with an error or not, or the process ends: a panic or a
    fatal log message. *)
Inductive Startup (A : Type) := Started (a : A) | StartError (err : error) | Exited.
Arguments Started {A}.
Arguments StartError {A}.
Arguments Exited {A}.

(** [IsErrAPIGroupDisabled] looks at the type of an error. *)
Inductive ProviderError := ErrAPIGroupDisabled (name : string) | OtherError (err : error).
Definition IsErrAPIGroupDisabled (e : ProviderError) : bool := match e with ErrAPIGroupDisabled _ => true | OtherError _ => false end.
Definition ProviderError_error (e : ProviderError) : error :=
  match e with ErrAPIGroupDisabled name => PlainError (sprint ["API group "; name; " is disabled"]) | OtherError err => err end.

Section factory.
Context {G : GoMapOrder}.

(** The keys in the order of a [range]. *)
Definition range_keys (overrides : gmap string string) : list string := map fst (go_range overrides).
Definition mergeAPIResourceConfigs (registry : APIRegistrationManager) (defaultAPIResourceConfig : ResourceConfig) (overrides : gmap string string) :
    ResourceConfig + error :=
  let resourceConfig := merge_all registry overrides defaultAPIResourceConfig in
  match merge_version_keys registry overrides (range_keys overrides) resourceConfig with
  | inr err => inr err
  | inl resourceConfig => merge_resource_keys registry overrides (range_keys overrides) resourceConfig
  end.

Definition mergeResourceEncodingConfigs (defaultResourceEncoding : DefaultResourceEncodingConfig) (resourceEncodingOverrides : list GroupVersionResource) :
    DefaultResourceEncodingConfig :=
  fold_left (fun o gvr => SetResourceEncoding (GroupResource gvr) {| gv_Group := gvr_Group gvr; gv_Version := gvr_Version gvr |}
                            {| gv_Group := gvr_Group gvr; gv_Version := APIVersionInternal |} o)
    resourceEncodingOverrides defaultResourceEncoding.
Definition mergeGroupEncodingConfigs (defaultResourceEncoding : DefaultResourceEncodingConfig) (storageEncodingOverrides : gmap string GroupVersion) :
    DefaultResourceEncodingConfig :=
  fold_left (fun o p => SetVersionEncoding (fst p) (snd p) {| gv_Group := fst p; gv_Version := APIVersionInternal |} o)
    (go_range storageEncodingOverrides) defaultResourceEncoding.

(** ** The storage factory *)

(** [Rest]: the fields of a backend configuration that are passed on. *)
Context {Rest Codec Serializer : Type}.

Record BackendConfig := { backend_Prefix : string; backend_ServerList : list string; backend_Codec : option Codec; backend_rest : Rest }.
Record StorageCodecConfig := {
  StorageMediaType : string; StorageSerializer : Serializer; codec_StorageVersion : GroupVersion; codec_MemoryVersion : GroupVersion;
  codec_Config : BackendConfig }.
(** [NewStorageCodec] *)
Context (newStorageCodecFn : StorageCodecConfig -> Codec + error).

Record groupResourceOverrides := {
  etcdLocation : list string; etcdPrefix : string; etcdResourcePrefix : string; gro_mediaType : string;
  gro_serializer : option Serializer; cohabitatingResources : list (string * string) }.
Definition no_overrides : groupResourceOverrides :=
  {| etcdLocation := []; etcdPrefix := ""; etcdResourcePrefix := ""; gro_mediaType := ""; gro_serializer := None; cohabitatingResources := [] |}.

Record DefaultStorageFactory := {
  StorageConfig : BackendConfig; Overrides : gmap (string * string) groupResourceOverrides; DefaultResourcePrefixes : gmap (string * string) string;
  DefaultMediaType : string; DefaultSerializer : Serializer; ResourceEncodingConfig : DefaultResourceEncodingConfig;
  APIResourceConfigSource : ResourceConfig }.

Definition specialDefaultResourcePrefixes : gmap (string * string) string :=
  {[ ("", "replicationControllers") := "controllers"; ("", "replicationcontrollers") := "controllers";
     ("", "endpoints") := "services/endpoints"; ("", "nodes") := "minions"; ("", "services") := "services/specs";
     ("extensions", "ingresses") := "ingress"; ("extensions", "podsecuritypolicies") := "podsecuritypolicy" ]}.
Definition NewDefaultStorageFactory (config : BackendConfig) (defaultMediaType : string) (defaultSerializer : Serializer)
    (resourceEncodingConfig : DefaultResourceEncodingConfig) (resourceConfig : ResourceConfig) : DefaultStorageFactory :=
  {| StorageConfig := config; Overrides := ∅;
     DefaultMediaType := if bool_decide (defaultMediaType = "") then "application/json" else defaultMediaType;
     DefaultSerializer := defaultSerializer; ResourceEncodingConfig := resourceEncodingConfig; APIResourceConfigSource := resourceConfig;
     DefaultResourcePrefixes := specialDefaultResourcePrefixes |}.

(** [groupResourceOverrides.Apply]: what of a configuration an override has. *)
Definition Apply (o : groupResourceOverrides) (c : BackendConfig * (string * Serializer)) : BackendConfig * (string * Serializer) :=
  let (config, codec) := c in
  ({| backend_Prefix := if bool_decide (etcdPrefix o = "") then backend_Prefix config else etcdPrefix o;
      backend_ServerList := if bool_decide (etcdLocation o = []) then backend_ServerList config else etcdLocation o;
      backend_Codec := backend_Codec config; backend_rest := backend_rest config |},
   (if bool_decide (gro_mediaType o = "") then fst codec else gro_mediaType o, default (snd codec) (gro_serializer o))).

Definition AllResources : string := "*".
Definition getAllResourcesAlias (resource : string * string) : string * string := (fst resource, AllResources).
Definition getStorageGroupResource (s : DefaultStorageFactory) (groupResource : string * string) : string * string :=
  default groupResource (find (AnyVersionOfResourceEnabled (APIResourceConfigSource s))
    (cohabitatingResources (default no_overrides (Overrides s !! groupResource)))).
Definition applied (o : option groupResourceOverrides) (c : BackendConfig * (string * Serializer)) := match o with Some o => Apply o c | None => c end.

Definition NewConfig (s : DefaultStorageFactory) (groupResource : string * string) : BackendConfig + error :=
  let chosenStorageResource := getStorageGroupResource s groupResource in
  let (storageConfig, codec) := applied (Overrides s !! chosenStorageResource)
    (applied (Overrides s !! getAllResourcesAlias chosenStorageResource) (StorageConfig s, (DefaultMediaType s, DefaultSerializer s))) in
  match StorageEncodingFor (ResourceEncodingConfig s) chosenStorageResource with
  | inr err => inr err
  | inl storageVersion =>
      match InMemoryEncodingFor (ResourceEncodingConfig s) groupResource with
      | inr err => inr err
      | inl memoryVersion =>
          match newStorageCodecFn {| StorageMediaType := fst codec; StorageSerializer := snd codec; codec_StorageVersion := storageVersion;
                                     codec_MemoryVersion := memoryVersion; codec_Config := storageConfig |} with
          | inr err => inr err
          | inl c => inl {| backend_Prefix := backend_Prefix storageConfig; backend_ServerList := backend_ServerList storageConfig;
                            backend_Codec := Some c; backend_rest := backend_rest storageConfig |}
          end
      end
  end.
Definition StorageFactory_ResourcePrefix (s : DefaultStorageFactory) (groupResource : string * string) : string :=
  let chosenStorageResource := getStorageGroupResource s groupResource in
  let groupOverride := default no_overrides (Overrides s !! getAllResourcesAlias chosenStorageResource) in
  let exactResourceOverride := default no_overrides (Overrides s !! chosenStorageResource) in
  let prefix := default "" (DefaultResourcePrefixes s !! chosenStorageResource) in
  let prefix := if bool_decide (etcdResourcePrefix groupOverride = "") then prefix else etcdResourcePrefix groupOverride in
  let prefix := if bool_decide (etcdResourcePrefix exactResourceOverride = "") then prefix else etcdResourcePrefix exactResourceOverride in
  if bool_decide (prefix = "") then ToLower (snd chosenStorageResource) else prefix.

Definition NewStorageFactory (storageConfig : BackendConfig) (defaultMediaType : string) (serializer : Serializer)
    (defaultResourceEncoding : DefaultResourceEncodingConfig) (storageEncodingOverrides : gmap string GroupVersion)
    (resourceEncodingOverrides : list GroupVersionResource) (defaultAPIResourceConfig : ResourceConfig)
    (resourceConfigOverrides : gmap string string) : DefaultStorageFactory + error :=
  let resourceEncodingConfig := mergeGroupEncodingConfigs defaultResourceEncoding storageEncodingOverrides in
  let resourceEncodingConfig := mergeResourceEncodingConfigs resourceEncodingConfig resourceEncodingOverrides in
  match mergeAPIResourceConfigs Registry defaultAPIResourceConfig resourceConfigOverrides with
  | inr err => inr err
  | inl apiResourceConfig => inl (NewDefaultStorageFactory storageConfig defaultMediaType serializer resourceEncodingConfig apiResourceConfig)
  end.

(** ** REST options *)

Record RESTOptions := {
  ro_StorageConfig : BackendConfig; ro_Decorator : string; ro_DeleteCollectionWorkers : Z; ro_EnableGarbageCollection : bool; ro_ResourcePrefix : string }.
Record etcdRESTOptionsFactory := {
  rof_deleteCollectionWorkers : Z; rof_enableGarbageCollection : bool; rof_storageFactory : DefaultStorageFactory; rof_storageDecorator : string }.
Definition etcdRESTOptionsFactory_GetRESTOptions (f : etcdRESTOptionsFactory) (resource : string * string) : RESTOptions + error :=
  match NewConfig (rof_storageFactory f) resource with
  | inr err => inr err
  | inl storageConfig =>
      inl {| ro_StorageConfig := storageConfig; ro_Decorator := rof_storageDecorator f; ro_DeleteCollectionWorkers := rof_deleteCollectionWorkers f;
             ro_EnableGarbageCollection := rof_enableGarbageCollection f; ro_ResourcePrefix := StorageFactory_ResourcePrefix (rof_storageFactory f) resource |}
  end.

(** ** The server *)

Context {C : Environment.Config} {MV : MetaValidation} {Sem : Semantic}.

Record APIGroupInfo := { agi_GroupVersion : GroupVersion; VersionedResourcesStorageMap : gmap string (list (string * rest_Storage)) }.

Record RESTStorageProvider := {
  GroupName : string;
  NewRESTStorage : ResourceConfig -> etcdRESTOptionsFactory -> Startup (APIGroupInfo + ProviderError) }.

(** It looks at neither argument but for the REST options. *)
Definition StorageProvider_NewRESTStorage (sType : StorageType) (apiResourceConfigSource : ResourceConfig) (restOptionsGetter : etcdRESTOptionsFactory) :
    Startup (APIGroupInfo + ProviderError) :=
  match v1alpha1Storage sType (fun resource =>
          match etcdRESTOptionsFactory_GetRESTOptions restOptionsGetter ("servicecatalog.k8s.io", resource) with
          | inl o => inl (ro_ResourcePrefix o) | inr err => inr err end) with
  | inr err => Started (inr (OtherError err))
  | inl None => Exited
  | inl (Some storage) =>
      Started (inl {| agi_GroupVersion := v1alpha1_version; VersionedResourcesStorageMap := {[ gv_Version v1alpha1_version := storage ]} |})
  end.
Definition restStorageProviders (sType : StorageType) : list RESTStorageProvider :=
  [{| GroupName := "servicecatalog.k8s.io"; NewRESTStorage := StorageProvider_NewRESTStorage sType |}].

(** The generic server: its configuration, how it is completed and made, and
    how it installs an API group. *)
Context {GenericConfig GenericServer : Type} (completeGenericConfig : GenericConfig -> GenericConfig)
  (createSkeletonServer : GenericConfig -> GenericServer + error) (InstallAPIGroup : APIGroupInfo -> GenericServer -> GenericServer + error).

Record etcdConfig := { genericConfig : GenericConfig; deleteCollectionWorkers : Z; storageFactory : DefaultStorageFactory }.
Definition NewEtcdConfig (genCfg : GenericConfig) (deleteCollWorkers : Z) (factory : DefaultStorageFactory) : etcdConfig :=
  {| genericConfig := genCfg; deleteCollectionWorkers := deleteCollWorkers; storageFactory := factory |}.
Record completedEtcdConfig := { completed : etcdConfig; apiResourceConfigSource : ResourceConfig }.
Definition Complete (c : etcdConfig) : completedEtcdConfig :=
  {| completed := {| genericConfig := completeGenericConfig (genericConfig c); deleteCollectionWorkers := deleteCollectionWorkers c; storageFactory := storageFactory c |};
     apiResourceConfigSource := DefaultAPIResourceConfigSource |}.

(** A disabled group is skipped; one that cannot be installed ends the process. *)
Fixpoint install_groups (source : ResourceConfig) (roFactory : etcdRESTOptionsFactory) (providers : list RESTStorageProvider) (s : GenericServer) :
    Startup GenericServer :=
  match providers with
  | [] => Started s
  | provider :: providers' =>
      match NewRESTStorage provider source roFactory with
      | Exited => Exited
      | StartError err => StartError err
      | Started (inr err) =>
          if IsErrAPIGroupDisabled err then install_groups source roFactory providers' s else StartError (ProviderError_error err)
      | Started (inl groupInfo) =>
          match InstallAPIGroup groupInfo s with
          | inl s => install_groups source roFactory providers' s
          | inr _ => Exited
          end
      end
  end.
Definition NewServer (c : completedEtcdConfig) : Startup GenericServer :=
  match createSkeletonServer (genericConfig (completed c)) with
  | inr err => StartError err
  | inl s =>
      let roFactory := {| rof_deleteCollectionWorkers := deleteCollectionWorkers (completed c); rof_enableGarbageCollection := true;
                          rof_storageFactory := storageFactory (completed c); rof_storageDecorator := "UndecoratedStorage" |} in
      install_groups (apiResourceConfigSource c) roFactory (restStorageProviders StorageTypeEtcd) s
  end.

(** The part of [runEtcdServer] that makes the server. *)
Definition runEtcdServer (storageConfig : BackendConfig) (defaultStorageMediaType : string) (Codecs : Serializer) (genCfg : GenericConfig) : Startup GenericServer :=
  match StorageGroupsToEncodingVersion (NewStorageSerializationOptions Registry) with
  | inr err => StartError (PlainError ("error generating storage version map: " +:+ Error err))
  | inl storageGroupsToEncodingVersion =>
      match NewStorageFactory storageConfig defaultStorageMediaType Codecs (NewDefaultResourceEncodingConfig Registry)
              storageGroupsToEncodingVersion [] DefaultAPIResourceConfigSource ∅ with
      | inr err => StartError err
      | inl factory =>
          match NewServer (Complete (NewEtcdConfig genCfg 0 factory)) with
          | StartError err => StartError (PlainError ("error completing API server configuration: " +:+ Error err))
          | s => s
          end
      end
  end.
End factory.
Arguments BackendConfig Rest Codec : clear implicits.
Arguments StorageCodecConfig Rest Codec Serializer : clear implicits.
Arguments DefaultStorageFactory Rest Codec Serializer : clear implicits.

(** ** The overrides of the command line, whatever the order of their keys *)

Section overrides.
Context (registry : APIRegistrationManager) (overrides : gmap string string).
(** The version of the legacy group has two names. *)
Context (Hlegacy : {| gv_Group := ""; gv_Version := "v1" |} ∉ registeredVersions registry).
Implicit Types (key : string) (keys : list string) (cfg : ResourceConfig) (gv : GroupVersion).

Definition version_key gv : string := sprint [gv_Group gv; "/"; gv_Version gv].
Definition resource_key gv (r : string) : string := sprint [gv_Group gv; "/"; gv_Version gv; "/"; r].

Definition flag_value (v : string) : option bool :=
  if bool_decide (v = "") then Some true else match ParseBool v with inl b => Some b | inr _ => None end.
Definition flag key : option bool := overrides !! key ≫= flag_value.

(** The version, or the resource, a key is about: nothing inside if it is not
    one that is registered. *)
Definition version_of_key key : option (option GroupVersion) :=
  if bool_decide (key = "api/all") || bool_decide (key = "api/legacy") then None
  else match split_on [47]%nat key with
       | [a; b] => Some match key_version registry key a b with inl gv => Some gv | inr _ => None end
       | _ => None
       end.
Definition resource_of_key key : option (option (GroupVersion * string)) :=
  match split_on [47]%nat key with
  | [a; b; r] => Some match key_version registry key a b with inl gv => Some (gv, r) | inr _ => None end
  | _ => None
  end.
Definition good_version_key key : Prop :=
  match version_of_key key with None => True | Some None => False | Some (Some _) => is_Some (flag key) end.
Definition good_resource_key (enabled : GroupVersion -> bool) key : Prop :=
  match resource_of_key key with None => True | Some None => False | Some (Some (gv, _)) => enabled gv = true /\ is_Some (flag key) end.

(** What the keys of a list say about a version, and about a resource. *)
Definition version_flag keys gv : option bool :=
  if decide (version_key gv ∈ keys /\ version_of_key (version_key gv) = Some (Some gv)) then flag (version_key gv) else None.
Definition resource_flag keys gv r : option bool :=
  if decide (resource_key gv r ∈ keys /\ resource_of_key (resource_key gv r) = Some (Some (gv, r))) then flag (resource_key gv r) else None.

(** *** Keys *)

Lemma split_join key : Join "/" (split_on [47]%nat key) = key.
Proof.
  induction key as [|c s IH]; [done|]. cbn [split_on existsb]. rewrite orb_false_r. destruct (is_char 47 c) eqn:E.
  - destruct (split_on [47]%nat s) as [|h t] eqn:Es; [destruct s; cbn in Es; [done|]; by destruct (is_char 47 a || false), (split_on _ s)|].
    apply Nat.eqb_eq in E. assert (c = char 47) as -> by (rewrite <- (Ascii.ascii_nat_embedding c); unfold code in E; by rewrite E).
    by rewrite <- IH.
  - destruct (split_on [47]%nat s) as [|h t]; [by rewrite <- IH|]. rewrite <- IH. by destruct t.
Qed.
Lemma split_two key a b : split_on [47]%nat key = [a; b] -> key = sprint [a; "/"; b].
Proof. intros Hs. rewrite <- (split_join key), Hs. cbn. by rewrite sapp_nil. Qed.
Lemma split_three key a b r : split_on [47]%nat key = [a; b; r] -> key = sprint [a; "/"; b; "/"; r].
Proof. intros Hs. rewrite <- (split_join key), Hs. cbn. by rewrite sapp_nil. Qed.

Lemma split_tokens key t : t ∈ split_on [47]%nat key -> no_slash t.
Proof.
  revert t. induction key as [|c s IH]; intros t; cbn [split_on existsb]; [by intros ->%list_elem_of_singleton|].
  rewrite orb_false_r. destruct (is_char 47 c) eqn:E.
  - intros [->|Ht]%elem_of_cons; [done|by apply IH].
  - assert (forall u, no_slash u -> no_slash (String c u)) as Hc.
    { intros u Hu. unfold no_slash, slash in *. cbn [Contains]. unfold is_char in E. rewrite Hu, orb_false_r. exact E. }
    destruct (split_on [47]%nat s) as [|h l]; [by intros ->%list_elem_of_singleton; apply Hc|].
    intros [->|Ht]%elem_of_cons; [apply Hc, IH; left|apply IH; by right].
Qed.
Lemma split_slashed a b : no_slash a -> no_slash b -> split_on [47]%nat (sprint [a; "/"; b]) = [a; b].
Proof.
  intros Ha Hb. cbn [sprint]. rewrite sapp_nil, (split_segment a) by done.
  change (split_on [47]%nat ("/" +:+ b)) with ("" :: split_on [47]%nat b).
  rewrite <- (sapp_nil b) at 1. rewrite (split_segment b) by done. cbn. by rewrite !sapp_nil.
Qed.

(** A key that names a registered version is the text of that version. *)
Lemma key_version_text key a b gv : no_slash a -> no_slash b -> key_version registry key a b = inl gv ->
  gv = {| gv_Group := a; gv_Version := b |} /\ gv ∈ registeredVersions registry.
Proof.
  intros Ha Hb. unfold key_version. destruct (ParseGroupVersion _) as [gv'|] eqn:Hp; [|done]. unfold IsRegisteredVersion. case_bool_decide as Hr; [|done].
  cbn. intros [= <-]. split; [|done]. unfold groupVersionString in Hp. case_bool_decide as Hv; [vm_compute in Hp; by injection Hp as <-|].
  unfold ParseGroupVersion in Hp. rewrite split_slashed in Hp by done.
  destruct (bool_decide (sprint [a; "/"; b] = "")) eqn:H1; [apply bool_decide_eq_true in H1; by destruct a|].
  destruct (bool_decide (sprint [a; "/"; b] = "/")) eqn:H2; [|by injection Hp as <-].
  apply bool_decide_eq_true in H2. injection Hp as <-. destruct a as [|x a]; [by destruct b|]. by destruct a.
Qed.

Lemma version_of_key_text key gv : version_of_key key = Some (Some gv) -> key = version_key gv.
Proof.
  unfold version_of_key. destruct (_ || _); [done|]. destruct (split_on [47]%nat key) as [|a [|b [|]]] eqn:Hs; try done. intros [= Hk].
  destruct (key_version registry key a b) as [gv'|] eqn:Hv; [|done]. injection Hk as ->.
  apply key_version_text in Hv as [-> _]; [by apply split_two|eapply split_tokens; rewrite Hs; repeat constructor..].
Qed.
Lemma resource_of_key_text key gv r : resource_of_key key = Some (Some (gv, r)) -> key = resource_key gv r.
Proof.
  unfold resource_of_key. destruct (split_on [47]%nat key) as [|a [|b [|r' [|]]]] eqn:Hs; try done. intros [= Hk].
  destruct (key_version registry key a b) as [gv'|] eqn:Hv; [|done]. injection Hk as -> ->.
  apply key_version_text in Hv as [-> _]; [by apply split_three|eapply split_tokens; rewrite Hs; repeat constructor..].
Qed.

Lemma getRuntimeConfigValue_flag key : is_Some (overrides !! key) ->
  match flag key with
  | Some b => getRuntimeConfigValue overrides key false = inl b
  | None => exists err, getRuntimeConfigValue overrides key false = inr err
  end.
Proof.
  intros [v Hv]. unfold flag, getRuntimeConfigValue. rewrite Hv. cbn. unfold flag_value. case_bool_decide; [done|].
  destruct (ParseBool v); [done|by eexists].
Qed.

(** *** The flags a list of keys gives *)

Lemma version_flag_here key keys gv : version_of_key key = Some (Some gv) -> version_flag (key :: keys) gv = flag key.
Proof.
  intros Hk. pose proof Hk as ->%version_of_key_text. unfold version_flag. rewrite decide_True; [done|]. split; [left|done].
Qed.
Lemma version_flag_cons key keys gv : version_of_key key <> Some (Some gv) -> version_flag (key :: keys) gv = version_flag keys gv.
Proof.
  intros Hk. unfold version_flag. apply decide_ext. rewrite elem_of_cons. split; [|naive_solver]. intros [[<-|?] ?]; [done|]. done.
Qed.
Lemma version_flag_absent key keys gv : version_of_key key = Some (Some gv) -> key ∉ keys -> version_flag keys gv = None.
Proof. intros ->%version_of_key_text Hn. unfold version_flag. by rewrite decide_False by naive_solver. Qed.

Lemma resource_flag_here key keys gv r : resource_of_key key = Some (Some (gv, r)) -> resource_flag (key :: keys) gv r = flag key.
Proof.
  intros Hk. pose proof Hk as ->%resource_of_key_text. unfold resource_flag. rewrite decide_True; [done|]. split; [left|done].
Qed.
Lemma resource_flag_cons key keys gv r : resource_of_key key <> Some (Some (gv, r)) -> resource_flag (key :: keys) gv r = resource_flag keys gv r.
Proof.
  intros Hk. unfold resource_flag. apply decide_ext. rewrite elem_of_cons. split; [|naive_solver]. intros [[<-|?] ?]; [done|]. done.
Qed.
Lemma resource_flag_absent key keys gv r : resource_of_key key = Some (Some (gv, r)) -> key ∉ keys -> resource_flag keys gv r = None.
Proof. intros ->%resource_of_key_text Hn. unfold resource_flag. by rewrite decide_False by naive_solver. Qed.

(** *** The loop over versions *)

Lemma merge_version_step key keys cfg : is_Some (overrides !! key) ->
  match version_of_key key with
  | None => merge_version_keys registry overrides (key :: keys) cfg = merge_version_keys registry overrides keys cfg
  | Some None => exists err, merge_version_keys registry overrides (key :: keys) cfg = inr err
  | Some (Some gv) =>
      match flag key with
      | Some b => merge_version_keys registry overrides (key :: keys) cfg =
                  merge_version_keys registry overrides keys (<[gv := set_enable b (config_of cfg gv)]> cfg)
      | None => exists err, merge_version_keys registry overrides (key :: keys) cfg = inr err
      end
  end.
Proof.
  intros Hs. pose proof (getRuntimeConfigValue_flag key Hs) as Hf. unfold version_of_key. cbn [merge_version_keys].
  destruct (bool_decide (key = "api/all") || bool_decide (key = "api/legacy")); [done|].
  destruct (split_on [47]%nat key) as [|a [|b [|]]]; try done. destruct (key_version registry key a b) as [gv|err]; [|by eexists].
  destruct (flag key) as [[]|]; [by rewrite Hf..|]. destruct Hf as [err ->]. by eexists.
Qed.

Lemma merge_version_keys_exact keys cfg : NoDup keys -> (forall key, key ∈ keys -> is_Some (overrides !! key)) ->
  match merge_version_keys registry overrides keys cfg with
  | inl cfg' => (forall key, key ∈ keys -> good_version_key key) /\
      forall gv, cfg' !! gv = match version_flag keys gv with Some b => Some (set_enable b (config_of cfg gv)) | None => cfg !! gv end
  | inr _ => exists key, key ∈ keys /\ ~ good_version_key key
  end.
Proof.
  revert cfg. induction keys as [|key keys IH]; intros cfg Hnd Hs; [by split; [intros key ?%not_elem_of_nil|]|].
  apply list.NoDup_cons in Hnd as [Hin Hnd]. specialize (IH) with (1 := Hnd) (2 := fun k Hk => Hs k (list_elem_of_further _ _ _ Hk)).
  pose proof (merge_version_step key keys cfg (Hs key (list_elem_of_here _ _))) as Hstep.
  assert ((exists k, k ∈ keys /\ ~ good_version_key k) -> exists k, k ∈ key :: keys /\ ~ good_version_key k) as Hmore.
  { intros (k & Hk & Hb). exists k. by split; [right|]. }
  destruct (version_of_key key) as [[gv0|]|] eqn:Hk.
  - assert (good_version_key key <-> is_Some (flag key)) as Hgood by (unfold good_version_key; by rewrite Hk).
    destruct (flag key) as [b|] eqn:Hf.
    + rewrite Hstep. specialize (IH (<[gv0 := set_enable b (config_of cfg gv0)]> cfg)).
      destruct (merge_version_keys _ _ _ _) as [cfg'|err]; [|by apply Hmore]. destruct IH as [Hg IH]. split.
      { intros k [->|Hki]%elem_of_cons; [apply Hgood; by eexists|by apply Hg]. }
      intros gv. rewrite IH. destruct (decide (gv = gv0)) as [->|Hne].
      * rewrite (version_flag_absent key), version_flag_here, Hf by done. by rewrite lookup_insert_eq.
      * rewrite version_flag_cons by congruence. unfold config_of. by rewrite lookup_insert_ne.
    + destruct Hstep as [err ->]. exists key. split; [left|]. rewrite Hgood. by intros [].
  - destruct Hstep as [err ->]. exists key. split; [left|]. unfold good_version_key. rewrite Hk. by intros [].
  - rewrite Hstep. specialize (IH cfg). destruct (merge_version_keys _ _ _ _) as [cfg'|err]; [|by apply Hmore]. destruct IH as [Hg IH]. split.
    { intros k [->|Hki]%elem_of_cons; [unfold good_version_key; by rewrite Hk|by apply Hg]. }
    intros gv. rewrite IH, version_flag_cons; [done|by rewrite Hk].
Qed.

(** *** The loop over resources *)

(** A configuration of a version, and what flags for its resources make of it. *)
Definition overridden (f : string -> option bool) (c c' : option GroupVersionResourceConfig) : Prop :=
  match c, c' with
  | Some c, Some c' =>
      Enable c' = Enable c /\
      (forall r, r ∈ EnabledResources c' <-> r ∈ EnabledResources c \/ f r = Some true) /\
      (forall r, r ∈ DisabledResources c' <-> f r = Some false \/ r ∈ DisabledResources c /\ f r <> Some true)
  | None, None => True
  | _, _ => False
  end.

Lemma overridden_ext (f f' : string -> option bool) c c' : (forall r, f' r = f r) -> overridden f c c' -> overridden f' c c'.
Proof.
  intros Hf Ho. unfold overridden in *. destruct c, c'; try done. destruct Ho as (H1 & H2 & H3).
  split_and!; [done|intros r; rewrite Hf; apply H2|intros r; rewrite Hf; apply H3].
Qed.
Definition override_resource (b : bool) gv r cfg : ResourceConfig := if b then EnableResources gv r cfg else DisableResources gv r cfg.

Lemma merge_resource_step key keys cfg : is_Some (overrides !! key) ->
  match resource_of_key key with
  | None => merge_resource_keys registry overrides (key :: keys) cfg = merge_resource_keys registry overrides keys cfg
  | Some None => exists err, merge_resource_keys registry overrides (key :: keys) cfg = inr err
  | Some (Some (gv, r)) =>
      match (if AnyResourcesForVersionEnabled cfg gv then flag key else None) with
      | Some b => merge_resource_keys registry overrides (key :: keys) cfg = merge_resource_keys registry overrides keys (override_resource b gv r cfg)
      | None => exists err, merge_resource_keys registry overrides (key :: keys) cfg = inr err
      end
  end.
Proof.
  intros Hs. pose proof (getRuntimeConfigValue_flag key Hs) as Hf. unfold resource_of_key. cbn [merge_resource_keys].
  destruct (split_on [47]%nat key) as [|a [|b [|r [|]]]]; try done. destruct (key_version registry key a b) as [gv|err]; [|by eexists].
  destruct (AnyResourcesForVersionEnabled cfg gv); cbn [negb]; [|by eexists].
  destruct (flag key) as [[]|]; [by rewrite Hf..|]. destruct Hf as [err ->]. by eexists.
Qed.

(** One override, and then the rest. *)
Lemma overridden_one gv r b cfg (f f' : string -> option bool) c' : f r = None -> f' r = Some b -> (forall r', r' <> r -> f' r' = f r') ->
  overridden f (override_resource b gv r cfg !! gv) c' -> is_Some (cfg !! gv) -> overridden f' (cfg !! gv) c'.
Proof.
  intros Hf Hf' Hne Ho [c Hc]. assert (override_resource b gv r cfg !! gv = Some (if b then enable_resource r c else disable_resource r c)) as Hl.
  { unfold override_resource, EnableResources, DisableResources, config_of. rewrite Hc. destruct b; by rewrite lookup_insert_eq. }
  rewrite Hl in Ho. rewrite Hc. destruct c' as [c'|]; [|done]. destruct Ho as (He & Hen & Hdis).
  split; [rewrite He; by destruct b|]. split; intros r'; (rewrite Hen || rewrite Hdis); destruct (decide (r' = r)) as [->|Hr'];
    rewrite ?Hf, ?Hf', ?(Hne r' Hr'); destruct b; cbn; set_solver.
Qed.

Lemma enabled_override b gv r cfg gv' : is_Some (cfg !! gv) ->
  AnyResourcesForVersionEnabled (override_resource b gv r cfg) gv' = AnyResourcesForVersionEnabled cfg gv'.
Proof.
  intros [c Hc]. unfold AnyResourcesForVersionEnabled, override_resource, EnableResources, DisableResources, config_of. rewrite Hc.
  destruct (decide (gv' = gv)) as [->|Hne]; destruct b; rewrite ?lookup_insert_eq, ?Hc, ?lookup_insert_ne by done; done.
Qed.
Lemma override_others b gv r cfg gv' : gv' <> gv -> override_resource b gv r cfg !! gv' = cfg !! gv'.
Proof. intros Hne. destruct b; by apply lookup_insert_ne. Qed.

Lemma merge_resource_keys_exact keys cfg : NoDup keys -> (forall key, key ∈ keys -> is_Some (overrides !! key)) ->
  match merge_resource_keys registry overrides keys cfg with
  | inl cfg' => (forall key, key ∈ keys -> good_resource_key (AnyResourcesForVersionEnabled cfg) key) /\
      forall gv, overridden (resource_flag keys gv) (cfg !! gv) (cfg' !! gv)
  | inr _ => exists key, key ∈ keys /\ ~ good_resource_key (AnyResourcesForVersionEnabled cfg) key
  end.
Proof.
  revert cfg. induction keys as [|key keys IH]; intros cfg Hnd Hs.
  { split; [intros key ?%not_elem_of_nil; done|]. intros gv. unfold overridden. cbn [merge_resource_keys]. destruct (cfg !! gv) as [c|]; [|done].
    assert (forall r, resource_flag [] gv r = None) as Hf by (intros r; unfold resource_flag; rewrite decide_False; [done|intros [?%not_elem_of_nil _]; done]).
    split_and!; [done|intros r; rewrite Hf; naive_solver..]. }
  apply list.NoDup_cons in Hnd as [Hin Hnd]. specialize (IH) with (1 := Hnd) (2 := fun k Hk => Hs k (list_elem_of_further _ _ _ Hk)).
  pose proof (merge_resource_step key keys cfg (Hs key (list_elem_of_here _ _))) as Hstep.
  destruct (resource_of_key key) as [[[gv0 r0]|]|] eqn:Hk.
  - assert (good_resource_key (AnyResourcesForVersionEnabled cfg) key <-> AnyResourcesForVersionEnabled cfg gv0 = true /\ is_Some (flag key)) as Hgood
      by (unfold good_resource_key; by rewrite Hk).
    destruct (AnyResourcesForVersionEnabled cfg gv0) eqn:He; [destruct (flag key) as [b|] eqn:Hf|].
    2, 3: destruct Hstep as [err ->]; exists key; split; [left|]; rewrite Hgood; by intros [? []].
    assert (is_Some (cfg !! gv0)) as Hsome by (unfold AnyResourcesForVersionEnabled in He; by destruct (cfg !! gv0)).
    assert (forall k, good_resource_key (AnyResourcesForVersionEnabled (override_resource b gv0 r0 cfg)) k <-> good_resource_key (AnyResourcesForVersionEnabled cfg) k) as Hsame.
    { intros k. unfold good_resource_key. destruct (resource_of_key k) as [[[gv r]|]|]; [|done..]. by rewrite enabled_override. }
    rewrite Hstep. specialize (IH (override_resource b gv0 r0 cfg)).
    destruct (merge_resource_keys _ _ _ _) as [cfg'|err]; [|destruct IH as (k & Hki & Hb); exists k; split; [by right|by rewrite <- Hsame]].
    destruct IH as [Hg IH]. split.
    { intros k [->|Hki]%elem_of_cons; [apply Hgood; by split; [|eexists]|by apply Hsame, Hg]. }
    intros gv. specialize (IH gv). destruct (decide (gv = gv0)) as [->|Hne].
    + eapply overridden_one; [by eapply resource_flag_absent| | |exact IH|done]; [by rewrite resource_flag_here|].
      intros r' Hr'. apply resource_flag_cons. congruence.
    + rewrite override_others in IH by done. eapply overridden_ext; [|exact IH]. intros r. apply resource_flag_cons. congruence.
  - destruct Hstep as [err ->]. exists key. split; [left|]. unfold good_resource_key. rewrite Hk. by intros [].
  - rewrite Hstep. specialize (IH cfg). destruct (merge_resource_keys _ _ _ _) as [cfg'|err]; [|destruct IH as (k & ? & ?); exists k; by split; [right|]].
    destruct IH as [Hg IH]. split.
    { intros k [->|Hki]%elem_of_cons; [unfold good_resource_key; by rewrite Hk|by apply Hg]. }
    intros gv. eapply overridden_ext; [|exact (IH gv)]. intros r. apply resource_flag_cons. by rewrite Hk.
Qed.

(** *** The whole merge *)

(** What the overrides say, wherever their keys are in a range. *)
Definition version_override gv : option bool :=
  if decide (version_of_key (version_key gv) = Some (Some gv)) then flag (version_key gv) else None.
Definition resource_override gv r : option bool :=
  if decide (resource_of_key (resource_key gv r) = Some (Some (gv, r))) then flag (resource_key gv r) else None.

(** The configuration of a version after [api/all] and its own key. *)
Definition version_config default_config gv : option GroupVersionResourceConfig :=
  let cfg := merge_all registry overrides default_config in
  match version_override gv with Some b => Some (set_enable b (config_of cfg gv)) | None => cfg !! gv end.
Definition version_enabled default_config gv : bool := match version_config default_config gv with Some c => Enable c | None => false end.
Definition good_key default_config key : Prop := good_version_key key /\ good_resource_key (version_enabled default_config) key.

Lemma flag_in_keys keys key : (forall k, k ∈ keys <-> is_Some (overrides !! k)) -> key ∉ keys -> flag key = None.
Proof. intros Hk Hn. unfold flag. destruct (overrides !! key) eqn:E; [|done]. destruct Hn. apply Hk. by eexists. Qed.
Lemma version_flag_all keys gv : (forall k, k ∈ keys <-> is_Some (overrides !! k)) -> version_flag keys gv = version_override gv.
Proof.
  intros Hk. unfold version_flag, version_override. destruct (decide (version_key gv ∈ keys)) as [Hin|Hn].
  - apply decide_ext. naive_solver.
  - rewrite (flag_in_keys keys) by done. by repeat case_decide.
Qed.
Lemma resource_flag_all keys gv r : (forall k, k ∈ keys <-> is_Some (overrides !! k)) -> resource_flag keys gv r = resource_override gv r.
Proof.
  intros Hk. unfold resource_flag, resource_override. destruct (decide (resource_key gv r ∈ keys)) as [Hin|Hn].
  - apply decide_ext. naive_solver.
  - rewrite (flag_in_keys keys) by done. by repeat case_decide.
Qed.

Lemma range_keys_all {G : GoMapOrder} : NoDup (range_keys overrides) /\ forall k, k ∈ range_keys overrides <-> is_Some (overrides !! k).
Proof.
  unfold range_keys. rewrite (go_range_all overrides). split; [apply NoDup_fst_map_to_list|]. intros k. rewrite (go_range_all overrides), list_elem_of_fmap. split.
  - intros ([k' v] & -> & Hin%elem_of_map_to_list). by eexists.
  - intros [v Hv]. exists (k, v). split; [done|by apply elem_of_map_to_list].
Qed.

(** The merge of the runtime configuration, whatever the order Go ranges over
    the overrides in: it succeeds exactly when every key names a registered
    version, or a resource of one that ends up enabled, with a flag that can be
    read; then a version is enabled as its own key says, or [api/all], or the
    default, and its resources are those of the default with each override
    applied. *)
Theorem runtime_config_is_exact {G : GoMapOrder} default_config :
  match mergeAPIResourceConfigs registry default_config overrides with
  | inl cfg => (forall key, is_Some (overrides !! key) -> good_key default_config key) /\
      forall gv, overridden (resource_override gv) (version_config default_config gv) (cfg !! gv)
  | inr _ => exists key, is_Some (overrides !! key) /\ ~ good_key default_config key
  end.
Proof.
  destruct (range_keys_all (G := G)) as [Hnd Hin]. unfold mergeAPIResourceConfigs. set (start := merge_all registry overrides default_config).
  pose proof (merge_version_keys_exact (range_keys overrides) start Hnd (fun k => proj1 (Hin k))) as H1.
  destruct (merge_version_keys _ _ _ _) as [cfg1|err]; [|destruct H1 as (k & Hk & Hb); exists k; split; [by apply Hin|by intros [? _]]].
  destruct H1 as [Hg1 H1]. assert (forall gv, cfg1 !! gv = version_config default_config gv) as Hc1.
  { intros gv. rewrite H1, version_flag_all by done. done. }
  pose proof (merge_resource_keys_exact (range_keys overrides) cfg1 Hnd (fun k => proj1 (Hin k))) as H2.
  assert (forall k, good_resource_key (AnyResourcesForVersionEnabled cfg1) k <-> good_resource_key (version_enabled default_config) k) as Hsame.
  { intros k. unfold good_resource_key. destruct (resource_of_key k) as [[[gv r]|]|]; [|done..].
    unfold AnyResourcesForVersionEnabled, version_enabled. by rewrite Hc1. }
  destruct (merge_resource_keys _ _ _ _) as [cfg2|err].
  - destruct H2 as [Hg2 H2]. split; [intros k Hk%Hin; split; [by apply Hg1|by apply Hsame, Hg2]|].
    intros gv. rewrite <- Hc1. eapply overridden_ext; [|exact (H2 gv)]. intros r. symmetry. by apply resource_flag_all.
  - destruct H2 as (k & Hk & Hb). exists k. split; [by apply Hin|]. intros [_ Hg]. by apply Hb, Hsame.
Qed.
End overrides.

Lemma overridden_unique f c c1 c2 : overridden f c c1 -> overridden f c c2 -> c1 = c2.
Proof.
  unfold overridden. destruct c as [c|], c1 as [[e1 d1 n1]|], c2 as [[e2 d2 n2]|]; try done. cbn.
  intros (-> & Hn1 & Hd1) (-> & Hn2 & Hd2). f_equal. f_equal; apply set_eq; set_solver.
Qed.

(** So the order of the keys does not matter. *)
Theorem runtime_config_is_deterministic registry overrides default_config (G1 G2 : GoMapOrder) :
  {| gv_Group := ""; gv_Version := "v1" |} ∉ registeredVersions registry ->
  match mergeAPIResourceConfigs (G := G1) registry default_config overrides, mergeAPIResourceConfigs (G := G2) registry default_config overrides with
  | inl cfg1, inl cfg2 => cfg1 = cfg2
  | inr _, inr _ => True
  | _, _ => False
  end.
Proof.
  intros Hl. pose proof (runtime_config_is_exact registry overrides Hl (G := G1) default_config) as H1.
  pose proof (runtime_config_is_exact registry overrides Hl (G := G2) default_config) as H2.
  destruct (mergeAPIResourceConfigs (G := G1) _ _ _) as [cfg1|], (mergeAPIResourceConfigs (G := G2) _ _ _) as [cfg2|]; [|naive_solver..].
  destruct H1 as [_ H1], H2 as [_ H2]. apply map_eq. intros gv. by eapply overridden_unique.
Qed.

(** ** The server that is started *)

Section started.
Context {G : GoMapOrder} {Rest Codec Serializer GenericConfig GenericServer : Type} {C : Environment.Config} {MV : MetaValidation} {Sem : Semantic}.
Context (newStorageCodecFn : StorageCodecConfig Rest Codec Serializer -> Codec + error).
Context (completeGenericConfig : GenericConfig -> GenericConfig) (createSkeletonServer : GenericConfig -> GenericServer + error)
  (InstallAPIGroup : APIGroupInfo -> GenericServer -> GenericServer + error).

Definition internal_version : GroupVersion := {| gv_Group := "servicecatalog.k8s.io"; gv_Version := APIVersionInternal |}.

(** The storage factory of the server. *)
Definition served_factory (storageConfig : BackendConfig Rest Codec) (mediaType : string) (Codecs : Serializer) : DefaultStorageFactory Rest Codec Serializer :=
  NewDefaultStorageFactory storageConfig mediaType Codecs
    (SetVersionEncoding "servicecatalog.k8s.io" v1alpha1_version internal_version (NewDefaultResourceEncodingConfig Registry)) DefaultAPIResourceConfigSource.

Lemma storage_versions : StorageGroupsToEncodingVersion (NewStorageSerializationOptions Registry) = inl {["servicecatalog.k8s.io" := v1alpha1_version]}.
Proof. vm_compute. reflexivity. Qed.

Lemma range_singleton {V} (k : string) (v : V) : go_range ({[k := v]} : gmap string V) = [(k, v)].
Proof. apply Permutation_singleton_r. rewrite go_range_all. by rewrite map_to_list_singleton. Qed.
Lemma range_empty {V} : go_range (∅ : gmap string V) = [].
Proof. apply Permutation_nil_r. rewrite go_range_all. by rewrite map_to_list_empty. Qed.

Lemma served_factory_is_made storageConfig mediaType Codecs :
  NewStorageFactory storageConfig mediaType Codecs (NewDefaultResourceEncodingConfig Registry) {["servicecatalog.k8s.io" := v1alpha1_version]} []
    DefaultAPIResourceConfigSource ∅ = inl (served_factory storageConfig mediaType Codecs).
Proof.
  unfold NewStorageFactory, mergeGroupEncodingConfigs, mergeAPIResourceConfigs, range_keys. rewrite range_singleton, range_empty. done.
Qed.

(** Every resource of the group is stored as [v1alpha1] and is internal in
    memory, in the media type that was configured, JSON if none. *)
Definition served_codec (storageConfig : BackendConfig Rest Codec) (mediaType : string) (Codecs : Serializer) : StorageCodecConfig Rest Codec Serializer :=
  {| StorageMediaType := if bool_decide (mediaType = "") then "application/json" else mediaType; StorageSerializer := Codecs;
     codec_StorageVersion := v1alpha1_version; codec_MemoryVersion := internal_version; codec_Config := storageConfig |}.

Lemma served_config storageConfig mediaType Codecs resource codec :
  newStorageCodecFn (served_codec storageConfig mediaType Codecs) = inl codec ->
  NewConfig newStorageCodecFn (served_factory storageConfig mediaType Codecs) ("servicecatalog.k8s.io", resource) =
    inl {| backend_Prefix := backend_Prefix storageConfig; backend_ServerList := backend_ServerList storageConfig;
           backend_Codec := Some codec; backend_rest := backend_rest storageConfig |} /\
  StorageFactory_ResourcePrefix (served_factory storageConfig mediaType Codecs) ("servicecatalog.k8s.io", resource) = ToLower resource.
Proof.
  intros Hc. split.
  - unfold NewConfig, served_factory. cbn [NewDefaultStorageFactory Overrides getStorageGroupResource]. rewrite !lookup_empty.
    cbn [applied default DefaultMediaType DefaultSerializer StorageConfig fst snd].
    change (StorageEncodingFor _ _) with (inl v1alpha1_version : GroupVersion + error).
    change (InMemoryEncodingFor _ _) with (inl internal_version : GroupVersion + error). unfold served_codec in Hc. cbn. by rewrite Hc.
  - unfold StorageFactory_ResourcePrefix, getStorageGroupResource, served_factory. cbn [NewDefaultStorageFactory Overrides DefaultResourcePrefixes].
    rewrite !lookup_empty. cbn. assert (specialDefaultResourcePrefixes !! ("servicecatalog.k8s.io", resource) = None) as ->; [|done].
    unfold specialDefaultResourcePrefixes. by rewrite !lookup_insert_ne, lookup_singleton_ne by done.
Qed.

(** The server that is started has one API group, in one version, with the
    routes of [StorageTheorems]; the process ends when they cannot be installed. *)
Theorem the_server_has_the_routes storageConfig mediaType Codecs genCfg codec :
  newStorageCodecFn (served_codec storageConfig mediaType Codecs) = inl codec ->
  runEtcdServer newStorageCodecFn completeGenericConfig createSkeletonServer InstallAPIGroup storageConfig mediaType Codecs genCfg =
  match createSkeletonServer (completeGenericConfig genCfg) with
  | inr err => StartError (PlainError ("error completing API server configuration: " +:+ Error err))
  | inl s =>
      match InstallAPIGroup {| agi_GroupVersion := v1alpha1_version; VersionedResourcesStorageMap := {["v1alpha1" := routes]} |} s with
      | inl s => Started s
      | inr _ => Exited
      end
  end.
Proof.
  intros Hc. unfold runEtcdServer. rewrite storage_versions, served_factory_is_made. unfold NewServer.
  cbn [Complete NewEtcdConfig completed genericConfig storageFactory deleteCollectionWorkers apiResourceConfigSource].
  destruct (createSkeletonServer _) as [s|err]; [|done]. cbn [restStorageProviders install_groups NewRESTStorage].
  unfold StorageProvider_NewRESTStorage.
  assert (forall sType getter, (forall r, getter r = GetRESTOptions r) -> v1alpha1Storage sType getter = v1alpha1Storage sType GetRESTOptions) as Hext.
  { intros sType getter Hg. unfold v1alpha1Storage. by rewrite !Hg. }
  rewrite Hext.
  - destruct routes_table as (? & ? & ? & ? & ? & ? & ? & ? & ? & _ & _ & _ & _ & _ & -> & _). cbn.
    by destruct (InstallAPIGroup _ s).
  - intros r. unfold etcdRESTOptionsFactory_GetRESTOptions. cbn [rof_storageFactory].
    destruct (served_config storageConfig mediaType Codecs r codec Hc) as [-> Hp]. cbn [ro_ResourcePrefix]. by rewrite Hp.
Qed.
End started.

(** *** What the overrides cannot do *)

(** The provider promises to report a group that is disabled; it never looks. *)
Lemma disabled_group_is_installed {Rest Codec Serializer : Type} {C : Environment.Config} {MV : MetaValidation} {Sem : Semantic}
    (newStorageCodecFn : StorageCodecConfig Rest Codec Serializer -> Codec + error) sType source1 source2 restOptionsGetter :
  StorageProvider_NewRESTStorage newStorageCodecFn sType source1 restOptionsGetter =
  StorageProvider_NewRESTStorage newStorageCodecFn sType source2 restOptionsGetter.
Proof. reflexivity. Qed.

(** Enabling one resource disables those that are not named. *)
Example enabling_disables_the_rest :
  match merge_resource_keys Registry {["servicecatalog.k8s.io/v1alpha1/serviceplans" := "true"]} ["servicecatalog.k8s.io/v1alpha1/serviceplans"]
          DefaultAPIResourceConfigSource with
  | inl cfg => ResourceEnabled cfg v1alpha1_version "serviceplans" = true /\ ResourceEnabled cfg v1alpha1_version "serviceclasses" = false
  | inr _ => False
  end.
Proof. vm_compute. by split. Qed.
