(* ===== verification/ControllerManager.v ===== *)
(** * The controller manager

    The start of the controllers: the default options
    ([cmd/controller-manager/app/options/options.go]), the clients they get
    ([pkg/controller/client_builder.go]), the discovery of the API they need, the
    controller with its listers, event handlers and workers ([NewController] and
    [Run] of [pkg/controller/controller.go]), and how
    [cmd/controller-manager/app/controller_manager.go] puts them together.
    Discovery, the core client and the leader election are parameters; flags and
    the debugging server are left out.  A process that runs on after it started
    is described by what it runs. *)

From stdpp Require Import gmap strings list.
From S2P Require Import Prelude Types Conditions Environment WorkQueue ControllerCommon InstanceController BindingController BrokerController.
From S2P Require Import RestClient Clientset Cache Listers Informers InformerTheorems ServerConfig.

(** ** Options *)

(** Durations are in nanoseconds. *)
Definition Second : Z := 1000000000.
Definition Minute : Z := 60 * Second.
Definition Hour : Z := 60 * Minute.

Record LeaderElectionConfiguration := {
  LeaderElect : bool; LeaseDuration : Z; RenewDeadline : Z; RetryPeriod : Z; ResourceLock : string }.
Definition DefaultLeaderElectionConfiguration : LeaderElectionConfiguration :=
  {| LeaderElect := false; LeaseDuration := 15 * Second; RenewDeadline := 10 * Second; RetryPeriod := 2 * Second;
     ResourceLock := "endpoints" |}.

(** The rates of the core client ([KubeAPIQPS], [KubeAPIBurst]) are never set. *)
Record ControllerManagerConfiguration := {
  Address : string; Port : Z; ContentType : string;
  K8sAPIServerURL : string; K8sKubeconfigPath : string;
  ServiceCatalogAPIServerURL : string; ServiceCatalogKubeconfigPath : string; ServiceCatalogInsecureSkipVerify : bool;
  ResyncInterval : Z; ServiceBrokerRelistInterval : Z; OSBAPIContextProfile : bool; OSBAPIPreferredVersion : string;
  ConcurrentSyncs : nat; LeaderElection : LeaderElectionConfiguration; LeaderElectionNamespace : string;
  EnableProfiling : bool; EnableContentionProfiling : bool; ReconciliationRetryDuration : Z }.

Definition NewControllerManagerServer : ControllerManagerConfiguration :=
  {| Address := "0.0.0.0"; Port := 10000; ContentType := "application/json";
     K8sAPIServerURL := ""; K8sKubeconfigPath := "./kubeconfig";
     ServiceCatalogAPIServerURL := ""; ServiceCatalogKubeconfigPath := "./service-catalog-kubeconfig";
     ServiceCatalogInsecureSkipVerify := false;
     ResyncInterval := 5 * Minute; ServiceBrokerRelistInterval := 24 * Hour; OSBAPIContextProfile := true;
     OSBAPIPreferredVersion := "2.12"; ConcurrentSyncs := 5%nat;
     LeaderElection :=
       let d := DefaultLeaderElectionConfiguration in
       {| LeaderElect := true; LeaseDuration := LeaseDuration d; RenewDeadline := RenewDeadline d; RetryPeriod := RetryPeriod d;
          ResourceLock := ResourceLock d |};
     LeaderElectionNamespace := "kube-system"; EnableProfiling := true; EnableContentionProfiling := false;
     ReconciliationRetryDuration := 7 * 24 * Hour |}.

(** ** Clients *)

Section manager.
Context {G : GoMapOrder} {W : Type} {T : Transport W} {DiscoveryClient : Type}.
Context (DefaultKubernetesUserAgent : string) (RESTClientFor : Clientset.Config -> RESTClient + error)
  (NewDiscoveryClientForConfig : Clientset.Config -> DiscoveryClient + error) (NewTokenBucketRateLimiter : Z -> Z -> string)
  (IsProbableEOF : error -> bool).
Notation Clients := (@Clientset.Clientset DiscoveryClient).
Notation Factory := (@SharedInformerFactory W Clients).
Notation Informer := (@SharedIndexInformer W).

(** Without a result the process is ended by [glog.Fatal]. *)
Record ClientBuilder := {
  cb_Config : string -> Clientset.Config + error; cb_ConfigOrDie : string -> option Clientset.Config;
  cb_Client : string -> Clients + error; cb_ClientOrDie : string -> option Clients }.

Definition AddUserAgent (config : Clientset.Config) (userAgent : string) : Clientset.Config :=
  {| cfg_GroupVersion := cfg_GroupVersion config; cfg_APIPath := cfg_APIPath config;
     cfg_UserAgent := sprint [DefaultKubernetesUserAgent; "/"; userAgent];
     cfg_NegotiatedSerializer := cfg_NegotiatedSerializer config; cfg_RateLimiter := cfg_RateLimiter config;
     cfg_QPS := cfg_QPS config; cfg_Burst := cfg_Burst config |}.

Definition SimpleClientBuilder_Config (ClientConfig : Clientset.Config) (name : string) : Clientset.Config + error :=
  inl (AddUserAgent ClientConfig name).
Definition SimpleClientBuilder_ConfigOrDie (ClientConfig : Clientset.Config) (name : string) : option Clientset.Config :=
  match SimpleClientBuilder_Config ClientConfig name with inl clientConfig => Some clientConfig | inr _ => None end.
Definition SimpleClientBuilder_Client (ClientConfig : Clientset.Config) (name : string) : Clients + error :=
  match SimpleClientBuilder_Config ClientConfig name with
  | inr err => inr err
  | inl clientConfig =>
      Clientset_NewForConfig DefaultKubernetesUserAgent RESTClientFor NewDiscoveryClientForConfig NewTokenBucketRateLimiter clientConfig
  end.
Definition SimpleClientBuilder_ClientOrDie (ClientConfig : Clientset.Config) (name : string) : option Clients :=
  match SimpleClientBuilder_Client ClientConfig name with inl client => Some client | inr _ => None end.
Definition SimpleClientBuilder (ClientConfig : Clientset.Config) : ClientBuilder :=
  {| cb_Config := SimpleClientBuilder_Config ClientConfig; cb_ConfigOrDie := SimpleClientBuilder_ConfigOrDie ClientConfig;
     cb_Client := SimpleClientBuilder_Client ClientConfig; cb_ClientOrDie := SimpleClientBuilder_ClientOrDie ClientConfig |}.

(** ** Discovery *)

(** [metav1.APIResourceList], as far as it is looked at. *)
Record APIResourceList := { arl_GroupVersion : string; arl_APIResources : list string }.
Context (ServerResources : DiscoveryClient -> W -> (list APIResourceList + error) * W).

Definition controllerManagerAgentName : string := "service-catalog-controller-manager".
Definition controllerDiscoveryAgentName : string := "service-catalog-controller-discovery".
Definition catalogGVR : GroupVersionResource :=
  {| gvr_Group := "servicecatalog.k8s.io"; gvr_Version := "v1alpha1"; gvr_Resource := "clusterservicebrokers" |}.

Definition WithResource (version : GroupVersion) (resource : string) : GroupVersionResource :=
  {| gvr_Group := gv_Group version; gvr_Version := gv_Version version; gvr_Resource := resource |}.

(** The map of the resources, by its keys: every value is true. *)
Fixpoint collect_resources (resourceMap : list APIResourceList) (allResources : gset GroupVersionResource) :
    gset GroupVersionResource + error :=
  match resourceMap with
  | [] => inl allResources
  | l :: resourceMap' =>
      match ParseGroupVersion (arl_GroupVersion l) with
      | inr err => inr err
      | inl version => collect_resources resourceMap' (allResources ∪ list_to_set (map (WithResource version) (arl_APIResources l)))
      end
  end.

Definition ErrWaitTimeout : error := PlainError "timed out waiting for the condition".

(** The poll tries as often as there is time, once at least; a client that cannot
    be made now cannot be made later, as only the configuration decides. *)
Definition getAvailableResources (clientBuilder : ClientBuilder) (w : W) : (gset GroupVersionResource + error) * W :=
  match cb_Client clientBuilder controllerDiscoveryAgentName with
  | inr _ => (inr (PlainError ("failed to get api versions from server: " +:+ Error ErrWaitTimeout)), w)
  | inl client =>
      match ServerResources (clientset_Discovery client) w with
      | (inr err, w) => (inr (PlainError ("failed to get supported resources from server: " +:+ Error err)), w)
      | (inl resourceMap, w) => (collect_resources resourceMap ∅, w)
      end
  end.

(** What [%q] prints for a structure, and [%#v] for the map of resources. *)
Definition quoted_resource (r : GroupVersionResource) : string :=
  sprint ["{"; quote (gvr_Group r); " "; quote (gvr_Version r); " "; quote (gvr_Resource r); "}"].
Context (fmt_resources : gset GroupVersionResource -> string).

(** The health check. *)
Definition checkAPIAvailableResources_Check (clientBuilder : ClientBuilder) (w : W) : option error * W :=
  match getAvailableResources clientBuilder w with
  | (inr err, w) => (Some err, w)
  | (inl availableResources, w) =>
      if bool_decide (catalogGVR ∈ availableResources) then (None, w)
      else (Some (PlainError (sprint ["failed to get API GroupVersion "; quoted_resource catalogGVR;
                                      "; found: "; fmt_resources availableResources])), w)
  end.

(** ** The controller *)

Context {CW : Type} {E : Env CW} {C : Environment.Config}.
Context (GetIndexer : forall A : Type, Informer -> Cache A).
Local Notation M := (M CW Effect).

Record ResourceEventHandlerFuncs (A : Type) := {
  AddFunc : A -> M unit; UpdateFunc : A -> A -> M unit; DeleteFunc : A -> M unit }.

(** The handlers that were added to informers, by the type of their objects. *)
Inductive EventHandler :=
  | BrokerHandler (h : ResourceEventHandlerFuncs ClusterServiceBroker)
  | ServiceClassHandler (h : ResourceEventHandlerFuncs ServiceClass)
  | ServicePlanHandler (h : ResourceEventHandlerFuncs ServicePlan)
  | InstanceHandler (h : ResourceEventHandlerFuncs ServiceInstance)
  | BindingHandler (h : ResourceEventHandlerFuncs ServiceInstanceCredential).

(** The controller, its listers and queues; [Env] stands for what it calls. *)
Record controller := {
  brokerLister : clusterServiceBrokerLister; serviceClassLister_ : serviceClassLister; instanceLister : serviceInstanceLister;
  bindingLister : serviceInstanceCredentialLister; servicePlanLister_ : servicePlanLister;
  brokerRelistInterval : Z; ctrl_OSBAPIPreferredVersion : string; ctrl_reconciliationRetryDuration : Z;
  brokerQueue : RateLimiter; serviceClassQueue : RateLimiter; servicePlanQueue : RateLimiter; instanceQueue : RateLimiter;
  bindingQueue : RateLimiter; pollingQueue : RateLimiter }.

(** The informers belong to the factory; what is added to one is recorded with
    it, in order. *)
Definition NewController (relistInterval : Z) (preferredVersion : string) (retryDuration : Z) (f : Factory) :
    controller * list (Informer * EventHandler) * Factory :=
  let (broker, f) := clusterServiceBrokerInformer_Informer IsProbableEOF f in
  let (brokers, f) := clusterServiceBrokerInformer_Lister IsProbableEOF GetIndexer f in
  let (class, f) := serviceClassInformer_Informer IsProbableEOF f in
  let (classes, f) := serviceClassInformer_Lister IsProbableEOF GetIndexer f in
  let (plan, f) := servicePlanInformer_Informer IsProbableEOF f in
  let (plans, f) := servicePlanInformer_Lister IsProbableEOF GetIndexer f in
  let (inst, f) := serviceInstanceInformer_Informer IsProbableEOF f in
  let (insts, f) := serviceInstanceInformer_Lister IsProbableEOF GetIndexer f in
  let (binding, f) := serviceInstanceCredentialInformer_Informer IsProbableEOF f in
  let (bindings, f) := serviceInstanceCredentialInformer_Lister IsProbableEOF GetIndexer f in
  ({| brokerLister := brokers; serviceClassLister_ := classes; instanceLister := insts; bindingLister := bindings;
      servicePlanLister_ := plans; brokerRelistInterval := relistInterval; ctrl_OSBAPIPreferredVersion := preferredVersion;
      ctrl_reconciliationRetryDuration := retryDuration;
      brokerQueue := DefaultControllerRateLimiter; serviceClassQueue := DefaultControllerRateLimiter;
      servicePlanQueue := DefaultControllerRateLimiter; instanceQueue := DefaultControllerRateLimiter;
      bindingQueue := DefaultControllerRateLimiter; pollingQueue := pollingRateLimiter |},
   [(broker, BrokerHandler {| AddFunc := brokerAdd; UpdateFunc := brokerUpdate; DeleteFunc := brokerDelete |});
    (class, ServiceClassHandler {| AddFunc := serviceClassAdd; UpdateFunc := serviceClassUpdate; DeleteFunc := serviceClassDelete |});
    (plan, ServicePlanHandler {| AddFunc := servicePlanAdd; UpdateFunc := servicePlanUpdate; DeleteFunc := servicePlanDelete |});
    (inst, InstanceHandler {| AddFunc := instanceAdd; UpdateFunc := instanceUpdate; DeleteFunc := instanceDelete |});
    (binding, BindingHandler {| AddFunc := bindingAdd; UpdateFunc := bindingUpdate; DeleteFunc := bindingDelete |})], f).

(** A worker, as [createWorker] starts it: [worker] of [WorkQueue] runs it. *)
Record Worker := {
  wk_queue : RateLimiter; wk_resourceType : string; wk_maxRetries : Z; wk_forgetAfterSuccess : bool; wk_reconciler : string -> M unit }.

(** The workers of one round of the loop. *)
Definition workers_of (c : controller) : list Worker :=
  [{| wk_queue := brokerQueue c; wk_resourceType := "ClusterServiceBroker"; wk_maxRetries := Conditions.maxRetries;
      wk_forgetAfterSuccess := true; wk_reconciler := reconcileClusterServiceBrokerKey |};
   {| wk_queue := serviceClassQueue c; wk_resourceType := "ServiceClass"; wk_maxRetries := Conditions.maxRetries;
      wk_forgetAfterSuccess := true; wk_reconciler := reconcileServiceClassKey |};
   {| wk_queue := servicePlanQueue c; wk_resourceType := "ServicePlan"; wk_maxRetries := Conditions.maxRetries;
      wk_forgetAfterSuccess := true; wk_reconciler := reconcileServicePlanKey |};
   {| wk_queue := instanceQueue c; wk_resourceType := "ServiceInstance"; wk_maxRetries := Conditions.maxRetries;
      wk_forgetAfterSuccess := true; wk_reconciler := reconcileServiceInstanceKey |};
   {| wk_queue := bindingQueue c; wk_resourceType := "ServiceInstanceCredential"; wk_maxRetries := Conditions.maxRetries;
      wk_forgetAfterSuccess := true; wk_reconciler := reconcileServiceInstanceCredentialKey |};
   {| wk_queue := pollingQueue c; wk_resourceType := "Poller"; wk_maxRetries := Conditions.maxRetries;
      wk_forgetAfterSuccess := false; wk_reconciler := requeueServiceInstanceForPoll |}].

(** What runs until the stop channel is closed. *)
Fixpoint controller_Run (c : controller) (workers : nat) : list Worker :=
  match workers with O => [] | S workers' => workers_of c ++ controller_Run c workers' end.

(** ** Starting *)

(** What runs in the process: the controller with its workers, the handlers of
    the informers, and the informers that were started. *)
Record Running := {
  run_controller : controller; run_workers : list Worker; run_handlers : list (Informer * EventHandler);
  run_informers : list (string * Informer); run_factory : Factory }.

(** Whether the client of the core API can be made. *)
Context (coreClient : option error).

Definition StartControllers (s : ControllerManagerConfiguration) (clientBuilder : ClientBuilder) (w : W) : Startup Running * W :=
  match getAvailableResources clientBuilder w with
  | (inr err, w) => (StartError err, w)
  | (inl availableResources, w) =>
      match coreClient with
      | Some _ => (Exited, w)
      | None =>
          if bool_decide (catalogGVR ∈ availableResources) then
            match cb_ClientOrDie clientBuilder "shared-informers" with
            | None => (Exited, w)
            | Some client =>
                let factory := NewSharedInformerFactory client (ResyncInterval s) in
                match cb_ClientOrDie clientBuilder controllerManagerAgentName with
                | None => (Exited, w)
                | Some _ =>
                    let '(ctrl, handlers, factory) :=
                      NewController (ServiceBrokerRelistInterval s) (OSBAPIPreferredVersion s) (ReconciliationRetryDuration s) factory in
                    let (started, factory) := Factory_Start factory in
                    (Started {| run_controller := ctrl; run_workers := controller_Run ctrl (ConcurrentSyncs s); run_handlers := handlers;
                                run_informers := started; run_factory := factory |}, w)
                end
            end
          else
            (StartError (PlainError (sprint ["unable to start service-catalog controller: API GroupVersion ";
               quoted_resource catalogGVR; " is not available; found "; fmt_resources availableResources])), w)
      end
  end.

(** [run] of [Run]: it ends the process when the controllers do not start. *)
Definition run_controllers (s : ControllerManagerConfiguration) (clientBuilder : ClientBuilder) (w : W) : Startup Running * W :=
  match StartControllers s clientBuilder w with
  | (StartError _, w) => (Exited, w)
  | r => r
  end.

(** [Run], once the configurations of the clients are read: the process leads at
    once, or when the election calls it ([elected], after which nothing of this
    process is undone but by its end). *)
Definition Run (s : ControllerManagerConfiguration) (clientBuilder : ClientBuilder) (hostname : string + error) (elected : bool) (w : W) :
    Startup (option Running) * W :=
  let leading (r : Startup Running * W) :=
    match r with
    | (Started running, w) => (Started (Some running), w)
    | (StartError err, w) => (StartError err, w)
    | (Exited, w) => (Exited, w)
    end in
  if negb (LeaderElect (LeaderElection s)) then leading (run_controllers s clientBuilder w)
  else match hostname with
       | inr err => (StartError err, w)
       | inl _ => if elected then leading (run_controllers s clientBuilder w) else (Started None, w)
       end.

(** ** What is started *)

(** The resources that are found are those that are listed. *)
Lemma collect_resources_exact l all resources : collect_resources l all = inl resources ->
  forall r, r ∈ resources <-> r ∈ all \/ exists g version name,
    g ∈ l /\ ParseGroupVersion (arl_GroupVersion g) = inl version /\ name ∈ arl_APIResources g /\ r = WithResource version name.
Proof.
  revert all. induction l as [|g l IH]; intros all; cbn [collect_resources]; [intros [= <-] r; split; [by left|intros [Hr|(g & v & n & Hg & _)]; [done|by apply elem_of_nil in Hg]]|].
  destruct (ParseGroupVersion (arl_GroupVersion g)) as [version|err] eqn:Hv; [|done]. intros H r. rewrite (IH _ H r).
  rewrite elem_of_union, elem_of_list_to_set, list_elem_of_fmap. split.
  - intros [[Hr|(name & -> & Hn)]|(g' & v & name & Hg & Hp)]; [by left|right; exists g, version, name|right; exists g', v, name];
      (split; [|done]); [by left|by right].
  - intros [Hr|(g' & v & name & [->|Hg]%elem_of_cons & Hp & Hn & ->)]; [by left; left|left; right|right; by exists g', v, name].
    rewrite Hv in Hp. injection Hp as <-. by exists name.
Qed.

(** The process is healthy when the resource it needs is listed. *)
Lemma found_when_listed b client w w' lists g :
  cb_Client b controllerDiscoveryAgentName = inl client -> ServerResources (clientset_Discovery client) w = (inl lists, w') ->
  Forall (fun l => exists v, ParseGroupVersion (arl_GroupVersion l) = inl v) lists ->
  g ∈ lists -> arl_GroupVersion g = "servicecatalog.k8s.io/v1alpha1" -> "clusterservicebrokers" ∈ arl_APIResources g ->
  exists available, getAvailableResources b w = (inl available, w') /\ catalogGVR ∈ available.
Proof.
  intros Hc Hs Hp Hg Hv Hr. unfold getAvailableResources. rewrite Hc, Hs.
  assert (Hall : forall all, exists available, collect_resources lists all = inl available).
  { clear -Hp. induction Hp as [|l lists [v Hv] _ IH]; intros all; cbn; [by eexists|]. rewrite Hv. apply IH. }
  destruct (Hall ∅) as [available Ha]. exists available. rewrite Ha. split; [done|].
  apply (collect_resources_exact _ _ _ Ha). right. exists g, v1alpha1_version, "clusterservicebrokers".
  rewrite Hv. split_and!; [done|by vm_compute|done|done].
Qed.

Definition informer_types : list string :=
  ["v1alpha1.ClusterServiceBroker"; "v1alpha1.ServiceClass"; "v1alpha1.ServicePlan"; "v1alpha1.ServiceInstance";
   "v1alpha1.ServiceInstanceCredential"].
Definition informers_for (client : Clients) (resync : Z) : list Informer :=
  [newClusterServiceBrokerInformer IsProbableEOF client resync; newServiceClassInformer IsProbableEOF client resync;
   newServicePlanInformer IsProbableEOF client resync; newServiceInstanceInformer IsProbableEOF client resync;
   newServiceInstanceCredentialInformer IsProbableEOF client resync].

Lemma requested_first {Client} t (newFunc : Client -> Z -> Informer) f : sif_informers f !! t = None ->
  InformerFor t newFunc f = (newFunc (sif_client f) (sif_defaultResync f),
    {| sif_client := sif_client f; sif_defaultResync := sif_defaultResync f;
       sif_informers := <[t := newFunc (sif_client f) (sif_defaultResync f)]> (sif_informers f); sif_startedInformers := sif_startedInformers f |}).
Proof. intros H. unfold InformerFor. by rewrite H. Qed.
Lemma requested_again {Client} t (newFunc : Client -> Z -> Informer) f i : sif_informers f !! t = Some i -> InformerFor t newFunc f = (i, f).
Proof. intros H. unfold InformerFor. by rewrite H. Qed.

Definition requested (client : Clients) (resync : Z) : gmap string Informer :=
  list_to_map (rev (zip informer_types (informers_for client resync))).

Lemma new_controller client resync relist version retry :
  exists ctrl handlers f,
    NewController relist version retry (NewSharedInformerFactory client resync) = (ctrl, handlers, f) /\
    sif_informers f = requested client resync /\ sif_startedInformers f = ∅ /\
    map fst handlers = informers_for client resync /\
    brokerLister ctrl = NewClusterServiceBrokerLister (GetIndexer _ (newClusterServiceBrokerInformer IsProbableEOF client resync)) /\
    serviceClassLister_ ctrl = NewServiceClassLister (GetIndexer _ (newServiceClassInformer IsProbableEOF client resync)) /\
    servicePlanLister_ ctrl = NewServicePlanLister (GetIndexer _ (newServicePlanInformer IsProbableEOF client resync)) /\
    instanceLister ctrl = NewServiceInstanceLister (GetIndexer _ (newServiceInstanceInformer IsProbableEOF client resync)) /\
    bindingLister ctrl =
      NewServiceInstanceCredentialLister (GetIndexer _ (newServiceInstanceCredentialInformer IsProbableEOF client resync)).
Proof.
  unfold NewController, clusterServiceBrokerInformer_Lister, serviceClassInformer_Lister, servicePlanInformer_Lister,
    serviceInstanceInformer_Lister, serviceInstanceCredentialInformer_Lister, clusterServiceBrokerInformer_Informer,
    serviceClassInformer_Informer, servicePlanInformer_Informer, serviceInstanceInformer_Informer,
    serviceInstanceCredentialInformer_Informer, NewSharedInformerFactory.
  repeat (rewrite requested_first by reflexivity; cbn [sif_client sif_defaultResync sif_informers sif_startedInformers];
          rewrite requested_again by (apply lookup_insert_eq)).
  do 3 eexists. split; [reflexivity|]. by split_and!.
Qed.

Lemma requested_range client resync : map_to_list (requested client resync) ≡ₚ zip informer_types (informers_for client resync).
Proof.
  unfold requested. rewrite map_to_list_to_map; [symmetry; apply Permutation_rev|].
  by apply (bool_decide_unpack (NoDup (rev informer_types))).
Qed.

Lemma start_requested client resync : forall f : Factory, sif_informers f = requested client resync -> sif_startedInformers f = ∅ ->
  fst (Factory_Start f) ≡ₚ zip informer_types (informers_for client resync).
Proof.
  intros f Hi Hs. unfold Factory_Start. cbn [fst]. rewrite Hs, Hi, <-requested_range, <-(go_range_all (requested client resync)).
  apply reflexive_eq. generalize (go_range (requested client resync)). intros l.
  induction l as [|p l IH]; [done|]. cbn [List.filter]. rewrite bool_decide_eq_false_2 by apply not_elem_of_empty. cbn [negb]. by rewrite IH.
Qed.

Lemma workers_per_queue c n t : t ∈ map wk_resourceType (workers_of c) ->
  length (List.filter (fun k => bool_decide (wk_resourceType k = t)) (controller_Run c n)) = n.
Proof.
  intros Ht. induction n as [|n IH]; [done|]. cbn [controller_Run]. rewrite List.filter_app, length_app, IH.
  cbn in Ht. repeat (apply elem_of_cons in Ht as [-> |Ht]; [done|]). by apply elem_of_nil in Ht.
Qed.

(** When the API server has the resource and the clients can be made, the
    controllers start: the five informers, each once and with the handler of
    its kind added before, behind the listers that the controller reads; and for
    each queue as many workers as the options say. *)
Theorem controllers_are_wired s b client w w' available :
  getAvailableResources b w = (inl available, w') -> catalogGVR ∈ available -> coreClient = None ->
  cb_ClientOrDie b "shared-informers" = Some client -> is_Some (cb_ClientOrDie b controllerManagerAgentName) ->
  exists r, StartControllers s b w = (Started r, w') /\
    run_informers r ≡ₚ zip informer_types (informers_for client (ResyncInterval s)) /\
    map fst (run_handlers r) = informers_for client (ResyncInterval s) /\
    brokerLister (run_controller r) =
      NewClusterServiceBrokerLister (GetIndexer _ (newClusterServiceBrokerInformer IsProbableEOF client (ResyncInterval s))) /\
    instanceLister (run_controller r) =
      NewServiceInstanceLister (GetIndexer _ (newServiceInstanceInformer IsProbableEOF client (ResyncInterval s))) /\
    bindingLister (run_controller r) = NewServiceInstanceCredentialLister
      (GetIndexer _ (newServiceInstanceCredentialInformer IsProbableEOF client (ResyncInterval s))) /\
    run_workers r = controller_Run (run_controller r) (ConcurrentSyncs s) /\
    (forall t, t ∈ map wk_resourceType (workers_of (run_controller r)) ->
       length (List.filter (fun k => bool_decide (wk_resourceType k = t)) (run_workers r)) = ConcurrentSyncs s).
Proof.
  intros Ha Hr Hcore Hc [c' Hc']. unfold StartControllers. rewrite Ha, Hcore, bool_decide_eq_true_2, Hc, Hc' by done.
  destruct (new_controller client (ResyncInterval s) (ServiceBrokerRelistInterval s) (OSBAPIPreferredVersion s)
    (ReconciliationRetryDuration s)) as (ctrl & handlers & f & -> & Hi & Hs & Hh & Hb & _ & _ & Hinst & Hbind).
  pose proof (start_requested client _ f Hi Hs) as Hp. destruct (Factory_Start f) as [started f']. cbn [fst] in Hp.
  eexists. split; [reflexivity|]. split_and!; try done. intros t Ht. by apply workers_per_queue.
Qed.

(** Controllers that were started are healthy at that moment, and a server
    without the resource starts none. *)
Theorem started_controllers_are_healthy s b w r w' :
  StartControllers s b w = (Started r, w') -> checkAPIAvailableResources_Check b w = (None, w').
Proof.
  unfold StartControllers, checkAPIAvailableResources_Check. destruct (getAvailableResources b w) as [[available|err] w1]; [|done].
  destruct coreClient; [done|]. case_bool_decide; [|done]. destruct (cb_ClientOrDie b "shared-informers"); [|done].
  destruct (cb_ClientOrDie b controllerManagerAgentName); [|done].
  destruct (NewController _ _ _ _) as [[ctrl handlers] f]. destruct (Factory_Start f). intros [= _ ->]. done.
Qed.
End manager.

(** With the default options and a server that lists the resource. *)
Section sample.
Context {G : GoMapOrder} {T : Transport unit} {CW : Type} {E : Env CW} {C : Environment.Config}.
Context (rest : RESTClient) (GetIndexer : forall A : Type, @SharedIndexInformer unit -> Cache A).

Definition sample_clients : ClientBuilder (DiscoveryClient := unit) :=
  SimpleClientBuilder "agent" (fun _ => inl rest) (fun _ => inl tt) (fun _ _ => "")
    {| cfg_GroupVersion := None; cfg_APIPath := ""; cfg_UserAgent := ""; cfg_NegotiatedSerializer := ""; cfg_RateLimiter := None;
       cfg_QPS := 0; cfg_Burst := 0 |}.
Definition sample_discovery (_ w : unit) : (list APIResourceList + error) * unit :=
  (inl [{| arl_GroupVersion := "v1"; arl_APIResources := ["secrets"] |};
        {| arl_GroupVersion := "servicecatalog.k8s.io/v1alpha1"; arl_APIResources := ["serviceclasses"; "clusterservicebrokers"] |}], w).

Example default_start :
  exists r, StartControllers (fun _ => false) sample_discovery (fun _ => "") GetIndexer None NewControllerManagerServer sample_clients tt
              = (Started r, tt) /\
    length (run_informers r) = 5%nat /\ length (run_workers r) = 30%nat.
Proof.
  destruct (found_when_listed sample_discovery sample_clients
    {| clientset_Discovery := tt; clientset_V1alpha1 := {| restClient := rest |} |} tt tt _
    {| arl_GroupVersion := "servicecatalog.k8s.io/v1alpha1"; arl_APIResources := ["serviceclasses"; "clusterservicebrokers"] |}
    eq_refl eq_refl) as (available & Ha & Hr).
  - repeat (constructor; [by eexists; vm_compute|]). constructor.
  - right. by left.
  - done.
  - right. by left.
  - destruct (controllers_are_wired (fun _ => false) sample_discovery (fun _ => "") GetIndexer None NewControllerManagerServer
      sample_clients _ tt tt available Ha Hr eq_refl eq_refl) as (r & Hs & Hi & _ & _ & _ & _ & Hw & _); [by eexists|].
    exists r. split; [done|]. split; [by rewrite Hi|by rewrite Hw].
Qed.
End sample.
