(* ===== verification/FakeTracker.v ===== *)
(** * The object tracker of Kubernetes

    [k8s.io/client-go/testing], on which the fake client sets stand
    ([FakeClientset]).  A call is an action, which a chain of reactors
    answers; the reactor of [NewSimpleClientset] keeps objects in a tracker
    ([fixture.go]), and others can be added.  All clients of a client set point
    to one [Fake], which is the state; a call holds its lock while the reactors
    run.  A call that panics has no result.

    Deep copies are equal to what they copy.  Label selectors are parsed by
    [ParseLabels], a parameter; objects have no labels here, so a selector may
    look at any metadata.  The interfaces watches return are of the type [WI],
    the reactors a test adds keep their state in [X], and [Format] prints an
    action. *)

From stdpp Require Import gmap strings list.
From S2P Require Import Prelude Types Environment Fields InternalTypes Selectors APIServer Http Storage RestClient Cache.

(** ** Schemes *)

(** The objects a client set is generated for: their metadata, the name of
    their type, and the package and the version it is registered under. *)
Class ObjectScheme (O : Type) := {
  obj_meta : O -> ObjectMeta;
  obj_with_meta : ObjectMeta -> O -> O;
  obj_kind : O -> string;
  scheme_package : string;
  scheme_version : string }.

(** The kinds [addKnownTypes] registers; each has a list kind. *)
Definition known_kinds : list string :=
  ["ClusterServiceBroker"; "ServiceClass"; "ServicePlan"; "ServiceInstance"; "ServiceInstanceCredential"].

(** [runtime.Object]: an object of the scheme, or a list of objects of a kind. *)
Inductive RunObject (O : Type) := One (o : O) | ListOf (kind : string) (items : list O).
Arguments One {O}.
Arguments ListOf {O}.

Definition NewNotFound (gr : string * string) (name : string) : error :=
  StatusError ReasonNotFound (sprint [GroupResource_String gr; " "; quote name; " not found"]).
Definition NewAlreadyExists (gr : string * string) (name : string) : error :=
  StatusError ReasonAlreadyExists (sprint [GroupResource_String gr; " "; quote name; " already exists"]).
Definition NewNotRegisteredErrForKind (k : GroupVersionKind) : error :=
  PlainError
    (if bool_decide (gvk_Kind k = "") then
       sprint ["no version "; quote (GroupVersion_String {| gv_Group := gvk_Group k; gv_Version := gvk_Version k |}); " has been registered"]
     else if bool_decide (gvk_Version k = APIVersionInternal) then
       sprint ["no kind "; quote (gvk_Kind k); " is registered for the internal version of group "; quote (gvk_Group k)]
     else
       sprint ["no kind "; quote (gvk_Kind k); " is registered for version "; quote (GroupVersion_String {| gv_Group := gvk_Group k; gv_Version := gvk_Version k |})]).

(** [strings.HasSuffix], [strings.TrimSuffix] *)
Definition without_suffix (s suffix : string) : string := String.substring 0 (String.length s - String.length suffix) s.
Definition HasSuffix (s suffix : string) : bool := bool_decide (without_suffix s suffix +:+ suffix = s).
Definition TrimSuffix (s suffix : string) : string := if HasSuffix s suffix then without_suffix s suffix else s.

(** The plural of a kind. *)
Definition UnsafeGuessKindToResource (kind : GroupVersionKind) : GroupVersionResource :=
  let WithResource r := {| gvr_Group := gvk_Group kind; gvr_Version := gvk_Version kind; gvr_Resource := r |} in
  if bool_decide (gvk_Kind kind = "") then {| gvr_Group := ""; gvr_Version := ""; gvr_Resource := "" |}
  else
    let singularName := ToLower (gvk_Kind kind) in
    if HasSuffix singularName "endpoints" then WithResource singularName
    else if HasSuffix singularName "s" then WithResource (singularName +:+ "es")
    else if HasSuffix singularName "y" then WithResource (TrimSuffix singularName "y" +:+ "ies")
    else WithResource (singularName +:+ "s").

Class LabelSyntax := ParseLabels : string -> LabelsSelector + error.

(** ** Actions *)

Record ActionImpl := { act_Namespace : string; act_Verb : string; act_Resource : GroupVersionResource; act_Subresource : string }.
Record ListRestrictions := { lr_Labels : LabelsSelector; lr_Fields : Selector }.
Record WatchRestrictions := { wr_Labels : LabelsSelector; wr_Fields : Selector; wr_ResourceVersion : string }.

Inductive FakeAction (O : Type) :=
| GetActionImpl (a : ActionImpl) (name : string)
| ListActionImpl (a : ActionImpl) (kind : GroupVersionKind) (restrictions : ListRestrictions)
| CreateActionImpl (a : ActionImpl) (obj : O)
| UpdateActionImpl (a : ActionImpl) (obj : O)
| PatchActionImpl (a : ActionImpl) (name : string) (patch : string)
| DeleteActionImpl (a : ActionImpl) (name : string)
| DeleteCollectionActionImpl (a : ActionImpl) (restrictions : ListRestrictions)
| WatchActionImpl (a : ActionImpl) (restrictions : WatchRestrictions).
Arguments GetActionImpl {O}.
Arguments ListActionImpl {O}.
Arguments CreateActionImpl {O}.
Arguments UpdateActionImpl {O}.
Arguments PatchActionImpl {O}.
Arguments DeleteActionImpl {O}.
Arguments DeleteCollectionActionImpl {O}.
Arguments WatchActionImpl {O}.

Definition action_impl {O} (action : FakeAction O) : ActionImpl :=
  match action with
  | GetActionImpl a _ | ListActionImpl a _ _ | CreateActionImpl a _ | UpdateActionImpl a _
  | PatchActionImpl a _ _ | DeleteActionImpl a _ | DeleteCollectionActionImpl a _ | WatchActionImpl a _ => a
  end.
Definition GetNamespace {O} (action : FakeAction O) : string := act_Namespace (action_impl action).
Definition GetVerb {O} (action : FakeAction O) : string := act_Verb (action_impl action).
Definition GetResource {O} (action : FakeAction O) : GroupVersionResource := act_Resource (action_impl action).
Definition GetSubresource {O} (action : FakeAction O) : string := act_Subresource (action_impl action).
Definition Action_Matches {O} (verb resource : string) (action : FakeAction O) : bool :=
  bool_decide (ToLower verb = ToLower (GetVerb action)) && bool_decide (ToLower resource = ToLower (gvr_Resource (GetResource action))).

(** It panics when a selector cannot be parsed. *)
Definition ExtractFromListOptions {LS : LabelSyntax} (opts : ListOptions) : option (LabelsSelector * Selector * string) :=
  match ParseLabels (LabelSelector opts) with
  | inr _ => None
  | inl labelSelector =>
      match ParseSelector (FieldSelector opts) with
      | inr _ => None
      | inl fieldSelector => Some (labelSelector, fieldSelector, lo_ResourceVersion opts)
      end
  end.
Definition restrictions_of {LS : LabelSyntax} (opts : ListOptions) : option ListRestrictions :=
  match ExtractFromListOptions opts with
  | Some (labelSelector, fieldSelector, _) => Some {| lr_Labels := labelSelector; lr_Fields := fieldSelector |}
  | None => None
  end.
Definition watch_restrictions_of {LS : LabelSyntax} (opts : ListOptions) : option WatchRestrictions :=
  match ExtractFromListOptions opts with
  | Some (labelSelector, fieldSelector, resourceVersion) =>
      Some {| wr_Labels := labelSelector; wr_Fields := fieldSelector; wr_ResourceVersion := resourceVersion |}
  | None => None
  end.

Definition action_at (verb : string) (resource : GroupVersionResource) (subresource namespace : string) : ActionImpl :=
  {| act_Namespace := namespace; act_Verb := verb; act_Resource := resource; act_Subresource := subresource |}.

Section actions.
Context {O : Type} {LS : LabelSyntax}.
Implicit Types (resource : GroupVersionResource) (object : O).

Definition NewRootGetAction resource (name : string) : FakeAction O := GetActionImpl (action_at "get" resource "" "") name.
Definition NewGetAction resource (namespace name : string) : FakeAction O := GetActionImpl (action_at "get" resource "" namespace) name.
Definition NewRootListAction resource (kind : GroupVersionKind) (opts : ListOptions) : option (FakeAction O) :=
  ListActionImpl (action_at "list" resource "" "") kind <$> restrictions_of opts.
Definition NewListAction resource (kind : GroupVersionKind) (namespace : string) (opts : ListOptions) : option (FakeAction O) :=
  ListActionImpl (action_at "list" resource "" namespace) kind <$> restrictions_of opts.
Definition NewRootCreateAction resource object : FakeAction O := CreateActionImpl (action_at "create" resource "" "") object.
Definition NewCreateAction resource (namespace : string) object : FakeAction O := CreateActionImpl (action_at "create" resource "" namespace) object.
Definition NewRootUpdateAction resource object : FakeAction O := UpdateActionImpl (action_at "update" resource "" "") object.
Definition NewUpdateAction resource (namespace : string) object : FakeAction O := UpdateActionImpl (action_at "update" resource "" namespace) object.
Definition NewRootPatchSubresourceAction resource (name patch : string) (subresources : list string) : FakeAction O :=
  PatchActionImpl (action_at "patch" resource (path_Join subresources) "") name patch.
Definition NewPatchSubresourceAction resource (namespace name patch : string) (subresources : list string) : FakeAction O :=
  PatchActionImpl (action_at "patch" resource (path_Join subresources) namespace) name patch.
Definition NewRootUpdateSubresourceAction resource (subresource : string) object : FakeAction O :=
  UpdateActionImpl (action_at "update" resource subresource "") object.
Definition NewUpdateSubresourceAction resource (subresource namespace : string) object : FakeAction O :=
  UpdateActionImpl (action_at "update" resource subresource namespace) object.
Definition NewRootDeleteAction resource (name : string) : FakeAction O := DeleteActionImpl (action_at "delete" resource "" "") name.
Definition NewDeleteAction resource (namespace name : string) : FakeAction O := DeleteActionImpl (action_at "delete" resource "" namespace) name.
Definition NewRootDeleteCollectionAction resource (opts : ListOptions) : option (FakeAction O) :=
  DeleteCollectionActionImpl (action_at "delete-collection" resource "" "") <$> restrictions_of opts.
Definition NewDeleteCollectionAction resource (namespace : string) (opts : ListOptions) : option (FakeAction O) :=
  DeleteCollectionActionImpl (action_at "delete-collection" resource "" namespace) <$> restrictions_of opts.
Definition NewRootWatchAction resource (opts : ListOptions) : option (FakeAction O) :=
  WatchActionImpl (action_at "watch" resource "" "") <$> watch_restrictions_of opts.
Definition NewWatchAction resource (namespace : string) (opts : ListOptions) : option (FakeAction O) :=
  WatchActionImpl (action_at "watch" resource "" namespace) <$> watch_restrictions_of opts.
End actions.

Section testing.
Context {O : Type} `{ObjectScheme O}.

(** ** The object tracker *)

(** The objects by resource, each list in the order of creation. *)
Notation tracker := (gmap GroupVersionResource (list O)).
Implicit Types (t : tracker) (gvr : GroupVersionResource) (ns name : string) (obj : O).

Definition keyed_by ns name (o : O) : Prop := Namespace (obj_meta o) = ns /\ Name (obj_meta o) = name.
#[export] Instance keyed_by_dec ns name o : Decision (keyed_by ns name o).
Proof. unfold keyed_by. apply _. Defined.

(** An empty namespace, and an empty name, match any. *)
Definition filterByNamespaceAndName (objs : list O) ns name : list O :=
  List.filter (fun o =>
    (bool_decide (ns = "") || bool_decide (Namespace (obj_meta o) = ns)) &&
    (bool_decide (name = "") || bool_decide (Name (obj_meta o) = name))) objs.

(** [meta.SetList] on a list of a kind. *)
Fixpoint SetList (kind : string) (i : nat) (objects : list O) : option error :=
  match objects with
  | [] => None
  | o :: objects' =>
      if bool_decide (obj_kind o = kind) then SetList kind (S i) objects'
      else Some (PlainError (sprint ["item["; itoa (Z.of_nat i); "]: can't assign or convert ";
             scheme_package; "."; obj_kind o; " into "; scheme_package; "."; kind]))
  end.

(** [Scheme.New] of a list kind: one of the group. *)
Definition New_list (k : GroupVersionKind) : string + error :=
  match find (fun kind => bool_decide (kind +:+ "List" = gvk_Kind k)) known_kinds with
  | Some kind =>
      if bool_decide (gvk_Group k = "servicecatalog.k8s.io") && bool_decide (gvk_Version k = scheme_version) then inl kind
      else inr (NewNotRegisteredErrForKind k)
  | None => inr (NewNotRegisteredErrForKind k)
  end.

Definition tracker_List t gvr (gvk : GroupVersionKind) ns : option (RunObject O) * option error :=
  let listGVK := {| gvk_Group := gvk_Group gvk;
                    gvk_Version := if bool_decide (gvk_Version gvk = "") then APIVersionInternal else gvk_Version gvk;
                    gvk_Kind := gvk_Kind gvk +:+ "List" |} in
  match New_list listGVK with
  | inr err => (None, Some err)
  | inl kind =>
      match t !! gvr with
      | None => (Some (ListOf kind []), None)
      | Some objs =>
          let matchingObjs := filterByNamespaceAndName objs ns "" in
          match SetList kind 0 matchingObjs with
          | Some err => (None, Some err)
          | None => (Some (ListOf kind matchingObjs), None)
          end
      end
  end.

Definition tracker_Get t gvr ns name : option (RunObject O) * option error :=
  let errNotFound := NewNotFound (GroupResource gvr) name in
  match t !! gvr with
  | None => (None, Some errNotFound)
  | Some objs =>
      match filterByNamespaceAndName objs ns name with
      | [] => (None, Some errNotFound)
      | [obj] => (Some (One obj), None)
      | _ => (None, Some (PlainError (sprint ["more than one object matched gvr "; GroupVersionResource_text gvr; ", ns: "; quote ns; " name: "; quote name])))
      end
  end.

Definition tracker_add t gvr obj ns (replaceExisting : bool) : option error * tracker :=
  let gr := GroupResource gvr in
  let obj := if bool_decide (Namespace (obj_meta obj) = "") then obj_with_meta (with_Namespace ns (obj_meta obj)) obj else obj in
  let newMeta := obj_meta obj in
  if negb (bool_decide (ns = Namespace newMeta)) then
    (Some (BadRequest (sprint ["request namespace does not match object namespace, request: "; quote ns; " object: "; quote (Namespace newMeta)])), t)
  else
    match list_find (keyed_by (Namespace newMeta) (Name newMeta)) (default [] (t !! gvr)) with
    | Some (i, _) =>
        if replaceExisting then (None, <[gvr := <[i := obj]> (default [] (t !! gvr))]> t)
        else (Some (NewAlreadyExists gr (Name newMeta)), t)
    | None =>
        if replaceExisting then (Some (NewNotFound gr (Name newMeta)), t)
        else (None, <[gvr := default [] (t !! gvr) ++ [obj]]> t)
    end.
Definition tracker_Create t gvr obj ns : option error * tracker := tracker_add t gvr obj ns false.
Definition tracker_Update t gvr obj ns : option error * tracker := tracker_add t gvr obj ns true.

Definition tracker_Delete t gvr ns name : option error * tracker :=
  match list_find (keyed_by ns name) (default [] (t !! gvr)) with
  | Some (i, _) => (None, <[gvr := delete i (default [] (t !! gvr))]> t)
  | None => (Some (NewNotFound (GroupResource gvr) name), t)
  end.

(** Where an object of a kind is filed: resources have no internal version. *)
Definition filed_under (gvk : GroupVersionKind) : GroupVersionResource :=
  let gvr := UnsafeGuessKindToResource gvk in
  if bool_decide (gvr_Version gvr = APIVersionInternal)
  then {| gvr_Group := gvr_Group gvr; gvr_Version := ""; gvr_Resource := gvr_Resource gvr |} else gvr.

(** [Scheme.ObjectKinds]: each type is registered under one kind. *)
Definition kind_in_scheme (kind : string) : GroupVersionKind :=
  {| gvk_Group := "servicecatalog.k8s.io"; gvk_Version := scheme_version; gvk_Kind := kind |}.
Definition ObjectKinds obj : list GroupVersionKind := [kind_in_scheme (obj_kind obj)].

Fixpoint add_kinds (gvks : list GroupVersionKind) obj t : option error * tracker :=
  match gvks with
  | [] => (None, t)
  | gvk :: gvks' =>
      match tracker_add t (filed_under gvk) obj (Namespace (obj_meta obj)) false with
      | (Some err, t) => (Some err, t)
      | (None, t) => add_kinds gvks' obj t
      end
  end.
Definition add_one t obj : option error * tracker := add_kinds (ObjectKinds obj) obj t.
Fixpoint tracker_addList t (items : list O) : option error * tracker :=
  match items with
  | [] => (None, t)
  | obj :: items' => match add_one t obj with (Some err, t) => (Some err, t) | (None, t) => tracker_addList t items' end
  end.
Definition tracker_Add t (obj : RunObject O) : option error * tracker :=
  match obj with ListOf _ items => tracker_addList t items | One obj => add_one t obj end.

(** ** Reactors *)

Context {X WI : Type} (Format : string -> FakeAction O -> string).

Record Reaction := { handled : bool; ret : option (RunObject O); ret_err : option error }.
Notation World := (tracker * X)%type.

(** Whether it handles an action, and how it reacts. *)
Record Reactor := { Handles : FakeAction O -> bool; React : FakeAction O -> World -> Reaction * World }.
Record WatchReactor := { WatchHandles : FakeAction O -> bool; WatchReact : FakeAction O -> World -> (bool * option WI * option error) * World }.

Definition SimpleReactor_Handles (verb resource : string) (action : FakeAction O) : bool :=
  (bool_decide (verb = "*") || bool_decide (verb = GetVerb action)) &&
  (bool_decide (resource = "*") || bool_decide (resource = gvr_Resource (GetResource action))).
Definition SimpleReactor (verb resource : string) (reaction : FakeAction O -> World -> Reaction * World) : Reactor :=
  {| Handles := SimpleReactor_Handles verb resource; React := reaction |}.
Definition SimpleWatchReactor_Handles (resource : string) (action : FakeAction O) : bool :=
  bool_decide (resource = "*") || bool_decide (resource = gvr_Resource (GetResource action)).
Definition SimpleWatchReactor (resource : string) (reaction : FakeAction O -> World -> (bool * option WI * option error) * World) : WatchReactor :=
  {| WatchHandles := SimpleWatchReactor_Handles resource; WatchReact := reaction |}.

Definition reacted (r : option (RunObject O) * option error) : Reaction := {| handled := true; ret := fst r; ret_err := snd r |}.

(** The reactor of a tracker, on the tracker of the state. *)
Definition ObjectReaction (action : FakeAction O) (w : World) : Reaction * World :=
  let ns := GetNamespace action in
  let gvr := GetResource action in
  let (t, x) := w in
  match action with
  | ListActionImpl _ kind _ => (reacted (tracker_List t gvr kind ns), w)
  | GetActionImpl _ name => (reacted (tracker_Get t gvr ns name), w)
  | CreateActionImpl _ obj =>
      match if bool_decide (GetSubresource action = "") then tracker_Create t gvr obj ns else tracker_Update t gvr obj ns with
      | (Some err, t) => (reacted (None, Some err), (t, x))
      | (None, t) => (reacted (tracker_Get t gvr ns (Name (obj_meta obj))), (t, x))
      end
  | UpdateActionImpl _ obj =>
      match tracker_Update t gvr obj ns with
      | (Some err, t) => (reacted (None, Some err), (t, x))
      | (None, t) => (reacted (tracker_Get t gvr ns (Name (obj_meta obj))), (t, x))
      end
  | DeleteActionImpl _ name =>
      let (err, t) := tracker_Delete t gvr ns name in (reacted (None, err), (t, x))
  | _ => ({| handled := false; ret := None; ret_err := Some (PlainError ("no reaction implemented for " +:+ Format "%s" action)) |}, w)
  end.
Definition DefaultWatchReactor (watchInterface : option WI) (err : option error) (action : FakeAction O) (w : World) :
    (bool * option WI * option error) * World := ((true, watchInterface, err), w).

(** ** [Fake] *)

Record Fake := {
  fake_actions : list (FakeAction O);
  ReactionChain : list Reactor;
  WatchReactionChain : list WatchReactor;
  fake_world : World }.
Definition with_chain c (f : Fake) : Fake :=
  {| fake_actions := fake_actions f; ReactionChain := c; WatchReactionChain := WatchReactionChain f; fake_world := fake_world f |}.
Definition with_watch_chain c (f : Fake) : Fake :=
  {| fake_actions := fake_actions f; ReactionChain := ReactionChain f; WatchReactionChain := c; fake_world := fake_world f |}.
Definition with_actions l (f : Fake) : Fake :=
  {| fake_actions := l; ReactionChain := ReactionChain f; WatchReactionChain := WatchReactionChain f; fake_world := fake_world f |}.
Definition with_world w (f : Fake) : Fake :=
  {| fake_actions := fake_actions f; ReactionChain := ReactionChain f; WatchReactionChain := WatchReactionChain f; fake_world := w |}.

Definition AddReactor (verb resource : string) reaction (f : Fake) : Fake :=
  with_chain (ReactionChain f ++ [SimpleReactor verb resource reaction]) f.
Definition PrependReactor (verb resource : string) reaction (f : Fake) : Fake :=
  with_chain (SimpleReactor verb resource reaction :: ReactionChain f) f.
Definition AddWatchReactor (resource : string) reaction (f : Fake) : Fake :=
  with_watch_chain (WatchReactionChain f ++ [SimpleWatchReactor resource reaction]) f.
Definition PrependWatchReactor (resource : string) reaction (f : Fake) : Fake :=
  with_watch_chain (SimpleWatchReactor resource reaction :: WatchReactionChain f) f.
Definition ClearActions (f : Fake) : Fake := with_actions [] f.
Definition Actions (f : Fake) : list (FakeAction O) := fake_actions f.

(** The first reactor of the chain that handles the action, and says so,
    answers it. *)
Fixpoint react (chain : list Reactor) (action : FakeAction O) (defaultReturnObj : option (RunObject O)) (w : World) :
    (option (RunObject O) * option error) * World :=
  match chain with
  | [] => ((defaultReturnObj, None), w)
  | reactor :: chain' =>
      if negb (Handles reactor action) then react chain' action defaultReturnObj w
      else
        let (r, w) := React reactor action w in
        if negb (handled r) then react chain' action defaultReturnObj w else ((ret r, ret_err r), w)
  end.
Fixpoint watch_react (chain : list WatchReactor) (action : FakeAction O) (w : World) : (option WI * option error) * World :=
  match chain with
  | [] => ((None, Some (PlainError ("unhandled watch: " +:+ Format "%#v" action))), w)
  | reactor :: chain' =>
      if negb (WatchHandles reactor action) then watch_react chain' action w
      else
        match WatchReact reactor action w with
        | ((false, _, _), w) => watch_react chain' action w
        | ((true, ret, err), w) => ((ret, err), w)
        end
  end.

Definition FakeM (A : Type) : Type := Fake -> option (A * Fake).
Definition Invokes (action : FakeAction O) (defaultReturnObj : option (RunObject O)) : FakeM (option (RunObject O) * option error) := fun f =>
  let f := with_actions (fake_actions f ++ [action]) f in
  let (r, w) := react (ReactionChain f) action defaultReturnObj (fake_world f) in
  Some (r, with_world w f).
Definition InvokesWatch (action : FakeAction O) : FakeM (option WI * option error) := fun f =>
  let f := with_actions (fake_actions f ++ [action]) f in
  let (r, w) := watch_react (WatchReactionChain f) action (fake_world f) in
  Some (r, with_world w f).

(** A value of Go that may panic, and the rest of a function. *)
Definition or_panic {A} (a : option A) : FakeM A := fun f => match a with Some a => Some (a, f) | None => None end.
Definition and_then {A B} (m : FakeM A) (k : A -> FakeM B) : FakeM B := fun f => match m f with Some (a, f) => k a f | None => None end.
End testing.
Notation tracker O := (gmap GroupVersionResource (list O)).
Arguments Reaction O : clear implicits.
Arguments Reactor O X : clear implicits.
Arguments WatchReactor O X WI : clear implicits.
Arguments Fake O X WI : clear implicits.
Arguments FakeM O X WI A : clear implicits.

Declare Scope fake_scope.
Notation "x ⟵ m ; k" := (and_then m (fun x => k)) (at level 100, m at next level, k at level 200, right associativity) : fake_scope.

(** ** Lists that are maps

    A list of objects whose keys differ, as the map from key to object. *)

Lemma NoDup_fmap_filter {A B} (f : A -> B) (P : A -> bool) (l : list A) : NoDup (f <$> l) -> NoDup (f <$> List.filter P l).
Proof.
  induction l as [|a l IH]; [done|]. rewrite fmap_cons. intros [Hin Hd]%list.NoDup_cons. cbn [List.filter].
  destruct (P a); [|by apply IH]. rewrite fmap_cons. apply list.NoDup_cons. split; [|by apply IH].
  intros (a' & He & Ha)%list_elem_of_fmap. apply Hin. rewrite He. apply list_elem_of_fmap_2.
  apply list_elem_of_In, List.filter_In in Ha as [Ha _]. by apply list_elem_of_In.
Qed.

Section keyed_lists.
Context {O : Type} `{ObjectScheme O}.
Implicit Types (l : list O) (o : O) (k : string * string) (t : tracker O).

Definition object_key (o : O) : string * string := (Namespace (obj_meta o), Name (obj_meta o)).
Definition contents (l : list O) : gmap (string * string) O := list_to_map ((fun o => (object_key o, o)) <$> l).
Definition distinct (l : list O) : Prop := NoDup (object_key <$> l).

Lemma keyed_by_key ns name o : keyed_by ns name o <-> object_key o = (ns, name).
Proof. unfold keyed_by, object_key. naive_solver. Qed.

Lemma contents_cons o l : contents (o :: l) = <[object_key o := o]> (contents l).
Proof. done. Qed.
Lemma contents_keys l : ((fun o => (object_key o, o)) <$> l).*1 = object_key <$> l.
Proof. by rewrite <- list_fmap_compose. Qed.

Lemma lookup_contents l k o : distinct l -> contents l !! k = Some o <-> o ∈ l /\ object_key o = k.
Proof.
  intros Hd. unfold contents. rewrite <- elem_of_list_to_map by (by rewrite contents_keys).
  rewrite list_elem_of_fmap. naive_solver.
Qed.
Lemma lookup_contents_None l k : contents l !! k = None <-> k ∉ object_key <$> l.
Proof. unfold contents. by rewrite <- not_elem_of_list_to_map, contents_keys. Qed.

(** Finding by key. *)
Lemma find_key l ns name : distinct l ->
  match list_find (keyed_by ns name) l with
  | Some (i, o) => l !! i = Some o /\ object_key o = (ns, name) /\ contents l !! (ns, name) = Some o
  | None => contents l !! (ns, name) = None
  end.
Proof.
  intros Hd. destruct (list_find _ l) as [[i o]|] eqn:E.
  - apply list_find_Some in E as (Hi & Hk & _). apply keyed_by_key in Hk. split_and!; [done..|].
    apply lookup_contents; [done|]. split; [by eapply list_elem_of_lookup_2|done].
  - apply list_find_None in E. apply lookup_contents_None. intros (o & Hk & Ho)%list_elem_of_fmap.
    rewrite List.Forall_forall in E. apply (E o); [by apply list_elem_of_In|by apply keyed_by_key].
Qed.

(** The three changes of a tracker. *)
Lemma contents_append l o : distinct l -> contents l !! object_key o = None ->
  distinct (l ++ [o]) /\ contents (l ++ [o]) = <[object_key o := o]> (contents l).
Proof.
  intros Hd Hn. assert (distinct (l ++ [o])) as Hd'.
  { unfold distinct. rewrite fmap_app. apply list.NoDup_app. split_and!; [done| |apply NoDup_singleton].
    intros k Hk. apply lookup_contents_None in Hn. cbn. rewrite list_elem_of_singleton. naive_solver. }
  split; [done|]. apply map_eq. intros k. apply option_eq. intros o'.
  rewrite (lookup_contents _ _ _ Hd'), elem_of_app, list_elem_of_singleton, lookup_insert_Some, (lookup_contents _ _ _ Hd).
  split; [|naive_solver]. intros [[Ho| ->] <-]; [|by left]. right. split; [|done].
  intros He. apply lookup_contents_None in Hn. apply Hn. rewrite He. by apply list_elem_of_fmap_2.
Qed.

Lemma contents_replace l i o0 o : distinct l -> l !! i = Some o0 -> object_key o0 = object_key o ->
  distinct (<[i := o]> l) /\ contents (<[i := o]> l) = <[object_key o := o]> (contents l).
Proof.
  intros Hd Hi Hk. assert (distinct (<[i := o]> l)) as Hd'.
  { unfold distinct. rewrite list_fmap_insert, <- Hk, list_insert_id; [done|]. by rewrite list_lookup_fmap, Hi. }
  split; [done|]. apply map_eq. intros k. apply option_eq. intros o'.
  rewrite (lookup_contents _ _ _ Hd'), lookup_insert_Some, (lookup_contents _ _ _ Hd). split.
  - intros [[j Hj]%list_elem_of_lookup_1 <-]. apply list_lookup_insert_Some in Hj as [(-> & -> & _)|[Hne Hj]]; [by left|].
    right. split; [|split; [by eapply list_elem_of_lookup_2|done]]. intros He. apply Hne.
    eapply (NoDup_lookup _ i j (object_key o)); [exact Hd|by rewrite list_lookup_fmap, Hi; cbn; rewrite Hk|by rewrite list_lookup_fmap, Hj; cbn; rewrite He].
  - intros [[<- <-]|(Hne & [j Hj]%list_elem_of_lookup_1 & <-)]; (split; [|done]).
    + eapply list_elem_of_lookup_2, list_lookup_insert_eq, lookup_lt_Some, Hi.
    + apply (list_elem_of_lookup_2 _ j). rewrite list_lookup_insert_ne; [done|]. intros ->. congruence.
Qed.

Lemma contents_remove l i o : distinct l -> l !! i = Some o ->
  distinct (delete i l) /\ contents (delete i l) = delete (object_key o) (contents l).
Proof.
  intros Hd Hi. rewrite <- (take_drop_middle l i o Hi) in Hd. unfold distinct in Hd.
  rewrite fmap_app, fmap_cons in Hd. apply list.NoDup_app in Hd as (H1 & H2 & [H3 H4]%list.NoDup_cons).
  assert (distinct (delete i l)) as Hd'.
  { rewrite delete_take_drop. unfold distinct. rewrite fmap_app. apply list.NoDup_app. split_and!; [done| |done].
    intros k Hk Hk'. apply (H2 k Hk). by right. }
  split; [done|]. assert (distinct l) as Hd.
  { rewrite <- (take_drop_middle l i o Hi). unfold distinct. rewrite fmap_app, fmap_cons. apply list.NoDup_app. split_and!; [done|done|by apply list.NoDup_cons]. }
  apply map_eq. intros k. apply option_eq. intros o'.
  rewrite (lookup_contents _ _ _ Hd'), lookup_delete_Some, (lookup_contents _ _ _ Hd).
  rewrite <- (take_drop_middle l i o Hi) at 2. rewrite delete_take_drop, !elem_of_app, elem_of_cons.
  split; [|naive_solver]. intros [Ho <-]. split; [|naive_solver]. intros He.
  destruct Ho as [Ho|Ho]; apply (list_elem_of_fmap_2 object_key) in Ho; rewrite <- He in Ho; [by apply (H2 _ Ho); left|done].
Qed.

(** Filtering by a whole key finds what the map has there. *)
Lemma filter_key l ns name : distinct l -> name <> "" -> (ns <> "" \/ forall o, o ∈ l -> Namespace (obj_meta o) = "") ->
  filterByNamespaceAndName l ns name = match contents l !! (ns, name) with Some o => [o] | None => [] end.
Proof.
  intros Hd Hname Hns. unfold filterByNamespaceAndName.
  assert (forall o, o ∈ l -> (bool_decide (ns = "") || bool_decide (Namespace (obj_meta o) = ns)) && (bool_decide (name = "") || bool_decide (Name (obj_meta o) = name))
    = bool_decide (object_key o = (ns, name))) as Hf.
  { intros o Ho. rewrite (bool_decide_eq_false_2 (name = "")) by done. unfold object_key. apply Bool.eq_true_iff_eq.
    rewrite andb_true_iff, orb_true_iff, !bool_decide_eq_true. cbn. rewrite bool_decide_eq_true.
    split; [|intros [= <- <-]; split; [by right|done]]. intros [Hn Hm]. f_equal; [|done].
    destruct Hn as [Hn|Hn]; [|done]. destruct Hns as [Hns|Hns]; [done|]. by rewrite (Hns o Ho). }
  clear Hns. induction l as [|o l IH]; [done|]. cbn [List.filter]. rewrite (Hf o) by left.
  unfold distinct in Hd. rewrite fmap_cons in Hd. apply list.NoDup_cons in Hd as [Hin Hd].
  specialize (IH Hd (fun o' Ho' => Hf o' (list_elem_of_further _ _ _ Ho'))).
  rewrite contents_cons, IH. destruct (decide (object_key o = (ns, name))) as [Hk|Hk].
  - rewrite bool_decide_eq_true_2 by done. rewrite <- Hk, lookup_insert_eq.
    by rewrite (proj2 (lookup_contents_None l (object_key o)) Hin).
  - by rewrite bool_decide_eq_false_2, lookup_insert_ne.
Qed.

(** ** The tracker as a map *)

Definition objects (t : tracker O) (gvr : GroupVersionResource) : list O := default [] (t !! gvr).

(** An object as the tracker files it. *)
Definition settled (ns : string) (o : O) : O :=
  if bool_decide (Namespace (obj_meta o) = "") then obj_with_meta (with_Namespace ns (obj_meta o)) o else o.
Definition namespace_clash (ns object_ns : string) : error :=
  BadRequest (sprint ["request namespace does not match object namespace, request: "; quote ns; " object: "; quote object_ns]).

Lemma objects_insert t gvr l : objects (<[gvr := l]> t) gvr = l.
Proof. unfold objects. by rewrite lookup_insert_eq. Qed.
Lemma objects_insert_ne t gvr gvr' l : gvr' <> gvr -> <[gvr := l]> t !! gvr' = t !! gvr'.
Proof. intros. by rewrite lookup_insert_ne. Qed.

(** Adding replaces what is under the key, or is refused. *)
Lemma tracker_add_spec t gvr o ns (replaceExisting : bool) : distinct (objects t gvr) ->
  let o' := settled ns o in
  if bool_decide (ns = Namespace (obj_meta o')) then
    match contents (objects t gvr) !! object_key o', replaceExisting with
    | Some _, false => tracker_add t gvr o ns replaceExisting = (Some (NewAlreadyExists (GroupResource gvr) (Name (obj_meta o'))), t)
    | None, true => tracker_add t gvr o ns replaceExisting = (Some (NewNotFound (GroupResource gvr) (Name (obj_meta o'))), t)
    | _, _ => exists l, tracker_add t gvr o ns replaceExisting = (None, <[gvr := l]> t) /\ distinct l /\
                contents l = <[object_key o' := o']> (contents (objects t gvr))
    end
  else tracker_add t gvr o ns replaceExisting = (Some (namespace_clash ns (Namespace (obj_meta o'))), t).
Proof.
  intros Hd o'. unfold tracker_add. fold (settled ns o). fold o'. case_bool_decide as Hns; cbn [negb]; [|done].
  change (default [] (t !! gvr)) with (objects t gvr).
  pose proof (find_key _ (Namespace (obj_meta o')) (Name (obj_meta o')) Hd) as Hf. change (Namespace (obj_meta o'), Name (obj_meta o')) with (object_key o') in Hf.
  destruct (list_find _ _) as [[i o0]|]; [destruct Hf as (Hi & Hk & ->)|rewrite Hf]; destruct replaceExisting; try done.
  - exists (<[i := o']> (objects t gvr)). split; [done|]. by eapply contents_replace.
  - exists (objects t gvr ++ [o']). split; [done|]. by apply contents_append.
Qed.

Lemma tracker_add_others t gvr o ns replaceExisting gvr' : gvr' <> gvr -> (tracker_add t gvr o ns replaceExisting).2 !! gvr' = t !! gvr'.
Proof.
  intros Hne. unfold tracker_add. destruct (bool_decide (ns = _)); cbn [negb]; [|done].
  destruct (list_find _ _) as [[i o0]|], replaceExisting; try done; by apply objects_insert_ne.
Qed.

Lemma tracker_Delete_spec t gvr ns name : distinct (objects t gvr) ->
  match contents (objects t gvr) !! (ns, name) with
  | None => tracker_Delete t gvr ns name = (Some (NewNotFound (GroupResource gvr) name), t)
  | Some _ => exists l, tracker_Delete t gvr ns name = (None, <[gvr := l]> t) /\ distinct l /\
      contents l = delete (ns, name) (contents (objects t gvr))
  end.
Proof.
  intros Hd. unfold tracker_Delete. change (default [] (t !! gvr)) with (objects t gvr).
  pose proof (find_key _ ns name Hd) as Hf. destruct (list_find _ _) as [[i o0]|]; [|by rewrite Hf].
  destruct Hf as (Hi & Hk & ->). eexists. split; [done|]. rewrite <- Hk. by apply contents_remove.
Qed.

Lemma tracker_Get_spec t gvr ns name : distinct (objects t gvr) -> name <> "" ->
  (ns <> "" \/ forall o, o ∈ objects t gvr -> Namespace (obj_meta o) = "") ->
  tracker_Get t gvr ns name = match contents (objects t gvr) !! (ns, name) with
                              | Some o => (Some (One o), None)
                              | None => (None, Some (NewNotFound (GroupResource gvr) name))
                              end.
Proof.
  intros Hd Hn Hns. pose proof (filter_key _ ns name Hd Hn Hns) as Hf. unfold tracker_Get, objects in *.
  destruct (t !! gvr) as [objs|]; [|done]. change (default [] (Some objs)) with objs in *. rewrite Hf. by destruct (contents objs !! (ns, name)).
Qed.

Lemma SetList_typed kind i l : (forall o, o ∈ l -> obj_kind o = kind) -> SetList kind i l = None.
Proof.
  revert i. induction l as [|o l IH]; intros i Hk; [done|]. cbn. rewrite bool_decide_eq_true_2 by (apply Hk; left).
  apply IH. intros o' Ho. apply Hk. by right.
Qed.

Lemma filter_namespace l ns o : o ∈ filterByNamespaceAndName l ns "" <-> o ∈ l /\ (ns = "" \/ Namespace (obj_meta o) = ns).
Proof.
  unfold filterByNamespaceAndName. rewrite !list_elem_of_In, List.filter_In, andb_true_iff, orb_true_iff, !bool_decide_eq_true.
  rewrite (bool_decide_eq_true_2 ("" = "")) by done. naive_solver.
Qed.
(** A list call on objects of the kind. *)
Lemma tracker_List_spec t gvr gvk ns kind :
  New_list {| gvk_Group := gvk_Group gvk; gvk_Version := if bool_decide (gvk_Version gvk = "") then APIVersionInternal else gvk_Version gvk;
              gvk_Kind := gvk_Kind gvk +:+ "List" |} = inl kind ->
  (forall o, o ∈ objects t gvr -> obj_kind o = kind) ->
  tracker_List t gvr gvk ns = (Some (ListOf kind (filterByNamespaceAndName (objects t gvr) ns "")), None).
Proof.
  intros Hk Ho. unfold tracker_List, objects in *. rewrite Hk. destruct (t !! gvr) as [objs|]; [|done]. change (default [] (Some objs)) with objs in *.
  rewrite SetList_typed; [done|]. intros o [Hin _]%filter_namespace. by apply Ho.
Qed.
End keyed_lists.
