(* ===== verification/FakeClientset.v ===== *)
(** * The fake client sets

    [pkg/client/clientset_generated/*/fake]: client sets for tests, generated
    like the real ones, each method an action on the [Fake] of [FakeTracker].
    All clients of a client set point to its [Fake], which is the state of the
    calls.  [NewSimpleClientset] is called with the objects the tracker starts
    with.

    The second part: for as long as nothing else answers, the fake clients are
    a map from namespace and name to objects.  They ignore field selectors,
    versions and finalizers, a status update writes the whole object, and
    patches and deletions of collections report success and do nothing. *)

From stdpp Require Import gmap strings list.
From S2P Require Import Prelude Types Environment Fields InternalTypes Selectors APIServer Http Storage RestClient Clientset Cache Sample FakeTracker.

#[local] Open Scope fake_scope.

Section client_set.
Context {O : Type} `{ObjectScheme O} {X WI : Type} (Format : string -> FakeAction O -> string).

(** ** A client set *)

Record FakeClientset := { clientset_Fake : Fake O X WI }.

Fixpoint add_objects (objects : list (RunObject O)) (o : tracker O) : option (tracker O) :=
  match objects with
  | [] => Some o
  | obj :: objects' => match tracker_Add o obj with (Some _, _) => None | (None, o) => add_objects objects' o end
  end.
(** It panics when an object cannot be added; [NewFake] is a new watcher. *)
Definition NewSimpleClientset (NewFake : WI) (x : X) (objects : list (RunObject O)) : option FakeClientset :=
  match add_objects objects ∅ with
  | None => None
  | Some o =>
      let fakePtr := {| fake_actions := []; ReactionChain := []; WatchReactionChain := []; fake_world := (o, x) |} in
      let fakePtr := AddReactor "*" "*" (ObjectReaction Format) fakePtr in
      let fakePtr := AddWatchReactor "*" (DefaultWatchReactor (Some NewFake) None) fakePtr in
      Some {| clientset_Fake := fakePtr |}
  end.

(** The discovery client invokes actions on the same [Fake]. *)
Record FakeDiscovery := { discovery_Fake : Fake O X WI }.
Definition Clientset_Discovery (c : FakeClientset) : FakeDiscovery := {| discovery_Fake := clientset_Fake c |}.

(** ** What the clients make of an answer *)

Definition Returned (A : Type) : Type := option A * option error.

(** The assertion that an object has the type of the client, after the test for
    nil. *)
Definition as_object {A} (project : O -> option A) (r : option (RunObject O) * option error) : option (Returned A) :=
  match r with
  | (None, err) => Some (None, err)
  | (Some (One o), err) => match project o with Some a => Some (Some a, err) | None => None end
  | (Some (ListOf _ _), _) => None
  end.
(** The items of a list of the type of the client. *)
Fixpoint project_items {A} (project : O -> option A) (l : list O) : option (list A) :=
  match l with
  | [] => Some []
  | o :: l' => match project o, project_items project l' with Some a, Some l => Some (a :: l) | _, _ => None end
  end.
Definition as_items {A} (kind : string) (project : O -> option A) (o : RunObject O) : option (list A) :=
  match o with
  | One _ => None
  | ListOf k items => if bool_decide (k = kind) then project_items project items else None
  end.
End client_set.
Arguments FakeClientset O X WI : clear implicits.

(** ** The objects of the two schemes *)

(** An object type of a scheme. *)
Class ObjectType (O A : Type) := { runtime_inject : A -> O; runtime_project : O -> option A }.

#[export] Instance RObject_scheme : ObjectScheme RObject := {|
  obj_meta o := match o with
    | RInstance x => si_Meta x
    | RBinding x => bind_Meta x
    | RBroker x => b_Meta x
    | RClass x => sc_Meta x
    | RPlan x => sp_Meta x
    end;
  obj_with_meta m o := match o with
    | RInstance x => RInstance {| si_TypeMeta := si_TypeMeta x; si_Meta := m; si_Spec := si_Spec x; si_Status := si_Status x |}
    | RBinding x => RBinding {| bind_TypeMeta := bind_TypeMeta x; bind_Meta := m; bind_Spec := bind_Spec x; bind_Status := bind_Status x |}
    | RBroker x => RBroker {| b_TypeMeta := b_TypeMeta x; b_Meta := m; b_Spec := b_Spec x; b_Status := b_Status x |}
    | RClass x => RClass {| sc_TypeMeta := sc_TypeMeta x; sc_Meta := m; sc_Spec := sc_Spec x |}
    | RPlan x => RPlan {| sp_TypeMeta := sp_TypeMeta x; sp_Meta := m; sp_Spec := sp_Spec x |}
    end;
  obj_kind o := match o with
    | RInstance _ => "ServiceInstance"
    | RBinding _ => "ServiceInstanceCredential"
    | RBroker _ => "ClusterServiceBroker"
    | RClass _ => "ServiceClass"
    | RPlan _ => "ServicePlan"
    end;
  scheme_package := "v1alpha1"; scheme_version := "v1alpha1" |}.
#[export] Instance RObject_ServiceInstance_type : ObjectType RObject ServiceInstance :=
  {| runtime_inject := RInstance; runtime_project o := match o with RInstance x => Some x | _ => None end |}.
#[export] Instance RObject_ServiceInstanceCredential_type : ObjectType RObject ServiceInstanceCredential :=
  {| runtime_inject := RBinding; runtime_project o := match o with RBinding x => Some x | _ => None end |}.
#[export] Instance RObject_ClusterServiceBroker_type : ObjectType RObject ClusterServiceBroker :=
  {| runtime_inject := RBroker; runtime_project o := match o with RBroker x => Some x | _ => None end |}.
#[export] Instance RObject_ServiceClass_type : ObjectType RObject ServiceClass :=
  {| runtime_inject := RClass; runtime_project o := match o with RClass x => Some x | _ => None end |}.
#[export] Instance RObject_ServicePlan_type : ObjectType RObject ServicePlan :=
  {| runtime_inject := RPlan; runtime_project o := match o with RPlan x => Some x | _ => None end |}.

(** An object of the internal version. *)
Inductive IObject :=
| IInstance (x : servicecatalog.ServiceInstance)
| IBinding (x : servicecatalog.ServiceInstanceCredential)
| IBroker (x : servicecatalog.ClusterServiceBroker)
| IClass (x : servicecatalog.ServiceClass)
| IPlan (x : servicecatalog.ServicePlan).

#[export] Instance IObject_scheme : ObjectScheme IObject := {|
  obj_meta o := match o with
    | IInstance x => servicecatalog.si_Meta x
    | IBinding x => servicecatalog.bind_Meta x
    | IBroker x => servicecatalog.b_Meta x
    | IClass x => servicecatalog.sc_Meta x
    | IPlan x => servicecatalog.sp_Meta x
    end;
  obj_with_meta m o := match o with
    | IInstance x => IInstance {| servicecatalog.si_TypeMeta := servicecatalog.si_TypeMeta x; servicecatalog.si_Meta := m; servicecatalog.si_Spec := servicecatalog.si_Spec x; servicecatalog.si_Status := servicecatalog.si_Status x |}
    | IBinding x => IBinding {| servicecatalog.bind_TypeMeta := servicecatalog.bind_TypeMeta x; servicecatalog.bind_Meta := m; servicecatalog.bind_Spec := servicecatalog.bind_Spec x; servicecatalog.bind_Status := servicecatalog.bind_Status x |}
    | IBroker x => IBroker {| servicecatalog.b_TypeMeta := servicecatalog.b_TypeMeta x; servicecatalog.b_Meta := m; servicecatalog.b_Spec := servicecatalog.b_Spec x; servicecatalog.b_Status := servicecatalog.b_Status x |}
    | IClass x => IClass {| servicecatalog.sc_TypeMeta := servicecatalog.sc_TypeMeta x; servicecatalog.sc_Meta := m; servicecatalog.sc_Spec := servicecatalog.sc_Spec x |}
    | IPlan x => IPlan {| servicecatalog.sp_TypeMeta := servicecatalog.sp_TypeMeta x; servicecatalog.sp_Meta := m; servicecatalog.sp_Spec := servicecatalog.sp_Spec x |}
    end;
  obj_kind o := match o with
    | IInstance _ => "ServiceInstance"
    | IBinding _ => "ServiceInstanceCredential"
    | IBroker _ => "ClusterServiceBroker"
    | IClass _ => "ServiceClass"
    | IPlan _ => "ServicePlan"
    end;
  scheme_package := "servicecatalog"; scheme_version := APIVersionInternal |}.
#[export] Instance IObject_ServiceInstance_type : ObjectType IObject servicecatalog.ServiceInstance :=
  {| runtime_inject := IInstance; runtime_project o := match o with IInstance x => Some x | _ => None end |}.
#[export] Instance IObject_ServiceInstanceCredential_type : ObjectType IObject servicecatalog.ServiceInstanceCredential :=
  {| runtime_inject := IBinding; runtime_project o := match o with IBinding x => Some x | _ => None end |}.
#[export] Instance IObject_ClusterServiceBroker_type : ObjectType IObject servicecatalog.ClusterServiceBroker :=
  {| runtime_inject := IBroker; runtime_project o := match o with IBroker x => Some x | _ => None end |}.
#[export] Instance IObject_ServiceClass_type : ObjectType IObject servicecatalog.ServiceClass :=
  {| runtime_inject := IClass; runtime_project o := match o with IClass x => Some x | _ => None end |}.
#[export] Instance IObject_ServicePlan_type : ObjectType IObject servicecatalog.ServicePlan :=
  {| runtime_inject := IPlan; runtime_project o := match o with IPlan x => Some x | _ => None end |}.

(** ** The fake clients of [v1alpha1] *)

(** The clients of a group point to the [Fake] of their client set. *)
Record FakeServicecatalogV1alpha1 := fake_group { }.

Section versioned.
Context {LS : LabelSyntax} {X WI : Type} (Format : string -> FakeAction RObject -> string).
Notation Calls := (FakeM RObject X WI).

(** *** ClusterServiceBroker *)

Record FakeClusterServiceBrokers := { FakeClusterServiceBrokers_Fake : FakeServicecatalogV1alpha1 }.
Definition clusterservicebrokersResource : GroupVersionResource := {| gvr_Group := "servicecatalog.k8s.io"; gvr_Version := "v1alpha1"; gvr_Resource := "clusterservicebrokers" |}.
Definition clusterservicebrokersKind : GroupVersionKind := {| gvk_Group := "servicecatalog.k8s.io"; gvk_Version := "v1alpha1"; gvk_Kind := "ClusterServiceBroker" |}.
Definition FakeClusterServiceBrokers_Create (c : FakeClusterServiceBrokers) (clusterServiceBroker : ClusterServiceBroker) : Calls (Returned ClusterServiceBroker) :=
  obj ⟵ Invokes (NewRootCreateAction clusterservicebrokersResource (runtime_inject clusterServiceBroker)) (Some (One (runtime_inject (kind_zero : ClusterServiceBroker))));
  or_panic (as_object runtime_project obj).
Definition FakeClusterServiceBrokers_Update (c : FakeClusterServiceBrokers) (clusterServiceBroker : ClusterServiceBroker) : Calls (Returned ClusterServiceBroker) :=
  obj ⟵ Invokes (NewRootUpdateAction clusterservicebrokersResource (runtime_inject clusterServiceBroker)) (Some (One (runtime_inject (kind_zero : ClusterServiceBroker))));
  or_panic (as_object runtime_project obj).
Definition FakeClusterServiceBrokers_UpdateStatus (c : FakeClusterServiceBrokers) (clusterServiceBroker : ClusterServiceBroker) : Calls (Returned ClusterServiceBroker) :=
  obj ⟵ Invokes (NewRootUpdateSubresourceAction clusterservicebrokersResource "status" (runtime_inject clusterServiceBroker)) (Some (One (runtime_inject (kind_zero : ClusterServiceBroker))));
  or_panic (as_object runtime_project obj).
Definition FakeClusterServiceBrokers_Delete (c : FakeClusterServiceBrokers) (name : string) (options : option DeleteOptions) : Calls (option error) :=
  obj ⟵ Invokes (NewRootDeleteAction clusterservicebrokersResource name) (Some (One (runtime_inject (kind_zero : ClusterServiceBroker))));
  or_panic (Some (snd obj)).
Definition FakeClusterServiceBrokers_DeleteCollection (c : FakeClusterServiceBrokers) (options : option DeleteOptions) (listOptions : ListOptions) : Calls (option error) :=
  action ⟵ or_panic (NewRootDeleteCollectionAction clusterservicebrokersResource listOptions);
  obj ⟵ Invokes action (Some (ListOf "ClusterServiceBroker" []));
  or_panic (Some (snd obj)).
Definition FakeClusterServiceBrokers_Get (c : FakeClusterServiceBrokers) (name : string) (options : GetOptions) : Calls (Returned ClusterServiceBroker) :=
  obj ⟵ Invokes (NewRootGetAction clusterservicebrokersResource name) (Some (One (runtime_inject (kind_zero : ClusterServiceBroker))));
  or_panic (as_object runtime_project obj).
Definition FakeClusterServiceBrokers_List (c : FakeClusterServiceBrokers) (opts : ListOptions) : Calls (Returned ClusterServiceBrokerList) :=
  action ⟵ or_panic (NewRootListAction clusterservicebrokersResource clusterservicebrokersKind opts);
  obj ⟵ Invokes action (Some (ListOf "ClusterServiceBroker" []));
  match obj with
  | (None, err) => or_panic (Some (None, err))
  | (Some obj, err) =>
      restrictions ⟵ or_panic (ExtractFromListOptions opts);
      items ⟵ or_panic (as_items "ClusterServiceBroker" runtime_project obj);
      let label := fst (fst restrictions) in
      or_panic (Some (Some (list_of TypeMeta_zero ListMeta_zero (List.filter (fun item => label (kind_meta item)) items)), err))
  end.
Definition FakeClusterServiceBrokers_Watch (c : FakeClusterServiceBrokers) (opts : ListOptions) : Calls (option WI * option error) :=
  action ⟵ or_panic (NewRootWatchAction clusterservicebrokersResource opts);
  InvokesWatch Format action.
Definition FakeClusterServiceBrokers_Patch (c : FakeClusterServiceBrokers) (name : string) (pt : string) (data : string) (subresources : list string) : Calls (Returned ClusterServiceBroker) :=
  obj ⟵ Invokes (NewRootPatchSubresourceAction clusterservicebrokersResource name data subresources) (Some (One (runtime_inject (kind_zero : ClusterServiceBroker))));
  or_panic (as_object runtime_project obj).

(** *** ServiceClass *)

Record FakeServiceClasses := { FakeServiceClasses_Fake : FakeServicecatalogV1alpha1 }.
Definition serviceclassesResource : GroupVersionResource := {| gvr_Group := "servicecatalog.k8s.io"; gvr_Version := "v1alpha1"; gvr_Resource := "serviceclasses" |}.
Definition serviceclassesKind : GroupVersionKind := {| gvk_Group := "servicecatalog.k8s.io"; gvk_Version := "v1alpha1"; gvk_Kind := "ServiceClass" |}.
Definition FakeServiceClasses_Create (c : FakeServiceClasses) (serviceClass : ServiceClass) : Calls (Returned ServiceClass) :=
  obj ⟵ Invokes (NewRootCreateAction serviceclassesResource (runtime_inject serviceClass)) (Some (One (runtime_inject (kind_zero : ServiceClass))));
  or_panic (as_object runtime_project obj).
Definition FakeServiceClasses_Update (c : FakeServiceClasses) (serviceClass : ServiceClass) : Calls (Returned ServiceClass) :=
  obj ⟵ Invokes (NewRootUpdateAction serviceclassesResource (runtime_inject serviceClass)) (Some (One (runtime_inject (kind_zero : ServiceClass))));
  or_panic (as_object runtime_project obj).
Definition FakeServiceClasses_Delete (c : FakeServiceClasses) (name : string) (options : option DeleteOptions) : Calls (option error) :=
  obj ⟵ Invokes (NewRootDeleteAction serviceclassesResource name) (Some (One (runtime_inject (kind_zero : ServiceClass))));
  or_panic (Some (snd obj)).
Definition FakeServiceClasses_DeleteCollection (c : FakeServiceClasses) (options : option DeleteOptions) (listOptions : ListOptions) : Calls (option error) :=
  action ⟵ or_panic (NewRootDeleteCollectionAction serviceclassesResource listOptions);
  obj ⟵ Invokes action (Some (ListOf "ServiceClass" []));
  or_panic (Some (snd obj)).
Definition FakeServiceClasses_Get (c : FakeServiceClasses) (name : string) (options : GetOptions) : Calls (Returned ServiceClass) :=
  obj ⟵ Invokes (NewRootGetAction serviceclassesResource name) (Some (One (runtime_inject (kind_zero : ServiceClass))));
  or_panic (as_object runtime_project obj).
Definition FakeServiceClasses_List (c : FakeServiceClasses) (opts : ListOptions) : Calls (Returned ServiceClassList) :=
  action ⟵ or_panic (NewRootListAction serviceclassesResource serviceclassesKind opts);
  obj ⟵ Invokes action (Some (ListOf "ServiceClass" []));
  match obj with
  | (None, err) => or_panic (Some (None, err))
  | (Some obj, err) =>
      restrictions ⟵ or_panic (ExtractFromListOptions opts);
      items ⟵ or_panic (as_items "ServiceClass" runtime_project obj);
      let label := fst (fst restrictions) in
      or_panic (Some (Some (list_of TypeMeta_zero ListMeta_zero (List.filter (fun item => label (kind_meta item)) items)), err))
  end.
Definition FakeServiceClasses_Watch (c : FakeServiceClasses) (opts : ListOptions) : Calls (option WI * option error) :=
  action ⟵ or_panic (NewRootWatchAction serviceclassesResource opts);
  InvokesWatch Format action.
Definition FakeServiceClasses_Patch (c : FakeServiceClasses) (name : string) (pt : string) (data : string) (subresources : list string) : Calls (Returned ServiceClass) :=
  obj ⟵ Invokes (NewRootPatchSubresourceAction serviceclassesResource name data subresources) (Some (One (runtime_inject (kind_zero : ServiceClass))));
  or_panic (as_object runtime_project obj).

(** *** ServiceInstance *)

Record FakeServiceInstances := { FakeServiceInstances_Fake : FakeServicecatalogV1alpha1; FakeServiceInstances_ns : string }.
Definition serviceinstancesResource : GroupVersionResource := {| gvr_Group := "servicecatalog.k8s.io"; gvr_Version := "v1alpha1"; gvr_Resource := "serviceinstances" |}.
Definition serviceinstancesKind : GroupVersionKind := {| gvk_Group := "servicecatalog.k8s.io"; gvk_Version := "v1alpha1"; gvk_Kind := "ServiceInstance" |}.
Definition FakeServiceInstances_Create (c : FakeServiceInstances) (serviceInstance : ServiceInstance) : Calls (Returned ServiceInstance) :=
  obj ⟵ Invokes (NewCreateAction serviceinstancesResource (FakeServiceInstances_ns c) (runtime_inject serviceInstance)) (Some (One (runtime_inject (kind_zero : ServiceInstance))));
  or_panic (as_object runtime_project obj).
Definition FakeServiceInstances_Update (c : FakeServiceInstances) (serviceInstance : ServiceInstance) : Calls (Returned ServiceInstance) :=
  obj ⟵ Invokes (NewUpdateAction serviceinstancesResource (FakeServiceInstances_ns c) (runtime_inject serviceInstance)) (Some (One (runtime_inject (kind_zero : ServiceInstance))));
  or_panic (as_object runtime_project obj).
Definition FakeServiceInstances_UpdateStatus (c : FakeServiceInstances) (serviceInstance : ServiceInstance) : Calls (Returned ServiceInstance) :=
  obj ⟵ Invokes (NewUpdateSubresourceAction serviceinstancesResource "status" (FakeServiceInstances_ns c) (runtime_inject serviceInstance)) (Some (One (runtime_inject (kind_zero : ServiceInstance))));
  or_panic (as_object runtime_project obj).
Definition FakeServiceInstances_Delete (c : FakeServiceInstances) (name : string) (options : option DeleteOptions) : Calls (option error) :=
  obj ⟵ Invokes (NewDeleteAction serviceinstancesResource (FakeServiceInstances_ns c) name) (Some (One (runtime_inject (kind_zero : ServiceInstance))));
  or_panic (Some (snd obj)).
Definition FakeServiceInstances_DeleteCollection (c : FakeServiceInstances) (options : option DeleteOptions) (listOptions : ListOptions) : Calls (option error) :=
  action ⟵ or_panic (NewDeleteCollectionAction serviceinstancesResource (FakeServiceInstances_ns c) listOptions);
  obj ⟵ Invokes action (Some (ListOf "ServiceInstance" []));
  or_panic (Some (snd obj)).
Definition FakeServiceInstances_Get (c : FakeServiceInstances) (name : string) (options : GetOptions) : Calls (Returned ServiceInstance) :=
  obj ⟵ Invokes (NewGetAction serviceinstancesResource (FakeServiceInstances_ns c) name) (Some (One (runtime_inject (kind_zero : ServiceInstance))));
  or_panic (as_object runtime_project obj).
Definition FakeServiceInstances_List (c : FakeServiceInstances) (opts : ListOptions) : Calls (Returned ServiceInstanceList) :=
  action ⟵ or_panic (NewListAction serviceinstancesResource serviceinstancesKind (FakeServiceInstances_ns c) opts);
  obj ⟵ Invokes action (Some (ListOf "ServiceInstance" []));
  match obj with
  | (None, err) => or_panic (Some (None, err))
  | (Some obj, err) =>
      restrictions ⟵ or_panic (ExtractFromListOptions opts);
      items ⟵ or_panic (as_items "ServiceInstance" runtime_project obj);
      let label := fst (fst restrictions) in
      or_panic (Some (Some (list_of TypeMeta_zero ListMeta_zero (List.filter (fun item => label (kind_meta item)) items)), err))
  end.
Definition FakeServiceInstances_Watch (c : FakeServiceInstances) (opts : ListOptions) : Calls (option WI * option error) :=
  action ⟵ or_panic (NewWatchAction serviceinstancesResource (FakeServiceInstances_ns c) opts);
  InvokesWatch Format action.
Definition FakeServiceInstances_Patch (c : FakeServiceInstances) (name : string) (pt : string) (data : string) (subresources : list string) : Calls (Returned ServiceInstance) :=
  obj ⟵ Invokes (NewPatchSubresourceAction serviceinstancesResource (FakeServiceInstances_ns c) name data subresources) (Some (One (runtime_inject (kind_zero : ServiceInstance))));
  or_panic (as_object runtime_project obj).
Definition FakeServiceInstances_UpdateReferences (c : FakeServiceInstances) (serviceInstance : ServiceInstance) : Calls (Returned ServiceInstance) :=
  obj ⟵ Invokes (NewUpdateSubresourceAction serviceinstancesResource "reference" (FakeServiceInstances_ns c) (runtime_inject serviceInstance)) (Some (One (runtime_inject serviceInstance)));
  or_panic (as_object runtime_project obj).

(** *** ServiceInstanceCredential *)

Record FakeServiceInstanceCredentials := { FakeServiceInstanceCredentials_Fake : FakeServicecatalogV1alpha1; FakeServiceInstanceCredentials_ns : string }.
Definition serviceinstancecredentialsResource : GroupVersionResource := {| gvr_Group := "servicecatalog.k8s.io"; gvr_Version := "v1alpha1"; gvr_Resource := "serviceinstancecredentials" |}.
Definition serviceinstancecredentialsKind : GroupVersionKind := {| gvk_Group := "servicecatalog.k8s.io"; gvk_Version := "v1alpha1"; gvk_Kind := "ServiceInstanceCredential" |}.
Definition FakeServiceInstanceCredentials_Create (c : FakeServiceInstanceCredentials) (serviceInstanceCredential : ServiceInstanceCredential) : Calls (Returned ServiceInstanceCredential) :=
  obj ⟵ Invokes (NewCreateAction serviceinstancecredentialsResource (FakeServiceInstanceCredentials_ns c) (runtime_inject serviceInstanceCredential)) (Some (One (runtime_inject (kind_zero : ServiceInstanceCredential))));
  or_panic (as_object runtime_project obj).
Definition FakeServiceInstanceCredentials_Update (c : FakeServiceInstanceCredentials) (serviceInstanceCredential : ServiceInstanceCredential) : Calls (Returned ServiceInstanceCredential) :=
  obj ⟵ Invokes (NewUpdateAction serviceinstancecredentialsResource (FakeServiceInstanceCredentials_ns c) (runtime_inject serviceInstanceCredential)) (Some (One (runtime_inject (kind_zero : ServiceInstanceCredential))));
  or_panic (as_object runtime_project obj).
Definition FakeServiceInstanceCredentials_UpdateStatus (c : FakeServiceInstanceCredentials) (serviceInstanceCredential : ServiceInstanceCredential) : Calls (Returned ServiceInstanceCredential) :=
  obj ⟵ Invokes (NewUpdateSubresourceAction serviceinstancecredentialsResource "status" (FakeServiceInstanceCredentials_ns c) (runtime_inject serviceInstanceCredential)) (Some (One (runtime_inject (kind_zero : ServiceInstanceCredential))));
  or_panic (as_object runtime_project obj).
Definition FakeServiceInstanceCredentials_Delete (c : FakeServiceInstanceCredentials) (name : string) (options : option DeleteOptions) : Calls (option error) :=
  obj ⟵ Invokes (NewDeleteAction serviceinstancecredentialsResource (FakeServiceInstanceCredentials_ns c) name) (Some (One (runtime_inject (kind_zero : ServiceInstanceCredential))));
  or_panic (Some (snd obj)).
Definition FakeServiceInstanceCredentials_DeleteCollection (c : FakeServiceInstanceCredentials) (options : option DeleteOptions) (listOptions : ListOptions) : Calls (option error) :=
  action ⟵ or_panic (NewDeleteCollectionAction serviceinstancecredentialsResource (FakeServiceInstanceCredentials_ns c) listOptions);
  obj ⟵ Invokes action (Some (ListOf "ServiceInstanceCredential" []));
  or_panic (Some (snd obj)).
Definition FakeServiceInstanceCredentials_Get (c : FakeServiceInstanceCredentials) (name : string) (options : GetOptions) : Calls (Returned ServiceInstanceCredential) :=
  obj ⟵ Invokes (NewGetAction serviceinstancecredentialsResource (FakeServiceInstanceCredentials_ns c) name) (Some (One (runtime_inject (kind_zero : ServiceInstanceCredential))));
  or_panic (as_object runtime_project obj).
Definition FakeServiceInstanceCredentials_List (c : FakeServiceInstanceCredentials) (opts : ListOptions) : Calls (Returned ServiceInstanceCredentialList) :=
  action ⟵ or_panic (NewListAction serviceinstancecredentialsResource serviceinstancecredentialsKind (FakeServiceInstanceCredentials_ns c) opts);
  obj ⟵ Invokes action (Some (ListOf "ServiceInstanceCredential" []));
  match obj with
  | (None, err) => or_panic (Some (None, err))
  | (Some obj, err) =>
      restrictions ⟵ or_panic (ExtractFromListOptions opts);
      items ⟵ or_panic (as_items "ServiceInstanceCredential" runtime_project obj);
      let label := fst (fst restrictions) in
      or_panic (Some (Some (list_of TypeMeta_zero ListMeta_zero (List.filter (fun item => label (kind_meta item)) items)), err))
  end.
Definition FakeServiceInstanceCredentials_Watch (c : FakeServiceInstanceCredentials) (opts : ListOptions) : Calls (option WI * option error) :=
  action ⟵ or_panic (NewWatchAction serviceinstancecredentialsResource (FakeServiceInstanceCredentials_ns c) opts);
  InvokesWatch Format action.
Definition FakeServiceInstanceCredentials_Patch (c : FakeServiceInstanceCredentials) (name : string) (pt : string) (data : string) (subresources : list string) : Calls (Returned ServiceInstanceCredential) :=
  obj ⟵ Invokes (NewPatchSubresourceAction serviceinstancecredentialsResource (FakeServiceInstanceCredentials_ns c) name data subresources) (Some (One (runtime_inject (kind_zero : ServiceInstanceCredential))));
  or_panic (as_object runtime_project obj).

(** *** ServicePlan *)

Record FakeServicePlans := { FakeServicePlans_Fake : FakeServicecatalogV1alpha1 }.
Definition serviceplansResource : GroupVersionResource := {| gvr_Group := "servicecatalog.k8s.io"; gvr_Version := "v1alpha1"; gvr_Resource := "serviceplans" |}.
Definition serviceplansKind : GroupVersionKind := {| gvk_Group := "servicecatalog.k8s.io"; gvk_Version := "v1alpha1"; gvk_Kind := "ServicePlan" |}.
Definition FakeServicePlans_Create (c : FakeServicePlans) (servicePlan : ServicePlan) : Calls (Returned ServicePlan) :=
  obj ⟵ Invokes (NewRootCreateAction serviceplansResource (runtime_inject servicePlan)) (Some (One (runtime_inject (kind_zero : ServicePlan))));
  or_panic (as_object runtime_project obj).
Definition FakeServicePlans_Update (c : FakeServicePlans) (servicePlan : ServicePlan) : Calls (Returned ServicePlan) :=
  obj ⟵ Invokes (NewRootUpdateAction serviceplansResource (runtime_inject servicePlan)) (Some (One (runtime_inject (kind_zero : ServicePlan))));
  or_panic (as_object runtime_project obj).
Definition FakeServicePlans_Delete (c : FakeServicePlans) (name : string) (options : option DeleteOptions) : Calls (option error) :=
  obj ⟵ Invokes (NewRootDeleteAction serviceplansResource name) (Some (One (runtime_inject (kind_zero : ServicePlan))));
  or_panic (Some (snd obj)).
Definition FakeServicePlans_DeleteCollection (c : FakeServicePlans) (options : option DeleteOptions) (listOptions : ListOptions) : Calls (option error) :=
  action ⟵ or_panic (NewRootDeleteCollectionAction serviceplansResource listOptions);
  obj ⟵ Invokes action (Some (ListOf "ServicePlan" []));
  or_panic (Some (snd obj)).
Definition FakeServicePlans_Get (c : FakeServicePlans) (name : string) (options : GetOptions) : Calls (Returned ServicePlan) :=
  obj ⟵ Invokes (NewRootGetAction serviceplansResource name) (Some (One (runtime_inject (kind_zero : ServicePlan))));
  or_panic (as_object runtime_project obj).
Definition FakeServicePlans_List (c : FakeServicePlans) (opts : ListOptions) : Calls (Returned ServicePlanList) :=
  action ⟵ or_panic (NewRootListAction serviceplansResource serviceplansKind opts);
  obj ⟵ Invokes action (Some (ListOf "ServicePlan" []));
  match obj with
  | (None, err) => or_panic (Some (None, err))
  | (Some obj, err) =>
      restrictions ⟵ or_panic (ExtractFromListOptions opts);
      items ⟵ or_panic (as_items "ServicePlan" runtime_project obj);
      let label := fst (fst restrictions) in
      or_panic (Some (Some (list_of TypeMeta_zero ListMeta_zero (List.filter (fun item => label (kind_meta item)) items)), err))
  end.
Definition FakeServicePlans_Watch (c : FakeServicePlans) (opts : ListOptions) : Calls (option WI * option error) :=
  action ⟵ or_panic (NewRootWatchAction serviceplansResource opts);
  InvokesWatch Format action.
Definition FakeServicePlans_Patch (c : FakeServicePlans) (name : string) (pt : string) (data : string) (subresources : list string) : Calls (Returned ServicePlan) :=
  obj ⟵ Invokes (NewRootPatchSubresourceAction serviceplansResource name data subresources) (Some (One (runtime_inject (kind_zero : ServicePlan))));
  or_panic (as_object runtime_project obj).

(** *** The client of the group *)

Definition FakeServicecatalogV1alpha1_ClusterServiceBrokers (c : FakeServicecatalogV1alpha1) : FakeClusterServiceBrokers := {| FakeClusterServiceBrokers_Fake := c |}.
Definition FakeServicecatalogV1alpha1_ServiceClasses (c : FakeServicecatalogV1alpha1) : FakeServiceClasses := {| FakeServiceClasses_Fake := c |}.
Definition FakeServicecatalogV1alpha1_ServiceInstances (c : FakeServicecatalogV1alpha1) (namespace : string) : FakeServiceInstances := {| FakeServiceInstances_Fake := c; FakeServiceInstances_ns := namespace |}.
Definition FakeServicecatalogV1alpha1_ServiceInstanceCredentials (c : FakeServicecatalogV1alpha1) (namespace : string) : FakeServiceInstanceCredentials := {| FakeServiceInstanceCredentials_Fake := c; FakeServiceInstanceCredentials_ns := namespace |}.
Definition FakeServicecatalogV1alpha1_ServicePlans (c : FakeServicecatalogV1alpha1) : FakeServicePlans := {| FakeServicePlans_Fake := c |}.
Definition FakeServicecatalogV1alpha1_RESTClient (c : FakeServicecatalogV1alpha1) : option RESTClient := None.

Definition Clientset_ServicecatalogV1alpha1 (c : FakeClientset RObject X WI) : FakeServicecatalogV1alpha1 := fake_group.
Definition Clientset_Servicecatalog (c : FakeClientset RObject X WI) : FakeServicecatalogV1alpha1 := fake_group.
End versioned.

(** ** The fake clients of the internal types *)

(** The clients of a group point to the [Fake] of their client set. *)
Record internal_FakeServicecatalog := internal_fake_group { }.

Section internal.
Context {LS : LabelSyntax} {X WI : Type} (Format : string -> FakeAction IObject -> string).
Notation Calls := (FakeM IObject X WI).

(** *** ClusterServiceBroker *)

Record internal_FakeClusterServiceBrokers := { internal_FakeClusterServiceBrokers_Fake : internal_FakeServicecatalog }.
Definition internal_clusterservicebrokersResource : GroupVersionResource := {| gvr_Group := "servicecatalog.k8s.io"; gvr_Version := ""; gvr_Resource := "clusterservicebrokers" |}.
Definition internal_clusterservicebrokersKind : GroupVersionKind := {| gvk_Group := "servicecatalog.k8s.io"; gvk_Version := ""; gvk_Kind := "ClusterServiceBroker" |}.
Definition internal_FakeClusterServiceBrokers_Create (c : internal_FakeClusterServiceBrokers) (clusterServiceBroker : servicecatalog.ClusterServiceBroker) : Calls (Returned servicecatalog.ClusterServiceBroker) :=
  obj ⟵ Invokes (NewRootCreateAction internal_clusterservicebrokersResource (runtime_inject clusterServiceBroker)) (Some (One (runtime_inject (kind_zero : servicecatalog.ClusterServiceBroker))));
  or_panic (as_object runtime_project obj).
Definition internal_FakeClusterServiceBrokers_Update (c : internal_FakeClusterServiceBrokers) (clusterServiceBroker : servicecatalog.ClusterServiceBroker) : Calls (Returned servicecatalog.ClusterServiceBroker) :=
  obj ⟵ Invokes (NewRootUpdateAction internal_clusterservicebrokersResource (runtime_inject clusterServiceBroker)) (Some (One (runtime_inject (kind_zero : servicecatalog.ClusterServiceBroker))));
  or_panic (as_object runtime_project obj).
Definition internal_FakeClusterServiceBrokers_UpdateStatus (c : internal_FakeClusterServiceBrokers) (clusterServiceBroker : servicecatalog.ClusterServiceBroker) : Calls (Returned servicecatalog.ClusterServiceBroker) :=
  obj ⟵ Invokes (NewRootUpdateSubresourceAction internal_clusterservicebrokersResource "status" (runtime_inject clusterServiceBroker)) (Some (One (runtime_inject (kind_zero : servicecatalog.ClusterServiceBroker))));
  or_panic (as_object runtime_project obj).
Definition internal_FakeClusterServiceBrokers_Delete (c : internal_FakeClusterServiceBrokers) (name : string) (options : option DeleteOptions) : Calls (option error) :=
  obj ⟵ Invokes (NewRootDeleteAction internal_clusterservicebrokersResource name) (Some (One (runtime_inject (kind_zero : servicecatalog.ClusterServiceBroker))));
  or_panic (Some (snd obj)).
Definition internal_FakeClusterServiceBrokers_DeleteCollection (c : internal_FakeClusterServiceBrokers) (options : option DeleteOptions) (listOptions : ListOptions) : Calls (option error) :=
  action ⟵ or_panic (NewRootDeleteCollectionAction internal_clusterservicebrokersResource listOptions);
  obj ⟵ Invokes action (Some (ListOf "ClusterServiceBroker" []));
  or_panic (Some (snd obj)).
Definition internal_FakeClusterServiceBrokers_Get (c : internal_FakeClusterServiceBrokers) (name : string) (options : GetOptions) : Calls (Returned servicecatalog.ClusterServiceBroker) :=
  obj ⟵ Invokes (NewRootGetAction internal_clusterservicebrokersResource name) (Some (One (runtime_inject (kind_zero : servicecatalog.ClusterServiceBroker))));
  or_panic (as_object runtime_project obj).
Definition internal_FakeClusterServiceBrokers_List (c : internal_FakeClusterServiceBrokers) (opts : ListOptions) : Calls (Returned servicecatalog.ClusterServiceBrokerList) :=
  action ⟵ or_panic (NewRootListAction internal_clusterservicebrokersResource internal_clusterservicebrokersKind opts);
  obj ⟵ Invokes action (Some (ListOf "ClusterServiceBroker" []));
  match obj with
  | (None, err) => or_panic (Some (None, err))
  | (Some obj, err) =>
      restrictions ⟵ or_panic (ExtractFromListOptions opts);
      items ⟵ or_panic (as_items "ClusterServiceBroker" runtime_project obj);
      let label := fst (fst restrictions) in
      or_panic (Some (Some (list_of TypeMeta_zero ListMeta_zero (List.filter (fun item => label (kind_meta item)) items)), err))
  end.
Definition internal_FakeClusterServiceBrokers_Watch (c : internal_FakeClusterServiceBrokers) (opts : ListOptions) : Calls (option WI * option error) :=
  action ⟵ or_panic (NewRootWatchAction internal_clusterservicebrokersResource opts);
  InvokesWatch Format action.
Definition internal_FakeClusterServiceBrokers_Patch (c : internal_FakeClusterServiceBrokers) (name : string) (pt : string) (data : string) (subresources : list string) : Calls (Returned servicecatalog.ClusterServiceBroker) :=
  obj ⟵ Invokes (NewRootPatchSubresourceAction internal_clusterservicebrokersResource name data subresources) (Some (One (runtime_inject (kind_zero : servicecatalog.ClusterServiceBroker))));
  or_panic (as_object runtime_project obj).

(** *** ServiceClass *)

Record internal_FakeServiceClasses := { internal_FakeServiceClasses_Fake : internal_FakeServicecatalog }.
Definition internal_serviceclassesResource : GroupVersionResource := {| gvr_Group := "servicecatalog.k8s.io"; gvr_Version := ""; gvr_Resource := "serviceclasses" |}.
Definition internal_serviceclassesKind : GroupVersionKind := {| gvk_Group := "servicecatalog.k8s.io"; gvk_Version := ""; gvk_Kind := "ServiceClass" |}.
Definition internal_FakeServiceClasses_Create (c : internal_FakeServiceClasses) (serviceClass : servicecatalog.ServiceClass) : Calls (Returned servicecatalog.ServiceClass) :=
  obj ⟵ Invokes (NewRootCreateAction internal_serviceclassesResource (runtime_inject serviceClass)) (Some (One (runtime_inject (kind_zero : servicecatalog.ServiceClass))));
  or_panic (as_object runtime_project obj).
Definition internal_FakeServiceClasses_Update (c : internal_FakeServiceClasses) (serviceClass : servicecatalog.ServiceClass) : Calls (Returned servicecatalog.ServiceClass) :=
  obj ⟵ Invokes (NewRootUpdateAction internal_serviceclassesResource (runtime_inject serviceClass)) (Some (One (runtime_inject (kind_zero : servicecatalog.ServiceClass))));
  or_panic (as_object runtime_project obj).
Definition internal_FakeServiceClasses_Delete (c : internal_FakeServiceClasses) (name : string) (options : option DeleteOptions) : Calls (option error) :=
  obj ⟵ Invokes (NewRootDeleteAction internal_serviceclassesResource name) (Some (One (runtime_inject (kind_zero : servicecatalog.ServiceClass))));
  or_panic (Some (snd obj)).
Definition internal_FakeServiceClasses_DeleteCollection (c : internal_FakeServiceClasses) (options : option DeleteOptions) (listOptions : ListOptions) : Calls (option error) :=
  action ⟵ or_panic (NewRootDeleteCollectionAction internal_serviceclassesResource listOptions);
  obj ⟵ Invokes action (Some (ListOf "ServiceClass" []));
  or_panic (Some (snd obj)).
Definition internal_FakeServiceClasses_Get (c : internal_FakeServiceClasses) (name : string) (options : GetOptions) : Calls (Returned servicecatalog.ServiceClass) :=
  obj ⟵ Invokes (NewRootGetAction internal_serviceclassesResource name) (Some (One (runtime_inject (kind_zero : servicecatalog.ServiceClass))));
  or_panic (as_object runtime_project obj).
Definition internal_FakeServiceClasses_List (c : internal_FakeServiceClasses) (opts : ListOptions) : Calls (Returned servicecatalog.ServiceClassList) :=
  action ⟵ or_panic (NewRootListAction internal_serviceclassesResource internal_serviceclassesKind opts);
  obj ⟵ Invokes action (Some (ListOf "ServiceClass" []));
  match obj with
  | (None, err) => or_panic (Some (None, err))
  | (Some obj, err) =>
      restrictions ⟵ or_panic (ExtractFromListOptions opts);
      items ⟵ or_panic (as_items "ServiceClass" runtime_project obj);
      let label := fst (fst restrictions) in
      or_panic (Some (Some (list_of TypeMeta_zero ListMeta_zero (List.filter (fun item => label (kind_meta item)) items)), err))
  end.
Definition internal_FakeServiceClasses_Watch (c : internal_FakeServiceClasses) (opts : ListOptions) : Calls (option WI * option error) :=
  action ⟵ or_panic (NewRootWatchAction internal_serviceclassesResource opts);
  InvokesWatch Format action.
Definition internal_FakeServiceClasses_Patch (c : internal_FakeServiceClasses) (name : string) (pt : string) (data : string) (subresources : list string) : Calls (Returned servicecatalog.ServiceClass) :=
  obj ⟵ Invokes (NewRootPatchSubresourceAction internal_serviceclassesResource name data subresources) (Some (One (runtime_inject (kind_zero : servicecatalog.ServiceClass))));
  or_panic (as_object runtime_project obj).

(** *** ServiceInstance *)

Record internal_FakeServiceInstances := { internal_FakeServiceInstances_Fake : internal_FakeServicecatalog; internal_FakeServiceInstances_ns : string }.
Definition internal_serviceinstancesResource : GroupVersionResource := {| gvr_Group := "servicecatalog.k8s.io"; gvr_Version := ""; gvr_Resource := "serviceinstances" |}.
Definition internal_serviceinstancesKind : GroupVersionKind := {| gvk_Group := "servicecatalog.k8s.io"; gvk_Version := ""; gvk_Kind := "ServiceInstance" |}.
Definition internal_FakeServiceInstances_Create (c : internal_FakeServiceInstances) (serviceInstance : servicecatalog.ServiceInstance) : Calls (Returned servicecatalog.ServiceInstance) :=
  obj ⟵ Invokes (NewCreateAction internal_serviceinstancesResource (internal_FakeServiceInstances_ns c) (runtime_inject serviceInstance)) (Some (One (runtime_inject (kind_zero : servicecatalog.ServiceInstance))));
  or_panic (as_object runtime_project obj).
Definition internal_FakeServiceInstances_Update (c : internal_FakeServiceInstances) (serviceInstance : servicecatalog.ServiceInstance) : Calls (Returned servicecatalog.ServiceInstance) :=
  obj ⟵ Invokes (NewUpdateAction internal_serviceinstancesResource (internal_FakeServiceInstances_ns c) (runtime_inject serviceInstance)) (Some (One (runtime_inject (kind_zero : servicecatalog.ServiceInstance))));
  or_panic (as_object runtime_project obj).
Definition internal_FakeServiceInstances_UpdateStatus (c : internal_FakeServiceInstances) (serviceInstance : servicecatalog.ServiceInstance) : Calls (Returned servicecatalog.ServiceInstance) :=
  obj ⟵ Invokes (NewUpdateSubresourceAction internal_serviceinstancesResource "status" (internal_FakeServiceInstances_ns c) (runtime_inject serviceInstance)) (Some (One (runtime_inject (kind_zero : servicecatalog.ServiceInstance))));
  or_panic (as_object runtime_project obj).
Definition internal_FakeServiceInstances_Delete (c : internal_FakeServiceInstances) (name : string) (options : option DeleteOptions) : Calls (option error) :=
  obj ⟵ Invokes (NewDeleteAction internal_serviceinstancesResource (internal_FakeServiceInstances_ns c) name) (Some (One (runtime_inject (kind_zero : servicecatalog.ServiceInstance))));
  or_panic (Some (snd obj)).
Definition internal_FakeServiceInstances_DeleteCollection (c : internal_FakeServiceInstances) (options : option DeleteOptions) (listOptions : ListOptions) : Calls (option error) :=
  action ⟵ or_panic (NewDeleteCollectionAction internal_serviceinstancesResource (internal_FakeServiceInstances_ns c) listOptions);
  obj ⟵ Invokes action (Some (ListOf "ServiceInstance" []));
  or_panic (Some (snd obj)).
Definition internal_FakeServiceInstances_Get (c : internal_FakeServiceInstances) (name : string) (options : GetOptions) : Calls (Returned servicecatalog.ServiceInstance) :=
  obj ⟵ Invokes (NewGetAction internal_serviceinstancesResource (internal_FakeServiceInstances_ns c) name) (Some (One (runtime_inject (kind_zero : servicecatalog.ServiceInstance))));
  or_panic (as_object runtime_project obj).
Definition internal_FakeServiceInstances_List (c : internal_FakeServiceInstances) (opts : ListOptions) : Calls (Returned servicecatalog.ServiceInstanceList) :=
  action ⟵ or_panic (NewListAction internal_serviceinstancesResource internal_serviceinstancesKind (internal_FakeServiceInstances_ns c) opts);
  obj ⟵ Invokes action (Some (ListOf "ServiceInstance" []));
  match obj with
  | (None, err) => or_panic (Some (None, err))
  | (Some obj, err) =>
      restrictions ⟵ or_panic (ExtractFromListOptions opts);
      items ⟵ or_panic (as_items "ServiceInstance" runtime_project obj);
      let label := fst (fst restrictions) in
      or_panic (Some (Some (list_of TypeMeta_zero ListMeta_zero (List.filter (fun item => label (kind_meta item)) items)), err))
  end.
Definition internal_FakeServiceInstances_Watch (c : internal_FakeServiceInstances) (opts : ListOptions) : Calls (option WI * option error) :=
  action ⟵ or_panic (NewWatchAction internal_serviceinstancesResource (internal_FakeServiceInstances_ns c) opts);
  InvokesWatch Format action.
Definition internal_FakeServiceInstances_Patch (c : internal_FakeServiceInstances) (name : string) (pt : string) (data : string) (subresources : list string) : Calls (Returned servicecatalog.ServiceInstance) :=
  obj ⟵ Invokes (NewPatchSubresourceAction internal_serviceinstancesResource (internal_FakeServiceInstances_ns c) name data subresources) (Some (One (runtime_inject (kind_zero : servicecatalog.ServiceInstance))));
  or_panic (as_object runtime_project obj).

(** *** ServiceInstanceCredential *)

Record internal_FakeServiceInstanceCredentials := { internal_FakeServiceInstanceCredentials_Fake : internal_FakeServicecatalog; internal_FakeServiceInstanceCredentials_ns : string }.
Definition internal_serviceinstancecredentialsResource : GroupVersionResource := {| gvr_Group := "servicecatalog.k8s.io"; gvr_Version := ""; gvr_Resource := "serviceinstancecredentials" |}.
Definition internal_serviceinstancecredentialsKind : GroupVersionKind := {| gvk_Group := "servicecatalog.k8s.io"; gvk_Version := ""; gvk_Kind := "ServiceInstanceCredential" |}.
Definition internal_FakeServiceInstanceCredentials_Create (c : internal_FakeServiceInstanceCredentials) (serviceInstanceCredential : servicecatalog.ServiceInstanceCredential) : Calls (Returned servicecatalog.ServiceInstanceCredential) :=
  obj ⟵ Invokes (NewCreateAction internal_serviceinstancecredentialsResource (internal_FakeServiceInstanceCredentials_ns c) (runtime_inject serviceInstanceCredential)) (Some (One (runtime_inject (kind_zero : servicecatalog.ServiceInstanceCredential))));
  or_panic (as_object runtime_project obj).
Definition internal_FakeServiceInstanceCredentials_Update (c : internal_FakeServiceInstanceCredentials) (serviceInstanceCredential : servicecatalog.ServiceInstanceCredential) : Calls (Returned servicecatalog.ServiceInstanceCredential) :=
  obj ⟵ Invokes (NewUpdateAction internal_serviceinstancecredentialsResource (internal_FakeServiceInstanceCredentials_ns c) (runtime_inject serviceInstanceCredential)) (Some (One (runtime_inject (kind_zero : servicecatalog.ServiceInstanceCredential))));
  or_panic (as_object runtime_project obj).
Definition internal_FakeServiceInstanceCredentials_UpdateStatus (c : internal_FakeServiceInstanceCredentials) (serviceInstanceCredential : servicecatalog.ServiceInstanceCredential) : Calls (Returned servicecatalog.ServiceInstanceCredential) :=
  obj ⟵ Invokes (NewUpdateSubresourceAction internal_serviceinstancecredentialsResource "status" (internal_FakeServiceInstanceCredentials_ns c) (runtime_inject serviceInstanceCredential)) (Some (One (runtime_inject (kind_zero : servicecatalog.ServiceInstanceCredential))));
  or_panic (as_object runtime_project obj).
Definition internal_FakeServiceInstanceCredentials_Delete (c : internal_FakeServiceInstanceCredentials) (name : string) (options : option DeleteOptions) : Calls (option error) :=
  obj ⟵ Invokes (NewDeleteAction internal_serviceinstancecredentialsResource (internal_FakeServiceInstanceCredentials_ns c) name) (Some (One (runtime_inject (kind_zero : servicecatalog.ServiceInstanceCredential))));
  or_panic (Some (snd obj)).
Definition internal_FakeServiceInstanceCredentials_DeleteCollection (c : internal_FakeServiceInstanceCredentials) (options : option DeleteOptions) (listOptions : ListOptions) : Calls (option error) :=
  action ⟵ or_panic (NewDeleteCollectionAction internal_serviceinstancecredentialsResource (internal_FakeServiceInstanceCredentials_ns c) listOptions);
  obj ⟵ Invokes action (Some (ListOf "ServiceInstanceCredential" []));
  or_panic (Some (snd obj)).
Definition internal_FakeServiceInstanceCredentials_Get (c : internal_FakeServiceInstanceCredentials) (name : string) (options : GetOptions) : Calls (Returned servicecatalog.ServiceInstanceCredential) :=
  obj ⟵ Invokes (NewGetAction internal_serviceinstancecredentialsResource (internal_FakeServiceInstanceCredentials_ns c) name) (Some (One (runtime_inject (kind_zero : servicecatalog.ServiceInstanceCredential))));
  or_panic (as_object runtime_project obj).
Definition internal_FakeServiceInstanceCredentials_List (c : internal_FakeServiceInstanceCredentials) (opts : ListOptions) : Calls (Returned servicecatalog.ServiceInstanceCredentialList) :=
  action ⟵ or_panic (NewListAction internal_serviceinstancecredentialsResource internal_serviceinstancecredentialsKind (internal_FakeServiceInstanceCredentials_ns c) opts);
  obj ⟵ Invokes action (Some (ListOf "ServiceInstanceCredential" []));
  match obj with
  | (None, err) => or_panic (Some (None, err))
  | (Some obj, err) =>
      restrictions ⟵ or_panic (ExtractFromListOptions opts);
      items ⟵ or_panic (as_items "ServiceInstanceCredential" runtime_project obj);
      let label := fst (fst restrictions) in
      or_panic (Some (Some (list_of TypeMeta_zero ListMeta_zero (List.filter (fun item => label (kind_meta item)) items)), err))
  end.
Definition internal_FakeServiceInstanceCredentials_Watch (c : internal_FakeServiceInstanceCredentials) (opts : ListOptions) : Calls (option WI * option error) :=
  action ⟵ or_panic (NewWatchAction internal_serviceinstancecredentialsResource (internal_FakeServiceInstanceCredentials_ns c) opts);
  InvokesWatch Format action.
Definition internal_FakeServiceInstanceCredentials_Patch (c : internal_FakeServiceInstanceCredentials) (name : string) (pt : string) (data : string) (subresources : list string) : Calls (Returned servicecatalog.ServiceInstanceCredential) :=
  obj ⟵ Invokes (NewPatchSubresourceAction internal_serviceinstancecredentialsResource (internal_FakeServiceInstanceCredentials_ns c) name data subresources) (Some (One (runtime_inject (kind_zero : servicecatalog.ServiceInstanceCredential))));
  or_panic (as_object runtime_project obj).

(** *** ServicePlan *)

Record internal_FakeServicePlans := { internal_FakeServicePlans_Fake : internal_FakeServicecatalog }.
Definition internal_serviceplansResource : GroupVersionResource := {| gvr_Group := "servicecatalog.k8s.io"; gvr_Version := ""; gvr_Resource := "serviceplans" |}.
Definition internal_serviceplansKind : GroupVersionKind := {| gvk_Group := "servicecatalog.k8s.io"; gvk_Version := ""; gvk_Kind := "ServicePlan" |}.
Definition internal_FakeServicePlans_Create (c : internal_FakeServicePlans) (servicePlan : servicecatalog.ServicePlan) : Calls (Returned servicecatalog.ServicePlan) :=
  obj ⟵ Invokes (NewRootCreateAction internal_serviceplansResource (runtime_inject servicePlan)) (Some (One (runtime_inject (kind_zero : servicecatalog.ServicePlan))));
  or_panic (as_object runtime_project obj).
Definition internal_FakeServicePlans_Update (c : internal_FakeServicePlans) (servicePlan : servicecatalog.ServicePlan) : Calls (Returned servicecatalog.ServicePlan) :=
  obj ⟵ Invokes (NewRootUpdateAction internal_serviceplansResource (runtime_inject servicePlan)) (Some (One (runtime_inject (kind_zero : servicecatalog.ServicePlan))));
  or_panic (as_object runtime_project obj).
Definition internal_FakeServicePlans_Delete (c : internal_FakeServicePlans) (name : string) (options : option DeleteOptions) : Calls (option error) :=
  obj ⟵ Invokes (NewRootDeleteAction internal_serviceplansResource name) (Some (One (runtime_inject (kind_zero : servicecatalog.ServicePlan))));
  or_panic (Some (snd obj)).
Definition internal_FakeServicePlans_DeleteCollection (c : internal_FakeServicePlans) (options : option DeleteOptions) (listOptions : ListOptions) : Calls (option error) :=
  action ⟵ or_panic (NewRootDeleteCollectionAction internal_serviceplansResource listOptions);
  obj ⟵ Invokes action (Some (ListOf "ServicePlan" []));
  or_panic (Some (snd obj)).
Definition internal_FakeServicePlans_Get (c : internal_FakeServicePlans) (name : string) (options : GetOptions) : Calls (Returned servicecatalog.ServicePlan) :=
  obj ⟵ Invokes (NewRootGetAction internal_serviceplansResource name) (Some (One (runtime_inject (kind_zero : servicecatalog.ServicePlan))));
  or_panic (as_object runtime_project obj).
Definition internal_FakeServicePlans_List (c : internal_FakeServicePlans) (opts : ListOptions) : Calls (Returned servicecatalog.ServicePlanList) :=
  action ⟵ or_panic (NewRootListAction internal_serviceplansResource internal_serviceplansKind opts);
  obj ⟵ Invokes action (Some (ListOf "ServicePlan" []));
  match obj with
  | (None, err) => or_panic (Some (None, err))
  | (Some obj, err) =>
      restrictions ⟵ or_panic (ExtractFromListOptions opts);
      items ⟵ or_panic (as_items "ServicePlan" runtime_project obj);
      let label := fst (fst restrictions) in
      or_panic (Some (Some (list_of TypeMeta_zero ListMeta_zero (List.filter (fun item => label (kind_meta item)) items)), err))
  end.
Definition internal_FakeServicePlans_Watch (c : internal_FakeServicePlans) (opts : ListOptions) : Calls (option WI * option error) :=
  action ⟵ or_panic (NewRootWatchAction internal_serviceplansResource opts);
  InvokesWatch Format action.
Definition internal_FakeServicePlans_Patch (c : internal_FakeServicePlans) (name : string) (pt : string) (data : string) (subresources : list string) : Calls (Returned servicecatalog.ServicePlan) :=
  obj ⟵ Invokes (NewRootPatchSubresourceAction internal_serviceplansResource name data subresources) (Some (One (runtime_inject (kind_zero : servicecatalog.ServicePlan))));
  or_panic (as_object runtime_project obj).

(** *** The client of the group *)

Definition internal_FakeServicecatalog_ClusterServiceBrokers (c : internal_FakeServicecatalog) : internal_FakeClusterServiceBrokers := {| internal_FakeClusterServiceBrokers_Fake := c |}.
Definition internal_FakeServicecatalog_ServiceClasses (c : internal_FakeServicecatalog) : internal_FakeServiceClasses := {| internal_FakeServiceClasses_Fake := c |}.
Definition internal_FakeServicecatalog_ServiceInstances (c : internal_FakeServicecatalog) (namespace : string) : internal_FakeServiceInstances := {| internal_FakeServiceInstances_Fake := c; internal_FakeServiceInstances_ns := namespace |}.
Definition internal_FakeServicecatalog_ServiceInstanceCredentials (c : internal_FakeServicecatalog) (namespace : string) : internal_FakeServiceInstanceCredentials := {| internal_FakeServiceInstanceCredentials_Fake := c; internal_FakeServiceInstanceCredentials_ns := namespace |}.
Definition internal_FakeServicecatalog_ServicePlans (c : internal_FakeServicecatalog) : internal_FakeServicePlans := {| internal_FakeServicePlans_Fake := c |}.
Definition internal_FakeServicecatalog_RESTClient (c : internal_FakeServicecatalog) : option RESTClient := None.

Definition internal_NewSimpleClientset : WI -> X -> list (RunObject IObject) -> option (FakeClientset IObject X WI) := NewSimpleClientset Format.
Definition internal_Clientset_Discovery : FakeClientset IObject X WI -> FakeDiscovery := Clientset_Discovery.
Definition internal_Clientset_Servicecatalog (c : FakeClientset IObject X WI) : internal_FakeServicecatalog := internal_fake_group.
End internal.

(** ** One interface for the fake clients *)

(** A type of objects of a scheme: how the scheme sees it. *)
Class FakeType (O A : Type) `{ObjectScheme O, ObjectType O A, ApiKind A} := {
  ft_kind : string;
  ft_with_meta : ObjectMeta -> A -> A;
  ft_project a : runtime_project (runtime_inject a) = Some a;
  ft_meta a : obj_meta (runtime_inject a) = kind_meta a;
  ft_with m a : obj_with_meta m (runtime_inject a) = runtime_inject (ft_with_meta m a);
  ft_new_meta m a : kind_meta (ft_with_meta m a) = m;
  ft_same_meta a : ft_with_meta (kind_meta a) a = a;
  ft_kind_of a : obj_kind (runtime_inject a) = ft_kind }.

(** A client: the namespace it works in is empty for resources without one; an
    update has the subresource it names. *)
Class FakeClient (O X WI K A L : Type) `{ObjectScheme O, ObjectType O A, ApiKind A, ApiList L A} {LS : LabelSyntax} := {
  fc_resource : GroupVersionResource;
  fc_gvk : GroupVersionKind;
  fc_ns : K -> string;
  fc_Create : K -> A -> FakeM O X WI (Returned A);
  fc_updates : list (string * (K -> A -> FakeM O X WI (Returned A)));
  fc_Delete : K -> string -> option DeleteOptions -> FakeM O X WI (option error);
  fc_DeleteCollection : K -> option DeleteOptions -> ListOptions -> FakeM O X WI (option error);
  fc_Get : K -> string -> GetOptions -> FakeM O X WI (Returned A);
  fc_List : K -> ListOptions -> FakeM O X WI (Returned L);
  fc_Patch : K -> string -> string -> string -> list string -> FakeM O X WI (Returned A) }.

Section template.
Context {O X WI A L : Type} `{ObjectScheme O, ObjectType O A, ApiKind A, ApiList L A} {LS : LabelSyntax}.

Definition item_call (action : FakeAction O) (dflt : A) : FakeM O X WI (Returned A) :=
  obj ⟵ Invokes action (Some (One (runtime_inject dflt)));
  or_panic (as_object runtime_project obj).
Definition delete_call (action : FakeAction O) : FakeM O X WI (option error) :=
  obj ⟵ Invokes action (Some (One (runtime_inject (kind_zero : A))));
  or_panic (Some (snd obj)).
Definition collection_call (action : option (FakeAction O)) (kind : string) : FakeM O X WI (option error) :=
  action ⟵ or_panic action;
  obj ⟵ Invokes action (Some (ListOf kind []));
  or_panic (Some (snd obj)).
Definition list_call (action : option (FakeAction O)) (kind : string) (opts : ListOptions) : FakeM O X WI (Returned L) :=
  action ⟵ or_panic action;
  obj ⟵ Invokes action (Some (ListOf kind []));
  match obj with
  | (None, err) => or_panic (Some (None, err))
  | (Some obj, err) =>
      restrictions ⟵ or_panic (ExtractFromListOptions opts);
      items ⟵ or_panic (as_items kind runtime_project obj);
      let label := fst (fst restrictions) in
      or_panic (Some (Some (list_of TypeMeta_zero ListMeta_zero (List.filter (fun item => label (kind_meta item)) items)), err))
  end.
End template.

(** The methods are those of the template; seeded objects are filed where the
    client looks, and the scheme knows the list it asks for. *)
Class FakeClientLaws (O X WI K A L : Type) `{FC : FakeClient O X WI K A L, !FakeType O A} := {
  fc_Create_law k a : fc_Create k a = item_call (NewCreateAction fc_resource (fc_ns k) (runtime_inject a)) kind_zero;
  fc_update_law sub upd k a : In (sub, upd) fc_updates -> exists dflt,
    upd k a = item_call (NewUpdateSubresourceAction fc_resource sub (fc_ns k) (runtime_inject a)) dflt;
  fc_Delete_law k name options : fc_Delete k name options = delete_call (A := A) (NewDeleteAction fc_resource (fc_ns k) name);
  fc_DeleteCollection_law k options opts : fc_DeleteCollection k options opts = collection_call (NewDeleteCollectionAction fc_resource (fc_ns k) opts) ft_kind;
  fc_Get_law k name options : fc_Get k name options = item_call (NewGetAction fc_resource (fc_ns k) name) kind_zero;
  fc_List_law k opts : fc_List k opts = list_call (NewListAction fc_resource fc_gvk (fc_ns k) opts) ft_kind opts;
  fc_Patch_law k name pt data subs : fc_Patch k name pt data subs = item_call (NewPatchSubresourceAction fc_resource (fc_ns k) name data subs) kind_zero;
  fc_list_known : New_list (O := O) {| gvk_Group := gvk_Group fc_gvk; gvk_Version := if bool_decide (gvk_Version fc_gvk = "") then APIVersionInternal else gvk_Version fc_gvk;
              gvk_Kind := gvk_Kind fc_gvk +:+ "List" |} = inl ft_kind;
  fc_filed (o : O) : filed_under (kind_in_scheme (O := O) (obj_kind o)) = fc_resource <-> exists a : A, o = runtime_inject a }.

(** ** The types of the two schemes *)

#[export] Instance RObject_ServiceInstance_fake : FakeType RObject ServiceInstance.
Proof.
  refine {| ft_kind := "ServiceInstance"; ft_with_meta m x := {| si_TypeMeta := si_TypeMeta x; si_Meta := m; si_Spec := si_Spec x; si_Status := si_Status x |} |}; try done; by intros [].
Defined.
#[export] Instance RObject_ServiceInstanceCredential_fake : FakeType RObject ServiceInstanceCredential.
Proof.
  refine {| ft_kind := "ServiceInstanceCredential"; ft_with_meta m x := {| bind_TypeMeta := bind_TypeMeta x; bind_Meta := m; bind_Spec := bind_Spec x; bind_Status := bind_Status x |} |}; try done; by intros [].
Defined.
#[export] Instance RObject_ClusterServiceBroker_fake : FakeType RObject ClusterServiceBroker.
Proof.
  refine {| ft_kind := "ClusterServiceBroker"; ft_with_meta m x := {| b_TypeMeta := b_TypeMeta x; b_Meta := m; b_Spec := b_Spec x; b_Status := b_Status x |} |}; try done; by intros [].
Defined.
#[export] Instance RObject_ServiceClass_fake : FakeType RObject ServiceClass.
Proof.
  refine {| ft_kind := "ServiceClass"; ft_with_meta m x := {| sc_TypeMeta := sc_TypeMeta x; sc_Meta := m; sc_Spec := sc_Spec x |} |}; try done; by intros [].
Defined.
#[export] Instance RObject_ServicePlan_fake : FakeType RObject ServicePlan.
Proof.
  refine {| ft_kind := "ServicePlan"; ft_with_meta m x := {| sp_TypeMeta := sp_TypeMeta x; sp_Meta := m; sp_Spec := sp_Spec x |} |}; try done; by intros [].
Defined.
#[export] Instance IObject_ServiceInstance_fake : FakeType IObject servicecatalog.ServiceInstance.
Proof.
  refine {| ft_kind := "ServiceInstance"; ft_with_meta m x := {| servicecatalog.si_TypeMeta := servicecatalog.si_TypeMeta x; servicecatalog.si_Meta := m; servicecatalog.si_Spec := servicecatalog.si_Spec x; servicecatalog.si_Status := servicecatalog.si_Status x |} |}; try done; by intros [].
Defined.
#[export] Instance IObject_ServiceInstanceCredential_fake : FakeType IObject servicecatalog.ServiceInstanceCredential.
Proof.
  refine {| ft_kind := "ServiceInstanceCredential"; ft_with_meta m x := {| servicecatalog.bind_TypeMeta := servicecatalog.bind_TypeMeta x; servicecatalog.bind_Meta := m; servicecatalog.bind_Spec := servicecatalog.bind_Spec x; servicecatalog.bind_Status := servicecatalog.bind_Status x |} |}; try done; by intros [].
Defined.
#[export] Instance IObject_ClusterServiceBroker_fake : FakeType IObject servicecatalog.ClusterServiceBroker.
Proof.
  refine {| ft_kind := "ClusterServiceBroker"; ft_with_meta m x := {| servicecatalog.b_TypeMeta := servicecatalog.b_TypeMeta x; servicecatalog.b_Meta := m; servicecatalog.b_Spec := servicecatalog.b_Spec x; servicecatalog.b_Status := servicecatalog.b_Status x |} |}; try done; by intros [].
Defined.
#[export] Instance IObject_ServiceClass_fake : FakeType IObject servicecatalog.ServiceClass.
Proof.
  refine {| ft_kind := "ServiceClass"; ft_with_meta m x := {| servicecatalog.sc_TypeMeta := servicecatalog.sc_TypeMeta x; servicecatalog.sc_Meta := m; servicecatalog.sc_Spec := servicecatalog.sc_Spec x |} |}; try done; by intros [].
Defined.
#[export] Instance IObject_ServicePlan_fake : FakeType IObject servicecatalog.ServicePlan.
Proof.
  refine {| ft_kind := "ServicePlan"; ft_with_meta m x := {| servicecatalog.sp_TypeMeta := servicecatalog.sp_TypeMeta x; servicecatalog.sp_Meta := m; servicecatalog.sp_Spec := servicecatalog.sp_Spec x |} |}; try done; by intros [].
Defined.

(** ** The ten clients *)

Ltac fake_laws :=
  split; intros; [done| |done|done|done|done|done|done| ];
  [match goal with Hin : In _ fc_updates |- _ => cbn in Hin; destruct_or? Hin; try contradiction; simplify_eq; by eexists end|
   match goal with o : _ |- _ => destruct o; (split; [intros Hf; first [eexists; reflexivity|by vm_compute in Hf]|by intros [? [= ]]]) end].

Section instances.
Context {LS : LabelSyntax} {X WI : Type}.

#[export] Instance FakeServiceInstances_fake_client : FakeClient RObject X WI FakeServiceInstances ServiceInstance ServiceInstanceList := {|
  fc_resource := serviceinstancesResource; fc_gvk := serviceinstancesKind; fc_ns := FakeServiceInstances_ns;
  fc_Create := FakeServiceInstances_Create; fc_updates := [("", FakeServiceInstances_Update); ("status", FakeServiceInstances_UpdateStatus); ("reference", FakeServiceInstances_UpdateReferences)];
  fc_Delete := FakeServiceInstances_Delete; fc_DeleteCollection := FakeServiceInstances_DeleteCollection; fc_Get := FakeServiceInstances_Get; fc_List := FakeServiceInstances_List; fc_Patch := FakeServiceInstances_Patch |}.
#[export] Instance FakeServiceInstances_fake_laws : FakeClientLaws RObject X WI FakeServiceInstances ServiceInstance ServiceInstanceList.
Proof. fake_laws. Qed.
#[export] Instance FakeServiceInstanceCredentials_fake_client : FakeClient RObject X WI FakeServiceInstanceCredentials ServiceInstanceCredential ServiceInstanceCredentialList := {|
  fc_resource := serviceinstancecredentialsResource; fc_gvk := serviceinstancecredentialsKind; fc_ns := FakeServiceInstanceCredentials_ns;
  fc_Create := FakeServiceInstanceCredentials_Create; fc_updates := [("", FakeServiceInstanceCredentials_Update); ("status", FakeServiceInstanceCredentials_UpdateStatus)];
  fc_Delete := FakeServiceInstanceCredentials_Delete; fc_DeleteCollection := FakeServiceInstanceCredentials_DeleteCollection; fc_Get := FakeServiceInstanceCredentials_Get; fc_List := FakeServiceInstanceCredentials_List; fc_Patch := FakeServiceInstanceCredentials_Patch |}.
#[export] Instance FakeServiceInstanceCredentials_fake_laws : FakeClientLaws RObject X WI FakeServiceInstanceCredentials ServiceInstanceCredential ServiceInstanceCredentialList.
Proof. fake_laws. Qed.
#[export] Instance FakeClusterServiceBrokers_fake_client : FakeClient RObject X WI FakeClusterServiceBrokers ClusterServiceBroker ClusterServiceBrokerList := {|
  fc_resource := clusterservicebrokersResource; fc_gvk := clusterservicebrokersKind; fc_ns _ := "";
  fc_Create := FakeClusterServiceBrokers_Create; fc_updates := [("", FakeClusterServiceBrokers_Update); ("status", FakeClusterServiceBrokers_UpdateStatus)];
  fc_Delete := FakeClusterServiceBrokers_Delete; fc_DeleteCollection := FakeClusterServiceBrokers_DeleteCollection; fc_Get := FakeClusterServiceBrokers_Get; fc_List := FakeClusterServiceBrokers_List; fc_Patch := FakeClusterServiceBrokers_Patch |}.
#[export] Instance FakeClusterServiceBrokers_fake_laws : FakeClientLaws RObject X WI FakeClusterServiceBrokers ClusterServiceBroker ClusterServiceBrokerList.
Proof. fake_laws. Qed.
#[export] Instance FakeServiceClasses_fake_client : FakeClient RObject X WI FakeServiceClasses ServiceClass ServiceClassList := {|
  fc_resource := serviceclassesResource; fc_gvk := serviceclassesKind; fc_ns _ := "";
  fc_Create := FakeServiceClasses_Create; fc_updates := [("", FakeServiceClasses_Update)];
  fc_Delete := FakeServiceClasses_Delete; fc_DeleteCollection := FakeServiceClasses_DeleteCollection; fc_Get := FakeServiceClasses_Get; fc_List := FakeServiceClasses_List; fc_Patch := FakeServiceClasses_Patch |}.
#[export] Instance FakeServiceClasses_fake_laws : FakeClientLaws RObject X WI FakeServiceClasses ServiceClass ServiceClassList.
Proof. fake_laws. Qed.
#[export] Instance FakeServicePlans_fake_client : FakeClient RObject X WI FakeServicePlans ServicePlan ServicePlanList := {|
  fc_resource := serviceplansResource; fc_gvk := serviceplansKind; fc_ns _ := "";
  fc_Create := FakeServicePlans_Create; fc_updates := [("", FakeServicePlans_Update)];
  fc_Delete := FakeServicePlans_Delete; fc_DeleteCollection := FakeServicePlans_DeleteCollection; fc_Get := FakeServicePlans_Get; fc_List := FakeServicePlans_List; fc_Patch := FakeServicePlans_Patch |}.
#[export] Instance FakeServicePlans_fake_laws : FakeClientLaws RObject X WI FakeServicePlans ServicePlan ServicePlanList.
Proof. fake_laws. Qed.
#[export] Instance internal_FakeServiceInstances_fake_client : FakeClient IObject X WI internal_FakeServiceInstances servicecatalog.ServiceInstance servicecatalog.ServiceInstanceList := {|
  fc_resource := internal_serviceinstancesResource; fc_gvk := internal_serviceinstancesKind; fc_ns := internal_FakeServiceInstances_ns;
  fc_Create := internal_FakeServiceInstances_Create; fc_updates := [("", internal_FakeServiceInstances_Update); ("status", internal_FakeServiceInstances_UpdateStatus)];
  fc_Delete := internal_FakeServiceInstances_Delete; fc_DeleteCollection := internal_FakeServiceInstances_DeleteCollection; fc_Get := internal_FakeServiceInstances_Get; fc_List := internal_FakeServiceInstances_List; fc_Patch := internal_FakeServiceInstances_Patch |}.
#[export] Instance internal_FakeServiceInstances_fake_laws : FakeClientLaws IObject X WI internal_FakeServiceInstances servicecatalog.ServiceInstance servicecatalog.ServiceInstanceList.
Proof. fake_laws. Qed.
#[export] Instance internal_FakeServiceInstanceCredentials_fake_client : FakeClient IObject X WI internal_FakeServiceInstanceCredentials servicecatalog.ServiceInstanceCredential servicecatalog.ServiceInstanceCredentialList := {|
  fc_resource := internal_serviceinstancecredentialsResource; fc_gvk := internal_serviceinstancecredentialsKind; fc_ns := internal_FakeServiceInstanceCredentials_ns;
  fc_Create := internal_FakeServiceInstanceCredentials_Create; fc_updates := [("", internal_FakeServiceInstanceCredentials_Update); ("status", internal_FakeServiceInstanceCredentials_UpdateStatus)];
  fc_Delete := internal_FakeServiceInstanceCredentials_Delete; fc_DeleteCollection := internal_FakeServiceInstanceCredentials_DeleteCollection; fc_Get := internal_FakeServiceInstanceCredentials_Get; fc_List := internal_FakeServiceInstanceCredentials_List; fc_Patch := internal_FakeServiceInstanceCredentials_Patch |}.
#[export] Instance internal_FakeServiceInstanceCredentials_fake_laws : FakeClientLaws IObject X WI internal_FakeServiceInstanceCredentials servicecatalog.ServiceInstanceCredential servicecatalog.ServiceInstanceCredentialList.
Proof. fake_laws. Qed.
#[export] Instance internal_FakeClusterServiceBrokers_fake_client : FakeClient IObject X WI internal_FakeClusterServiceBrokers servicecatalog.ClusterServiceBroker servicecatalog.ClusterServiceBrokerList := {|
  fc_resource := internal_clusterservicebrokersResource; fc_gvk := internal_clusterservicebrokersKind; fc_ns _ := "";
  fc_Create := internal_FakeClusterServiceBrokers_Create; fc_updates := [("", internal_FakeClusterServiceBrokers_Update); ("status", internal_FakeClusterServiceBrokers_UpdateStatus)];
  fc_Delete := internal_FakeClusterServiceBrokers_Delete; fc_DeleteCollection := internal_FakeClusterServiceBrokers_DeleteCollection; fc_Get := internal_FakeClusterServiceBrokers_Get; fc_List := internal_FakeClusterServiceBrokers_List; fc_Patch := internal_FakeClusterServiceBrokers_Patch |}.
#[export] Instance internal_FakeClusterServiceBrokers_fake_laws : FakeClientLaws IObject X WI internal_FakeClusterServiceBrokers servicecatalog.ClusterServiceBroker servicecatalog.ClusterServiceBrokerList.
Proof. fake_laws. Qed.
#[export] Instance internal_FakeServiceClasses_fake_client : FakeClient IObject X WI internal_FakeServiceClasses servicecatalog.ServiceClass servicecatalog.ServiceClassList := {|
  fc_resource := internal_serviceclassesResource; fc_gvk := internal_serviceclassesKind; fc_ns _ := "";
  fc_Create := internal_FakeServiceClasses_Create; fc_updates := [("", internal_FakeServiceClasses_Update)];
  fc_Delete := internal_FakeServiceClasses_Delete; fc_DeleteCollection := internal_FakeServiceClasses_DeleteCollection; fc_Get := internal_FakeServiceClasses_Get; fc_List := internal_FakeServiceClasses_List; fc_Patch := internal_FakeServiceClasses_Patch |}.
#[export] Instance internal_FakeServiceClasses_fake_laws : FakeClientLaws IObject X WI internal_FakeServiceClasses servicecatalog.ServiceClass servicecatalog.ServiceClassList.
Proof. fake_laws. Qed.
#[export] Instance internal_FakeServicePlans_fake_client : FakeClient IObject X WI internal_FakeServicePlans servicecatalog.ServicePlan servicecatalog.ServicePlanList := {|
  fc_resource := internal_serviceplansResource; fc_gvk := internal_serviceplansKind; fc_ns _ := "";
  fc_Create := internal_FakeServicePlans_Create; fc_updates := [("", internal_FakeServicePlans_Update)];
  fc_Delete := internal_FakeServicePlans_Delete; fc_DeleteCollection := internal_FakeServicePlans_DeleteCollection; fc_Get := internal_FakeServicePlans_Get; fc_List := internal_FakeServicePlans_List; fc_Patch := internal_FakeServicePlans_Patch |}.
#[export] Instance internal_FakeServicePlans_fake_laws : FakeClientLaws IObject X WI internal_FakeServicePlans servicecatalog.ServicePlan servicecatalog.ServicePlanList.
Proof. fake_laws. Qed.
End instances.

(** ** What the clients promise *)

Section promise.
Context {A L : Type} `{ApiKind A, ApiList L A}.
Context (with_meta : ObjectMeta -> A -> A).
Implicit Types (m : gmap (string * string) A) (a : A).

Definition key_of a : string * string := (Namespace (kind_meta a), Name (kind_meta a)).
(** An object without a namespace gets that of the client. *)
Definition placed (ns : string) a : A :=
  if bool_decide (Namespace (kind_meta a) = "") then with_meta (with_Namespace ns (kind_meta a)) a else a.

Definition refused (gr : string * string) (ns : string) (must_exist : bool) a m : option error :=
  let a := placed ns a in
  if negb (bool_decide (ns = Namespace (kind_meta a))) then Some (namespace_clash ns (Namespace (kind_meta a)))
  else match m !! key_of a, must_exist with
       | Some _, false => Some (NewAlreadyExists gr (Name (kind_meta a)))
       | None, true => Some (NewNotFound gr (Name (kind_meta a)))
       | _, _ => None
       end.
(** Writing, for a creation or an update of any subresource. *)
Definition put (gr : string * string) (ns : string) (must_exist : bool) a m : Returned A * gmap (string * string) A :=
  match refused gr ns must_exist a m with
  | Some err => ((None, Some err), m)
  | None => ((Some (placed ns a), None), <[key_of (placed ns a) := placed ns a]> m)
  end.
Definition get (gr : string * string) (ns name : string) m : Returned A :=
  match m !! (ns, name) with Some a => (Some a, None) | None => (None, Some (NewNotFound gr name)) end.
Definition remove (gr : string * string) (ns name : string) m : option error * gmap (string * string) A :=
  match m !! (ns, name) with Some _ => (None, delete (ns, name) m) | None => (Some (NewNotFound gr name), m) end.
(** The items of a list: each object once that the label selector matches. *)
Definition lists (ns : string) (label : LabelsSelector) m (items : list A) : Prop :=
  NoDup (key_of <$> items) /\
  forall a, a ∈ items <-> m !! key_of a = Some a /\ (ns = "" \/ Namespace (kind_meta a) = ns) /\ label (kind_meta a) = true.
End promise.

Section refinement.
Context {O X WI K A L : Type} (Format : string -> FakeAction O -> string) `{FCL : FakeClientLaws O X WI K A L}.
Implicit Types (k : K) (f : Fake O X WI) (m : gmap (string * string) A) (a : A).

Definition stored_in f : list O := objects (fst (fake_world f)) fc_resource.

(** Only the tracker answers, and under the resource of the client it has the
    objects of a map, each once and under its own key; without a namespace if
    the client has none. *)
Record mirrors k f m : Prop := {
  mir_chain : ReactionChain f = [SimpleReactor "*" "*" (ObjectReaction Format)];
  mir_distinct : distinct (stored_in f);
  mir_contents : contents (stored_in f) = runtime_inject <$> m;
  mir_root : fc_ns k = "" -> forall key a, m !! key = Some a -> key.1 = "" }.

(** A call returns [r], and the map is [m'] after it; it recorded its action
    and left the objects of other resources as they were. *)
Definition answers {B} k f (call : FakeM O X WI B) (action : FakeAction O) (r : B) m' : Prop :=
  exists f', call f = Some (r, f') /\ mirrors k f' m' /\ fake_actions f' = fake_actions f ++ [action] /\
    (forall gvr, gvr <> fc_resource -> fst (fake_world f') !! gvr = fst (fake_world f) !! gvr) /\
    snd (fake_world f') = snd (fake_world f).

(** *** Objects of the scheme *)

Lemma key_inject a : object_key (runtime_inject a) = key_of a.
Proof. unfold object_key, key_of. by rewrite ft_meta. Qed.
Lemma settled_inject ns a : settled ns (runtime_inject a) = runtime_inject (placed ft_with_meta ns a).
Proof. unfold settled, placed. rewrite ft_meta. case_bool_decide; [apply ft_with|done]. Qed.
Lemma placed_name ns a : Name (kind_meta (placed ft_with_meta ns a)) = Name (kind_meta a).
Proof. unfold placed. case_bool_decide; [by rewrite ft_new_meta|done]. Qed.

(** *** A call on the tracker *)

Definition after f (action : FakeAction O) (t : tracker O) : Fake O X WI :=
  with_world (t, snd (fake_world f)) (with_actions (fake_actions f ++ [action]) f).

Lemma invokes_tracker k f m action dflt : mirrors k f m ->
  Invokes action dflt f = let (r, w) := ObjectReaction Format action (fake_world f) in
    Some (if handled r then (ret r, ret_err r) else (dflt, None), with_world w (with_actions (fake_actions f ++ [action]) f)).
Proof.
  intros Hm. unfold Invokes. cbn [ReactionChain with_actions fake_world]. rewrite (mir_chain _ _ _ Hm). cbn [react SimpleReactor Handles React].
  change (SimpleReactor_Handles "*" "*" action) with true. cbn [negb].
  destruct (ObjectReaction _ _ _) as [[[] r err] w]; done.
Qed.

Lemma answers_tracker {B} k f m (call : FakeM O X WI B) action r t m' : mirrors k f m ->
  call f = Some (r, after f action t) ->
  (forall gvr, gvr <> fc_resource -> t !! gvr = fst (fake_world f) !! gvr) ->
  distinct (objects t fc_resource) -> contents (objects t fc_resource) = runtime_inject <$> m' ->
  (fc_ns k = "" -> forall key a, m' !! key = Some a -> key.1 = "") ->
  answers k f call action r m'.
Proof. intros Hm Hc Ho Hd Hk Hr. exists (after f action t). split_and!; try done. split; try done. apply Hm. Qed.

(** A call that changes nothing. *)
Lemma answers_unchanged {B} k f m (call : FakeM O X WI B) action r : mirrors k f m ->
  call f = Some (r, after f action (fst (fake_world f))) -> answers k f call action r m.
Proof. intros Hm Hc. eapply answers_tracker; try done; apply Hm. Qed.

Lemma lookup_mirrored k f m key : mirrors k f m -> contents (stored_in f) !! key = runtime_inject <$> m !! key.
Proof. intros Hm. by rewrite (mir_contents _ _ _ Hm), lookup_fmap. Qed.

(** Every stored object is one of the map, under its own key. *)
Lemma stored_mirrored k f m o : mirrors k f m -> o ∈ stored_in f <-> exists a, o = runtime_inject a /\ m !! key_of a = Some a.
Proof.
  intros Hm. split.
  - intros Ho. assert (contents (stored_in f) !! object_key o = Some o) as Hl by (apply lookup_contents; [apply Hm|done]).
    rewrite (lookup_mirrored _ _ _ _ Hm) in Hl. apply fmap_Some in Hl as (a & Ha & ->). exists a. by rewrite <- key_inject.
  - intros (a & -> & Ha). apply (lookup_contents _ (key_of a)); [apply Hm|]. by rewrite (lookup_mirrored _ _ _ _ Hm), Ha.
Qed.
Lemma stored_namespace k f m o : mirrors k f m -> fc_ns k = "" -> o ∈ stored_in f -> Namespace (obj_meta o) = "".
Proof.
  intros Hm Hns (a & -> & Ha)%(stored_mirrored _ _ _ _ Hm). rewrite ft_meta. exact (mir_root _ _ _ Hm Hns _ _ Ha).
Qed.

Lemma get_mirrored k f m name : mirrors k f m -> name <> "" ->
  as_object runtime_project (tracker_Get (fst (fake_world f)) fc_resource (fc_ns k) name) =
    Some (get (GroupResource fc_resource) (fc_ns k) name m).
Proof.
  intros Hm Hn. rewrite tracker_Get_spec; [|apply Hm|done|].
  - fold (stored_in f). rewrite (lookup_mirrored _ _ _ _ Hm). unfold get. destruct (m !! _); [|done]. cbn. by rewrite ft_project.
  - destruct (decide (fc_ns k = "")) as [Hns|]; [right|by left]. intros o. by apply (stored_namespace k f m).
Qed.

(** *** Writing *)

Lemma add_mirrored k f m a (must_exist : bool) : mirrors k f m ->
  match refused ft_with_meta (GroupResource fc_resource) (fc_ns k) must_exist a m with
  | Some err => tracker_add (fst (fake_world f)) fc_resource (runtime_inject a) (fc_ns k) must_exist = (Some err, fst (fake_world f))
  | None => let a' := placed ft_with_meta (fc_ns k) a in exists l,
      tracker_add (fst (fake_world f)) fc_resource (runtime_inject a) (fc_ns k) must_exist = (None, <[fc_resource := l]> (fst (fake_world f))) /\
      distinct l /\ contents l = runtime_inject <$> <[key_of a' := a']> m /\ Namespace (kind_meta a') = fc_ns k
  end.
Proof.
  intros Hm. pose proof (tracker_add_spec (fst (fake_world f)) fc_resource (runtime_inject a) (fc_ns k) must_exist (mir_distinct _ _ _ Hm)) as Hs.
  cbn zeta in Hs. rewrite settled_inject, key_inject, ft_meta in Hs. unfold refused. set (a' := placed ft_with_meta (fc_ns k) a) in *.
  fold (stored_in f) in Hs. rewrite (lookup_mirrored _ _ _ _ Hm), (mir_contents _ _ _ Hm) in Hs.
  case_bool_decide as Hns; cbn [negb]; [|done].
  destruct (m !! key_of a'), must_exist; cbn in Hs; try done; destruct Hs as (l & Hs & Hd & Hc); exists l; rewrite Hc, fmap_insert; by split_and!.
Qed.

Lemma put_mirrored k f m a must_exist action dflt : mirrors k f m -> Name (kind_meta a) <> "" ->
  (forall (t : tracker O) (x : X), ObjectReaction Format action (t, x) =
     match tracker_add t fc_resource (runtime_inject a) (fc_ns k) must_exist with
     | (Some err, t) => (reacted (None, Some err), (t, x))
     | (None, t) => (reacted (tracker_Get t fc_resource (fc_ns k) (Name (obj_meta (runtime_inject a)))), (t, x))
     end) ->
  answers k f (item_call action dflt) action (put ft_with_meta (GroupResource fc_resource) (fc_ns k) must_exist a m).1
    (put ft_with_meta (GroupResource fc_resource) (fc_ns k) must_exist a m).2.
Proof.
  intros Hm Hn Ha. pose proof (add_mirrored k f m a must_exist Hm) as Hs. pose proof (invokes_tracker k f m action (Some (One (runtime_inject dflt))) Hm) as Hi.
  rewrite (surjective_pairing (fake_world f)), Ha in Hi. unfold put. destruct (refused _ _ _ _ _ _) as [err|]; cbn [fst snd].
  - rewrite Hs in Hi. apply answers_unchanged; [done|]. unfold item_call, and_then. by rewrite Hi.
  - destruct Hs as (l & Hs & Hd & Hc & Hns). rewrite Hs in Hi. set (a' := placed _ _ a) in *.
    assert (mirrors k (after f action (<[fc_resource := l]> (fst (fake_world f)))) (<[key_of a' := a']> m)) as Hm'.
    { assert (stored_in (after f action (<[fc_resource := l]> (fst (fake_world f)))) = l) as Hl by apply objects_insert.
      split; [apply Hm|by rewrite Hl..|]. intros Hr key b [[<- <-]|[_ Hb]]%lookup_insert_Some; [by cbn; rewrite Hns|].
      by eapply (mir_root _ _ _ Hm). }
    eapply answers_tracker; [done| |by intros; apply objects_insert_ne|by apply Hm'..].
    pose proof (get_mirrored _ _ _ (Name (kind_meta a)) Hm' Hn) as Hg. unfold item_call, and_then. rewrite Hi. cbn [reacted handled ret ret_err].
    rewrite ft_meta, <- surjective_pairing. cbn [fst fake_world after with_world] in Hg. rewrite Hg. unfold or_panic, get.
    assert (key_of a' = (fc_ns k, Name (kind_meta a))) as <- by (unfold key_of; f_equal; [exact Hns|apply placed_name]).
    by rewrite lookup_insert_eq.
Qed.

Lemma delete_mirrored k f m name : mirrors k f m ->
  answers k f (delete_call (A := A) (NewDeleteAction fc_resource (fc_ns k) name)) (NewDeleteAction fc_resource (fc_ns k) name)
    (remove (GroupResource fc_resource) (fc_ns k) name m).1 (remove (GroupResource fc_resource) (fc_ns k) name m).2.
Proof.
  intros Hm. pose proof (tracker_Delete_spec (fst (fake_world f)) fc_resource (fc_ns k) name (mir_distinct _ _ _ Hm)) as Hs.
  fold (stored_in f) in Hs. rewrite (lookup_mirrored _ _ _ _ Hm), (mir_contents _ _ _ Hm) in Hs.
  pose proof (invokes_tracker k f m (NewDeleteAction fc_resource (fc_ns k) name) (Some (One (runtime_inject (kind_zero : A)))) Hm) as Hi.
  rewrite (surjective_pairing (fake_world f)) in Hi. cbn [ObjectReaction NewDeleteAction GetNamespace GetResource action_impl action_at act_Namespace act_Resource] in Hi.
  unfold remove. destruct (m !! (fc_ns k, name)) as [a|]; cbn in Hs; cbn [fst snd].
  - destruct Hs as (l & Hs & Hd & Hc). rewrite Hs in Hi. eapply answers_tracker; [done|by unfold delete_call, and_then; rewrite Hi|..];
      rewrite ?objects_insert; [by intros; apply objects_insert_ne|done|by rewrite Hc, fmap_delete|].
    intros Hr key b [_ Hb]%lookup_delete_Some. by eapply (mir_root _ _ _ Hm).
  - rewrite Hs in Hi. apply answers_unchanged; [done|]. unfold delete_call, and_then. by rewrite Hi.
Qed.

Lemma project_stored (l : list O) : (forall o, o ∈ l -> exists a, o = runtime_inject a) ->
  exists items : list A, l = runtime_inject <$> items /\ project_items runtime_project l = Some items.
Proof.
  induction l as [|o l IH]; intros Hl; [by exists []|]. destruct (Hl o) as [a ->]; [left|].
  destruct IH as (items & -> & Hp); [intros o Ho; apply Hl; by right|]. exists (a :: items). split; [done|].
  cbn [project_items]. by rewrite ft_project, Hp.
Qed.

Lemma list_mirrored k f m opts label field rv : mirrors k f m -> ExtractFromListOptions opts = Some (label, field, rv) ->
  exists action items, NewListAction fc_resource fc_gvk (fc_ns k) opts = Some action /\
    answers k f (list_call (NewListAction fc_resource fc_gvk (fc_ns k) opts) ft_kind opts) action
      (Some (list_of TypeMeta_zero ListMeta_zero items), None) m /\
    lists (fc_ns k) label m items.
Proof.
  intros Hm He. unfold NewListAction, restrictions_of. rewrite He. cbn [fmap option_fmap option_map]. set (action := ListActionImpl _ _ _).
  pose proof (tracker_List_spec (fst (fake_world f)) fc_resource fc_gvk (fc_ns k) ft_kind fc_list_known) as Hs.
  destruct (project_stored (filterByNamespaceAndName (stored_in f) (fc_ns k) "")) as (all & Hall & Hp).
  { intros o [Ho _]%filter_namespace. apply (stored_mirrored k f m) in Ho as (a & -> & _); [by exists a|done]. }
  exists action, (List.filter (fun a => label (kind_meta a)) all). split_and!; [done|..].
  - apply answers_unchanged; [done|]. pose proof (invokes_tracker k f m action (Some (ListOf ft_kind [])) Hm) as Hi.
    rewrite (surjective_pairing (fake_world f)) in Hi. cbn [action ObjectReaction GetNamespace GetResource action_impl action_at act_Namespace act_Resource] in Hi.
    rewrite Hs in Hi by (intros o (a & -> & _)%(stored_mirrored k f m _ Hm); apply ft_kind_of).
    unfold list_call, and_then. cbn [or_panic]. rewrite Hi. cbn [reacted handled ret ret_err fst snd]. rewrite He. cbn [or_panic as_items fst].
    rewrite bool_decide_eq_true_2 by done. fold (stored_in f). by rewrite Hp.
  - split.
    + apply NoDup_fmap_filter. assert (distinct (filterByNamespaceAndName (stored_in f) (fc_ns k) "")) as Hd by (apply NoDup_fmap_filter, Hm).
      unfold distinct in Hd. rewrite Hall, <- list_fmap_compose in Hd. erewrite list_fmap_ext; [exact Hd|]. intros i a _. symmetry. apply key_inject.
    + intros a. rewrite list_elem_of_In, List.filter_In, <- list_elem_of_In.
      assert (a ∈ all <-> runtime_inject a ∈ filterByNamespaceAndName (stored_in f) (fc_ns k) "") as ->.
      { rewrite Hall. split; [apply list_elem_of_fmap_2|]. intros (b & Hb & Hin)%list_elem_of_fmap.
        apply (f_equal runtime_project) in Hb. rewrite !ft_project in Hb. by injection Hb as ->. }
      rewrite filter_namespace, (stored_mirrored k f m _ Hm), ft_meta. split.
      * intros [[(b & Hb & Ha) Hns] Hl]. apply (f_equal runtime_project) in Hb. rewrite !ft_project in Hb. injection Hb as ->. done.
      * intros (Ha & Hns & Hl). split_and!; [|done..]. by exists a.
Qed.

(** *** The objects a client set starts with *)

Definition seeds (objects : list (RunObject O)) : list O :=
  flat_map (fun o => match o with One o => [o] | ListOf _ items => items end) objects.

Definition home (o : O) : GroupVersionResource := filed_under (kind_in_scheme (obj_kind o)).

(** What the tracker has under the resource, when [l] was added. *)
Definition holds (t : tracker O) (l : list O) : Prop :=
  distinct (objects t fc_resource) /\ forall o, o ∈ objects t fc_resource <-> o ∈ l /\ home o = fc_resource.

Lemma add_holds (t : tracker O) l o t' : holds t l -> add_one t o = (None, t') -> holds t' (l ++ [o]).
Proof.
  intros [Hd Hl] Ha. unfold add_one in Ha. cbn [ObjectKinds add_kinds] in Ha. fold (home o) in Ha.
  destruct (decide (home o = fc_resource)) as [Hh|Hh].
  - pose proof Hh as Hh'. apply fc_filed in Hh' as [a ->]. rewrite Hh in Ha.
    pose proof (tracker_add_spec t fc_resource (runtime_inject a) (Namespace (obj_meta (runtime_inject a))) false Hd) as Hs.
    assert (settled (Namespace (obj_meta (runtime_inject a))) (runtime_inject a) = runtime_inject a) as Hsame.
    { rewrite ft_meta, settled_inject. unfold placed. case_bool_decide; [|done].
      replace (with_Namespace (Namespace (kind_meta a)) (kind_meta a)) with (kind_meta a) by (by destruct (kind_meta a)). by rewrite ft_same_meta. }
    cbn zeta in Hs. rewrite Hsame, bool_decide_eq_true_2 in Hs by done.
    destruct (contents _ !! _) as [o'|] eqn:E; [by rewrite Hs in Ha|].
    destruct Hs as (l' & Hs & Hd' & Hc). rewrite Hs in Ha. injection Ha as <-. split; [by rewrite objects_insert|].
    intros o'. rewrite objects_insert, elem_of_app, list_elem_of_singleton. split.
    + intros Ho. assert (contents l' !! object_key o' = Some o') as Hlk by (by apply lookup_contents).
      rewrite Hc in Hlk. apply lookup_insert_Some in Hlk as [[_ <-]|[_ Hlk]]; [by split; [right|]|].
      apply lookup_contents in Hlk as [Hlk _]; [|done]. apply Hl in Hlk as [? ?]. by split; [left|].
    + intros [[Ho| ->] Hho]; apply (lookup_contents _ (object_key o') _ Hd') || apply (lookup_contents _ (object_key (runtime_inject a)) _ Hd'); rewrite Hc.
      * assert (o' ∈ objects t fc_resource) as Hin by (by apply Hl). apply lookup_insert_Some. right. split; [|by apply lookup_contents].
        intros He. apply lookup_contents_None in E. apply E. rewrite He. by apply list_elem_of_fmap_2.
      * by rewrite lookup_insert_eq.
  - pose proof (tracker_add_others t (home o) o (Namespace (obj_meta o)) false fc_resource (not_eq_sym Hh)) as Ho.
    destruct (tracker_add _ _ _ _ _) as [[err|] t0]; [done|]. injection Ha as <-. cbn in Ho.
    unfold holds, objects. rewrite Ho. split; [exact Hd|]. intros o'. rewrite Hl, elem_of_app, list_elem_of_singleton. naive_solver.
Qed.

Lemma addList_holds (t : tracker O) l items t' : holds t l -> tracker_addList t items = (None, t') -> holds t' (l ++ items).
Proof.
  revert t l. induction items as [|o items IH]; intros t l Hl Ha; [cbn in Ha; injection Ha as <-; by rewrite app_nil_r|].
  cbn [tracker_addList] in Ha. destruct (add_one t o) as [[err|] t1] eqn:E; [done|].
  rewrite (cons_middle o l items), app_assoc. eapply IH; [by eapply add_holds|done].
Qed.

Lemma objects_hold objects (t : tracker O) l t' : holds t l -> add_objects objects t = Some t' -> holds t' (l ++ seeds objects).
Proof.
  revert t l. induction objects as [|o objects IH]; intros t l Hl Ha; [injection Ha as <-; by rewrite app_nil_r|].
  cbn [add_objects] in Ha. destruct (tracker_Add t o) as [[err|] t1] eqn:E; [done|]. cbn [seeds flat_map]. rewrite app_assoc.
  eapply IH; [|done]. destruct o as [o|kind items]; [by eapply add_holds|by eapply addList_holds].
Qed.

(** A new client set is a map of the objects it starts with: each client finds
    those of its kind, though the tracker guessed their resource. *)
Lemma new_client_set_mirrors k NewFake x objects c :
  NewSimpleClientset Format NewFake x objects = Some c ->
  (fc_ns k = "" -> forall a, runtime_inject a ∈ seeds objects -> Namespace (kind_meta a) = "") ->
  exists m, mirrors k (clientset_Fake c) m /\ forall a, m !! key_of a = Some a <-> runtime_inject a ∈ seeds objects.
Proof.
  intros Hc Hroot. unfold NewSimpleClientset in Hc. destruct (add_objects objects ∅) as [t|] eqn:E; [|done]. injection Hc as <-.
  assert (holds t (seeds objects)) as [Hd Hl].
  { change (seeds objects) with ([] ++ seeds objects). eapply objects_hold; [|done]. split; [constructor|]. intros o. unfold FakeTracker.objects.
    rewrite lookup_empty. cbn. split; [by intros ?%not_elem_of_nil|by intros [?%not_elem_of_nil _]]. }
  destruct (project_stored (FakeTracker.objects t fc_resource)) as (items & Hi & _).
  { intros o [_ Ho]%Hl. by apply fc_filed. }
  assert (forall a, a ∈ items <-> runtime_inject a ∈ seeds objects) as Hitems.
  { intros a. assert (a ∈ items <-> runtime_inject a ∈ FakeTracker.objects t fc_resource) as ->.
    - rewrite Hi. split; [apply list_elem_of_fmap_2|]. intros (b & Hb & Hin)%list_elem_of_fmap.
      apply (f_equal runtime_project) in Hb. rewrite !ft_project in Hb. by injection Hb as ->.
    - rewrite Hl. split; [by intros [? _]|]. intros Ha. split; [done|]. apply fc_filed. by exists a. }
  assert (NoDup (key_of <$> items)) as Hnd.
  { unfold distinct in Hd. rewrite Hi, <- list_fmap_compose in Hd. erewrite list_fmap_ext; [exact Hd|]. intros i a _. symmetry. apply key_inject. }
  set (m := list_to_map ((fun a => (key_of a, a)) <$> items) : gmap (string * string) A).
  assert (forall key a, m !! key = Some a <-> a ∈ items /\ key_of a = key) as Hm.
  { intros key a. unfold m. rewrite <- elem_of_list_to_map by (by rewrite <- list_fmap_compose). rewrite list_elem_of_fmap. naive_solver. }
  exists m. split; [|intros a; rewrite Hm, Hitems; naive_solver]. split; [done|done| |].
  - apply map_eq. intros key. apply option_eq. intros o. change (stored_in _) with (FakeTracker.objects t fc_resource).
    rewrite lookup_contents, lookup_fmap, fmap_Some, Hi, list_elem_of_fmap by done. split.
    + intros [(a & -> & Ha) <-]. exists a. rewrite Hm, key_inject. done.
    + intros (a & [Ha <-]%Hm & ->). rewrite key_inject. split; [by exists a|done].
  - intros Hns key a [Ha <-]%Hm. apply Hroot; [done|]. by apply Hitems.
Qed.

(** C35: the fake clients of both client sets are a map from namespace and name
    to objects, for each of the ten kinds, as long as the tracker is the only
    reactor: a creation is refused when there is an object under the key and an
    update when there is none, and either when the object names another
    namespace than the client; what is accepted is stored as it is, whatever
    its version and whatever subresource an update names, and returned; lookups and
    deletions are those of the map, finalizers or not; a list has exactly the
    objects of the namespace that the label selector matches, whatever the field
    selector, and panics on a selector that cannot be parsed; patches and deletions of
    collections succeed and change nothing.  Each call records its action and
    leaves other resources alone. *)
Theorem fake_clients_keep_a_map k f m : mirrors k f m ->
  let gr := GroupResource fc_resource in
  let ns := fc_ns k in
  let written (must_exist : bool) a := put ft_with_meta gr ns must_exist a m in
  (forall a, Name (kind_meta a) <> "" ->
     answers k f (fc_Create k a) (NewCreateAction fc_resource ns (runtime_inject a)) (written false a).1 (written false a).2) /\
  (forall sub upd a, In (sub, upd) fc_updates -> Name (kind_meta a) <> "" ->
     answers k f (upd k a) (NewUpdateSubresourceAction fc_resource sub ns (runtime_inject a)) (written true a).1 (written true a).2) /\
  (forall name options, name <> "" -> answers k f (fc_Get k name options) (NewGetAction fc_resource ns name) (get gr ns name m) m) /\
  (forall name options, answers k f (fc_Delete k name options) (NewDeleteAction fc_resource ns name) (remove gr ns name m).1 (remove gr ns name m).2) /\
  (forall opts, match ExtractFromListOptions opts with
     | None => fc_List k opts f = None
     | Some (label, _, _) => exists action items, NewListAction fc_resource fc_gvk ns opts = Some action /\
         answers k f (fc_List k opts) action (Some (list_of TypeMeta_zero ListMeta_zero items), None) m /\ lists ns label m items
     end) /\
  (forall name pt data subs, answers k f (fc_Patch k name pt data subs) (NewPatchSubresourceAction fc_resource ns name data subs) (Some kind_zero, None) m) /\
  (forall options opts action, NewDeleteCollectionAction fc_resource ns opts = Some action ->
     answers k f (fc_DeleteCollection k options opts) action None m).
Proof.
  intros Hm. cbn zeta. split_and!.
  - intros a Hn. rewrite fc_Create_law. by apply put_mirrored.
  - intros sub upd a Hin Hn. destruct (fc_update_law sub upd k a Hin) as [dflt ->]. by apply put_mirrored.
  - intros name options Hn. rewrite fc_Get_law. apply answers_unchanged; [done|]. unfold item_call, and_then.
    rewrite (invokes_tracker k f m) by done. rewrite (surjective_pairing (fake_world f)). cbn [ObjectReaction NewGetAction reacted handled ret ret_err].
    rewrite <- surjective_pairing. cbn. by rewrite (get_mirrored k f m) by done.
  - intros name options. rewrite fc_Delete_law. by apply delete_mirrored.
  - intros opts. rewrite fc_List_law. destruct (ExtractFromListOptions opts) as [[[label field] rv]|] eqn:He; [by eapply list_mirrored|].
    unfold list_call, NewListAction, restrictions_of. by rewrite He.
  - intros name pt data subs. rewrite fc_Patch_law. apply answers_unchanged; [done|]. unfold item_call, and_then.
    rewrite (invokes_tracker k f m) by done. rewrite (surjective_pairing (fake_world f)). cbn. by rewrite ft_project.
  - intros options opts action Ha. rewrite fc_DeleteCollection_law, Ha. apply answers_unchanged; [done|]. unfold collection_call, and_then. cbn [or_panic].
    rewrite (invokes_tracker k f m) by done. unfold NewDeleteCollectionAction in Ha. destruct (restrictions_of opts); simplify_eq/=.
    by rewrite (surjective_pairing (fake_world f)).
Qed.
End refinement.

(** ** An example *)

Module fake_samples.
#[local] Instance any_labels : LabelSyntax := fun _ => inl (fun _ => true).

Definition test_format : string -> FakeAction RObject -> string := fun verb _ => verb.
Definition test_objects : list (RunObject RObject) := [One (RInstance instance1); ListOf "ClusterServiceBroker" [RBroker broker1]].
Definition test_clientset : FakeClientset RObject unit unit :=
  match NewSimpleClientset test_format tt tt test_objects with
  | Some c => c
  | None => {| clientset_Fake := {| fake_actions := []; ReactionChain := []; WatchReactionChain := []; fake_world := (∅, tt) |} |}
  end.
Definition test_instances : FakeServiceInstances :=
  FakeServicecatalogV1alpha1_ServiceInstances (Clientset_Servicecatalog test_clientset) (Namespace (si_Meta instance1)).
Definition nothing_asked : GetOptions := {| go_ResourceVersion := ""; go_IncludeUninitialized := false |}.

(** The instance has a finalizer, and is gone after its deletion all the same. *)
Lemma fake_clients_keep_a_map_witness :
  (exists f, FakeServiceInstances_Get test_instances (Name (si_Meta instance1)) nothing_asked (clientset_Fake test_clientset) = Some ((Some instance1, None), f)) /\
  Finalizers (si_Meta instance1) <> [] /\
  exists f, FakeServiceInstances_Delete test_instances (Name (si_Meta instance1)) None (clientset_Fake test_clientset) = Some (None, f) /\
    mirrors test_format test_instances f (∅ : gmap (string * string) ServiceInstance).
Proof.
  assert (mirrors test_format test_instances (clientset_Fake test_clientset) {[key_of instance1 := instance1]}) as Hm.
  { split; [reflexivity| |vm_compute; reflexivity|discriminate]. vm_compute. apply NoDup_singleton. }
  destruct (fake_clients_keep_a_map test_format test_instances _ _ Hm) as (_ & _ & Hg & Hd & _).
  split_and!; [|discriminate|].
  - destruct (Hg (Name (si_Meta instance1)) nothing_asked) as (f & Hf & _); [discriminate|]. exists f. exact Hf.
  - destruct (Hd (Name (si_Meta instance1)) None) as (f & Hf & Hm' & _). exists f. split; [exact Hf|exact Hm'].
Defined.

(** A lookup without a name finds an object all the same, if it is the only
    one: the tracker takes an empty name for any. *)
Example no_name_is_any_name :
  fst <$> FakeServiceInstances_Get test_instances "" nothing_asked (clientset_Fake test_clientset) = Some (Some instance1, None).
Proof. vm_compute. reflexivity. Qed.

(** A status update stores the spec that came with it. *)
Example status_updates_store_the_spec :
  fst <$> FakeServiceInstances_UpdateStatus test_instances (si_with_Spec ServiceInstanceSpec_zero instance1) (clientset_Fake test_clientset)
    = Some (Some (si_with_Spec ServiceInstanceSpec_zero instance1), None).
Proof. vm_compute. reflexivity. Qed.
End fake_samples.
